(* ===== verification/_CoqProject ===== *)
-Q . S2P
Prelude.v
Common.v
Buffer.v
Codec.v
EncScalar.v
EncString.v
Strings.v
StringsProps.v
EncNodeId.v
EncText.v
EncArray.v
EncExtObj.v
EncVariant.v
EncVariantSpec.v
EncProps.v
EncVariantProps.v
Dict.v
DictSpec.v
DictProps.v
NodeIds.v
NodeIdsProps.v
NodeIdTexts.v
NodeIdParse.v
DynArray.v
NumericRange.v
NumericRangeProps.v
LinkedList.v
LinkedListSpec.v
LinkedListProps.v
LocalizedTexts.v
LocalizedTextsProps.v
EncStruct.v
EncStructSpec.v
Types.v
TypesSpec.v
Registry.v
RegistryProps.v
Services.v
StructProps.v
Message.v
MessageProps.v
Arrays.v
SecureConnection.v
ToolkitConfig.v
Chunks.v
ChunksSpec.v
ChunksStream.v
ChunksIdle.v
ChunksProps.v
ChunksMerge.v
ChunksSecurity.v
ChunksSend.v
ChunksSendSpec.v
ChunksSendProps.v
ChunksPadding.v
ChunksExchange.v
ChunksFrame.v
SecureChannels.v
SecureListener.v
StateMgr.v
StateMgrOpn.v
StateMgrEvents.v
StateMgrSpec.v
StateMgrAutomaton.v
StateMgrRuns.v
Negotiation.v
Connections.v
ChunksDemo.v
ChunksSendDemo.v
ChannelDemo.v
