(* ===== verification/Prelude.v ===== *)
(** * Verification of the data layer and of the secure channels of S2OPC

    S2OPC is a toolkit for OPC UA written in C.  This development models the part of it
    on which all the others stand: the buffers, the binary encoding of the OPC UA
    types, the structures and messages of the services, the strings, the identifiers and
    the localized texts, the hash tables, the linked lists and the arrays, and proves what
    their callers rely on: what is encoded is decoded, what is printed is parsed, any
    received bytes are processed without an access out of memory or a failed assertion, a
    hash table is a map, a linked list or an array is a sequence.  On top of them it
    models the secure channels: the manager of the chunks, which turns the bytes of a
    connection into messages and messages into bytes, and the state machine of the
    connections and of the listeners, which opens, renews and closes the channels, with
    the queue of events that connects them and the configuration that they use.

    ** Parts of the program and files of the development

    Paths are relative to [src/src/].

    - [Prelude.v]: results of C code (a value or a fault), pointers that may be null,
      machine integers with their wrap-around, blocks of bytes, tactics and hints.
    - [Common.v]: return statuses ([Common/helpers/sopc_enums.h]), the allocator as a
      predicate on sizes, the encoding limits
      ([Common/configuration/sopc_common_constants.c]) and the detection of the byte
      order ([Common/helpers/sopc_helper_endianness_cfg.c]).
    - [Buffer.v]: [Common/helpers/sopc_buffer.c].
    - [Codec.v]: the shape of the encoders and decoders, their specification, and the
      class [Codec], which is what the functions of one type promise to the functions
      of another type.
    - [EncScalar.v], [EncString.v], [EncNodeId.v], [EncText.v], [EncArray.v],
      [EncExtObj.v], [EncVariant.v]: [Common/opcua_types/sopc_encoder.c], with the types
      and the functions that initialise and clear them
      ([Common/opcua_types/sopc_builtintypes.c] and [.h]).  Each file ends with the
      instances of [Codec] of its types; those of variants and data values, which nest
      each other, are in [EncVariantSpec.v].
    - [EncStruct.v], [EncStructSpec.v]: the generic functions on structures of
      [Common/opcua_types/sopc_encodeabletype.c], driven by the descriptors of fields.
    - [Types.v], [TypesSpec.v]: the table of the descriptors of the 216 structures of the
      services ([Common/opcua_types/sopc_types.c] and [.h]).
    - [Services.v]: the structures as the objects of extension objects; it implements
      the interface [EncodeableTypes] of [EncExtObj.v] and proves its laws.
    - [Dict.v], [DictSpec.v]: [Common/helpers/sopc_dict.c] and [sopc_hash.c].
    - [Registry.v]: the registry of the types of [sopc_encodeabletype.c], on a hash table.
    - [LinkedList.v], [LinkedListSpec.v]: [Common/helpers/sopc_singly_linked_list.c], on a
      heap of cells.
    - [Strings.v]: [Common/helpers/sopc_helper_string.c] and the functions on String,
      ByteString and XmlElement of [sopc_builtintypes.c].
    - [NodeIds.v]: copy, comparison, hash, parsing and printing of the integers, the Guids,
      the node identifiers, the qualified names and the diagnostics of
      [sopc_builtintypes.c], with the functions of the hash tables of identifiers.
      [NodeIdTexts.v] and [NodeIdParse.v] follow the texts of the identifiers.
    - [LocalizedTexts.v]: the localized texts of [sopc_builtintypes.c] (copy, comparison,
      update of a locale, arrays, choice of a locale), on the linked lists.
    - [DynArray.v]: [Common/helpers/sopc_array.c].  [NumericRange.v]:
      [Common/helpers/sopc_numeric_range.c], on these arrays, and the ranges of strings of
      [sopc_builtintypes.c].
    - [Message.v]: the type, header and body of a message ([sopc_encoder.c]) and
      [sopc_encodeable.c].
    - [Arrays.v]: arrays of C indexed by machine integers, and the search of a free entry.
    - [ToolkitConfig.v]: the configurations of the secure channels and of the endpoints,
      with their checks ([ClientServer/configuration/sopc_toolkit_config.c] and
      [ClientServer/api_toolkit/sopc_user_app_itf.h]).
    - [SecureConnection.v]: the data of a secure connection and the contexts of the
      received chunks
      ([ClientServer/secure_channels/sopc_secure_channels_internal_ctx.h] and [.c]), with
      the monad that passes them.
    - [Chunks.v]: the reception of [ClientServer/secure_channels/sopc_chunks_mgr.c].
      [ChunksSpec.v] shows what is done with the received bytes, [ChunksStream.v] and
      [ChunksIdle.v] follow the treatment of a chunk, [ChunksMerge.v] the merge of the
      chunks of a message, and [ChunksSecurity.v] the checks of the sequence numbers and
      of the signature.
    - [ChunksSend.v]: the sending part of [sopc_chunks_mgr.c] and its dispatchers of
      events.  [ChunksSendSpec.v] gives what each step writes, [ChunksPadding.v] relates
      the padding that is written with the one that is removed, and [ChunksExchange.v]
      composes the sender with the receiver of [Chunks.v].
      [ChunksFrame.v] shows what the functions of the chunks leave unchanged.
    - [SecureChannels.v]: the state of the whole component (the tables of connections and
      listeners, the configuration, the queue of events and the calls to the other
      components), the events, the environment and the monad that passes the state
      ([sopc_secure_channels_internal_ctx.c], [sopc_secure_channels_api.h],
      [sopc_secure_channels_api_internal.h], [Common/helpers/sopc_event_handler.c]).
    - [SecureListener.v]: [sopc_secure_listener_state_mgr.c].
    - [StateMgr.v], [StateMgrOpn.v], [StateMgrEvents.v]:
      [sopc_secure_connection_state_mgr.c], in its order: opening and closing of the
      entries and the exchange of HEL and ACK; the exchange of OPN messages, the tokens
      and the keys; the treatment of the events, with their dispatch
      ([sopc_secure_channels_api.c]) and the loop of the thread.
    - [StateMgrSpec.v]: a logic of the effects on one connection.  [StateMgrAutomaton.v]:
      the automaton of the protocol, and that each handler follows it.  [StateMgrRuns.v]:
      the runs of the component and their properties.  [Negotiation.v]: the exchange of
      HEL and ACK between two connections.  [Connections.v]: how the entries of the table
      are taken and closed, and the identifiers of the channels.
    - [EncProps.v], [EncVariantProps.v], [StructProps.v], [MessageProps.v],
      [StringsProps.v], [DictProps.v], [NodeIdsProps.v], [NumericRangeProps.v],
      [LinkedListProps.v], [LocalizedTextsProps.v], [RegistryProps.v], [ChunksProps.v], [ChunksSendProps.v]: the properties, with their examples;
      [ChunksDemo.v], [ChunksSendDemo.v] and [ChannelDemo.v] are concrete connections to
      which those of the secure channels apply.

    ** Correspondence with the C code

    A C function is a function with the same name.  A pointer is an option, [NULL] is
    [None]; memory that a function changes through a pointer is returned.  Assertions,
    accesses outside of a block, dereferences of null pointers and reads of the inactive
    member of a union (but for the number of a cleared identifier, which shares its bytes
    with the length of a string) are faults, so a theorem that a function returns shows that they
    do not happen.  A C structure is a record, an enumeration or a tagged union is an
    inductive type, the fields of a structure that is described by a table are the list
    of its fields in the order of the table.  Integers are in [Z], and wrap around
    where the C type does.  The machine has pointers of 64 bits (values of [sizeof]);
    its byte order is a parameter (class [Host]).  [malloc] may fail at any call: the
    allocator is a parameter (class [Allocator]), and theorems that need memory say so.

    Loops and recursions are structural where the C code has a bound.  Recursions that
    the code bounds by the nesting level take the number of levels that are left as fuel
    ([nesting_fuel]); the contracts are proved for this fuel at any level, so it is
    enough.  The depth of structures that are nested by value is bounded by 8
    ([value_depth], proved for the table).  The loops over a linked list have one step for
    each cell of the heap.  The loop over the received bytes has one step for each byte,
    and it is proved that more steps do not change the result.  The loop that computes the size of a hash
    table has 65 steps, which is enough for the sizes of the invariant; it is proved not
    to end for larger ones; the same holds of the loop that computes the capacity of an
    array.  The loop over the dimensions of a range reads at least one character at each
    step, and has one step more than there are characters.

    ** What the theorems show

    - Encoding ([EncProps.v], [EncVariantProps.v], [StructProps.v]): round trips of every
      type, up to a canonical form (an empty string is read as null), except for the
      extension objects with a byte string body, which are written and not read back; the decoders are
      total on arbitrary bytes, read only data of the buffer, leave memory that the clear
      functions accept, and accept only values that can be encoded again; the encoders
      keep the data that precede the position; the exact limits of nesting; the byte
      order on the wire; prefix-freedom.
    - Structures: the generic functions are correct for any well-formed table, the table
      of the services is well formed, and the composition holds without assumption on
      the types, extension objects included.
    - Buffers: an invariant that all the operations keep, and what they do.
    - Hash tables ([DictProps.v]): invariant, termination of the probing, refinement of a
      finite map, every item freed once.
    - Registry ([RegistryProps.v]): searches, registration and removal.
    - Linked lists ([LinkedListProps.v]): refinement of a sequence, sorted insertion.
    - Messages ([MessageProps.v]): round trip of every message of the services; the
      decoder of the type is total.
    - Strings ([StringsProps.v]): what the comparisons decide, copies, conversion of
      decimal texts.
    - Identifiers ([NodeIdsProps.v], [NodeIdTexts.v], [NodeIdParse.v]): the comparison is a
      total order that agrees with the hash, so that a hash table of identifiers is a map,
      for strings without null character; the text of an identifier is read back, but for
      the texts that hold a separator and the empty byte strings; the parser is safe on any
      text of at least two characters.
    - Localized texts ([LocalizedTextsProps.v]): a map from locales to texts, updated,
      copied and put in an array.
    - Arrays and ranges ([DynArray.v], [NumericRangeProps.v]): an array is a sequence,
      whatever the reallocations; the parser of ranges reads the text of every range and
      is safe on any text; a range of a string is read as it was written.
    - Chunks ([ChunksProps.v], [ChunksMerge.v], [ChunksSecurity.v]): the treatment of the
      received bytes does not depend on how the network cuts them, the context stays
      ready, the chunks of a message are merged in order within the limits, a sequence
      number is accepted twice only across an OPN chunk, the signature, symmetric or
      asymmetric, covers the chunk.
    - Sending ([ChunksSendProps.v], [ChunksPadding.v], [ChunksExchange.v]): a message is cut
      into chunks that hold its body in order within the limits of the peer, or replaced
      by an abort chunk; the numbers of the sender are those that the receiver accepts;
      what a client sends is what the server receives.  These hold for channels without
      security (mode None).  The padding of an encrypted chunk completes the blocks and is
      removed by a receiver that knows whether its size has a second byte.
    - State machine ([StateMgrRuns.v]): for any event and any bytes, a turn of the thread
      changes at most one connection, by a transition of the automaton of the protocol;
      in every state that is reached the established channels have identifiers; messages
      are delivered to the services only on an established channel.
    - Negotiation and entries ([Negotiation.v], [Connections.v]): after the exchange of HEL
      and ACK each side accepts what the other sends; a new connection takes a free entry
      and changes no other one, the closing of a connection settles each pending request
      once, the identifiers of channels are fresh.
    - Several theorems state behaviour that is not intended: a length check that wraps
      around, a key that survives its removal from a hash table, a null dereference
      after a failed allocation, a byte string body that is not read back, an encoding
      identifier that is lost, strings that are equal up to a null character, a message
      of empty chunks that stops the program, a signature that is read out of the chunk, a
      copy of diagnostics that always fails, an array of localized texts that is written
      beyond its block, a range whose length wraps to zero, a cleared identifier that is not
      null.

    ** Not modelled

    - The *Aux functions of the encoder, which only convert pointers, and the functions
      that free memory and do nothing else.
    - The structures that a user registers with functions of his own.
    - Copy and comparison of the extension objects, variants and data values, and the
      ranges of the arrays of a variant, which go through tables of functions on untyped
      memory; comparison of the floating point numbers.
    - The functions of the cryptographic provider and of the key manager, the clock, the
      timers and the random numbers are the parameters [Crypto], [SendCrypto] and
      [Environment] of the secure channels.  For the manager of the chunks the
      configurations are the class [Toolkit], which [SecureChannels.v] instantiates with
      the tables of [ToolkitConfig.v].
    - The address space, the users and the methods of [ClientServer/configuration], the
      timers and the creation of the threads.
    - The cryptography, the sockets, the threads, the XML loaders and the logs, which
      wrap libraries or the system; the services generated from B machines, which are
      proved with their own tools.

    ** Plan

    The copy and comparison of variants and data values, the timers, then the network
    messages of PubSub. *)

From Stdlib Require Import ZArith Lia.
From Stdlib Require Import Strings.Byte.
From stdpp Require Import prelude.

Open Scope Z_scope.

(** ** Results of running C code

    [Ret a] is a normal return.  [Fault f] stands for an execution that does
    not return normally: a failed [assert], an access outside a memory block,
    the dereference of a null pointer, a division by zero, or the use of an
    inactive member of a union.  [Fault OutOfFuel] marks a recursion bound of the
    model that is too small. *)

Inductive fault :=
| AssertFailed
| OutOfBounds
| NullDeref
| DivByZero
| UnionPunning
| OutOfFuel.

Inductive res (A : Type) :=
| Ret (a : A)
| Fault (f : fault).
Arguments Ret {A} a.
Arguments Fault {A} f.

Definition rbind {A B : Type} (m : res A) (k : A -> res B) : res B :=
  match m with
  | Ret a => k a
  | Fault f => Fault f
  end.

Declare Scope res_scope.
Delimit Scope res_scope with res.
Open Scope res_scope.

Notation "'let*' p ':=' e 'in' k" := (rbind e (fun p => k))
  (at level 10, p pattern, e at level 200, k at level 200,
   format "'[v' 'let*'  p  ':='  e  'in' '/' k ']'") : res_scope.

(** [assert(b); k] *)
Notation "'assert!' b 'in' k" := (if (b : bool) then k else Fault AssertFailed)
  (at level 10, b at level 200, k at level 200,
   format "'[v' 'assert!'  b  'in' '/' k ']'") : res_scope.

Lemma rbind_ret {A B} (a : A) (k : A -> res B) : rbind (Ret a) k = k a.
Proof. reflexivity. Qed.

Lemma rbind_Ret_inv {A B} (m : res A) (k : A -> res B) b :
  rbind m k = Ret b -> exists a, m = Ret a /\ k a = Ret b.
Proof. destruct m; simpl; [eauto | discriminate]. Qed.

(** ** Pointers

    A pointer is [NULL] or points to an object.  Code that receives the address
    of an object and updates it returns the updated pointer. *)

Abbreviation ptr := option.
Abbreviation NULL := None.

Definition is_null {A} (p : ptr A) : bool := match p with Some _ => false | NULL => true end.

Definition deref {A} (p : ptr A) : res A :=
  match p with
  | Some a => Ret a
  | NULL => Fault NullDeref
  end.

(** ** Machine integers *)

Definition UINT8_MAX : Z := 255.
Definition UINT16_MAX : Z := 65535.
Definition UINT32_MAX : Z := 4294967295.
Definition INT32_MAX : Z := 2147483647.
(** [size_t] has 64 bits. *)
Definition SIZE_MAX : Z := 2 ^ 64 - 1.

Definition u8 (z : Z) : Z := z mod 2 ^ 8.
Definition u16 (z : Z) : Z := z mod 2 ^ 16.
Definition u32 (z : Z) : Z := z mod 2 ^ 32.
Definition u64 (z : Z) : Z := z mod 2 ^ 64.

(** The two's complement value of the low [w] bits of [z]. *)
Definition swrap (w z : Z) : Z := (z + 2 ^ (w - 1)) mod 2 ^ w - 2 ^ (w - 1).

Definition in_u (w z : Z) : Prop := 0 <= z < 2 ^ w.
Definition in_s (w z : Z) : Prop := - 2 ^ (w - 1) <= z < 2 ^ (w - 1).

Lemma u8_small z : 0 <= z < 2 ^ 8 -> u8 z = z.
Proof. apply Z.mod_small. Qed.

Lemma u16_small z : 0 <= z < 2 ^ 16 -> u16 z = z.
Proof. apply Z.mod_small. Qed.

Lemma u32_small z : 0 <= z < 2 ^ 32 -> u32 z = z.
Proof. apply Z.mod_small. Qed.

Lemma u32_range z : 0 <= u32 z < 2 ^ 32.
Proof. apply Z.mod_pos_bound. lia. Qed.

Lemma swrap_small w z : 0 < w -> in_s w z -> swrap w z = z.
Proof.
  unfold in_s, swrap. intros Hw Hz.
  assert (2 ^ w = 2 * 2 ^ (w - 1)) as E.
  { rewrite <- Z.pow_succ_r by lia. f_equal. lia. }
  rewrite Z.mod_small; lia.
Qed.

Lemma swrap_range w z : 0 < w -> in_s w (swrap w z).
Proof.
  unfold in_s, swrap. intros Hw.
  assert (2 ^ w = 2 * 2 ^ (w - 1)) as E.
  { rewrite <- Z.pow_succ_r by lia. f_equal. lia. }
  pose proof (Z.pow_pos_nonneg 2 w ltac:(lia) ltac:(lia)) as P.
  pose proof (Z.mod_pos_bound (z + 2 ^ (w - 1)) (2 ^ w) P). lia.
Qed.

(** Reducing modulo [2^w] first does not change the two's complement value. *)
Lemma swrap_mod w z : 0 < w -> swrap w (z mod 2 ^ w) = swrap w z.
Proof.
  intros Hw. unfold swrap. f_equal. apply Zplus_mod_idemp_l.
Qed.

(** ** Bytes *)

Definition b2z (b : byte) : Z := Z.of_N (Byte.to_N b).

Definition z2b (z : Z) : byte :=
  match Byte.of_N (Z.to_N (z mod 256)) with
  | Some b => b
  | None => x00
  end.

Lemma b2z_range b : 0 <= b2z b < 256.
Proof. unfold b2z. pose proof (Byte.to_N_bounded b). lia. Qed.

Lemma b2z_z2b z : b2z (z2b z) = z mod 256.
Proof.
  unfold b2z, z2b. pose proof (Z.mod_pos_bound z 256 ltac:(lia)) as P.
  destruct (Byte.of_N (Z.to_N (z mod 256))) as [b|] eqn:E.
  - apply Byte.to_of_N in E. rewrite E. lia.
  - apply Byte.of_N_None_iff in E. lia.
Qed.

Lemma b2z_inj b c : b2z b = b2z c -> b = c.
Proof.
  unfold b2z. intros H. apply N2Z.inj in H.
  pose proof (Byte.of_to_N b) as E1. pose proof (Byte.of_to_N c) as E2.
  rewrite H in E1. congruence.
Qed.

Lemma z2b_b2z b : z2b (b2z b) = b.
Proof.
  apply b2z_inj. rewrite b2z_z2b. apply Z.mod_small, b2z_range.
Qed.

Lemma z2b_mod z : z2b (z mod 256) = z2b z.
Proof. unfold z2b. by rewrite Z.mod_mod by lia. Qed.

(** ** Bit fields

    The part of [x] selected by a byte mask, and a disjunction of fields that do
    not overlap. *)

Lemma land_byte_mask x k : 0 <= k ->
  Z.land x (Z.shiftl 255 k) = Z.shiftl ((x / 2 ^ k) mod 256) k.
Proof.
  intros Hk. apply Z.bits_inj'. intros n Hn.
  rewrite Z.land_spec, !Z.shiftl_spec by lia.
  destruct (Z.ltb_spec n k) as [L|L].
  - rewrite !(Z.testbit_neg_r _ (n - k)) by lia. apply andb_false_r.
  - change 256 with (2 ^ 8). change 255 with (Z.ones 8).
    rewrite Z.testbit_ones_nonneg by lia.
    destruct (Z.ltb_spec (n - k) 8) as [M|M].
    + rewrite Z.mod_pow2_bits_low, Z.div_pow2_bits by lia.
      rewrite andb_true_r. f_equal. lia.
    + rewrite Z.mod_pow2_bits_high by lia. apply andb_false_r.
Qed.

Lemma lor_field a b m : 0 <= m -> 0 <= b < 2 ^ m -> Z.lor (Z.shiftl a m) b = a * 2 ^ m + b.
Proof.
  intros Hm Hb. rewrite <- Z.shiftl_mul_pow2 by lia. symmetry.
  rewrite <- Z.lxor_lor; [apply Z.add_nocarry_lxor|];
    (apply Z.bits_inj'; intros n Hn; rewrite Z.land_spec, Z.bits_0;
     destruct (Z.ltb_spec n m);
     [ rewrite Z.shiftl_spec_low by lia; done
     | rewrite <- (Z.mod_small b (2 ^ m)) by lia;
       rewrite Z.mod_pow2_bits_high by lia; apply andb_false_r ]).
Qed.

(** Little-endian representation of an integer on [n] bytes. *)
Fixpoint le_bytes (n : nat) (z : Z) : list byte :=
  match n with
  | O => []
  | S n => z2b z :: le_bytes n (z / 256)
  end.

Fixpoint le_val (bs : list byte) : Z :=
  match bs with
  | [] => 0
  | b :: bs => b2z b + 256 * le_val bs
  end.

Definition be_bytes (n : nat) (z : Z) : list byte := reverse (le_bytes n z).
Definition be_val (bs : list byte) : Z := le_val (reverse bs).

Lemma length_le_bytes n z : length (le_bytes n z) = n.
Proof. revert z; induction n as [|n IH]; intros z; simpl; [done|]. by rewrite IH. Qed.

Lemma pow8_succ n : 2 ^ (8 * Z.of_nat (S n)) = 256 * 2 ^ (8 * Z.of_nat n).
Proof.
  replace (8 * Z.of_nat (S n)) with (8 + 8 * Z.of_nat n) by lia.
  by rewrite Z.pow_add_r by lia.
Qed.

Lemma le_val_range bs : 0 <= le_val bs < 2 ^ (8 * Z.of_nat (length bs)).
Proof.
  induction bs as [|b bs IH]; cbn [le_val length]; [simpl; lia|].
  rewrite pow8_succ. pose proof (b2z_range b). lia.
Qed.

Lemma le_val_le_bytes n z : le_val (le_bytes n z) = z mod 2 ^ (8 * Z.of_nat n).
Proof.
  revert z; induction n as [|n IH]; intros z; cbn [le_bytes le_val].
  - by rewrite Z.mod_1_r.
  - rewrite b2z_z2b, IH, pow8_succ. rewrite Z.rem_mul_r; [lia|lia|].
    apply Z.pow_pos_nonneg; lia.
Qed.

Lemma le_bytes_le_val bs : le_bytes (length bs) (le_val bs) = bs.
Proof.
  induction bs as [|b bs IH]; cbn [le_val length le_bytes]; [done|].
  pose proof (b2z_range b). f_equal.
  - rewrite <- z2b_mod. rewrite (Z.mul_comm 256), Z.mod_add by lia.
    rewrite z2b_mod. apply z2b_b2z.
  - rewrite (Z.mul_comm 256), Z.div_add, Z.div_small by lia. exact IH.
Qed.

Lemma le_val_app l k : le_val (l ++ k) = le_val l + 2 ^ (8 * Z.of_nat (length l)) * le_val k.
Proof.
  induction l as [|b l IH]; [simpl; lia|].
  cbn [app le_val length]. rewrite IH, pow8_succ. lia.
Qed.

Lemma le_bytes_mod n z : le_bytes n (z mod 2 ^ (8 * Z.of_nat n)) = le_bytes n z.
Proof.
  rewrite <- (le_val_le_bytes n z).
  rewrite <- (length_le_bytes n z) at 1. apply le_bytes_le_val.
Qed.

Lemma le_bytes_swrap n z : (0 < n)%nat -> le_bytes n (swrap (8 * Z.of_nat n) z) = le_bytes n z.
Proof.
  intros Hn. rewrite <- (le_bytes_mod n (swrap _ _)), <- (le_bytes_mod n z). f_equal.
  unfold swrap. rewrite Zminus_mod_idemp_l. f_equal. lia.
Qed.

Lemma swrap_le_bytes n z :
  (0 < n)%nat -> in_s (8 * Z.of_nat n) z -> swrap (8 * Z.of_nat n) (le_val (le_bytes n z)) = z.
Proof.
  intros Hn Hz. rewrite le_val_le_bytes, swrap_mod by lia. apply swrap_small; [lia|done].
Qed.

Lemma be_val_be_bytes n z : be_val (be_bytes n z) = z mod 2 ^ (8 * Z.of_nat n).
Proof. unfold be_val, be_bytes. by rewrite reverse_involutive, le_val_le_bytes. Qed.

Lemma be_bytes_be_val bs : be_bytes (length bs) (be_val bs) = bs.
Proof.
  unfold be_val, be_bytes. rewrite <- length_reverse.
  by rewrite le_bytes_le_val, reverse_involutive.
Qed.

(** Reading the bytes of an integer in the other order. *)
Lemma be_bytes_swap n z : be_bytes n (be_val (le_bytes n z)) = le_bytes n z.
Proof. rewrite <- (length_le_bytes n z) at 1. apply be_bytes_be_val. Qed.

Lemma be_val_swap bs : be_val (le_bytes (length bs) (be_val bs)) = le_val bs.
Proof.
  pose proof (be_bytes_be_val bs) as E. unfold be_bytes in E. unfold be_val at 1. by rewrite E.
Qed.

(** ** Memory blocks

    A block of memory is the list of its bytes; [zlen] is its size.  The C
    library's copy and fill functions fault when they touch a byte outside of
    the blocks they are given. *)

Abbreviation block := (list byte).

Definition zlen {A} (l : list A) : Z := Z.of_nat (length l).

(** Reading [n] bytes at [off]. *)
Definition mem_read (blk : block) (off n : Z) : res block :=
  if (0 <=? off) && (0 <=? n) && (off + n <=? zlen blk)
  then Ret (take (Z.to_nat n) (drop (Z.to_nat off) blk))
  else Fault OutOfBounds.

(** Replacing the bytes at [off] by those of [src]. *)
Definition splice (blk : block) (off : Z) (src : block) : block :=
  take (Z.to_nat off) blk ++ src ++ drop (Z.to_nat (off + zlen src)) blk.

Definition mem_write (blk : block) (off : Z) (src : block) : res block :=
  if (0 <=? off) && (off + zlen src <=? zlen blk)
  then Ret (splice blk off src)
  else Fault OutOfBounds.

(** [memcpy(dst + doff, src + soff, n)] *)
Definition memcpy (dst : block) (doff : Z) (src : block) (soff n : Z) : res block :=
  let* bs := mem_read src soff n in
  mem_write dst doff bs.

(** [memset(dst + off, 0, n)] *)
Definition memset0 (dst : block) (off n : Z) : res block :=
  mem_write dst off (replicate (Z.to_nat n) x00).

Lemma zlen_nonneg {A} (l : list A) : 0 <= zlen l.
Proof. unfold zlen. lia. Qed.

Lemma zlen_nil {A} : zlen (@nil A) = 0.
Proof. reflexivity. Qed.

Lemma zlen_cons {A} (x : A) l : zlen (x :: l) = 1 + zlen l.
Proof. unfold zlen. simpl length. lia. Qed.

Lemma zlen_app {A} (l k : list A) : zlen (l ++ k) = zlen l + zlen k.
Proof. unfold zlen. rewrite length_app. lia. Qed.

Lemma zlen_replicate {A} n (x : A) : 0 <= n -> zlen (replicate (Z.to_nat n) x) = n.
Proof. unfold zlen. rewrite length_replicate. lia. Qed.

Lemma zlen_take {A} n (l : list A) : 0 <= n <= zlen l -> zlen (take (Z.to_nat n) l) = n.
Proof. unfold zlen. rewrite length_take. lia. Qed.

Lemma zlen_drop {A} n (l : list A) : 0 <= n <= zlen l -> zlen (drop (Z.to_nat n) l) = zlen l - n.
Proof. unfold zlen. rewrite length_drop. lia. Qed.

Lemma zlen_le_bytes n z : zlen (le_bytes n z) = Z.of_nat n.
Proof. unfold zlen. by rewrite length_le_bytes. Qed.

Lemma zlen_reverse {A} (l : list A) : zlen (reverse l) = zlen l.
Proof. unfold zlen. by rewrite length_reverse. Qed.

Lemma mem_read_ok blk off n :
  0 <= off -> 0 <= n -> off + n <= zlen blk ->
  mem_read blk off n = Ret (take (Z.to_nat n) (drop (Z.to_nat off) blk)).
Proof.
  intros. unfold mem_read.
  replace (0 <=? off) with true by lia. replace (0 <=? n) with true by lia.
  by replace (off + n <=? zlen blk) with true by lia.
Qed.

Lemma mem_write_ok blk off src :
  0 <= off -> off + zlen src <= zlen blk -> mem_write blk off src = Ret (splice blk off src).
Proof.
  intros. unfold mem_write. replace (0 <=? off) with true by lia.
  by replace (off + zlen src <=? zlen blk) with true by lia.
Qed.

Lemma zlen_splice blk off src :
  0 <= off -> off + zlen src <= zlen blk -> zlen (splice blk off src) = zlen blk.
Proof.
  intros. pose proof (zlen_nonneg src). unfold splice.
  rewrite !zlen_app, zlen_take, zlen_drop by lia. lia.
Qed.

Lemma mem_read_all src : mem_read src 0 (zlen src) = Ret src.
Proof.
  pose proof (zlen_nonneg src). rewrite mem_read_ok by lia.
  rewrite drop_0, take_ge; [done|]. unfold zlen. lia.
Qed.

(** Copying a whole block. *)
Lemma memcpy_all dst off src :
  0 <= off -> off + zlen src <= zlen dst ->
  memcpy dst off src 0 (zlen src) = Ret (splice dst off src).
Proof.
  intros. unfold memcpy. rewrite mem_read_all. simpl. by apply mem_write_ok.
Qed.

(** The bytes before a splice are kept, those of a splice are the new ones. *)
Lemma take_splice blk off src :
  0 <= off <= zlen blk -> take (Z.to_nat off) (splice blk off src) = take (Z.to_nat off) blk.
Proof.
  intros. unfold splice. rewrite take_app_length'; [done|].
  rewrite length_take. unfold zlen in *. lia.
Qed.

Lemma take_splice_end blk off src :
  0 <= off <= zlen blk ->
  take (Z.to_nat (off + zlen src)) (splice blk off src) = take (Z.to_nat off) blk ++ src.
Proof.
  intros. unfold splice. rewrite app_assoc, take_app_length'; [done|].
  rewrite length_app, length_take. unfold zlen in *. lia.
Qed.

Create HintDb sopc.
Create Rewrite HintDb zlen.
#[export] Hint Rewrite @zlen_nil @zlen_cons @zlen_app @zlen_le_bytes @zlen_reverse : zlen.
#[export] Hint Resolve zlen_nonneg u32_range b2z_range : sopc.

(** A splice at the end of the previous one extends it; the blocks may grow. *)
Lemma splice_splice blk off s1 s2 :
  0 <= off <= zlen blk ->
  splice (splice blk off s1) (off + zlen s1) s2 = splice blk off (s1 ++ s2).
Proof.
  intros H. pose proof (zlen_nonneg s1). pose proof (zlen_nonneg s2).
  unfold splice at 1. rewrite take_splice_end by done.
  unfold splice. rewrite zlen_app, <- !app_assoc. do 3 f_equal.
  rewrite app_assoc, drop_app_ge by (rewrite length_app, length_take; unfold zlen in *; lia).
  rewrite drop_drop. f_equal.
  rewrite length_app, length_take. unfold zlen in *. lia.
Qed.

Lemma drop_splice blk off src :
  0 <= off <= zlen blk ->
  drop (Z.to_nat off) (splice blk off src) = src ++ drop (Z.to_nat (off + zlen src)) blk.
Proof.
  intros. unfold splice. rewrite drop_app_length'; [done|].
  rewrite length_take. unfold zlen in *. lia.
Qed.

Lemma zlen_splice_max blk off src :
  0 <= off <= zlen blk -> zlen (splice blk off src) = Z.max (zlen blk) (off + zlen src).
Proof.
  intros. unfold splice, zlen in *. rewrite !length_app, length_take, length_drop. lia.
Qed.

(** Looking at the beginning of a block through a splice. *)
Lemma take_splice_within blk off src n :
  0 <= off <= n -> n <= zlen blk ->
  take (Z.to_nat (Z.max n (off + zlen src))) (splice blk off src)
  = splice (take (Z.to_nat n) blk) off src.
Proof.
  intros H1 H2. pose proof (zlen_nonneg src) as H3. unfold splice.
  rewrite (take_take blk), Nat.min_l by lia.
  rewrite take_app_ge by (rewrite length_take; unfold zlen in *; lia). f_equal.
  rewrite length_take, Nat.min_l by (unfold zlen in *; lia).
  rewrite take_app_ge by (unfold zlen in *; lia). f_equal.
  rewrite skipn_firstn_comm || rewrite <- take_drop_commute.
  f_equal. unfold zlen in *. lia.
Qed.

(** Writing again over the beginning of what was written. *)
Lemma splice_patch blk off x y w :
  0 <= off <= zlen blk -> zlen x = zlen y -> splice (splice blk off (x ++ w)) off y = splice blk off (y ++ w).
Proof.
  intros H E. pose proof (zlen_nonneg w). pose proof (zlen_nonneg y). unfold splice at 1. rewrite take_splice by done.
  unfold splice. rewrite !zlen_app, <- !app_assoc. do 2 f_equal.
  rewrite drop_app_ge by (rewrite length_take; unfold zlen in *; lia).
  rewrite drop_app_length'; [|rewrite length_take; unfold zlen in *; lia]. do 2 f_equal. lia.
Qed.

Lemma splice_nil blk off : 0 <= off -> splice blk off [] = blk.
Proof.
  intros. unfold splice. rewrite zlen_nil, Z.add_0_r. simpl. apply take_drop.
Qed.

Lemma splice_0 blk src : zlen src = zlen blk -> splice blk 0 src = src.
Proof.
  intros H. unfold splice. simpl. rewrite drop_ge by (unfold zlen in *; lia). apply app_nil_r.
Qed.

(** ** Tactics *)

(** Choosing the branch of a switch: the comparisons between constants are
    evaluated. *)
Ltac switch :=
  repeat match goal with
  | |- context [?a =? ?b] =>
      let r := eval vm_compute in (a =? b) in
      match r with
      | true => change (a =? b) with true
      | false => change (a =? b) with false
      end
  end; cbv iota.
