(* ===== verification/Common.v ===== *)
(** * Common definitions of the toolkit

    - the return status of the toolkit's functions ([sopc_enums.h]);
    - the memory allocator as the rest of the toolkit sees it
      ([sopc_mem_alloc.h], implemented by the C library of the platform);
    - the encoding limits ([src/Common/configuration/sopc_common_constants.c]);
    - the detection of the byte order of the machine
      ([src/Common/helpers/sopc_helper_endianness_cfg.c]). *)

From Stdlib Require Import ZArith Lia.
From Stdlib Require Import Strings.Byte.
From stdpp Require Import prelude.
From S2P Require Import Prelude.

Open Scope Z_scope.

(** ** Return status *)

Inductive SOPC_ReturnStatus :=
| SOPC_STATUS_OK
| SOPC_STATUS_NOK
| SOPC_STATUS_INVALID_PARAMETERS
| SOPC_STATUS_INVALID_STATE
| SOPC_STATUS_ENCODING_ERROR
| SOPC_STATUS_WOULD_BLOCK
| SOPC_STATUS_TIMEOUT
| SOPC_STATUS_OUT_OF_MEMORY
| SOPC_STATUS_CLOSED
| SOPC_STATUS_NOT_SUPPORTED.

#[export] Instance SOPC_ReturnStatus_eq_dec : EqDecision SOPC_ReturnStatus.
Proof. solve_decision. Defined.

Definition is_ok (s : SOPC_ReturnStatus) : bool :=
  match s with SOPC_STATUS_OK => true | _ => false end.

Lemma is_ok_true s : is_ok s = true -> s = SOPC_STATUS_OK.
Proof. by destruct s. Qed.

(** ** Memory allocator

    Whether a request for a number of bytes is served is not known to the
    toolkit, and the bytes that [realloc] adds to a block are arbitrary. *)

Class Allocator := {
  alloc_ok : Z -> bool;
  fresh_byte : Z -> byte
}.

(** An allocator that serves every request, for the examples. *)
Definition serving_allocator : Allocator := {| alloc_ok _ := true; fresh_byte _ := x00 |}.

(** [malloc(n)]: the content of the block is arbitrary *)
Definition SOPC_Malloc `{Allocator} (n : Z) : ptr block :=
  if alloc_ok n then Some (map (fun i => fresh_byte (Z.of_nat i)) (seq 0 (Z.to_nat n))) else NULL.

(** [calloc(n)]: the content of the block is zero *)
Definition SOPC_Calloc `{Allocator} (n : Z) : ptr block :=
  if alloc_ok n then Some (replicate (Z.to_nat n) x00) else NULL.

(** [realloc(blk, n)]: the first bytes of the block are kept *)
Definition SOPC_Realloc `{Allocator} (blk : block) (n : Z) : ptr block :=
  if alloc_ok n
  then Some (take (Z.to_nat n) blk
             ++ map (fun i => fresh_byte (Z.of_nat i))
                    (seq (length blk) (Z.to_nat n - length blk)))
  else NULL.

Lemma SOPC_Malloc_length `{Allocator} n blk :
  0 <= n -> SOPC_Malloc n = Some blk -> zlen blk = n.
Proof.
  unfold SOPC_Malloc. intros Hn E. destruct (alloc_ok n); simplify_eq.
  unfold zlen. rewrite length_map, length_seq. lia.
Qed.

Lemma SOPC_Realloc_spec `{Allocator} blk n :
  zlen blk <= n -> alloc_ok n = true ->
  exists new, SOPC_Realloc blk n = Some new /\ zlen new = n /\ take (length blk) new = blk.
Proof.
  intros Hn E. unfold SOPC_Realloc. rewrite E. eexists. split; [done|].
  rewrite (take_ge blk) by (unfold zlen in *; lia). split.
  - rewrite zlen_app. unfold zlen in *. rewrite length_map, length_seq. lia.
  - by rewrite take_app_length.
Qed.

(** ** Encoding limits *)

Record SOPC_Common_EncodingConstants := mkEncodingConstants {
  buffer_size : Z;
  receive_max_msg_size : Z;
  receive_max_nb_chunks : Z;
  send_max_msg_size : Z;
  send_max_nb_chunks : Z;
  max_string_length : Z;
  max_array_length : Z;
  max_nested_diag_info : Z;
  max_nested_struct : Z
}.

Definition SOPC_DEFAULT_TCP_UA_MAX_BUFFER_SIZE : Z := UINT16_MAX.
Definition SOPC_DEFAULT_RECEIVE_MAX_NB_CHUNKS : Z := 5.
Definition SOPC_DEFAULT_SEND_MAX_NB_CHUNKS : Z := 12.
Definition SOPC_DEFAULT_MAX_STRING_LENGTH : Z := UINT16_MAX.
Definition SOPC_DEFAULT_MAX_ARRAY_LENGTH : Z := 1000000.
Definition SOPC_DEFAULT_MAX_DIAG_INFO_NESTED_LEVEL : Z := 100.
Definition SOPC_DEFAULT_MAX_STRUCT_NESTED_LEVEL : Z := 50.

Definition SOPC_Common_GetDefaultEncodingConstants : SOPC_Common_EncodingConstants :=
  {| buffer_size := SOPC_DEFAULT_TCP_UA_MAX_BUFFER_SIZE;
     receive_max_msg_size :=
       SOPC_DEFAULT_TCP_UA_MAX_BUFFER_SIZE * SOPC_DEFAULT_RECEIVE_MAX_NB_CHUNKS;
     receive_max_nb_chunks := SOPC_DEFAULT_RECEIVE_MAX_NB_CHUNKS;
     send_max_msg_size :=
       SOPC_DEFAULT_TCP_UA_MAX_BUFFER_SIZE * SOPC_DEFAULT_SEND_MAX_NB_CHUNKS;
     send_max_nb_chunks := SOPC_DEFAULT_SEND_MAX_NB_CHUNKS;
     max_string_length := SOPC_DEFAULT_MAX_STRING_LENGTH;
     max_array_length := SOPC_DEFAULT_MAX_ARRAY_LENGTH;
     max_nested_diag_info := SOPC_DEFAULT_MAX_DIAG_INFO_NESTED_LEVEL;
     max_nested_struct := SOPC_DEFAULT_MAX_STRUCT_NESTED_LEVEL |}.

Definition set_send_max_msg_size (c : SOPC_Common_EncodingConstants) (n : Z) :=
  {| buffer_size := buffer_size c;
     receive_max_msg_size := receive_max_msg_size c;
     receive_max_nb_chunks := receive_max_nb_chunks c;
     send_max_msg_size := n;
     send_max_nb_chunks := send_max_nb_chunks c;
     max_string_length := max_string_length c;
     max_array_length := max_array_length c;
     max_nested_diag_info := max_nested_diag_info c;
     max_nested_struct := max_nested_struct c |}.

Definition set_receive_max_msg_size (c : SOPC_Common_EncodingConstants) (n : Z) :=
  {| buffer_size := buffer_size c;
     receive_max_msg_size := n;
     receive_max_nb_chunks := receive_max_nb_chunks c;
     send_max_msg_size := send_max_msg_size c;
     send_max_nb_chunks := send_max_nb_chunks c;
     max_string_length := max_string_length c;
     max_array_length := max_array_length c;
     max_nested_diag_info := max_nested_diag_info c;
     max_nested_struct := max_nested_struct c |}.

(** The file's global variables: the limits in force and whether they were set. *)
Record ConstantsState := mkConstantsState {
  globalEncodingConfig : SOPC_Common_EncodingConstants;
  globalEncodingConfigSet : bool
}.

Definition constants_initial : ConstantsState :=
  {| globalEncodingConfig := SOPC_Common_GetDefaultEncodingConstants;
     globalEncodingConfigSet := false |}.

Definition SOPC_Common_SetEncodingConstants
    (config : SOPC_Common_EncodingConstants) (g : ConstantsState) : res (bool * ConstantsState) :=
  if (negb (receive_max_msg_size config =? 0) && (receive_max_msg_size config <? buffer_size config))
     || (negb (send_max_msg_size config =? 0) && (send_max_msg_size config <? buffer_size config))
  then Ret (false, g)
  else if ((receive_max_msg_size config =? 0) && (receive_max_nb_chunks config =? 0))
          || ((send_max_msg_size config =? 0) && (send_max_nb_chunks config =? 0))
  then Ret (false, g)
  else if negb (globalEncodingConfigSet g) then
    let* config :=
      (if send_max_msg_size config =? 0 then
         assert! negb (send_max_nb_chunks config =? 0) in
         Ret (set_send_max_msg_size config (u32 (send_max_nb_chunks config * buffer_size config)))
       else Ret config) in
    let* config :=
      (if receive_max_msg_size config =? 0 then
         assert! negb (receive_max_msg_size config =? 0) in
         Ret (set_receive_max_msg_size config
                (u32 (receive_max_nb_chunks config * buffer_size config)))
       else Ret config) in
    Ret (true, {| globalEncodingConfig := config; globalEncodingConfigSet := true |})
  else Ret (false, g).

(** ** Byte order of the machine *)

Inductive SOPC_Endianness :=
| SOPC_Endianness_Undefined
| SOPC_Endianness_LittleEndian
| SOPC_Endianness_BigEndian
| SOPC_Endianness_FloatARMMiddleEndian.

#[export] Instance SOPC_Endianness_eq_dec : EqDecision SOPC_Endianness.
Proof. solve_decision. Defined.

(** The machine the code runs on: how integers and floating point numbers are
    laid out in memory.  A floating point number is given by its IEEE 754 bits. *)
Inductive int_order := IntLittle | IntBig.
Inductive float_order := FloatLittle | FloatBig | FloatARMMiddle.

Class Host := {
  host_int : int_order;
  host_float : float_order
}.

(** Memory representation of an unsigned integer on [n] bytes. *)
Definition int_repr `{Host} (n : nat) (z : Z) : block :=
  match host_int with
  | IntLittle => le_bytes n z
  | IntBig => be_bytes n z
  end.

Definition int_of_repr `{Host} (bs : block) : Z :=
  match host_int with
  | IntLittle => le_val bs
  | IntBig => be_val bs
  end.

(** Memory representation of a single and of a double precision number. *)
Definition float_repr `{Host} (bits : Z) : block :=
  match host_float with
  | FloatLittle | FloatARMMiddle => le_bytes 4 bits
  | FloatBig => be_bytes 4 bits
  end.

Definition float_of_repr `{Host} (bs : block) : Z :=
  match host_float with
  | FloatLittle | FloatARMMiddle => le_val bs
  | FloatBig => be_val bs
  end.

Definition double_repr `{Host} (bits : Z) : block :=
  match host_float with
  | FloatLittle => le_bytes 8 bits
  | FloatBig => be_bytes 8 bits
  | FloatARMMiddle => le_bytes 4 (bits / 2 ^ 32) ++ le_bytes 4 bits
  end.

Definition double_of_repr `{Host} (bs : block) : Z :=
  match host_float with
  | FloatLittle => le_val bs
  | FloatBig => be_val bs
  | FloatARMMiddle => le_val (take 4 bs) * 2 ^ 32 + le_val (drop 4 bs)
  end.

(** The file's global variables. *)
Class EndiannessCfg := mkEndiannessCfg {
  endianness_integer : SOPC_Endianness;
  endianness_float : SOPC_Endianness
}.

Definition endianness_initial : EndiannessCfg :=
  {| endianness_integer := SOPC_Endianness_Undefined;
     endianness_float := SOPC_Endianness_Undefined |}.

Definition bytes_are (pX : block) (expected : list Z) : bool :=
  forallb (fun '(b, z) => b2z b =? z) (combine pX expected).

Definition compute_endianness_integer `{Host} : SOPC_Endianness :=
  let x := 0x0123456789ABCDEF in
  let pX := int_repr 8 x in
  if bytes_are pX [0x01; 0x23; 0x45; 0x67; 0x89; 0xAB; 0xCD; 0xEF]
  then SOPC_Endianness_BigEndian
  else if bytes_are pX [0xEF; 0xCD; 0xAB; 0x89; 0x67; 0x45; 0x23; 0x01]
  then SOPC_Endianness_LittleEndian
  else SOPC_Endianness_Undefined.

(** [-0x1.3456789ABCDEFp-1005]: sign 1, biased exponent 18, and its mantissa *)
Definition endianness_probe_bits : Z :=
  Z.lor (Z.shiftl 1 63) (Z.lor (Z.shiftl (1023 - 1005) 52) 0x3456789ABCDEF).

Definition compute_endianness_float `{Host} : SOPC_Endianness :=
  let pD := double_repr endianness_probe_bits in
  if bytes_are pD [0x81; 0x23; 0x45; 0x67; 0x89; 0xAB; 0xCD; 0xEF]
  then SOPC_Endianness_BigEndian
  else if bytes_are pD [0xEF; 0xCD; 0xAB; 0x89; 0x67; 0x45; 0x23; 0x81]
  then SOPC_Endianness_LittleEndian
  else if bytes_are pD [0x67; 0x45; 0x23; 0x81; 0xEF; 0xCD; 0xAB; 0x89]
  then SOPC_Endianness_FloatARMMiddleEndian
  else SOPC_Endianness_Undefined.

Definition SOPC_Helper_EndiannessCfg_Initialize `{Host} : EndiannessCfg :=
  {| endianness_integer := compute_endianness_integer;
     endianness_float := compute_endianness_float |}.

Definition SOPC_Helper_Endianness_GetInteger `{g : EndiannessCfg} : SOPC_Endianness :=
  endianness_integer.

Definition SOPC_Helper_Endianness_GetFloat `{g : EndiannessCfg} : SOPC_Endianness :=
  endianness_float.

Definition SOPC_Helper_Endianness_SetInteger
    (endianness : SOPC_Endianness) (g : EndiannessCfg) : EndiannessCfg :=
  {| endianness_integer := endianness; endianness_float := @endianness_float g |}.

Definition SOPC_Helper_Endianness_SetFloat
    (endianness : SOPC_Endianness) (g : EndiannessCfg) : EndiannessCfg :=
  {| endianness_integer := @endianness_integer g; endianness_float := endianness |}.

(** What the detection promises to the encoders: the recorded byte order is the
    one of the machine. *)
Class EndiannessDetected `{Host, EndiannessCfg} : Prop := {
  detected_integer : endianness_integer =
    match host_int with
    | IntLittle => SOPC_Endianness_LittleEndian
    | IntBig => SOPC_Endianness_BigEndian
    end;
  detected_float : endianness_float =
    match host_float with
    | FloatLittle => SOPC_Endianness_LittleEndian
    | FloatBig => SOPC_Endianness_BigEndian
    | FloatARMMiddle => SOPC_Endianness_FloatARMMiddleEndian
    end
}.

(** The detection of [sopc_helper_endianness_cfg.c] discharges this promise on
    every machine whose layouts the toolkit knows. *)
#[export] Instance endianness_initialize_detected `(Host) :
  @EndiannessDetected _ SOPC_Helper_EndiannessCfg_Initialize.
Proof.
  split; destruct H as [i f]; [destruct i | destruct f]; vm_compute; reflexivity.
Qed.

Lemma length_int_repr `{Host} n z : length (int_repr n z) = n.
Proof. unfold int_repr, be_bytes. destruct host_int; by rewrite ?length_reverse, length_le_bytes. Qed.

Lemma length_float_repr `{Host} z : length (float_repr z) = 4%nat.
Proof. unfold float_repr. by destruct host_float. Qed.

Lemma length_double_repr `{Host} z : length (double_repr z) = 8%nat.
Proof. unfold double_repr. by destruct host_float. Qed.

Lemma int_of_repr_repr `{Host} n z :
  int_of_repr (int_repr n z) = z mod 2 ^ (8 * Z.of_nat n).
Proof.
  unfold int_of_repr, int_repr.
  destruct host_int; [apply le_val_le_bytes | apply be_val_be_bytes].
Qed.

Lemma int_repr_of_repr `{Host} bs : int_repr (length bs) (int_of_repr bs) = bs.
Proof.
  unfold int_of_repr, int_repr.
  destruct host_int; [apply le_bytes_le_val | apply be_bytes_be_val].
Qed.

Lemma int_of_repr_range `{Host} bs : 0 <= int_of_repr bs < 2 ^ (8 * Z.of_nat (length bs)).
Proof.
  unfold int_of_repr, be_val. destruct host_int; [|rewrite <- length_reverse]; apply le_val_range.
Qed.

Lemma float_of_repr_repr `{Host} z : in_u 32 z -> float_of_repr (float_repr z) = z.
Proof.
  intros Hz. unfold float_of_repr, float_repr.
  destruct host_float; rewrite ?be_val_be_bytes, ?le_val_le_bytes; by apply Z.mod_small.
Qed.

Lemma double_of_repr_repr `{Host} z : in_u 64 z -> double_of_repr (double_repr z) = z.
Proof.
  intros Hz. unfold in_u in Hz. unfold double_of_repr, double_repr. destruct host_float.
  - rewrite le_val_le_bytes. by apply Z.mod_small.
  - rewrite be_val_be_bytes. by apply Z.mod_small.
  - rewrite take_app_length', drop_app_length' by (by rewrite length_le_bytes).
    rewrite !le_val_le_bytes. change (2 ^ (8 * Z.of_nat 4)) with (2 ^ 32).
    rewrite (Z.mod_small (z / 2 ^ 32)); [pose proof (Z.div_mod z (2 ^ 32)); lia|].
    split; [apply Z.div_pos; lia | apply Z.div_lt_upper_bound; lia].
Qed.

(** ** Properties of the encoding limits *)

(** The constraints that [SOPC_Common_SetEncodingConstants] checks. *)
Definition constants_accepted (c : SOPC_Common_EncodingConstants) : bool :=
  ((receive_max_msg_size c =? 0) || (buffer_size c <=? receive_max_msg_size c))
  && ((send_max_msg_size c =? 0) || (buffer_size c <=? send_max_msg_size c))
  && (negb (receive_max_msg_size c =? 0) || negb (receive_max_nb_chunks c =? 0))
  && (negb (send_max_msg_size c =? 0) || negb (send_max_nb_chunks c =? 0)).

(** A configuration with a maximum reception size is accepted when the
    maximum sizes hold a buffer and the sizes or the numbers of chunks are
    bounded, provided that none was accepted before; it is then in force, with
    the maximum emission size computed from the number of chunks when it is not
    given.  Otherwise nothing changes. *)
Theorem set_encoding_constants_result c g :
  receive_max_msg_size c <> 0 ->
  SOPC_Common_SetEncodingConstants c g =
  if constants_accepted c && negb (globalEncodingConfigSet g)
  then Ret (true,
            {| globalEncodingConfig :=
                 if send_max_msg_size c =? 0
                 then set_send_max_msg_size c (u32 (send_max_nb_chunks c * buffer_size c))
                 else c;
               globalEncodingConfigSet := true |})
  else Ret (false, g).
Proof.
  intros Hr. unfold SOPC_Common_SetEncodingConstants, constants_accepted.
  rewrite (proj2 (Z.eqb_neq _ _) Hr). rewrite !(Z.ltb_antisym (buffer_size c)).
  destruct (buffer_size c <=? receive_max_msg_size c); simpl; [|by rewrite ?orb_true_r].
  destruct (send_max_msg_size c =? 0) eqn:Es; simpl;
    destruct (send_max_nb_chunks c =? 0) eqn:En; simpl; rewrite ?andb_false_r; try done;
    destruct (buffer_size c <=? send_max_msg_size c) eqn:Eb; simpl; try done;
    destruct (globalEncodingConfigSet g); simpl; try done;
    by rewrite (proj2 (Z.eqb_neq _ _) Hr).
Qed.

(** Once a configuration was accepted, every later call is refused and
    leaves the configuration in force, whatever its argument is. *)
Theorem encoding_constants_set_once c g g' c' :
  SOPC_Common_SetEncodingConstants c g = Ret (true, g') ->
  SOPC_Common_SetEncodingConstants c' g' = Ret (false, g').
Proof.
  intros E. assert (globalEncodingConfigSet g' = true) as Hs.
  { revert E. unfold SOPC_Common_SetEncodingConstants. repeat case_match; simpl; intros; simplify_eq; try done;
      repeat case_match; simpl in *; simplify_eq; done. }
  unfold SOPC_Common_SetEncodingConstants. rewrite Hs. simpl. by repeat case_match.
Qed.

(** A configuration without a maximum reception size (the value 0) but with
    a bounded number of chunks satisfies the constraints, yet setting it fails
    an assertion. *)
Theorem encoding_constants_zero_receive_aborts c g :
  receive_max_msg_size c = 0 -> constants_accepted c = true -> globalEncodingConfigSet g = false ->
  SOPC_Common_SetEncodingConstants c g = Fault AssertFailed.
Proof.
  intros Hr Ha Hs. unfold SOPC_Common_SetEncodingConstants, constants_accepted in *.
  rewrite !(Z.ltb_antisym (buffer_size c)), Hr, Hs in *. simpl in *.
  destruct (receive_max_nb_chunks c =? 0); simpl in *; [by rewrite ?andb_false_r in Ha|].
  destruct (send_max_msg_size c =? 0) eqn:Es; simpl in *; destruct (send_max_nb_chunks c =? 0); simpl in *;
    destruct (buffer_size c <=? send_max_msg_size c); simpl in *; try done.
  all: by rewrite ?Hr.
Qed.

Lemma set_encoding_constants_result_witness :
  SOPC_Common_SetEncodingConstants SOPC_Common_GetDefaultEncodingConstants constants_initial =
  Ret (true, {| globalEncodingConfig := SOPC_Common_GetDefaultEncodingConstants; globalEncodingConfigSet := true |}).
Proof. apply (set_encoding_constants_result SOPC_Common_GetDefaultEncodingConstants constants_initial). discriminate. Defined.

Lemma encoding_constants_set_once_witness :
  let g := {| globalEncodingConfig := SOPC_Common_GetDefaultEncodingConstants; globalEncodingConfigSet := true |} in
  SOPC_Common_SetEncodingConstants (set_receive_max_msg_size SOPC_Common_GetDefaultEncodingConstants 0) g = Ret (false, g).
Proof.
  intros g. apply (encoding_constants_set_once SOPC_Common_GetDefaultEncodingConstants constants_initial g). reflexivity.
Defined.

Lemma encoding_constants_zero_receive_aborts_witness :
  SOPC_Common_SetEncodingConstants (set_receive_max_msg_size SOPC_Common_GetDefaultEncodingConstants 0) constants_initial
  = Fault AssertFailed.
Proof. apply encoding_constants_zero_receive_aborts; reflexivity. Defined.

(** The initialisation records the byte order of integers and of floating
    point numbers of the machine it runs on, on every machine whose layouts the
    toolkit knows. *)
Theorem endianness_detection `{Host} :
  @SOPC_Helper_Endianness_GetInteger SOPC_Helper_EndiannessCfg_Initialize =
    match host_int with
    | IntLittle => SOPC_Endianness_LittleEndian
    | IntBig => SOPC_Endianness_BigEndian
    end /\
  @SOPC_Helper_Endianness_GetFloat SOPC_Helper_EndiannessCfg_Initialize =
    match host_float with
    | FloatLittle => SOPC_Endianness_LittleEndian
    | FloatBig => SOPC_Endianness_BigEndian
    | FloatARMMiddle => SOPC_Endianness_FloatARMMiddleEndian
    end.
Proof. split; [apply detected_integer|apply detected_float]. Qed.

(** The limits in force are an implicit parameter of the code that reads them
    through [SOPC_Internal_Common_GetEncodingConstants]. *)
Existing Class SOPC_Common_EncodingConstants.

Definition endianness_eqb (a b : SOPC_Endianness) : bool :=
  match a, b with
  | SOPC_Endianness_Undefined, SOPC_Endianness_Undefined
  | SOPC_Endianness_LittleEndian, SOPC_Endianness_LittleEndian
  | SOPC_Endianness_BigEndian, SOPC_Endianness_BigEndian
  | SOPC_Endianness_FloatARMMiddleEndian, SOPC_Endianness_FloatARMMiddleEndian => true
  | _, _ => false
  end.
