(* ===== verification/Buffer.v ===== *)
(** * Byte buffers

    Model of [src/Common/helpers/sopc_buffer.c]: a block of memory with a
    read/write position, a data length and, for the buffers that may grow, a
    maximum size.  The file functions ([get_file_size], [read_file],
    [SOPC_Buffer_ReadFile]) are input/output and are not modelled. *)

From Stdlib Require Import ZArith Lia.
From Stdlib Require Import Strings.Byte.
From stdpp Require Import prelude.
From S2P Require Import Prelude Common.

Open Scope Z_scope.

Record SOPC_Buffer := mkBuffer {
  initial_size : Z;
  current_size : Z;
  maximum_size : Z;
  position : Z;
  length_ : Z;
  data : ptr block
}.

Definition set_position (b : SOPC_Buffer) (p : Z) : SOPC_Buffer :=
  mkBuffer (initial_size b) (current_size b) (maximum_size b) p (length_ b) (data b).

Definition set_length (b : SOPC_Buffer) (n : Z) : SOPC_Buffer :=
  mkBuffer (initial_size b) (current_size b) (maximum_size b) (position b) n (data b).

Definition set_data (b : SOPC_Buffer) (d : ptr block) : SOPC_Buffer :=
  mkBuffer (initial_size b) (current_size b) (maximum_size b) (position b) (length_ b) d.

Definition set_current_size (b : SOPC_Buffer) (n : Z) : SOPC_Buffer :=
  mkBuffer (initial_size b) n (maximum_size b) (position b) (length_ b) (data b).

Section Operations.
Context `{Allocator}.

(** ** Creation and deletion *)

Definition SOPC_Buffer_Init (buffer : ptr SOPC_Buffer) (initial_size maximum_size : Z)
    : SOPC_ReturnStatus * ptr SOPC_Buffer :=
  if is_null buffer || (initial_size <=? 0) || (maximum_size <? initial_size)
  then (SOPC_STATUS_INVALID_PARAMETERS, buffer)
  else
    match SOPC_Calloc initial_size with
    | NULL => (SOPC_STATUS_OUT_OF_MEMORY, option_map (fun b => set_data b NULL) buffer)
    | Some d =>
        (SOPC_STATUS_OK, Some (mkBuffer initial_size initial_size maximum_size 0 0 (Some d)))
    end.

Definition sizeof_SOPC_Buffer : Z := 32.

(** A buffer structure that was just allocated; its content is overwritten by
    [SOPC_Buffer_Init]. *)
Definition fresh_buffer : SOPC_Buffer := mkBuffer 0 0 0 0 0 NULL.

Definition SOPC_Buffer_Create (size : Z) : ptr SOPC_Buffer :=
  if 0 <? size then
    if alloc_ok sizeof_SOPC_Buffer then
      let '(status, buf) := SOPC_Buffer_Init (Some fresh_buffer) size size in
      if is_ok status then buf else NULL
    else NULL
  else NULL.

Definition SOPC_Buffer_CreateResizable (initial_size maximum_size : Z) : ptr SOPC_Buffer :=
  if 0 <? initial_size then
    if alloc_ok sizeof_SOPC_Buffer then
      let '(status, buf) := SOPC_Buffer_Init (Some fresh_buffer) initial_size maximum_size in
      if is_ok status then buf else NULL
    else NULL
  else NULL.

Definition SOPC_Buffer_Attach (data : ptr block) (size : Z) : ptr SOPC_Buffer :=
  if alloc_ok sizeof_SOPC_Buffer then Some (mkBuffer size size size 0 size data) else NULL.

Definition SOPC_Buffer_Clear (buffer : ptr SOPC_Buffer) : ptr SOPC_Buffer :=
  match buffer with
  | NULL => NULL
  | Some b => match data b with NULL => Some b | Some _ => Some (set_data b NULL) end
  end.

(** ** Position and length *)

Definition SOPC_Buffer_Reset (buffer : ptr SOPC_Buffer) : res (ptr SOPC_Buffer) :=
  match buffer with
  | NULL => Ret NULL
  | Some b =>
      match data b with
      | NULL => Ret (Some b)
      | Some d =>
          let* d := memset0 d 0 (current_size b) in
          Ret (Some (set_data (set_length (set_position b 0) 0) (Some d)))
      end
  end.

Definition SOPC_Buffer_ResetAfterPosition (buffer : ptr SOPC_Buffer) (position : Z)
    : res (SOPC_ReturnStatus * ptr SOPC_Buffer) :=
  match buffer with
  | NULL => Ret (SOPC_STATUS_INVALID_PARAMETERS, buffer)
  | Some b =>
      match data b with
      | NULL => Ret (SOPC_STATUS_INVALID_PARAMETERS, buffer)
      | Some d =>
          if position <=? length_ b then
            let* d := memset0 d position (u32 (current_size b - position)) in
            Ret (SOPC_STATUS_OK, Some (set_data (set_length (set_position b position) position) (Some d)))
          else Ret (SOPC_STATUS_INVALID_PARAMETERS, buffer)
      end
  end.

(** The second component is the content of [*position] after the call. *)
Definition SOPC_Buffer_GetPosition (buffer : ptr SOPC_Buffer) (position_ : ptr Z)
    : SOPC_ReturnStatus * ptr Z :=
  match buffer, position_ with
  | Some b, Some _ => (SOPC_STATUS_OK, Some (position b))
  | _, _ => (SOPC_STATUS_INVALID_PARAMETERS, position_)
  end.

Definition SOPC_Buffer_SetPosition (buffer : ptr SOPC_Buffer) (position : Z)
    : SOPC_ReturnStatus * ptr SOPC_Buffer :=
  match buffer with
  | NULL => (SOPC_STATUS_INVALID_PARAMETERS, buffer)
  | Some b =>
      if negb (is_null (data b)) && (position <=? length_ b)
      then (SOPC_STATUS_OK, Some (set_position b position))
      else (SOPC_STATUS_INVALID_PARAMETERS, buffer)
  end.

Definition SOPC_Buffer_SetDataLength (buffer : ptr SOPC_Buffer) (length : Z)
    : res (SOPC_ReturnStatus * ptr SOPC_Buffer) :=
  match buffer with
  | NULL => Ret (SOPC_STATUS_INVALID_PARAMETERS, buffer)
  | Some b =>
      match data b with
      | NULL => Ret (SOPC_STATUS_INVALID_PARAMETERS, buffer)
      | Some d =>
          if (length <=? current_size b) && (position b <=? length) then
            let* d := (if length <? length_ b then memset0 d length (length_ b - length)
                       else Ret d) in
            Ret (SOPC_STATUS_OK, Some (set_length (set_data b (Some d)) length))
          else Ret (SOPC_STATUS_INVALID_PARAMETERS, buffer)
      end
  end.

(** ** Growing *)

(** The size to which a buffer grows in order to hold [totalNbBytes]. *)
Definition resize_target (b : SOPC_Buffer) (totalNbBytes : Z) (exactResize : bool) : res Z :=
  if exactResize then Ret totalNbBytes
  else if initial_size b =? 0 then Fault DivByZero
  else
    let requiredSteps := totalNbBytes / initial_size b in
    let requiredSteps :=
      if negb (totalNbBytes mod initial_size b =? 0) then u32 (requiredSteps + 1)
      else requiredSteps in
    if maximum_size b / initial_size b <? requiredSteps
    then Ret (maximum_size b)
    else Ret (u32 (requiredSteps * initial_size b)).

Definition SOPC_Buffer_CheckSizeAndResize
    (buffer : ptr SOPC_Buffer) (totalNbBytes : Z) (exactResize : bool)
    : res (bool * ptr SOPC_Buffer) :=
  match buffer with
  | NULL => Fault AssertFailed
  | Some b =>
      if totalNbBytes <=? current_size b then Ret (true, buffer)
      else if totalNbBytes <=? maximum_size b then
        let* newSize := resize_target b totalNbBytes exactResize in
        match SOPC_Realloc (default [] (data b)) newSize with
        | NULL => Ret (false, buffer)
        | Some newData => Ret (true, Some (set_current_size (set_data b (Some newData)) newSize))
        end
      else Ret (false, buffer)
  end.

(** ** Reading and writing *)

Definition SOPC_Buffer_Write (buffer : ptr SOPC_Buffer) (data_src : ptr block) (count : Z)
    : res (SOPC_ReturnStatus * ptr SOPC_Buffer) :=
  match data_src, buffer with
  | Some src, Some b =>
      match data b with
      | NULL => Ret (SOPC_STATUS_INVALID_PARAMETERS, buffer)
      | Some _ =>
          let* (enough, buffer) :=
            SOPC_Buffer_CheckSizeAndResize buffer (u32 (position b + count)) false in
          if (enough : bool) then
            let* b := deref buffer in
            let* d := deref (data b) in
            let* d := memcpy d (position b) src 0 count in
            let b := set_data b (Some d) in
            let b := set_position b (u32 (position b + count)) in
            let b := if length_ b <? position b then set_length b (position b) else b in
            Ret (SOPC_STATUS_OK, Some b)
          else Ret (SOPC_STATUS_OUT_OF_MEMORY, buffer)
      end
  | _, _ => Ret (SOPC_STATUS_INVALID_PARAMETERS, buffer)
  end.

(** [data_dest] may be [NULL], the data are then skipped.  The second component
    is the memory at [data_dest] after the call. *)
Definition SOPC_Buffer_Read (data_dest : ptr block) (buffer : ptr SOPC_Buffer) (count : Z)
    : res (SOPC_ReturnStatus * ptr block * ptr SOPC_Buffer) :=
  match buffer with
  | NULL => Ret (SOPC_STATUS_INVALID_PARAMETERS, data_dest, buffer)
  | Some b =>
      match data b with
      | NULL => Ret (SOPC_STATUS_INVALID_PARAMETERS, data_dest, buffer)
      | Some d =>
          if u32 (position b + count) <=? length_ b then
            let* dest :=
              match data_dest with
              | NULL => Ret NULL
              | Some dst => let* dst := memcpy dst 0 d (position b) count in Ret (Some dst)
              end in
            Ret (SOPC_STATUS_OK, dest, Some (set_position b (u32 (position b + count))))
          else Ret (SOPC_STATUS_OUT_OF_MEMORY, data_dest, buffer)
      end
  end.

(** ** Copies between distinct buffers *)

Definition SOPC_Buffer_CopyWithLength (dest src : ptr SOPC_Buffer) (limitedLength : Z)
    : res (SOPC_ReturnStatus * ptr SOPC_Buffer) :=
  match dest, src with
  | Some db, Some sb =>
      match data db, data sb with
      | Some _, Some sd =>
          if (limitedLength <=? length_ sb) && (position sb <=? limitedLength) then
            assert! position sb <=? length_ sb in
            let* (enough, dest) := SOPC_Buffer_CheckSizeAndResize dest limitedLength true in
            if (enough : bool) then
              let* db := deref dest in
              let* dd := deref (data db) in
              let* dd := memcpy dd 0 sd 0 limitedLength in
              let '(status, dest) := SOPC_Buffer_SetPosition (Some (set_data db (Some dd))) 0 in
              let* (status, dest) :=
                (if is_ok status then SOPC_Buffer_SetDataLength dest limitedLength
                 else Ret (status, dest)) in
              if is_ok status then Ret (SOPC_Buffer_SetPosition dest (position sb))
              else Ret (status, dest)
            else Ret (SOPC_STATUS_OUT_OF_MEMORY, dest)
          else Ret (SOPC_STATUS_INVALID_PARAMETERS, dest)
      | _, _ => Ret (SOPC_STATUS_INVALID_PARAMETERS, dest)
      end
  | _, _ => Ret (SOPC_STATUS_INVALID_PARAMETERS, dest)
  end.

Definition SOPC_Buffer_Copy (dest src : ptr SOPC_Buffer) : res (SOPC_ReturnStatus * ptr SOPC_Buffer) :=
  match src with
  | NULL => Ret (SOPC_STATUS_INVALID_PARAMETERS, dest)
  | Some sb => SOPC_Buffer_CopyWithLength dest src (length_ sb)
  end.

Definition SOPC_Buffer_Remaining (buffer : ptr SOPC_Buffer) : res Z :=
  match buffer with
  | NULL => Fault AssertFailed
  | Some b => Ret (u32 (length_ b - position b))
  end.

(** Returns the number of bytes moved, or -1. *)
Definition SOPC_Buffer_ReadFrom (buffer src : ptr SOPC_Buffer) (n : Z)
    : res (Z * ptr SOPC_Buffer * ptr SOPC_Buffer) :=
  match buffer, src with
  | Some b, Some s =>
      if u32 (current_size b - length_ b) <? n then Ret (-1, buffer, src)
      else
        let available := u32 (length_ s - position s) in
        let n := if available <? n then available else n in
        let* bd := deref (data b) in
        let* sd := deref (data s) in
        let* bd := memcpy bd (length_ b) sd (position s) n in
        Ret (n, Some (set_length (set_data b (Some bd)) (u32 (length_ b + n))),
             Some (set_position s (u32 (position s + n))))
  | _, _ => Ret (-1, buffer, src)
  end.

End Operations.

(** ** Invariant *)

Record Buffer_Inv (b : SOPC_Buffer) : Prop := {
  bi_data : exists d, data b = Some d /\ zlen d = current_size b;
  bi_position : 0 <= position b <= length_ b;
  bi_length : length_ b <= current_size b;
  bi_current : current_size b <= maximum_size b;
  bi_maximum : maximum_size b < 2 ^ 32;
  bi_initial : 0 < initial_size b \/ (initial_size b = 0 /\ current_size b = maximum_size b)
}.

(** Buffers of at most [2^31] bytes: the sum of a position and of a count below
    [2^31] does not wrap around. *)
Definition small (b : SOPC_Buffer) : Prop := maximum_size b <= 2 ^ 31.

(** The bytes of the block, the bytes in use and the bytes not read yet. *)
Definition bytes (b : SOPC_Buffer) : block := default [] (data b).
Definition content (b : SOPC_Buffer) : block := take (Z.to_nat (length_ b)) (bytes b).
Definition upcoming (b : SOPC_Buffer) : block := drop (Z.to_nat (position b)) (content b).

Definition advance (b : SOPC_Buffer) (n : Z) : SOPC_Buffer := set_position b (position b + n).

(** [b'] is [b] after [bs] was written at its position. *)
Record wrote (b : SOPC_Buffer) (bs : block) (b' : SOPC_Buffer) : Prop := {
  wr_inv : Buffer_Inv b';
  wr_position : position b' = position b + zlen bs;
  wr_content : content b' = splice (content b) (position b) bs;
  wr_initial : initial_size b' = initial_size b;
  wr_maximum : maximum_size b' = maximum_size b;
  wr_current : current_size b <= current_size b'
}.

Lemma zlen_content b : Buffer_Inv b -> zlen (content b) = length_ b.
Proof.
  intros [[d [Hd Hl]] ? ? ? ? ?]. unfold content, bytes. rewrite Hd. simpl. apply zlen_take. lia.
Qed.

Lemma zlen_upcoming b : Buffer_Inv b -> zlen (upcoming b) = length_ b - position b.
Proof.
  intros I. pose proof (zlen_content b I). destruct I. unfold upcoming. rewrite zlen_drop; lia.
Qed.

Lemma wrote_refl b : Buffer_Inv b -> wrote b [] b.
Proof.
  intros I. split; autorewrite with zlen; try lia; try done.
  rewrite splice_nil; [done|]. destruct I; lia.
Qed.

Lemma wrote_trans b bs1 b1 bs2 b2 :
  Buffer_Inv b -> wrote b bs1 b1 -> wrote b1 bs2 b2 -> wrote b (bs1 ++ bs2) b2.
Proof.
  intros I W1 W2. pose proof (zlen_content b I) as L. destruct I, W1, W2. split; try done; try lia.
  - rewrite zlen_app. lia.
  - rewrite wr_content1, wr_content0, wr_position0. apply splice_splice. lia.
Qed.

(** After a write, going back to where it started shows what was written. *)
Lemma wrote_upcoming b bs b' :
  Buffer_Inv b -> wrote b bs b' ->
  Buffer_Inv (set_position b' (position b)) /\
  exists rest, upcoming (set_position b' (position b)) = bs ++ rest.
Proof.
  intros I W. pose proof (zlen_content b I). pose proof (zlen_nonneg bs).
  destruct I, W. split.
  - destruct wr_inv0. split; simpl; try done; lia.
  - unfold upcoming. change (content (set_position b' (position b))) with (content b').
    simpl. rewrite wr_content0, drop_splice by lia. eauto.
Qed.

Lemma Buffer_Inv_advance b n :
  Buffer_Inv b -> 0 <= n <= zlen (upcoming b) -> Buffer_Inv (advance b n).
Proof.
  intros I Hn. rewrite zlen_upcoming in Hn by done. destruct I. split; simpl; try done; lia.
Qed.

Lemma upcoming_advance b n :
  Buffer_Inv b -> 0 <= n -> upcoming (advance b n) = drop (Z.to_nat n) (upcoming b).
Proof.
  intros I Hn. unfold upcoming. change (content (advance b n)) with (content b). simpl.
  rewrite drop_drop. f_equal. destruct I. lia.
Qed.

Lemma upcoming_advance_app b bs rest :
  Buffer_Inv b -> upcoming b = bs ++ rest ->
  Buffer_Inv (advance b (zlen bs)) /\ upcoming (advance b (zlen bs)) = rest.
Proof.
  intros I E. pose proof (zlen_nonneg bs). pose proof (zlen_nonneg rest). split.
  - apply Buffer_Inv_advance; [done|]. rewrite E, zlen_app. lia.
  - rewrite upcoming_advance by done. rewrite E. apply drop_app_length'. unfold zlen. lia.
Qed.

Lemma advance_advance b n m : advance (advance b n) m = advance b (n + m).
Proof. unfold advance, set_position. simpl. f_equal. lia. Qed.

Lemma advance_0 b : advance b 0 = b.
Proof. destruct b. unfold advance, set_position. simpl. f_equal. lia. Qed.

#[export] Hint Resolve wrote_refl wr_inv : sopc.

(** ** Growing *)

Lemma resize_target_spec b n exact :
  Buffer_Inv b -> current_size b < n <= maximum_size b ->
  exists m, resize_target b n exact = Ret m /\ n <= m <= maximum_size b.
Proof.
  intros I Hn. destruct I. unfold resize_target. destruct exact; [exists n; split; [done|lia]|].
  destruct bi_initial0 as [Hi|Hi]; [|lia].
  replace (initial_size b =? 0) with false by lia.
  pose proof (Z.div_mod n (initial_size b) ltac:(lia)) as Dn.
  pose proof (Z.mod_pos_bound n (initial_size b) Hi) as Mn.
  pose proof (Z.div_mod (maximum_size b) (initial_size b) ltac:(lia)) as Dm.
  pose proof (Z.mod_pos_bound (maximum_size b) (initial_size b) Hi) as Mm.
  set (q := n / initial_size b) in *. set (Q := maximum_size b / initial_size b) in *.
  assert (0 <= q <= n) as Hq by nia.
  set (steps := if negb (n mod initial_size b =? 0) then u32 (q + 1) else q).
  assert (n <= steps * initial_size b) as Hs.
  { unfold steps. destruct (Z.eqb_spec (n mod initial_size b) 0) as [E|E]; simpl; [nia|].
    assert (q < n) by nia. rewrite u32_small by lia. nia. }
  destruct (Z.ltb_spec Q steps).
  - exists (maximum_size b). split; [done|lia].
  - assert (steps * initial_size b <= maximum_size b) by nia.
    rewrite u32_small by nia. eauto.
Qed.

Section Specs.
Context `{Allocator}.

(** Requests of memory up to the size of [b] are served. *)
Definition can_grow (b : SOPC_Buffer) : Prop :=
  forall n, current_size b < n <= maximum_size b -> alloc_ok n = true.

Lemma CheckSizeAndResize_spec b n exact :
  Buffer_Inv b ->
  exists ok b', SOPC_Buffer_CheckSizeAndResize (Some b) n exact = Ret (ok, Some b') /\
    wrote b [] b' /\
    (ok = true -> n <= current_size b') /\
    (ok = false -> b' = b) /\
    (n <= maximum_size b -> n <= current_size b \/ can_grow b -> ok = true).
Proof.
  intros I. unfold SOPC_Buffer_CheckSizeAndResize.
  destruct (Z.leb_spec n (current_size b)); [do 2 eexists; split_and!; eauto with sopc; lia|].
  destruct (Z.leb_spec n (maximum_size b)); [|do 2 eexists; split_and!; eauto with sopc; lia].
  destruct (resize_target_spec b n exact I ltac:(lia)) as [m [-> Hm]]. simpl.
  pose proof I as [[d [Hd Hl]] ? ? ? ? ?]. rewrite Hd. simpl.
  destruct (alloc_ok m) eqn:Em.
  - destruct (SOPC_Realloc_spec d m ltac:(lia) Em) as [d' [-> [Hl' Hp]]].
    do 2 eexists. split; [done|]. split_and!; simpl; try done; try lia.
    split; rewrite ?splice_nil, ?zlen_nil by lia; simpl; try done; try lia.
    { split; simpl; try done; try lia. eauto. }
    unfold content, bytes. simpl. rewrite Hd. simpl. rewrite <- Hp at 1.
    rewrite take_take, Nat.min_l; [done|]. unfold zlen in *; lia.
  - unfold SOPC_Realloc. rewrite Em. do 2 eexists. split_and!; eauto with sopc; try done. intros _ [?|G]; [lia|]. rewrite G in Em; [done|lia].
Qed.

(** ** Writing *)

Lemma wrote_intro b d bs :
  Buffer_Inv b -> data b = Some d -> position b + zlen bs <= current_size b ->
  let b' := set_position (set_data b (Some (splice d (position b) bs))) (position b + zlen bs) in
  wrote b bs (if length_ b' <? position b' then set_length b' (position b') else b').
Proof.
  intros I Hd Hp. pose proof I as [[d' [Hd' Hl]] ? ? ? ? ?]. simplify_eq.
  pose proof (zlen_nonneg bs). simpl.
  assert (content b = take (Z.to_nat (length_ b)) d) as C by (unfold content, bytes; by rewrite Hd).
  assert (zlen (splice d (position b) bs) = current_size b) as Hs by (rewrite zlen_splice; lia).
  destruct (Z.ltb_spec (length_ b) (position b + zlen bs)) as [L|L];
    (split; simpl; try done; try lia; [split; simpl; try lia; eauto|]);
    unfold content at 1, bytes; simpl; rewrite C, <- take_splice_within by lia; do 2 f_equal; lia.
Qed.

Lemma SOPC_Buffer_Write_spec b src n :
  Buffer_Inv b -> 0 <= n <= zlen src -> position b + n < 2 ^ 32 ->
  exists st b', SOPC_Buffer_Write (Some b) (Some src) n = Ret (st, Some b') /\
    ((st = SOPC_STATUS_OK /\ wrote b (take (Z.to_nat n) src) b') \/
     (st = SOPC_STATUS_OUT_OF_MEMORY /\ b' = b)) /\
    (position b + n <= maximum_size b -> position b + n <= current_size b \/ can_grow b -> st = SOPC_STATUS_OK).
Proof.
  intros I Hn Hp. unfold SOPC_Buffer_Write. pose proof I as [[d [Hd Hl]] ? ? ? ? ?].
  rewrite Hd, u32_small by lia.
  destruct (CheckSizeAndResize_spec b (position b + n) false I)
    as (ok & b1 & -> & W1 & E7 & E8 & E9). simpl.
  destruct ok; [|do 2 eexists; split_and!; [done|right; by rewrite E8|intros A B; by specialize (E9 A B)]].
  specialize (E7 eq_refl). pose proof (wr_inv _ _ _ W1) as I1.
  pose proof (wr_position _ _ _ W1) as E1. rewrite zlen_nil, Z.add_0_r in E1.
  pose proof I1 as [[d1 [Hd1 Hl1]] ? ? ? ? ?]. rewrite Hd1. simpl.
  unfold memcpy. rewrite mem_read_ok, drop_0 by lia. simpl.
  set (bs := take (Z.to_nat n) src). assert (zlen bs = n) as Hbs by (by apply zlen_take).
  rewrite mem_write_ok by lia. simpl. rewrite u32_small by lia.
  do 2 eexists. split; [done|]. split; [left; split; [done|]|done].
  apply (wrote_trans b [] b1); [done|done|].
  pose proof (wrote_intro b1 d1 bs I1 Hd1 ltac:(lia)) as W. rewrite Hbs in W. exact W.
Qed.

(** A write that failed leaves the buffer as it was, and fails again. *)
Lemma Buffer_Write_retry b src src' n st b' :
  SOPC_Buffer_Write (Some b) (Some src) n = Ret (st, Some b') -> is_ok st = false ->
  b' = b /\ SOPC_Buffer_Write (Some b) (Some src') n = Ret (st, Some b).
Proof.
  unfold SOPC_Buffer_Write. destruct (data b) eqn:Ed; [|intros E F; by simplify_eq/=].
  unfold SOPC_Buffer_CheckSizeAndResize. destruct (_ <=? current_size b); cbn [rbind deref].
  { rewrite Ed. cbn [rbind deref]. destruct (memcpy _ _ src _ _) as [d|]; cbn [rbind]; intros E F; by simplify_eq/=. }
  destruct (_ <=? maximum_size b); [|intros E F; by simplify_eq/=].
  destruct (resize_target _ _ _) as [m|]; cbn [rbind]; [|done].
  destruct (SOPC_Realloc _ m); cbn [rbind deref data]; [|intros E F; by simplify_eq/=].
  cbn [set_current_size set_data deref rbind data position].
  destruct (memcpy _ _ src _ _) as [d|]; cbn [rbind]; intros E F; by simplify_eq/=.
Qed.

(** ** Reading *)

Lemma SOPC_Buffer_Read_spec b dst n :
  Buffer_Inv b -> 0 <= n <= zlen dst -> position b + n < 2 ^ 32 ->
  SOPC_Buffer_Read (Some dst) (Some b) n =
  if n <=? zlen (upcoming b)
  then Ret (SOPC_STATUS_OK, Some (splice dst 0 (take (Z.to_nat n) (upcoming b))), Some (advance b n))
  else Ret (SOPC_STATUS_OUT_OF_MEMORY, Some dst, Some b).
Proof.
  intros I Hn Hp. rewrite zlen_upcoming by done. unfold SOPC_Buffer_Read.
  pose proof I as [[d [Hd Hl]] ? ? ? ? ?]. rewrite Hd, u32_small by lia.
  destruct (Z.leb_spec (position b + n) (length_ b)).
  - replace (n <=? length_ b - position b) with true by lia.
    unfold memcpy. rewrite mem_read_ok by lia. simpl.
    assert (take (Z.to_nat n) (drop (Z.to_nat (position b)) d) = take (Z.to_nat n) (upcoming b)) as E.
    { unfold upcoming, content, bytes. rewrite Hd. simpl.
      rewrite skipn_firstn_comm, take_take, Nat.min_l; [done|lia]. }
    rewrite E, mem_write_ok; [done|lia|]. rewrite zlen_take; [lia|].
    rewrite zlen_upcoming; [lia|done].
  - by replace (n <=? length_ b - position b) with false by lia.
Qed.


(** ** Creation *)

Lemma SOPC_Calloc_length n d : 0 <= n -> SOPC_Calloc n = Some d -> zlen d = n.
Proof. unfold SOPC_Calloc. intros Hn E. destruct (alloc_ok n); simplify_eq. by apply zlen_replicate. Qed.

Lemma SOPC_Buffer_CreateResizable_spec n max b :
  max < 2 ^ 32 -> SOPC_Buffer_CreateResizable n max = Some b ->
  Buffer_Inv b /\ content b = [] /\ position b = 0 /\ maximum_size b = max.
Proof.
  intros Hm. unfold SOPC_Buffer_CreateResizable, SOPC_Buffer_Init.
  destruct (Z.ltb_spec 0 n); [|done]. destruct (alloc_ok sizeof_SOPC_Buffer); [|done].
  replace (n <=? 0) with false by lia. simpl. destruct (Z.ltb_spec max n); [done|].
  destruct (SOPC_Calloc n) as [d|] eqn:E; [|done]. simpl. intros; simplify_eq.
  apply SOPC_Calloc_length in E; [|lia]. split_and!; try done. split; simpl; try lia. eauto.
Qed.

Lemma SOPC_Buffer_Create_spec n b :
  n < 2 ^ 32 -> SOPC_Buffer_Create n = Some b ->
  Buffer_Inv b /\ content b = [] /\ position b = 0 /\ maximum_size b = n.
Proof. apply SOPC_Buffer_CreateResizable_spec. Qed.

Lemma SOPC_Buffer_Attach_spec d n b :
  0 <= n < 2 ^ 32 -> zlen d = n -> SOPC_Buffer_Attach (Some d) n = Some b ->
  Buffer_Inv b /\ upcoming b = d /\ maximum_size b = n.
Proof.
  unfold SOPC_Buffer_Attach. destruct (alloc_ok _); [|done]. intros Hn L E; simplify_eq. split_and!.
  - split; simpl; try lia. eauto.
  - unfold upcoming, content, bytes. simpl. rewrite drop_0, take_ge; [done|]. unfold zlen. lia.
  - done.
Qed.

(** ** Copies between buffers *)

Lemma memset0_ok d off n :
  0 <= off -> 0 <= n -> off + n <= zlen d ->
  exists d', memset0 d off n = Ret d' /\ zlen d' = zlen d /\ d' = splice d off (replicate (Z.to_nat n) x00).
Proof.
  intros. unfold memset0. eexists. rewrite mem_write_ok; [split_and!; [done| |done]| |]; rewrite ?zlen_splice; rewrite ?zlen_replicate; lia.
Qed.

(** A copy holds the first [n] bytes of the source data, with the position of the source,
    or fails and leaves the destination as it was: [n] is not between the position and the
    length of the source, or there is no room for the bytes. *)
Lemma CopyWithLength_spec dest src n : Buffer_Inv dest -> Buffer_Inv src -> 0 <= n ->
  exists st dest', SOPC_Buffer_CopyWithLength (Some dest) (Some src) n = Ret (st, Some dest') /\
    Buffer_Inv dest' /\ maximum_size dest' = maximum_size dest /\
    (st = SOPC_STATUS_OK /\ content dest' = take (Z.to_nat n) (content src) /\ position dest' = position src \/
     st <> SOPC_STATUS_OK /\ dest' = dest /\ ~ (position src <= n <= length_ src /\ n <= maximum_size dest /\ can_grow dest)).
Proof.
  intros Id Is H0. unfold SOPC_Buffer_CopyWithLength. pose proof Id as [[dd [Hdd Hld]] ? ? ? ? ?].
  pose proof Is as [[sd [Hsd Hls]] ? ? ? ? ?]. rewrite Hdd, Hsd.
  destruct (Z.leb_spec n (length_ src)) as [Hn1|Hn1]; cbn [andb]; [|do 2 eexists; split; [done|]; split_and!; try done; right; split_and!; try done; lia].
  destruct (Z.leb_spec (position src) n) as [Hn2|Hn2]; [|do 2 eexists; split; [done|]; split_and!; try done; right; split_and!; try done; lia].
  replace (position src <=? length_ src) with true by lia.
  destruct (CheckSizeAndResize_spec dest n true Id) as (ok & d1 & -> & W & S1 & S3 & S2). cbn [rbind deref]. destruct ok.
  2:{ rewrite S3 by done. do 2 eexists. split; [done|]. split_and!; try done. right. split_and!; try done. intros (_ & Hm & G). specialize (S2 Hm (or_intror G)). done. }
  specialize (S1 eq_refl). pose proof (wr_maximum _ _ _ W). pose proof (wr_initial _ _ _ W).
  destruct W as [[[d1d [Hd1 Hl1]] ? ? ? ? ?] ? ? ? ? ?]. rewrite Hd1. cbn [rbind deref].
  unfold memcpy. rewrite mem_read_ok, drop_0 by lia. cbn [rbind].
  set (bs := take (Z.to_nat n) sd). assert (zlen bs = n) as Lb by (apply zlen_take; lia).
  rewrite mem_write_ok by lia. cbn [rbind]. set (d2 := splice d1d 0 bs).
  assert (zlen d2 = zlen d1d) as L2 by (apply zlen_splice; lia).
  assert (take (Z.to_nat n) d2 = bs) as T2.
  { unfold d2. rewrite <- (Z.add_0_l n) at 1. rewrite <- Lb, take_splice_end by lia. done. }
  unfold SOPC_Buffer_SetPosition at 1. simpl. replace (0 <=? length_ d1) with true by lia. simpl.
  replace (n <=? current_size d1) with true by lia. replace (0 <=? n) with true by lia. simpl.
  assert (exists d3, (if n <? length_ d1 then memset0 d2 n (length_ d1 - n) else Ret d2) = Ret d3 /\
    zlen d3 = zlen d2 /\ take (Z.to_nat n) d3 = bs) as (d3 & -> & L3 & T3).
  { destruct (Z.ltb_spec n (length_ d1)); [|by exists d2].
    destruct (memset0_ok d2 n (length_ d1 - n)) as (d3 & -> & L3 & ->); [lia..|]. eexists. split_and!; [done|lia|].
    rewrite take_splice by lia. done. }
  simpl. unfold SOPC_Buffer_SetPosition. simpl. replace (position src <=? n) with true by lia.
  do 2 eexists. split; [done|]. split; [|split; [done|left; split_and!; try done; unfold content, bytes; simpl]].
  - split; simpl; try lia. exists d3. split; [done|lia].
  - rewrite T3, Hsd. simpl. unfold bs. rewrite take_take, Nat.min_l; [done|lia].
Qed.

(** Copying [n] bytes of a source buffer, with memory available for them,
    makes the destination hold the first [n] bytes of the source data, with the
    position of the source; the invariant and the maximum size are kept. *)
Theorem buffer_copy_with_length dest src n :
  Buffer_Inv dest -> Buffer_Inv src -> position src <= n <= length_ src ->
  n <= maximum_size dest -> can_grow dest ->
  exists dest', SOPC_Buffer_CopyWithLength (Some dest) (Some src) n = Ret (SOPC_STATUS_OK, Some dest') /\
    Buffer_Inv dest' /\ content dest' = take (Z.to_nat n) (content src) /\ position dest' = position src /\
    maximum_size dest' = maximum_size dest.
Proof.
  intros Id Is Hn Hm G. pose proof Is as [_ ? _ _ _ _]. destruct (CopyWithLength_spec dest src n Id Is) as (st & d' & -> & I' & M' & [(-> & C & P)|(_ & _ & N)]); [lia|by exists d'|].
  by destruct N.
Qed.

(** [SOPC_Buffer_ReadFrom] returns the number of bytes it moved, [n] or what
    the source has left when that is less; these bytes follow the data of the
    buffer and are consumed from the source.  It refuses, with -1, to move more
    bytes than the block can hold, and changes nothing then. *)
Theorem buffer_read_from b s n :
  Buffer_Inv b -> Buffer_Inv s -> 0 <= n ->
  let m := Z.min n (zlen (upcoming s)) in
  if current_size b - length_ b <? n
  then SOPC_Buffer_ReadFrom (Some b) (Some s) n = Ret (-1, Some b, Some s)
  else exists b', SOPC_Buffer_ReadFrom (Some b) (Some s) n = Ret (m, Some b', Some (advance s m)) /\
    Buffer_Inv b' /\ content b' = content b ++ take (Z.to_nat m) (upcoming s) /\ position b' = position b /\ maximum_size b' = maximum_size b.
Proof.
  intros Ib Is Hn m. unfold SOPC_Buffer_ReadFrom. pose proof (zlen_upcoming s Is) as Us.
  pose proof Ib as [[bd [Hbd Hlb]] ? ? ? ? ?]. pose proof Is as [[sd [Hsd Hls]] ? ? ? ? ?].
  rewrite (u32_small (current_size b - length_ b)), (u32_small (length_ s - position s)) by lia.
  destruct (Z.ltb_spec (current_size b - length_ b) n); [done|].
  replace (if length_ s - position s <? n then length_ s - position s else n) with m
    by (unfold m; rewrite Us; destruct (Z.ltb_spec (length_ s - position s) n); lia).
  assert (0 <= m <= n /\ m <= length_ s - position s) as Hm by (unfold m; lia). rewrite Hbd, Hsd. cbn [rbind deref].
  unfold memcpy. rewrite mem_read_ok by lia. cbn [rbind].
  assert (take (Z.to_nat m) (drop (Z.to_nat (position s)) sd) = take (Z.to_nat m) (upcoming s)) as E.
  { unfold upcoming, content, bytes. rewrite Hsd. simpl. rewrite skipn_firstn_comm, take_take, Nat.min_l; [done|lia]. }
  rewrite E. set (bs := take (Z.to_nat m) (upcoming s)). assert (zlen bs = m) as Lbs by (apply zlen_take; lia).
  rewrite mem_write_ok by lia. cbn [rbind]. rewrite !u32_small by lia.
  eexists. split; [done|]. split_and!.
  - split; simpl; try lia. exists (splice bd (length_ b) bs). split; [done|]. rewrite zlen_splice; lia.
  - unfold content, bytes. simpl. rewrite Hbd. simpl. rewrite <- Lbs, take_splice_end by lia. done.
  - done.
  - done.
Qed.

(** ** Sequences of calls *)

(** The calls that change a buffer, with their arguments.  A source holds the
    bytes that are written; a destination is [NULL] or a block of memory.  The data of
    another buffer are copied, or moved from it ([OpReadFrom]) or to it ([OpMoveTo]). *)
Inductive buffer_op :=
| OpWrite (src : block) (count : Z)
| OpRead (dst : ptr block) (count : Z)
| OpSetPosition (p : Z)
| OpSetDataLength (n : Z)
| OpReset
| OpResetAfterPosition (p : Z)
| OpCopy (src : SOPC_Buffer)
| OpCopyWithLength (src : SOPC_Buffer) (n : Z)
| OpReadFrom (src : SOPC_Buffer) (n : Z)
| OpMoveTo (dest : SOPC_Buffer) (n : Z).

Definition run_op (op : buffer_op) (b : SOPC_Buffer) : res (SOPC_ReturnStatus * ptr SOPC_Buffer) :=
  match op with
  | OpWrite src n => SOPC_Buffer_Write (Some b) (Some src) n
  | OpRead dst n => let* (status, _, buf) := SOPC_Buffer_Read dst (Some b) n in Ret (status, buf)
  | OpSetPosition p => Ret (SOPC_Buffer_SetPosition (Some b) p)
  | OpSetDataLength n => SOPC_Buffer_SetDataLength (Some b) n
  | OpReset => let* buf := SOPC_Buffer_Reset (Some b) in Ret (SOPC_STATUS_OK, buf)
  | OpResetAfterPosition p => SOPC_Buffer_ResetAfterPosition (Some b) p
  | OpCopy src => SOPC_Buffer_Copy (Some b) (Some src)
  | OpCopyWithLength src n => SOPC_Buffer_CopyWithLength (Some b) (Some src) n
  | OpReadFrom src n => let* (_, buf, _) := SOPC_Buffer_ReadFrom (Some b) (Some src) n in Ret (SOPC_STATUS_OK, buf)
  | OpMoveTo dest n => let* (_, _, buf) := SOPC_Buffer_ReadFrom (Some dest) (Some b) n in Ret (SOPC_STATUS_OK, buf)
  end.

Fixpoint run_ops (ops : list buffer_op) (b : SOPC_Buffer) : res SOPC_Buffer :=
  match ops with
  | [] => Ret b
  | op :: ops =>
      let* (_, buf) := run_op op b in
      let* b := deref buf in
      run_ops ops b
  end.

(** The arguments are as large as the caller says. *)
Definition op_ok (op : buffer_op) : Prop :=
  match op with
  | OpWrite src n => 0 <= n <= zlen src /\ n < 2 ^ 31
  | OpRead (Some dst) n => 0 <= n <= zlen dst /\ n < 2 ^ 31
  | OpRead NULL n => 0 <= n < 2 ^ 31
  | OpSetPosition p | OpSetDataLength p | OpResetAfterPosition p => 0 <= p
  | OpReset => True
  | OpCopy src => Buffer_Inv src
  | OpCopyWithLength src n | OpReadFrom src n | OpMoveTo src n => Buffer_Inv src /\ 0 <= n
  end.

Lemma run_op_inv op b :
  Buffer_Inv b -> small b -> op_ok op ->
  exists st b', run_op op b = Ret (st, Some b') /\ Buffer_Inv b' /\ maximum_size b' = maximum_size b.
Proof.
  intros I S O. unfold small in S. pose proof I as [[d [Hd Hl]] ? ? ? ? ?]. destruct op as [src n|dst n|p|n| |p|src|src n|src n|dest n]; cbn [run_op op_ok] in *.
  - destruct (SOPC_Buffer_Write_spec b src n I) as (st & b' & -> & R & _); [lia|lia|].
    do 2 eexists. split; [done|]. destruct R as [[_ W]|[_ ->]]; [|done]. by destruct W.
  - destruct dst as [dst|].
    + rewrite SOPC_Buffer_Read_spec by (done || lia). destruct (Z.leb_spec n (zlen (upcoming b))); simpl; do 2 eexists; (split; [done|]); [|done].
      split; [|done]. apply Buffer_Inv_advance; [done|lia].
    + unfold SOPC_Buffer_Read. rewrite Hd, u32_small by lia.
      destruct (Z.leb_spec (position b + n) (length_ b)); simpl; do 2 eexists; (split; [done|]); [|done].
      split; [|done]. apply (Buffer_Inv_advance b n); [done|]. rewrite zlen_upcoming by done. lia.
  - unfold SOPC_Buffer_SetPosition. rewrite Hd. simpl.
    destruct (Z.leb_spec p (length_ b)); do 2 eexists; (split; [done|]); [|done].
    split; [split; simpl; try done; try lia; eauto|done].
  - unfold SOPC_Buffer_SetDataLength. rewrite Hd.
    destruct (Z.leb_spec n (current_size b)); [|do 2 eexists; split; done].
    destruct (Z.leb_spec (position b) n); [|do 2 eexists; split; done]. simpl.
    destruct (Z.ltb_spec n (length_ b)).
    + destruct (memset0_ok d n (length_ b - n)) as (d' & -> & L & _); [lia..|]. simpl. do 2 eexists. split; [done|].
      split; [split; simpl; try lia|done]. exists d'. split; [done|lia].
    + simpl. do 2 eexists. split; [done|]. split; [split; simpl; try lia|done]. eauto.
  - unfold SOPC_Buffer_Reset. rewrite Hd. destruct (memset0_ok d 0 (current_size b)) as (d' & -> & L & _); [lia..|]. simpl.
    do 2 eexists. split; [done|]. split; [split; simpl; try lia|done]. exists d'. split; [done|lia].
  - unfold SOPC_Buffer_ResetAfterPosition. rewrite Hd.
    destruct (Z.leb_spec p (length_ b)); [|do 2 eexists; split; done]. rewrite u32_small by lia.
    destruct (memset0_ok d p (current_size b - p)) as (d' & -> & L & _); [lia..|]. simpl.
    do 2 eexists. split; [done|]. split; [split; simpl; try lia|done]. exists d'. split; [done|lia].
  - unfold SOPC_Buffer_Copy. pose proof O as [_ ? _ _ _ _]. destruct (CopyWithLength_spec b src (length_ src) I O) as (st & b' & -> & I' & M' & _); [lia|by exists st, b'].
  - destruct O as [Os Hn]. destruct (CopyWithLength_spec b src n I Os Hn) as (st & b' & -> & I' & M' & _). by exists st, b'.
  - destruct O as [Os Hn]. pose proof (buffer_read_from b src n I Os Hn) as X. cbv zeta in X. destruct (_ <? _); [rewrite X; by do 2 eexists|].
    destruct X as (b' & -> & I' & _ & _ & M'). by do 2 eexists.
  - destruct O as [Os Hn]. pose proof (buffer_read_from dest b n Os I Hn) as X. cbv zeta in X. destruct (_ <? _); [rewrite X; by do 2 eexists|].
    destruct X as (b' & -> & _). cbn [rbind]. do 2 eexists. split; [done|]. split; [|done]. apply Buffer_Inv_advance; [done|]. pose proof (zlen_nonneg (upcoming b)). lia.
Qed.

(** C29: on a buffer that satisfies the invariant (the data fit in the block, the
    position is within the data, the block within the maximum size) and whose maximum
    size is at most 2^31, every sequence of writes, reads, changes of the position or of
    the length, resets, copies and moves from or to another buffer returns, without any
    access outside of the block, and keeps the invariant and the maximum size.  The
    arguments have the announced sizes, and the counts of the reads and writes are below
    2^31: with a count of 2^32 minus the position a read leaves the block
    ([buffer_read_count_wraps]). *)
Theorem buffer_ops_preserve_invariant ops b :
  Buffer_Inv b -> small b -> Forall op_ok ops ->
  exists b', run_ops ops b = Ret b' /\ Buffer_Inv b' /\ maximum_size b' = maximum_size b.
Proof.
  intros I S F. revert b I S. induction F as [|op ops O F IH]; intros b I S; simpl; [eauto|].
  destruct (run_op_inv op b I S O) as (st & b1 & -> & I1 & M1). simpl.
  destruct (IH b1 I1) as (b2 & -> & I2 & M2); [unfold small in *; by rewrite M1|].
  exists b2. split_and!; congruence.
Qed.

(** Going back to the position where a write started. *)
Lemma SetPosition_back b bs b' :
  Buffer_Inv b -> wrote b bs b' ->
  SOPC_Buffer_SetPosition (Some b') (position b) = (SOPC_STATUS_OK, Some (set_position b' (position b))).
Proof.
  intros I W. pose proof (zlen_nonneg bs). destruct I, W. destruct wr_inv0 as [[d [Hd _]] ? ? ? ? ?].
  unfold SOPC_Buffer_SetPosition. rewrite Hd. simpl. by replace (position b <=? length_ b') with true by lia.
Qed.

(** Writing again over the beginning of what was written, then going back to the
    end. *)
Lemma wrote_patch b x w b2 y b3 :
  Buffer_Inv b -> wrote b (x ++ w) b2 -> zlen x = zlen y -> wrote (set_position b2 (position b)) y b3 ->
  SOPC_Buffer_SetPosition (Some b3) (position b2) = (SOPC_STATUS_OK, Some (set_position b3 (position b2))) /\
  wrote b (y ++ w) (set_position b3 (position b2)).
Proof.
  intros I W2 E W3. pose proof (zlen_content b I) as L. pose proof (zlen_nonneg w). pose proof (zlen_nonneg y).
  pose proof (zlen_content b2 (wr_inv _ _ _ W2)) as L2. pose proof (zlen_content b3 (wr_inv _ _ _ W3)) as L3.
  destruct I, W2, W3. simpl in *. rewrite zlen_app in *. change (content (set_position b2 (position b))) with (content b2) in *.
  assert (length_ b3 = length_ b2) as L'.
  { destruct wr_inv0. rewrite wr_content1, zlen_splice_max in L3 by lia. lia. }
  split.
  - destruct wr_inv1 as [[d [Hd _]] ? ? ? ? ?]. destruct wr_inv0. unfold SOPC_Buffer_SetPosition. rewrite Hd. simpl.
    by replace (position b2 <=? length_ b3) with true by lia.
  - split; simpl; rewrite ?zlen_app; try lia.
    + destruct wr_inv1, wr_inv0. split; simpl; try done; lia.
    + change (content (set_position b3 (position b2))) with (content b3).
      rewrite wr_content1, wr_content0. apply splice_patch; [lia|done].
Qed.

(** A write of [n] bytes with enough room (memory available up to the maximum
    size) returns OK; the bytes replace those at the position, the rest of the
    data is kept, the position moves after them; without room the buffer is
    left as it was.  Reading back from the previous position gives the bytes. *)
Theorem buffer_write_read_back b src n dst :
  Buffer_Inv b -> 0 <= n <= zlen src -> position b + n < 2 ^ 32 -> zlen dst = n ->
  (SOPC_Buffer_Write (Some b) (Some src) n = Ret (SOPC_STATUS_OUT_OF_MEMORY, Some b) /\
     ~ (position b + n <= maximum_size b /\ can_grow b)) \/
  exists b' b'', SOPC_Buffer_Write (Some b) (Some src) n = Ret (SOPC_STATUS_OK, Some b') /\
    content b' = splice (content b) (position b) (take (Z.to_nat n) src) /\ position b' = position b + n /\
    SOPC_Buffer_SetPosition (Some b') (position b) = (SOPC_STATUS_OK, Some b'') /\
    SOPC_Buffer_Read (Some dst) (Some b'') n = Ret (SOPC_STATUS_OK, Some (take (Z.to_nat n) src), Some b').
Proof.
  intros I Hn Hp Ld. destruct (SOPC_Buffer_Write_spec b src n I Hn Hp) as (st & b' & E & [[-> W]|[-> ->]] & F).
  - right. exists b', (set_position b' (position b)). pose proof (zlen_take n src ltac:(lia)) as Lt.
    destruct (wrote_upcoming b _ b' I W) as [I' [rest U]]. rewrite (SetPosition_back _ _ _ I W).
    pose proof (wr_position _ _ _ W) as P. rewrite Lt in P. split_and!; try done; [apply W|].
    rewrite SOPC_Buffer_Read_spec; [|done|lia|simpl; lia]. rewrite U, zlen_app, Lt.
    pose proof (zlen_nonneg rest). replace (n <=? n + zlen rest) with true by lia.
    rewrite take_app_length' by (unfold zlen in Lt; lia). rewrite splice_0 by lia.
    do 3 f_equal. destruct b'. unfold advance, set_position. simpl in *. f_equal. lia.
  - left. split; [done|]. intros [A B]. by specialize (F A (or_intror B)).
Qed.

(** The sum of the position and of the count wraps around: on a buffer whose
    position is not zero, reading [2^32 - position] bytes passes the check of the
    length and accesses memory outside of the block. *)
Theorem buffer_read_count_wraps b dst :
  Buffer_Inv b -> 0 < position b ->
  SOPC_Buffer_Read (Some dst) (Some b) (2 ^ 32 - position b) = Fault OutOfBounds.
Proof.
  intros I P. pose proof I as [[d [Hd Hl]] ? ? ? ? ?]. unfold SOPC_Buffer_Read. rewrite Hd.
  replace (position b + (2 ^ 32 - position b)) with (1 * 2 ^ 32) by lia. unfold u32. rewrite Z.mod_mul by lia.
  replace (0 <=? length_ b) with true by lia. unfold memcpy, mem_read.
  replace (position b + (2 ^ 32 - position b) <=? zlen d) with false by lia. by rewrite andb_false_r.
Qed.
End Specs.

(** ** Examples *)

Definition demo_buffer : SOPC_Buffer := mkBuffer 4 4 8 1 3 (Some [x01; x02; x03; x04]).

Lemma demo_buffer_inv : Buffer_Inv demo_buffer.
Proof. split; simpl; try lia. eexists. split; [done|]. done. Qed.

Lemma serving_can_grow b : @can_grow serving_allocator b.
Proof. done. Qed.

Lemma buffer_ops_preserve_invariant_witness :
  let ops := [OpWrite [x05; x06; x07; x08; x09] 5; OpSetPosition 2; OpRead (Some [x00; x00]) 2;
              OpSetDataLength 5; OpResetAfterPosition 3; OpReset; OpCopy demo_buffer; OpCopyWithLength demo_buffer 2;
              OpReadFrom demo_buffer 2; OpMoveTo demo_buffer 1] in
  exists b', @run_ops serving_allocator ops demo_buffer = Ret b' /\ Buffer_Inv b' /\ maximum_size b' = 8.
Proof.
  apply (@buffer_ops_preserve_invariant serving_allocator _ demo_buffer demo_buffer_inv).
  - unfold small. simpl. lia.
  - repeat constructor; try apply demo_buffer_inv; simpl; unfold zlen; simpl; lia.
Defined.

Lemma buffer_write_read_back_witness :
  let src := [x0a; x0b; x0c; x0d; x0e; x0f] in
  (@SOPC_Buffer_Write serving_allocator (Some demo_buffer) (Some src) 6 = Ret (SOPC_STATUS_OUT_OF_MEMORY, Some demo_buffer) /\
     ~ (1 + 6 <= 8 /\ @can_grow serving_allocator demo_buffer)) \/
  exists b' b'', @SOPC_Buffer_Write serving_allocator (Some demo_buffer) (Some src) 6 = Ret (SOPC_STATUS_OK, Some b') /\
    content b' = splice [x01; x02; x03] 1 src /\ position b' = 7 /\
    SOPC_Buffer_SetPosition (Some b') 1 = (SOPC_STATUS_OK, Some b'') /\
    SOPC_Buffer_Read (Some (replicate 6 x00)) (Some b'') 6 = Ret (SOPC_STATUS_OK, Some src, Some b').
Proof.
  intros src. pose proof (@buffer_write_read_back serving_allocator demo_buffer src 6 (replicate 6 x00) demo_buffer_inv) as W.
  apply W; unfold zlen; simpl; lia.
Defined.

Lemma buffer_copy_with_length_witness :
  exists dest', @SOPC_Buffer_CopyWithLength serving_allocator (Some (mkBuffer 2 2 4 0 1 (Some [x0f; x0f]))) (Some demo_buffer) 3 =
    Ret (SOPC_STATUS_OK, Some dest') /\
    Buffer_Inv dest' /\ content dest' = [x01; x02; x03] /\ position dest' = 1 /\ maximum_size dest' = 4.
Proof.
  apply (@buffer_copy_with_length serving_allocator (mkBuffer 2 2 4 0 1 (Some [x0f; x0f])) demo_buffer 3); simpl; try lia.
  - split; simpl; try lia. eexists. split; done.
  - apply demo_buffer_inv.
  - apply serving_can_grow.
Defined.

Lemma buffer_read_from_witness :
  exists b', SOPC_Buffer_ReadFrom (Some (mkBuffer 4 4 4 0 1 (Some [x0f; x00; x00; x00]))) (Some demo_buffer) 3 =
    Ret (2, Some b', Some (advance demo_buffer 2)) /\
    Buffer_Inv b' /\ content b' = [x0f; x02; x03] /\ position b' = 0 /\ maximum_size b' = 4.
Proof.
  apply (buffer_read_from (mkBuffer 4 4 4 0 1 (Some [x0f; x00; x00; x00])) demo_buffer 3).
  - split; simpl; try lia. eexists. split; done.
  - apply demo_buffer_inv.
  - lia.
Defined.

Lemma buffer_read_count_wraps_witness :
  SOPC_Buffer_Read (Some [x00]) (Some demo_buffer) (2 ^ 32 - 1) = Fault OutOfBounds.
Proof. apply (buffer_read_count_wraps demo_buffer [x00] demo_buffer_inv). simpl. lia. Defined.
