(* ===== verification/Codec.v ===== *)
(** * Encoders and decoders: sequencing and specification

    The functions of [sopc_encoder.c] share one shape.  An encoder takes a
    pointer to a value, the buffer and the nesting level, and returns a status
    and the buffer; a decoder also returns the memory of the value it fills.
    This file holds the sequencing of such calls, the specification of their
    results, and the class [Codec] that states what the encoder and the decoder
    of a type promise to the code that calls them. *)

From Stdlib Require Import ZArith Lia.
From Stdlib Require Import Strings.Byte.
From stdpp Require Import prelude.
From S2P Require Import Prelude Common Buffer.

Open Scope Z_scope.

Definition enc_result : Type := res (SOPC_ReturnStatus * ptr SOPC_Buffer).
Definition dec_result (A : Type) : Type := res (SOPC_ReturnStatus * ptr A * ptr SOPC_Buffer).

Definition encoder (A : Type) : Type := ptr A -> ptr SOPC_Buffer -> Z -> enc_result.
Definition decoder (A : Type) : Type := ptr A -> ptr SOPC_Buffer -> Z -> dec_result A.

(** ** Sequencing

    [status = r; if (SOPC_STATUS_OK == status) { status = k; }] *)

Definition and_then (r : enc_result) (k : ptr SOPC_Buffer -> enc_result) : enc_result :=
  let* (status, buf) := r in
  if is_ok status then k buf else Ret (status, buf).

Notation "'let_ok' b ':=' r 'in' k" := (and_then r (fun b => k))
  (at level 10, b name, r at level 200, k at level 200,
   format "'[v' 'let_ok'  b  ':='  r  'in' '/' k ']'") : res_scope.

(** [status = r; if (SOPC_STATUS_OK != status) { status = f(status); }] *)
Definition map_status (f : SOPC_ReturnStatus -> SOPC_ReturnStatus) (r : enc_result) : enc_result :=
  let* (status, buf) := r in
  Ret (if is_ok status then status else f status, buf).

(** How an encoder reports the failure of a write. *)
Definition write_failure (status : SOPC_ReturnStatus) : SOPC_ReturnStatus :=
  match status with
  | SOPC_STATUS_OUT_OF_MEMORY => SOPC_STATUS_WOULD_BLOCK
  | _ => SOPC_STATUS_ENCODING_ERROR
  end.

(** ** Specification of encoders *)

Section Specs.
Context `{Allocator}.

Definition fits (b : SOPC_Buffer) (bs : block) : Prop :=
  position b + zlen bs <= maximum_size b /\ (position b + zlen bs <= current_size b \/ can_grow b).

(** The result [r] of an encoder started on [b]: it returns; what precedes the
    position of [b] is kept; when the status is OK, exactly [bs] was written and
    [ok] holds; conversely the status is OK when [ok] holds and [bs] fits. *)
Definition encodes (b : SOPC_Buffer) (r : enc_result) (bs : block) (ok : Prop) : Prop :=
  exists st b', r = Ret (st, Some b') /\
    (exists bs', wrote b bs' b') /\
    (st = SOPC_STATUS_OK -> wrote b bs b' /\ ok) /\
    (ok -> fits b bs -> st = SOPC_STATUS_OK).

Lemma small_wrote b bs b' : small b -> wrote b bs b' -> small b'.
Proof. unfold small. intros S [? ? ? ? E ?]. by rewrite E. Qed.

Lemma fits_app b bs1 b1 bs2 : wrote b bs1 b1 -> fits b (bs1 ++ bs2) -> fits b1 bs2.
Proof.
  unfold fits, can_grow. intros [? P ? ? M C] [F G]. rewrite zlen_app in *. split; [lia|].
  destruct G as [?|G]; [left; lia|right]. intros n Hn. apply G. lia.
Qed.

Lemma fits_app_l b bs1 bs2 : fits b (bs1 ++ bs2) -> fits b bs1.
Proof. unfold fits. rewrite zlen_app. intros [F G]. pose proof (zlen_nonneg bs2). split; [lia|]. destruct G; [left; lia|by right]. Qed.

Lemma encodes_iff b r bs ok ok' :
  (ok <-> ok') -> encodes b r bs ok -> encodes b r bs ok'.
Proof. intros E (st & b' & -> & W' & W & F). do 2 eexists. split_and!; [done|done| |]; intuition. Qed.

Lemma encodes_and_then_ok b r k bs1 bs2 ok1 ok2 :
  Buffer_Inv b -> small b -> encodes b r bs1 ok1 ->
  (ok1 -> forall b1, Buffer_Inv b1 -> small b1 -> encodes b1 (k (Some b1)) bs2 ok2) ->
  encodes b (and_then r k) (bs1 ++ bs2) (ok1 /\ ok2).
Proof.
  intros I S (st1 & b1 & -> & [bs' W1'] & W1 & F1) Hk. unfold and_then. simpl.
  destruct (is_ok st1) eqn:E1.
  - apply is_ok_true in E1. subst. destruct (W1 eq_refl) as [W O1].
    destruct (Hk O1 b1) as (st2 & b2 & E & [bs'' W2'] & W2 & F2); [by eapply wr_inv|by eapply small_wrote|].
    exists st2, b2. split_and!; [done| |intros ->|].
    + exists (bs1 ++ bs''). by eapply wrote_trans.
    + destruct (W2 eq_refl) as [? ?]. split; [by eapply wrote_trans|done].
    + intros [_ ?] F. apply F2; [done|]. by eapply fits_app.
  - exists st1, b1. split_and!; [done|by eauto|intros ->; done|].
    intros [? _] F. rewrite F1 in E1; [done|done|]. by eapply fits_app_l.
Qed.

Lemma encodes_and_then b r k bs1 bs2 ok1 ok2 :
  Buffer_Inv b -> small b -> encodes b r bs1 ok1 ->
  (forall b1, Buffer_Inv b1 -> small b1 -> encodes b1 (k (Some b1)) bs2 ok2) ->
  encodes b (and_then r k) (bs1 ++ bs2) (ok1 /\ ok2).
Proof. intros. apply encodes_and_then_ok; auto. Qed.

Lemma encodes_seq b r k bs bs1 bs2 (ok ok1 ok2 : Prop) :
  Buffer_Inv b -> small b -> encodes b r bs1 ok1 ->
  (forall b1, Buffer_Inv b1 -> small b1 -> encodes b1 (k (Some b1)) bs2 ok2) ->
  bs = bs1 ++ bs2 -> (ok <-> ok1 /\ ok2) ->
  encodes b (and_then r k) bs ok.
Proof. intros I S Hr Hk -> E. eapply encodes_iff; [symmetry; exact E|]. by apply encodes_and_then. Qed.

Lemma encodes_map_status b f r bs ok :
  (forall s, is_ok s = false -> is_ok (f s) = false) ->
  encodes b r bs ok -> encodes b (map_status f r) bs ok.
Proof.
  intros Hf (st & b' & -> & W' & W & F). unfold map_status. simpl.
  destruct (is_ok st) eqn:E.
  - apply is_ok_true in E. subst. do 2 eexists. split_and!; eauto.
  - do 2 eexists. split_and!; eauto.
    + intros E'. pose proof (Hf st E) as C. by rewrite E' in C.
    + intros ? ?. rewrite F in E; done.
Qed.

Lemma write_failure_not_ok s : is_ok s = false -> is_ok (write_failure s) = false.
Proof. by destruct s. Qed.

Lemma encodes_fail b st bs (ok : Prop) :
  Buffer_Inv b -> is_ok st = false -> ~ ok -> encodes b (Ret (st, Some b)) bs ok.
Proof.
  intros I E N. do 2 eexists. split_and!; [done|eauto with sopc|by intros ->|done].
Qed.

Lemma encodes_skip b (ok : Prop) :
  Buffer_Inv b -> ok -> encodes b (Ret (SOPC_STATUS_OK, Some b)) [] ok.
Proof. intros I ?. do 2 eexists. split_and!; eauto with sopc. Qed.

Lemma encodes_write b src n :
  Buffer_Inv b -> small b -> 0 <= n <= zlen src -> n < 2 ^ 31 ->
  encodes b (SOPC_Buffer_Write (Some b) (Some src) n) (take (Z.to_nat n) src) True.
Proof.
  intros I S Hn Hn'. unfold small in S.
  destruct (SOPC_Buffer_Write_spec b src n I Hn) as (st & b' & -> & R & F).
  { destruct I. lia. }
  do 2 eexists. split; [done|]. unfold fits. rewrite zlen_take by done.
  destruct R as [[-> W]|[-> ->]]; split_and!; eauto with sopc; intuition done.
Qed.

(** ** Specification of decoders *)

(** The result [r] of a decoder started on [b]: it returns, the buffer only
    advances within its data, the memory of the value is [sane], that is, it can
    be cleared, and a value returned with the status OK is [good]. *)
Definition decodes {A} (b : SOPC_Buffer) (r : dec_result A) (sane good : A -> Prop) : Prop :=
  exists st v n, r = Ret (st, Some v, Some (advance b n)) /\
    0 <= n <= zlen (upcoming b) /\ sane v /\ (st = SOPC_STATUS_OK -> good v).

End Specs.

(** ** The contract of a type *)

Class Codec `{Allocator} {cfg : SOPC_Common_EncodingConstants}
    {A : Type} (wr : encoder A) (rd : decoder A) := {
  wire : A -> block;          (* the binary encoding of a value *)
  nests : A -> Z -> Prop;     (* the value can be coded at this level of nesting *)
  wf : A -> Prop;             (* values of the type, with their memory allocated *)
  limits : A -> Prop;         (* the value is within the limits of the decoder *)
  canon : A -> A;             (* the value that its encoding denotes *)
  inited : A -> Prop;         (* memory ready to be filled by the decoder *)
  sane : A -> Prop;           (* memory that the clear function of the type accepts *)

  codec_write : forall v b lvl, wf v -> Buffer_Inv b -> small b ->
    encodes b (wr (Some v) (Some b) lvl) (wire v) (nests v lvl);

  codec_read : forall v v0 b lvl rest, wf v -> limits v -> inited v0 ->
    Buffer_Inv b -> small b -> upcoming b = wire v ++ rest ->
    nests v lvl ->
    (forall n, alloc_ok n = true) ->
    rd (Some v0) (Some b) lvl = Ret (SOPC_STATUS_OK, Some (canon v), Some (advance b (zlen (wire v))));

  codec_safe : forall v0 b lvl, inited v0 -> Buffer_Inv b -> small b ->
    decodes b (rd (Some v0) (Some b) lvl) sane (fun v => wf v /\ limits v /\ nests v lvl);

  codec_inited : forall v0, inited v0 -> sane v0;

  codec_sane : forall v lvl, wf v -> limits v -> nests v lvl -> sane v
}.

Arguments wire {_ _ _} wr {_ _} _.
Arguments nests {_ _ _} wr {_ _} _ _.
Arguments wf {_ _ _} wr {_ _} _.
Arguments limits {_ _ _} wr {_ _} _.
Arguments canon {_ _ _} wr {_ _} _.
Arguments inited {_ _ _} wr {_ _} _.
Arguments sane {_ _ _} wr {_ _} _.

(** What is known of a value that the decoder accepted: it is a value of the
    type, within the limits, that can be encoded again at the same level. *)
Definition accepted `{Allocator} {cfg : SOPC_Common_EncodingConstants} {A} (wr : encoder A) {rd : decoder A}
    `{!Codec wr rd} (lvl : Z) (v : A) : Prop :=
  wf wr v /\ limits wr v /\ nests wr v lvl.

(** ** Reading a block of known size *)

Section Reading.
Context `{Allocator}.

Lemma read_block b dst n :
  Buffer_Inv b -> small b -> zlen dst = n -> n < 2 ^ 31 ->
  SOPC_Buffer_Read (Some dst) (Some b) n =
  if n <=? zlen (upcoming b)
  then Ret (SOPC_STATUS_OK, Some (take (Z.to_nat n) (upcoming b)), Some (advance b n))
  else Ret (SOPC_STATUS_OUT_OF_MEMORY, Some dst, Some b).
Proof.
  intros I S L Hn. pose proof (zlen_nonneg dst). unfold small in S.
  rewrite SOPC_Buffer_Read_spec; [|done|lia|destruct I; lia].
  destruct (Z.leb_spec n (zlen (upcoming b))); [|done].
  rewrite splice_0; [done|]. rewrite zlen_take; lia.
Qed.

Lemma read_block_app b dst bs rest n :
  Buffer_Inv b -> small b -> upcoming b = bs ++ rest -> zlen dst = n -> zlen bs = n -> n < 2 ^ 31 ->
  SOPC_Buffer_Read (Some dst) (Some b) n = Ret (SOPC_STATUS_OK, Some bs, Some (advance b n)).
Proof.
  intros I S E L L' Hn. rewrite read_block by done. rewrite E, zlen_app.
  pose proof (zlen_nonneg rest). replace (n <=? zlen bs + zlen rest) with true by lia.
  do 3 f_equal. rewrite take_app_length'; [done|]. unfold zlen in *. lia.
Qed.

Lemma decodes_fail {A} b st (v : A) (sane good : A -> Prop) :
  is_ok st = false -> sane v -> decodes b (Ret (st, Some v, Some b)) sane good.
Proof.
  intros E ?. exists st, v, 0. rewrite advance_0. pose proof (zlen_nonneg (upcoming b)). split_and!; try done; try lia.
  by intros ->.
Qed.

Lemma decodes_advance {A} b st (v : A) n (good : A -> Prop) :
  0 <= n <= zlen (upcoming b) -> (st = SOPC_STATUS_OK -> good v) ->
  decodes b (Ret (st, Some v, Some (advance b n))) (fun _ => True) good.
Proof. intros. exists st, v, n. done. Qed.

Lemma decodes_intro {A} b st (v : A) n (sane good : A -> Prop) :
  0 <= n <= zlen (upcoming b) -> sane v -> (st = SOPC_STATUS_OK -> good v) ->
  decodes b (Ret (st, Some v, Some (advance b n))) sane good.
Proof. intros. exists st, v, n. done. Qed.

(** A decoder that goes on from where another one stopped. *)
Lemma decodes_after {A} b n (r : dec_result A) sane good :
  Buffer_Inv b -> 0 <= n <= zlen (upcoming b) ->
  decodes (advance b n) r sane good -> decodes b r sane good.
Proof.
  intros I Hn (st & v & m & -> & Hm & Sn & G). rewrite upcoming_advance, zlen_drop in Hm by done || lia.
  exists st, v, (n + m). rewrite advance_advance. split_and!; done || lia.
Qed.

Lemma small_advance b n : small b -> small (advance b n).
Proof. done. Qed.

Lemma encodes_guard {cfg : SOPC_Common_EncodingConstants} b lvl r bs (ok : Prop) :
  Buffer_Inv b ->
  (lvl < max_nested_struct cfg -> encodes b r bs ok) ->
  (ok -> lvl < max_nested_struct cfg) ->
  encodes b (if max_nested_struct cfg <=? lvl then Ret (SOPC_STATUS_INVALID_STATE, Some b) else r) bs ok.
Proof.
  intros I Hr Hok. destruct (Z.leb_spec (max_nested_struct cfg) lvl); [|by apply Hr].
  apply encodes_fail; [done|done|]. intros O. specialize (Hok O). lia.
Qed.

Lemma encodes_block b bs n (ok : Prop) :
  Buffer_Inv b -> small b -> zlen bs = n -> n < 2 ^ 31 -> ok ->
  encodes b (map_status write_failure (SOPC_Buffer_Write (Some b) (Some bs) n)) bs ok.
Proof.
  intros I S <- Hn O. apply encodes_map_status; [apply write_failure_not_ok|].
  apply (encodes_iff _ _ _ True); [done|].
  pose proof (encodes_write b bs (zlen bs) I S) as W.
  rewrite take_ge in W by (unfold zlen; lia). pose proof (zlen_nonneg bs). apply W; lia.
Qed.

End Reading.

(** The nesting level is within the limit, or the decoder stops there. *)
Ltac level_ok := match goal with |- context [max_nested_struct ?cfg <=? ?l] =>
  replace (max_nested_struct cfg <=? l) with false by lia end.

Ltac by_level := match goal with |- context [max_nested_struct ?cfg <=? ?l] =>
  destruct (Z.leb_spec (max_nested_struct cfg) l); [by apply decodes_fail|] end.

(** ** Calling the encoder or the decoder of another type *)

Section Calls.
Context `{Allocator} {cfg : SOPC_Common_EncodingConstants}.
Context {A : Type} (wr : encoder A) {rd : decoder A} `{!Codec wr rd}.

Lemma encodes_sub v b lvl bs (ok : Prop) :
  wf wr v -> Buffer_Inv b -> small b -> bs = wire wr v ->
  (ok <-> nests wr v lvl) ->
  encodes b (wr (Some v) (Some b) lvl) bs ok.
Proof. intros W I S -> E. eapply encodes_iff; [|by apply codec_write]. by rewrite E. Qed.

Lemma decodes_sub v0 b lvl (good sane' : A -> Prop) :
  (forall v, accepted wr lvl v -> good v) -> (forall v, sane wr v -> sane' v) -> inited wr v0 -> Buffer_Inv b -> small b ->
  decodes b (rd (Some v0) (Some b) lvl) sane' good.
Proof.
  intros G Hs Hi I S. destruct (codec_safe v0 b lvl Hi I S) as (st & v & n & -> & Hn & Sn & W).
  apply decodes_intro; auto. intros E. by apply G, W.
Qed.

(** [if (c) { status = wr(&v, buf, lvl); }] *)
Definition write_when (c : bool) (w : encoder A) (v : A) (buf : ptr SOPC_Buffer) (lvl : Z) : enc_result :=
  if c then w (Some v) buf lvl else Ret (SOPC_STATUS_OK, buf).

Lemma encodes_when c v b lvl bs (ok : Prop) :
  (c = true -> wf wr v) -> Buffer_Inv b -> small b -> bs = (if c then wire wr v else []) ->
  (ok <-> (c = true -> nests wr v lvl)) ->
  encodes b (write_when c wr v (Some b) lvl) bs ok.
Proof.
  intros W I S -> E. unfold write_when. destruct c.
  - apply encodes_sub; auto. rewrite E. intuition.
  - apply encodes_skip; [done|]. by apply E.
Qed.

(** [if (SOPC_STATUS_OK == status && c) { status = rd(&field, buf, lvl); }] *)
Definition read_when (c : bool) (status : SOPC_ReturnStatus) (r : decoder A) (field : A)
    (buf : ptr SOPC_Buffer) (lvl : Z) : dec_result A :=
  if is_ok status && c then r (Some field) buf lvl else Ret (status, Some field, buf).

(** [if (SOPC_STATUS_OK == status) { status = rd(&field, buf, lvl); }] *)
Definition read_if (status : SOPC_ReturnStatus) (r : decoder A) (field : A)
    (buf : ptr SOPC_Buffer) (lvl : Z) : dec_result A :=
  read_when true status r field buf lvl.

Lemma safe_next v0 b n lvl :
  inited wr v0 -> Buffer_Inv b -> small b -> 0 <= n <= zlen (upcoming b) ->
  exists st v m, rd (Some v0) (Some (advance b n)) lvl = Ret (st, Some v, Some (advance b m)) /\
    0 <= m <= zlen (upcoming b) /\ sane wr v /\ (st = SOPC_STATUS_OK -> accepted wr lvl v).
Proof.
  intros Hi I S Hn. apply (decodes_after b n _ (sane wr) (accepted wr lvl) I Hn).
  apply codec_safe; [done| |done]. by apply Buffer_Inv_advance.
Qed.

Lemma read_when_safe c st field b n lvl :
  inited wr field -> Buffer_Inv b -> small b -> 0 <= n <= zlen (upcoming b) ->
  exists st' v m, read_when c st rd field (Some (advance b n)) lvl = Ret (st', Some v, Some (advance b m)) /\
    0 <= m <= zlen (upcoming b) /\ sane wr v /\
    (st' = SOPC_STATUS_OK -> st = SOPC_STATUS_OK /\ if c then accepted wr lvl v else v = field).
Proof.
  intros Hi I S Hn. unfold read_when. destruct (is_ok st) eqn:E; [destruct c|]; cbn [andb].
  - apply is_ok_true in E. subst.
    destruct (safe_next field b n lvl) as (st' & v & m & -> & Hm & Sn & G); [done..|].
    exists st', v, m. split_and!; try done; try lia. by intros ->; auto.
  - apply is_ok_true in E. subst. exists SOPC_STATUS_OK, field, n.
    split_and!; try done; try lia. by apply codec_inited.
  - exists st, field, n. split_and!; try done; try lia; [by apply codec_inited|]. by intros ->.
Qed.

Lemma read_if_safe st field b n lvl :
  inited wr field -> Buffer_Inv b -> small b -> 0 <= n <= zlen (upcoming b) ->
  exists st' v m, read_if st rd field (Some (advance b n)) lvl = Ret (st', Some v, Some (advance b m)) /\
    0 <= m <= zlen (upcoming b) /\ sane wr v /\
    (st' = SOPC_STATUS_OK -> st = SOPC_STATUS_OK /\ accepted wr lvl v).
Proof. apply (read_when_safe true). Qed.

Lemma read_next v v0 b bs lvl rest :
  wf wr v -> limits wr v -> inited wr v0 -> Buffer_Inv b -> small b ->
  upcoming b = bs ++ wire wr v ++ rest -> nests wr v lvl -> (forall n, alloc_ok n = true) ->
  rd (Some v0) (Some (advance b (zlen bs))) lvl =
  Ret (SOPC_STATUS_OK, Some (canon wr v), Some (advance b (zlen (bs ++ wire wr v)))).
Proof.
  intros W L Hi I S E N HA.
  destruct (upcoming_advance_app b bs (wire wr v ++ rest)) as [? ?]; [done..|].
  rewrite (codec_read v v0 (advance b (zlen bs)) lvl rest) by auto.
  by rewrite advance_advance, zlen_app.
Qed.

(** The first call of a decoder. *)
Lemma read_first v v0 b lvl rest :
  wf wr v -> limits wr v -> inited wr v0 -> Buffer_Inv b -> small b ->
  upcoming b = wire wr v ++ rest -> nests wr v lvl -> (forall n, alloc_ok n = true) ->
  rd (Some v0) (Some b) lvl =
  Ret (SOPC_STATUS_OK, Some (canon wr v), Some (advance b (zlen (wire wr v)))).
Proof. intros. by rewrite (codec_read v v0 b lvl rest). Qed.

Lemma read_when_next c v v0 b bs lvl rest :
  (c = true -> wf wr v) -> (c = true -> limits wr v) -> inited wr v0 -> Buffer_Inv b -> small b ->
  upcoming b = bs ++ (if c then wire wr v else []) ++ rest -> (c = true -> nests wr v lvl) ->
  (forall n, alloc_ok n = true) ->
  read_when c SOPC_STATUS_OK rd v0 (Some (advance b (zlen bs))) lvl =
  Ret (SOPC_STATUS_OK, Some (if c then canon wr v else v0),
       Some (advance b (zlen (bs ++ if c then wire wr v else [])))).
Proof.
  intros W L Hi I S E N HA. unfold read_when. cbn [is_ok andb].
  destruct c; [|by rewrite app_nil_r]. by rewrite (read_next v v0 b bs lvl rest) by auto.
Qed.

Lemma read_if_next v v0 b bs lvl rest :
  wf wr v -> limits wr v -> inited wr v0 -> Buffer_Inv b -> small b ->
  upcoming b = bs ++ wire wr v ++ rest -> nests wr v lvl ->
  (forall n, alloc_ok n = true) ->
  read_if SOPC_STATUS_OK rd v0 (Some (advance b (zlen bs))) lvl =
  Ret (SOPC_STATUS_OK, Some (canon wr v), Some (advance b (zlen (bs ++ wire wr v)))).
Proof. intros. by apply (read_when_next true v v0 b bs lvl rest). Qed.


(** ** Consequences of the contract *)

(** Writing a value, then reading it from where it was written. *)
Lemma codec_roundtrip v v0 b lvl :
  wf wr v -> limits wr v -> inited wr v0 -> nests wr v lvl -> Buffer_Inv b -> small b ->
  position b + zlen (wire wr v) <= maximum_size b -> (forall n, alloc_ok n = true) ->
  exists b' b'', wr (Some v) (Some b) lvl = Ret (SOPC_STATUS_OK, Some b') /\
    content b' = splice (content b) (position b) (wire wr v) /\
    SOPC_Buffer_SetPosition (Some b') (position b) = (SOPC_STATUS_OK, Some b'') /\
    rd (Some v0) (Some b'') lvl = Ret (SOPC_STATUS_OK, Some (canon wr v), Some b').
Proof.
  intros W L Hi N I S F HA. destruct (codec_write v b lvl W I S) as (st & b' & E & _ & HW & HF).
  assert (st = SOPC_STATUS_OK) as -> by (apply HF; [done|]; split; [done|]; right; intros n _; apply HA).
  destruct (HW eq_refl) as [Wr _]. exists b', (set_position b' (position b)).
  destruct (wrote_upcoming b _ b' I Wr) as [I'' [rest U]].
  split_and!; [done|apply Wr|by eapply SetPosition_back|].
  rewrite (codec_read v v0 _ lvl rest) by (done || unfold small in *; simpl; by rewrite (wr_maximum _ _ _ Wr)).
  do 3 f_equal. pose proof (wr_position _ _ _ Wr) as P. destruct b'. unfold advance, set_position. simpl in *. f_equal. lia.
Qed.

(** A value that was decoded can be encoded at the same level, and its encoding
    is decoded to its canonical form. *)
Lemma codec_reencode v v0 v1 b b1 b2 lvl :
  inited wr v0 -> inited wr v1 -> Buffer_Inv b -> small b ->
  rd (Some v0) (Some b) lvl = Ret (SOPC_STATUS_OK, Some v, b1) ->
  Buffer_Inv b2 -> small b2 -> position b2 + zlen (wire wr v) <= maximum_size b2 ->
  (forall n, alloc_ok n = true) ->
  exists b3 b4, wr (Some v) (Some b2) lvl = Ret (SOPC_STATUS_OK, Some b3) /\
    SOPC_Buffer_SetPosition (Some b3) (position b2) = (SOPC_STATUS_OK, Some b4) /\
    rd (Some v1) (Some b4) lvl = Ret (SOPC_STATUS_OK, Some (canon wr v), Some b3).
Proof.
  intros Hi Hi1 I S E I2 S2 F HA. destruct (codec_safe v0 b lvl Hi I S) as (st & v' & n & E' & _ & _ & G).
  rewrite E in E'. simplify_eq. destruct (G eq_refl) as (W & L & N).
  destruct (codec_roundtrip v' v1 b2 lvl W L Hi1 N I2 S2 F HA) as (b3 & b4 & ? & _ & ? & ?). eauto.
Qed.

(** No encoding is a prefix of the encoding of a value with another meaning. *)
Lemma codec_prefix_free v1 v2 v0 r1 r2 lvl :
  wf wr v1 -> wf wr v2 -> limits wr v1 -> limits wr v2 -> nests wr v1 lvl -> nests wr v2 lvl -> inited wr v0 ->
  (forall n, alloc_ok n = true) -> zlen (wire wr v1 ++ r1) <= 2 ^ 31 ->
  wire wr v1 ++ r1 = wire wr v2 ++ r2 -> canon wr v1 = canon wr v2 /\ r1 = r2.
Proof.
  intros W1 W2 L1 L2 N1 N2 Hi HA Hz E. set (bs := wire wr v1 ++ r1) in *.
  pose proof (zlen_nonneg bs).
  destruct (SOPC_Buffer_Attach (Some bs) (zlen bs)) as [b|] eqn:Eb; [|by unfold SOPC_Buffer_Attach in Eb; rewrite HA in Eb].
  destruct (SOPC_Buffer_Attach_spec bs (zlen bs) b) as (I & U & M); [lia|done|done|].
  assert (small b) as S by (unfold small; lia).
  pose proof (codec_read v1 v0 b lvl r1 W1 L1 Hi I S U N1 HA) as E1.
  rewrite E in U. pose proof (codec_read v2 v0 b lvl r2 W2 L2 Hi I S U N2 HA) as E2.
  rewrite E1 in E2. injection E2 as Ec Ez. split; [done|].
  unfold bs in E. apply app_inj_1 in E as [_ ?]; [done|]. unfold zlen in Ez. lia.
Qed.

End Calls.

#[export] Hint Resolve small_advance : sopc.
