(* ===== verification/EncScalar.v ===== *)
(** * Binary encoding of the scalar types

    Model of the first part of [src/Common/opcua_types/sopc_encoder.c]: byte
    order conversion, Boolean, integers, floating point numbers, DateTime and
    StatusCode, with the byte swapping macros of [sopc_encoder.h].

    Integers are values of [Z] within their range; floating point numbers are
    given by their IEEE 754 bits.  The functions named [..._WriteAux] and
    [..._ReadAux] of the source only cast their argument to the type of the
    function they call, and are the same function here. *)

From Stdlib Require Import ZArith Lia Btauto.
From Stdlib Require Import Strings.Byte.
From stdpp Require Import prelude.
From S2P Require Import Prelude Common Buffer Codec.

Open Scope Z_scope.

(** ** Byte swapping macros *)

Definition SWAP_2_BYTES (x : Z) : Z :=
  u16 (Z.lor (Z.shiftl (Z.land x 0x00FF) 8) (Z.shiftr (Z.land x 0xFF00) 8)).

Definition SWAP_4_BYTES (x : Z) : Z :=
  Z.lor (Z.lor (Z.lor (Z.shiftl (Z.land x 0x000000FF) 24)
                      (Z.shiftl (Z.land x 0x0000FF00) 8))
               (Z.shiftr (Z.land x 0xFF000000) 24))
        (Z.shiftr (Z.land x 0x00FF0000) 8).

Definition SWAP_8_BYTES (x : Z) : Z :=
  Z.lor (Z.lor (Z.lor (Z.lor (Z.lor (Z.lor (Z.lor
    (Z.shiftl (Z.land x 0x00000000000000FF) 56)
    (Z.shiftl (Z.land x 0x000000000000FF00) 40))
    (Z.shiftl (Z.land x 0x0000000000FF0000) 24))
    (Z.shiftl (Z.land x 0x00000000FF000000) 8))
    (Z.shiftr (Z.land x 0xFF00000000000000) 56))
    (Z.shiftr (Z.land x 0x00FF000000000000) 40))
    (Z.shiftr (Z.land x 0x0000FF0000000000) 24))
    (Z.shiftr (Z.land x 0x000000FF00000000) 8).

Definition SWAP_2_DWORDS (x : Z) : Z :=
  Z.lor (Z.shiftl (Z.land x 0x00000000FFFFFFFF) 32)
        (Z.shiftr (Z.land x 0xFFFFFFFF00000000) 32).

(** The byte of rank [k] of [x], and a disjunction of such bytes in order. *)
Definition nth_byte (x k : Z) : Z := (x / 2 ^ (8 * k)) mod 256.

Lemma nth_byte_range x k : 0 <= nth_byte x k < 256.
Proof. apply Z.mod_pos_bound. lia. Qed.

Lemma land_nth_byte_shl x k m :
  0 <= k -> 0 <= m -> Z.shiftl (Z.land x (Z.shiftl 255 (8 * k))) m = Z.shiftl (nth_byte x k) (8 * k + m).
Proof. intros. rewrite land_byte_mask, Z.shiftl_shiftl by lia. done. Qed.

Lemma land_nth_byte_shr x k m :
  0 <= k -> 0 <= m <= 8 * k ->
  Z.shiftr (Z.land x (Z.shiftl 255 (8 * k))) m = Z.shiftl (nth_byte x k) (8 * k - m).
Proof. intros. rewrite land_byte_mask, Z.shiftr_shiftl_l by lia. done. Qed.

Lemma lor_bytes a x k m :
  0 <= m -> 0 <= x < 256 * 2 ^ m -> Z.lor (Z.shiftl (nth_byte a k) (m + 8)) x = nth_byte a k * 2 ^ (m + 8) + x.
Proof.
  intros. apply lor_field; [lia|]. rewrite Z.pow_add_r by lia. change (2 ^ 8) with 256. lia.
Qed.

Lemma be_val_le_bytes_cons n x :
  be_val (le_bytes (S n) x) = nth_byte x 0 * 2 ^ (8 * Z.of_nat n) + be_val (le_bytes n (x / 256)).
Proof.
  unfold be_val. cbn [le_bytes]. rewrite reverse_cons.
  rewrite le_val_app, length_reverse, length_le_bytes. cbn [le_val]. rewrite b2z_z2b.
  unfold nth_byte. simpl (8 * 0). rewrite Z.div_1_r. lia.
Qed.

Lemma nth_byte_div x k : 0 <= k -> nth_byte (x / 256) k = nth_byte x (k + 1).
Proof.
  intros. unfold nth_byte. rewrite Z.div_div by lia. do 2 f_equal.
  change 256 with (2 ^ 8). rewrite <- Z.pow_add_r by lia. f_equal. lia.
Qed.

Lemma be_val_nil x : be_val (le_bytes 0 x) = 0.
Proof. done. Qed.

Ltac expand_be_val :=
  rewrite !be_val_le_bytes_cons, be_val_nil, !nth_byte_div by lia;
  repeat match goal with |- context [nth_byte ?x (?a + ?b)] =>
    let c := eval compute in (a + b) in change (a + b) with c end;
  repeat match goal with |- context [2 ^ (8 * Z.of_nat ?n)] =>
    let c := eval compute in (2 ^ (8 * Z.of_nat n)) in change (2 ^ (8 * Z.of_nat n)) with c end.

Ltac field_ranges x :=
  pose proof (nth_byte_range x 0); pose proof (nth_byte_range x 1);
  pose proof (nth_byte_range x 2); pose proof (nth_byte_range x 3);
  pose proof (nth_byte_range x 4); pose proof (nth_byte_range x 5);
  pose proof (nth_byte_range x 6); pose proof (nth_byte_range x 7).

(** Rewrites the masks of the macros to the bytes they select. *)
Ltac select_bytes :=
  change 0x00000000000000FF with (Z.shiftl 255 (8 * 0));
  change 0x000000000000FF00 with (Z.shiftl 255 (8 * 1));
  change 0x0000000000FF0000 with (Z.shiftl 255 (8 * 2));
  change 0x00000000FF000000 with (Z.shiftl 255 (8 * 3));
  change 0x000000FF00000000 with (Z.shiftl 255 (8 * 4));
  change 0x0000FF0000000000 with (Z.shiftl 255 (8 * 5));
  change 0x00FF000000000000 with (Z.shiftl 255 (8 * 6));
  change 0xFF00000000000000 with (Z.shiftl 255 (8 * 7));
  rewrite !land_nth_byte_shl, !land_nth_byte_shr by lia;
  repeat match goal with |- context [Z.shiftl (nth_byte ?x ?k) ?n] =>
    progress (let c := eval compute in n in change n with c) end;
  rewrite ?Z.shiftl_0_r.

Lemma SWAP_2_BYTES_spec x : SWAP_2_BYTES x = be_val (le_bytes 2 x).
Proof.
  unfold SWAP_2_BYTES. select_bytes. field_ranges x. rewrite lor_field by lia.
  expand_be_val. unfold u16. rewrite Z.mod_small; lia.
Qed.

Lemma SWAP_4_BYTES_spec x : SWAP_4_BYTES x = be_val (le_bytes 4 x).
Proof.
  unfold SWAP_4_BYTES. select_bytes. field_ranges x.
  assert (forall a b c d, Z.lor (Z.lor (Z.lor a b) c) d = Z.lor a (Z.lor b (Z.lor d c))) as E.
  { intros. apply Z.bits_inj'. intros. rewrite !Z.lor_spec. btauto. }
  rewrite E. clear E.
  rewrite (lor_field (nth_byte x 2) _ 8) by lia.
  rewrite (lor_field (nth_byte x 1) _ 16) by lia.
  rewrite (lor_field (nth_byte x 0) _ 24) by lia.
  expand_be_val. lia.
Qed.

Lemma SWAP_8_BYTES_spec x : SWAP_8_BYTES x = be_val (le_bytes 8 x).
Proof.
  unfold SWAP_8_BYTES. select_bytes. field_ranges x.
  assert (forall a b c d e f g h,
    Z.lor (Z.lor (Z.lor (Z.lor (Z.lor (Z.lor (Z.lor a b) c) d) e) f) g) h
    = Z.lor a (Z.lor b (Z.lor c (Z.lor d (Z.lor h (Z.lor g (Z.lor f e))))))) as E.
  { intros. apply Z.bits_inj'. intros. rewrite !Z.lor_spec. btauto. }
  rewrite E. clear E.
  rewrite (lor_field (nth_byte x 6) _ 8) by lia.
  rewrite (lor_field (nth_byte x 5) _ 16) by lia.
  rewrite (lor_field (nth_byte x 4) _ 24) by lia.
  rewrite (lor_field (nth_byte x 3) _ 32) by lia.
  rewrite (lor_field (nth_byte x 2) _ 40) by lia.
  rewrite (lor_field (nth_byte x 1) _ 48) by lia.
  rewrite (lor_field (nth_byte x 0) _ 56) by lia.
  expand_be_val. lia.
Qed.

Lemma SWAP_2_DWORDS_spec x :
  in_u 64 x -> SWAP_2_DWORDS x = (x mod 2 ^ 32) * 2 ^ 32 + x / 2 ^ 32.
Proof.
  intros Hx. unfold in_u in Hx. unfold SWAP_2_DWORDS.
  change 0xFFFFFFFF00000000 with (Z.shiftl (Z.ones 32) 32).
  change 0x00000000FFFFFFFF with (Z.ones 32).
  rewrite Z.shiftr_land, Z.shiftr_shiftl_l, Z.shiftl_0_r, Z.shiftr_div_pow2 by lia.
  rewrite !Z.land_ones by lia.
  assert (0 <= x / 2 ^ 32 < 2 ^ 32) as D.
  { split; [apply Z.div_pos; lia | apply Z.div_lt_upper_bound; lia]. }
  rewrite (Z.mod_small (x / 2 ^ 32)) by lia. apply lor_field; lia.
Qed.

(** ** Byte order conversion *)

Section EndianConversion.
Context `{EndiannessCfg}.

Definition endianness_integer_is (e : SOPC_Endianness) : bool :=
  endianness_eqb SOPC_Helper_Endianness_GetInteger e.
Definition endianness_float_is (e : SOPC_Endianness) : bool :=
  endianness_eqb SOPC_Helper_Endianness_GetFloat e.

Definition SOPC_EncodeDecode_Int16 (intv : Z) : res Z :=
  assert! negb (endianness_integer_is SOPC_Endianness_Undefined) in
  if endianness_integer_is SOPC_Endianness_BigEndian
  then Ret (swrap 16 (SWAP_2_BYTES (u16 intv)))
  else Ret intv.

Definition SOPC_EncodeDecode_UInt16 (uintv : Z) : res Z :=
  assert! negb (endianness_integer_is SOPC_Endianness_Undefined) in
  if endianness_integer_is SOPC_Endianness_BigEndian
  then Ret (SWAP_2_BYTES uintv)
  else Ret uintv.

Definition SOPC_EncodeDecode_Int32 (intv : Z) : res Z :=
  assert! negb (endianness_integer_is SOPC_Endianness_Undefined) in
  if endianness_integer_is SOPC_Endianness_BigEndian
  then Ret (swrap 32 (SWAP_4_BYTES (u32 intv)))
  else Ret intv.

Definition SOPC_EncodeDecode_UInt32 (uintv : Z) : res Z :=
  assert! negb (endianness_integer_is SOPC_Endianness_Undefined) in
  if endianness_integer_is SOPC_Endianness_BigEndian
  then Ret (SWAP_4_BYTES uintv)
  else Ret uintv.

Definition SOPC_EncodeDecode_Int64 (intv : Z) : res Z :=
  assert! negb (endianness_integer_is SOPC_Endianness_Undefined) in
  if endianness_integer_is SOPC_Endianness_BigEndian
  then Ret (swrap 64 (SWAP_8_BYTES (u64 intv)))
  else Ret intv.

Definition SOPC_EncodeDecode_UInt64 (uintv : Z) : res Z :=
  assert! negb (endianness_integer_is SOPC_Endianness_Undefined) in
  if endianness_integer_is SOPC_Endianness_BigEndian
  then Ret (SWAP_8_BYTES uintv)
  else Ret uintv.

(** Floating point variables are converted in memory, through an integer of the
    same size. *)
Definition SOPC_EncodeDecode_Float `{Host} (floatv : block) : res block :=
  assert! negb (endianness_float_is SOPC_Endianness_Undefined) in
  let fourBytes := int_of_repr floatv in
  match SOPC_Helper_Endianness_GetFloat with
  | SOPC_Endianness_BigEndian => Ret (int_repr 4 (SWAP_4_BYTES fourBytes))
  | _ => Ret floatv
  end.

Definition SOPC_EncodeDecode_Double `{Host} (doublev : block) : res block :=
  assert! negb (endianness_float_is SOPC_Endianness_Undefined) in
  let eightBytes := int_of_repr doublev in
  match SOPC_Helper_Endianness_GetFloat with
  | SOPC_Endianness_BigEndian => Ret (int_repr 8 (SWAP_8_BYTES eightBytes))
  | SOPC_Endianness_FloatARMMiddleEndian => Ret (int_repr 8 (SWAP_2_DWORDS eightBytes))
  | _ => Ret doublev
  end.

End EndianConversion.

(** ** Encoders and decoders *)

Section Scalars.
Context `{Allocator} `{Host} `{EndiannessCfg} {cfg : SOPC_Common_EncodingConstants}.

Definition SOPC_Byte_Write : encoder Z := fun value buf nestedStructLevel =>
  match value, buf with
  | Some v, Some _ =>
      if max_nested_struct cfg <=? nestedStructLevel then Ret (SOPC_STATUS_INVALID_STATE, buf)
      else map_status write_failure (SOPC_Buffer_Write buf (Some [z2b v]) 1)
  | _, _ => Ret (SOPC_STATUS_INVALID_PARAMETERS, buf)
  end.

(** The byte stored in a one-byte block. *)
Definition byte_at (blk : ptr block) : byte := default x00 (blk ≫= head).

Definition SOPC_Byte_Read : decoder Z := fun value buf nestedStructLevel =>
  match value, buf with
  | Some v, Some _ =>
      if max_nested_struct cfg <=? nestedStructLevel
      then Ret (SOPC_STATUS_INVALID_STATE, value, buf)
      else
        let* (status, blk, buf) := SOPC_Buffer_Read (Some [z2b v]) buf 1 in
        Ret (if is_ok status then status else SOPC_STATUS_ENCODING_ERROR,
             Some (b2z (byte_at blk)), buf)
  | _, _ => Ret (SOPC_STATUS_INVALID_PARAMETERS, value, buf)
  end.

Definition SOPC_Boolean_Write : encoder Z := fun value buf nestedStructLevel =>
  match value, buf with
  | Some v, Some _ =>
      if max_nested_struct cfg <=? nestedStructLevel then Ret (SOPC_STATUS_INVALID_STATE, buf)
      else
        let nestedStructLevel := nestedStructLevel + 1 in
        let encodedValue := if v =? 0 then v else 1 in
        SOPC_Byte_Write (Some encodedValue) buf nestedStructLevel
  | _, _ => Ret (SOPC_STATUS_INVALID_PARAMETERS, buf)
  end.

Definition SOPC_Boolean_Read : decoder Z := fun value buf nestedStructLevel =>
  match value with
  | NULL => Ret (SOPC_STATUS_INVALID_PARAMETERS, value, buf)
  | Some _ =>
      if max_nested_struct cfg <=? nestedStructLevel
      then Ret (SOPC_STATUS_INVALID_STATE, value, buf)
      else
        let nestedStructLevel := nestedStructLevel + 1 in
        let* (status, value, buf) := SOPC_Byte_Read value buf nestedStructLevel in
        Ret (status,
             if is_ok status then option_map (fun v => if negb (v =? 0) then 1 else v) value
             else value,
             buf)
  end.

Definition SOPC_SByte_Write : encoder Z := fun value buf nestedStructLevel =>
  match value, buf with
  | Some v, Some _ =>
      if max_nested_struct cfg <=? nestedStructLevel then Ret (SOPC_STATUS_INVALID_STATE, buf)
      else map_status write_failure (SOPC_Buffer_Write buf (Some [z2b v]) 1)
  | _, _ => Ret (SOPC_STATUS_INVALID_PARAMETERS, buf)
  end.

Definition SOPC_SByte_Read : decoder Z := fun value buf nestedStructLevel =>
  match value, buf with
  | Some v, Some _ =>
      if max_nested_struct cfg <=? nestedStructLevel
      then Ret (SOPC_STATUS_INVALID_STATE, value, buf)
      else
        let* (status, blk, buf) := SOPC_Buffer_Read (Some [z2b v]) buf 1 in
        Ret (if is_ok status then status else SOPC_STATUS_ENCODING_ERROR,
             Some (swrap 8 (b2z (byte_at blk))), buf)
  | _, _ => Ret (SOPC_STATUS_INVALID_PARAMETERS, value, buf)
  end.

Definition SOPC_Int16_Write : encoder Z := fun value buf nestedStructLevel =>
  match value, buf with
  | Some v, Some _ =>
      if max_nested_struct cfg <=? nestedStructLevel then Ret (SOPC_STATUS_INVALID_STATE, buf)
      else
        let* encodedValue := SOPC_EncodeDecode_Int16 v in
        map_status write_failure (SOPC_Buffer_Write buf (Some (int_repr 2 encodedValue)) 2)
  | _, _ => Ret (SOPC_STATUS_INVALID_PARAMETERS, buf)
  end.

Definition SOPC_Int16_Read : decoder Z := fun value buf nestedStructLevel =>
  match value, buf with
  | Some _, Some _ =>
      if max_nested_struct cfg <=? nestedStructLevel
      then Ret (SOPC_STATUS_INVALID_STATE, value, buf)
      else
        let readValue := 0 in
        let* (status, blk, buf) := SOPC_Buffer_Read (Some (int_repr 2 readValue)) buf 2 in
        if is_ok status then
          let* readValue := SOPC_EncodeDecode_Int16 (swrap 16 (int_of_repr (default [] blk))) in
          Ret (status, Some readValue, buf)
        else Ret (SOPC_STATUS_ENCODING_ERROR, value, buf)
  | _, _ => Ret (SOPC_STATUS_INVALID_PARAMETERS, value, buf)
  end.

Definition SOPC_UInt16_Write : encoder Z := fun value buf nestedStructLevel =>
  match value, buf with
  | Some v, Some _ =>
      if max_nested_struct cfg <=? nestedStructLevel then Ret (SOPC_STATUS_INVALID_STATE, buf)
      else
        let* encodedValue := SOPC_EncodeDecode_UInt16 v in
        map_status write_failure (SOPC_Buffer_Write buf (Some (int_repr 2 encodedValue)) 2)
  | _, _ => Ret (SOPC_STATUS_INVALID_PARAMETERS, buf)
  end.

Definition SOPC_UInt16_Read : decoder Z := fun value buf nestedStructLevel =>
  match value, buf with
  | Some v, Some _ =>
      if max_nested_struct cfg <=? nestedStructLevel
      then Ret (SOPC_STATUS_INVALID_STATE, value, buf)
      else
        let* (status, blk, buf) := SOPC_Buffer_Read (Some (int_repr 2 v)) buf 2 in
        let v := int_of_repr (default [] blk) in
        if is_ok status then
          let* v := SOPC_EncodeDecode_UInt16 v in
          Ret (status, Some v, buf)
        else Ret (SOPC_STATUS_ENCODING_ERROR, Some v, buf)
  | _, _ => Ret (SOPC_STATUS_INVALID_PARAMETERS, value, buf)
  end.

Definition SOPC_Int32_Write : encoder Z := fun value buf nestedStructLevel =>
  match value, buf with
  | Some v, Some _ =>
      if max_nested_struct cfg <=? nestedStructLevel then Ret (SOPC_STATUS_INVALID_STATE, buf)
      else
        let* encodedValue := SOPC_EncodeDecode_Int32 v in
        map_status write_failure (SOPC_Buffer_Write buf (Some (int_repr 4 encodedValue)) 4)
  | _, _ => Ret (SOPC_STATUS_INVALID_PARAMETERS, buf)
  end.

Definition SOPC_Int32_Read : decoder Z := fun value buf nestedStructLevel =>
  match value, buf with
  | Some v, Some _ =>
      if max_nested_struct cfg <=? nestedStructLevel
      then Ret (SOPC_STATUS_INVALID_STATE, value, buf)
      else
        let* (status, blk, buf) := SOPC_Buffer_Read (Some (int_repr 4 v)) buf 4 in
        let v := swrap 32 (int_of_repr (default [] blk)) in
        if is_ok status then
          let* v := SOPC_EncodeDecode_Int32 v in
          Ret (status, Some v, buf)
        else Ret (SOPC_STATUS_ENCODING_ERROR, Some v, buf)
  | _, _ => Ret (SOPC_STATUS_INVALID_PARAMETERS, value, buf)
  end.

Definition SOPC_UInt32_Write : encoder Z := fun value buf nestedStructLevel =>
  match value, buf with
  | Some v, Some _ =>
      if max_nested_struct cfg <=? nestedStructLevel then Ret (SOPC_STATUS_INVALID_STATE, buf)
      else
        let* encodedValue := SOPC_EncodeDecode_UInt32 v in
        map_status write_failure (SOPC_Buffer_Write buf (Some (int_repr 4 encodedValue)) 4)
  | _, _ => Ret (SOPC_STATUS_INVALID_PARAMETERS, buf)
  end.

Definition SOPC_UInt32_Read : decoder Z := fun value buf nestedStructLevel =>
  match value, buf with
  | Some v, Some _ =>
      if max_nested_struct cfg <=? nestedStructLevel
      then Ret (SOPC_STATUS_INVALID_STATE, value, buf)
      else
        let* (status, blk, buf) := SOPC_Buffer_Read (Some (int_repr 4 v)) buf 4 in
        let v := int_of_repr (default [] blk) in
        if is_ok status then
          let* v := SOPC_EncodeDecode_UInt32 v in
          Ret (status, Some v, buf)
        else Ret (SOPC_STATUS_ENCODING_ERROR, Some v, buf)
  | _, _ => Ret (SOPC_STATUS_INVALID_PARAMETERS, value, buf)
  end.

Definition SOPC_Int64_Write : encoder Z := fun value buf nestedStructLevel =>
  match value, buf with
  | Some v, Some _ =>
      if max_nested_struct cfg <=? nestedStructLevel then Ret (SOPC_STATUS_INVALID_STATE, buf)
      else
        let* encodedValue := SOPC_EncodeDecode_Int64 v in
        map_status write_failure (SOPC_Buffer_Write buf (Some (int_repr 8 encodedValue)) 8)
  | _, _ => Ret (SOPC_STATUS_INVALID_PARAMETERS, buf)
  end.

Definition SOPC_Int64_Read : decoder Z := fun value buf nestedStructLevel =>
  match value, buf with
  | Some v, Some _ =>
      if max_nested_struct cfg <=? nestedStructLevel
      then Ret (SOPC_STATUS_INVALID_STATE, value, buf)
      else
        let* (status, blk, buf) := SOPC_Buffer_Read (Some (int_repr 8 v)) buf 8 in
        let v := swrap 64 (int_of_repr (default [] blk)) in
        if is_ok status then
          let* v := SOPC_EncodeDecode_Int64 v in
          Ret (status, Some v, buf)
        else Ret (SOPC_STATUS_ENCODING_ERROR, Some v, buf)
  | _, _ => Ret (SOPC_STATUS_INVALID_PARAMETERS, value, buf)
  end.

Definition SOPC_UInt64_Write : encoder Z := fun value buf nestedStructLevel =>
  match value, buf with
  | Some v, Some _ =>
      if max_nested_struct cfg <=? nestedStructLevel then Ret (SOPC_STATUS_INVALID_STATE, buf)
      else
        let* encodedValue := SOPC_EncodeDecode_UInt64 v in
        map_status write_failure (SOPC_Buffer_Write buf (Some (int_repr 8 encodedValue)) 8)
  | _, _ => Ret (SOPC_STATUS_INVALID_PARAMETERS, buf)
  end.

Definition SOPC_UInt64_Read : decoder Z := fun value buf nestedStructLevel =>
  match value, buf with
  | Some v, Some _ =>
      if max_nested_struct cfg <=? nestedStructLevel
      then Ret (SOPC_STATUS_INVALID_STATE, value, buf)
      else
        let* (status, blk, buf) := SOPC_Buffer_Read (Some (int_repr 8 v)) buf 8 in
        let v := int_of_repr (default [] blk) in
        if is_ok status then
          let* v := SOPC_EncodeDecode_UInt64 v in
          Ret (status, Some v, buf)
        else Ret (SOPC_STATUS_ENCODING_ERROR, Some v, buf)
  | _, _ => Ret (SOPC_STATUS_INVALID_PARAMETERS, value, buf)
  end.

Definition SOPC_Float_Write : encoder Z := fun value buf nestedStructLevel =>
  match value, buf with
  | Some v, Some _ =>
      if max_nested_struct cfg <=? nestedStructLevel then Ret (SOPC_STATUS_INVALID_STATE, buf)
      else
        let* encodedValue := SOPC_EncodeDecode_Float (float_repr v) in
        map_status write_failure (SOPC_Buffer_Write buf (Some encodedValue) 4)
  | _, _ => Ret (SOPC_STATUS_INVALID_PARAMETERS, buf)
  end.

Definition SOPC_Float_Read : decoder Z := fun value buf nestedStructLevel =>
  match value, buf with
  | Some v, Some _ =>
      if max_nested_struct cfg <=? nestedStructLevel
      then Ret (SOPC_STATUS_INVALID_STATE, value, buf)
      else
        let* (status, blk, buf) := SOPC_Buffer_Read (Some (float_repr v)) buf 4 in
        let blk := default [] blk in
        if is_ok status then
          let* blk := SOPC_EncodeDecode_Float blk in
          Ret (status, Some (float_of_repr blk), buf)
        else Ret (SOPC_STATUS_ENCODING_ERROR, Some (float_of_repr blk), buf)
  | _, _ => Ret (SOPC_STATUS_INVALID_PARAMETERS, value, buf)
  end.

Definition SOPC_Double_Write : encoder Z := fun value buf nestedStructLevel =>
  match value, buf with
  | Some v, Some _ =>
      if max_nested_struct cfg <=? nestedStructLevel then Ret (SOPC_STATUS_INVALID_STATE, buf)
      else
        let* encodedValue := SOPC_EncodeDecode_Double (double_repr v) in
        map_status write_failure (SOPC_Buffer_Write buf (Some encodedValue) 8)
  | _, _ => Ret (SOPC_STATUS_INVALID_PARAMETERS, buf)
  end.

Definition SOPC_Double_Read : decoder Z := fun value buf nestedStructLevel =>
  match value, buf with
  | Some v, Some _ =>
      if max_nested_struct cfg <=? nestedStructLevel
      then Ret (SOPC_STATUS_INVALID_STATE, value, buf)
      else
        let* (status, blk, buf) := SOPC_Buffer_Read (Some (double_repr v)) buf 8 in
        let blk := default [] blk in
        if is_ok status then
          let* blk := SOPC_EncodeDecode_Double blk in
          Ret (status, Some (double_of_repr blk), buf)
        else Ret (SOPC_STATUS_ENCODING_ERROR, Some (double_of_repr blk), buf)
  | _, _ => Ret (SOPC_STATUS_INVALID_PARAMETERS, value, buf)
  end.

Definition SOPC_DateTime_Write : encoder Z := fun date buf nestedStructLevel =>
  match date, buf with
  | Some _, Some _ =>
      if max_nested_struct cfg <=? nestedStructLevel then Ret (SOPC_STATUS_INVALID_STATE, buf)
      else SOPC_Int64_Write date buf (nestedStructLevel + 1)
  | _, _ => Ret (SOPC_STATUS_INVALID_PARAMETERS, buf)
  end.

Definition SOPC_DateTime_Read : decoder Z := fun date buf nestedStructLevel =>
  match date with
  | NULL => Ret (SOPC_STATUS_INVALID_PARAMETERS, date, buf)
  | Some _ =>
      if max_nested_struct cfg <=? nestedStructLevel
      then Ret (SOPC_STATUS_INVALID_STATE, date, buf)
      else SOPC_Int64_Read date buf (nestedStructLevel + 1)
  end.

Definition SOPC_StatusCode_Write : encoder Z := fun status buf nestedStructLevel =>
  SOPC_UInt32_Write status buf nestedStructLevel.

Definition SOPC_StatusCode_Read : decoder Z := fun status buf nestedStructLevel =>
  SOPC_UInt32_Read status buf nestedStructLevel.

End Scalars.

(** Each encoder has its own contract, although some are defined as others. *)
#[export] Hint Opaque
  SOPC_Byte_Write SOPC_Byte_Read SOPC_Boolean_Write SOPC_Boolean_Read SOPC_SByte_Write
  SOPC_SByte_Read SOPC_Int16_Write SOPC_Int16_Read SOPC_UInt16_Write SOPC_UInt16_Read
  SOPC_Int32_Write SOPC_Int32_Read SOPC_UInt32_Write SOPC_UInt32_Read SOPC_Int64_Write
  SOPC_Int64_Read SOPC_UInt64_Write SOPC_UInt64_Read SOPC_Float_Write SOPC_Float_Read
  SOPC_Double_Write SOPC_Double_Read SOPC_DateTime_Write SOPC_DateTime_Read
  SOPC_StatusCode_Write SOPC_StatusCode_Read : typeclass_instances.

(** ** The byte order on the wire

    Whatever the machine, the bytes written are those of the little-endian
    representation, and a little-endian representation is read as its value. *)

Section WireOrder.
Context `{Host} `{EndiannessCfg} `{!EndiannessDetected}.

Lemma integer_not_undefined :
  endianness_integer_is SOPC_Endianness_Undefined = false.
Proof.
  unfold endianness_integer_is, SOPC_Helper_Endianness_GetInteger.
  rewrite detected_integer. by destruct host_int.
Qed.

Lemma integer_is_big :
  endianness_integer_is SOPC_Endianness_BigEndian = match host_int with IntBig => true | IntLittle => false end.
Proof.
  unfold endianness_integer_is, SOPC_Helper_Endianness_GetInteger.
  rewrite detected_integer. by destruct host_int.
Qed.

Ltac wire_order := intros; rewrite ?integer_not_undefined, ?integer_is_big; simpl;
  unfold int_repr, int_of_repr; destruct host_int.

Lemma UInt16_out v : exists w, SOPC_EncodeDecode_UInt16 v = Ret w /\ int_repr 2 w = le_bytes 2 v.
Proof.
  unfold SOPC_EncodeDecode_UInt16. wire_order; eexists; split; try reflexivity.
  rewrite SWAP_2_BYTES_spec. apply be_bytes_swap.
Qed.

Lemma UInt32_out v : exists w, SOPC_EncodeDecode_UInt32 v = Ret w /\ int_repr 4 w = le_bytes 4 v.
Proof.
  unfold SOPC_EncodeDecode_UInt32. wire_order; eexists; split; try reflexivity.
  rewrite SWAP_4_BYTES_spec. apply be_bytes_swap.
Qed.

Lemma UInt64_out v : exists w, SOPC_EncodeDecode_UInt64 v = Ret w /\ int_repr 8 w = le_bytes 8 v.
Proof.
  unfold SOPC_EncodeDecode_UInt64. wire_order; eexists; split; try reflexivity.
  rewrite SWAP_8_BYTES_spec. apply be_bytes_swap.
Qed.

Lemma be_bytes_swap_signed n z :
  (0 < n)%nat ->
  be_bytes n (swrap (8 * Z.of_nat n) (be_val (le_bytes n (z mod 2 ^ (8 * Z.of_nat n))))) = le_bytes n z.
Proof.
  intros Hn. unfold be_bytes at 1. rewrite le_bytes_swrap, le_bytes_mod by done. apply be_bytes_swap.
Qed.

Lemma Int16_out v : exists w, SOPC_EncodeDecode_Int16 v = Ret w /\ int_repr 2 w = le_bytes 2 v.
Proof.
  unfold SOPC_EncodeDecode_Int16. wire_order; eexists; split; try reflexivity.
  rewrite SWAP_2_BYTES_spec. apply (be_bytes_swap_signed 2). lia.
Qed.

Lemma Int32_out v : exists w, SOPC_EncodeDecode_Int32 v = Ret w /\ int_repr 4 w = le_bytes 4 v.
Proof.
  unfold SOPC_EncodeDecode_Int32. wire_order; eexists; split; try reflexivity.
  rewrite SWAP_4_BYTES_spec. apply (be_bytes_swap_signed 4). lia.
Qed.

Lemma Int64_out v : exists w, SOPC_EncodeDecode_Int64 v = Ret w /\ int_repr 8 w = le_bytes 8 v.
Proof.
  unfold SOPC_EncodeDecode_Int64. wire_order; eexists; split; try reflexivity.
  rewrite SWAP_8_BYTES_spec. apply (be_bytes_swap_signed 8). lia.
Qed.

Lemma UInt16_in bs : length bs = 2%nat -> SOPC_EncodeDecode_UInt16 (int_of_repr bs) = Ret (le_val bs).
Proof.
  unfold SOPC_EncodeDecode_UInt16. wire_order; [done|].
  rewrite SWAP_2_BYTES_spec. f_equal. rewrite <- H2. apply be_val_swap.
Qed.

Lemma UInt32_in bs : length bs = 4%nat -> SOPC_EncodeDecode_UInt32 (int_of_repr bs) = Ret (le_val bs).
Proof.
  unfold SOPC_EncodeDecode_UInt32. wire_order; [done|].
  rewrite SWAP_4_BYTES_spec. f_equal. rewrite <- H2. apply be_val_swap.
Qed.

Lemma UInt64_in bs : length bs = 8%nat -> SOPC_EncodeDecode_UInt64 (int_of_repr bs) = Ret (le_val bs).
Proof.
  unfold SOPC_EncodeDecode_UInt64. wire_order; [done|].
  rewrite SWAP_8_BYTES_spec. f_equal. rewrite <- H2. apply be_val_swap.
Qed.

Lemma be_val_swap_signed bs :
  bs <> [] ->
  be_val (le_bytes (length bs) (swrap (8 * Z.of_nat (length bs)) (be_val bs)
                                mod 2 ^ (8 * Z.of_nat (length bs)))) = le_val bs.
Proof.
  intros Hn. rewrite le_bytes_mod, le_bytes_swrap by (destruct bs; simpl; [done|lia]).
  apply be_val_swap.
Qed.

Lemma Int16_in bs :
  length bs = 2%nat -> SOPC_EncodeDecode_Int16 (swrap 16 (int_of_repr bs)) = Ret (swrap 16 (le_val bs)).
Proof.
  unfold SOPC_EncodeDecode_Int16. wire_order; [done|]. rewrite SWAP_2_BYTES_spec.
  pose proof (be_val_swap_signed bs) as E. rewrite H2 in E.
  change (8 * Z.of_nat 2) with 16 in E. unfold u16. rewrite E; [done|].
  by intros ->.
Qed.

Lemma Int32_in bs :
  length bs = 4%nat -> SOPC_EncodeDecode_Int32 (swrap 32 (int_of_repr bs)) = Ret (swrap 32 (le_val bs)).
Proof.
  unfold SOPC_EncodeDecode_Int32. wire_order; [done|]. rewrite SWAP_4_BYTES_spec.
  pose proof (be_val_swap_signed bs) as E. rewrite H2 in E.
  change (8 * Z.of_nat 4) with 32 in E. unfold u32. rewrite E; [done|].
  by intros ->.
Qed.

Lemma Int64_in bs :
  length bs = 8%nat -> SOPC_EncodeDecode_Int64 (swrap 64 (int_of_repr bs)) = Ret (swrap 64 (le_val bs)).
Proof.
  unfold SOPC_EncodeDecode_Int64. wire_order; [done|]. rewrite SWAP_8_BYTES_spec.
  pose proof (be_val_swap_signed bs) as E. rewrite H2 in E.
  change (8 * Z.of_nat 8) with 64 in E. unfold u64. rewrite E; [done|].
  by intros ->.
Qed.

(** Swapping the bytes, or the halves, of a block through an integer. *)
Lemma swap_block_bytes n bs (x : Z) :
  length bs = n -> (x = be_val (le_bytes n (int_of_repr bs))) -> int_repr n x = reverse bs.
Proof.
  intros <- ->. unfold int_repr, int_of_repr. destruct host_int.
  - rewrite le_bytes_le_val. unfold be_val. by rewrite <- length_reverse, le_bytes_le_val.
  - rewrite be_val_swap. unfold be_bytes. by rewrite le_bytes_le_val.
Qed.

Lemma swap_block_halves bs :
  length bs = 8%nat -> int_repr 8 (SWAP_2_DWORDS (int_of_repr bs)) = drop 4 bs ++ take 4 bs.
Proof.
  intros L. rewrite SWAP_2_DWORDS_spec.
  2:{ pose proof (int_of_repr_range bs) as R. rewrite L in R. exact R. }
  destruct bs as [|b0 [|b1 [|b2 [|b3 [|b4 [|b5 [|b6 [|b7 [|]]]]]]]]]; try discriminate. clear L.
  cbn [drop take app].
  pose proof (le_val_range [b0; b1; b2; b3]) as R1. pose proof (le_val_range [b4; b5; b6; b7]) as R2.
  pose proof (le_val_range [b3; b2; b1; b0]) as R3. pose proof (le_val_range [b7; b6; b5; b4]) as R4.
  cbn [length] in R1, R2, R3, R4. change (2 ^ (8 * Z.of_nat 4)) with (2 ^ 32) in *.
  unfold int_repr, int_of_repr. destruct host_int.
  - change [b0; b1; b2; b3; b4; b5; b6; b7] with ([b0; b1; b2; b3] ++ [b4; b5; b6; b7]).
    rewrite le_val_app. cbn [length]. change (2 ^ (8 * Z.of_nat 4)) with (2 ^ 32).
    rewrite (Z.mul_comm (2 ^ 32)), Z.mod_add, Z.div_add, Z.mod_small, Z.div_small by lia.
    rewrite Z.add_0_l, Z.add_comm, (Z.mul_comm _ (2 ^ 32)).
    change (2 ^ 32) with (2 ^ (8 * Z.of_nat (length [b4; b5; b6; b7]))).
    rewrite <- le_val_app. apply (le_bytes_le_val ([b4; b5; b6; b7] ++ [b0; b1; b2; b3])).
  - unfold be_val. change (reverse [b0; b1; b2; b3; b4; b5; b6; b7]) with ([b7; b6; b5; b4] ++ [b3; b2; b1; b0]).
    rewrite le_val_app. cbn [length]. change (2 ^ (8 * Z.of_nat 4)) with (2 ^ 32).
    rewrite (Z.mul_comm (2 ^ 32)), Z.mod_add, Z.div_add, Z.mod_small, Z.div_small by lia.
    rewrite Z.add_0_l, Z.add_comm, (Z.mul_comm _ (2 ^ 32)).
    change (2 ^ 32) with (2 ^ (8 * Z.of_nat (length [b3; b2; b1; b0]))).
    rewrite <- le_val_app. unfold be_bytes.
    change (reverse (le_bytes 8 (le_val ([b3; b2; b1; b0] ++ [b7; b6; b5; b4])))
            = reverse [b3; b2; b1; b0; b7; b6; b5; b4]).
    f_equal. apply (le_bytes_le_val ([b3; b2; b1; b0] ++ [b7; b6; b5; b4])).
Qed.

Lemma Float_out bits : SOPC_EncodeDecode_Float (float_repr bits) = Ret (le_bytes 4 bits).
Proof.
  unfold SOPC_EncodeDecode_Float, endianness_float_is, SOPC_Helper_Endianness_GetFloat.
  rewrite detected_float. unfold float_repr. destruct host_float; simpl; [done| |done].
  f_equal. rewrite (swap_block_bytes 4 (be_bytes 4 bits)); [apply reverse_involutive| |apply SWAP_4_BYTES_spec].
  unfold be_bytes. by rewrite length_reverse, length_le_bytes.
Qed.

Lemma Double_out bits : SOPC_EncodeDecode_Double (double_repr bits) = Ret (le_bytes 8 bits).
Proof.
  unfold SOPC_EncodeDecode_Double, endianness_float_is, SOPC_Helper_Endianness_GetFloat.
  rewrite detected_float. unfold double_repr. destruct host_float; cbn [endianness_eqb negb]; [done| |].
  - f_equal. rewrite (swap_block_bytes 8 (be_bytes 8 bits)); [apply reverse_involutive| |apply SWAP_8_BYTES_spec].
    unfold be_bytes. by rewrite length_reverse, length_le_bytes.
  - f_equal. rewrite swap_block_halves by done.
    rewrite drop_app_length', take_app_length' by done.
    cbn [le_bytes app]. by rewrite !Z.div_div by lia.
Qed.

Lemma Float_in bs :
  length bs = 4%nat ->
  exists blk, SOPC_EncodeDecode_Float bs = Ret blk /\ float_of_repr blk = le_val bs.
Proof.
  intros L. unfold SOPC_EncodeDecode_Float, endianness_float_is, SOPC_Helper_Endianness_GetFloat.
  rewrite detected_float. unfold float_of_repr. destruct host_float; simpl; eexists; split; try reflexivity.
  rewrite (swap_block_bytes 4 bs); [|done|apply SWAP_4_BYTES_spec].
  unfold be_val. by rewrite reverse_involutive.
Qed.

Lemma Double_in bs :
  length bs = 8%nat ->
  exists blk, SOPC_EncodeDecode_Double bs = Ret blk /\ double_of_repr blk = le_val bs.
Proof.
  intros L. unfold SOPC_EncodeDecode_Double, endianness_float_is, SOPC_Helper_Endianness_GetFloat.
  rewrite detected_float. unfold double_of_repr.
  destruct host_float; cbn [endianness_eqb negb]; eexists; split; try reflexivity.
  - rewrite (swap_block_bytes 8 bs); [|done|apply SWAP_8_BYTES_spec].
    unfold be_val. by rewrite reverse_involutive.
  - rewrite swap_block_halves by done.
    rewrite take_app_length', drop_app_length' by (rewrite length_drop; lia).
    rewrite <- (take_drop 4 bs) at 3. rewrite le_val_app, length_take, L.
    change (2 ^ (8 * Z.of_nat (4 `min` 8))) with (2 ^ 32). lia.
Qed.

End WireOrder.

(** ** The scalar types satisfy the contract of [Codec] *)

Section ScalarCodecs.
Context `{Allocator} `{Host} `{EndiannessCfg} {cfg : SOPC_Common_EncodingConstants}.
Context `{!EndiannessDetected}.

#[refine] #[export] Instance Byte_codec : Codec SOPC_Byte_Write SOPC_Byte_Read := {
  wire v := [z2b v]; nests _ lvl := lvl + 1 <= max_nested_struct cfg; wf := in_u 8; limits _ := True; canon v := v; inited _ := True; sane _ := True
}.
Proof.
  - intros v b lvl Hv I S. apply encodes_guard; [done| |lia]. intros. apply encodes_block; done || lia.
  - intros v v0 b lvl rest Hv _ _ I S E L _. unfold SOPC_Byte_Read. level_ok.
    rewrite (read_block_app b _ [z2b v] rest) by done.
    cbn. rewrite b2z_z2b, Z.mod_small by done. done.
  - intros v0 b lvl _ I S. unfold SOPC_Byte_Read. by_level.
    rewrite read_block by done. destruct (Z.leb_spec 1 (zlen (upcoming b))); cbn.
    + apply decodes_advance; [lia|]. intros _. split_and!; [apply b2z_range|done|lia].
    + by apply decodes_fail.
  - done.
  - done.
Defined.

Lemma length_take_upcoming b n :
  n <= zlen (upcoming b) -> length (take (Z.to_nat n) (upcoming b)) = Z.to_nat n.
Proof. unfold zlen. rewrite length_take. lia. Qed.

#[refine] #[export] Instance Boolean_codec : Codec SOPC_Boolean_Write SOPC_Boolean_Read := {
  wire v := [z2b (if v =? 0 then 0 else 1)]; nests _ lvl := lvl + 2 <= max_nested_struct cfg; wf := in_u 8; limits _ := True;
  canon v := if v =? 0 then 0 else 1; inited _ := True; sane _ := True
}.
Proof.
  - intros v b lvl Hv I S. apply encodes_guard; [done| |lia]. intros. cbv zeta.
    replace (if v =? 0 then v else 1) with (if v =? 0 then 0 else 1) by (destruct (Z.eqb_spec v 0); lia).
    apply (encodes_sub SOPC_Byte_Write); try done; [by destruct (v =? 0)|simpl; lia].
  - intros v v0 b lvl rest Hv _ _ I S E L HA. unfold SOPC_Boolean_Read. level_ok.
    rewrite (codec_read (wr := SOPC_Byte_Write) (if v =? 0 then 0 else 1) v0 b (lvl + 1) rest);
      simpl; try done; try lia; by destruct (v =? 0).
  - intros v0 b lvl _ I S. unfold SOPC_Boolean_Read. by_level.
    destruct (codec_safe (wr := SOPC_Byte_Write) v0 b (lvl + 1)) as (st & v & n & -> & Hn & _ & W); [done..|].
    simpl. destruct (is_ok st) eqn:E; simpl; apply decodes_advance; try done; [|by intros ->].
    intros ->. destruct (W eq_refl) as (Wv & _ & N). simpl in N. split_and!; [|done|lia]. by destruct (v =? 0).
  - done.
  - done.
Defined.

#[refine] #[export] Instance SByte_codec : Codec SOPC_SByte_Write SOPC_SByte_Read := {
  wire v := [z2b v]; nests _ lvl := lvl + 1 <= max_nested_struct cfg; wf := in_s 8; limits _ := True; canon v := v; inited _ := True; sane _ := True
}.
Proof.
  - intros v b lvl Hv I S. apply encodes_guard; [done| |lia]. intros. apply encodes_block; done || lia.
  - intros v v0 b lvl rest Hv _ _ I S E L _. unfold SOPC_SByte_Read. level_ok.
    rewrite (read_block_app b _ [z2b v] rest) by done. cbn [rbind is_ok byte_at default mbind option_bind head].
    unfold id. rewrite b2z_z2b. change 256 with (2 ^ 8). rewrite swrap_mod, swrap_small by done. done.
  - intros v0 b lvl _ I S. unfold SOPC_SByte_Read. by_level.
    rewrite read_block by done. destruct (Z.leb_spec 1 (zlen (upcoming b))); cbn [rbind is_ok].
    + apply decodes_advance; [lia|]. intros _. split_and!; [by apply swrap_range|done|lia].
    + by apply decodes_fail.
  - done.
  - done.
Defined.

#[refine] #[export] Instance Int16_codec : Codec SOPC_Int16_Write SOPC_Int16_Read := {
  wire v := le_bytes 2 v; nests _ lvl := lvl + 1 <= max_nested_struct cfg; wf := in_s 16; limits _ := True; canon v := v; inited _ := True; sane _ := True
}.
Proof.
  - intros v b lvl Hv I S. apply encodes_guard; [done| |lia]. intros.
    destruct (Int16_out v) as (w & -> & E). simpl. rewrite E. apply encodes_block; done || lia.
  - intros v v0 b lvl rest Hv _ _ I S E L _. unfold SOPC_Int16_Read. level_ok.
    rewrite (read_block_app b _ (le_bytes 2 v) rest) by
      (try done; unfold zlen; by rewrite length_int_repr).
    cbn [rbind default from_option id is_ok]. rewrite Int16_in by apply length_le_bytes. cbn [rbind].
    pose proof (swrap_le_bytes 2 v ltac:(lia) Hv) as Es.
    change (8 * Z.of_nat 2) with 16 in Es. by rewrite Es.
  - intros v0 b lvl _ I S. unfold SOPC_Int16_Read. by_level.
    rewrite read_block by (try done; unfold zlen; by rewrite length_int_repr).
    destruct (Z.leb_spec 2 (zlen (upcoming b))) as [L|L]; cbn [rbind default from_option id is_ok]; [|by apply decodes_fail].
    rewrite Int16_in by (by rewrite length_take_upcoming). cbn [rbind].
    apply decodes_advance; [lia|]. intros _. split_and!; [apply swrap_range; lia|done|lia].
  - done.
  - done.
Defined.

#[refine] #[export] Instance UInt16_codec : Codec SOPC_UInt16_Write SOPC_UInt16_Read := {
  wire v := le_bytes 2 v; nests _ lvl := lvl + 1 <= max_nested_struct cfg; wf := in_u 16; limits _ := True; canon v := v; inited _ := True; sane _ := True
}.
Proof.
  - intros v b lvl Hv I S. apply encodes_guard; [done| |lia]. intros.
    destruct (UInt16_out v) as (w & -> & E). simpl. rewrite E. apply encodes_block; done || lia.
  - intros v v0 b lvl rest Hv _ _ I S E L _. unfold SOPC_UInt16_Read. level_ok.
    rewrite (read_block_app b _ (le_bytes 2 v) rest) by
      (try done; unfold zlen; by rewrite length_int_repr).
    cbn [rbind default from_option id is_ok]. rewrite UInt16_in by apply length_le_bytes. cbn [rbind].
    rewrite le_val_le_bytes, Z.mod_small by done. done.
  - intros v0 b lvl _ I S. unfold SOPC_UInt16_Read. by_level.
    rewrite read_block by (try done; unfold zlen; by rewrite length_int_repr).
    destruct (Z.leb_spec 2 (zlen (upcoming b))) as [L|L]; cbn [rbind default from_option id is_ok]; [|by apply decodes_fail].
    rewrite UInt16_in by (by rewrite length_take_upcoming). cbn [rbind].
    apply decodes_advance; [lia|]. intros _. split_and!; [|done|lia]. pose proof (le_val_range (take (Z.to_nat 2) (upcoming b))) as R. rewrite length_take_upcoming in R by done. exact R.
  - done.
  - done.
Defined.

#[refine] #[export] Instance Int32_codec : Codec SOPC_Int32_Write SOPC_Int32_Read := {
  wire v := le_bytes 4 v; nests _ lvl := lvl + 1 <= max_nested_struct cfg; wf := in_s 32; limits _ := True; canon v := v; inited _ := True; sane _ := True
}.
Proof.
  - intros v b lvl Hv I S. apply encodes_guard; [done| |lia]. intros.
    destruct (Int32_out v) as (w & -> & E). simpl. rewrite E. apply encodes_block; done || lia.
  - intros v v0 b lvl rest Hv _ _ I S E L _. unfold SOPC_Int32_Read. level_ok.
    rewrite (read_block_app b _ (le_bytes 4 v) rest) by
      (try done; unfold zlen; by rewrite length_int_repr).
    cbn [rbind default from_option id is_ok]. rewrite Int32_in by apply length_le_bytes. cbn [rbind].
    pose proof (swrap_le_bytes 4 v ltac:(lia) Hv) as Es.
    change (8 * Z.of_nat 4) with 32 in Es. by rewrite Es.
  - intros v0 b lvl _ I S. unfold SOPC_Int32_Read. by_level.
    rewrite read_block by (try done; unfold zlen; by rewrite length_int_repr).
    destruct (Z.leb_spec 4 (zlen (upcoming b))) as [L|L]; cbn [rbind default from_option id is_ok]; [|by apply decodes_fail].
    rewrite Int32_in by (by rewrite length_take_upcoming). cbn [rbind].
    apply decodes_advance; [lia|]. intros _. split_and!; [apply swrap_range; lia|done|lia].
  - done.
  - done.
Defined.

#[refine] #[export] Instance UInt32_codec : Codec SOPC_UInt32_Write SOPC_UInt32_Read := {
  wire v := le_bytes 4 v; nests _ lvl := lvl + 1 <= max_nested_struct cfg; wf := in_u 32; limits _ := True; canon v := v; inited _ := True; sane _ := True
}.
Proof.
  - intros v b lvl Hv I S. apply encodes_guard; [done| |lia]. intros.
    destruct (UInt32_out v) as (w & -> & E). simpl. rewrite E. apply encodes_block; done || lia.
  - intros v v0 b lvl rest Hv _ _ I S E L _. unfold SOPC_UInt32_Read. level_ok.
    rewrite (read_block_app b _ (le_bytes 4 v) rest) by
      (try done; unfold zlen; by rewrite length_int_repr).
    cbn [rbind default from_option id is_ok]. rewrite UInt32_in by apply length_le_bytes. cbn [rbind].
    rewrite le_val_le_bytes, Z.mod_small by done. done.
  - intros v0 b lvl _ I S. unfold SOPC_UInt32_Read. by_level.
    rewrite read_block by (try done; unfold zlen; by rewrite length_int_repr).
    destruct (Z.leb_spec 4 (zlen (upcoming b))) as [L|L]; cbn [rbind default from_option id is_ok]; [|by apply decodes_fail].
    rewrite UInt32_in by (by rewrite length_take_upcoming). cbn [rbind].
    apply decodes_advance; [lia|]. intros _. split_and!; [|done|lia]. pose proof (le_val_range (take (Z.to_nat 4) (upcoming b))) as R. rewrite length_take_upcoming in R by done. exact R.
  - done.
  - done.
Defined.

#[refine] #[export] Instance Int64_codec : Codec SOPC_Int64_Write SOPC_Int64_Read := {
  wire v := le_bytes 8 v; nests _ lvl := lvl + 1 <= max_nested_struct cfg; wf := in_s 64; limits _ := True; canon v := v; inited _ := True; sane _ := True
}.
Proof.
  - intros v b lvl Hv I S. apply encodes_guard; [done| |lia]. intros.
    destruct (Int64_out v) as (w & -> & E). simpl. rewrite E. apply encodes_block; done || lia.
  - intros v v0 b lvl rest Hv _ _ I S E L _. unfold SOPC_Int64_Read. level_ok.
    rewrite (read_block_app b _ (le_bytes 8 v) rest) by
      (try done; unfold zlen; by rewrite length_int_repr).
    cbn [rbind default from_option id is_ok]. rewrite Int64_in by apply length_le_bytes. cbn [rbind].
    pose proof (swrap_le_bytes 8 v ltac:(lia) Hv) as Es.
    change (8 * Z.of_nat 8) with 64 in Es. by rewrite Es.
  - intros v0 b lvl _ I S. unfold SOPC_Int64_Read. by_level.
    rewrite read_block by (try done; unfold zlen; by rewrite length_int_repr).
    destruct (Z.leb_spec 8 (zlen (upcoming b))) as [L|L]; cbn [rbind default from_option id is_ok]; [|by apply decodes_fail].
    rewrite Int64_in by (by rewrite length_take_upcoming). cbn [rbind].
    apply decodes_advance; [lia|]. intros _. split_and!; [apply swrap_range; lia|done|lia].
  - done.
  - done.
Defined.

#[refine] #[export] Instance UInt64_codec : Codec SOPC_UInt64_Write SOPC_UInt64_Read := {
  wire v := le_bytes 8 v; nests _ lvl := lvl + 1 <= max_nested_struct cfg; wf := in_u 64; limits _ := True; canon v := v; inited _ := True; sane _ := True
}.
Proof.
  - intros v b lvl Hv I S. apply encodes_guard; [done| |lia]. intros.
    destruct (UInt64_out v) as (w & -> & E). simpl. rewrite E. apply encodes_block; done || lia.
  - intros v v0 b lvl rest Hv _ _ I S E L _. unfold SOPC_UInt64_Read. level_ok.
    rewrite (read_block_app b _ (le_bytes 8 v) rest) by
      (try done; unfold zlen; by rewrite length_int_repr).
    cbn [rbind default from_option id is_ok]. rewrite UInt64_in by apply length_le_bytes. cbn [rbind].
    rewrite le_val_le_bytes, Z.mod_small by done. done.
  - intros v0 b lvl _ I S. unfold SOPC_UInt64_Read. by_level.
    rewrite read_block by (try done; unfold zlen; by rewrite length_int_repr).
    destruct (Z.leb_spec 8 (zlen (upcoming b))) as [L|L]; cbn [rbind default from_option id is_ok]; [|by apply decodes_fail].
    rewrite UInt64_in by (by rewrite length_take_upcoming). cbn [rbind].
    apply decodes_advance; [lia|]. intros _. split_and!; [|done|lia]. pose proof (le_val_range (take (Z.to_nat 8) (upcoming b))) as R. rewrite length_take_upcoming in R by done. exact R.
  - done.
  - done.
Defined.

#[refine] #[export] Instance Float_codec : Codec SOPC_Float_Write SOPC_Float_Read := {
  wire v := le_bytes 4 v; nests _ lvl := lvl + 1 <= max_nested_struct cfg; wf := in_u 32; limits _ := True; canon v := v; inited _ := True; sane _ := True
}.
Proof.
  - intros v b lvl Hv I S. apply encodes_guard; [done| |lia]. intros.
    rewrite Float_out. simpl rbind. apply encodes_block; done || lia.
  - intros v v0 b lvl rest Hv _ _ I S E L _. unfold SOPC_Float_Read. level_ok.
    rewrite (read_block_app b _ (le_bytes 4 v) rest) by
      (try done; unfold zlen; by rewrite length_float_repr).
    cbn [rbind default from_option id is_ok]. destruct (Float_in (le_bytes 4 v)) as (blk & -> & Eb); [apply length_le_bytes|].
    cbn [rbind]. rewrite Eb, le_val_le_bytes, Z.mod_small by done. done.
  - intros v0 b lvl _ I S. unfold SOPC_Float_Read. by_level.
    rewrite read_block by (try done; unfold zlen; by rewrite length_float_repr).
    destruct (Z.leb_spec 4 (zlen (upcoming b))) as [L|L]; cbn [rbind default from_option id is_ok]; [|by apply decodes_fail].
    destruct (Float_in (take (Z.to_nat 4) (upcoming b))) as (blk & -> & Eb);
      [by rewrite length_take_upcoming|]. cbn [rbind].
    apply decodes_advance; [lia|]. intros _. split_and!; [|done|lia]. rewrite Eb.
    pose proof (le_val_range (take (Z.to_nat 4) (upcoming b))) as R.
    rewrite length_take_upcoming in R by done. exact R.
  - done.
  - done.
Defined.

#[refine] #[export] Instance Double_codec : Codec SOPC_Double_Write SOPC_Double_Read := {
  wire v := le_bytes 8 v; nests _ lvl := lvl + 1 <= max_nested_struct cfg; wf := in_u 64; limits _ := True; canon v := v; inited _ := True; sane _ := True
}.
Proof.
  - intros v b lvl Hv I S. apply encodes_guard; [done| |lia]. intros.
    rewrite Double_out. simpl rbind. apply encodes_block; done || lia.
  - intros v v0 b lvl rest Hv _ _ I S E L _. unfold SOPC_Double_Read. level_ok.
    rewrite (read_block_app b _ (le_bytes 8 v) rest) by
      (try done; unfold zlen; by rewrite length_double_repr).
    cbn [rbind default from_option id is_ok]. destruct (Double_in (le_bytes 8 v)) as (blk & -> & Eb); [apply length_le_bytes|].
    cbn [rbind]. rewrite Eb, le_val_le_bytes, Z.mod_small by done. done.
  - intros v0 b lvl _ I S. unfold SOPC_Double_Read. by_level.
    rewrite read_block by (try done; unfold zlen; by rewrite length_double_repr).
    destruct (Z.leb_spec 8 (zlen (upcoming b))) as [L|L]; cbn [rbind default from_option id is_ok]; [|by apply decodes_fail].
    destruct (Double_in (take (Z.to_nat 8) (upcoming b))) as (blk & -> & Eb);
      [by rewrite length_take_upcoming|]. cbn [rbind].
    apply decodes_advance; [lia|]. intros _. split_and!; [|done|lia]. rewrite Eb.
    pose proof (le_val_range (take (Z.to_nat 8) (upcoming b))) as R.
    rewrite length_take_upcoming in R by done. exact R.
  - done.
  - done.
Defined.

#[refine] #[export] Instance DateTime_codec : Codec SOPC_DateTime_Write SOPC_DateTime_Read := {
  wire v := le_bytes 8 v; nests _ lvl := lvl + 2 <= max_nested_struct cfg; wf := in_s 64; limits _ := True; canon v := v; inited _ := True; sane _ := True
}.
Proof.
  - intros v b lvl Hv I S. apply encodes_guard; [done| |lia]. intros.
    apply (encodes_sub SOPC_Int64_Write); try done. simpl; lia.
  - intros v v0 b lvl rest Hv _ _ I S E L HA. unfold SOPC_DateTime_Read. level_ok.
    by rewrite (codec_read (wr := SOPC_Int64_Write) v v0 b (lvl + 1) rest) by (simpl; done || lia).
  - intros v0 b lvl _ I S. unfold SOPC_DateTime_Read. by_level.
    apply (decodes_sub SOPC_Int64_Write); try done. intros v (W & _ & N). simpl in N. split_and!; [done|done|lia].
  - done.
  - done.
Defined.

#[export] Instance StatusCode_codec : Codec SOPC_StatusCode_Write SOPC_StatusCode_Read := UInt32_codec.

End ScalarCodecs.
