(* ===== verification/EncString.v ===== *)
(** * Binary encoding of String, ByteString, XmlElement and Guid

    Model of the corresponding part of [src/Common/opcua_types/sopc_encoder.c],
    with the types of [sopc_builtintypes.h] and the initialisation and clear
    functions of [sopc_builtintypes.c] that the decoders use. *)

From Stdlib Require Import ZArith Lia.
From Stdlib Require Import Strings.Byte.
From stdpp Require Import prelude.
From S2P Require Import Prelude Common Buffer Codec EncScalar.

Open Scope Z_scope.

(** ** Types *)

(** [Data] may hold more bytes than [Length]: the strings that the toolkit
    creates are followed by a null character. *)
Record SOPC_String := mkString {
  Length : Z;
  DoNotClear : bool;
  Data : ptr block
}.

Abbreviation SOPC_ByteString := SOPC_String.
Abbreviation SOPC_XmlElement := SOPC_String.

Record SOPC_Guid := mkGuid {
  Data1 : Z;
  Data2 : Z;
  Data3 : Z;
  Data4 : block
}.

Definition SOPC_String_Initialize (string : ptr SOPC_String) : ptr SOPC_String :=
  option_map (fun _ => mkString (-1) false NULL) string.

Definition SOPC_ByteString_Initialize (bstring : ptr SOPC_ByteString) : ptr SOPC_ByteString :=
  SOPC_String_Initialize bstring.

(** The data are freed unless they are attached; then the string is reset. *)
Definition SOPC_String_Clear (string : ptr SOPC_String) : ptr SOPC_String :=
  SOPC_String_Initialize string.

Definition SOPC_Guid_Initialize (guid : ptr SOPC_Guid) : ptr SOPC_Guid :=
  option_map (fun _ => mkGuid 0 0 0 (replicate 8 x00)) guid.

Definition string_init : SOPC_String := mkString (-1) false NULL.
Definition guid_init : SOPC_Guid := mkGuid 0 0 0 (replicate 8 x00).

Definition set_Length (s : SOPC_String) (n : Z) : SOPC_String := mkString n (DoNotClear s) (Data s).
Definition set_Data (s : SOPC_String) (d : ptr block) : SOPC_String := mkString (Length s) (DoNotClear s) d.

(** ** Encoders and decoders *)

Section Strings.
Context `{Allocator} `{Host} `{EndiannessCfg} {cfg : SOPC_Common_EncodingConstants}.

Definition SOPC_ByteString_Write : encoder SOPC_ByteString := fun str buf nestedStructLevel =>
  match str, buf with
  | Some s, Some _ =>
      if max_nested_struct cfg <=? nestedStructLevel then Ret (SOPC_STATUS_INVALID_STATE, buf)
      else
        let nestedStructLevel := nestedStructLevel + 1 in
        let length := if 0 <? Length s then Length s else -1 in
        let_ok buf := map_status write_failure (SOPC_Int32_Write (Some length) buf nestedStructLevel) in
        if 0 <? Length s
        then map_status write_failure (SOPC_Buffer_Write buf (Data s) (u32 (Length s)))
        else Ret (SOPC_STATUS_OK, buf)
  | _, _ => Ret (SOPC_STATUS_INVALID_PARAMETERS, buf)
  end.

Definition SOPC_ByteString_Read : decoder SOPC_ByteString := fun str buf nestedStructLevel =>
  match str, buf with
  | Some s, Some _ =>
      if negb (is_null (Data s)) || (0 <? Length s)
      then Ret (SOPC_STATUS_INVALID_PARAMETERS, str, buf)
      else if max_nested_struct cfg <=? nestedStructLevel
      then Ret (SOPC_STATUS_INVALID_STATE, str, buf)
      else
        let nestedStructLevel := nestedStructLevel + 1 in
        let* (status, length, buf) := SOPC_Int32_Read (Some 0) buf nestedStructLevel in
        let length := default 0 length in
        if is_ok status then
          if 0 <? length then
            if (length <=? max_string_length cfg) && (length * 1 <=? SIZE_MAX) then
              let s := set_Length s length in
              match SOPC_Malloc (1 * length) with
              | Some d =>
                  let* (status, d, buf) := SOPC_Buffer_Read (Some d) buf (u32 length) in
                  if is_ok status then Ret (status, Some (set_Data s d), buf)
                  else Ret (SOPC_STATUS_ENCODING_ERROR, Some (set_Length (set_Data s NULL) (-1)), buf)
              | NULL => Ret (SOPC_STATUS_OUT_OF_MEMORY, Some (set_Length (set_Data s NULL) (-1)), buf)
              end
            else Ret (SOPC_STATUS_OUT_OF_MEMORY, Some s, buf)
          else Ret (status, Some (set_Length s (-1)), buf)
        else Ret (status, Some s, buf)
  | _, _ => Ret (SOPC_STATUS_INVALID_PARAMETERS, str, buf)
  end.

Definition SOPC_String_Write : encoder SOPC_String := fun str buf nestedStructLevel =>
  match str, buf with
  | Some s, Some _ =>
      if max_nested_struct cfg <=? nestedStructLevel then Ret (SOPC_STATUS_INVALID_STATE, buf)
      else
        let nestedStructLevel := nestedStructLevel + 1 in
        let length := if 0 <? Length s then Length s else -1 in
        let_ok buf := SOPC_Int32_Write (Some length) buf nestedStructLevel in
        if 0 <? Length s
        then map_status write_failure (SOPC_Buffer_Write buf (Data s) (u32 (Length s)))
        else Ret (SOPC_STATUS_OK, buf)
  | _, _ => Ret (SOPC_STATUS_INVALID_PARAMETERS, buf)
  end.

(** A limit of [0] stands for no limit. *)
Definition SOPC_String_ReadWithLimitedLength (maxLength : Z) : decoder SOPC_String :=
  fun str buf nestedStructLevel =>
  match str, buf with
  | Some s, Some _ =>
      if negb (is_null (Data s)) || (0 <? Length s)
      then Ret (SOPC_STATUS_INVALID_PARAMETERS, str, buf)
      else if max_nested_struct cfg <=? nestedStructLevel
      then Ret (SOPC_STATUS_INVALID_STATE, str, buf)
      else
        let nestedStructLevel := nestedStructLevel + 1 in
        let* (status, length, buf) := SOPC_Int32_Read (Some 0) buf nestedStructLevel in
        let length := default 0 length in
        if is_ok status then
          if 0 <? length then
            if (length <=? max_string_length cfg) && (length + 1 <=? SIZE_MAX) then
              if (maxLength =? 0) || (length <=? maxLength) then
                let s := set_Length s length in
                match SOPC_Malloc (1 * (length + 1)) with
                | Some d =>
                    let* (status, d, buf) := SOPC_Buffer_Read (Some d) buf (u32 length) in
                    if is_ok status then
                      let* d := deref d in
                      let* d := mem_write d (Length s) [x00] in
                      Ret (status, Some (set_Data s (Some d)), buf)
                    else Ret (SOPC_STATUS_ENCODING_ERROR, Some (set_Length (set_Data s NULL) (-1)), buf)
                | NULL => Ret (SOPC_STATUS_OUT_OF_MEMORY, Some (set_Length (set_Data s NULL) (-1)), buf)
                end
              else Ret (SOPC_STATUS_WOULD_BLOCK, Some (set_Length s (-1)), buf)
            else Ret (SOPC_STATUS_OUT_OF_MEMORY, Some s, buf)
          else Ret (status, Some (set_Length s (-1)), buf)
        else Ret (status, Some s, buf)
  | _, _ => Ret (SOPC_STATUS_INVALID_PARAMETERS, str, buf)
  end.

Definition SOPC_String_Read : decoder SOPC_String := fun str buf nestedStructLevel =>
  SOPC_String_ReadWithLimitedLength 0 str buf nestedStructLevel.

Definition SOPC_XmlElement_Write : encoder SOPC_XmlElement := fun xml buf nestedStructLevel =>
  SOPC_ByteString_Write xml buf nestedStructLevel.

Definition SOPC_XmlElement_Read : decoder SOPC_XmlElement := fun xml buf nestedStructLevel =>
  SOPC_ByteString_Read xml buf nestedStructLevel.

Definition SOPC_Guid_Write : encoder SOPC_Guid := fun guid buf nestedStructLevel =>
  match guid, buf with
  | Some g, Some _ =>
      if max_nested_struct cfg <=? nestedStructLevel then Ret (SOPC_STATUS_INVALID_STATE, buf)
      else
        let nestedStructLevel := nestedStructLevel + 1 in
        map_status write_failure (
          let_ok buf := SOPC_UInt32_Write (Some (Data1 g)) buf nestedStructLevel in
          let_ok buf := SOPC_UInt16_Write (Some (Data2 g)) buf nestedStructLevel in
          let_ok buf := SOPC_UInt16_Write (Some (Data3 g)) buf nestedStructLevel in
          SOPC_Buffer_Write buf (Some (Data4 g)) 8)
  | _, _ => Ret (SOPC_STATUS_INVALID_PARAMETERS, buf)
  end.

Definition SOPC_Guid_Read : decoder SOPC_Guid := fun guid buf nestedStructLevel =>
  match guid, buf with
  | Some g, Some _ =>
      if max_nested_struct cfg <=? nestedStructLevel
      then Ret (SOPC_STATUS_INVALID_STATE, guid, buf)
      else
        let nestedStructLevel := nestedStructLevel + 1 in
        let* (status, d1, buf) := SOPC_UInt32_Read (Some (Data1 g)) buf nestedStructLevel in
        let* (status, d2, buf) := read_if status SOPC_UInt16_Read (Data2 g) buf nestedStructLevel in
        let* (status, d3, buf) := read_if status SOPC_UInt16_Read (Data3 g) buf nestedStructLevel in
        let* (status, d4, buf) :=
          (if is_ok status then SOPC_Buffer_Read (Some (Data4 g)) buf 8
           else Ret (status, Some (Data4 g), buf)) in
        if is_ok status then
          Ret (status, Some (mkGuid (default 0 d1) (default 0 d2) (default 0 d3) (default [] d4)), buf)
        else Ret (SOPC_STATUS_ENCODING_ERROR, Some (mkGuid 0 0 0 (default [] d4)), buf)
  | _, _ => Ret (SOPC_STATUS_INVALID_PARAMETERS, guid, buf)
  end.

End Strings.

#[export] Hint Opaque SOPC_XmlElement_Write SOPC_XmlElement_Read
  SOPC_ByteString_Write SOPC_ByteString_Read
  SOPC_String_Write SOPC_String_Read SOPC_Guid_Write SOPC_Guid_Read : typeclass_instances.

(** ** Specification *)

Definition string_chars (s : SOPC_String) : block :=
  take (Z.to_nat (Length s)) (default [] (Data s)).

Definition string_wf (s : SOPC_String) : Prop :=
  in_s 32 (Length s) /\ (0 < Length s -> exists d, Data s = Some d /\ Length s <= zlen d).

(** A length on four bytes followed by the characters; every empty string has
    the length of the null string. *)
Definition string_wire (s : SOPC_String) : block :=
  if 0 <? Length s then le_bytes 4 (Length s) ++ string_chars s else le_bytes 4 (-1).

(** A string ready to be filled. *)
Definition string_inited (s : SOPC_String) : Prop :=
  Data s = NULL /\ Length s <= 0 /\ DoNotClear s = false.

(** The limit of the decoders on the length; there is none on a null string. *)
Definition string_limits {cfg : SOPC_Common_EncodingConstants} (s : SOPC_String) : Prop :=
  0 < Length s -> Length s <= max_string_length cfg.

(** The strings that the decoders build, with the bytes that follow the characters. *)
Definition string_canon (suffix : block) (s : SOPC_String) : SOPC_String :=
  if 0 <? Length s then mkString (Length s) false (Some (string_chars s ++ suffix)) else string_init.

Lemma string_init_inited : string_inited string_init.
Proof. done. Qed.

Lemma zlen_string_chars s : string_wf s -> 0 < Length s -> zlen (string_chars s) = Length s.
Proof.
  intros [_ H] P. destruct (H P) as (d & E & L). unfold string_chars. rewrite E. simpl.
  apply zlen_take. lia.
Qed.

#[export] Hint Resolve string_init_inited : sopc.

Section StringCodecs.
Context `{Allocator} `{Host} `{EndiannessCfg} {cfg : SOPC_Common_EncodingConstants}.
Context `{!EndiannessDetected}.

Lemma encodes_string_body s b :
  string_wf s -> Buffer_Inv b -> small b -> 0 < Length s ->
  encodes b (map_status write_failure (SOPC_Buffer_Write (Some b) (Data s) (u32 (Length s))))
    (string_chars s) True.
Proof.
  intros [R H4] I S P. destruct (H4 P) as (d & E & L). unfold in_s in R. simpl in R.
  rewrite u32_small by lia. unfold string_chars. rewrite E. simpl.
  apply encodes_map_status; [apply write_failure_not_ok|]. apply encodes_write; done || lia.
Qed.

Lemma encodes_string s b (r : enc_result) (k : ptr SOPC_Buffer -> enc_result) lvl :
  string_wf s -> Buffer_Inv b -> small b ->
  encodes b r (le_bytes 4 (if 0 <? Length s then Length s else -1)) (lvl + 2 <= max_nested_struct cfg) ->
  k = (fun buf => if 0 <? Length s
                  then map_status write_failure (SOPC_Buffer_Write buf (Data s) (u32 (Length s)))
                  else Ret (SOPC_STATUS_OK, buf)) ->
  encodes b (and_then r k) (string_wire s) (lvl + 2 <= max_nested_struct cfg).
Proof.
  intros W I S Hr ->. apply (encodes_iff _ _ _ (lvl + 2 <= max_nested_struct cfg /\ True)); [tauto|].
  unfold string_wire. destruct (Z.ltb_spec 0 (Length s)).
  - apply encodes_and_then; try done. intros. by apply encodes_string_body.
  - rewrite <- (app_nil_r (le_bytes 4 (-1))). apply encodes_and_then; try done. intros. by apply encodes_skip.
Qed.

Lemma string_length_in_s s : string_wf s -> in_s 32 (if 0 <? Length s then Length s else -1).
Proof. intros [? _]. by destruct (0 <? Length s). Qed.

(** What both string decoders do with the length, on any input. *)
Lemma read_length_safe b lvl :
  Buffer_Inv b -> small b ->
  exists st v n, SOPC_Int32_Read (Some 0) (Some b) lvl = Ret (st, Some v, Some (advance b n)) /\
    0 <= n <= zlen (upcoming b) /\ (st = SOPC_STATUS_OK -> in_s 32 v /\ lvl + 1 <= max_nested_struct cfg).
Proof.
  intros I S.
  destruct (decodes_sub SOPC_Int32_Write 0 b lvl (accepted SOPC_Int32_Write lvl) (fun _ => True)) as (st & v & n & -> & ? & _ & G); [done..|].
  exists st, v, n. split_and!; try done; try lia. intros E. destruct (G E) as (? & _ & ?). done.
Qed.

Lemma read_length_app b lvl z rest :
  Buffer_Inv b -> small b -> in_s 32 z -> upcoming b = le_bytes 4 z ++ rest ->
  lvl + 1 <= max_nested_struct cfg -> (forall n, alloc_ok n = true) ->
  SOPC_Int32_Read (Some 0) (Some b) lvl = Ret (SOPC_STATUS_OK, Some z, Some (advance b 4)).
Proof. intros. by rewrite (codec_read (wr := SOPC_Int32_Write) z 0 b lvl rest). Qed.

Lemma Malloc_some n : 0 <= n -> (forall m, alloc_ok m = true) ->
  exists d, SOPC_Malloc n = Some d /\ zlen d = n.
Proof.
  intros Hn HA. destruct (SOPC_Malloc n) as [d|] eqn:E.
  - exists d. split; [done|]. by apply SOPC_Malloc_length in E.
  - unfold SOPC_Malloc in E. by rewrite HA in E.
Qed.

#[refine] #[export] Instance ByteString_codec : Codec SOPC_ByteString_Write SOPC_ByteString_Read := {
  wire := string_wire; nests _ lvl := lvl + 2 <= max_nested_struct cfg; wf := string_wf;
  limits := string_limits; canon := string_canon []; inited := string_inited; sane _ := True
}.
Proof.
  - intros s b lvl W I S. apply encodes_guard; [done| |lia]. intros. cbv zeta.
    apply encodes_string; try done. apply encodes_map_status; [apply write_failure_not_ok|].
    apply (encodes_sub SOPC_Int32_Write); try done; [by apply string_length_in_s|simpl; lia].
  - intros s s0 b lvl rest W Hm (E1 & E2 & E3) I S E L HA. unfold string_limits in Hm. unfold SOPC_ByteString_Read.
    rewrite E1. replace (0 <? Length s0) with false by lia. cbn [is_null negb orb]. level_ok. cbv zeta.
    unfold string_wire in *. unfold string_canon. destruct (Z.ltb_spec 0 (Length s)) as [P|P].
    + rewrite <- app_assoc in E. pose proof (zlen_string_chars s W P) as Lc. pose proof W as [R _].
      unfold in_s in R. simpl in R.
      rewrite (read_length_app b _ (Length s) (string_chars s ++ rest)) by done || lia. cbn [rbind].
      cbn [default from_option id is_ok]. replace (0 <? Length s) with true by lia.
      replace (Length s <=? max_string_length cfg) with true by lia.
      replace (Length s * 1 <=? SIZE_MAX) with true by (unfold SIZE_MAX; lia). cbn [andb].
      destruct (Malloc_some (1 * Length s)) as (d & -> & Ld); [lia|done|].
      destruct (upcoming_advance_app b (le_bytes 4 (Length s)) (string_chars s ++ rest)) as [I4 U4]; [done..|].
      change (zlen (le_bytes 4 (Length s))) with 4 in I4, U4.
      rewrite u32_small by lia. rewrite (read_block_app (advance b 4) d (string_chars s) rest) by (done || lia).
      cbn [rbind is_ok]. rewrite app_nil_r, zlen_app, advance_advance, Lc.
      unfold set_Data, set_Length. simpl. by rewrite E3.
    + rewrite (read_length_app b _ (-1) rest) by done || lia. simpl.
      unfold set_Length. by rewrite E1, E3.
  - intros s0 b lvl (E1 & E2 & E3) I S. unfold SOPC_ByteString_Read.
    rewrite E1. replace (0 <? Length s0) with false by lia. cbn [is_null negb orb]. by_level. cbv zeta.
    destruct (read_length_safe b (lvl + 1) I S) as (st & v & n & -> & Hn & R). cbn [rbind default from_option id].
    destruct (is_ok st) eqn:Est; [|apply decodes_advance; [done|by intros ->]].
    apply is_ok_true in Est. subst st. destruct (R eq_refl) as [R' N]. clear R. rename R' into R. unfold in_s in R. simpl in R.
    destruct (Z.ltb_spec 0 v).
    2:{ apply decodes_advance; [done|]. intros _. unfold string_wf, string_limits. split_and!; simpl; lia || done. }
    destruct ((v <=? max_string_length cfg) && (v * 1 <=? SIZE_MAX)) eqn:Emax; [|by apply decodes_advance].
    destruct (SOPC_Malloc (1 * v)) as [d|] eqn:Em; [|by apply decodes_advance].
    apply SOPC_Malloc_length in Em; [|lia]. rewrite u32_small by lia.
    apply (decodes_after b n); [done|done|].
    rewrite read_block by (done || (by apply Buffer_Inv_advance) || lia).
    destruct (Z.leb_spec v (zlen (upcoming (advance b n)))) as [Lv|Lv]; cbn [rbind is_ok]; [|by apply decodes_fail].
    apply decodes_advance; [lia|]. intros _. apply andb_prop in Emax as [Emax _]. unfold string_limits. split; [|simpl; lia]. split; simpl; [done|]. intros _. eexists. split; [done|].
    rewrite zlen_take; lia.
  - done.
  - done.
Defined.

(** The null character after the characters that were read. *)
Lemma mem_write_end (d chars : block) n :
  zlen chars = n -> zlen d = n + 1 -> mem_write (splice d 0 chars) n [x00] = Ret (chars ++ [x00]).
Proof.
  intros Lc Ld. pose proof (zlen_nonneg chars).
  rewrite mem_write_ok; [|lia|rewrite zlen_splice by lia; rewrite zlen_cons, zlen_nil; lia].
  replace n with (0 + zlen chars) at 1 by lia. rewrite splice_splice by lia.
  rewrite splice_0; [done|]. rewrite zlen_app, zlen_cons, zlen_nil. lia.
Qed.

(** Reading [n] bytes in a larger block. *)
Lemma read_prefix b dst n :
  Buffer_Inv b -> small b -> 0 <= n <= zlen dst -> n < 2 ^ 31 ->
  SOPC_Buffer_Read (Some dst) (Some b) n =
  if n <=? zlen (upcoming b)
  then Ret (SOPC_STATUS_OK, Some (splice dst 0 (take (Z.to_nat n) (upcoming b))), Some (advance b n))
  else Ret (SOPC_STATUS_OUT_OF_MEMORY, Some dst, Some b).
Proof.
  intros I S Hn Hn'. unfold small in S. by rewrite SOPC_Buffer_Read_spec by (done || destruct I; lia).
Qed.

#[refine] #[export] Instance String_codec : Codec SOPC_String_Write SOPC_String_Read := {
  wire := string_wire; nests _ lvl := lvl + 2 <= max_nested_struct cfg; wf := string_wf;
  limits := string_limits; canon := string_canon [x00]; inited := string_inited; sane _ := True
}.
Proof.
  - intros s b lvl W I S. apply encodes_guard; [done| |lia]. intros. cbv zeta.
    apply encodes_string; try done.
    apply (encodes_sub SOPC_Int32_Write); try done; [by apply string_length_in_s|simpl; lia].
  - intros s s0 b lvl rest W Hm (E1 & E2 & E3) I S E L HA. unfold string_limits in Hm.
    unfold SOPC_String_Read, SOPC_String_ReadWithLimitedLength.
    rewrite E1. replace (0 <? Length s0) with false by lia. cbn [is_null negb orb]. level_ok. cbv zeta.
    unfold string_wire in *. unfold string_canon. destruct (Z.ltb_spec 0 (Length s)) as [P|P].
    + rewrite <- app_assoc in E. pose proof (zlen_string_chars s W P) as Lc. pose proof W as [R _].
      unfold in_s in R.
      rewrite (read_length_app b _ (Length s) (string_chars s ++ rest)) by done || lia. cbn [rbind].
      cbn [default from_option id is_ok]. replace (0 <? Length s) with true by lia.
      replace (Length s <=? max_string_length cfg) with true by lia.
      replace (Length s + 1 <=? SIZE_MAX) with true by (unfold SIZE_MAX; lia). cbn [andb orb Z.eqb].
      destruct (Malloc_some (1 * (Length s + 1))) as (d & -> & Ld); [lia|done|].
      destruct (upcoming_advance_app b (le_bytes 4 (Length s)) (string_chars s ++ rest)) as [I4 U4]; [done..|].
      change (zlen (le_bytes 4 (Length s))) with 4 in I4, U4.
      rewrite u32_small by lia. rewrite read_prefix, U4 by (done || lia).
      pose proof (zlen_nonneg rest). replace (Length s <=? zlen (string_chars s ++ rest)) with true by (rewrite zlen_app; lia).
      rewrite take_app_length' by (unfold zlen in Lc; lia).
      cbn [rbind is_ok deref set_Length EncString.Length]. rewrite mem_write_end by (done || lia). cbn [rbind].
      rewrite zlen_app, advance_advance, Lc. unfold set_Data. simpl. by rewrite E3.
    + rewrite (read_length_app b _ (-1) rest) by done || lia. simpl.
      unfold set_Length. by rewrite E1, E3.
  - intros s0 b lvl (E1 & E2 & E3) I S. unfold SOPC_String_Read, SOPC_String_ReadWithLimitedLength.
    rewrite E1. replace (0 <? Length s0) with false by lia. cbn [is_null negb orb]. by_level. cbv zeta.
    destruct (read_length_safe b (lvl + 1) I S) as (st & v & n & -> & Hn & R). cbn [rbind default from_option id].
    destruct (is_ok st) eqn:Est; [|apply decodes_advance; [done|by intros ->]].
    apply is_ok_true in Est. subst st. destruct (R eq_refl) as [R' N]. clear R. rename R' into R. unfold in_s in R.
    destruct (Z.ltb_spec 0 v).
    2:{ apply decodes_advance; [done|]. intros _. unfold string_wf, string_limits. split_and!; simpl; lia || done. }
    destruct ((v <=? max_string_length cfg) && (v + 1 <=? SIZE_MAX)) eqn:Emax; [|by apply decodes_advance].
    cbn [orb Z.eqb].
    destruct (SOPC_Malloc (1 * (v + 1))) as [d|] eqn:Em; [|by apply decodes_advance].
    apply SOPC_Malloc_length in Em; [|lia]. rewrite u32_small by lia.
    apply (decodes_after b n); [done|done|].
    rewrite read_prefix by (done || (by apply Buffer_Inv_advance) || lia).
    destruct (Z.leb_spec v (zlen (upcoming (advance b n)))) as [Lv|Lv]; cbn [rbind is_ok]; [|by apply decodes_fail].
    cbn [deref rbind set_Length EncString.Length].
    rewrite mem_write_end by (rewrite ?zlen_take; lia). cbn [rbind].
    apply decodes_advance; [lia|]. intros _. apply andb_prop in Emax as [Emax _]. unfold string_limits. split; [|simpl; lia]. split; simpl; [done|]. intros _. eexists. split; [done|].
    rewrite zlen_app, zlen_take, zlen_cons, zlen_nil; lia.
  - done.
  - done.
Defined.

(** An optional string: read, or left null. *)
Lemma opt_string_accepted (c : bool) lvl s :
  (if c then accepted SOPC_String_Write lvl s else s = string_init) ->
  string_wf s /\ string_limits s /\ (0 < Length s -> lvl + 2 <= max_nested_struct cfg).
Proof.
  destruct c; [intros (? & ? & ?); done|intros ->].
  unfold string_wf, string_limits, in_s; simpl; split_and!; lia.
Qed.

#[export] Instance XmlElement_codec : Codec SOPC_XmlElement_Write SOPC_XmlElement_Read := ByteString_codec.

Definition guid_wf (g : SOPC_Guid) : Prop :=
  in_u 32 (Data1 g) /\ in_u 16 (Data2 g) /\ in_u 16 (Data3 g) /\ zlen (Data4 g) = 8.

Definition guid_wire (g : SOPC_Guid) : block :=
  le_bytes 4 (Data1 g) ++ le_bytes 2 (Data2 g) ++ le_bytes 2 (Data3 g) ++ Data4 g.

Lemma guid_write_steps g b lvl :
  guid_wf g -> Buffer_Inv b -> small b ->
  encodes b (SOPC_Guid_Write (Some g) (Some b) lvl) (guid_wire g) (lvl + 2 <= max_nested_struct cfg).
Proof.
  intros (R1 & R2 & R3 & L4) I S. apply encodes_guard; [done| |lia]. intros _. cbv zeta.
  apply encodes_map_status; [apply write_failure_not_ok|].
  set (ok := lvl + 2 <= max_nested_struct cfg).
  apply (encodes_iff _ _ _ (ok /\ ok /\ ok /\ True)); [tauto|].
  apply encodes_and_then; [done|done| |intros b1 I1 S1].
  { apply (encodes_sub SOPC_UInt32_Write); try done. subst ok; simpl; lia. }
  apply encodes_and_then; [done|done| |intros b2 I2 S2].
  { apply (encodes_sub SOPC_UInt16_Write); try done. subst ok; simpl; lia. }
  apply encodes_and_then; [done|done| |intros b3 I3 S3].
  { apply (encodes_sub SOPC_UInt16_Write); try done. subst ok; simpl; lia. }
  rewrite <- (take_ge (Data4 g) 8) at 2 by (unfold zlen in L4; lia).
  apply (encodes_write b3 (Data4 g) 8); done || lia.
Qed.


#[refine] #[export] Instance Guid_codec : Codec SOPC_Guid_Write SOPC_Guid_Read := {
  wire := guid_wire; nests _ lvl := lvl + 2 <= max_nested_struct cfg; wf := guid_wf;
  limits _ := True; canon g := g; inited g := zlen (Data4 g) = 8; sane _ := True
}.
Proof.
  - apply guid_write_steps.
  - intros g g0 b lvl rest (R1 & R2 & R3 & L4) _ L0 I S E L HA. unfold SOPC_Guid_Read. level_ok. cbv zeta.
    unfold guid_wire in *. rewrite <- !app_assoc in E.
    rewrite (codec_read (wr := SOPC_UInt32_Write) (Data1 g) _ b _ (le_bytes 2 (Data2 g) ++ le_bytes 2 (Data3 g) ++ Data4 g ++ rest))
      by (done || simpl; lia). cbn [rbind].
    rewrite (read_if_next SOPC_UInt16_Write (Data2 g) (Data2 g0) b (le_bytes 4 (Data1 g)) _ (le_bytes 2 (Data3 g) ++ Data4 g ++ rest))
      by (done || simpl; lia). cbn [rbind].
    rewrite (read_if_next SOPC_UInt16_Write (Data3 g) (Data3 g0) b (le_bytes 4 (Data1 g) ++ le_bytes 2 (Data2 g)) _ (Data4 g ++ rest))
      by (done || simpl; lia). cbn [rbind is_ok].
    rewrite !app_assoc in E. rewrite <- (app_assoc _ (Data4 g)) in E.
    destruct (upcoming_advance_app _ _ _ I E) as [I8 U8].
    rewrite (read_block_app _ (Data4 g0) (Data4 g) rest) by done. cbn [rbind is_ok default from_option id].
    rewrite advance_advance, !zlen_app, L4. by destruct g.
  - intros g0 b lvl L0 I S. unfold SOPC_Guid_Read. by_level. cbv zeta.
    destruct (decodes_sub SOPC_UInt32_Write (Data1 g0) b (lvl + 1) (accepted SOPC_UInt32_Write (lvl + 1)) (fun _ => True)) as (s1 & v1 & n1 & -> & H1' & _ & G1); [done..|].
    cbn [rbind].
    destruct (read_if_safe SOPC_UInt16_Write s1 (Data2 g0) b n1 (lvl + 1)) as (s2 & v2 & n2 & -> & H2' & _ & G2); [done..|].
    cbn [rbind].
    destruct (read_if_safe SOPC_UInt16_Write s2 (Data3 g0) b n2 (lvl + 1)) as (s3 & v3 & n3 & -> & H3' & _ & G3); [done..|].
    cbn [rbind]. destruct (is_ok s3) eqn:E3.
    + apply is_ok_true in E3. subst. destruct (G3 eq_refl) as [-> (W3 & _ & N)]. destruct (G2 eq_refl) as [-> (W2 & _)]. simpl in N.
      apply (decodes_after b n3); [done|done|].
      rewrite read_block by (done || by apply Buffer_Inv_advance).
      destruct (Z.leb_spec 8 (zlen (upcoming (advance b n3)))) as [Lv|Lv]; cbn [rbind is_ok]; [|by apply decodes_fail].
      apply decodes_advance; [lia|]. intros _. unfold guid_wf. split_and!; simpl; try done; [by apply G1| |lia].
      change 8%nat with (Z.to_nat 8). rewrite zlen_take; lia.
    + cbn [rbind]. rewrite E3. by apply decodes_advance.
  - done.
  - done.
Defined.

End StringCodecs.
