(* ===== verification/Strings.v ===== *)
(** * Strings

    Model of [src/src/Common/helpers/sopc_helper_string.c] and of the functions of
    [src/src/Common/opcua_types/sopc_builtintypes.c] on String, ByteString and
    XmlElement, with the functions of the C library that they call (in the "C" locale,
    with 64-bit [long]).

    A C string is a block that holds a null character; a scan that leaves the block is an
    [OutOfBounds] fault.  The comparison functions of the C library only promise the sign
    of their result: it is -1, 0 or 1 here. *)

From Stdlib Require Import ZArith Lia.
From Stdlib Require Import Strings.Byte.
From stdpp Require Import prelude.
From S2P Require Import Prelude Common Buffer EncString.

Open Scope Z_scope.

#[export] Instance byte_eq_decision : EqDecision byte := Byte.byte_eq_dec.

(** ** The C library *)

Definition is_nul (c : byte) : bool := b2z c =? 0.

Fixpoint strlen (s : block) : res Z :=
  match s with
  | [] => Fault OutOfBounds
  | c :: s => if is_nul c then Ret 0 else let* n := strlen s in Ret (1 + n)
  end.

Definition tolower (c : byte) : Z :=
  let z := b2z c in if (65 <=? z) && (z <=? 90) then z + 32 else z.

Definition sign_of (a b : Z) : Z := if a <? b then -1 else if b <? a then 1 else 0.

Fixpoint memcmp (a b : block) : Z :=
  match a, b with
  | x :: a, y :: b => if sign_of (b2z x) (b2z y) =? 0 then memcmp a b else sign_of (b2z x) (b2z y)
  | _, _ => 0
  end.

Fixpoint strcmp (a b : block) : res Z :=
  match a, b with
  | x :: a, y :: b =>
      if sign_of (b2z x) (b2z y) =? 0 then if is_nul x then Ret 0 else strcmp a b
      else Ret (sign_of (b2z x) (b2z y))
  | _, _ => Fault OutOfBounds
  end.

Definition isspace (c : byte) : bool := let z := b2z c in ((9 <=? z) && (z <=? 13)) || (z =? 32).

Fixpoint skip_spaces (s : block) : block :=
  match s with c :: s' => if isspace c then skip_spaces s' else s | [] => [] end.

Definition digit_value (base : Z) (c : byte) : option Z :=
  let z := b2z c in
  let v := if (48 <=? z) && (z <=? 57) then Some (z - 48)
           else if (97 <=? tolower c) && (tolower c <=? 122) then Some (tolower c - 87)
           else None in
  match v with Some d => if d <? base then Some d else None | None => None end.

(** The value of the digits, and the rest of the string. *)
Fixpoint scan_digits (base : Z) (s : block) (acc : Z) : res (Z * block) :=
  match s with
  | [] => Fault OutOfBounds
  | c :: s' => match digit_value base c with Some d => scan_digits base s' (acc * base + d) | None => Ret (acc, s) end
  end.

(** The sign, the absolute value when there is a digit, and the rest of the string. *)
Definition scan_integer (base : Z) (s : block) : res (bool * option Z * block) :=
  let s := skip_spaces s in
  let '(negative, s) := match s with
                        | c :: s' => if b2z c =? 45 then (true, s') else if b2z c =? 43 then (false, s') else (false, s)
                        | [] => (false, s)
                        end in
  let s := match s with
           | z :: x :: ((d :: _) as s') =>
               if (base =? 16) && (b2z z =? 48) && (tolower x =? 120) && bool_decide (is_Some (digit_value 16 d)) then s' else s
           | _ => s
           end in
  match s with
  | [] => Fault OutOfBounds
  | c :: _ =>
      match digit_value base c with
      | None => Ret (negative, None, s)
      | Some _ => let* (v, rest) := scan_digits base s 0 in Ret (negative, Some v, rest)
      end
  end.

Definition ULONG_MAX : Z := 2 ^ 64 - 1.
Definition LLONG_MAX : Z := 2 ^ 63 - 1.
Definition LLONG_MIN : Z := - 2 ^ 63.

(** Return the value, whether [errno] is [ERANGE], and the rest of the string, or nothing
    when there is no conversion ([*endptr] is then the start of the string). *)
Definition strtoul (s : block) (base : Z) : res (Z * bool * ptr block) :=
  let* (negative, v, rest) := scan_integer base s in
  Ret (match v with
       | None => (0, false, NULL)
       | Some v => if ULONG_MAX <? v then (ULONG_MAX, true, Some rest)
                   else (if negative : bool then u64 (- v) else v, false, Some rest)
       end).

Definition strtoll (s : block) (base : Z) : res (Z * bool * ptr block) :=
  let* (negative, v, rest) := scan_integer base s in
  Ret (match v with
       | None => (0, false, NULL)
       | Some v =>
           let v := if negative : bool then - v else v in
           if LLONG_MAX <? v then (LLONG_MAX, true, Some rest)
           else if v <? LLONG_MIN then (LLONG_MIN, true, Some rest)
           else (v, false, Some rest)
       end).

(** ** String helpers *)

(** The [for] loop; [size] bounds the number of characters. *)
Fixpoint compare_ignore_case (size : nat) (s1 s2 : block) : res Z :=
  match size with
  | O => Ret 0
  | S size =>
      match s1, s2 with
      | c1 :: s1, c2 :: s2 =>
          if tolower c1 <? tolower c2 then Ret (-1)
          else if tolower c2 <? tolower c1 then Ret 1
          else if tolower c1 =? 0 then Ret 0
          else compare_ignore_case size s1 s2
      | _, _ => Fault OutOfBounds
      end
  end.

Definition SOPC_strncmp_ignore_case (s1 s2 : ptr block) (size : Z) : res Z :=
  match s1, s2 with
  | Some s1, Some s2 => compare_ignore_case (Z.to_nat size) s1 s2
  | _, _ => Ret (-1000)
  end.

Definition SOPC_strcmp_ignore_case (s1 s2 : ptr block) : res Z :=
  match s1, s2 with
  | Some b1, Some b2 =>
      let* s1_len := strlen b1 in
      let* s2_len := strlen b2 in
      if s1_len =? s2_len then SOPC_strncmp_ignore_case s1 s2 s1_len
      else if s1_len <? s2_len then Ret (-1)
      else Ret 1
  | _, _ => Ret (-1000)
  end.

(** The [for] loop, which leaves at the end of a string. *)
Fixpoint compare_alt_end (endChar : Z) (s1 s2 : block) : res Z :=
  match s1, s2 with
  | c1 :: s1, c2 :: s2 =>
      let lc1_is_endchar := (endChar =? tolower c1) || (tolower c1 =? 0) in
      let lc2_is_endchar := (endChar =? tolower c2) || (tolower c2 =? 0) in
      if negb lc1_is_endchar && negb lc2_is_endchar then
        if tolower c1 <? tolower c2 then Ret (-1)
        else if tolower c2 <? tolower c1 then Ret 1
        else compare_alt_end endChar s1 s2
      else if lc1_is_endchar && lc2_is_endchar then Ret 0
      else if lc1_is_endchar then Ret (-1)
      else Ret 1
  | _, _ => Fault OutOfBounds
  end.

Definition SOPC_strcmp_ignore_case_alt_end (s1 s2 : ptr block) (endCharacter : byte) : res Z :=
  match s1, s2 with
  | Some s1, Some s2 => compare_alt_end (tolower endCharacter) s1 s2
  | _, _ => Ret (-1000)
  end.

(** The text of the three conversions to an unsigned integer: [max] is the largest value
    of the type, and [check_errno] tells if [errno] is tested.  Returns the status and the
    integer. *)
Definition strto_unsigned (max : Z) (check_errno : bool) (sz : ptr block) (n : ptr Z) (base : Z) (cEnd : byte) : res (SOPC_ReturnStatus * ptr Z) :=
  match sz, n with
  | Some s, Some _ =>
      if negb (base =? 10) && negb (base =? 16) then Ret (SOPC_STATUS_INVALID_PARAMETERS, n)
      else
        let* (value, erange, pEnd) := strtoul s base in
        match pEnd with
        | NULL => Ret (SOPC_STATUS_NOK, n)
        | Some rest =>
            let* c := mem_read rest 0 1 in
            if negb (bool_decide (c = [cEnd])) || (check_errno && (value =? ULONG_MAX) && erange) || (max <? value)
            then Ret (SOPC_STATUS_NOK, n)
            else Ret (SOPC_STATUS_OK, Some value)
        end
  | _, _ => Ret (SOPC_STATUS_INVALID_PARAMETERS, n)
  end.

Definition SOPC_strtouint8_t : ptr block -> ptr Z -> Z -> byte -> res (SOPC_ReturnStatus * ptr Z) := strto_unsigned UINT8_MAX false.
Definition SOPC_strtouint16_t : ptr block -> ptr Z -> Z -> byte -> res (SOPC_ReturnStatus * ptr Z) := strto_unsigned UINT16_MAX false.
Definition SOPC_strtouint32_t : ptr block -> ptr Z -> Z -> byte -> res (SOPC_ReturnStatus * ptr Z) := strto_unsigned UINT32_MAX true.

(** The size of [buf]. *)
Definition INTEGER_TEXT_SIZE : Z := 21.

(** The text is copied in [buf] and converted.  Returns the result and [*dest]. *)
Definition SOPC_strtoint (data : ptr block) (len width : Z) (dest : ptr Z) : res (bool * ptr Z) :=
  if is_null dest || (len =? 0) || (INTEGER_TEXT_SIZE - 1 <? len) then Ret (false, dest)
  else
    let* d := deref data in
    let* text := mem_read d 0 len in
    let* (val, erange, endptr) := strtoll (text ++ [x00]) 10 in
    match endptr with
    | NULL => Ret (false, dest)
    | Some rest =>
        if negb (zlen rest =? 1) then Ret (false, dest)
        else if (width =? 8) && (- 2 ^ 7 <=? val) && (val <=? 2 ^ 7 - 1) then Ret (true, Some val)
        else if (width =? 16) && (- 2 ^ 15 <=? val) && (val <=? 2 ^ 15 - 1) then Ret (true, Some val)
        else if (width =? 32) && (- 2 ^ 31 <=? val) && (val <=? 2 ^ 31 - 1) then Ret (true, Some val)
        else if (width =? 64) && (- 2 ^ 63 <=? val) && (val <=? 2 ^ 63 - 1) && negb (((LLONG_MAX =? val) || (LLONG_MIN =? val)) && erange)
        then Ret (true, Some val)
        else Ret (false, dest)
    end.

Definition SOPC_strtouint (data : ptr block) (len width : Z) (dest : ptr Z) : res (bool * ptr Z) :=
  if is_null dest || (len =? 0) || (INTEGER_TEXT_SIZE - 1 <? len) then Ret (false, dest)
  else
    let* d := deref data in
    let* text := mem_read d 0 len in
    let* (val, erange, endptr) := strtoul (text ++ [x00]) 10 in
    match endptr with
    | NULL => Ret (false, dest)
    | Some rest =>
        if negb (zlen rest =? 1) then Ret (false, dest)
        else if (width =? 8) && (val <=? UINT8_MAX) then Ret (true, Some val)
        else if (width =? 16) && (val <=? UINT16_MAX) then Ret (true, Some val)
        else if (width =? 32) && (val <=? UINT32_MAX) then Ret (true, Some val)
        else if (width =? 64) && (val <=? 2 ^ 64 - 1) && negb ((ULONG_MAX =? val) && erange) then Ret (true, Some val)
        else Ret (false, dest)
    end.

Section Alloc.
Context `{Allocator}.

Definition SOPC_strdup (s : ptr block) : res (ptr block) :=
  match s with
  | NULL => Ret NULL
  | Some s =>
      let* len := strlen s in
      match SOPC_Calloc (1 + len) with
      | NULL => Ret NULL
      | Some r => let* r := memcpy r 0 s 0 len in Ret (Some r)
      end
  end.

(** ** ByteString *)

Definition sizeof_SOPC_String : Z := 16.

Definition SOPC_String_Create : ptr SOPC_String :=
  match SOPC_Malloc sizeof_SOPC_String with Some _ => SOPC_String_Initialize (Some string_init) | NULL => NULL end.

Definition SOPC_ByteString_Create : ptr SOPC_ByteString := SOPC_String_Create.

Definition SOPC_ByteString_InitializeFixedSize (bstring : ptr SOPC_ByteString) (size : Z) : res (SOPC_ReturnStatus * ptr SOPC_ByteString) :=
  match bstring with
  | NULL => Ret (SOPC_STATUS_INVALID_PARAMETERS, NULL)
  | Some _ =>
      let* b := deref (SOPC_ByteString_Initialize bstring) in
      let b := if (size * 1 <=? SIZE_MAX) && (size <=? INT32_MAX)
               then set_Length (set_Data b (SOPC_Malloc (1 * size))) size else set_Data b NULL in
      match Data b with
      | Some d => let* d := memset0 d 0 size in Ret (SOPC_STATUS_OK, Some (set_Data b (Some d)))
      | NULL => Ret (SOPC_STATUS_NOK, Some b)
      end
  end.

Definition SOPC_ByteString_CopyFromBytes (dest : ptr SOPC_ByteString) (bytes : ptr block) (length : Z) : res (SOPC_ReturnStatus * ptr SOPC_ByteString) :=
  match dest, bytes with
  | Some b, Some src =>
      if 0 <? length then
        let b := set_Length b length in
        match (if (0 <? length) && (length * 1 <=? SIZE_MAX) then SOPC_Malloc (1 * length) else NULL) with
        | Some d => let* d := memcpy d 0 src 0 length in Ret (SOPC_STATUS_OK, Some (set_Data b (Some d)))
        | NULL => Ret (SOPC_STATUS_INVALID_PARAMETERS, Some (set_Data b NULL))
        end
      else Ret (SOPC_STATUS_INVALID_PARAMETERS, dest)
  | _, _ => Ret (SOPC_STATUS_INVALID_PARAMETERS, dest)
  end.

Definition SOPC_ByteString_Copy (dest src : ptr SOPC_ByteString) : res (SOPC_ReturnStatus * ptr SOPC_ByteString) :=
  match dest, src with
  | Some b, Some s =>
      if negb (is_null (Data b)) then Ret (SOPC_STATUS_INVALID_PARAMETERS, dest)
      else
        let b := set_Length b (Length s) in
        if 0 <? Length b then
          if Length b * 1 <=? SIZE_MAX then
            match SOPC_Malloc (1 * Length b) with
            | Some d =>
                let* sd := deref (Data s) in
                let* d := memcpy d 0 sd 0 (Length b) in
                Ret (SOPC_STATUS_OK, Some (set_Data b (Some d)))
            | NULL => Ret (SOPC_STATUS_NOK, Some (set_Data b NULL))
            end
          else Ret (SOPC_STATUS_INVALID_PARAMETERS, Some b)
        else Ret (SOPC_STATUS_OK, Some b)
  | _, _ => Ret (SOPC_STATUS_INVALID_PARAMETERS, dest)
  end.

Definition SOPC_ByteString_Clear (bstring : ptr SOPC_ByteString) : ptr SOPC_ByteString := SOPC_String_Clear bstring.

(** Returns the status and [*comparison]. *)
Definition SOPC_ByteString_Compare (left right : ptr SOPC_ByteString) (comparison : ptr Z) : res (SOPC_ReturnStatus * ptr Z) :=
  match left, right with
  | Some l, Some r =>
      let* c :=
        (if (Length l =? Length r) || ((Length l <=? 0) && (Length r <=? 0)) then
           if (Length l <=? 0) && (Length r <=? 0) then Ret 0
           else
             let* ld := deref (Data l) in
             let* rd := deref (Data r) in
             let* a := mem_read ld 0 (Length l) in
             let* b := mem_read rd 0 (Length l) in
             Ret (memcmp a b)
         else if Length r <? Length l then Ret 1
         else Ret (-1)) in
      let* _ := deref comparison in
      Ret (SOPC_STATUS_OK, Some c)
  | _, _ => Ret (SOPC_STATUS_INVALID_PARAMETERS, comparison)
  end.

(** The result of a comparison, [false] when it fails. *)
Definition equal_when (r : res (SOPC_ReturnStatus * ptr Z)) : res bool :=
  let* (status, compare) := r in
  if is_ok status then let* c := deref compare in Ret (c =? 0) else Ret false.

Definition SOPC_ByteString_Equal (left right : ptr SOPC_ByteString) : res bool :=
  equal_when (SOPC_ByteString_Compare left right (Some 0)).

(** ** String *)

(** The data of [src] are shared with [dest]. *)
Definition SOPC_String_AttachFrom (dest src : ptr SOPC_String) : SOPC_ReturnStatus * ptr SOPC_String :=
  match dest, src with
  | Some _, Some s =>
      if (0 <? Length s) && negb (is_null (Data s))
      then (SOPC_STATUS_OK, Some (mkString (Length s) true (Data s)))
      else (SOPC_STATUS_INVALID_PARAMETERS, dest)
  | _, _ => (SOPC_STATUS_INVALID_PARAMETERS, dest)
  end.

Definition SOPC_String_AttachFromCstring (dest : ptr SOPC_String) (src : ptr block) : res (SOPC_ReturnStatus * ptr SOPC_String) :=
  match dest, src with
  | Some d, Some s =>
      if is_null (Data d) then
        let* stringLength := strlen s in
        if stringLength <=? INT32_MAX
        then Ret (SOPC_STATUS_OK, Some (mkString stringLength true (Some s)))
        else Ret (SOPC_STATUS_INVALID_PARAMETERS, dest)
      else Ret (SOPC_STATUS_INVALID_PARAMETERS, dest)
  | _, _ => Ret (SOPC_STATUS_INVALID_PARAMETERS, dest)
  end.

Definition SOPC_String_Copy (dest src : ptr SOPC_String) : res (SOPC_ReturnStatus * ptr SOPC_String) :=
  match dest, src with
  | Some b, Some s =>
      if negb (is_null (Data b)) then Ret (SOPC_STATUS_INVALID_PARAMETERS, dest)
      else
        let b := set_Length b (Length s) in
        if 0 <? Length b then
          if Length b * 1 <=? SIZE_MAX then
            match SOPC_Malloc (1 * Length b + 1) with
            | Some d =>
                let* sd := deref (Data s) in
                let* d := memcpy d 0 sd 0 (Length b) in
                let* d := mem_write d (Length b) [x00] in
                Ret (SOPC_STATUS_OK, Some (mkString (Length b) false (Some d)))
            | NULL => Ret (SOPC_STATUS_OUT_OF_MEMORY, Some (set_Data b NULL))
            end
          else Ret (SOPC_STATUS_OUT_OF_MEMORY, Some b)
        else Ret (SOPC_STATUS_OK, Some (set_Data b NULL))
  | _, _ => Ret (SOPC_STATUS_INVALID_PARAMETERS, dest)
  end.

Definition SOPC_String_CopyFromCString (string : ptr SOPC_String) (cString : ptr block) : res (SOPC_ReturnStatus * ptr SOPC_String) :=
  match string, cString with
  | Some b, Some s =>
      if negb (is_null (Data b)) then Ret (SOPC_STATUS_INVALID_PARAMETERS, string)
      else
        let* stringLength := strlen s in
        if (0 <? stringLength) && (stringLength <=? INT32_MAX) then
          let b := set_Length b stringLength in
          match SOPC_Malloc (1 * (stringLength + 1)) with
          | Some d => let* d := memcpy d 0 s 0 (stringLength + 1) in Ret (SOPC_STATUS_OK, Some (set_Data b (Some d)))
          | NULL => Ret (SOPC_STATUS_NOK, Some (set_Data b NULL))
          end
        else if stringLength =? 0 then Ret (SOPC_STATUS_OK, Some (set_Length b 0))
        else Ret (SOPC_STATUS_NOK, string)
  | _, _ => Ret (SOPC_STATUS_INVALID_PARAMETERS, string)
  end.

Definition SOPC_String_InitializeFromCString (string : ptr SOPC_String) (cString : ptr block) : res (SOPC_ReturnStatus * ptr SOPC_String) :=
  match string with
  | NULL => Ret (SOPC_STATUS_INVALID_PARAMETERS, NULL)
  | Some _ => SOPC_String_CopyFromCString (SOPC_String_Initialize string) cString
  end.

Definition SOPC_String_GetCString (string : ptr SOPC_String) : res (ptr block) :=
  match string with
  | NULL => Ret NULL
  | Some s =>
      if 0 <? Length s then
        match SOPC_Malloc (1 * (Length s + 1)) with
        | Some c =>
            let* sd := deref (Data s) in
            let* c := memcpy c 0 sd 0 (Length s + 1) in
            Ret (Some c)
        | NULL => Ret NULL
        end
      else Ret NULL
  end.

Definition SOPC_String_GetRawCString (string : ptr SOPC_String) : res (ptr block) :=
  match string with
  | NULL => Ret NULL
  | Some s =>
      if 0 <? Length s then
        let* sd := deref (Data s) in
        let* c := mem_read sd (Length s) 1 in
        assert! bool_decide (c = [x00]) in
        Ret (Data s)
      else Ret NULL
  end.

(** Returns the status and [*comparison]. *)
Definition SOPC_String_Compare (left right : ptr SOPC_String) (ignoreCase : bool) (comparison : ptr Z) : res (SOPC_ReturnStatus * ptr Z) :=
  match left, right, comparison with
  | Some l, Some r, Some _ =>
      let* c :=
        (if (Length l <=? 0) && (Length r <=? 0) then Ret 0
         else if Length l =? Length r then
           if negb ignoreCase then
             let* ld := deref (Data l) in
             let* rd := deref (Data r) in
             strcmp ld rd
           else SOPC_strncmp_ignore_case (Data l) (Data r) (Length l)
         else if Length r <? Length l then Ret 1
         else Ret (-1)) in
      Ret (SOPC_STATUS_OK, Some c)
  | _, _, _ => Ret (SOPC_STATUS_INVALID_PARAMETERS, comparison)
  end.

Definition SOPC_String_Equal (left right : ptr SOPC_String) : res bool :=
  equal_when (SOPC_String_Compare left right false (Some 0)).

(** The [for] loop over the strings, with [f] the conversion of one. *)
Fixpoint convert_strings (f : ptr SOPC_String -> res (ptr block)) (strings : list SOPC_String) : res (list (ptr block)) :=
  match strings with
  | [] => Ret []
  | s :: strings =>
      let* c := f (Some s) in
      let* cs := convert_strings f strings in
      Ret (c :: cs)
  end.

Definition sizeof_pointer : Z := 8.

(** The array ends with a null pointer; [stringArray] holds at least [nbOfStrings]
    strings. *)
Definition string_array (f : ptr SOPC_String -> res (ptr block)) (nbOfStrings : Z) (stringArray : ptr (list SOPC_String)) : res (ptr (list (ptr block))) :=
  if (0 <? nbOfStrings) && is_null stringArray then Ret NULL
  else
    let nbOfStrings := if nbOfStrings <? 0 then 0 else nbOfStrings in
    match SOPC_Calloc ((nbOfStrings + 1) * sizeof_pointer) with
    | NULL => Ret NULL
    | Some _ =>
        if zlen (default [] stringArray) <? nbOfStrings then Fault OutOfBounds
        else
          let* cs := convert_strings f (take (Z.to_nat nbOfStrings) (default [] stringArray)) in
          Ret (Some (cs ++ [NULL]))
    end.

Definition SOPC_String_GetRawCStringArray : Z -> ptr (list SOPC_String) -> res (ptr (list (ptr block))) := string_array SOPC_String_GetRawCString.
Definition SOPC_String_GetCStringArray : Z -> ptr (list SOPC_String) -> res (ptr (list (ptr block))) := string_array SOPC_String_GetCString.

(** ** XmlElement *)

Definition SOPC_XmlElement_Copy (dest src : ptr SOPC_XmlElement) : res (SOPC_ReturnStatus * ptr SOPC_XmlElement) := SOPC_ByteString_Copy dest src.
Definition SOPC_XmlElement_Compare (left right : ptr SOPC_XmlElement) (comparison : ptr Z) : res (SOPC_ReturnStatus * ptr Z) :=
  SOPC_ByteString_Compare left right comparison.
Definition SOPC_XmlElement_Clear (xmlElt : ptr SOPC_XmlElement) : ptr SOPC_XmlElement :=
  SOPC_ByteString_Clear xmlElt.

End Alloc.
