(* ===== verification/StringsProps.v ===== *)
(** * Properties of the strings

    The comparisons decide the equality of the characters for strings without null
    character, a copy is equal to its source, and the conversions of decimal texts give
    the number or fail. *)

From Stdlib Require Import ZArith Lia.
From Stdlib Require Import Strings.Byte.
From stdpp Require Import prelude.
From S2P Require Import Prelude Common Buffer EncString Strings.

Open Scope Z_scope.

(** ** Comparisons *)

Lemma sign_of_0 a b : (sign_of a b =? 0) = (a =? b).
Proof. unfold sign_of. destruct (Z.ltb_spec a b), (Z.ltb_spec b a), (Z.eqb_spec a b); try done; lia. Qed.

Lemma memcmp_eq a b : length a = length b -> memcmp a b = 0 <-> a = b.
Proof.
  revert b. induction a as [|x a IH]; intros [|y b] L; try done. cbn. rewrite sign_of_0. destruct (Z.eqb_spec (b2z x) (b2z y)) as [E|N].
  - apply b2z_inj in E as ->. rewrite IH by (cbn in L; lia). split; [by intros ->|by intros [= ->]].
  - split; [|intros [= -> ->]; done]. intros E. apply Z.eqb_eq in E. rewrite sign_of_0 in E. lia.
Qed.

(** The characters of a C string. *)
Definition plain_text (s : block) : Prop := Forall (fun c => is_nul c = false) s.

Lemma strlen_text s rest : plain_text s -> strlen (s ++ x00 :: rest) = Ret (zlen s).
Proof. induction 1 as [|c s Hc _ IH]; [done|]. cbn. rewrite Hc, IH. cbn. by rewrite zlen_cons. Qed.

Lemma is_nul_eq c : is_nul c = true -> c = x00.
Proof. unfold is_nul. rewrite Z.eqb_eq. intros E. by apply b2z_inj. Qed.

Lemma strcmp_text a b ra rb : plain_text a -> plain_text b -> exists c, strcmp (a ++ x00 :: ra) (b ++ x00 :: rb) = Ret c /\ (c = 0 <-> a = b).
Proof.
  intros Ha. revert b. induction Ha as [|x a Hx Ha IH]; intros b0 Hb0; destruct Hb0 as [|y b Hy Hb].
  - by exists 0.
  - eexists. cbn. rewrite sign_of_0. change (b2z x00) with 0. unfold is_nul in Hy. rewrite Z.eqb_sym, Hy. split; [done|]. split; [|done].
    intros E. apply Z.eqb_eq in E. by rewrite sign_of_0, Z.eqb_sym, Hy in E.
  - eexists. cbn. rewrite sign_of_0. change (b2z x00) with 0. unfold is_nul in Hx. rewrite Hx. split; [done|]. split; [|done].
    intros E. apply Z.eqb_eq in E. by rewrite sign_of_0, Hx in E.
  - cbn. rewrite sign_of_0, Hx. destruct (Z.eqb_spec (b2z x) (b2z y)) as [E|N].
    + destruct (IH b Hb) as (c & -> & Hc). exists c. split; [done|]. apply b2z_inj in E as ->. rewrite Hc. split; [by intros ->|by intros [= ->]].
    + eexists. split; [done|]. split; [|intros [= -> ->]; done]. intros E. apply Z.eqb_eq in E. rewrite sign_of_0 in E. lia.
Qed.

Lemma tolower_0 c : is_nul c = false -> (tolower c =? 0) = false.
Proof. unfold is_nul, tolower. pose proof (b2z_range c). rewrite !Z.eqb_neq. intros N. destruct (_ && _); lia. Qed.

Lemma compare_ignore_case_text a b ra rb : plain_text a -> length a = length b ->
  exists c, compare_ignore_case (length a) (a ++ ra) (b ++ rb) = Ret c /\ (c = 0 <-> map tolower a = map tolower b).
Proof.
  intros Ha. revert b. induction Ha as [|x a Hx Ha IH]; intros [|y b] L; try done; [by exists 0|]. cbn.
  destruct (Z.ltb_spec (tolower x) (tolower y)); [exists (-1); split; [done|]; split; [done|intros [=]; lia]|].
  destruct (Z.ltb_spec (tolower y) (tolower x)); [exists 1; split; [done|]; split; [done|intros [=]; lia]|].
  rewrite tolower_0 by done. destruct (IH b ltac:(cbn in L; lia)) as (c & -> & Hc). exists c. split; [done|]. rewrite Hc.
  assert (tolower x = tolower y) as -> by lia. split; [by intros ->|by intros [= ->]].
Qed.

(** A string that the toolkit creates: no null character but the one that follows. *)
Definition terminated (s : SOPC_String) : Prop :=
  0 < Length s -> exists d rest, Data s = Some (d ++ x00 :: rest) /\ zlen d = Length s /\ plain_text d.

(** The characters, as the comparison sees them. *)
Definition folded (ignoreCase : bool) (s : SOPC_String) : list Z := map (if ignoreCase then tolower else b2z) (string_chars s).

Lemma string_chars_null s : Length s <= 0 -> string_chars s = [].
Proof. intros L. unfold string_chars. by replace (Z.to_nat (Length s)) with O by lia. Qed.

Lemma string_chars_text s d rest : Data s = Some (d ++ x00 :: rest) -> zlen d = Length s -> string_chars s = d.
Proof. intros E L. unfold string_chars. rewrite E. cbn. rewrite <- L. unfold zlen. rewrite Nat2Z.id, take_app_length. done. Qed.

Lemma zlen_text s : terminated s -> zlen (string_chars s) = Z.max 0 (Length s).
Proof.
  intros T. destruct (Z.ltb_spec 0 (Length s)) as [P|N].
  - destruct (T P) as (d & rest & E & L & _). rewrite (string_chars_text s d rest) by done. lia.
  - rewrite string_chars_null by lia. rewrite zlen_nil. lia.
Qed.

Lemma folded_length ic l r : terminated l -> terminated r -> folded ic l = folded ic r -> Z.max 0 (Length l) = Z.max 0 (Length r).
Proof.
  intros Tl Tr E. rewrite <- !zlen_text by done. unfold zlen. f_equal. apply (f_equal length) in E. unfold folded in E. by rewrite !length_map in E.
Qed.

Lemma map_b2z_inj a b : map b2z a = map b2z b -> a = b.
Proof. revert b. induction a as [|x a IH]; intros [|y b]; try done. cbn. intros [= E1 E2]. by rewrite (b2z_inj x y E1), (IH b E2). Qed.

Lemma String_Compare_text ic l r c0 : terminated l -> terminated r ->
  exists c, SOPC_String_Compare (Some l) (Some r) ic (Some c0) = Ret (SOPC_STATUS_OK, Some c) /\ (c = 0 <-> folded ic l = folded ic r).
Proof.
  intros Tl Tr. unfold SOPC_String_Compare. destruct (Z.leb_spec (Length l) 0) as [Nl|Pl], (Z.leb_spec (Length r) 0) as [Nr|Pr]; cbn [andb].
  - exists 0. split; [done|]. unfold folded. by rewrite !string_chars_null by lia.
  - replace (Length l =? Length r) with false by lia. replace (Length r <? Length l) with false by lia. eexists. split; [done|]. split; [done|].
    intros E. apply folded_length in E; [lia|done..].
  - replace (Length l =? Length r) with false by lia. replace (Length r <? Length l) with true by lia. eexists. split; [done|]. split; [done|].
    intros E. apply folded_length in E; [lia|done..].
  - destruct (Z.eqb_spec (Length l) (Length r)) as [E|N].
    + destruct (Tl Pl) as (a & ra & Ea & La & Ha), (Tr Pr) as (b & rb & Eb & Lb & Hb). unfold folded.
      rewrite (string_chars_text l a ra), (string_chars_text r b rb) by done. rewrite Ea, Eb. destruct ic; cbn [negb].
      * replace (Z.to_nat (Length l)) with (length a) by (unfold zlen in La; lia). unfold SOPC_strncmp_ignore_case.
        replace (Z.to_nat (Length l)) with (length a) by (unfold zlen in La; lia).
        destruct (compare_ignore_case_text a b (x00 :: ra) (x00 :: rb) Ha) as (c & -> & Hc); [unfold zlen in *; lia|]. by exists c.
      * cbn [deref rbind]. destruct (strcmp_text a b ra rb Ha Hb) as (c & -> & Hc). exists c. split; [done|]. rewrite Hc. split; [by intros ->|apply map_b2z_inj].
    + assert (folded ic l <> folded ic r) as Nf by (intros E; apply folded_length in E; [lia|done..]).
      destruct (Length r <? Length l); eexists; (split; [done|]); split; (done || by intros).
Qed.

(** Two strings that end with a null character and hold no other compare as equal,
    with or without regard to case, exactly when their characters are the same (up to
    case); null and empty strings are the same. *)
Theorem string_comparison_decides (ignoreCase : bool) (l r : SOPC_String) (c0 : Z) :
  terminated l -> terminated r ->
  exists c, SOPC_String_Compare (Some l) (Some r) ignoreCase (Some c0) = Ret (SOPC_STATUS_OK, Some c) /\
    (c = 0 <-> folded ignoreCase l = folded ignoreCase r).
Proof. apply String_Compare_text. Qed.

Lemma terminated_text d : plain_text d -> terminated (mkString (zlen d) false (Some (d ++ [x00]))).
Proof. intros P L. by exists d, []. Qed.

Lemma string_comparison_decides_witness :
  exists c, SOPC_String_Compare (Some (mkString 2 false (Some [x4f; x4b; x00]))) (Some (mkString 2 false (Some [x6f; x6b; x00]))) true (Some 7) =
    Ret (SOPC_STATUS_OK, Some c) /\ c = 0.
Proof.
  destruct (string_comparison_decides true (mkString 2 false (Some [x4f; x4b; x00])) (mkString 2 false (Some [x6f; x6b; x00])) 7) as (c & E & Hc).
  - apply (terminated_text [x4f; x4b]). by repeat constructor.
  - apply (terminated_text [x6f; x6b]). by repeat constructor.
  - exists c. split; [exact E|]. by apply Hc.
Defined.

(** The decoder of strings accepts null characters inside a string, and the
    comparison stops at the first one: two strings that differ after it are equal. *)
Theorem embedded_null_equal (a b c : block) :
  plain_text a -> length b = length c ->
  SOPC_String_Equal (Some (mkString (zlen (a ++ x00 :: b)) false (Some (a ++ x00 :: b ++ [x00]))))
                    (Some (mkString (zlen (a ++ x00 :: c)) false (Some (a ++ x00 :: c ++ [x00])))) = Ret true.
Proof.
  intros P L. unfold SOPC_String_Equal, SOPC_String_Compare. cbn [Length Data]. rewrite !zlen_app, !zlen_cons.
  pose proof (zlen_nonneg a). pose proof (zlen_nonneg b). replace (zlen c) with (zlen b) by (unfold zlen; lia).
  replace (zlen a + (1 + zlen b) <=? 0) with false by lia. cbn [andb]. rewrite Z.eqb_refl. cbn [negb deref rbind].
  destruct (strcmp_text a a (b ++ [x00]) (c ++ [x00]) P P) as (z & -> & Hz). cbn. f_equal. apply Z.eqb_eq. by apply Hz.
Qed.

Lemma embedded_null_equal_witness :
  SOPC_String_Equal (Some (mkString 3 false (Some [x61; x00; x62; x00]))) (Some (mkString 3 false (Some [x61; x00; x63; x00]))) = Ret true.
Proof. apply (embedded_null_equal [x61] [x62] [x63]); [by repeat constructor|reflexivity]. Defined.

(** ** Copies *)

Section Copies.
Context `{Allocator}.

Lemma memcpy_prefix dst src n : 0 <= n <= zlen src -> zlen src <= zlen dst \/ n <= zlen dst ->
  memcpy dst 0 src 0 n = Ret (splice dst 0 (take (Z.to_nat n) src)).
Proof.
  intros Hn Hd. pose proof (zlen_nonneg dst). unfold memcpy. rewrite mem_read_ok by lia. cbn [rbind Z.to_nat]. rewrite drop_0.
  pose proof (zlen_take n src ltac:(lia)). apply mem_write_ok; lia.
Qed.

(** What the copies of a string and of a byte string are. *)
Lemma String_Copy_exact dest s : string_wf s -> Data dest = NULL ->
  SOPC_String_Copy (Some dest) (Some s) =
  if 0 <? Length s then
    if alloc_ok (Length s + 1) then Ret (SOPC_STATUS_OK, Some (mkString (Length s) false (Some (string_chars s ++ [x00]))))
    else Ret (SOPC_STATUS_OUT_OF_MEMORY, Some (mkString (Length s) (DoNotClear dest) NULL))
  else Ret (SOPC_STATUS_OK, Some (mkString (Length s) (DoNotClear dest) NULL)).
Proof.
  intros [Hi Hd] N. unfold SOPC_String_Copy. rewrite N. cbn [is_null negb set_Length Length set_Data].
  destruct (Z.ltb_spec 0 (Length s)) as [P|Np]; [|done].
  destruct (Hd P) as (sd & Es & Ls). unfold in_s in Hi. replace (Length s * 1 <=? SIZE_MAX) with true by (unfold SIZE_MAX; lia).
  replace (1 * Length s + 1) with (Length s + 1) by lia. destruct (SOPC_Malloc (Length s + 1)) as [m|] eqn:Em.
  - apply SOPC_Malloc_length in Em as Lm; [|lia]. unfold SOPC_Malloc in Em. destruct (alloc_ok _); [|done].
    rewrite Es. cbn [deref rbind]. rewrite memcpy_prefix by lia. cbn [rbind].
    assert (zlen (take (Z.to_nat (Length s)) sd) = Length s) as Lt by (apply zlen_take; lia).
    rewrite mem_write_ok by (rewrite ?zlen_splice; change (zlen [x00]) with 1; lia). cbn [rbind].
    do 5 f_equal. unfold string_chars. rewrite Es. cbn [default from_option Datatypes.id]. replace (Length s) with (0 + zlen (take (Z.to_nat (Length s)) sd)) at 2 by lia.
    rewrite splice_splice by (change (zlen [x00]) with 1; lia). apply splice_0. rewrite zlen_app, Lt. rewrite Lm. done.
  - unfold SOPC_Malloc in Em. by destruct (alloc_ok _).
Qed.

Lemma ByteString_Copy_exact dest s : string_wf s -> Data dest = NULL ->
  SOPC_ByteString_Copy (Some dest) (Some s) =
  if 0 <? Length s then
    if alloc_ok (Length s) then Ret (SOPC_STATUS_OK, Some (mkString (Length s) (DoNotClear dest) (Some (string_chars s))))
    else Ret (SOPC_STATUS_NOK, Some (mkString (Length s) (DoNotClear dest) NULL))
  else Ret (SOPC_STATUS_OK, Some (mkString (Length s) (DoNotClear dest) NULL)).
Proof.
  intros [Hi Hd] N. unfold SOPC_ByteString_Copy. rewrite N. cbn [is_null negb set_Length Length set_Data].
  destruct (Z.ltb_spec 0 (Length s)) as [P|Np]; [|unfold set_Length; by rewrite N].
  destruct (Hd P) as (sd & Es & Ls). unfold in_s in Hi. replace (Length s * 1 <=? SIZE_MAX) with true by (unfold SIZE_MAX; lia).
  rewrite Z.mul_1_l. destruct (SOPC_Malloc (Length s)) as [m|] eqn:Em.
  - apply SOPC_Malloc_length in Em as Lm; [|lia]. unfold SOPC_Malloc in Em. destruct (alloc_ok _); [|done].
    rewrite Es. cbn [deref rbind]. rewrite memcpy_prefix by lia. cbn [rbind].
    do 5 f_equal. unfold string_chars. rewrite Es. cbn [default from_option Datatypes.id]. apply splice_0. rewrite zlen_take; lia.
  - unfold SOPC_Malloc in Em. by destruct (alloc_ok _).
Qed.

Lemma zlen_chars s : string_wf s -> zlen (string_chars s) = Z.max 0 (Length s).
Proof.
  intros [_ D]. unfold string_chars. destruct (Z.ltb_spec 0 (Length s)) as [P|N].
  - destruct (D P) as (d & -> & L). change (default [] (Some d)) with d. rewrite zlen_take; lia.
  - replace (Z.to_nat (Length s)) with O by lia. rewrite take_0, zlen_nil. lia.
Qed.

Lemma chars_of_text n b t rest : n = zlen t -> string_chars (mkString n b (Some (t ++ rest))) = t.
Proof. intros ->. unfold string_chars. cbn. unfold zlen. by rewrite Nat2Z.id, take_app_length. Qed.

(** The copy of a string into an empty one either fails because there is no memory,
    or is a string of its own (it is freed when it is cleared), with the same characters
    and a null character after them. *)
Theorem string_copy_faithful (dest s : SOPC_String) :
  string_wf s -> Data dest = NULL ->
  exists status d, SOPC_String_Copy (Some dest) (Some s) = Ret (status, Some d) /\
    match status with
    | SOPC_STATUS_OK =>
        string_chars d = string_chars s /\
        (0 < Length s -> DoNotClear d = false /\ SOPC_String_GetRawCString (Some d) = Ret (Some (string_chars s ++ [x00])))
    | SOPC_STATUS_OUT_OF_MEMORY => Data d = NULL /\ alloc_ok (Length s + 1) = false
    | _ => False
    end.
Proof.
  intros Ws N. rewrite String_Copy_exact by done. pose proof (zlen_chars s Ws) as Lc. destruct (Z.ltb_spec 0 (Length s)) as [P|Np].
  - destruct (alloc_ok (Length s + 1)) eqn:A; eexists _, _; (split; [done|]); cbn beta iota; [|done]. rewrite chars_of_text by lia. split; [done|]. intros _. split; [done|].
    unfold SOPC_String_GetRawCString. cbn [Length Data]. replace (0 <? Length s) with true by lia. cbn [deref rbind].
    rewrite mem_read_ok by (rewrite ?zlen_app, ?Lc; change (zlen [x00]) with 1; lia). cbn [rbind].
    replace (Z.to_nat (Length s)) with (length (string_chars s)) by (unfold zlen in Lc; lia). rewrite drop_app_length. done.
  - eexists _, _. split; [reflexivity|]. cbn. split; [|lia]. rewrite (string_chars_null s) by lia. by apply string_chars_null.
Qed.

End Copies.

Lemma string_copy_faithful_witness : exists d,
  @SOPC_String_Copy serving_allocator (Some string_init) (Some (mkString 2 true (Some [x4f; x4b; x20]))) = Ret (SOPC_STATUS_OK, Some d) /\
  string_chars d = [x4f; x4b].
Proof.
  destruct (@string_copy_faithful serving_allocator string_init (mkString 2 true (Some [x4f; x4b; x20]))) as (st & d & E & Hd).
  - split; [unfold in_s; cbn; lia|]. intros _. by eexists.
  - reflexivity.
  - destruct st; try done. exists d. split; [exact E|apply Hd].
Defined.

(** ** Decimal texts *)

Definition digit (d : Z) : byte := z2b (48 + d).
Definition digits_value (ds : list Z) : Z := fold_left (fun acc d => acc * 10 + d) ds 0.
Definition decimal (ds : list Z) : Prop := Forall (fun d => 0 <= d < 10) ds.

Lemma digit_b2z d : 0 <= d < 10 -> b2z (digit d) = 48 + d.
Proof. intros Hd. unfold digit. rewrite b2z_z2b. apply Z.mod_small. lia. Qed.

Lemma digit_value_digit d : 0 <= d < 10 -> digit_value 10 (digit d) = Some d.
Proof.
  intros Hd. unfold digit_value. rewrite digit_b2z by done. replace (48 <=? 48 + d) with true by lia. replace (48 + d <=? 57) with true by lia. cbn [andb].
  replace (48 + d - 48) with d by lia. by replace (d <? 10) with true by lia.
Qed.

Lemma scan_digits_decimal ds rest acc : decimal ds ->
  scan_digits 10 (map digit ds ++ x00 :: rest) acc = Ret (fold_left (fun acc d => acc * 10 + d) ds acc, x00 :: rest).
Proof. intros Hd. revert acc. induction Hd as [|d ds Hd _ IH]; intros acc; [done|]. cbn [map app scan_digits]. rewrite digit_value_digit by done. apply IH. Qed.

Lemma scan_integer_decimal d ds rest : decimal (d :: ds) ->
  scan_integer 10 (map digit (d :: ds) ++ x00 :: rest) = Ret (false, Some (digits_value (d :: ds)), x00 :: rest).
Proof.
  intros Hd. pose proof Hd as [H1 _]%Forall_cons. unfold scan_integer. cbn [map app skip_spaces]. unfold isspace. rewrite digit_b2z by done.
  replace ((9 <=? 48 + d) && (48 + d <=? 13)) with false by lia. replace (48 + d =? 32) with false by lia. cbn [orb]. rewrite digit_b2z by done.
  replace (48 + d =? 45) with false by lia. replace (48 + d =? 43) with false by lia.
  replace (match map digit ds ++ x00 :: rest with x :: (d0 :: _) as s' => _ | _ => _ end) with (digit d :: map digit ds ++ x00 :: rest)
    by (destruct (map digit ds ++ x00 :: rest) as [|? [|? ?]]; reflexivity).
  rewrite digit_value_digit by done. change (digit d :: map digit ds ++ x00 :: rest) with (map digit (d :: ds) ++ x00 :: rest).
  by rewrite scan_digits_decimal.
Qed.

Lemma digits_value_bound ds acc : decimal ds -> 0 <= acc -> 0 <= fold_left (fun acc d => acc * 10 + d) ds acc.
Proof. intros Hd. revert acc. induction Hd as [|d ds ? _ IH]; intros acc Ha; cbn; [done|]. apply IH. lia. Qed.

(** A text of one to twenty decimal digits is converted to its value when the value
    fits in the width, and is refused otherwise, whatever follows the text in memory. *)
Theorem strtouint_decimal (ds : list Z) (rest : block) (width v0 : Z) :
  decimal ds -> 0 < zlen ds <= 20 -> width = 8 \/ width = 16 \/ width = 32 \/ width = 64 ->
  SOPC_strtouint (Some (map digit ds ++ rest)) (zlen ds) width (Some v0) =
    if digits_value ds <? 2 ^ width then Ret (true, Some (digits_value ds)) else Ret (false, Some v0).
Proof.
  intros Hd L W. unfold SOPC_strtouint, INTEGER_TEXT_SIZE. replace (zlen ds =? 0) with false by lia. replace (21 - 1 <? zlen ds) with false by lia.
  cbn [is_null orb deref rbind]. assert (zlen (map digit ds) = zlen ds) as Lm by (unfold zlen; by rewrite length_map).
  rewrite mem_read_ok by (rewrite ?zlen_app, ?Lm; pose proof (zlen_nonneg rest); lia). cbn [rbind Z.to_nat]. rewrite drop_0, <- Lm. unfold zlen at 1.
  rewrite Nat2Z.id, take_app_length. destruct ds as [|d ds]; [exfalso; change (zlen (@nil Z)) with 0 in L; lia|]. unfold strtoul. rewrite scan_integer_decimal by done. cbn [rbind].
  pose proof (digits_value_bound (d :: ds) 0 Hd ltac:(lia)) as B. fold (digits_value (d :: ds)) in B. set (v := digits_value (d :: ds)) in *. unfold ULONG_MAX, UINT8_MAX, UINT16_MAX, UINT32_MAX in *.
  destruct (Z.ltb_spec (2 ^ 64 - 1) v) as [Big|Small]; cbn [zlen length negb]; change (Z.of_nat (length [x00]) =? 1) with true; cbn [negb].
  - destruct W as [->|[->|[->| ->]]]; cbn [Z.eqb Pos.eqb andb negb]; match goal with |- context [v <? 2 ^ ?w] => replace (v <? 2 ^ w) with false by lia end; done.
  - destruct W as [->|[->|[->| ->]]]; cbn [Z.eqb Pos.eqb andb negb].
    + destruct (Z.leb_spec v 255), (Z.ltb_spec v (2 ^ 8)); (done || lia).
    + destruct (Z.leb_spec v 65535), (Z.ltb_spec v (2 ^ 16)); (done || lia).
    + destruct (Z.leb_spec v 4294967295), (Z.ltb_spec v (2 ^ 32)); (done || lia).
    + rewrite andb_false_r. cbn [negb]. destruct (Z.leb_spec v (2 ^ 64 - 1)), (Z.ltb_spec v (2 ^ 64)); (done || lia).
Qed.

Lemma strtouint_decimal_witness :
  SOPC_strtouint (Some [x32; x35; x36; x21]) 3 16 (Some 0) = Ret (true, Some 256) /\ SOPC_strtouint (Some [x32; x35; x36; x21]) 3 8 (Some 0) = Ret (false, Some 0).
Proof.
  split; [refine (strtouint_decimal [2; 5; 6] [x21] 16 0 _ _ _)|refine (strtouint_decimal [2; 5; 6] [x21] 8 0 _ _ _)];
    try (by repeat constructor); try (by vm_compute); by auto.
Defined.

(** A minus sign is accepted: the number is taken modulo 2^64. *)
Example strtouint_negative : SOPC_strtouint (Some [x2d; x31]) 2 64 (Some 0) = Ret (true, Some (2 ^ 64 - 1)).
Proof. reflexivity. Qed.
