(* ===== verification/EncNodeId.v ===== *)
(** * Binary encoding of NodeId and ExpandedNodeId

    Model of the corresponding part of [src/Common/opcua_types/sopc_encoder.c],
    with the types of [sopc_builtintypes.h] and the initialisation and clear
    functions of [sopc_builtintypes.c]. *)

From Stdlib Require Import ZArith Lia.
From Stdlib Require Import Strings.Byte.
From stdpp Require Import prelude.
From S2P Require Import Prelude Common Buffer Codec EncScalar EncString.

Open Scope Z_scope.

(** ** Types *)

Inductive SOPC_IdentifierType :=
| SOPC_IdentifierType_Numeric
| SOPC_IdentifierType_String
| SOPC_IdentifierType_Guid
| SOPC_IdentifierType_ByteString.

(** The union [Data]: the member that was written last, or zeroed memory. *)
Inductive NodeIdData :=
| DataZero
| DataNumeric (n : Z)
| DataString (s : SOPC_String)
| DataGuid (g : ptr SOPC_Guid)
| DataBstring (s : SOPC_ByteString).

Record SOPC_NodeId := mkNodeId {
  IdentifierType : SOPC_IdentifierType;
  Namespace : Z;
  NodeIdData_ : NodeIdData
}.

Record SOPC_ExpandedNodeId := mkExpandedNodeId {
  NodeId : SOPC_NodeId;
  NamespaceUri : SOPC_String;
  ServerIndex : Z
}.

Definition SOPC_NodeIdEncoding_TwoBytes : Z := 0x00.
Definition SOPC_NodeIdEncoding_FourBytes : Z := 0x01.
Definition SOPC_NodeIdEncoding_Numeric : Z := 0x02.
Definition SOPC_NodeIdEncoding_String : Z := 0x03.
Definition SOPC_NodeIdEncoding_Guid : Z := 0x04.
Definition SOPC_NodeIdEncoding_ByteString : Z := 0x05.
Definition SOPC_NodeIdEncoding_NamespaceUriFlag : Z := 0x80.
Definition SOPC_NodeIdEncoding_ServerIndexFlag : Z := 0x40.
Definition SOPC_NodeIdEncoding_Invalid : Z := 0xFF.

Definition OPCUA_NAMESPACE_INDEX : Z := 0.

(** Reading a member of the union.  Zeroed memory is a zero of every member.  The number
    shares its bytes with the length of a string and with the address of a Guid: it reads
    as the length without its sign, or as zero when there is no Guid; the address of a Guid
    is not modelled.  Otherwise the member that was written is the only one that can be
    read. *)
Definition data_Numeric (d : NodeIdData) : res Z :=
  match d with
  | DataZero | DataGuid NULL => Ret 0
  | DataNumeric n => Ret n
  | DataString s | DataBstring s => Ret (u32 (Length s))
  | DataGuid (Some _) => Fault UnionPunning
  end.
Definition data_String (d : NodeIdData) : res SOPC_String :=
  match d with DataZero => Ret (mkString 0 false NULL) | DataString s => Ret s | _ => Fault UnionPunning end.
Definition data_Guid (d : NodeIdData) : res (ptr SOPC_Guid) :=
  match d with DataZero => Ret NULL | DataGuid g => Ret g | _ => Fault UnionPunning end.
Definition data_Bstring (d : NodeIdData) : res SOPC_ByteString :=
  match d with DataZero => Ret (mkString 0 false NULL) | DataBstring s => Ret s | _ => Fault UnionPunning end.

Definition set_NodeIdData (n : SOPC_NodeId) (d : NodeIdData) : SOPC_NodeId :=
  mkNodeId (IdentifierType n) (Namespace n) d.
Definition set_Namespace (n : SOPC_NodeId) (ns : Z) : SOPC_NodeId :=
  mkNodeId (IdentifierType n) ns (NodeIdData_ n).
Definition set_IdentifierType (n : SOPC_NodeId) (t : SOPC_IdentifierType) : SOPC_NodeId :=
  mkNodeId t (Namespace n) (NodeIdData_ n).

Definition nodeid_init : SOPC_NodeId := mkNodeId SOPC_IdentifierType_Numeric 0 DataZero.

(** [memset(nodeId, 0, sizeof(SOPC_NodeId))] *)
Definition SOPC_NodeId_Initialize (nodeId : ptr SOPC_NodeId) : ptr SOPC_NodeId :=
  option_map (fun _ => nodeid_init) nodeId.

Definition SOPC_NodeId_Clear (nodeId : ptr SOPC_NodeId) : res (ptr SOPC_NodeId) :=
  match nodeId with
  | NULL => Ret NULL
  | Some n =>
      let n := set_Namespace n 0 in
      let* d :=
        match IdentifierType n with
        | SOPC_IdentifierType_Numeric => Ret (DataNumeric 0)
        | SOPC_IdentifierType_String =>
            let* s := data_String (NodeIdData_ n) in
            let* s := deref (SOPC_String_Clear (Some s)) in
            Ret (DataString s)
        | SOPC_IdentifierType_Guid =>
            let* _ := data_Guid (NodeIdData_ n) in
            Ret (DataGuid NULL)
        | SOPC_IdentifierType_ByteString =>
            let* s := data_Bstring (NodeIdData_ n) in
            let* s := deref (SOPC_String_Clear (Some s)) in
            Ret (DataBstring s)
        end in
      Ret (Some (set_IdentifierType (set_NodeIdData n d) SOPC_IdentifierType_Numeric))
  end.

Definition expnodeid_init : SOPC_ExpandedNodeId := mkExpandedNodeId nodeid_init string_init 0.

Definition SOPC_ExpandedNodeId_Initialize (expNodeId : ptr SOPC_ExpandedNodeId) : ptr SOPC_ExpandedNodeId :=
  option_map (fun _ => expnodeid_init) expNodeId.

Definition SOPC_ExpandedNodeId_Clear (expNodeId : ptr SOPC_ExpandedNodeId) : res (ptr SOPC_ExpandedNodeId) :=
  match expNodeId with
  | NULL => Ret NULL
  | Some e =>
      let* uri := deref (SOPC_String_Clear (Some (NamespaceUri e))) in
      let* n := SOPC_NodeId_Clear (Some (NodeId e)) in
      let* n := deref n in
      Ret (Some (mkExpandedNodeId n uri 0))
  end.

(** ** Encoders and decoders *)

Section NodeIds.
Context `{Allocator} `{Host} `{EndiannessCfg} {cfg : SOPC_Common_EncodingConstants}.

Definition GetNodeIdDataEncoding (nodeId : SOPC_NodeId) : res Z :=
  match IdentifierType nodeId with
  | SOPC_IdentifierType_Numeric =>
      let* numeric := data_Numeric (NodeIdData_ nodeId) in
      if (OPCUA_NAMESPACE_INDEX =? Namespace nodeId) && (numeric <=? UINT8_MAX)
      then Ret SOPC_NodeIdEncoding_TwoBytes
      else if (Namespace nodeId <=? UINT8_MAX) && (numeric <=? UINT16_MAX)
      then Ret SOPC_NodeIdEncoding_FourBytes
      else Ret SOPC_NodeIdEncoding_Numeric
  | SOPC_IdentifierType_String => Ret SOPC_NodeIdEncoding_String
  | SOPC_IdentifierType_Guid => Ret SOPC_NodeIdEncoding_Guid
  | SOPC_IdentifierType_ByteString => Ret SOPC_NodeIdEncoding_ByteString
  end.

Definition Internal_NodeId_Write (buf : ptr SOPC_Buffer) (encodingByte : Z) (nodeId : ptr SOPC_NodeId)
    (nestedStructLevel : Z) : enc_result :=
  let* nodeId := match nodeId with Some n => Ret n | NULL => Fault AssertFailed end in
  let encodingType := Z.land 0x0F encodingByte in
  let_ok buf := SOPC_Byte_Write (Some encodingByte) buf nestedStructLevel in
  if encodingType =? SOPC_NodeIdEncoding_Invalid then Ret (SOPC_STATUS_INVALID_PARAMETERS, buf)
  else if encodingType =? SOPC_NodeIdEncoding_TwoBytes then
    assert! (OPCUA_NAMESPACE_INDEX =? Namespace nodeId) in
    let* numeric := data_Numeric (NodeIdData_ nodeId) in
    assert! (numeric <=? UINT8_MAX) in
    SOPC_Byte_Write (Some (u8 numeric)) buf nestedStructLevel
  else if encodingType =? SOPC_NodeIdEncoding_FourBytes then
    assert! (Namespace nodeId <=? UINT8_MAX) in
    let* numeric := data_Numeric (NodeIdData_ nodeId) in
    assert! (numeric <=? UINT16_MAX) in
    let_ok buf := SOPC_Byte_Write (Some (u8 (Namespace nodeId))) buf nestedStructLevel in
    SOPC_UInt16_Write (Some (u16 numeric)) buf nestedStructLevel
  else if encodingType =? SOPC_NodeIdEncoding_Numeric then
    let_ok buf := SOPC_UInt16_Write (Some (Namespace nodeId)) buf nestedStructLevel in
    let* numeric := data_Numeric (NodeIdData_ nodeId) in
    SOPC_UInt32_Write (Some numeric) buf nestedStructLevel
  else if encodingType =? SOPC_NodeIdEncoding_String then
    let_ok buf := SOPC_UInt16_Write (Some (Namespace nodeId)) buf nestedStructLevel in
    let* string := data_String (NodeIdData_ nodeId) in
    SOPC_String_Write (Some string) buf nestedStructLevel
  else if encodingType =? SOPC_NodeIdEncoding_Guid then
    let_ok buf := SOPC_UInt16_Write (Some (Namespace nodeId)) buf nestedStructLevel in
    let* guid := data_Guid (NodeIdData_ nodeId) in
    SOPC_Guid_Write guid buf nestedStructLevel
  else if encodingType =? SOPC_NodeIdEncoding_ByteString then
    let_ok buf := SOPC_UInt16_Write (Some (Namespace nodeId)) buf nestedStructLevel in
    let* bstring := data_Bstring (NodeIdData_ nodeId) in
    SOPC_ByteString_Write (Some bstring) buf nestedStructLevel
  else Ret (SOPC_STATUS_INVALID_PARAMETERS, buf).

Definition SOPC_NodeId_Write : encoder SOPC_NodeId := fun nodeId buf nestedStructLevel =>
  match nodeId with
  | NULL => Ret (SOPC_STATUS_INVALID_PARAMETERS, buf)
  | Some n =>
      if max_nested_struct cfg <=? nestedStructLevel then Ret (SOPC_STATUS_INVALID_STATE, buf)
      else
        let nestedStructLevel := nestedStructLevel + 1 in
        let* encoding := GetNodeIdDataEncoding n in
        Internal_NodeId_Write buf (u8 encoding) nodeId nestedStructLevel
  end.

(** The namespace, read on two bytes before a string or a Guid. *)
Definition read_namespace (n : SOPC_NodeId) (buf : ptr SOPC_Buffer) (lvl : Z) :
    res (SOPC_ReturnStatus * SOPC_NodeId * ptr SOPC_Buffer) :=
  let* (status, ns, buf) := SOPC_UInt16_Read (Some (Namespace n)) buf lvl in
  Ret (status, set_Namespace n (default 0 ns), buf).

(** [sizeof(SOPC_Guid)] *)
Definition sizeof_Guid : Z := 16.

(** Returns the status, the node identifier, the encoding byte and the buffer. *)
Definition Internal_NodeId_Read (buf : ptr SOPC_Buffer) (nodeId : ptr SOPC_NodeId) (encodingByte : Z)
    (nestedStructLevel : Z) : res (SOPC_ReturnStatus * SOPC_NodeId * Z * ptr SOPC_Buffer) :=
  let* n := match nodeId with Some n => Ret n | NULL => Fault AssertFailed end in
  if max_nested_struct cfg <=? nestedStructLevel
  then Ret (SOPC_STATUS_INVALID_STATE, n, encodingByte, buf)
  else
    let* (status, e, buf) := SOPC_Byte_Read (Some encodingByte) buf nestedStructLevel in
    let encodingByte := default 0 e in
    if is_ok status then
      let encodingType := Z.land 0x0F encodingByte in
      if encodingType =? SOPC_NodeIdEncoding_Invalid then Ret (SOPC_STATUS_ENCODING_ERROR, n, encodingByte, buf)
      else if encodingType =? SOPC_NodeIdEncoding_TwoBytes then
        let n := set_Namespace (set_IdentifierType n SOPC_IdentifierType_Numeric) 0 in
        let* (status, byte, buf) := SOPC_Byte_Read (Some 0) buf nestedStructLevel in
        Ret (status, set_NodeIdData n (DataNumeric (default 0 byte)), encodingByte, buf)
      else if encodingType =? SOPC_NodeIdEncoding_FourBytes then
        let n := set_IdentifierType n SOPC_IdentifierType_Numeric in
        let* (status, byte, buf) := SOPC_Byte_Read (Some 0) buf nestedStructLevel in
        let n := set_Namespace n (default 0 byte) in
        if is_ok status then
          let* (status, twoBytes, buf) := SOPC_UInt16_Read (Some 0) buf nestedStructLevel in
          Ret (status, set_NodeIdData n (DataNumeric (default 0 twoBytes)), encodingByte, buf)
        else Ret (status, n, encodingByte, buf)
      else if encodingType =? SOPC_NodeIdEncoding_Numeric then
        let n := set_IdentifierType n SOPC_IdentifierType_Numeric in
        let* (status, n, buf) := read_namespace n buf nestedStructLevel in
        if is_ok status then
          let* numeric := data_Numeric (NodeIdData_ n) in
          let* (status, numeric, buf) := SOPC_UInt32_Read (Some numeric) buf nestedStructLevel in
          Ret (status, set_NodeIdData n (DataNumeric (default 0 numeric)), encodingByte, buf)
        else Ret (status, n, encodingByte, buf)
      else if encodingType =? SOPC_NodeIdEncoding_String then
        let n := set_IdentifierType n SOPC_IdentifierType_String in
        let* (status, n, buf) := read_namespace n buf nestedStructLevel in
        if is_ok status then
          let* string := data_String (NodeIdData_ n) in
          let* (status, string, buf) := SOPC_String_Read (Some string) buf nestedStructLevel in
          let* string := deref string in
          Ret (status, set_NodeIdData n (DataString string), encodingByte, buf)
        else Ret (status, n, encodingByte, buf)
      else if encodingType =? SOPC_NodeIdEncoding_Guid then
        let n := set_IdentifierType n SOPC_IdentifierType_Guid in
        let* (status, n, buf) := read_namespace n buf nestedStructLevel in
        if is_ok status then
          if alloc_ok sizeof_Guid then
            let guid := SOPC_Guid_Initialize (Some guid_init) in
            let* (status, guid, buf) := SOPC_Guid_Read guid buf nestedStructLevel in
            Ret (status, set_NodeIdData n (DataGuid (if is_ok status then guid else NULL)), encodingByte, buf)
          else Ret (SOPC_STATUS_NOK, set_NodeIdData n (DataGuid NULL), encodingByte, buf)
        else Ret (status, n, encodingByte, buf)
      else if encodingType =? SOPC_NodeIdEncoding_ByteString then
        let n := set_IdentifierType n SOPC_IdentifierType_ByteString in
        let* (status, n, buf) := read_namespace n buf nestedStructLevel in
        if is_ok status then
          let* bstring := data_Bstring (NodeIdData_ n) in
          let* (status, bstring, buf) := SOPC_ByteString_Read (Some bstring) buf nestedStructLevel in
          let* bstring := deref bstring in
          Ret (status, set_NodeIdData n (DataBstring bstring), encodingByte, buf)
        else Ret (status, n, encodingByte, buf)
      else Ret (SOPC_STATUS_INVALID_PARAMETERS, n, encodingByte, buf)
    else Ret (status, n, encodingByte, buf).

Definition SOPC_NodeId_Read : decoder SOPC_NodeId := fun nodeId buf nestedStructLevel =>
  match nodeId with
  | NULL => Ret (SOPC_STATUS_INVALID_PARAMETERS, nodeId, buf)
  | Some _ =>
      if max_nested_struct cfg <=? nestedStructLevel
      then Ret (SOPC_STATUS_INVALID_STATE, nodeId, buf)
      else
        let nestedStructLevel := nestedStructLevel + 1 in
        let* (status, n, _, buf) := Internal_NodeId_Read buf nodeId 0 nestedStructLevel in
        Ret (status, Some n, buf)
  end.

Definition SOPC_ExpandedNodeId_Write : encoder SOPC_ExpandedNodeId := fun expNodeId buf nestedStructLevel =>
  match expNodeId with
  | NULL => Ret (SOPC_STATUS_INVALID_PARAMETERS, buf)
  | Some e =>
      if max_nested_struct cfg <=? nestedStructLevel then Ret (SOPC_STATUS_INVALID_STATE, buf)
      else
        let nestedStructLevel := nestedStructLevel + 1 in
        let* encoding := GetNodeIdDataEncoding (NodeId e) in
        let encodingByte := u8 encoding in
        let encodingByte := if 0 <? Length (NamespaceUri e)
                            then Z.lor encodingByte SOPC_NodeIdEncoding_NamespaceUriFlag else encodingByte in
        let encodingByte := if 0 <? ServerIndex e
                            then Z.lor encodingByte SOPC_NodeIdEncoding_ServerIndexFlag else encodingByte in
        let_ok buf := Internal_NodeId_Write buf encodingByte (Some (NodeId e)) nestedStructLevel in
        let_ok buf := write_when (0 <? Length (NamespaceUri e)) SOPC_String_Write (NamespaceUri e) buf nestedStructLevel in
        write_when (0 <? ServerIndex e) SOPC_UInt32_Write (ServerIndex e) buf nestedStructLevel
  end.

Definition SOPC_ExpandedNodeId_Read : decoder SOPC_ExpandedNodeId := fun expNodeId buf nestedStructLevel =>
  match expNodeId with
  | NULL => Ret (SOPC_STATUS_INVALID_PARAMETERS, expNodeId, buf)
  | Some e =>
      if max_nested_struct cfg <=? nestedStructLevel
      then Ret (SOPC_STATUS_INVALID_STATE, expNodeId, buf)
      else
        let nestedStructLevel := nestedStructLevel + 1 in
        let* (status, n, encodingByte, buf) := Internal_NodeId_Read buf (Some (NodeId e)) 0 nestedStructLevel in
        let* (status, uri, buf) :=
          read_when (negb (Z.land encodingByte SOPC_NodeIdEncoding_NamespaceUriFlag =? 0))
            status SOPC_String_Read (NamespaceUri e) buf nestedStructLevel in
        let* (status, srv, buf) :=
          read_when (negb (Z.land encodingByte SOPC_NodeIdEncoding_ServerIndexFlag =? 0))
            status SOPC_UInt32_Read (ServerIndex e) buf nestedStructLevel in
        let* uri := deref uri in
        let* srv := deref srv in
        if is_ok status then Ret (status, Some (mkExpandedNodeId n uri srv), buf)
        else
          let* n := SOPC_NodeId_Clear (Some n) in
          let* n := deref n in
          let* uri := deref (SOPC_String_Clear (Some uri)) in
          Ret (status, Some (mkExpandedNodeId n uri srv), buf)
  end.

End NodeIds.

#[export] Hint Opaque SOPC_NodeId_Write SOPC_NodeId_Read
  SOPC_ExpandedNodeId_Write SOPC_ExpandedNodeId_Read : typeclass_instances.

(** ** Specification *)

(** The identifier of a node, out of the union. *)
Inductive ident :=
| INumeric (n : Z)
| IString (s : SOPC_String)
| IGuid (g : SOPC_Guid)
| IBstring (s : SOPC_ByteString).

Definition ident_type (i : ident) : SOPC_IdentifierType :=
  match i with
  | INumeric _ => SOPC_IdentifierType_Numeric
  | IString _ => SOPC_IdentifierType_String
  | IGuid _ => SOPC_IdentifierType_Guid
  | IBstring _ => SOPC_IdentifierType_ByteString
  end.

Definition ident_data (i : ident) : NodeIdData :=
  match i with
  | INumeric n => DataNumeric n
  | IString s => DataString s
  | IGuid g => DataGuid (Some g)
  | IBstring s => DataBstring s
  end.

Definition nodeid_ident (n : SOPC_NodeId) : option ident :=
  match IdentifierType n with
  | SOPC_IdentifierType_Numeric => match data_Numeric (NodeIdData_ n) with Ret z => Some (INumeric z) | _ => None end
  | SOPC_IdentifierType_String => match data_String (NodeIdData_ n) with Ret s => Some (IString s) | _ => None end
  | SOPC_IdentifierType_Guid => match data_Guid (NodeIdData_ n) with Ret (Some g) => Some (IGuid g) | _ => None end
  | SOPC_IdentifierType_ByteString => match data_Bstring (NodeIdData_ n) with Ret s => Some (IBstring s) | _ => None end
  end.

Definition ident_wf (i : ident) : Prop :=
  match i with
  | INumeric n => in_u 32 n
  | IString s | IBstring s => string_wf s
  | IGuid g => guid_wf g
  end.

Definition ident_encoding (ns : Z) (i : ident) : Z :=
  match i with
  | INumeric n => if (0 =? ns) && (n <=? 255) then 0 else if (ns <=? 255) && (n <=? 65535) then 1 else 2
  | IString _ => 3
  | IGuid _ => 4
  | IBstring _ => 5
  end.

(** What follows the encoding byte. *)
Definition ident_body (ns : Z) (i : ident) : block :=
  match i with
  | INumeric n =>
      if (0 =? ns) && (n <=? 255) then [z2b n]
      else if (ns <=? 255) && (n <=? 65535) then z2b ns :: le_bytes 2 n
      else le_bytes 2 ns ++ le_bytes 4 n
  | IString s | IBstring s => le_bytes 2 ns ++ string_wire s
  | IGuid g => le_bytes 2 ns ++ guid_wire g
  end.

Definition ident_depth (i : ident) : Z := match i with INumeric _ => 1 | _ => 2 end.

Definition ident_canon (i : ident) : ident :=
  match i with
  | IString s => IString (string_canon [x00] s)
  | IBstring s => IBstring (string_canon [] s)
  | i => i
  end.

Definition ident_limits {cfg : SOPC_Common_EncodingConstants} (i : ident) : Prop :=
  match i with
  | IString s | IBstring s => string_limits s
  | _ => True
  end.

Definition nodeid_wf (n : SOPC_NodeId) : Prop :=
  in_u 16 (Namespace n) /\ exists i, nodeid_ident n = Some i /\ ident_wf i.

Definition nodeid_of (ns : Z) (i : ident) : SOPC_NodeId := mkNodeId (ident_type i) ns (ident_data i).

(** The clear function can tell which member of the union to free. *)
Definition nodeid_sane (n : SOPC_NodeId) : Prop := exists n', SOPC_NodeId_Clear (Some n) = Ret (Some n').

Lemma nodeid_ident_of ns i : nodeid_ident (nodeid_of ns i) = Some i.
Proof. by destruct i. Qed.

Lemma nodeid_sane_of ns i : nodeid_sane (nodeid_of ns i).
Proof. destruct i; eexists; reflexivity. Qed.

Lemma nodeid_wf_sane n : nodeid_wf n -> nodeid_sane n.
Proof.
  intros (_ & i & E & _). unfold nodeid_ident in E. destruct n as [[] ns []]; simpl in E; simplify_eq; by eexists.
Qed.

Lemma nodeid_clear_sane n n' : SOPC_NodeId_Clear (Some n) = Ret (Some n') -> nodeid_sane n'.
Proof.
  unfold nodeid_sane, SOPC_NodeId_Clear. destruct n as [[] ns d]; simpl; destruct d; simpl; intros; simplify_eq; by eexists.
Qed.

Lemma GetNodeIdDataEncoding_spec n i :
  nodeid_ident n = Some i -> GetNodeIdDataEncoding n = Ret (ident_encoding (Namespace n) i).
Proof.
  unfold nodeid_ident, GetNodeIdDataEncoding. destruct (IdentifierType n).
  - destruct (data_Numeric _) as [z|]; intros; simplify_eq. unfold ident_encoding, UINT8_MAX, UINT16_MAX. simpl rbind.
    change OPCUA_NAMESPACE_INDEX with 0. destruct (_ && _); [done|]. by destruct (_ && _).
  - destruct (data_String _); intros; by simplify_eq.
  - destruct (data_Guid _) as [[]|]; intros; by simplify_eq.
  - destruct (data_Bstring _); intros; by simplify_eq.
Qed.

Lemma ident_encoding_range ns i : 0 <= ident_encoding ns i <= 5.
Proof. destruct i; simpl; try lia. repeat case_match; lia. Qed.

Section NodeIdSpecs.
Context `{Allocator} `{Host} `{EndiannessCfg} {cfg : SOPC_Common_EncodingConstants}.
Context `{!EndiannessDetected}.

Definition nodeid_wire (n : SOPC_NodeId) : block :=
  match nodeid_ident n with
  | Some i => [z2b (ident_encoding (Namespace n) i)] ++ ident_body (Namespace n) i
  | None => []
  end.

Definition nodeid_depth (n : SOPC_NodeId) : Z :=
  match nodeid_ident n with Some i => 1 + ident_depth i | None => 0 end.

Definition nodeid_limits (n : SOPC_NodeId) : Prop :=
  match nodeid_ident n with Some i => ident_limits i | None => False end.

Definition nodeid_canon (n : SOPC_NodeId) : SOPC_NodeId :=
  match nodeid_ident n with Some i => nodeid_of (Namespace n) (ident_canon i) | None => n end.

Lemma nodeid_depth_pos n : nodeid_wf n -> 2 <= nodeid_depth n.
Proof. intros (_ & i & E & _). unfold nodeid_depth. rewrite E. destruct i; simpl; lia. Qed.

(** A namespace on two bytes, then the identifier. *)
Lemma encodes_namespaced {A} (w : encoder A) {r : decoder A} `{!Codec w r} b lvl ns v (k : ptr SOPC_Buffer -> enc_result) d bs ok :
  bs = le_bytes 2 ns ++ wire w v -> (1 <= d) -> in_u 16 ns -> wf w v -> Buffer_Inv b -> small b ->
  (forall b, k b = w (Some v) b lvl) -> (nests w v lvl <-> lvl + d <= max_nested_struct cfg) ->
  (ok <-> lvl + d <= max_nested_struct cfg) ->
  encodes b (and_then (SOPC_UInt16_Write (Some ns) (Some b) lvl) k) bs ok.
Proof.
  intros -> Hd Hns W I S Hk Hn Hok.
  eapply (encodes_seq _ _ _ _ _ _ _ (lvl + 1 <= max_nested_struct cfg) (lvl + d <= max_nested_struct cfg)); try done.
  - by apply (encodes_sub SOPC_UInt16_Write).
  - intros. rewrite Hk. by apply (encodes_sub w).
  - rewrite Hok. lia.
Qed.

Lemma ident_body_write n i b lvl :
  nodeid_ident n = Some i -> ident_wf i -> in_u 16 (Namespace n) -> Buffer_Inv b -> small b ->
  forall e, Z.land 15 e = ident_encoding (Namespace n) i -> in_u 8 e ->
  encodes b (Internal_NodeId_Write (Some b) e (Some n) lvl)
    ([z2b e] ++ ident_body (Namespace n) i) (lvl + ident_depth i <= max_nested_struct cfg).
Proof.
  intros Hi W Hns I S e Ee He. unfold Internal_NodeId_Write. cbn [rbind]. rewrite Ee.
  eapply (encodes_seq _ _ _ _ [z2b e] (ident_body (Namespace n) i) _ (lvl + 1 <= max_nested_struct cfg) (lvl + ident_depth i <= max_nested_struct cfg)); try done.
  { by apply (encodes_sub SOPC_Byte_Write). }
  2:{ destruct i; simpl; lia. }
  clear b I S. intros b I S. unfold nodeid_ident in Hi.
  destruct (IdentifierType n).
  - destruct (data_Numeric _) as [z|] eqn:Ed; simplify_eq. unfold ident_encoding, ident_body. simpl in W.
    unfold in_u in *. unfold UINT8_MAX, UINT16_MAX, OPCUA_NAMESPACE_INDEX.
    destruct ((0 =? Namespace n) && (z <=? 255)) eqn:E1; [|destruct ((Namespace n <=? 255) && (z <=? 65535)) eqn:E2].
    + apply andb_prop in E1 as [-> E1]. rewrite !rbind_ret, E1, u8_small by lia. cbn.
      by apply (encodes_sub SOPC_Byte_Write); [simpl; unfold in_u; lia|..].
    + apply andb_prop in E2 as [E0 E2]. rewrite E0, !rbind_ret, E2, (u8_small (Namespace n)), (u16_small z) by lia. cbn.
      eapply (encodes_seq _ _ _ _ [z2b (Namespace n)] (le_bytes 2 z) _ (lvl + 1 <= max_nested_struct cfg) (lvl + 1 <= max_nested_struct cfg)); try done; [| |lia].
      * by apply (encodes_sub SOPC_Byte_Write); [simpl; unfold in_u; lia|..].
      * intros. by apply (encodes_sub SOPC_UInt16_Write); [simpl; unfold in_u; lia|..].
    + switch. eapply (encodes_namespaced SOPC_UInt32_Write _ _ _ z _ 1); done.
  - destruct (data_String _) as [s|] eqn:Ed; simplify_eq.
    cbn [ident_encoding]. switch. eapply (encodes_namespaced SOPC_String_Write _ _ _ s _ 2); done.
  - destruct (data_Guid _) as [[g|]|] eqn:Ed; simplify_eq.
    cbn [ident_encoding]. switch. eapply (encodes_namespaced SOPC_Guid_Write _ _ _ g _ 2); done.
  - destruct (data_Bstring _) as [s|] eqn:Ed; simplify_eq.
    cbn [ident_encoding]. switch. eapply (encodes_namespaced SOPC_ByteString_Write _ _ _ s _ 2); done.
Qed.

Lemma read_namespace_next n ns b bs lvl rest :
  in_u 16 ns -> Buffer_Inv b -> small b -> upcoming b = bs ++ le_bytes 2 ns ++ rest ->
  lvl + 1 <= max_nested_struct cfg -> (forall n, alloc_ok n = true) ->
  read_namespace n (Some (advance b (zlen bs))) lvl =
  Ret (SOPC_STATUS_OK, set_Namespace n ns, Some (advance b (zlen (bs ++ le_bytes 2 ns)))).
Proof.
  intros. unfold read_namespace. by rewrite (read_next SOPC_UInt16_Write ns _ b bs lvl rest).
Qed.

Lemma ident_body_read ns i b e lvl rest :
  ident_wf i -> ident_limits i -> in_u 16 ns -> Buffer_Inv b -> small b ->
  Z.land 15 e = ident_encoding ns i -> in_u 8 e ->
  upcoming b = [z2b e] ++ ident_body ns i ++ rest ->
  lvl + ident_depth i <= max_nested_struct cfg -> (forall n, alloc_ok n = true) ->
  Internal_NodeId_Read (Some b) (Some nodeid_init) 0 lvl =
  Ret (SOPC_STATUS_OK, nodeid_of ns (ident_canon i), e, Some (advance b (zlen ([z2b e] ++ ident_body ns i)))).
Proof.
  intros W Lm Hns I S Ee He U D HA. assert (lvl + 1 <= max_nested_struct cfg) as D1 by (destruct i; simpl in D; lia).
  unfold Internal_NodeId_Read. cbn [rbind]. level_ok.
  rewrite (read_first SOPC_Byte_Write e 0 b lvl (ident_body ns i ++ rest)) by done.
  cbn [rbind is_ok default from_option id canon Byte_codec wire]. unfold id. rewrite Ee.
  destruct i as [z|s|g|s].
  - simpl in W. unfold in_u in *. unfold ident_encoding. unfold ident_body in *.
    destruct ((0 =? ns) && (z <=? 255)) eqn:E1; [|destruct ((ns <=? 255) && (z <=? 65535)) eqn:E2].
    + apply andb_prop in E1 as [E0 E1]. apply Z.eqb_eq in E0. subst ns. switch.
      by rewrite (read_next SOPC_Byte_Write z 0 b [z2b e] lvl rest) by (done || simpl; unfold in_u; lia).
    + apply andb_prop in E2 as [E0 E2]. switch.
      rewrite (read_next SOPC_Byte_Write ns 0 b [z2b e] lvl (le_bytes 2 z ++ rest)) by (done || simpl; unfold in_u; lia).
      cbn [rbind is_ok]. change (z2b ns :: le_bytes 2 z) with ([z2b ns] ++ le_bytes 2 z) in *. rewrite <- app_assoc, app_assoc in U.
      by rewrite (read_next SOPC_UInt16_Write z 0 b _ lvl rest) by (done || simpl; unfold in_u; lia).
    + switch. rewrite <- app_assoc in U. rewrite (read_namespace_next _ ns b _ _ (le_bytes 4 z ++ rest)) by done.
      cbn [rbind is_ok data_Numeric NodeIdData_ set_Namespace set_IdentifierType nodeid_init]. rewrite app_assoc in U.
      rewrite (read_next SOPC_UInt32_Write z 0 b _ lvl rest) by done. by rewrite <- app_assoc.
  - cbn [ident_encoding]. switch. cbn [ident_body] in *. rewrite <- app_assoc in U.
    rewrite (read_namespace_next _ ns b _ _ (string_wire s ++ rest)) by done.
    cbn [rbind is_ok data_String NodeIdData_ set_Namespace set_IdentifierType nodeid_init]. rewrite app_assoc in U.
    rewrite (read_next SOPC_String_Write s _ b _ lvl rest) by done. by rewrite <- app_assoc.
  - cbn [ident_encoding]. switch. cbn [ident_body] in *. rewrite <- app_assoc in U.
    rewrite (read_namespace_next _ ns b _ _ (guid_wire g ++ rest)) by done.
    cbn [rbind is_ok data_Guid NodeIdData_ set_Namespace set_IdentifierType nodeid_init]. rewrite app_assoc in U.
    rewrite HA. unfold SOPC_Guid_Initialize. cbn [option_map].
    rewrite (read_next SOPC_Guid_Write g _ b _ lvl rest) by done. by rewrite <- app_assoc.
  - cbn [ident_encoding]. switch. cbn [ident_body] in *. rewrite <- app_assoc in U.
    rewrite (read_namespace_next _ ns b _ _ (string_wire s ++ rest)) by done.
    cbn [rbind is_ok data_Bstring NodeIdData_ set_Namespace set_IdentifierType nodeid_init]. rewrite app_assoc in U.
    rewrite (read_next SOPC_ByteString_Write s _ b _ lvl rest) by done. by rewrite <- app_assoc.
Qed.

Lemma read_namespace_safe n b k lvl :
  Buffer_Inv b -> small b -> 0 <= k <= zlen (upcoming b) ->
  exists st ns m, read_namespace n (Some (advance b k)) lvl = Ret (st, set_Namespace n ns, Some (advance b m)) /\
    0 <= m <= zlen (upcoming b) /\ (st = SOPC_STATUS_OK -> in_u 16 ns /\ lvl + 1 <= max_nested_struct cfg).
Proof.
  intros I S Hk. unfold read_namespace.
  destruct (safe_next SOPC_UInt16_Write (Namespace n) b k lvl) as (st & v & m & -> & Hm & _ & G); [done..|].
  exists st, v, m. split_and!; try done; try lia. intros E. destruct (G E) as (? & _ & ?). done.
Qed.

(** What is known of a node identifier decoded at a level. *)
Definition nodeid_accepted (lvl : Z) (n : SOPC_NodeId) : Prop :=
  nodeid_wf n /\ nodeid_limits n /\ lvl + nodeid_depth n <= max_nested_struct cfg.

(** On any input: the decoder returns, within the data; the node identifier can
    be cleared; with the status OK it is a node identifier. *)
Definition nodeid_result (lvl : Z) (b : SOPC_Buffer) (r : res (SOPC_ReturnStatus * SOPC_NodeId * Z * ptr SOPC_Buffer)) : Prop :=
  exists st n e m, r = Ret (st, n, e, Some (advance b m)) /\ 0 <= m <= zlen (upcoming b) /\
    nodeid_sane n /\ (st = SOPC_STATUS_OK -> nodeid_accepted (lvl - 1) n).

Lemma nodeid_result_intro lvl b st n e m :
  0 <= m <= zlen (upcoming b) -> nodeid_sane n -> (st = SOPC_STATUS_OK -> nodeid_accepted (lvl - 1) n) ->
  nodeid_result lvl b (Ret (st, n, e, Some (advance b m))).
Proof. intros. by exists st, n, e, m. Qed.

(** The namespace, then the identifier. *)
Lemma nodeid_result_namespaced b k lvl t e K :
  Buffer_Inv b -> small b -> 0 <= k <= zlen (upcoming b) ->
  (forall ns m, 0 <= m <= zlen (upcoming b) -> in_u 16 ns -> lvl + 1 <= max_nested_struct cfg ->
     nodeid_result lvl b (K (mkNodeId t ns DataZero) (Some (advance b m)))) ->
  nodeid_result lvl b (
    let* (status, n, buf) := read_namespace (set_IdentifierType nodeid_init t) (Some (advance b k)) lvl in
    if is_ok status then K n buf else Ret (status, n, e, buf)).
Proof.
  intros I S Hk HK.
  destruct (read_namespace_safe (set_IdentifierType nodeid_init t) b k lvl) as (st & ns & m & -> & Hm & Gns); [done..|].
  cbn [rbind]. destruct (is_ok st) eqn:E.
  - apply is_ok_true in E. subst. destruct (Gns eq_refl). by apply HK.
  - apply nodeid_result_intro; [done| |by intros ->]. destruct t; by eexists.
Qed.

Lemma nodeid_accepted_of lvl ns i :
  in_u 16 ns -> ident_wf i -> ident_limits i -> lvl + ident_depth i <= max_nested_struct cfg ->
  nodeid_accepted (lvl - 1) (nodeid_of ns i).
Proof.
  intros. unfold nodeid_accepted, nodeid_wf, nodeid_limits, nodeid_depth. rewrite nodeid_ident_of.
  split_and!; [done|by exists i|done|lia].
Qed.

Lemma nodeid_sane_numeric ns d : nodeid_sane (mkNodeId SOPC_IdentifierType_Numeric ns d).
Proof. by eexists. Qed.

Lemma Internal_NodeId_Read_safe b lvl :
  Buffer_Inv b -> small b -> nodeid_result lvl b (Internal_NodeId_Read (Some b) (Some nodeid_init) 0 lvl).
Proof.
  intros I S. unfold Internal_NodeId_Read. cbn [rbind].
  pose proof (zlen_nonneg (upcoming b)) as P.
  destruct (Z.leb_spec (max_nested_struct cfg) lvl).
  { rewrite <- (advance_0 b) at 2. apply nodeid_result_intro; [lia|by eexists|done]. }
  rewrite <- (advance_0 b) at 2.
  destruct (safe_next SOPC_Byte_Write 0 b 0 lvl) as (st & e & k & -> & Hk & _ & Ge); [done..|lia|].
  cbn [rbind default from_option]. unfold id. destruct (is_ok st) eqn:E;
    [|apply nodeid_result_intro; [done|by eexists|by intros ->]].
  apply is_ok_true in E. subst. clear Ge.
  repeat match goal with |- nodeid_result _ _ (if ?c then _ else _) => destruct c end;
    try (apply nodeid_result_intro; [done|by eexists|done]).
  - destruct (safe_next SOPC_Byte_Write 0 b k lvl) as (st & v & m & -> & Hm & _ & G); [done..|]. cbn [rbind].
    apply nodeid_result_intro; [done|apply nodeid_sane_numeric|]. intros ->. destruct (G eq_refl) as (Gv & _ & N). simpl in Gv, N.
    apply (nodeid_accepted_of lvl 0 (INumeric v)); unfold in_u in *; simpl; unfold in_u; lia || done.
  - destruct (safe_next SOPC_Byte_Write 0 b k lvl) as (st & ns & m & -> & Hm & _ & G); [done..|]. cbn [rbind].
    destruct (is_ok st) eqn:E; [|apply nodeid_result_intro; [done|by eexists|by intros ->]].
    apply is_ok_true in E. subst. destruct (G eq_refl) as (Gn & _ & N). simpl in Gn, N.
    destruct (safe_next SOPC_UInt16_Write 0 b m lvl) as (st & v & m' & -> & Hm' & _ & G'); [done..|]. cbn [rbind].
    apply nodeid_result_intro; [done|apply nodeid_sane_numeric|]. intros ->. destruct (G' eq_refl) as (Gv & _). simpl in Gv.
    apply (nodeid_accepted_of lvl ns (INumeric v)); unfold in_u in *; simpl; unfold in_u; lia || done.
  - apply nodeid_result_namespaced; [done..|]. intros ns m Hm Hns N. cbn [rbind data_Numeric NodeIdData_].
    destruct (safe_next SOPC_UInt32_Write 0 b m lvl) as (st & v & m' & -> & Hm' & _ & G); [done..|].
    apply nodeid_result_intro; [done|by eexists|]. intros ->. destruct (G eq_refl) as (? & ? & ?).
    by apply (nodeid_accepted_of lvl ns (INumeric v)).
  - apply nodeid_result_namespaced; [done..|]. intros ns m Hm Hns N. cbn [rbind data_String NodeIdData_].
    destruct (safe_next SOPC_String_Write (mkString 0 false NULL) b m lvl) as (st & v & m' & -> & Hm' & _ & G); [done..|].
    apply nodeid_result_intro; [done|by eexists|]. intros ->. destruct (G eq_refl) as (? & ? & ?).
    by apply (nodeid_accepted_of lvl ns (IString v)).
  - apply nodeid_result_namespaced; [done..|]. intros ns m Hm Hns N.
    destruct (alloc_ok sizeof_Guid); [|apply nodeid_result_intro; [done|by eexists|done]].
    change (SOPC_Guid_Initialize (Some guid_init)) with (Some guid_init).
    destruct (safe_next SOPC_Guid_Write guid_init b m lvl) as (st & v & m' & -> & Hm' & _ & G); [done..|].
    apply nodeid_result_intro; [done|by eexists|]. intros ->. destruct (G eq_refl) as (? & ? & ?).
    by apply (nodeid_accepted_of lvl ns (IGuid v)).
  - apply nodeid_result_namespaced; [done..|]. intros ns m Hm Hns N. cbn [rbind data_Bstring NodeIdData_].
    destruct (safe_next SOPC_ByteString_Write (mkString 0 false NULL) b m lvl) as (st & v & m' & -> & Hm' & _ & G); [done..|].
    apply nodeid_result_intro; [done|by eexists|]. intros ->. destruct (G eq_refl) as (? & ? & ?).
    by apply (nodeid_accepted_of lvl ns (IBstring v)).
Qed.

Lemma land_encoding ns i : Z.land 15 (ident_encoding ns i) = ident_encoding ns i.
Proof.
  pose proof (ident_encoding_range ns i) as R. rewrite Z.land_comm. change 15 with (Z.ones 4).
  rewrite Z.land_ones by lia. apply Z.mod_small. lia.
Qed.

#[refine] #[export] Instance NodeId_codec : Codec SOPC_NodeId_Write SOPC_NodeId_Read := {
  wire := nodeid_wire; nests n lvl := lvl + nodeid_depth n <= max_nested_struct cfg; wf := nodeid_wf;
  limits := nodeid_limits; canon := nodeid_canon; inited n := n = nodeid_init; sane := nodeid_sane
}.
Proof.
  - intros n b lvl W I S. pose proof (nodeid_depth_pos n W). destruct W as (Hns & i & Ei & Wi).
    apply encodes_guard; [done| |lia]. intros _.
    unfold nodeid_wire, nodeid_depth. rewrite Ei, (GetNodeIdDataEncoding_spec n i Ei), rbind_ret.
    pose proof (ident_encoding_range (Namespace n) i). rewrite u8_small by lia.
    eapply encodes_iff; [|apply ident_body_write; try done; [apply land_encoding|unfold in_u; lia]]. lia.
  - intros n n0 b lvl rest W Lm -> I S E L HA. pose proof (nodeid_depth_pos n W). destruct W as (Hns & i & Ei & Wi).
    unfold SOPC_NodeId_Read. level_ok. unfold nodeid_wire, nodeid_depth, nodeid_limits, nodeid_canon in *. rewrite Ei in *.
    pose proof (ident_encoding_range (Namespace n) i). rewrite <- app_assoc in E.
    rewrite (ident_body_read (Namespace n) i b (ident_encoding (Namespace n) i) (lvl + 1) rest); try done;
      [apply land_encoding|unfold in_u; lia|lia].
  - intros n0 b lvl -> I S. unfold SOPC_NodeId_Read.
    destruct (Z.leb_spec (max_nested_struct cfg) lvl); [by apply decodes_fail; [|eexists]|].
    destruct (Internal_NodeId_Read_safe b (lvl + 1) I S) as (st & n & e & m & -> & Hm & Sn & W).
    replace (lvl + 1 - 1) with lvl in W by lia. by apply decodes_intro.
  - intros n ->. by eexists.
  - intros. by apply nodeid_wf_sane.
Defined.


(** The encoding byte with the flags of the optional fields. *)
Definition flagged (c : Z) (uri srv : bool) : Z :=
  let c := if uri then Z.lor c 0x80 else c in
  if srv then Z.lor c 0x40 else c.

Lemma flagged_spec c uri srv : 0 <= c <= 5 ->
  Z.land 15 (flagged c uri srv) = c /\ in_u 8 (flagged c uri srv) /\
  negb (Z.land (flagged c uri srv) 0x80 =? 0) = uri /\ negb (Z.land (flagged c uri srv) 0x40 =? 0) = srv.
Proof.
  intros R. assert (c = 0 \/ c = 1 \/ c = 2 \/ c = 3 \/ c = 4 \/ c = 5) as D by lia.
  unfold in_u. destruct D as [->|[->|[->|[->|[->| ->]]]]]; destruct uri, srv; vm_compute; repeat split; discriminate.
Qed.

Definition expnodeid_wf (e : SOPC_ExpandedNodeId) : Prop :=
  nodeid_wf (NodeId e) /\ string_wf (NamespaceUri e) /\ in_u 32 (ServerIndex e).

Definition expnodeid_wire (e : SOPC_ExpandedNodeId) : block :=
  match nodeid_ident (NodeId e) with
  | Some i =>
      let ns := Namespace (NodeId e) in
      let uri := 0 <? Length (NamespaceUri e) in
      let srv := 0 <? ServerIndex e in
      ([z2b (flagged (ident_encoding ns i) uri srv)] ++ ident_body ns i) ++
      (if uri then string_wire (NamespaceUri e) else []) ++
      (if srv then le_bytes 4 (ServerIndex e) else [])
  | None => []
  end.

Definition expnodeid_nests (e : SOPC_ExpandedNodeId) (lvl : Z) : Prop :=
  lvl + nodeid_depth (NodeId e) <= max_nested_struct cfg /\
  (0 < Length (NamespaceUri e) -> lvl + 3 <= max_nested_struct cfg).

Definition expnodeid_canon (e : SOPC_ExpandedNodeId) : SOPC_ExpandedNodeId :=
  mkExpandedNodeId (nodeid_canon (NodeId e)) (string_canon [x00] (NamespaceUri e)) (ServerIndex e).

#[refine] #[export] Instance ExpandedNodeId_codec : Codec SOPC_ExpandedNodeId_Write SOPC_ExpandedNodeId_Read := {
  wire := expnodeid_wire; nests := expnodeid_nests; wf := expnodeid_wf;
  limits e := nodeid_limits (NodeId e) /\ string_limits (NamespaceUri e);
  canon := expnodeid_canon; inited e := e = expnodeid_init; sane e := nodeid_sane (NodeId e)
}.
Proof.
  - intros e b lvl (Wn & Ws & Wi) I S. pose proof (nodeid_depth_pos _ Wn) as D. destruct Wn as (Hns & i & Ei & Wn).
    unfold expnodeid_nests. apply encodes_guard; [done| |lia]. intros _. cbv zeta.
    unfold expnodeid_wire, nodeid_depth in *. rewrite Ei in *. rewrite (GetNodeIdDataEncoding_spec _ i Ei), rbind_ret.
    pose proof (ident_encoding_range (Namespace (NodeId e)) i) as R. rewrite u8_small by lia.
    destruct (flagged_spec _ (0 <? Length (NamespaceUri e)) (0 <? ServerIndex e) R) as (F1 & F2 & _).
    set (uri := 0 <? Length (NamespaceUri e)) in *. set (srv := 0 <? ServerIndex e) in *.
    set (max := max_nested_struct cfg).
    eapply (encodes_seq _ _ _ _ _ _ _ (lvl + 1 + ident_depth i <= max)
      ((uri = true -> lvl + 1 + 2 <= max) /\ (srv = true -> lvl + 1 + 1 <= max))); [done|done| | |done|].
    + by apply ident_body_write.
    + intros b1 I1 S1. apply encodes_and_then; [done|done| |].
      * by apply (encodes_when SOPC_String_Write).
      * intros. by apply (encodes_when SOPC_UInt32_Write).
    + subst uri. rewrite Z.ltb_lt. intuition lia.
  - intros e e0 b lvl rest (Wn & Ws & Wi) (Ln & Ls) -> I S E (N1 & N2) HA.
    pose proof (nodeid_depth_pos _ Wn) as D. destruct Wn as (Hns & i & Ei & Wn).
    unfold SOPC_ExpandedNodeId_Read. level_ok. unfold expnodeid_wire, nodeid_depth, nodeid_limits in *. cbv zeta in *.
    unfold expnodeid_canon, nodeid_canon. rewrite Ei in *.
    pose proof (ident_encoding_range (Namespace (NodeId e)) i) as R.
    destruct (flagged_spec _ (0 <? Length (NamespaceUri e)) (0 <? ServerIndex e) R) as (F1 & F2 & F3 & F4).
    rewrite <- !app_assoc in E. cbn [NodeId expnodeid_init EncNodeId.NamespaceUri EncNodeId.ServerIndex].
    rewrite (ident_body_read _ i b _ (lvl + 1) _ Wn Ln Hns I S F1 F2 E ltac:(lia) HA). cbn [rbind]. unfold
      SOPC_NodeIdEncoding_NamespaceUriFlag, SOPC_NodeIdEncoding_ServerIndexFlag. rewrite F3, F4.
    rewrite app_assoc in E.
    rewrite (read_when_next SOPC_String_Write _ (NamespaceUri e) string_init b _ _ _) with (6 := E); try done;
      [|simpl; rewrite ?Z.ltb_lt; lia]. cbn [rbind]. rewrite app_assoc in E.
    rewrite (read_when_next SOPC_UInt32_Write _ (ServerIndex e) 0 b _ _ _) with (6 := E); try done;
      [|simpl; lia]. cbn [rbind deref is_ok canon String_codec UInt32_codec].
    rewrite <- !app_assoc. unfold in_u in Wi. do 3 f_equal. f_equal. f_equal.
    + unfold string_canon. by destruct (0 <? Length (NamespaceUri e)).
    + destruct (Z.ltb_spec 0 (ServerIndex e)); lia.
  - intros e0 b lvl -> I S. unfold SOPC_ExpandedNodeId_Read.
    destruct (Z.leb_spec (max_nested_struct cfg) lvl); [by apply decodes_fail; [|eexists]|]. cbv zeta.
    change (NodeId expnodeid_init) with nodeid_init.
    destruct (Internal_NodeId_Read_safe b (lvl + 1) I S) as (st1 & n & e & m1 & -> & Hm1 & Sn & W). cbn [rbind].
    destruct (read_when_safe SOPC_String_Write (negb (Z.land e SOPC_NodeIdEncoding_NamespaceUriFlag =? 0)) st1
      (NamespaceUri expnodeid_init) b m1 (lvl + 1)) as (st2 & uri & m2 & -> & Hm2 & _ & G2); [done..|]. cbn [rbind].
    destruct (read_when_safe SOPC_UInt32_Write (negb (Z.land e SOPC_NodeIdEncoding_ServerIndexFlag =? 0)) st2
      (ServerIndex expnodeid_init) b m2 (lvl + 1)) as (st3 & srv & m3 & -> & Hm3 & _ & G3); [done..|]. cbn [rbind deref].
    destruct (is_ok st3) eqn:E3.
    + apply decodes_intro; [done|done|]. intros ->. destruct (G3 eq_refl) as [-> W3]. destruct (G2 eq_refl) as [-> W2].
      apply (opt_string_accepted _ (lvl + 1)) in W2 as (W2 & L2 & N2).
      destruct (W eq_refl) as (Wn & Ln & Nn). replace (lvl + 1 - 1) with lvl in Nn by lia.
      unfold expnodeid_wf, expnodeid_nests. simpl. split_and!; try done; [|intros; specialize (N2 ltac:(done)); lia].
      by destruct (negb (Z.land e SOPC_NodeIdEncoding_ServerIndexFlag =? 0)); [destruct W3|subst srv].
    + destruct Sn as [n' En]. rewrite En. cbn [rbind deref SOPC_String_Clear SOPC_String_Initialize option_map].
      apply decodes_intro; [done| |by intros ->]. by eapply nodeid_clear_sane.
  - by intros e ->; eexists.
  - intros e lvl [W _] _ _. by apply nodeid_wf_sane.
Defined.
End NodeIdSpecs.
