(* ===== verification/EncText.v ===== *)
(** * Binary encoding of QualifiedName, LocalizedText and DiagnosticInfo

    Model of the corresponding part of [src/Common/opcua_types/sopc_encoder.c],
    with the types of [sopc_builtintypes.h] and the initialisation and clear
    functions of [sopc_builtintypes.c]. *)

From Stdlib Require Import ZArith Lia.
From Stdlib Require Import Strings.Byte.
From stdpp Require Import prelude.
From S2P Require Import Prelude Common Buffer Codec EncScalar EncString.

Open Scope Z_scope.

(** ** Types *)

Record SOPC_QualifiedName := mkQualifiedName {
  NamespaceIndex : Z;
  Name : SOPC_String
}.

(** The list of the other locales, when there is one, holds the identifiers and
    the values of its elements; it is not part of the encoding. *)
Inductive SOPC_LocalizedText := mkLocalizedText {
  defaultLocale : SOPC_String;
  defaultText : SOPC_String;
  localizedTextList : ptr (list (Z * SOPC_LocalizedText))
}.

Inductive SOPC_DiagnosticInfo := mkDiagnosticInfo {
  SymbolicId : Z;
  Diag_NamespaceUri : Z;
  Locale : Z;
  LocalizedText : Z;
  AdditionalInfo : SOPC_String;
  InnerStatusCode : Z;
  InnerDiagnosticInfo : ptr SOPC_DiagnosticInfo
}.

Definition SOPC_LocalizedText_Locale : Z := 0x01.
Definition SOPC_LocalizedText_Text : Z := 0x02.

Definition SOPC_DiagInfoEncoding_SymbolicId : Z := 0x01.
Definition SOPC_DiagInfoEncoding_Namespace : Z := 0x02.
Definition SOPC_DiagInfoEncoding_LocalizedTest : Z := 0x04.
Definition SOPC_DiagInfoEncoding_Locale : Z := 0x08.
Definition SOPC_DiagInfoEncoding_AdditionalInfo : Z := 0x10.
Definition SOPC_DiagInfoEncoding_InnerStatusCode : Z := 0x20.
Definition SOPC_DiagInfoEncoding_InnerDianosticInfo : Z := 0x40.

Definition qname_init : SOPC_QualifiedName := mkQualifiedName 0 string_init.

Definition SOPC_QualifiedName_Initialize (qname : ptr SOPC_QualifiedName) : ptr SOPC_QualifiedName :=
  option_map (fun _ => qname_init) qname.

Definition SOPC_QualifiedName_Clear (qname : ptr SOPC_QualifiedName) : ptr SOPC_QualifiedName :=
  option_map (fun q => mkQualifiedName 0 (default string_init (SOPC_String_Clear (Some (Name q))))) qname.

Definition ltext_init : SOPC_LocalizedText := mkLocalizedText string_init string_init NULL.

Definition SOPC_LocalizedText_Initialize (localizedText : ptr SOPC_LocalizedText) : ptr SOPC_LocalizedText :=
  option_map (fun _ => ltext_init) localizedText.

(** The strings are freed and reset; the list is freed with its elements. *)
Definition SOPC_LocalizedText_Clear (localizedText : ptr SOPC_LocalizedText) : ptr SOPC_LocalizedText :=
  option_map (fun t => mkLocalizedText
    (default string_init (SOPC_String_Clear (Some (defaultLocale t))))
    (default string_init (SOPC_String_Clear (Some (defaultText t)))) NULL) localizedText.

Definition diag_init : SOPC_DiagnosticInfo := mkDiagnosticInfo (-1) (-1) (-1) (-1) string_init 0 NULL.

Definition SOPC_DiagnosticInfo_Initialize (diagInfo : ptr SOPC_DiagnosticInfo) : ptr SOPC_DiagnosticInfo :=
  option_map (fun _ => diag_init) diagInfo.

(** The inner diagnostic is cleared and freed. *)
Definition SOPC_DiagnosticInfo_Clear (diagInfo : ptr SOPC_DiagnosticInfo) : ptr SOPC_DiagnosticInfo :=
  option_map (fun d => mkDiagnosticInfo (-1) (-1) (-1) (-1)
    (default string_init (SOPC_String_Clear (Some (AdditionalInfo d)))) 0 NULL) diagInfo.

(** [sizeof(SOPC_DiagnosticInfo)] *)
Definition sizeof_DiagnosticInfo : Z := 48.

(** [(byte & flag) != 0] *)
Definition has_flag (byte flag : Z) : bool := negb (Z.land byte flag =? 0).

(** [if (c) { byte |= flag; }] *)
Definition set_flag (c : bool) (flag byte : Z) : Z := if c then Z.lor byte flag else byte.

(** ** Encoders and decoders *)

Section Texts.
Context `{Allocator} `{Host} `{EndiannessCfg} {cfg : SOPC_Common_EncodingConstants}.

Definition SOPC_QualifiedName_Write : encoder SOPC_QualifiedName := fun qname buf nestedStructLevel =>
  match qname with
  | NULL => Ret (SOPC_STATUS_INVALID_PARAMETERS, buf)
  | Some q =>
      if max_nested_struct cfg <=? nestedStructLevel then Ret (SOPC_STATUS_INVALID_STATE, buf)
      else
        let nestedStructLevel := nestedStructLevel + 1 in
        let_ok buf := SOPC_UInt16_Write (Some (NamespaceIndex q)) buf nestedStructLevel in
        SOPC_String_Write (Some (Name q)) buf nestedStructLevel
  end.

Definition SOPC_QualifiedName_Read : decoder SOPC_QualifiedName := fun qname buf nestedStructLevel =>
  match qname with
  | NULL => Ret (SOPC_STATUS_INVALID_PARAMETERS, qname, buf)
  | Some q =>
      if max_nested_struct cfg <=? nestedStructLevel
      then Ret (SOPC_STATUS_INVALID_STATE, qname, buf)
      else
        let nestedStructLevel := nestedStructLevel + 1 in
        let* (status, ns, buf) := SOPC_UInt16_Read (Some (NamespaceIndex q)) buf nestedStructLevel in
        let* (status, name, buf) := read_if status SOPC_String_Read (Name q) buf nestedStructLevel in
        let* ns := deref ns in
        let* name := deref name in
        if is_ok status then Ret (status, Some (mkQualifiedName ns name), buf)
        else Ret (status, Some (mkQualifiedName 0 name), buf)
  end.

Definition GetLocalizedTextEncodingByte (ltext : SOPC_LocalizedText) : Z :=
  let encodingByte := 0 in
  let encodingByte := set_flag (0 <? Length (defaultLocale ltext)) SOPC_LocalizedText_Locale encodingByte in
  set_flag (0 <? Length (defaultText ltext)) SOPC_LocalizedText_Text encodingByte.

Definition SOPC_LocalizedText_Write : encoder SOPC_LocalizedText := fun localizedText buf nestedStructLevel =>
  match localizedText with
  | NULL => Ret (SOPC_STATUS_INVALID_PARAMETERS, buf)
  | Some t =>
      if max_nested_struct cfg <=? nestedStructLevel then Ret (SOPC_STATUS_INVALID_STATE, buf)
      else
        let nestedStructLevel := nestedStructLevel + 1 in
        let encodingByte := GetLocalizedTextEncodingByte t in
        let_ok buf := SOPC_Byte_Write (Some encodingByte) buf nestedStructLevel in
        let_ok buf := write_when (has_flag encodingByte SOPC_LocalizedText_Locale)
                        SOPC_String_Write (defaultLocale t) buf nestedStructLevel in
        write_when (has_flag encodingByte SOPC_LocalizedText_Text)
          SOPC_String_Write (defaultText t) buf nestedStructLevel
  end.

Definition SOPC_LocalizedText_Read : decoder SOPC_LocalizedText := fun localizedText buf nestedStructLevel =>
  match localizedText with
  | NULL => Ret (SOPC_STATUS_INVALID_PARAMETERS, localizedText, buf)
  | Some t =>
      if max_nested_struct cfg <=? nestedStructLevel
      then Ret (SOPC_STATUS_INVALID_STATE, localizedText, buf)
      else
        let nestedStructLevel := nestedStructLevel + 1 in
        let* (status, e, buf) := SOPC_Byte_Read (Some 0) buf nestedStructLevel in
        let* encodingByte := deref e in
        let* (status, locale, buf) := read_when (has_flag encodingByte SOPC_LocalizedText_Locale)
          status SOPC_String_Read (defaultLocale t) buf nestedStructLevel in
        let* (status, text, buf) := read_when (has_flag encodingByte SOPC_LocalizedText_Text)
          status SOPC_String_Read (defaultText t) buf nestedStructLevel in
        let* locale := deref locale in
        let* text := deref text in
        if is_ok status then Ret (status, Some (mkLocalizedText locale text (localizedTextList t)), buf)
        else
          let* locale := deref (SOPC_String_Clear (Some locale)) in
          Ret (status, Some (mkLocalizedText locale text (localizedTextList t)), buf)
  end.

Definition GetDiagInfoEncodingByte (diagInfo : SOPC_DiagnosticInfo) : Z :=
  let encodingByte := 0 in
  let encodingByte := set_flag (-1 <? SymbolicId diagInfo) SOPC_DiagInfoEncoding_SymbolicId encodingByte in
  let encodingByte := set_flag (-1 <? Diag_NamespaceUri diagInfo) SOPC_DiagInfoEncoding_Namespace encodingByte in
  let encodingByte := set_flag (-1 <? Locale diagInfo) SOPC_DiagInfoEncoding_Locale encodingByte in
  let encodingByte := set_flag (-1 <? LocalizedText diagInfo) SOPC_DiagInfoEncoding_LocalizedTest encodingByte in
  let encodingByte := set_flag (0 <? Length (AdditionalInfo diagInfo)) SOPC_DiagInfoEncoding_AdditionalInfo encodingByte in
  let encodingByte := set_flag (0 <? InnerStatusCode diagInfo) SOPC_DiagInfoEncoding_InnerStatusCode encodingByte in
  set_flag (negb (is_null (InnerDiagnosticInfo diagInfo))) SOPC_DiagInfoEncoding_InnerDianosticInfo encodingByte.

(** The fields are written at level 0: the nesting of diagnostics has its own
    limit.  A null diagnostic is refused by the callers of this function, which
    is the body for a diagnostic that is not null. *)
Fixpoint SOPC_DiagnosticInfo_Write_Internal (diagInfo : SOPC_DiagnosticInfo) (buf : ptr SOPC_Buffer)
    (nestedLevel : Z) : enc_result :=
  let encodingByte := GetDiagInfoEncodingByte diagInfo in
  let_ok buf := SOPC_Byte_Write (Some encodingByte) buf 0 in
  let_ok buf := write_when (has_flag encodingByte SOPC_DiagInfoEncoding_SymbolicId)
                  SOPC_Int32_Write (SymbolicId diagInfo) buf 0 in
  let_ok buf := write_when (has_flag encodingByte SOPC_DiagInfoEncoding_Namespace)
                  SOPC_Int32_Write (Diag_NamespaceUri diagInfo) buf 0 in
  let_ok buf := write_when (has_flag encodingByte SOPC_DiagInfoEncoding_Locale)
                  SOPC_Int32_Write (Locale diagInfo) buf 0 in
  let_ok buf := write_when (has_flag encodingByte SOPC_DiagInfoEncoding_LocalizedTest)
                  SOPC_Int32_Write (LocalizedText diagInfo) buf 0 in
  let_ok buf := write_when (has_flag encodingByte SOPC_DiagInfoEncoding_AdditionalInfo)
                  SOPC_String_Write (AdditionalInfo diagInfo) buf 0 in
  let_ok buf := write_when (has_flag encodingByte SOPC_DiagInfoEncoding_InnerStatusCode)
                  SOPC_StatusCode_Write (InnerStatusCode diagInfo) buf 0 in
  if has_flag encodingByte SOPC_DiagInfoEncoding_InnerDianosticInfo then
    let nestedLevel := nestedLevel + 1 in
    if max_nested_diag_info cfg <? nestedLevel then Ret (SOPC_STATUS_ENCODING_ERROR, buf)
    else match InnerDiagnosticInfo diagInfo with
         | Some inner => SOPC_DiagnosticInfo_Write_Internal inner buf nestedLevel
         | NULL => Ret (SOPC_STATUS_INVALID_PARAMETERS, buf)
         end
  else Ret (SOPC_STATUS_OK, buf).

Definition SOPC_DiagnosticInfo_Write : encoder SOPC_DiagnosticInfo := fun diagInfo buf nestedStructLevel =>
  if max_nested_struct cfg <=? nestedStructLevel then Ret (SOPC_STATUS_INVALID_STATE, buf)
  else match diagInfo with
       | Some d => SOPC_DiagnosticInfo_Write_Internal d buf 0
       | NULL => Ret (SOPC_STATUS_INVALID_PARAMETERS, buf)
       end.

(** The last field: the inner diagnostic is allocated, initialised and read by
    [rec]; it is freed when its reading fails. *)
Definition diag_read_inner (rec : decoder SOPC_DiagnosticInfo) (c : bool) (status : SOPC_ReturnStatus)
    (inner : ptr SOPC_DiagnosticInfo) (buf : ptr SOPC_Buffer) (nestedLevel : Z) : dec_result SOPC_DiagnosticInfo :=
  if is_ok status && c then
    let nestedLevel := nestedLevel + 1 in
    if max_nested_diag_info cfg <? nestedLevel
    then Ret (SOPC_STATUS_OUT_OF_MEMORY, inner, buf)
    else if alloc_ok sizeof_DiagnosticInfo then
      let inner := SOPC_DiagnosticInfo_Initialize (Some diag_init) in
      let* (status, inner, buf) := rec inner buf nestedLevel in
      Ret (status, if is_ok status then inner else NULL, buf)
    else Ret (SOPC_STATUS_OUT_OF_MEMORY, NULL, buf)
  else Ret (status, inner, buf).

(** The recursion is bounded by the nesting limit of diagnostics. *)
Fixpoint SOPC_DiagnosticInfo_Read_Internal (fuel : nat) (diagInfo : ptr SOPC_DiagnosticInfo)
    (buf : ptr SOPC_Buffer) (nestedLevel : Z) : dec_result SOPC_DiagnosticInfo :=
  match fuel, diagInfo with
  | O, _ => Fault OutOfFuel
  | S _, NULL => Ret (SOPC_STATUS_INVALID_PARAMETERS, NULL, buf)
  | S fuel, Some d =>
      let* (status, e, buf) := SOPC_Byte_Read (Some 0) buf 0 in
      let* encodingByte := deref e in
      let* (status, symbolicId, buf) := read_when (has_flag encodingByte SOPC_DiagInfoEncoding_SymbolicId)
        status SOPC_Int32_Read (SymbolicId d) buf 0 in
      let* (status, namespaceUri, buf) := read_when (has_flag encodingByte SOPC_DiagInfoEncoding_Namespace)
        status SOPC_Int32_Read (Diag_NamespaceUri d) buf 0 in
      let* (status, locale, buf) := read_when (has_flag encodingByte SOPC_DiagInfoEncoding_Locale)
        status SOPC_Int32_Read (Locale d) buf 0 in
      let* (status, localizedText, buf) := read_when (has_flag encodingByte SOPC_DiagInfoEncoding_LocalizedTest)
        status SOPC_Int32_Read (LocalizedText d) buf 0 in
      let* (status, additionalInfo, buf) := read_when (has_flag encodingByte SOPC_DiagInfoEncoding_AdditionalInfo)
        status SOPC_String_Read (AdditionalInfo d) buf 0 in
      let* (status, innerStatus, buf) := read_when (has_flag encodingByte SOPC_DiagInfoEncoding_InnerStatusCode)
        status SOPC_StatusCode_Read (InnerStatusCode d) buf 0 in
      let* (status, inner, buf) :=
        diag_read_inner (SOPC_DiagnosticInfo_Read_Internal fuel)
          (has_flag encodingByte SOPC_DiagInfoEncoding_InnerDianosticInfo) status (InnerDiagnosticInfo d) buf nestedLevel in
      let* symbolicId := deref symbolicId in
      let* namespaceUri := deref namespaceUri in
      let* locale := deref locale in
      let* localizedText := deref localizedText in
      let* additionalInfo := deref additionalInfo in
      let* innerStatus := deref innerStatus in
      if is_ok status
      then Ret (status, Some (mkDiagnosticInfo symbolicId namespaceUri locale localizedText
                                additionalInfo innerStatus inner), buf)
      else
        let* additionalInfo := deref (SOPC_String_Clear (Some additionalInfo)) in
        Ret (status, Some (mkDiagnosticInfo 0 0 0 0 additionalInfo 0 inner), buf)
  end.

Definition SOPC_DiagnosticInfo_Read : decoder SOPC_DiagnosticInfo := fun diagInfo buf nestedStructLevel =>
  if max_nested_struct cfg <=? nestedStructLevel
  then Ret (SOPC_STATUS_INVALID_STATE, diagInfo, buf)
  else SOPC_DiagnosticInfo_Read_Internal (S (Z.to_nat (max_nested_diag_info cfg))) diagInfo buf 0.

End Texts.

#[export] Hint Opaque SOPC_QualifiedName_Write SOPC_QualifiedName_Read
  SOPC_LocalizedText_Write SOPC_LocalizedText_Read
  SOPC_DiagnosticInfo_Write SOPC_DiagnosticInfo_Read : typeclass_instances.

(** ** Specification *)

(** The flags of an encoding byte. *)
Lemma has_flag_ltext b1 b2 :
  let e := set_flag b2 0x02 (set_flag b1 0x01 0) in
  in_u 8 e /\ has_flag e 0x01 = b1 /\ has_flag e 0x02 = b2.
Proof. unfold in_u. destruct b1, b2; vm_compute; repeat split; discriminate. Qed.

Definition diag_byte (b1 b2 b3 b4 b5 b6 b7 : bool) : Z :=
  set_flag b7 0x40 (set_flag b6 0x20 (set_flag b5 0x10 (set_flag b4 0x04 (set_flag b3 0x08
    (set_flag b2 0x02 (set_flag b1 0x01 0)))))).

Lemma has_flag_diag b1 b2 b3 b4 b5 b6 b7 :
  let e := diag_byte b1 b2 b3 b4 b5 b6 b7 in
  in_u 8 e /\ has_flag e 0x01 = b1 /\ has_flag e 0x02 = b2 /\ has_flag e 0x08 = b3 /\
  has_flag e 0x04 = b4 /\ has_flag e 0x10 = b5 /\ has_flag e 0x20 = b6 /\ has_flag e 0x40 = b7.
Proof. unfold in_u. destruct b1, b2, b3, b4, b5, b6, b7; vm_compute; repeat split; discriminate. Qed.

Section TextCodecs.
Context `{Allocator} `{Host} `{EndiannessCfg} {cfg : SOPC_Common_EncodingConstants}.
Context `{!EndiannessDetected}.

Definition qname_wf (q : SOPC_QualifiedName) : Prop := in_u 16 (NamespaceIndex q) /\ string_wf (Name q).

#[refine] #[export] Instance QualifiedName_codec : Codec SOPC_QualifiedName_Write SOPC_QualifiedName_Read := {
  wire q := le_bytes 2 (NamespaceIndex q) ++ string_wire (Name q);
  nests _ lvl := lvl + 3 <= max_nested_struct cfg; wf := qname_wf;
  limits q := string_limits (Name q);
  canon q := mkQualifiedName (NamespaceIndex q) (string_canon [x00] (Name q));
  inited q := q = qname_init; sane _ := True
}.
Proof.
  - intros q b lvl [W1 W2] I S. apply encodes_guard; [done| |lia]. intros _. cbv zeta.
    eapply (encodes_seq _ _ _ _ _ _ _ (lvl + 1 + 1 <= max_nested_struct cfg) (lvl + 1 + 2 <= max_nested_struct cfg)); [done|done| | |done|lia].
    + by apply (encodes_sub SOPC_UInt16_Write).
    + intros. by apply (encodes_sub SOPC_String_Write).
  - intros q q0 b lvl rest [W1 W2] L -> I S E N HA. unfold SOPC_QualifiedName_Read. level_ok. cbv zeta.
    rewrite <- app_assoc in E.
    rewrite (read_first SOPC_UInt16_Write (NamespaceIndex q) _ b (lvl + 1) _) with (6 := E) by (done || simpl; lia). cbn [rbind].
    rewrite (read_if_next SOPC_String_Write (Name q) _ b _ (lvl + 1) _) with (6 := E) by (done || simpl; lia). done.
  - intros q0 b lvl -> I S. unfold SOPC_QualifiedName_Read. by_level. cbv zeta.
    pose proof (zlen_nonneg (upcoming b)). rewrite <- (advance_0 b) at 2.
    destruct (safe_next SOPC_UInt16_Write (NamespaceIndex qname_init) b 0 (lvl + 1)) as (s1 & ns & m1 & -> & Hm1 & _ & G1); [done..|lia|]. cbn [rbind].
    destruct (read_if_safe SOPC_String_Write s1 (Name qname_init) b m1 (lvl + 1)) as (s2 & name & m2 & -> & Hm2 & _ & G2); [done..|]. cbn [rbind deref].
    destruct (is_ok s2) eqn:E2; apply decodes_advance; try done; [|by intros ->].
    intros ->. destruct (G2 eq_refl) as [-> (W2 & L2 & N2)]. destruct (G1 eq_refl) as (W1 & _). simpl in N2.
    unfold qname_wf. split_and!; try done. lia.
  - done.
  - done.
Defined.

Definition ltext_wf (t : SOPC_LocalizedText) : Prop := string_wf (defaultLocale t) /\ string_wf (defaultText t).

Definition opt_string_wire (s : SOPC_String) : block := if 0 <? Length s then string_wire s else [].

Definition ltext_wire (t : SOPC_LocalizedText) : block :=
  [z2b (GetLocalizedTextEncodingByte t)] ++ opt_string_wire (defaultLocale t) ++ opt_string_wire (defaultText t).

Definition ltext_nests (t : SOPC_LocalizedText) (lvl : Z) : Prop :=
  lvl + 2 <= max_nested_struct cfg /\
  (0 < Length (defaultLocale t) \/ 0 < Length (defaultText t) -> lvl + 3 <= max_nested_struct cfg).

Lemma string_canon_opt suffix s :
  (if 0 <? Length s then string_canon suffix s else string_init) = string_canon suffix s.
Proof. unfold string_canon. by destruct (0 <? Length s). Qed.

#[refine] #[export] Instance LocalizedText_codec : Codec SOPC_LocalizedText_Write SOPC_LocalizedText_Read := {
  wire := ltext_wire; nests := ltext_nests; wf := ltext_wf;
  limits t := string_limits (defaultLocale t) /\ string_limits (defaultText t);
  canon t := mkLocalizedText (string_canon [x00] (defaultLocale t)) (string_canon [x00] (defaultText t)) NULL;
  inited t := t = ltext_init; sane _ := True
}.
Proof.
  - intros t b lvl [W1 W2] I S. unfold ltext_nests. apply encodes_guard; [done| |lia]. intros _. cbv zeta.
    unfold ltext_wire, opt_string_wire, GetLocalizedTextEncodingByte. cbv zeta.
    destruct (has_flag_ltext (0 <? Length (defaultLocale t)) (0 <? Length (defaultText t))) as (F & F1 & F2).
    unfold SOPC_LocalizedText_Locale, SOPC_LocalizedText_Text. rewrite F1, F2.
    set (c1 := 0 <? Length (defaultLocale t)) in *. set (c2 := 0 <? Length (defaultText t)) in *.
    set (max := max_nested_struct cfg).
    eapply (encodes_seq _ _ _ _ _ _ _ (lvl + 1 + 1 <= max)
      ((c1 = true -> lvl + 1 + 2 <= max) /\ (c2 = true -> lvl + 1 + 2 <= max))); [done|done| | |done|].
    + by apply (encodes_sub SOPC_Byte_Write).
    + intros b1 I1 S1. apply encodes_and_then; [done|done| |]; intros; by apply (encodes_when SOPC_String_Write).
    + subst c1 c2. rewrite !Z.ltb_lt. intuition lia.
  - intros t t0 b lvl rest [W1 W2] [L1 L2] -> I S E [N1 N2] HA. unfold SOPC_LocalizedText_Read. level_ok. cbv zeta.
    unfold ltext_wire, opt_string_wire, GetLocalizedTextEncodingByte in *. cbv zeta in *.
    destruct (has_flag_ltext (0 <? Length (defaultLocale t)) (0 <? Length (defaultText t))) as (F & F1 & F2).
    unfold SOPC_LocalizedText_Locale, SOPC_LocalizedText_Text in *. rewrite <- !app_assoc in E.
    rewrite (read_first SOPC_Byte_Write (set_flag (0 <? Length (defaultText t)) 2 (set_flag (0 <? Length (defaultLocale t)) 1 0)) _ b (lvl + 1) _) with (6 := E) by (done || simpl; lia). cbn [rbind deref canon wire Byte_codec].
    rewrite F1, F2.
    rewrite (read_when_next SOPC_String_Write _ (defaultLocale t) (defaultLocale ltext_init) b _ (lvl + 1) _) with (6 := E)
      by (done || simpl; rewrite ?Z.ltb_lt; lia). cbn [rbind wire String_codec]. rewrite app_assoc in E.
    rewrite (read_when_next SOPC_String_Write _ (defaultText t) (defaultText ltext_init) b _ (lvl + 1) _) with (6 := E)
      by (done || simpl; rewrite ?Z.ltb_lt; lia). cbn [rbind deref is_ok canon String_codec defaultLocale defaultText ltext_init].
    rewrite !string_canon_opt. by rewrite <- !app_assoc.
  - intros t0 b lvl -> I S. unfold SOPC_LocalizedText_Read. by_level. cbv zeta.
    pose proof (zlen_nonneg (upcoming b)). rewrite <- (advance_0 b) at 2.
    destruct (safe_next SOPC_Byte_Write 0 b 0 (lvl + 1)) as (s1 & e & m1 & -> & Hm1 & _ & G1); [done..|lia|]. cbn [rbind deref].
    destruct (read_when_safe SOPC_String_Write (has_flag e SOPC_LocalizedText_Locale) s1 (defaultLocale ltext_init) b m1 (lvl + 1))
      as (s2 & loc & m2 & -> & Hm2 & _ & G2); [done..|]. cbn [rbind].
    destruct (read_when_safe SOPC_String_Write (has_flag e SOPC_LocalizedText_Text) s2 (defaultText ltext_init) b m2 (lvl + 1))
      as (s3 & txt & m3 & -> & Hm3 & _ & G3); [done..|]. cbn [rbind deref].
    destruct (is_ok s3) eqn:E3; apply decodes_advance; try done; [|by intros ->].
    intros ->. destruct (G3 eq_refl) as [-> W3]. destruct (G2 eq_refl) as [-> W2]. destruct (G1 eq_refl) as (_ & _ & N1). simpl in N1.
    apply (opt_string_accepted _ (lvl + 1)) in W3 as (W3 & L3 & N3). apply (opt_string_accepted _ (lvl + 1)) in W2 as (W2 & L2 & N2).
    unfold ltext_wf, ltext_nests. simpl. split_and!; try done; [lia|]. intros [?|?]; [specialize (N2 ltac:(done))|specialize (N3 ltac:(done))]; lia.
  - done.
  - done.
Defined.


(** *** Diagnostics *)

Lemma diag_ind (P : SOPC_DiagnosticInfo -> Prop) :
  (forall d, (forall i, InnerDiagnosticInfo d = Some i -> P i) -> P d) -> forall d, P d.
Proof.
  intros HP. fix rec 1. intros d. apply HP. destruct d as [? ? ? ? ? ? [i|]]; simpl; intros j E; [|discriminate E].
  injection E as <-. apply rec.
Qed.

(** How many diagnostics are nested in a diagnostic. *)
Fixpoint diag_levels (d : SOPC_DiagnosticInfo) : Z :=
  match InnerDiagnosticInfo d with Some i => 1 + diag_levels i | NULL => 0 end.

Fixpoint diag_text (d : SOPC_DiagnosticInfo) : bool :=
  (0 <? Length (AdditionalInfo d)) || match InnerDiagnosticInfo d with Some i => diag_text i | NULL => false end.

Fixpoint diag_wf (d : SOPC_DiagnosticInfo) : Prop :=
  in_s 32 (SymbolicId d) /\ in_s 32 (Diag_NamespaceUri d) /\ in_s 32 (Locale d) /\ in_s 32 (LocalizedText d) /\
  string_wf (AdditionalInfo d) /\ in_u 32 (InnerStatusCode d) /\
  match InnerDiagnosticInfo d with Some i => diag_wf i | NULL => True end.

Fixpoint diag_limits (d : SOPC_DiagnosticInfo) : Prop :=
  string_limits (AdditionalInfo d) /\
  match InnerDiagnosticInfo d with Some i => diag_limits i | NULL => True end.

Definition opt_index (z : Z) : block := if -1 <? z then le_bytes 4 z else [].

Fixpoint diag_wire (d : SOPC_DiagnosticInfo) : block :=
  [z2b (GetDiagInfoEncodingByte d)] ++
  opt_index (SymbolicId d) ++ opt_index (Diag_NamespaceUri d) ++ opt_index (Locale d) ++ opt_index (LocalizedText d) ++
  opt_string_wire (AdditionalInfo d) ++ (if 0 <? InnerStatusCode d then le_bytes 4 (InnerStatusCode d) else []) ++
  match InnerDiagnosticInfo d with Some i => diag_wire i | NULL => [] end.

(** An absent index is [-1]. *)
Definition index_canon (z : Z) : Z := if -1 <? z then z else -1.

Fixpoint diag_canon (d : SOPC_DiagnosticInfo) : SOPC_DiagnosticInfo :=
  mkDiagnosticInfo (index_canon (SymbolicId d)) (index_canon (Diag_NamespaceUri d)) (index_canon (Locale d))
    (index_canon (LocalizedText d)) (string_canon [x00] (AdditionalInfo d)) (InnerStatusCode d)
    match InnerDiagnosticInfo d with Some i => Some (diag_canon i) | NULL => NULL end.

Lemma diag_levels_nonneg d : 0 <= diag_levels d.
Proof. induction d as [d IH] using diag_ind. destruct d as [? ? ? ? ? ? [i|]]; simpl; [|lia]. specialize (IH i eq_refl). lia. Qed.

Definition diag_ok (d : SOPC_DiagnosticInfo) (lvl : Z) : Prop :=
  1 <= max_nested_struct cfg /\ (diag_text d = true -> 2 <= max_nested_struct cfg) /\
  (diag_levels d = 0 \/ lvl + diag_levels d <= max_nested_diag_info cfg).

Lemma diag_flags d :
  let e := GetDiagInfoEncodingByte d in
  in_u 8 e /\ has_flag e SOPC_DiagInfoEncoding_SymbolicId = (-1 <? SymbolicId d) /\
  has_flag e SOPC_DiagInfoEncoding_Namespace = (-1 <? Diag_NamespaceUri d) /\
  has_flag e SOPC_DiagInfoEncoding_Locale = (-1 <? Locale d) /\
  has_flag e SOPC_DiagInfoEncoding_LocalizedTest = (-1 <? LocalizedText d) /\
  has_flag e SOPC_DiagInfoEncoding_AdditionalInfo = (0 <? Length (AdditionalInfo d)) /\
  has_flag e SOPC_DiagInfoEncoding_InnerStatusCode = (0 <? InnerStatusCode d) /\
  has_flag e SOPC_DiagInfoEncoding_InnerDianosticInfo = negb (is_null (InnerDiagnosticInfo d)).
Proof. apply has_flag_diag. Qed.

Lemma diag_write_spec d : forall b lvl, diag_wf d -> Buffer_Inv b -> small b ->
  encodes b (SOPC_DiagnosticInfo_Write_Internal d (Some b) lvl) (diag_wire d) (diag_ok d lvl).
Proof.
  induction d as [d IH] using diag_ind. intros b lvl W I S.
  destruct (diag_flags d) as (F & F1 & F2 & F3 & F4 & F5 & F6 & F7).
  unfold diag_ok. destruct d as [sy ns lo lt ai ic inn]. cbn -[SOPC_DiagnosticInfo_Write_Internal diag_wire diag_text diag_levels] in W, F1, F2, F3, F4, F5, F6, F7, IH.
  destruct W as (W1 & W2 & W3 & W4 & W5 & W6 & W7).
  cbn [SOPC_DiagnosticInfo_Write_Internal diag_wire diag_text diag_levels].
  cbn [SymbolicId Diag_NamespaceUri Locale LocalizedText AdditionalInfo InnerStatusCode InnerDiagnosticInfo].
  rewrite F1, F2, F3, F4, F5, F6, F7. set (max := max_nested_struct cfg) in *. unfold opt_string_wire, opt_index.
  eapply encodes_iff;
    [|apply (encodes_and_then _ _ _ _ _ (1 <= max)); [done|done|by apply (encodes_sub SOPC_Byte_Write)|];
      intros b1 I1 S1; apply (encodes_and_then _ _ _ _ _ ((-1 <? sy) = true -> 1 <= max)); [done|done|by apply (encodes_when SOPC_Int32_Write)|];
      intros b2 I2 S2; apply (encodes_and_then _ _ _ _ _ ((-1 <? ns) = true -> 1 <= max)); [done|done|by apply (encodes_when SOPC_Int32_Write)|];
      intros b3 I3 S3; apply (encodes_and_then _ _ _ _ _ ((-1 <? lo) = true -> 1 <= max)); [done|done|by apply (encodes_when SOPC_Int32_Write)|];
      intros b4 I4 S4; apply (encodes_and_then _ _ _ _ _ ((-1 <? lt) = true -> 1 <= max)); [done|done|by apply (encodes_when SOPC_Int32_Write)|];
      intros b5 I5 S5; apply (encodes_and_then _ _ _ _ _ ((0 <? Length ai) = true -> 2 <= max)); [done|done|by apply (encodes_when SOPC_String_Write)|];
      intros b6 I6 S6; apply (encodes_and_then _ _ _ _ _ ((0 <? ic) = true -> 1 <= max)); [done|done|by apply (encodes_when SOPC_StatusCode_Write)|];
      intros b7 I7 S7 ].
  2:{ instantiate (1 := match inn with Some i => lvl + 1 <= max_nested_diag_info cfg /\ diag_ok i (lvl + 1) | NULL => True end).
      destruct inn as [i|]; simpl negb; cbv iota; [|by apply encodes_skip]. cbv zeta.
      destruct (Z.ltb_spec (max_nested_diag_info cfg) (lvl + 1)); [by apply encodes_fail; [| |lia]|].
      eapply encodes_iff; [|by apply IH]. tauto. }
  unfold diag_ok. destruct inn as [i|]; [|rewrite orb_false_r; intuition].
  pose proof (diag_levels_nonneg i). rewrite orb_true_iff. intuition lia.
Qed.

Lemma index_canon_opt z : (if -1 <? z then z else -1) = index_canon z.
Proof. done. Qed.

Lemma diag_read_spec d : forall fuel b lvl rest,
  diag_wf d -> diag_limits d -> Buffer_Inv b -> small b -> upcoming b = diag_wire d ++ rest ->
  diag_ok d lvl -> (forall n, alloc_ok n = true) -> diag_levels d < Z.of_nat fuel ->
  SOPC_DiagnosticInfo_Read_Internal fuel (Some diag_init) (Some b) lvl =
  Ret (SOPC_STATUS_OK, Some (diag_canon d), Some (advance b (zlen (diag_wire d)))).
Proof.
  induction d as [d IH] using diag_ind. intros fuel b lvl rest W Lm I S E (M1 & M2 & M3) HA Hf.
  destruct (diag_flags d) as (F & F1 & F2 & F3 & F4 & F5 & F6 & F7). pose proof (diag_levels_nonneg d) as P.
  destruct fuel as [|fuel]; [lia|]. destruct d as [sy ns lo lt ai ic inn].
  cbn -[diag_wire diag_text diag_levels] in W, Lm, F1, F2, F3, F4, F5, F6, F7, IH.
  destruct W as (W1 & W2 & W3 & W4 & W5 & W6 & W7). destruct Lm as [L1 L2].
  cbn [diag_text diag_levels InnerDiagnosticInfo AdditionalInfo] in M2, M3, Hf.
  cbn [SOPC_DiagnosticInfo_Read_Internal diag_canon].
  cbn [diag_wire SymbolicId Diag_NamespaceUri Locale LocalizedText AdditionalInfo InnerStatusCode InnerDiagnosticInfo] in *.
  unfold opt_index, opt_string_wire in *.
  set (e := GetDiagInfoEncodingByte _) in *. rewrite <- !app_assoc in E.
  assert ((0 <? Length ai) = true -> 0 + 2 <= max_nested_struct cfg) as M2' by (intros X; rewrite X in M2; apply M2; done).
  rewrite (read_first SOPC_Byte_Write e 0 b 0 _) with (6 := E) by (done || simpl; lia). cbn [rbind deref canon wire Byte_codec].
  rewrite F1, F2, F3, F4, F5, F6, F7.
  rewrite (read_when_next SOPC_Int32_Write _ sy (SymbolicId diag_init) b _ 0 _) with (6 := E) by (done || simpl; lia). cbn [rbind wire Int32_codec]. rewrite app_assoc in E.
  rewrite (read_when_next SOPC_Int32_Write _ ns (Diag_NamespaceUri diag_init) b _ 0 _) with (6 := E) by (done || simpl; lia). cbn [rbind wire Int32_codec]. rewrite app_assoc in E.
  rewrite (read_when_next SOPC_Int32_Write _ lo (Locale diag_init) b _ 0 _) with (6 := E) by (done || simpl; lia). cbn [rbind wire Int32_codec]. rewrite app_assoc in E.
  rewrite (read_when_next SOPC_Int32_Write _ lt (LocalizedText diag_init) b _ 0 _) with (6 := E) by (done || simpl; lia). cbn [rbind wire Int32_codec]. rewrite app_assoc in E.
  rewrite (read_when_next SOPC_String_Write _ ai (AdditionalInfo diag_init) b _ 0 _) with (6 := E) by done. cbn [rbind wire String_codec]. rewrite app_assoc in E.
  rewrite (read_when_next SOPC_StatusCode_Write _ ic (InnerStatusCode diag_init) b _ 0 _) with (6 := E) by (done || simpl; lia). cbn [rbind wire StatusCode_codec UInt32_codec is_ok andb].
  rewrite app_assoc in E. assert ((if 0 <? ic then ic else 0) = ic) as Eic by (unfold in_u in W6; destruct (Z.ltb_spec 0 ic); lia).
  unfold diag_read_inner. cbn [is_ok andb]. destruct inn as [i|]; cbn [is_null negb].
  - destruct (upcoming_advance_app b _ _ I E) as [I7 U7]. cbv zeta.
    pose proof (diag_levels_nonneg i). replace (max_nested_diag_info cfg <? lvl + 1) with false by lia. rewrite HA.
    change (SOPC_DiagnosticInfo_Initialize (Some diag_init)) with (Some diag_init).
    rewrite (IH i eq_refl fuel _ (lvl + 1) rest W7 L2 I7 S U7); [|split_and!; [done| |lia]|done|lia].
    2:{ intros X. apply M2. by rewrite X, orb_true_r. }
    cbn [rbind is_ok deref canon Int32_codec String_codec StatusCode_codec UInt32_codec SymbolicId Diag_NamespaceUri Locale LocalizedText AdditionalInfo InnerStatusCode diag_init].
    rewrite advance_advance, <- zlen_app, string_canon_opt, Eic, <- !app_assoc. done.
  - cbn [rbind is_ok deref canon Int32_codec String_codec StatusCode_codec UInt32_codec SymbolicId Diag_NamespaceUri Locale LocalizedText AdditionalInfo InnerStatusCode diag_init].
    rewrite string_canon_opt, Eic, <- !app_assoc, app_nil_r. done.
Qed.

Definition diag_accepted (lvl : Z) (d : SOPC_DiagnosticInfo) : Prop := diag_wf d /\ diag_limits d /\ diag_ok d lvl.

Lemma diag_read_inner_safe fuel c s6 b m6 lvl :
  Buffer_Inv b -> small b -> 0 <= m6 <= zlen (upcoming b) ->
  (lvl + 1 <= max_nested_diag_info cfg ->
   decodes b (SOPC_DiagnosticInfo_Read_Internal fuel (Some diag_init) (Some (advance b m6)) (lvl + 1)) (fun _ => True) (diag_accepted (lvl + 1))) ->
  exists s7 inn m7,
    diag_read_inner (SOPC_DiagnosticInfo_Read_Internal fuel) c s6 NULL (Some (advance b m6)) lvl = Ret (s7, inn, Some (advance b m7)) /\
    0 <= m7 <= zlen (upcoming b) /\
    (s7 = SOPC_STATUS_OK -> s6 = SOPC_STATUS_OK /\
       match inn with Some i => lvl + 1 <= max_nested_diag_info cfg /\ diag_accepted (lvl + 1) i | NULL => True end).
Proof.
  intros I S Hm6 IH. unfold diag_read_inner.
  destruct (is_ok s6) eqn:E6; [destruct c|]; cbn [andb]; cbv zeta.
  - apply is_ok_true in E6. destruct (Z.ltb_spec (max_nested_diag_info cfg) (lvl + 1)); [by eexists _, _, m6|].
    destruct (alloc_ok _); [|by eexists _, _, m6].
    change (SOPC_DiagnosticInfo_Initialize (Some diag_init)) with (Some diag_init).
    destruct IH as (s7 & i & m7 & -> & Hm7 & _ & G); [lia|]. cbn [rbind].
    eexists _, _, m7. split_and!; [done|lia|lia|]. intros ->. simpl. auto.
  - apply is_ok_true in E6. by eexists _, _, m6.
  - eexists _, _, m6. split_and!; [done|lia|lia|]. by intros ->.
Qed.

Lemma diag_read_safe fuel : forall b lvl,
  Buffer_Inv b -> small b -> 1 + Z.max 0 (max_nested_diag_info cfg - lvl) <= Z.of_nat fuel ->
  decodes b (SOPC_DiagnosticInfo_Read_Internal fuel (Some diag_init) (Some b) lvl) (fun _ => True) (diag_accepted lvl).
Proof.
  induction fuel as [|fuel IH]; intros b lvl I S Hf; [lia|]. cbn [SOPC_DiagnosticInfo_Read_Internal].
  pose proof (zlen_nonneg (upcoming b)). rewrite <- (advance_0 b) at 2.
  destruct (safe_next SOPC_Byte_Write 0 b 0 0) as (s0 & e & m0 & -> & Hm0 & _ & G0); [done..|lia|]. cbn [rbind deref].
  destruct (read_when_safe SOPC_Int32_Write (has_flag e SOPC_DiagInfoEncoding_SymbolicId) s0 (SymbolicId diag_init) b m0 0)
    as (s1 & sy & m1 & -> & Hm1 & _ & G1); [done..|]. cbn [rbind].
  destruct (read_when_safe SOPC_Int32_Write (has_flag e SOPC_DiagInfoEncoding_Namespace) s1 (Diag_NamespaceUri diag_init) b m1 0)
    as (s2 & ns & m2 & -> & Hm2 & _ & G2); [done..|]. cbn [rbind].
  destruct (read_when_safe SOPC_Int32_Write (has_flag e SOPC_DiagInfoEncoding_Locale) s2 (Locale diag_init) b m2 0)
    as (s3 & lo & m3 & -> & Hm3 & _ & G3); [done..|]. cbn [rbind].
  destruct (read_when_safe SOPC_Int32_Write (has_flag e SOPC_DiagInfoEncoding_LocalizedTest) s3 (LocalizedText diag_init) b m3 0)
    as (s4 & lt & m4 & -> & Hm4 & _ & G4); [done..|]. cbn [rbind].
  destruct (read_when_safe SOPC_String_Write (has_flag e SOPC_DiagInfoEncoding_AdditionalInfo) s4 (AdditionalInfo diag_init) b m4 0)
    as (s5 & ai & m5 & -> & Hm5 & _ & G5); [done..|]. cbn [rbind].
  destruct (read_when_safe SOPC_StatusCode_Write (has_flag e SOPC_DiagInfoEncoding_InnerStatusCode) s5 (InnerStatusCode diag_init) b m5 0)
    as (s6 & ic & m6 & -> & Hm6 & _ & G6); [done..|]. cbn [rbind].
  change (InnerDiagnosticInfo diag_init) with (@None SOPC_DiagnosticInfo).
  destruct (diag_read_inner_safe fuel (has_flag e SOPC_DiagInfoEncoding_InnerDianosticInfo) s6 b m6 lvl)
    as (s7 & inn & m7 & -> & Hm7 & G7); [done..| |].
  { intros. apply (decodes_after b m6); [done..|]. apply IH; [by apply Buffer_Inv_advance|done|lia]. }
  cbn [rbind deref]. destruct (is_ok s7) eqn:E7; [|apply decodes_advance; [done|by intros ->]].
  apply decodes_advance; [done|]. intros ->.
  destruct (G7 eq_refl) as [-> W7]. destruct (G6 eq_refl) as [-> W6]. destruct (G5 eq_refl) as [-> W5].
  destruct (G4 eq_refl) as [-> W4]. destruct (G3 eq_refl) as [-> W3]. destruct (G2 eq_refl) as [-> W2]. destruct (G1 eq_refl) as [-> W1].
  apply (opt_string_accepted _ 0) in W5 as (W5 & L5 & N5). destruct (G0 eq_refl) as (_ & _ & N0). simpl in N0. rewrite <- Z.ltb_lt in N5.
  assert (in_s 32 sy /\ in_s 32 ns /\ in_s 32 lo /\ in_s 32 lt /\ in_u 32 ic) as (? & ? & ? & ? & ?).
  { repeat match goal with W : if ?c then _ else _ |- _ => destruct c; [destruct W as [W _]|simpl in W; subst] end; split_and!; done. }
  unfold diag_accepted, diag_ok. cbn [diag_wf diag_limits diag_text diag_levels SymbolicId Diag_NamespaceUri Locale LocalizedText AdditionalInfo InnerStatusCode InnerDiagnosticInfo].
  destruct inn as [i|]; [destruct W7 as (Nd & Wi & Li & Oi)|]; unfold diag_ok in *; rewrite orb_true_iff; intuition lia.
Qed.

Definition diag_nests (d : SOPC_DiagnosticInfo) (lvl : Z) : Prop :=
  lvl + 1 <= max_nested_struct cfg /\ diag_ok d 0.

#[refine] #[export] Instance DiagnosticInfo_codec : Codec SOPC_DiagnosticInfo_Write SOPC_DiagnosticInfo_Read := {
  wire := diag_wire; nests := diag_nests; wf := diag_wf; limits := diag_limits; canon := diag_canon;
  inited d := d = diag_init; sane _ := True
}.
Proof.
  - intros d b lvl W I S. apply encodes_guard; [done| |unfold diag_nests; lia]. intros.
    eapply encodes_iff; [|by apply diag_write_spec]. unfold diag_nests. intuition lia.
  - intros d d0 b lvl rest W L -> I S E [N1 N2] HA. unfold SOPC_DiagnosticInfo_Read. level_ok.
    apply diag_read_spec with (rest := rest); try done. destruct N2 as (_ & _ & N). pose proof (diag_levels_nonneg d). lia.
  - intros d0 b lvl -> I S. unfold SOPC_DiagnosticInfo_Read. by_level. 
    destruct (diag_read_safe (Datatypes.S (Z.to_nat (max_nested_diag_info cfg))) b 0) as (st & d & m & -> & Hm & _ & G); [done|done|lia|].
    apply decodes_advance; [done|]. intros E. destruct (G E) as (? & ? & ?). unfold diag_nests. split_and!; done || lia.
  - done.
  - done.
Defined.

End TextCodecs.
