(* ===== verification/EncArray.v ===== *)
(** * Binary encoding of arrays

    Model of [SOPC_Write_Array], [SOPC_Read_Array] and of their variants for
    nested values ([src/Common/opcua_types/sopc_encoder.c]), and of
    [SOPC_Clear_Array] ([sopc_builtintypes.c]).  The element type is a parameter:
    the functions receive the encoder, the decoder and the initialisation and
    clear functions of the elements. *)

From Stdlib Require Import ZArith Lia.
From Stdlib Require Import Strings.Byte.
From stdpp Require Import prelude.
From S2P Require Import Prelude Common Buffer Codec EncScalar EncString.

Open Scope Z_scope.

(** ** Contracts at a level

    The part of the contract of a type that concerns one level of nesting: the
    elements of an array of variants are coded at a deeper level than the array. *)

Record contract (A : Type) := mkContract {
  c_wire : A -> block;
  c_nests : A -> Z -> Prop;
  c_wf : A -> Prop;
  c_limits : A -> Prop;
  c_canon : A -> A;
  c_init : A;
  c_sane : A -> Prop
}.
Arguments mkContract {A}.
Arguments c_wire {A}. Arguments c_nests {A}. Arguments c_wf {A}. Arguments c_limits {A}.
Arguments c_canon {A}. Arguments c_init {A}. Arguments c_sane {A}.

Definition c_accepted {A} (c : contract A) (lvl : Z) (v : A) : Prop :=
  c_wf c v /\ c_limits c v /\ c_nests c v lvl.

Record honours `{Allocator} {A} (c : contract A) (wr : encoder A) (rd : decoder A) (lvl : Z) : Prop := {
  h_write : forall v b, c_wf c v -> Buffer_Inv b -> small b ->
    encodes b (wr (Some v) (Some b) lvl) (c_wire c v) (c_nests c v lvl);
  h_read : forall v b rest, c_wf c v -> c_limits c v -> Buffer_Inv b -> small b ->
    upcoming b = c_wire c v ++ rest -> c_nests c v lvl -> (forall n, alloc_ok n = true) ->
    rd (Some (c_init c)) (Some b) lvl =
      Ret (SOPC_STATUS_OK, Some (c_canon c v), Some (advance b (zlen (c_wire c v))));
  h_safe : forall b, Buffer_Inv b -> small b ->
    decodes b (rd (Some (c_init c)) (Some b) lvl) (c_sane c) (c_accepted c lvl);
  h_sane : forall v, c_accepted c lvl v -> c_sane c v
}.

(** A property of all the elements of a list, by recursion. *)
Section All.
Context {A : Type} (P : A -> Prop).

Fixpoint All (l : list A) : Prop :=
  match l with
  | [] => True
  | x :: l => P x /\ All l
  end.

Lemma All_Forall l : All l <-> Forall P l.
Proof. induction l as [|x l IH]; simpl; [done|]. by rewrite Forall_cons, IH. Qed.

End All.

(** ** Clearing *)

Section Clearing.
Context {A : Type} (clearFct : A -> res A).

(** Clearing the first [n] elements. *)
Fixpoint clear_elts (n : nat) (elts : list A) {struct elts} : res (list A) :=
  match n, elts with
  | O, _ => Ret elts
  | S n, [] => Fault OutOfBounds
  | S n, x :: elts =>
      let* x := clearFct x in
      let* elts := clear_elts n elts in
      Ret (x :: elts)
  end.

(** Returns [*noOfElts] and [*eltsArray]. *)
Definition SOPC_Clear_Array (noOfElts : Z) (eltsArray : ptr (list A)) : res (Z * ptr (list A)) :=
  if 0 <=? noOfElts then
    let* _ := match eltsArray with
              | Some elts => clear_elts (Z.to_nat noOfElts) elts
              | NULL => Ret []
              end in
    Ret (0, NULL)
  else Ret (noOfElts, eltsArray).

Lemma clear_elts_ok (sane : A -> Prop) elts :
  (forall x, sane x -> exists x', clearFct x = Ret x') -> Forall sane elts ->
  exists elts', clear_elts (length elts) elts = Ret elts'.
Proof.
  intros Hs. induction 1 as [|x l Hx _ [l' IH]]; simpl; [eauto|].
  destruct (Hs x Hx) as [x' ->]. simpl. rewrite IH. simpl. eauto.
Qed.

Lemma clear_array_ok (sane : A -> Prop) n elts :
  (forall x, sane x -> exists x', clearFct x = Ret x') -> Forall sane elts -> n <= zlen elts ->
  exists r, SOPC_Clear_Array n (Some elts) = Ret r.
Proof.
  intros Hs F Hn. unfold SOPC_Clear_Array. destruct (0 <=? n); [|eauto].
  assert (exists elts', clear_elts (Z.to_nat n) elts = Ret elts') as [l' ->]; [|by eexists].
  assert (Z.to_nat n <= length elts)%nat as L by (unfold zlen in Hn; lia). clear Hn. revert L. generalize (Z.to_nat n).
  induction F as [|x l Hx _ IH]; intros [|m] L; simpl in *; try lia; [eauto..|].
  destruct (Hs x Hx) as [x' ->]. cbn [rbind]. destruct (IH m) as [l' ->]; [lia|]. by eexists.
Qed.

End Clearing.

(** ** Encoders and decoders *)

Section Arrays.
Context `{Allocator} `{Host} `{EndiannessCfg} {cfg : SOPC_Common_EncodingConstants}.
Context {A : Type}.

(** [for (idx = 0; SOPC_STATUS_OK == status && idx < n; idx++) { ... }] *)
Fixpoint write_elts (encodeFct : encoder A) (n : nat) (elts : list A) (buf : ptr SOPC_Buffer) (lvl : Z) : enc_result :=
  match n, elts with
  | O, _ => Ret (SOPC_STATUS_OK, buf)
  | S _, [] => Fault OutOfBounds
  | S n, x :: elts =>
      let_ok buf := encodeFct (Some x) buf lvl in
      write_elts encodeFct n elts buf lvl
  end.

Definition SOPC_Write_Array (msgBuf : ptr SOPC_Buffer) (noOfElts : Z) (eltsArray : ptr (list A))
    (encodeFct : encoder A) (nestedStructLevel : Z) : enc_result :=
  if is_null msgBuf || ((0 <? noOfElts) && is_null eltsArray)
  then Ret (SOPC_STATUS_INVALID_PARAMETERS, msgBuf)
  else if max_nested_struct cfg <=? nestedStructLevel
  then Ret (SOPC_STATUS_INVALID_STATE, msgBuf)
  else
    let nestedStructLevel := nestedStructLevel + 1 in
    let_ok msgBuf := SOPC_Int32_Write (Some noOfElts) msgBuf nestedStructLevel in
    if 0 <? noOfElts then
      let* elts := deref eltsArray in
      write_elts encodeFct (Z.to_nat noOfElts) elts msgBuf nestedStructLevel
    else Ret (SOPC_STATUS_OK, msgBuf).

Definition SOPC_Write_Array_WithNestedLevel (buf : ptr SOPC_Buffer) (noOfElts : Z) (eltsArray : ptr (list A))
    (encodeFct : encoder A) (nestedStructLevel : Z) : enc_result :=
  if is_null buf || ((0 <? noOfElts) && is_null eltsArray)
  then Ret (SOPC_STATUS_INVALID_PARAMETERS, buf)
  else if max_nested_struct cfg <=? nestedStructLevel
  then Ret (SOPC_STATUS_INVALID_STATE, buf)
  else
    let nestedStructLevel := nestedStructLevel + 1 in
    let_ok buf := SOPC_Int32_Write (Some noOfElts) buf nestedStructLevel in
    if 0 <? noOfElts then
      let* elts := deref eltsArray in
      write_elts encodeFct (Z.to_nat noOfElts) elts buf nestedStructLevel
    else Ret (SOPC_STATUS_OK, buf).

(** The elements are initialised and decoded until a failure.  Returns the
    status, the elements that were decoded with the status OK, and the buffer. *)
Fixpoint read_elts (decodeFct : decoder A) (init : A) (n : nat) (done : list A) (buf : ptr SOPC_Buffer) (lvl : Z)
    : res (SOPC_ReturnStatus * list A * ptr SOPC_Buffer) :=
  match n with
  | O => Ret (SOPC_STATUS_OK, done, buf)
  | S n =>
      let* (status, x, buf) := decodeFct (Some init) buf lvl in
      if is_ok status then
        let* x := deref x in
        read_elts decodeFct init n (done ++ [x]) buf lvl
      else Ret (status, done, buf)
  end.

(** What follows the allocation of the array: after a failure, the elements that
    were decoded are cleared and the array is freed. *)
Definition read_array_elts (decodeFct : decoder A) (init : A) (clearFct : A -> res A) (noOfElts : Z)
    (buf : ptr SOPC_Buffer) (lvl : Z) : res (SOPC_ReturnStatus * Z * ptr (list A) * ptr SOPC_Buffer) :=
  let* (status, elts, buf) := read_elts decodeFct init (Z.to_nat noOfElts) [] buf lvl in
  if is_ok status then Ret (status, noOfElts, Some elts, buf)
  else
    let* _ := clear_elts clearFct (length elts) elts in
    Ret (status, 0, NULL, buf).

(** Returns the status, [*noOfElts], [*eltsArray] and the buffer. *)
Definition SOPC_Read_Array (buf : ptr SOPC_Buffer) (noOfElts : Z) (eltsArray : ptr (list A)) (sizeOfElt : Z)
    (decodeFct : decoder A) (init : A) (clearFct : A -> res A) (nestedStructLevel : Z)
    : res (SOPC_ReturnStatus * Z * ptr (list A) * ptr SOPC_Buffer) :=
  if is_null buf || negb (is_null eltsArray)
  then Ret (SOPC_STATUS_INVALID_PARAMETERS, noOfElts, eltsArray, buf)
  else if max_nested_struct cfg <=? nestedStructLevel
  then Ret (SOPC_STATUS_INVALID_STATE, noOfElts, eltsArray, buf)
  else
    let nestedStructLevel := nestedStructLevel + 1 in
    let* (status, n, buf) := SOPC_Int32_Read (Some noOfElts) buf nestedStructLevel in
    let* noOfElts := deref n in
    if negb (is_ok status) then Ret (status, noOfElts, eltsArray, buf)
    else
      let noOfElts := if noOfElts <? 0 then 0 else noOfElts in
      if max_array_length cfg <? noOfElts then Ret (SOPC_STATUS_OUT_OF_MEMORY, noOfElts, eltsArray, buf)
      else if 0 <? noOfElts then
        if alloc_ok (noOfElts * sizeOfElt)
        then read_array_elts decodeFct init clearFct noOfElts buf nestedStructLevel
        else Ret (SOPC_STATUS_NOK, noOfElts, NULL, buf)
      else Ret (status, noOfElts, eltsArray, buf).

Definition SOPC_Read_Array_WithNestedLevel (buf : ptr SOPC_Buffer) (noOfElts : Z) (eltsArray : ptr (list A))
    (sizeOfElt : Z) (decodeFct : decoder A) (init : A) (clearFct : A -> res A) (nestedStructLevel : Z)
    : res (SOPC_ReturnStatus * Z * ptr (list A) * ptr SOPC_Buffer) :=
  if is_null buf || negb (is_null eltsArray)
  then Ret (SOPC_STATUS_INVALID_PARAMETERS, noOfElts, eltsArray, buf)
  else if max_nested_struct cfg <=? nestedStructLevel
  then Ret (SOPC_STATUS_INVALID_STATE, noOfElts, eltsArray, buf)
  else
    let nestedStructLevel := nestedStructLevel + 1 in
    let* (status, n, buf) := SOPC_Int32_Read (Some noOfElts) buf nestedStructLevel in
    let* noOfElts := deref n in
    let '(status, noOfElts) :=
      (if is_ok status then
         if (0 <=? noOfElts) && (noOfElts <=? max_array_length cfg) && (u64 (noOfElts * sizeOfElt) <=? SIZE_MAX)
         then (status, noOfElts)
         else if noOfElts <? 0 then (status, 0)
         else (SOPC_STATUS_OUT_OF_MEMORY, noOfElts)
       else (status, noOfElts)) in
    if is_ok status && (0 <? noOfElts) then
      if alloc_ok (sizeOfElt * noOfElts)
      then read_array_elts decodeFct init clearFct noOfElts buf nestedStructLevel
      else Ret (SOPC_STATUS_NOK, noOfElts, NULL, buf)
    else Ret (status, noOfElts, eltsArray, buf).

End Arrays.

(** ** Specification *)

(** The contract of a type with a codec, for memory initialised to [init]. *)
Definition of_codec `{Allocator} {cfg : SOPC_Common_EncodingConstants} {A} (wr : encoder A) {rd : decoder A}
    `{!Codec wr rd} (init : A) : contract A :=
  mkContract (wire wr) (nests wr) (wf wr) (limits wr) (canon wr) init (sane wr).

Lemma codec_honours `{Allocator} {cfg : SOPC_Common_EncodingConstants} {A} (wr : encoder A) {rd : decoder A}
    `{!Codec wr rd} (init : A) lvl :
  inited wr init -> honours (of_codec wr init) wr rd lvl.
Proof.
  intros Hi. split; simpl; [by intros; apply codec_write|intros|by intros; apply codec_safe|intros v (? & ? & ?); by eapply codec_sane].
  by apply (codec_read v init b lvl rest).
Qed.

Section ArraySpecs.
Context `{Allocator} `{Host} `{EndiannessCfg} {cfg : SOPC_Common_EncodingConstants}.
Context `{!EndiannessDetected}.
Context {A : Type} (c : contract A) (wr : encoder A) (rd : decoder A) (clearFct : A -> res A).
Context (clear_ok : forall v, c_sane c v -> exists v', clearFct v = Ret v').

Definition elts_wire (l : list A) : block := flat_map (c_wire c) l.
Definition elts_nest (lvl : Z) (l : list A) : Prop := Forall (fun v => c_nests c v lvl) l.

(** The array pointer that goes with a list of elements: it is not used when the
    list is empty. *)
Definition array_of (arr : ptr (list A)) (l : list A) : Prop := l = [] \/ arr = Some l.

Lemma write_elts_spec lvl l : honours c wr rd lvl -> Forall (c_wf c) l -> forall b, Buffer_Inv b -> small b ->
  encodes b (write_elts wr (length l) l (Some b) lvl) (elts_wire l) (elts_nest lvl l).
Proof.
  intros Hh. induction 1 as [|x l Wx _ IH]; intros b I S; simpl.
  - apply encodes_skip; [done|constructor].
  - eapply encodes_seq; [done|done|by apply (h_write _ _ _ _ Hh)|intros; by apply IH|done|].
    unfold elts_nest. by rewrite Forall_cons.
Qed.

Lemma write_array_spec lvl l arr b :
  honours c wr rd (lvl + 1) -> Forall (c_wf c) l -> array_of arr l -> in_s 32 (zlen l) -> Buffer_Inv b -> small b ->
  encodes b (SOPC_Write_Array (Some b) (zlen l) arr wr lvl) (le_bytes 4 (zlen l) ++ elts_wire l)
    (lvl + 2 <= max_nested_struct cfg /\ elts_nest (lvl + 1) l).
Proof.
  intros Hh W Ha R I S. unfold SOPC_Write_Array.
  assert ((0 <? zlen l) && is_null arr = false) as ->.
  { destruct Ha as [-> | ->]; [done|]. apply andb_false_r. }
  cbn [is_null orb]. apply encodes_guard; [done| |intros [? _]; lia]. intros _. cbv zeta.
  eapply (encodes_seq _ _ _ _ _ _ _ (lvl + 1 + 1 <= max_nested_struct cfg) (elts_nest (lvl + 1) l)); [done|done| | |done|].
  - by apply (encodes_sub SOPC_Int32_Write).
  - intros b1 I1 S1. destruct Ha as [-> | ->]; [apply encodes_skip; [done|constructor]|].
    destruct l as [|x l]; [apply encodes_skip; [done|constructor]|].
    replace (0 <? zlen (x :: l)) with true by (rewrite zlen_cons; pose proof (zlen_nonneg l); lia).
    simpl deref. rewrite rbind_ret. unfold zlen. rewrite Nat2Z.id. by apply write_elts_spec.
  - intuition lia.
Qed.

Lemma write_array_nested_eq buf n (arr : ptr (list A)) lvl :
  SOPC_Write_Array_WithNestedLevel buf n arr wr lvl = SOPC_Write_Array buf n arr wr lvl.
Proof. done. Qed.

Lemma read_elts_spec lvl l : honours c wr rd lvl -> Forall (c_wf c) l -> Forall (c_limits c) l -> elts_nest lvl l ->
  (forall n, alloc_ok n = true) -> forall dn b rest, Buffer_Inv b -> small b -> upcoming b = elts_wire l ++ rest ->
  read_elts rd (c_init c) (length l) dn (Some b) lvl =
  Ret (SOPC_STATUS_OK, dn ++ map (c_canon c) l, Some (advance b (zlen (elts_wire l)))).
Proof.
  intros Hh W L N HA. revert L N. induction W as [|x l Wx _ IH]; intros L N dn b rest I S U; simpl.
  - by rewrite app_nil_r, advance_0.
  - apply Forall_cons in L as [Lx L]. apply Forall_cons in N as [Nx N]. simpl in U. rewrite <- app_assoc in U.
    rewrite (h_read _ _ _ _ Hh x b (elts_wire l ++ rest)) by done. cbn [rbind is_ok deref].
    destruct (upcoming_advance_app b _ _ I U) as [I1 U1].
    rewrite (IH L N _ _ rest I1 S U1). rewrite advance_advance, zlen_app, <- app_assoc. done.
Qed.

Lemma read_elts_safe lvl n : honours c wr rd lvl -> forall dn b, Forall (c_accepted c lvl) dn -> Buffer_Inv b -> small b ->
  exists st l m, read_elts rd (c_init c) n dn (Some b) lvl = Ret (st, l, Some (advance b m)) /\
    0 <= m <= zlen (upcoming b) /\ Forall (c_accepted c lvl) l /\ (st = SOPC_STATUS_OK -> length l = (length dn + n)%nat).
Proof.
  intros Hh. induction n as [|n IH]; intros dn b F I S; simpl.
  - exists SOPC_STATUS_OK, dn, 0. rewrite advance_0. pose proof (zlen_nonneg (upcoming b)). split_and!; try done; lia.
  - destruct (h_safe _ _ _ _ Hh b I S) as (st & v & m & -> & Hm & _ & G). cbn [rbind]. destruct (is_ok st) eqn:E.
    + apply is_ok_true in E. subst. cbn [deref rbind].
      destruct (IH (dn ++ [v]) (advance b m)) as (st & l & k & -> & Hk & Fl & Ll); [|by apply Buffer_Inv_advance|done|].
      { apply Forall_app. split; [done|]. constructor; [by apply G|done]. }
      rewrite upcoming_advance, zlen_drop in Hk by done || lia.
      exists st, l, (m + k). rewrite advance_advance. split_and!; try done; try lia.
      intros Es. rewrite (Ll Es), length_app. simpl. lia.
    + exists st, dn, m. split_and!; try done; try lia. by intros ->.
Qed.

Definition array_ptr (l : list A) : ptr (list A) := match l with [] => NULL | _ => Some l end.

Lemma read_array_spec lvl l size b rest n0 :
  honours c wr rd (lvl + 1) -> Forall (c_wf c) l -> Forall (c_limits c) l -> elts_nest (lvl + 1) l ->
  in_s 32 (zlen l) -> (zlen l <= 0 \/ zlen l <= max_array_length cfg) -> 0 <= max_array_length cfg ->
  Buffer_Inv b -> small b -> upcoming b = (le_bytes 4 (zlen l) ++ elts_wire l) ++ rest ->
  lvl + 2 <= max_nested_struct cfg -> (forall n, alloc_ok n = true) ->
  SOPC_Read_Array (Some b) n0 NULL size rd (c_init c) clearFct lvl =
  Ret (SOPC_STATUS_OK, zlen l, array_ptr (map (c_canon c) l), Some (advance b (zlen (le_bytes 4 (zlen l) ++ elts_wire l)))).
Proof.
  intros Hh W L N R M M0 I S U D HA. unfold SOPC_Read_Array. cbn [is_null negb orb]. level_ok. cbv zeta.
  rewrite <- app_assoc in U. rewrite (read_first SOPC_Int32_Write (zlen l) n0 b (lvl + 1) _) with (6 := U) by (done || simpl; lia).
  cbn [rbind deref is_ok negb canon wire Int32_codec]. pose proof (zlen_nonneg l).
  replace (zlen l <? 0) with false by lia. replace (max_array_length cfg <? zlen l) with false by lia.
  destruct l as [|x l]; [done|].
  replace (0 <? zlen (x :: l)) with true by (rewrite zlen_cons; pose proof (zlen_nonneg l); lia). rewrite HA.
  unfold read_array_elts. destruct (upcoming_advance_app b _ _ I U) as [I1 U1].
  unfold zlen at 1. rewrite Nat2Z.id. rewrite (read_elts_spec (lvl + 1) (x :: l) Hh W L N HA [] _ rest I1 S U1).
  cbn [rbind is_ok app]. by rewrite advance_advance, <- zlen_app.
Qed.

(** On any input. *)
Definition array_result (lvl : Z) (b : SOPC_Buffer) (r : res (SOPC_ReturnStatus * Z * ptr (list A) * ptr SOPC_Buffer)) : Prop :=
  exists st n arr m, r = Ret (st, n, arr, Some (advance b m)) /\ 0 <= m <= zlen (upcoming b) /\
    (st = SOPC_STATUS_OK -> exists l, arr = array_ptr l /\ n = zlen l /\ in_s 32 (zlen l) /\
       (zlen l <= 0 \/ zlen l <= max_array_length cfg) /\ 0 <= max_array_length cfg /\
       Forall (c_accepted c (lvl + 1)) l /\ lvl + 2 <= max_nested_struct cfg) /\
    (st <> SOPC_STATUS_OK -> arr = NULL).

Lemma array_result_fail lvl b st n m :
  0 <= m <= zlen (upcoming b) -> is_ok st = false -> array_result lvl b (Ret (st, n, NULL, Some (advance b m))).
Proof. intros Hm E. exists st, n, NULL, m. split_and!; try done; try lia. by intros ->. Qed.

Lemma read_array_elts_safe lvl n b k :
  honours c wr rd (lvl + 1) -> Buffer_Inv b -> small b -> 0 <= k <= zlen (upcoming b) ->
  0 < n -> n <= max_array_length cfg -> in_s 32 n -> lvl + 2 <= max_nested_struct cfg ->
  array_result lvl b (read_array_elts rd (c_init c) clearFct n (Some (advance b k)) (lvl + 1)).
Proof.
  intros Hh I S Hk Hn Hn' R D. unfold read_array_elts.
  destruct (read_elts_safe (lvl + 1) (Z.to_nat n) Hh [] (advance b k)) as (st & l & m & -> & Hm & F & L);
    [constructor|by apply Buffer_Inv_advance|done|]. rewrite upcoming_advance, zlen_drop in Hm by done || lia.
  rewrite advance_advance. cbn [rbind]. destruct (is_ok st) eqn:E.
  - apply is_ok_true in E. subst. specialize (L eq_refl). simpl in L. assert (zlen l = n) as Lz by (unfold zlen; lia).
    eexists _, n, _, (k + m). split; [done|]. split; [lia|]. split; [|done]. intros _. exists l.
    rewrite Lz. split_and!; try done; try lia. destruct l; [|done]. rewrite zlen_nil in Lz. lia.
  - destruct (clear_elts_ok clearFct (c_sane c) l) as [l' ->]; [done| |].
    { eapply Forall_impl; [exact F|]. apply (h_sane _ _ _ _ Hh). }
    apply array_result_fail; [lia|done].
Qed.

Lemma read_array_safe lvl b size n0 :
  honours c wr rd (lvl + 1) -> 0 <= max_array_length cfg -> Buffer_Inv b -> small b ->
  array_result lvl b (SOPC_Read_Array (Some b) n0 NULL size rd (c_init c) clearFct lvl).
Proof.
  intros Hh M0 I S. unfold SOPC_Read_Array. cbn [is_null negb orb]. pose proof (zlen_nonneg (upcoming b)).
  destruct (Z.leb_spec (max_nested_struct cfg) lvl).
  { rewrite <- (advance_0 b) at 2. apply array_result_fail; [lia|done]. }
  cbv zeta. rewrite <- (advance_0 b) at 2.
  destruct (safe_next SOPC_Int32_Write n0 b 0 (lvl + 1)) as (st & n & k & -> & Hk & _ & G); [done..|lia|].
  cbn [rbind deref]. destruct (is_ok st) eqn:E; cbn [negb]; [|by apply array_result_fail].
  apply is_ok_true in E. subst. destruct (G eq_refl) as (R & _ & D). simpl in R, D. unfold in_s in R.
  set (n' := if n <? 0 then 0 else n). assert (0 <= n' < 2 ^ 31) as R' by (unfold n'; destruct (Z.ltb_spec n 0); lia).
  destruct (Z.ltb_spec (max_array_length cfg) n'); [by apply array_result_fail|].
  destruct (Z.ltb_spec 0 n').
  - destruct (alloc_ok (n' * size)); [|by apply array_result_fail].
    apply read_array_elts_safe; try done; [unfold in_s; lia|lia].
  - exists SOPC_STATUS_OK, n', NULL, k. split; [done|]. split; [done|]. split; [|done].
    intros _. exists []. unfold in_s. rewrite zlen_nil. split_and!; try done; lia.
Qed.

(** The version for nested values does the same. *)
Lemma read_array_nested_eq b size n0 lvl :
  0 <= size < 2 ^ 32 -> Buffer_Inv b -> small b -> 0 <= max_array_length cfg ->
  SOPC_Read_Array_WithNestedLevel (Some b) n0 NULL size rd (c_init c) clearFct lvl =
  SOPC_Read_Array (Some b) n0 NULL size rd (c_init c) clearFct lvl.
Proof.
  intros Hs I S M. unfold SOPC_Read_Array_WithNestedLevel, SOPC_Read_Array. cbn [is_null negb orb].
  destruct (max_nested_struct cfg <=? lvl); [done|]. cbv zeta.
  destruct (codec_safe (wr := SOPC_Int32_Write) n0 b (lvl + 1)) as (st & n & k & -> & _ & _ & _); [done..|].
  cbn [rbind deref]. destruct (is_ok st) eqn:E; cbn [negb andb]; [|by rewrite E].
  apply is_ok_true in E. subst.
  assert ((u64 (n * size) <=? SIZE_MAX) = true) as -> by (unfold u64, SIZE_MAX; pose proof (Z.mod_pos_bound (n * size) (2 ^ 64)); lia).
  rewrite andb_true_r.
  destruct (Z.ltb_spec n 0); [replace (0 <=? n) with false by lia|replace (0 <=? n) with true by lia]; cbn [andb].
  - by replace (max_array_length cfg <? 0) with false by lia.
  - destruct (Z.leb_spec n (max_array_length cfg)).
    + replace (max_array_length cfg <? n) with false by lia. cbn [is_ok andb]. by rewrite (Z.mul_comm size).
    + by replace (max_array_length cfg <? n) with true by lia.
Qed.

End ArraySpecs.
