(* ===== verification/EncExtObj.v ===== *)
(** * Binary encoding of extension objects

    Model of [SOPC_ExtensionObject_Write] and [SOPC_ExtensionObject_Read]
    ([src/Common/opcua_types/sopc_encoder.c]), with the type of
    [sopc_builtintypes.h] and the functions of [sopc_builtintypes.c] that they
    use.  The encodeable types are reached through the function pointers of their
    descriptors: they are a parameter of the model. *)

From Stdlib Require Import ZArith Lia.
From Stdlib Require Import Strings.Byte.
From stdpp Require Import prelude.
From S2P Require Import Prelude Common Buffer Codec EncScalar EncString Strings EncNodeId EncArray.

Open Scope Z_scope.

(** ** Encodeable types *)

(** The descriptors ([SOPC_EncodeableType]), the values they describe, the
    function pointers of a descriptor and the search of a descriptor by the
    identifier of a type or of its binary encoding. *)
Class EncodeableTypes := {
  EncodeableType : Type;
  Object : Type;
  BinaryEncodingTypeId : EncodeableType -> Z;
  Type_NamespaceUri : EncodeableType -> ptr block;
  AllocationSize : EncodeableType -> Z;
  Object_Initialize : EncodeableType -> Object;
  Object_Clear : EncodeableType -> Object -> res Object;
  Encode : EncodeableType -> encoder Object;
  Decode : EncodeableType -> decoder Object;
  SOPC_EncodeableType_GetEncodeableType : Z -> ptr EncodeableType
}.

(** ** Types *)

Inductive SOPC_ExtObjectBodyEncoding :=
| SOPC_ExtObjBodyEncoding_None
| SOPC_ExtObjBodyEncoding_ByteString
| SOPC_ExtObjBodyEncoding_XMLElement
| SOPC_ExtObjBodyEncoding_Object.

Definition encoding_byte (e : SOPC_ExtObjectBodyEncoding) : Z :=
  match e with
  | SOPC_ExtObjBodyEncoding_None => 0
  | SOPC_ExtObjBodyEncoding_ByteString => 1
  | SOPC_ExtObjBodyEncoding_XMLElement => 2
  | SOPC_ExtObjBodyEncoding_Object => 3
  end.

Section Types.
Context `{EncodeableTypes}.

(** The union [Body]: the member that was written last, or zeroed memory. *)
Inductive ExtObjectBody :=
| BodyZero
| BodyBstring (s : SOPC_ByteString)
| BodyXml (s : SOPC_XmlElement)
| BodyObject (Value : ptr Object) (ObjType : ptr EncodeableType).

Record SOPC_ExtensionObject := mkExtensionObject {
  TypeId : SOPC_ExpandedNodeId;
  Encoding : SOPC_ExtObjectBodyEncoding;
  Body : ExtObjectBody;
  Ext_Length : Z
}.

Definition body_Bstring (b : ExtObjectBody) : res SOPC_ByteString :=
  match b with BodyZero => Ret (mkString 0 false NULL) | BodyBstring s => Ret s | _ => Fault UnionPunning end.
Definition body_Xml (b : ExtObjectBody) : res SOPC_XmlElement :=
  match b with BodyZero => Ret (mkString 0 false NULL) | BodyXml s => Ret s | _ => Fault UnionPunning end.
Definition body_Object (b : ExtObjectBody) : res (ptr Object * ptr EncodeableType) :=
  match b with BodyZero => Ret (NULL, NULL) | BodyObject v t => Ret (v, t) | _ => Fault UnionPunning end.

Definition extobj_init : SOPC_ExtensionObject :=
  mkExtensionObject expnodeid_init SOPC_ExtObjBodyEncoding_None BodyZero (-1).

Definition SOPC_ExtensionObject_Initialize (extObj : ptr SOPC_ExtensionObject) : ptr SOPC_ExtensionObject :=
  option_map (fun _ => extobj_init) extObj.

Definition SOPC_ExtensionObject_Clear (extObj : ptr SOPC_ExtensionObject) : res (ptr SOPC_ExtensionObject) :=
  match extObj with
  | NULL => Ret NULL
  | Some e =>
      let* typeId := SOPC_ExpandedNodeId_Clear (Some (TypeId e)) in
      let* typeId := deref typeId in
      let* body :=
        match Encoding e with
        | SOPC_ExtObjBodyEncoding_None => Ret (Body e)
        | SOPC_ExtObjBodyEncoding_ByteString =>
            let* s := body_Bstring (Body e) in
            let* s := deref (SOPC_String_Clear (Some s)) in
            Ret (BodyBstring s)
        | SOPC_ExtObjBodyEncoding_XMLElement =>
            let* s := body_Xml (Body e) in
            let* s := deref (SOPC_String_Clear (Some s)) in
            Ret (BodyXml s)
        | SOPC_ExtObjBodyEncoding_Object =>
            let* (value, objType) := body_Object (Body e) in
            match value with
            | NULL => Ret (Body e)
            | Some o =>
                let* t := deref objType in
                let* _ := Object_Clear t o in
                Ret (BodyObject NULL objType)
            end
        end in
      Ret (Some (mkExtensionObject typeId (Encoding e) body (-1)))
  end.

End Types.

(** ** Encoder and decoder *)

Section ExtensionObjects.
Context `{Allocator} `{Host} `{EndiannessCfg} {cfg : SOPC_Common_EncodingConstants}.
Context `{EncodeableTypes}.

(** The object: room for the length, the encoding of the object, then the length
    in the room that was left.  The last two statuses are ignored. *)
Definition write_object (value : ptr Object) (objType : EncodeableType) (buf : ptr SOPC_Buffer)
    (nestedStructLevel : Z) : enc_result :=
  let* b := deref buf in
  let lengthPos := position b in
  let_ok buf := SOPC_Int32_Write (Some (-1)) buf nestedStructLevel in
  let_ok buf := Encode objType value buf nestedStructLevel in
  let* b := deref buf in
  let curPos := position b in
  if u32 (curPos - u32 (lengthPos + 4)) <=? INT32_MAX then
    let length := u32 (curPos - u32 (lengthPos + 4)) in
    let '(_, buf) := SOPC_Buffer_SetPosition buf lengthPos in
    let* (_, buf) := SOPC_Int32_Write (Some length) buf nestedStructLevel in
    let '(_, buf) := SOPC_Buffer_SetPosition buf curPos in
    Ret (SOPC_STATUS_OK, buf)
  else Ret (SOPC_STATUS_OK, buf).

Definition SOPC_ExtensionObject_Write : encoder SOPC_ExtensionObject := fun extObj buf nestedStructLevel =>
  match extObj with
  | NULL => Ret (SOPC_STATUS_INVALID_PARAMETERS, buf)
  | Some e =>
      if max_nested_struct cfg <=? nestedStructLevel then Ret (SOPC_STATUS_INVALID_STATE, buf)
      else
        let nestedStructLevel := nestedStructLevel + 1 in
        let nodeId := NodeId (TypeId e) in
        match Encoding e with
        | SOPC_ExtObjBodyEncoding_Object =>
            let encodingByte := encoding_byte SOPC_ExtObjBodyEncoding_ByteString in
            let* (value, objType) := body_Object (Body e) in
            match objType with
            | NULL => Ret (SOPC_STATUS_INVALID_PARAMETERS, buf)
            | Some t =>
                let nodeId := mkNodeId SOPC_IdentifierType_Numeric OPCUA_NAMESPACE_INDEX
                                (DataNumeric (BinaryEncodingTypeId t)) in
                let_ok buf := SOPC_NodeId_Write (Some nodeId) buf nestedStructLevel in
                let_ok buf := SOPC_Byte_Write (Some encodingByte) buf nestedStructLevel in
                write_object value t buf nestedStructLevel
            end
        | encoding =>
            let encodingByte := encoding_byte encoding in
            let_ok buf := SOPC_NodeId_Write (Some nodeId) buf nestedStructLevel in
            let_ok buf := SOPC_Byte_Write (Some encodingByte) buf nestedStructLevel in
            match encoding with
            | SOPC_ExtObjBodyEncoding_ByteString =>
                let* s := body_Bstring (Body e) in
                SOPC_ByteString_Write (Some s) buf nestedStructLevel
            | SOPC_ExtObjBodyEncoding_XMLElement =>
                let* s := body_Xml (Body e) in
                SOPC_XmlElement_Write (Some s) buf nestedStructLevel
            | _ => Ret (SOPC_STATUS_OK, buf)
            end
        end
  end.

(** The type of the object that an encoding byte of a byte string announces.
    Returns the status, the encoding byte, the body and the namespace URI. *)
Definition read_body_type (n : SOPC_NodeId) (encodingByte : Z) (body : ExtObjectBody) (uri : SOPC_String)
    : res (SOPC_ReturnStatus * Z * ExtObjectBody * SOPC_String) :=
  if encodingByte =? encoding_byte SOPC_ExtObjBodyEncoding_ByteString then
    match IdentifierType n with
    | SOPC_IdentifierType_Numeric =>
        if Namespace n =? OPCUA_NAMESPACE_INDEX then
          let* numeric := data_Numeric (NodeIdData_ n) in
          match SOPC_EncodeableType_GetEncodeableType numeric with
          | NULL => Ret (SOPC_STATUS_ENCODING_ERROR, encodingByte, body, uri)
          | Some encType =>
              let* (value, _) := body_Object body in
              let* (_, uri') := SOPC_String_AttachFromCstring (Some uri) (Type_NamespaceUri encType) in
              let* uri := deref uri' in
              Ret (SOPC_STATUS_OK, encoding_byte SOPC_ExtObjBodyEncoding_Object, BodyObject value (Some encType), uri)
          end
        else Ret (SOPC_STATUS_ENCODING_ERROR, encodingByte, body, uri)
    | _ => Ret (SOPC_STATUS_ENCODING_ERROR, encodingByte, body, uri)
    end
  else if encodingByte =? encoding_byte SOPC_ExtObjBodyEncoding_Object
  then Ret (SOPC_STATUS_ENCODING_ERROR, encodingByte, body, uri)
  else Ret (SOPC_STATUS_OK, encodingByte, body, uri).

(** The body.  Returns the status, the encoding, the body, the length and the
    buffer. *)
Definition read_body (encodingByte : Z) (encoding : SOPC_ExtObjectBodyEncoding) (body : ExtObjectBody) (length : Z)
    (buf : ptr SOPC_Buffer) (nestedStructLevel : Z)
    : res (SOPC_ReturnStatus * SOPC_ExtObjectBodyEncoding * ExtObjectBody * Z * ptr SOPC_Buffer) :=
  if encodingByte =? encoding_byte SOPC_ExtObjBodyEncoding_None
  then Ret (SOPC_STATUS_OK, SOPC_ExtObjBodyEncoding_None, body, -1, buf)
  else if encodingByte =? encoding_byte SOPC_ExtObjBodyEncoding_XMLElement then
    let* s := body_Xml body in
    let* (status, s, buf) := SOPC_XmlElement_Read (Some s) buf nestedStructLevel in
    let* s := deref s in
    Ret (status, if is_ok status then SOPC_ExtObjBodyEncoding_XMLElement else encoding, BodyXml s, length, buf)
  else if encodingByte =? encoding_byte SOPC_ExtObjBodyEncoding_Object then
    let* (value, objType) := body_Object body in
    let* (status, len, buf) := SOPC_Int32_Read (Some length) buf nestedStructLevel in
    let* length := deref len in
    if is_ok status then
      let* t := deref objType in
      if alloc_ok (AllocationSize t) then
        let* (status, o, buf) := Decode t (Some (Object_Initialize t)) buf nestedStructLevel in
        if is_ok status
        then Ret (status, SOPC_ExtObjBodyEncoding_Object, BodyObject o objType, length, buf)
        else Ret (status, encoding, BodyObject NULL objType, length, buf)
      else Ret (SOPC_STATUS_OUT_OF_MEMORY, encoding, BodyObject NULL objType, length, buf)
    else Ret (status, encoding, body, length, buf)
  else Ret (SOPC_STATUS_ENCODING_ERROR, encoding, body, length, buf).

Definition SOPC_ExtensionObject_Read : decoder SOPC_ExtensionObject := fun extObj buf nestedStructLevel =>
  match extObj with
  | NULL => Ret (SOPC_STATUS_INVALID_PARAMETERS, extObj, buf)
  | Some e =>
      if max_nested_struct cfg <=? nestedStructLevel
      then Ret (SOPC_STATUS_INVALID_STATE, extObj, buf)
      else
        let nestedStructLevel := nestedStructLevel + 1 in
        let* (status, n, buf) := SOPC_NodeId_Read (Some (NodeId (TypeId e))) buf nestedStructLevel in
        let* n := deref n in
        let* (status, eb, buf) := read_if status SOPC_Byte_Read 0 buf nestedStructLevel in
        let* encodingByte := deref eb in
        let* (status, encodingByte, body, uri) :=
          (if is_ok status then read_body_type n encodingByte (Body e) (NamespaceUri (TypeId e))
           else Ret (status, encodingByte, Body e, NamespaceUri (TypeId e))) in
        let* (status, encoding, body, length, buf) :=
          (if is_ok status then read_body encodingByte (Encoding e) body (Ext_Length e) buf nestedStructLevel
           else Ret (status, Encoding e, body, Ext_Length e, buf)) in
        let* n := (if is_ok status then Ret n
                   else let* n := SOPC_NodeId_Clear (Some n) in deref n) in
        Ret (status, Some (mkExtensionObject (mkExpandedNodeId n uri (ServerIndex (TypeId e))) encoding body length), buf)
  end.

End ExtensionObjects.

#[export] Hint Opaque SOPC_ExtensionObject_Write SOPC_ExtensionObject_Read : typeclass_instances.

(** ** What the encodeable types promise *)

Class EncodeableLaws `{Allocator} `{EncodeableTypes} := {
  obj_contract : EncodeableType -> contract Object;
  obj_honours : forall t lvl, honours (obj_contract t) (Encode t) (Decode t) lvl;
  obj_init : forall t, c_init (obj_contract t) = Object_Initialize t;
  obj_clear : forall t o, c_sane (obj_contract t) o -> exists o', Object_Clear t o = Ret o';
  obj_id_range : forall t, in_u 32 (BinaryEncodingTypeId t);
  (* a descriptor is found by the identifier of its binary encoding *)
  obj_lookup : forall id t, SOPC_EncodeableType_GetEncodeableType id = Some t ->
    SOPC_EncodeableType_GetEncodeableType (BinaryEncodingTypeId t) = Some t;
  (* the URI is NULL or a character string that ends *)
  obj_uri : forall t s, Type_NamespaceUri t = Some s -> exists n, strlen s = Ret n
}.

(** ** Specification *)

Section ExtObjSpecs.
Context `{Allocator} `{Host} `{EndiannessCfg} {cfg : SOPC_Common_EncodingConstants}.
Context `{!EndiannessDetected} `{EncodeableTypes} `{!EncodeableLaws}.

(** The content that the encoding announces. *)
Inductive ext_view :=
| ViewNone
| ViewBstring (s : SOPC_ByteString)
| ViewXml (s : SOPC_XmlElement)
| ViewObject (o : Object) (t : EncodeableType)
| ViewNothing.

Definition view (e : SOPC_ExtensionObject) : ext_view :=
  match Encoding e with
  | SOPC_ExtObjBodyEncoding_None => ViewNone
  | SOPC_ExtObjBodyEncoding_ByteString =>
      match body_Bstring (Body e) with Ret s => ViewBstring s | _ => ViewNothing end
  | SOPC_ExtObjBodyEncoding_XMLElement =>
      match body_Xml (Body e) with Ret s => ViewXml s | _ => ViewNothing end
  | SOPC_ExtObjBodyEncoding_Object =>
      match Body e with BodyObject (Some o) (Some t) => ViewObject o t | _ => ViewNothing end
  end.

Definition numeric_id (id : Z) : SOPC_NodeId :=
  mkNodeId SOPC_IdentifierType_Numeric OPCUA_NAMESPACE_INDEX (DataNumeric id).

(** The identifier that is written: that of the binary encoding of an object. *)
Definition ext_id (e : SOPC_ExtensionObject) : SOPC_NodeId :=
  match view e with ViewObject _ t => numeric_id (BinaryEncodingTypeId t) | _ => NodeId (TypeId e) end.

Definition ext_wf (e : SOPC_ExtensionObject) : Prop :=
  match view e with
  | ViewNone => nodeid_wf (NodeId (TypeId e))
  | ViewBstring s | ViewXml s => nodeid_wf (NodeId (TypeId e)) /\ string_wf s
  | ViewObject o t => nodeid_sane (NodeId (TypeId e)) /\ c_wf (obj_contract t) o
  | ViewNothing => False
  end.

Definition ext_wire (e : SOPC_ExtensionObject) : block :=
  nodeid_wire (ext_id e) ++
  match view e with
  | ViewNone => [x00]
  | ViewBstring s => [x01] ++ string_wire s
  | ViewXml s => [x02] ++ string_wire s
  | ViewObject o t => let w := c_wire (obj_contract t) o in [x01] ++ le_bytes 4 (zlen w) ++ w
  | ViewNothing => []
  end.

Definition ext_nests (e : SOPC_ExtensionObject) (lvl : Z) : Prop :=
  lvl + 1 + nodeid_depth (ext_id e) <= max_nested_struct cfg /\
  match view e with
  | ViewNone | ViewNothing => True
  | ViewBstring _ | ViewXml _ => lvl + 3 <= max_nested_struct cfg
  | ViewObject o t => c_nests (obj_contract t) o (lvl + 1)
  end.

(** The extension objects that the decoder reads back.  It takes the encoding of a byte
    string for that of an object of a known type: a body that was written as a byte string
    is never recovered, so such an extension object is not readable. *)
Definition ext_readable (e : SOPC_ExtensionObject) : Prop :=
  match view e with
  | ViewNone => nodeid_limits (NodeId (TypeId e))
  | ViewXml s => nodeid_limits (NodeId (TypeId e)) /\ string_limits s
  | ViewObject o t =>
      c_limits (obj_contract t) o /\ SOPC_EncodeableType_GetEncodeableType (BinaryEncodingTypeId t) = Some t
  | ViewBstring _ | ViewNothing => False
  end.

(** The namespace URI of a decoded object. *)
Definition type_uri (t : EncodeableType) : SOPC_String :=
  match SOPC_String_AttachFromCstring (Some string_init) (Type_NamespaceUri t) with
  | Ret (_, Some s) => s
  | _ => string_init
  end.

Definition ext_canon (e : SOPC_ExtensionObject) : SOPC_ExtensionObject :=
  match view e with
  | ViewXml s =>
      mkExtensionObject (mkExpandedNodeId (nodeid_canon (NodeId (TypeId e))) string_init 0)
        SOPC_ExtObjBodyEncoding_XMLElement (BodyXml (string_canon [] s)) (-1)
  | ViewObject o t =>
      mkExtensionObject (mkExpandedNodeId (numeric_id (BinaryEncodingTypeId t)) (type_uri t) 0)
        SOPC_ExtObjBodyEncoding_Object (BodyObject (Some (c_canon (obj_contract t) o)) (Some t))
        (zlen (c_wire (obj_contract t) o))
  | _ =>
      mkExtensionObject (mkExpandedNodeId (nodeid_canon (NodeId (TypeId e))) string_init 0)
        SOPC_ExtObjBodyEncoding_None BodyZero (-1)
  end.

Definition ext_sane (e : SOPC_ExtensionObject) : Prop :=
  exists e', SOPC_ExtensionObject_Clear (Some e) = Ret (Some e').

Lemma write_object_spec o t b lvl :
  let w := c_wire (obj_contract t) o in
  c_wf (obj_contract t) o -> Buffer_Inv b -> small b ->
  encodes b (write_object (Some o) t (Some b) lvl) (le_bytes 4 (zlen w) ++ w)
    (lvl + 1 <= max_nested_struct cfg /\ c_nests (obj_contract t) o lvl).
Proof.
  intros w W I S. unfold write_object. cbn [deref rbind].
  destruct (codec_write (wr := SOPC_Int32_Write) (-1) b lvl) as (st1 & b1 & -> & [w1 W1'] & W1 & F1); [done..|].
  assert (forall w', fits b (le_bytes 4 w' ++ w) -> fits b (le_bytes 4 (-1) ++ w)) as Hf by (unfold fits; intros ?; by rewrite !zlen_app).
  unfold and_then. cbn [rbind]. destruct (is_ok st1) eqn:E1.
  2:{ exists st1, b1. split_and!; [done|eauto|by intros ->|]. intros [N _] F. rewrite F1 in E1; [done|done|].
      eapply fits_app_l. by eapply Hf. }
  apply is_ok_true in E1. subst. destruct (W1 eq_refl) as [Wr1 D].
  pose proof (small_wrote _ _ _ S Wr1) as S1. pose proof (wr_inv _ _ _ Wr1) as I1.
  destruct (h_write _ _ _ _ (obj_honours t lvl) o b1 W I1 S1) as (st2 & b2 & -> & [w2 W2'] & W2 & F2). cbn [rbind].
  destruct (is_ok st2) eqn:E2.
  2:{ exists st2, b2. split_and!; [done|eexists; by eapply wrote_trans|by intros ->|].
      intros [_ N] F. rewrite F2 in E2; [done|done|]. eapply fits_app; [exact Wr1|by eapply Hf]. }
  apply is_ok_true in E2. subst. destruct (W2 eq_refl) as [Wr2 N].
  apply (wrote_trans _ _ _ _ _ I Wr1) in Wr2. clear Wr1 W1 W1' F1 W2 W2' F2. cbn [deref rbind].
  (* the length is known: it is written at the position of the length *)
  pose proof (wr_position _ _ _ Wr2) as P2. rewrite zlen_app in P2. change (zlen (wire SOPC_Int32_Write (-1))) with 4 in P2.
  pose proof (wr_inv _ _ _ Wr2) as I2. pose proof (small_wrote _ _ _ S Wr2) as S2. unfold small in S2.
  pose proof (zlen_nonneg w). fold w in P2.
  assert (0 <= position b /\ position b2 <= 2 ^ 31) as [P0 P1] by (destruct I, I2; lia).
  rewrite (u32_small (position b + 4)) by lia. rewrite u32_small by lia.
  replace (position b2 - (position b + 4)) with (zlen w) by lia.
  replace (zlen w <=? INT32_MAX) with true by (unfold INT32_MAX; lia).
  rewrite (SetPosition_back _ _ _ I Wr2). destruct (wrote_upcoming _ _ _ I Wr2) as [I2' _].
  destruct (codec_write (wr := SOPC_Int32_Write) (zlen w) (set_position b2 (position b)) lvl) as (st3 & b3 & -> & _ & W3 & F3);
    [unfold in_s; simpl; unfold in_s; lia|done|done|]. cbn [rbind].
  assert (st3 = SOPC_STATUS_OK) as ->.
  { apply F3; [done|]. unfold fits. change (zlen (wire SOPC_Int32_Write (zlen w))) with 4. simpl. destruct I2. split; [lia|left; lia]. }
  destruct (W3 eq_refl) as [Wr3 _]. destruct (wrote_patch b (le_bytes 4 (-1)) w b2 (le_bytes 4 (zlen w)) b3 I Wr2 eq_refl Wr3) as [-> Wr].
  do 2 eexists. split_and!; eauto.
Qed.

Lemma ext_id_depth e : ext_wf e -> 2 <= nodeid_depth (ext_id e).
Proof.
  unfold ext_wf, ext_id. destruct (view e); intros W; try done; try apply nodeid_depth_pos; intuition.
Qed.

Lemma numeric_id_wf t : nodeid_wf (numeric_id (BinaryEncodingTypeId t)).
Proof. split; [done|]. eexists. split; [done|]. apply obj_id_range. Qed.

(** Identifier, encoding byte, body. *)
Lemma encodes_ext n eb w b lvl (ok : Prop) (k : ptr SOPC_Buffer -> enc_result) :
  nodeid_wf n -> in_u 8 eb -> Buffer_Inv b -> small b -> (2 <= nodeid_depth n) ->
  (forall b1, Buffer_Inv b1 -> small b1 -> encodes b1 (k (Some b1)) w ok) ->
  encodes b (let_ok buf := SOPC_NodeId_Write (Some n) (Some b) (lvl + 1) in
             let_ok buf := SOPC_Byte_Write (Some eb) buf (lvl + 1) in k buf)
    (nodeid_wire n ++ [z2b eb] ++ w) (lvl + 1 + nodeid_depth n <= max_nested_struct cfg /\ ok).
Proof.
  intros W R I S D Hk.
  eapply (encodes_seq _ _ _ _ _ _ _ _ (lvl + 1 + 1 <= max_nested_struct cfg /\ ok)); [done|done| | |done|].
  - by apply (encodes_sub SOPC_NodeId_Write).
  - intros b1 I1 S1. apply encodes_and_then; [done|done| |done]. by apply (encodes_sub SOPC_Byte_Write).
  - simpl. intuition lia.
Qed.

Lemma ext_write e b lvl :
  ext_wf e -> Buffer_Inv b -> small b ->
  encodes b (SOPC_ExtensionObject_Write (Some e) (Some b) lvl) (ext_wire e) (ext_nests e lvl).
Proof.
  intros W I S. pose proof (ext_id_depth e W) as D. unfold SOPC_ExtensionObject_Write, ext_nests.
  apply encodes_guard; [done| |lia]. intros _. cbv zeta. revert W D. unfold ext_wf, ext_wire, ext_id, view.
  destruct (Encoding e); intros W D.
  - apply (encodes_ext _ 0 []); try done. intros. by apply encodes_skip.
  - destruct (body_Bstring (Body e)) as [s|]; [|done]. destruct W. apply (encodes_ext _ 1 (string_wire s)); try done.
    intros. cbn [rbind]. apply (encodes_sub SOPC_ByteString_Write); try done. simpl; lia.
  - destruct (body_Xml (Body e)) as [s|]; [|done]. destruct W. apply (encodes_ext _ 2 (string_wire s)); try done.
    intros. cbn [rbind]. apply (encodes_sub SOPC_XmlElement_Write); try done. simpl; lia.
  - destruct (Body e) as [| | |[o|] [t|]]; try done. destruct W. cbn [rbind body_Object].
    eapply encodes_iff; [|apply encodes_ext; try done; [apply numeric_id_wf|intros; by apply write_object_spec]].
    simpl. intuition lia.
Qed.

Lemma attach_uri t : exists st, SOPC_String_AttachFromCstring (Some string_init) (Type_NamespaceUri t) = Ret (st, Some (type_uri t)).
Proof.
  unfold type_uri, SOPC_String_AttachFromCstring. destruct (Type_NamespaceUri t) as [s|] eqn:E; [|by eexists].
  destruct (obj_uri t s E) as [n ->]. simpl. destruct (n <=? INT32_MAX); by eexists.
Qed.

(** The identifier and the encoding byte are read; the rest is left. *)
Lemma ext_read_head n eb w b lvl :
  nodeid_wf n -> nodeid_limits n -> in_u 8 eb -> Buffer_Inv b -> small b -> (forall n, alloc_ok n = true) ->
  upcoming b = nodeid_wire n ++ [z2b eb] ++ w -> lvl + 1 + nodeid_depth n <= max_nested_struct cfg ->
  SOPC_ExtensionObject_Read (Some extobj_init) (Some b) lvl =
  let* (status, encodingByte, body, uri) := read_body_type (nodeid_canon n) eb BodyZero string_init in
  let* (status, encoding, body, length, buf) :=
    (if is_ok status
     then read_body encodingByte SOPC_ExtObjBodyEncoding_None body (-1) (Some (advance b (zlen (nodeid_wire n ++ [z2b eb])))) (lvl + 1)
     else Ret (status, SOPC_ExtObjBodyEncoding_None, body, -1, Some (advance b (zlen (nodeid_wire n ++ [z2b eb]))))) in
  let* n := (if is_ok status then Ret (nodeid_canon n)
             else let* n := SOPC_NodeId_Clear (Some (nodeid_canon n)) in deref n) in
  Ret (status, Some (mkExtensionObject (mkExpandedNodeId n uri 0) encoding body length), buf).
Proof.
  intros W L R I S HA U N. pose proof (nodeid_depth_pos n W) as D. unfold SOPC_ExtensionObject_Read.
  level_ok. cbv zeta. change (NodeId (TypeId extobj_init)) with nodeid_init.
  rewrite (read_first SOPC_NodeId_Write n nodeid_init b (lvl + 1) _) with (6 := U) by done.
  cbn [rbind deref canon wire NodeId_codec].
  rewrite (read_if_next SOPC_Byte_Write eb 0 b _ (lvl + 1) w) with (6 := U) by (done || simpl; lia).
  cbn [rbind deref is_ok canon wire Byte_codec]. done.
Qed.

Lemma read_body_type_object id t :
  SOPC_EncodeableType_GetEncodeableType id = Some t ->
  read_body_type (numeric_id id) 1 BodyZero string_init =
  Ret (SOPC_STATUS_OK, 3, BodyObject NULL (Some t), type_uri t).
Proof.
  intros E. unfold read_body_type. switch. cbn [IdentifierType numeric_id Namespace]. change (OPCUA_NAMESPACE_INDEX =? OPCUA_NAMESPACE_INDEX) with true.
  cbn [data_Numeric NodeIdData_ numeric_id rbind]. rewrite E. cbn [body_Object rbind].
  destruct (attach_uri t) as [st ->]. done.
Qed.

Lemma ext_read e b lvl rest :
  ext_wf e -> ext_readable e -> Buffer_Inv b -> small b -> upcoming b = ext_wire e ++ rest -> ext_nests e lvl ->
  (forall n, alloc_ok n = true) ->
  SOPC_ExtensionObject_Read (Some extobj_init) (Some b) lvl =
  Ret (SOPC_STATUS_OK, Some (ext_canon e), Some (advance b (zlen (ext_wire e)))).
Proof.
  intros W L I S U [N Nb] HA. pose proof (ext_id_depth e W) as D. unfold ext_wf, ext_readable, ext_wire, ext_id, ext_canon in *.
  destruct (view e) as [|s|s|o t|]; try done; rewrite <- app_assoc in U.
  - rewrite (ext_read_head (NodeId (TypeId e)) 0 rest) by done. done.
  - destruct W as [Wn Ws], L as [Ln Ls]. change x02 with (z2b 2) in *. rewrite <- app_assoc in U.
    rewrite (ext_read_head (NodeId (TypeId e)) 2 (string_wire s ++ rest)) by done. generalize (nodeid_canon (NodeId (TypeId e))). intros cn. unfold read_body_type. switch. cbn [rbind is_ok]. unfold read_body. switch.
    cbn [rbind body_Xml]. rewrite app_assoc in U.
    rewrite (read_next SOPC_XmlElement_Write s (mkString 0 false NULL) b _ (lvl + 1) rest) with (6 := U) by (done || simpl; lia).
    cbn [rbind deref is_ok canon wire XmlElement_codec ByteString_codec]. by rewrite <- app_assoc.
  - destruct W as [_ Wo], L as (Lo & Lt). change x01 with (z2b 1) in *. cbv zeta in *. set (w := c_wire (obj_contract t) o) in *.
    rewrite <- !app_assoc in U. rewrite (ext_read_head _ 1 _ b lvl) with (7 := U) by (done || apply numeric_id_wf).
    change (nodeid_canon (numeric_id (BinaryEncodingTypeId t))) with (numeric_id (BinaryEncodingTypeId t)).
    rewrite (read_body_type_object _ t Lt). cbn [rbind is_ok]. rewrite app_assoc in U.
    assert (in_s 32 (zlen w)) as Rw.
    { pose proof (zlen_upcoming b I) as Z. rewrite U, !zlen_app, zlen_le_bytes in Z. unfold small in S. destruct I.
      pose proof (zlen_nonneg w). pose proof (zlen_nonneg rest). pose proof (zlen_nonneg (nodeid_wire (numeric_id (BinaryEncodingTypeId t)))).
      pose proof (zlen_nonneg [z2b 1]). unfold in_s. lia. }
    unfold read_body. switch. cbn [rbind body_Object].
    rewrite (read_next SOPC_Int32_Write (zlen w) (-1) b _ (lvl + 1) (w ++ rest)) with (6 := U) by (done || simpl; lia).
    cbn [rbind deref is_ok canon wire Int32_codec]. rewrite HA, <- obj_init. rewrite app_assoc in U.
    destruct (upcoming_advance_app b _ _ I U) as [I1 U1].
    rewrite (h_read _ _ _ _ (obj_honours t (lvl + 1)) o _ rest) by done. cbn [rbind deref is_ok].
    rewrite advance_advance, <- zlen_app, <- !app_assoc. done.
Qed.

(** On any input: the two parts of the decoder. *)
Definition type_result (n : SOPC_NodeId) (eb : Z) (r : res (SOPC_ReturnStatus * Z * ExtObjectBody * SOPC_String)) : Prop :=
  exists st eb' body uri, r = Ret (st, eb', body, uri) /\
    (st = SOPC_STATUS_OK ->
     (eb' = eb /\ eb <> 3 /\ body = BodyZero) \/
     exists t, eb' = 3 /\ body = BodyObject NULL (Some t) /\
       SOPC_EncodeableType_GetEncodeableType (BinaryEncodingTypeId t) = Some t).

Lemma read_body_type_safe n eb :
  nodeid_wf n -> type_result n eb (read_body_type n eb BodyZero string_init).
Proof.
  intros (_ & i & Ei & _). unfold read_body_type.
  destruct (Z.eqb_spec eb (encoding_byte SOPC_ExtObjBodyEncoding_ByteString)).
  2:{ destruct (Z.eqb_spec eb (encoding_byte SOPC_ExtObjBodyEncoding_Object)); do 4 eexists; (split; [done|]); [done|].
      intros _. by left. }
  unfold nodeid_ident in Ei. destruct (IdentifierType n); try (do 4 eexists; by split).
  destruct (Namespace n =? OPCUA_NAMESPACE_INDEX); [|do 4 eexists; by split].
  destruct (data_Numeric (NodeIdData_ n)) as [id|]; [|done]. cbn [rbind body_Object].
  destruct (SOPC_EncodeableType_GetEncodeableType id) as [t|] eqn:E; [|do 4 eexists; by split].
  destruct (attach_uri t) as [st ->]. cbn [rbind deref]. do 4 eexists. split; [done|]. intros _. right.
  exists t. split_and!; [done|done|]. by apply obj_lookup in E.
Qed.

Definition body_accepted (enc : SOPC_ExtObjectBodyEncoding) (body : ExtObjectBody) (lvl : Z) : Prop :=
  (enc = SOPC_ExtObjBodyEncoding_None) \/
  (enc = SOPC_ExtObjBodyEncoding_XMLElement /\ exists s, body = BodyXml s /\ accepted SOPC_XmlElement_Write lvl s) \/
  (enc = SOPC_ExtObjBodyEncoding_Object /\ exists o t, body = BodyObject (Some o) (Some t) /\ c_accepted (obj_contract t) lvl o /\
     SOPC_EncodeableType_GetEncodeableType (BinaryEncodingTypeId t) = Some t).

Definition body_result (b : SOPC_Buffer) (lvl : Z)
    (r : res (SOPC_ReturnStatus * SOPC_ExtObjectBodyEncoding * ExtObjectBody * Z * ptr SOPC_Buffer)) : Prop :=
  exists st enc body len m, r = Ret (st, enc, body, len, Some (advance b m)) /\ 0 <= m <= zlen (upcoming b) /\
    (st = SOPC_STATUS_OK -> body_accepted enc body lvl) /\
    (st <> SOPC_STATUS_OK -> enc = SOPC_ExtObjBodyEncoding_None).

Lemma body_result_fail b lvl st body len m :
  is_ok st = false -> 0 <= m <= zlen (upcoming b) ->
  body_result b lvl (Ret (st, SOPC_ExtObjBodyEncoding_None, body, len, Some (advance b m))).
Proof. intros E Hm. do 5 eexists. split_and!; try done; try lia. by intros ->. Qed.

Lemma read_object_safe t b k lvl :
  SOPC_EncodeableType_GetEncodeableType (BinaryEncodingTypeId t) = Some t ->
  Buffer_Inv b -> small b -> 0 <= k <= zlen (upcoming b) ->
  body_result b lvl (read_body 3 SOPC_ExtObjBodyEncoding_None (BodyObject NULL (Some t)) (-1) (Some (advance b k)) lvl).
Proof.
  intros Ht I S Hk. unfold read_body. switch. cbn [body_Object rbind].
  destruct (safe_next SOPC_Int32_Write (-1) b k lvl) as (st & len & m & -> & Hm & _ & G); [done..|].
  cbn [rbind deref]. destruct (is_ok st) eqn:E; [|by apply body_result_fail].
  destruct (alloc_ok (AllocationSize t)); [|by apply body_result_fail]. rewrite <- obj_init.
  destruct (h_safe _ _ _ _ (obj_honours t lvl) (advance b m)) as (st' & o & m' & -> & Hm' & _ & G');
    [by apply Buffer_Inv_advance|done|]. rewrite upcoming_advance, zlen_drop in Hm' by done || lia.
  rewrite advance_advance. cbn [rbind]. destruct (is_ok st') eqn:E'; [|by apply body_result_fail; [|lia]].
  apply is_ok_true in E'. subst. do 5 eexists. split; [done|]. split; [lia|]. split; [|done].
  intros _. right. right. split; [done|]. exists o, t. eauto.
Qed.

Lemma read_body_safe eb b k lvl :
  eb <> 3 -> Buffer_Inv b -> small b -> 0 <= k <= zlen (upcoming b) ->
  body_result b lvl (read_body eb SOPC_ExtObjBodyEncoding_None BodyZero (-1) (Some (advance b k)) lvl).
Proof.
  intros Ne I S Hk. unfold read_body. cbn [encoding_byte].
  destruct (Z.eqb_spec eb 0). { do 5 eexists. split_and!; try done; try lia. intros _. by left. }
  destruct (Z.eqb_spec eb 2).
  - cbn [body_Xml rbind].
    destruct (safe_next SOPC_XmlElement_Write (mkString 0 false NULL) b k lvl) as (st & s & m & -> & Hm & _ & G); [done..|].
    cbn [rbind deref]. do 5 eexists. split; [done|]. split; [done|]. destruct (is_ok st) eqn:E.
    + apply is_ok_true in E. subst. split; [|done]. intros _. right. left. split; [done|]. eauto.
    + split; [by intros ->|done].
  - replace (eb =? 3) with false by lia. by apply body_result_fail.
Qed.

Lemma ext_clear_ok n uri srv enc body len lvl :
  nodeid_sane n -> body_accepted enc body lvl ->
  ext_sane (mkExtensionObject (mkExpandedNodeId n uri srv) enc body len).
Proof.
  intros [n' En] B. unfold ext_sane, SOPC_ExtensionObject_Clear, SOPC_ExpandedNodeId_Clear.
  cbn [TypeId NodeId EncNodeId.NamespaceUri]. rewrite En. cbn [SOPC_String_Clear option_map deref rbind Encoding Body].
  destruct B as [-> |[[-> (s & -> & _)]|[-> (o & t & -> & W & _)]]]; [by eexists..|].
  cbn [rbind body_Object deref].
  destruct (obj_clear t o) as [o' ->]; [by apply (h_sane _ _ _ _ (obj_honours t lvl))|]. by eexists.
Qed.

Lemma ext_accepted n uri srv enc body len lvl :
  accepted SOPC_NodeId_Write (lvl + 1) n -> body_accepted enc body (lvl + 1) ->
  let e := mkExtensionObject (mkExpandedNodeId n uri srv) enc body len in
  ext_wf e /\ ext_readable e /\ ext_nests e lvl.
Proof.
  intros (W & L & N) B e. simpl in W, L, N. pose proof (nodeid_depth_pos n W) as D.
  unfold ext_wf, ext_readable, ext_nests, ext_id, view. subst e. cbn [Encoding Body TypeId NodeId].
  destruct B as [-> |[[-> (s & -> & Ws & Ls & Ns)]|[-> (o & t & -> & (Wo & Lo & No) & Ht)]]].
  - done.
  - simpl in Ns. cbn [body_Xml]. split_and!; try done. lia.
  - split_and!; try done; [by apply nodeid_wf_sane|]. change (nodeid_depth _) with 2. lia.
Qed.

Lemma ext_accepted_sane e lvl : ext_wf e -> ext_readable e -> ext_nests e lvl -> ext_sane e.
Proof.
  unfold ext_wf, ext_readable, ext_nests, view. destruct e as [[n uri srv] enc body len]. cbn [Encoding Body TypeId NodeId].
  assert (nodeid_sane n -> ext_sane (mkExtensionObject (mkExpandedNodeId n uri srv) SOPC_ExtObjBodyEncoding_None body len)) as Hn.
  { intros Sn. apply (ext_clear_ok _ _ _ _ _ _ 0); [done|by left]. }
  assert (nodeid_sane n -> exists n', SOPC_ExpandedNodeId_Clear (Some (mkExpandedNodeId n uri srv)) = Ret (Some n')) as Hc.
  { intros [n' En]. unfold SOPC_ExpandedNodeId_Clear. cbn [NodeId EncNodeId.NamespaceUri]. rewrite En. by eexists. }
  unfold ext_sane, SOPC_ExtensionObject_Clear. cbn [Encoding Body TypeId]. destruct enc.
  - intros W _ _. by apply Hn, nodeid_wf_sane.
  - destruct (body_Bstring body) as [s|]; [|done]. intros [W _] _ _. destruct Hc as [n' ->]; [by apply nodeid_wf_sane|]. by eexists.
  - destruct (body_Xml body) as [s|]; [|done]. intros [W _] _ _. destruct Hc as [n' ->]; [by apply nodeid_wf_sane|]. by eexists.
  - destruct body as [| | |[o|] [t|]]; try done. intros [Sn W] [L _] [_ N]. destruct (Hc Sn) as [n' ->]. cbn [rbind body_Object deref].
    destruct (obj_clear t o) as [o' ->]; [by apply (h_sane _ _ _ _ (obj_honours t (lvl + 1)))|]. by eexists.
Qed.

#[refine] #[export] Instance ExtensionObject_codec : Codec SOPC_ExtensionObject_Write SOPC_ExtensionObject_Read := {
  wire := ext_wire; nests := ext_nests; wf := ext_wf; limits := ext_readable; canon := ext_canon;
  inited e := e = extobj_init; sane := ext_sane
}.
Proof.
  - intros. by apply ext_write.
  - intros e e0 b lvl rest W L -> I S U N HA. by apply (ext_read e b lvl rest).
  - intros e0 b lvl -> I S. unfold SOPC_ExtensionObject_Read. pose proof (zlen_nonneg (upcoming b)).
    destruct (Z.leb_spec (max_nested_struct cfg) lvl); [by apply decodes_fail; [|eexists]|]. cbv zeta.
    change (NodeId (TypeId extobj_init)) with nodeid_init.
    rewrite <- (advance_0 b) at 2.
    destruct (safe_next SOPC_NodeId_Write nodeid_init b 0 (lvl + 1)) as (st1 & n & m1 & -> & Hm1 & Sn & G1); [done..|lia|].
    cbn [rbind deref].
    destruct (read_if_safe SOPC_Byte_Write st1 0 b m1 (lvl + 1)) as (st2 & eb & m2 & -> & Hm2 & _ & G2); [done..|].
    cbn [rbind deref]. change (Body extobj_init) with BodyZero. change (NamespaceUri (TypeId extobj_init)) with string_init.
    change (Encoding extobj_init) with SOPC_ExtObjBodyEncoding_None. change (Ext_Length extobj_init) with (-1).
    assert (forall st uri body len m, is_ok st = false -> 0 <= m <= zlen (upcoming b) ->
      decodes b (let* n := (if is_ok st then Ret n else let* n := SOPC_NodeId_Clear (Some n) in deref n) in
        Ret (st, Some (mkExtensionObject (mkExpandedNodeId n uri 0) SOPC_ExtObjBodyEncoding_None body len), Some (advance b m)))
        ext_sane (fun e => ext_wf e /\ ext_readable e /\ ext_nests e lvl)) as Fail.
    { intros st uri body len m E Hm. rewrite E. destruct Sn as [n' En]. rewrite En. cbn [rbind deref].
      apply decodes_intro; [done| |by intros ->]. apply (ext_clear_ok _ _ _ _ _ _ 0); [by eapply nodeid_clear_sane|by left]. }
    destruct (is_ok st2) eqn:E2; cbn [rbind]; [|rewrite E2; cbn [rbind]; by apply Fail].
    apply is_ok_true in E2. subst. destruct (G2 eq_refl) as [-> _]. pose proof (G1 eq_refl) as Gn.
    destruct (read_body_type_safe n eb) as (st3 & eb' & body & uri & -> & G3); [apply Gn|]. cbn [rbind].
    destruct (is_ok st3) eqn:E3; cbn [rbind]; [|by apply Fail].
    apply is_ok_true in E3. subst. clear Hm1 G1 G2.
    assert (body_result b (lvl + 1) (read_body eb' SOPC_ExtObjBodyEncoding_None body (-1) (Some (advance b m2)) (lvl + 1)))
      as (st & enc & body' & len & m & -> & Hm & G & F).
    { destruct (G3 eq_refl) as [(-> & Ne & ->)|(t & -> & -> & Ht)]; [by apply read_body_safe|by apply read_object_safe]. }
    cbn [rbind]. destruct (is_ok st) eqn:E; [|rewrite F by (by intros ->); specialize (Fail st uri body' len m E Hm); by rewrite E in Fail].
    apply is_ok_true in E. subst. cbn [rbind]. apply decodes_intro; [done|by eapply ext_clear_ok; [|by apply G]|].
    intros _. apply ext_accepted; [done|by apply G].
  - intros e ->. by eexists.
  - intros. by eapply ext_accepted_sane.
Defined.

End ExtObjSpecs.
