(* ===== verification/EncVariant.v ===== *)
(** * Binary encoding of variants and data values

    Model of the encoders and decoders of SOPC_Variant and SOPC_DataValue
    ([src/Common/opcua_types/sopc_encoder.c]), with the types of
    [sopc_builtintypes.h] and the clear functions of [sopc_builtintypes.c].

    A variant may hold a data value, or an array of variants or of data values,
    and a data value holds a variant.  The functions are written over the
    functions for the nested values, then tied with a fuel: each nested call is
    made at a deeper level, and no call is made beyond the maximum level, so the
    number of levels left is enough. *)

From Stdlib Require Import ZArith Lia.
From Stdlib Require Import Strings.Byte.
From stdpp Require Import prelude.
From S2P Require Import Prelude Common Buffer Codec EncScalar EncString EncNodeId EncText EncArray EncExtObj.

Open Scope Z_scope.

(** ** Types *)

(** The identifiers of the built-in types; the last constructor stands for the
    other values that the variable may hold. *)
Inductive SOPC_BuiltinId :=
| SOPC_Null_Id
| SOPC_Boolean_Id
| SOPC_SByte_Id
| SOPC_Byte_Id
| SOPC_Int16_Id
| SOPC_UInt16_Id
| SOPC_Int32_Id
| SOPC_UInt32_Id
| SOPC_Int64_Id
| SOPC_UInt64_Id
| SOPC_Float_Id
| SOPC_Double_Id
| SOPC_String_Id
| SOPC_DateTime_Id
| SOPC_Guid_Id
| SOPC_ByteString_Id
| SOPC_XmlElement_Id
| SOPC_NodeId_Id
| SOPC_ExpandedNodeId_Id
| SOPC_StatusCode_Id
| SOPC_QualifiedName_Id
| SOPC_LocalizedText_Id
| SOPC_ExtensionObject_Id
| SOPC_DataValue_Id
| SOPC_Variant_Id
| SOPC_DiagnosticInfo_Id
| SOPC_Other_Id (value : Z).

#[export] Instance SOPC_BuiltinId_eq_dec : EqDecision SOPC_BuiltinId.
Proof. solve_decision. Defined.

Definition builtin_ids : list SOPC_BuiltinId :=
  [SOPC_Null_Id; SOPC_Boolean_Id; SOPC_SByte_Id; SOPC_Byte_Id; SOPC_Int16_Id; SOPC_UInt16_Id; SOPC_Int32_Id;
   SOPC_UInt32_Id; SOPC_Int64_Id; SOPC_UInt64_Id; SOPC_Float_Id; SOPC_Double_Id; SOPC_String_Id; SOPC_DateTime_Id;
   SOPC_Guid_Id; SOPC_ByteString_Id; SOPC_XmlElement_Id; SOPC_NodeId_Id; SOPC_ExpandedNodeId_Id; SOPC_StatusCode_Id;
   SOPC_QualifiedName_Id; SOPC_LocalizedText_Id; SOPC_ExtensionObject_Id; SOPC_DataValue_Id; SOPC_Variant_Id;
   SOPC_DiagnosticInfo_Id].

Definition SOPC_BUILTINID_MAX : Z := 25.

(** The value of the enumeration. *)
Definition builtin_value (id : SOPC_BuiltinId) : Z :=
  match id with
  | SOPC_Null_Id => 0
  | SOPC_Boolean_Id => 1
  | SOPC_SByte_Id => 2
  | SOPC_Byte_Id => 3
  | SOPC_Int16_Id => 4
  | SOPC_UInt16_Id => 5
  | SOPC_Int32_Id => 6
  | SOPC_UInt32_Id => 7
  | SOPC_Int64_Id => 8
  | SOPC_UInt64_Id => 9
  | SOPC_Float_Id => 10
  | SOPC_Double_Id => 11
  | SOPC_String_Id => 12
  | SOPC_DateTime_Id => 13
  | SOPC_Guid_Id => 14
  | SOPC_ByteString_Id => 15
  | SOPC_XmlElement_Id => 16
  | SOPC_NodeId_Id => 17
  | SOPC_ExpandedNodeId_Id => 18
  | SOPC_StatusCode_Id => 19
  | SOPC_QualifiedName_Id => 20
  | SOPC_LocalizedText_Id => 21
  | SOPC_ExtensionObject_Id => 22
  | SOPC_DataValue_Id => 23
  | SOPC_Variant_Id => 24
  | SOPC_DiagnosticInfo_Id => 25
  | SOPC_Other_Id z => z
  end.

Definition builtin_of (z : Z) : SOPC_BuiltinId :=
  if 0 <=? z then default (SOPC_Other_Id z) (builtin_ids !! Z.to_nat z) else SOPC_Other_Id z.

Definition SOPC_VariantArrayValueFlag : Z := 128.
Definition SOPC_VariantArrayDimensionsFlag : Z := 64.

Inductive SOPC_VariantArrayType :=
| SOPC_VariantArrayType_SingleValue
| SOPC_VariantArrayType_Array
| SOPC_VariantArrayType_Matrix.

#[export] Instance SOPC_VariantArrayType_eq_dec : EqDecision SOPC_VariantArrayType.
Proof. solve_decision. Defined.

Section Types.
Context `{EncodeableTypes}.

(** The unions are given by the member that was written last.  The members that
    are numbers, and those that are strings, share a constructor and are told
    apart by the built-in type they belong to.  [ValZero] is zeroed memory and
    [ValIndeterminate] memory that was written through another member.  A null
    array pointer is the same for all the members. *)
Inductive SOPC_Variant :=
| mkVariant (DoNotClear : bool) (BuiltInTypeId : SOPC_BuiltinId) (ArrayType : SOPC_VariantArrayType)
    (Value : SOPC_VariantValue)
with SOPC_VariantValue :=
| ValZero
| ValIndeterminate
| ValNumber (member : SOPC_BuiltinId) (n : Z)
| ValString (member : SOPC_BuiltinId) (s : SOPC_String)
| ValGuid (Guid : ptr SOPC_Guid)
| ValNodeId (NodeId : ptr SOPC_NodeId)
| ValExpNodeId (ExpNodeId : ptr SOPC_ExpandedNodeId)
| ValQname (Qname : ptr SOPC_QualifiedName)
| ValLocalizedText (LocalizedText : ptr SOPC_LocalizedText)
| ValExtObject (ExtObject : ptr SOPC_ExtensionObject)
| ValDataValue (DataValue : ptr SOPC_DataValue)
| ValDiagInfo (DiagInfo : ptr SOPC_DiagnosticInfo)
| ValArray (Length : Z) (Content : SOPC_VariantArrayValue)
| ValMatrix (Dimensions : Z) (ArrayDimensions : ptr (list Z)) (Content : SOPC_VariantArrayValue)
with SOPC_VariantArrayValue :=
| ArrNull
| ArrNumber (member : SOPC_BuiltinId) (l : list Z)
| ArrString (member : SOPC_BuiltinId) (l : list SOPC_String)
| ArrGuid (l : list SOPC_Guid)
| ArrNodeId (l : list SOPC_NodeId)
| ArrExpNodeId (l : list SOPC_ExpandedNodeId)
| ArrQname (l : list SOPC_QualifiedName)
| ArrLocalizedText (l : list SOPC_LocalizedText)
| ArrExtObject (l : list SOPC_ExtensionObject)
| ArrDataValue (l : list SOPC_DataValue)
| ArrVariant (l : list SOPC_Variant)
| ArrDiagInfo (l : list SOPC_DiagnosticInfo)
with SOPC_DataValue :=
| mkDataValue (Value : SOPC_Variant) (Status : Z) (SourceTimestamp ServerTimestamp : Z)
    (SourcePicoSeconds ServerPicoSeconds : Z).

Definition Var_DoNotClear (v : SOPC_Variant) : bool := let '(mkVariant d _ _ _) := v in d.
Definition BuiltInTypeId (v : SOPC_Variant) : SOPC_BuiltinId := let '(mkVariant _ id _ _) := v in id.
Definition ArrayType (v : SOPC_Variant) : SOPC_VariantArrayType := let '(mkVariant _ _ t _) := v in t.
Definition Var_Value (v : SOPC_Variant) : SOPC_VariantValue := let '(mkVariant _ _ _ x) := v in x.

Definition DV_Value (d : SOPC_DataValue) : SOPC_Variant := let '(mkDataValue v _ _ _ _ _) := d in v.
Definition DV_Status (d : SOPC_DataValue) : Z := let '(mkDataValue _ s _ _ _ _) := d in s.
Definition SourceTimestamp (d : SOPC_DataValue) : Z := let '(mkDataValue _ _ t _ _ _) := d in t.
Definition ServerTimestamp (d : SOPC_DataValue) : Z := let '(mkDataValue _ _ _ t _ _) := d in t.
Definition SourcePicoSeconds (d : SOPC_DataValue) : Z := let '(mkDataValue _ _ _ _ p _) := d in p.
Definition ServerPicoSeconds (d : SOPC_DataValue) : Z := let '(mkDataValue _ _ _ _ _ p) := d in p.

(** Members of the unions. *)
Definition val_number (id : SOPC_BuiltinId) (v : SOPC_VariantValue) : res Z :=
  match v with
  | ValZero => Ret 0
  | ValNumber m n => if decide (m = id) then Ret n else Fault UnionPunning
  | _ => Fault UnionPunning
  end.
Definition val_string (id : SOPC_BuiltinId) (v : SOPC_VariantValue) : res SOPC_String :=
  match v with
  | ValZero => Ret (mkString 0 false NULL)
  | ValString m s => if decide (m = id) then Ret s else Fault UnionPunning
  | _ => Fault UnionPunning
  end.
Definition val_Guid (v : SOPC_VariantValue) : res (ptr SOPC_Guid) :=
  match v with ValZero => Ret NULL | ValGuid p => Ret p | _ => Fault UnionPunning end.
Definition val_NodeId (v : SOPC_VariantValue) : res (ptr SOPC_NodeId) :=
  match v with ValZero => Ret NULL | ValNodeId p => Ret p | _ => Fault UnionPunning end.
Definition val_ExpNodeId (v : SOPC_VariantValue) : res (ptr SOPC_ExpandedNodeId) :=
  match v with ValZero => Ret NULL | ValExpNodeId p => Ret p | _ => Fault UnionPunning end.
Definition val_Qname (v : SOPC_VariantValue) : res (ptr SOPC_QualifiedName) :=
  match v with ValZero => Ret NULL | ValQname p => Ret p | _ => Fault UnionPunning end.
Definition val_LocalizedText (v : SOPC_VariantValue) : res (ptr SOPC_LocalizedText) :=
  match v with ValZero => Ret NULL | ValLocalizedText p => Ret p | _ => Fault UnionPunning end.
Definition val_ExtObject (v : SOPC_VariantValue) : res (ptr SOPC_ExtensionObject) :=
  match v with ValZero => Ret NULL | ValExtObject p => Ret p | _ => Fault UnionPunning end.
Definition val_DataValue (v : SOPC_VariantValue) : res (ptr SOPC_DataValue) :=
  match v with ValZero => Ret NULL | ValDataValue p => Ret p | _ => Fault UnionPunning end.
Definition val_DiagInfo (v : SOPC_VariantValue) : res (ptr SOPC_DiagnosticInfo) :=
  match v with ValZero => Ret NULL | ValDiagInfo p => Ret p | _ => Fault UnionPunning end.
Definition val_Array (v : SOPC_VariantValue) : res (Z * SOPC_VariantArrayValue) :=
  match v with ValZero => Ret (0, ArrNull) | ValArray n c => Ret (n, c) | _ => Fault UnionPunning end.
Definition val_Matrix (v : SOPC_VariantValue) : res (Z * ptr (list Z) * SOPC_VariantArrayValue) :=
  match v with ValZero => Ret (0, NULL, ArrNull) | ValMatrix d p c => Ret (d, p, c) | _ => Fault UnionPunning end.

Definition arr_number (id : SOPC_BuiltinId) (a : SOPC_VariantArrayValue) : res (ptr (list Z)) :=
  match a with
  | ArrNull => Ret NULL
  | ArrNumber m l => if decide (m = id) then Ret (Some l) else Fault UnionPunning
  | _ => Fault UnionPunning
  end.
Definition arr_string (id : SOPC_BuiltinId) (a : SOPC_VariantArrayValue) : res (ptr (list SOPC_String)) :=
  match a with
  | ArrNull => Ret NULL
  | ArrString m l => if decide (m = id) then Ret (Some l) else Fault UnionPunning
  | _ => Fault UnionPunning
  end.
Definition arr_Guid (a : SOPC_VariantArrayValue) : res (ptr (list SOPC_Guid)) :=
  match a with ArrNull => Ret NULL | ArrGuid l => Ret (Some l) | _ => Fault UnionPunning end.
Definition arr_NodeId (a : SOPC_VariantArrayValue) : res (ptr (list SOPC_NodeId)) :=
  match a with ArrNull => Ret NULL | ArrNodeId l => Ret (Some l) | _ => Fault UnionPunning end.
Definition arr_ExpNodeId (a : SOPC_VariantArrayValue) : res (ptr (list SOPC_ExpandedNodeId)) :=
  match a with ArrNull => Ret NULL | ArrExpNodeId l => Ret (Some l) | _ => Fault UnionPunning end.
Definition arr_Qname (a : SOPC_VariantArrayValue) : res (ptr (list SOPC_QualifiedName)) :=
  match a with ArrNull => Ret NULL | ArrQname l => Ret (Some l) | _ => Fault UnionPunning end.
Definition arr_LocalizedText (a : SOPC_VariantArrayValue) : res (ptr (list SOPC_LocalizedText)) :=
  match a with ArrNull => Ret NULL | ArrLocalizedText l => Ret (Some l) | _ => Fault UnionPunning end.
Definition arr_ExtObject (a : SOPC_VariantArrayValue) : res (ptr (list SOPC_ExtensionObject)) :=
  match a with ArrNull => Ret NULL | ArrExtObject l => Ret (Some l) | _ => Fault UnionPunning end.
Definition arr_DataValue (a : SOPC_VariantArrayValue) : res (ptr (list SOPC_DataValue)) :=
  match a with ArrNull => Ret NULL | ArrDataValue l => Ret (Some l) | _ => Fault UnionPunning end.
Definition arr_Variant (a : SOPC_VariantArrayValue) : res (ptr (list SOPC_Variant)) :=
  match a with ArrNull => Ret NULL | ArrVariant l => Ret (Some l) | _ => Fault UnionPunning end.
Definition arr_DiagInfo (a : SOPC_VariantArrayValue) : res (ptr (list SOPC_DiagnosticInfo)) :=
  match a with ArrNull => Ret NULL | ArrDiagInfo l => Ret (Some l) | _ => Fault UnionPunning end.

(** An array pointer stored in the union. *)
Definition arr_of {A} (member : list A -> SOPC_VariantArrayValue) (p : ptr (list A)) : SOPC_VariantArrayValue :=
  match p with Some l => member l | NULL => ArrNull end.

Definition variant_init : SOPC_Variant :=
  mkVariant false SOPC_Null_Id SOPC_VariantArrayType_SingleValue ValZero.

Definition SOPC_Variant_Initialize (variant : ptr SOPC_Variant) : ptr SOPC_Variant :=
  option_map (fun _ => variant_init) variant.

Definition datavalue_init : SOPC_DataValue := mkDataValue variant_init 0 0 0 0 0.

Definition SOPC_DataValue_Initialize (dataValue : ptr SOPC_DataValue) : ptr SOPC_DataValue :=
  option_map (fun _ => datavalue_init) dataValue.

End Types.

(** ** Clearing *)

Section Clearing.
Context `{Host} `{EncodeableTypes}.

(** The clear functions of the table of the built-in types, on the memory of a
    value. *)
Definition clear_number (n : Z) : res Z := Ret 0.
Definition clear_string (s : SOPC_String) : res SOPC_String := deref (SOPC_String_Clear (Some s)).
Definition clear_guid (g : SOPC_Guid) : res SOPC_Guid := Ret guid_init.
Definition clear_nodeid (n : SOPC_NodeId) : res SOPC_NodeId := let* n := SOPC_NodeId_Clear (Some n) in deref n.
Definition clear_expnodeid (n : SOPC_ExpandedNodeId) : res SOPC_ExpandedNodeId :=
  let* n := SOPC_ExpandedNodeId_Clear (Some n) in deref n.
Definition clear_qname (q : SOPC_QualifiedName) : res SOPC_QualifiedName := deref (SOPC_QualifiedName_Clear (Some q)).
Definition clear_ltext (t : SOPC_LocalizedText) : res SOPC_LocalizedText := deref (SOPC_LocalizedText_Clear (Some t)).
Definition clear_extobj (e : SOPC_ExtensionObject) : res SOPC_ExtensionObject :=
  let* e := SOPC_ExtensionObject_Clear (Some e) in deref e.
Definition clear_diag (d : SOPC_DiagnosticInfo) : res SOPC_DiagnosticInfo := deref (SOPC_DiagnosticInfo_Clear (Some d)).

(** The functions accept a null pointer. *)
Definition clear_ptr {A} (clear : A -> res A) (p : ptr A) : res (ptr A) :=
  match p with Some v => let* v := clear v in Ret (Some v) | NULL => Ret NULL end.

(** The identifiers for which there is a clear function. *)
Definition GetBuiltInTypeClearFunction (builtInTypeId : SOPC_BuiltinId) : bool :=
  match builtInTypeId with
  | SOPC_Other_Id z => (0 <=? z) && (z <=? SOPC_BUILTINID_MAX)
  | _ => true
  end.

Definition FreeVariantNonArrayBuiltInType (builtInTypeId : SOPC_BuiltinId) (val : SOPC_VariantValue) : SOPC_VariantValue :=
  match builtInTypeId with
  | SOPC_Guid_Id => ValGuid NULL
  | SOPC_NodeId_Id => ValNodeId NULL
  | SOPC_ExpandedNodeId_Id => ValExpNodeId NULL
  | SOPC_QualifiedName_Id => ValQname NULL
  | SOPC_LocalizedText_Id => ValLocalizedText NULL
  | SOPC_ExtensionObject_Id => ValExtObject NULL
  | SOPC_DataValue_Id => ValDataValue NULL
  | SOPC_DiagnosticInfo_Id => ValDiagInfo NULL
  | _ => val
  end.

(** The number of elements of a matrix: the product of the dimensions, if they
    are positive and the product is at most INT32_MAX.  [dims] is what is left of
    the dimensions. *)
Fixpoint product_dims (n : nat) (dims : list Z) (matrixLength : Z) : res (option Z) :=
  match n, dims with
  | O, _ => Ret (Some matrixLength)
  | S n, [] => Fault OutOfBounds
  | S n, d :: dims =>
      if (0 <? d) && (matrixLength * d <=? INT32_MAX)
      then product_dims n dims (matrixLength * d)
      else Ret None
  end.

Definition matrix_length (dimensions : Z) (arrayDimensions : ptr (list Z)) : res (option Z) :=
  if 0 <? dimensions then
    let* dims := deref arrayDimensions in
    product_dims (Z.to_nat dimensions) dims 1
  else Ret (Some (if dimensions =? 0 then 0 else 1)).

(** [* (int32_t* ) &n] for a 64 bit integer [n]: the first four bytes *)
Definition int32_of_int64 (n : Z) : Z := swrap 32 (int_of_repr (take 4 (int_repr 8 n))).

Definition clear_arr {A} (member : list A -> SOPC_VariantArrayValue) (clear : A -> res A) (length : Z) (p : ptr (list A))
    : res (Z * SOPC_VariantArrayValue) :=
  let* (n, p) := SOPC_Clear_Array clear length p in
  Ret (n, arr_of member p).

Fixpoint SOPC_Variant_Clear' (variant : SOPC_Variant) {struct variant} : res SOPC_Variant :=
  match variant with
  | mkVariant doNotClear builtInTypeId arrayType value =>
      if doNotClear then Ret variant_init
      else if negb (GetBuiltInTypeClearFunction builtInTypeId) then Ret variant
      else
        let* _ :=
          match arrayType with
          | SOPC_VariantArrayType_SingleValue =>
              let* value := ApplyToVariantNonArrayBuiltInType builtInTypeId value in
              Ret (FreeVariantNonArrayBuiltInType builtInTypeId value)
          | SOPC_VariantArrayType_Array =>
              match value with
              | ValZero => Ret ValZero
              | ValArray length content =>
                  let* (length, content) := ClearToVariantArrayBuiltInType builtInTypeId content length in
                  Ret (ValArray length content)
              | _ => Fault UnionPunning
              end
          | SOPC_VariantArrayType_Matrix =>
              match value with
              | ValZero => Ret ValZero
              | ValMatrix dimensions arrayDimensions content =>
                  let* matrixLength := matrix_length dimensions arrayDimensions in
                  match matrixLength with
                  | Some n =>
                      let* (_, content) := ClearToVariantArrayBuiltInType builtInTypeId content (int32_of_int64 n) in
                      Ret (ValMatrix 0 NULL content)
                  | None => Ret value
                  end
              | _ => Fault UnionPunning
              end
          end in
        Ret variant_init
  end
with ApplyToVariantNonArrayBuiltInType (builtInTypeId : SOPC_BuiltinId) (val : SOPC_VariantValue) {struct val}
    : res SOPC_VariantValue :=
  match builtInTypeId with
  | SOPC_Boolean_Id | SOPC_SByte_Id | SOPC_Byte_Id | SOPC_Int16_Id | SOPC_UInt16_Id | SOPC_Int32_Id | SOPC_UInt32_Id
  | SOPC_Int64_Id | SOPC_UInt64_Id | SOPC_Float_Id | SOPC_Double_Id | SOPC_DateTime_Id | SOPC_StatusCode_Id =>
      let* n := val_number builtInTypeId val in
      let* n := clear_number n in
      Ret (ValNumber builtInTypeId n)
  | SOPC_String_Id | SOPC_ByteString_Id | SOPC_XmlElement_Id =>
      let* s := val_string builtInTypeId val in
      let* s := clear_string s in
      Ret (ValString builtInTypeId s)
  | SOPC_Guid_Id => let* p := val_Guid val in let* p := clear_ptr clear_guid p in Ret (ValGuid p)
  | SOPC_NodeId_Id => let* p := val_NodeId val in let* p := clear_ptr clear_nodeid p in Ret (ValNodeId p)
  | SOPC_ExpandedNodeId_Id => let* p := val_ExpNodeId val in let* p := clear_ptr clear_expnodeid p in Ret (ValExpNodeId p)
  | SOPC_QualifiedName_Id => let* p := val_Qname val in let* p := clear_ptr clear_qname p in Ret (ValQname p)
  | SOPC_LocalizedText_Id => let* p := val_LocalizedText val in let* p := clear_ptr clear_ltext p in Ret (ValLocalizedText p)
  | SOPC_ExtensionObject_Id => let* p := val_ExtObject val in let* p := clear_ptr clear_extobj p in Ret (ValExtObject p)
  | SOPC_DataValue_Id =>
      match val with
      | ValZero => Ret ValZero
      | ValDataValue p => let* p := clear_ptr SOPC_DataValue_Clear' p in Ret (ValDataValue p)
      | _ => Fault UnionPunning
      end
  | SOPC_DiagnosticInfo_Id => let* p := val_DiagInfo val in let* p := clear_ptr clear_diag p in Ret (ValDiagInfo p)
  | SOPC_Null_Id | SOPC_Variant_Id | SOPC_Other_Id _ => Ret val
  end
with ClearToVariantArrayBuiltInType (builtInTypeId : SOPC_BuiltinId) (array : SOPC_VariantArrayValue) (length : Z)
    {struct array} : res (Z * SOPC_VariantArrayValue) :=
  match builtInTypeId with
  | SOPC_Boolean_Id | SOPC_SByte_Id | SOPC_Byte_Id | SOPC_Int16_Id | SOPC_UInt16_Id | SOPC_Int32_Id | SOPC_UInt32_Id
  | SOPC_Int64_Id | SOPC_UInt64_Id | SOPC_Float_Id | SOPC_Double_Id | SOPC_DateTime_Id | SOPC_StatusCode_Id =>
      let* p := arr_number builtInTypeId array in clear_arr (ArrNumber builtInTypeId) clear_number length p
  | SOPC_String_Id | SOPC_ByteString_Id | SOPC_XmlElement_Id =>
      let* p := arr_string builtInTypeId array in clear_arr (ArrString builtInTypeId) clear_string length p
  | SOPC_Guid_Id => let* p := arr_Guid array in clear_arr ArrGuid clear_guid length p
  | SOPC_NodeId_Id => let* p := arr_NodeId array in clear_arr ArrNodeId clear_nodeid length p
  | SOPC_ExpandedNodeId_Id => let* p := arr_ExpNodeId array in clear_arr ArrExpNodeId clear_expnodeid length p
  | SOPC_QualifiedName_Id => let* p := arr_Qname array in clear_arr ArrQname clear_qname length p
  | SOPC_LocalizedText_Id => let* p := arr_LocalizedText array in clear_arr ArrLocalizedText clear_ltext length p
  | SOPC_ExtensionObject_Id => let* p := arr_ExtObject array in clear_arr ArrExtObject clear_extobj length p
  | SOPC_DataValue_Id =>
      match array with
      | ArrNull => clear_arr ArrDataValue (fun d => Ret d) length NULL
      | ArrDataValue l => clear_arr ArrDataValue SOPC_DataValue_Clear' length (Some l)
      | _ => Fault UnionPunning
      end
  | SOPC_Variant_Id =>
      match array with
      | ArrNull => clear_arr ArrVariant (fun v => Ret v) length NULL
      | ArrVariant l => clear_arr ArrVariant SOPC_Variant_Clear' length (Some l)
      | _ => Fault UnionPunning
      end
  | SOPC_DiagnosticInfo_Id => let* p := arr_DiagInfo array in clear_arr ArrDiagInfo clear_diag length p
  | SOPC_Null_Id | SOPC_Other_Id _ => Ret (length, array)
  end
with SOPC_DataValue_Clear' (dataValue : SOPC_DataValue) {struct dataValue} : res SOPC_DataValue :=
  match dataValue with
  | mkDataValue value _ _ _ _ _ =>
      let* value := SOPC_Variant_Clear' value in
      Ret (mkDataValue value 0 0 0 0 0)
  end.

Definition SOPC_Variant_Clear (variant : ptr SOPC_Variant) : res (ptr SOPC_Variant) := clear_ptr SOPC_Variant_Clear' variant.
Definition SOPC_DataValue_Clear (dataValue : ptr SOPC_DataValue) : res (ptr SOPC_DataValue) :=
  clear_ptr SOPC_DataValue_Clear' dataValue.

End Clearing.

(** ** Encoders *)

(** Sizes of the types, in bytes. *)
Definition sizeof_String : Z := 16.
Definition sizeof_NodeId : Z := 24.
Definition sizeof_ExpandedNodeId : Z := 48.
Definition sizeof_QualifiedName : Z := 24.
Definition sizeof_LocalizedText : Z := 40.
Definition sizeof_ExtensionObject : Z := 80.
Definition sizeof_Variant : Z := 40.
Definition sizeof_DataValue : Z := 72.

Section Encoders.
Context `{Allocator} `{Host} `{EndiannessCfg} {cfg : SOPC_Common_EncodingConstants}.
Context `{EncodeableTypes}.

Definition GetVariantEncodingMask (variant : SOPC_Variant) : Z :=
  let encodingByte := u8 (builtin_value (BuiltInTypeId variant)) in
  match ArrayType variant with
  | SOPC_VariantArrayType_Matrix =>
      Z.lor (Z.lor encodingByte SOPC_VariantArrayValueFlag) SOPC_VariantArrayDimensionsFlag
  | SOPC_VariantArrayType_Array => Z.lor encodingByte SOPC_VariantArrayValueFlag
  | SOPC_VariantArrayType_SingleValue => encodingByte
  end.

Section Bodies.
(** The encoders for the nested values. *)
Variable Variant_Write_Nested : encoder SOPC_Variant.
Variable DataValue_Write_Nested : encoder SOPC_DataValue.

Definition WriteVariantNonArrayBuiltInType (buf : ptr SOPC_Buffer) (builtInTypeId : SOPC_BuiltinId)
    (val : SOPC_VariantValue) (nestedStructLevel : Z) : enc_result :=
  if max_nested_struct cfg <=? nestedStructLevel then Ret (SOPC_STATUS_INVALID_STATE, buf)
  else
    let number (write : encoder Z) :=
      let* n := val_number builtInTypeId val in write (Some n) buf nestedStructLevel in
    let string (write : encoder SOPC_String) :=
      let* s := val_string builtInTypeId val in write (Some s) buf nestedStructLevel in
    match builtInTypeId with
    | SOPC_Boolean_Id => number SOPC_Boolean_Write
    | SOPC_SByte_Id => number SOPC_SByte_Write
    | SOPC_Byte_Id => number SOPC_Byte_Write
    | SOPC_Int16_Id => number SOPC_Int16_Write
    | SOPC_UInt16_Id => number SOPC_UInt16_Write
    | SOPC_Int32_Id => number SOPC_Int32_Write
    | SOPC_UInt32_Id => number SOPC_UInt32_Write
    | SOPC_Int64_Id => number SOPC_Int64_Write
    | SOPC_UInt64_Id => number SOPC_UInt64_Write
    | SOPC_Float_Id => number SOPC_Float_Write
    | SOPC_Double_Id => number SOPC_Double_Write
    | SOPC_String_Id => string SOPC_String_Write
    | SOPC_DateTime_Id => number SOPC_DateTime_Write
    | SOPC_Guid_Id => let* p := val_Guid val in SOPC_Guid_Write p buf nestedStructLevel
    | SOPC_ByteString_Id => string SOPC_ByteString_Write
    | SOPC_XmlElement_Id => string SOPC_XmlElement_Write
    | SOPC_NodeId_Id => let* p := val_NodeId val in SOPC_NodeId_Write p buf nestedStructLevel
    | SOPC_ExpandedNodeId_Id => let* p := val_ExpNodeId val in SOPC_ExpandedNodeId_Write p buf nestedStructLevel
    | SOPC_StatusCode_Id => number SOPC_StatusCode_Write
    | SOPC_QualifiedName_Id => let* p := val_Qname val in SOPC_QualifiedName_Write p buf nestedStructLevel
    | SOPC_LocalizedText_Id => let* p := val_LocalizedText val in SOPC_LocalizedText_Write p buf nestedStructLevel
    | SOPC_ExtensionObject_Id => let* p := val_ExtObject val in SOPC_ExtensionObject_Write p buf nestedStructLevel
    | SOPC_DataValue_Id => let* p := val_DataValue val in DataValue_Write_Nested p buf nestedStructLevel
    | SOPC_Variant_Id => Ret (SOPC_STATUS_INVALID_PARAMETERS, buf)
    | SOPC_DiagnosticInfo_Id => let* p := val_DiagInfo val in SOPC_DiagnosticInfo_Write p buf nestedStructLevel
    | SOPC_Null_Id => Ret (SOPC_STATUS_OK, buf)
    | SOPC_Other_Id _ => Ret (SOPC_STATUS_INVALID_PARAMETERS, buf)
    end.

Definition WriteVariantArrayBuiltInType (buf : ptr SOPC_Buffer) (builtInTypeId : SOPC_BuiltinId)
    (array : SOPC_VariantArrayValue) (length : Z) (nestedStructLevel : Z) : enc_result :=
  if max_nested_struct cfg <=? nestedStructLevel then Ret (SOPC_STATUS_INVALID_STATE, buf)
  else
    let numbers (write : encoder Z) :=
      let* arr := arr_number builtInTypeId array in SOPC_Write_Array buf length arr write nestedStructLevel in
    let strings (write : encoder SOPC_String) :=
      let* arr := arr_string builtInTypeId array in SOPC_Write_Array buf length arr write nestedStructLevel in
    match builtInTypeId with
    | SOPC_Boolean_Id => numbers SOPC_Boolean_Write
    | SOPC_SByte_Id => numbers SOPC_SByte_Write
    | SOPC_Byte_Id => numbers SOPC_Byte_Write
    | SOPC_Int16_Id => numbers SOPC_Int16_Write
    | SOPC_UInt16_Id => numbers SOPC_UInt16_Write
    | SOPC_Int32_Id => numbers SOPC_Int32_Write
    | SOPC_UInt32_Id => numbers SOPC_UInt32_Write
    | SOPC_Int64_Id => numbers SOPC_Int64_Write
    | SOPC_UInt64_Id => numbers SOPC_UInt64_Write
    | SOPC_Float_Id => numbers SOPC_Float_Write
    | SOPC_Double_Id => numbers SOPC_Double_Write
    | SOPC_String_Id => strings SOPC_String_Write
    | SOPC_DateTime_Id => numbers SOPC_DateTime_Write
    | SOPC_Guid_Id => let* arr := arr_Guid array in SOPC_Write_Array buf length arr SOPC_Guid_Write nestedStructLevel
    | SOPC_ByteString_Id => strings SOPC_ByteString_Write
    | SOPC_XmlElement_Id => strings SOPC_XmlElement_Write
    | SOPC_NodeId_Id =>
        let* arr := arr_NodeId array in SOPC_Write_Array buf length arr SOPC_NodeId_Write nestedStructLevel
    | SOPC_ExpandedNodeId_Id =>
        let* arr := arr_ExpNodeId array in SOPC_Write_Array buf length arr SOPC_ExpandedNodeId_Write nestedStructLevel
    | SOPC_StatusCode_Id => numbers SOPC_StatusCode_Write
    | SOPC_QualifiedName_Id =>
        let* arr := arr_Qname array in SOPC_Write_Array buf length arr SOPC_QualifiedName_Write nestedStructLevel
    | SOPC_LocalizedText_Id =>
        let* arr := arr_LocalizedText array in SOPC_Write_Array buf length arr SOPC_LocalizedText_Write nestedStructLevel
    | SOPC_ExtensionObject_Id =>
        let* arr := arr_ExtObject array in SOPC_Write_Array buf length arr SOPC_ExtensionObject_Write nestedStructLevel
    | SOPC_DataValue_Id =>
        let* arr := arr_DataValue array in
        SOPC_Write_Array_WithNestedLevel buf length arr DataValue_Write_Nested nestedStructLevel
    | SOPC_Variant_Id =>
        let* arr := arr_Variant array in
        SOPC_Write_Array_WithNestedLevel buf length arr Variant_Write_Nested nestedStructLevel
    | SOPC_DiagnosticInfo_Id =>
        let* arr := arr_DiagInfo array in SOPC_Write_Array buf length arr SOPC_DiagnosticInfo_Write nestedStructLevel
    | SOPC_Null_Id | SOPC_Other_Id _ => Ret (SOPC_STATUS_INVALID_PARAMETERS, buf)
    end.

(** The dimensions; the loop does not stop when a write fails. *)
Fixpoint write_dims (n : nat) (dims : list Z) (status : SOPC_ReturnStatus) (buf : ptr SOPC_Buffer) (lvl : Z) : enc_result :=
  match n, dims with
  | O, _ => Ret (status, buf)
  | S n, [] => Fault OutOfBounds
  | S n, d :: dims =>
      let* (status, buf) := SOPC_Int32_Write (Some d) buf lvl in
      write_dims n dims status buf lvl
  end.

Definition write_matrix (dimensions : Z) (arrayDimensions : ptr (list Z)) (builtInTypeId : SOPC_BuiltinId)
    (content : SOPC_VariantArrayValue) (buf : ptr SOPC_Buffer) (nestedStructLevel : Z) : enc_result :=
  let* matrixLength := matrix_length dimensions arrayDimensions in
  match matrixLength with
  | None => Ret (SOPC_STATUS_ENCODING_ERROR, buf)
  | Some n =>
      let_ok buf := WriteVariantArrayBuiltInType buf builtInTypeId content n nestedStructLevel in
      let_ok buf := SOPC_Int32_Write (Some dimensions) buf nestedStructLevel in
      if 0 <? dimensions then
        let* dims := deref arrayDimensions in
        write_dims (Z.to_nat dimensions) dims SOPC_STATUS_OK buf nestedStructLevel
      else Ret (SOPC_STATUS_OK, buf)
  end.

Definition variant_write : encoder SOPC_Variant := fun variant buf nestedStructLevel =>
  match variant with
  | NULL => Ret (SOPC_STATUS_INVALID_PARAMETERS, buf)
  | Some v =>
      if max_nested_struct cfg <=? nestedStructLevel then Ret (SOPC_STATUS_INVALID_STATE, buf)
      else
        let nestedStructLevel := nestedStructLevel + 1 in
        let encodingByte := GetVariantEncodingMask v in
        let_ok buf := SOPC_Byte_Write (Some encodingByte) buf nestedStructLevel in
        match ArrayType v with
        | SOPC_VariantArrayType_SingleValue =>
            WriteVariantNonArrayBuiltInType buf (BuiltInTypeId v) (Var_Value v) nestedStructLevel
        | SOPC_VariantArrayType_Array =>
            let* (arrayLength, content) := val_Array (Var_Value v) in
            let arrayLength := if arrayLength =? -1 then 0 else arrayLength in
            if arrayLength <? 0 then Ret (SOPC_STATUS_ENCODING_ERROR, buf)
            else WriteVariantArrayBuiltInType buf (BuiltInTypeId v) content arrayLength nestedStructLevel
        | SOPC_VariantArrayType_Matrix =>
            let* (dimensions, arrayDimensions, content) := val_Matrix (Var_Value v) in
            write_matrix dimensions arrayDimensions (BuiltInTypeId v) content buf nestedStructLevel
        end
  end.

Definition SOPC_DataValue_NotNullValue : Z := 0x01.
Definition SOPC_DataValue_NotGoodStatusCode : Z := 0x02.
Definition SOPC_DataValue_NotMinSourceDate : Z := 0x04.
Definition SOPC_DataValue_NotMinServerDate : Z := 0x08.
Definition SOPC_DataValue_NotZeroSourcePico : Z := 0x10.
Definition SOPC_DataValue_NotZeroServerPico : Z := 0x20.

Definition GetDataValueEncodingMask (dataValue : SOPC_DataValue) : Z :=
  let id := builtin_value (BuiltInTypeId (DV_Value dataValue)) in
  let mask := 0 in
  let mask := set_flag (negb (id =? 0) && (id <=? SOPC_BUILTINID_MAX)) SOPC_DataValue_NotNullValue mask in
  let mask := set_flag (negb (DV_Status dataValue =? 0)) SOPC_DataValue_NotGoodStatusCode mask in
  let mask := set_flag (0 <? SourceTimestamp dataValue) SOPC_DataValue_NotMinSourceDate mask in
  let mask := set_flag (0 <? SourcePicoSeconds dataValue) SOPC_DataValue_NotZeroSourcePico mask in
  let mask := set_flag (0 <? ServerTimestamp dataValue) SOPC_DataValue_NotMinServerDate mask in
  set_flag (0 <? ServerPicoSeconds dataValue) SOPC_DataValue_NotZeroServerPico mask.

Definition datavalue_write : encoder SOPC_DataValue := fun dataValue buf nestedStructLevel =>
  match dataValue with
  | NULL => Ret (SOPC_STATUS_INVALID_PARAMETERS, buf)
  | Some d =>
      if max_nested_struct cfg <=? nestedStructLevel then Ret (SOPC_STATUS_INVALID_STATE, buf)
      else
        let nestedStructLevel := nestedStructLevel + 1 in
        let encodingMask := GetDataValueEncodingMask d in
        let_ok buf := SOPC_Byte_Write (Some encodingMask) buf nestedStructLevel in
        let_ok buf := write_when (has_flag encodingMask SOPC_DataValue_NotNullValue)
                        Variant_Write_Nested (DV_Value d) buf nestedStructLevel in
        let_ok buf := write_when (has_flag encodingMask SOPC_DataValue_NotGoodStatusCode)
                        SOPC_StatusCode_Write (DV_Status d) buf nestedStructLevel in
        let_ok buf := write_when (has_flag encodingMask SOPC_DataValue_NotMinSourceDate)
                        SOPC_DateTime_Write (SourceTimestamp d) buf nestedStructLevel in
        let_ok buf := write_when (has_flag encodingMask SOPC_DataValue_NotZeroSourcePico)
                        SOPC_UInt16_Write (SourcePicoSeconds d) buf nestedStructLevel in
        let_ok buf := write_when (has_flag encodingMask SOPC_DataValue_NotMinServerDate)
                        SOPC_DateTime_Write (ServerTimestamp d) buf nestedStructLevel in
        write_when (has_flag encodingMask SOPC_DataValue_NotZeroServerPico)
          SOPC_UInt16_Write (ServerPicoSeconds d) buf nestedStructLevel
  end.
End Bodies.

(** One unit of fuel per call. *)
Fixpoint Variant_Write_fuel (fuel : nat) : encoder SOPC_Variant :=
  match fuel with
  | O => fun _ _ _ => Fault OutOfFuel
  | S n => variant_write (Variant_Write_fuel n) (DataValue_Write_fuel n)
  end
with DataValue_Write_fuel (fuel : nat) : encoder SOPC_DataValue :=
  match fuel with
  | O => fun _ _ _ => Fault OutOfFuel
  | S n => datavalue_write (Variant_Write_fuel n)
  end.

(** The levels left, and the call itself. *)
Definition nesting_fuel (nestedStructLevel : Z) : nat := S (Z.to_nat (max_nested_struct cfg - nestedStructLevel)).

Definition SOPC_Variant_Write_Internal : encoder SOPC_Variant := fun variant buf nestedStructLevel =>
  Variant_Write_fuel (nesting_fuel nestedStructLevel) variant buf nestedStructLevel.

Definition SOPC_Variant_Write : encoder SOPC_Variant := fun variant buf nestedStructLevel =>
  if max_nested_struct cfg <=? nestedStructLevel then Ret (SOPC_STATUS_INVALID_STATE, buf)
  else SOPC_Variant_Write_Internal variant buf nestedStructLevel.

Definition SOPC_DataValue_Write_Internal : encoder SOPC_DataValue := fun dataValue buf nestedStructLevel =>
  DataValue_Write_fuel (nesting_fuel nestedStructLevel) dataValue buf nestedStructLevel.

Definition SOPC_DataValue_Write : encoder SOPC_DataValue := fun dataValue buf nestedStructLevel =>
  SOPC_DataValue_Write_Internal dataValue buf nestedStructLevel.

End Encoders.

(** ** Decoders *)

Section Decoders.
Context `{Allocator} `{Host} `{EndiannessCfg} {cfg : SOPC_Common_EncodingConstants}.
Context `{EncodeableTypes}.

(** A value behind a pointer: allocated, initialised and decoded; freed after a
    failure. *)
Definition read_ptr {A} (size : Z) (init : A) (read : decoder A) (buf : ptr SOPC_Buffer) (lvl : Z)
    : res (SOPC_ReturnStatus * ptr A * ptr SOPC_Buffer) :=
  if alloc_ok size then
    let* (status, v, buf) := read (Some init) buf lvl in
    Ret (status, if is_ok status then v else NULL, buf)
  else Ret (SOPC_STATUS_NOK, NULL, buf).

Section Bodies.
(** The decoders for the nested values. *)
Variable Variant_Read_Nested : decoder SOPC_Variant.
Variable DataValue_Read_Nested : decoder SOPC_DataValue.

(** Returns the status, the union and the buffer. *)
Definition ReadVariantNonArrayBuiltInType (buf : ptr SOPC_Buffer) (builtInTypeId : SOPC_BuiltinId)
    (val : SOPC_VariantValue) (nestedStructLevel : Z) : res (SOPC_ReturnStatus * SOPC_VariantValue * ptr SOPC_Buffer) :=
  if max_nested_struct cfg <=? nestedStructLevel then Ret (SOPC_STATUS_INVALID_STATE, val, buf)
  else
    let number (read : decoder Z) :=
      let* n := val_number builtInTypeId val in
      let* (status, n, buf) := read (Some n) buf nestedStructLevel in
      let* n := deref n in
      Ret (status, ValNumber builtInTypeId n, buf) in
    let string (read : decoder SOPC_String) :=
      let* s := val_string builtInTypeId val in
      let* (status, s, buf) := read (Some s) buf nestedStructLevel in
      let* s := deref s in
      Ret (status, ValString builtInTypeId s, buf) in
    match builtInTypeId with
    | SOPC_Boolean_Id => number SOPC_Boolean_Read
    | SOPC_SByte_Id => number SOPC_SByte_Read
    | SOPC_Byte_Id => number SOPC_Byte_Read
    | SOPC_Int16_Id => number SOPC_Int16_Read
    | SOPC_UInt16_Id => number SOPC_UInt16_Read
    | SOPC_Int32_Id => number SOPC_Int32_Read
    | SOPC_UInt32_Id => number SOPC_UInt32_Read
    | SOPC_Int64_Id => number SOPC_Int64_Read
    | SOPC_UInt64_Id => number SOPC_UInt64_Read
    | SOPC_Float_Id => number SOPC_Float_Read
    | SOPC_Double_Id => number SOPC_Double_Read
    | SOPC_String_Id => string SOPC_String_Read
    | SOPC_DateTime_Id => number SOPC_DateTime_Read
    | SOPC_Guid_Id =>
        let* (status, p, buf) := read_ptr sizeof_Guid guid_init SOPC_Guid_Read buf nestedStructLevel in
        Ret (status, ValGuid p, buf)
    | SOPC_ByteString_Id => string SOPC_ByteString_Read
    | SOPC_XmlElement_Id => string SOPC_XmlElement_Read
    | SOPC_NodeId_Id =>
        let* (status, p, buf) := read_ptr sizeof_NodeId nodeid_init SOPC_NodeId_Read buf nestedStructLevel in
        Ret (status, ValNodeId p, buf)
    | SOPC_ExpandedNodeId_Id =>
        let* (status, p, buf) := read_ptr sizeof_ExpandedNodeId expnodeid_init SOPC_ExpandedNodeId_Read buf nestedStructLevel in
        Ret (status, ValExpNodeId p, buf)
    | SOPC_StatusCode_Id => number SOPC_StatusCode_Read
    | SOPC_QualifiedName_Id =>
        let* (status, p, buf) := read_ptr sizeof_QualifiedName qname_init SOPC_QualifiedName_Read buf nestedStructLevel in
        Ret (status, ValQname p, buf)
    | SOPC_LocalizedText_Id =>
        let* (status, p, buf) := read_ptr sizeof_LocalizedText ltext_init SOPC_LocalizedText_Read buf nestedStructLevel in
        Ret (status, ValLocalizedText p, buf)
    | SOPC_ExtensionObject_Id =>
        let* (status, p, buf) := read_ptr sizeof_ExtensionObject extobj_init SOPC_ExtensionObject_Read buf nestedStructLevel in
        Ret (status, ValExtObject p, buf)
    | SOPC_DataValue_Id =>
        let* (status, p, buf) := read_ptr sizeof_DataValue datavalue_init DataValue_Read_Nested buf nestedStructLevel in
        Ret (status, ValDataValue p, buf)
    | SOPC_Variant_Id => Ret (SOPC_STATUS_ENCODING_ERROR, val, buf)
    | SOPC_DiagnosticInfo_Id =>
        (* cleared before it is freed *)
        let* (status, p, buf) := read_ptr sizeof_DiagnosticInfo diag_init SOPC_DiagnosticInfo_Read buf nestedStructLevel in
        Ret (status, ValDiagInfo p, buf)
    | SOPC_Null_Id => Ret (SOPC_STATUS_OK, val, buf)
    | SOPC_Other_Id _ => Ret (SOPC_STATUS_NOK, val, buf)
    end.

(** Stores the array of a decoder in the union. *)
Definition store_arr {A} (member : list A -> SOPC_VariantArrayValue)
    (r : res (SOPC_ReturnStatus * Z * ptr (list A) * ptr SOPC_Buffer))
    : res (SOPC_ReturnStatus * Z * SOPC_VariantArrayValue * ptr SOPC_Buffer) :=
  let* (status, n, p, buf) := r in
  Ret (status, n, arr_of member p, buf).

(** Returns the status, [*length], the union and the buffer. *)
Definition ReadVariantArrayBuiltInType (buf : ptr SOPC_Buffer) (builtInTypeId : SOPC_BuiltinId)
    (array : SOPC_VariantArrayValue) (length : Z) (nestedStructLevel : Z)
    : res (SOPC_ReturnStatus * Z * SOPC_VariantArrayValue * ptr SOPC_Buffer) :=
  let numbers (size : Z) (read : decoder Z) :=
    let* p := arr_number builtInTypeId array in
    store_arr (ArrNumber builtInTypeId) (SOPC_Read_Array buf length p size read 0 clear_number nestedStructLevel) in
  let strings (read : decoder SOPC_String) :=
    let* p := arr_string builtInTypeId array in
    store_arr (ArrString builtInTypeId)
      (SOPC_Read_Array buf length p sizeof_String read string_init clear_string nestedStructLevel) in
  match builtInTypeId with
  | SOPC_Boolean_Id => numbers 1 SOPC_Boolean_Read
  | SOPC_SByte_Id => numbers 1 SOPC_SByte_Read
  | SOPC_Byte_Id => numbers 1 SOPC_Byte_Read
  | SOPC_Int16_Id => numbers 2 SOPC_Int16_Read
  | SOPC_UInt16_Id => numbers 2 SOPC_UInt16_Read
  | SOPC_Int32_Id => numbers 4 SOPC_Int32_Read
  | SOPC_UInt32_Id => numbers 4 SOPC_UInt32_Read
  | SOPC_Int64_Id => numbers 8 SOPC_Int64_Read
  | SOPC_UInt64_Id => numbers 8 SOPC_UInt64_Read
  | SOPC_Float_Id => numbers 4 SOPC_Float_Read
  | SOPC_Double_Id => numbers 8 SOPC_Double_Read
  | SOPC_String_Id => strings SOPC_String_Read
  | SOPC_DateTime_Id => numbers 8 SOPC_DateTime_Read
  | SOPC_Guid_Id =>
      let* p := arr_Guid array in
      store_arr ArrGuid (SOPC_Read_Array buf length p sizeof_Guid SOPC_Guid_Read guid_init clear_guid nestedStructLevel)
  | SOPC_ByteString_Id => strings SOPC_ByteString_Read
  | SOPC_XmlElement_Id => strings SOPC_XmlElement_Read
  | SOPC_NodeId_Id =>
      let* p := arr_NodeId array in
      store_arr ArrNodeId
        (SOPC_Read_Array buf length p sizeof_NodeId SOPC_NodeId_Read nodeid_init clear_nodeid nestedStructLevel)
  | SOPC_ExpandedNodeId_Id =>
      let* p := arr_ExpNodeId array in
      store_arr ArrExpNodeId
        (SOPC_Read_Array buf length p sizeof_ExpandedNodeId SOPC_ExpandedNodeId_Read expnodeid_init clear_expnodeid nestedStructLevel)
  | SOPC_StatusCode_Id => numbers 4 SOPC_StatusCode_Read
  | SOPC_QualifiedName_Id =>
      let* p := arr_Qname array in
      store_arr ArrQname
        (SOPC_Read_Array buf length p sizeof_QualifiedName SOPC_QualifiedName_Read qname_init clear_qname nestedStructLevel)
  | SOPC_LocalizedText_Id =>
      let* p := arr_LocalizedText array in
      store_arr ArrLocalizedText
        (SOPC_Read_Array buf length p sizeof_LocalizedText SOPC_LocalizedText_Read ltext_init clear_ltext nestedStructLevel)
  | SOPC_ExtensionObject_Id =>
      let* p := arr_ExtObject array in
      store_arr ArrExtObject
        (SOPC_Read_Array buf length p sizeof_ExtensionObject SOPC_ExtensionObject_Read extobj_init clear_extobj nestedStructLevel)
  | SOPC_DataValue_Id =>
      let* p := arr_DataValue array in
      store_arr ArrDataValue
        (SOPC_Read_Array_WithNestedLevel buf length p sizeof_DataValue DataValue_Read_Nested datavalue_init
           SOPC_DataValue_Clear' nestedStructLevel)
  | SOPC_Variant_Id =>
      let* p := arr_Variant array in
      store_arr ArrVariant
        (SOPC_Read_Array_WithNestedLevel buf length p sizeof_Variant Variant_Read_Nested variant_init
           SOPC_Variant_Clear' nestedStructLevel)
  | SOPC_DiagnosticInfo_Id =>
      let* p := arr_DiagInfo array in
      store_arr ArrDiagInfo
        (SOPC_Read_Array buf length p sizeof_DiagnosticInfo SOPC_DiagnosticInfo_Read diag_init clear_diag nestedStructLevel)
  | SOPC_Null_Id | SOPC_Other_Id _ => Ret (SOPC_STATUS_NOK, length, array, buf)
  end.

(** The dimensions that are left to read.  Returns the status, the dimensions that
    were read, their product and the buffer. *)
Fixpoint read_dims (n : nat) (dims : list Z) (matrixLength arrayLength : Z) (buf : ptr SOPC_Buffer) (lvl : Z)
    : res (SOPC_ReturnStatus * list Z * Z * ptr SOPC_Buffer) :=
  match n with
  | O => Ret (SOPC_STATUS_OK, dims, matrixLength, buf)
  | S n =>
      let* (status, d, buf) := SOPC_Int32_Read (Some 0) buf lvl in
      let* d := deref d in
      if is_ok status && (0 <? d) then
        let matrixLength := matrixLength * d in
        if arrayLength <? matrixLength then Ret (SOPC_STATUS_ENCODING_ERROR, dims ++ [d], matrixLength, buf)
        else read_dims n (dims ++ [d]) matrixLength arrayLength buf lvl
      else Ret (SOPC_STATUS_ENCODING_ERROR, dims ++ [d], matrixLength, buf)
  end.

(** The dimensions of a matrix whose content was read.  Returns the status, the
    number of dimensions, the dimensions and the buffer. *)
Definition read_matrix_dims (status : SOPC_ReturnStatus) (dimensions : Z) (arrayDimensions : ptr (list Z)) (arrayLength : Z)
    (buf : ptr SOPC_Buffer) (nestedStructLevel : Z) : res (SOPC_ReturnStatus * Z * ptr (list Z) * ptr SOPC_Buffer) :=
  let status := if is_ok status && (arrayLength <? 0) then SOPC_STATUS_ENCODING_ERROR else status in
  let* (status, d, buf) := read_if status SOPC_Int32_Read dimensions buf nestedStructLevel in
  let* dimensions := deref d in
  if negb (is_ok status) then Ret (status, dimensions, arrayDimensions, buf)
  else if (dimensions <? 0) || (max_array_length cfg <? dimensions) || (SIZE_MAX <? u64 dimensions)
  then Ret (SOPC_STATUS_OUT_OF_MEMORY, dimensions, arrayDimensions, buf)
  else if alloc_ok (4 * dimensions) then
    let matrixLength := if dimensions =? 0 then 0 else 1 in
    let* (status, dims, matrixLength, buf) :=
      read_dims (Z.to_nat dimensions) [] matrixLength arrayLength buf nestedStructLevel in
    if is_ok status then
      Ret (if matrixLength =? arrayLength then SOPC_STATUS_OK else SOPC_STATUS_ENCODING_ERROR, dimensions, Some dims, buf)
    else Ret (status, dimensions, NULL, buf)
  else Ret (SOPC_STATUS_NOK, dimensions, NULL, buf).

(** After a failure: the dimensions are forced to the length of the content, and
    the variant is cleared. *)
Definition clear_failed_matrix (v : SOPC_Variant) (status : SOPC_ReturnStatus) (arrayLength : Z)
    (arrayDimensions : ptr (list Z)) (content : SOPC_VariantArrayValue) : res (SOPC_ReturnStatus * SOPC_Variant) :=
  let '(status, dimensions, arrayDimensions) :=
    (if 0 <? arrayLength then
       if alloc_ok 4 then (status, 1, Some [arrayLength])
       else (SOPC_STATUS_OUT_OF_MEMORY, 1, arrayDimensions)
     else (status, 0, arrayDimensions)) in
  let* v := SOPC_Variant_Clear' (mkVariant (Var_DoNotClear v) (BuiltInTypeId v) SOPC_VariantArrayType_Matrix
                                   (ValMatrix dimensions arrayDimensions content)) in
  Ret (status, v).

(** [SOPC_Int32_Clear(&value.Matrix.Dimensions)]: the length of an array is at the
    same place. *)
Definition clear_dimensions (v : SOPC_VariantValue) : SOPC_VariantValue :=
  match v with
  | ValZero => ValZero
  | ValArray _ c => ValArray 0 c
  | ValMatrix _ p c => ValMatrix 0 p c
  | _ => ValIndeterminate
  end.

Definition read_value (v : SOPC_Variant) (buf : ptr SOPC_Buffer) (nestedStructLevel : Z)
    : res (SOPC_ReturnStatus * SOPC_Variant * ptr SOPC_Buffer) :=
  let '(mkVariant dnc id arrayType value) := v in
  match arrayType with
  | SOPC_VariantArrayType_SingleValue =>
      let* (status, value, buf) := ReadVariantNonArrayBuiltInType buf id value nestedStructLevel in
      Ret (status, mkVariant dnc id arrayType value, buf)
  | SOPC_VariantArrayType_Array =>
      let* (_, content) := val_Array value in
      let* (status, arrayLength, content, buf) := ReadVariantArrayBuiltInType buf id content 0 nestedStructLevel in
      Ret (status, mkVariant dnc id arrayType (ValArray arrayLength content), buf)
  | SOPC_VariantArrayType_Matrix =>
      let* (dimensions, arrayDimensions, content) := val_Matrix value in
      let* (status, arrayLength, content, buf) := ReadVariantArrayBuiltInType buf id content 0 nestedStructLevel in
      let* (status, dimensions, arrayDimensions, buf) :=
        read_matrix_dims status dimensions arrayDimensions arrayLength buf nestedStructLevel in
      if is_ok status
      then Ret (status, mkVariant dnc id arrayType (ValMatrix dimensions arrayDimensions content), buf)
      else
        let* (status, v) := clear_failed_matrix v status arrayLength arrayDimensions content in
        Ret (status, v, buf)
  end.

Definition variant_read : decoder SOPC_Variant := fun variant buf nestedStructLevel =>
  match variant with
  | NULL => Ret (SOPC_STATUS_INVALID_PARAMETERS, variant, buf)
  | Some v =>
      if max_nested_struct cfg <=? nestedStructLevel then Ret (SOPC_STATUS_INVALID_STATE, variant, buf)
      else
        let nestedStructLevel := nestedStructLevel + 1 in
        let* (status, e, buf) := SOPC_Byte_Read (Some 0) buf nestedStructLevel in
        let* encodingByte := deref e in
        let '(status, v) :=
          (if is_ok status then
             let arrayFlag := has_flag encodingByte SOPC_VariantArrayValueFlag in
             let dimensionsFlag := has_flag encodingByte SOPC_VariantArrayDimensionsFlag in
             let arrayType :=
               if arrayFlag then if dimensionsFlag then SOPC_VariantArrayType_Matrix else SOPC_VariantArrayType_Array
               else if dimensionsFlag then ArrayType v else SOPC_VariantArrayType_SingleValue in
             (if negb arrayFlag && dimensionsFlag then SOPC_STATUS_INVALID_PARAMETERS else status,
              mkVariant (Var_DoNotClear v) (builtin_of (Z.land 0x3F encodingByte)) arrayType (Var_Value v))
           else (status, v)) in
        let* (status, v, buf) :=
          (if is_ok status then read_value v buf nestedStructLevel else Ret (status, v, buf)) in
        if is_ok status then Ret (status, Some v, buf)
        else Ret (status, Some (mkVariant (Var_DoNotClear v) SOPC_Null_Id (ArrayType v) (clear_dimensions (Var_Value v))), buf)
  end.

(** A field that is read when its flag is set and the status is OK, and reset
    otherwise. *)
Definition read_or_reset {A} (c : bool) (status : SOPC_ReturnStatus) (read : decoder A) (field reset : A)
    (buf : ptr SOPC_Buffer) (lvl : Z) : dec_result A :=
  if is_ok status && c then read (Some field) buf lvl else Ret (status, Some reset, buf).

Definition datavalue_read : decoder SOPC_DataValue := fun dataValue buf nestedStructLevel =>
  match dataValue with
  | NULL => Ret (SOPC_STATUS_INVALID_PARAMETERS, dataValue, buf)
  | Some d =>
      if max_nested_struct cfg <=? nestedStructLevel then Ret (SOPC_STATUS_INVALID_STATE, dataValue, buf)
      else
        let nestedStructLevel := nestedStructLevel + 1 in
        let* (status, m, buf) := SOPC_Byte_Read (Some 0) buf nestedStructLevel in
        let* mask := deref m in
        let '(mkVariant dnc _ arrayType value) := DV_Value d in
        let* (status, v, buf) :=
          read_or_reset (has_flag mask SOPC_DataValue_NotNullValue) status Variant_Read_Nested
            (DV_Value d) (mkVariant dnc SOPC_Null_Id arrayType value) buf nestedStructLevel in
        let* v := deref v in
        let* (status, st, buf) :=
          read_or_reset (has_flag mask SOPC_DataValue_NotGoodStatusCode) status SOPC_StatusCode_Read
            (DV_Status d) 0 buf nestedStructLevel in
        let* st := deref st in
        let* (status, srcT, buf) :=
          read_or_reset (has_flag mask SOPC_DataValue_NotMinSourceDate) status SOPC_DateTime_Read
            (SourceTimestamp d) 0 buf nestedStructLevel in
        let* srcT := deref srcT in
        let* (status, srcP, buf) :=
          read_or_reset (has_flag mask SOPC_DataValue_NotZeroSourcePico) status SOPC_UInt16_Read
            (SourcePicoSeconds d) 0 buf nestedStructLevel in
        let* srcP := deref srcP in
        let* (status, srvT, buf) :=
          read_or_reset (has_flag mask SOPC_DataValue_NotMinServerDate) status SOPC_DateTime_Read
            (ServerTimestamp d) 0 buf nestedStructLevel in
        let* srvT := deref srvT in
        let* (status, srvP, buf) :=
          read_or_reset (has_flag mask SOPC_DataValue_NotZeroServerPico) status SOPC_UInt16_Read
            (ServerPicoSeconds d) 0 buf nestedStructLevel in
        let* srvP := deref srvP in
        if is_ok status then Ret (status, Some (mkDataValue v st srcT srvT srcP srvP), buf)
        else
          let* v := SOPC_Variant_Clear' v in
          Ret (status, Some (mkDataValue v 0 0 0 0 srvP), buf)
  end.
End Bodies.

Fixpoint Variant_Read_fuel (fuel : nat) : decoder SOPC_Variant :=
  match fuel with
  | O => fun _ _ _ => Fault OutOfFuel
  | S n => variant_read (Variant_Read_fuel n) (DataValue_Read_fuel n)
  end
with DataValue_Read_fuel (fuel : nat) : decoder SOPC_DataValue :=
  match fuel with
  | O => fun _ _ _ => Fault OutOfFuel
  | S n => datavalue_read (Variant_Read_fuel n)
  end.

Definition SOPC_Variant_Read_Internal : decoder SOPC_Variant := fun variant buf nestedStructLevel =>
  Variant_Read_fuel (nesting_fuel nestedStructLevel) variant buf nestedStructLevel.

Definition SOPC_Variant_Read : decoder SOPC_Variant := fun variant buf nestedStructLevel =>
  SOPC_Variant_Read_Internal variant buf nestedStructLevel.

Definition SOPC_DataValue_Read_Internal : decoder SOPC_DataValue := fun dataValue buf nestedStructLevel =>
  DataValue_Read_fuel (nesting_fuel nestedStructLevel) dataValue buf nestedStructLevel.

Definition SOPC_DataValue_Read : decoder SOPC_DataValue := fun dataValue buf nestedStructLevel =>
  SOPC_DataValue_Read_Internal dataValue buf nestedStructLevel.

End Decoders.

#[export] Hint Opaque SOPC_Variant_Write SOPC_Variant_Read SOPC_DataValue_Write SOPC_DataValue_Read : typeclass_instances.
