(* ===== verification/EncVariantSpec.v ===== *)
(** * Variants and data values: specification

    The binary encoding of the variants and data values of [EncVariant.v], the
    values that can be encoded and decoded, and the proof that the encoders and
    the decoders honour the contract.  The proof is by induction on the fuel: the
    functions for a level are related to the functions for the deeper levels. *)

From Stdlib Require Import ZArith Lia.
From Stdlib Require Import Strings.Byte.
From stdpp Require Import prelude.
From S2P Require Import Prelude Common Buffer Codec EncScalar EncString EncNodeId EncText EncArray EncExtObj EncVariant.

Open Scope Z_scope.

(** ** Specification *)

(** What the decoders rely on: a limit on the length of the arrays that is not
    negative, and, after the failed decoding of a matrix, one integer. *)
Class VariantLimits `{Allocator} {cfg : SOPC_Common_EncodingConstants} : Prop := {
  array_limit : 0 <= max_array_length cfg;
  dimension_alloc : alloc_ok 4 = true
}.

Section Specs.
Context `{Allocator} `{Host} `{EndiannessCfg} {cfg : SOPC_Common_EncodingConstants}.
Context `{!EndiannessDetected} `{EncodeableTypes} `{!EncodeableLaws} `{!VariantLimits}.

(** *** The built-in types without nested values *)

Definition is_number (id : SOPC_BuiltinId) : bool :=
  match id with
  | SOPC_Boolean_Id | SOPC_SByte_Id | SOPC_Byte_Id | SOPC_Int16_Id | SOPC_UInt16_Id | SOPC_Int32_Id | SOPC_UInt32_Id
  | SOPC_Int64_Id | SOPC_UInt64_Id | SOPC_Float_Id | SOPC_Double_Id | SOPC_DateTime_Id | SOPC_StatusCode_Id => true
  | _ => false
  end.

Definition is_string (id : SOPC_BuiltinId) : bool :=
  match id with SOPC_String_Id | SOPC_ByteString_Id | SOPC_XmlElement_Id => true | _ => false end.

Definition number_contract (id : SOPC_BuiltinId) : contract Z :=
  match id with
  | SOPC_Boolean_Id => of_codec SOPC_Boolean_Write 0
  | SOPC_SByte_Id => of_codec SOPC_SByte_Write 0
  | SOPC_Int16_Id => of_codec SOPC_Int16_Write 0
  | SOPC_UInt16_Id => of_codec SOPC_UInt16_Write 0
  | SOPC_Int32_Id => of_codec SOPC_Int32_Write 0
  | SOPC_UInt32_Id => of_codec SOPC_UInt32_Write 0
  | SOPC_Int64_Id => of_codec SOPC_Int64_Write 0
  | SOPC_UInt64_Id => of_codec SOPC_UInt64_Write 0
  | SOPC_Float_Id => of_codec SOPC_Float_Write 0
  | SOPC_Double_Id => of_codec SOPC_Double_Write 0
  | SOPC_DateTime_Id => of_codec SOPC_DateTime_Write 0
  | SOPC_StatusCode_Id => of_codec SOPC_StatusCode_Write 0
  | _ => of_codec SOPC_Byte_Write 0
  end.

(** Strings are decoded in zeroed memory in a value, and in initialised memory in
    an array. *)
Definition string_contract (id : SOPC_BuiltinId) (init : SOPC_String) : contract SOPC_String :=
  match id with
  | SOPC_String_Id => of_codec SOPC_String_Write init
  | SOPC_XmlElement_Id => of_codec SOPC_XmlElement_Write init
  | _ => of_codec SOPC_ByteString_Write init
  end.

Definition guid_contract := of_codec SOPC_Guid_Write guid_init.
Definition nodeid_contract := of_codec SOPC_NodeId_Write nodeid_init.
Definition expnodeid_contract := of_codec SOPC_ExpandedNodeId_Write expnodeid_init.
Definition qname_contract := of_codec SOPC_QualifiedName_Write qname_init.
Definition ltext_contract := of_codec SOPC_LocalizedText_Write ltext_init.
Definition extobj_contract := of_codec SOPC_ExtensionObject_Write extobj_init.
Definition diag_contract := of_codec SOPC_DiagnosticInfo_Write diag_init.

(** *** Values and arrays *)

(** The built-in type of the member that is set. *)
Definition value_id (v : SOPC_VariantValue) : option SOPC_BuiltinId :=
  match v with
  | ValNumber m _ => if is_number m then Some m else None
  | ValString m _ => if is_string m then Some m else None
  | ValGuid _ => Some SOPC_Guid_Id
  | ValNodeId _ => Some SOPC_NodeId_Id
  | ValExpNodeId _ => Some SOPC_ExpandedNodeId_Id
  | ValQname _ => Some SOPC_QualifiedName_Id
  | ValLocalizedText _ => Some SOPC_LocalizedText_Id
  | ValExtObject _ => Some SOPC_ExtensionObject_Id
  | ValDataValue _ => Some SOPC_DataValue_Id
  | ValDiagInfo _ => Some SOPC_DiagnosticInfo_Id
  | _ => None
  end.

Definition is_array_id (id : SOPC_BuiltinId) : bool :=
  match id with SOPC_Null_Id | SOPC_Other_Id _ => false | _ => true end.

(** The content is the member of the built-in type, or a null pointer. *)
Definition content_for (id : SOPC_BuiltinId) (c : SOPC_VariantArrayValue) : Prop :=
  is_array_id id = true /\
  match c with
  | ArrNull => True
  | ArrNumber m _ => m = id /\ is_number m = true
  | ArrString m _ => m = id /\ is_string m = true
  | ArrGuid _ => id = SOPC_Guid_Id
  | ArrNodeId _ => id = SOPC_NodeId_Id
  | ArrExpNodeId _ => id = SOPC_ExpandedNodeId_Id
  | ArrQname _ => id = SOPC_QualifiedName_Id
  | ArrLocalizedText _ => id = SOPC_LocalizedText_Id
  | ArrExtObject _ => id = SOPC_ExtensionObject_Id
  | ArrDataValue _ => id = SOPC_DataValue_Id
  | ArrVariant _ => id = SOPC_Variant_Id
  | ArrDiagInfo _ => id = SOPC_DiagnosticInfo_Id
  end.

Definition content_len (c : SOPC_VariantArrayValue) : Z :=
  match c with
  | ArrNull => 0
  | ArrNumber _ l => zlen l
  | ArrString _ l => zlen l
  | ArrGuid l => zlen l
  | ArrNodeId l => zlen l
  | ArrExpNodeId l => zlen l
  | ArrQname l => zlen l
  | ArrLocalizedText l => zlen l
  | ArrExtObject l => zlen l
  | ArrDataValue l => zlen l
  | ArrVariant l => zlen l
  | ArrDiagInfo l => zlen l
  end.

(** The dimensions of a matrix of [len] elements. *)
Definition product (dims : list Z) : Z := foldr Z.mul 1 dims.

Definition matrix_dims (n : Z) (p : ptr (list Z)) : list Z := take (Z.to_nat n) (default [] p).

Definition dims_wf (n : Z) (p : ptr (list Z)) (len : Z) : Prop :=
  0 <= n < 2 ^ 31 /\
  (n = 0 -> len = 0) /\
  (0 < n -> exists dims, p = Some dims /\ zlen dims = n /\ Forall (fun d => 0 < d < 2 ^ 31) dims /\ product dims = len).

Definition is_null_value (id : SOPC_BuiltinId) : bool := if decide (id = SOPC_Null_Id) then true else false.

(** A data value holds a value when the variant has a known type. *)
Definition has_value (v : SOPC_Variant) : bool :=
  let id := builtin_value (BuiltInTypeId v) in negb (id =? 0) && (id <=? SOPC_BUILTINID_MAX).

(** *** Encodings *)

Fixpoint variant_wire (v : SOPC_Variant) : block :=
  match v with
  | mkVariant _ id arrayType value =>
      [z2b (GetVariantEncodingMask v)] ++
      match arrayType with
      | SOPC_VariantArrayType_SingleValue => if is_null_value id then [] else value_wire value
      | _ => value_wire value
      end
  end
with value_wire (v : SOPC_VariantValue) : block :=
  match v with
  | ValNumber m n => c_wire (number_contract m) n
  | ValString m s => c_wire (string_contract m string_init) s
  | ValGuid (Some g) => c_wire guid_contract g
  | ValNodeId (Some n) => c_wire nodeid_contract n
  | ValExpNodeId (Some n) => c_wire expnodeid_contract n
  | ValQname (Some q) => c_wire qname_contract q
  | ValLocalizedText (Some t) => c_wire ltext_contract t
  | ValExtObject (Some e) => c_wire extobj_contract e
  | ValDataValue (Some d) => datavalue_wire d
  | ValDiagInfo (Some d) => c_wire diag_contract d
  | ValArray _ c => le_bytes 4 (content_len c) ++ content_wire c
  | ValMatrix n p c =>
      (le_bytes 4 (content_len c) ++ content_wire c) ++ le_bytes 4 n ++ flat_map (le_bytes 4) (matrix_dims n p)
  | _ => []
  end
with content_wire (c : SOPC_VariantArrayValue) : block :=
  match c with
  | ArrNull => []
  | ArrNumber m l => flat_map (c_wire (number_contract m)) l
  | ArrString m l => flat_map (c_wire (string_contract m string_init)) l
  | ArrGuid l => flat_map (c_wire guid_contract) l
  | ArrNodeId l => flat_map (c_wire nodeid_contract) l
  | ArrExpNodeId l => flat_map (c_wire expnodeid_contract) l
  | ArrQname l => flat_map (c_wire qname_contract) l
  | ArrLocalizedText l => flat_map (c_wire ltext_contract) l
  | ArrExtObject l => flat_map (c_wire extobj_contract) l
  | ArrDataValue l => flat_map datavalue_wire l
  | ArrVariant l => flat_map variant_wire l
  | ArrDiagInfo l => flat_map (c_wire diag_contract) l
  end
with datavalue_wire (d : SOPC_DataValue) : block :=
  match d with
  | mkDataValue v st srcT srvT srcP srvP =>
      [z2b (GetDataValueEncodingMask d)] ++
      (if has_value v then variant_wire v else []) ++
      (if negb (st =? 0) then le_bytes 4 st else []) ++
      (if 0 <? srcT then le_bytes 8 srcT else []) ++
      (if 0 <? srcP then le_bytes 2 srcP else []) ++
      (if 0 <? srvT then le_bytes 8 srvT else []) ++
      (if 0 <? srvP then le_bytes 2 srvP else [])
  end.

(** *** Well-formed values *)

Fixpoint variant_wf (v : SOPC_Variant) : Prop :=
  match v with
  | mkVariant _ id arrayType value =>
      match arrayType with
      | SOPC_VariantArrayType_SingleValue => id = SOPC_Null_Id \/ (value_id value = Some id /\ value_wf value)
      | SOPC_VariantArrayType_Array =>
          match value with
          | ValArray n c => -1 <= n < 2 ^ 31 /\ content_len c = Z.max 0 n /\ content_for id c /\ content_wf c
          | _ => False
          end
      | SOPC_VariantArrayType_Matrix =>
          match value with
          | ValMatrix n p c => content_len c < 2 ^ 31 /\ dims_wf n p (content_len c) /\ content_for id c /\ content_wf c
          | _ => False
          end
      end
  end
with value_wf (v : SOPC_VariantValue) : Prop :=
  match v with
  | ValNumber m n => c_wf (number_contract m) n
  | ValString m s => c_wf (string_contract m string_init) s
  | ValGuid (Some g) => c_wf guid_contract g
  | ValNodeId (Some n) => c_wf nodeid_contract n
  | ValExpNodeId (Some n) => c_wf expnodeid_contract n
  | ValQname (Some q) => c_wf qname_contract q
  | ValLocalizedText (Some t) => c_wf ltext_contract t
  | ValExtObject (Some e) => c_wf extobj_contract e
  | ValDataValue (Some d) => datavalue_wf d
  | ValDiagInfo (Some d) => c_wf diag_contract d
  | _ => False
  end
with content_wf (c : SOPC_VariantArrayValue) : Prop :=
  match c with
  | ArrNull => True
  | ArrNumber m l => All (c_wf (number_contract m)) l
  | ArrString m l => All (c_wf (string_contract m string_init)) l
  | ArrGuid l => All (c_wf guid_contract) l
  | ArrNodeId l => All (c_wf nodeid_contract) l
  | ArrExpNodeId l => All (c_wf expnodeid_contract) l
  | ArrQname l => All (c_wf qname_contract) l
  | ArrLocalizedText l => All (c_wf ltext_contract) l
  | ArrExtObject l => All (c_wf extobj_contract) l
  | ArrDataValue l => All datavalue_wf l
  | ArrVariant l => All variant_wf l
  | ArrDiagInfo l => All (c_wf diag_contract) l
  end
with datavalue_wf (d : SOPC_DataValue) : Prop :=
  match d with
  | mkDataValue v st srcT srvT srcP srvP =>
      (has_value v = true -> variant_wf v) /\ (has_value v = false -> exists v', SOPC_Variant_Clear' v = Ret v') /\
      in_u 32 st /\ in_s 64 srcT /\ in_s 64 srvT /\ in_u 16 srcP /\ in_u 16 srvP
  end.

(** *** Limits of the decoders

    Lengths, and no extension object with a byte string body ([ext_readable]). *)

Fixpoint variant_limits (v : SOPC_Variant) : Prop :=
  match v with
  | mkVariant _ id arrayType value =>
      match arrayType with
      | SOPC_VariantArrayType_SingleValue => is_null_value id = false -> value_limits value
      | _ =>
          match value with
          | ValArray n c => content_len c <= max_array_length cfg /\ content_limits c
          | ValMatrix n p c => content_len c <= max_array_length cfg /\ n <= max_array_length cfg /\ content_limits c
          | _ => True
          end
      end
  end
with value_limits (v : SOPC_VariantValue) : Prop :=
  match v with
  | ValNumber m n => c_limits (number_contract m) n
  | ValString m s => c_limits (string_contract m string_init) s
  | ValGuid (Some g) => c_limits guid_contract g
  | ValNodeId (Some n) => c_limits nodeid_contract n
  | ValExpNodeId (Some n) => c_limits expnodeid_contract n
  | ValQname (Some q) => c_limits qname_contract q
  | ValLocalizedText (Some t) => c_limits ltext_contract t
  | ValExtObject (Some e) => c_limits extobj_contract e
  | ValDataValue (Some d) => datavalue_limits d
  | ValDiagInfo (Some d) => c_limits diag_contract d
  | _ => True
  end
with content_limits (c : SOPC_VariantArrayValue) : Prop :=
  match c with
  | ArrNull => True
  | ArrNumber m l => All (c_limits (number_contract m)) l
  | ArrString m l => All (c_limits (string_contract m string_init)) l
  | ArrGuid l => All (c_limits guid_contract) l
  | ArrNodeId l => All (c_limits nodeid_contract) l
  | ArrExpNodeId l => All (c_limits expnodeid_contract) l
  | ArrQname l => All (c_limits qname_contract) l
  | ArrLocalizedText l => All (c_limits ltext_contract) l
  | ArrExtObject l => All (c_limits extobj_contract) l
  | ArrDataValue l => All datavalue_limits l
  | ArrVariant l => All variant_limits l
  | ArrDiagInfo l => All (c_limits diag_contract) l
  end
with datavalue_limits (d : SOPC_DataValue) : Prop :=
  match d with mkDataValue v _ _ _ _ _ => has_value v = true -> variant_limits v end.

(** *** Levels of nesting *)

Fixpoint variant_nests (v : SOPC_Variant) (lvl : Z) : Prop :=
  match v with
  | mkVariant _ id arrayType value =>
      lvl + 2 <= max_nested_struct cfg /\
      match arrayType with
      | SOPC_VariantArrayType_SingleValue => is_null_value id = false -> value_nests value (lvl + 1)
      | _ =>
          match value with
          | ValArray _ c | ValMatrix _ _ c => lvl + 3 <= max_nested_struct cfg /\ content_nests c (lvl + 2)
          | _ => True
          end
      end
  end
with value_nests (v : SOPC_VariantValue) (lvl : Z) : Prop :=
  match v with
  | ValNumber m n => c_nests (number_contract m) n lvl
  | ValString m s => c_nests (string_contract m string_init) s lvl
  | ValGuid (Some g) => c_nests guid_contract g lvl
  | ValNodeId (Some n) => c_nests nodeid_contract n lvl
  | ValExpNodeId (Some n) => c_nests expnodeid_contract n lvl
  | ValQname (Some q) => c_nests qname_contract q lvl
  | ValLocalizedText (Some t) => c_nests ltext_contract t lvl
  | ValExtObject (Some e) => c_nests extobj_contract e lvl
  | ValDataValue (Some d) => datavalue_nests d lvl
  | ValDiagInfo (Some d) => c_nests diag_contract d lvl
  | _ => True
  end
with content_nests (c : SOPC_VariantArrayValue) (lvl : Z) : Prop :=
  match c with
  | ArrNull => True
  | ArrNumber m l => All (fun v => c_nests (number_contract m) v lvl) l
  | ArrString m l => All (fun v => c_nests (string_contract m string_init) v lvl) l
  | ArrGuid l => All (fun v => c_nests guid_contract v lvl) l
  | ArrNodeId l => All (fun v => c_nests nodeid_contract v lvl) l
  | ArrExpNodeId l => All (fun v => c_nests expnodeid_contract v lvl) l
  | ArrQname l => All (fun v => c_nests qname_contract v lvl) l
  | ArrLocalizedText l => All (fun v => c_nests ltext_contract v lvl) l
  | ArrExtObject l => All (fun v => c_nests extobj_contract v lvl) l
  | ArrDataValue l => All (fun v => datavalue_nests v lvl) l
  | ArrVariant l => All (fun v => variant_nests v lvl) l
  | ArrDiagInfo l => All (fun v => c_nests diag_contract v lvl) l
  end
with datavalue_nests (d : SOPC_DataValue) (lvl : Z) : Prop :=
  match d with
  | mkDataValue v _ srcT srvT _ _ =>
      lvl + 2 <= max_nested_struct cfg /\ (has_value v = true -> variant_nests v (lvl + 1)) /\
      (0 < srcT \/ 0 < srvT -> lvl + 3 <= max_nested_struct cfg)
  end.

(** *** Canonical values *)

Fixpoint variant_canon (v : SOPC_Variant) : SOPC_Variant :=
  match v with
  | mkVariant _ id arrayType value =>
      mkVariant false id arrayType
        match arrayType with
        | SOPC_VariantArrayType_SingleValue => if is_null_value id then ValZero else value_canon value
        | _ => value_canon value
        end
  end
with value_canon (v : SOPC_VariantValue) : SOPC_VariantValue :=
  match v with
  | ValNumber m n => ValNumber m (c_canon (number_contract m) n)
  | ValString m s => ValString m (c_canon (string_contract m string_init) s)
  | ValGuid (Some g) => ValGuid (Some (c_canon guid_contract g))
  | ValNodeId (Some n) => ValNodeId (Some (c_canon nodeid_contract n))
  | ValExpNodeId (Some n) => ValExpNodeId (Some (c_canon expnodeid_contract n))
  | ValQname (Some q) => ValQname (Some (c_canon qname_contract q))
  | ValLocalizedText (Some t) => ValLocalizedText (Some (c_canon ltext_contract t))
  | ValExtObject (Some e) => ValExtObject (Some (c_canon extobj_contract e))
  | ValDataValue (Some d) => ValDataValue (Some (datavalue_canon d))
  | ValDiagInfo (Some d) => ValDiagInfo (Some (c_canon diag_contract d))
  | ValArray _ c => ValArray (content_len c) (content_canon c)
  | ValMatrix n p c => ValMatrix n (Some (matrix_dims n p)) (content_canon c)
  | v => v
  end
with content_canon (c : SOPC_VariantArrayValue) : SOPC_VariantArrayValue :=
  match c with
  | ArrNull => ArrNull
  | ArrNumber m l => arr_of (ArrNumber m) (array_ptr (map (c_canon (number_contract m)) l))
  | ArrString m l => arr_of (ArrString m) (array_ptr (map (c_canon (string_contract m string_init)) l))
  | ArrGuid l => arr_of ArrGuid (array_ptr (map (c_canon guid_contract) l))
  | ArrNodeId l => arr_of ArrNodeId (array_ptr (map (c_canon nodeid_contract) l))
  | ArrExpNodeId l => arr_of ArrExpNodeId (array_ptr (map (c_canon expnodeid_contract) l))
  | ArrQname l => arr_of ArrQname (array_ptr (map (c_canon qname_contract) l))
  | ArrLocalizedText l => arr_of ArrLocalizedText (array_ptr (map (c_canon ltext_contract) l))
  | ArrExtObject l => arr_of ArrExtObject (array_ptr (map (c_canon extobj_contract) l))
  | ArrDataValue l => arr_of ArrDataValue (array_ptr (map datavalue_canon l))
  | ArrVariant l => arr_of ArrVariant (array_ptr (map variant_canon l))
  | ArrDiagInfo l => arr_of ArrDiagInfo (array_ptr (map (c_canon diag_contract) l))
  end
with datavalue_canon (d : SOPC_DataValue) : SOPC_DataValue :=
  match d with
  | mkDataValue v st srcT srvT srcP srvP =>
      mkDataValue (if has_value v then variant_canon v else variant_init) st (Z.max 0 srcT) (Z.max 0 srvT) srcP srvP
  end.

Definition variant_contract : contract SOPC_Variant :=
  mkContract variant_wire variant_nests variant_wf variant_limits variant_canon variant_init
    (fun v => exists v', SOPC_Variant_Clear' v = Ret v').
Definition datavalue_contract : contract SOPC_DataValue :=
  mkContract datavalue_wire datavalue_nests datavalue_wf datavalue_limits datavalue_canon datavalue_init
    (fun d => exists d', SOPC_DataValue_Clear' d = Ret d').

(** *** The switches on the built-in type *)

Definition number_write (id : SOPC_BuiltinId) : encoder Z :=
  match id with
  | SOPC_Boolean_Id => SOPC_Boolean_Write
  | SOPC_SByte_Id => SOPC_SByte_Write
  | SOPC_Int16_Id => SOPC_Int16_Write
  | SOPC_UInt16_Id => SOPC_UInt16_Write
  | SOPC_Int32_Id => SOPC_Int32_Write
  | SOPC_UInt32_Id => SOPC_UInt32_Write
  | SOPC_Int64_Id => SOPC_Int64_Write
  | SOPC_UInt64_Id => SOPC_UInt64_Write
  | SOPC_Float_Id => SOPC_Float_Write
  | SOPC_Double_Id => SOPC_Double_Write
  | SOPC_DateTime_Id => SOPC_DateTime_Write
  | SOPC_StatusCode_Id => SOPC_StatusCode_Write
  | _ => SOPC_Byte_Write
  end.

Definition number_read (id : SOPC_BuiltinId) : decoder Z :=
  match id with
  | SOPC_Boolean_Id => SOPC_Boolean_Read
  | SOPC_SByte_Id => SOPC_SByte_Read
  | SOPC_Int16_Id => SOPC_Int16_Read
  | SOPC_UInt16_Id => SOPC_UInt16_Read
  | SOPC_Int32_Id => SOPC_Int32_Read
  | SOPC_UInt32_Id => SOPC_UInt32_Read
  | SOPC_Int64_Id => SOPC_Int64_Read
  | SOPC_UInt64_Id => SOPC_UInt64_Read
  | SOPC_Float_Id => SOPC_Float_Read
  | SOPC_Double_Id => SOPC_Double_Read
  | SOPC_DateTime_Id => SOPC_DateTime_Read
  | SOPC_StatusCode_Id => SOPC_StatusCode_Read
  | _ => SOPC_Byte_Read
  end.

Definition number_size (id : SOPC_BuiltinId) : Z :=
  match id with
  | SOPC_Int16_Id | SOPC_UInt16_Id => 2
  | SOPC_Int32_Id | SOPC_UInt32_Id | SOPC_Float_Id | SOPC_StatusCode_Id => 4
  | SOPC_Int64_Id | SOPC_UInt64_Id | SOPC_Double_Id | SOPC_DateTime_Id => 8
  | _ => 1
  end.

Definition string_write (id : SOPC_BuiltinId) : encoder SOPC_String :=
  match id with
  | SOPC_String_Id => SOPC_String_Write
  | SOPC_XmlElement_Id => SOPC_XmlElement_Write
  | _ => SOPC_ByteString_Write
  end.

Definition string_read (id : SOPC_BuiltinId) : decoder SOPC_String :=
  match id with
  | SOPC_String_Id => SOPC_String_Read
  | SOPC_XmlElement_Id => SOPC_XmlElement_Read
  | _ => SOPC_ByteString_Read
  end.

Lemma number_honours id lvl : honours (number_contract id) (number_write id) (number_read id) lvl.
Proof. destruct id; by apply codec_honours. Qed.

Lemma string_honours id init lvl :
  string_inited init -> honours (string_contract id init) (string_write id) (string_read id) lvl.
Proof. intros. destruct id; by apply codec_honours. Qed.

Lemma guid_honours lvl : honours guid_contract SOPC_Guid_Write SOPC_Guid_Read lvl.
Proof. by apply codec_honours. Qed.
Lemma nodeid_honours lvl : honours nodeid_contract SOPC_NodeId_Write SOPC_NodeId_Read lvl.
Proof. by apply codec_honours. Qed.
Lemma expnodeid_honours lvl : honours expnodeid_contract SOPC_ExpandedNodeId_Write SOPC_ExpandedNodeId_Read lvl.
Proof. by apply codec_honours. Qed.
Lemma qname_honours lvl : honours qname_contract SOPC_QualifiedName_Write SOPC_QualifiedName_Read lvl.
Proof. by apply codec_honours. Qed.
Lemma ltext_honours lvl : honours ltext_contract SOPC_LocalizedText_Write SOPC_LocalizedText_Read lvl.
Proof. by apply codec_honours. Qed.
Lemma extobj_honours lvl : honours extobj_contract SOPC_ExtensionObject_Write SOPC_ExtensionObject_Read lvl.
Proof. by apply codec_honours. Qed.
Lemma diag_honours lvl : honours diag_contract SOPC_DiagnosticInfo_Write SOPC_DiagnosticInfo_Read lvl.
Proof. by apply codec_honours. Qed.

Section Switches.
Context (wv : encoder SOPC_Variant) (wd : encoder SOPC_DataValue).
Context (rv : decoder SOPC_Variant) (rd : decoder SOPC_DataValue).

Lemma write_number buf id n lvl : is_number id = true -> lvl < max_nested_struct cfg ->
  WriteVariantNonArrayBuiltInType wd buf id (ValNumber id n) lvl = number_write id (Some n) buf lvl.
Proof.
  intros E L. unfold WriteVariantNonArrayBuiltInType. level_ok.
  destruct id; try discriminate; unfold val_number; by rewrite decide_True.
Qed.

Lemma write_string buf id s lvl : is_string id = true -> lvl < max_nested_struct cfg ->
  WriteVariantNonArrayBuiltInType wd buf id (ValString id s) lvl = string_write id (Some s) buf lvl.
Proof.
  intros E L. unfold WriteVariantNonArrayBuiltInType. level_ok.
  destruct id; try discriminate; unfold val_string; by rewrite decide_True.
Qed.

Lemma write_numbers buf id c n lvl : is_number id = true -> lvl < max_nested_struct cfg ->
  WriteVariantArrayBuiltInType wv wd buf id c n lvl =
  let* arr := arr_number id c in SOPC_Write_Array buf n arr (number_write id) lvl.
Proof. intros E L. unfold WriteVariantArrayBuiltInType. level_ok. destruct id; done. Qed.

Lemma write_strings buf id c n lvl : is_string id = true -> lvl < max_nested_struct cfg ->
  WriteVariantArrayBuiltInType wv wd buf id c n lvl =
  let* arr := arr_string id c in SOPC_Write_Array buf n arr (string_write id) lvl.
Proof. intros E L. unfold WriteVariantArrayBuiltInType. level_ok. destruct id; done. Qed.

Lemma read_number buf id lvl : is_number id = true -> lvl < max_nested_struct cfg ->
  ReadVariantNonArrayBuiltInType rd buf id ValZero lvl =
  let* (status, n, buf) := number_read id (Some 0) buf lvl in
  let* n := deref n in
  Ret (status, ValNumber id n, buf).
Proof. intros E L. unfold ReadVariantNonArrayBuiltInType. level_ok. destruct id; done. Qed.

Lemma read_string buf id lvl : is_string id = true -> lvl < max_nested_struct cfg ->
  ReadVariantNonArrayBuiltInType rd buf id ValZero lvl =
  let* (status, s, buf) := string_read id (Some (mkString 0 false NULL)) buf lvl in
  let* s := deref s in
  Ret (status, ValString id s, buf).
Proof. intros E L. unfold ReadVariantNonArrayBuiltInType. level_ok. destruct id; done. Qed.

Lemma read_numbers buf id n lvl : is_number id = true ->
  ReadVariantArrayBuiltInType rv rd buf id ArrNull n lvl =
  store_arr (ArrNumber id) (SOPC_Read_Array buf n NULL (number_size id) (number_read id) 0 clear_number lvl).
Proof. intros E. destruct id; done. Qed.

Lemma read_strings buf id n lvl : is_string id = true ->
  ReadVariantArrayBuiltInType rv rd buf id ArrNull n lvl =
  store_arr (ArrString id) (SOPC_Read_Array buf n NULL sizeof_String (string_read id) string_init clear_string lvl).
Proof. intros E. destruct id; done. Qed.

End Switches.

(** *** Encoders *)

Lemma value_write_spec wd rd val id b lvl :
  honours datavalue_contract wd rd lvl -> lvl < max_nested_struct cfg ->
  value_id val = Some id -> value_wf val -> Buffer_Inv b -> small b ->
  encodes b (WriteVariantNonArrayBuiltInType wd (Some b) id val lvl) (value_wire val) (value_nests val lvl).
Proof.
  intros Hd L E W I S. destruct val as [| |m n|m s|[g|]|[n|]|[n|]|[q|]|[t|]|[e|]|[d|]|[d|]| |]; try done; simpl in E.
  1:{ destruct (is_number m) eqn:Em; simplify_eq. rewrite write_number by done.
      by apply (h_write _ _ _ _ (number_honours id lvl)). }
  1:{ destruct (is_string m) eqn:Em; simplify_eq. rewrite write_string by done.
      by apply (h_write _ _ _ _ (string_honours id string_init lvl string_init_inited)). }
  all: simplify_eq; unfold WriteVariantNonArrayBuiltInType; level_ok; cbn [val_Guid val_NodeId val_ExpNodeId val_Qname
         val_LocalizedText val_ExtObject val_DataValue val_DiagInfo rbind].
  - by apply (h_write _ _ _ _ (guid_honours lvl)).
  - by apply (h_write _ _ _ _ (nodeid_honours lvl)).
  - by apply (h_write _ _ _ _ (expnodeid_honours lvl)).
  - by apply (h_write _ _ _ _ (qname_honours lvl)).
  - by apply (h_write _ _ _ _ (ltext_honours lvl)).
  - by apply (h_write _ _ _ _ (extobj_honours lvl)).
  - by apply (h_write _ _ _ _ Hd).
  - by apply (h_write _ _ _ _ (diag_honours lvl)).
Qed.

(** The content of an array of [A]. *)
Lemma write_content_of {A} (c : contract A) wr rd lvl l b n :
  honours c wr rd (lvl + 1) -> All (c_wf c) l -> n = zlen l -> n < 2 ^ 31 -> Buffer_Inv b -> small b ->
  encodes b (SOPC_Write_Array (Some b) n (Some l) wr lvl) (le_bytes 4 (zlen l) ++ flat_map (c_wire c) l)
    (lvl + 2 <= max_nested_struct cfg /\ All (fun v => c_nests c v (lvl + 1)) l).
Proof.
  intros Hh W -> R I S. pose proof (zlen_nonneg l).
  eapply encodes_iff; [|apply (write_array_spec c wr rd lvl l (Some l) b); try done; [by apply All_Forall|by right|unfold in_s; lia]].
  unfold elts_nest. by rewrite All_Forall.
Qed.

Lemma write_content_null {A} (wr : encoder A) lvl b :
  Buffer_Inv b -> small b ->
  encodes b (SOPC_Write_Array (Some b) 0 NULL wr lvl) (le_bytes 4 0) (lvl + 2 <= max_nested_struct cfg).
Proof.
  intros I S. unfold SOPC_Write_Array. simpl is_null. simpl orb. apply encodes_guard; [done| |lia]. intros _. cbv zeta.
  eapply (encodes_seq _ _ _ _ (le_bytes 4 0) [] _ (lvl + 1 + 1 <= max_nested_struct cfg) True); [done|done| | |by rewrite app_nil_r|lia].
  - by apply (encodes_sub SOPC_Int32_Write).
  - intros. by apply encodes_skip.
Qed.

Lemma content_write_spec wv rv wd rd id c b lvl :
  honours variant_contract wv rv (lvl + 1) -> honours datavalue_contract wd rd (lvl + 1) ->
  lvl < max_nested_struct cfg -> content_for id c -> content_wf c -> content_len c < 2 ^ 31 ->
  Buffer_Inv b -> small b ->
  encodes b (WriteVariantArrayBuiltInType wv wd (Some b) id c (content_len c) lvl)
    (le_bytes 4 (content_len c) ++ content_wire c)
    (lvl + 2 <= max_nested_struct cfg /\ content_nests c (lvl + 1)).
Proof.
  intros Hv Hd L [Ei F] W R I S. destruct c; cbn [content_len content_wire content_nests content_wf] in R, W |- *.
  1:{ rewrite app_nil_r. eapply encodes_iff; [|].
      2:{ destruct id; try discriminate; unfold WriteVariantArrayBuiltInType; level_ok; cbn [arr_number arr_string arr_Guid arr_NodeId arr_ExpNodeId arr_Qname arr_LocalizedText arr_ExtObject arr_DataValue arr_Variant arr_DiagInfo rbind]; rewrite ?write_array_nested_eq; by eapply write_content_null. }
      tauto. }
  1:{ destruct F as [-> F]. rewrite write_numbers by done. unfold arr_number. rewrite decide_True by done.
      by apply (write_content_of (number_contract id) (number_write id) (number_read id)); [apply number_honours|..]. }
  1:{ destruct F as [-> F]. rewrite write_strings by done. unfold arr_string. rewrite decide_True by done.
      by apply (write_content_of (string_contract id string_init) (string_write id) (string_read id)); [by apply string_honours|..]. }
  all: subst id; unfold WriteVariantArrayBuiltInType; level_ok; cbn [arr_Guid arr_NodeId arr_ExpNodeId arr_Qname
         arr_LocalizedText arr_ExtObject arr_DataValue arr_Variant arr_DiagInfo rbind]; rewrite ?write_array_nested_eq.
  - by apply (write_content_of guid_contract _ SOPC_Guid_Read); [apply guid_honours|..].
  - by apply (write_content_of nodeid_contract _ SOPC_NodeId_Read); [apply nodeid_honours|..].
  - by apply (write_content_of expnodeid_contract _ SOPC_ExpandedNodeId_Read); [apply expnodeid_honours|..].
  - by apply (write_content_of qname_contract _ SOPC_QualifiedName_Read); [apply qname_honours|..].
  - by apply (write_content_of ltext_contract _ SOPC_LocalizedText_Read); [apply ltext_honours|..].
  - by apply (write_content_of extobj_contract _ SOPC_ExtensionObject_Read); [apply extobj_honours|..].
  - by apply (write_content_of datavalue_contract _ rd).
  - by apply (write_content_of variant_contract _ rv).
  - by apply (write_content_of diag_contract _ SOPC_DiagnosticInfo_Read); [apply diag_honours|..].
Qed.

(** The dimensions of a matrix. *)
Lemma product_pos dims : Forall (fun d => 0 < d < 2 ^ 31) dims -> 1 <= product dims.
Proof. induction 1 as [|d dims Hd _ IH]; simpl; [lia|]. change (1 <= d * product dims). nia. Qed.

Lemma product_dims_spec dims : Forall (fun d => 0 < d < 2 ^ 31) dims -> forall acc,
  0 < acc -> acc * product dims <= INT32_MAX ->
  product_dims (length dims) dims acc = Ret (Some (acc * product dims)).
Proof.
  induction 1 as [|d dims Hd F IH]; intros acc A L; cbn [product_dims length product foldr].
  - by rewrite Z.mul_1_r.
  - change (foldr Z.mul 1 dims) with (product dims). change (product (d :: dims)) with (d * product dims) in L.
    pose proof (product_pos dims F). replace (0 <? d) with true by lia.
    replace (acc * d <=? INT32_MAX) with true by nia. cbn [andb].
    rewrite IH by nia. by rewrite Z.mul_assoc.
Qed.

Lemma matrix_length_spec n p len :
  dims_wf n p len -> len < 2 ^ 31 -> matrix_length n p = Ret (Some len).
Proof.
  intros (Hn & Hz & Hp) L. unfold matrix_length. destruct (Z.ltb_spec 0 n).
  - destruct Hp as (dims & -> & Ln & F & E); [done|]. cbn [deref rbind].
    rewrite <- Ln. unfold zlen. rewrite Nat2Z.id. rewrite product_dims_spec by (done || unfold INT32_MAX; lia). by rewrite E, Z.mul_1_l.
  - replace (n =? 0) with true by lia. rewrite Hz by lia. done.
Qed.

Lemma Int32_Write_retry d b lvl st b' :
  SOPC_Int32_Write (Some d) (Some b) lvl = Ret (st, Some b') -> is_ok st = false ->
  b' = b /\ forall d', SOPC_Int32_Write (Some d') (Some b) lvl = Ret (st, Some b).
Proof.
  unfold SOPC_Int32_Write. destruct (max_nested_struct cfg <=? lvl); [intros E F; by simplify_eq|].
  destruct (Int32_out d) as (w & -> & _). cbn [rbind]. unfold map_status.
  destruct (SOPC_Buffer_Write (Some b) (Some (int_repr 4 w)) 4) as [[st0 b0]|] eqn:E; cbn [rbind]; [|done].
  intros E' F. simplify_eq. destruct (is_ok st0) eqn:F0; [by rewrite F0 in F|].
  destruct (Buffer_Write_retry b _ [] 4 st0 b' E F0) as [-> _]. split; [done|]. intros d'.
  destruct (Int32_out d') as (w' & -> & _). cbn [rbind].
  destruct (Buffer_Write_retry b _ (int_repr 4 w') 4 st0 b E F0) as [_ ->]. cbn [rbind]. by rewrite F0.
Qed.

Lemma write_dims_stuck b lvl st dims : forall status,
  (forall d, SOPC_Int32_Write (Some d) (Some b) lvl = Ret (st, Some b)) -> is_ok st = false -> is_ok status = false ->
  exists st', write_dims (length dims) dims status (Some b) lvl = Ret (st', Some b) /\ is_ok st' = false.
Proof.
  induction dims as [|d dims IH]; intros status E F Fs; cbn [write_dims length]; [eauto|]. rewrite E. cbn [rbind]. by apply IH.
Qed.

Lemma write_dims_spec lvl dims : Forall (in_s 32) dims -> lvl + 1 <= max_nested_struct cfg ->
  forall b, Buffer_Inv b -> small b ->
  encodes b (write_dims (length dims) dims SOPC_STATUS_OK (Some b) lvl) (flat_map (le_bytes 4) dims) True.
Proof.
  intros F L. induction F as [|d dims Hd _ IH]; intros b I S; cbn [write_dims length flat_map].
  { by apply encodes_skip. }
  destruct (codec_write (wr := SOPC_Int32_Write) d b lvl) as (st1 & b1 & E1 & [w1 W1'] & W1 & F1); [done..|].
  rewrite E1. cbn [rbind]. destruct (is_ok st1) eqn:O1.
  - apply is_ok_true in O1. subst. destruct (W1 eq_refl) as [Wr _].
    destruct (IH b1) as (st2 & b2 & -> & [w2 W2'] & W2 & F2); [by eapply wr_inv|by eapply small_wrote|].
    exists st2, b2. split_and!; [done|eexists; by eapply wrote_trans| |].
    + intros E. destruct (W2 E). split; [by eapply wrote_trans|done].
    + intros _ Fi. apply F2; [done|]. by eapply fits_app.
  - destruct (Int32_Write_retry d b lvl st1 b1 E1 O1) as [-> R].
    destruct (write_dims_stuck b lvl st1 dims st1 R O1 O1) as (st' & -> & O'). exists st', b.
    split_and!; [done|eauto|by intros ->|]. intros _ Fi. rewrite F1 in O1; [done|done|]. by eapply fits_app_l.
Qed.

(** The encoding byte. *)
Lemma mask_range id t val :
  is_array_id id = true \/ id = SOPC_Null_Id -> 0 <= GetVariantEncodingMask (mkVariant false id t val) < 256.
Proof. intros E. destruct id, t; try (by vm_compute; split); destruct E; discriminate. Qed.

Lemma value_id_spec val id : value_id val = Some id -> is_array_id id = true.
Proof. destruct val; simpl; intros; repeat case_match; simplify_eq; try done; by destruct id. Qed.

Lemma variant_wf_id dnc id t val :
  variant_wf (mkVariant dnc id t val) -> is_array_id id = true \/ id = SOPC_Null_Id.
Proof.
  intros W. destruct t; cbn [variant_wf] in W; [|destruct val; try done; left; apply W..].
  destruct W as [-> |[E W]]; [by right|left; by eapply value_id_spec].
Qed.

Lemma matrix_write_spec wv rv wd rd id n p c b lvl :
  honours variant_contract wv rv (lvl + 1) -> honours datavalue_contract wd rd (lvl + 1) ->
  lvl < max_nested_struct cfg -> dims_wf n p (content_len c) ->
  content_for id c -> content_wf c -> content_len c < 2 ^ 31 -> Buffer_Inv b -> small b ->
  encodes b (write_matrix wv wd n p id c (Some b) lvl) (value_wire (ValMatrix n p c))
    (lvl + 2 <= max_nested_struct cfg /\ content_nests c (lvl + 1)).
Proof.
  intros Hv Hd L D F W R I S. unfold write_matrix. rewrite (matrix_length_spec n p _ D R). cbn [rbind value_wire].
  eapply (encodes_iff _ _ _ ((lvl + 2 <= max_nested_struct cfg /\ content_nests c (lvl + 1)) /\ lvl + 1 <= max_nested_struct cfg /\ True)); [intuition lia|].
  apply encodes_and_then; [done|done|by eapply content_write_spec|]. intros b1 I1 S1.
  destruct D as (Hn & Hz & Hp). apply encodes_and_then_ok; [done|done| |].
  { apply (encodes_sub SOPC_Int32_Write); try done. simpl. unfold in_s. lia. }
  intros L1 b2 I2 S2. destruct (Z.ltb_spec 0 n).
  - destruct Hp as (dims & -> & Ln & Fd & E); [done|]. cbn [deref rbind]. unfold matrix_dims. simpl default.
    rewrite take_ge by (unfold zlen in Ln; lia). rewrite <- Ln. unfold zlen. rewrite Nat2Z.id.
    apply write_dims_spec; try done. eapply Forall_impl; [exact Fd|]. unfold in_s. simpl. lia.
  - unfold matrix_dims. replace n with 0 by lia. by apply encodes_skip.
Qed.

Lemma variant_write_spec wv rv wd rd v b lvl :
  (lvl < max_nested_struct cfg -> forall l, lvl < l -> honours variant_contract wv rv l /\ honours datavalue_contract wd rd l) ->
  variant_wf v -> Buffer_Inv b -> small b ->
  encodes b (variant_write wv wd (Some v) (Some b) lvl) (variant_wire v) (variant_nests v lvl).
Proof.
  intros Hn W I S. destruct v as [dnc id t val]. unfold variant_write. cbn [variant_wire variant_nests].
  apply encodes_guard; [done| |lia]. intros L. specialize (Hn L). cbv zeta.
  change (GetVariantEncodingMask (mkVariant dnc id t val)) with (GetVariantEncodingMask (mkVariant false id t val)).
  cbn [ArrayType BuiltInTypeId Var_Value variant_wf] in *.
  pose proof (variant_wf_id dnc id t val W) as Eid.
  apply encodes_and_then_ok; [done|done| |].
  { apply (encodes_sub SOPC_Byte_Write); try done; [by apply mask_range|simpl; lia]. }
  intros L1 b1 I1 S1. destruct (Hn (lvl + 1)) as [Hv1 Hd1]; [lia|]. destruct (Hn (lvl + 2)) as [Hv2 Hd2]; [lia|].
  replace (lvl + 2) with (lvl + 1 + 1) in Hv2, Hd2 by lia. destruct t.
  - unfold is_null_value. destruct W as [-> |[E W]].
    + unfold WriteVariantNonArrayBuiltInType. level_ok. by apply encodes_skip.
    + rewrite decide_False by (intros ->; by apply value_id_spec in E).
      eapply encodes_iff; [|eapply value_write_spec; done || lia]. intuition.
  - destruct val as [| | | | | | | | | | | |n c|]; try done. destruct W as (Rn & Ln & F & W). cbn [val_Array rbind].
    replace (if n =? -1 then 0 else n) with (content_len c) by (destruct (Z.eqb_spec n (-1)); lia).
    replace (content_len c <? 0) with false by lia.
    eapply encodes_iff; [|eapply content_write_spec; done || lia].
    replace (lvl + 1 + 1) with (lvl + 2) by lia. replace (lvl + 1 + 2) with (lvl + 3) by lia. done.
  - destruct val as [| | | | | | | | | | | | |n p c]; try done. destruct W as (Rc & D & F & W). cbn [val_Matrix rbind].
    eapply encodes_iff; [|eapply matrix_write_spec; done || lia].
    replace (lvl + 1 + 1) with (lvl + 2) by lia. replace (lvl + 1 + 2) with (lvl + 3) by lia. done.
Qed.

Lemma has_flag_datavalue b1 b2 b3 b4 b5 b6 :
  let m := set_flag b6 0x20 (set_flag b5 0x08 (set_flag b4 0x10 (set_flag b3 0x04 (set_flag b2 0x02 (set_flag b1 0x01 0))))) in
  has_flag m 0x01 = b1 /\ has_flag m 0x02 = b2 /\ has_flag m 0x04 = b3 /\ has_flag m 0x10 = b4 /\ has_flag m 0x08 = b5 /\
  has_flag m 0x20 = b6 /\ 0 <= m < 256.
Proof. destruct b1, b2, b3, b4, b5, b6; vm_compute; split_and!; done. Qed.

Lemma datavalue_mask v st srcT srvT srcP srvP :
  let m := GetDataValueEncodingMask (mkDataValue v st srcT srvT srcP srvP) in
  has_flag m SOPC_DataValue_NotNullValue = has_value v /\
  has_flag m SOPC_DataValue_NotGoodStatusCode = negb (st =? 0) /\
  has_flag m SOPC_DataValue_NotMinSourceDate = (0 <? srcT) /\
  has_flag m SOPC_DataValue_NotZeroSourcePico = (0 <? srcP) /\
  has_flag m SOPC_DataValue_NotMinServerDate = (0 <? srvT) /\
  has_flag m SOPC_DataValue_NotZeroServerPico = (0 <? srvP) /\
  0 <= m < 256.
Proof. apply has_flag_datavalue. Qed.

Lemma datavalue_write_spec wv rv d b lvl :
  (lvl < max_nested_struct cfg -> forall l, lvl < l -> honours variant_contract wv rv l) ->
  datavalue_wf d -> Buffer_Inv b -> small b ->
  encodes b (datavalue_write wv (Some d) (Some b) lvl) (datavalue_wire d) (datavalue_nests d lvl).
Proof.
  intros Hn W I S. destruct d as [v st srcT srvT srcP srvP]. unfold datavalue_write. cbn [datavalue_wire datavalue_nests].
  apply encodes_guard; [done| |lia]. intros L. specialize (Hn L (lvl + 1) ltac:(lia)). cbv zeta.
  destruct W as (Wv & _ & W1 & W2 & W3 & W4 & W5).
  destruct (datavalue_mask v st srcT srvT srcP srvP) as (-> & -> & -> & -> & -> & -> & R).
  cbn [DV_Value DV_Status SourceTimestamp ServerTimestamp SourcePicoSeconds ServerPicoSeconds].
  set (max := max_nested_struct cfg).
  eapply (encodes_iff _ _ _ (lvl + 1 + 1 <= max /\ (has_value v = true -> variant_nests v (lvl + 1)) /\
    (negb (st =? 0) = true -> lvl + 1 + 1 <= max) /\ ((0 <? srcT) = true -> lvl + 1 + 2 <= max) /\
    ((0 <? srcP) = true -> lvl + 1 + 1 <= max) /\ ((0 <? srvT) = true -> lvl + 1 + 2 <= max) /\
    ((0 <? srvP) = true -> lvl + 1 + 1 <= max))); [rewrite !Z.ltb_lt; intuition lia|].
  apply encodes_and_then; [done|done|by apply (encodes_sub SOPC_Byte_Write)|]. intros b1 I1 S1.
  apply encodes_and_then; [done|done| |].
  { unfold write_when. destruct (has_value v); [|by apply encodes_skip].
    eapply encodes_iff; [|apply (h_write _ _ _ _ Hn v b1); [by apply Wv|done|done]]. simpl. intuition. }
  intros b2 I2 S2. apply encodes_and_then; [done|done|by apply (encodes_when SOPC_StatusCode_Write)|].
  intros b3 I3 S3. apply encodes_and_then; [done|done|by apply (encodes_when SOPC_DateTime_Write)|].
  intros b4 I4 S4. apply encodes_and_then; [done|done|by apply (encodes_when SOPC_UInt16_Write)|].
  intros b5 I5 S5. apply encodes_and_then; [done|done|by apply (encodes_when SOPC_DateTime_Write)|].
  intros b6 I6 S6. by apply (encodes_when SOPC_UInt16_Write).
Qed.

(** *** Decoders on an encoding *)

Lemma read_ptr_spec {A} (c : contract A) wr rd size v b lvl rest :
  honours c wr rd lvl -> c_wf c v -> c_limits c v -> c_nests c v lvl -> Buffer_Inv b -> small b ->
  upcoming b = c_wire c v ++ rest -> (forall n, alloc_ok n = true) ->
  read_ptr size (c_init c) rd (Some b) lvl =
  Ret (SOPC_STATUS_OK, Some (c_canon c v), Some (advance b (zlen (c_wire c v)))).
Proof.
  intros Hh W L N I S U HA. unfold read_ptr. rewrite HA. by rewrite (h_read _ _ _ _ Hh v b rest).
Qed.

Lemma value_read_spec wd rd val id b lvl rest :
  honours datavalue_contract wd rd lvl -> lvl < max_nested_struct cfg ->
  value_id val = Some id -> value_wf val -> value_limits val -> value_nests val lvl -> Buffer_Inv b -> small b ->
  upcoming b = value_wire val ++ rest -> (forall n, alloc_ok n = true) ->
  ReadVariantNonArrayBuiltInType rd (Some b) id ValZero lvl =
  Ret (SOPC_STATUS_OK, value_canon val, Some (advance b (zlen (value_wire val)))).
Proof.
  intros Hd L E W Lm N I S U HA.
  destruct val as [| |m n|m s|[g|]|[n|]|[n|]|[q|]|[t|]|[e|]|[d|]|[d|]| |]; try done; simpl in E.
  1:{ destruct (is_number m) eqn:Em; simplify_eq. rewrite read_number by done.
      replace (number_read id (Some 0)) with (number_read id (Some (c_init (number_contract id)))) by (by destruct id).
      by rewrite (h_read _ _ _ _ (number_honours id lvl) n b rest). }
  1:{ destruct (is_string m) eqn:Em; simplify_eq. rewrite read_string by done.
      destruct id; try discriminate; cbn [value_wire value_canon value_wf value_limits value_nests] in *.
      - cbn [string_read]. by rewrite (read_first SOPC_String_Write s (mkString 0 false NULL) b lvl rest).
      - cbn [string_read]. by rewrite (read_first SOPC_ByteString_Write s (mkString 0 false NULL) b lvl rest).
      - cbn [string_read]. by rewrite (read_first SOPC_XmlElement_Write s (mkString 0 false NULL) b lvl rest). }
  all: simplify_eq; unfold ReadVariantNonArrayBuiltInType; level_ok; cbv iota.
  - by rewrite (read_ptr_spec guid_contract _ _ _ g b lvl rest (guid_honours lvl)).
  - by rewrite (read_ptr_spec nodeid_contract _ _ _ n b lvl rest (nodeid_honours lvl)).
  - by rewrite (read_ptr_spec expnodeid_contract _ _ _ n b lvl rest (expnodeid_honours lvl)).
  - by rewrite (read_ptr_spec qname_contract _ _ _ q b lvl rest (qname_honours lvl)).
  - by rewrite (read_ptr_spec ltext_contract _ _ _ t b lvl rest (ltext_honours lvl)).
  - by rewrite (read_ptr_spec extobj_contract _ _ _ e b lvl rest (extobj_honours lvl)).
  - by rewrite (read_ptr_spec datavalue_contract _ _ _ d b lvl rest Hd).
  - by rewrite (read_ptr_spec diag_contract _ _ _ d b lvl rest (diag_honours lvl)).
Qed.

Lemma read_content_null {A} (member : list A -> SOPC_VariantArrayValue) size (rd : decoder A) init clear b lvl rest :
  Buffer_Inv b -> small b -> upcoming b = le_bytes 4 0 ++ rest -> lvl + 2 <= max_nested_struct cfg ->
  (forall n, alloc_ok n = true) ->
  store_arr member (SOPC_Read_Array (Some b) 0 NULL size rd init clear lvl) =
  Ret (SOPC_STATUS_OK, 0, ArrNull, Some (advance b (zlen (le_bytes 4 0)))).
Proof.
  intros I S U L HA. pose proof array_limit. unfold SOPC_Read_Array. cbn [is_null negb orb]. level_ok. cbv zeta.
  rewrite (read_first SOPC_Int32_Write 0 0 b (lvl + 1) rest) with (6 := U) by (done || simpl; lia).
  cbn [rbind deref is_ok negb canon wire Int32_codec]. change (0 <? 0) with false. cbv iota.
  by replace (max_array_length cfg <? 0) with false by lia.
Qed.

Lemma read_content_of {A} (c : contract A) wr rd clear member size l b lvl rest :
  honours c wr rd (lvl + 1) -> All (c_wf c) l -> All (c_limits c) l -> All (fun v => c_nests c v (lvl + 1)) l ->
  zlen l < 2 ^ 31 -> zlen l <= max_array_length cfg -> lvl + 2 <= max_nested_struct cfg -> Buffer_Inv b -> small b ->
  upcoming b = (le_bytes 4 (zlen l) ++ flat_map (c_wire c) l) ++ rest -> (forall n, alloc_ok n = true) ->
  store_arr member (SOPC_Read_Array (Some b) 0 NULL size rd (c_init c) clear lvl) =
  Ret (SOPC_STATUS_OK, zlen l, arr_of member (array_ptr (map (c_canon c) l)),
       Some (advance b (zlen (le_bytes 4 (zlen l) ++ flat_map (c_wire c) l)))).
Proof.
  intros Hh W Lm N R M L I S U HA. pose proof (zlen_nonneg l). unfold store_arr.
  rewrite (read_array_spec c wr rd clear lvl l size b rest 0); try done; try apply All_Forall; try done.
  - unfold in_s. lia.
  - by right.
  - apply array_limit.
Qed.

Lemma content_read_spec wv rv wd rd id c b lvl rest :
  honours variant_contract wv rv (lvl + 1) -> honours datavalue_contract wd rd (lvl + 1) ->
  content_for id c -> content_wf c -> content_limits c -> content_nests c (lvl + 1) ->
  content_len c < 2 ^ 31 -> content_len c <= max_array_length cfg -> lvl + 2 <= max_nested_struct cfg ->
  Buffer_Inv b -> small b -> upcoming b = (le_bytes 4 (content_len c) ++ content_wire c) ++ rest ->
  (forall n, alloc_ok n = true) ->
  ReadVariantArrayBuiltInType rv rd (Some b) id ArrNull 0 lvl =
  Ret (SOPC_STATUS_OK, content_len c, content_canon c,
       Some (advance b (zlen (le_bytes 4 (content_len c) ++ content_wire c)))).
Proof.
  intros Hv Hd [Ei F] W Lm N R M L I S U HA. pose proof array_limit.
  destruct c; cbn [content_len content_wire content_nests content_wf content_limits content_canon] in *.
  1:{ rewrite app_nil_r in *. destruct id; try discriminate; unfold ReadVariantArrayBuiltInType;
        cbn [arr_number arr_string arr_Guid arr_NodeId arr_ExpNodeId arr_Qname arr_LocalizedText arr_ExtObject
             arr_DataValue arr_Variant arr_DiagInfo rbind];
        change datavalue_init with (c_init datavalue_contract); change variant_init with (c_init variant_contract);
        rewrite ?read_array_nested_eq by done; by apply (read_content_null _ _ _ _ _ b lvl rest). }
  1:{ destruct F as [-> F]. rewrite read_numbers by done.
      replace (SOPC_Read_Array (Some b) 0 NULL (number_size id) (number_read id) 0 clear_number lvl)
        with (SOPC_Read_Array (Some b) 0 NULL (number_size id) (number_read id) (c_init (number_contract id)) clear_number lvl)
        by (by destruct id).
      by apply (read_content_of (number_contract id) (number_write id) (number_read id) _ _ _ _ _ _ rest); [apply number_honours|..]. }
  1:{ destruct F as [-> F]. rewrite read_strings by done.
      replace (SOPC_Read_Array (Some b) 0 NULL sizeof_String (string_read id) string_init clear_string lvl)
        with (SOPC_Read_Array (Some b) 0 NULL sizeof_String (string_read id) (c_init (string_contract id string_init)) clear_string lvl)
        by (by destruct id).
      by apply (read_content_of (string_contract id string_init) (string_write id) (string_read id) _ _ _ _ _ _ rest); [by apply string_honours|..]. }
  all: subst id; unfold ReadVariantArrayBuiltInType; cbn [arr_Guid arr_NodeId arr_ExpNodeId arr_Qname
         arr_LocalizedText arr_ExtObject arr_DataValue arr_Variant arr_DiagInfo rbind].
  - by apply (read_content_of guid_contract SOPC_Guid_Write _ _ _ _ _ _ _ rest); [apply guid_honours|..].
  - by apply (read_content_of nodeid_contract SOPC_NodeId_Write _ _ _ _ _ _ _ rest); [apply nodeid_honours|..].
  - by apply (read_content_of expnodeid_contract SOPC_ExpandedNodeId_Write _ _ _ _ _ _ _ rest); [apply expnodeid_honours|..].
  - by apply (read_content_of qname_contract SOPC_QualifiedName_Write _ _ _ _ _ _ _ rest); [apply qname_honours|..].
  - by apply (read_content_of ltext_contract SOPC_LocalizedText_Write _ _ _ _ _ _ _ rest); [apply ltext_honours|..].
  - by apply (read_content_of extobj_contract SOPC_ExtensionObject_Write _ _ _ _ _ _ _ rest); [apply extobj_honours|..].
  - change datavalue_init with (c_init datavalue_contract). rewrite read_array_nested_eq by done.
    by apply (read_content_of datavalue_contract wd _ _ _ _ _ _ _ rest).
  - change variant_init with (c_init variant_contract). rewrite read_array_nested_eq by done.
    by apply (read_content_of variant_contract wv _ _ _ _ _ _ _ rest).
  - by apply (read_content_of diag_contract SOPC_DiagnosticInfo_Write _ _ _ _ _ _ _ rest); [apply diag_honours|..].
Qed.

Lemma read_dims_spec lvl len dims : Forall (fun d => 0 < d < 2 ^ 31) dims -> lvl + 1 <= max_nested_struct cfg ->
  (forall n, alloc_ok n = true) -> forall pre acc b rest,
  0 < acc -> acc * product dims <= len -> Buffer_Inv b -> small b -> upcoming b = flat_map (le_bytes 4) dims ++ rest ->
  read_dims (length dims) pre acc len (Some b) lvl =
  Ret (SOPC_STATUS_OK, pre ++ dims, acc * product dims, Some (advance b (zlen (flat_map (le_bytes 4) dims)))).
Proof.
  intros F L HA. induction F as [|d dims Hd F IH]; intros pre acc b rest A P I S U; cbn [read_dims length flat_map].
  { by rewrite app_nil_r, Z.mul_1_r, advance_0. }
  change (product (d :: dims)) with (d * product dims) in P |- *. pose proof (product_pos dims F).
  cbn [flat_map] in U. rewrite <- app_assoc in U.
  rewrite (read_first SOPC_Int32_Write d 0 b lvl _) with (6 := U) by (done || simpl; unfold in_s; lia).
  cbn [rbind deref is_ok canon wire Int32_codec andb]. replace (0 <? d) with true by lia.
  replace (len <? acc * d) with false by nia. destruct (upcoming_advance_app b _ _ I U) as [I1 U1].
  rewrite (IH _ _ _ rest) by (done || nia). by rewrite advance_advance, zlen_app, <- app_assoc, Z.mul_assoc.
Qed.

Lemma read_matrix_dims_spec n p len b lvl rest :
  dims_wf n p len -> n <= max_array_length cfg -> lvl + 1 <= max_nested_struct cfg -> Buffer_Inv b -> small b ->
  upcoming b = (le_bytes 4 n ++ flat_map (le_bytes 4) (matrix_dims n p)) ++ rest -> (forall m, alloc_ok m = true) ->
  0 <= len ->
  read_matrix_dims SOPC_STATUS_OK 0 NULL len (Some b) lvl =
  Ret (SOPC_STATUS_OK, n, Some (matrix_dims n p),
       Some (advance b (zlen (le_bytes 4 n ++ flat_map (le_bytes 4) (matrix_dims n p))))).
Proof.
  intros (Hn & Hz & Hp) M L I S U HA Hl. unfold read_matrix_dims. replace (len <? 0) with false by lia.
  cbn [is_ok andb]. rewrite <- app_assoc in U. unfold read_if, read_when. cbn [is_ok andb].
  rewrite (read_first SOPC_Int32_Write n 0 b lvl _) with (6 := U) by (done || simpl; unfold in_s; lia).
  cbn [rbind deref is_ok canon wire Int32_codec negb]. replace (n <? 0) with false by lia.
  replace (max_array_length cfg <? n) with false by lia.
  assert (u64 n = n) as -> by (unfold u64; apply Z.mod_small; lia).
  replace (SIZE_MAX <? n) with false by (unfold SIZE_MAX; lia). cbn [orb]. rewrite HA.
  destruct (upcoming_advance_app b _ _ I U) as [I1 U1]. destruct (Z.eqb_spec n 0) as [->|Ne].
  - by rewrite Hz by done.
  - destruct Hp as (dims & -> & Ln & F & E); [lia|]. unfold matrix_dims in *. simpl default in *.
    rewrite take_ge in * by (unfold zlen in Ln; lia). replace (Z.to_nat n) with (length dims) by (unfold zlen in Ln; lia).
    rewrite (read_dims_spec lvl len dims F L HA [] 1 _ rest) by (done || lia). cbn [rbind is_ok app].
    rewrite E, Z.mul_1_l, Z.eqb_refl. by rewrite advance_advance, zlen_app.
Qed.

Lemma mask_decode id t val :
  is_array_id id = true \/ id = SOPC_Null_Id ->
  let e := GetVariantEncodingMask (mkVariant false id t val) in
  has_flag e SOPC_VariantArrayValueFlag = (if decide (t = SOPC_VariantArrayType_SingleValue) then false else true) /\
  has_flag e SOPC_VariantArrayDimensionsFlag = (if decide (t = SOPC_VariantArrayType_Matrix) then true else false) /\
  builtin_of (Z.land 0x3F e) = id.
Proof. intros E. destruct id, t; try (by vm_compute; split_and!); destruct E; discriminate. Qed.

Lemma variant_read_head rv rd id t val b lvl rest :
  is_array_id id = true \/ id = SOPC_Null_Id -> lvl + 2 <= max_nested_struct cfg -> Buffer_Inv b -> small b ->
  upcoming b = [z2b (GetVariantEncodingMask (mkVariant false id t val))] ++ rest -> (forall n, alloc_ok n = true) ->
  variant_read rv rd (Some variant_init) (Some b) lvl =
  let* (status, v, buf) := read_value rv rd (mkVariant false id t ValZero) (Some (advance b 1)) (lvl + 1) in
  if is_ok status then Ret (status, Some v, buf)
  else Ret (status, Some (mkVariant (Var_DoNotClear v) SOPC_Null_Id (ArrayType v) (clear_dimensions (Var_Value v))), buf).
Proof.
  intros Eid L I S U HA. unfold variant_read. level_ok. cbv zeta.
  rewrite (read_first SOPC_Byte_Write _ 0 b (lvl + 1) rest) with (6 := U);
    [|by apply mask_range|done|done|done|done|simpl; lia|done].
  cbn [rbind deref is_ok canon wire Byte_codec]. destruct (mask_decode id t val Eid) as (-> & -> & ->).
  by destruct t.
Qed.

Lemma variant_read_spec wv rv wd rd v b lvl rest :
  (lvl < max_nested_struct cfg -> forall l, lvl < l -> honours variant_contract wv rv l /\ honours datavalue_contract wd rd l) ->
  variant_wf v -> variant_limits v -> Buffer_Inv b -> small b -> upcoming b = variant_wire v ++ rest ->
  variant_nests v lvl -> (forall n, alloc_ok n = true) ->
  variant_read rv rd (Some variant_init) (Some b) lvl =
  Ret (SOPC_STATUS_OK, Some (variant_canon v), Some (advance b (zlen (variant_wire v)))).
Proof.
  intros Hn W Lm I S U N HA. destruct v as [dnc id t val]. pose proof (variant_wf_id dnc id t val W) as Eid.
  cbn [variant_wire variant_wf variant_limits variant_nests variant_canon] in *. destruct N as [L N].
  specialize (Hn ltac:(lia)). change (GetVariantEncodingMask (mkVariant dnc id t val)) with (GetVariantEncodingMask (mkVariant false id t val)) in *.
  rewrite <- app_assoc in U. rewrite (variant_read_head rv rd id t val b lvl _ Eid L I S U HA).
  destruct (upcoming_advance_app b _ _ I U) as [I1 U1]. rewrite zlen_app. change (zlen [_]) with 1 in *.
  rewrite <- advance_advance. destruct (Hn (lvl + 1)) as [Hv1 Hd1]; [lia|]. destruct (Hn (lvl + 2)) as [Hv2 Hd2]; [lia|].
  replace (lvl + 2) with (lvl + 1 + 1) in Hv2, Hd2 by lia. unfold read_value. destruct t.
  - unfold is_null_value in *. destruct W as [-> |[E W]].
    + unfold ReadVariantNonArrayBuiltInType. level_ok. cbn. by rewrite advance_0.
    + rewrite decide_False in * by (intros ->; by apply value_id_spec in E).
      rewrite (value_read_spec wd rd val id _ _ rest) by (done || auto || lia). done.
  - destruct val as [| | | | | | | | | | | |n c|]; try done. destruct W as (Rn & Ln & F & W). destruct Lm as [M Lm], N as [L' N].
    cbn [val_Array rbind value_wire value_canon] in *. replace (lvl + 2) with (lvl + 1 + 1) in N by lia.
    rewrite (content_read_spec wv rv wd rd id c _ _ rest) by (done || lia). done.
  - destruct val as [| | | | | | | | | | | | |n p c]; try done. destruct W as (Rc & D & F & W). destruct Lm as (M & Mn & Lm), N as [L' N].
    cbn [val_Matrix rbind value_wire value_canon] in *. replace (lvl + 2) with (lvl + 1 + 1) in N by lia.
    rewrite <- app_assoc in U1. rewrite (content_read_spec wv rv wd rd id c _ _ _) with (12 := U1) by (done || lia). cbn [rbind].
    destruct (upcoming_advance_app _ _ _ I1 U1) as [I2 U2].
    assert (0 <= content_len c) by (destruct c; apply zlen_nonneg || done).
    rewrite (read_matrix_dims_spec n p _ _ _ rest) by (done || lia). cbn [rbind is_ok]. by rewrite advance_advance, <- zlen_app.
Qed.

Lemma read_or_reset_next {A} (c : bool) (wr : encoder A) {rd : decoder A} `{!Codec wr rd} v v0 reset b bs lvl rest :
  (c = true -> wf wr v) -> (c = true -> limits wr v) -> inited wr v0 -> Buffer_Inv b -> small b ->
  upcoming b = bs ++ (if c then wire wr v else []) ++ rest -> (c = true -> nests wr v lvl) ->
  (forall n, alloc_ok n = true) ->
  read_or_reset c SOPC_STATUS_OK rd v0 reset (Some (advance b (zlen bs))) lvl =
  Ret (SOPC_STATUS_OK, Some (if c then canon wr v else reset),
       Some (advance b (zlen (bs ++ if c then wire wr v else [])))).
Proof.
  intros W L Hi I S E N HA. unfold read_or_reset. destruct c; cbn [is_ok andb]; [|by rewrite app_nil_r].
  by rewrite (read_next wr v v0 b bs lvl rest) by auto.
Qed.

Lemma read_or_reset_variant (c : bool) wr rd v b bs lvl rest :
  honours variant_contract wr rd lvl ->
  (c = true -> variant_wf v /\ variant_limits v /\ variant_nests v lvl) -> Buffer_Inv b -> small b ->
  upcoming b = bs ++ (if c then variant_wire v else []) ++ rest -> (forall n, alloc_ok n = true) ->
  read_or_reset c SOPC_STATUS_OK rd variant_init variant_init (Some (advance b (zlen bs))) lvl =
  Ret (SOPC_STATUS_OK, Some (if c then variant_canon v else variant_init),
       Some (advance b (zlen (bs ++ if c then variant_wire v else [])))).
Proof.
  intros Hh W I S U HA. unfold read_or_reset. destruct c; cbn [is_ok andb]; [|by rewrite app_nil_r].
  destruct W as (W & L & N); [done|]. destruct (upcoming_advance_app b _ _ I U) as [I1 U1].
  change variant_init with (c_init variant_contract).
  rewrite (h_read _ _ _ _ Hh v _ rest) by done. by rewrite advance_advance, zlen_app.
Qed.

Lemma datavalue_read_spec wv rv d b lvl rest :
  (lvl < max_nested_struct cfg -> forall l, lvl < l -> honours variant_contract wv rv l) ->
  datavalue_wf d -> datavalue_limits d -> Buffer_Inv b -> small b -> upcoming b = datavalue_wire d ++ rest ->
  datavalue_nests d lvl -> (forall n, alloc_ok n = true) ->
  datavalue_read rv (Some datavalue_init) (Some b) lvl =
  Ret (SOPC_STATUS_OK, Some (datavalue_canon d), Some (advance b (zlen (datavalue_wire d)))).
Proof.
  intros Hn W Lm I S U N HA. destruct d as [v st srcT srvT srcP srvP].
  cbn [datavalue_wire datavalue_wf datavalue_limits datavalue_nests datavalue_canon] in *.
  destruct W as (Wv & _ & W1 & W2 & W3 & W4 & W5), N as (L & Nv & Nt). specialize (Hn ltac:(lia) (lvl + 1) ltac:(lia)).
  destruct (datavalue_mask v st srcT srvT srcP srvP) as (F1 & F2 & F3 & F4 & F5 & F6 & R).
  set (m := GetDataValueEncodingMask _) in *. clearbody m.
  unfold datavalue_read. level_ok. cbv zeta. rewrite <- !app_assoc in U.
  rewrite (read_first SOPC_Byte_Write m 0 b (lvl + 1) _) with (6 := U) by (done || simpl; lia).
  cbn [rbind deref canon wire Byte_codec datavalue_init DV_Value variant_init DV_Status SourceTimestamp ServerTimestamp
       SourcePicoSeconds ServerPicoSeconds]. rewrite F1, F2, F3, F4, F5, F6.
  change (mkVariant false SOPC_Null_Id SOPC_VariantArrayType_SingleValue ValZero) with variant_init.
  rewrite (read_or_reset_variant (has_value v) wv rv v b _ (lvl + 1) _ Hn) with (4 := U) by (auto || done). cbn [rbind deref].
  rewrite app_assoc in U.
  rewrite (read_or_reset_next _ SOPC_StatusCode_Write st 0 0 b _ (lvl + 1) _) with (6 := U) by (done || simpl; lia). cbn [rbind deref wire StatusCode_codec UInt32_codec DateTime_codec UInt16_codec].
  rewrite app_assoc in U.
  rewrite (read_or_reset_next _ SOPC_DateTime_Write srcT 0 0 b _ (lvl + 1) _) with (6 := U) by (done || simpl; rewrite ?Z.ltb_lt; lia). cbn [rbind deref wire StatusCode_codec UInt32_codec DateTime_codec UInt16_codec].
  rewrite app_assoc in U.
  rewrite (read_or_reset_next _ SOPC_UInt16_Write srcP 0 0 b _ (lvl + 1) _) with (6 := U) by (done || simpl; lia). cbn [rbind deref wire StatusCode_codec UInt32_codec DateTime_codec UInt16_codec].
  rewrite app_assoc in U.
  rewrite (read_or_reset_next _ SOPC_DateTime_Write srvT 0 0 b _ (lvl + 1) _) with (6 := U) by (done || simpl; rewrite ?Z.ltb_lt; lia). cbn [rbind deref wire StatusCode_codec UInt32_codec DateTime_codec UInt16_codec].
  rewrite app_assoc in U.
  rewrite (read_or_reset_next _ SOPC_UInt16_Write srvP 0 0 b _ (lvl + 1) _) with (6 := U) by (done || simpl; lia). cbn [rbind deref is_ok wire UInt16_codec].
  unfold in_u, in_s in *. rewrite <- !app_assoc. do 3 f_equal. f_equal. cbn [canon StatusCode_codec UInt32_codec DateTime_codec UInt16_codec].
  f_equal; repeat case_match; lia || done.
Qed.

(** *** Decoders on any input *)

Lemma honours_next {A} (c : contract A) wr rd lvl b k :
  honours c wr rd lvl -> Buffer_Inv b -> small b -> 0 <= k <= zlen (upcoming b) ->
  exists st v m, rd (Some (c_init c)) (Some (advance b k)) lvl = Ret (st, Some v, Some (advance b m)) /\
    0 <= m <= zlen (upcoming b) /\ c_sane c v /\ (st = SOPC_STATUS_OK -> c_accepted c lvl v).
Proof.
  intros Hh I S Hk. apply (decodes_after b k _ (c_sane c) (c_accepted c lvl) I Hk).
  apply (h_safe _ _ _ _ Hh); [by apply Buffer_Inv_advance|done].
Qed.

Lemma read_ptr_safe {A} (c : contract A) wr rd size b k lvl :
  honours c wr rd lvl -> Buffer_Inv b -> small b -> 0 <= k <= zlen (upcoming b) ->
  exists st p m, read_ptr size (c_init c) rd (Some (advance b k)) lvl = Ret (st, p, Some (advance b m)) /\
    0 <= m <= zlen (upcoming b) /\ (st = SOPC_STATUS_OK -> exists v, p = Some v /\ c_accepted c lvl v).
Proof.
  intros Hh I S Hk. unfold read_ptr. destruct (alloc_ok size); [|by eexists _, _, k].
  destruct (honours_next c wr rd lvl b k Hh I S Hk) as (st & v & m & -> & Hm & _ & G). cbn [rbind].
  eexists _, _, m. split; [done|]. split; [done|]. intros ->. cbn [is_ok]. eauto.
Qed.

Definition value_accepted (id : SOPC_BuiltinId) (val : SOPC_VariantValue) (lvl : Z) : Prop :=
  id = SOPC_Null_Id \/
  (value_id val = Some id /\ value_wf val /\ value_limits val /\ value_nests val lvl).

Lemma ptr_value_safe {A} (c : contract A) wr rd size (member : ptr A -> SOPC_VariantValue) id b k lvl :
  honours c wr rd lvl -> Buffer_Inv b -> small b -> 0 <= k <= zlen (upcoming b) ->
  (forall v, c_accepted c lvl v -> value_accepted id (member (Some v)) lvl) ->
  exists st val m,
    (let* (status, p, buf) := read_ptr size (c_init c) rd (Some (advance b k)) lvl in Ret (status, member p, buf)) =
      Ret (st, val, Some (advance b m)) /\
    0 <= m <= zlen (upcoming b) /\ (st = SOPC_STATUS_OK -> value_accepted id val lvl).
Proof.
  intros Hh I S Hk Hm. destruct (read_ptr_safe c wr rd size b k lvl Hh I S Hk) as (st & p & m & -> & Hb & G). cbn [rbind].
  eexists _, _, m. split; [done|]. split; [done|]. intros E. destruct (G E) as (v & -> & Gv). by apply Hm.
Qed.

Lemma value_read_safe wd rd id b k lvl :
  honours datavalue_contract wd rd lvl -> Buffer_Inv b -> small b -> 0 <= k <= zlen (upcoming b) ->
  exists st val m, ReadVariantNonArrayBuiltInType rd (Some (advance b k)) id ValZero lvl = Ret (st, val, Some (advance b m)) /\
    0 <= m <= zlen (upcoming b) /\ (st = SOPC_STATUS_OK -> value_accepted id val lvl).
Proof.
  intros Hd I S Hk. destruct (Z.leb_spec (max_nested_struct cfg) lvl).
  { unfold ReadVariantNonArrayBuiltInType. replace (max_nested_struct cfg <=? lvl) with true by lia. by eexists _, _, k. }
  destruct (is_number id) eqn:En.
  { rewrite read_number by done. replace (number_read id (Some 0)) with (number_read id (Some (c_init (number_contract id)))) by (by destruct id).
    destruct (honours_next _ _ _ lvl b k (number_honours id lvl) I S Hk) as (st & v & m & -> & Hm & _ & G). cbn [rbind deref].
    eexists _, _, m. split; [done|]. split; [done|]. intros E. right. simpl. rewrite En. split; [done|]. by apply G. }
  destruct (is_string id) eqn:Es.
  { rewrite read_string by done. set (z := mkString 0 false NULL).
    replace (string_read id (Some z)) with (string_read id (Some (c_init (string_contract id z)))) by (by destruct id).
    destruct (honours_next _ _ _ lvl b k (string_honours id z lvl ltac:(done)) I S Hk) as (st & v & m & -> & Hm & _ & G). cbn [rbind deref].
    eexists _, _, m. split; [done|]. split; [done|]. intros E. right. simpl. rewrite Es. split; [done|]. specialize (G E).
    by destruct id. }
  unfold ReadVariantNonArrayBuiltInType; level_ok; destruct id; try discriminate; cbv iota.
  - eexists _, _, k. split; [done|]. split; [done|]. by left.
  - apply (ptr_value_safe guid_contract SOPC_Guid_Write); try done; [apply guid_honours|by right].
  - apply (ptr_value_safe nodeid_contract SOPC_NodeId_Write); try done; [apply nodeid_honours|by right].
  - apply (ptr_value_safe expnodeid_contract SOPC_ExpandedNodeId_Write); try done; [apply expnodeid_honours|by right].
  - apply (ptr_value_safe qname_contract SOPC_QualifiedName_Write); try done; [apply qname_honours|by right].
  - apply (ptr_value_safe ltext_contract SOPC_LocalizedText_Write); try done; [apply ltext_honours|by right].
  - apply (ptr_value_safe extobj_contract SOPC_ExtensionObject_Write); try done; [apply extobj_honours|by right].
  - apply (ptr_value_safe datavalue_contract wd); try done. by right.
  - by eexists _, _, k.
  - apply (ptr_value_safe diag_contract SOPC_DiagnosticInfo_Write); try done; [apply diag_honours|by right].
  - by eexists _, _, k.
Qed.

Definition content_accepted (id : SOPC_BuiltinId) (c : SOPC_VariantArrayValue) (lvl : Z) : Prop :=
  content_for id c /\ content_len c < 2 ^ 31 /\ content_len c <= max_array_length cfg /\
  content_wf c /\ content_limits c /\ content_nests c (lvl + 1) /\ lvl + 2 <= max_nested_struct cfg.

Definition content_result (id : SOPC_BuiltinId) (lvl : Z) (b : SOPC_Buffer)
    (r : res (SOPC_ReturnStatus * Z * SOPC_VariantArrayValue * ptr SOPC_Buffer)) : Prop :=
  exists st n c m, r = Ret (st, n, c, Some (advance b m)) /\ 0 <= m <= zlen (upcoming b) /\
    (st = SOPC_STATUS_OK -> n = content_len c /\ content_accepted id c lvl) /\
    (st <> SOPC_STATUS_OK -> c = ArrNull).

Lemma content_safe_of {A} (c : contract A) wr rd clear size (member : list A -> SOPC_VariantArrayValue) id b k lvl :
  honours c wr rd (lvl + 1) -> (forall v, c_sane c v -> exists v', clear v = Ret v') ->
  Buffer_Inv b -> small b -> 0 <= k <= zlen (upcoming b) -> is_array_id id = true ->
  (forall l, content_for id (member l) /\ content_len (member l) = zlen l) ->
  (forall l, All (c_wf c) l -> All (c_limits c) l -> All (fun v => c_nests c v (lvl + 1)) l ->
     content_wf (member l) /\ content_limits (member l) /\ content_nests (member l) (lvl + 1)) ->
  content_result id lvl b (store_arr member (SOPC_Read_Array (Some (advance b k)) 0 NULL size rd (c_init c) clear lvl)).
Proof.
  intros Hh Hc I S Hk Ei Hm Ha. pose proof array_limit as M.
  destruct (read_array_safe c wr rd clear Hc lvl (advance b k) size 0 Hh M) as (st & n & arr & m & -> & Hb & G & F);
    [by apply Buffer_Inv_advance|done|]. rewrite upcoming_advance, zlen_drop in Hb by done || lia.
  rewrite advance_advance. cbn [store_arr rbind]. eexists _, _, _, (k + m). split; [done|]. split; [lia|]. split.
  - intros E. destruct (G E) as (l & -> & -> & R & Ml & _ & Al & L). unfold in_s in R. simpl in R.
    destruct l as [|x l]; [split; [done|]; unfold content_accepted, content_for; rewrite Ei; simpl; split_and!; done || lia|].
    destruct (Hm (x :: l)) as [F' Ll]. destruct (Ha (x :: l)) as (W & Lm & N).
    1-3: apply All_Forall; (eapply Forall_impl; [exact Al|]); by intros v (? & ? & ?).
    cbn [array_ptr arr_of]. split; [done|]. unfold content_accepted. rewrite Ll. split_and!; done || lia.
  - intros E. by rewrite (F E).
Qed.

Lemma clear_nodeid_ok v : nodeid_sane v -> exists v', clear_nodeid v = Ret v'.
Proof. intros [n E]. unfold clear_nodeid. rewrite E. by eexists. Qed.

Lemma clear_expnodeid_ok v : nodeid_sane (NodeId v) -> exists v', clear_expnodeid v = Ret v'.
Proof. intros [n E]. unfold clear_expnodeid, SOPC_ExpandedNodeId_Clear. rewrite E. by eexists. Qed.

Lemma clear_extobj_ok v : ext_sane v -> exists v', clear_extobj v = Ret v'.
Proof. intros [n E]. unfold clear_extobj. rewrite E. by eexists. Qed.

Lemma content_read_safe wv rv wd rd id b k lvl :
  honours variant_contract wv rv (lvl + 1) -> honours datavalue_contract wd rd (lvl + 1) ->
  Buffer_Inv b -> small b -> 0 <= k <= zlen (upcoming b) ->
  content_result id lvl b (ReadVariantArrayBuiltInType rv rd (Some (advance b k)) id ArrNull 0 lvl).
Proof.
  intros Hv Hd I S Hk. destruct (is_number id) eqn:En.
  { rewrite read_numbers by done.
    replace (SOPC_Read_Array (Some (advance b k)) 0 NULL (number_size id) (number_read id) 0 clear_number lvl)
      with (SOPC_Read_Array (Some (advance b k)) 0 NULL (number_size id) (number_read id) (c_init (number_contract id)) clear_number lvl)
      by (by destruct id).
    apply (content_safe_of _ (number_write id)); try done; [apply number_honours|by eexists|by destruct id|].
    intros l. unfold content_for. rewrite En. by destruct id. }
  destruct (is_string id) eqn:Es.
  { rewrite read_strings by done.
    replace (SOPC_Read_Array (Some (advance b k)) 0 NULL sizeof_String (string_read id) string_init clear_string lvl)
      with (SOPC_Read_Array (Some (advance b k)) 0 NULL sizeof_String (string_read id) (c_init (string_contract id string_init)) clear_string lvl)
      by (by destruct id).
    apply (content_safe_of _ (string_write id)); try done; [by apply string_honours|by eexists|by destruct id|].
    intros l. unfold content_for. rewrite Es. by destruct id. }
  destruct (is_array_id id) eqn:Ei.
  2:{ destruct id; try discriminate; eexists _, _, _, k; (split; [done|]); (split; [done|]); done. }
  pose proof (Buffer_Inv_advance b k I Hk) as Ik. pose proof array_limit as M.
  destruct id; try discriminate; unfold ReadVariantArrayBuiltInType; cbn [arr_Guid arr_NodeId arr_ExpNodeId arr_Qname
    arr_LocalizedText arr_ExtObject arr_DataValue arr_Variant arr_DiagInfo rbind].
  - apply (content_safe_of guid_contract SOPC_Guid_Write); try done; [apply guid_honours|by eexists].
  - apply (content_safe_of nodeid_contract SOPC_NodeId_Write); try done; [apply nodeid_honours|apply clear_nodeid_ok].
  - apply (content_safe_of expnodeid_contract SOPC_ExpandedNodeId_Write); try done; [apply expnodeid_honours|apply clear_expnodeid_ok].
  - apply (content_safe_of qname_contract SOPC_QualifiedName_Write); try done; [apply qname_honours|by eexists].
  - apply (content_safe_of ltext_contract SOPC_LocalizedText_Write); try done; [apply ltext_honours|by eexists].
  - apply (content_safe_of extobj_contract SOPC_ExtensionObject_Write); try done; [apply extobj_honours|apply clear_extobj_ok].
  - change datavalue_init with (c_init datavalue_contract). rewrite read_array_nested_eq by done.
    by apply (content_safe_of datavalue_contract wd).
  - change variant_init with (c_init variant_contract). rewrite read_array_nested_eq by done.
    by apply (content_safe_of variant_contract wv).
  - apply (content_safe_of diag_contract SOPC_DiagnosticInfo_Write); try done; [apply diag_honours|by eexists].
Qed.

(** *** Clearing *)

Lemma clear_arr_null {A} (member : list A -> SOPC_VariantArrayValue) clear n : exists r, clear_arr member clear n NULL = Ret r.
Proof. unfold clear_arr, SOPC_Clear_Array. destruct (0 <=? n); by eexists. Qed.

Lemma clear_arr_of {A} (c : contract A) wr rd lvl (member : list A -> SOPC_VariantArrayValue) clear n l :
  honours c wr rd lvl -> (forall v, c_sane c v -> exists v', clear v = Ret v') ->
  All (c_wf c) l -> All (c_limits c) l -> All (fun v => c_nests c v lvl) l -> n <= zlen l ->
  exists r, clear_arr member clear n (Some l) = Ret r.
Proof.
  intros Hh Hc W L N Hn. unfold clear_arr. destruct (clear_array_ok clear (c_sane c) n l) as [[? ?] ->]; try done; [|by eexists].
  rewrite All_Forall in W, L, N. rewrite Forall_forall in *. intros v Hv. apply (h_sane _ _ _ _ Hh). split_and!; auto.
Qed.

Lemma clear_content_null id n : exists r, ClearToVariantArrayBuiltInType id ArrNull n = Ret r.
Proof.
  destruct id; cbn [ClearToVariantArrayBuiltInType arr_number arr_string arr_Guid arr_NodeId arr_ExpNodeId arr_Qname
    arr_LocalizedText arr_ExtObject arr_DiagInfo rbind]; try apply clear_arr_null; by eexists.
Qed.

Lemma clear_content_ok wv rv wd rd id c n lvl :
  honours variant_contract wv rv (lvl + 1) -> honours datavalue_contract wd rd (lvl + 1) ->
  content_accepted id c lvl -> n <= content_len c ->
  exists r, ClearToVariantArrayBuiltInType id c n = Ret r.
Proof.
  intros Hv Hd ([_ F] & _ & _ & W & L & N & _) Hn.
  destruct c; cbn [content_len content_wf content_limits content_nests] in *.
  1:{ apply clear_content_null. }
  1:{ destruct F as [-> F]. assert (exists r, clear_arr (ArrNumber id) clear_number n (Some l) = Ret r) as [r E].
      { apply (clear_arr_of _ _ _ _ _ _ _ _ (number_honours id (lvl + 1))); done || (intros; by eexists). }
      exists r. destruct id; try discriminate; cbn [ClearToVariantArrayBuiltInType arr_number]; by rewrite decide_True. }
  1:{ destruct F as [-> F]. assert (exists r, clear_arr (ArrString id) clear_string n (Some l) = Ret r) as [r E].
      { apply (clear_arr_of _ _ _ _ _ _ _ _ (string_honours id string_init (lvl + 1) string_init_inited)); done || (intros; by eexists). }
      exists r. destruct id; try discriminate; cbn [ClearToVariantArrayBuiltInType arr_string]; by rewrite decide_True. }
  all: subst id; cbn [ClearToVariantArrayBuiltInType arr_Guid arr_NodeId arr_ExpNodeId arr_Qname
    arr_LocalizedText arr_ExtObject arr_DiagInfo rbind].
  - apply (clear_arr_of _ _ _ _ _ _ _ _ (guid_honours (lvl + 1))); done || (intros; by eexists).
  - by apply (clear_arr_of _ _ _ _ _ _ _ _ (nodeid_honours (lvl + 1)) clear_nodeid_ok).
  - by apply (clear_arr_of _ _ _ _ _ _ _ _ (expnodeid_honours (lvl + 1)) clear_expnodeid_ok).
  - apply (clear_arr_of _ _ _ _ _ _ _ _ (qname_honours (lvl + 1))); done || (intros; by eexists).
  - apply (clear_arr_of _ _ _ _ _ _ _ _ (ltext_honours (lvl + 1))); done || (intros; by eexists).
  - by apply (clear_arr_of _ _ _ _ _ _ _ _ (extobj_honours (lvl + 1)) clear_extobj_ok).
  - by apply (clear_arr_of _ _ _ _ _ _ _ _ Hd (fun _ E => E)).
  - by apply (clear_arr_of _ _ _ _ _ _ _ _ Hv (fun _ E => E)).
  - apply (clear_arr_of _ _ _ _ _ _ _ _ (diag_honours (lvl + 1))); done || (intros; by eexists).
Qed.

Lemma clear_ptr_ok {A} (clear : A -> res A) v : (exists v', clear v = Ret v') -> exists p, clear_ptr clear (Some v) = Ret p.
Proof. intros [v' E]. unfold clear_ptr. rewrite E. by eexists. Qed.

Lemma clear_value_ok wd rd id val lvl :
  honours datavalue_contract wd rd lvl -> value_accepted id val lvl ->
  exists val', ApplyToVariantNonArrayBuiltInType id val = Ret val'.
Proof.
  intros Hd [-> |(E & W & L & N)]; [by eexists; destruct val|].
  destruct val as [| |m n|m s|[g|]|[n|]|[n|]|[q|]|[t|]|[e|]|[d|]|[d|]| |]; try done; simpl in E.
  1:{ destruct (is_number m) eqn:Em; simplify_eq. destruct id; try discriminate; cbn [ApplyToVariantNonArrayBuiltInType val_number];
      rewrite decide_True by done; by eexists. }
  1:{ destruct (is_string m) eqn:Em; simplify_eq. destruct id; try discriminate; cbn [ApplyToVariantNonArrayBuiltInType val_string];
      rewrite decide_True by done; by eexists. }
  all: simplify_eq; cbn [ApplyToVariantNonArrayBuiltInType val_Guid val_NodeId val_ExpNodeId val_Qname val_LocalizedText
    val_ExtObject val_DataValue val_DiagInfo rbind]; try (by eexists).
  - destruct (clear_ptr_ok clear_nodeid n) as [p ->]; [|by eexists]. apply clear_nodeid_ok. by apply (h_sane _ _ _ _ (nodeid_honours lvl)).
  - destruct (clear_ptr_ok clear_expnodeid n) as [p ->]; [|by eexists]. apply clear_expnodeid_ok. by apply (h_sane _ _ _ _ (expnodeid_honours lvl)).
  - destruct (clear_ptr_ok clear_extobj e) as [p ->]; [|by eexists]. apply clear_extobj_ok. by apply (h_sane _ _ _ _ (extobj_honours lvl)).
  - destruct (clear_ptr_ok SOPC_DataValue_Clear' d) as [p E]; [by apply (h_sane _ _ _ _ Hd)|].
    exists (ValDataValue p). change ((let* p := clear_ptr SOPC_DataValue_Clear' (Some d) in Ret (ValDataValue p)) = Ret (ValDataValue p)). by rewrite E.
Qed.

Lemma Variant_Clear_eq builtInTypeId arrayType value :
  SOPC_Variant_Clear' (mkVariant false builtInTypeId arrayType value) =
  if negb (GetBuiltInTypeClearFunction builtInTypeId) then Ret (mkVariant false builtInTypeId arrayType value)
  else
    let* _ :=
      match arrayType with
      | SOPC_VariantArrayType_SingleValue =>
          let* value := ApplyToVariantNonArrayBuiltInType builtInTypeId value in
          Ret (FreeVariantNonArrayBuiltInType builtInTypeId value)
      | SOPC_VariantArrayType_Array =>
          match value with
          | ValZero => Ret ValZero
          | ValArray length content =>
              let* (length, content) := ClearToVariantArrayBuiltInType builtInTypeId content length in
              Ret (ValArray length content)
          | _ => Fault UnionPunning
          end
      | SOPC_VariantArrayType_Matrix =>
          match value with
          | ValZero => Ret ValZero
          | ValMatrix dimensions arrayDimensions content =>
              let* matrixLength := matrix_length dimensions arrayDimensions in
              match matrixLength with
              | Some n =>
                  let* (_, content) := ClearToVariantArrayBuiltInType builtInTypeId content (int32_of_int64 n) in
                  Ret (ValMatrix 0 NULL content)
              | None => Ret value
              end
          | _ => Fault UnionPunning
          end
      end in
    Ret variant_init.
Proof. reflexivity. Qed.

(** The four bytes that are looked at hold the whole length, or zero. *)
Lemma int32_of_int64_le n : 0 <= n < 2 ^ 31 -> int32_of_int64 n <= n.
Proof.
  intros Hn. unfold int32_of_int64, int_of_repr, int_repr. destruct host_int.
  - change (take 4 (le_bytes 8 n)) with (le_bytes 4 n). rewrite le_val_le_bytes.
    change (2 ^ (8 * Z.of_nat 4)) with (2 ^ 32). rewrite Z.mod_small by lia. rewrite swrap_small; [lia|lia|unfold in_s; lia].
  - assert (n / 256 / 256 / 256 / 256 = 0) as E by (rewrite !Z.div_div by lia; apply Z.div_small; lia).
    replace (take 4 (be_bytes 8 n)) with (be_bytes 4 (n / 256 / 256 / 256 / 256)) by done.
    rewrite E. vm_compute (swrap 32 _). lia.
Qed.

Lemma clear_matrix_ok wv rv wd rd dnc id n p c lvl :
  honours variant_contract wv rv (lvl + 1) -> honours datavalue_contract wd rd (lvl + 1) ->
  (exists len, matrix_length n p = Ret (Some len) /\ 0 <= len < 2 ^ 31 /\
     (c = ArrNull \/ (content_accepted id c lvl /\ len <= content_len c))) ->
  exists v', SOPC_Variant_Clear' (mkVariant dnc id SOPC_VariantArrayType_Matrix (ValMatrix n p c)) = Ret v'.
Proof.
  intros Hv Hd (len & El & Rl & C). destruct dnc; [by eexists|]. rewrite Variant_Clear_eq.
  destruct (GetBuiltInTypeClearFunction id); cbn [negb]; [|by eexists]. rewrite El. cbn [rbind].
  assert (exists r, ClearToVariantArrayBuiltInType id c (int32_of_int64 len) = Ret r) as [[? ?] E].
  { destruct C as [-> |[A L]]; [apply clear_content_null|]. eapply clear_content_ok; [done|done|done|].
    pose proof (int32_of_int64_le len Rl). lia. }
  rewrite E. by eexists.
Qed.

Lemma variant_accepted_content dnc id t val lvl :
  c_accepted variant_contract lvl (mkVariant dnc id t val) ->
  match t with
  | SOPC_VariantArrayType_SingleValue => value_accepted id val (lvl + 1)
  | SOPC_VariantArrayType_Array =>
      exists n c, val = ValArray n c /\ content_len c = Z.max 0 n /\ content_accepted id c (lvl + 1)
  | SOPC_VariantArrayType_Matrix =>
      exists n p c, val = ValMatrix n p c /\ dims_wf n p (content_len c) /\ content_accepted id c (lvl + 1)
  end.
Proof.
  intros (W & L & N). cbn [variant_contract c_wf c_limits c_nests variant_wf variant_limits variant_nests] in *. destruct N as [D N].
  destruct t.
  - destruct W as [-> |[E W]]; [by left|right]. unfold is_null_value in *.
    rewrite decide_False in * by (intros ->; by apply value_id_spec in E). auto.
  - destruct val as [| | | | | | | | | | | |n c|]; try done. destruct W as (Rn & Ln & F & W), L as [M L], N as [D' N].
    exists n, c. unfold content_accepted. replace (lvl + 1 + 1) with (lvl + 2) by lia. split_and!; done || lia.
  - destruct val as [| | | | | | | | | | | | |n p c]; try done. destruct W as (Rn & Dm & F & W), L as (M & Mn & L), N as [D' N].
    exists n, p, c. unfold content_accepted. replace (lvl + 1 + 1) with (lvl + 2) by lia. split_and!; done || lia.
Qed.

Lemma content_len_nonneg c : 0 <= content_len c.
Proof. destruct c; apply zlen_nonneg || done. Qed.

Lemma variant_clear_ok wv rv wd rd v lvl :
  (lvl < max_nested_struct cfg -> forall l, lvl < l -> honours variant_contract wv rv l /\ honours datavalue_contract wd rd l) ->
  c_accepted variant_contract lvl v -> exists v', SOPC_Variant_Clear' v = Ret v'.
Proof.
  intros Hn A. destruct v as [dnc id t val]. pose proof (variant_accepted_content _ _ _ _ _ A) as C.
  assert (lvl + 2 <= max_nested_struct cfg) as L by (destruct A as (_ & _ & N); simpl in N; lia). clear A. specialize (Hn ltac:(lia)).
  destruct (Hn (lvl + 1)) as [Hv1 Hd1]; [lia|]. destruct (Hn (lvl + 1 + 1)) as [Hv2 Hd2]; [lia|]. destruct t.
  - destruct dnc; [by eexists|]. rewrite Variant_Clear_eq. destruct (GetBuiltInTypeClearFunction id); cbn [negb]; [|by eexists].
    destruct (clear_value_ok wd rd id val (lvl + 1) Hd1 C) as [val' E]. rewrite E. by eexists.
  - destruct C as (n & c & -> & Ln & C). destruct dnc; [by eexists|]. rewrite Variant_Clear_eq.
    destruct (GetBuiltInTypeClearFunction id); cbn [negb]; [|by eexists].
    destruct (clear_content_ok wv rv wd rd id c n (lvl + 1)) as [[? ?] E]; try done; [lia|]. rewrite E. by eexists.
  - destruct C as (n & p & c & -> & D & C). pose proof (content_len_nonneg c). eapply clear_matrix_ok; [done|done|].
    exists (content_len c). destruct C as (? & R & C). split_and!; [by apply matrix_length_spec|lia|lia|right]. done.
Qed.

Lemma read_dims_safe lvl len n : forall pre acc b k,
  Buffer_Inv b -> small b -> 0 <= k <= zlen (upcoming b) ->
  exists st dims ml m, read_dims n pre acc len (Some (advance b k)) lvl = Ret (st, dims, ml, Some (advance b m)) /\
    0 <= m <= zlen (upcoming b) /\
    (st = SOPC_STATUS_OK -> exists ds, dims = pre ++ ds /\ length ds = n /\ Forall (fun d => 0 < d < 2 ^ 31) ds /\ ml = acc * product ds).
Proof.
  induction n as [|n IH]; intros pre acc b k I S Hk; cbn [read_dims].
  { eexists _, _, _, k. split; [done|]. split; [done|]. intros _. exists []. rewrite app_nil_r, Z.mul_1_r. done. }
  destruct (safe_next SOPC_Int32_Write 0 b k lvl) as (st & d & m & -> & Hm & _ & G); [done..|]. cbn [rbind deref].
  destruct (is_ok st && (0 <? d)) eqn:E; [|by eexists _, _, _, m].
  apply andb_prop in E as [E Ed]. apply is_ok_true in E. subst. destruct (G eq_refl) as (R & _). simpl in R. unfold in_s in R.
  destruct (len <? acc * d); [by eexists _, _, _, m|].
  destruct (IH (pre ++ [d]) (acc * d) b m I S Hm) as (st & dims & ml & m' & -> & Hm' & G').
  eexists _, _, _, m'. split; [done|]. split; [done|]. intros E. destruct (G' E) as (ds & -> & Ll & F & ->).
  exists (d :: ds). rewrite <- app_assoc. split; [done|]. split; [simpl; lia|]. split; [constructor; [lia|done]|].
  change (product (d :: ds)) with (d * product ds). by rewrite Z.mul_assoc.
Qed.

Lemma read_matrix_dims_safe st0 len b k lvl :
  Buffer_Inv b -> small b -> 0 <= k <= zlen (upcoming b) ->
  exists st n p m, read_matrix_dims st0 0 NULL len (Some (advance b k)) lvl = Ret (st, n, p, Some (advance b m)) /\
    0 <= m <= zlen (upcoming b) /\
    (st = SOPC_STATUS_OK -> st0 = SOPC_STATUS_OK /\ dims_wf n p len /\ n <= max_array_length cfg).
Proof.
  intros I S Hk. unfold read_matrix_dims. set (st1 := if is_ok st0 && (len <? 0) then SOPC_STATUS_ENCODING_ERROR else st0).
  destruct (read_if_safe SOPC_Int32_Write st1 0 b k lvl) as (st & n & m & -> & Hm & _ & G); [done..|]. cbn [rbind deref].
  destruct (is_ok st) eqn:E; cbn [negb]; [|eexists _, _, _, m; (split; [done|]); (split; [done|]); by intros ->].
  apply is_ok_true in E. subst st. destruct (G eq_refl) as [E1 (R & _)]. simpl in R. unfold in_s in R.
  assert (st0 = SOPC_STATUS_OK /\ 0 <= len) as [-> Hl].
  { subst st1. destruct (is_ok st0) eqn:E0; cbn [andb] in E1; [|by rewrite E1 in E0]. apply is_ok_true in E0.
    destruct (Z.ltb_spec len 0); [done|]. done. }
  destruct ((n <? 0) || (max_array_length cfg <? n) || (SIZE_MAX <? u64 n)) eqn:Er; [by eexists _, _, _, m|].
  apply orb_false_elim in Er as [Er _]. apply orb_false_elim in Er as [En Em].
  destruct (alloc_ok (4 * n)); [|by eexists _, _, _, m].
  destruct (read_dims_safe lvl len (Z.to_nat n) [] (if n =? 0 then 0 else 1) b m I S Hm) as (st & dims & ml & m' & -> & Hm' & G').
  cbn [rbind]. destruct (is_ok st) eqn:E; [|eexists _, _, _, m'; (split; [done|]); (split; [done|]); by intros ->].
  apply is_ok_true in E. subst. destruct (G' eq_refl) as (ds & -> & Ll & F & ->). cbn [app].
  eexists _, _, _, m'. split; [done|]. split; [done|]. intros E. split; [done|]. split; [|lia].
  destruct (Z.eqb_spec (if n =? 0 then 0 else product ds) len) as [El|].
  2:{ destruct (Z.eqb_spec ((if n =? 0 then 0 else 1) * product ds) len) as [El|]; [|done]. exfalso. destruct (n =? 0); lia. }
  destruct (Z.eqb_spec n 0); (split; [lia|split; [lia|]]); intros P; [lia|].
  exists ds. split_and!; try done. unfold zlen. lia.
Qed.

(** What is left in a variant after a failure can be cleared. *)
Definition shaped (v : SOPC_Variant) : Prop :=
  match v with
  | mkVariant dnc _ t val =>
      dnc = false /\
      match t with
      | SOPC_VariantArrayType_SingleValue => True
      | SOPC_VariantArrayType_Array => exists n c, val = ValArray n c
      | SOPC_VariantArrayType_Matrix => exists n p c, val = ValMatrix n p c
      end
  end.

Lemma shaped_sane v : shaped v ->
  exists v', SOPC_Variant_Clear' (mkVariant (Var_DoNotClear v) SOPC_Null_Id (ArrayType v) (clear_dimensions (Var_Value v))) = Ret v'.
Proof.
  destruct v as [dnc id t val]. intros [-> Sh]. cbn [Var_DoNotClear ArrayType Var_Value]. rewrite Variant_Clear_eq. destruct t.
  - destruct val; by eexists.
  - destruct Sh as (n & c & ->). destruct c; by eexists.
  - destruct Sh as (n & p & c & ->). destruct c; by eexists.
Qed.

Lemma Variant_Clear_result v v' : SOPC_Variant_Clear' v = Ret v' -> v' = variant_init \/ v' = v.
Proof.
  destruct v as [[] id t val]; [intros E; simpl in E; simplify_eq; by left|]. rewrite Variant_Clear_eq.
  destruct (GetBuiltInTypeClearFunction id); cbn [negb]; [|intros E; simplify_eq; by right].
  intros E. apply rbind_Ret_inv in E as (? & _ & E). simplify_eq. by left.
Qed.

Lemma clear_failed_matrix_safe wv rv wd rd id t st n p c lvl :
  honours variant_contract wv rv (lvl + 1) -> honours datavalue_contract wd rd (lvl + 1) ->
  c = ArrNull \/ (content_accepted id c lvl /\ n = content_len c) -> is_ok st = false ->
  exists st' v, clear_failed_matrix (mkVariant false id t ValZero) st n p c = Ret (st', v) /\ is_ok st' = false /\ shaped v.
Proof.
  intros Hv Hd C E. unfold clear_failed_matrix. rewrite dimension_alloc. cbn [Var_DoNotClear BuiltInTypeId].
  assert (forall d q, (matrix_length d q = Ret None \/ exists len, matrix_length d q = Ret (Some len) /\ 0 <= len < 2 ^ 31 /\
      (c = ArrNull \/ (content_accepted id c lvl /\ len <= content_len c))) ->
    exists st' v, (let* v := SOPC_Variant_Clear' (mkVariant false id SOPC_VariantArrayType_Matrix (ValMatrix d q c)) in Ret (st, v)) =
      Ret (st', v) /\ is_ok st' = false /\ shaped v) as Hc.
  { intros d q M. assert (exists v, SOPC_Variant_Clear' (mkVariant false id SOPC_VariantArrayType_Matrix (ValMatrix d q c)) = Ret v) as [v Ev].
    { destruct M as [M|M]; [|by eapply clear_matrix_ok]. rewrite Variant_Clear_eq, M.
      destruct (GetBuiltInTypeClearFunction id); by eexists. }
    rewrite Ev. eexists _, _. split; [done|]. split; [done|].
    destruct (Variant_Clear_result _ _ Ev) as [-> | ->]; split; try done; by do 3 eexists. }
  destruct (Z.ltb_spec 0 n).
  - apply Hc. unfold matrix_length. change (0 <? 1) with true. cbn [deref rbind]. change (Z.to_nat 1) with 1%nat. cbn [product_dims].
    replace (0 <? n) with true by lia. rewrite Z.mul_1_l. destruct (Z.leb_spec n INT32_MAX); cbn [andb]; [right|by left].
    exists n. split_and!; [done|lia|unfold INT32_MAX in *; lia|]. destruct C as [-> |[C ->]]; [by left|by right].
  - apply Hc. right. exists 0. split_and!; try done. destruct C as [-> |[C ->]]; [by left|right].
    split; [done|apply content_len_nonneg].
Qed.

Lemma accepted_single id val lvl :
  lvl + 2 <= max_nested_struct cfg -> value_accepted id val (lvl + 1) ->
  c_accepted variant_contract lvl (mkVariant false id SOPC_VariantArrayType_SingleValue val).
Proof.
  intros L A. unfold c_accepted. cbn [variant_contract c_wf c_limits c_nests variant_wf variant_limits variant_nests]. unfold is_null_value.
  destruct A as [-> |(E & W & Lm & N)]; [rewrite decide_True by done; split_and!; try done; by left|]. split_and!; auto.
Qed.

Lemma read_value_safe wv rv wd rd id t b k lvl :
  (forall l, lvl < l -> honours variant_contract wv rv l /\ honours datavalue_contract wd rd l) ->
  lvl + 2 <= max_nested_struct cfg -> Buffer_Inv b -> small b -> 0 <= k <= zlen (upcoming b) ->
  exists st v m, read_value rv rd (mkVariant false id t ValZero) (Some (advance b k)) (lvl + 1) = Ret (st, v, Some (advance b m)) /\
    0 <= m <= zlen (upcoming b) /\ shaped v /\ (st = SOPC_STATUS_OK -> c_accepted variant_contract lvl v).
Proof.
  intros Hn L I S Hk. destruct (Hn (lvl + 1)) as [Hv1 Hd1]; [lia|]. destruct (Hn (lvl + 1 + 1)) as [Hv2 Hd2]; [lia|].
  unfold read_value. destruct t.
  - destruct (value_read_safe wd rd id b k (lvl + 1) Hd1 I S Hk) as (st & val & m & -> & Hm & G). cbn [rbind].
    eexists _, _, m. split; [done|]. split; [done|]. split; [done|]. intros E. apply accepted_single; auto.
  - cbn [val_Array rbind].
    destruct (content_read_safe wv rv wd rd id b k (lvl + 1) Hv2 Hd2 I S Hk) as (st & n & c & m & -> & Hm & G & _). cbn [rbind].
    eexists _, _, m. split; [done|]. split; [done|]. split; [split; [done|by do 2 eexists]|]. intros E. destruct (G E) as [-> A].
    pose proof (content_len_nonneg c). destruct A as (F & R & M & W & Lm & N & D). replace (lvl + 1 + 1) with (lvl + 2) in N by lia.
    unfold c_accepted. cbn [variant_contract c_wf c_limits c_nests variant_wf variant_limits variant_nests]. split_and!; done || lia.
  - cbn [val_Matrix rbind].
    destruct (content_read_safe wv rv wd rd id b k (lvl + 1) Hv2 Hd2 I S Hk) as (st & n & c & m & -> & Hm & G & F). cbn [rbind].
    destruct (read_matrix_dims_safe st n b m (lvl + 1) I S Hm) as (st' & d & p & m' & -> & Hm' & G'). cbn [rbind].
    destruct (is_ok st') eqn:E'.
    + apply is_ok_true in E'. subst. destruct (G' eq_refl) as (-> & D & Md). destruct (G eq_refl) as [-> A].
      eexists _, _, m'. split; [done|]. split; [done|]. split; [split; [done|by do 3 eexists]|]. intros _.
      destruct A as (Fc & R & M & W & Lm & N & L'). replace (lvl + 1 + 1) with (lvl + 2) in N by lia.
      unfold c_accepted. cbn [variant_contract c_wf c_limits c_nests variant_wf variant_limits variant_nests]. split_and!; done || lia.
    + assert (c = ArrNull \/ (content_accepted id c (lvl + 1) /\ n = content_len c)) as C.
      { destruct (is_ok st) eqn:Es; [right|left; apply F; by intros ->]. apply is_ok_true in Es. by destruct (G Es). }
      destruct (clear_failed_matrix_safe wv rv wd rd id SOPC_VariantArrayType_Matrix st' n p c (lvl + 1) Hv2 Hd2 C E') as (st2 & v & -> & E2 & Sh).
      cbn [rbind]. eexists _, _, m'. split; [done|]. split; [done|]. split; [done|]. by intros ->.
Qed.

Lemma variant_read_safe wv rv wd rd b lvl :
  (lvl < max_nested_struct cfg -> forall l, lvl < l -> honours variant_contract wv rv l /\ honours datavalue_contract wd rd l) ->
  Buffer_Inv b -> small b ->
  decodes b (variant_read rv rd (Some variant_init) (Some b) lvl) (c_sane variant_contract) (c_accepted variant_contract lvl).
Proof.
  intros Hn I S. unfold variant_read. pose proof (zlen_nonneg (upcoming b)).
  destruct (Z.leb_spec (max_nested_struct cfg) lvl); [by apply decodes_fail; [|eexists]|]. specialize (Hn ltac:(lia)). cbv zeta.
  rewrite <- (advance_0 b) at 2.
  destruct (safe_next SOPC_Byte_Write 0 b 0 (lvl + 1)) as (st & e & m & -> & Hm & _ & G); [done..|lia|]. cbn [rbind deref].
  destruct (is_ok st) eqn:E; cbn [rbind].
  2:{ rewrite E. cbn [rbind]. rewrite E. apply decodes_intro; [done|by eexists|by intros ->]. }
  apply is_ok_true in E. subst. destruct (G eq_refl) as (_ & _ & L). simpl in L.
  set (id := builtin_of _). change (Var_DoNotClear variant_init) with false. change (Var_Value variant_init) with ValZero.
  destruct (has_flag e SOPC_VariantArrayValueFlag) eqn:F1, (has_flag e SOPC_VariantArrayDimensionsFlag) eqn:F2; cbn [negb andb is_ok].
  3:{ cbn [rbind]. apply decodes_intro; [done|by eexists|done]. }
  all: match goal with |- context [read_value _ _ (mkVariant false ?i ?t ValZero)] =>
         destruct (read_value_safe wv rv wd rd i t b m lvl Hn ltac:(lia) I S Hm) as (st & v & k & -> & Hk & Sh & A) end;
       cbn [rbind]; destruct (is_ok st) eqn:E.
  1,3,5: apply is_ok_true in E; subst; apply decodes_intro; auto; eapply (variant_clear_ok wv rv wd rd v lvl); auto.
  all: apply decodes_intro; [done|by apply shaped_sane|by intros ->].
Qed.

Lemma read_or_reset_safe {A} (c : bool) (wr : encoder A) {rd : decoder A} `{!Codec wr rd} st field reset b k lvl :
  inited wr field -> Buffer_Inv b -> small b -> 0 <= k <= zlen (upcoming b) ->
  exists st' v m, read_or_reset c st rd field reset (Some (advance b k)) lvl = Ret (st', Some v, Some (advance b m)) /\
    0 <= m <= zlen (upcoming b) /\
    (st' = SOPC_STATUS_OK -> st = SOPC_STATUS_OK /\ if c then accepted wr lvl v else v = reset).
Proof.
  intros Hi I S Hk. unfold read_or_reset. destruct (is_ok st) eqn:E; [destruct c|]; cbn [andb].
  - apply is_ok_true in E. subst. destruct (safe_next wr field b k lvl) as (st' & v & m & -> & Hm & _ & G); [done..|].
    eexists _, _, m. split; [done|]. split; [done|]. auto.
  - apply is_ok_true in E. subst. by eexists _, _, k.
  - eexists _, _, k. split; [done|]. split; [done|]. by intros ->.
Qed.

Lemma read_or_reset_variant_safe (c : bool) wv rv st b k lvl :
  honours variant_contract wv rv lvl -> Buffer_Inv b -> small b -> 0 <= k <= zlen (upcoming b) ->
  exists st' v m, read_or_reset c st rv variant_init variant_init (Some (advance b k)) lvl = Ret (st', Some v, Some (advance b m)) /\
    0 <= m <= zlen (upcoming b) /\ (exists v', SOPC_Variant_Clear' v = Ret v') /\
    (st' = SOPC_STATUS_OK -> st = SOPC_STATUS_OK /\ if c then c_accepted variant_contract lvl v else v = variant_init).
Proof.
  intros Hh I S Hk. unfold read_or_reset. destruct (is_ok st) eqn:E; [destruct c|]; cbn [andb].
  - apply is_ok_true in E. subst. destruct (honours_next variant_contract wv rv lvl b k Hh I S Hk) as (st' & v & m & E & Hm & Sn & G).
    change (c_init variant_contract) with variant_init in E. rewrite E.
    eexists _, _, m. split; [done|]. split; [done|]. auto.
  - apply is_ok_true in E. subst. eexists _, _, k. split; [done|]. split; [done|]. split; [by eexists|done].
  - eexists _, _, k. split; [done|]. split; [done|]. split; [by eexists|]. by intros ->.
Qed.

Lemma datavalue_read_safe wv rv b lvl :
  (lvl < max_nested_struct cfg -> forall l, lvl < l -> honours variant_contract wv rv l) ->
  Buffer_Inv b -> small b ->
  decodes b (datavalue_read rv (Some datavalue_init) (Some b) lvl) (c_sane datavalue_contract) (c_accepted datavalue_contract lvl).
Proof.
  intros Hn I S. unfold datavalue_read. pose proof (zlen_nonneg (upcoming b)).
  destruct (Z.leb_spec (max_nested_struct cfg) lvl); [by apply decodes_fail; [|eexists]|].
  specialize (Hn ltac:(lia) (lvl + 1) ltac:(lia)). cbv zeta. rewrite <- (advance_0 b) at 2.
  destruct (safe_next SOPC_Byte_Write 0 b 0 (lvl + 1)) as (st0 & e & m0 & -> & Hm0 & _ & G0); [done..|lia|].
  cbn [rbind deref datavalue_init DV_Value variant_init DV_Status SourceTimestamp ServerTimestamp SourcePicoSeconds ServerPicoSeconds].
  change (mkVariant false SOPC_Null_Id SOPC_VariantArrayType_SingleValue ValZero) with variant_init.
  destruct (read_or_reset_variant_safe (has_flag e SOPC_DataValue_NotNullValue) wv rv st0 b m0 (lvl + 1) Hn I S Hm0)
    as (st1 & v & m1 & -> & Hm1 & [v' Sv] & G1). cbn [rbind deref].
  destruct (read_or_reset_safe (has_flag e SOPC_DataValue_NotGoodStatusCode) SOPC_StatusCode_Write st1 0 0 b m1 (lvl + 1))
    as (st2 & x2 & m2 & -> & Hm2 & G2); [done..|]. cbn [rbind deref].
  destruct (read_or_reset_safe (has_flag e SOPC_DataValue_NotMinSourceDate) SOPC_DateTime_Write st2 0 0 b m2 (lvl + 1))
    as (st3 & x3 & m3 & -> & Hm3 & G3); [done..|]. cbn [rbind deref].
  destruct (read_or_reset_safe (has_flag e SOPC_DataValue_NotZeroSourcePico) SOPC_UInt16_Write st3 0 0 b m3 (lvl + 1))
    as (st4 & x4 & m4 & -> & Hm4 & G4); [done..|]. cbn [rbind deref].
  destruct (read_or_reset_safe (has_flag e SOPC_DataValue_NotMinServerDate) SOPC_DateTime_Write st4 0 0 b m4 (lvl + 1))
    as (st5 & x5 & m5 & -> & Hm5 & G5); [done..|]. cbn [rbind deref].
  destruct (read_or_reset_safe (has_flag e SOPC_DataValue_NotZeroServerPico) SOPC_UInt16_Write st5 0 0 b m5 (lvl + 1))
    as (st6 & x6 & m6 & -> & Hm6 & G6); [done..|]. cbn [rbind deref].
  assert (forall x y z t u, c_sane datavalue_contract (mkDataValue v x y z t u)) as Sd.
  { intros. exists (mkDataValue v' 0 0 0 0 0). change ((let* w := SOPC_Variant_Clear' v in Ret (mkDataValue w 0 0 0 0 0)) = Ret (mkDataValue v' 0 0 0 0 0)). by rewrite Sv. }
  destruct (is_ok st6) eqn:E6.
  2:{ rewrite Sv. cbn [rbind]. apply decodes_intro; [done| |by intros ->].
      destruct (Variant_Clear_result _ _ Sv) as [-> | ->]; [by eexists|apply Sd]. }
  apply is_ok_true in E6. subst. destruct (G6 eq_refl) as [-> A6]. destruct (G5 eq_refl) as [-> A5]. destruct (G4 eq_refl) as [-> A4].
  destruct (G3 eq_refl) as [-> A3]. destruct (G2 eq_refl) as [-> A2]. destruct (G1 eq_refl) as [-> A1]. destruct (G0 eq_refl) as (_ & _ & L).
  simpl in L. clear G0 G1 G2 G3 G4 G5 G6. apply decodes_intro; [done|apply Sd|]. intros _.
  assert (has_value v = true -> c_accepted variant_contract (lvl + 1) v) as Av.
  { destruct (has_flag e SOPC_DataValue_NotNullValue); [done|by subst v]. }
  assert (in_u 32 x2) by (destruct (has_flag _ _) in A2; [apply A2|by subst]).
  assert (in_s 64 x3 /\ (0 < x3 -> lvl + 3 <= max_nested_struct cfg)) as [? ?]
    by (destruct (has_flag _ _) in A3; [destruct A3 as (? & _ & N); simpl in N; split; [done|lia]|by subst]).
  assert (in_u 16 x4) by (destruct (has_flag _ _) in A4; [apply A4|by subst]).
  assert (in_s 64 x5 /\ (0 < x5 -> lvl + 3 <= max_nested_struct cfg)) as [? ?]
    by (destruct (has_flag _ _) in A5; [destruct A5 as (? & _ & N); simpl in N; split; [done|lia]|by subst]).
  assert (in_u 16 x6) by (destruct (has_flag _ _) in A6; [apply A6|by subst]).
  unfold c_accepted. cbn [datavalue_contract c_wf c_limits c_nests datavalue_wf datavalue_limits datavalue_nests].
  split_and!; try done; try lia; intros Ev; [by apply Av|by eexists|by apply Av..].
Qed.

(** *** The recursion *)

Lemma datavalue_clear_ok wv rv d lvl :
  (lvl < max_nested_struct cfg -> forall l, lvl < l -> honours variant_contract wv rv l) ->
  c_accepted datavalue_contract lvl d -> exists d', SOPC_DataValue_Clear' d = Ret d'.
Proof.
  intros Hn (W & L & N). destruct d as [v st srcT srvT srcP srvP].
  cbn [datavalue_contract c_wf c_limits c_nests datavalue_wf datavalue_limits datavalue_nests] in *.
  destruct W as (Wv & Sv & _), N as (D & Nv & _). specialize (Hn ltac:(lia) (lvl + 1) ltac:(lia)).
  assert (exists v', SOPC_Variant_Clear' v = Ret v') as [v' E].
  { destruct (has_value v); [|by apply Sv]. apply (h_sane _ _ _ _ Hn). split_and!; [by apply Wv|by apply L|by apply Nv]. }
  exists (mkDataValue v' 0 0 0 0 0). change ((let* w := SOPC_Variant_Clear' v in Ret (mkDataValue w 0 0 0 0 0)) = Ret (mkDataValue v' 0 0 0 0 0)).
  by rewrite E.
Qed.

Lemma nested_honours n : forall lvl, max_nested_struct cfg - lvl < Z.of_nat n -> (1 <= n)%nat ->
  honours variant_contract (Variant_Write_fuel n) (Variant_Read_fuel n) lvl /\
  honours datavalue_contract (DataValue_Write_fuel n) (DataValue_Read_fuel n) lvl.
Proof.
  induction n as [|n IH]; intros lvl Hn Hp; [lia|]. cbn [Variant_Write_fuel Variant_Read_fuel DataValue_Write_fuel DataValue_Read_fuel].
  assert (lvl < max_nested_struct cfg -> forall l, lvl < l ->
    honours variant_contract (Variant_Write_fuel n) (Variant_Read_fuel n) l /\
    honours datavalue_contract (DataValue_Write_fuel n) (DataValue_Read_fuel n) l) as Hb by (intros; apply IH; lia).
  assert (lvl < max_nested_struct cfg -> forall l, lvl < l ->
    honours variant_contract (Variant_Write_fuel n) (Variant_Read_fuel n) l) as Hv by (intros L l Hl; by apply Hb).
  split; split; cbn [c_wf c_limits c_wire c_nests c_canon c_init c_sane variant_contract datavalue_contract]; intros.
  - by eapply variant_write_spec.
  - by eapply (variant_read_spec _ _ _ _ v b lvl rest Hb).
  - by apply (variant_read_safe _ _ _ _ b lvl Hb).
  - by eapply (variant_clear_ok _ _ _ _ v lvl Hb).
  - by eapply datavalue_write_spec.
  - by eapply (datavalue_read_spec _ _ v b lvl rest Hv).
  - by apply (datavalue_read_safe _ _ b lvl Hv).
  - by eapply (datavalue_clear_ok _ _ v lvl Hv).
Qed.

Lemma fuel_enough lvl : max_nested_struct cfg - lvl < Z.of_nat (nesting_fuel lvl) /\ (1 <= nesting_fuel lvl)%nat.
Proof. unfold nesting_fuel. lia. Qed.

Lemma variant_honours lvl : honours variant_contract SOPC_Variant_Write_Internal SOPC_Variant_Read_Internal lvl.
Proof. destruct (fuel_enough lvl) as [F1 F2]. destruct (nested_honours _ lvl F1 F2) as [[Hw Hr Hs Hc] _]. by split. Qed.

Lemma datavalue_honours lvl : honours datavalue_contract SOPC_DataValue_Write SOPC_DataValue_Read lvl.
Proof. destruct (fuel_enough lvl) as [F1 F2]. destruct (nested_honours _ lvl F1 F2) as [_ [Hw Hr Hs Hc]]. by split. Qed.

#[refine] #[export] Instance Variant_codec : Codec SOPC_Variant_Write SOPC_Variant_Read := {
  wire := variant_wire; nests := variant_nests; wf := variant_wf; limits := variant_limits; canon := variant_canon;
  inited v := v = variant_init; sane v := exists v', SOPC_Variant_Clear' v = Ret v'
}.
Proof.
  - intros v b lvl W I S. apply encodes_guard; [done| |destruct v; simpl; lia].
    intros _. by apply (h_write _ _ _ _ (variant_honours lvl)).
  - intros v v0 b lvl rest W L -> I S U N HA. by apply (h_read _ _ _ _ (variant_honours lvl) v b rest).
  - intros v0 b lvl -> I S. by apply (h_safe _ _ _ _ (variant_honours lvl)).
  - intros v ->. by eexists.
  - intros v lvl W L N. by apply (h_sane _ _ _ _ (variant_honours lvl)).
Defined.

#[refine] #[export] Instance DataValue_codec : Codec SOPC_DataValue_Write SOPC_DataValue_Read := {
  wire := datavalue_wire; nests := datavalue_nests; wf := datavalue_wf; limits := datavalue_limits; canon := datavalue_canon;
  inited d := d = datavalue_init; sane d := exists d', SOPC_DataValue_Clear' d = Ret d'
}.
Proof.
  - intros d b lvl W I S. by apply (h_write _ _ _ _ (datavalue_honours lvl)).
  - intros d d0 b lvl rest W L -> I S U N HA. by apply (h_read _ _ _ _ (datavalue_honours lvl) d b rest).
  - intros d0 b lvl -> I S. by apply (h_safe _ _ _ _ (datavalue_honours lvl)).
  - intros d ->. by eexists.
  - intros d lvl W L N. by apply (h_sane _ _ _ _ (datavalue_honours lvl)).
Defined.

End Specs.
