(* ===== verification/EncProps.v ===== *)
(** * Correctness of the binary encoding of the built-in types

    The theorems hold on every machine whose byte order the toolkit detects: the
    configuration of the byte order is the one that
    [SOPC_Helper_EndiannessCfg_Initialize] computes.  They instantiate the
    contracts of the types (class [Codec]). *)

From Stdlib Require Import ZArith Lia.
From Stdlib Require Import Strings.Byte.
From stdpp Require Import prelude.
From S2P Require Import Prelude Common Buffer Codec EncScalar EncString EncNodeId EncText.

Open Scope Z_scope.

(** [v] is written in [b], then read from the same place in [v0]: both calls
    return OK, the value that was read is [v'] and all that was written was read. *)
Definition roundtrips {A} (wr : encoder A) (rd : decoder A) (v0 v v' : A) (b : SOPC_Buffer) (lvl : Z) : Prop :=
  exists b' b'', wr (Some v) (Some b) lvl = Ret (SOPC_STATUS_OK, Some b') /\
    SOPC_Buffer_SetPosition (Some b') (position b) = (SOPC_STATUS_OK, Some b'') /\
    rd (Some v0) (Some b'') lvl = Ret (SOPC_STATUS_OK, Some v', Some b').

(** A decoder returns, and reads only data of the buffer. *)
Definition returns_within {A} (b : SOPC_Buffer) (r : dec_result A) : Prop :=
  exists st v k, r = Ret (st, Some v, Some (advance b k)) /\ 0 <= k <= length_ b - position b.

(** An encoder returns, the data before the position are kept. *)
Definition writes_after (b : SOPC_Buffer) (r : enc_result) : Prop :=
  exists st b', r = Ret (st, Some b') /\ Buffer_Inv b' /\
    take (Z.to_nat (position b)) (content b') = take (Z.to_nat (position b)) (content b).

Section Properties.
Context `{Allocator} `{Host} {cfg : SOPC_Common_EncodingConstants}.

#[local] Existing Instance SOPC_Helper_EndiannessCfg_Initialize.

Lemma codec_roundtrips {A} (wr : encoder A) {rd : decoder A} `{!Codec wr rd} v0 v v' b lvl :
  v' = canon wr v -> wf wr v -> limits wr v -> inited wr v0 -> nests wr v lvl -> Buffer_Inv b -> small b ->
  position b + zlen (wire wr v) <= maximum_size b -> (forall n, alloc_ok n = true) ->
  roundtrips wr rd v0 v v' b lvl.
Proof.
  intros ->. intros. destruct (codec_roundtrip wr v v0 b lvl) as (b' & b'' & ? & _ & ? & ?); try done. by exists b', b''.
Qed.

Lemma codec_returns {A} (wr : encoder A) {rd : decoder A} `{!Codec wr rd} v0 b lvl :
  inited wr v0 -> Buffer_Inv b -> small b -> returns_within b (rd (Some v0) (Some b) lvl).
Proof.
  intros Hi I S. destruct (codec_safe v0 b lvl Hi I S) as (st & v & k & E & Hk & _).
  exists st, v, k. split; [done|]. by rewrite <- zlen_upcoming.
Qed.

Lemma codec_writes {A} (wr : encoder A) {rd : decoder A} `{!Codec wr rd} v b lvl :
  wf wr v -> Buffer_Inv b -> small b -> writes_after b (wr (Some v) (Some b) lvl).
Proof.
  intros W I S. destruct (codec_write v b lvl W I S) as (st & b' & E & [bs' Wr] & _).
  exists st, b'. split_and!; [done|apply Wr|]. rewrite (wr_content _ _ _ Wr).
  apply take_splice. rewrite zlen_content by done. destruct I; lia.
Qed.

(** Integers and floating point numbers are written in little-endian order,
    whatever the byte order of the machine is. *)
Theorem scalars_little_endian z b lvl :
  Buffer_Inv b -> small b -> position b + 8 <= maximum_size b -> (forall n, alloc_ok n = true) ->
  lvl < max_nested_struct cfg ->
  let writes r bs := exists b', r = Ret (SOPC_STATUS_OK, Some b') /\
    content b' = splice (content b) (position b) bs /\ position b' = position b + zlen bs in
  (in_s 16 z -> writes (SOPC_Int16_Write (Some z) (Some b) lvl) (le_bytes 2 z)) /\
  (in_u 16 z -> writes (SOPC_UInt16_Write (Some z) (Some b) lvl) (le_bytes 2 z)) /\
  (in_s 32 z -> writes (SOPC_Int32_Write (Some z) (Some b) lvl) (le_bytes 4 z)) /\
  (in_u 32 z -> writes (SOPC_UInt32_Write (Some z) (Some b) lvl) (le_bytes 4 z)) /\
  (in_s 64 z -> writes (SOPC_Int64_Write (Some z) (Some b) lvl) (le_bytes 8 z)) /\
  (in_u 64 z -> writes (SOPC_UInt64_Write (Some z) (Some b) lvl) (le_bytes 8 z)) /\
  (in_u 32 z -> writes (SOPC_Float_Write (Some z) (Some b) lvl) (le_bytes 4 z)) /\
  (in_u 64 z -> writes (SOPC_Double_Write (Some z) (Some b) lvl) (le_bytes 8 z)).
Proof.
  intros I S F HA L writes.
  assert (forall (wr : encoder Z) (rd : decoder Z) (C : Codec wr rd) bs, bs = wire wr z -> wf wr z -> nests wr z lvl ->
    zlen bs <= 8 -> writes (wr (Some z) (Some b) lvl) bs) as X.
  { intros wr rd C bs -> W N Z8. destruct (codec_write z b lvl W I S) as (st & b' & -> & _ & HW & HF).
    assert (st = SOPC_STATUS_OK) as -> by (apply HF; [done|]; split; [lia|]; right; intros n _; apply HA).
    destruct (HW eq_refl) as [Wr _]. exists b'. split_and!; [done|apply Wr|apply Wr]. }
  split_and!; intros R;
    [apply (X SOPC_Int16_Write _ _)|apply (X SOPC_UInt16_Write _ _)|apply (X SOPC_Int32_Write _ _)|apply (X SOPC_UInt32_Write _ _)
    |apply (X SOPC_Int64_Write _ _)|apply (X SOPC_UInt64_Write _ _)|apply (X SOPC_Float_Write _ _)|apply (X SOPC_Double_Write _ _)]; try done; simpl; rewrite ?zlen_le_bytes; lia.
Qed.

(** Every scalar that is written is read back, at any level below the
    nesting limit; a Boolean is read as 0 or 1. *)
Theorem scalars_roundtrip z b lvl :
  Buffer_Inv b -> small b -> position b + 8 <= maximum_size b -> (forall n, alloc_ok n = true) ->
  lvl + 2 <= max_nested_struct cfg ->
  (in_u 8 z -> roundtrips SOPC_Boolean_Write SOPC_Boolean_Read 0 z (if z =? 0 then 0 else 1) b lvl) /\
  (in_s 8 z -> roundtrips SOPC_SByte_Write SOPC_SByte_Read 0 z z b lvl) /\
  (in_u 8 z -> roundtrips SOPC_Byte_Write SOPC_Byte_Read 0 z z b lvl) /\
  (in_s 16 z -> roundtrips SOPC_Int16_Write SOPC_Int16_Read 0 z z b lvl) /\
  (in_u 16 z -> roundtrips SOPC_UInt16_Write SOPC_UInt16_Read 0 z z b lvl) /\
  (in_s 32 z -> roundtrips SOPC_Int32_Write SOPC_Int32_Read 0 z z b lvl) /\
  (in_u 32 z -> roundtrips SOPC_UInt32_Write SOPC_UInt32_Read 0 z z b lvl) /\
  (in_s 64 z -> roundtrips SOPC_Int64_Write SOPC_Int64_Read 0 z z b lvl) /\
  (in_u 64 z -> roundtrips SOPC_UInt64_Write SOPC_UInt64_Read 0 z z b lvl) /\
  (in_u 32 z -> roundtrips SOPC_Float_Write SOPC_Float_Read 0 z z b lvl) /\
  (in_u 64 z -> roundtrips SOPC_Double_Write SOPC_Double_Read 0 z z b lvl) /\
  (in_s 64 z -> roundtrips SOPC_DateTime_Write SOPC_DateTime_Read 0 z z b lvl) /\
  (in_u 32 z -> roundtrips SOPC_StatusCode_Write SOPC_StatusCode_Read 0 z z b lvl).
Proof.
  intros I S F HA L. split_and!; intros R;
    [apply (codec_roundtrips SOPC_Boolean_Write)|apply (codec_roundtrips SOPC_SByte_Write)|apply (codec_roundtrips SOPC_Byte_Write)
    |apply (codec_roundtrips SOPC_Int16_Write)|apply (codec_roundtrips SOPC_UInt16_Write)|apply (codec_roundtrips SOPC_Int32_Write)
    |apply (codec_roundtrips SOPC_UInt32_Write)|apply (codec_roundtrips SOPC_Int64_Write)|apply (codec_roundtrips SOPC_UInt64_Write)
    |apply (codec_roundtrips SOPC_Float_Write)|apply (codec_roundtrips SOPC_Double_Write)|apply (codec_roundtrips SOPC_DateTime_Write)
    |apply (codec_roundtrips SOPC_StatusCode_Write)]; try done; simpl; rewrite ?zlen_cons, ?zlen_nil, ?zlen_le_bytes; lia.
Qed.

(** A string or byte string within the limit on its length is read back with
    its characters; an empty one becomes null; a string gets a null character
    after its characters. *)
Theorem string_roundtrip s b lvl :
  string_wf s -> string_limits s -> lvl + 2 <= max_nested_struct cfg -> Buffer_Inv b -> small b ->
  position b + zlen (string_wire s) <= maximum_size b -> (forall n, alloc_ok n = true) ->
  roundtrips SOPC_String_Write SOPC_String_Read string_init s (string_canon [x00] s) b lvl /\
  roundtrips SOPC_ByteString_Write SOPC_ByteString_Read string_init s (string_canon [] s) b lvl /\
  roundtrips SOPC_XmlElement_Write SOPC_XmlElement_Read string_init s (string_canon [] s) b lvl.
Proof.
  intros. split_and!; [by apply (codec_roundtrips SOPC_String_Write)|by apply (codec_roundtrips SOPC_ByteString_Write)
    |by apply (codec_roundtrips SOPC_XmlElement_Write)].
Qed.

(** A Guid is read back as it was written. *)
Theorem guid_roundtrip g b lvl :
  guid_wf g -> lvl + 2 <= max_nested_struct cfg -> Buffer_Inv b -> small b ->
  position b + 16 <= maximum_size b -> (forall n, alloc_ok n = true) ->
  roundtrips SOPC_Guid_Write SOPC_Guid_Read guid_init g g b lvl.
Proof.
  intros W L I S F HA. apply (codec_roundtrips SOPC_Guid_Write); try done. simpl. unfold guid_wire.
  rewrite !zlen_app, !zlen_le_bytes. destruct W as (_ & _ & _ & ->). lia.
Qed.

(** C18: a node identifier (numeric in one of its three encodings, string, Guid or
    byte string) is read back with its namespace and its identifier. *)
Theorem nodeid_roundtrip n b lvl :
  nodeid_wf n -> nodeid_limits n -> lvl + nodeid_depth n <= max_nested_struct cfg -> Buffer_Inv b -> small b ->
  position b + zlen (nodeid_wire n) <= maximum_size b -> (forall n, alloc_ok n = true) ->
  roundtrips SOPC_NodeId_Write SOPC_NodeId_Read nodeid_init n (nodeid_canon n) b lvl.
Proof. intros. by apply (codec_roundtrips SOPC_NodeId_Write). Qed.

(** An expanded node identifier is read back with its namespace URI and its
    server index, which are absent from the encoding when they are empty. *)
Theorem expanded_nodeid_roundtrip e b lvl :
  expnodeid_wf e -> nodeid_limits (NodeId e) -> string_limits (NamespaceUri e) -> expnodeid_nests e lvl ->
  Buffer_Inv b -> small b -> position b + zlen (expnodeid_wire e) <= maximum_size b -> (forall n, alloc_ok n = true) ->
  roundtrips SOPC_ExpandedNodeId_Write SOPC_ExpandedNodeId_Read expnodeid_init e (expnodeid_canon e) b lvl.
Proof. intros. by apply (codec_roundtrips SOPC_ExpandedNodeId_Write). Qed.

(** Qualified names and localized texts are read back; the other locales of
    a localized text are not part of its encoding. *)
Theorem names_and_texts_roundtrip q t b lvl :
  qname_wf q -> string_limits (Name q) -> ltext_wf t -> string_limits (defaultLocale t) -> string_limits (defaultText t) ->
  lvl + 3 <= max_nested_struct cfg -> Buffer_Inv b -> small b ->
  position b + zlen (le_bytes 2 (NamespaceIndex q) ++ string_wire (Name q)) <= maximum_size b ->
  position b + zlen (ltext_wire t) <= maximum_size b -> (forall n, alloc_ok n = true) ->
  roundtrips SOPC_QualifiedName_Write SOPC_QualifiedName_Read qname_init q
    (mkQualifiedName (NamespaceIndex q) (string_canon [x00] (Name q))) b lvl /\
  roundtrips SOPC_LocalizedText_Write SOPC_LocalizedText_Read ltext_init t
    (mkLocalizedText (string_canon [x00] (defaultLocale t)) (string_canon [x00] (defaultText t)) NULL) b lvl.
Proof.
  intros. split; [by apply (codec_roundtrips SOPC_QualifiedName_Write)|apply (codec_roundtrips SOPC_LocalizedText_Write); try done].
  split; lia.
Qed.

(** A diagnostic, with the diagnostics nested in it up to the limit, is read
    back; absent indexes become -1. *)
Theorem diagnostic_roundtrip d b lvl :
  diag_wf d -> diag_limits d -> diag_nests d lvl -> Buffer_Inv b -> small b ->
  position b + zlen (diag_wire d) <= maximum_size b -> (forall n, alloc_ok n = true) ->
  roundtrips SOPC_DiagnosticInfo_Write SOPC_DiagnosticInfo_Read diag_init d (diag_canon d) b lvl.
Proof. intros. by apply (codec_roundtrips SOPC_DiagnosticInfo_Write). Qed.

(** C24: whatever the bytes of the buffer, the level and the answers of the
    allocator are, every decoder returns: no assertion fails, no memory outside
    of the blocks is accessed, the recursion ends; only data of the buffer are
    read. *)
Theorem decoders_total b lvl :
  Buffer_Inv b -> small b ->
  returns_within b (SOPC_Boolean_Read (Some 0) (Some b) lvl) /\ returns_within b (SOPC_SByte_Read (Some 0) (Some b) lvl) /\
  returns_within b (SOPC_Byte_Read (Some 0) (Some b) lvl) /\ returns_within b (SOPC_Int16_Read (Some 0) (Some b) lvl) /\
  returns_within b (SOPC_UInt16_Read (Some 0) (Some b) lvl) /\ returns_within b (SOPC_Int32_Read (Some 0) (Some b) lvl) /\
  returns_within b (SOPC_UInt32_Read (Some 0) (Some b) lvl) /\ returns_within b (SOPC_Int64_Read (Some 0) (Some b) lvl) /\
  returns_within b (SOPC_UInt64_Read (Some 0) (Some b) lvl) /\ returns_within b (SOPC_Float_Read (Some 0) (Some b) lvl) /\
  returns_within b (SOPC_Double_Read (Some 0) (Some b) lvl) /\ returns_within b (SOPC_DateTime_Read (Some 0) (Some b) lvl) /\
  returns_within b (SOPC_String_Read (Some string_init) (Some b) lvl) /\
  returns_within b (SOPC_ByteString_Read (Some string_init) (Some b) lvl) /\
  returns_within b (SOPC_Guid_Read (Some guid_init) (Some b) lvl) /\
  returns_within b (SOPC_NodeId_Read (Some nodeid_init) (Some b) lvl) /\
  returns_within b (SOPC_ExpandedNodeId_Read (Some expnodeid_init) (Some b) lvl) /\
  returns_within b (SOPC_QualifiedName_Read (Some qname_init) (Some b) lvl) /\
  returns_within b (SOPC_LocalizedText_Read (Some ltext_init) (Some b) lvl) /\
  returns_within b (SOPC_DiagnosticInfo_Read (Some diag_init) (Some b) lvl).
Proof.
  intros. split_and!;
    [apply (codec_returns SOPC_Boolean_Write)|apply (codec_returns SOPC_SByte_Write)|apply (codec_returns SOPC_Byte_Write)
    |apply (codec_returns SOPC_Int16_Write)|apply (codec_returns SOPC_UInt16_Write)|apply (codec_returns SOPC_Int32_Write)
    |apply (codec_returns SOPC_UInt32_Write)|apply (codec_returns SOPC_Int64_Write)|apply (codec_returns SOPC_UInt64_Write)
    |apply (codec_returns SOPC_Float_Write)|apply (codec_returns SOPC_Double_Write)|apply (codec_returns SOPC_DateTime_Write)
    |apply (codec_returns SOPC_String_Write)|apply (codec_returns SOPC_ByteString_Write)|apply (codec_returns SOPC_Guid_Write)
    |apply (codec_returns SOPC_NodeId_Write)|apply (codec_returns SOPC_ExpandedNodeId_Write)|apply (codec_returns SOPC_QualifiedName_Write)
    |apply (codec_returns SOPC_LocalizedText_Write)|apply (codec_returns SOPC_DiagnosticInfo_Write)]; done.
Qed.

(** On values with their memory allocated, at any level and in any buffer,
    the encoders return and keep the data that precede the position, also when
    they fail in the middle of a value. *)
Theorem encoders_keep_data s g n e q t d b lvl :
  string_wf s -> guid_wf g -> nodeid_wf n -> expnodeid_wf e -> qname_wf q -> ltext_wf t -> diag_wf d ->
  Buffer_Inv b -> small b ->
  writes_after b (SOPC_String_Write (Some s) (Some b) lvl) /\ writes_after b (SOPC_ByteString_Write (Some s) (Some b) lvl) /\
  writes_after b (SOPC_Guid_Write (Some g) (Some b) lvl) /\ writes_after b (SOPC_NodeId_Write (Some n) (Some b) lvl) /\
  writes_after b (SOPC_ExpandedNodeId_Write (Some e) (Some b) lvl) /\
  writes_after b (SOPC_QualifiedName_Write (Some q) (Some b) lvl) /\
  writes_after b (SOPC_LocalizedText_Write (Some t) (Some b) lvl) /\
  writes_after b (SOPC_DiagnosticInfo_Write (Some d) (Some b) lvl).
Proof.
  intros. split_and!;
    [apply (codec_writes SOPC_String_Write)|apply (codec_writes SOPC_ByteString_Write)|apply (codec_writes SOPC_Guid_Write)
    |apply (codec_writes SOPC_NodeId_Write)|apply (codec_writes SOPC_ExpandedNodeId_Write)|apply (codec_writes SOPC_QualifiedName_Write)
    |apply (codec_writes SOPC_LocalizedText_Write)|apply (codec_writes SOPC_DiagnosticInfo_Write)]; done.
Qed.

(** The encodings of node identifiers are prefix-free: the identifier and the
    end of the encoding are determined by the bytes. *)
Theorem nodeid_prefix_free n1 n2 r1 r2 lvl :
  nodeid_wf n1 -> nodeid_wf n2 -> nodeid_limits n1 -> nodeid_limits n2 ->
  lvl + nodeid_depth n1 <= max_nested_struct cfg -> lvl + nodeid_depth n2 <= max_nested_struct cfg ->
  (forall n, alloc_ok n = true) -> zlen (nodeid_wire n1 ++ r1) <= 2 ^ 31 ->
  nodeid_wire n1 ++ r1 = nodeid_wire n2 ++ r2 -> nodeid_canon n1 = nodeid_canon n2 /\ r1 = r2.
Proof. pose proof (codec_prefix_free SOPC_NodeId_Write n1 n2 nodeid_init r1 r2 lvl) as P. intros. by apply P. Qed.

(** What the decoder of expanded node identifiers or of diagnostics accepts,
    from any bytes, can be encoded at the same level, and is then decoded to the
    same value up to its canonical form. *)
Theorem accepted_values_reencode b b1 b2 lvl :
  Buffer_Inv b -> small b -> Buffer_Inv b2 -> small b2 -> (forall n, alloc_ok n = true) ->
  (forall e, SOPC_ExpandedNodeId_Read (Some expnodeid_init) (Some b) lvl = Ret (SOPC_STATUS_OK, Some e, b1) ->
     position b2 + zlen (expnodeid_wire e) <= maximum_size b2 ->
     roundtrips SOPC_ExpandedNodeId_Write SOPC_ExpandedNodeId_Read expnodeid_init e (expnodeid_canon e) b2 lvl) /\
  (forall d, SOPC_DiagnosticInfo_Read (Some diag_init) (Some b) lvl = Ret (SOPC_STATUS_OK, Some d, b1) ->
     position b2 + zlen (diag_wire d) <= maximum_size b2 ->
     roundtrips SOPC_DiagnosticInfo_Write SOPC_DiagnosticInfo_Read diag_init d (diag_canon d) b2 lvl).
Proof.
  intros I S I2 S2 HA. split; intros v E F.
  - pose proof (codec_reencode SOPC_ExpandedNodeId_Write v expnodeid_init expnodeid_init b b1 b2 lvl) as P. by apply P.
  - pose proof (codec_reencode SOPC_DiagnosticInfo_Write v diag_init diag_init b b1 b2 lvl) as P. by apply P.
Qed.

(** With enough room in the buffer, a diagnostic is encoded exactly when the
    level is below the limit of structures and the diagnostics nested in it are
    at most [max_nested_diag_info]. *)
Theorem diagnostic_nesting_limit d b lvl :
  diag_wf d -> Buffer_Inv b -> small b -> position b + zlen (diag_wire d) <= maximum_size b ->
  (forall n, alloc_ok n = true) -> 2 <= max_nested_struct cfg -> 0 <= max_nested_diag_info cfg ->
  (exists b', SOPC_DiagnosticInfo_Write (Some d) (Some b) lvl = Ret (SOPC_STATUS_OK, Some b')) <->
  lvl < max_nested_struct cfg /\ diag_levels d <= max_nested_diag_info cfg.
Proof.
  intros W I S F HA M M'. pose proof (codec_write (wr := SOPC_DiagnosticInfo_Write) d b lvl) as P.
  destruct (P W I S) as (st & b1 & E & _ & HW & HF).
  cbn [nests DiagnosticInfo_codec] in HW, HF. unfold diag_nests, diag_ok in HW, HF. pose proof (diag_levels_nonneg d). split.
  - intros [b' E']. rewrite E in E'. simplify_eq. destruct (HW eq_refl) as [_ (? & _ & _ & ?)]. lia.
  - intros [L1 L2]. exists b1. rewrite E. do 2 f_equal. apply HF; [split_and!; lia|]. split; [done|]. right. intros n _. apply HA.
Qed.

End Properties.

(** ** Examples

    A big-endian machine, the default limits and a buffer of 64 bytes. *)

Definition demo_host : Host := {| host_int := IntBig; host_float := FloatBig |}.
Definition demo_cfg : SOPC_Common_EncodingConstants := SOPC_Common_GetDefaultEncodingConstants.
Definition demo_room : SOPC_Buffer := mkBuffer 16 16 64 2 3 (Some (replicate 16 x2a)).

Lemma demo_room_inv : Buffer_Inv demo_room.
Proof. split; simpl; try lia. eexists. split; done. Qed.

Lemma demo_room_small : small demo_room.
Proof. unfold small. simpl. lia. Qed.

Lemma demo_alloc n : @alloc_ok serving_allocator n = true.
Proof. done. Qed.

#[export] Hint Resolve demo_room_inv demo_room_small demo_alloc : sopc.

Definition demo_string : SOPC_String := mkString 3 false (Some [x61; x62; x63; x00]).
Definition demo_guid : SOPC_Guid := mkGuid 1 2 3 (replicate 8 x07).
Definition demo_nodeid : SOPC_NodeId := mkNodeId SOPC_IdentifierType_String 2 (DataString demo_string).
Definition demo_expnodeid : SOPC_ExpandedNodeId := mkExpandedNodeId demo_nodeid demo_string 5.
Definition demo_qname : SOPC_QualifiedName := mkQualifiedName 4 demo_string.
Definition demo_ltext : SOPC_LocalizedText := mkLocalizedText string_init demo_string NULL.
Definition demo_diag : SOPC_DiagnosticInfo :=
  mkDiagnosticInfo 7 (-1) (-1) 9 demo_string 0 (Some diag_init).

Lemma demo_string_wf : string_wf demo_string.
Proof. split; [done|]. intros _. eexists. split; [done|]. unfold zlen. simpl. lia. Qed.

Lemma string_init_wf : string_wf string_init.
Proof. split; [done|]. simpl. lia. Qed.

Lemma demo_guid_wf : guid_wf demo_guid.
Proof. done. Qed.

Lemma demo_nodeid_wf : nodeid_wf demo_nodeid.
Proof. split; [done|]. exists (IString demo_string). split; [done|]. apply demo_string_wf. Qed.

Lemma demo_expnodeid_wf : expnodeid_wf demo_expnodeid.
Proof. split_and!; [apply demo_nodeid_wf|apply demo_string_wf|done]. Qed.

Lemma demo_qname_wf : qname_wf demo_qname.
Proof. split; [done|apply demo_string_wf]. Qed.

Lemma demo_ltext_wf : ltext_wf demo_ltext.
Proof. split; [apply string_init_wf|apply demo_string_wf]. Qed.

Lemma demo_diag_wf : diag_wf demo_diag.
Proof. simpl. split_and!; try done; apply demo_string_wf. Qed.

#[export] Hint Resolve demo_string_wf demo_guid_wf demo_nodeid_wf demo_expnodeid_wf demo_qname_wf demo_ltext_wf demo_diag_wf : sopc.

Ltac demo := try solve [eauto with sopc | vm_compute; intuition discriminate | vm_compute; intros; discriminate | vm_compute; auto].

Section Demo.
#[local] Existing Instance serving_allocator.
#[local] Existing Instance demo_host.
#[local] Existing Instance demo_cfg.
#[local] Existing Instance SOPC_Helper_EndiannessCfg_Initialize.

Lemma scalars_little_endian_witness :
  exists b', SOPC_Int16_Write (Some (-2)) (Some demo_room) 0 = Ret (SOPC_STATUS_OK, Some b') /\
    content b' = [x2a; x2a; xfe; xff] /\ position b' = 4.
Proof. apply (scalars_little_endian (-2) demo_room 0); demo. Defined.

Lemma scalars_roundtrip_witness :
  roundtrips SOPC_Int32_Write SOPC_Int32_Read 0 (-70000) (-70000) demo_room 3.
Proof. apply (scalars_roundtrip (-70000) demo_room 3); demo. Defined.

Lemma string_roundtrip_witness :
  roundtrips SOPC_String_Write SOPC_String_Read string_init demo_string (mkString 3 false (Some [x61; x62; x63; x00])) demo_room 0.
Proof. apply (string_roundtrip demo_string demo_room 0); demo. Defined.

Lemma guid_roundtrip_witness : roundtrips SOPC_Guid_Write SOPC_Guid_Read guid_init demo_guid demo_guid demo_room 0.
Proof. apply (guid_roundtrip demo_guid demo_room 0); demo. Defined.

Lemma nodeid_roundtrip_witness :
  roundtrips SOPC_NodeId_Write SOPC_NodeId_Read nodeid_init demo_nodeid (nodeid_canon demo_nodeid) demo_room 0.
Proof. apply (nodeid_roundtrip demo_nodeid demo_room 0); demo. Defined.

Lemma expanded_nodeid_roundtrip_witness :
  roundtrips SOPC_ExpandedNodeId_Write SOPC_ExpandedNodeId_Read expnodeid_init demo_expnodeid (expnodeid_canon demo_expnodeid) demo_room 0.
Proof. apply (expanded_nodeid_roundtrip demo_expnodeid demo_room 0); demo. Defined.

Lemma names_and_texts_roundtrip_witness :
  roundtrips SOPC_LocalizedText_Write SOPC_LocalizedText_Read ltext_init demo_ltext
    (mkLocalizedText string_init (mkString 3 false (Some [x61; x62; x63; x00])) NULL) demo_room 0.
Proof. apply (names_and_texts_roundtrip demo_qname demo_ltext demo_room 0); demo. Defined.

Lemma diagnostic_roundtrip_witness :
  roundtrips SOPC_DiagnosticInfo_Write SOPC_DiagnosticInfo_Read diag_init demo_diag (diag_canon demo_diag) demo_room 0.
Proof. apply (diagnostic_roundtrip demo_diag demo_room 0); demo. Defined.

Lemma decoders_total_witness : returns_within demo_room (SOPC_DiagnosticInfo_Read (Some diag_init) (Some demo_room) 0).
Proof. apply (decoders_total demo_room 0); demo. Defined.

Lemma encoders_keep_data_witness : writes_after demo_room (SOPC_DiagnosticInfo_Write (Some demo_diag) (Some demo_room) 0).
Proof.
  apply (encoders_keep_data demo_string demo_guid demo_nodeid demo_expnodeid demo_qname demo_ltext demo_diag demo_room 0); demo.
Defined.

Lemma nodeid_prefix_free_witness : nodeid_canon demo_nodeid = nodeid_canon demo_nodeid /\ [x01] = [x01].
Proof. apply (nodeid_prefix_free demo_nodeid demo_nodeid [x01] [x01] 0); demo. Defined.

Lemma diagnostic_nesting_limit_witness :
  (exists b', SOPC_DiagnosticInfo_Write (Some demo_diag) (Some demo_room) 0 = Ret (SOPC_STATUS_OK, Some b')) <->
  0 < max_nested_struct demo_cfg /\ diag_levels demo_diag <= max_nested_diag_info demo_cfg.
Proof. apply (diagnostic_nesting_limit demo_diag demo_room 0); demo. Defined.

(** A buffer that holds the encoding of a numeric node identifier. *)
Definition demo_input : SOPC_Buffer := mkBuffer 4 4 4 0 2 (Some [x00; x48; x00; x00]).

Lemma accepted_values_reencode_witness :
  exists e b1, SOPC_ExpandedNodeId_Read (Some expnodeid_init) (Some demo_input) 0 = Ret (SOPC_STATUS_OK, Some e, b1) /\
    roundtrips SOPC_ExpandedNodeId_Write SOPC_ExpandedNodeId_Read expnodeid_init e (expnodeid_canon e) demo_room 0.
Proof.
  eexists _, _. split; [vm_compute; reflexivity|].
  eapply (accepted_values_reencode demo_input (Some (set_position demo_input 2)) demo_room 0); demo.
  split; simpl; try lia. eexists. split; done.
Defined.

End Demo.
