(* ===== verification/EncVariantProps.v ===== *)
(** * Correctness of the binary encoding of the structured types

    Arrays, extension objects, variants and data values.  As in [EncProps.v], the
    theorems hold on every machine whose byte order the toolkit detects.  The
    encodeable types are any that satisfy [EncodeableLaws]. *)

From Stdlib Require Import ZArith Lia.
From Stdlib Require Import Strings.Byte.
From stdpp Require Import prelude.
From S2P Require Import Prelude Common Buffer Codec EncScalar EncString EncNodeId EncText EncArray.
From S2P Require Import EncExtObj EncVariant EncVariantSpec EncProps.

Open Scope Z_scope.

(** *** Arrays of any type that honours its contract *)

Section Arrays.
Context `{Allocator} `{Host} {cfg : SOPC_Common_EncodingConstants}.
#[local] Existing Instance SOPC_Helper_EndiannessCfg_Initialize.
Context {A : Type} (c : contract A) (wr : encoder A) (rd : decoder A) (clear : A -> res A).

(** An array is read back with its elements, from where it was written; an
    empty array becomes a null pointer. *)
Theorem array_roundtrip l size b lvl :
  honours c wr rd (lvl + 1) -> Forall (c_wf c) l -> Forall (c_limits c) l -> elts_nest c (lvl + 1) l ->
  zlen l < 2 ^ 31 -> zlen l <= max_array_length cfg -> lvl + 2 <= max_nested_struct cfg -> Buffer_Inv b -> small b ->
  position b + (4 + zlen (elts_wire c l)) <= maximum_size b -> (forall n, alloc_ok n = true) ->
  exists b' b'', SOPC_Write_Array (Some b) (zlen l) (Some l) wr lvl = Ret (SOPC_STATUS_OK, Some b') /\
    content b' = splice (content b) (position b) (le_bytes 4 (zlen l) ++ elts_wire c l) /\
    SOPC_Buffer_SetPosition (Some b') (position b) = (SOPC_STATUS_OK, Some b'') /\
    SOPC_Read_Array (Some b'') 0 NULL size rd (c_init c) clear lvl =
      Ret (SOPC_STATUS_OK, zlen l, array_ptr (map (c_canon c) l), Some b').
Proof.
  intros Hh W L N R M D I S F HA. pose proof (zlen_nonneg l).
  destruct (write_array_spec c wr rd lvl l (Some l) b Hh W ltac:(by right) ltac:(unfold in_s; lia) I S) as (st & b' & E & _ & HW & HF).
  assert (st = SOPC_STATUS_OK) as ->.
  { apply HF; [done|]. unfold fits. rewrite zlen_app, zlen_le_bytes. split; [lia|right; intros n _; apply HA]. }
  destruct (HW eq_refl) as [Wr _]. exists b', (set_position b' (position b)).
  destruct (wrote_upcoming b _ b' I Wr) as [I'' [rest U]].
  split_and!; [done|apply Wr|by eapply SetPosition_back|].
  rewrite (read_array_spec c wr rd clear lvl l size _ rest 0); try done; try lia;
    [|unfold in_s; lia|unfold small in *; simpl; by rewrite (wr_maximum _ _ _ Wr)].
  pose proof (wr_position _ _ _ Wr) as P. do 2 f_equal. destruct b'. unfold advance, set_position. simpl in *. do 2 f_equal. lia.
Qed.

(** On any bytes, the decoder of arrays returns and reads only data of the
    buffer.  With the status OK, the array holds the announced number of elements,
    all accepted by their decoder; otherwise the pointer is null: no element is
    lost and none is left to clear. *)
Theorem array_read_total size n0 b lvl :
  honours c wr rd (lvl + 1) -> (forall v, c_sane c v -> exists v', clear v = Ret v') ->
  0 <= max_array_length cfg -> Buffer_Inv b -> small b ->
  exists st n arr k, SOPC_Read_Array (Some b) n0 NULL size rd (c_init c) clear lvl = Ret (st, n, arr, Some (advance b k)) /\
    0 <= k <= length_ b - position b /\
    (st = SOPC_STATUS_OK -> exists l, arr = array_ptr l /\ n = zlen l /\ n <= max_array_length cfg /\ Forall (c_accepted c (lvl + 1)) l) /\
    (st <> SOPC_STATUS_OK -> arr = NULL).
Proof.
  intros Hh Hc M I S. destruct (read_array_safe c wr rd clear Hc lvl b size n0 Hh M I S) as (st & n & arr & k & E & Hk & G & F).
  exists st, n, arr, k. rewrite <- zlen_upcoming by done. split_and!; try done; try lia.
  intros Es. destruct (G Es) as (l & -> & -> & R & Ml & _ & Al & _). exists l. split_and!; try done. destruct Ml; lia.
Qed.

End Arrays.

Section Properties.
Context `{Allocator} `{Host} {cfg : SOPC_Common_EncodingConstants}.
#[local] Existing Instance SOPC_Helper_EndiannessCfg_Initialize.
Context `{EncodeableTypes} `{!EncodeableLaws}.

(** *** Extension objects *)

(** An extension object without body, with an XML body or with an object of a
    known type is read back; the identifier of an object becomes that of its
    binary encoding. *)
Theorem extension_object_roundtrip e b lvl :
  ext_wf e -> ext_readable e -> ext_nests e lvl -> Buffer_Inv b -> small b ->
  position b + zlen (ext_wire e) <= maximum_size b -> (forall n, alloc_ok n = true) ->
  roundtrips SOPC_ExtensionObject_Write SOPC_ExtensionObject_Read extobj_init e (ext_canon e) b lvl.
Proof. intros. by apply (codec_roundtrips SOPC_ExtensionObject_Write). Qed.

(** An object is written as the identifier of its binary encoding, the byte of
    a byte string body, the length of its encoding and its encoding: the length,
    written after the object, is at the place that was left for it. *)
Theorem extension_object_layout e o t b lvl :
  view e = ViewObject o t -> ext_wf e -> ext_nests e lvl -> Buffer_Inv b -> small b ->
  position b + zlen (ext_wire e) <= maximum_size b -> (forall n, alloc_ok n = true) ->
  let w := c_wire (obj_contract t) o in
  exists b', SOPC_ExtensionObject_Write (Some e) (Some b) lvl = Ret (SOPC_STATUS_OK, Some b') /\
    content b' = splice (content b) (position b)
      (nodeid_wire (numeric_id (BinaryEncodingTypeId t)) ++ [x01] ++ le_bytes 4 (zlen w) ++ w) /\
    position b' = position b + zlen (ext_wire e).
Proof.
  intros V W N I S F HA w. destruct (ext_write e b lvl W I S) as (st & b' & -> & _ & HW & HF).
  assert (st = SOPC_STATUS_OK) as -> by (apply HF; [done|]; split; [done|]; right; intros n _; apply HA).
  destruct (HW eq_refl) as [Wr _]. exists b'. split_and!; [done| |apply Wr].
  rewrite (wr_content _ _ _ Wr). unfold ext_wire, ext_id. by rewrite V.
Qed.

(** A body that was written as a byte string cannot be read back, unless its
    type happens to be the identifier of a known type. *)
Theorem bytestring_body_not_read_back e s b lvl :
  view e = ViewBstring s -> ext_wf e -> nodeid_limits (NodeId (TypeId e)) -> ext_nests e lvl -> Buffer_Inv b -> small b ->
  position b + zlen (ext_wire e) <= maximum_size b -> (forall n, alloc_ok n = true) ->
  (forall id, nodeid_ident (NodeId (TypeId e)) = Some (INumeric id) -> SOPC_EncodeableType_GetEncodeableType id = NULL) ->
  exists b' b'' e' b3, SOPC_ExtensionObject_Write (Some e) (Some b) lvl = Ret (SOPC_STATUS_OK, Some b') /\
    SOPC_Buffer_SetPosition (Some b') (position b) = (SOPC_STATUS_OK, Some b'') /\
    SOPC_ExtensionObject_Read (Some extobj_init) (Some b'') lvl = Ret (SOPC_STATUS_ENCODING_ERROR, Some e', b3).
Proof.
  intros V W Ln N I S F HA Hk. destruct (ext_write e b lvl W I S) as (st & b' & E & _ & HW & HF).
  assert (st = SOPC_STATUS_OK) as -> by (apply HF; [done|]; split; [done|]; right; intros n _; apply HA).
  destruct (HW eq_refl) as [Wr _]. destruct (wrote_upcoming b _ b' I Wr) as [I'' [rest U]].
  unfold ext_wf, ext_nests, ext_id, ext_wire in *. unfold ext_id in U. rewrite V in *. destruct W as [Wn _], N as [N _].
  change x01 with (z2b 1) in U. rewrite <- app_assoc in U.
  pose proof (ext_read_head (NodeId (TypeId e)) 1 (string_wire s ++ rest) (set_position b' (position b)) lvl Wn Ln ltac:(done) I''
    ltac:(unfold small in *; simpl; by rewrite (wr_maximum _ _ _ Wr)) HA U N) as R.
  exists b', (set_position b' (position b)). pose proof Wn as (_ & i & Ei & _).
  assert (read_body_type (nodeid_canon (NodeId (TypeId e))) 1 BodyZero string_init =
    Ret (SOPC_STATUS_ENCODING_ERROR, 1, BodyZero, string_init)) as Eb.
  { unfold nodeid_canon. rewrite Ei. unfold read_body_type. switch. destruct i; try done. cbn.
    destruct (Namespace (NodeId (TypeId e)) =? OPCUA_NAMESPACE_INDEX); [|done]. by rewrite Hk. }
  rewrite Eb in R. cbn [rbind is_ok] in R. destruct (nodeid_sane_of (Namespace (NodeId (TypeId e))) (ident_canon i)) as [n' En].
  unfold nodeid_canon in R. rewrite Ei, En in R. cbn [rbind deref] in R.
  eexists _, _. split_and!; [done|by eapply SetPosition_back|exact R].
Qed.

(** *** Variants and data values *)

Section Variants.
Context `{!VariantLimits}.

(** C12: a variant, that is a value, an array or a matrix of any built-in type, with
    the variants and data values nested in it, is read back in canonical form when it is
    within the limits of the decoder and holds no extension object with a byte string body,
    which is written and not read back ([bytestring_body_not_read_back]). *)
Theorem variant_roundtrip v b lvl :
  variant_wf v -> variant_limits v -> variant_nests v lvl -> Buffer_Inv b -> small b ->
  position b + zlen (variant_wire v) <= maximum_size b -> (forall n, alloc_ok n = true) ->
  roundtrips SOPC_Variant_Write SOPC_Variant_Read variant_init v (variant_canon v) b lvl.
Proof. intros. by apply (codec_roundtrips SOPC_Variant_Write). Qed.

(** A data value is read back with its variant, its status and its timestamps;
    a timestamp that is not positive becomes zero. *)
Theorem datavalue_roundtrip d b lvl :
  datavalue_wf d -> datavalue_limits d -> datavalue_nests d lvl -> Buffer_Inv b -> small b ->
  position b + zlen (datavalue_wire d) <= maximum_size b -> (forall n, alloc_ok n = true) ->
  roundtrips SOPC_DataValue_Write SOPC_DataValue_Read datavalue_init d (datavalue_canon d) b lvl.
Proof. intros. by apply (codec_roundtrips SOPC_DataValue_Write). Qed.

(** With room in the buffer, a variant or a data value is encoded exactly when
    the values nested in it are within the limit of the levels. *)
Theorem variant_encoded_within_levels v d b lvl :
  variant_wf v -> datavalue_wf d -> Buffer_Inv b -> small b ->
  position b + zlen (variant_wire v) <= maximum_size b -> position b + zlen (datavalue_wire d) <= maximum_size b ->
  (forall n, alloc_ok n = true) ->
  ((exists b', SOPC_Variant_Write (Some v) (Some b) lvl = Ret (SOPC_STATUS_OK, Some b')) <-> variant_nests v lvl) /\
  ((exists b', SOPC_DataValue_Write (Some d) (Some b) lvl = Ret (SOPC_STATUS_OK, Some b')) <-> datavalue_nests d lvl).
Proof.
  intros Wv Wd I S Fv Fd HA.
  assert (forall A (wr : encoder A) (rd : decoder A) (C : Codec wr rd) x, wf wr x -> position b + zlen (wire wr x) <= maximum_size b ->
    ((exists b', wr (Some x) (Some b) lvl = Ret (SOPC_STATUS_OK, Some b')) <-> nests wr x lvl)) as X.
  { intros A wr rd C x W F. destruct (codec_write x b lvl W I S) as (st & b' & E & _ & HW & HF). split.
    - intros [b1 E1]. rewrite E in E1. simplify_eq. by destruct (HW eq_refl).
    - intros N. exists b'. rewrite E. do 2 f_equal. apply HF; [done|]. split; [done|]. right. intros n _. apply HA. }
  exact (conj (X _ SOPC_Variant_Write _ _ v Wv Fv) (X _ SOPC_DataValue_Write _ _ d Wd Fd)).
Qed.

(** C19: on any bytes, at any level and whatever the allocator answers (one
    integer excepted), the decoders of extension objects, variants and data values
    return, read only data of the buffer, and leave memory that their clear
    function accepts. *)
Theorem structured_decoders_total b lvl :
  Buffer_Inv b -> small b ->
  (exists st e k e', SOPC_ExtensionObject_Read (Some extobj_init) (Some b) lvl = Ret (st, Some e, Some (advance b k)) /\
     0 <= k <= length_ b - position b /\ SOPC_ExtensionObject_Clear (Some e) = Ret e') /\
  (exists st v k v', SOPC_Variant_Read (Some variant_init) (Some b) lvl = Ret (st, Some v, Some (advance b k)) /\
     0 <= k <= length_ b - position b /\ SOPC_Variant_Clear (Some v) = Ret v') /\
  (exists st d k d', SOPC_DataValue_Read (Some datavalue_init) (Some b) lvl = Ret (st, Some d, Some (advance b k)) /\
     0 <= k <= length_ b - position b /\ SOPC_DataValue_Clear (Some d) = Ret d').
Proof.
  intros I S. rewrite <- zlen_upcoming by done. split_and!.
  - destruct (codec_safe (wr := SOPC_ExtensionObject_Write) extobj_init b lvl) as (st & e & k & E & Hk & [e' Se] & _); [done..|].
    exists st, e, k, (Some e'). done.
  - destruct (codec_safe (wr := SOPC_Variant_Write) variant_init b lvl) as (st & v & k & E & Hk & Sv & _); [done..|].
    destruct (clear_ptr_ok SOPC_Variant_Clear' v Sv) as [p Ep]. exists st, v, k, p. done.
  - destruct (codec_safe (wr := SOPC_DataValue_Write) datavalue_init b lvl) as (st & d & k & E & Hk & Sd & _); [done..|].
    destruct (clear_ptr_ok SOPC_DataValue_Clear' d Sd) as [p Ep]. exists st, d, k, p. done.
Qed.

(** What the decoders of variants, data values and extension objects accept,
    from any bytes, can be encoded at the same level and is then decoded to the
    same value up to its canonical form. *)
Theorem structured_values_reencode b b1 b2 lvl :
  Buffer_Inv b -> small b -> Buffer_Inv b2 -> small b2 -> (forall n, alloc_ok n = true) ->
  (forall v, SOPC_Variant_Read (Some variant_init) (Some b) lvl = Ret (SOPC_STATUS_OK, Some v, b1) ->
     position b2 + zlen (variant_wire v) <= maximum_size b2 ->
     roundtrips SOPC_Variant_Write SOPC_Variant_Read variant_init v (variant_canon v) b2 lvl) /\
  (forall d, SOPC_DataValue_Read (Some datavalue_init) (Some b) lvl = Ret (SOPC_STATUS_OK, Some d, b1) ->
     position b2 + zlen (datavalue_wire d) <= maximum_size b2 ->
     roundtrips SOPC_DataValue_Write SOPC_DataValue_Read datavalue_init d (datavalue_canon d) b2 lvl) /\
  (forall e, SOPC_ExtensionObject_Read (Some extobj_init) (Some b) lvl = Ret (SOPC_STATUS_OK, Some e, b1) ->
     position b2 + zlen (ext_wire e) <= maximum_size b2 ->
     roundtrips SOPC_ExtensionObject_Write SOPC_ExtensionObject_Read extobj_init e (ext_canon e) b2 lvl).
Proof.
  intros I S I2 S2 HA. split_and!; intros v E F.
  - pose proof (codec_reencode SOPC_Variant_Write v variant_init variant_init b b1 b2 lvl) as P. by apply P.
  - pose proof (codec_reencode SOPC_DataValue_Write v datavalue_init datavalue_init b b1 b2 lvl) as P. by apply P.
  - pose proof (codec_reencode SOPC_ExtensionObject_Write v extobj_init extobj_init b b1 b2 lvl) as P. by apply P.
Qed.

(** At any level and in any buffer, the encoders of variants, data values and
    extension objects return and keep the data that precede the position. *)
Theorem structured_encoders_keep_data v d e b lvl :
  variant_wf v -> datavalue_wf d -> ext_wf e -> Buffer_Inv b -> small b ->
  writes_after b (SOPC_Variant_Write (Some v) (Some b) lvl) /\
  writes_after b (SOPC_DataValue_Write (Some d) (Some b) lvl) /\
  writes_after b (SOPC_ExtensionObject_Write (Some e) (Some b) lvl).
Proof.
  intros. split_and!; [by apply (codec_writes SOPC_Variant_Write)|by apply (codec_writes SOPC_DataValue_Write)
    |by apply (codec_writes SOPC_ExtensionObject_Write)].
Qed.

(** A variant that directly holds a variant is refused: the encoder reports a
    wrong parameter, and the decoder an encoding error on such an encoding, whose
    variant is left null. *)
Theorem variant_in_variant_refused dnc val b b2 rest lvl :
  Buffer_Inv b -> small b -> Buffer_Inv b2 -> small b2 -> upcoming b2 = x18 :: rest ->
  lvl + 2 <= max_nested_struct cfg -> (forall n, alloc_ok n = true) ->
  (exists st b', SOPC_Variant_Write (Some (mkVariant dnc SOPC_Variant_Id SOPC_VariantArrayType_SingleValue val)) (Some b) lvl =
     Ret (st, b') /\ is_ok st = false) /\
  SOPC_Variant_Read (Some variant_init) (Some b2) lvl = Ret (SOPC_STATUS_ENCODING_ERROR, Some variant_init, Some (advance b2 1)).
Proof.
  intros I S I2 S2 U L HA. split.
  - unfold SOPC_Variant_Write. level_ok. unfold SOPC_Variant_Write_Internal, nesting_fuel. cbn [Variant_Write_fuel]. unfold variant_write.
    level_ok. cbv zeta. unfold and_then.
    destruct (codec_write (wr := SOPC_Byte_Write) 24 b (lvl + 1)) as (st & b' & E & _); [done..|].
    change (GetVariantEncodingMask (mkVariant dnc SOPC_Variant_Id SOPC_VariantArrayType_SingleValue val)) with 24. rewrite E. cbn [rbind].
    destruct (is_ok st) eqn:Es; [|by eauto]. cbn [ArrayType BuiltInTypeId Var_Value].
    unfold WriteVariantNonArrayBuiltInType. level_ok. by eauto.
  - unfold SOPC_Variant_Read, SOPC_Variant_Read_Internal, nesting_fuel. cbn [Variant_Read_fuel].
    rewrite (variant_read_head _ _ SOPC_Variant_Id SOPC_VariantArrayType_SingleValue ValZero b2 lvl rest);
      [|by left|done|done|done|done|done].
    unfold read_value, ReadVariantNonArrayBuiltInType. level_ok. done.
Qed.

End Variants.
End Properties.

(** ** Limits of the code *)

(** An allocator without memory for one integer. *)
Definition exhausted_allocator : Allocator := {| alloc_ok n := negb (n =? 4); fresh_byte _ := x00 |}.

(** A matrix of one byte, whose number of dimensions is -1. *)
Definition wrong_matrix : SOPC_Buffer :=
  mkBuffer 10 10 10 0 10 (Some [xc3; x01; x00; x00; x00; x07; xff; xff; xff; xff]).

(** When the allocator has no memory left for one integer, a matrix whose
    number of dimensions is wrong makes the decoder dereference a null pointer:
    the cleanup announces one dimension while the dimensions are null.  With
    memory, the decoder refuses the same bytes. *)
Theorem failed_matrix_without_memory (types : EncodeableTypes) :
  @SOPC_Variant_Read exhausted_allocator demo_host (@SOPC_Helper_EndiannessCfg_Initialize demo_host) demo_cfg types
    (Some variant_init) (Some wrong_matrix) 0 = Fault NullDeref /\
  exists v b, @SOPC_Variant_Read serving_allocator demo_host (@SOPC_Helper_EndiannessCfg_Initialize demo_host) demo_cfg types
    (Some variant_init) (Some wrong_matrix) 0 = Ret (SOPC_STATUS_OUT_OF_MEMORY, Some v, b).
Proof. split; [lazy; reflexivity|]. eexists _, _. lazy. reflexivity. Qed.

(** The number of elements that [SOPC_Variant_Clear] computes on 64 bits for
    a matrix, and passes by the address of 32 bits, is the number of elements on
    a little-endian machine and zero on a big-endian one, where the elements are
    not cleared. *)
Theorem matrix_clear_length `{Host} n :
  0 <= n < 2 ^ 31 ->
  int32_of_int64 n = match host_int with IntLittle => n | IntBig => 0 end.
Proof.
  intros R. unfold int32_of_int64, int_repr, int_of_repr. destruct host_int.
  - cbn [le_bytes take]. change (swrap 32 (le_val (le_bytes 4 n)) = n). by apply (swrap_le_bytes 4); unfold in_s; lia.
  - unfold be_bytes, be_val. cbn [le_bytes].
    replace (n / 256 / 256 / 256 / 256) with 0 by (rewrite !Z.div_div by lia; symmetry; apply Z.div_small; lia).
    reflexivity.
Qed.

(** ** Examples

    One encodeable type, whose objects are 32 bit integers. *)

Section Demo.
#[local] Existing Instance serving_allocator.
#[local] Existing Instance demo_host.
#[local] Existing Instance demo_cfg.
#[local] Existing Instance SOPC_Helper_EndiannessCfg_Initialize.

(** An array of two variants: a Boolean and nothing. *)
Definition demo_encoding : SOPC_Buffer :=
  mkBuffer 8 8 8 0 8 (Some [x98; x02; x00; x00; x00; x01; x05; x00]).

Definition demo_decoded `{EncodeableTypes} : SOPC_Variant :=
  mkVariant false SOPC_Variant_Id SOPC_VariantArrayType_Array
    (ValArray 2 (ArrVariant
      [mkVariant false SOPC_Boolean_Id SOPC_VariantArrayType_SingleValue (ValNumber SOPC_Boolean_Id 1); variant_init])).

Lemma demo_encoding_read `{EncodeableTypes} :
  SOPC_Variant_Read (Some variant_init) (Some demo_encoding) 0 = Ret (SOPC_STATUS_OK, Some demo_decoded, Some (set_position demo_encoding 8)).
Proof. lazy. reflexivity. Qed.

Definition demo_types : EncodeableTypes := {|
  EncodeableType := unit; Object := Z;
  BinaryEncodingTypeId _ := 886; Type_NamespaceUri _ := Some [x75; x00]; AllocationSize _ := 4;
  Object_Initialize _ := 0; Object_Clear _ _ := Ret 0;
  Encode _ := SOPC_UInt32_Write; Decode _ := SOPC_UInt32_Read;
  SOPC_EncodeableType_GetEncodeableType id := if (id =? 884) || (id =? 886) then Some tt else NULL |}.
#[local] Existing Instance demo_types.

#[refine] #[local] Instance demo_laws : EncodeableLaws := {| obj_contract _ := of_codec SOPC_UInt32_Write 0 |}.
Proof.
  - intros. by apply codec_honours.
  - done.
  - intros. by exists 0.
  - done.
  - intros id []. done.
  - intros [] s [= <-]. by exists 1.
Defined.

#[local] Instance demo_variant_limits : VariantLimits.
Proof. by split. Qed.

Definition demo_object : SOPC_ExtensionObject :=
  mkExtensionObject expnodeid_init SOPC_ExtObjBodyEncoding_Object (BodyObject (Some 7) (Some tt)) 0.
Definition demo_opaque : SOPC_ExtensionObject :=
  mkExtensionObject (mkExpandedNodeId demo_nodeid string_init 0) SOPC_ExtObjBodyEncoding_ByteString (BodyBstring demo_string) 3.

(** An array of a data value that holds an extension object. *)
Definition demo_datavalue : SOPC_DataValue :=
  mkDataValue (mkVariant false SOPC_ExtensionObject_Id SOPC_VariantArrayType_SingleValue (ValExtObject (Some demo_object))) 0 5 0 0 0.
Definition demo_variant : SOPC_Variant :=
  mkVariant false SOPC_DataValue_Id SOPC_VariantArrayType_Array (ValArray 1 (ArrDataValue [demo_datavalue])).

Lemma demo_object_wf : ext_wf demo_object.
Proof. split; [by eexists|done]. Qed.

Lemma demo_opaque_wf : ext_wf demo_opaque.
Proof. split; [apply demo_nodeid_wf|apply demo_string_wf]. Qed.

Lemma demo_datavalue_wf : datavalue_wf demo_datavalue.
Proof. split_and!; try done. intros _. right. split; [done|apply demo_object_wf]. Qed.

Lemma demo_variant_wf : variant_wf demo_variant.
Proof. split_and!; try done. split; [apply demo_datavalue_wf|done]. Qed.

Lemma demo_object_limits : ext_readable demo_object.
Proof. done. Qed.

Lemma demo_datavalue_limits : datavalue_limits demo_datavalue.
Proof. intros _ _. apply demo_object_limits. Qed.

Lemma demo_variant_within_limits : variant_limits demo_variant.
Proof. split; [done|]. split; [apply demo_datavalue_limits|done]. Qed.

Lemma demo_object_nests lvl : lvl <= 40 -> ext_nests demo_object lvl.
Proof.
  intros. change (lvl + 1 + 2 <= 50 /\ lvl + 1 + 1 <= 50). lia.
Qed.

Lemma demo_datavalue_nests lvl : lvl <= 30 -> datavalue_nests demo_datavalue lvl.
Proof.
  intros. change (lvl + 2 <= 50 /\ (true = true -> lvl + 1 + 2 <= 50 /\ (false = false -> ext_nests demo_object (lvl + 1 + 1))) /\
    (0 < 5 \/ 0 < 0 -> lvl + 3 <= 50)).
  split_and!; [lia|intros _; split; [lia|]; intros _; apply demo_object_nests; lia|lia].
Qed.

Lemma demo_variant_nests : variant_nests demo_variant 0.
Proof. split; [done|]. split; [done|]. split; [by apply demo_datavalue_nests|done]. Qed.

#[local] Hint Resolve demo_object_wf demo_opaque_wf demo_datavalue_wf demo_variant_wf demo_object_limits demo_datavalue_limits
  demo_variant_within_limits demo_variant_nests : sopc.
#[local] Hint Extern 1 (ext_nests _ _) => apply demo_object_nests; lia : sopc.
#[local] Hint Extern 1 (datavalue_nests _ _) => apply demo_datavalue_nests; lia : sopc.

Lemma array_roundtrip_witness :
  exists b' b'', SOPC_Write_Array (Some demo_room) 2 (Some [-1; 7]) SOPC_Int16_Write 0 = Ret (SOPC_STATUS_OK, Some b') /\
    content b' = [x2a; x2a] ++ [x02; x00; x00; x00; xff; xff; x07; x00] /\
    SOPC_Buffer_SetPosition (Some b') 2 = (SOPC_STATUS_OK, Some b'') /\
    SOPC_Read_Array (Some b'') 0 NULL 2 SOPC_Int16_Read 0 (fun _ => Ret 0) 0 = Ret (SOPC_STATUS_OK, 2, Some [-1; 7], Some b').
Proof.
  refine (array_roundtrip (of_codec SOPC_Int16_Write 0) SOPC_Int16_Write SOPC_Int16_Read (fun _ => Ret 0) [-1; 7] 2 demo_room 0
    _ _ _ _ _ _ _ _ _ _ _); [by apply codec_honours|by apply All_Forall|by apply All_Forall|by apply All_Forall|done|done|done| | |done|]; demo.
Defined.

Lemma array_read_total_witness :
  exists st n arr k, SOPC_Read_Array (Some demo_room) 0 NULL 2 SOPC_Int16_Read 0 (fun _ => Ret 0) 0 =
    Ret (st, n, arr, Some (advance demo_room k)) /\ 0 <= k <= 1 /\
    (st = SOPC_STATUS_OK -> exists l, arr = array_ptr l /\ n = zlen l /\ n <= max_array_length demo_cfg /\
       Forall (c_accepted (of_codec SOPC_Int16_Write 0) 1) l) /\
    (st <> SOPC_STATUS_OK -> arr = NULL).
Proof.
  apply (array_read_total (of_codec SOPC_Int16_Write 0) SOPC_Int16_Write SOPC_Int16_Read (fun _ => Ret 0) 2 0 demo_room 0);
    [by apply codec_honours|by eexists|done| |]; demo.
Defined.

Lemma extension_object_roundtrip_witness :
  roundtrips SOPC_ExtensionObject_Write SOPC_ExtensionObject_Read extobj_init demo_object (ext_canon demo_object) demo_room 0.
Proof. apply (extension_object_roundtrip demo_object demo_room 0); demo. Defined.

Lemma extension_object_layout_witness :
  exists b', SOPC_ExtensionObject_Write (Some demo_object) (Some demo_room) 0 = Ret (SOPC_STATUS_OK, Some b') /\
    content b' = [x2a; x2a] ++ [x01; x00; x76; x03; x01; x04; x00; x00; x00; x07; x00; x00; x00] /\ position b' = 15.
Proof. refine (extension_object_layout demo_object 7 tt demo_room 0 eq_refl _ _ _ _ _ _); demo. Defined.

Lemma bytestring_body_not_read_back_witness :
  exists b' b'' e' b3, SOPC_ExtensionObject_Write (Some demo_opaque) (Some demo_room) 0 = Ret (SOPC_STATUS_OK, Some b') /\
    SOPC_Buffer_SetPosition (Some b') 2 = (SOPC_STATUS_OK, Some b'') /\
    SOPC_ExtensionObject_Read (Some extobj_init) (Some b'') 0 = Ret (SOPC_STATUS_ENCODING_ERROR, Some e', b3).
Proof. apply (bytestring_body_not_read_back demo_opaque demo_string demo_room 0); demo. Defined.

Lemma variant_roundtrip_witness :
  roundtrips SOPC_Variant_Write SOPC_Variant_Read variant_init demo_variant (variant_canon demo_variant) demo_room 0.
Proof. apply (variant_roundtrip demo_variant demo_room 0); demo. Defined.

Lemma datavalue_roundtrip_witness :
  roundtrips SOPC_DataValue_Write SOPC_DataValue_Read datavalue_init demo_datavalue (datavalue_canon demo_datavalue) demo_room 0.
Proof. apply (datavalue_roundtrip demo_datavalue demo_room 0); demo. Defined.

Lemma variant_encoded_within_levels_witness :
  (exists b', SOPC_Variant_Write (Some demo_variant) (Some demo_room) 0 = Ret (SOPC_STATUS_OK, Some b')) <-> variant_nests demo_variant 0.
Proof. refine (proj1 (variant_encoded_within_levels demo_variant demo_datavalue demo_room 0 _ _ _ _ _ _ _)); demo. Defined.

Lemma structured_decoders_total_witness :
  exists st v k v', SOPC_Variant_Read (Some variant_init) (Some demo_room) 0 = Ret (st, Some v, Some (advance demo_room k)) /\
     0 <= k <= length_ demo_room - position demo_room /\ SOPC_Variant_Clear (Some v) = Ret v'.
Proof. refine (proj1 (proj2 (structured_decoders_total demo_room 0 _ _))); demo. Defined.

Lemma structured_values_reencode_witness :
  roundtrips SOPC_Variant_Write SOPC_Variant_Read variant_init demo_decoded (variant_canon demo_decoded) demo_room 0.
Proof.
  refine (proj1 (structured_values_reencode demo_encoding (Some (set_position demo_encoding 8)) demo_room 0 _ _ _ _ _)
    demo_decoded demo_encoding_read _); demo.
  - split; simpl; try lia. eexists. split; done.
Defined.

Lemma structured_encoders_keep_data_witness :
  writes_after demo_room (SOPC_Variant_Write (Some demo_variant) (Some demo_room) 0).
Proof. refine (proj1 (structured_encoders_keep_data demo_variant demo_datavalue demo_object demo_room 0 _ _ _ _ _)); demo. Defined.

Lemma variant_in_variant_refused_witness :
  let b2 := mkBuffer 2 2 2 0 2 (Some [x18; x00]) in
  SOPC_Variant_Read (Some variant_init) (Some b2) 0 = Ret (SOPC_STATUS_ENCODING_ERROR, Some variant_init, Some (advance b2 1)).
Proof.
  intros b2. apply (variant_in_variant_refused false ValZero demo_room b2 [x00] 0); demo.
  - split; simpl; try lia. eexists. split; done.
Defined.

Lemma matrix_clear_length_witness : int32_of_int64 12 = 0.
Proof. refine (matrix_clear_length 12 _). lia. Defined.

End Demo.
