(* ===== verification/Dict.v ===== *)
(** * Hash tables

    Model of [src/src/Common/helpers/sopc_dict.c] and [sopc_hash.c]: open
    addressing with quadratic probing, an empty key and a tombstone key.  Keys and
    values are pointers; the hash and equality functions of the keys are those the
    table was created with.  The calls to the functions that free the keys and the
    values are recorded. *)

From Stdlib Require Import ZArith Lia.
From Stdlib Require Import Strings.Byte.
From stdpp Require Import prelude.
From S2P Require Import Prelude Common.

Open Scope Z_scope.

(** ** Hash of a byte array *)

Fixpoint SOPC_DJBHash_Step (current : Z) (data : block) (len : nat) : res Z :=
  match len with
  | O => Ret current
  | S len =>
      match data with
      | [] => Fault OutOfBounds
      | c :: data => SOPC_DJBHash_Step (u64 (u64 (Z.shiftl current 5) + current + b2z c)) data len
      end
  end.

Definition SOPC_DJBHash (data : block) (len : nat) : res Z := SOPC_DJBHash_Step 5381 data len.

(** ** Data *)

(** The pointers that are stored, and the functions that free them. *)
Class Stored := {
  Key : Type;
  Value : Type;
  Free_Fct : Type;
  null_key : Key;
  null_value : Value;
  #[global] Key_eq_dec :: EqDecision Key
}.

Section Dict.
Context `{Stored} `{Allocator}.

Record SOPC_DictBucket := mkBucket {
  key : Key;
  value : Value
}.

Record SOPC_Dict := mkDict {
  buckets : list SOPC_DictBucket;
  size : Z;
  sizemask : Z;
  n_items : Z;
  n_busy : Z;
  empty_key : Key;
  tombstone_key : Key;
  hash_func : Key -> Z;
  equal_func : Key -> Key -> bool;
  key_free : ptr Free_Fct;
  value_free : ptr Free_Fct
}.

(** A call to a function that frees a key or a value. *)
Inductive freed :=
| FreedKey (f : Free_Fct) (k : Key)
| FreedValue (f : Free_Fct) (v : Value).

Definition DICT_INITIAL_SIZE : Z := 16.

(** [sizeof(SOPC_DictBucket)] and [sizeof(SOPC_Dict)] on a 64 bit machine *)
Definition sizeof_bucket : Z := 16.
Definition sizeof_dict : Z := 88.

Definition key_is (a b : Key) : bool := if decide (a = b) then true else false.

(** Updates of fields *)
Definition set_buckets (d : SOPC_Dict) (bs : list SOPC_DictBucket) (items busy : Z) : SOPC_Dict :=
  mkDict bs (size d) (sizemask d) items busy (empty_key d) (tombstone_key d) (hash_func d) (equal_func d)
    (key_free d) (value_free d).

(** ** Operations *)

Definition set_empty_keys (bs : list SOPC_DictBucket) (empty : Key) : list SOPC_DictBucket :=
  map (fun b => mkBucket empty (value b)) bs.

(** [SOPC_Calloc(size, sizeof(SOPC_DictBucket))], which fails when the product is
    not a [size_t], then the empty keys *)
Definition new_buckets (size : Z) (empty : Key) : ptr (list SOPC_DictBucket) :=
  if (size * sizeof_bucket <=? SIZE_MAX) && alloc_ok (size * sizeof_bucket) then
    let bs := replicate (Z.to_nat size) (mkBucket null_key null_value) in
    Some (if key_is empty null_key then bs else set_empty_keys bs empty)
  else NULL.

Definition free_bucket (b : SOPC_DictBucket) (kf vf : ptr Free_Fct) : list freed :=
  match kf with Some f => [FreedKey f (key b)] | NULL => [] end ++
  match vf with Some f => [FreedValue f (value b)] | NULL => [] end.

(** [HASH_I(hash, i)], on 64 bits *)
Definition HASH_I (hash i : Z) : Z := u64 (hash + i / 2 + u64 (i * i) / 2).

Definition probe (d : SOPC_Dict) (hash i : Z) : Z := Z.land (HASH_I hash i) (sizemask d).

Definition bucket_at (d : SOPC_Dict) (idx : Z) : res SOPC_DictBucket :=
  match buckets d !! Z.to_nat idx with Some b => Ret b | None => Fault OutOfBounds end.

Definition put_bucket (d : SOPC_Dict) (idx : Z) (b : SOPC_DictBucket) : list SOPC_DictBucket :=
  <[Z.to_nat idx := b]> (buckets d).

Definition is_free (d : SOPC_Dict) (b : SOPC_DictBucket) : bool :=
  key_is (key b) (empty_key d) || key_is (key b) (tombstone_key d).

(** The loop of [insert_item] from probe [i], with [n] probes left; the assertion
    that follows the loop fails. *)
Fixpoint insert_loop (n : nat) (i : Z) (d : SOPC_Dict) (hash : Z) (k : Key) (v : Value) (overwrite : bool)
    : res (bool * SOPC_Dict * list freed) :=
  match n with
  | O => Fault AssertFailed
  | S n =>
      let idx := probe d hash i in
      let* b := bucket_at d idx in
      if is_free d b
      then Ret (true, set_buckets d (put_bucket d idx (mkBucket k v)) (u64 (n_items d + 1)) (u64 (n_busy d + 1)), [])
      else if overwrite && equal_func d k (key b)
      then Ret (true, set_buckets d (put_bucket d idx (mkBucket k v)) (n_items d) (n_busy d),
                free_bucket b (key_free d) (value_free d))
      else insert_loop n (i + 1) d hash k v overwrite
  end.

Definition insert_item (d : SOPC_Dict) (hash : Z) (k : Key) (v : Value) (overwrite : bool)
    : res (bool * SOPC_Dict * list freed) :=
  insert_loop (Z.to_nat (size d)) 0 d hash k v overwrite.

(** The loop of [dict_resize] over the buckets of the former table. *)
Fixpoint resize_loop (old : list SOPC_DictBucket) (d : SOPC_Dict) : res (bool * SOPC_Dict) :=
  match old with
  | [] => Ret (true, d)
  | b :: old =>
      if is_free d b then resize_loop old d
      else
        let* (ok, d, _) := insert_item d (hash_func d (key b)) (key b) (value b) false in
        if ok then resize_loop old d else Ret (false, d)
  end.

Definition dict_resize (d : SOPC_Dict) (new_size : Z) : res (bool * SOPC_Dict) :=
  let new_sizemask := u64 (new_size - 1) in
  assert! Z.land new_size new_sizemask =? 0 in
  match new_buckets new_size (empty_key d) with
  | NULL => Ret (false, d)
  | Some bs =>
      let dict_backup := d in
      let* (ok, d) :=
        resize_loop (buckets dict_backup)
          (mkDict bs new_size new_sizemask 0 0 (empty_key d) (tombstone_key d) (hash_func d) (equal_func d)
             (key_free d) (value_free d)) in
      Ret (ok, if ok : bool then d else dict_backup)
  end.

(** [SOPC_Dict_Delete]: the calls to the free functions *)
Definition SOPC_Dict_Delete (d : ptr SOPC_Dict) : list freed :=
  match d with
  | NULL => []
  | Some d =>
      flat_map (fun b => if negb (key_is (key b) (empty_key d)) && negb (key_is (key b) (tombstone_key d))
                         then free_bucket b (key_free d) (value_free d) else []) (buckets d)
  end.

Definition SOPC_Dict_Create (empty : Key) (key_hash : Key -> Z) (key_equal : Key -> Key -> bool)
    (kf vf : ptr Free_Fct) : ptr SOPC_Dict :=
  if alloc_ok sizeof_dict then
    match new_buckets DICT_INITIAL_SIZE empty with
    | NULL => NULL
    | Some bs => Some (mkDict bs DICT_INITIAL_SIZE (DICT_INITIAL_SIZE - 1) 0 0 empty empty key_hash key_equal kf vf)
    end
  else NULL.

(** The loop of [minimum_dict_size]; it does not always end, hence the fuel. *)
Fixpoint minimum_loop (fuel : nat) (sz n : Z) : res Z :=
  match fuel with
  | O => Fault OutOfFuel
  | S fuel => if sz <? u64 (2 * n) then minimum_loop fuel (u64 (sz * 2)) n else Ret sz
  end.

Definition minimum_dict_size (start_size n : Z) : res Z :=
  assert! Z.land start_size (u64 (start_size - 1)) =? 0 in
  minimum_loop 65 start_size n.

Definition SOPC_Dict_Reserve (d : ptr SOPC_Dict) (n : Z) : res (bool * ptr SOPC_Dict) :=
  match d with
  | NULL => Fault AssertFailed
  | Some d =>
      let* target := minimum_dict_size (size d) n in
      let* (ok, d) := dict_resize d target in
      Ret (ok, Some d)
  end.

Definition SOPC_Dict_SetTombstoneKey (d : ptr SOPC_Dict) (tombstone : Key) : res (ptr SOPC_Dict) :=
  match d with
  | NULL => Fault AssertFailed
  | Some d =>
      assert! negb (key_is (empty_key d) tombstone) in
      assert! n_busy d =? 0 in
      Ret (Some (mkDict (buckets d) (size d) (sizemask d) (n_items d) (n_busy d) (empty_key d) tombstone
                   (hash_func d) (equal_func d) (key_free d) (value_free d)))
  end.

(** [(size_t) (SHRINK_FACTOR * (double) size)]: the double precision number that is
    nearest to 0.4 is 7205759403792794 / 2^54, and its product by a power of two is
    exact. *)
Definition shrink_limit (sz : Z) : Z := sz * 7205759403792794 / 2 ^ 54.

Definition maybe_resize (d : SOPC_Dict) (delta : Z) : res (bool * SOPC_Dict) :=
  let* target_size :=
    (if ((0 <? delta) && (size d / 2 <? u64 (n_busy d + delta))) || ((delta =? 0) && (n_items d <? shrink_limit (size d)))
     then minimum_dict_size DICT_INITIAL_SIZE (u64 (n_items d + delta))
     else Ret (size d)) in
  if size d =? target_size then Ret (true, d) else dict_resize d target_size.

Definition SOPC_Dict_Insert (d : ptr SOPC_Dict) (k : Key) (v : Value) : res (bool * ptr SOPC_Dict * list freed) :=
  match d with
  | NULL => Fault AssertFailed
  | Some d =>
      assert! negb (key_is k (empty_key d)) in
      assert! negb (key_is k (tombstone_key d)) in
      let* (ok, d) := maybe_resize d 1 in
      if negb ok then Ret (false, Some d, [])
      else
        let* (ok, d, f) := insert_item d (hash_func d k) k v true in
        Ret (ok, Some d, f)
  end.

(** The loop of [get_internal]: the index of the bucket that is found. *)
Fixpoint get_loop (n : nat) (i : Z) (d : SOPC_Dict) (hash : Z) (k : Key) : res (option Z) :=
  match n with
  | O => Ret None
  | S n =>
      let idx := probe d hash i in
      let* b := bucket_at d idx in
      if key_is (key b) (empty_key d) then Ret None
      else if key_is (key b) (tombstone_key d) then get_loop n (i + 1) d hash k
      else if equal_func d k (key b) then Ret (Some idx)
      else get_loop n (i + 1) d hash k
  end.

Definition get_internal (d : SOPC_Dict) (k : Key) : res (option Z) :=
  assert! negb (key_is k (empty_key d)) in
  assert! negb (key_is k (tombstone_key d)) in
  get_loop (Z.to_nat (size d)) 0 d (hash_func d k) k.

(** Returns the value and whether the key was found. *)
Definition SOPC_Dict_Get (d : ptr SOPC_Dict) (k : Key) : res (Value * bool) :=
  match d with
  | NULL => Fault AssertFailed
  | Some d =>
      let* bucket := get_internal d k in
      match bucket with
      | Some idx => let* b := bucket_at d idx in Ret (value b, true)
      | None => Ret (null_value, false)
      end
  end.

Definition SOPC_Dict_GetKey (d : ptr SOPC_Dict) (k : Key) : res (Key * bool) :=
  match d with
  | NULL => Fault AssertFailed
  | Some d =>
      let* bucket := get_internal d k in
      match bucket with
      | Some idx => let* b := bucket_at d idx in Ret (key b, true)
      | None => Ret (null_key, false)
      end
  end.

Definition SOPC_Dict_Remove (d : ptr SOPC_Dict) (k : Key) : res (ptr SOPC_Dict * list freed) :=
  match d with
  | NULL => Fault AssertFailed
  | Some d =>
      assert! negb (key_is (empty_key d) (tombstone_key d)) in
      let* bucket := get_internal d k in
      match bucket with
      | None => Ret (Some d, [])
      | Some idx =>
          let* b := bucket_at d idx in
          let f := free_bucket b (key_free d) (value_free d) in
          let d := set_buckets d (put_bucket d idx (mkBucket (tombstone_key d) null_value)) (u64 (n_items d - 1)) (n_busy d) in
          let* (_, d) := maybe_resize d 0 in
          Ret (Some d, f)
      end
  end.

Definition SOPC_Dict_Size (d : SOPC_Dict) : Z := n_items d.

Definition SOPC_Dict_Capacity (d : SOPC_Dict) : Z := size d / 2.

(** The calls to the function of the user, in order. *)
Definition SOPC_Dict_ForEach (d : SOPC_Dict) : list (Key * Value) :=
  flat_map (fun b => if negb (key_is (key b) (empty_key d)) then [(key b, value b)] else []) (buckets d).

Definition SOPC_Dict_GetKeyFreeFunc (d : ptr SOPC_Dict) : res (ptr Free_Fct) :=
  match d with NULL => Fault AssertFailed | Some d => Ret (key_free d) end.

Definition SOPC_Dict_GetValueFreeFunc (d : ptr SOPC_Dict) : res (ptr Free_Fct) :=
  match d with NULL => Fault AssertFailed | Some d => Ret (value_free d) end.

Definition SOPC_Dict_SetKeyFreeFunc (d : ptr SOPC_Dict) (f : ptr Free_Fct) : res (ptr SOPC_Dict) :=
  match d with
  | NULL => Fault AssertFailed
  | Some d =>
      Ret (Some (mkDict (buckets d) (size d) (sizemask d) (n_items d) (n_busy d) (empty_key d) (tombstone_key d)
                   (hash_func d) (equal_func d) f (value_free d)))
  end.

Definition SOPC_Dict_SetValueFreeFunc (d : ptr SOPC_Dict) (f : ptr Free_Fct) : res (ptr SOPC_Dict) :=
  match d with
  | NULL => Fault AssertFailed
  | Some d =>
      Ret (Some (mkDict (buckets d) (size d) (sizemask d) (n_items d) (n_busy d) (empty_key d) (tombstone_key d)
                   (hash_func d) (equal_func d) (key_free d) f))
  end.

End Dict.
