(* ===== verification/DictSpec.v ===== *)
(** * Correctness of the hash tables

    The invariant of the tables of [Dict.v], the probing sequence, and the table as
    a finite map. *)

From Stdlib Require Import ZArith Lia.
From Stdlib Require Import Strings.Byte.
From stdpp Require Import prelude gmap.
From S2P Require Import Prelude Common Dict.

Open Scope Z_scope.

(** ** Lists updated at an index *)

Section Lists.
Context {A : Type} (P : A -> bool).

Lemma insert_perm (l : list A) i x y : l !! i = Some x -> <[i:=y]> l ≡ₚ y :: delete i l.
Proof.
  intros E. assert (<[i:=y]> l !! i = Some y) as E'.
  { apply list_lookup_insert_eq. by eapply lookup_lt_Some. }
  rewrite (delete_Permutation _ _ _ E'). apply lookup_lt_Some in E. clear E'.
  f_equiv. revert i E. induction l as [|z l IH]; intros [|i] E; simpl in *; try done; try lia. f_equiv. apply IH. lia.
Qed.

Definition selected (l : list A) : list A := filter (fun x => P x = true) l.

#[export] Instance selected_perm : Proper ((≡ₚ) ==> (≡ₚ)) selected.
Proof. unfold selected. intros ?? E. by rewrite E. Qed.

Lemma selected_cons x l : selected (x :: l) = (if P x then [x] else []) ++ selected l.
Proof. unfold selected. rewrite filter_cons. by destruct (P x); case_decide. Qed.

Lemma selected_insert l i x y : l !! i = Some x ->
  exists rest, selected l ≡ₚ (if P x then [x] else []) ++ rest /\ selected (<[i:=y]> l) ≡ₚ (if P y then [y] else []) ++ rest.
Proof.
  intros E. exists (selected (delete i l)). rewrite <- !selected_cons.
  split; f_equiv; [by apply delete_Permutation|by eapply insert_perm].
Qed.

(** Distinct indexes of selected elements are at most the selected elements. *)
Lemma selected_indexes (l : list A) : forall (ids : list nat), NoDup ids ->
  Forall (fun i => exists x, l !! i = Some x /\ P x = true) ids -> (length ids <= length (selected l))%nat.
Proof.
  induction l as [|x l IH] using rev_ind; intros ids N F.
  { destruct ids as [|i ids]; [simpl; lia|]. inversion F as [|?? (y & E & _)]. done. }
  unfold selected in *. rewrite filter_app, length_app, filter_cons.
  assert (forall js, NoDup js -> Forall (fun i => exists y, (l ++ [x]) !! i = Some y /\ P y = true) js -> length l ∉ js ->
    (length js <= length (filter (fun y => P y = true) l))%nat) as X.
  { intros js Nj Fj Nin. apply IH; [done|]. rewrite Forall_forall in Fj |- *. intros j Hj. destruct (Fj j Hj) as (y & E & Py).
    exists y. split; [|done]. apply lookup_app_Some in E. destruct E as [E|[L E]]; [done|].
    assert (j = length l); [|by subst]. apply lookup_lt_Some in E. simpl in E. lia. }
  destruct (decide (length l ∈ ids)) as [I|I].
  - apply elem_of_Permutation in I as [js Ej]. rewrite Ej in N, F |- *. apply NoDup_cons in N as [Nin N].
    apply Forall_cons in F as [(y & E & Py) F]. rewrite list_lookup_middle in E by done. injection E as <-.
    rewrite decide_True by done. specialize (X js N F Nin). simpl. lia.
  - specialize (X ids N F I). lia.
Qed.

End Lists.

(** ** Probing *)

Lemma mask_mod h n : 0 <= n -> Z.land h (2 ^ n - 1) = h mod 2 ^ n.
Proof. intros. rewrite <- Z.land_ones by lia. by rewrite Z.ones_equiv, Z.sub_1_r. Qed.

Lemma pow2_div a b : 0 <= a <= b -> (2 ^ a | 2 ^ b).
Proof. intros. exists (2 ^ (b - a)). rewrite <- Z.pow_add_r by lia. f_equal. lia. Qed.

Lemma mod_mod_pow2 x a b : 0 <= a <= b -> (x mod 2 ^ b) mod 2 ^ a = x mod 2 ^ a.
Proof. intros R. by apply Z.mod_mod_divide, pow2_div. Qed.

(** The probes of even rank. *)
Lemma even_probe h k n : 0 <= n <= 63 ->
  Z.land (HASH_I h (2 * k)) (2 ^ n - 1) = (h + k + 2 * (k * k)) mod 2 ^ n.
Proof.
  intros R. rewrite mask_mod by lia. unfold HASH_I, u64. rewrite mod_mod_pow2 by lia.
  rewrite (Z.mul_comm 2 k), Z.div_mul by lia. replace (k * 2 * (k * 2)) with (2 * (2 * (k * k))) by lia.
  change (2 ^ 64) with (2 * 2 ^ 63). rewrite Zmult_mod_distr_l, (Z.mul_comm 2 (_ mod _)), Z.div_mul by lia.
  rewrite Zplus_mod, mod_mod_pow2, <- Zplus_mod by lia. done.
Qed.

Lemma odd_coprime n m : 0 <= n -> Z.gcd (2 ^ n) (2 * m + 1) = 1.
Proof.
  intros. apply Z.coprime_pow_l; [lia|]. unfold Z.coprime. rewrite Z.add_comm, (Z.mul_comm 2), Z.gcd_add_mult_diag_r. done.
Qed.

Lemma even_probe_inj h n j k : 0 <= n -> 0 <= j < 2 ^ n -> 0 <= k < 2 ^ n ->
  (h + j + 2 * (j * j)) mod 2 ^ n = (h + k + 2 * (k * k)) mod 2 ^ n -> j = k.
Proof.
  intros Rn Rj Rk E. pose proof (Z.pow_pos_nonneg 2 n ltac:(lia) ltac:(lia)) as P.
  assert (2 ^ n | (2 * (j + k) + 1) * (j - k)) as D.
  { apply Z.mod_divide; [lia|]. replace ((2 * (j + k) + 1) * (j - k)) with (h + j + 2 * (j * j) - (h + k + 2 * (k * k))) by ring.
    rewrite Zminus_mod, E, Z.sub_diag. apply Zmod_0_l. }
  apply Z.gauss in D; [|by apply odd_coprime]. destruct D as [q D]. clear E. assert (q = 0) as -> by nia. lia.
Qed.

(** ** Invariant *)

Section Invariant.
Context `{Stored} `{Allocator}.
(** The identity of a key: what the equality function compares. *)
Context {I : Type} `{Countable I} (ident : Key -> I).

(** The functions of the keys are as [sopc_dict.h] asks: the equality function
    tells whether two keys are equal, and equal keys have the same hash. *)
Record keyed (d : SOPC_Dict) : Prop := {
  equal_ok : forall a b, equal_func d a b = bool_decide (ident a = ident b);
  hash_ok : forall a b, ident a = ident b -> hash_func d a = hash_func d b
}.

Definition live (d : SOPC_Dict) (b : SOPC_DictBucket) : bool := negb (is_free d b).

Definition live_buckets (d : SOPC_Dict) : list SOPC_DictBucket := selected (live d) (buckets d).

Definition look (d : SOPC_Dict) (h i : Z) : option SOPC_DictBucket := buckets d !! Z.to_nat (probe d h i).

(** The bucket is on the path of the hash, and the path has no empty bucket
    before. *)
Definition reachable (d : SOPC_Dict) (h : Z) (idx : nat) : Prop :=
  exists i, 0 <= i < size d /\ Z.to_nat (probe d h i) = idx /\
    forall j, 0 <= j < i -> exists b, look d h j = Some b /\ key b <> empty_key d.

Record Dict_Inv (d : SOPC_Dict) : Prop := {
  inv_size : exists n, 4 <= n <= 59 /\ size d = 2 ^ n;
  inv_mask : sizemask d = size d - 1;
  inv_len : zlen (buckets d) = size d;
  inv_items : n_items d = zlen (live_buckets d);
  inv_busy : n_items d <= n_busy d < 2 ^ 64;
  inv_load : 2 * n_items d <= size d;
  inv_keyed : keyed d;
  inv_reach : forall idx b, buckets d !! idx = Some b -> live d b = true -> reachable d (hash_func d (key b)) idx
}.

Lemma key_is_spec a b : key_is a b = bool_decide (a = b).
Proof. unfold key_is. by case_decide; case_bool_decide. Qed.

Lemma live_spec d b : live d b = true <-> key b <> empty_key d /\ key b <> tombstone_key d.
Proof.
  unfold live, is_free. rewrite !key_is_spec, negb_orb, andb_true_iff, !negb_true_iff, !bool_decide_eq_false. done.
Qed.

Lemma probe_range d h i : Dict_Inv d -> 0 <= probe d h i < size d.
Proof.
  intros D. destruct (inv_size d D) as (n & R & E). unfold probe. rewrite (inv_mask d D), E, mask_mod by lia.
  apply Z.mod_pos_bound. apply Z.pow_pos_nonneg; lia.
Qed.

Lemma look_some d h i : Dict_Inv d -> exists b, look d h i = Some b /\ bucket_at d (probe d h i) = Ret b.
Proof.
  intros D. pose proof (probe_range d h i D). pose proof (inv_len d D) as L. unfold zlen in L.
  destruct (lookup_lt_is_Some_2 (buckets d) (Z.to_nat (probe d h i))) as [b E]; [lia|].
  exists b. unfold look, bucket_at. by rewrite E.
Qed.

(** With less than half of the buckets in use, the path of any hash meets a bucket
    that is empty or a tombstone: its probes of even rank visit half of the
    buckets. *)
Lemma free_probe d h : Dict_Inv d -> 2 * n_items d < size d ->
  exists i b, 0 <= i < size d /\ look d h i = Some b /\ is_free d b = true.
Proof.
  intros D L. destruct (inv_size d D) as (n & R & E).
  set (half := seq 0 (Z.to_nat (2 ^ (n - 1)))).
  assert (size d = 2 * 2 ^ (n - 1)) as E2 by (rewrite E, <- Z.pow_succ_r by lia; f_equal; lia).
  pose proof (Z.pow_pos_nonneg 2 (n - 1) ltac:(lia) ltac:(lia)) as P.
  set (idx := fun k : nat => Z.to_nat (probe d h (2 * Z.of_nat k))).
  set (used := fun k : nat => match look d h (2 * Z.of_nat k) with Some b => live d b | None => false end).
  destruct (decide (Forall (fun k => used k = true) half)) as [F|F].
  - exfalso. rewrite Forall_forall in F.
    pose proof (selected_indexes (live d) (buckets d) (idx <$> half)) as X.
    unfold half in X. rewrite length_fmap, length_seq in X. rewrite (inv_items d D) in L. unfold zlen, live_buckets in L. cut (Z.to_nat (2 ^ (n - 1)) <= length (selected (live d) (buckets d)))%nat; [lia|].
    apply X.
    + apply NoDup_fmap_2_strong; [|apply NoDup_seq]. intros j k Hj Hk Ej. apply elem_of_seq in Hj, Hk.
      pose proof (probe_range d h (2 * Z.of_nat j) D). pose proof (probe_range d h (2 * Z.of_nat k) D).
      apply Z2Nat.inj in Ej; [|lia..]. unfold probe in Ej. rewrite (inv_mask d D), E, !even_probe in Ej by lia.
      apply even_probe_inj in Ej; lia.
    + apply Forall_fmap, Forall_forall. intros k Hk. specialize (F k Hk). unfold used, look in F. unfold compose, idx.
      destruct (buckets d !! _) as [b|] eqn:Eb; [|done]. by exists b.
  - apply not_Forall_Exists in F; [|intros ?; solve_decision]. apply Exists_exists in F as (k & Hk & F). apply elem_of_seq in Hk.
    destruct (look_some d h (2 * Z.of_nat k) D) as (b & Eb & _). exists (2 * Z.of_nat k), b. split_and!; [lia|lia|done|].
    unfold compose, used in F. rewrite Eb in F. unfold live in F. by destruct (is_free d b).
Qed.

(** ** Insertion *)

(** Where the loop stops: at the first bucket that is free, or that holds an equal
    key when the key is to be overwritten. *)
Definition passed (d : SOPC_Dict) (k : Key) (overwrite : bool) (b : SOPC_DictBucket) : Prop :=
  is_free d b = false /\ overwrite && equal_func d k (key b) = false.

Definition put (d : SOPC_Dict) (idx : Z) (k : Key) (v : Value) (n : Z) : SOPC_Dict :=
  set_buckets d (put_bucket d idx (mkBucket k v)) (u64 (n_items d + n)) (u64 (n_busy d + n)).

Lemma insert_loop_spec d h k v overwrite : Dict_Inv d -> forall n i,
  (exists j b, i <= j < i + Z.of_nat n /\ look d h j = Some b /\ is_free d b = true) ->
  exists j b, i <= j < i + Z.of_nat n /\ look d h j = Some b /\
    (forall l, i <= l < j -> exists b', look d h l = Some b' /\ passed d k overwrite b') /\
    (is_free d b = true /\ insert_loop n i d h k v overwrite = Ret (true, put d (probe d h j) k v 1, []) \/
     is_free d b = false /\ overwrite = true /\ equal_func d k (key b) = true /\
     insert_loop n i d h k v overwrite =
       Ret (true, set_buckets d (put_bucket d (probe d h j) (mkBucket k v)) (n_items d) (n_busy d),
            free_bucket b (key_free d) (value_free d))).
Proof.
  intros D. induction n as [|n IH]; intros i (j & b & R & Ej & F); [lia|].
  cbn [insert_loop]. destruct (look_some d h i D) as (b0 & E0 & ->). cbn [rbind].
  destruct (is_free d b0) eqn:F0.
  { exists i, b0. split_and!; [lia|lia|done|intros; lia|]. by left. }
  destruct (overwrite && equal_func d k (key b0)) eqn:O.
  { apply andb_true_iff in O as [-> O]. exists i, b0. split_and!; [lia|lia|done|intros; lia|]. by right. }
  destruct (IH (i + 1)) as (j' & b' & R' & E' & Pass & X).
  { exists j, b. split; [|done]. destruct (decide (i = j)) as [-> |]; [congruence|lia]. }
  exists j', b'. split_and!; [lia|lia|done| |done].
  intros l Rl. destruct (decide (l = i)) as [-> |]; [by exists b0|]. apply Pass. lia.
Qed.

(** A bucket that is replaced by one that is not empty keeps the paths. *)
Lemma reachable_put d idx b' items busy h p : key b' <> empty_key d -> reachable d h p ->
  reachable (set_buckets d (put_bucket d idx b') items busy) h p.
Proof.
  intros Hk (i & R & E & Path). exists i. split; [exact R|]. split; [exact E|]. intros j Rj. destruct (Path j Rj) as (b & Eb & Ne).
  unfold look, put_bucket in *. cbn [buckets set_buckets empty_key].
  change (probe (set_buckets _ _ _ _) h j) with (probe d h j).
  destruct (decide (Z.to_nat idx = Z.to_nat (probe d h j))) as [Eq|Neq].
  - exists b'. rewrite Eq. split; [|done]. apply list_lookup_insert_eq. by eapply lookup_lt_Some.
  - exists b. by rewrite list_lookup_insert_ne.
Qed.

Lemma Inv_put d idx b b' items busy : Dict_Inv d -> buckets d !! Z.to_nat idx = Some b -> key b' <> empty_key d ->
  (live d b' = true -> reachable d (hash_func d (key b')) (Z.to_nat idx)) ->
  let d' := set_buckets d (put_bucket d idx b') items busy in
  items = zlen (live_buckets d') -> items <= busy < 2 ^ 64 -> 2 * items <= size d -> Dict_Inv d'.
Proof.
  intros D Eb Hk Hr d' Hi Hb Hl. split; try done; try apply D.
  - unfold d', zlen, put_bucket. cbn [buckets set_buckets]. rewrite length_insert. apply D.
  - destruct (inv_keyed d D). by split.
  - intros p b0 E0 L0. apply reachable_put; [done|]. change (live d b0 = true) in L0. change (hash_func d') with (hash_func d).
    unfold d', put_bucket in E0. cbn [buckets set_buckets] in E0.
    destruct (decide (Z.to_nat idx = p)) as [<- |Ne].
    + rewrite list_lookup_insert_eq in E0 by (by eapply lookup_lt_Some). simplify_eq. by apply Hr.
    + rewrite list_lookup_insert_ne in E0 by done. by apply (inv_reach d D).
Qed.

(** The parameters that no operation on the items changes. *)
Definition same_table (d d' : SOPC_Dict) : Prop :=
  empty_key d' = empty_key d /\ tombstone_key d' = tombstone_key d /\ hash_func d' = hash_func d /\
  equal_func d' = equal_func d /\ key_free d' = key_free d /\ value_free d' = value_free d.

Definition usable (d : SOPC_Dict) (k : Key) : Prop := k <> empty_key d /\ k <> tombstone_key d.

Definition idents (d : SOPC_Dict) : list I := ident ∘ key <$> live_buckets d.

(** No bucket holds the tombstone. *)
Definition no_tombstone (d : SOPC_Dict) : Prop :=
  Forall (fun b => key b = tombstone_key d -> key b = empty_key d) (buckets d).

Lemma elem_of_live d b : b ∈ live_buckets d <-> live d b = true /\ exists i, buckets d !! i = Some b.
Proof. unfold live_buckets, selected. by rewrite list_elem_of_filter, list_elem_of_lookup. Qed.

(** A key that is in the table is met on its path before any empty bucket. *)
Lemma path_complete d k j : Dict_Inv d -> 0 <= j <= size d ->
  (j < size d -> exists b, look d (hash_func d k) j = Some b /\ key b = empty_key d) ->
  (forall l, 0 <= l < j -> exists b', look d (hash_func d k) l = Some b' /\ (live d b' = true -> ident (key b') <> ident k)) ->
  ident k ∉ idents d.
Proof.
  intros D R Stop Path X. apply list_elem_of_fmap in X as (b0 & E & X). unfold compose in E.
  apply elem_of_live in X as (Lb & p & Ep). destruct (inv_reach d D p b0 Ep Lb) as (i & Ri & Ei & Before).
  rewrite <- (hash_ok d (inv_keyed d D) _ _ E) in Ei, Before.
  destruct (Z.lt_ge_cases i j) as [Lt|Ge].
  { destruct (Path i ltac:(lia)) as (b' & Eb' & Ne). unfold look in Eb'. rewrite Ei, Ep in Eb'. simplify_eq. by apply Ne. }
  destruct (Stop ltac:(lia)) as (b & Ej & Ee). destruct (decide (i = j)) as [-> |Ne].
  - unfold look in Ej. rewrite Ei, Ep in Ej. simplify_eq. by apply live_spec in Lb as [? _].
  - destruct (Before j ltac:(lia)) as (b' & Eb' & Nb). congruence.
Qed.

Lemma u64_small z : 0 <= z < 2 ^ 64 -> u64 z = z.
Proof. apply Z.mod_small. Qed.

Lemma no_tombstone_put d idx k v items busy : usable d k -> no_tombstone d ->
  no_tombstone (set_buckets d (put_bucket d idx (mkBucket k v)) items busy).
Proof. intros [_ U] F. apply Forall_insert; [exact F|]. simpl. done. Qed.

(** The bucket [b] is replaced by the bucket of a key: one more item when the
    bucket was free. *)
Lemma put_live d idx k v b : Dict_Inv d -> buckets d !! Z.to_nat idx = Some b -> usable d k ->
  reachable d (hash_func d k) (Z.to_nat idx) -> 2 * (n_items d + 1) <= size d -> n_busy d + 1 < 2 ^ 64 ->
  let n := if live d b then 0 else 1 in
  let d' := put d idx k v n in
  Dict_Inv d' /\ n_items d' = n_items d + n /\ n_busy d' = n_busy d + n /\
  exists rest, live_buckets d ≡ₚ (if live d b then [b] else []) ++ rest /\ live_buckets d' ≡ₚ mkBucket k v :: rest.
Proof.
  intros D Eb U Rb L B n d'.
  destruct (selected_insert (live d) (buckets d) _ b (mkBucket k v) Eb) as (rest & P1 & P2).
  assert (live d (mkBucket k v) = true) as Lk by (by apply live_spec; destruct U). rewrite Lk in P2.
  pose proof (inv_items d D) as Hi. pose proof (inv_busy d D). pose proof (zlen_nonneg (live_buckets d)).
  assert (0 <= n <= 1) by (unfold n; destruct (live d b); lia).
  assert (u64 (n_items d + n) = n_items d + n) as En by (apply u64_small; lia).
  assert (u64 (n_busy d + n) = n_busy d + n) as Ebz by (apply u64_small; lia).
  assert (n_items d + n = zlen (live_buckets d')) as El.
  { change (live_buckets d') with (selected (live d) (put_bucket d idx (mkBucket k v))). unfold put_bucket. unfold zlen. rewrite P2.
    rewrite Hi. unfold zlen, live_buckets. rewrite P1. unfold n. destruct (live d b); simpl; lia. }
  unfold d', put in *. rewrite En, Ebz in *. split_and!; [|done..|by exists rest].
  eapply Inv_put; [done|exact Eb|by destruct U|done|done|lia|lia].
Qed.

Lemma insert_item_spec d k v overwrite :
  Dict_Inv d -> 2 * (n_items d + 1) <= size d -> n_busy d + 1 < 2 ^ 64 -> usable d k ->
  exists d' f, insert_item d (hash_func d k) k v overwrite = Ret (true, d', f) /\
    Dict_Inv d' /\ same_table d d' /\ size d' = size d /\ n_busy d' <= n_busy d + 1 /\ (no_tombstone d -> no_tombstone d') /\
    (f = [] /\ live_buckets d' ≡ₚ mkBucket k v :: live_buckets d /\ (overwrite = true -> no_tombstone d -> ident k ∉ idents d) \/
     overwrite = true /\ exists b rest, ident (key b) = ident k /\ live_buckets d ≡ₚ b :: rest /\
       live_buckets d' ≡ₚ mkBucket k v :: rest /\ f = free_bucket b (key_free d) (value_free d)).
Proof.
  intros D L B U. unfold insert_item. set (h := hash_func d k).
  destruct (free_probe d h D) as (i0 & b0 & R0 & E0 & F0); [lia|].
  destruct (insert_loop_spec d h k v overwrite D (Z.to_nat (size d)) 0) as (j & b & R & Ej & Pass & X).
  { exists i0, b0. split_and!; try done; lia. }
  assert (forall l, 0 <= l < j -> exists b', look d h l = Some b' /\ key b' <> empty_key d) as Path.
  { intros l Rl. destruct (Pass l Rl) as (b' & Eb' & Fb & _). exists b'. split; [done|].
    by apply (live_spec d b'); unfold live; rewrite Fb. }
  assert (reachable d h (Z.to_nat (probe d h j))) as Rb by (exists j; split_and!; try done; lia).
  destruct (put_live d (probe d h j) k v b D Ej U Rb L B) as (D' & Hn' & Hb' & rest & P1 & P2).
  unfold live in *. destruct X as [[Fb ->]|(Fb & -> & Eq & ->)]; rewrite Fb in *; simpl in *.
  - eexists _, []. split; [done|]. split; [done|]. split; [done|]. split; [done|]. split; [simpl; lia|].
    split; [by apply no_tombstone_put|]. left. split_and!; [done|by rewrite P2, P1|].
    intros -> NT. apply (path_complete d k j D ltac:(lia)).
    + intros _. exists b. split; [done|]. unfold is_free in Fb. rewrite !key_is_spec, orb_true_iff, !bool_decide_eq_true in Fb. destruct Fb as [Fb|Fb]; [done|].
      unfold no_tombstone in NT. rewrite Forall_lookup in NT. by eapply NT.
    + intros l Rl. destruct (Pass l Rl) as (b' & Eb' & _ & O). exists b'. split; [done|]. intros _ Ei.
      rewrite (equal_ok d (inv_keyed d D)) in O. simpl in O. by apply bool_decide_eq_false in O.
  - assert (u64 (n_items d + 0) = n_items d /\ u64 (n_busy d + 0) = n_busy d) as [E1 E2] by (rewrite !Z.add_0_r in *; done).
    unfold put in *. rewrite E1, E2 in *. eexists _, _. split; [done|]. split; [done|]. split; [done|]. split; [done|].
    split; [simpl; lia|]. split; [by apply no_tombstone_put|]. right. split; [done|]. exists b, rest. split_and!; try done.
    rewrite (equal_ok d (inv_keyed d D)) in Eq. by apply bool_decide_eq_true in Eq.
Qed.

(** ** Resizing *)

Lemma live_same d d' b : same_table d d' -> live d' b = live d b.
Proof. intros (E1 & E2 & _). unfold live, is_free. by rewrite E1, E2. Qed.

Lemma same_trans d1 d2 d3 : same_table d1 d2 -> same_table d2 d3 -> same_table d1 d3.
Proof. unfold same_table. intuition congruence. Qed.

Lemma selected_ext {A} (P Q : A -> bool) l : (forall x, P x = Q x) -> selected P l = selected Q l.
Proof. intros E. unfold selected. apply list_filter_iff. intros x. by rewrite E. Qed.

Lemma selected_none {A} (P : A -> bool) l : Forall (fun x => P x = false) l -> selected P l = [].
Proof. induction 1 as [|x l E _ IH]; [done|]. by rewrite selected_cons, E. Qed.

Lemma new_buckets_spec n e bs : 0 <= n -> new_buckets n e = Some bs ->
  zlen bs = n /\ Forall (fun b => key b = e) bs /\ n <= 2 ^ 60 - 1.
Proof.
  unfold new_buckets, sizeof_bucket, SIZE_MAX. intros Hn E. destruct (n * 16 <=? 2 ^ 64 - 1) eqn:M; [|done].
  destruct (alloc_ok _); [|done]. injection E as <-.
  unfold set_empty_keys, zlen. split_and!; [| |lia].
  - destruct (key_is e null_key); rewrite ?length_map, length_replicate; lia.
  - destruct (key_is e null_key) eqn:K; [|by apply Forall_fmap, Forall_replicate].
    apply Forall_replicate. rewrite key_is_spec in K. apply bool_decide_eq_true in K. done.
Qed.

Lemma fresh_inv d n bs : keyed d -> 0 <= n -> 4 <= n <= 59 -> zlen bs = 2 ^ n -> Forall (fun b => key b = empty_key d) bs ->
  size d = 2 ^ n -> sizemask d = 2 ^ n - 1 ->
  let d' := set_buckets d bs 0 0 in
  Dict_Inv d' /\ live_buckets d' = [] /\ no_tombstone d'.
Proof.
  intros K Hn Rn L F Es Em d'. assert (Forall (fun b => live d' b = false) bs) as X.
  { eapply Forall_impl; [exact F|]. intros b Eb. unfold live, is_free. rewrite !key_is_spec. cbn. by rewrite bool_decide_true. }
  assert (live_buckets d' = []) as E by (by apply selected_none). pose proof (Z.pow_pos_nonneg 2 n ltac:(lia) ltac:(lia)).
  split_and!; [|done|eapply Forall_impl; [exact F|done]]. split; simpl; try lia; try (by rewrite E); try (by destruct K; split).
  - exists n. done.
  - intros idx b Eb Lb. rewrite Forall_lookup in X. by rewrite (X idx b Eb) in Lb.
Qed.

Lemma resize_loop_spec old : forall d, Dict_Inv d ->
  2 * (n_items d + zlen (selected (live d) old)) <= size d -> n_busy d + zlen (selected (live d) old) < 2 ^ 64 ->
  exists d', resize_loop old d = Ret (true, d') /\ Dict_Inv d' /\ same_table d d' /\ size d' = size d /\
    n_busy d' <= n_busy d + zlen (selected (live d) old) /\ (no_tombstone d -> no_tombstone d') /\
    live_buckets d' ≡ₚ selected (live d) old ++ live_buckets d.
Proof.
  induction old as [|b old IH]; intros d D L B; cbn [resize_loop].
  { exists d. unfold selected, zlen in *. simpl in *. split_and!; try done. lia. }
  assert (live d b = negb (is_free d b)) as Lb by done.
  rewrite selected_cons, zlen_app in L, B |- *. rewrite Lb in L, B |- *.
  destruct (is_free d b) eqn:F; cbn [negb app] in L, B |- *; [by apply IH|].
  change (zlen [b]) with 1 in *. pose proof (zlen_nonneg (selected (live d) old)).
  assert (usable d (key b)) as U by (by apply live_spec).
  destruct (insert_item_spec d (key b) (value b) false D ltac:(lia) ltac:(lia) U) as (d1 & f & -> & D1 & T1 & S1 & B1 & N1 & X).
  cbn [rbind]. destruct X as [(-> & P1 & _)|[? _]]; [|done].
  assert (n_items d1 = n_items d + 1) as I1.
  { rewrite (inv_items d1 D1), (inv_items d D). unfold zlen. rewrite P1. simpl. lia. }
  assert (selected (live d1) old = selected (live d) old) as E1 by (apply selected_ext; intros; by apply live_same).
  destruct (IH d1 D1) as (d' & -> & D' & T' & S' & B' & N' & P'); [rewrite E1; lia..|].
  exists d'. rewrite E1 in *. split_and!; [done|done|by eapply same_trans|lia|lia|auto|].
  rewrite P', P1. destruct b as [kb vb]. simpl. by rewrite Permutation_middle.
Qed.

Lemma power_of_two n : 0 <= n <= 63 -> u64 (2 ^ n - 1) = 2 ^ n - 1 /\ (Z.land (2 ^ n) (u64 (2 ^ n - 1)) =? 0) = true.
Proof.
  intros R. pose proof (Z.pow_pos_nonneg 2 n ltac:(lia) ltac:(lia)). pose proof (Z.pow_le_mono_r 2 n 63 ltac:(lia) ltac:(lia)).
  rewrite u64_small by lia. rewrite mask_mod by lia. rewrite Z.mod_same by lia. done.
Qed.

(** A table that was rebuilt has the same items. *)
Definition rebuilt (d d' : SOPC_Dict) : Prop :=
  Dict_Inv d' /\ same_table d d' /\ n_busy d' <= n_busy d /\ live_buckets d' ≡ₚ live_buckets d /\
  (no_tombstone d -> no_tombstone d').

Lemma rebuilt_refl d : Dict_Inv d -> rebuilt d d.
Proof. intros D. split_and!; try done. Qed.

Lemma rebuilt_items d d' : Dict_Inv d -> rebuilt d d' -> n_items d' = n_items d.
Proof. intros D (D' & _ & _ & P & _). rewrite (inv_items d D), (inv_items d' D'). unfold zlen. by rewrite P. Qed.

Lemma dict_resize_spec d n : Dict_Inv d -> 4 <= n <= 63 -> 2 * n_items d <= 2 ^ n ->
  exists ok d', dict_resize d (2 ^ n) = Ret (ok, d') /\ rebuilt d d' /\ (ok = false -> d' = d) /\
    (ok = true -> size d' = 2 ^ n /\ no_tombstone d').
Proof.
  intros D R L. destruct (power_of_two n ltac:(lia)) as [E1 E2]. unfold dict_resize. rewrite E2, E1.
  destruct (new_buckets (2 ^ n) (empty_key d)) as [bs|] eqn:Eb; [|exists false, d; split_and!; try done; by apply rebuilt_refl].
  apply new_buckets_spec in Eb as (Lb & Fb & M); [|by apply Z.pow_nonneg].
  assert (n <= 59) by (destruct (Z.le_gt_cases n 59); [done|]; pose proof (Z.pow_le_mono_r 2 60 n ltac:(lia) ltac:(lia)); lia).
  set (d0 := mkDict _ _ _ _ _ _ _ _ _ _ _).
  assert (keyed d0) as K by (destruct (inv_keyed d D); by split).
  destruct (fresh_inv d0 n bs K ltac:(lia) ltac:(lia) Lb Fb eq_refl eq_refl) as (D0 & E0 & N0).
  change (set_buckets d0 bs 0 0) with d0 in *. pose proof (inv_items d D) as Hi. pose proof (inv_busy d D). unfold live_buckets in Hi.
  assert (selected (live d0) (buckets d) = selected (live d) (buckets d)) as Es by done.
  destruct (resize_loop_spec (buckets d) d0 D0) as (d' & -> & D' & T' & S' & B' & N' & P').
  { rewrite Es. simpl. lia. }
  { rewrite Es. simpl. lia. }
  rewrite E0, app_nil_r, Es in P'. rewrite Es in B'. simpl in B'. cbn [rbind]. exists true, d'. split; [done|].
  split; [|split; [done|]; intros _; split; [done|by apply N']]. split_and!; try done; [lia|by intros; apply N'].
Qed.

Lemma minimum_loop_spec n fuel : forall a, 0 <= n <= 2 ^ 62 -> 0 <= a <= 63 -> 63 - a < Z.of_nat fuel ->
  exists m, minimum_loop fuel (2 ^ a) n = Ret (2 ^ m) /\ a <= m <= 63 /\ 2 * n <= 2 ^ m /\ (a < m -> 2 ^ (m - 1) < 2 * n).
Proof.
  induction fuel as [|fuel IH]; intros a Hn Ha Hf; [lia|]. cbn [minimum_loop].
  rewrite (u64_small (2 * n)) by lia. destruct (2 ^ a <? 2 * n) eqn:C; [|exists a; split_and!; try done; lia].
  assert (a < 63) by (destruct (decide (a = 63)) as [-> |]; lia).
  assert (2 ^ (a + 1) = 2 ^ a * 2) as E by (rewrite Z.pow_add_r by lia; lia).
  pose proof (Z.pow_le_mono_r 2 (a + 1) 63 ltac:(lia) ltac:(lia)). pose proof (Z.pow_pos_nonneg 2 a ltac:(lia) ltac:(lia)).
  rewrite u64_small, <- E by lia. destruct (IH (a + 1)) as (m & -> & Rm & L & G); [lia..|].
  exists m. split_and!; try done; try lia. intros _. destruct (decide (m = a + 1)) as [-> |]; [|apply G; lia].
  replace (a + 1 - 1) with a by lia. lia.
Qed.

Lemma minimum_dict_size_spec n a : 0 <= n <= 2 ^ 62 -> 0 <= a <= 63 ->
  exists m, minimum_dict_size (2 ^ a) n = Ret (2 ^ m) /\ a <= m <= 63 /\ 2 * n <= 2 ^ m /\ (a < m -> 2 ^ (m - 1) < 2 * n).
Proof.
  intros Hn Ha. unfold minimum_dict_size. destruct (power_of_two a Ha) as [_ ->]. apply minimum_loop_spec; lia.
Qed.

Lemma size_bound d : Dict_Inv d -> 16 <= size d <= 2 ^ 59 /\ 0 <= n_items d <= 2 ^ 58.
Proof.
  intros D. destruct (inv_size d D) as (n & R & E). pose proof (inv_load d D). pose proof (inv_items d D). pose proof (zlen_nonneg (live_buckets d)).
  pose proof (Z.pow_le_mono_r 2 4 n ltac:(lia) ltac:(lia)). pose proof (Z.pow_le_mono_r 2 n 59 ltac:(lia) ltac:(lia)). lia.
Qed.

Lemma maybe_resize_spec d delta : Dict_Inv d -> 0 <= delta <= 1 -> n_busy d + 1 < 2 ^ 64 ->
  exists ok d', maybe_resize d delta = Ret (ok, d') /\ rebuilt d d' /\ (ok = false -> d' = d) /\
    (ok = true -> delta = 1 -> 2 * (n_items d' + 1) <= size d').
Proof.
  intros D Hd Hb. pose proof (size_bound d D). pose proof (inv_busy d D). unfold maybe_resize.
  destruct (inv_size d D) as (n & Rn & En).
  set (c := ((0 <? delta) && (size d / 2 <? u64 (n_busy d + delta))) || ((delta =? 0) && (n_items d <? shrink_limit (size d)))).
  assert (c = false -> delta = 1 -> 2 * (n_items d + 1) <= size d) as Room.
  { unfold c. intros C ->. simpl in C. rewrite orb_false_r, u64_small in C by lia. apply Z.ltb_ge in C.
    pose proof (Z.mul_div_le (size d) 2 ltac:(lia)). lia. }
  destruct c; cbn [rbind].
  2:{ rewrite Z.eqb_refl. exists true, d. split_and!; auto using rebuilt_refl. }
  rewrite (u64_small (n_items d + delta)) by lia.
  destruct (minimum_dict_size_spec (n_items d + delta) 4) as (m & Em & Rm & Lm & _); [lia..|].
  change (2 ^ 4) with DICT_INITIAL_SIZE in Em. rewrite Em. cbn [rbind].
  destruct (Z.eqb_spec (size d) (2 ^ m)) as [Es|Es].
  { exists true, d. split_and!; [done|by apply rebuilt_refl|done|intros _ ->; lia]. }
  destruct (dict_resize_spec d m D ltac:(lia) ltac:(lia)) as (ok & d' & E & Rb & F & G). exists ok, d'. split_and!; try done.
  intros Ho ->. destruct (G Ho) as [-> _]. rewrite (rebuilt_items d d' D Rb). lia.
Qed.

(** ** Search *)

Lemma get_loop_spec d k : Dict_Inv d -> forall n i, i + Z.of_nat n = size d -> 0 <= i ->
  (forall l, 0 <= l < i -> exists b', look d (hash_func d k) l = Some b' /\ (live d b' = true -> ident (key b') <> ident k)) ->
  (get_loop n i d (hash_func d k) k = Ret None /\ ident k ∉ idents d) \/
  exists idx b, get_loop n i d (hash_func d k) k = Ret (Some idx) /\ buckets d !! Z.to_nat idx = Some b /\
    bucket_at d idx = Ret b /\ live d b = true /\ ident (key b) = ident k.
Proof.
  intros D. set (h := hash_func d k). induction n as [|n IH]; intros i Hn Hi Path; cbn [get_loop].
  { left. split; [done|]. apply (path_complete d k i D); [lia|lia|done]. }
  destruct (look_some d h i D) as (b & Eb & Ab). rewrite Ab. cbn [rbind]. rewrite !key_is_spec.
  case_bool_decide as Ke.
  { left. split; [done|]. apply (path_complete d k i D); [lia|by eauto|done]. }
  case_bool_decide as Kt.
  { apply IH; [lia..|]. intros l Rl. destruct (decide (l = i)) as [-> |]; [|apply Path; lia]. exists b. split; [done|].
    intros [_ ?]%live_spec. done. }
  rewrite (equal_ok d (inv_keyed d D)). case_bool_decide as Ki.
  - right. exists (probe d h i), b. split_and!; try done. by apply live_spec.
  - apply IH; [lia..|]. intros l Rl. destruct (decide (l = i)) as [-> |]; [|apply Path; lia]. by exists b.
Qed.

Lemma get_internal_spec d k : Dict_Inv d -> usable d k ->
  (get_internal d k = Ret None /\ ident k ∉ idents d) \/
  exists idx b, get_internal d k = Ret (Some idx) /\ buckets d !! Z.to_nat idx = Some b /\
    bucket_at d idx = Ret b /\ live d b = true /\ ident (key b) = ident k.
Proof.
  intros D [U1 U2]. unfold get_internal. rewrite !key_is_spec, !bool_decide_false by done. cbn [negb].
  pose proof (size_bound d D). apply get_loop_spec; [done|lia|lia|intros; lia].
Qed.

(** ** The operations *)

Lemma Insert_spec d k v : Dict_Inv d -> n_busy d + 1 < 2 ^ 64 -> usable d k ->
  exists ok d' f, SOPC_Dict_Insert (Some d) k v = Ret (ok, Some d', f) /\ Dict_Inv d' /\ same_table d d' /\ n_busy d' <= n_busy d + 1 /\
    (no_tombstone d -> no_tombstone d') /\
    (ok = false -> d' = d /\ f = []) /\
    (ok = true ->
      f = [] /\ live_buckets d' ≡ₚ mkBucket k v :: live_buckets d /\ (no_tombstone d -> ident k ∉ idents d) \/
      exists b rest, ident (key b) = ident k /\ live_buckets d ≡ₚ b :: rest /\ live_buckets d' ≡ₚ mkBucket k v :: rest /\
        f = free_bucket b (key_free d) (value_free d)).
Proof.
  intros D B U. unfold SOPC_Dict_Insert. rewrite !key_is_spec, !bool_decide_false by apply U. cbn [negb].
  destruct (maybe_resize_spec d 1 D ltac:(lia) B) as (ok & d1 & -> & (D1 & T1 & B1 & P1 & N1) & F & G). cbn [rbind].
  destruct ok; cbn [negb]; [|exists false, d1, []; rewrite (F eq_refl); split_and!; try done; lia].
  assert (usable d1 k) as U1 by (destruct T1 as (E1 & E2 & _); unfold usable; by rewrite E1, E2).
  destruct (insert_item_spec d1 k v true D1) as (d' & f & -> & D' & T' & _ & B' & N' & X); [by apply G|lia|done|]. cbn [rbind].
  exists true, d', f. split_and!; [done|done|by eapply same_trans|lia|by auto|done|]. intros _.
  assert (idents d1 ≡ₚ idents d) as Pi by (unfold idents; by rewrite P1).
  destruct X as [(-> & P & Nin)|[_ (b & rest & Ei & Pd & Pd' & ->)]].
  - left. split_and!; [done|by rewrite P, P1|]. intros NT. rewrite <- Pi. by apply Nin; [|apply N1].
  - right. exists b, rest. split_and!; [done|by rewrite <- P1|done|]. by destruct T1 as (_ & _ & _ & _ & -> & ->).
Qed.

Lemma Remove_spec d k : Dict_Inv d -> n_busy d + 1 < 2 ^ 64 -> usable d k -> empty_key d <> tombstone_key d ->
  exists d' f, SOPC_Dict_Remove (Some d) k = Ret (Some d', f) /\ Dict_Inv d' /\ same_table d d' /\ n_busy d' <= n_busy d /\
    (f = [] /\ d' = d /\ ident k ∉ idents d \/
     exists b, ident (key b) = ident k /\ live_buckets d ≡ₚ b :: live_buckets d' /\ f = free_bucket b (key_free d) (value_free d)).
Proof.
  intros D B U Ne. unfold SOPC_Dict_Remove. rewrite key_is_spec, bool_decide_false by done. cbn [negb].
  destruct (get_internal_spec d k D U) as [[-> Nin]|(idx & b & -> & Eb & Ab & Lb & Ei)]; cbn [rbind].
  { exists d, []. split_and!; try done. by left. }
  rewrite Ab. cbn [rbind]. set (tomb := mkBucket (tombstone_key d) null_value).
  destruct (selected_insert (live d) (buckets d) _ b tomb Eb) as (rest & P1 & P2). rewrite Lb in P1.
  assert (live d tomb = false) as Lt.
  { unfold live, is_free. rewrite !key_is_spec. simpl. by rewrite (bool_decide_true (tombstone_key d = tombstone_key d)), orb_true_r. }
  rewrite Lt in P2. simpl in P1, P2. pose proof (inv_items d D) as Hi. unfold live_buckets, zlen in Hi. rewrite P1 in Hi. simpl in Hi.
  pose proof (inv_busy d D). pose proof (inv_load d D).
  set (d1 := set_buckets _ _ _ _).
  assert (live_buckets d1 ≡ₚ rest) as P3 by exact P2.
  assert (Dict_Inv d1) as D1.
  { unfold d1. rewrite u64_small by lia. eapply Inv_put; [done|exact Eb|by simpl|by rewrite Lt| |lia|lia].
    change (n_items d - 1 = zlen (live_buckets d1)). unfold zlen. rewrite P3. lia. }
  destruct (maybe_resize_spec d1 0 D1 ltac:(lia) B) as (ok & d' & -> & (D' & T' & B' & P' & N') & _). cbn [rbind].
  exists d', (free_bucket b (key_free d) (value_free d)). split_and!; try done. right. exists b. split_and!; try done.
  by rewrite P', P3.
Qed.

End Invariant.
