(* ===== verification/DictProps.v ===== *)
(** * The hash tables as finite maps

    Sequences of calls on a table: they return, they refine a finite map, and every
    item is freed once. *)

From Stdlib Require Import ZArith Lia.
From Stdlib Require Import Strings.Byte.
From stdpp Require Import prelude gmap.
From S2P Require Import Prelude Common Dict DictSpec.

Open Scope Z_scope.

(** ** Calls on a table *)

Section Calls.
Context `{Stored} `{Allocator}.

Inductive dict_op :=
| OpInsert (k : Key) (v : Value)
| OpGet (k : Key)
| OpRemove (k : Key)
| OpReserve (n : Z)
| OpSize.

Inductive dict_answer :=
| AnsBool (ok : bool)
| AnsValue (v : Value) (found : bool)
| AnsSize (n : Z)
| AnsVoid.

(** The answer, the table and the calls to the free functions. *)
Definition run_op (d : SOPC_Dict) (op : dict_op) : res (dict_answer * SOPC_Dict * list freed) :=
  match op with
  | OpInsert k v =>
      let* (ok, d, f) := SOPC_Dict_Insert (Some d) k v in
      let* d := deref d in Ret (AnsBool ok, d, f)
  | OpGet k => let* (v, found) := SOPC_Dict_Get (Some d) k in Ret (AnsValue v found, d, [])
  | OpRemove k =>
      let* (d, f) := SOPC_Dict_Remove (Some d) k in
      let* d := deref d in Ret (AnsVoid, d, f)
  | OpReserve n =>
      let* (ok, d) := SOPC_Dict_Reserve (Some d) n in
      let* d := deref d in Ret (AnsBool ok, d, [])
  | OpSize => Ret (AnsSize (SOPC_Dict_Size d), d, [])
  end.

Fixpoint run_ops (d : SOPC_Dict) (ops : list dict_op) : res (list dict_answer * SOPC_Dict * list freed) :=
  match ops with
  | [] => Ret ([], d, [])
  | op :: ops =>
      let* (a, d, f) := run_op d op in
      let* (l, d, g) := run_ops d ops in
      Ret (a :: l, d, f ++ g)
  end.

(** What the header asks of the caller: the keys are neither the empty key nor the
    tombstone, and a tombstone was set before a removal.  A reservation is of at most 2^62
    items, which the header does not ask: the computation of the size does not end beyond
    ([minimum_dict_size_terminates]). *)
Definition op_allowed (d : SOPC_Dict) (op : dict_op) : Prop :=
  match op with
  | OpInsert k _ | OpGet k => usable d k
  | OpRemove k => usable d k /\ empty_key d <> tombstone_key d
  | OpReserve n => 0 <= n <= 2 ^ 62
  | OpSize => True
  end.

(** The items that were inserted with success. *)
Definition taken (op : dict_op) (a : dict_answer) : list SOPC_DictBucket :=
  match op, a with
  | OpInsert k v, AnsBool true => [mkBucket k v]
  | _, _ => []
  end.

(** The effect of an operation on the items. *)
Inductive effect {I} (ident : Key -> I) (d d' : SOPC_Dict) : dict_op -> dict_answer -> list freed -> Prop :=
| EffectNone op a : taken op a = [] -> live_buckets d' ≡ₚ live_buckets d -> effect ident d d' op a []
| EffectNew k v : live_buckets d' ≡ₚ mkBucket k v :: live_buckets d -> effect ident d d' (OpInsert k v) (AnsBool true) []
| EffectOverwrite k v b rest : ident (key b) = ident k -> live_buckets d ≡ₚ b :: rest -> live_buckets d' ≡ₚ mkBucket k v :: rest ->
    effect ident d d' (OpInsert k v) (AnsBool true) (free_bucket b (key_free d) (value_free d))
| EffectRemove k b : ident (key b) = ident k -> live_buckets d ≡ₚ b :: live_buckets d' ->
    effect ident d d' (OpRemove k) AnsVoid (free_bucket b (key_free d) (value_free d)).

End Calls.

Section Properties.
Context `{Stored} `{Allocator} {I : Type} `{Countable I} (ident : Key -> I).

Lemma Get_spec d k : Dict_Inv ident d -> usable d k ->
  (SOPC_Dict_Get (Some d) k = Ret (null_value, false) /\ ident k ∉ idents ident d) \/
  exists b, SOPC_Dict_Get (Some d) k = Ret (value b, true) /\ b ∈ live_buckets d /\ ident (key b) = ident k.
Proof.
  intros D U. unfold SOPC_Dict_Get. destruct (get_internal_spec ident d k D U) as [[-> Nin]|(idx & b & -> & Eb & Ab & Lb & Ei)];
    cbn [rbind]; [by left|]. right. exists b. rewrite Ab. split_and!; try done. apply elem_of_live. eauto.
Qed.

Lemma Reserve_spec d n : Dict_Inv ident d -> 0 <= n <= 2 ^ 62 ->
  exists ok d', SOPC_Dict_Reserve (Some d) n = Ret (ok, Some d') /\ rebuilt ident d d' /\
    (ok = true -> n <= SOPC_Dict_Capacity d').
Proof.
  intros D Hn. unfold SOPC_Dict_Reserve. destruct (inv_size ident d D) as (a & Ra & Ea). rewrite Ea.
  destruct (minimum_dict_size_spec n a Hn ltac:(lia)) as (m & -> & Rm & Lm & _). cbn [rbind].
  pose proof (inv_load ident d D). pose proof (Z.pow_le_mono_r 2 a m ltac:(lia) ltac:(lia)).
  destruct (dict_resize_spec ident d m D ltac:(lia) ltac:(lia)) as (ok & d' & -> & Rb & _ & G). cbn [rbind].
  exists ok, d'. split_and!; try done. intros Ho. destruct (G Ho) as [Es _]. unfold SOPC_Dict_Capacity. rewrite Es.
  apply Z.div_le_lower_bound; lia.
Qed.

Lemma run_op_spec d op : Dict_Inv ident d -> n_busy d + 1 < 2 ^ 64 -> op_allowed d op ->
  exists a d' f, run_op d op = Ret (a, d', f) /\ Dict_Inv ident d' /\ same_table d d' /\ n_busy d' <= n_busy d + 1 /\
    effect ident d d' op a f.
Proof.
  intros D B A. pose proof (inv_busy ident d D). destruct op as [k v|k|k|n|]; cbn [run_op op_allowed] in *.
  - destruct (Insert_spec ident d k v D B A) as (ok & d' & f & -> & D' & T & B' & _ & F & G). cbn [rbind deref].
    eexists _, _, _. split; [done|]. split_and!; try done. destruct ok; [|destruct (F eq_refl) as [-> ->]; by constructor].
    destruct (G eq_refl) as [(-> & P & _)|(b & rest & Ei & P1 & P2 & ->)]; [by constructor|by eapply EffectOverwrite].
  - destruct (Get_spec d k D A) as [[-> _]|(b & -> & _)]; cbn [rbind]; eexists _, d, [];
      (split; [done|]); (split_and!; [done|done|lia|by constructor]).
  - destruct A as [U Ne]. destruct (Remove_spec ident d k D B U Ne) as (d' & f & -> & D' & T & B' & X). cbn [rbind deref].
    eexists _, d', f. split; [done|]. split_and!; try done; [lia|].
    destruct X as [(-> & -> & _)|(b & Ei & P & ->)]; [by constructor|by eapply EffectRemove].
  - destruct (Reserve_spec d n D A) as (ok & d' & -> & (D' & T & B' & P & _) & _). cbn [rbind deref].
    eexists _, d', []. split; [done|]. split_and!; try done; [lia|by constructor].
  - eexists _, d, []. split; [done|]. split_and!; try done; [lia|by constructor].
Qed.

Lemma op_allowed_same d d' op : same_table d d' -> op_allowed d op -> op_allowed d' op.
Proof. intros (E1 & E2 & _). destruct op; simpl; unfold usable; by rewrite ?E1, ?E2. Qed.

Lemma Forall_allowed_same d d' ops : same_table d d' -> Forall (op_allowed d) ops -> Forall (op_allowed d') ops.
Proof. intros T F. eapply Forall_impl; [exact F|]. intros op. by apply op_allowed_same. Qed.

(** C23: calls that follow the rules of the header, with reservations of at most 2^62
    items, return: no assertion fails, an
    insertion finds a free bucket, and the indexes are within the table.  The
    invariant is kept: the table is a power of two, at least half of its buckets
    hold no item, and every item can be reached. *)
Theorem dict_ops_preserve_invariant ops : forall d,
  Dict_Inv ident d -> Forall (op_allowed d) ops -> n_busy d + zlen ops < 2 ^ 64 ->
  exists l d' f, run_ops d ops = Ret (l, d', f) /\ length l = length ops /\ Dict_Inv ident d' /\ same_table d d'.
Proof.
  induction ops as [|op ops IH]; intros d D A B; [by exists [], d, []|].
  rewrite zlen_cons in B. pose proof (zlen_nonneg ops). apply Forall_cons in A as [A0 A]. cbn [run_ops].
  destruct (run_op_spec d op D ltac:(lia) A0) as (a & d1 & f & -> & D1 & T1 & B1 & _). cbn [rbind].
  destruct (IH d1 D1 (Forall_allowed_same _ _ _ T1 A) ltac:(lia)) as (l & d' & g & -> & L & D' & T'). cbn [rbind].
  exists (a :: l), d', (f ++ g). split_and!; [done|by simpl; f_equal|done|by eapply same_trans].
Qed.

(** *** Ownership *)

Definition freed_of (d : SOPC_Dict) (bs : list SOPC_DictBucket) : list freed :=
  flat_map (fun b => free_bucket b (key_free d) (value_free d)) bs.

Lemma freed_of_perm d l l' : l ≡ₚ l' -> freed_of d l ≡ₚ freed_of d l'.
Proof. apply Permutation_flat_map. Qed.

Lemma freed_of_app d l l' : freed_of d (l ++ l') = freed_of d l ++ freed_of d l'.
Proof. apply flat_map_app. Qed.

Lemma freed_of_same d d' l : same_table d d' -> freed_of d' l = freed_of d l.
Proof. intros (_ & _ & _ & _ & E1 & E2). unfold freed_of. by rewrite E1, E2. Qed.

Lemma Delete_live d : SOPC_Dict_Delete (Some d) = freed_of d (live_buckets d).
Proof.
  unfold SOPC_Dict_Delete, live_buckets, freed_of. induction (buckets d) as [|b bs IH]; [done|].
  rewrite selected_cons, flat_map_app, <- IH. cbn [flat_map]. unfold live at 1, is_free. rewrite negb_orb.
  destruct (_ && _); [|done]. cbn [flat_map]. by rewrite app_nil_r.
Qed.

Lemma effect_freed d d' op a f : effect ident d d' op a f -> same_table d d' ->
  f ++ SOPC_Dict_Delete (Some d') ≡ₚ SOPC_Dict_Delete (Some d) ++ freed_of d (taken op a).
Proof.
  intros E T. rewrite !Delete_live, (freed_of_same d d' _ T). rewrite <- !freed_of_app.
  destruct E as [op a Tk P|k v P|k v b rest _ P1 P2|k b _ P]; cbn [taken].
  - rewrite Tk, app_nil_r. by apply freed_of_perm.
  - cbn [app]. apply freed_of_perm. by rewrite P, Permutation_app_comm.
  - rewrite (freed_of_perm d _ _ P2), (freed_of_perm d (_ ++ _) (b :: mkBucket k v :: rest)); [done|].
    rewrite P1. cbn [app]. f_equiv. by rewrite Permutation_app_comm.
  - rewrite app_nil_r. by rewrite (freed_of_perm d _ _ P).
Qed.

(** C28: an item that was inserted is freed exactly once: when it is overwritten, when
    it is removed, or when the table is deleted; an item whose insertion failed is
    not freed. *)
Theorem dict_items_freed_once ops : forall d,
  Dict_Inv ident d -> Forall (op_allowed d) ops -> n_busy d + zlen ops < 2 ^ 64 ->
  exists l d' f, run_ops d ops = Ret (l, d', f) /\
    f ++ SOPC_Dict_Delete (Some d') ≡ₚ
    SOPC_Dict_Delete (Some d) ++ freed_of d (flat_map (fun '(op, a) => taken op a) (zip ops l)).
Proof.
  induction ops as [|op ops IH]; intros d D A B.
  { exists [], d, []. simpl. by rewrite app_nil_r. }
  rewrite zlen_cons in B. pose proof (zlen_nonneg ops). apply Forall_cons in A as [A0 A]. cbn [run_ops].
  destruct (run_op_spec d op D ltac:(lia) A0) as (a & d1 & f & -> & D1 & T1 & B1 & E1). cbn [rbind].
  destruct (IH d1 D1 (Forall_allowed_same _ _ _ T1 A) ltac:(lia)) as (l & d' & g & -> & P). cbn [rbind].
  exists (a :: l), d', (f ++ g). split; [done|]. cbn [zip_with flat_map]. rewrite <- app_assoc, P, freed_of_app.
  rewrite (freed_of_same d d1 _ T1), app_assoc, (effect_freed _ _ _ _ _ E1 T1). by rewrite app_assoc.
Qed.

(** *** Refinement of finite maps *)

Definition entry (b : SOPC_DictBucket) : I * Value := (ident (key b), value b).

Definition abs (d : SOPC_Dict) : gmap I Value := list_to_map (entry <$> live_buckets d).

Definition unique (d : SOPC_Dict) : Prop := NoDup (idents ident d).

(** The operations of the abstract map; an insertion or a reservation may fail, and
    then changes nothing. *)
Inductive map_step (m : gmap I Value) : dict_op -> dict_answer -> gmap I Value -> Prop :=
| StepInsert k v : map_step m (OpInsert k v) (AnsBool true) (<[ident k := v]> m)
| StepInsertFailed k v : map_step m (OpInsert k v) (AnsBool false) m
| StepGet k : map_step m (OpGet k) (AnsValue (default null_value (m !! ident k)) (bool_decide (is_Some (m !! ident k)))) m
| StepRemove k : map_step m (OpRemove k) AnsVoid (delete (ident k) m)
| StepReserve n ok : map_step m (OpReserve n) (AnsBool ok) m
| StepSize : map_step m OpSize (AnsSize (Z.of_nat (base.size m))) m.

Inductive map_steps (m : gmap I Value) : list dict_op -> list dict_answer -> gmap I Value -> Prop :=
| StepsNil : map_steps m [] [] m
| StepsCons op a m1 ops l m2 : map_step m op a m1 -> map_steps m1 ops l m2 -> map_steps m (op :: ops) (a :: l) m2.

(** The discipline under which the table is a map, in terms of the map only: when a
    tombstone was set, a key that is present is not inserted again. *)
Fixpoint disciplined (removals : Prop) (m : gmap I Value) (ops : list dict_op) : Prop :=
  match ops with
  | [] => True
  | op :: ops =>
      match op with OpInsert k _ => removals -> m !! ident k = None | _ => True end /\
      forall a m', map_step m op a m' -> disciplined removals m' ops
  end.

Lemma entry_idents bs : (entry <$> bs).*1 = ident ∘ key <$> bs.
Proof. rewrite <- list_fmap_compose. done. Qed.

Lemma abs_lookup d k : unique d ->
  (ident k ∉ idents ident d -> abs d !! ident k = None) /\
  (forall b, b ∈ live_buckets d -> ident (key b) = ident k -> abs d !! ident k = Some (value b)).
Proof.
  intros U. unfold abs. split.
  - intros Nin. apply not_elem_of_list_to_map_1. by rewrite entry_idents.
  - intros b Hb Ei. apply elem_of_list_to_map_1; [by rewrite entry_idents|]. rewrite <- Ei. by apply (list_elem_of_fmap_2 entry).
Qed.

Lemma abs_perm d d' : unique d -> live_buckets d' ≡ₚ live_buckets d -> unique d' /\ abs d' = abs d.
Proof.
  intros U P. assert (unique d') as U' by (unfold unique, idents in *; by rewrite P). split; [done|].
  unfold abs. apply list_to_map_proper; [by rewrite entry_idents|by rewrite P].
Qed.

Lemma abs_cons d b bs : live_buckets d ≡ₚ b :: bs -> ident (key b) ∉ ((ident ∘ key) <$> bs) -> NoDup ((ident ∘ key) <$> bs) ->
  unique d /\ abs d = <[ident (key b) := value b]> (list_to_map (entry <$> bs)).
Proof.
  intros P Nin N. assert (unique d) as U by (unfold unique, idents; rewrite P; by apply NoDup_cons). split; [done|].
  unfold abs. rewrite (list_to_map_proper _ (entry <$> (b :: bs))); [done|by rewrite entry_idents|by rewrite P].
Qed.

Lemma unique_cons d b bs : unique d -> live_buckets d ≡ₚ b :: bs ->
  (ident (key b) ∉ ((ident ∘ key) <$> bs)) /\ NoDup ((ident ∘ key) <$> bs).
Proof. intros U P. unfold unique, idents in U. rewrite P in U. by apply NoDup_cons in U. Qed.

Lemma insert_refines d k v : Dict_Inv ident d -> n_busy d + 1 < 2 ^ 64 -> usable d k -> unique d ->
  (no_tombstone d \/ abs d !! ident k = None) ->
  exists ok d' f, SOPC_Dict_Insert (Some d) k v = Ret (ok, Some d', f) /\ Dict_Inv ident d' /\ same_table d d' /\ n_busy d' <= n_busy d + 1 /\
    unique d' /\ abs d' = if ok then <[ident k := v]> (abs d) else abs d.
Proof.
  intros D B U Un C. destruct (Insert_spec ident d k v D B U) as (ok & d' & f & E & D' & T & B' & _ & F & G).
  exists ok, d', f. do 4 (split; [done|]). destruct ok; [|by destruct (F eq_refl) as [-> _]].
  destruct (G eq_refl) as [(_ & P & Nin)|(b & rest & Ei & P1 & P2 & _)].
  - apply (abs_cons d' (mkBucket k v)); [done| |done]. destruct C as [NT|C]; [by apply Nin|]. intros (b & Ei & Hb)%list_elem_of_fmap.
    by rewrite (proj2 (abs_lookup d k Un) b Hb) in C.
  - destruct (unique_cons _ _ _ Un P1) as [N1 N2]. destruct (abs_cons d b rest P1 N1 N2) as [_ ->]. rewrite Ei in *.
    rewrite insert_insert_eq. by apply (abs_cons d' (mkBucket k v)).
Qed.

Lemma remove_refines d k : Dict_Inv ident d -> n_busy d + 1 < 2 ^ 64 -> usable d k -> empty_key d <> tombstone_key d -> unique d ->
  exists d' f, SOPC_Dict_Remove (Some d) k = Ret (Some d', f) /\ Dict_Inv ident d' /\ same_table d d' /\ n_busy d' <= n_busy d /\
    unique d' /\ abs d' = delete (ident k) (abs d).
Proof.
  intros D B U Ne Un. destruct (Remove_spec ident d k D B U Ne) as (d' & f & E & D' & T & B' & X).
  exists d', f. do 4 (split; [done|]). destruct X as [(_ & -> & Nin)|(b & Ei & P & _)].
  - split; [done|]. symmetry. apply delete_id. by apply abs_lookup.
  - destruct (unique_cons _ _ _ Un P) as [N1 N2]. split; [done|]. destruct (abs_cons d b _ P N1 N2) as [_ ->]. rewrite Ei in *.
    rewrite delete_insert_id; [done|]. apply not_elem_of_list_to_map_1. by rewrite entry_idents.
Qed.

Lemma abs_size d : unique d -> base.size (abs d) = length (live_buckets d).
Proof.
  intros U. unfold abs. rewrite <- (length_fmap entry). rewrite <- length_map_to_list. apply Permutation_length, map_to_list_to_map. by rewrite entry_idents.
Qed.

Lemma run_op_refines d op m : Dict_Inv ident d -> unique d -> abs d = m -> n_busy d + 1 < 2 ^ 64 -> op_allowed d op ->
  (match op with OpInsert k _ => empty_key d <> tombstone_key d -> m !! ident k = None | _ => True end) ->
  exists a d' f m', run_op d op = Ret (a, d', f) /\ map_step m op a m' /\
    Dict_Inv ident d' /\ same_table d d' /\ n_busy d' <= n_busy d + 1 /\ unique d' /\ abs d' = m'.
Proof.
  intros D U <- B A C. pose proof (inv_busy ident d D). destruct op as [k v|k|k|n|]; cbn [run_op op_allowed] in *.
  - assert (no_tombstone d \/ abs d !! ident k = None) as Q.
    { destruct (decide (empty_key d = tombstone_key d)) as [E|E]; [left|right; auto]. apply Forall_forall. intros b _ ->. done. }
    destruct (insert_refines d k v D B A U Q) as (ok & d' & f & -> & D' & T & B' & U' & E). cbn [rbind deref].
    eexists _, d', f, (abs d'). split; [done|]. split; [rewrite E; destruct ok; constructor|done].
  - destruct (abs_lookup d k U) as [L1 L2].
    destruct (Get_spec d k D A) as [[-> Nin]|(b & -> & Hb & Ei)]; cbn [rbind]; eexists _, d, [], (abs d);
      (split; [done|]); (split; [|split_and!; try done; lia]).
    + pose proof (StepGet (abs d) k) as Q. by rewrite (L1 Nin) in Q.
    + pose proof (StepGet (abs d) k) as Q. by rewrite (L2 b Hb Ei) in Q.
  - destruct A as [Uk Ne]. destruct (remove_refines d k D B Uk Ne U) as (d' & f & -> & D' & T & B' & U' & E). cbn [rbind deref].
    eexists _, d', f, (abs d'). split; [done|]. split; [rewrite E; constructor|]. split_and!; try done. lia.
  - destruct (Reserve_spec d n D A) as (ok & d' & -> & (D' & T & B' & P & _) & _). cbn [rbind deref].
    destruct (abs_perm d d' U P) as [U' E]. eexists _, d', [], (abs d'). split; [done|]. split; [rewrite E; constructor|]. split_and!; try done. lia.
  - eexists _, d, [], (abs d). split; [done|]. split; [|split_and!; try done; lia].
    pose proof (StepSize (abs d)) as Q. unfold SOPC_Dict_Size. by rewrite (inv_items ident d D), abs_size in * by done.
Qed.

Lemma run_ops_refine ops : forall d,
  Dict_Inv ident d -> unique d -> Forall (op_allowed d) ops -> n_busy d + zlen ops < 2 ^ 64 ->
  disciplined (empty_key d <> tombstone_key d) (abs d) ops ->
  exists l d' f, run_ops d ops = Ret (l, d', f) /\ map_steps (abs d) ops l (abs d') /\ Dict_Inv ident d' /\ unique d' /\ same_table d d'.
Proof.
  induction ops as [|op ops IH]; intros d D U A B C; [exists [], d, []; split_and!; try done; apply StepsNil|].
  rewrite zlen_cons in B. pose proof (zlen_nonneg ops). apply Forall_cons in A as [A0 A]. destruct C as [C0 C]. cbn [run_ops].
  destruct (run_op_refines d op (abs d) D U eq_refl ltac:(lia) A0 C0) as (a & d1 & f & m1 & -> & St & D1 & T1 & B1 & U1 & E1). cbn [rbind].
  destruct (IH d1 D1 U1 (Forall_allowed_same _ _ _ T1 A) ltac:(lia)) as (l & d' & g & -> & Sts & D' & U' & T').
  { rewrite E1. pose proof T1 as (-> & -> & _). by eapply C. }
  cbn [rbind]. exists (a :: l), d', (f ++ g). split_and!; try done; [subst m1; by eapply StepsCons|by eapply same_trans].
Qed.

(** C13: a table refines a finite map from the identities of the keys to the values:
    the answers to a sequence of calls are answers of the map, provided that, when
    removals are enabled, a key that is present is not inserted again. *)
Theorem dict_refines_map ops : forall d,
  Dict_Inv ident d -> unique d -> Forall (op_allowed d) ops -> n_busy d + zlen ops < 2 ^ 64 ->
  disciplined (empty_key d <> tombstone_key d) (abs d) ops ->
  exists l d' f, run_ops d ops = Ret (l, d', f) /\ map_steps (abs d) ops l (abs d') /\ Dict_Inv ident d' /\ unique d'.
Proof. intros d D U A B C. destruct (run_ops_refine ops d D U A B C) as (l & d' & f & R & St & D' & U' & _). by exists l, d', f. Qed.

Lemma fresh_table empty tombstone key_hash key_equal kf vf bs :
  (forall a b, key_equal a b = bool_decide (ident a = ident b)) -> (forall a b, ident a = ident b -> key_hash a = key_hash b) ->
  new_buckets DICT_INITIAL_SIZE empty = Some bs ->
  let d := mkDict bs DICT_INITIAL_SIZE (DICT_INITIAL_SIZE - 1) 0 0 empty tombstone key_hash key_equal kf vf in
  Dict_Inv ident d /\ unique d /\ abs d = ∅.
Proof.
  intros HE HH Eb d. apply new_buckets_spec in Eb as (Lb & Fb & _); [|done]. assert (keyed ident d) as K by (by split).
  destruct (fresh_inv ident d 4 bs K ltac:(lia) ltac:(lia) Lb Fb eq_refl eq_refl) as (D & E & _).
  change (set_buckets d bs 0 0) with d in *. unfold unique, idents, abs. rewrite E. split_and!; [done|constructor|done].
Qed.

(** A table that was created is the empty map, with the given functions; its
    creation fails only when memory is refused. *)
Theorem dict_create_empty empty key_hash key_equal kf vf tombstone :
  (forall a b, key_equal a b = bool_decide (ident a = ident b)) -> (forall a b, ident a = ident b -> key_hash a = key_hash b) ->
  match SOPC_Dict_Create empty key_hash key_equal kf vf with
  | Some d => Dict_Inv ident d /\ unique d /\ abs d = ∅ /\ SOPC_Dict_Size d = 0 /\ SOPC_Dict_Capacity d = 8 /\ SOPC_Dict_ForEach d = [] /\
      (empty <> tombstone -> exists d', SOPC_Dict_SetTombstoneKey (Some d) tombstone = Ret (Some d') /\
         Dict_Inv ident d' /\ unique d' /\ abs d' = ∅ /\ tombstone_key d' = tombstone /\ empty_key d' = empty)
  | NULL => alloc_ok sizeof_dict = false \/ alloc_ok (DICT_INITIAL_SIZE * sizeof_bucket) = false
  end.
Proof.
  intros HE HH. unfold SOPC_Dict_Create. destruct (alloc_ok sizeof_dict) eqn:A1; [|by left].
  destruct (new_buckets DICT_INITIAL_SIZE empty) as [bs|] eqn:Eb.
  2:{ right. unfold new_buckets in Eb. change (_ <=? SIZE_MAX) with true in Eb. cbn [andb] in Eb. by destruct (alloc_ok (DICT_INITIAL_SIZE * sizeof_bucket)). }
  pose proof (fun t => fresh_table empty t key_hash key_equal kf vf bs HE HH Eb) as X. cbv zeta in X.
  apply new_buckets_spec in Eb as (Lb & Fb & _); [|done].
  destruct (X empty) as (D & U & E). split_and!; try done.
  - unfold SOPC_Dict_ForEach. cbn [buckets empty_key]. clear -Fb. induction Fb as [|b bs Hb _ IH]; [done|].
    cbn [flat_map]. rewrite key_is_spec, Hb, bool_decide_true by done. done.
  - intros Ne. unfold SOPC_Dict_SetTombstoneKey. cbn [empty_key n_busy]. rewrite key_is_spec, bool_decide_false by done. cbn [negb].
    eexists. split; [done|]. destruct (X tombstone) as (D' & U' & E'). done.
Qed.

(** C27: whatever the table holds, as long as less than half of its buckets hold an
    item, the insertion of a new key ends at a bucket: the quadratic probing visits at
    least half of the table, also when every other bucket is a tombstone. *)
Theorem insert_finds_bucket d k v overwrite : Dict_Inv ident d -> 2 * (n_items d + 1) <= size d -> n_busy d + 1 < 2 ^ 64 -> usable d k ->
  exists d' f, insert_item d (hash_func d k) k v overwrite = Ret (true, d', f) /\ mkBucket k v ∈ live_buckets d'.
Proof.
  intros D L B U. destruct (insert_item_spec ident d k v overwrite D L B U) as (d' & f & E & _ & _ & _ & _ & _ & X).
  exists d', f. split; [done|]. destruct X as [(_ & -> & _)|[_ (b & rest & _ & _ & -> & _)]]; by apply list_elem_of_here.
Qed.

End Properties.

(** C30: the computation of the size of a table ends with the smallest power of two,
    from the initial size, that holds twice the items.  It does not end for some
    numbers of items above [2^62], whatever the number of iterations allowed. *)
Theorem minimum_dict_size_terminates n a : 0 <= a <= 63 ->
  (0 <= n <= 2 ^ 62 -> exists m, minimum_dict_size (2 ^ a) n = Ret (2 ^ m) /\ a <= m <= 63 /\ 2 * n <= 2 ^ m /\
     (a < m -> 2 ^ (m - 1) < 2 * n)) /\
  (2 ^ 62 < n < 2 ^ 63 -> forall fuel, minimum_loop fuel (2 ^ a) n = Fault OutOfFuel).
Proof.
  intros Ha. split; [intros; by apply minimum_dict_size_spec|]. intros Hn fuel.
  assert (forall f, minimum_loop f 0 n = Fault OutOfFuel) as Z0.
  { induction f as [|f IH]; [done|]. cbn [minimum_loop]. rewrite u64_small by lia. replace (0 <? 2 * n) with true by lia. exact IH. }
  revert a Ha. induction fuel as [|fuel IH]; intros a Ha; [done|]. cbn [minimum_loop]. rewrite u64_small by lia.
  pose proof (Z.pow_le_mono_r 2 a 63 ltac:(lia) ltac:(lia)). replace (2 ^ a <? 2 * n) with true by lia.
  destruct (decide (a = 63)) as [-> |]; [apply Z0|]. replace (2 ^ a * 2) with (2 ^ (a + 1)) by (rewrite Z.pow_add_r; lia).
  pose proof (Z.pow_le_mono_r 2 (a + 1) 63 ltac:(lia) ltac:(lia)). pose proof (Z.pow_pos_nonneg 2 (a + 1) ltac:(lia) ltac:(lia)).
  rewrite u64_small by lia. apply IH. lia.
Qed.

(** ** Examples

    Keys and values are integers, a key is its own hash. *)

Section Demo.
Definition demo_stored : Stored := {| Key := Z; Value := Z; Free_Fct := unit; null_key := 0; null_value := 0 |}.
#[local] Existing Instance demo_stored.
#[local] Existing Instance serving_allocator.

Definition demo_ident : Key -> Z := fun k => k.

(** A table with a tombstone. *)
Definition demo_dict : SOPC_Dict :=
  mkDict (replicate 16 (mkBucket 0 0)) 16 15 0 0 0 (-2) demo_ident Z.eqb (Some tt) NULL.

Definition demo_ops : list dict_op :=
  [OpInsert 1 10; OpInsert 17 20; OpGet 17; OpRemove 1; OpGet 1; OpSize; OpReserve 100].

Lemma demo_dict_inv : Dict_Inv demo_ident demo_dict /\ unique demo_ident demo_dict /\ abs demo_ident demo_dict = ∅.
Proof.
  assert (forall a b : Z, Z.eqb a b = bool_decide (demo_ident a = demo_ident b)) as E
    by (intros; case_bool_decide as E; [by apply Z.eqb_eq|by apply Z.eqb_neq]).
  assert (forall a b : Z, demo_ident a = demo_ident b -> a = b) as Hh by done.
  destruct (fresh_inv demo_ident demo_dict 4 (buckets demo_dict)) as (D & L & _); try done; try lia.
  { by apply Forall_replicate. }
  change (set_buckets demo_dict (buckets demo_dict) 0 0) with demo_dict in *.
  unfold unique, idents, abs. rewrite L. split_and!; [done|constructor|done].
Qed.

(** In a table with removals, a key that is inserted twice may be stored twice,
    since the second insertion takes the first tombstone of its path: the size
    counts it twice, and a removal leaves the first value in place.  The iteration
    shows the tombstone to its caller. *)
Theorem reinserted_key_survives_removal :
  exists d f, run_ops demo_dict [OpInsert 1 10; OpInsert 17 20; OpRemove 1; OpInsert 17 30; OpSize; OpRemove 17; OpGet 17] =
    Ret ([AnsBool true; AnsBool true; AnsVoid; AnsBool true; AnsSize 2; AnsVoid; AnsValue 20 true], d, f) /\
  SOPC_Dict_ForEach d = [(-2, 0); (17, 20)].
Proof. eexists _, _. split; vm_compute; reflexivity. Qed.

Lemma demo_allowed : Forall (op_allowed demo_dict) demo_ops.
Proof. repeat constructor; vm_compute; discriminate. Qed.

Lemma demo_disciplined : disciplined demo_ident (empty_key demo_dict <> tombstone_key demo_dict) (abs demo_ident demo_dict) demo_ops.
Proof.
  destruct demo_dict_inv as (_ & _ & ->). cbn [disciplined demo_ops].
  repeat (split; [try done|]; intros ?? St; inversion St; subst; clear St); done.
Qed.

Lemma dict_ops_preserve_invariant_witness :
  exists l d' f, run_ops demo_dict demo_ops = Ret (l, d', f) /\ length l = 7%nat /\ Dict_Inv demo_ident d' /\ same_table demo_dict d'.
Proof. apply (dict_ops_preserve_invariant demo_ident demo_ops demo_dict); [apply demo_dict_inv|apply demo_allowed|done]. Defined.

Lemma dict_items_freed_once_witness :
  exists l d' f, run_ops demo_dict demo_ops = Ret (l, d', f) /\
    f ++ SOPC_Dict_Delete (Some d') ≡ₚ
    SOPC_Dict_Delete (Some demo_dict) ++ freed_of demo_dict (flat_map (fun '(op, a) => taken op a) (zip demo_ops l)).
Proof. apply (dict_items_freed_once demo_ident demo_ops demo_dict); [apply demo_dict_inv|apply demo_allowed|done]. Defined.

Lemma dict_refines_map_witness :
  exists l d' f, run_ops demo_dict demo_ops = Ret (l, d', f) /\
    map_steps demo_ident (abs demo_ident demo_dict) demo_ops l (abs demo_ident d') /\ Dict_Inv demo_ident d' /\ unique demo_ident d'.
Proof.
  apply (dict_refines_map demo_ident demo_ops demo_dict);
    [apply demo_dict_inv|apply demo_dict_inv|apply demo_allowed|done|apply demo_disciplined].
Defined.

Definition demo_created : SOPC_Dict :=
  mkDict (replicate 16 (mkBucket 0 0)) 16 15 0 0 0 0 demo_ident Z.eqb NULL NULL.

Lemma dict_create_empty_witness :
  match SOPC_Dict_Create 0 demo_ident Z.eqb NULL NULL with
  | Some d => SOPC_Dict_Size d = 0 /\ abs demo_ident d = ∅
  | NULL => False
  end.
Proof.
  assert (forall a b : Z, Z.eqb a b = bool_decide (demo_ident a = demo_ident b)) as E
    by (intros; case_bool_decide as E; [by apply Z.eqb_eq|by apply Z.eqb_neq]).
  pose proof (dict_create_empty demo_ident 0 demo_ident Z.eqb NULL NULL (-2) E ltac:(done)) as P.
  assert (SOPC_Dict_Create (0 : Key) demo_ident Z.eqb NULL NULL = Some demo_created) as C by (vm_compute; reflexivity).
  rewrite C in P |- *.
  destruct P as (_ & _ & P1 & P2 & _). split; [exact P2|exact P1].
Defined.

Lemma insert_finds_bucket_witness :
  exists d' f, insert_item demo_dict 33 33 5 true = Ret (true, d', f) /\ mkBucket 33 5 ∈ live_buckets d'.
Proof. apply (insert_finds_bucket demo_ident demo_dict 33 5 true); [apply demo_dict_inv|done|done|done]. Defined.

Lemma minimum_dict_size_terminates_witness :
  exists m, minimum_dict_size 16 100 = Ret (2 ^ m) /\ 4 <= m <= 63 /\ 2 * 100 <= 2 ^ m /\ (4 < m -> 2 ^ (m - 1) < 2 * 100).
Proof. refine (proj1 (minimum_dict_size_terminates 100 4 _) _); lia. Defined.

End Demo.
