(* ===== verification/NodeIds.v ===== *)
(** * Identifiers: copy, comparison, hash, texts

    Model of the functions of [src/src/Common/opcua_types/sopc_builtintypes.c] that copy,
    compare, hash, print and parse Guid, NodeId, ExpandedNodeId and QualifiedName, and of
    the hash table whose keys are node identifiers.

    A function that compares two objects receives [same], which tells whether the two
    pointers are equal.  A text that is parsed is a block that holds a null character. *)

From Stdlib Require Import ZArith Lia.
From Stdlib Require Import Strings.Byte.
From stdpp Require Import prelude.
From S2P Require Import Prelude Common Buffer Codec EncScalar EncString Strings EncNodeId EncText EncVariant Dict.

Open Scope Z_scope.

(** ** Scalars *)

(** The text of the functions [CopyAux] and [CompareAux] of the integer types. *)
Definition scalar_copy (dest src : ptr Z) : SOPC_ReturnStatus * ptr Z :=
  match dest, src with
  | Some _, Some s => (SOPC_STATUS_OK, Some s)
  | _, _ => (SOPC_STATUS_INVALID_PARAMETERS, dest)
  end.

Definition scalar_compare (left right comparison : ptr Z) : SOPC_ReturnStatus * ptr Z :=
  match left, right, comparison with
  | Some l, Some r, Some _ => (SOPC_STATUS_OK, Some (sign_of l r))
  | _, _, _ => (SOPC_STATUS_INVALID_PARAMETERS, comparison)
  end.

Definition SOPC_SByte_CopyAux : ptr Z -> ptr Z -> SOPC_ReturnStatus * ptr Z := scalar_copy.
Definition SOPC_Byte_CopyAux : ptr Z -> ptr Z -> SOPC_ReturnStatus * ptr Z := scalar_copy.
Definition SOPC_Int16_CopyAux : ptr Z -> ptr Z -> SOPC_ReturnStatus * ptr Z := scalar_copy.
Definition SOPC_UInt16_CopyAux : ptr Z -> ptr Z -> SOPC_ReturnStatus * ptr Z := scalar_copy.
Definition SOPC_Int32_CopyAux : ptr Z -> ptr Z -> SOPC_ReturnStatus * ptr Z := scalar_copy.
Definition SOPC_UInt32_CopyAux : ptr Z -> ptr Z -> SOPC_ReturnStatus * ptr Z := scalar_copy.
Definition SOPC_Int64_CopyAux : ptr Z -> ptr Z -> SOPC_ReturnStatus * ptr Z := scalar_copy.
Definition SOPC_UInt64_CopyAux : ptr Z -> ptr Z -> SOPC_ReturnStatus * ptr Z := scalar_copy.
Definition SOPC_DateTime_CopyAux : ptr Z -> ptr Z -> SOPC_ReturnStatus * ptr Z := scalar_copy.
Definition SOPC_StatusCode_CopyAux : ptr Z -> ptr Z -> SOPC_ReturnStatus * ptr Z := scalar_copy.

Definition SOPC_SByte_CompareAux : ptr Z -> ptr Z -> ptr Z -> SOPC_ReturnStatus * ptr Z := scalar_compare.
Definition SOPC_Byte_CompareAux : ptr Z -> ptr Z -> ptr Z -> SOPC_ReturnStatus * ptr Z := scalar_compare.
Definition SOPC_Int16_CompareAux : ptr Z -> ptr Z -> ptr Z -> SOPC_ReturnStatus * ptr Z := scalar_compare.
Definition SOPC_UInt16_CompareAux : ptr Z -> ptr Z -> ptr Z -> SOPC_ReturnStatus * ptr Z := scalar_compare.
Definition SOPC_Int32_CompareAux : ptr Z -> ptr Z -> ptr Z -> SOPC_ReturnStatus * ptr Z := scalar_compare.
Definition SOPC_UInt32_CompareAux : ptr Z -> ptr Z -> ptr Z -> SOPC_ReturnStatus * ptr Z := scalar_compare.
Definition SOPC_Int64_CompareAux : ptr Z -> ptr Z -> ptr Z -> SOPC_ReturnStatus * ptr Z := scalar_compare.
Definition SOPC_UInt64_CompareAux : ptr Z -> ptr Z -> ptr Z -> SOPC_ReturnStatus * ptr Z := scalar_compare.
Definition SOPC_DateTime_Compare : ptr Z -> ptr Z -> ptr Z -> SOPC_ReturnStatus * ptr Z := scalar_compare.
Definition SOPC_StatusCode_CompareAux : ptr Z -> ptr Z -> ptr Z -> SOPC_ReturnStatus * ptr Z := scalar_compare.

(** ** The C library *)

(** The characters that precede the null character. *)
Fixpoint c_text (s : block) : res block :=
  match s with
  | [] => Fault OutOfBounds
  | c :: s => if is_nul c then Ret [] else let* t := c_text s in Ret (c :: t)
  end.

(** The offset of the first [c], which is not the null character, in a string. *)
Fixpoint strchr (s : block) (c : byte) : res (option Z) :=
  match s with
  | [] => Fault OutOfBounds
  | x :: s =>
      if bool_decide (x = c) then Ret (Some 0)
      else if is_nul x then Ret None
      else let* o := strchr s c in Ret (option_map (Z.add 1) o)
  end.

(** The [n] bytes that [strncpy] writes: those that follow a null character are null. *)
Fixpoint strncpy_bytes (s : block) (n : nat) {struct n} : res block :=
  match n with
  | O => Ret []
  | S n =>
      match s with
      | [] => Fault OutOfBounds
      | c :: s => if is_nul c then Ret (c :: replicate n x00) else let* t := strncpy_bytes s n in Ret (c :: t)
      end
  end.

Definition strncpy (dest src : block) (n : Z) : res block :=
  let* bytes := strncpy_bytes src (Z.to_nat n) in mem_write dest 0 bytes.

(** [sprintf] of a text at an offset of a block, with its null character; the result is
    the length of the text. *)
Definition sprintf (dest : block) (off : Z) (text : block) : res (Z * block) :=
  let* dest := mem_write dest off (text ++ [x00]) in Ret (zlen text, dest).

Definition hex_char (d : Z) : byte := z2b (if d <? 10 then 48 + d else 55 + d).

(** [%0nX] of an integer of [n] hexadecimal digits *)
Fixpoint print_hex (n : nat) (z : Z) : block :=
  match n with O => [] | S n => print_hex n (z / 16) ++ [hex_char (z mod 16)] end.

(** [%u]; ten digits are enough for 32 bits. *)
Fixpoint print_digits (fuel : nat) (z : Z) : block :=
  match fuel with
  | O => []
  | S fuel => (if z <? 10 then [] else print_digits fuel (z / 10)) ++ [z2b (48 + z mod 10)]
  end.

Definition print_unsigned (z : Z) : block := print_digits 10 z.

(** ** Guid *)

Section Ids.
Context `{Allocator} `{Host}.

(** The bytes of the structure in memory. *)
Definition guid_memory (g : SOPC_Guid) : block :=
  int_repr 4 (Data1 g) ++ int_repr 2 (Data2 g) ++ int_repr 2 (Data3 g) ++ Data4 g.

Definition SOPC_Guid_Copy (dest src : ptr SOPC_Guid) : SOPC_ReturnStatus * ptr SOPC_Guid :=
  match dest, src with
  | Some _, Some s => (SOPC_STATUS_OK, Some s)
  | _, _ => (SOPC_STATUS_INVALID_PARAMETERS, dest)
  end.

Definition SOPC_Guid_Compare (left right : ptr SOPC_Guid) (comparison : ptr Z) : SOPC_ReturnStatus * ptr Z :=
  match left, right, comparison with
  | Some l, Some r, Some _ =>
      let c := sign_of (Data1 l) (Data1 r) in
      let c := if c =? 0 then sign_of (Data2 l) (Data2 r) else c in
      let c := if c =? 0 then sign_of (Data3 l) (Data3 r) else c in
      let c := if c =? 0 then memcmp (Data4 l) (Data4 r) else c in
      (SOPC_STATUS_OK, Some c)
  | _, _, _ => (SOPC_STATUS_INVALID_PARAMETERS, comparison)
  end.

Definition SOPC_Guid_Clear (guid : ptr SOPC_Guid) : ptr SOPC_Guid := option_map (fun _ => guid_init) guid.

Definition char_at (s : block) (i : Z) : res byte :=
  let* c := mem_read s i 1 in Ret (default x00 (head c)).

(** One of the two loops over [Data4]: [n] bytes are left, the text of the next one is at
    [pos] and its index is [i]. *)
Fixpoint parse_data4 (n : nat) (pos : Z) (i : nat) (str data4 : block) : res (SOPC_ReturnStatus * block) :=
  match n with
  | O => Ret (SOPC_STATUS_OK, data4)
  | S n =>
      let* c0 := char_at str pos in
      let* c1 := char_at str (pos + 1) in
      let* (status, v) := SOPC_strtouint8_t (Some [c0; c1; x00; x00]) (Some 0) 16 x00 in
      if is_ok status then
        let* v := deref v in
        parse_data4 n (pos + 2) (S i) str (<[i := z2b v]> data4)
      else Ret (status, data4)
  end.

Definition GUID_TEXT_LENGTH : Z := 36.

(** [len != 36 || '-' != str[8] || ...] *)
Definition guid_text_invalid (str : block) (len : Z) : res bool :=
  if negb (len =? GUID_TEXT_LENGTH) then Ret true
  else
    let* c8 := char_at str 8 in
    let* c13 := char_at str 13 in
    let* c18 := char_at str 18 in
    let* c23 := char_at str 23 in
    Ret (negb (bool_decide (c8 = x2d) && bool_decide (c13 = x2d) && bool_decide (c18 = x2d) && bool_decide (c23 = x2d))).

Definition SOPC_Guid_FromCString (guid : ptr SOPC_Guid) (str : ptr block) (len : Z) : res (SOPC_ReturnStatus * ptr SOPC_Guid) :=
  match guid, str with
  | Some g, Some s =>
      let* invalid := guid_text_invalid s len in
      if invalid then Ret (SOPC_STATUS_NOK, guid)
      else
        let* (status, d1) := SOPC_strtouint32_t (Some s) (Some (Data1 g)) 16 x2d in
        let* d1 := deref d1 in
        let* (status, d2) := (if is_ok status then SOPC_strtouint16_t (Some (drop 9 s)) (Some (Data2 g)) 16 x2d else Ret (status, Some (Data2 g))) in
        let* d2 := deref d2 in
        let* (status, d3) := (if is_ok status then SOPC_strtouint16_t (Some (drop 14 s)) (Some (Data3 g)) 16 x2d else Ret (status, Some (Data3 g))) in
        let* d3 := deref d3 in
        let* (status, d4) := (if is_ok status then parse_data4 2 19 0 s (Data4 g) else Ret (status, Data4 g)) in
        let* (status, d4) := (if is_ok status then parse_data4 6 24 2 s d4 else Ret (status, d4)) in
        Ret (status, Some (mkGuid d1 d2 d3 d4))
  | _, _ => Ret (SOPC_STATUS_INVALID_PARAMETERS, guid)
  end.

(** [%02X] of the bytes [Data4[i]], ..., [Data4[i + n - 1]] *)
Fixpoint print_bytes (n : nat) (i : nat) (bs : block) : res block :=
  match n with
  | O => Ret []
  | S n =>
      let* b := match bs !! i with Some b => Ret b | None => Fault OutOfBounds end in
      let* t := print_bytes n (S i) bs in
      Ret (print_hex 2 (b2z b) ++ t)
  end.

Definition guid_text (g : SOPC_Guid) : res block :=
  let* d40 := print_bytes 2 0 (Data4 g) in
  let* d42 := print_bytes 6 2 (Data4 g) in
  Ret ([x67; x3d] ++ print_hex 8 (Data1 g) ++ [x2d] ++ print_hex 4 (Data2 g) ++ [x2d] ++ print_hex 4 (Data3 g)
       ++ [x2d] ++ d40 ++ [x2d] ++ d42).

Definition SOPC_Guid_IntoCString (guid : ptr SOPC_Guid) (dest : ptr block) (off : Z) : res (ptr block) :=
  match guid, dest with
  | Some g, Some d =>
      let* text := guid_text g in
      let* (n, d) := sprintf d off text in
      assert! 0 <? n in
      Ret (Some d)
  | _, _ => Ret dest
  end.

Definition SOPC_Guid_ToCString (guid : ptr SOPC_Guid) : res (ptr block) :=
  match guid with
  | NULL => Ret NULL
  | Some _ =>
      match SOPC_Calloc 39 with
      | NULL => Ret NULL
      | Some result => SOPC_Guid_IntoCString guid (Some result) 0
      end
  end.

(** ** NodeId *)

(** The string of an identifier that is a String or a ByteString, which have the same
    representation. *)
Definition data_Text (d : NodeIdData) : res SOPC_String :=
  match d with
  | DataZero => Ret (mkString 0 false NULL)
  | DataString s | DataBstring s => Ret s
  | _ => Fault UnionPunning
  end.

(** The value of the enumeration. *)
Definition identifier_type (t : SOPC_IdentifierType) : Z :=
  match t with
  | SOPC_IdentifierType_Numeric => 0
  | SOPC_IdentifierType_String => 1
  | SOPC_IdentifierType_Guid => 2
  | SOPC_IdentifierType_ByteString => 3
  end.

Definition SOPC_NodeId_Copy (dest src : ptr SOPC_NodeId) : res (SOPC_ReturnStatus * ptr SOPC_NodeId) :=
  match dest, src with
  | Some _, Some s =>
      let* (status, d) :=
        match IdentifierType s with
        | SOPC_IdentifierType_Numeric =>
            let* n := data_Numeric (NodeIdData_ s) in Ret (SOPC_STATUS_OK, DataNumeric n)
        | SOPC_IdentifierType_String =>
            let* str := data_String (NodeIdData_ s) in
            let* (status, d) := SOPC_String_Copy (SOPC_String_Initialize (Some string_init)) (Some str) in
            let* d := deref d in
            Ret (status, DataString d)
        | SOPC_IdentifierType_Guid =>
            let* g := data_Guid (NodeIdData_ s) in
            if alloc_ok sizeof_Guid then
              let '(status, d) := SOPC_Guid_Copy (Some guid_init) g in Ret (status, DataGuid d)
            else Ret (SOPC_STATUS_OUT_OF_MEMORY, DataGuid NULL)
        | SOPC_IdentifierType_ByteString =>
            let* str := data_Bstring (NodeIdData_ s) in
            let* (status, d) := SOPC_ByteString_Copy (SOPC_ByteString_Initialize (Some string_init)) (Some str) in
            let* d := deref d in
            Ret (status, DataBstring d)
        end in
      let dest := Some (mkNodeId (IdentifierType s) (Namespace s) d) in
      if is_ok status then Ret (status, dest)
      else let* dest := SOPC_NodeId_Clear dest in Ret (status, dest)
  | _, _ => Ret (SOPC_STATUS_INVALID_PARAMETERS, dest)
  end.

Definition SOPC_NodeId_Compare (same : bool) (left right : ptr SOPC_NodeId) (comparison : ptr Z) : res (SOPC_ReturnStatus * ptr Z) :=
  match left, right, comparison with
  | Some l, Some r, Some _ =>
      if same then Ret (SOPC_STATUS_OK, Some 0)
      else if (Namespace l =? Namespace r) && (identifier_type (IdentifierType l) =? identifier_type (IdentifierType r)) then
        match IdentifierType l with
        | SOPC_IdentifierType_Numeric =>
            let* a := data_Numeric (NodeIdData_ l) in
            let* b := data_Numeric (NodeIdData_ r) in
            Ret (SOPC_STATUS_OK, Some (sign_of a b))
        | SOPC_IdentifierType_String =>
            let* a := data_String (NodeIdData_ l) in
            let* b := data_String (NodeIdData_ r) in
            SOPC_String_Compare (Some a) (Some b) false comparison
        | SOPC_IdentifierType_Guid =>
            let* a := data_Guid (NodeIdData_ l) in
            let* b := data_Guid (NodeIdData_ r) in
            match a, b with
            | Some a, Some b => Ret (SOPC_STATUS_OK, Some (memcmp (guid_memory a) (guid_memory b)))
            | _, _ => Ret (SOPC_STATUS_INVALID_PARAMETERS, comparison)
            end
        | SOPC_IdentifierType_ByteString =>
            let* a := data_Bstring (NodeIdData_ l) in
            let* b := data_Bstring (NodeIdData_ r) in
            SOPC_ByteString_Compare (Some a) (Some b) comparison
        end
      else if identifier_type (IdentifierType l) =? identifier_type (IdentifierType r) then
        if Namespace l <? Namespace r then Ret (SOPC_STATUS_OK, Some (-1))
        else if Namespace r <? Namespace l then Ret (SOPC_STATUS_OK, Some 1)
        else Fault AssertFailed
      else if identifier_type (IdentifierType l) <? identifier_type (IdentifierType r) then Ret (SOPC_STATUS_OK, Some (-1))
      else Ret (SOPC_STATUS_OK, Some 1)
  | _, _, _ => Ret (SOPC_STATUS_INVALID_PARAMETERS, comparison)
  end.

Definition SOPC_NodeId_Equal (same : bool) (left right : ptr SOPC_NodeId) : res bool :=
  match left, right with
  | Some _, Some _ => equal_when (SOPC_NodeId_Compare same left right (Some (-1)))
  | _, _ => Ret false
  end.

Definition guid_is_null (g : SOPC_Guid) : bool :=
  (Data1 g =? 0) && (Data2 g =? 0) && (Data3 g =? 0) && forallb is_nul (Data4 g).

Definition SOPC_NodeId_IsNull (nodeId : ptr SOPC_NodeId) : res bool :=
  match nodeId with
  | NULL => Ret true
  | Some n =>
      if negb (Namespace n =? 0) then Ret false
      else
        match IdentifierType n with
        | SOPC_IdentifierType_Numeric => let* v := data_Numeric (NodeIdData_ n) in Ret (v =? 0)
        | SOPC_IdentifierType_ByteString | SOPC_IdentifierType_String =>
            let* s := data_Text (NodeIdData_ n) in Ret (Length s <=? 0)
        | SOPC_IdentifierType_Guid =>
            let* g := data_Guid (NodeIdData_ n) in
            Ret (match g with NULL => true | Some g => guid_is_null g end)
        end
  end.

(** A step of the hash over [n] bytes of the memory [bytes]. *)
Definition hash_bytes (h : Z) (bytes : block) (n : Z) : res Z := SOPC_DJBHash_Step h bytes (Z.to_nat n).

Definition SOPC_NodeId_Hash (nodeId : ptr SOPC_NodeId) : res Z :=
  match nodeId with
  | NULL => Fault AssertFailed
  | Some n =>
      let* h := SOPC_DJBHash (int_repr 4 (identifier_type (IdentifierType n))) 4 in
      let* h := hash_bytes h (int_repr 2 (Namespace n)) 2 in
      match IdentifierType n with
      | SOPC_IdentifierType_Numeric =>
          let* v := data_Numeric (NodeIdData_ n) in hash_bytes h (int_repr 4 v) 4
      | SOPC_IdentifierType_ByteString | SOPC_IdentifierType_String =>
          let* s := data_Text (NodeIdData_ n) in
          if 0 <? Length s then let* d := deref (Data s) in hash_bytes h d (Length s) else Ret h
      | SOPC_IdentifierType_Guid =>
          let* g := data_Guid (NodeIdData_ n) in
          match g with NULL => Ret h | Some g => hash_bytes h (guid_memory g) sizeof_Guid end
      end
  end.

(** *** Texts *)

(** The size of the block of the text. *)
Definition text_max_size (n : SOPC_NodeId) : res Z :=
  let maxSize := if negb (Namespace n =? 0) then 9 else 0 in
  let string_size s := if 0 <? Length s then maxSize + u32 (u32 (Length s) + 3) else maxSize + 3 in
  match IdentifierType n with
  | SOPC_IdentifierType_Numeric => Ret (maxSize + 13)
  | SOPC_IdentifierType_String => let* s := data_String (NodeIdData_ n) in Ret (string_size s)
  | SOPC_IdentifierType_Guid => let* g := data_Guid (NodeIdData_ n) in Ret (if is_null g then maxSize + 3 else maxSize + 39)
  | SOPC_IdentifierType_ByteString => let* s := data_Bstring (NodeIdData_ n) in Ret (string_size s)
  end.

(** [sprintf(&result[res], ...)] and the assertion that something was written *)
Definition print_at (result : block) (off : Z) (text : block) : res block :=
  let* (n, result) := sprintf result off text in
  assert! 0 <? n in
  Ret result.

Definition print_identifier (n : SOPC_NodeId) (result : block) (off : Z) : res block :=
  match IdentifierType n with
  | SOPC_IdentifierType_Numeric =>
      let* v := data_Numeric (NodeIdData_ n) in print_at result off ([x69; x3d] ++ print_unsigned v)
  | SOPC_IdentifierType_String =>
      let* s := data_String (NodeIdData_ n) in
      if 0 <? Length s then
        let* raw := SOPC_String_GetRawCString (Some s) in
        let* raw := deref raw in
        let* text := c_text raw in
        print_at result off ([x73; x3d] ++ text)
      else print_at result off [x73; x3d]
  | SOPC_IdentifierType_Guid =>
      let* g := data_Guid (NodeIdData_ n) in
      match g with
      | Some _ => let* r := SOPC_Guid_IntoCString g (Some result) off in deref r
      | NULL => print_at result off [x67; x3d]
      end
  | SOPC_IdentifierType_ByteString =>
      let* s := data_Bstring (NodeIdData_ n) in
      if 0 <? Length s then
        let* result := mem_write result off [x62; x3d] in
        let* d := deref (Data s) in
        memcpy result (off + 2) d 0 (Length s)
      else print_at result off [x62; x3d]
  end.

Definition SOPC_NodeId_ToCString (nodeId : ptr SOPC_NodeId) : res (ptr block) :=
  match nodeId with
  | NULL => Ret NULL
  | Some n =>
      let* maxSize := text_max_size n in
      match SOPC_Calloc maxSize with
      | NULL => Ret NULL
      | Some result =>
          let* (off, result) :=
            (if negb (Namespace n =? 0)
             then sprintf result 0 ([x6e; x73; x3d] ++ print_unsigned (Namespace n) ++ [x3b])
             else Ret (0, result)) in
          let* result := print_identifier n result off in
          Ret (Some result)
      end
  end.

(** What the first part of the parser finds: the type, the position that follows it, the
    namespace, the numeric identifier and the Guid that was allocated. *)
Record parsed_nodeid := mkParsed {
  parsed_type : SOPC_IdentifierType;
  parsed_pos : Z;
  parsed_ns : Z;
  parsed_numeric : Z;
  parsed_guid : ptr SOPC_Guid
}.

(** The namespace before a semicolon, and the position of the identifier. *)
Definition parse_namespace (sz : block) : res (SOPC_ReturnStatus * Z * Z) :=
  let* p := strchr sz x3b in
  match p with
  | Some p =>
      let* start := mem_read sz 0 3 in
      let* (status, ns) :=
        (if negb (memcmp start [x6e; x73; x3d] =? 0) then Ret (SOPC_STATUS_NOK, Some 0)
         else SOPC_strtouint16_t (Some (drop 3 sz)) (Some 0) 10 x3b) in
      let* ns := deref ns in
      Ret (status, ns, p + 1)
  | None => Ret (SOPC_STATUS_OK, 0, 0)
  end.

(** The [switch] on the character that tells the type. *)
Definition parse_type (sz : block) (p ns : Z) : res (SOPC_ReturnStatus * parsed_nodeid) :=
  let* c := char_at sz p in
  let found t g := mkParsed t (p + 2) ns 0 g in
  if bool_decide (c = x69) then
    let* (status, iid) := SOPC_strtouint32_t (Some (drop (Z.to_nat (p + 2)) sz)) (Some 0) 10 x00 in
    let* iid := deref iid in
    Ret (status, mkParsed SOPC_IdentifierType_Numeric (p + 2) ns iid NULL)
  else if bool_decide (c = x73) then Ret (SOPC_STATUS_OK, found SOPC_IdentifierType_String NULL)
  else if bool_decide (c = x67) then
    if alloc_ok sizeof_Guid then Ret (SOPC_STATUS_OK, found SOPC_IdentifierType_Guid (Some guid_init))
    else Ret (SOPC_STATUS_NOK, found SOPC_IdentifierType_Guid NULL)
  else if bool_decide (c = x62) then Ret (SOPC_STATUS_OK, found SOPC_IdentifierType_ByteString NULL)
  else Ret (SOPC_STATUS_NOK, mkParsed SOPC_IdentifierType_Numeric p ns 0 NULL).

Definition parse_text (sz : block) (len : Z) : res (SOPC_ReturnStatus * parsed_nodeid) :=
  let* (status, ns, p) := parse_namespace sz in
  let nothing status := Ret (status, mkParsed SOPC_IdentifierType_Numeric p ns 0 NULL) in
  if negb (is_ok status) then nothing status
  else if len - p <? 2 then nothing SOPC_STATUS_NOK
  else
    let* c := char_at sz (p + 1) in
    if negb (bool_decide (c = x3d)) then nothing SOPC_STATUS_NOK
    else parse_type sz p ns.

(** The second part: the identifier is set. *)
Definition set_identifier (n : SOPC_NodeId) (sz : block) (len : Z) (f : parsed_nodeid) : res (SOPC_ReturnStatus * SOPC_NodeId) :=
  let n := mkNodeId (parsed_type f) (parsed_ns f) (NodeIdData_ n) in
  let p := drop (Z.to_nat (parsed_pos f)) sz in
  match parsed_type f with
  | SOPC_IdentifierType_Numeric => Ret (SOPC_STATUS_OK, set_NodeIdData n (DataNumeric (parsed_numeric f)))
  | SOPC_IdentifierType_String =>
      let* (status, s) := SOPC_String_InitializeFromCString (Some string_init) (Some p) in
      let* s := deref s in
      Ret (status, set_NodeIdData n (DataString s))
  | SOPC_IdentifierType_Guid =>
      let* (status, g) := SOPC_Guid_FromCString (parsed_guid f) (Some p) (u64 (len - parsed_pos f)) in
      Ret (status, if is_ok status then set_NodeIdData n (DataGuid g) else n)
  | SOPC_IdentifierType_ByteString =>
      let* (status, s) := SOPC_ByteString_CopyFromBytes (SOPC_ByteString_Initialize (Some string_init)) (Some p) (len - parsed_pos f) in
      let* s := deref s in
      Ret (status, set_NodeIdData n (DataBstring s))
  end.

Definition SOPC_NodeId_InitializeFromCString (pNid : ptr SOPC_NodeId) (cString : ptr block) (len : Z) : res (SOPC_ReturnStatus * ptr SOPC_NodeId) :=
  match pNid, cString with
  | Some n, Some cString =>
      if len <=? 0 then Ret (SOPC_STATUS_INVALID_PARAMETERS, pNid)
      else
        let* (status, n) :=
          match SOPC_Calloc (len + 1) with
          | NULL => Ret (SOPC_STATUS_OUT_OF_MEMORY, n)
          | Some sz =>
              let* sz := strncpy sz cString len in
              let* (status, f) := parse_text sz len in
              if is_ok status then set_identifier n sz len f else Ret (status, n)
          end in
        if is_ok status then Ret (status, Some n)
        else let* cleared := SOPC_NodeId_Clear (Some n) in Ret (status, cleared)
  | _, _ => Ret (SOPC_STATUS_INVALID_PARAMETERS, pNid)
  end.

Definition SOPC_NodeId_FromCString (cString : ptr block) (len : Z) : res (ptr SOPC_NodeId) :=
  if alloc_ok sizeof_NodeId then
    let pNid := SOPC_NodeId_Initialize (Some nodeid_init) in
    let* (status, pNid) := SOPC_NodeId_InitializeFromCString pNid cString len in
    if is_ok status then Ret pNid else Ret NULL
  else Ret NULL.

(** ** Keys of a hash table *)

Definition nodeid_hash (id : ptr SOPC_NodeId) : res Z := SOPC_NodeId_Hash id.

Definition nodeid_equal (same : bool) (a b : ptr SOPC_NodeId) : res bool :=
  let* (status, cmp) := SOPC_NodeId_Compare same a b (Some 0) in
  assert! is_ok status in
  let* cmp := deref cmp in
  Ret (cmp =? 0).

End Ids.

Section Dictionary.
Context `{Allocator} `{Host}.

(** The memory that holds the identifiers: a key is the address of one of them.  The
    functions of the user that free the values are numbers. *)
Class NodeIdMemory := {
  address : Type;
  #[global] address_eq_dec :: EqDecision address;
  node_at : address -> SOPC_NodeId
}.

Context `{NodeIdMemory}.

Inductive dict_free_fct :=
| nodeid_free
| value_free_fct (f : Z).

#[export] Instance nodeid_keys : Stored := {|
  Key := ptr address;
  Value := ptr Z;
  Free_Fct := dict_free_fct;
  null_key := NULL;
  null_value := NULL
|}.

Definition returned {A} (d : A) (r : res A) : A := match r with Ret a => a | Fault _ => d end.

(** The functions of the keys, which the table only calls on keys that can be
    dereferenced; [nodeid_keys_laws] shows that they return. *)
Definition key_hash (k : ptr address) : Z :=
  match k with Some a => returned 0 (nodeid_hash (Some (node_at a))) | NULL => 0 end.

Definition key_equal (a b : ptr address) : bool :=
  match a, b with
  | Some a, Some b => returned false (nodeid_equal (bool_decide (a = b)) (Some (node_at a)) (Some (node_at b)))
  | NULL, NULL => true
  | _, _ => false
  end.

Definition SOPC_NodeId_Dict_Create (free_keys : bool) (vf : ptr dict_free_fct) : ptr SOPC_Dict :=
  SOPC_Dict_Create NULL key_hash key_equal (if free_keys then Some nodeid_free else NULL) vf.

End Dictionary.

Section Others.
Context `{Allocator} `{Host}.

(** ** ExpandedNodeId *)

Definition SOPC_ExpandedNodeId_Copy (dest src : ptr SOPC_ExpandedNodeId) : res (SOPC_ReturnStatus * ptr SOPC_ExpandedNodeId) :=
  match dest, src with
  | Some d, Some s =>
      let* (status, n) := SOPC_NodeId_Copy (Some (NodeId d)) (Some (NodeId s)) in
      let* n := deref n in
      let* (status, uri) :=
        (if is_ok status then SOPC_String_Copy (Some (NamespaceUri d)) (Some (NamespaceUri s)) else Ret (status, Some (NamespaceUri d))) in
      let* uri := deref uri in
      if is_ok status then Ret (status, Some (mkExpandedNodeId n uri (ServerIndex s)))
      else let* dest := SOPC_ExpandedNodeId_Clear (Some (mkExpandedNodeId n uri (ServerIndex d))) in Ret (status, dest)
  | _, _ => Ret (SOPC_STATUS_INVALID_PARAMETERS, dest)
  end.

(** [status == SOPC_STATUS_OK && *comparison == 0] *)
Definition still_equal (status : SOPC_ReturnStatus) (comparison : ptr Z) : res bool :=
  if is_ok status then let* c := deref comparison in Ret (c =? 0) else Ret false.

Definition SOPC_ExpandedNodeId_Compare (same : bool) (left right : ptr SOPC_ExpandedNodeId) (comparison : ptr Z) : res (SOPC_ReturnStatus * ptr Z) :=
  match left, right, comparison with
  | Some l, Some r, Some _ =>
      let* (status, c) := SOPC_NodeId_Compare same (Some (NodeId l)) (Some (NodeId r)) comparison in
      let* eq := still_equal status c in
      if eq then
        let* (status, c) := SOPC_String_Compare (Some (NamespaceUri l)) (Some (NamespaceUri r)) false c in
        let* eq := still_equal status c in
        if eq then Ret (status, Some (sign_of (ServerIndex l) (ServerIndex r))) else Ret (status, c)
      else Ret (status, c)
  | _, _, _ => Ret (SOPC_STATUS_INVALID_PARAMETERS, comparison)
  end.

(** ** QualifiedName *)

Definition SOPC_QualifiedName_Copy (dest src : ptr SOPC_QualifiedName) : res (SOPC_ReturnStatus * ptr SOPC_QualifiedName) :=
  match dest, src with
  | Some d, Some s =>
      let* (status, name) := SOPC_String_Copy (Some (Name d)) (Some (Name s)) in
      let* name := deref name in
      Ret (status, Some (mkQualifiedName (if is_ok status then NamespaceIndex s else NamespaceIndex d) name))
  | _, _ => Ret (SOPC_STATUS_INVALID_PARAMETERS, dest)
  end.

Definition SOPC_QualifiedName_Compare (left right : ptr SOPC_QualifiedName) (comparison : ptr Z) : res (SOPC_ReturnStatus * ptr Z) :=
  match left, right with
  | Some l, Some r =>
      let* (status, c) := SOPC_String_Compare (Some (Name l)) (Some (Name r)) false comparison in
      let* eq := still_equal status c in
      if eq then Ret (status, Some (sign_of (NamespaceIndex l) (NamespaceIndex r))) else Ret (status, c)
  | _, _ => Ret (SOPC_STATUS_INVALID_PARAMETERS, comparison)
  end.

Definition SOPC_QualifiedName_ParseCString (qname : ptr SOPC_QualifiedName) (str : ptr block) : res (SOPC_ReturnStatus * ptr SOPC_QualifiedName) :=
  match qname, str with
  | Some q, Some s =>
      let* colon := strchr s x3a in
      let* (ns, text) :=
        match colon with
        | None => Ret (0, s)
        | Some colon =>
            let* (status, ns) := SOPC_strtouint16_t (Some s) (Some 0) 10 x3a in
            let* ns := deref ns in
            Ret (ns, if is_ok status then drop (Z.to_nat (colon + 1)) s else s)
        end in
      let* (status, name) := SOPC_String_CopyFromCString (Some (Name q)) (Some text) in
      let* name := deref name in
      Ret (status, Some (mkQualifiedName ns name))
  | _, _ => Ret (SOPC_STATUS_INVALID_PARAMETERS, qname)
  end.

(** ** DiagnosticInfo *)

(** The recursion follows the source, then the destination: a null pointer ends it. *)
Fixpoint diagnostic_copy (dest : ptr SOPC_DiagnosticInfo) (src : SOPC_DiagnosticInfo) : res (SOPC_ReturnStatus * ptr SOPC_DiagnosticInfo) :=
  match dest with
  | NULL => Ret (SOPC_STATUS_INVALID_PARAMETERS, dest)
  | Some d =>
      let* (status, inner) :=
        match InnerDiagnosticInfo src with
        | NULL => Ret (SOPC_STATUS_INVALID_PARAMETERS, InnerDiagnosticInfo d)
        | Some s => diagnostic_copy (InnerDiagnosticInfo d) s
        end in
      let* (status, info) :=
        (if is_ok status then SOPC_String_Copy (Some (AdditionalInfo d)) (Some (AdditionalInfo src)) else Ret (status, Some (AdditionalInfo d))) in
      let* info := deref info in
      if is_ok status
      then Ret (status, Some (mkDiagnosticInfo (SymbolicId src) (Diag_NamespaceUri src) (Locale src) (LocalizedText src) info (InnerStatusCode d) inner))
      else Ret (status, SOPC_DiagnosticInfo_Clear
                          (Some (mkDiagnosticInfo (SymbolicId d) (Diag_NamespaceUri d) (Locale d) (LocalizedText d) info (InnerStatusCode d) inner)))
  end.

Definition SOPC_DiagnosticInfo_Copy (dest src : ptr SOPC_DiagnosticInfo) : res (SOPC_ReturnStatus * ptr SOPC_DiagnosticInfo) :=
  match src with
  | NULL => Ret (SOPC_STATUS_INVALID_PARAMETERS, dest)
  | Some src => diagnostic_copy dest src
  end.

(** The next integers are compared when the previous ones are equal. *)
Definition then_sign (c a b : Z) : Z := if c =? 0 then sign_of a b else c.

Fixpoint diagnostic_compare (left : SOPC_DiagnosticInfo) (right : ptr SOPC_DiagnosticInfo) (comparison : ptr Z) : res (SOPC_ReturnStatus * ptr Z) :=
  match right, comparison with
  | Some r, Some _ =>
      let c := sign_of (Locale left) (Locale r) in
      let c := then_sign c (LocalizedText left) (LocalizedText r) in
      let c := then_sign c (Diag_NamespaceUri left) (Diag_NamespaceUri r) in
      let c := then_sign c (SymbolicId left) (SymbolicId r) in
      let* (status, c) :=
        (if c =? 0 then SOPC_String_Compare (Some (AdditionalInfo left)) (Some (AdditionalInfo r)) false (Some c) else Ret (SOPC_STATUS_OK, Some c)) in
      let* eq := still_equal status c in
      if eq then
        match InnerDiagnosticInfo left with
        | Some l => diagnostic_compare l (InnerDiagnosticInfo r) c
        | NULL => if is_null (InnerDiagnosticInfo r) then Ret (status, Some 0) else Ret (SOPC_STATUS_INVALID_PARAMETERS, c)
        end
      else Ret (status, c)
  | _, _ => Ret (SOPC_STATUS_INVALID_PARAMETERS, comparison)
  end.

Definition SOPC_DiagnosticInfo_Compare (left right : ptr SOPC_DiagnosticInfo) (comparison : ptr Z) : res (SOPC_ReturnStatus * ptr Z) :=
  match left with
  | NULL => Ret (SOPC_STATUS_INVALID_PARAMETERS, comparison)
  | Some l => diagnostic_compare l right comparison
  end.

End Others.
