(* ===== verification/NodeIdsProps.v ===== *)
(** * Properties of the identifiers

    The comparison of node identifiers is a total order, with which their hash agrees,
    so that they are keys of a hash table; copies are equal to what is copied; the
    identifiers that are printed are read back. *)

From Stdlib Require Import ZArith Lia.
From Stdlib Require Import Strings.Byte.
From stdpp Require Import prelude gmap.
From S2P Require Import Prelude Common Buffer Codec EncScalar EncString Strings StringsProps EncNodeId EncText EncVariant Dict DictSpec DictProps NodeIds.

Open Scope Z_scope.

(** ** Lexicographic order *)

Fixpoint lex_sign (a b : list Z) : Z :=
  match a, b with
  | [], [] => 0
  | [], _ => -1
  | _, [] => 1
  | x :: a, y :: b => if x =? y then lex_sign a b else sign_of x y
  end.

Lemma sign_of_cases x y : (x < y /\ sign_of x y = -1) \/ (x = y /\ sign_of x y = 0) \/ (y < x /\ sign_of x y = 1).
Proof. unfold sign_of. destruct (Z.ltb_spec x y), (Z.ltb_spec y x); lia. Qed.

Lemma lex_sign_range a b : -1 <= lex_sign a b <= 1.
Proof.
  revert b. induction a as [|x a IH]; intros [|y b]; cbn; try lia. specialize (IH b).
  pose proof (sign_of_cases x y). destruct (x =? y); lia.
Qed.

Lemma lex_sign_eq a b : lex_sign a b = 0 <-> a = b.
Proof.
  revert b. induction a as [|x a IH]; intros [|y b]; cbn; try done. destruct (Z.eqb_spec x y) as [-> |N].
  - rewrite IH. split; [by intros ->|by intros [= ->]].
  - pose proof (sign_of_cases x y). split; [lia|by intros [= -> _]].
Qed.

Lemma lex_sign_sym a b : lex_sign b a = - lex_sign a b.
Proof.
  revert b. induction a as [|x a IH]; intros [|y b]; cbn; try done. rewrite Z.eqb_sym. destruct (Z.eqb_spec x y) as [-> |N]; [apply IH|].
  pose proof (sign_of_cases x y). pose proof (sign_of_cases y x). lia.
Qed.

Lemma lex_sign_trans a b c : lex_sign a b = -1 -> lex_sign b c = -1 -> lex_sign a c = -1.
Proof.
  revert b c. induction a as [|x a IH]; intros [|y b] [|z c]; cbn; try done.
  pose proof (sign_of_cases x y). pose proof (sign_of_cases y z). pose proof (sign_of_cases x z).
  destruct (Z.eqb_spec x y), (Z.eqb_spec y z), (Z.eqb_spec x z); subst; try lia. apply IH.
Qed.

Lemma memcmp_lex a b : length a = length b -> memcmp a b = lex_sign (map b2z a) (map b2z b).
Proof.
  revert b. induction a as [|x a IH]; intros [|y b] L; try done. cbn. rewrite sign_of_0. destruct (b2z x =? b2z y); [|done]. apply IH. cbn in L. lia.
Qed.

Lemma strcmp_lex a b ra rb : plain_text a -> plain_text b -> length a = length b ->
  strcmp (a ++ x00 :: ra) (b ++ x00 :: rb) = Ret (lex_sign (map b2z a) (map b2z b)).
Proof.
  revert b. induction a as [|x a IH]; intros [|y b] Ha Hb L; try done. apply Forall_cons in Ha as [Hx Ha]. apply Forall_cons in Hb as [Hy Hb].
  cbn. rewrite sign_of_0, Hx. destruct (b2z x =? b2z y); [|done]. apply IH; [done..|]. cbn in L. lia.
Qed.

(** ** The rank of an identifier *)

Section Order.
Context `{Allocator} `{Host}.

Definition text_rank (s : SOPC_String) : list Z := zlen (string_chars s) :: map b2z (string_chars s).

Definition ident_rank (i : ident) : list Z :=
  match i with
  | INumeric n => [n]
  | IString s | IBstring s => text_rank s
  | IGuid g => map b2z (guid_memory g)
  end.

(** The type, the namespace and the identifier; a string counts by its length first. *)
Definition nodeid_rank (n : SOPC_NodeId) : list Z :=
  identifier_type (IdentifierType n) :: Namespace n :: match nodeid_ident n with Some i => ident_rank i | None => [] end.

(** An identifier that can be a key: the strings are those that the toolkit creates. *)
Definition key_wf (n : SOPC_NodeId) : Prop :=
  nodeid_wf n /\ match nodeid_ident n with Some (IString s) => terminated s | _ => True end.

Lemma rank_lengths a b x y : a <> b -> lex_sign (a :: x) (b :: y) = if b <? a then 1 else -1.
Proof. intros N. cbn. replace (a =? b) with false by lia. unfold sign_of. destruct (Z.ltb_spec a b), (Z.ltb_spec b a); lia. Qed.

Lemma String_Compare_lex l r c : terminated l -> terminated r ->
  SOPC_String_Compare (Some l) (Some r) false (Some c) = Ret (SOPC_STATUS_OK, Some (lex_sign (text_rank l) (text_rank r))).
Proof.
  intros Tl Tr. unfold SOPC_String_Compare, text_rank. pose proof (zlen_text l Tl) as Ll. pose proof (zlen_text r Tr) as Lr.
  destruct (decide (Z.max 0 (Length l) = Z.max 0 (Length r))) as [E|N].
  - cbn [lex_sign]. rewrite Ll, Lr, E, Z.eqb_refl. destruct (Z.leb_spec (Length l) 0) as [Nl|Pl], (Z.leb_spec (Length r) 0) as [Nr|Pr]; cbn [andb]; try lia.
    { by rewrite !string_chars_null by lia. }
    replace (Length l =? Length r) with true by lia. cbn [negb].
    destruct (Tl Pl) as (a & ra & Ea & La & Ha), (Tr Pr) as (b & rb & Eb & Lb & Hb).
    rewrite (string_chars_text l a ra), (string_chars_text r b rb), Ea, Eb by done. cbn [deref rbind].
    rewrite strcmp_lex by (try done; unfold zlen in *; lia). done.
  - rewrite rank_lengths by lia. rewrite Ll, Lr. replace ((Length l <=? 0) && (Length r <=? 0)) with false by lia.
    replace (Length l =? Length r) with false by lia.
    destruct (Z.ltb_spec (Length r) (Length l)), (Z.ltb_spec (Z.max 0 (Length r)) (Z.max 0 (Length l))); done || lia.
Qed.

Lemma ByteString_Compare_lex l r c : string_wf l -> string_wf r ->
  SOPC_ByteString_Compare (Some l) (Some r) (Some c) = Ret (SOPC_STATUS_OK, Some (lex_sign (text_rank l) (text_rank r))).
Proof.
  intros Tl Tr. unfold SOPC_ByteString_Compare, text_rank. pose proof (zlen_chars l Tl) as Ll. pose proof (zlen_chars r Tr) as Lr.
  destruct (decide (Z.max 0 (Length l) = Z.max 0 (Length r))) as [E|N].
  - cbn [lex_sign]. rewrite Ll, Lr, E, Z.eqb_refl. destruct (Z.leb_spec (Length l) 0) as [Nl|Pl], (Z.leb_spec (Length r) 0) as [Nr|Pr]; cbn [andb]; try lia.
    { rewrite !string_chars_null by lia. by rewrite orb_true_r. }
    replace (Length l =? Length r) with true by lia. cbn [orb].
    destruct (proj2 Tl Pl) as (a & Ea & La), (proj2 Tr Pr) as (b & Eb & Lb). unfold string_chars. rewrite Ea, Eb. cbn [deref rbind default from_option Datatypes.id].
    rewrite !mem_read_ok by lia. cbn [rbind Z.to_nat]. rewrite !drop_0. replace (Length r) with (Length l) by lia. rewrite memcmp_lex; [done|].
    rewrite !length_take. unfold zlen in *. lia.
  - rewrite rank_lengths by lia. rewrite Ll, Lr. replace ((Length l <=? 0) && (Length r <=? 0)) with false by lia.
    rewrite orb_false_r. replace (Length l =? Length r) with false by lia.
    destruct (Z.ltb_spec (Length r) (Length l)), (Z.ltb_spec (Z.max 0 (Length r)) (Z.max 0 (Length l))); done || lia.
Qed.

Lemma length_guid_memory g : guid_wf g -> length (guid_memory g) = 16%nat.
Proof. intros (_ & _ & _ & L). unfold guid_memory. rewrite !length_app, !length_int_repr. unfold zlen in L. lia. Qed.

Lemma lex_sign_cons x a b : lex_sign (x :: a) (x :: b) = lex_sign a b.
Proof. cbn. by rewrite Z.eqb_refl. Qed.

Lemma NodeId_Compare_rank a b c : key_wf a -> key_wf b ->
  SOPC_NodeId_Compare false (Some a) (Some b) (Some c) = Ret (SOPC_STATUS_OK, Some (lex_sign (nodeid_rank a) (nodeid_rank b))).
Proof.
  intros [(_ & i & Ei & Wi) Ti] [(_ & j & Ej & Wj) Tj]. unfold nodeid_rank. rewrite Ei in Ti |- *. rewrite Ej in Tj |- *.
  unfold SOPC_NodeId_Compare. destruct (Z.eqb_spec (identifier_type (IdentifierType a)) (identifier_type (IdentifierType b))) as [Et|Nt].
  - rewrite Et, lex_sign_cons. destruct (Z.eqb_spec (Namespace a) (Namespace b)) as [En|Nn]; cbn [andb].
    + rewrite En, lex_sign_cons. destruct a as [ta na da], b as [tb nb db]; cbn [IdentifierType NodeIdData_ Namespace] in *.
      destruct ta, tb; try discriminate Et; destruct da; try discriminate Ei; destruct db; try discriminate Ej; cbn in Ei, Ej;
        repeat case_match; simplify_eq; cbn [ident_rank ident_wf data_Numeric data_String data_Guid data_Bstring rbind] in *;
        try (by rewrite String_Compare_lex); try (by rewrite ByteString_Compare_lex);
        try (rewrite memcmp_lex by (by rewrite !length_guid_memory); done).
      all: cbn [lex_sign]; match goal with |- context [sign_of ?x ?y] => pose proof (sign_of_cases x y); destruct (Z.eqb_spec x y); do 3 f_equal; lia end.
    + cbn [lex_sign]. replace (Namespace a =? Namespace b) with false by lia. unfold sign_of.
      destruct (Z.ltb_spec (Namespace a) (Namespace b)), (Z.ltb_spec (Namespace b) (Namespace a)); done || lia.
  - rewrite andb_false_r. cbn [lex_sign]. replace (_ =? _) with false by lia. unfold sign_of.
    repeat match goal with |- context [?x <? ?y] => destruct (Z.ltb_spec x y) end; done || lia.
Qed.

(** The same type, the same namespace and the same number, characters, bytes or Guid. *)
Definition same_ident (i j : ident) : Prop :=
  match i, j with
  | INumeric a, INumeric b => a = b
  | IString s, IString t | IBstring s, IBstring t => string_chars s = string_chars t
  | IGuid g, IGuid h => g = h
  | _, _ => False
  end.

Definition same_nodeid (a b : SOPC_NodeId) : Prop :=
  Namespace a = Namespace b /\
  match nodeid_ident a, nodeid_ident b with Some i, Some j => same_ident i j | _, _ => False end.

Lemma int_repr_inj n a b : in_u (8 * Z.of_nat n) a -> in_u (8 * Z.of_nat n) b -> int_repr n a = int_repr n b -> a = b.
Proof.
  intros Ha Hb E. apply (f_equal int_of_repr) in E. rewrite !int_of_repr_repr in E. unfold in_u in *. by rewrite !Z.mod_small in E.
Qed.

Lemma guid_memory_inj g h : guid_wf g -> guid_wf h -> guid_memory g = guid_memory h -> g = h.
Proof.
  intros (G1 & G2 & G3 & _) (H1 & H2 & H3 & _) E. unfold guid_memory in E.
  apply app_inj_1 in E as [E1 E]; [|by rewrite !length_int_repr]. apply app_inj_1 in E as [E2 E]; [|by rewrite !length_int_repr].
  apply app_inj_1 in E as [E3 E4]; [|by rewrite !length_int_repr].
  apply int_repr_inj in E1, E2, E3; try done. destruct g, h. cbn in *. congruence.
Qed.

Lemma text_rank_eq s t : text_rank s = text_rank t <-> string_chars s = string_chars t.
Proof. unfold text_rank. split; [intros [= _ E]; by apply map_b2z_inj|by intros ->]. Qed.

Lemma ident_type_of n i : nodeid_ident n = Some i -> IdentifierType n = ident_type i.
Proof. destruct n as [[] ns d]; destruct d as [| | |[]|]; cbn; intros; by simplify_eq. Qed.

Lemma rank_eq_same a b : nodeid_wf a -> nodeid_wf b -> nodeid_rank a = nodeid_rank b <-> same_nodeid a b.
Proof.
  intros (_ & i & Ei & Wi) (_ & j & Ej & Wj). unfold nodeid_rank, same_nodeid. rewrite Ei, Ej.
  rewrite (ident_type_of a i Ei), (ident_type_of b j Ej). destruct i, j; cbn [ident_type identifier_type same_ident ident_rank ident_wf] in *;
    (split; [intros [= E1 E2]; try discriminate; try done|intros [-> E]; try done]).
  - by subst.
  - split; [done|]. by apply text_rank_eq; unfold text_rank; f_equal.
  - by rewrite (proj2 (text_rank_eq _ _) E).
  - split; [done|]. apply guid_memory_inj; [done..|]. by apply map_b2z_inj.
  - by rewrite E.
  - split; [done|]. by apply text_rank_eq; unfold text_rank; f_equal.
  - by rewrite (proj2 (text_rank_eq _ _) E).
Qed.

(** The comparison of node identifiers is a total order: it returns on any two
    identifiers, the result changes its sign when they are exchanged, it is zero exactly
    when they are the same (namespace, type, and number, characters, bytes or Guid), and
    it is transitive. *)
Theorem nodeid_order (a b c : SOPC_NodeId) (r : Z) :
  key_wf a -> key_wf b -> key_wf c ->
  exists ab bc ac,
    SOPC_NodeId_Compare false (Some a) (Some b) (Some r) = Ret (SOPC_STATUS_OK, Some ab) /\
    SOPC_NodeId_Compare false (Some b) (Some a) (Some r) = Ret (SOPC_STATUS_OK, Some (- ab)) /\
    SOPC_NodeId_Compare false (Some b) (Some c) (Some r) = Ret (SOPC_STATUS_OK, Some bc) /\
    SOPC_NodeId_Compare false (Some a) (Some c) (Some r) = Ret (SOPC_STATUS_OK, Some ac) /\
    -1 <= ab <= 1 /\ (ab = 0 <-> same_nodeid a b) /\ (ab = -1 -> bc = -1 -> ac = -1).
Proof.
  intros Ha Hb Hc. eexists _, _, _. rewrite !NodeId_Compare_rank by done. rewrite (lex_sign_sym (nodeid_rank a) (nodeid_rank b)).
  split_and!; try reflexivity; try apply lex_sign_range.
  - rewrite lex_sign_eq. apply rank_eq_same; [apply Ha|apply Hb].
  - apply lex_sign_trans.
Qed.

(** ** Hash *)

Definition djb (h : Z) (bs : block) : Z := fold_left (fun h c => u64 (u64 (Z.shiftl h 5) + h + b2z c)) bs h.

Lemma djb_app h a b : djb h (a ++ b) = djb (djb h a) b.
Proof. apply fold_left_app. Qed.

Lemma DJB_take d n h : (n <= length d)%nat -> SOPC_DJBHash_Step h d n = Ret (djb h (take n d)).
Proof. revert d h. induction n as [|n IH]; intros [|c d] h L; cbn in *; try done; try lia. apply IH. lia. Qed.

Lemma hash_all h bs n : n = zlen bs -> hash_bytes h bs n = Ret (djb h bs).
Proof. intros ->. unfold hash_bytes, zlen. rewrite Nat2Z.id, DJB_take by lia. by rewrite firstn_all. Qed.

Definition ident_bytes (i : ident) : block :=
  match i with
  | INumeric n => int_repr 4 n
  | IString s | IBstring s => string_chars s
  | IGuid g => guid_memory g
  end.

Lemma hash_text h s : string_wf s -> (if 0 <? Length s then let* d := deref (Data s) in hash_bytes h d (Length s) else Ret h) = Ret (djb h (string_chars s)).
Proof.
  intros [_ D]. unfold string_chars. destruct (Z.ltb_spec 0 (Length s)) as [P|N].
  - destruct (D P) as (d & -> & L). cbn [deref rbind default from_option Datatypes.id]. unfold hash_bytes. apply DJB_take. unfold zlen in L. lia.
  - by replace (Z.to_nat (Length s)) with O by lia.
Qed.

Lemma NodeId_Hash_bytes n i : nodeid_ident n = Some i -> ident_wf i ->
  SOPC_NodeId_Hash (Some n) =
  Ret (djb 5381 (int_repr 4 (identifier_type (IdentifierType n)) ++ int_repr 2 (Namespace n) ++ ident_bytes i)).
Proof.
  intros Ei Wi. unfold SOPC_NodeId_Hash, SOPC_DJBHash. rewrite DJB_take by (by rewrite length_int_repr). cbn [rbind].
  rewrite take_ge by (by rewrite length_int_repr). rewrite hash_all by (unfold zlen; by rewrite length_int_repr). cbn [rbind].
  rewrite !djb_app.
  destruct n as [t ns d]. cbn [IdentifierType Namespace NodeIdData_] in *.
  destruct t, d; cbn in Ei; repeat case_match; simplify_eq; cbn [ident_wf ident_bytes data_Numeric data_Text data_Guid rbind] in *;
    try (rewrite hash_text by done; done); try (rewrite hash_all by (unfold zlen; by rewrite ?length_int_repr, ?length_guid_memory); done).
Qed.

Lemma same_ident_bytes i j : same_ident i j -> ident_type i = ident_type j /\ ident_bytes i = ident_bytes j.
Proof. destruct i, j; cbn; try done; by intros ->. Qed.

(** Node identifiers can be the keys of a hash table: the functions that the table
    calls return, equal means the same identifier, also when the two pointers are the same,
    and identifiers that are the same have the same hash. *)
Theorem nodeid_keys_laws (a b : SOPC_NodeId) (same : bool) :
  key_wf a -> key_wf b -> (same = true -> a = b) ->
  exists h k, nodeid_hash (Some a) = Ret h /\ nodeid_hash (Some b) = Ret k /\
    (nodeid_equal same (Some a) (Some b) = Ret true /\ same_nodeid a b /\ h = k \/
     nodeid_equal same (Some a) (Some b) = Ret false /\ ~ same_nodeid a b).
Proof.
  intros Ha Hb Hs. pose proof (rank_eq_same a b (proj1 Ha) (proj1 Hb)) as R.
  pose proof Ha as [(_ & i & Ei & Wi) _]. pose proof Hb as [(_ & j & Ej & Wj) _]. unfold nodeid_hash.
  rewrite (NodeId_Hash_bytes a i Ei Wi), (NodeId_Hash_bytes b j Ej Wj). eexists _, _. split; [done|]. split; [done|].
  assert (nodeid_equal same (Some a) (Some b) = Ret (lex_sign (nodeid_rank a) (nodeid_rank b) =? 0)) as ->.
  { unfold nodeid_equal. destruct same.
    - rewrite (Hs eq_refl), (proj2 (lex_sign_eq (nodeid_rank b) _) eq_refl). done.
    - by rewrite NodeId_Compare_rank. }
  destruct (Z.eqb_spec (lex_sign (nodeid_rank a) (nodeid_rank b)) 0) as [E|N]; [left|right]; rewrite lex_sign_eq, R in *; split_and!; try done.
  destruct E as [En E]. rewrite Ei, Ej in E. apply same_ident_bytes in E as [E1 E2].
  by rewrite (ident_type_of a i Ei), (ident_type_of b j Ej), E1, E2, En.
Qed.

End Order.

(** ** The hash table of node identifiers *)

Section Dictionary.
Context `{Allocator} `{Host} `{NodeIdMemory}.

(** What two keys have in common when they are equal. *)
Definition key_rank : Key -> list Z := fun k => match k with Some a => nodeid_rank (node_at a) | NULL => [] end.

Lemma key_functions : (forall a, key_wf (node_at a)) ->
  (forall a b, key_equal a b = bool_decide (key_rank a = key_rank b)) /\ (forall a b, key_rank a = key_rank b -> key_hash a = key_hash b).
Proof.
  intros W. assert (forall a b : address, exists h k, nodeid_hash (Some (node_at a)) = Ret h /\ nodeid_hash (Some (node_at b)) = Ret k /\
    (nodeid_equal (bool_decide (a = b)) (Some (node_at a)) (Some (node_at b)) = Ret true /\ same_nodeid (node_at a) (node_at b) /\ h = k \/
     nodeid_equal (bool_decide (a = b)) (Some (node_at a)) (Some (node_at b)) = Ret false /\ ~ same_nodeid (node_at a) (node_at b))) as L.
  { intros a b. apply nodeid_keys_laws; [apply W..|]. intros E%bool_decide_eq_true. by f_equal. }
  assert (forall a b, nodeid_rank (node_at a) = nodeid_rank (node_at b) <-> same_nodeid (node_at a) (node_at b)) as R by (intros; apply rank_eq_same; apply W).
  split; intros [a|] [b|]; cbn [key_equal key_rank key_hash]; try done; destruct (L a b) as (h & k & Ea & Eb & X); rewrite ?Ea, ?Eb.
  - destruct X as [(-> & S & _)|(-> & S)]; cbn [returned]; symmetry; [apply bool_decide_eq_true|apply bool_decide_eq_false]; by rewrite R.
  - rewrite R. intros S. destruct X as [(_ & _ & ->)|(_ & N)]; [done|by destruct N].
Qed.

Lemma no_removal_disciplined {I} `{Countable I} (ident : Key -> I) (m : gmap I Value) ops (P : Prop) : ~ P -> disciplined ident P m ops.
Proof. intros N. revert m. induction ops as [|op ops IH]; intros m; [done|]. split; [|intros; apply IH]. by destruct op. Qed.

(** C14: a table of node identifiers is a finite map from the identifiers to the values:
    when its creation succeeds it is empty, and the answers to any sequence of insertions
    and searches are those of the map, whatever the addresses of the identifiers; its
    keys are freed with it when this was asked.  The string identifiers hold no null
    character: for those that do, which a decoder accepts, the comparison and the hash
    disagree ([equal_with_different_hashes]). *)
Theorem nodeid_dict_refines_map (free_keys : bool) (vf : ptr dict_free_fct) (ops : list dict_op) (d : SOPC_Dict) :
  (forall a, key_wf (node_at a)) -> SOPC_NodeId_Dict_Create free_keys vf = Some d ->
  Forall (op_allowed d) ops -> zlen ops < 2 ^ 64 ->
  exists l d' f, run_ops d ops = Ret (l, d', f) /\ map_steps key_rank ∅ ops l (abs key_rank d') /\
    key_free d' = (if free_keys then Some nodeid_free else NULL) /\ value_free d' = vf.
Proof.
  intros W E A B. destruct (key_functions W) as [HE HH]. unfold SOPC_NodeId_Dict_Create in E.
  pose proof (dict_create_empty key_rank NULL key_hash key_equal (if free_keys then Some nodeid_free else NULL) vf NULL HE HH) as X.
  rewrite E in X. destruct X as (D & U & Eabs & _).
  assert (d = mkDict (buckets d) (size d) (sizemask d) (n_items d) 0 NULL NULL key_hash key_equal (if free_keys then Some nodeid_free else NULL) vf) as Ed.
  { unfold SOPC_Dict_Create in E. destruct (alloc_ok sizeof_dict); [|done]. destruct (new_buckets _ _); by simplify_eq. }
  destruct (run_ops_refine key_rank ops d) as (l & d' & f & R & St & _ & _ & T); try done.
  { rewrite Ed. cbn [n_busy]. lia. }
  { apply no_removal_disciplined. rewrite Ed. cbn. by intros []. }
  rewrite Eabs in St. exists l, d', f. destruct T as (_ & _ & _ & _ & -> & ->).
  pose proof (f_equal key_free Ed). pose proof (f_equal value_free Ed). done.
Qed.

End Dictionary.

(** ** Copies *)

Section Copies.
Context `{Allocator} `{Host}.

Lemma terminated_copy n b t : plain_text t -> n = zlen t -> terminated (mkString n b (Some (t ++ [x00]))).
Proof. intros P -> _. by exists t, []. Qed.

Lemma chars_plain s : terminated s -> plain_text (string_chars s).
Proof.
  intros T. destruct (Z.ltb_spec 0 (Length s)) as [P|N]; [|rewrite string_chars_null by lia; constructor].
  destruct (T P) as (d & rest & E & L & Hp). by rewrite (string_chars_text s d rest).
Qed.

(** A string that is copied from a terminated one, when there is memory. *)
Lemma String_Copy_terminated dest s : string_wf s -> terminated s -> Data dest = NULL ->
  exists status d, SOPC_String_Copy (Some dest) (Some s) = Ret (status, Some d) /\
    match status with
    | SOPC_STATUS_OK => string_wf d /\ terminated d /\ Length d = Length s /\ string_chars d = string_chars s
    | SOPC_STATUS_OUT_OF_MEMORY => Data d = NULL
    | _ => False
    end.
Proof.
  intros W T N. rewrite String_Copy_exact by done. pose proof (zlen_chars s W) as L. destruct W as [I _].
  destruct (Z.ltb_spec 0 (Length s)) as [P|Np]; [destruct (alloc_ok (Length s + 1))|]; eexists _, _; (split; [reflexivity|]); cbn beta iota; try done.
  - split_and!; [split; [done|]|apply terminated_copy; [by apply chars_plain|lia]|done|apply chars_of_text; lia].
    intros _. eexists. split; [done|]. cbn. rewrite zlen_app. pose proof (zlen_nonneg [x00]). lia.
  - split_and!; [split; [done|cbn; lia]|unfold terminated; cbn; lia|done|]. rewrite !string_chars_null by (cbn; lia). done.
Qed.

Lemma nodeid_data n i : nodeid_ident n = Some i ->
  match i with
  | INumeric v => IdentifierType n = SOPC_IdentifierType_Numeric /\ data_Numeric (NodeIdData_ n) = Ret v
  | IString s => IdentifierType n = SOPC_IdentifierType_String /\ data_String (NodeIdData_ n) = Ret s
  | IGuid g => IdentifierType n = SOPC_IdentifierType_Guid /\ data_Guid (NodeIdData_ n) = Ret (Some g)
  | IBstring s => IdentifierType n = SOPC_IdentifierType_ByteString /\ data_Bstring (NodeIdData_ n) = Ret s
  end.
Proof. destruct n as [[] ns d]; destruct d as [| | |[]|]; cbn; intros; by simplify_eq. Qed.

(** The copy of a node identifier is an identifier of its own that compares as equal with
    it, or, when there is no memory, the null identifier. *)
Lemma NodeId_Copy_same dest n : key_wf n ->
  exists status d, SOPC_NodeId_Copy (Some dest) (Some n) = Ret (status, Some d) /\
    match status with
    | SOPC_STATUS_OK => key_wf d /\ same_nodeid d n
    | SOPC_STATUS_OUT_OF_MEMORY | SOPC_STATUS_NOK => SOPC_NodeId_IsNull (Some d) = Ret true \/ Namespace d = 0 /\ nodeid_sane d
    | _ => False
    end.
Proof.
  intros [(Hn & i & Ei & Wi) Ti]. unfold SOPC_NodeId_Copy, same_nodeid. pose proof (nodeid_data n i Ei) as D. rewrite Ei in Ti |- *.
  destruct i as [v|s|g|s]; destruct D as [-> D]; rewrite D; cbn [rbind ident_wf] in *.
  - eexists _, _. split; [reflexivity|]. cbn. split; [|done]. split; [|done]. split; [done|]. by eexists.
  - destruct (String_Copy_terminated string_init s Wi Ti eq_refl) as (st & d & E & Hd).
    change (SOPC_String_Initialize (Some string_init)) with (Some string_init). rewrite E. cbn [rbind deref].
    destruct st; try done; cbn [is_ok rbind]; eexists _, _; (split; [reflexivity|]); cbn beta iota.
    + destruct Hd as (? & ? & ? & ?). split; [|done]. split; [|done]. split; [done|]. by eexists.
    + right. split; [done|]. by eexists.
  - destruct (alloc_ok sizeof_Guid); cbn [rbind is_ok SOPC_Guid_Copy]; eexists _, _; (split; [reflexivity|]); cbn beta iota.
    + split; [|done]. split; [|done]. split; [done|]. by eexists.
    + right. split; [done|]. by eexists.
  - change (SOPC_ByteString_Initialize (Some string_init)) with (Some string_init). rewrite ByteString_Copy_exact by done.
    pose proof (zlen_chars s Wi) as L. destruct Wi as [I _].
    destruct (Z.ltb_spec 0 (Length s)) as [P|Np]; [destruct (alloc_ok (Length s))|]; cbn [rbind deref is_ok]; eexists _, _; (split; [reflexivity|]); cbn beta iota.
    + split.
      * split; [|done]. split; [done|]. eexists. split; [done|]. split; [done|]. intros _. eexists. split; [done|]. cbn. lia.
      * split; [done|]. cbn. rewrite <- (app_nil_r (string_chars s)) at 1. apply chars_of_text. lia.
    + right. split; [done|]. by eexists.
    + split.
      * split; [|done]. split; [done|]. eexists. split; [done|]. split; [done|]. cbn. lia.
      * split; [done|]. cbn. rewrite !string_chars_null by (cbn; lia). done.
Qed.

(** No diagnostic information can be copied: the recursion on the inner information
    ends on a null pointer, for which the function answers invalid parameters, so that the
    copy fails and the destination is cleared, whatever the information and the memory. *)
Theorem diagnostic_copy_fails (dest src : ptr SOPC_DiagnosticInfo) :
  exists d, SOPC_DiagnosticInfo_Copy dest src = Ret (SOPC_STATUS_INVALID_PARAMETERS, d).
Proof.
  destruct src as [src|]; [|by eexists]. cbn [SOPC_DiagnosticInfo_Copy]. revert dest.
  refine ((fix IH (src : SOPC_DiagnosticInfo) := _) src). destruct src as [a b c e info st inner]. intros [d|]; [|by eexists].
  cbn [diagnostic_copy InnerDiagnosticInfo]. destruct inner as [s|].
  - destruct (IH s (InnerDiagnosticInfo d)) as [x ->]. cbn [rbind is_ok deref]. by eexists.
  - cbn [rbind is_ok deref]. by eexists.
Qed.

End Copies.

(** ** Examples *)

Section Demo.
#[local] Existing Instance serving_allocator.
Definition little_host : Host := {| host_int := IntLittle; host_float := FloatLittle |}.
#[local] Existing Instance little_host.

Definition demo_numeric : SOPC_NodeId := mkNodeId SOPC_IdentifierType_Numeric 1 (DataNumeric 84).
Definition demo_named : SOPC_NodeId := mkNodeId SOPC_IdentifierType_String 1 (DataString (mkString 2 false (Some [x4f; x4b; x00]))).
Definition demo_bytes : SOPC_NodeId := mkNodeId SOPC_IdentifierType_ByteString 1 (DataBstring (mkString 2 false (Some [x00; x4b]))).

Lemma demo_key_wf : key_wf demo_numeric /\ key_wf demo_named /\ key_wf demo_bytes.
Proof.
  split_and!; (split; [split; [by vm_compute|eexists; split; [reflexivity|]]|try done]).
  - by vm_compute.
  - split; [by vm_compute|]. intros _. by eexists.
  - intros _. exists [x4f; x4b], []. split_and!; try done. by repeat constructor.
  - split; [by vm_compute|]. intros _. by eexists.
Qed.

Lemma nodeid_order_witness :
  exists ab, SOPC_NodeId_Compare false (Some demo_numeric) (Some demo_named) (Some 0) = Ret (SOPC_STATUS_OK, Some ab) /\
    SOPC_NodeId_Compare false (Some demo_named) (Some demo_numeric) (Some 0) = Ret (SOPC_STATUS_OK, Some (- ab)) /\ (ab = 0 <-> same_nodeid demo_numeric demo_named).
Proof.
  destruct demo_key_wf as (W1 & W2 & W3). destruct (nodeid_order demo_numeric demo_named demo_bytes 0 W1 W2 W3) as (ab & bc & ac & E1 & E2 & _ & _ & _ & Hz & _).
  exists ab. exact (conj E1 (conj E2 Hz)).
Defined.

(** Two addresses hold the same identifier. *)
Definition demo_memory : NodeIdMemory :=
  {| address := Z; node_at a := if a =? 0 then demo_numeric else if a =? 1 then demo_numeric else demo_named |}.
#[local] Existing Instance demo_memory.

Definition demo_table : SOPC_Dict :=
  mkDict (replicate 16 (mkBucket NULL NULL)) 16 15 0 0 NULL NULL key_hash key_equal (Some nodeid_free) NULL.

Definition demo_calls : list dict_op := [OpInsert (Some 0) (Some 10); OpGet (Some 1); OpGet (Some 2)].

Lemma demo_table_created : SOPC_NodeId_Dict_Create true NULL = Some demo_table.
Proof.
  unfold SOPC_NodeId_Dict_Create, SOPC_Dict_Create. change (alloc_ok sizeof_dict) with true.
  assert (new_buckets DICT_INITIAL_SIZE NULL = Some (replicate 16 (mkBucket NULL NULL))) as -> by (vm_compute; reflexivity). done.
Qed.

Lemma demo_usable (a : Z) : usable demo_table (Some a : Key).
Proof. split; cbn [empty_key tombstone_key demo_table]; done. Qed.

Lemma nodeid_dict_refines_map_witness :
  exists l d' f, run_ops demo_table demo_calls = Ret (l, d', f) /\ map_steps key_rank ∅ demo_calls l (abs key_rank d').
Proof.
  destruct (nodeid_dict_refines_map true NULL demo_calls demo_table) as (l & d' & f & R & St & _).
  - intros a. destruct demo_key_wf as (W1 & W2 & _). cbn. by repeat case_match.
  - apply demo_table_created.
  - repeat (apply Forall_cons; split; [apply demo_usable|]). apply Forall_nil_2.
  - by vm_compute.
  - exact (ex_intro _ l (ex_intro _ d' (ex_intro _ f (conj R St)))).
Defined.

(** The identifier is found at its other address. *)
Example found_elsewhere :
  returned [] (let* (l, _, _) := run_ops demo_table demo_calls in Ret l) = [AnsBool true; AnsValue (Some 10) true; AnsValue NULL false].
Proof. vm_compute. reflexivity. Qed.

(** Two identifiers whose strings differ after a null character are equal for the
    comparison, with different hashes. *)
Example equal_with_different_hashes :
  let id s := Some (mkNodeId SOPC_IdentifierType_String 1 (DataString (mkString 3 false (Some s)))) in
  nodeid_equal false (id [x61; x00; x62; x00]) (id [x61; x00; x63; x00]) = Ret true /\
  nodeid_hash (id [x61; x00; x62; x00]) <> nodeid_hash (id [x61; x00; x63; x00]).
Proof. by vm_compute. Qed.

End Demo.
