(* ===== verification/NodeIdTexts.v ===== *)
(** * Texts of the node identifiers

    What the function that prints an identifier writes, and that the parser reads it
    back. *)

From Stdlib Require Import ZArith Lia.
From Stdlib Require Import Strings.Byte.
From stdpp Require Import prelude.
From S2P Require Import Prelude Common Buffer Codec EncScalar EncString Strings StringsProps EncNodeId EncText EncVariant NodeIds NodeIdsProps.

Open Scope Z_scope.

(** Equality of two ways to cut a text, and lengths of its pieces. *)
Ltac app_solve := match goal with |- ?s = _ => try unfold s | _ => idtac end; repeat progress (rewrite <- ?app_assoc; cbn [app]); reflexivity.
Ltac len_solve := unfold zlen; repeat (rewrite length_app; cbn [length]); lia.

(** ** Numbers in base ten and sixteen *)

Definition number_base (base : Z) : Prop := base = 10 \/ base = 16.
Definition base_digits (base : Z) (ds : list Z) : Prop := Forall (fun d => 0 <= d < base) ds.
Definition base_value (base acc : Z) (ds : list Z) : Z := fold_left (fun acc d => acc * base + d) ds acc.

Lemma hex_char_cases d : 0 <= d < 16 -> d = 0 \/ d = 1 \/ d = 2 \/ d = 3 \/ d = 4 \/ d = 5 \/ d = 6 \/ d = 7 \/
  d = 8 \/ d = 9 \/ d = 10 \/ d = 11 \/ d = 12 \/ d = 13 \/ d = 14 \/ d = 15.
Proof. lia. Qed.

(** Facts on the sixteen digits, by cases. *)
Ltac each_digit H := let E := fresh in pose proof (hex_char_cases _ H) as E; repeat destruct E as [-> | E]; [..|subst].

Lemma hex_digit_value d : 0 <= d < 16 -> digit_value 16 (hex_char d) = Some d.
Proof. intros Hd. each_digit Hd; reflexivity. Qed.

Lemma digit_value_char base d : number_base base -> 0 <= d < base -> digit_value base (hex_char d) = Some d.
Proof.
  intros [-> | ->] Hd; [|by apply hex_digit_value]. assert (0 <= d < 16) as Hd' by lia. each_digit Hd'; reflexivity || lia.
Qed.

Lemma hex_char_plain d : 0 <= d < 16 ->
  is_nul (hex_char d) = false /\ isspace (hex_char d) = false /\ b2z (hex_char d) <> 45 /\ b2z (hex_char d) <> 43 /\ tolower (hex_char d) <> 120 /\
  hex_char d <> x3b.
Proof. intros Hd. each_digit Hd; by vm_compute. Qed.

Lemma hex_chars_plain ds : base_digits 16 ds -> plain_text (map hex_char ds).
Proof. intros Hd. apply Forall_map. eapply Forall_impl; [exact Hd|]. intros d Hr. apply (hex_char_plain d Hr). Qed.

Lemma base_digits_16 base ds : number_base base -> base_digits base ds -> base_digits 16 ds.
Proof. intros Hb Hd. eapply Forall_impl; [exact Hd|]. intros d Hr. cbn in Hr. destruct Hb as [-> | ->]; lia. Qed.

Lemma scan_digits_chars base ds e rest acc : number_base base -> base_digits base ds -> digit_value base e = None ->
  scan_digits base (map hex_char ds ++ e :: rest) acc = Ret (base_value base acc ds, e :: rest).
Proof.
  intros Hb Hd He. revert acc. induction Hd as [|d ds Hr _ IH]; intros acc; cbn [map app scan_digits]; [by rewrite He|].
  rewrite digit_value_char by done. apply IH.
Qed.

Lemma scan_integer_chars base d ds e rest : number_base base -> base_digits base (d :: ds) -> digit_value base e = None -> tolower e <> 120 ->
  scan_integer base (map hex_char (d :: ds) ++ e :: rest) = Ret (false, Some (base_value base 0 (d :: ds)), e :: rest).
Proof.
  intros Hb Hd He Hx. pose proof (base_digits_16 base _ Hb Hd) as Hd16. apply Forall_cons in Hd16 as [H1 H2]. pose proof Hd as [H1b _]%Forall_cons.
  destruct (hex_char_plain d H1) as (_ & Sp & Mi & Pl & _). unfold scan_integer. cbn [map app skip_spaces]. rewrite Sp.
  replace (b2z (hex_char d) =? 45) with false by lia. replace (b2z (hex_char d) =? 43) with false by lia. cbn beta iota zeta.
  assert (forall t, (match map hex_char ds ++ e :: rest with
                     | x :: ((d0 :: _) as s') => if (base =? 16) && (b2z (hex_char d) =? 48) && (tolower x =? 120) && bool_decide (is_Some (digit_value 16 d0)) then s' else t
                     | _ => t end) = t) as ->.
  { intros t. destruct ds as [|d' ds]; cbn [map app].
    - destruct rest; [done|]. replace (tolower e =? 120) with false by lia. by rewrite andb_false_r.
    - apply Forall_cons in H2 as [H2 _]. destruct (hex_char_plain d' H2) as (_ & _ & _ & _ & Nx & _).
      destruct (map hex_char ds ++ e :: rest); [done|]. replace (tolower (hex_char d') =? 120) with false by lia. by rewrite andb_false_r. }
  rewrite digit_value_char by done. change (hex_char d :: map hex_char ds ++ e :: rest) with (map hex_char (d :: ds) ++ e :: rest).
  by rewrite scan_digits_chars.
Qed.

Lemma base_value_nonneg base ds acc : number_base base -> base_digits base ds -> 0 <= acc -> 0 <= base_value base acc ds.
Proof.
  intros Hb Hd. revert acc. induction Hd as [|d ds Hr _ IH]; intros acc Ha; cbn; [done|]. apply IH. destruct Hb as [-> | ->]; lia.
Qed.

(** A number that is followed by the expected character is converted to its value. *)
Lemma strto_number max chk base ds e rest v0 : number_base base -> base_digits base ds -> ds <> [] -> digit_value base e = None -> tolower e <> 120 ->
  base_value base 0 ds <= max < ULONG_MAX ->
  strto_unsigned max chk (Some (map hex_char ds ++ e :: rest)) (Some v0) base e = Ret (SOPC_STATUS_OK, Some (base_value base 0 ds)).
Proof.
  intros Hb Hd Hn He Hx Hv. destruct ds as [|d ds]; [done|]. unfold strto_unsigned.
  replace (negb (base =? 10) && negb (base =? 16)) with false by (destruct Hb as [-> | ->]; done). unfold strtoul.
  rewrite scan_integer_chars by done. cbn [rbind]. pose proof (base_value_nonneg base (d :: ds) 0 Hb Hd ltac:(lia)) as P.
  set (v := base_value base 0 (d :: ds)) in *. replace (ULONG_MAX <? v) with false by lia.
  rewrite mem_read_ok by (rewrite ?zlen_cons; pose proof (zlen_nonneg rest); lia). cbn [rbind Z.to_nat drop take].
  change (Pos.to_nat 1) with 1%nat. cbn [take]. rewrite bool_decide_true by done. rewrite andb_false_r. replace (max <? v) with false by lia. done.
Qed.

(** ** Printed numbers *)

Lemma base_value_app base acc a b : base_value base acc (a ++ b) = base_value base (base_value base acc a) b.
Proof. apply fold_left_app. Qed.

Lemma print_hex_digits n z : 0 <= z ->
  exists ds, print_hex n z = map hex_char ds /\ length ds = n /\ base_digits 16 ds /\ base_value 16 0 ds = z mod 16 ^ Z.of_nat n.
Proof.
  revert z. induction n as [|n IH]; intros z Hz; cbn [print_hex]; [exists []; split_and!; [done..|constructor|by rewrite Z.mod_1_r]|].
  destruct (IH (z / 16) ltac:(apply Z.div_pos; lia)) as (ds & -> & L & D & V). pose proof (Z.mod_pos_bound z 16 ltac:(lia)) as M.
  exists (ds ++ [z mod 16]). rewrite map_app, length_app. split_and!; [done|cbn; lia|apply Forall_app; split; [done|by apply Forall_singleton]|].
  rewrite base_value_app, V. cbn. rewrite Nat2Z.inj_succ, Z.pow_succ_r by lia.
  rewrite (Z.rem_mul_r z 16) by (try apply Z.pow_pos_nonneg; lia). lia.
Qed.

Lemma hex_char_digit d : 0 <= d < 10 -> z2b (48 + d) = hex_char d.
Proof. intros Hd. unfold hex_char. by replace (d <? 10) with true by lia. Qed.

Lemma print_digits_digits fuel k z : 0 <= z < 10 ^ Z.of_nat (S k) -> (S k <= fuel)%nat ->
  exists ds, print_digits fuel z = map hex_char ds /\ (1 <= length ds <= S k)%nat /\ base_digits 10 ds /\ base_value 10 0 ds = z.
Proof.
  revert k z. induction fuel as [|fuel IH]; intros k z Hz Hk; [lia|]. cbn [print_digits].
  pose proof (Z.mod_pos_bound z 10 ltac:(lia)) as M. rewrite hex_char_digit by done. destruct (Z.ltb_spec z 10) as [S1|B1].
  - exists [z mod 10]. rewrite (Z.mod_small z 10) by lia. split_and!; [done|cbn; lia|cbn; lia|apply Forall_singleton; lia|done].
  - destruct k as [|k]; [cbn in Hz; lia|].
    destruct (IH k (z / 10)) as (ds & -> & L & D & V); [split; [apply Z.div_pos; lia|]|lia|].
    { apply Z.div_lt_upper_bound; [lia|]. rewrite (Nat2Z.inj_succ (S k)), Z.pow_succ_r in Hz by lia. lia. }
    exists (ds ++ [z mod 10]). rewrite map_app, length_app. cbn [length].
    split_and!; [done|lia|lia|apply Forall_app; split; [done|by apply Forall_singleton]|].
    rewrite base_value_app, V. cbn. pose proof (Z.div_mod z 10 ltac:(lia)). lia.
Qed.

Lemma print_unsigned_16 z : in_u 16 z ->
  exists ds, print_unsigned z = map hex_char ds /\ (1 <= length ds <= 5)%nat /\ base_digits 10 ds /\ base_value 10 0 ds = z.
Proof. intros Hz. apply (print_digits_digits 10 4); [unfold in_u in Hz; cbn; lia|lia]. Qed.

Lemma print_unsigned_32 z : in_u 32 z ->
  exists ds, print_unsigned z = map hex_char ds /\ (1 <= length ds <= 10)%nat /\ base_digits 10 ds /\ base_value 10 0 ds = z.
Proof. intros Hz. apply (print_digits_digits 10 9); [unfold in_u in Hz; cbn; lia|lia]. Qed.

(** ** What is printed *)

Section Printed.
Context `{Allocator} `{Host}.

(** A block that starts with a text and is null from there on. *)
Definition printed (t : block) (k : Z) : block := t ++ replicate (Z.to_nat k) x00.

Lemma zlen_printed t k : 0 <= k -> zlen (printed t k) = zlen t + k.
Proof. intros. unfold printed. by rewrite zlen_app, zlen_replicate. Qed.

Lemma write_printed t k x off : off = zlen t -> zlen x <= k -> mem_write (printed t k) off x = Ret (printed (t ++ x) (k - zlen x)).
Proof.
  intros -> Hk. pose proof (zlen_nonneg x). pose proof (zlen_nonneg t). rewrite mem_write_ok by (rewrite ?zlen_printed; lia). f_equal. unfold splice, printed.
  unfold zlen at 1. rewrite Nat2Z.id, take_app_length, <- app_assoc. do 2 f_equal.
  rewrite drop_app_ge by (unfold zlen; lia). rewrite drop_replicate. f_equal. unfold zlen in *. lia.
Qed.

Lemma sprintf_printed t k x off : off = zlen t -> zlen x < k -> sprintf (printed t k) off x = Ret (zlen x, printed (t ++ x) (k - zlen x)).
Proof.
  intros Ho Hk. unfold sprintf. rewrite write_printed by (rewrite ?zlen_app; change (zlen [x00]) with 1; lia || done). cbn [rbind]. do 2 f_equal.
  unfold printed. rewrite zlen_app, <- !app_assoc. change (zlen [x00]) with 1.
  replace (Z.to_nat (k - zlen x)) with (S (Z.to_nat (k - (zlen x + 1)))) by lia. done.
Qed.

Lemma print_at_printed t k x off : off = zlen t -> 0 < zlen x < k -> print_at (printed t k) off x = Ret (printed (t ++ x) (k - zlen x)).
Proof. intros Ho Hk. unfold print_at. rewrite sprintf_printed by lia. cbn [rbind]. by replace (0 <? zlen x) with true by lia. Qed.

Lemma c_text_plain t rest : plain_text t -> c_text (t ++ x00 :: rest) = Ret t.
Proof. induction 1 as [|c t Hc _ IH]; [done|]. cbn. rewrite Hc. by rewrite IH. Qed.

(** The text of a Guid. *)
Definition guid_string (g : SOPC_Guid) : block :=
  print_hex 8 (Data1 g) ++ [x2d] ++ print_hex 4 (Data2 g) ++ [x2d] ++ print_hex 4 (Data3 g) ++ [x2d] ++
  flat_map (fun b => print_hex 2 (b2z b)) (take 2 (Data4 g)) ++ [x2d] ++ flat_map (fun b => print_hex 2 (b2z b)) (drop 2 (Data4 g)).

Definition ident_string (i : ident) : block :=
  match i with
  | INumeric n => [x69; x3d] ++ print_unsigned n
  | IString s => [x73; x3d] ++ string_chars s
  | IGuid g => [x67; x3d] ++ guid_string g
  | IBstring s => [x62; x3d] ++ string_chars s
  end.

(** The text of an identifier: [ns=<n>;] unless the namespace is zero, then the type and
    the identifier. *)
Definition ns_string (ns : Z) : block := if ns =? 0 then [] else [x6e; x73; x3d] ++ print_unsigned ns ++ [x3b].

Definition nodeid_string (n : SOPC_NodeId) : block :=
  ns_string (Namespace n) ++ match nodeid_ident n with Some i => ident_string i | None => [] end.

Lemma guid_text_string g : guid_wf g -> guid_text g = Ret ([x67; x3d] ++ guid_string g).
Proof.
  intros (_ & _ & _ & L). unfold guid_text, guid_string. destruct g as [d1 d2 d3 d4]. cbn [Data1 Data2 Data3 Data4] in *.
  do 8 (destruct d4 as [|? d4]; [exfalso; by vm_compute in L|]). destruct d4; [|exfalso; rewrite !zlen_cons in L; pose proof (zlen_nonneg d4); lia].
  done.
Qed.

Lemma length_print_hex n z : length (print_hex n z) = n.
Proof. revert z. induction n as [|n IH]; intros z; [done|]. cbn [print_hex]. rewrite length_app, IH. cbn. lia. Qed.

Lemma length_print_bytes bs : length (flat_map (fun b => print_hex 2 (b2z b)) bs) = (2 * length bs)%nat.
Proof. induction bs as [|b bs IH]; [done|]. cbn [flat_map]. rewrite length_app, length_print_hex, IH. cbn. lia. Qed.

Lemma zlen_guid_string g : guid_wf g -> zlen (guid_string g) = 36.
Proof.
  intros (_ & _ & _ & L). unfold guid_string, zlen in *. rewrite !length_app, !length_print_bytes, !length_print_hex, length_take, length_drop. cbn [length]. lia.
Qed.

Lemma zlen_typed (a b : byte) t : zlen ([a; b] ++ t) = 2 + zlen t.
Proof. rewrite zlen_app. done. Qed.

Lemma drop_zlen {A} (a b : list A) : drop (Z.to_nat (zlen a)) (a ++ b) = b.
Proof. unfold zlen. rewrite Nat2Z.id. apply drop_app_length. Qed.

(** The room that is left after the text of the namespace. *)
Lemma print_identifier_string n i t k : nodeid_ident n = Some i -> key_wf n -> zlen (ident_string i) < k ->
  print_identifier n (printed t k) (zlen t) = Ret (printed (t ++ ident_string i) (k - zlen (ident_string i))).
Proof.
  intros Ei [(_ & j & Ej & Wi) Ti] Hk. rewrite Ei in Ej, Ti. simplify_eq. pose proof (nodeid_data n j Ei) as D. unfold print_identifier.
  destruct j as [v|s|g|s]; destruct D as [-> D]; rewrite D; cbn [rbind ident_string ident_wf] in *;
    rewrite zlen_typed in Hk.
  - apply print_at_printed; [done|]. rewrite zlen_typed. pose proof (zlen_nonneg (print_unsigned v)). lia.
  - destruct (Z.ltb_spec 0 (Length s)) as [P|N].
    + destruct (Ti P) as (d & rest & Ed & Ld & Pd). rewrite (string_chars_text s d rest) in * by done. unfold SOPC_String_GetRawCString.
      replace (0 <? Length s) with true by lia. rewrite Ed. cbn [deref rbind].
      rewrite mem_read_ok by (rewrite ?zlen_app, ?zlen_cons; pose proof (zlen_nonneg rest); lia). cbn [rbind]. rewrite <- Ld, drop_zlen. change (Z.to_nat 1) with 1%nat. cbn [take]. rewrite bool_decide_true by done. cbn [deref rbind].
      rewrite c_text_plain by done. cbn [rbind]. apply print_at_printed; [done|]. rewrite zlen_typed. pose proof (zlen_nonneg d). lia.
    + rewrite string_chars_null in * by done. rewrite zlen_nil in Hk. apply (print_at_printed t k [x73; x3d]); [done|]. change (zlen [_; _]) with 2. lia.
  - unfold SOPC_Guid_IntoCString. rewrite guid_text_string by done. cbn [rbind]. rewrite sprintf_printed by (try rewrite zlen_typed; done || lia).
    cbn [rbind]. done.
  - pose proof (zlen_chars s Wi) as Lc. destruct (Z.ltb_spec 0 (Length s)) as [P|N].
    + destruct (proj2 Wi P) as (d & Ed & Ld). rewrite write_printed by (change (zlen [_; _]) with 2; done || lia). rewrite Ed. cbn [deref rbind]. unfold memcpy.
      rewrite mem_read_ok by lia. cbn [rbind Z.to_nat]. rewrite drop_0. change (take (Z.to_nat (Length s)) d) with (take (Z.to_nat (Length s)) (default [] (Some d))).
      rewrite <- Ed. fold (string_chars s). rewrite write_printed by (rewrite ?zlen_app; change (zlen [_; _]) with 2; lia).
      f_equal. rewrite <- app_assoc. f_equal. rewrite zlen_app. lia.
    + rewrite string_chars_null in * by done. rewrite zlen_nil in Hk. apply (print_at_printed t k [x62; x3d]); [done|]. change (zlen [_; _]) with 2. lia.
Qed.

Lemma zlen_ns_string ns : in_u 16 ns -> 0 <= zlen (ns_string ns) <= (if negb (ns =? 0) then 9 else 0).
Proof.
  intros Hn. unfold ns_string. destruct (ns =? 0); cbn [negb]; [change (zlen (@nil byte)) with 0; lia|].
  destruct (print_unsigned_16 ns Hn) as (ds & -> & L & _). unfold zlen. rewrite !length_app, length_map. cbn [length]. lia.
Qed.

Lemma text_max_size_fits n i : nodeid_ident n = Some i -> key_wf n ->
  exists size, text_max_size n = Ret size /\ zlen (nodeid_string n) < size.
Proof.
  intros Ei [(Hn & j & Ej & Wi) Ti]. rewrite Ei in Ej. simplify_eq. pose proof (zlen_ns_string _ Hn) as L. unfold nodeid_string. rewrite Ei, zlen_app.
  pose proof (nodeid_data n j Ei) as D. unfold text_max_size. destruct (Namespace n =? 0); cbn [negb] in *;
  destruct j as [v|s|g|s]; destruct D as [-> D]; rewrite ?D; cbn [rbind ident_string ident_wf is_null] in *; eexists; (split; [reflexivity|]);
    rewrite zlen_typed, ?zlen_guid_string by done.
  all: try (destruct (print_unsigned_32 v Wi) as (ds & -> & Ld & _); unfold zlen in *; rewrite length_map; lia).
  all: try (rewrite zlen_chars by done; destruct Wi as [I _]; unfold in_s in I; destruct (Z.ltb_spec 0 (Length s)); [|lia];
            rewrite !u32_small by (rewrite ?u32_small; lia); lia).
  all: lia.
Qed.

(** The block in which an identifier is printed is large enough, for any namespace and
    any identifier: it starts with the text and holds a null character after it; nothing
    is written when there is no memory. *)
Theorem nodeid_printed (n : SOPC_NodeId) :
  key_wf n ->
  exists size, zlen (nodeid_string n) < size /\
    SOPC_NodeId_ToCString (Some n) = Ret (if alloc_ok size then Some (printed (nodeid_string n) (size - zlen (nodeid_string n))) else NULL).
Proof.
  intros W. pose proof W as [(Hn & i & Ei & _) _]. destruct (text_max_size_fits n i Ei W) as (size & Es & L). exists size. split; [done|].
  unfold SOPC_NodeId_ToCString. rewrite Es. cbn [rbind]. unfold SOPC_Calloc. destruct (alloc_ok size); [|done].
  change (replicate (Z.to_nat size) x00) with (printed [] size). unfold nodeid_string in *. rewrite Ei in *. rewrite zlen_app in *.
  pose proof (zlen_nonneg (ns_string (Namespace n))). pose proof (zlen_nonneg (ident_string i)).
  assert ((if negb (Namespace n =? 0) then sprintf (printed [] size) 0 ([x6e; x73; x3d] ++ print_unsigned (Namespace n) ++ [x3b]) else Ret (0, printed [] size)) =
          Ret (zlen (ns_string (Namespace n)), printed (ns_string (Namespace n)) (size - zlen (ns_string (Namespace n))))) as ->.
  { unfold ns_string in *. destruct (Namespace n =? 0); cbn [negb]; [change (zlen (@nil byte)) with 0; by rewrite Z.sub_0_r|]. rewrite sprintf_printed by (done || lia). done. }
  cbn [rbind]. rewrite (print_identifier_string n i) by (done || lia). cbn [rbind]. do 3 f_equal. lia.
Qed.

End Printed.

(** ** The parser *)

Section Parsed.
Context `{Allocator} `{Host}.

(** Characters that are neither [c] nor the null character. *)
Definition without (c : byte) (t : block) : Prop := Forall (fun x => x <> c /\ is_nul x = false) t.

Lemma without_plain c t : without c t -> plain_text t.
Proof. intros W. eapply Forall_impl; [exact W|]. by intros x []. Qed.

Lemma strchr_found a c r : without c a -> strchr (a ++ c :: r) c = Ret (Some (zlen a)).
Proof.
  induction 1 as [|x a [N P] _ IH]; cbn [strchr app]; [by rewrite bool_decide_true|]. rewrite bool_decide_false, P, IH by done. cbn. by rewrite zlen_cons.
Qed.

Lemma strchr_none a c r : without c a -> c <> x00 -> strchr (a ++ x00 :: r) c = Ret None.
Proof.
  intros W Nc. induction W as [|x a [N P] _ IH]; cbn [strchr app]; [by rewrite bool_decide_false|]. by rewrite bool_decide_false, P, IH by done.
Qed.

Lemma strncpy_text t r : plain_text t -> strncpy (printed [] (zlen t + 1)) (t ++ r) (zlen t) = Ret (t ++ [x00]).
Proof.
  intros P. unfold strncpy. assert (forall n, n = length t -> strncpy_bytes (t ++ r) n = Ret t) as ->.
  { induction P as [|c t Hc _ IH]; intros n ->; [done|]. cbn. rewrite Hc. by rewrite IH. }
  - cbn [rbind]. rewrite write_printed by (change (zlen (@nil byte)) with 0; lia). cbn [app]. unfold printed. by replace (zlen t + 1 - zlen t) with 1 by lia.
  - unfold zlen. lia.
Qed.

Lemma char_at_app a x b k : k = zlen a -> char_at (a ++ x :: b) k = Ret x.
Proof.
  intros ->. pose proof (zlen_nonneg a). pose proof (zlen_nonneg b). unfold char_at. rewrite mem_read_ok by (rewrite ?zlen_app, ?zlen_cons; lia).
  cbn [rbind]. rewrite drop_zlen. change (Z.to_nat 1) with 1%nat. done.
Qed.

Lemma char_at_split s a x b k : s = a ++ x :: b -> k = zlen a -> char_at s k = Ret x.
Proof. intros ->. apply char_at_app. Qed.

Lemma drop_split {A} (s a b : list A) k : s = a ++ b -> k = length a -> drop k s = b.
Proof. intros -> ->. apply drop_app_length. Qed.

(** *** Guid *)

Lemma parse_byte b v0 : SOPC_strtouint8_t (Some (print_hex 2 (b2z b) ++ [x00; x00])) (Some v0) 16 x00 = Ret (SOPC_STATUS_OK, Some (b2z b)).
Proof.
  pose proof (b2z_range b) as R. destruct (print_hex_digits 2 (b2z b) ltac:(lia)) as (ds & -> & L & D & V). rewrite Z.mod_small in V by (cbn; lia).
  unfold SOPC_strtouint8_t. rewrite <- V. apply strto_number; try done; try (by right); [by destruct ds|]. rewrite V. unfold UINT8_MAX, ULONG_MAX. lia.
Qed.

Lemma print_hex_2 z : print_hex 2 z = [hex_char (z / 16 mod 16); hex_char (z mod 16)].
Proof. done. Qed.

Lemma parse_data4_text bs a r i d4 : (i + length bs <= length d4)%nat ->
  parse_data4 (length bs) (zlen a) i (a ++ flat_map (fun b => print_hex 2 (b2z b)) bs ++ r) d4 =
  Ret (SOPC_STATUS_OK, take i d4 ++ bs ++ drop (i + length bs) d4).
Proof.
  revert a i d4. induction bs as [|b bs IH]; intros a i d4 L; cbn [length parse_data4 flat_map].
  - rewrite Nat.add_0_r. cbn [app]. by rewrite take_drop.
  - pose proof (parse_byte b 0) as P. rewrite print_hex_2 in P |- *. cbn [app] in P |- *.
    rewrite char_at_app by done. cbn [rbind]. rewrite cons_middle, app_assoc. rewrite char_at_app by (rewrite zlen_app; done). cbn [rbind]. rewrite P. cbn [rbind is_ok deref].
    rewrite cons_middle, app_assoc. replace (zlen a + 2) with (zlen ((a ++ [hex_char (b2z b / 16 mod 16)]) ++ [hex_char (b2z b mod 16)])) by (rewrite !zlen_app; change (zlen [_]) with 1; lia).
    cbn [length] in L. rewrite IH by (rewrite length_insert; lia). do 2 f_equal. rewrite z2b_b2z.
    rewrite (drop_insert_lt _ _ i) by lia. rewrite (take_S_r _ _ b) by (apply list_lookup_insert_eq; lia). rewrite take_insert_ge by lia.
    rewrite <- app_assoc. do 4 f_equal. lia.
Qed.

Lemma hex_number n z max chk e rest v0 : (0 < n)%nat -> 0 <= z < 16 ^ Z.of_nat n -> z <= max < ULONG_MAX -> digit_value 16 e = None -> tolower e <> 120 ->
  strto_unsigned max chk (Some (print_hex n z ++ e :: rest)) (Some v0) 16 e = Ret (SOPC_STATUS_OK, Some z).
Proof.
  intros Hn Hz Hm He Hx. destruct (print_hex_digits n z ltac:(lia)) as (ds & -> & L & D & V). rewrite Z.mod_small in V by lia. rewrite <- V.
  apply strto_number; try done; [by right|destruct ds; cbn in L; [lia|done]|lia].
Qed.

(** The text of a Guid is read back, whatever follows it. *)
Theorem guid_text_roundtrip (g g0 : SOPC_Guid) (rest : block) :
  guid_wf g -> guid_wf g0 ->
  SOPC_Guid_FromCString (Some g0) (Some (guid_string g ++ rest)) 36 = Ret (SOPC_STATUS_OK, Some g) /\
  guid_text g = Ret ([x67; x3d] ++ guid_string g).
Proof.
  intros W (_ & _ & _ & L0). split; [|by apply guid_text_string]. destruct W as (R1 & R2 & R3 & L). unfold in_u in *.
  set (h := flat_map (fun b => print_hex 2 (b2z b))). assert (length (Data4 g) = 8%nat) as L8 by (unfold zlen in L; lia).
  set (p1 := print_hex 8 (Data1 g)). set (p2 := print_hex 4 (Data2 g)). set (p3 := print_hex 4 (Data3 g)).
  set (s := p1 ++ x2d :: p2 ++ x2d :: p3 ++ x2d :: h (take 2 (Data4 g)) ++ x2d :: h (drop 2 (Data4 g)) ++ rest).
  assert (guid_string g ++ rest = s) as -> by (unfold guid_string, s, p1, p2, p3, h; by rewrite <- !app_assoc).
  pose proof (length_print_hex 8 (Data1 g)) as L1. pose proof (length_print_hex 4 (Data2 g)) as L2. pose proof (length_print_hex 4 (Data3 g)) as L3.
  pose proof (length_print_bytes (take 2 (Data4 g))) as L4. rewrite length_take, L8 in L4. fold p1 in L1. fold p2 in L2. fold p3 in L3. fold h in L4.
  assert (guid_text_invalid s 36 = Ret false) as V.
  { unfold guid_text_invalid. cbn [Z.eqb GUID_TEXT_LENGTH Pos.eqb negb].
    rewrite (char_at_split s p1 x2d (p2 ++ x2d :: p3 ++ x2d :: h (take 2 (Data4 g)) ++ x2d :: h (drop 2 (Data4 g)) ++ rest)); [|done|unfold zlen; lia].
    rewrite (char_at_split s (p1 ++ x2d :: p2) x2d (p3 ++ x2d :: h (take 2 (Data4 g)) ++ x2d :: h (drop 2 (Data4 g)) ++ rest)); [|by app_solve|by len_solve].
    rewrite (char_at_split s (p1 ++ x2d :: p2 ++ x2d :: p3) x2d (h (take 2 (Data4 g)) ++ x2d :: h (drop 2 (Data4 g)) ++ rest)); [|by app_solve|by len_solve].
    rewrite (char_at_split s (p1 ++ x2d :: p2 ++ x2d :: p3 ++ x2d :: h (take 2 (Data4 g))) x2d (h (drop 2 (Data4 g)) ++ rest)); [|by app_solve|by len_solve]. done. }
  unfold SOPC_Guid_FromCString. rewrite V. cbn [rbind].
  unfold SOPC_strtouint32_t at 1, s at 1. unfold p1 at 1. rewrite hex_number by (unfold UINT32_MAX, ULONG_MAX; cbn; lia || done). cbn [rbind is_ok deref].
  rewrite (drop_split s (p1 ++ [x2d]) (p2 ++ x2d :: p3 ++ x2d :: h (take 2 (Data4 g)) ++ x2d :: h (drop 2 (Data4 g)) ++ rest) 9); [|by app_solve|by len_solve].
  unfold SOPC_strtouint16_t at 1. unfold p2 at 1. rewrite hex_number by (unfold UINT16_MAX, ULONG_MAX; cbn; lia || done). cbn [rbind is_ok deref].
  rewrite (drop_split s (p1 ++ x2d :: p2 ++ [x2d]) (p3 ++ x2d :: h (take 2 (Data4 g)) ++ x2d :: h (drop 2 (Data4 g)) ++ rest) 14); [|by app_solve|by len_solve].
  unfold SOPC_strtouint16_t at 1. unfold p3 at 1. rewrite hex_number by (unfold UINT16_MAX, ULONG_MAX; cbn; lia || done). cbn [rbind is_ok deref].
  assert (parse_data4 2 19 0 s (Data4 g0) = Ret (SOPC_STATUS_OK, take 2 (Data4 g) ++ drop 2 (Data4 g0))) as ->.
  { pose proof (parse_data4_text (take 2 (Data4 g)) (p1 ++ x2d :: p2 ++ x2d :: p3 ++ [x2d]) (x2d :: h (drop 2 (Data4 g)) ++ rest) 0 (Data4 g0)) as E.
    rewrite length_take, L8 in E. unfold zlen in L0. specialize (E ltac:(cbn; lia)). replace (zlen (p1 ++ _)) with 19 in E by (by len_solve).
    cbn [Init.Nat.min] in E. replace s with ((p1 ++ x2d :: p2 ++ x2d :: p3 ++ [x2d]) ++ h (take 2 (Data4 g)) ++ x2d :: h (drop 2 (Data4 g)) ++ rest) by (by app_solve). exact E. }
  cbn [rbind is_ok].
  assert (parse_data4 6 24 2 s (take 2 (Data4 g) ++ drop 2 (Data4 g0)) = Ret (SOPC_STATUS_OK, Data4 g)) as ->; [|cbn [rbind]; by destruct g].
  pose proof (parse_data4_text (drop 2 (Data4 g)) (p1 ++ x2d :: p2 ++ x2d :: p3 ++ x2d :: h (take 2 (Data4 g)) ++ [x2d]) rest 2 (take 2 (Data4 g) ++ drop 2 (Data4 g0))) as E.
  rewrite length_app, length_take, !length_drop, L8 in E. unfold zlen in L0. specialize (E ltac:(cbn; lia)). replace (zlen (p1 ++ _)) with 24 in E by (by len_solve).
  replace s with ((p1 ++ x2d :: p2 ++ x2d :: p3 ++ x2d :: h (take 2 (Data4 g)) ++ [x2d]) ++ h (drop 2 (Data4 g)) ++ rest) by (by app_solve).
  change (8 - 2)%nat with 6%nat in E. fold h in E. rewrite E. do 2 f_equal.
  rewrite take_app_length', (drop_ge (take 2 (Data4 g) ++ drop 2 (Data4 g0))) by (rewrite ?length_app, ?length_take, ?length_drop; lia).
  rewrite app_nil_r. apply take_drop.
Qed.

(** *** Node identifiers *)

(** The texts that are read back: a semicolon ends the namespace, so an identifier of the
    namespace zero holds none; the bytes of a byte string are not null, and there is one. *)
Definition readable (n : SOPC_NodeId) : Prop :=
  match nodeid_ident n with
  | Some (IString s) => Namespace n = 0 -> x3b ∉ string_chars s
  | Some (IBstring s) => (Namespace n = 0 -> x3b ∉ string_chars s) /\ plain_text (string_chars s) /\ 0 < Length s
  | _ => True
  end.

Lemma without_of t : plain_text t -> x3b ∉ t -> without x3b t.
Proof.
  induction 1 as [|c t Hc _ IH]; [by constructor|]. rewrite not_elem_of_cons. intros [N M]. constructor; [by split|by apply IH].
Qed.

Lemma hex_chars_without ds : base_digits 16 ds -> without x3b (map hex_char ds).
Proof. intros Hd. apply Forall_map. eapply Forall_impl; [exact Hd|]. intros d Hr. destruct (hex_char_plain d Hr) as (? & _ & _ & _ & _ & ?). by split. Qed.

Lemma print_hex_without n z : 0 <= z -> without x3b (print_hex n z).
Proof. intros Hz. destruct (print_hex_digits n z Hz) as (ds & -> & _ & D & _). by apply hex_chars_without. Qed.

Lemma without_cons x t : x <> x3b -> is_nul x = false -> without x3b t -> without x3b (x :: t).
Proof. intros. by constructor. Qed.

Lemma without_app a b : without x3b a -> without x3b b -> without x3b (a ++ b).
Proof. intros. by apply Forall_app. Qed.

Lemma print_bytes_without bs : without x3b (flat_map (fun b => print_hex 2 (b2z b)) bs).
Proof. induction bs as [|b bs IH]; [constructor|]. cbn [flat_map]. apply without_app; [|done]. apply print_hex_without. apply b2z_range. Qed.

Lemma guid_string_without g : guid_wf g -> without x3b (guid_string g).
Proof.
  intros (R1 & R2 & R3 & _). unfold in_u in *. unfold guid_string.
  do 8 (apply without_app; [first [apply print_hex_without; lia|apply print_bytes_without|apply without_cons; [done..|apply Forall_nil_2]; done]|]).
  apply print_bytes_without.
Qed.

Lemma print_unsigned_without z : in_u 32 z -> without x3b (print_unsigned z).
Proof. intros Hz. destruct (print_unsigned_32 z Hz) as (ds & -> & _ & D & _). apply hex_chars_without. apply (base_digits_16 10); [by left|done]. Qed.

(** The text that follows the namespace has no null character, and no semicolon when there
    is no namespace. *)
Lemma ident_string_plain n i : nodeid_ident n = Some i -> key_wf n -> readable n ->
  plain_text (ident_string i) /\ (Namespace n = 0 -> without x3b (ident_string i)).
Proof.
  intros Ei [(_ & j & Ej & Wi) Ti] R. unfold readable in R. rewrite Ei in Ej, R, Ti. simplify_eq.
  assert (forall t, without x3b t -> plain_text t /\ (Namespace n = 0 -> without x3b t)) as X by (intros; split; [by eapply without_plain|done]).
  destruct j as [v|s|g|s]; cbn [ident_string app ident_wf] in *.
  - apply X. do 2 (apply without_cons; [done..|]). by apply print_unsigned_without.
  - pose proof (chars_plain s Ti) as P. split; [by repeat constructor|]. intros E. do 2 (apply without_cons; [done..|]). by apply without_of; auto.
  - apply X. do 2 (apply without_cons; [done..|]). by apply guid_string_without.
  - destruct R as (R1 & P & _). split; [by repeat constructor|]. intros E. do 2 (apply without_cons; [done..|]). by apply without_of; auto.
Qed.

Lemma in_u_16_32 z : in_u 16 z -> in_u 32 z.
Proof. unfold in_u. lia. Qed.

Lemma parse_namespace_string ns t : in_u 16 ns -> (ns = 0 -> without x3b t) ->
  parse_namespace (ns_string ns ++ t ++ [x00]) = Ret (SOPC_STATUS_OK, ns, zlen (ns_string ns)).
Proof.
  intros Hn Hw. unfold parse_namespace, ns_string. destruct (Z.eqb_spec ns 0) as [-> |N].
  - cbn [app]. rewrite strchr_none by (done || by apply Hw). done.
  - pose proof (print_unsigned_without ns (in_u_16_32 ns Hn)) as W. destruct (print_unsigned_16 ns Hn) as (ds & E & L & D & V). rewrite E in W |- *.
    assert (without x3b ([x6e; x73; x3d] ++ map hex_char ds)) as W' by (cbn [app]; do 3 (apply without_cons; [done..|]); done).
    assert (([x6e; x73; x3d] ++ map hex_char ds ++ [x3b]) ++ t ++ [x00] = ([x6e; x73; x3d] ++ map hex_char ds) ++ x3b :: t ++ [x00]) as -> by (by rewrite <- !app_assoc).
    rewrite strchr_found by done. cbn [rbind].
    rewrite mem_read_ok by (rewrite ?zlen_app; change (zlen [_; _; _]) with 3; pose proof (zlen_nonneg (map hex_char ds)); pose proof (zlen_nonneg (x3b :: t ++ [x00])); lia).
    change (take (Z.to_nat 3) (drop (Z.to_nat 0) (([x6e; x73; x3d] ++ map hex_char ds) ++ x3b :: t ++ [x00]))) with [x6e; x73; x3d].
    cbn [rbind]. change (memcmp [x6e; x73; x3d] [x6e; x73; x3d] =? 0) with true. cbn [negb].
    change (drop 3 (([x6e; x73; x3d] ++ map hex_char ds) ++ x3b :: t ++ [x00])) with (map hex_char ds ++ x3b :: t ++ [x00]).
    unfold SOPC_strtouint16_t. rewrite strto_number; try done; [|by left|by destruct ds; [cbn in L; lia|]|rewrite V; unfold UINT16_MAX, ULONG_MAX, in_u in *; lia].
    cbn [rbind deref]. rewrite V. do 2 f_equal. rewrite !zlen_app. change (zlen [_; _; _]) with 3. change (zlen [_]) with 1. lia.
Qed.

Lemma String_from_text t : plain_text t -> zlen t <= INT32_MAX -> alloc_ok (zlen t + 1) = true ->
  SOPC_String_InitializeFromCString (Some string_init) (Some (t ++ [x00])) =
  Ret (SOPC_STATUS_OK, Some (if zlen t =? 0 then set_Length string_init 0 else mkString (zlen t) false (Some (t ++ [x00])))).
Proof.
  intros P L A. unfold SOPC_String_InitializeFromCString. change (SOPC_String_Initialize (Some string_init)) with (Some string_init).
  unfold SOPC_String_CopyFromCString. cbn [Data string_init is_null negb]. rewrite strlen_text by done. cbn [rbind]. pose proof (zlen_nonneg t).
  destruct (Z.eqb_spec (zlen t) 0) as [E|N]; [replace (0 <? zlen t) with false by lia; done|]. replace (0 <? zlen t) with true by lia.
  replace (zlen t <=? INT32_MAX) with true by lia. cbn [andb]. rewrite Z.mul_1_l. unfold SOPC_Malloc. rewrite A.
  assert (zlen (t ++ [x00]) = zlen t + 1) as La by (rewrite zlen_app; done). rewrite <- La, memcpy_all; [|lia|].
  - cbn [rbind]. rewrite splice_0; [done|]. unfold zlen. rewrite length_map, length_seq. lia.
  - unfold zlen. rewrite length_map, length_seq. lia.
Qed.

Lemma Bytes_from_text t r : 0 < zlen t <= INT32_MAX -> alloc_ok (zlen t) = true ->
  SOPC_ByteString_CopyFromBytes (Some string_init) (Some (t ++ r)) (zlen t) = Ret (SOPC_STATUS_OK, Some (mkString (zlen t) false (Some t))).
Proof.
  intros L A. unfold SOPC_ByteString_CopyFromBytes. replace (0 <? zlen t) with true by lia.
  replace (zlen t * 1 <=? SIZE_MAX) with true by (unfold SIZE_MAX, INT32_MAX in *; lia). cbn [andb]. rewrite Z.mul_1_l. unfold SOPC_Malloc. rewrite A.
  rewrite memcpy_prefix; [|rewrite zlen_app; pose proof (zlen_nonneg r); lia|right; unfold zlen; rewrite length_map, length_seq; lia].
  cbn [rbind]. replace (take (Z.to_nat (zlen t)) (t ++ r)) with t by (unfold zlen; by rewrite Nat2Z.id, take_app_length).
  rewrite splice_0; [done|]. unfold zlen. rewrite length_map, length_seq. lia.
Qed.

(** What the first part of the parser finds in the text of an identifier. *)
Definition found (ns : Z) (i : ident) : parsed_nodeid :=
  mkParsed (ident_type i) (zlen (ns_string ns) + 2) ns (match i with INumeric v => v | _ => 0 end) (match i with IGuid _ => Some guid_init | _ => NULL end).

Lemma parse_text_string ns i : in_u 16 ns -> ident_wf i -> (ns = 0 -> without x3b (ident_string i)) -> alloc_ok sizeof_Guid = true ->
  parse_text ((ns_string ns ++ ident_string i) ++ [x00]) (zlen (ns_string ns ++ ident_string i)) = Ret (SOPC_STATUS_OK, found ns i).
Proof.
  intros Hn Wi Hw A. rewrite <- app_assoc, zlen_app. unfold parse_text. rewrite parse_namespace_string by done. cbn [rbind is_ok negb].
  assert (exists c t, ident_string i = c :: x3d :: t) as (c & t & Ei) by (destruct i; by eexists _, _).
  pose proof (zlen_nonneg t). replace (_ <? 2) with false by (rewrite Ei, !zlen_cons; lia). rewrite Ei. cbn [app].
  rewrite (char_at_split _ (ns_string ns ++ [c]) x3d (t ++ [x00])); [|by rewrite <- app_assoc|by rewrite zlen_app].
  cbn [rbind]. rewrite bool_decide_true by done. cbn [negb]. unfold parse_type. rewrite char_at_app by done. cbn [rbind].
  destruct i as [v|s|g|s]; cbn [ident_string app] in Ei; injection Ei as <- <-; unfold found; cbn [ident_type];
    repeat first [rewrite bool_decide_true by done|rewrite bool_decide_false by done]; try done.
  - rewrite (drop_split _ (ns_string ns ++ [x69; x3d]) (print_unsigned v ++ [x00])); [|by rewrite <- app_assoc|rewrite length_app; unfold zlen; cbn [length]; lia].
    destruct (print_unsigned_32 v Wi) as (ds & -> & L & D & V). unfold SOPC_strtouint32_t.
    rewrite strto_number; try done; [|by left|by destruct ds; [cbn in L; lia|]|rewrite V; unfold UINT32_MAX, ULONG_MAX, ident_wf, in_u in *; lia].
    cbn [rbind deref]. by rewrite V.
  - by rewrite A.
Qed.

Lemma string_of_text_wf t : plain_text t -> zlen t <= INT32_MAX ->
  let s := if zlen t =? 0 then set_Length string_init 0 else mkString (zlen t) false (Some (t ++ [x00])) in
  string_wf s /\ terminated s /\ string_chars s = t.
Proof.
  intros P L s. pose proof (zlen_nonneg t). unfold s. destruct (Z.eqb_spec (zlen t) 0) as [E|N].
  - assert (t = []) as -> by (destruct t; [done|rewrite zlen_cons in E; pose proof (zlen_nonneg t); lia]). split_and!; [split; [by vm_compute|cbn; lia]|unfold terminated; cbn; lia|done].
  - split_and!; [|by apply terminated_copy|by apply chars_of_text]. unfold INT32_MAX in L. split; [unfold in_s; cbn [Length]; lia|].
    intros _. eexists. split; [done|]. cbn [Length]. rewrite zlen_app. change (zlen [x00]) with 1. lia.
Qed.

Lemma set_identifier_string n0 ns i t : NodeIdData_ n0 = DataZero -> in_u 16 ns -> ident_wf i -> (forall k, alloc_ok k = true) ->
  match i with IString s => terminated s | IBstring s => 0 < Length s | _ => True end ->
  t = ns_string ns ++ ident_string i -> zlen t <= INT32_MAX ->
  exists n, set_identifier n0 (t ++ [x00]) (zlen t) (found ns i) = Ret (SOPC_STATUS_OK, n) /\ key_wf n /\ Namespace n = ns /\
    match nodeid_ident n with Some j => same_ident j i | None => False end.
Proof.
  intros Z0 Hn Wi A Ti Et L. unfold set_identifier, found. cbn [parsed_type parsed_pos parsed_ns parsed_numeric parsed_guid].
  assert (drop (Z.to_nat (zlen (ns_string ns) + 2)) (t ++ [x00]) = drop 2 (ident_string i ++ [x00])) as ->.
  { subst t. replace (Z.to_nat (zlen (ns_string ns) + 2)) with (length (ns_string ns) + 2)%nat by (unfold zlen; lia).
    by rewrite <- app_assoc, <- drop_drop, drop_app_length. }
  pose proof (zlen_nonneg (ns_string ns)). assert (zlen t - (zlen (ns_string ns) + 2) = zlen (ident_string i) - 2) as -> by (subst t; rewrite zlen_app; lia).
  rewrite Et, zlen_app in L. destruct i as [v|s|g|s]; cbn [ident_type ident_string] in *; rewrite zlen_typed in *; cbn [skipn app ident_wf] in *; rewrite ?drop_0.
  - eexists. split; [reflexivity|]. split_and!; try done. split; [|done]. split; [done|]. by exists (INumeric v).
  - pose proof (chars_plain s Ti) as P. destruct (string_of_text_wf (string_chars s) P ltac:(lia)) as (W & T & C).
    rewrite String_from_text by (done || lia || apply A). cbn [rbind deref]. eexists. split; [reflexivity|]. split_and!; try done.
    split; [|done]. split; [done|]. by eexists.
  - replace (u64 (2 + zlen (guid_string g) - 2)) with 36 by (rewrite zlen_guid_string by done; done).
    rewrite (proj1 (guid_text_roundtrip g guid_init [x00] Wi ltac:(by vm_compute))). cbn [rbind is_ok]. eexists. split; [reflexivity|].
    split_and!; try done. split; [|done]. split; [done|]. by eexists.
  - pose proof (zlen_chars s Wi) as Lc. replace (2 + zlen (string_chars s) - 2) with (zlen (string_chars s)) by lia.
    change (SOPC_ByteString_Initialize (Some string_init)) with (Some string_init).
    rewrite Bytes_from_text by (apply A || lia). cbn [rbind deref]. eexists. split; [reflexivity|].
    assert (string_chars (mkString (zlen (string_chars s)) false (Some (string_chars s))) = string_chars s) as C
      by (rewrite <- (app_nil_r (string_chars s)) at 2; by apply chars_of_text).
    split_and!; try done. split; [|done]. split; [done|]. eexists. split; [done|]. unfold INT32_MAX in L. split; [unfold in_s; cbn [Length]; lia|].
    intros _. eexists. split; [done|]. cbn [Length]. lia.
Qed.

(** C15: a node identifier that is printed is read back: the text ends with a null
    character, and the parser makes from it an identifier that compares as equal with the
    one that was printed (namespace, type, and number, characters, Guid or bytes).  The
    strings and byte strings hold no null character, those of the namespace zero no
    semicolon, and a byte string is not empty: such identifiers are printed and then
    refused ([semicolon_not_read_back], [empty_bytes_not_read_back]) or cut. *)
Theorem nodeid_text_roundtrip (n : SOPC_NodeId) :
  key_wf n -> readable n -> zlen (nodeid_string n) <= INT32_MAX -> (forall k, alloc_ok k = true) ->
  exists t n', SOPC_NodeId_ToCString (Some n) = Ret (Some t) /\ strlen t = Ret (zlen (nodeid_string n)) /\
    SOPC_NodeId_FromCString (Some t) (zlen (nodeid_string n)) = Ret (Some n') /\ key_wf n' /\ same_nodeid n' n.
Proof.
  intros W R L A. destruct (nodeid_printed n W) as (size & Hs & E). rewrite A in E. pose proof W as [(Hn & i & Ei & Wi) Ti]. rewrite Ei in Ti.
  destruct (ident_string_plain n i Ei W R) as [P Hw]. set (t := nodeid_string n) in *. assert (t = ns_string (Namespace n) ++ ident_string i) as Et by (unfold t, nodeid_string; by rewrite Ei).
  assert (plain_text t) as Pt.
  { rewrite Et. apply Forall_app. split; [|done]. unfold ns_string. destruct (_ =? 0); [constructor|].
    repeat (constructor; [done|]). apply Forall_app. split; [|by repeat constructor]. eapply without_plain. apply print_unsigned_without. by apply in_u_16_32. }
  assert (printed t (size - zlen t) = t ++ x00 :: replicate (Z.to_nat (size - zlen t) - 1) x00) as Ep
    by (unfold printed; replace (Z.to_nat (size - zlen t)) with (S (Z.to_nat (size - zlen t) - 1)) at 1 by lia; done).
  rewrite Ep in E. destruct (set_identifier_string nodeid_init (Namespace n) i t eq_refl Hn Wi A) as (n' & Es & W' & En & Sj); [|done|done|].
  { unfold readable in R. rewrite Ei in R. destruct i; try done. apply R. }
  eexists _, n'. split; [exact E|]. split; [by apply strlen_text|]. unfold SOPC_NodeId_FromCString. rewrite A.
  change (SOPC_NodeId_Initialize (Some nodeid_init)) with (Some nodeid_init). unfold SOPC_NodeId_InitializeFromCString.
  assert (2 <= zlen t) by (rewrite Et, zlen_app; pose proof (zlen_nonneg (ns_string (Namespace n))); destruct i; cbn [ident_string]; rewrite zlen_typed; unfold zlen; lia).
  replace (zlen t <=? 0) with false by lia. unfold SOPC_Calloc. rewrite A. change (replicate (Z.to_nat (zlen t + 1)) x00) with (printed [] (zlen t + 1)).
  rewrite strncpy_text by done. cbn [rbind]. rewrite Et at 1 2. rewrite parse_text_string by (done || apply A). cbn [rbind is_ok]. rewrite Es. cbn [rbind is_ok].
  split; [done|]. split; [done|]. split; [done|]. rewrite Ei. by destruct (nodeid_ident n').
Qed.

End Parsed.

(** ** Examples *)

Section Demo.
#[local] Existing Instance serving_allocator.

(** [ns=1;s=OK] *)
Lemma nodeid_text_roundtrip_witness :
  exists t n', SOPC_NodeId_ToCString (Some demo_named) = Ret (Some t) /\ strlen t = Ret 9 /\
    SOPC_NodeId_FromCString (Some t) 9 = Ret (Some n') /\ same_nodeid n' demo_named.
Proof.
  destruct (@nodeid_text_roundtrip serving_allocator demo_named) as (t & n' & E1 & E2 & E3 & _ & S).
  - apply demo_key_wf.
  - by intros ?.
  - by vm_compute.
  - reflexivity.
  - exact (ex_intro _ t (ex_intro _ n' (conj E1 (conj E2 (conj E3 S))))).
Defined.

(** An identifier of the namespace zero with a semicolon is printed, and refused. *)
Example semicolon_not_read_back :
  SOPC_NodeId_ToCString (Some (mkNodeId SOPC_IdentifierType_String 0 (DataString (mkString 3 false (Some [x61; x3b; x62; x00]))))) =
    Ret (Some [x73; x3d; x61; x3b; x62; x00]) /\
  SOPC_NodeId_FromCString (Some [x73; x3d; x61; x3b; x62; x00]) 5 = Ret NULL.
Proof. by vm_compute. Qed.

(** An empty byte string is printed, and refused. *)
Example empty_bytes_not_read_back :
  SOPC_NodeId_ToCString (Some (mkNodeId SOPC_IdentifierType_ByteString 0 DataZero)) = Ret (Some [x62; x3d; x00]) /\
  SOPC_NodeId_FromCString (Some [x62; x3d; x00]) 2 = Ret NULL.
Proof. by vm_compute. Qed.

End Demo.
