(* ===== verification/NodeIdParse.v ===== *)
(** * Safety of the parser of node identifiers

    The parser returns on any text of at least two characters, and the identifiers that it
    accepts are well formed. *)

From Stdlib Require Import ZArith Lia.
From Stdlib Require Import Strings.Byte.
From stdpp Require Import prelude.
From S2P Require Import Prelude Common Buffer Codec EncScalar EncString Strings StringsProps EncNodeId EncText EncVariant NodeIds NodeIdsProps NodeIdTexts.

Open Scope Z_scope.

(** ** Scans that stop at the null character *)

(** A block whose last byte is null. *)
Definition ends_nul (s : block) : Prop := exists t, s = t ++ [x00].

Lemma ends_nul_cons c s : ends_nul (c :: s) -> is_nul c = false -> ends_nul s.
Proof. intros [[|x t] E] N; cbn in E; simplify_eq; try done. by exists t. Qed.

Lemma ends_nul_nonempty s : ends_nul s -> exists c s', s = c :: s'.
Proof. intros [[|x t] ->]; cbn; eauto. Qed.

Lemma ends_nul_drop s k : ends_nul s -> (k < length s)%nat -> ends_nul (drop k s).
Proof.
  intros [t ->] L. rewrite length_app in L. cbn in L. exists (drop k t). rewrite drop_app_le by lia. done.
Qed.

Lemma digit_not_nul base c d : digit_value base c = Some d -> is_nul c = false /\ 0 <= d < base.
Proof.
  unfold digit_value, is_nul, tolower. intros E. repeat case_match; simplify_eq; try done; split; lia.
Qed.

Lemma scan_digits_nul base s acc : ends_nul s -> 0 <= acc -> 0 <= base -> exists v rest, scan_digits base s acc = Ret (v, rest) /\ ends_nul rest /\ 0 <= v.
Proof.
  intros E Ha Hb. revert acc Ha E. induction s as [|c s IH]; intros acc Ha E; [by destruct (ends_nul_nonempty _ E) as (? & ? & ?)|].
  cbn [scan_digits]. destruct (digit_value base c) as [d|] eqn:D; [|by eexists _, _]. apply digit_not_nul in D as [N R].
  apply IH; [nia|]. by eapply ends_nul_cons.
Qed.

Lemma skip_spaces_nul s : ends_nul s -> ends_nul (skip_spaces s).
Proof.
  induction s as [|c s IH]; intros E; [done|]. cbn. destruct (isspace c) eqn:S; [|done]. apply IH. eapply ends_nul_cons; [done|].
  unfold isspace, is_nul in *. lia.
Qed.

Lemma scan_integer_nul base s : ends_nul s -> 0 <= base ->
  exists neg v rest, scan_integer base s = Ret (neg, v, rest) /\ ends_nul rest /\ match v with Some v => 0 <= v | None => True end.
Proof.
  intros E Hb. unfold scan_integer. apply skip_spaces_nul in E. set (s1 := skip_spaces s) in *. clearbody s1.
  assert (exists neg s2, match s1 with c :: s' => if b2z c =? 45 then (true, s') else if b2z c =? 43 then (false, s') else (false, s1) | [] => (false, s1) end = (neg, s2) /\ ends_nul s2) as (neg & s2 & -> & E2).
  { destruct s1 as [|c s']; [by eexists _, _|]. destruct (Z.eqb_spec (b2z c) 45); [|destruct (Z.eqb_spec (b2z c) 43); [|by eexists _, _]];
      eexists _, _; (split; [done|]); eapply ends_nul_cons; try done; unfold is_nul; lia. }
  set (s3 := match s2 with z :: x :: ((d :: _) as s') => _ | _ => s2 end). assert (ends_nul s3) as E3.
  { unfold s3. destruct s2 as [|z [|x [|d s']]]; try done. destruct (_ && _) eqn:B; [|done]. apply andb_prop in B as [B _]. apply andb_prop in B as [B Bx]. apply andb_prop in B as [_ Bz].
    apply (ends_nul_cons x); [apply (ends_nul_cons z); [done|]|]; unfold is_nul, tolower in *; repeat case_match; lia. }
  clearbody s3. destruct (ends_nul_nonempty _ E3) as (c & s' & ->). destruct (digit_value base c); [|by eexists _, _, _].
  destruct (scan_digits_nul base (c :: s') 0 E3 ltac:(lia) Hb) as (v & rest & -> & Er & Hv). cbn [rbind]. by eexists _, _, _.
Qed.

Lemma strto_unsigned_nul max chk s v0 base e : ends_nul s -> base = 10 \/ base = 16 ->
  exists status v, strto_unsigned max chk (Some s) (Some v0) base e = Ret (status, Some v) /\ (status = SOPC_STATUS_OK -> 0 <= v <= max).
Proof.
  intros E Hb. unfold strto_unsigned. replace (_ && _) with false by (destruct Hb as [-> | ->]; done). unfold strtoul.
  destruct (scan_integer_nul base s E) as (neg & v & rest & -> & Er & Hv); [lia|]. cbn [rbind].
  destruct v as [v|]; [|by eexists _, _]. destruct (ends_nul_nonempty _ Er) as (c & rest' & ->). pose proof (zlen_nonneg rest').
  assert (forall x y, exists status v1, (let* c0 := mem_read (c :: rest') 0 1 in
    if negb (bool_decide (c0 = [e])) || (chk && (x =? ULONG_MAX) && y) || (max <? x) then Ret (SOPC_STATUS_NOK, Some v0) else Ret (SOPC_STATUS_OK, Some x)) = Ret (status, Some v1) /\
    (status = SOPC_STATUS_OK -> v1 = x /\ x <= max)) as X.
  { intros x y. rewrite mem_read_ok by (rewrite ?zlen_cons; lia). cbn [rbind]. destruct (_ || _) eqn:B; eexists _, _; (split; [done|]); [done|]. split; [done|lia]. }
  destruct (Z.ltb_spec ULONG_MAX v) as [B|B].
  - destruct (X ULONG_MAX true) as (st & v1 & -> & Hs). eexists _, _. split; [done|]. intros Ho. destruct (Hs Ho). unfold ULONG_MAX in *. lia.
  - destruct (X (if neg then u64 (- v) else v) false) as (st & v1 & -> & Hs). eexists _, _. split; [done|]. intros Ho. destruct (Hs Ho) as [-> ?].
    pose proof (Z.mod_pos_bound (- v) (2 ^ 64) ltac:(lia)). unfold u64 in *. destruct neg; lia.
Qed.

(** ** The steps of the parser *)

Section Parser.
Context `{Allocator} `{Host}.

(** The characters of the caller can be read: there are enough of them, or a null one. *)
Definition readable_chars (s : block) (n : Z) : Prop := n <= zlen s \/ x00 ∈ s.

Lemma strncpy_bytes_total s n : readable_chars s (Z.of_nat n) -> exists t, strncpy_bytes s n = Ret t /\ length t = n.
Proof.
  revert s. induction n as [|n IH]; intros s R; [by exists []|]. cbn [strncpy_bytes]. destruct s as [|c s].
  - destruct R as [R|R]; [unfold zlen in R; cbn in R; lia|by apply not_elem_of_nil in R].
  - destruct (is_nul c) eqn:N; [eexists; split; [done|]; cbn; by rewrite length_replicate|].
    destruct (IH s) as (t & -> & L).
    + destruct R as [R|R]; [left; rewrite zlen_cons in R; lia|right]. apply elem_of_cons in R as [<- |R]; [done|done].
    + cbn [rbind]. eexists. split; [done|]. cbn. by rewrite L.
Qed.

Lemma strncpy_total s n : readable_chars s n -> 0 <= n -> exists t, strncpy (printed [] (n + 1)) s n = Ret (t ++ [x00]) /\ zlen t = n.
Proof.
  intros R Hn. destruct (strncpy_bytes_total s (Z.to_nat n)) as (t & E & L); [by rewrite Z2Nat.id|]. exists t. assert (zlen t = n) as Lt by (unfold zlen; lia).
  split; [|done]. unfold strncpy. rewrite E. cbn [rbind]. rewrite write_printed by (change (zlen (@nil byte)) with 0; lia). unfold printed.
  by replace (n + 1 - zlen t) with 1 by lia.
Qed.

Lemma strchr_nul s c : ends_nul s -> c <> x00 ->
  exists o, strchr s c = Ret o /\ match o with Some p => 0 <= p < zlen s - 1 | None => True end.
Proof.
  intros E Nc. induction s as [|x s IH]; [by destruct (ends_nul_nonempty _ E) as (? & ? & ?)|]. cbn [strchr].
  destruct (bool_decide_reflect (x = c)) as [-> |N].
  - eexists. split; [done|]. cbn beta iota. assert (is_nul c = false) as Hc by (destruct (is_nul c) eqn:Z0; [by apply is_nul_eq in Z0|done]).
    pose proof (ends_nul_cons _ _ E Hc) as [t ->]. rewrite zlen_cons, zlen_app. pose proof (zlen_nonneg t). change (zlen [x00]) with 1. lia.
  - destruct (is_nul x) eqn:Z0; [by eexists|]. destruct (IH (ends_nul_cons _ _ E Z0)) as (o & -> & Ho). cbn [rbind]. eexists. split; [done|].
    destruct o as [p|]; cbn [option_map]; [|done]. rewrite zlen_cons. lia.
Qed.

Lemma char_at_total s k : 0 <= k < zlen s -> exists c, char_at s k = Ret c.
Proof. intros R. unfold char_at. rewrite mem_read_ok by lia. cbn [rbind]. by eexists. Qed.

Lemma zlen_ends_nul t : zlen (t ++ [x00]) = zlen t + 1.
Proof. by rewrite zlen_app. Qed.

Lemma ends_nul_suffix t k : 0 <= k <= zlen t -> ends_nul (drop (Z.to_nat k) (t ++ [x00])).
Proof. intros R. apply ends_nul_drop; [by eexists|]. rewrite length_app. cbn. unfold zlen in R. lia. Qed.

Lemma parse_namespace_total t : 2 <= zlen t ->
  exists status ns p, parse_namespace (t ++ [x00]) = Ret (status, ns, p) /\ 0 <= p <= zlen t /\ (status = SOPC_STATUS_OK -> in_u 16 ns).
Proof.
  intros L. unfold parse_namespace. destruct (strchr_nul (t ++ [x00]) x3b) as (o & -> & Ho); [by eexists|done|]. cbn [rbind]. rewrite zlen_ends_nul in Ho.
  destruct o as [p|]; [|eexists _, _, _; split; [done|]; split; [lia|done]]. rewrite mem_read_ok by (rewrite ?zlen_ends_nul; lia). cbn [rbind].
  destruct (memcmp _ _ =? 0) eqn:Em; cbn [negb rbind deref]; [|eexists _, _, _; split; [done|]; split; [lia|done]].
  assert (3 <= zlen t) as L3.
  { destruct (decide (zlen t = 2)) as [E2|]; [|lia]. destruct t as [|a [|b [|c t]]]; try (exfalso; by unfold zlen in E2; cbn in E2; lia).
    apply Z.eqb_eq, memcmp_eq in Em; [|done]. done. }
  unfold SOPC_strtouint16_t. destruct (strto_unsigned_nul UINT16_MAX false (drop 3 (t ++ [x00])) 0 10 x3b) as (st & v & -> & Hv); [|by left|].
  - apply (ends_nul_suffix t 3). lia.
  - cbn [rbind deref]. eexists _, _, _. split; [done|]. split; [lia|]. intros Ho'. specialize (Hv Ho'). unfold in_u, UINT16_MAX in *. lia.
Qed.

(** What the first part finds is coherent. *)
Definition found_ok (t : block) (f : parsed_nodeid) : Prop :=
  2 <= parsed_pos f <= zlen t /\ in_u 16 (parsed_ns f) /\ in_u 32 (parsed_numeric f) /\
  (parsed_type f = SOPC_IdentifierType_Guid -> parsed_guid f = Some guid_init).

Lemma parse_text_total t : 2 <= zlen t ->
  exists status f, parse_text (t ++ [x00]) (zlen t) = Ret (status, f) /\ (status = SOPC_STATUS_OK -> found_ok t f).
Proof.
  intros L. unfold parse_text. destruct (parse_namespace_total t L) as (st & ns & p & -> & Rp & Hns). cbn [rbind].
  destruct (is_ok st) eqn:O; cbn [negb]; [|eexists _, _; split; [done|by destruct st]]. assert (st = SOPC_STATUS_OK) as -> by (by destruct st). specialize (Hns eq_refl).
  destruct (Z.ltb_spec (zlen t - p) 2) as [S|S]; [by eexists _, _|]. destruct (char_at_total (t ++ [x00]) (p + 1)) as (c & ->); [rewrite zlen_ends_nul; lia|]. cbn [rbind].
  destruct (negb _); [by eexists _, _|]. unfold parse_type. destruct (char_at_total (t ++ [x00]) p) as (d & ->); [rewrite zlen_ends_nul; lia|]. cbn [rbind].
  assert (in_u 32 0) as Z0 by (by vm_compute).
  repeat case_bool_decide.
  - unfold SOPC_strtouint32_t. destruct (strto_unsigned_nul UINT32_MAX true (drop (Z.to_nat (p + 2)) (t ++ [x00])) 0 10 x00) as (st & v & -> & Hv); [|by left|].
    + apply ends_nul_suffix. lia.
    + cbn [rbind deref]. eexists _, _. split; [done|]. intros Ho. specialize (Hv Ho). split; [cbn; lia|]. split; [done|]. split; [|done]. unfold in_u, UINT32_MAX in *. cbn. lia.
  - eexists _, _. split; [done|]. intros _. split; [cbn; lia|done].
  - destruct (alloc_ok sizeof_Guid); eexists _, _; (split; [done|]); [|done]. intros _. split; [cbn; lia|done].
  - eexists _, _. split; [done|]. intros _. split; [cbn; lia|done].
  - by eexists _, _.
Qed.

(** *** Guid *)

Lemma parse_data4_total n pos i s d4 : 0 <= pos -> pos + 2 * Z.of_nat n <= zlen s ->
  exists status d, parse_data4 n pos i s d4 = Ret (status, d) /\ length d = length d4.
Proof.
  revert pos i d4. induction n as [|n IH]; intros pos i d4 Hp L; cbn [parse_data4]; [by eexists _, _|].
  destruct (char_at_total s pos) as (c0 & ->); [lia|]. destruct (char_at_total s (pos + 1)) as (c1 & ->); [lia|]. cbn [rbind].
  unfold SOPC_strtouint8_t. destruct (strto_unsigned_nul UINT8_MAX false [c0; c1; x00; x00] 0 16 x00) as (st & v & -> & _); [by exists [c0; c1; x00]|by right|].
  cbn [rbind deref]. destruct (is_ok st); [|by eexists _, _]. destruct (IH (pos + 2) (S i) (<[i:=z2b v]> d4)) as (st' & d & -> & Ld); [lia..|].
  eexists _, _. split; [done|]. by rewrite Ld, length_insert.
Qed.

Lemma parse_if max s (cond : SOPC_ReturnStatus) v0 e : ends_nul s ->
  exists status v, (if is_ok cond then strto_unsigned max false (Some s) (Some v0) 16 e else Ret (cond, Some v0)) = Ret (status, Some v) /\
    (is_ok status = true -> is_ok cond = true /\ 0 <= v <= max).
Proof.
  intros E. destruct (is_ok cond) eqn:O; [|eexists _, _; split; [done|by rewrite O]].
  destruct (strto_unsigned_nul max false s v0 16 e E) as (st & v & -> & Hv); [by right|]. eexists _, _. split; [done|]. intros Ho. split; [done|]. apply Hv. by destruct st.
Qed.

Lemma Guid_FromCString_total s len : ends_nul s -> zlen s = len + 1 -> 0 <= len < 2 ^ 31 ->
  exists status g, SOPC_Guid_FromCString (Some guid_init) (Some s) (u64 len) = Ret (status, Some g) /\ (status = SOPC_STATUS_OK -> guid_wf g).
Proof.
  intros E L Hl. unfold SOPC_Guid_FromCString, guid_text_invalid. replace (u64 len) with len by (unfold u64; rewrite Z.mod_small; lia).
  destruct (Z.eqb_spec len GUID_TEXT_LENGTH) as [-> |N]; cbn [negb rbind]; [|by eexists _, _]. unfold GUID_TEXT_LENGTH in *.
  destruct (char_at_total s 8) as (c8 & ->); [lia|]. destruct (char_at_total s 13) as (c13 & ->); [lia|]. destruct (char_at_total s 18) as (c18 & ->); [lia|].
  destruct (char_at_total s 23) as (c23 & ->); [lia|]. cbn [rbind]. destruct (negb _); [by eexists _, _|].
  unfold SOPC_strtouint32_t, SOPC_strtouint16_t. destruct (strto_unsigned_nul UINT32_MAX true s (Data1 guid_init) 16 x2d E) as (st1 & d1 & -> & H1); [by right|]. cbn [rbind deref].
  destruct (parse_if UINT16_MAX (drop 9 s) st1 (Data2 guid_init) x2d) as (st2 & d2 & -> & H2); [apply ends_nul_drop; [done|unfold zlen in L; lia]|]. cbn [rbind deref].
  destruct (parse_if UINT16_MAX (drop 14 s) st2 (Data3 guid_init) x2d) as (st3 & d3 & -> & H3); [apply ends_nul_drop; [done|unfold zlen in L; lia]|]. cbn [rbind deref].
  assert (exists st4 d4, (if is_ok st3 then parse_data4 2 19 0 s (Data4 guid_init) else Ret (st3, Data4 guid_init)) = Ret (st4, d4) /\ length d4 = 8%nat /\ (is_ok st4 = true -> is_ok st3 = true)) as (st4 & d4 & -> & L4 & H4).
  { destruct (is_ok st3) eqn:O; [|eexists _, _; split; [done|]; by rewrite O]. destruct (parse_data4_total 2 19 0 s (Data4 guid_init)) as (st & d & -> & Ld); [lia..|]. by eexists _, _. }
  cbn [rbind]. assert (exists st5 d5, (if is_ok st4 then parse_data4 6 24 2 s d4 else Ret (st4, d4)) = Ret (st5, d5) /\ length d5 = 8%nat /\ (is_ok st5 = true -> is_ok st4 = true)) as (st5 & d5 & -> & L5 & H5).
  { destruct (is_ok st4) eqn:O; [|eexists _, _; split; [done|]; by rewrite O]. destruct (parse_data4_total 6 24 2 s d4) as (st & d & -> & Ld); [lia..|]. eexists _, _. by rewrite Ld. }
  cbn [rbind]. eexists _, _. split; [done|]. intros ->. destruct (H3 (H4 (H5 eq_refl))) as [O2 R3]. destruct (H2 O2) as [O1 R2]. assert (st1 = SOPC_STATUS_OK) as -> by (by destruct st1).
  specialize (H1 eq_refl). unfold guid_wf, in_u, UINT32_MAX, UINT16_MAX, zlen in *. cbn. lia.
Qed.

(** *** The identifier *)

Lemma strlen_nul s : ends_nul s -> exists n, strlen s = Ret n /\ 0 <= n < zlen s.
Proof.
  induction s as [|c s IH]; intros E; [by destruct (ends_nul_nonempty _ E) as (? & ? & ?)|]. cbn [strlen]. rewrite zlen_cons. pose proof (zlen_nonneg s).
  destruct (is_nul c) eqn:N; [eexists; split; [done|lia]|]. destruct (IH (ends_nul_cons _ _ E N)) as (n & -> & R). cbn [rbind]. eexists. split; [done|lia].
Qed.

Lemma zlen_malloc n m : 0 <= n -> SOPC_Malloc n = Some m -> zlen m = n.
Proof. apply SOPC_Malloc_length. Qed.

Lemma String_from_total p : ends_nul p -> zlen p <= 2 ^ 31 ->
  exists status s, SOPC_String_InitializeFromCString (Some string_init) (Some p) = Ret (status, Some s) /\ (status = SOPC_STATUS_OK -> string_wf s).
Proof.
  intros E L. unfold SOPC_String_InitializeFromCString. change (SOPC_String_Initialize (Some string_init)) with (Some string_init).
  unfold SOPC_String_CopyFromCString. cbn [Data string_init is_null negb]. destruct (strlen_nul p E) as (n & -> & R). cbn [rbind].
  destruct (Z.ltb_spec 0 n) as [P|N]; cbn [andb].
  - replace (n <=? INT32_MAX) with true by (unfold INT32_MAX; lia). rewrite Z.mul_1_l. destruct (SOPC_Malloc (n + 1)) as [m|] eqn:Em; [|by eexists _, _].
    apply zlen_malloc in Em; [|lia]. rewrite memcpy_prefix by lia. cbn [rbind]. eexists _, _. split; [done|]. intros _. split; [unfold in_s; cbn; lia|].
    intros _. eexists. split; [done|]. cbn. rewrite zlen_splice by (rewrite ?zlen_take; lia). lia.
  - replace (n =? 0) with true by lia. eexists _, _. split; [done|]. intros _. split; [by vm_compute|cbn; lia].
Qed.

Lemma Bytes_from_total p n : n <= zlen p -> n < 2 ^ 31 ->
  exists status s, SOPC_ByteString_CopyFromBytes (Some string_init) (Some p) n = Ret (status, Some s) /\ (status = SOPC_STATUS_OK -> string_wf s).
Proof.
  intros L R. unfold SOPC_ByteString_CopyFromBytes. destruct (Z.ltb_spec 0 n) as [P|N]; [|by eexists _, _].
  replace (n * 1 <=? SIZE_MAX) with true by (unfold SIZE_MAX; lia). cbn [andb]. rewrite Z.mul_1_l. destruct (SOPC_Malloc n) as [m|] eqn:Em; [|by eexists _, _].
  apply zlen_malloc in Em; [|lia]. rewrite memcpy_prefix by lia. cbn [rbind]. eexists _, _. split; [done|]. intros _. split; [unfold in_s; cbn; lia|].
  intros _. eexists. split; [done|]. cbn. rewrite zlen_splice by (rewrite ?zlen_take; lia). lia.
Qed.

Lemma set_identifier_total n0 t f : NodeIdData_ n0 = DataZero -> zlen t < 2 ^ 31 -> found_ok t f ->
  exists status n, set_identifier n0 (t ++ [x00]) (zlen t) f = Ret (status, n) /\ nodeid_sane n /\ (status = SOPC_STATUS_OK -> nodeid_wf n).
Proof.
  intros Z0 L (Rp & Rn & Ri & Hg). unfold set_identifier. rewrite Z0. set (p := drop (Z.to_nat (parsed_pos f)) (t ++ [x00])).
  assert (ends_nul p) as Ep by (apply ends_nul_suffix; lia). assert (zlen p = zlen t - parsed_pos f + 1) as Lp by (unfold p; rewrite zlen_drop, zlen_ends_nul by (rewrite ?zlen_ends_nul; lia); lia).
  destruct (parsed_type f); [| |specialize (Hg eq_refl)|].
  - eexists _, _. split; [done|]. split; [by eexists|]. intros _. split; [done|]. by exists (INumeric (parsed_numeric f)).
  - destruct (String_from_total p Ep ltac:(lia)) as (st & s & -> & Ws). cbn [rbind deref]. eexists _, _. split; [done|]. split; [by eexists|]. intros Ho. split; [done|]. eexists. split; [done|]. by apply Ws.
  - rewrite Hg. destruct (Guid_FromCString_total p (zlen t - parsed_pos f) Ep Lp ltac:(lia)) as (st & g & -> & Wg). cbn [rbind].
    eexists _, _. split; [done|]. destruct (is_ok st) eqn:O; (split; [by eexists|]); intros ->; [|done]. split; [done|]. eexists. split; [done|]. by apply Wg.
  - change (SOPC_ByteString_Initialize (Some string_init)) with (Some string_init).
    destruct (Bytes_from_total p (zlen t - parsed_pos f) ltac:(lia) ltac:(lia)) as (st & s & -> & Ws). cbn [rbind deref].
    eexists _, _. split; [done|]. split; [by eexists|]. intros Ho. split; [done|]. eexists. split; [done|]. by apply Ws.
Qed.

(** What the number reads as after a clear: the length of the cleared string, without its
    sign, or zero. *)
Definition cleared_number (t : SOPC_IdentifierType) : Z :=
  match t with SOPC_IdentifierType_String | SOPC_IdentifierType_ByteString => UINT32_MAX | _ => 0 end.

Lemma cleared_nodeid n n' : SOPC_NodeId_Clear (Some n) = Ret (Some n') ->
  Namespace n' = 0 /\ IdentifierType n' = SOPC_IdentifierType_Numeric /\ data_Numeric (NodeIdData_ n') = Ret (cleared_number (IdentifierType n)).
Proof.
  unfold SOPC_NodeId_Clear. intros E. apply rbind_Ret_inv in E as (d & Ed & E). simplify_eq. cbn in *. split; [done|]. split; [done|].
  destruct (IdentifierType n); cbn in Ed; simplify_eq; try done; apply rbind_Ret_inv in Ed as (x & _ & Ed); by simplify_eq.
Qed.

(** C16: the parser of node identifiers returns on any text of at least two characters,
    whatever the characters and the memory: it reads neither beyond the text nor beyond its
    copy, and the identifiers that it accepts are well formed.  The identifier of a text
    that is refused is in memory that can be cleared again; it is a number of the namespace
    zero, but not always null: it is 4294967295 when a string or a byte string was cleared
    ([refused_not_null]). *)
Theorem nodeid_parser_total (s : block) (len : Z) :
  readable_chars s len -> 2 <= len < 2 ^ 31 ->
  exists status n, SOPC_NodeId_InitializeFromCString (Some nodeid_init) (Some s) len = Ret (status, Some n) /\
    nodeid_sane n /\ (status = SOPC_STATUS_OK -> nodeid_wf n) /\
    (status <> SOPC_STATUS_OK -> Namespace n = 0 /\ IdentifierType n = SOPC_IdentifierType_Numeric /\
       (data_Numeric (NodeIdData_ n) = Ret 0 \/ data_Numeric (NodeIdData_ n) = Ret 4294967295)).
Proof.
  intros R L. unfold SOPC_NodeId_InitializeFromCString. replace (len <=? 0) with false by lia.
  assert (exists st n, match SOPC_Calloc (len + 1) with
    | NULL => Ret (SOPC_STATUS_OUT_OF_MEMORY, nodeid_init)
    | Some sz => let* sz := strncpy sz s len in let* (st, f) := parse_text sz len in if is_ok st then set_identifier nodeid_init sz len f else Ret (st, nodeid_init)
    end = Ret (st, n) /\ nodeid_sane n /\ (st = SOPC_STATUS_OK -> nodeid_wf n)) as (st & n & -> & Sn & Wn).
  { unfold SOPC_Calloc. destruct (alloc_ok _); [|eexists _, _; split; [done|]; split; [by eexists|done]].
    change (replicate (Z.to_nat (len + 1)) x00) with (printed [] (len + 1)). destruct (strncpy_total s len R ltac:(lia)) as (t & -> & <-). cbn [rbind].
    destruct (parse_text_total t ltac:(lia)) as (st & f & -> & Hf). cbn [rbind]. destruct (is_ok st) eqn:O.
    - apply set_identifier_total; [done|lia|]. apply Hf. by destruct st.
    - eexists _, _. split; [done|]. split; [by eexists|]. intros ->. done. }
  cbn [rbind]. destruct (is_ok st) eqn:O.
  - eexists _, _. split; [done|]. split; [done|]. split; [done|]. intros N. by destruct st.
  - destruct Sn as [n' En]. rewrite En. cbn [rbind]. eexists _, _. split; [done|]. split; [by eapply nodeid_clear_sane|]. split; [by intros ->|]. intros _.
    destruct (cleared_nodeid n n' En) as (H1 & H2 & ->). split; [done|]. split; [done|]. destruct (IdentifierType n); first [by left|by right].
Qed.

(** The text [b=] is refused, and the identifier is [i=4294967295]. *)
Example refused_not_null :
  match @SOPC_NodeId_InitializeFromCString serving_allocator (Some nodeid_init) (Some [x62; x3d; x00]) 2 with
  | Ret (status, Some n) => is_ok status = false /\ data_Numeric (NodeIdData_ n) = Ret 4294967295 /\ SOPC_NodeId_IsNull (Some n) = Ret false
  | _ => False
  end.
Proof. by vm_compute. Qed.

(** A text of one character that is a semicolon is compared beyond the block of its copy. *)
Example semicolon_out_of_bounds :
  @SOPC_NodeId_InitializeFromCString serving_allocator (Some nodeid_init) (Some [x3b; x00]) 1 = Fault OutOfBounds.
Proof. reflexivity. Qed.

End Parser.

Lemma nodeid_parser_total_witness :
  exists status n, @SOPC_NodeId_InitializeFromCString serving_allocator (Some nodeid_init) (Some [x69; x3d; x38; x34; x00]) 4 = Ret (status, Some n) /\ nodeid_sane n.
Proof.
  destruct (@nodeid_parser_total serving_allocator [x69; x3d; x38; x34; x00] 4) as (st & n & E & S & _).
  - left. by vm_compute.
  - lia.
  - exact (ex_intro _ st (ex_intro _ n (conj E S))).
Defined.
