(* ===== verification/DynArray.v ===== *)
(** * Dynamic arrays

    Model of [src/src/Common/helpers/sopc_array.c]: a block of bytes that grows by
    doubling, seen as a sequence of elements of the same size.  The function of the C
    library that sorts is the parameter [Qsort]: it is only known to permute the
    elements. *)

From Stdlib Require Import ZArith Lia.
From Stdlib Require Import Strings.Byte.
From stdpp Require Import prelude.
From S2P Require Import Prelude Common.

Open Scope Z_scope.

(** [qsort] on elements, with the comparison function of the user. *)
Class Qsort := { qsort : (block -> block -> Z) -> list block -> list block }.

Section Arrays.
Context `{Allocator} {Free_Func : Type}.

Record SOPC_Array := mkArray {
  data : ptr block;
  element_size : Z;
  sz : Z;
  cap : Z;
  free_func : ptr Free_Func
}.

(** [sizeof(SOPC_Array)] *)
Definition sizeof_Array : Z := 40.

(** The loop that doubles the capacity; it does not end when no 64 bit power of two
    multiple of the capacity is large enough, hence the fuel. *)
Fixpoint double_capacity (fuel : nat) (cap min_size : Z) : res Z :=
  match fuel with
  | O => Fault OutOfFuel
  | S fuel => if cap <? min_size then double_capacity fuel (u64 (cap * 2)) min_size else Ret cap
  end.

Definition array_grow (a : SOPC_Array) (min_size : Z) : res (bool * SOPC_Array) :=
  if min_size <=? cap a then Ret (true, a)
  else
    let* c := double_capacity 65 (if cap a =? 0 then 1 else cap a) min_size in
    match SOPC_Realloc (default [] (data a)) (u64 (c * element_size a)) with
    | NULL => Ret (false, a)
    | Some d => Ret (true, mkArray (Some d) (element_size a) (sz a) c (free_func a))
    end.

Definition SOPC_Array_Create (element_size initial_capacity : Z) (free_func : ptr Free_Func) : res (ptr SOPC_Array) :=
  if alloc_ok sizeof_Array then
    let* (ok, a) := array_grow (mkArray NULL element_size 0 0 free_func) initial_capacity in
    Ret (if ok then Some a else NULL)
  else Ret NULL.

Definition SOPC_Array_Copy (array : ptr SOPC_Array) : res (ptr SOPC_Array) :=
  match array with
  | NULL => Fault AssertFailed
  | Some array =>
      let* copy := SOPC_Array_Create (element_size array) (sz array) (free_func array) in
      match copy with
      | NULL => Ret NULL
      | Some copy =>
          let* d :=
            match data copy with
            | NULL => Ret NULL
            | Some d =>
                let* src := deref (data array) in
                let* d := memcpy d 0 src 0 (u64 (element_size array * sz array)) in
                Ret (Some d)
            end in
          Ret (Some (mkArray d (element_size copy) (sz array) (cap copy) (free_func copy)))
      end
  end.

(** The elements that the function of the user frees, in order. *)
Fixpoint elements_from (n : nat) (i : nat) (es : Z) (d : block) : res (list block) :=
  match n with
  | O => Ret []
  | S n =>
      let* e := mem_read d (Z.of_nat i * es) es in
      let* l := elements_from n (S i) es d in
      Ret (e :: l)
  end.

Definition SOPC_Array_Delete (array : ptr SOPC_Array) : res (list block) :=
  match array with
  | NULL => Ret []
  | Some a =>
      if is_null (free_func a) then Ret []
      else elements_from (Z.to_nat (sz a)) 0 (element_size a) (default [] (data a))
  end.

Definition SOPC_Array_Append_Values (array : ptr SOPC_Array) (values : ptr block) (n_elements : Z) : res (bool * ptr SOPC_Array) :=
  match array with
  | NULL => Fault AssertFailed
  | Some a =>
      if n_elements =? 0 then Ret (true, array)
      else
        let* (ok, a) := array_grow a (u64 (sz a + n_elements)) in
        if negb ok then Ret (false, Some a)
        else
          let* d := deref (data a) in
          let off := u64 (sz a * element_size a) in
          let n := u64 (n_elements * element_size a) in
          let* d := match values with Some v => memcpy d off v 0 n | NULL => memset0 d off n end in
          Ret (true, Some (mkArray (Some d) (element_size a) (u64 (sz a + n_elements)) (cap a) (free_func a)))
  end.

(** The offset of the element in the data. *)
Definition SOPC_Array_Get_Ptr (array : ptr SOPC_Array) (index : Z) : res Z :=
  match array with
  | NULL => Fault AssertFailed
  | Some a =>
      assert! index <? sz a in
      Ret (u64 (index * element_size a))
  end.

Definition SOPC_Array_Size (array : ptr SOPC_Array) : res Z :=
  match array with NULL => Fault AssertFailed | Some a => Ret (sz a) end.

Definition SOPC_Array_Sort `{Qsort} (array : ptr SOPC_Array) (compare_func : block -> block -> Z) : res (ptr SOPC_Array) :=
  match array with
  | NULL => Fault AssertFailed
  | Some a =>
      let* l := elements_from (Z.to_nat (sz a)) 0 (element_size a) (default [] (data a)) in
      let d := mjoin (qsort compare_func l) ++ drop (Z.to_nat (sz a * element_size a)) (default [] (data a)) in
      Ret (Some (mkArray (if is_null (data a) then NULL else Some d) (element_size a) (sz a) (cap a) (free_func a)))
  end.

(** The data, cut to the elements; the array is freed. *)
Definition SOPC_Array_Into_Raw (array : ptr SOPC_Array) : res (ptr block) :=
  match array with
  | NULL => Fault AssertFailed
  | Some a =>
      if sz a <? cap a then Ret (SOPC_Realloc (default [] (data a)) (u64 (sz a * element_size a)))
      else Ret (data a)
  end.

Definition SOPC_Array_Get_Free_Func (array : ptr SOPC_Array) : res (ptr Free_Func) :=
  match array with NULL => Fault AssertFailed | Some a => Ret (free_func a) end.

Definition SOPC_Array_Set_Free_Func (array : ptr SOPC_Array) (func : ptr Free_Func) : res (ptr SOPC_Array) :=
  match array with
  | NULL => Fault AssertFailed
  | Some a => Ret (Some (mkArray (data a) (element_size a) (sz a) (cap a) func))
  end.

(** Writing an element through its pointer. *)
Definition write_element (array : SOPC_Array) (off : Z) (bytes : block) : res SOPC_Array :=
  let* d := deref (data array) in
  let* d := mem_write d off bytes in
  Ret (mkArray (Some d) (element_size array) (sz array) (cap array) (free_func array)).

(** ** The array as a sequence *)

Record Array_Inv (a : SOPC_Array) : Prop := {
  arr_element : 0 < element_size a;
  arr_size : 0 <= sz a <= cap a;
  arr_bytes : cap a * element_size a < 2 ^ 63;
  arr_data : zlen (default [] (data a)) = cap a * element_size a;
  arr_null : data a = NULL -> cap a = 0
}.

(** The bytes of the elements. *)
Definition stored_bytes (a : SOPC_Array) : block := take (Z.to_nat (sz a * element_size a)) (default [] (data a)).

Definition array_of (a : SOPC_Array) (n c : Z) (d : block) : SOPC_Array := mkArray (Some d) (element_size a) n c (free_func a).

Lemma double_capacity_spec fuel c m : 0 < c -> 0 < m < 2 ^ 62 -> c < 2 ^ 63 -> m <= c * 2 ^ Z.of_nat fuel ->
  exists c', double_capacity (S fuel) c m = Ret c' /\ m <= c' /\ c <= c' < Z.max (c + 1) (2 * m).
Proof.
  revert c. induction fuel as [|fuel IH]; intros c Hc Hm Hb Hf.
  - cbn [double_capacity]. replace (c <? m) with false by (cbn in Hf; lia). exists c. split; [done|lia].
  - cbn [double_capacity]. destruct (Z.ltb_spec c m) as [L|L]; [|exists c; split; [done|lia]].
    rewrite Nat2Z.inj_succ, Z.pow_succ_r in Hf by lia. unfold u64. rewrite Z.mod_small by lia.
    destruct (IH (c * 2)) as (c' & E & Hc1 & Hc2); [lia..|nia|]. exists c'. split; [exact E|lia].
Qed.

Lemma array_grow_spec a m : Array_Inv a -> 0 <= m < 2 ^ 62 -> 2 * m * element_size a < 2 ^ 63 ->
  exists ok a', array_grow a m = Ret (ok, a') /\ Array_Inv a' /\ element_size a' = element_size a /\ free_func a' = free_func a /\ sz a' = sz a /\
    stored_bytes a' = stored_bytes a /\ (ok = true -> m <= cap a' /\ (0 < m -> data a' <> NULL)) /\ (ok = false -> a' = a /\ exists n, alloc_ok n = false).
Proof.
  intros I Hm Hb. pose proof I as [Ie Is Ib Id In]. unfold array_grow. destruct (Z.leb_spec m (cap a)) as [L|G].
  - exists true, a. split; [done|]. split_and!; try done. intros _. split; [done|]. intros Hp Hn. specialize (In Hn). lia.
  - set (c := if cap a =? 0 then 1 else cap a). assert (0 < c /\ cap a <= c /\ c <= m /\ c < 2 ^ 62) as (C1 & C2 & C3 & C4) by (unfold c; destruct (Z.eqb_spec (cap a) 0); lia).
    destruct (double_capacity_spec 64 c m) as (c' & E & M1 & M2); [lia|lia|lia|change (2 ^ Z.of_nat 64) with (2 ^ 64); lia|]. rewrite E. cbn [rbind].
    assert (c' * element_size a < 2 ^ 63) as Bc by nia. assert (0 <= c' * element_size a) by nia. unfold u64. rewrite Z.mod_small by lia.
    destruct (SOPC_Realloc (default [] (data a)) (c' * element_size a)) as [d|] eqn:R.
    + assert (alloc_ok (c' * element_size a) = true) as A by (unfold SOPC_Realloc in R; by destruct (alloc_ok _)).
      destruct (SOPC_Realloc_spec (default [] (data a)) (c' * element_size a)) as (d' & R' & Ld & Td); [rewrite Id; nia|done|]. rewrite R in R'. simplify_eq.
      eexists true, _. split; [done|]. split_and!; try done.
      * split; cbn; try done; try lia.
      * unfold stored_bytes. cbn. rewrite <- Td. rewrite take_take. f_equal. unfold zlen in Id. nia.
    + exists false, a. split; [done|]. split_and!; try done. intros _. split; [done|]. unfold SOPC_Realloc in R. destruct (alloc_ok _) eqn:A; [done|]. by eexists.
Qed.

(** What is appended: the values, or zeros. *)
Definition appended (values : ptr block) (n : Z) : block :=
  match values with Some v => take (Z.to_nat n) v | NULL => replicate (Z.to_nat n) x00 end.

Lemma zlen_appended values n : 0 <= n -> match values with Some v => n <= zlen v | NULL => True end -> zlen (appended values n) = n.
Proof. intros Hn Hv. unfold appended. destruct values; [apply zlen_take; lia|by apply zlen_replicate]. Qed.

Lemma write_appended d off values n : 0 <= off -> 0 <= n -> off + n <= zlen d -> match values with Some v => n <= zlen v | NULL => True end ->
  match values with Some v => memcpy d off v 0 n | NULL => memset0 d off n end = Ret (splice d off (appended values n)).
Proof.
  intros Ho Hn L Hv. pose proof (zlen_appended values n Hn Hv) as La. destruct values as [v|]; cbn [appended] in *.
  - unfold memcpy. rewrite mem_read_ok by lia. cbn [rbind Z.to_nat]. rewrite drop_0. apply mem_write_ok; lia.
  - unfold memset0. apply mem_write_ok; lia.
Qed.

Lemma stored_append d es n m x c (f : ptr Free_Func) : 0 < es -> 0 <= n -> 0 <= m -> (n + m) * es <= zlen d -> zlen x = m * es ->
  stored_bytes (mkArray (Some (splice d (n * es) x)) es (n + m) c f) = stored_bytes (mkArray (Some d) es n c f) ++ x.
Proof.
  intros He Hn Hm L Lx. unfold stored_bytes. cbn [sz element_size data default from_option Datatypes.id].
  replace ((n + m) * es) with (n * es + zlen x) by lia. apply take_splice_end. nia.
Qed.

(** The operation that appends. *)
Lemma Array_Append_spec a values n : Array_Inv a -> 0 <= n -> sz a + n < 2 ^ 62 -> 2 * (sz a + n) * element_size a < 2 ^ 63 ->
  match values with Some v => n * element_size a <= zlen v | NULL => True end ->
  exists ok a', SOPC_Array_Append_Values (Some a) values n = Ret (ok, Some a') /\ Array_Inv a' /\ element_size a' = element_size a /\ free_func a' = free_func a /\
    if ok : bool then sz a' = sz a + n /\ stored_bytes a' = stored_bytes a ++ appended values (n * element_size a)
    else sz a' = sz a /\ stored_bytes a' = stored_bytes a /\ exists k, alloc_ok k = false.
Proof.
  intros I Hn B1 B2 Hv. pose proof I as [Ie Is Ib Id In]. unfold SOPC_Array_Append_Values. destruct (Z.eqb_spec n 0) as [-> |Nz].
  { exists true, a. split; [done|]. split_and!; try done; [lia|]. rewrite Z.mul_0_l. by destruct values; rewrite app_nil_r. }
  unfold u64 at 1. rewrite (Z.mod_small (sz a + n)) by lia.
  destruct (array_grow_spec a (sz a + n) I) as (ok & a1 & -> & I1 & E1 & F1 & S1 & St & Hok & Hno); [lia|lia|]. cbn [rbind].
  destruct ok; cbn [negb]; [|exists false, a1; split; [done|]; destruct (Hno eq_refl) as [-> ?]; done].
  destruct (Hok eq_refl) as [C1 D1]. destruct (data a1) as [d|] eqn:Ed; [|destruct D1; [lia|done]]. cbn [deref rbind]. pose proof I1 as [Ie1 Is1 Ib1 Id1 In1].
  rewrite Ed in Id1. cbn [default from_option Datatypes.id] in Id1. rewrite S1, E1 in *.
  assert (0 <= sz a * element_size a) by nia. assert (0 <= n * element_size a) by nia. assert (sz a * element_size a + n * element_size a <= zlen d) by nia.
  unfold u64. rewrite !(Z.mod_small (_ * _)), (Z.mod_small (sz a + n)) by lia. rewrite write_appended by (lia || done). cbn [rbind].
  pose proof (zlen_appended values (n * element_size a) ltac:(lia) Hv) as La.
  eexists true, _. split; [done|]. split_and!; try done.
  - split; cbn; try done; try lia. rewrite zlen_splice; lia.
  - rewrite stored_append by (lia || nia). f_equal. rewrite <- St. unfold stored_bytes. cbn. by rewrite Ed, S1, E1.
Qed.

(** Creation, and the data that are given to the caller. *)
Lemma Array_Create_spec es c (f : ptr Free_Func) : 0 < es -> 0 <= c < 2 ^ 62 -> 2 * c * es < 2 ^ 63 ->
  exists r, SOPC_Array_Create es c f = Ret r /\
    match r with
    | Some a => Array_Inv a /\ element_size a = es /\ sz a = 0 /\ free_func a = f /\ stored_bytes a = []
    | NULL => exists k, alloc_ok k = false
    end.
Proof.
  intros He Hc Hb. unfold SOPC_Array_Create. destruct (alloc_ok sizeof_Array) eqn:A; [|eexists; split; [done|]; by eexists].
  assert (Array_Inv (mkArray NULL es 0 0 f)) as I0 by (split; cbn; try done; lia).
  destruct (array_grow_spec _ c I0) as (ok & a & -> & I & E & F & S & St & _ & Hno); [done|cbn; lia|]. cbn [rbind].
  destruct ok; eexists; (split; [done|]); [|by destruct (Hno eq_refl)]. cbn beta iota. by rewrite E, F, S, St.
Qed.

Lemma Into_Raw_spec a : Array_Inv a ->
  exists r, SOPC_Array_Into_Raw (Some a) = Ret r /\ match r with Some d => d = stored_bytes a | NULL => sz a = 0 \/ exists k, alloc_ok k = false end.
Proof.
  intros I. pose proof I as [Ie Is Ib Id In]. unfold SOPC_Array_Into_Raw. destruct (Z.ltb_spec (sz a) (cap a)) as [L|G].
  - eexists. split; [done|]. unfold u64. rewrite Z.mod_small by nia. unfold SOPC_Realloc. destruct (alloc_ok _) eqn:A; [|right; by eexists].
    unfold stored_bytes. replace (Z.to_nat (sz a * element_size a) - length (default [] (data a)))%nat with O by (unfold zlen in Id; nia). cbn [seq map]. apply app_nil_r.
  - eexists. split; [done|]. unfold stored_bytes. destruct (data a) as [d|] eqn:Ed; [|left; specialize (In eq_refl); lia]. cbn [default from_option Datatypes.id] in *.
    rewrite take_ge; [done|]. unfold zlen in Id. assert (sz a = cap a) as -> by lia. lia.
Qed.

(** An array is a sequence of bytes, the elements one after the other: appending
    values, or zeros, extends it in order, whatever the reallocations, and leaves it
    unchanged when there is no memory; the data that are given to the caller are those of
    the elements. *)
Theorem array_refines_sequence (a : SOPC_Array) (values : ptr block) (n : Z) :
  Array_Inv a -> 0 <= n -> sz a + n < 2 ^ 62 -> 2 * (sz a + n) * element_size a < 2 ^ 63 ->
  match values with Some v => n * element_size a <= zlen v | NULL => True end ->
  exists ok a' raw, SOPC_Array_Append_Values (Some a) values n = Ret (ok, Some a') /\ Array_Inv a' /\
    stored_bytes a' = (if ok : bool then stored_bytes a ++ appended values (n * element_size a) else stored_bytes a) /\
    SOPC_Array_Size (Some a') = Ret (if ok then sz a + n else sz a) /\
    SOPC_Array_Into_Raw (Some a') = Ret raw /\ ((forall k, alloc_ok k = true) -> ok = true /\ (0 < sz a + n -> raw = Some (stored_bytes a'))).
Proof.
  intros I Hn B1 B2 Hv. destruct (Array_Append_spec a values n I Hn B1 B2 Hv) as (ok & a' & E & I' & _ & _ & X). destruct (Into_Raw_spec a' I') as (raw & R & Hr).
  exists ok, a', raw. split; [done|]. split; [done|]. destruct ok.
  - destruct X as [S X]. split; [done|]. split; [by rewrite <- S|]. split; [done|]. intros A. split; [done|]. intros P.
    destruct raw as [d|]; [by rewrite Hr|]. destruct Hr as [Hr|[k Hk]]; [lia|by rewrite A in Hk].
  - destruct X as (S & X & k & Hk). split; [done|]. split; [by rewrite <- S|]. split; [done|]. intros A. by rewrite A in Hk.
Qed.

End Arrays.

Lemma array_refines_sequence_witness :
  exists ok a' raw, @SOPC_Array_Append_Values serving_allocator unit (Some (mkArray (Some [x01; x02]) 2 1 1 NULL)) (Some [x03; x04]) 1 = Ret (ok, Some a') /\
    @SOPC_Array_Into_Raw serving_allocator unit (Some a') = Ret raw /\ stored_bytes a' = (if ok : bool then [x01; x02; x03; x04] else [x01; x02]).
Proof.
  destruct (@array_refines_sequence serving_allocator unit (mkArray (Some [x01; x02]) 2 1 1 NULL) (Some [x03; x04]) 1) as (ok & a' & raw & E & _ & S & _ & R & _).
  - split; cbn; try done; lia.
  - lia.
  - by vm_compute.
  - by vm_compute.
  - by vm_compute.
  - exists ok, a', raw. exact (conj E (conj R S)).
Defined.
