(* ===== verification/NumericRange.v ===== *)
(** * Numeric ranges

    Model of [src/src/Common/helpers/sopc_numeric_range.c], the parser of the ranges of
    indexes (such as [3:7,2]), on the arrays of [DynArray.v], and of the functions of
    [src/src/Common/opcua_types/sopc_builtintypes.c] that read and write a range of a
    string. *)

From Stdlib Require Import ZArith Lia.
From Stdlib Require Import Strings.Byte.
From stdpp Require Import prelude.
From S2P Require Import Prelude Common Buffer Codec EncScalar EncString Strings NodeIds DynArray.

Open Scope Z_scope.

(** ** Types *)

Inductive token_type_t :=
| TOKEN_START
| TOKEN_EOF
| TOKEN_ERROR
| TOKEN_DIGIT
| TOKEN_COMMA
| TOKEN_COLON.

#[export] Instance token_type_eq_dec : EqDecision token_type_t.
Proof. solve_decision. Defined.

Record parse_ctx_t := mkCtx {
  ctx_data : block;
  data_len : Z;
  idx : Z;
  last_token : token_type_t;
  token_len : Z
}.

Record SOPC_Dimension := mkDimension {
  start : Z;
  end_ : Z
}.

(** The dimensions are the bytes of an array of [SOPC_Dimension]. *)
Record SOPC_NumericRange := mkRange {
  n_dimensions : Z;
  dimensions : ptr block
}.

(** [sizeof(SOPC_Dimension)] and [sizeof(SOPC_NumericRange)] *)
Definition sizeof_Dimension : Z := 8.
Definition sizeof_NumericRange : Z := 16.

(** ** Lexer *)

Definition is_digit (c : byte) : bool := (48 <=? b2z c) && (b2z c <=? 57).

(** The number of digits at the beginning of a text. *)
Fixpoint leading_digits (s : block) : Z :=
  match s with c :: s => if is_digit c then 1 + leading_digits s else 0 | [] => 0 end.

(** The loop stops at [data_len]. *)
Definition lex_digit (ctx : parse_ctx_t) : res parse_ctx_t :=
  if zlen (ctx_data ctx) <? data_len ctx then Fault OutOfBounds
  else
    let n := leading_digits (take (Z.to_nat (data_len ctx - idx ctx)) (drop (Z.to_nat (idx ctx)) (ctx_data ctx))) in
    Ret (mkCtx (ctx_data ctx) (data_len ctx) (idx ctx + n) (last_token ctx) n).

(** A token of one character. *)
Definition set_token (ctx : parse_ctx_t) (t : token_type_t) (len : Z) : parse_ctx_t :=
  mkCtx (ctx_data ctx) (data_len ctx) (idx ctx + len) t len.

Definition lex_helper (ctx : parse_ctx_t) : res (token_type_t * parse_ctx_t) :=
  if decide (last_token ctx = TOKEN_EOF) then Ret (TOKEN_EOF, ctx)
  else if idx ctx =? data_len ctx then Ret (TOKEN_EOF, set_token ctx TOKEN_EOF 0)
  else
    let* c := char_at (ctx_data ctx) (idx ctx) in
    let* ctx :=
      (if is_digit c then lex_digit ctx
       else if bool_decide (c = x3a) then Ret (set_token ctx TOKEN_COLON 1)
       else if bool_decide (c = x2c) then Ret (set_token ctx TOKEN_COMMA 1)
       else Ret (set_token ctx TOKEN_ERROR 0)) in
    Ret (last_token ctx, ctx).

Definition set_idx (ctx : parse_ctx_t) (i : Z) : parse_ctx_t :=
  mkCtx (ctx_data ctx) (data_len ctx) i (last_token ctx) (token_len ctx).

Definition lex (ctx : parse_ctx_t) (consume : bool) : res (token_type_t * parse_ctx_t) :=
  let* (t, ctx') := lex_helper ctx in
  Ret (t, if consume then ctx' else set_idx ctx' (idx ctx)).

(** ** Parser *)

(** The size of [buf]. *)
Definition INDEX_TEXT_SIZE : Z := 21.

(** Returns the result, the value and the context. *)
Definition parse_index (ctx : parse_ctx_t) (val : Z) : res (bool * Z * parse_ctx_t) :=
  let text := drop (Z.to_nat (idx ctx)) (ctx_data ctx) in
  let* ctx := lex_digit ctx in
  if (token_len ctx =? 0) || (INDEX_TEXT_SIZE <=? token_len ctx) then Ret (false, val, ctx)
  else
    let* buf := mem_read text 0 (token_len ctx) in
    let* (status, v) := SOPC_strtouint32_t (Some (buf ++ [x00])) (Some val) 10 x00 in
    let* v := deref v in
    Ret (is_ok status, v, ctx).

Definition parse_dimension (ctx : parse_ctx_t) (result : SOPC_Dimension) : res (bool * SOPC_Dimension * parse_ctx_t) :=
  let* (ok, s, ctx) := parse_index ctx (start result) in
  let result := mkDimension s (end_ result) in
  if negb ok then Ret (false, result, ctx)
  else
    let* (t, ctx) := lex ctx false in
    if decide (t = TOKEN_COLON) then
      let* (_, ctx) := lex ctx true in
      let* (ok, e, ctx) := parse_index ctx (end_ result) in
      let result := mkDimension (start result) e in
      if negb ok || (end_ result <=? start result) then Ret (false, result, ctx) else Ret (true, result, ctx)
    else Ret (true, mkDimension (start result) (start result), ctx).

Section Ranges.
Context `{Allocator} `{Host}.

Abbreviation dim_array := (@SOPC_Array unit).

(** The bytes of a dimension in memory. *)
Definition dimension_bytes (d : SOPC_Dimension) : block := int_repr 4 (start d) ++ int_repr 4 (end_ d).

(** Returns the status, the dimensions, whether there are more and the context. *)
Definition parse_one_dimension (ctx : parse_ctx_t) (dims : dim_array) : res (SOPC_ReturnStatus * dim_array * bool * parse_ctx_t) :=
  let* dim_idx := SOPC_Array_Size (Some dims) in
  let* (ok, dims) := SOPC_Array_Append_Values (Some dims) NULL 1 in
  let* dims := deref dims in
  if negb ok then Ret (SOPC_STATUS_OUT_OF_MEMORY, dims, true, ctx)
  else
    let* dim := SOPC_Array_Get_Ptr (Some dims) dim_idx in
    let* (ok, result, ctx) := parse_dimension ctx (mkDimension 0 0) in
    let* dims := write_element dims dim (dimension_bytes result) in
    if negb ok then Ret (SOPC_STATUS_NOK, dims, true, ctx)
    else
      let* (next, ctx) := lex ctx true in
      match next with
      | TOKEN_COMMA => Ret (SOPC_STATUS_OK, dims, true, ctx)
      | TOKEN_EOF => Ret (SOPC_STATUS_OK, dims, false, ctx)
      | _ => Ret (SOPC_STATUS_NOK, dims, true, ctx)
      end.

(** Each step of the loop reads at least one character. *)
Fixpoint parse_dimensions (fuel : nat) (ctx : parse_ctx_t) (dims : dim_array) : res (SOPC_ReturnStatus * dim_array) :=
  match fuel with
  | O => Fault OutOfFuel
  | S fuel =>
      let* (status, dims, has_more, ctx) := parse_one_dimension ctx dims in
      if negb (is_ok status) then Ret (status, dims)
      else if has_more : bool then parse_dimensions fuel ctx dims
      else Ret (SOPC_STATUS_OK, dims)
  end.

Definition SOPC_NumericRange_Parse (text : block) : res (SOPC_ReturnStatus * ptr SOPC_NumericRange) :=
  let* len := strlen text in
  let ctx := mkCtx text len 0 TOKEN_START 0 in
  let* dims := SOPC_Array_Create sizeof_Dimension 1 NULL in
  match dims with
  | NULL => Ret (SOPC_STATUS_OUT_OF_MEMORY, NULL)
  | Some dims =>
      if negb (alloc_ok sizeof_NumericRange) then Ret (SOPC_STATUS_OUT_OF_MEMORY, NULL)
      else
        let* (status, dims) := parse_dimensions (S (Z.to_nat len)) ctx dims in
        let* n := SOPC_Array_Size (Some dims) in
        let status := if is_ok status && (n =? 0) then SOPC_STATUS_NOK else status in
        if negb (is_ok status) then Ret (status, NULL)
        else
          let* raw := SOPC_Array_Into_Raw (Some dims) in
          Ret (SOPC_STATUS_OK, Some (mkRange n raw))
  end.

(** [range->dimensions[0]] *)
Definition first_dimension (range : SOPC_NumericRange) : res SOPC_Dimension :=
  let* d := deref (dimensions range) in
  let* s := mem_read d 0 4 in
  let* e := mem_read d 4 4 in
  Ret (mkDimension (int_of_repr s) (int_of_repr e)).

(** ** Ranges of strings *)

Definition has_range_string (str : SOPC_String) (range : SOPC_NumericRange) : res bool :=
  assert! n_dimensions range =? 1 in
  if Length str <=? 0 then Ret false
  else let* dim := first_dimension range in Ret (start dim <? u32 (Length str)).

Definition get_range_string_helper (dst src : SOPC_String) (range : SOPC_NumericRange) : res (SOPC_ReturnStatus * SOPC_String) :=
  assert! n_dimensions range =? 1 in
  assert! 0 <=? Length src in
  let* dim := first_dimension range in
  let src_length := u32 (Length src) in
  let start := start dim in
  if src_length <=? start then Ret (SOPC_STATUS_OK, set_Length dst 0)
  else
    let end_ := if src_length <=? end_ dim then u32 (src_length - 1) else end_ dim in
    assert! start <=? end_ in
    let dst_len := u32 (end_ - start + 1) in
    match SOPC_Calloc (u32 (1 + dst_len)) with
    | NULL => Ret (SOPC_STATUS_OUT_OF_MEMORY, set_Data dst NULL)
    | Some d =>
        let* sd := deref (Data src) in
        let* d := memcpy d 0 sd start dst_len in
        Ret (SOPC_STATUS_OK, set_Length (set_Data dst (Some d)) (swrap 32 dst_len))
    end.

Definition set_range_string (variant src : SOPC_String) (range : SOPC_NumericRange) : res (SOPC_ReturnStatus * SOPC_String) :=
  assert! n_dimensions range =? 1 in
  let* dim := first_dimension range in
  let start := start dim in
  let end_ := end_ dim in
  assert! start <=? end_ in
  if negb (u32 (Length src) =? u32 (end_ - start + 1)) then Ret (SOPC_STATUS_NOK, variant)
  else if (Length variant <=? 0) || (u32 (Length variant) <=? start) then Ret (SOPC_STATUS_OK, variant)
  else
    let end_ := if u32 (Length variant) <=? end_ then u32 (Length variant - 1) else end_ in
    let range_len := u32 (end_ - start + 1) in
    let* vd := deref (Data variant) in
    let* sd := deref (Data src) in
    let* vd := memcpy vd start sd 0 range_len in
    Ret (SOPC_STATUS_OK, set_Data variant (Some vd)).

End Ranges.
