(* ===== verification/NumericRangeProps.v ===== *)
(** * Properties of the numeric ranges

    The parser reads the text of every range, never reads out of a text, and accepts only
    ranges whose bounds are in order; what is read and written with a range of a string. *)

From Stdlib Require Import ZArith Lia.
From Stdlib Require Import Strings.Byte.
From stdpp Require Import prelude.
From S2P Require Import Prelude Common Buffer Codec EncScalar EncString Strings StringsProps NodeIds NodeIdsProps NodeIdTexts NodeIdParse DynArray NumericRange.

Open Scope Z_scope.

(** ** Lexer *)

Section Lexer.
Variable tail : block.

(** The context between the characters that were read and those that remain; [tail] is what
    follows the text in memory. *)
Definition ctx_at (pre rest : block) (t : token_type_t) (len : Z) : parse_ctx_t :=
  mkCtx (pre ++ rest ++ tail) (zlen pre + zlen rest) (zlen pre) t len.

(** The remaining characters do not start with a digit. *)
Definition no_digit (r : block) : Prop := leading_digits r = 0.

Lemma leading_digits_app ds r : base_digits 10 ds -> no_digit r -> leading_digits (map hex_char ds ++ r) = zlen ds.
Proof.
  intros Hd Hr. induction Hd as [|d ds Hd _ IH]; [done|]. cbn [map app leading_digits]. cbn beta in Hd.
  assert (is_digit (hex_char d) = true) as -> by (assert (0 <= d < 16) as Hd' by lia; each_digit Hd'; reflexivity || lia). rewrite IH, zlen_cons. lia.
Qed.

Lemma rest_of_ctx pre rest t len :
  take (Z.to_nat (data_len (ctx_at pre rest t len) - idx (ctx_at pre rest t len))) (drop (Z.to_nat (idx (ctx_at pre rest t len))) (ctx_data (ctx_at pre rest t len))) = rest.
Proof. cbn. rewrite drop_zlen. replace (Z.to_nat _) with (length rest) by (unfold zlen; lia). apply take_app_length. Qed.

Lemma lex_digit_at pre ds r t len : base_digits 10 ds -> no_digit r ->
  lex_digit (ctx_at pre (map hex_char ds ++ r) t len) = Ret (ctx_at (pre ++ map hex_char ds) r t (zlen ds)).
Proof.
  intros Hd Hr. unfold lex_digit. replace (zlen _ <? _) with false by (cbn [ctx_at ctx_data data_len]; rewrite !zlen_app; pose proof (zlen_nonneg tail); lia). rewrite rest_of_ctx, leading_digits_app by done.
  unfold ctx_at, set_token. cbn. f_equal. f_equal; [app_solve|rewrite !zlen_app; lia|]. rewrite zlen_app. unfold zlen. by rewrite length_map.
Qed.

Lemma lex_end pre t len consume : lex (ctx_at pre [] t len) consume = Ret (TOKEN_EOF, ctx_at pre [] TOKEN_EOF (if decide (t = TOKEN_EOF) then len else 0)).
Proof.
  unfold lex, lex_helper, ctx_at. cbn [last_token idx data_len]. destruct (decide (t = TOKEN_EOF)) as [-> |]; [by destruct consume|].
  change (zlen (@nil byte)) with 0. rewrite Z.add_0_r, Z.eqb_refl. cbn [rbind]. unfold set_token, set_idx. cbn. rewrite Z.add_0_r. by destruct consume.
Qed.

(** The token of a separator. *)
Definition separator (c : byte) : option token_type_t :=
  if decide (c = x3a) then Some TOKEN_COLON else if decide (c = x2c) then Some TOKEN_COMMA else None.

Lemma lex_separator pre c r t len k consume : separator c = Some k -> t <> TOKEN_EOF ->
  lex (ctx_at pre (c :: r) t len) consume = Ret (k, if consume then ctx_at (pre ++ [c]) r k 1 else ctx_at pre (c :: r) k 1).
Proof.
  intros Hk Ht. unfold lex, lex_helper. cbn [ctx_at last_token idx data_len ctx_data]. rewrite decide_False by done. rewrite zlen_cons. pose proof (zlen_nonneg r).
  replace (_ =? _) with false by lia. cbn [app]. rewrite char_at_app by done. cbn [rbind]. unfold separator in Hk.
  assert (is_digit c = false /\ (c = x3a /\ k = TOKEN_COLON \/ c = x2c /\ k = TOKEN_COMMA)) as [-> [[-> ->] | [-> ->]]]
    by (destruct (decide (c = x3a)) as [-> |]; [|destruct (decide (c = x2c)) as [-> |]]; simplify_eq; split; try done; first [by left|by right]).
  all: repeat first [rewrite bool_decide_true by done|rewrite bool_decide_false by done]; cbn [rbind]; unfold set_token, set_idx, ctx_at; cbn; f_equal; f_equal;
    destruct consume; f_equal; try (len_solve || done); app_solve.
Qed.

(** ** Parser *)

(** The text of a range: the first index, the last one when it differs, and a comma
    between the dimensions. *)
Definition dimension_string (d : SOPC_Dimension) : block :=
  print_unsigned (start d) ++ if start d <? end_ d then x3a :: print_unsigned (end_ d) else [].

Fixpoint range_string (ds : list SOPC_Dimension) : block :=
  match ds with
  | [] => []
  | [d] => dimension_string d
  | d :: ds => dimension_string d ++ x2c :: range_string ds
  end.

Definition dimension_wf (d : SOPC_Dimension) : Prop := in_u 32 (start d) /\ in_u 32 (end_ d) /\ start d <= end_ d.

Lemma parse_index_at pre z r t len v0 : in_u 32 z -> no_digit r ->
  exists k, parse_index (ctx_at pre (print_unsigned z ++ r) t len) v0 = Ret (true, z, ctx_at (pre ++ print_unsigned z) r t k).
Proof.
  intros Hz Hr. destruct (print_unsigned_32 z Hz) as (ds & -> & L & D & V). exists (zlen ds). unfold parse_index. rewrite lex_digit_at by done. cbn [rbind].
  cbn [ctx_at token_len idx ctx_data]. rewrite drop_zlen. assert (1 <= zlen ds <= 10) as Lz by (unfold zlen; lia).
  replace (_ || _) with false by (unfold INDEX_TEXT_SIZE; lia). rewrite <- app_assoc.
  rewrite mem_read_ok by (unfold zlen in *; rewrite ?length_app, ?length_map; lia). cbn [rbind Z.to_nat]. rewrite drop_0.
  replace (take (Z.to_nat (zlen ds)) _) with (map hex_char ds) by (unfold zlen; rewrite Nat2Z.id, <- (length_map hex_char ds); by rewrite take_app_length).
  unfold SOPC_strtouint32_t. rewrite strto_number; try done; [|by left|by destruct ds; [cbn in L; lia|]|rewrite V; unfold UINT32_MAX, ULONG_MAX, in_u in *; lia].
  cbn [rbind deref is_ok]. by rewrite V.
Qed.

(** What follows a dimension: nothing, or a comma. *)
Definition followed (r : block) : Prop := r = [] \/ exists r', r = x2c :: r'.

Lemma parse_dimension_at pre d r t len d0 : dimension_wf d -> followed r -> t <> TOKEN_EOF ->
  exists t' k, parse_dimension (ctx_at pre (dimension_string d ++ r) t len) d0 = Ret (true, d, ctx_at (pre ++ dimension_string d) r t' k) /\
    (r <> [] -> t' <> TOKEN_EOF).
Proof.
  intros (Hs & He & Hle) Hr Ht. unfold parse_dimension, dimension_string. destruct d as [s e]. cbn [start end_] in *. destruct (Z.ltb_spec s e) as [Lt|Ge].
  - rewrite <- app_assoc. cbn [app]. destruct (parse_index_at pre s (x3a :: print_unsigned e ++ r) t len (start d0) Hs) as (k & ->); [done|]. cbn [rbind negb].
    rewrite (lex_separator _ x3a _ _ _ TOKEN_COLON) by done. cbn [rbind]. rewrite decide_True by done. rewrite (lex_separator _ x3a _ _ _ TOKEN_COLON) by done. cbn [rbind].
    destruct (parse_index_at ((pre ++ print_unsigned s) ++ [x3a]) e r TOKEN_COLON 1 (end_ d0) He) as (k' & X); [by destruct Hr as [-> | (r' & ->)]|].
    cbn [end_ start] in *. rewrite X. cbn [rbind negb orb start end_]. replace (e <=? s) with false by lia. exists TOKEN_COLON, k'. split; [|done].
    by rewrite <- !app_assoc.
  - assert (e = s) as -> by lia. rewrite app_nil_r. destruct (parse_index_at pre s r t len (start d0) Hs) as (k & ->); [by destruct Hr as [-> | (r' & ->)]|]. cbn [rbind negb].
    destruct Hr as [-> | (r' & ->)].
    + rewrite lex_end. cbn [rbind]. rewrite decide_False by done. cbn [start]. eexists _, _. split; [done|done].
    + rewrite (lex_separator _ x2c _ _ _ TOKEN_COMMA) by done. cbn [rbind]. rewrite decide_False by done. cbn [start]. by eexists _, _.
Qed.

(** ** Any text *)

Lemma leading_digits_split s : exists a r, s = a ++ r /\ leading_digits s = zlen a /\ no_digit r.
Proof.
  induction s as [|c s (a & r & E & L & N)]; [by exists [], []|]. cbn [leading_digits]. destruct (is_digit c) eqn:D.
  - exists (c :: a), r. rewrite E at 1. split; [done|]. split; [rewrite L, zlen_cons; lia|done].
  - exists [], (c :: s). split; [done|]. split; [done|]. unfold no_digit. cbn. by rewrite D.
Qed.

(** The context after some more characters. *)
Definition advanced (pre rest : block) (ctx : parse_ctx_t) (n : Z) : Prop :=
  exists a r t k, rest = a ++ r /\ ctx = ctx_at (pre ++ a) r t k /\ n <= zlen a.

Lemma lex_digit_total pre rest t len : exists a r, rest = a ++ r /\ lex_digit (ctx_at pre rest t len) = Ret (ctx_at (pre ++ a) r t (zlen a)).
Proof.
  unfold lex_digit. replace (zlen _ <? _) with false by (cbn [ctx_at ctx_data data_len]; rewrite !zlen_app; pose proof (zlen_nonneg tail); lia). rewrite rest_of_ctx.
  destruct (leading_digits_split rest) as (a & r & E & -> & _). exists a, r. split; [done|]. unfold ctx_at. cbn. rewrite E, !zlen_app. f_equal. f_equal; [app_solve|lia].
Qed.

Lemma lex_total pre rest t len consume : exists k ctx, lex (ctx_at pre rest t len) consume = Ret (k, ctx) /\ advanced pre rest ctx 0.
Proof.
  assert (exists k ctx, lex_helper (ctx_at pre rest t len) = Ret (k, ctx) /\ advanced pre rest ctx 0) as (k & ctx & E & a & r & t' & len' & Er & -> & _).
  { destruct rest as [|c rest].
    { pose proof (lex_end pre t len true) as X. unfold lex in X. destruct (lex_helper _) as [[k ctx]|]; [|done]. cbn [rbind] in X. simplify_eq.
      eexists _, _. split; [done|]. exists [], [], TOKEN_EOF. eexists. split; [done|]. by rewrite app_nil_r. }
    unfold lex_helper. destruct (decide _); [eexists _, _; split; [done|]; exists [], (c :: rest); eexists _, _; by rewrite app_nil_r|].
    cbn [ctx_at last_token idx data_len ctx_data]. rewrite zlen_cons. pose proof (zlen_nonneg rest). replace (_ =? _) with false by lia. cbn [app].
    rewrite char_at_app by done. cbn [rbind]. destruct (is_digit c).
    - destruct (lex_digit_total pre (c :: rest) t len) as (a & r & E & ->). cbn [rbind]. eexists _, _. split; [done|]. exists a, r. eexists _, _. split; [done|]. split; [done|apply zlen_nonneg].
    - repeat case_bool_decide; cbn [rbind]; eexists _, _; (split; [done|]); unfold advanced, set_token, ctx_at; cbn.
      1,2: exists [c], rest; eexists _, _; split; [done|]; (split; [|unfold zlen; cbn; lia]); f_equal; [by rewrite <- app_assoc|len_solve|len_solve].
      exists [], (c :: rest). eexists _, _. rewrite app_nil_r. split; [done|]. split; [|done]. f_equal. lia. }
  unfold lex. rewrite E. cbn [rbind]. eexists _, _. split; [done|]. destruct consume; [by exists a, r, t', len'; split_and!; [..|apply zlen_nonneg]|].
  exists [], rest, t', len'. split; [done|]. split; [|done]. subst rest. unfold set_idx, ctx_at. cbn. rewrite app_nil_r, !zlen_app. f_equal; [app_solve|lia].
Qed.

Lemma advanced_trans pre rest a r n m ctx : rest = a ++ r -> n <= zlen a -> advanced (pre ++ a) r ctx m -> advanced pre rest ctx (n + m).
Proof.
  intros -> Hn (b & r' & t & k & -> & -> & Hm). exists (a ++ b), r', t, k. rewrite <- !app_assoc. split; [done|]. split; [done|]. rewrite zlen_app. lia.
Qed.

Lemma parse_index_total pre rest t len v0 :
  exists ok v ctx, parse_index (ctx_at pre rest t len) v0 = Ret (ok, v, ctx) /\ advanced pre rest ctx 0 /\ (ok = true -> advanced pre rest ctx 1 /\ in_u 32 v).
Proof.
  unfold parse_index. destruct (lex_digit_total pre rest t len) as (a & r & E & ->). cbn [rbind ctx_at token_len idx ctx_data]. rewrite drop_zlen. fold (ctx_at (pre ++ a) r t (zlen a)).
  pose proof (zlen_nonneg a). assert (forall n, n <= zlen a -> advanced pre rest (ctx_at (pre ++ a) r t (zlen a)) n) as Adv by (intros n Hn; by exists a, r, t, (zlen a)).
  destruct (_ || _) eqn:B; [by eexists _, _, _; split_and!; [done|apply Adv|]|]. rewrite mem_read_ok by (rewrite ?zlen_app, ?E, ?zlen_app; pose proof (zlen_nonneg r); pose proof (zlen_nonneg tail); lia).
  cbn [rbind]. unfold SOPC_strtouint32_t. match goal with |- context [strto_unsigned _ _ (Some (?x ++ [x00])) _ _ _] => destruct (strto_unsigned_nul UINT32_MAX true (x ++ [x00]) v0 10 x00) as (st & v & -> & Hv) end;
    [by eexists|by left|]. cbn [rbind deref]. eexists _, _, _. split; [done|]. split; [by apply Adv|]. intros O. assert (st = SOPC_STATUS_OK) as Es by (by destruct st).
  split; [apply Adv; unfold INDEX_TEXT_SIZE in B; lia|]. specialize (Hv Es). unfold in_u, UINT32_MAX in *. lia.
Qed.

Lemma parse_dimension_total pre rest t len :
  exists ok d ctx, parse_dimension (ctx_at pre rest t len) (mkDimension 0 0) = Ret (ok, d, ctx) /\ advanced pre rest ctx 0 /\ (ok = true -> advanced pre rest ctx 1 /\ dimension_wf d).
Proof.
  unfold parse_dimension. cbn [start end_]. destruct (parse_index_total pre rest t len 0) as (ok & s & ctx & -> & A0 & A1). cbn [rbind]. destruct ok; cbn [negb]; [|by eexists _, _, _].
  destruct (A1 eq_refl) as [(a & r & t1 & k1 & E & -> & L) Hs]. clear A0 A1. assert (forall c n, advanced (pre ++ a) r c 0 -> 0 <= n <= 1 -> advanced pre rest c n) as Adv.
  { intros c n Hc Hn. replace n with (n + 0) by lia. eapply advanced_trans; [exact E|lia|done]. }
  destruct (lex_total (pre ++ a) r t1 k1 false) as (tok & ctx1 & -> & B1). cbn [rbind]. destruct (decide (tok = TOKEN_COLON)) as [-> |].
  - destruct B1 as (a2 & r2 & t2 & k2 & E2 & -> & L2). destruct (lex_total ((pre ++ a) ++ a2) r2 t2 k2 true) as (tok & ctx2 & -> & (a3 & r3 & t3 & k3 & E3 & -> & L3)). cbn [rbind].
    destruct (parse_index_total (((pre ++ a) ++ a2) ++ a3) r3 t3 k3 0) as (ok & e & ctx3 & -> & C0 & C1). cbn [rbind start end_].
    assert (advanced (pre ++ a) r ctx3 0) as A3 by (apply (advanced_trans _ _ a2 r2 0 0); [done|done|]; by apply (advanced_trans _ _ a3 r3 0 0)).
    destruct (negb ok || _) eqn:B; eexists _, _, _; (split; [done|]); (split; [apply Adv; [done|lia]|]); [done|]. intros _. split; [apply Adv; [done|lia]|].
    destruct ok; [|done]. destruct (C1 eq_refl) as [_ He]. split; [done|]. split; [done|]. cbn in *. lia.
  - cbn [start]. eexists _, _, _. split; [done|]. split; [apply Adv; [done|lia]|]. intros _. split; [apply Adv; [done|lia]|]. split; [done|]. split; [done|]. cbn. lia.
Qed.

End Lexer.

(** ** The array of the dimensions *)

Section Ranges.
Context `{Allocator} `{Host}.

Abbreviation dim_array := (@SOPC_Array unit).

(** The array holds these bytes, for that number of dimensions. *)
Definition dims_hold (a : dim_array) (ds : list SOPC_Dimension) : Prop :=
  Array_Inv a /\ element_size a = sizeof_Dimension /\ sz a = zlen ds /\ stored_bytes a = flat_map dimension_bytes ds.

Lemma zlen_dimension_bytes d : zlen (dimension_bytes d) = sizeof_Dimension.
Proof. unfold dimension_bytes, zlen. by rewrite length_app, !length_int_repr. Qed.

Lemma zlen_stored (a : dim_array) : Array_Inv a -> zlen (stored_bytes a) = sz a * element_size a.
Proof. intros [Ie Is Ib Id In]. apply zlen_take. nia. Qed.

(** Writing the last element. *)
Lemma write_last (a : dim_array) x y z : Array_Inv a -> stored_bytes a = x ++ y -> zlen z = zlen y -> zlen z = element_size a ->
  exists a', write_element a (zlen x) z = Ret a' /\ Array_Inv a' /\ element_size a' = element_size a /\ sz a' = sz a /\ stored_bytes a' = x ++ z.
Proof.
  intros I E Lz Le. pose proof (zlen_stored a I) as Ls. pose proof I as [Ie Is Ib Id In]. rewrite E, zlen_app in Ls. pose proof (zlen_nonneg x) as Px. unfold write_element.
  destruct (data a) as [d|] eqn:Ed; [|specialize (In eq_refl); nia]. cbn [deref rbind default from_option Datatypes.id] in *. assert (zlen x + zlen z <= zlen d) as B by nia.
  rewrite mem_write_ok by lia. cbn [rbind]. eexists. split; [done|]. split; [|split; [done|split; [done|]]].
  - split; cbn; try done. rewrite zlen_splice; lia.
  - unfold stored_bytes in *. cbn. rewrite Ed in E. cbn [default from_option Datatypes.id] in E. rewrite <- Ls, <- Lz. rewrite take_splice_end by lia. f_equal.
    transitivity (take (Z.to_nat (zlen x)) (x ++ y)); [|unfold zlen; by rewrite Nat2Z.id, take_app_length]. rewrite <- E, take_take. f_equal. nia.
Qed.

(** One turn: there is no memory, or the dimension that is read ends the array. *)
Lemma parse_one_cases ctx a ds ok d ctx' : dims_hold a ds -> zlen ds + 1 < 2 ^ 56 -> parse_dimension ctx (mkDimension 0 0) = Ret (ok, d, ctx') ->
  (exists a', parse_one_dimension ctx a = Ret (SOPC_STATUS_OUT_OF_MEMORY, a', true, ctx) /\ exists k, alloc_ok k = false) \/
  (exists a', dims_hold a' (ds ++ [d]) /\ parse_one_dimension ctx a =
     if negb ok then Ret (SOPC_STATUS_NOK, a', true, ctx')
     else let* (next, ctx) := lex ctx' true in
       match next with
       | TOKEN_COMMA => Ret (SOPC_STATUS_OK, a', true, ctx)
       | TOKEN_EOF => Ret (SOPC_STATUS_OK, a', false, ctx)
       | _ => Ret (SOPC_STATUS_NOK, a', true, ctx)
       end).
Proof.
  intros (I & Ee & Es & St) B Hp. unfold sizeof_Dimension in *. unfold parse_one_dimension. cbn [SOPC_Array_Size rbind]. pose proof (zlen_nonneg ds) as P.
  destruct (Array_Append_spec a NULL 1 I) as (ok1 & a1 & -> & I1 & E1 & _ & X); [lia|lia|lia|done|]. cbn [rbind deref].
  destruct ok1; cbn [negb]; [right|left; eexists; split; [done|by destruct X as (_ & _ & k & Hk); exists k]]. destruct X as [S1 St1].
  cbn [SOPC_Array_Get_Ptr]. replace (sz a <? sz a1) with true by lia. cbn [rbind]. rewrite Hp. cbn [rbind]. rewrite E1, Ee in *.
  pose proof (zlen_stored a I) as Ls. rewrite Ee in Ls. unfold u64. rewrite Z.mod_small by lia. rewrite <- Ls.
  destruct (write_last a1 (stored_bytes a) (appended NULL (1 * 8)) (dimension_bytes d)) as (a2 & -> & I2 & E2 & S2 & St2); [done|done|by rewrite zlen_dimension_bytes|by rewrite zlen_dimension_bytes, E1|].
  cbn [rbind]. exists a2. split; [|done]. split; [done|]. split; [by rewrite E2|]. split; [rewrite zlen_app; change (zlen [d]) with 1; lia|].
  rewrite St2, St, flat_map_app. cbn. by rewrite app_nil_r.
Qed.

(** *** Texts of ranges *)

Lemma zlen_printed_dimension d : dimension_wf d -> 1 <= zlen (dimension_string d).
Proof. intros (Hs & _). unfold dimension_string. destruct (print_unsigned_32 _ Hs) as (l & -> & L & _). rewrite zlen_app. pose proof (zlen_nonneg (if start d <? end_ d then x3a :: print_unsigned (end_ d) else [])). unfold zlen at 1. rewrite length_map. lia. Qed.

Lemma parse_dimensions_text tail ds : (forall k, alloc_ok k = true) -> ds <> [] -> Forall dimension_wf ds ->
  forall pre t len a done fuel, dims_hold a done -> zlen done + zlen ds < 2 ^ 56 -> t <> TOKEN_EOF -> (length ds <= fuel)%nat ->
  exists a', parse_dimensions fuel (ctx_at tail pre (range_string ds) t len) a = Ret (SOPC_STATUS_OK, a') /\ dims_hold a' (done ++ ds).
Proof.
  intros A Hn Hw. induction Hw as [|d ds Hd Hw IH]; [done|]. intros pre t len a dn fuel Ha B Ht Hf. destruct fuel as [|fuel]; [cbn in Hf; lia|]. cbn [parse_dimensions].
  rewrite zlen_cons in B. pose proof (zlen_nonneg ds). set (r := match ds with [] => [] | _ => x2c :: range_string ds end).
  assert (range_string (d :: ds) = dimension_string d ++ r) as -> by (unfold r; destruct ds; [by cbn; rewrite app_nil_r|done]).
  assert (followed r) as Fr by (unfold r; destruct ds; [by left|right; by eexists]).
  destruct (parse_dimension_at tail pre d r t len (mkDimension 0 0) Hd Fr Ht) as (t' & k & Hp & Ht').
  destruct (parse_one_cases _ a dn _ _ _ Ha ltac:(lia) Hp) as [(a' & _ & k' & Hk')|(a' & Ha' & ->)]; [by rewrite A in Hk'|]. cbn [negb]. unfold r in *. clear Hp r. destruct ds as [|d' ds].
  - rewrite lex_end. cbn [rbind is_ok negb]. by eexists.
  - rewrite (lex_separator tail _ x2c _ _ _ TOKEN_COMMA) by (done || by apply Ht'). cbn [rbind is_ok negb].
    destruct (IH ltac:(done) ((pre ++ dimension_string d) ++ [x2c]) TOKEN_COMMA 1 a' (dn ++ [d]) fuel Ha') as (a2 & E & H2); [rewrite zlen_app; change (zlen [d]) with 1; lia|done|cbn in Hf |- *; lia|].
    exists a2. split; [exact E|]. by rewrite <- app_assoc in H2.
Qed.

Lemma print_unsigned_plain z : in_u 32 z -> plain_text (print_unsigned z).
Proof. intros Hz. eapply without_plain, print_unsigned_without; done. Qed.

Lemma range_string_plain ds : Forall dimension_wf ds -> plain_text (range_string ds) /\ (length ds <= S (length (range_string ds)))%nat.
Proof.
  assert (forall d, dimension_wf d -> plain_text (dimension_string d)) as Pd.
  { intros d (Hs & He & _). unfold dimension_string. apply Forall_app. split; [by apply print_unsigned_plain|]. destruct (_ <? _); [|constructor]. constructor; [done|]. by apply print_unsigned_plain. }
  induction 1 as [|d ds Hd Hw [IH L]]; [by split; [constructor|cbn; lia]|]. destruct ds as [|d' ds]; [split; [by apply Pd|cbn; lia]|].
  change (range_string (d :: d' :: ds)) with (dimension_string d ++ x2c :: range_string (d' :: ds)). split; [apply Forall_app; split; [by apply Pd|by constructor]|].
  rewrite length_app. cbn [length] in *. lia.
Qed.

(** C38: the text of a range (for each dimension the first index, and after a colon the last
    one when it is not the same, with commas between the dimensions) is read back as the
    same dimensions in the same order. *)
Theorem numeric_range_roundtrip (ds : list SOPC_Dimension) (junk : block) :
  ds <> [] -> Forall dimension_wf ds -> zlen ds < 2 ^ 56 -> (forall k, alloc_ok k = true) ->
  SOPC_NumericRange_Parse (range_string ds ++ x00 :: junk) = Ret (SOPC_STATUS_OK, Some (mkRange (zlen ds) (Some (flat_map dimension_bytes ds)))).
Proof.
  intros Hn Hw B A. destruct (range_string_plain ds Hw) as [P L]. unfold SOPC_NumericRange_Parse. rewrite strlen_text by done. cbn [rbind].
  destruct (Array_Create_spec (Free_Func := unit) sizeof_Dimension 1 NULL) as (r & -> & Hr); [done..|]. cbn [rbind]. destruct r as [a|]; [|destruct Hr as [k Hk]; by rewrite A in Hk].
  rewrite A. cbn [negb]. destruct Hr as (I & Ee & Es & _ & St). change (mkCtx _ _ 0 _ _) with (ctx_at (x00 :: junk) [] (range_string ds) TOKEN_START 0).
  destruct (parse_dimensions_text (x00 :: junk) ds A Hn Hw [] TOKEN_START 0 a [] (S (Z.to_nat (zlen (range_string ds))))) as (a' & -> & I' & _ & Es' & St'); [done|change (zlen (@nil SOPC_Dimension)) with 0; lia|done|unfold zlen; lia|].
  cbn [rbind SOPC_Array_Size is_ok andb app] in *. assert (0 < zlen ds) by (destruct ds; [done|rewrite zlen_cons; pose proof (zlen_nonneg ds); lia]). rewrite Es'.
  replace (zlen ds =? 0) with false by lia. cbn [is_ok negb]. destruct (Into_Raw_spec a' I') as (raw & -> & Hr). cbn [rbind]. destruct raw as [b|]; [by rewrite Hr, St'|].
  destruct Hr as [Hz|[k Hk]]; [lia|by rewrite A in Hk].
Qed.

(** *** Any text *)

Lemma parse_dimensions_total tail fuel : forall pre rest t len a done, dims_hold a done -> Forall dimension_wf done -> zlen done + zlen rest + 1 < 2 ^ 56 -> (length rest < fuel)%nat ->
  exists status a', parse_dimensions fuel (ctx_at tail pre rest t len) a = Ret (status, a') /\
    (status = SOPC_STATUS_OK -> exists ds, ds <> [] /\ Forall dimension_wf ds /\ dims_hold a' ds).
Proof.
  induction fuel as [|fuel IH]; intros pre rest t len a dn Ha Hd B Hf; [lia|]. cbn [parse_dimensions]. pose proof (zlen_nonneg rest).
  destruct (parse_dimension_total tail pre rest t len) as (ok & d & ctx & Hp & _ & Hok).
  destruct (parse_one_cases _ a dn _ _ _ Ha ltac:(lia) Hp) as [(a' & -> & _)|(a' & Ha' & ->)]; [cbn [rbind is_ok negb]; by eexists _, _|].
  destruct ok; cbn [negb]; [|cbn [rbind is_ok negb]; by eexists _, _]. destruct (Hok eq_refl) as [(b & r & t1 & k1 & -> & -> & Lb) Wd].
  assert (Forall dimension_wf (dn ++ [d])) as Wn by (apply Forall_app; split; [done|by apply Forall_singleton]).
  destruct (lex_total tail (pre ++ b) r t1 k1 true) as (tok & ctx2 & -> & (c & r2 & t2 & k2 & -> & -> & _)). cbn [rbind].
  destruct tok; cbn [rbind is_ok negb]; try by eexists _, _.
  - eexists _, _. split; [done|]. intros _. exists (dn ++ [d]). split; [by destruct dn|]. done.
  - rewrite !zlen_app in B. pose proof (zlen_nonneg c). apply (IH _ _ _ _ _ (dn ++ [d])); try done.
    + rewrite zlen_app. change (zlen [d]) with 1. lia.
    + rewrite !length_app in Hf. unfold zlen in Lb. lia.
Qed.

(** C39: the parser of ranges returns on any text, and a range that it accepts has at least
    one dimension, each with 32 bit bounds in order; the dimensions are those of the array
    unless the last reallocation fails, which is not reported. *)
Theorem numeric_range_parser_sound (t junk : block) :
  plain_text t -> zlen t + 1 < 2 ^ 56 ->
  exists status r, SOPC_NumericRange_Parse (t ++ x00 :: junk) = Ret (status, r) /\
    if is_ok status then exists ds raw, r = Some (mkRange (zlen ds) raw) /\ ds <> [] /\ Forall dimension_wf ds /\
      (raw = Some (flat_map dimension_bytes ds) \/ raw = NULL /\ exists k, alloc_ok k = false)
    else r = NULL.
Proof.
  intros P B. unfold SOPC_NumericRange_Parse. rewrite strlen_text by done. cbn [rbind].
  destruct (Array_Create_spec (Free_Func := unit) sizeof_Dimension 1 NULL) as (r & -> & Hr); [by vm_compute..|]. cbn [rbind]. destruct r as [a|]; [|by eexists _, _].
  destruct (alloc_ok sizeof_NumericRange); cbn [negb]; [|by eexists _, _]. destruct Hr as (I & Ee & Es & _ & St).
  change (mkCtx _ _ 0 _ _) with (ctx_at (x00 :: junk) [] t TOKEN_START 0).
  destruct (parse_dimensions_total (x00 :: junk) (S (Z.to_nat (zlen t))) [] t TOKEN_START 0 a []) as (st & a' & -> & Hs);
    [done|constructor|change (zlen (@nil SOPC_Dimension)) with 0; lia|unfold zlen; lia|].
  cbn [rbind SOPC_Array_Size]. destruct (is_ok st) eqn:O; cbn [andb]; [|rewrite O; cbn [negb]; eexists _, _; split; [done|]; by rewrite O].
  assert (st = SOPC_STATUS_OK) as -> by (by destruct st). destruct (Hs eq_refl) as (ds & Hn & Hw & I' & _ & Es' & St'). rewrite Es'.
  assert (0 < zlen ds) by (destruct ds; [done|rewrite zlen_cons; pose proof (zlen_nonneg ds); lia]). replace (zlen ds =? 0) with false by lia. cbn [is_ok negb].
  destruct (Into_Raw_spec a' I') as (raw & -> & Hr). cbn [rbind]. eexists _, _. split; [done|]. cbn [is_ok]. exists ds, raw. split; [done|]. split; [done|]. split; [done|].
  destruct raw as [b|]; [left; by rewrite Hr, St'|right]. destruct Hr as [Hz|Hk]; [lia|done].
Qed.

(** ** Ranges of strings *)

(** The characters that a dimension selects. *)
Definition selected {A} (d : SOPC_Dimension) (l : list A) : list A := take (Z.to_nat (end_ d - start d + 1)) (drop (Z.to_nat (start d)) l).

Definition range_of (d : SOPC_Dimension) : SOPC_NumericRange := mkRange 1 (Some (dimension_bytes d)).

Lemma first_dimension_of d : dimension_wf d -> first_dimension (range_of d) = Ret d.
Proof.
  intros (Hs & He & _). unfold first_dimension, range_of, dimension_bytes. cbn [dimensions deref rbind]. pose proof (length_int_repr 4 (start d)) as L1. pose proof (length_int_repr 4 (end_ d)) as L2.
  rewrite !mem_read_ok by (unfold zlen; rewrite ?length_app; lia). cbn [rbind Z.to_nat]. rewrite drop_0. change (Pos.to_nat 4) with 4%nat.
  replace (take 4 (int_repr 4 (start d) ++ _)) with (int_repr 4 (start d)) by (by rewrite take_app_le, take_ge by lia).
  replace (drop 4 (int_repr 4 (start d) ++ _)) with (int_repr 4 (end_ d)) by (by rewrite drop_app_ge, L1, Nat.sub_diag, drop_0 by lia). rewrite take_ge by lia. rewrite !int_of_repr_repr. change (2 ^ (8 * Z.of_nat 4)) with (2 ^ 32).
  unfold in_u in *. rewrite !Z.mod_small by lia. by destruct d.
Qed.

Lemma has_range_string_spec s d : string_wf s -> dimension_wf d -> has_range_string s (range_of d) = Ret (start d <? Z.max 0 (Length s)).
Proof.
  intros [W _] Hd. unfold has_range_string. cbn [n_dimensions range_of Z.eqb Pos.eqb]. pose proof Hd as (Hs & _). unfold in_s, in_u in *. destruct (Z.leb_spec (Length s) 0) as [L|G].
  - by replace (start d <? _) with false by lia.
  - rewrite first_dimension_of by done. cbn [rbind]. unfold u32. rewrite Z.mod_small by lia. by replace (Z.max 0 (Length s)) with (Length s) by lia.
Qed.

(** The range of a string is the part that it selects; beyond the end nothing is. *)
Lemma get_range_string_spec dst s d : string_wf s -> 0 <= Length s -> dimension_wf d -> (forall k, alloc_ok k = true) ->
  exists s', get_range_string_helper dst s (range_of d) = Ret (SOPC_STATUS_OK, s') /\ string_chars s' = selected d (string_chars s) /\ Length s' = zlen (selected d (string_chars s)).
Proof.
  intros W Hl Hd A. pose proof Hd as (Hs & He & Hle). pose proof W as [Ws Wd]. pose proof (zlen_chars s W) as Lc. unfold in_s, in_u in *.
  unfold get_range_string_helper. cbn [n_dimensions range_of Z.eqb Pos.eqb]. replace (0 <=? Length s) with true by lia. rewrite first_dimension_of by done. cbn [rbind].
  unfold u32 at 1. rewrite (Z.mod_small (Length s)) by lia. destruct (Z.leb_spec (Length s) (start d)) as [L|G].
  - eexists. split; [done|]. unfold selected. rewrite drop_ge by (unfold zlen in Lc; lia). rewrite take_nil. split; [|done]. done.
  - destruct (Wd ltac:(lia)) as (b & Eb & Lb). set (e := if _ <=? end_ d then _ else _).
    assert (e = Z.min (end_ d) (Length s - 1)) as Ee by (unfold e, u32; rewrite !(Z.mod_small (Length s)) by lia; destruct (Z.leb_spec (Length s) (end_ d)); [rewrite Z.mod_small|]; lia).
    replace (start d <=? e) with true by lia. unfold u32. rewrite (Z.mod_small (e - start d + 1)) by lia. rewrite Z.mod_small by lia. unfold SOPC_Calloc. rewrite A, Eb. cbn [deref rbind].
    set (n := e - start d + 1). unfold memcpy. rewrite mem_read_ok by lia. cbn [rbind]. set (x := take (Z.to_nat n) (drop (Z.to_nat (start d)) b)).
    assert (zlen x = n) as Lx by (unfold x; rewrite zlen_take; [done|]; rewrite zlen_drop; lia).
    change (replicate (Z.to_nat (1 + n)) x00) with (printed [] (1 + n)). rewrite write_printed by (change (zlen (@nil byte)) with 0; lia). cbn [rbind]. eexists. split; [done|].
    assert (selected d (string_chars s) = x) as Sx.
    { unfold selected, string_chars, x, n. rewrite Eb. cbn [default from_option Datatypes.id]. rewrite skipn_firstn_comm, firstn_firstn. f_equal. lia. }
    rewrite Sx, Lx. cbn [Length set_Length set_Data]. assert (swrap 32 n = n) as -> by (apply swrap_small; unfold in_s; lia). split; [|done].
    unfold string_chars. cbn [Length Data set_Length set_Data default from_option Datatypes.id]. unfold printed. cbn [app]. rewrite take_app_le by (unfold zlen in Lx; lia). apply take_ge. unfold zlen in Lx. lia.
Qed.

(** A source of another length is refused, and nothing is written. *)
Lemma set_range_string_refused v s d : dimension_wf d -> u32 (Length s) <> u32 (end_ d - start d + 1) -> set_range_string v s (range_of d) = Ret (SOPC_STATUS_NOK, v).
Proof.
  intros Hd Hl. unfold set_range_string. cbn [n_dimensions range_of Z.eqb Pos.eqb]. rewrite first_dimension_of by done. cbn [rbind]. destruct Hd as (_ & _ & Hle).
  replace (start d <=? end_ d) with true by lia. by replace (_ =? _) with false by lia.
Qed.

(** What is written: the beginning of the source, up to the end of the string. *)
Lemma set_range_string_spec v s d : string_wf v -> string_wf s -> dimension_wf d -> Length s = end_ d - start d + 1 ->
  exists v', set_range_string v s (range_of d) = Ret (SOPC_STATUS_OK, v') /\ string_wf v' /\ Length v' = Length v /\
    string_chars v' = if start d <? Length v then splice (string_chars v) (start d) (take (Z.to_nat (Length v - start d)) (string_chars s)) else string_chars v.
Proof.
  intros W Ws Hd Hl. pose proof Hd as (Hs & He & Hle). pose proof (zlen_chars s Ws) as Lc. pose proof W as [Wv Wd]. pose proof Ws as [Wr Wrd]. unfold in_s, in_u in *.
  unfold set_range_string. cbn [n_dimensions range_of Z.eqb Pos.eqb]. rewrite first_dimension_of by done. cbn [rbind]. replace (start d <=? end_ d) with true by lia.
  unfold u32 at 1 2. rewrite Hl, Z.eqb_refl. cbn [negb]. destruct (Z.ltb_spec (start d) (Length v)) as [L|G].
  2:{ replace (_ || _) with true by (unfold u32; destruct (Z.leb_spec (Length v) 0); [done|rewrite Z.mod_small; lia]). by exists v. }
  replace (_ || _) with false by (unfold u32; rewrite Z.mod_small; lia). destruct (Wd ltac:(lia)) as (b & Eb & Lb). destruct (Wrd ltac:(lia)) as (c & Ec & Lr).
  set (e := if _ <=? end_ d then _ else _).
  assert (e = Z.min (end_ d) (Length v - 1)) as Ee by (unfold e, u32; rewrite (Z.mod_small (Length v)) by lia; destruct (Z.leb_spec (Length v) (end_ d)); [rewrite Z.mod_small|]; lia).
  unfold u32. rewrite Z.mod_small by lia. rewrite Eb, Ec. cbn [deref rbind]. unfold memcpy. set (n := e - start d + 1). rewrite mem_read_ok by lia. cbn [rbind Z.to_nat]. rewrite drop_0.
  assert (zlen (take (Z.to_nat n) c) = n) as Lx by (apply zlen_take; lia). rewrite mem_write_ok by lia. cbn [rbind]. eexists. split; [done|].
  split; [split; [done|]; intros _; eexists; split; [done|]; cbn [Length set_Data]; rewrite zlen_splice; lia|]. split; [done|].
  replace (take (Z.to_nat (Length v - start d)) (string_chars s)) with (take (Z.to_nat n) c)
    by (unfold string_chars; rewrite Ec; cbn [default from_option Datatypes.id]; rewrite take_take; f_equal; lia).
  unfold string_chars. cbn [Length Data set_Data]. rewrite Eb. cbn [default from_option Datatypes.id]. rewrite <- take_splice_within by lia. f_equal. lia.
Qed.

Lemma splice_outside (b x : block) off i : 0 <= off -> off + zlen x <= zlen b -> Z.of_nat i < off \/ off + zlen x <= Z.of_nat i -> splice b off x !! i = b !! i.
Proof.
  intros Ho Hb Hi. unfold splice, zlen in *. assert (length (take (Z.to_nat off) b) = Z.to_nat off) as Lt by (rewrite length_take; lia). destruct Hi as [Hi|Hi].
  - rewrite lookup_app_l by lia. apply lookup_take_lt. lia.
  - rewrite lookup_app_r, lookup_app_r by lia. rewrite lookup_drop. f_equal. lia.
Qed.

Lemma selected_splice d (b x : block) : 0 <= start d <= end_ d -> start d + zlen x <= zlen b -> (zlen x = end_ d - start d + 1 \/ zlen x <= end_ d - start d + 1 /\ start d + zlen x = zlen b) ->
  selected d (splice b (start d) x) = x.
Proof.
  intros Hs Hb Hx. unfold selected, splice, zlen in *. assert (length (take (Z.to_nat (start d)) b) = Z.to_nat (start d)) as Lt by (rewrite length_take; lia).
  rewrite <- Lt at 1. rewrite drop_app_length. destruct Hx as [Hx|[Hx He]].
  - rewrite take_app_le by lia. apply take_ge. lia.
  - rewrite (drop_ge b) by lia. rewrite app_nil_r. apply take_ge. lia.
Qed.

(** C40: writing a range of a string changes only the characters of the range, and reading
    the range then gives what was written, up to the end of the string; a value that has not
    the length of the range is refused.  The value is not null and the range is not
    [0:4294967295], whose length wraps to zero ([whole_range_reads_out_of_value]).  Reading a
    range of a null string, which has the length -1, stops the program. *)
Theorem string_range_set_get (v s dst : SOPC_String) (d : SOPC_Dimension) :
  string_wf v -> string_wf s -> 0 <= Length s -> dimension_wf d -> end_ d - start d < 2 ^ 32 - 1 -> (forall k, alloc_ok k = true) ->
  if Length s =? end_ d - start d + 1 then
    exists v', set_range_string v s (range_of d) = Ret (SOPC_STATUS_OK, v') /\ Length v' = Length v /\
      (forall i, Z.of_nat i < start d \/ end_ d < Z.of_nat i -> string_chars v' !! i = string_chars v !! i) /\
      if Length v <? 0 then get_range_string_helper dst v' (range_of d) = Fault AssertFailed
      else exists g, get_range_string_helper dst v' (range_of d) = Ret (SOPC_STATUS_OK, g) /\ string_chars g = take (Z.to_nat (Length v - start d)) (string_chars s)
  else set_range_string v s (range_of d) = Ret (SOPC_STATUS_NOK, v).
Proof.
  intros W Ws Hs Hd Hw A. pose proof Hd as (Rs & Re & Hle). pose proof W as [Wv _]. pose proof Ws as [Wr _]. pose proof (zlen_chars v W) as Lv. pose proof (zlen_chars s Ws) as Ls.
  unfold in_s, in_u in *. destruct (Z.eqb_spec (Length s) (end_ d - start d + 1)) as [E|N].
  2:{ apply set_range_string_refused; [done|]. unfold u32. rewrite !Z.mod_small by lia. done. }
  destruct (set_range_string_spec v s d W Ws Hd E) as (v' & -> & W' & L' & C'). exists v'. split; [done|]. split; [done|]. rewrite C'.
  destruct (Z.ltb_spec (Length v) 0) as [Nv|Pv].
  { replace (start d <? Length v) with false by lia. split; [done|]. unfold get_range_string_helper. cbn [n_dimensions range_of Z.eqb Pos.eqb]. by replace (0 <=? Length v') with false by lia. }
  destruct (get_range_string_spec dst v' d W' ltac:(lia) Hd A) as (g & Eg & Cg & _). rewrite C' in Cg. destruct (Z.ltb_spec (start d) (Length v)) as [L|G].
  - set (x := take _ (string_chars s)) in *. assert (zlen x = Z.min (Length v - start d) (Length s)) as Lx by (unfold x, zlen in *; rewrite length_take; lia).
    split; [intros i Hi; apply splice_outside; lia|]. exists g. split; [done|]. rewrite Cg. apply selected_splice; lia.
  - split; [done|]. exists g. split; [done|]. rewrite Cg. unfold selected. rewrite drop_ge by (unfold zlen in Lv; lia). rewrite take_nil. by replace (Z.to_nat (Length v - start d)) with O by lia.
Qed.

End Ranges.

(** ** Examples *)

Section Demo.
#[local] Existing Instance serving_allocator.

(** A little-endian machine. *)
#[local] Instance little_host : Host := {| host_int := IntLittle; host_float := FloatLittle |}.

Definition demo_dims : list SOPC_Dimension := [mkDimension 3 7; mkDimension 2 2].

(** [3:7,2] *)
Lemma numeric_range_roundtrip_witness :
  SOPC_NumericRange_Parse [x33; x3a; x37; x2c; x32; x00] = Ret (SOPC_STATUS_OK, Some (mkRange 2 (Some (flat_map dimension_bytes demo_dims)))).
Proof. refine (numeric_range_roundtrip demo_dims [] _ _ _ _); [done|by repeat (constructor; [by vm_compute|])|by vm_compute|reflexivity]. Defined.

(** [7:3] is read, and refused. *)
Lemma numeric_range_parser_sound_witness :
  exists status r, SOPC_NumericRange_Parse ([x37; x3a; x33] ++ x00 :: []) = Ret (status, r) /\ (is_ok status = true \/ r = NULL).
Proof.
  destruct (numeric_range_parser_sound [x37; x3a; x33] []) as (st & r & E & X); [by repeat constructor|by vm_compute|].
  exists st, r. split; [exact E|]. destruct (is_ok st); [by left|by right].
Defined.

(** [OK] over the second and third characters of [abcd], read in an initialised string. *)
Lemma string_range_set_get_witness :
  exists v', set_range_string (mkString 4 false (Some [x61; x62; x63; x64; x00])) (mkString 2 false (Some [x4f; x4b; x00])) (range_of (mkDimension 1 2)) = Ret (SOPC_STATUS_OK, v') /\
    exists g, get_range_string_helper string_init v' (range_of (mkDimension 1 2)) = Ret (SOPC_STATUS_OK, g) /\ string_chars g = [x4f; x4b].
Proof.
  destruct (string_range_set_get (mkString 4 false (Some [x61; x62; x63; x64; x00])) (mkString 2 false (Some [x4f; x4b; x00])) string_init (mkDimension 1 2))
    as (v' & E & _ & _ & G); try done.
  - split; [by vm_compute|]. intros _. by eexists.
  - split; [by vm_compute|]. intros _. by eexists.
  - exists v'. exact (conj E G).
Defined.

(** The length of the range of all the 32 bit indexes wraps to zero: with this range an
    empty value is accepted, and as many characters as the string has are read from it. *)
Example whole_range_reads_out_of_value :
  set_range_string (mkString 4 false (Some [x61; x62; x63; x64; x00])) (mkString 0 false NULL) (range_of (mkDimension 0 4294967295)) = Fault NullDeref.
Proof. by vm_compute. Qed.

(** A range of a null string stops the program. *)
Example range_of_null_string : get_range_string_helper string_init (mkString (-1) false NULL) (range_of (mkDimension 0 1)) = Fault AssertFailed.
Proof. by vm_compute. Qed.

End Demo.
