(* ===== verification/LinkedList.v ===== *)
(** * Singly linked lists

    Model of [src/src/Common/helpers/sopc_singly_linked_list.c].  The elements are cells
    of a heap, linked by their addresses: the heap is passed to every function, a cell
    is allocated and freed, and the access to a cell that is not in the heap is a
    fault. *)

From Stdlib Require Import ZArith Lia.
From Stdlib Require Import Strings.Byte.
From stdpp Require Import prelude gmap.
From S2P Require Import Prelude Common.

Open Scope Z_scope.

(** ** Memory *)

(** The address of a cell, which is not null. *)
Definition loc : Type := positive.

Section List.
Context `{Allocator} {V : Type} `{EqDecision V}.

Record SOPC_SLinkedList_Elt := mkElt {
  id : Z;
  value : ptr V;
  next : ptr loc
}.

Record SOPC_SLinkedList := mkSLinkedList {
  first : ptr loc;
  last : ptr loc;
  length_ : Z;
  maxLength : Z
}.

#[local] Abbreviation heap := (gmap loc SOPC_SLinkedList_Elt).

Definition load (h : heap) (p : ptr loc) : res SOPC_SLinkedList_Elt :=
  match p with
  | NULL => Fault NullDeref
  | Some l => match h !! l with Some e => Ret e | None => Fault OutOfBounds end
  end.

(** [elt->next = nx] *)
Definition set_next (h : heap) (p : ptr loc) (nx : ptr loc) : res heap :=
  let* e := load h p in
  let* l := deref p in
  Ret (<[l := mkElt (id e) (value e) nx]> h).

Definition free (h : heap) (p : ptr loc) : res heap :=
  let* _ := load h p in
  let* l := deref p in
  Ret (delete l h).

(** [sizeof(SOPC_SLinkedList_Elt)] and [sizeof(SOPC_SLinkedList)] *)
Definition sizeof_Elt : Z := 24.
Definition sizeof_SLinkedList : Z := 24.

(** The address of a new cell, when there is room in the list and memory. *)
Definition new_elt (h : heap) (l : SOPC_SLinkedList) : ptr loc :=
  if ((length_ l <? maxLength l) || (maxLength l =? 0)) && alloc_ok sizeof_Elt then Some (fresh (dom h)) else NULL.

(** A chain of cells has at most as many cells as the heap. *)
Definition chain_fuel (h : heap) : nat := S (size h).

(** ** Operations

    They return the result, the heap and the list. *)

Definition SOPC_SLinkedList_Create (sizeMax : Z) : ptr SOPC_SLinkedList :=
  if sizeMax <=? 2 ^ 32 - 1 then
    if alloc_ok sizeof_SLinkedList then Some (mkSLinkedList NULL NULL 0 (u32 sizeMax)) else NULL
  else NULL.

Definition SOPC_SLinkedList_Prepend (h : heap) (list : ptr SOPC_SLinkedList) (i : Z) (v : ptr V)
    : res (ptr V * heap * ptr SOPC_SLinkedList) :=
  match list with
  | NULL => Fault AssertFailed
  | Some l =>
      assert! negb (is_null v) in
      match new_elt h l with
      | NULL => Ret (NULL, h, list)
      | Some a =>
          let h := <[a := mkElt i v (first l)]> h in
          Ret (v, h, Some (mkSLinkedList (Some a) (if is_null (last l) then Some a else last l) (u32 (length_ l + 1)) (maxLength l)))
      end
  end.

Definition SOPC_SLinkedList_Append (h : heap) (list : ptr SOPC_SLinkedList) (i : Z) (v : ptr V)
    : res (ptr V * heap * ptr SOPC_SLinkedList) :=
  match list with
  | NULL => Ret (NULL, h, list)
  | Some l =>
      if is_null v then Ret (NULL, h, list)
      else
        match new_elt h l with
        | NULL => Ret (NULL, h, list)
        | Some a =>
            let h := <[a := mkElt i v NULL]> h in
            let* h := (if is_null (first l) then Ret h else set_next h (last l) (Some a)) in
            Ret (v, h, Some (mkSLinkedList (if is_null (first l) then Some a else first l) (Some a) (u32 (length_ l + 1)) (maxLength l)))
        end
  end.

(** The [do ... while] loop of the sorted insertion: the cell after which the new cell
    is inserted. *)
Fixpoint sorted_search (fuel : nat) (h : heap) (elt : ptr loc) (v : ptr V) (pCompFn : ptr V -> ptr V -> Z) : res (ptr loc) :=
  match fuel with
  | O => Fault OutOfFuel
  | S fuel =>
      let* e := load h elt in
      match next e with
      | NULL => Ret elt
      | Some n =>
          let* ne := load h (Some n) in
          if 0 <=? pCompFn v (value ne) then sorted_search fuel h (Some n) v pCompFn else Ret elt
      end
  end.

Definition SOPC_SLinkedList_SortedInsert (h : heap) (list : ptr SOPC_SLinkedList) (i : Z) (v : ptr V) (pCompFn : ptr V -> ptr V -> Z)
    : res (ptr V * heap * ptr SOPC_SLinkedList) :=
  match list with
  | NULL => Fault AssertFailed
  | Some l =>
      assert! negb (is_null v) in
      match new_elt h l with
      | NULL => Ret (NULL, h, list)
      | Some a =>
          let h := <[a := mkElt i v NULL]> h in
          let grown f la := Some (mkSLinkedList f la (u32 (length_ l + 1)) (maxLength l)) in
          match first l with
          | NULL =>
              assert! is_null (last l) in
              assert! length_ l =? 0 in
              Ret (v, h, grown (Some a) (Some a))
          | Some f =>
              let* fe := load h (Some f) in
              if pCompFn v (value fe) <? 0 then
                let* h := set_next h (Some a) (first l) in
                Ret (v, h, grown (Some a) (last l))
              else
                let* elt := sorted_search (chain_fuel h) h (Some f) v pCompFn in
                let* e := load h elt in
                match next e with
                | Some _ =>
                    let* h := set_next h (Some a) (next e) in
                    let* h := set_next h elt (Some a) in
                    Ret (v, h, grown (first l) (last l))
                | NULL =>
                    assert! bool_decide (last l = elt) in
                    let* h := set_next h elt (Some a) in
                    Ret (v, h, grown (first l) (Some a))
                end
          end
      end
  end.

(** The removal of the first cell. *)
Definition remove_head (h : heap) (l : SOPC_SLinkedList) : res (ptr V * heap * ptr SOPC_SLinkedList) :=
  let* e := load h (first l) in
  let* h := free h (first l) in
  Ret (value e, h, Some (mkSLinkedList (next e) (if is_null (next e) then NULL else last l) (u32 (length_ l - 1)) (maxLength l))).

Definition SOPC_SLinkedList_PopHead (h : heap) (list : ptr SOPC_SLinkedList) : res (ptr V * heap * ptr SOPC_SLinkedList) :=
  match list with
  | NULL => Fault AssertFailed
  | Some l => if is_null (first l) then Ret (NULL, h, list) else remove_head h l
  end.

(** [isElementFct], given the element to remove. *)
Definition elt_test : Type := loc -> SOPC_SLinkedList_Elt -> bool.

Definition IsEqualToEltToRemove (right : loc) : elt_test := fun left _ => bool_decide (left = right).
Definition IsEltIdEqualToEltToRemove (right : Z) : elt_test := fun _ left => id left =? right.
Definition IsEltValueEqualToEltToRemove (right : ptr V) : elt_test := fun _ left => bool_decide (value left = right).

(** The [while] loop: the cell that precedes the cell to remove. *)
Fixpoint remove_search (fuel : nat) (h : heap) (elt : ptr loc) (isElementFct : elt_test) : res (ptr loc) :=
  match fuel with
  | O => Fault OutOfFuel
  | S fuel =>
      let* e := load h elt in
      match next e with
      | NULL => Ret elt
      | Some n =>
          let* ne := load h (Some n) in
          if isElementFct n ne then Ret elt else remove_search fuel h (Some n) isElementFct
      end
  end.

Definition SOPC_SLinkedList_RemoveFromElt (h : heap) (list : ptr SOPC_SLinkedList) (isElementFct : elt_test)
    : res (ptr V * heap * ptr SOPC_SLinkedList) :=
  match list with
  | NULL => Fault AssertFailed
  | Some l =>
      match first l with
      | NULL => Ret (NULL, h, list)
      | Some f =>
          let* fe := load h (Some f) in
          if isElementFct f fe then remove_head h l
          else
            let* elt := remove_search (chain_fuel h) h (Some f) isElementFct in
            let* e := load h elt in
            match next e with
            | NULL => Ret (NULL, h, list)
            | Some n =>
                let* ne := load h (Some n) in
                let* h := free h (Some n) in
                let* h := set_next h elt (next ne) in
                Ret (value ne, h,
                     Some (mkSLinkedList (first l) (if bool_decide (Some n = last l) then elt else last l) (u32 (length_ l - 1)) (maxLength l)))
            end
      end
  end.

Definition SOPC_SLinkedList_PopLast (h : heap) (list : ptr SOPC_SLinkedList) : res (ptr V * heap * ptr SOPC_SLinkedList) :=
  match list with
  | NULL => Fault AssertFailed
  | Some l =>
      match last l with
      | NULL => Ret (NULL, h, list)
      | Some la => SOPC_SLinkedList_RemoveFromElt h list (IsEqualToEltToRemove la)
      end
  end.

Fixpoint find_elt (fuel : nat) (h : heap) (elt : ptr loc) (i : Z) : res (ptr loc) :=
  match elt with
  | NULL => Ret NULL
  | Some _ =>
      match fuel with
      | O => Fault OutOfFuel
      | S fuel =>
          let* e := load h elt in
          if id e =? i then Ret elt else find_elt fuel h (next e) i
      end
  end.

Definition SOPC_SLinkedList_InternalFind (h : heap) (list : ptr SOPC_SLinkedList) (i : Z) : res (ptr loc) :=
  match list with
  | NULL => Fault AssertFailed
  | Some l => find_elt (chain_fuel h) h (first l) i
  end.

Definition SOPC_SLinkedList_FindFromId (h : heap) (list : ptr SOPC_SLinkedList) (i : Z) : res (ptr V) :=
  let* elt := SOPC_SLinkedList_InternalFind h list i in
  if is_null elt then Ret NULL
  else let* e := load h elt in Ret (value e).

(** The calls to the function that is applied, in order. *)
Fixpoint apply_elts (fuel : nat) (h : heap) (elt : ptr loc) : res (list (Z * ptr V)) :=
  match elt with
  | NULL => Ret []
  | Some _ =>
      match fuel with
      | O => Fault OutOfFuel
      | S fuel =>
          let* e := load h elt in
          let* l := apply_elts fuel h (next e) in
          Ret ((id e, value e) :: l)
      end
  end.

Definition SOPC_SLinkedList_Apply (h : heap) (lst : ptr SOPC_SLinkedList) : res (list (Z * ptr V)) :=
  match lst with
  | NULL => Fault AssertFailed
  | Some l => apply_elts (chain_fuel h) h (first l)
  end.

Definition SOPC_SLinkedList_RemoveFromId (h : heap) (list : ptr SOPC_SLinkedList) (i : Z) : res (ptr V * heap * ptr SOPC_SLinkedList) :=
  SOPC_SLinkedList_RemoveFromElt h list (IsEltIdEqualToEltToRemove i).

Definition SOPC_SLinkedList_RemoveFromValuePtr (h : heap) (list : ptr SOPC_SLinkedList) (v : ptr V)
    : res (ptr V * heap * ptr SOPC_SLinkedList) :=
  SOPC_SLinkedList_RemoveFromElt h list (IsEltValueEqualToEltToRemove v).

Fixpoint clear_cells (fuel : nat) (h : heap) (elt : ptr loc) : res heap :=
  match elt with
  | NULL => Ret h
  | Some _ =>
      match fuel with
      | O => Fault OutOfFuel
      | S fuel =>
          let* e := load h elt in
          let* h := free h elt in
          clear_cells fuel h (next e)
      end
  end.

Definition SOPC_SLinkedList_Clear (h : heap) (list : ptr SOPC_SLinkedList) : res (heap * ptr SOPC_SLinkedList) :=
  match list with
  | NULL => Ret (h, NULL)
  | Some l =>
      let* h := clear_cells (chain_fuel h) h (first l) in
      Ret (h, Some (mkSLinkedList NULL NULL 0 (maxLength l)))
  end.

(** The list itself is freed after its cells. *)
Definition SOPC_SLinkedList_Delete (h : heap) (list : ptr SOPC_SLinkedList) : res heap :=
  let* (h, _) := SOPC_SLinkedList_Clear h list in Ret h.

(** *** Iterators: the address of a cell *)

Definition SOPC_SLinkedList_GetIterator (list : ptr SOPC_SLinkedList) : res (ptr loc) :=
  match list with NULL => Fault AssertFailed | Some l => Ret (first l) end.

(** Returns the value, the identifier and the iterator. *)
Definition SOPC_SLinkedList_NextWithId (h : heap) (it : ptr loc) (i : Z) : res (ptr V * Z * ptr loc) :=
  match it with
  | NULL => Ret (NULL, i, it)
  | Some _ => let* e := load h it in Ret (value e, id e, next e)
  end.

(** Returns the value and the iterator. *)
Definition SOPC_SLinkedList_Next (h : heap) (it : ptr loc) : res (ptr V * ptr loc) :=
  let* (v, _, it) := SOPC_SLinkedList_NextWithId h it 0 in Ret (v, it).

Definition SOPC_SLinkedList_HasNext (h : heap) (it : ptr loc) : res bool :=
  match it with
  | NULL => Ret false
  | Some _ => let* e := load h it in Ret (negb (is_null (value e)))
  end.

Definition SOPC_SLinkedList_GetLength (list : ptr SOPC_SLinkedList) : res Z :=
  match list with NULL => Fault AssertFailed | Some l => Ret (length_ l) end.

End List.

Arguments SOPC_SLinkedList_Elt : clear implicits.

Abbreviation heap V := (gmap loc (SOPC_SLinkedList_Elt V)).
