(* ===== verification/LinkedListSpec.v ===== *)
(** * Linked lists as sequences

    The cells of a list form a chain in the heap; the rest of the heap is not changed
    by the operations, and a cell that leaves the list leaves the heap. *)

From Stdlib Require Import ZArith Lia.
From Stdlib Require Import Strings.Byte.
From stdpp Require Import prelude gmap.
From S2P Require Import Prelude Common LinkedList.

Open Scope Z_scope.

Section Chains.
Context {V : Type} `{EqDecision V}.
Implicit Types h : heap V.

(** A cell: its address and its item. *)
#[local] Abbreviation cell := (loc * (Z * V))%type.

Definition locs (cs : list cell) : list loc := cs.*1.

Definition head_loc (cs : list cell) (q : ptr loc) : ptr loc := match cs with [] => q | c :: _ => Some c.1 end.

(** The cells from the address [p] to the address [q]. *)
Fixpoint chain h (p : ptr loc) (cs : list cell) (q : ptr loc) : Prop :=
  match cs with
  | [] => p = q
  | (a, (i, v)) :: cs => p = Some a /\ exists nx, h !! a = Some (mkElt i (Some v) nx) /\ chain h nx cs q
  end.

Lemma chain_app h cs1 cs2 q : forall p, chain h p (cs1 ++ cs2) q <-> exists m, chain h p cs1 m /\ chain h m cs2 q.
Proof.
  induction cs1 as [|[a [i v]] cs1 IH]; intros p; simpl.
  - split; [by exists p|]. by intros (m & -> & ?).
  - split.
    + intros (-> & nx & E & C). apply IH in C as (m & ? & ?). exists m. split; [|done]. split; [done|]. by exists nx.
    + intros (m & (-> & nx & E & C1) & C2). split; [done|]. exists nx. split; [done|]. apply IH. by exists m.
Qed.

Lemma chain_head h p cs q : chain h p cs q -> p = head_loc cs q.
Proof. destruct cs as [|[a [i v]] cs]; simpl; [done|]. by intros [-> _]. Qed.

Lemma chain_frame h h' cs q : forall p, (forall a, a ∈ locs cs -> h' !! a = h !! a) -> chain h p cs q -> chain h' p cs q.
Proof.
  induction cs as [|[a [i v]] cs IH]; intros p F; simpl; [done|]. intros (-> & nx & E & C). split; [done|]. exists nx.
  split; [rewrite F; [done|apply list_elem_of_here]|]. apply IH; [|done]. intros b Hb. apply F. by apply list_elem_of_further.
Qed.

Lemma chain_insert h a e p cs q : a ∉ locs cs -> chain h p cs q -> chain (<[a := e]> h) p cs q.
Proof. intros N. apply chain_frame. intros b Hb. apply lookup_insert_ne. by intros ->. Qed.

Lemma chain_delete h a p cs q : a ∉ locs cs -> chain h p cs q -> chain (delete a h) p cs q.
Proof. intros N. apply chain_frame. intros b Hb. apply lookup_delete_ne. by intros ->. Qed.

Lemma chain_in h p cs q a : chain h p cs q -> a ∈ locs cs -> is_Some (h !! a).
Proof.
  revert p. induction cs as [|[b [i v]] cs IH]; intros p; simpl; [by intros _ ?%not_elem_of_nil|].
  intros (-> & nx & E & C) [-> | Ha]%elem_of_cons; [by eexists|]. by eapply IH.
Qed.

Lemma chain_lookup h p cs q c : chain h p cs q -> c ∈ cs -> exists nx, h !! c.1 = Some (mkElt c.2.1 (Some c.2.2) nx).
Proof.
  revert p. induction cs as [|[b [i v]] cs IH]; intros p; simpl; [by intros _ ?%not_elem_of_nil|].
  intros (-> & nx & E & C) [-> | Ha]%elem_of_cons; [by exists nx|]. by eapply IH.
Qed.

Lemma find_map {A B} (f : A -> B) (p : B -> bool) xs : find p (map f xs) = f <$> find (fun x => p (f x)) xs.
Proof. induction xs as [|x xs IH]; [done|]. cbn. by destruct (p (f x)). Qed.

Lemma locs_app cs1 cs2 : locs (cs1 ++ cs2) = locs cs1 ++ locs cs2.
Proof. apply fmap_app. Qed.

(** There are enough cells in the heap for the loops to reach the end. *)
Lemma chain_size h p cs q : NoDup (locs cs) -> chain h p cs q -> (length cs < chain_fuel h)%nat.
Proof.
  intros N C. unfold chain_fuel. apply Nat.lt_succ_r.
  assert (length cs = size (list_to_set (C := gset loc) (locs cs))) as -> by (rewrite size_list_to_set by done; symmetry; apply length_fmap).
  assert (size h = size (dom h)) as -> by (symmetry; apply size_dom).
  apply subseteq_size. intros a Ha. apply elem_of_list_to_set in Ha. apply elem_of_dom. by eapply chain_in.
Qed.

(** The cell [b] in the middle of a chain. *)
Lemma chain_mid h p cs1 b i v cs2 q : chain h p (cs1 ++ (b, (i, v)) :: cs2) q <->
  chain h p cs1 (Some b) /\ h !! b = Some (mkElt i (Some v) (head_loc cs2 q)) /\ chain h (head_loc cs2 q) cs2 q.
Proof.
  rewrite chain_app. split.
  - intros (m & C1 & (-> & nx & E & C2)). pose proof (chain_head _ _ _ _ C2) as ->. done.
  - intros (C1 & E & C2). exists (Some b). split; [done|]. split; [done|]. by eexists.
Qed.

(** A new cell after the cell [b]. *)
Lemma insert_after h p cs1 b i v cs2 a j w : NoDup (locs (cs1 ++ (b, (i, v)) :: cs2)) -> a ∉ locs (cs1 ++ (b, (i, v)) :: cs2) ->
  chain h p (cs1 ++ (b, (i, v)) :: cs2) NULL ->
  chain (<[b := mkElt i (Some v) (Some a)]> (<[a := mkElt j (Some w) (head_loc cs2 NULL)]> h)) p
    (cs1 ++ (b, (i, v)) :: (a, (j, w)) :: cs2) NULL.
Proof.
  rewrite locs_app. cbn [locs fmap list_fmap]. intros N Na C. apply chain_mid in C as (C1 & E & C2).
  apply NoDup_app in N as (_ & N12 & N2). apply NoDup_cons in N2 as [Nb _]. rewrite elem_of_app, elem_of_cons in Na.
  assert (b ∉ locs cs1) by (intros X; apply (N12 b X), list_elem_of_here).
  apply chain_mid. split; [|split].
  - apply chain_insert; [done|]. apply chain_insert; [by intros ?; apply Na; left|done].
  - apply lookup_insert_eq.
  - cbn [head_loc fst chain]. split; [done|]. eexists. split; [rewrite lookup_insert_ne by (intros ->; apply Na; right; by left); apply lookup_insert_eq|].
    apply chain_insert; [done|]. apply chain_insert; [by intros ?; apply Na; right; right|done].
Qed.

(** The cell after [b] is removed. *)
Lemma remove_after h p cs1 b i v n y cs2 : NoDup (locs (cs1 ++ (b, (i, v)) :: (n, y) :: cs2)) ->
  chain h p (cs1 ++ (b, (i, v)) :: (n, y) :: cs2) NULL ->
  chain (<[b := mkElt i (Some v) (head_loc cs2 NULL)]> (delete n h)) p (cs1 ++ (b, (i, v)) :: cs2) NULL.
Proof.
  rewrite locs_app. cbn [locs fmap list_fmap]. intros N C. apply chain_mid in C as (C1 & E & C2).
  apply NoDup_app in N as (_ & N12 & N2). apply NoDup_cons in N2 as [Nb N2]. apply NoDup_cons in N2 as [Nn _].
  assert (b ∉ locs cs1) by (intros X; apply (N12 b X), list_elem_of_here).
  assert (n ∉ locs cs1) by (intros X; apply (N12 n X), list_elem_of_further, list_elem_of_here).
  rewrite elem_of_cons in Nb. destruct y as [j w]. cbn [head_loc fst chain] in C2. destruct C2 as (_ & nx & En & C2).
  pose proof (chain_head _ _ _ _ C2) as ->.
  apply chain_mid. split; [|split].
  - apply chain_insert; [done|]. by apply chain_delete.
  - apply lookup_insert_eq.
  - apply chain_insert; [by intros ?; apply Nb; right|]. by apply chain_delete.
Qed.

(** *** Accesses to a cell of the heap *)

Lemma load_some h a e : h !! a = Some e -> load h (Some a) = Ret e.
Proof. intros E. unfold load. by rewrite E. Qed.

Lemma free_some h a e : h !! a = Some e -> free h (Some a) = Ret (delete a h).
Proof. intros E. unfold free. by rewrite (load_some h a e E). Qed.

Lemma set_next_some h a e nx : h !! a = Some e -> set_next h (Some a) nx = Ret (<[a := mkElt (id e) (value e) nx]> h).
Proof. intros E. unfold set_next. by rewrite (load_some h a e E). Qed.

(** *** The loops *)

Lemma sorted_search_eq fuel h elt v cmp :
  sorted_search fuel h elt v cmp = remove_search fuel h elt (fun _ e => negb (0 <=? cmp v (value e))).
Proof.
  revert elt. induction fuel as [|fuel IH]; intros elt; [done|]. cbn [sorted_search remove_search]. destruct (load h elt) as [e|]; [|done].
  cbn [rbind]. destruct (next e) as [n|]; [|done]. destruct (load h (Some n)) as [ne|]; [|done]. cbn [rbind].
  destruct (0 <=? cmp v (value ne)); cbn [negb]; [apply IH|done].
Qed.

(** A test on the item and the address of a cell. *)
Definition tests (test : elt_test) (tst : cell -> bool) : Prop :=
  forall a i v nx, test a (mkElt i (Some v) nx) = tst (a, (i, v)).

Lemma remove_search_spec h test tst : tests test tst -> forall cs a x fuel, chain h (Some a) ((a, x) :: cs) NULL -> (length cs < fuel)%nat ->
  exists cs1 b y cs2, (a, x) :: cs = cs1 ++ (b, y) :: cs2 /\ remove_search fuel h (Some a) test = Ret (Some b) /\
    Forall (fun c => tst c = false) (tail (cs1 ++ [(b, y)])) /\ match cs2 with [] => True | c :: _ => tst c = true end.
Proof.
  intros T. induction cs as [|[n y] cs IH]; intros a [i v] [|fuel] C L; simpl in L; try lia; destruct C as (_ & nx & E & C);
    cbn [remove_search load]; rewrite E; cbn [rbind next].
  - cbn in C. subst nx. exists [], a, (i, v), []. by split_and!.
  - destruct y as [j w]. pose proof C as (-> & nx & En & _). rewrite En. cbn [rbind]. rewrite T. destruct (tst (n, (j, w))) eqn:Et.
    + exists [], a, (i, v), ((n, (j, w)) :: cs). by split_and!.
    + destruct (IH n (j, w) fuel C ltac:(lia)) as (cs1 & b & y & cs2 & Ec & -> & F & M). exists ((a, (i, v)) :: cs1), b, y, cs2.
      rewrite Ec. split_and!; try done. cbn [app tail]. destruct cs1 as [|c cs1]; simplify_eq/=; by constructor.
Qed.

Lemma find_elt_spec h i cs : forall p fuel, chain h p cs NULL -> (length cs <= fuel)%nat ->
  find_elt fuel h p i = Ret (fst <$> find (fun c => c.2.1 =? i) cs).
Proof.
  induction cs as [|[a [j v]] cs IH]; intros p fuel C L; simpl in *; [subst; by destruct fuel|]. destruct C as (-> & nx & E & C).
  destruct fuel as [|fuel]; [lia|]. cbn [find_elt load]. rewrite E. cbn [rbind id next]. destruct (j =? i); [done|]. apply IH; [done|lia].
Qed.

Lemma apply_elts_spec h cs : forall p fuel, chain h p cs NULL -> (length cs <= fuel)%nat ->
  apply_elts fuel h p = Ret (map (fun c => (c.2.1, Some c.2.2)) cs).
Proof.
  induction cs as [|[a [j v]] cs IH]; intros p fuel C L; simpl in *; [subst; by destruct fuel|]. destruct C as (-> & nx & E & C).
  destruct fuel as [|fuel]; [lia|]. cbn [apply_elts load]. rewrite E. cbn [rbind id next value]. rewrite (IH nx fuel) by (done || lia). done.
Qed.

Lemma clear_cells_spec cs : forall h p fuel, NoDup (locs cs) -> chain h p cs NULL -> (length cs <= fuel)%nat ->
  exists h', clear_cells fuel h p = Ret h' /\ forall a, h' !! a = if decide (a ∈ locs cs) then None else h !! a.
Proof.
  induction cs as [|[a [j v]] cs IH]; intros h p fuel N C L; cbn [chain] in C; cbn [length] in L.
  - subst. exists h. split; [by destruct fuel|]. intros a. by rewrite decide_False by apply not_elem_of_nil.
  - destruct C as (-> & nx & E & C). apply NoDup_cons in N as [Na N]. destruct fuel as [|fuel]; [lia|]. cbn [clear_cells]. rewrite (load_some _ _ _ E), (free_some _ _ _ E).
    cbn [rbind next]. destruct (IH (delete a h) nx fuel N) as (h' & -> & F); [by apply chain_delete|lia|].
    exists h'. split; [done|]. intros b. rewrite F. destruct (decide (b ∈ locs cs)) as [Hb|Hb].
    + by rewrite decide_True by (by apply list_elem_of_further).
    + destruct (decide (b = a)) as [-> |Ne]; [by rewrite lookup_delete_eq, decide_True by apply list_elem_of_here|].
      rewrite lookup_delete_ne by done. rewrite decide_False; [done|]. by intros [?|?]%elem_of_cons.
Qed.

End Chains.

(** ** The representation of a sequence *)

Section Representation.
Context `{Allocator} {V : Type} `{EqDecision V}.
Implicit Types h : heap V.

#[local] Abbreviation cell := (loc * (Z * V))%type.

Definition last_loc (cs : list cell) : ptr loc := fst <$> list_basics.list.last cs.

(** The cells of [h] that are not cells of the list are those of [hf]. *)
Record Repr (hf h : heap V) (l : SOPC_SLinkedList) (cs : list cell) : Prop := {
  r_chain : chain h (first l) cs NULL;
  r_nodup : NoDup (locs cs);
  r_last : last l = last_loc cs;
  r_length : length_ l = zlen cs;
  r_small : zlen cs < 2 ^ 32;
  r_in : forall a, a ∈ locs cs -> hf !! a = None;
  r_rest : forall a, a ∉ locs cs -> h !! a = hf !! a
}.

Lemma Repr_nil hf max : Repr hf hf (mkSLinkedList NULL NULL 0 max) [].
Proof. split; try done; [constructor|]. intros a. by intros ?%not_elem_of_nil. Qed.

Lemma first_head hf h l cs : Repr hf h l cs -> first l = head_loc cs NULL.
Proof. intros R. by eapply chain_head, R. Qed.

(** There is room for one more item and memory for its cell. *)
Definition accepts (l : SOPC_SLinkedList) : bool := ((length_ l <? maxLength l) || (maxLength l =? 0)) && alloc_ok sizeof_Elt.

Lemma new_elt_spec hf h l cs : Repr hf h l cs ->
  if accepts l then exists a, (new_elt h l = Some a) /\ (a ∉ locs cs) /\ h !! a = None /\ (hf !! a = None) else new_elt h l = NULL.
Proof.
  intros R. unfold new_elt, accepts. destruct (_ && _); [|done]. exists (fresh (dom h)). pose proof (is_fresh (dom h)) as F.
  rewrite elem_of_dom in F. apply eq_None_not_Some in F. split; [done|].
  assert (fresh (dom h) ∉ locs cs) as N by (intros X; eapply chain_in in X as [e E]; [|apply R]; congruence).
  split_and!; try done. by rewrite <- (r_rest _ _ _ _ R).
Qed.

Lemma Repr_grow hf h l cs h' l' cs' a : Repr hf h l cs -> hf !! a = None -> zlen cs + 1 < 2 ^ 32 ->
  (forall b, b ∈ locs cs' <-> b = a \/ b ∈ locs cs) -> zlen cs' = zlen cs + 1 ->
  chain h' (first l') cs' NULL -> NoDup (locs cs') -> last l' = last_loc cs' -> length_ l' = u32 (length_ l + 1) ->
  (forall b, b ∉ locs cs' -> h' !! b = h !! b) -> Repr hf h' l' cs'.
Proof.
  intros R Ha L Hin Lc C N La Le F. pose proof (zlen_nonneg cs). split; try done; try lia.
  - rewrite Le, (r_length _ _ _ _ R), Lc. unfold u32. apply Z.mod_small. lia.
  - intros b Hb. apply Hin in Hb as [-> |Hb]; [done|by apply R].
  - intros b Hb. rewrite F by done. apply R. intros X. apply Hb, Hin. by right.
Qed.

Lemma Repr_shrink hf h l cs h' l' cs' a : Repr hf h l cs -> a ∈ locs cs ->
  (forall b, b ∈ locs cs <-> b = a \/ b ∈ locs cs') -> zlen cs = zlen cs' + 1 ->
  chain h' (first l') cs' NULL -> NoDup (locs cs') -> last l' = last_loc cs' -> length_ l' = u32 (length_ l - 1) ->
  h' !! a = None -> (forall b, b ∉ locs cs -> h' !! b = h !! b) -> Repr hf h' l' cs'.
Proof.
  intros R Ha Hin Lc C N La Le Fa F. pose proof (zlen_nonneg cs'). pose proof (r_small _ _ _ _ R). split; try done; try lia.
  - rewrite Le, (r_length _ _ _ _ R), Lc. unfold u32. rewrite Z.mod_small; lia.
  - intros b Hb. apply R, Hin. by right.
  - intros b Hb. destruct (decide (b = a)) as [-> |Ne]; [by rewrite Fa, (r_in _ _ _ _ R)|].
    assert (b ∉ locs cs) by (intros [?|?]%Hin; done). rewrite F by done. by apply R.
Qed.

Lemma last_loc_snoc cs c : last_loc (cs ++ [c]) = Some c.1.
Proof. unfold last_loc. by rewrite last_snoc. Qed.

Lemma last_loc_app cs1 c cs2 : last_loc (cs1 ++ c :: cs2) = last_loc (c :: cs2).
Proof. unfold last_loc. by rewrite last_app_cons. Qed.

Lemma last_loc_cons2 c1 c2 cs : last_loc (c1 :: c2 :: cs) = last_loc (c2 :: cs).
Proof. done. Qed.

(** *** Insertions *)

Lemma Repr_cons hf h l cs a i v max : Repr hf h l cs -> zlen cs + 1 < 2 ^ 32 -> a ∉ locs cs -> hf !! a = None ->
  Repr hf (<[a := mkElt i (Some v) (first l)]> h)
    (mkSLinkedList (Some a) (if is_null (last l) then Some a else last l) (u32 (length_ l + 1)) max) ((a, (i, v)) :: cs).
Proof.
  intros R L Na Hf. apply (Repr_grow hf h l cs _ _ _ a); try done.
  - intros b. apply elem_of_cons.
  - rewrite zlen_cons. lia.
  - cbn [first chain]. split; [done|]. eexists. split; [apply lookup_insert_eq|]. apply chain_insert; [done|apply R].
  - apply NoDup_cons. split; [done|apply R].
  - cbn [last]. rewrite (r_last _ _ _ _ R). destruct cs as [|c cs]; [done|]. rewrite last_loc_cons2. unfold last_loc.
    by destruct (list_basics.list.last (c :: cs)) eqn:E; [|apply last_None in E].
  - intros b Hb. apply lookup_insert_ne. intros ->. apply Hb, list_elem_of_here.
Qed.

Lemma Repr_cons_empty hf h l a i v max : Repr hf h l [] -> a ∉ locs ([] : list cell) -> hf !! a = None ->
  Repr hf (<[a := mkElt i (Some v) NULL]> h) (mkSLinkedList (Some a) (Some a) (u32 (length_ l + 1)) max) [(a, (i, v))].
Proof.
  intros R Na Hf. pose proof (Repr_cons hf h l [] a i v max R ltac:(done) Na Hf) as P.
  rewrite (first_head _ _ _ _ R), (r_last _ _ _ _ R) in P. exact P.
Qed.

Lemma Prepend_spec hf h l cs i v : Repr hf h l cs -> zlen cs + 1 < 2 ^ 32 ->
  if accepts l then exists h' l' a, SOPC_SLinkedList_Prepend h (Some l) i (Some v) = Ret (Some v, h', Some l') /\
    maxLength l' = maxLength l /\ Repr hf h' l' ((a, (i, v)) :: cs)
  else SOPC_SLinkedList_Prepend h (Some l) i (Some v) = Ret (NULL, h, Some l).
Proof.
  intros R L. pose proof (new_elt_spec hf h l cs R) as A. unfold SOPC_SLinkedList_Prepend. cbn [is_null negb].
  destruct (accepts l); [|by rewrite A]. destruct A as (a & -> & Na & Ha & Hf). eexists _, _, a. split; [done|]. split; [done|].
  by apply Repr_cons.
Qed.

(** A cell is inserted after the cell [b]; the list ends with the new cell when [b] was
    the last one. *)
Lemma insert_after_Repr hf h l cs1 b i v cs2 a j w max : let cs := cs1 ++ (b, (i, v)) :: cs2 in
  Repr hf h l cs -> zlen cs + 1 < 2 ^ 32 -> a ∉ locs cs -> hf !! a = None ->
  Repr hf (<[b := mkElt i (Some v) (Some a)]> (<[a := mkElt j (Some w) (head_loc cs2 NULL)]> h))
    (mkSLinkedList (first l) (if cs2 is [] then Some a else last l) (u32 (length_ l + 1)) max) (cs1 ++ (b, (i, v)) :: (a, (j, w)) :: cs2).
Proof.
  intros cs R L Na Hf. assert (cs1 ++ (b, (i, v)) :: (a, (j, w)) :: cs2 ≡ₚ (a, (j, w)) :: cs) as P by (unfold cs; solve_Permutation).
  assert (locs (cs1 ++ (b, (i, v)) :: (a, (j, w)) :: cs2) ≡ₚ a :: locs cs) as Pl by (unfold locs; by rewrite P).
  apply (Repr_grow hf h l cs _ _ _ a); try done.
  - intros x. rewrite Pl. apply elem_of_cons.
  - unfold zlen. rewrite P. cbn [length]. lia.
  - apply insert_after; [apply R|done|apply R].
  - rewrite Pl. apply NoDup_cons. split; [done|apply R].
  - cbn [last]. rewrite last_loc_app, last_loc_cons2. destruct cs2 as [|c cs2]; [done|]. rewrite last_loc_cons2.
    rewrite (r_last _ _ _ _ R). unfold cs. by rewrite last_loc_app, last_loc_cons2.
  - intros x. rewrite Pl, elem_of_cons. intros X. rewrite !lookup_insert_ne; [done|by intros ->; apply X; left|].
    intros E. apply X. right. rewrite <- E. unfold cs. rewrite locs_app, elem_of_app. right. apply list_elem_of_here.
Qed.

Lemma Append_spec hf h l cs i v : Repr hf h l cs -> zlen cs + 1 < 2 ^ 32 ->
  if accepts l then exists h' l' a, SOPC_SLinkedList_Append h (Some l) i (Some v) = Ret (Some v, h', Some l') /\
    maxLength l' = maxLength l /\ Repr hf h' l' (cs ++ [(a, (i, v))])
  else SOPC_SLinkedList_Append h (Some l) i (Some v) = Ret (NULL, h, Some l).
Proof.
  intros R L. pose proof (new_elt_spec hf h l cs R) as A. unfold SOPC_SLinkedList_Append. cbn [is_null].
  destruct (accepts l); [|by rewrite A]. destruct A as (a & -> & Na & Ha & Hf).
  rewrite (first_head _ _ _ _ R). destruct cs as [|[b [k w]] cs _] using rev_ind.
  - cbn [head_loc is_null rbind]. eexists _, _, a. split; [done|]. split; [done|]. by apply Repr_cons_empty.
  - assert (exists f, head_loc (cs ++ [(b, (k, w))]) NULL = Some f) as [f Ef] by (destruct cs; by eexists). rewrite Ef. cbn [is_null].
    rewrite (r_last _ _ _ _ R), last_loc_snoc. cbn [fst].
    pose proof (r_chain _ _ _ _ R) as C. apply chain_mid in C as (_ & E & _).
    assert (b <> a) as Ne by (intros ->; congruence).
    rewrite (set_next_some _ b (mkElt k (Some w) NULL)) by (by rewrite lookup_insert_ne). cbn [rbind id value].
    eexists _, _, a. split; [done|]. split; [done|].
    pose proof (insert_after_Repr hf h l cs b k w [] a i v (maxLength l) R L Na Hf) as P. rewrite (first_head _ _ _ _ R), Ef in P.
    rewrite <- app_assoc. exact P.
Qed.

(** The sequence with an item inserted after the items that do not exceed it. *)
Section Sorted.
Variable pCompFn : ptr V -> ptr V -> Z.

Fixpoint insert_sorted (x : Z * V) (xs : list (Z * V)) : list (Z * V) :=
  match xs with
  | [] => [x]
  | y :: xs => if pCompFn (Some x.2) (Some y.2) <? 0 then x :: y :: xs else y :: insert_sorted x xs
  end.

Lemma insert_sorted_split x xs1 xs2 : Forall (fun y => 0 <= pCompFn (Some x.2) (Some y.2)) xs1 ->
  match xs2 with [] => True | y :: _ => pCompFn (Some x.2) (Some y.2) < 0 end -> insert_sorted x (xs1 ++ xs2) = xs1 ++ x :: xs2.
Proof.
  intros F M. induction F as [|y xs1 Hy _ IH]; cbn [app insert_sorted].
  - destruct xs2 as [|y xs2]; [done|]. cbn [insert_sorted]. by replace (pCompFn (Some x.2) (Some y.2) <? 0) with true by lia.
  - replace (pCompFn (Some x.2) (Some y.2) <? 0) with false by lia. by rewrite IH.
Qed.

Lemma SortedInsert_spec hf h l cs i v : Repr hf h l cs -> zlen cs + 1 < 2 ^ 32 ->
  if accepts l then exists h' l' cs', SOPC_SLinkedList_SortedInsert h (Some l) i (Some v) pCompFn = Ret (Some v, h', Some l') /\
    maxLength l' = maxLength l /\ Repr hf h' l' cs' /\ cs'.*2 = insert_sorted (i, v) cs.*2
  else SOPC_SLinkedList_SortedInsert h (Some l) i (Some v) pCompFn = Ret (NULL, h, Some l).
Proof.
  intros R L. pose proof (new_elt_spec hf h l cs R) as A. unfold SOPC_SLinkedList_SortedInsert. cbn [is_null negb].
  destruct (accepts l); [|by rewrite A]. destruct A as (a & -> & Na & Ha & Hf). cbv zeta.
  set (h1 := <[a := mkElt i (Some v) NULL]> h). pose proof (first_head _ _ _ _ R) as Ef.
  assert (h1 !! a = Some (mkElt i (Some v) NULL)) as E1 by apply lookup_insert_eq.
  destruct cs as [|[f [k w]] cs]; cbn [head_loc fst] in Ef; rewrite Ef.
  { assert (last l = NULL) as -> by apply R. assert ((length_ l =? 0) = true) as -> by (by rewrite (r_length _ _ _ _ R)). cbn [is_null].
    eexists _, _, [(a, (i, v))]. split; [done|]. split; [done|]. split; [|done]. by apply Repr_cons_empty. }
  assert (chain h1 (Some f) ((f, (k, w)) :: cs) NULL) as C1 by (rewrite <- Ef; apply chain_insert; [done|apply R]).
  pose proof C1 as (_ & nx & Ew & _). rewrite (load_some _ _ _ Ew). cbn [rbind value].
  destruct (Z.ltb_spec (pCompFn (Some v) (Some w)) 0) as [Lt|Ge].
  { rewrite (set_next_some _ _ _ _ E1). cbn [rbind id value]. unfold h1. rewrite insert_insert_eq.
    eexists _, _, ((a, (i, v)) :: (f, (k, w)) :: cs). split; [done|]. split; [done|]. split; [|cbn; by replace (pCompFn (Some v) (Some w) <? 0) with true by lia].
    pose proof (Repr_cons hf h l _ a i v (maxLength l) R L Na Hf) as P. rewrite Ef, (r_last _ _ _ _ R) in P.
    rewrite (r_last _ _ _ _ R). by destruct (last_loc ((f, (k, w)) :: cs)) eqn:X; [|unfold last_loc in X; apply fmap_None, last_None in X]. }
  rewrite sorted_search_eq.
  destruct (remove_search_spec h1 (fun _ e => negb (0 <=? pCompFn (Some v) (value e))) (fun c => negb (0 <=? pCompFn (Some v) (Some c.2.2)))
    ltac:(done) cs f (k, w) (chain_fuel h1) C1) as (cs1 & b & [j y] & cs2 & Ec & -> & F & M).
  { pose proof (chain_size h1 _ _ _ (r_nodup _ _ _ _ R) C1) as X. cbn [length] in X. lia. }
  rewrite Ec in *. pose proof C1 as C1'. apply chain_mid in C1' as (_ & Eb & _). cbn [rbind]. rewrite (load_some _ _ _ Eb). cbn [rbind next].
  assert (b <> a) as Ne by (intros ->; apply Na; rewrite locs_app, elem_of_app; right; apply list_elem_of_here).
  pose proof (insert_after_Repr hf h l cs1 b j y cs2 a i v (maxLength l) R L Na Hf) as P.
  assert ((cs1 ++ (b, (j, y)) :: (a, (i, v)) :: cs2).*2 = insert_sorted (i, v) (cs1 ++ (b, (j, y)) :: cs2).*2) as Es.
  { rewrite !fmap_app. cbn [fmap list_fmap snd]. replace (cs1.*2 ++ (j, y) :: (i, v) :: cs2.*2) with ((cs1.*2 ++ [(j, y)]) ++ (i, v) :: cs2.*2) by (by rewrite <- app_assoc).
    replace (cs1.*2 ++ (j, y) :: cs2.*2) with ((cs1.*2 ++ [(j, y)]) ++ cs2.*2) by (by rewrite <- app_assoc). symmetry. apply insert_sorted_split.
    - assert (Forall (fun c : cell => 0 <= pCompFn (Some v) (Some c.2.2)) (cs1 ++ [(b, (j, y))])) as F'.
      { destruct cs1 as [|c cs1]; cbn [app tail] in *; injection Ec as E0 E'; subst; (constructor; [exact Ge|]); [constructor|].
        eapply Forall_impl; [exact F|]. intros c. cbn. rewrite negb_false_iff. lia. }
      change [(j, y)] with ([(b, (j, y))].*2). rewrite <- fmap_app. by apply Forall_fmap.
    - destruct cs2 as [|c cs2]; [done|]. cbn in *. rewrite negb_true_iff in M. lia. }
  destruct cs2 as [|c cs2]; cbn [head_loc] in *.
  - rewrite (r_last _ _ _ _ R), last_loc_snoc, bool_decide_true by done. cbv iota.
    rewrite (set_next_some _ _ _ _ Eb). cbn [rbind id value]. eexists _, _, (cs1 ++ (b, (j, y)) :: (a, (i, v)) :: []). split; [done|]. split; [done|]. split; [|done]. rewrite Ef in P. exact P.
  - rewrite (set_next_some _ _ _ _ E1). cbn [rbind id value]. unfold h1. rewrite insert_insert_eq.
    rewrite (set_next_some _ b (mkElt j (Some y) (Some c.1))) by (rewrite lookup_insert_ne by done; unfold h1 in Eb; by rewrite lookup_insert_ne in Eb).
    cbn [rbind id value]. eexists _, _, (cs1 ++ (b, (j, y)) :: (a, (i, v)) :: c :: cs2). split; [done|]. split; [done|]. split; [|done]. rewrite Ef in P. exact P.
Qed.

End Sorted.

(** *** Removals *)

Fixpoint remove_first {A} (p : A -> bool) (xs : list A) : option (A * list A) :=
  match xs with
  | [] => None
  | x :: xs => if p x then Some (x, xs) else match remove_first p xs with Some (y, ys) => Some (y, x :: ys) | None => None end
  end.

Lemma remove_first_some {A} (p : A -> bool) xs1 x xs2 : Forall (fun y => p y = false) xs1 -> p x = true ->
  remove_first p (xs1 ++ x :: xs2) = Some (x, xs1 ++ xs2).
Proof. intros F Hx. induction F as [|y xs1 Hy _ IH]; cbn [app remove_first]; [by rewrite Hx|]. by rewrite Hy, IH. Qed.

Lemma remove_first_none {A} (p : A -> bool) xs : Forall (fun y => p y = false) xs -> remove_first p xs = None.
Proof. induction 1 as [|y xs Hy _ IH]; [done|]. cbn [remove_first]. by rewrite Hy, IH. Qed.

Lemma remove_first_map {A B} (f : A -> B) (p : A -> bool) (q : B -> bool) (xs : list A) : (forall x, p x = q (f x)) ->
  remove_first q (map f xs) = option_map (fun r => (f r.1, map f r.2)) (remove_first p xs).
Proof.
  intros E. induction xs as [|x xs IH]; [done|]. cbn [map remove_first]. rewrite <- E. destruct (p x); [done|].
  rewrite IH. by destruct (remove_first p xs) as [[y ys]|].
Qed.

Lemma remove_head_spec hf h l f k w cs : Repr hf h l ((f, (k, w)) :: cs) ->
  exists h' l', remove_head h l = Ret (Some w, h', Some l') /\ maxLength l' = maxLength l /\ Repr hf h' l' cs.
Proof.
  intros R. pose proof (first_head _ _ _ _ R) as Ef. cbn [head_loc fst] in Ef. unfold remove_head. rewrite Ef.
  destruct (r_chain _ _ _ _ R) as (_ & nx & E & C). rewrite (load_some _ _ _ E), (free_some _ _ _ E). cbn [rbind value next].
  eexists _, _. split; [done|]. split; [done|]. pose proof (r_nodup _ _ _ _ R) as N. apply NoDup_cons in N as [Nf N].
  apply (Repr_shrink hf h l ((f, (k, w)) :: cs) _ _ _ f); try done.
  - apply list_elem_of_here.
  - intros b. apply elem_of_cons.
  - rewrite zlen_cons. lia.
  - by apply chain_delete.
  - pose proof (chain_head _ _ _ _ C) as ->. cbn [last]. rewrite (r_last _ _ _ _ R). by destruct cs as [|c cs].
  - apply lookup_delete_eq.
  - intros b Hb. apply lookup_delete_ne. intros ->. apply Hb, list_elem_of_here.
Qed.

Lemma RemoveFromElt_spec hf h l cs test tst : Repr hf h l cs -> tests test tst ->
  match remove_first tst cs with
  | Some (c, cs') => exists h' l', SOPC_SLinkedList_RemoveFromElt h (Some l) test = Ret (Some c.2.2, h', Some l') /\
      maxLength l' = maxLength l /\ Repr hf h' l' cs'
  | None => SOPC_SLinkedList_RemoveFromElt h (Some l) test = Ret (NULL, h, Some l)
  end.
Proof.
  intros R T. pose proof (first_head _ _ _ _ R) as Ef. unfold SOPC_SLinkedList_RemoveFromElt.
  destruct cs as [|[f [k w]] cs]; cbn [head_loc fst] in Ef; rewrite Ef; [done|].
  pose proof (r_chain _ _ _ _ R) as C. rewrite Ef in C. pose proof C as (_ & nx & E & _). rewrite (load_some _ _ _ E). cbn [rbind]. rewrite T.
  destruct (tst (f, (k, w))) eqn:Et; [cbn [remove_first]; rewrite Et; by apply (remove_head_spec hf h l f k w cs)|].
  destruct (remove_search_spec h test tst T cs f (k, w) (chain_fuel h) C) as (cs1 & b & [j y] & cs2 & Ec & -> & F & M).
  { pose proof (chain_size h _ _ _ (r_nodup _ _ _ _ R) C) as X. cbn [length] in X. lia. }
  assert (Forall (fun c => tst c = false) (cs1 ++ [(b, (j, y))])) as F'.
  { destruct cs1 as [|c cs1]; cbn [app tail] in *; injection Ec as E0 E'; subst; by constructor. }
  rewrite Ec in *. pose proof C as C'. apply chain_mid in C' as (_ & Eb & _). cbn [rbind]. rewrite (load_some _ _ _ Eb). cbn [rbind next].
  destruct cs2 as [|[n [q z]] cs2]; cbn [head_loc fst] in *; [by rewrite remove_first_none|].
  replace (cs1 ++ (b, (j, y)) :: (n, (q, z)) :: cs2) with ((cs1 ++ [(b, (j, y))]) ++ (n, (q, z)) :: cs2) in R, C |- * by (by rewrite <- app_assoc).
  rewrite remove_first_some by done. pose proof C as C'. apply chain_mid in C' as (_ & En & _). rewrite (load_some _ _ _ En). cbn [rbind].
  rewrite (free_some _ _ _ En). cbn [rbind value next].
  pose proof (r_nodup _ _ _ _ R) as N. rewrite locs_app in N. apply NoDup_app in N as (N1 & N12 & N2). apply NoDup_cons in N2 as [Nn N2].
  assert (b <> n) as Ne by (intros <-; apply (N12 b); [rewrite locs_app, elem_of_app; right; apply list_elem_of_here|apply list_elem_of_here]).
  rewrite (set_next_some _ _ (mkElt j (Some y) (Some n))) by (by rewrite lookup_delete_ne). cbn [rbind id value].
  eexists _, _. split; [done|]. split; [done|].
  assert ((cs1 ++ [(b, (j, y))]) ++ (n, (q, z)) :: cs2 ≡ₚ (n, (q, z)) :: (cs1 ++ [(b, (j, y))]) ++ cs2) as P by solve_Permutation.
  assert (locs ((cs1 ++ [(b, (j, y))]) ++ (n, (q, z)) :: cs2) ≡ₚ n :: locs ((cs1 ++ [(b, (j, y))]) ++ cs2)) as Pl by (unfold locs; by rewrite P).
  apply (Repr_shrink hf h l _ _ _ _ n R); try done.
  - rewrite Pl. apply list_elem_of_here.
  - intros x. rewrite Pl. apply elem_of_cons.
  - unfold zlen. rewrite P. cbn [length]. lia.
  - cbn [first]. rewrite <- app_assoc. cbn [app]. apply (remove_after h (Some f) cs1 b j y n (q, z) cs2);
      [|]; (replace (cs1 ++ (b, (j, y)) :: (n, (q, z)) :: cs2) with ((cs1 ++ [(b, (j, y))]) ++ (n, (q, z)) :: cs2) by (by rewrite <- app_assoc)); [apply R|done].
  - pose proof (r_nodup _ _ _ _ R) as X. rewrite Pl in X. by apply NoDup_cons in X as [_ X].
  - cbn [last]. rewrite (r_last _ _ _ _ R), last_loc_app. destruct cs2 as [|c cs2].
    + rewrite bool_decide_true by done. by rewrite app_nil_r, last_loc_snoc.
    + rewrite last_loc_cons2. rewrite (last_loc_app (cs1 ++ [(b, (j, y))]) c cs2). rewrite bool_decide_false; [done|].
      unfold last_loc. intros X. symmetry in X. apply fmap_Some in X as (c' & X & ->). apply last_Some_elem_of in X. apply Nn. exact (list_elem_of_fmap_2 (fst : cell -> loc) _ _ X).
  - rewrite lookup_insert_ne by done. apply lookup_delete_eq.
  - intros x. rewrite Pl, elem_of_cons. intros X. rewrite lookup_insert_ne, lookup_delete_ne; [done|by intros ->; apply X; left|].
    intros <-. apply X. right. rewrite locs_app, elem_of_app, locs_app, elem_of_app. left. right. apply list_elem_of_here.
Qed.

End Representation.
