(* ===== verification/LinkedListProps.v ===== *)
(** * Properties of the linked lists

    Sequences of calls on a list refine operations on a sequence of items; no access is
    made out of the cells of the list, and no cell is lost. *)

From Stdlib Require Import ZArith Lia Sorted.
From Stdlib Require Import Strings.Byte.
From stdpp Require Import prelude gmap.
From S2P Require Import Prelude Common LinkedList LinkedListSpec.

Open Scope Z_scope.

Section Calls.
Context `{Allocator} {V : Type} `{EqDecision V} (pCompFn : ptr V -> ptr V -> Z).

Inductive list_op :=
| OpPrepend (i : Z) (v : V)
| OpAppend (i : Z) (v : V)
| OpSortedInsert (i : Z) (v : V)
| OpPopHead
| OpPopLast
| OpFind (i : Z)
| OpRemoveId (i : Z)
| OpRemoveValue (v : V)
| OpApply
| OpIterate
| OpLength
| OpClear.

Inductive list_answer :=
| AnsPtr (p : ptr V)
| AnsItems (l : list (Z * ptr V))
| AnsLength (n : Z)
| AnsVoid.

(** *** Calls of the functions *)

(** The loop of the users of an iterator: [while (HasNext(&it)) NextWithId(&it, &id)] *)
Fixpoint iterate (fuel : nat) (h : heap V) (it : ptr loc) (i : Z) : res (list (Z * ptr V)) :=
  let* more := SOPC_SLinkedList_HasNext h it in
  if more then
    match fuel with
    | O => Fault OutOfFuel
    | S fuel =>
        let* (v, i, it) := SOPC_SLinkedList_NextWithId h it i in
        let* l := iterate fuel h it i in
        Ret ((i, v) :: l)
    end
  else Ret [].

Definition run_op (h : heap V) (l : SOPC_SLinkedList) (op : list_op) : res (list_answer * heap V * SOPC_SLinkedList) :=
  let pointer r := let* (p, h, l) := r in let* l := deref l in Ret (AnsPtr p, h, l) in
  match op with
  | OpPrepend i v => pointer (SOPC_SLinkedList_Prepend h (Some l) i (Some v))
  | OpAppend i v => pointer (SOPC_SLinkedList_Append h (Some l) i (Some v))
  | OpSortedInsert i v => pointer (SOPC_SLinkedList_SortedInsert h (Some l) i (Some v) pCompFn)
  | OpPopHead => pointer (SOPC_SLinkedList_PopHead h (Some l))
  | OpPopLast => pointer (SOPC_SLinkedList_PopLast h (Some l))
  | OpFind i => let* p := SOPC_SLinkedList_FindFromId h (Some l) i in Ret (AnsPtr p, h, l)
  | OpRemoveId i => pointer (SOPC_SLinkedList_RemoveFromId h (Some l) i)
  | OpRemoveValue v => pointer (SOPC_SLinkedList_RemoveFromValuePtr h (Some l) (Some v))
  | OpApply => let* xs := SOPC_SLinkedList_Apply h (Some l) in Ret (AnsItems xs, h, l)
  | OpIterate => let* it := SOPC_SLinkedList_GetIterator (Some l) in let* xs := iterate (chain_fuel h) h it 0 in Ret (AnsItems xs, h, l)
  | OpLength => let* n := SOPC_SLinkedList_GetLength (Some l) in Ret (AnsLength n, h, l)
  | OpClear => let* (h, l) := SOPC_SLinkedList_Clear h (Some l) in let* l := deref l in Ret (AnsVoid, h, l)
  end.

Fixpoint run_ops (h : heap V) (l : SOPC_SLinkedList) (ops : list list_op) : res (list list_answer * heap V * SOPC_SLinkedList) :=
  match ops with
  | [] => Ret ([], h, l)
  | op :: ops =>
      let* (a, h, l) := run_op h l op in
      let* (rest, h, l) := run_ops h l ops in
      Ret (a :: rest, h, l)
  end.

(** *** The same operations on a sequence of items *)

Section Sequences.
Variable max : Z.

(** An item is accepted when the sequence is not full and there is memory. *)
Definition has_room (xs : list (Z * V)) : bool := ((zlen xs <? max) || (max =? 0)) && alloc_ok sizeof_Elt.

Definition insertion (xs xs' : list (Z * V)) (v : V) : list_answer * list (Z * V) :=
  if has_room xs then (AnsPtr (Some v), xs') else (AnsPtr NULL, xs).

Definition removal (xs : list (Z * V)) (r : option ((Z * V) * list (Z * V))) : list_answer * list (Z * V) :=
  match r with Some (x, xs') => (AnsPtr (Some x.2), xs') | None => (AnsPtr NULL, xs) end.

Definition seq_op (xs : list (Z * V)) (op : list_op) : list_answer * list (Z * V) :=
  match op with
  | OpPrepend i v => insertion xs ((i, v) :: xs) v
  | OpAppend i v => insertion xs (xs ++ [(i, v)]) v
  | OpSortedInsert i v => insertion xs (insert_sorted pCompFn (i, v) xs) v
  | OpPopHead => removal xs (match xs with x :: xs => Some (x, xs) | [] => None end)
  | OpPopLast => removal xs (match list_basics.list.last xs with Some x => Some (x, take (length xs - 1) xs) | None => None end)
  | OpFind i => (AnsPtr (snd <$> find (fun x => x.1 =? i) xs), xs)
  | OpRemoveId i => removal xs (remove_first (fun x => x.1 =? i) xs)
  | OpRemoveValue v => removal xs (remove_first (fun x => bool_decide (x.2 = v)) xs)
  | OpApply | OpIterate => (AnsItems (map (fun x => (x.1, Some x.2)) xs), xs)
  | OpLength => (AnsLength (zlen xs), xs)
  | OpClear => (AnsVoid, [])
  end.

Fixpoint seq_ops (xs : list (Z * V)) (ops : list list_op) : list list_answer * list (Z * V) :=
  match ops with
  | [] => ([], xs)
  | op :: ops =>
      let '(a, xs) := seq_op xs op in
      let '(rest, xs) := seq_ops xs ops in
      (a :: rest, xs)
  end.

End Sequences.

End Calls.

Section Properties.
Context `{Allocator} {V : Type} `{EqDecision V} (pCompFn : ptr V -> ptr V -> Z).
Implicit Types h hf : heap V.

Lemma Clear_spec hf h l cs : Repr hf h l cs -> SOPC_SLinkedList_Clear h (Some l) = Ret (hf, Some (mkSLinkedList NULL NULL 0 (maxLength l))).
Proof.
  intros R. unfold SOPC_SLinkedList_Clear. pose proof (chain_size h _ _ _ (r_nodup _ _ _ _ R) (r_chain _ _ _ _ R)) as Sz.
  destruct (clear_cells_spec cs h (first l) (chain_fuel h)) as (h' & -> & F); [apply R|apply R|lia|]. cbn [rbind]. do 3 f_equal.
  apply map_eq. intros a. rewrite F. destruct (decide (a ∈ locs cs)) as [Ha|Ha]; [symmetry; by apply R|by apply R].
Qed.

Lemma accepts_room hf h l cs : Repr hf h l cs -> accepts l = has_room (maxLength l) cs.*2.
Proof. intros R. unfold accepts, has_room. rewrite (r_length _ _ _ _ R). unfold zlen. by rewrite length_fmap. Qed.

Lemma FindFromId_spec hf h l cs i : Repr hf h l cs -> SOPC_SLinkedList_FindFromId h (Some l) i = Ret (snd <$> find (fun x => x.1 =? i) cs.*2).
Proof.
  intros R. pose proof (chain_size h _ _ _ (r_nodup _ _ _ _ R) (r_chain _ _ _ _ R)) as Sz.
  unfold SOPC_SLinkedList_FindFromId, SOPC_SLinkedList_InternalFind. rewrite (find_elt_spec h i cs) by (apply R || lia).
  cbn [rbind]. change cs.*2 with (map snd cs). rewrite find_map. destruct (find _ cs) as [c|] eqn:E; [|done].
  apply List.find_some in E as [Hc _]. apply list_elem_of_In in Hc. destruct (chain_lookup h _ cs NULL c (r_chain _ _ _ _ R) Hc) as [nx El].
  cbn [fmap option_fmap option_map is_null]. by rewrite (load_some _ _ _ El).
Qed.

Lemma iterate_spec h cs : forall p fuel i, chain h p cs NULL -> (length cs <= fuel)%nat ->
  iterate fuel h p i = Ret (map (fun c => (c.2.1, Some c.2.2)) cs).
Proof.
  induction cs as [|[a [j v]] cs IH]; intros p fuel i C L; cbn [chain length map fst snd] in *; [subst; by destruct fuel|]. destruct C as (-> & nx & E & C).
  destruct fuel as [|fuel]; [lia|]. cbn [iterate SOPC_SLinkedList_HasNext SOPC_SLinkedList_NextWithId].
  rewrite (load_some _ _ _ E). cbn [rbind id next value is_null negb]. rewrite (IH nx fuel) by (done || lia). done.
Qed.

(** The outcome of a call: the answer and the items of the sequence. *)
Definition outcome hf (max : Z) (r : res (list_answer (V := V) * heap V * SOPC_SLinkedList)) (a : list_answer (V := V) * list (Z * V)) : Prop :=
  exists h' l' cs', r = Ret (a.1, h', l') /\ Repr hf h' l' cs' /\ cs'.*2 = a.2 /\ maxLength l' = max.

Lemma outcome_insertion hf h l cs r (xs' : list (Z * V)) v : Repr hf h l cs ->
  (if accepts l then exists h' l' cs', r = Ret (Some v, h', Some l') /\ maxLength l' = maxLength l /\ Repr hf h' l' cs' /\ cs'.*2 = xs'
   else r = Ret (NULL, h, Some l)) ->
  outcome hf (maxLength l) (let* (p, h, l) := r in let* l := deref l in Ret (AnsPtr p, h, l)) (insertion (maxLength l) cs.*2 xs' v).
Proof.
  intros R. rewrite (accepts_room hf h l cs R). unfold insertion. destruct (has_room _ _).
  - intros (h' & l' & cs' & -> & M & R' & E). exists h', l', cs'. by split_and!.
  - intros ->. exists h, l, cs. by split_and!.
Qed.

Lemma outcome_removal hf h l cs r tst q : Repr hf h l cs -> (forall c, tst c = q c.2) ->
  match remove_first tst cs with
  | Some (c, cs') => exists h' l', r = Ret (Some c.2.2, h', Some l') /\ maxLength l' = maxLength l /\ Repr hf h' l' cs'
  | None => r = Ret (NULL, h, Some l)
  end ->
  outcome hf (maxLength l) (let* (p, h, l) := r in let* l := deref l in Ret (AnsPtr p, h, l)) (removal cs.*2 (remove_first q cs.*2)).
Proof.
  intros R E. pose proof (remove_first_map snd tst q cs E) as X. change (map snd cs) with cs.*2 in X. rewrite X.
  destruct (remove_first tst cs) as [[c cs']|]; cbn [option_map removal].
  - intros (h' & l' & -> & M & R'). exists h', l', cs'. by split_and!.
  - intros ->. exists h, l, cs. by split_and!.
Qed.

(** A call that leaves the list as it is. *)
Lemma outcome_query hf h l cs (r : list_answer (V := V)) : Repr hf h l cs -> outcome hf (maxLength l) (Ret (r, h, l)) (r, cs.*2).
Proof. intros R. exists h, l, cs. by split_and!. Qed.

Lemma remove_last_cell cs b x : NoDup (locs (cs ++ [(b, x)])) ->
  remove_first (fun c : loc * (Z * V) => bool_decide (c.1 = b)) (cs ++ [(b, x)]) = Some ((b, x), cs).
Proof.
  intros N. rewrite locs_app in N. apply NoDup_app in N as (_ & N & _). rewrite remove_first_some; [by rewrite app_nil_r| |by apply bool_decide_true].
  apply Forall_forall. intros c Hc. apply bool_decide_false. intros E. apply (N c.1); [by apply list_elem_of_fmap_2|]. rewrite E. apply list_elem_of_here.
Qed.

Lemma PopLast_outcome hf h l cs : Repr hf h l cs -> outcome hf (maxLength l) (run_op pCompFn h l OpPopLast) (seq_op pCompFn (maxLength l) cs.*2 OpPopLast).
Proof.
  intros R. cbn [run_op]. unfold SOPC_SLinkedList_PopLast. destruct cs as [|[b [i v]] cs _] using rev_ind.
  - assert (last l = NULL) as -> by apply R. by apply outcome_query.
  - assert (last l = Some b) as -> by (rewrite (r_last _ _ _ _ R); apply last_loc_snoc).
    pose proof (RemoveFromElt_spec hf h l _ (IsEqualToEltToRemove b) (fun c => bool_decide (c.1 = b)) R) as S1.
    specialize (S1 ltac:(intros a j w nx; by apply bool_decide_ext)).
    rewrite (remove_last_cell cs b (i, v)) in S1 by apply R. destruct S1 as (h' & l' & -> & M & R'). cbn [rbind deref].
    exists h', l', cs. cbn [seq_op]. rewrite fmap_app. cbn [fmap list_fmap snd].
    rewrite last_snoc, length_app, Nat.add_sub, take_app_length. by split_and!.
Qed.

(** Every call has the outcome of the operation on the sequence. *)
Lemma run_op_outcome hf h l cs op : Repr hf h l cs -> zlen cs + 1 < 2 ^ 32 ->
  outcome hf (maxLength l) (run_op pCompFn h l op) (seq_op pCompFn (maxLength l) cs.*2 op).
Proof.
  intros R L. pose proof (chain_size h _ _ _ (r_nodup _ _ _ _ R) (r_chain _ _ _ _ R)) as Sz.
  destruct op as [i v|i v|i v| | |i|i|v| | | |]; try by apply PopLast_outcome.
  - apply (outcome_insertion hf h l cs); [done|]. pose proof (Prepend_spec hf h l cs i v R L) as X. destruct (accepts l); [|done].
    destruct X as (h' & l' & a & ? & ? & ?). by exists h', l', ((a, (i, v)) :: cs).
  - apply (outcome_insertion hf h l cs); [done|]. pose proof (Append_spec hf h l cs i v R L) as X. destruct (accepts l); [|done].
    destruct X as (h' & l' & a & ? & ? & ?). exists h', l', (cs ++ [(a, (i, v))]). split_and!; try done. by rewrite fmap_app.
  - apply (outcome_insertion hf h l cs); [done|]. by apply SortedInsert_spec.
  - cbn [run_op]. unfold SOPC_SLinkedList_PopHead. rewrite (first_head _ _ _ _ R). destruct cs as [|[f [k w]] cs]; cbn [head_loc is_null fst].
    + by apply outcome_query.
    + destruct (remove_head_spec hf h l f k w cs R) as (h' & l' & -> & M & R'). exists h', l', cs. by split_and!.
  - cbn [run_op seq_op].
    rewrite (FindFromId_spec hf h l cs i R). by apply outcome_query.
  - apply (outcome_removal hf h l cs _ (fun c => c.2.1 =? i)); [done..|]. by apply RemoveFromElt_spec.
  - apply (outcome_removal hf h l cs _ (fun c => bool_decide (c.2.2 = v))); [done..|]. apply RemoveFromElt_spec; [done|].
    intros a j w nx. apply bool_decide_ext. cbn. naive_solver.
  - cbn [run_op seq_op]. unfold SOPC_SLinkedList_Apply. rewrite (apply_elts_spec h cs) by (apply R || lia). cbn [rbind].
    change cs.*2 with (map snd cs). rewrite map_map. by apply outcome_query.
  - cbn [run_op seq_op SOPC_SLinkedList_GetIterator rbind]. rewrite (iterate_spec h cs) by (apply R || lia). cbn [rbind].
    change cs.*2 with (map snd cs). rewrite map_map. by apply outcome_query.
  - cbn [run_op seq_op SOPC_SLinkedList_GetLength rbind]. rewrite (r_length _ _ _ _ R). unfold zlen. rewrite <- (length_fmap snd cs). by apply outcome_query.
  - cbn [run_op seq_op]. rewrite (Clear_spec hf h l cs R). cbn [rbind deref]. eexists _, _, []. split; [done|]. split; [apply Repr_nil|done].
Qed.

Lemma insert_sorted_Permutation x xs : insert_sorted pCompFn x xs ≡ₚ x :: xs.
Proof. induction xs as [|y xs IH]; [done|]. cbn [insert_sorted]. destruct (_ <? 0); [done|]. rewrite IH. constructor. Qed.

Lemma remove_first_Permutation {A} (p : A -> bool) xs : forall x ys, remove_first p xs = Some (x, ys) -> xs ≡ₚ x :: ys.
Proof.
  induction xs as [|z xs IH]; intros x ys; [done|]. cbn [remove_first]. destruct (p z); [by intros [= -> ->]|].
  destruct (remove_first p xs) as [[y zs]|]; [|done]. intros [= -> <-]. rewrite (IH x zs) by done. constructor.
Qed.

Lemma removal_length xs r : (forall x ys, r = Some (x, ys) -> xs ≡ₚ x :: ys) -> (length (removal (V := V) xs r).2 <= length xs)%nat.
Proof. destruct r as [[x ys]|]; cbn; [|lia]. intros P. rewrite (P x ys) by done. cbn. lia. Qed.

(** A call adds at most one item. *)
Lemma seq_op_length max xs op : zlen (seq_op pCompFn max xs op).2 <= zlen xs + 1.
Proof.
  enough (length (seq_op pCompFn max xs op).2 <= length xs + 1)%nat by (unfold zlen; lia).
  assert (forall xs' v, length xs' = S (length xs) -> (length (insertion max xs xs' v).2 <= length xs + 1)%nat) as I
    by (intros xs' v E; unfold insertion; destruct (has_room max xs); cbn; lia).
  destruct op as [i v|i v|i v| | |i|i|v| | | |]; cbn [seq_op snd]; try lia.
  - by apply I.
  - apply I. rewrite length_app. cbn. lia.
  - apply I. by rewrite insert_sorted_Permutation.
  - destruct xs; cbn; lia.
  - destruct xs as [|x xs _] using rev_ind; [cbn; lia|]. rewrite last_snoc, length_app, Nat.add_sub, take_app_length. cbn. lia.
  - etrans; [apply removal_length; intros ??; apply remove_first_Permutation|lia].
  - etrans; [apply removal_length; intros ??; apply remove_first_Permutation|lia].
  - cbn. lia.
Qed.

Lemma run_ops_outcome hf ops : forall h l cs, Repr hf h l cs -> zlen cs + zlen ops < 2 ^ 32 ->
  exists h' l' cs', run_ops pCompFn h l ops = Ret ((seq_ops pCompFn (maxLength l) cs.*2 ops).1, h', l') /\
    Repr hf h' l' cs' /\ cs'.*2 = (seq_ops pCompFn (maxLength l) cs.*2 ops).2.
Proof.
  induction ops as [|op ops IH]; intros h l cs R L; cbn [run_ops seq_ops]; [by exists h, l, cs|].
  rewrite zlen_cons in L. pose proof (zlen_nonneg ops). destruct (run_op_outcome hf h l cs op R ltac:(lia)) as (h1 & l1 & cs1 & -> & R1 & E1 & M1).
  cbn [rbind]. destruct (seq_op pCompFn (maxLength l) cs.*2 op) as [a xs1] eqn:E. cbn [fst snd] in *.
  pose proof (seq_op_length (maxLength l) cs.*2 op) as Le. rewrite E in Le. cbn [snd] in Le. unfold zlen in L, Le. rewrite <- E1, !length_fmap in Le.
  destruct (IH h1 l1 cs1 R1) as (h2 & l2 & cs2 & -> & R2 & E2); [unfold zlen; lia|]. rewrite E1, M1 in *. cbn [rbind].
  destruct (seq_ops pCompFn (maxLength l) xs1 ops) as [rest xs2]. exists h2, l2, cs2. by split_and!.
Qed.

Lemma Create_empty sizeMax l : 0 <= sizeMax -> SOPC_SLinkedList_Create sizeMax = Some l -> sizeMax < 2 ^ 32 /\ l = mkSLinkedList NULL NULL 0 sizeMax.
Proof.
  unfold SOPC_SLinkedList_Create. intros S0. destruct (Z.leb_spec sizeMax (2 ^ 32 - 1)) as [Le|]; [|done]. destruct (alloc_ok _); [|done].
  intros [= <-]. split; [lia|]. f_equal. unfold u32. apply Z.mod_small. lia.
Qed.

(** C20: any sequence of calls on a list that was created with a bound gives the answers of
    the same operations on a sequence of items, whatever the rest of the heap is: no
    call accesses a cell that is not allocated, the list bounds its length, and when the
    list is deleted the heap is what it was before (no cell is lost, no other cell is
    changed). *)
Theorem list_refines_sequence sizeMax l hf ops : 0 <= sizeMax -> zlen ops < 2 ^ 32 -> SOPC_SLinkedList_Create sizeMax = Some l ->
  exists h' l', run_ops pCompFn hf l ops = Ret ((seq_ops pCompFn sizeMax [] ops).1, h', l') /\
    SOPC_SLinkedList_Apply h' (Some l') = Ret (map (fun x => (x.1, Some x.2)) (seq_ops pCompFn sizeMax [] ops).2) /\
    SOPC_SLinkedList_Delete h' (Some l') = Ret hf.
Proof.
  intros S0 L C. apply Create_empty in C as [M ->]; [|lia].
  destruct (run_ops_outcome hf ops hf _ [] (Repr_nil hf sizeMax)) as (h' & l' & cs & -> & R & E); [done|]. exists h', l'. split; [done|].
  pose proof (chain_size h' _ _ _ (r_nodup _ _ _ _ R) (r_chain _ _ _ _ R)) as Sz. cbn [fmap list_fmap maxLength] in E. rewrite <- E. split.
  - unfold SOPC_SLinkedList_Apply. rewrite (apply_elts_spec h' cs) by (apply R || lia). change cs.*2 with (map snd cs). by rewrite map_map.
  - unfold SOPC_SLinkedList_Delete. by rewrite (Clear_spec hf h' l' cs R).
Qed.

(** *** Sorted insertion *)

(** What the list asks of a comparison function. *)
Class Comparison : Prop := {
  cmp_flip : forall x y, 0 <= pCompFn x y -> pCompFn y x <= 0;
  cmp_trans : forall x y z, pCompFn x y <= 0 -> pCompFn y z <= 0 -> pCompFn x z <= 0
}.

Definition item_le (x y : Z * V) : Prop := pCompFn (Some x.2) (Some y.2) <= 0.

Lemma insert_sorted_le x y xs `{Comparison} : item_le y x -> Forall (item_le y) xs -> Forall (item_le y) (insert_sorted pCompFn x xs).
Proof. intros Hx F. rewrite insert_sorted_Permutation. by constructor. Qed.

Lemma insert_sorted_sorted x xs `{Comparison} : StronglySorted item_le xs -> StronglySorted item_le (insert_sorted pCompFn x xs).
Proof.
  induction 1 as [|y xs S1 IH F]; cbn [insert_sorted]; [by repeat constructor|].
  destruct (Z.ltb_spec (pCompFn (Some x.2) (Some y.2)) 0) as [Lt|Ge].
  - constructor; [by constructor|]. assert (item_le x y) by (unfold item_le; lia). constructor; [done|].
    eapply Forall_impl; [exact F|]. intros z Hz. unfold item_le in *. by eapply cmp_trans.
  - constructor; [done|]. apply (insert_sorted_le x y xs); [exact (cmp_flip _ _ Ge)|done].
Qed.

Lemma seq_sorted_inserts xs `{Comparison} : forall ys, alloc_ok sizeof_Elt = true -> StronglySorted item_le ys ->
  let zs := (seq_ops pCompFn 0 ys (map (fun x => OpSortedInsert x.1 x.2) xs)).2 in zs ≡ₚ xs ++ ys /\ StronglySorted item_le zs.
Proof.
  induction xs as [|[i v] xs IH]; intros ys A S1; [done|]. cbn [map seq_ops seq_op fst snd]. unfold insertion, has_room. rewrite A, orb_true_r. cbn [andb].
  specialize (IH (insert_sorted pCompFn (i, v) ys) A (insert_sorted_sorted _ _ S1)).
  destruct (seq_ops _ _ _ _) as [rest zs]. cbn [snd] in *. destruct IH as [P S2]. split; [|done].
  rewrite P, insert_sorted_Permutation. solve_Permutation.
Qed.

(** A list that is only filled by sorted insertions holds its items in the order of the
    comparison function, each accepted item being in the list exactly as often as it was
    inserted. *)
Theorem sorted_list_sorted l hf xs `{Comparison} : alloc_ok sizeof_Elt = true -> zlen xs < 2 ^ 32 -> SOPC_SLinkedList_Create 0 = Some l ->
  exists answers h' l' ys, run_ops pCompFn hf l (map (fun x => OpSortedInsert x.1 x.2) xs) = Ret (answers, h', l') /\
    SOPC_SLinkedList_Apply h' (Some l') = Ret (map (fun x => (x.1, Some x.2)) ys) /\ ys ≡ₚ xs /\ StronglySorted item_le ys.
Proof.
  intros A L C. apply Create_empty in C as [M ->]; [|lia].
  destruct (run_ops_outcome hf (map (fun x => OpSortedInsert x.1 x.2) xs) hf _ [] (Repr_nil hf 0)) as (h' & l' & cs & -> & R & E);
    [unfold zlen in *; rewrite length_map; cbn [length]; lia|].
  pose proof (chain_size h' _ _ _ (r_nodup _ _ _ _ R) (r_chain _ _ _ _ R)) as Sz. cbn [fmap list_fmap maxLength] in E.
  eexists _, h', l', cs.*2. split; [done|]. split.
  - unfold SOPC_SLinkedList_Apply. rewrite (apply_elts_spec h' cs) by (apply R || lia). change cs.*2 with (map snd cs). by rewrite map_map.
  - rewrite E. destruct (seq_sorted_inserts xs [] A) as [P S1]; [constructor|]. by rewrite app_nil_r in P.
Qed.

End Properties.

(** ** Witnesses *)

Definition demo_compare (x y : ptr Z) : Z := match x, y with Some x, Some y => x - y | _, _ => 0 end.

(** A list of at most three items, beside a cell of another list. *)
Definition demo_heap : heap Z := {[ 1%positive := mkElt 7 (Some 70) NULL ]}.

Lemma list_refines_sequence_witness :
  let ops := [OpAppend 1 10; OpSortedInsert 2 5; OpPrepend 3 30; OpAppend 4 40; OpLength; OpFind 1; OpPopLast; OpRemoveValue 30; OpIterate] in
  exists h' l', @run_ops serving_allocator Z _ demo_compare demo_heap (mkSLinkedList NULL NULL 0 3) ops =
      Ret ([AnsPtr (Some 10); AnsPtr (Some 5); AnsPtr (Some 30); AnsPtr NULL; AnsLength 3; AnsPtr (Some 10); AnsPtr (Some 10); AnsPtr (Some 30);
            AnsItems [(2, Some 5)]], h', l') /\
    SOPC_SLinkedList_Apply h' (Some l') = Ret [(2, Some 5)] /\ SOPC_SLinkedList_Delete h' (Some l') = Ret demo_heap.
Proof.
  intros ops.
  pose proof (@list_refines_sequence serving_allocator Z _ demo_compare 3 (mkSLinkedList NULL NULL 0 3) demo_heap ops ltac:(lia) ltac:(done) ltac:(done)) as W.
  replace (seq_ops demo_compare 3 [] ops) with
    ([AnsPtr (Some 10); AnsPtr (Some 5); AnsPtr (Some 30); AnsPtr NULL; AnsLength 3; AnsPtr (Some 10); AnsPtr (Some 10); AnsPtr (Some 30);
      AnsItems [(2, Some 5)]], [(2, 5)]) in W by (vm_compute; reflexivity). exact W.
Defined.

#[local] Instance compare_integers : Comparison (V := Z) (fun x y => default 0 x - default 0 y).
Proof. split; intros; lia. Qed.

Lemma sorted_list_sorted_witness :
  exists answers h' l' ys, @run_ops serving_allocator Z _ (fun x y => default 0 x - default 0 y) ∅ (mkSLinkedList NULL NULL 0 0)
      (map (fun x => OpSortedInsert x.1 x.2) [(1, 5); (2, 3); (3, 5); (4, 1)]) = Ret (answers, h', l') /\
    SOPC_SLinkedList_Apply h' (Some l') = Ret (map (fun x => (x.1, Some x.2)) ys) /\ ys ≡ₚ [(1, 5); (2, 3); (3, 5); (4, 1)] /\
    StronglySorted (item_le (fun x y : ptr Z => default 0 x - default 0 y)) ys.
Proof. apply (@sorted_list_sorted serving_allocator Z _ _ _ ∅ [(1, 5); (2, 3); (3, 5); (4, 1)] compare_integers); reflexivity. Defined.
