(* ===== verification/LocalizedTexts.v ===== *)
(** * Localized texts

    Model of the functions of [src/src/Common/opcua_types/sopc_builtintypes.c] on
    LocalizedText: copy, comparison, conversion to and from arrays, update of the text of a
    locale and choice of the text that a client prefers.

    The list of the other texts is the sequence of its elements: the operations of the
    linked list are those of [LinkedList.v], which [LinkedListProps.v] shows to be operations
    on a sequence; they fail when the memory of an element is refused.  An array of locales
    is the list of its elements, the last of which is a null pointer. *)

From Stdlib Require Import ZArith Lia.
From Stdlib Require Import Strings.Byte.
From stdpp Require Import prelude.
From S2P Require Import Prelude Common Buffer Codec EncScalar EncString Strings EncText EncVariant LinkedList NodeIds.

Open Scope Z_scope.

Section Texts.
Context `{Allocator}.

Abbreviation text_list := (list (Z * SOPC_LocalizedText)).

(** ** Operations of the linked list *)

(** [SOPC_SLinkedList_Create(INT32_MAX)] *)
Definition list_create : ptr text_list := if alloc_ok sizeof_SLinkedList then Some [] else NULL.

(** [SOPC_SLinkedList_Append(list, 0, lt)], which fails when the list is full or without
    memory *)
Definition list_append (l : text_list) (lt : SOPC_LocalizedText) : ptr text_list :=
  if (zlen l <? INT32_MAX) && alloc_ok sizeof_Elt then Some (l ++ [(0, lt)]) else NULL.

Definition list_length (l : ptr text_list) : Z := match l with Some l => zlen l | NULL => 0 end.

(** [SOPC_Malloc(sizeof(SOPC_LocalizedText))], then [SOPC_LocalizedText_Initialize] *)
Definition new_text : ptr SOPC_LocalizedText := if alloc_ok sizeof_LocalizedText then Some ltext_init else NULL.

Definition set_defaultLocale (t : SOPC_LocalizedText) (s : SOPC_String) : SOPC_LocalizedText :=
  mkLocalizedText s (defaultText t) (localizedTextList t).
Definition set_defaultText (t : SOPC_LocalizedText) (s : SOPC_String) : SOPC_LocalizedText :=
  mkLocalizedText (defaultLocale t) s (localizedTextList t).
Definition set_textList (t : SOPC_LocalizedText) (l : ptr text_list) : SOPC_LocalizedText :=
  mkLocalizedText (defaultLocale t) (defaultText t) l.

(** ** Copy *)

(** [SOPC_String_Copy] of the locale and then of the text of a localized text. *)
Definition copy_default (dest src : SOPC_LocalizedText) : res (SOPC_ReturnStatus * SOPC_LocalizedText) :=
  let* (status, locale) := SOPC_String_Copy (Some (defaultLocale dest)) (Some (defaultLocale src)) in
  let* locale := deref locale in
  let dest := set_defaultLocale dest locale in
  if is_ok status then
    let* (status, text) := SOPC_String_Copy (Some (defaultText dest)) (Some (defaultText src)) in
    let* text := deref text in
    Ret (status, set_defaultText dest text)
  else Ret (status, dest).

(** The [while] loop over the list of the source; [copy] copies one text. *)
Fixpoint copy_list (copy : ptr SOPC_LocalizedText -> SOPC_LocalizedText -> res (SOPC_ReturnStatus * ptr SOPC_LocalizedText))
    (src dest : text_list) : res (SOPC_ReturnStatus * text_list) :=
  match src with
  | [] => Ret (SOPC_STATUS_OK, dest)
  | (_, lt) :: src =>
      let* (status, newLt) := copy new_text lt in
      if is_ok status then
        let* newLt := deref newLt in
        match list_append dest newLt with
        | Some dest => copy_list copy src dest
        | NULL => Ret (SOPC_STATUS_OUT_OF_MEMORY, dest)
        end
      else Ret (SOPC_STATUS_OUT_OF_MEMORY, dest)
  end.

(** [levels] is [recursionLimit + 1]. *)
Fixpoint SOPC_LocalizedText_Copy_Internal (levels : nat) (dest : ptr SOPC_LocalizedText) (src : SOPC_LocalizedText)
    : res (SOPC_ReturnStatus * ptr SOPC_LocalizedText) :=
  match levels with
  | O => Ret (SOPC_STATUS_INVALID_PARAMETERS, dest)
  | S levels =>
      match dest with
      | NULL => Ret (SOPC_STATUS_INVALID_PARAMETERS, dest)
      | Some d =>
          let* (status, d) := copy_default d src in
          let* (status, d) :=
            match is_ok status, localizedTextList src with
            | true, Some src_list =>
                match list_create with
                | NULL => Ret (SOPC_STATUS_OUT_OF_MEMORY, set_textList d NULL)
                | Some l =>
                    let* (status, l) := copy_list (SOPC_LocalizedText_Copy_Internal levels) src_list l in
                    Ret (status, set_textList d (Some l))
                end
            | _, _ => Ret (status, d)
            end in
          if is_ok status then Ret (status, Some d) else Ret (status, SOPC_LocalizedText_Clear (Some d))
      end
  end.

Definition SOPC_LocalizedText_Copy (dest src : ptr SOPC_LocalizedText) : res (SOPC_ReturnStatus * ptr SOPC_LocalizedText) :=
  match src with
  | NULL => Ret (SOPC_STATUS_INVALID_PARAMETERS, dest)
  | Some src => SOPC_LocalizedText_Copy_Internal 2 dest src
  end.

(** ** Comparison *)

(** The [while] loop over the two lists; [cmp] compares two texts. *)
Fixpoint compare_list (cmp : SOPC_LocalizedText -> SOPC_LocalizedText -> ptr Z -> res (SOPC_ReturnStatus * ptr Z))
    (listLeft listRight : text_list) (status : SOPC_ReturnStatus) (c : ptr Z) : res (SOPC_ReturnStatus * ptr Z) :=
  match listLeft with
  | [] => Ret (status, c)
  | (_, ltLeft) :: listLeft =>
      let* eq := still_equal status c in
      if eq then
        match listRight with
        | [] => Fault AssertFailed
        | (_, ltRight) :: listRight =>
            let* (status, c) := cmp ltLeft ltRight c in
            compare_list cmp listLeft listRight status c
        end
      else Ret (status, c)
  end.

Fixpoint SOPC_LocalizedText_Compare_Internal (levels : nat) (left right : SOPC_LocalizedText) (comparison : ptr Z)
    : res (SOPC_ReturnStatus * ptr Z) :=
  match levels with
  | O => Ret (SOPC_STATUS_INVALID_PARAMETERS, comparison)
  | S levels =>
      let* (status, c) := SOPC_String_Compare (Some (defaultLocale left)) (Some (defaultLocale right)) false comparison in
      let* eq := still_equal status c in
      let* (status, c) :=
        (if eq then SOPC_String_Compare (Some (defaultText left)) (Some (defaultText right)) false c else Ret (status, c)) in
      let* eq := still_equal status c in
      if eq then
        match localizedTextList left, localizedTextList right with
        | Some l, Some r =>
            if zlen l =? zlen r then compare_list (SOPC_LocalizedText_Compare_Internal levels) l r status c
            else if zlen r <? zlen l then Ret (status, Some 1)
            else Ret (status, Some (-1))
        | Some l, NULL => Ret (status, Some (if zlen l =? 0 then 0 else 1))
        | NULL, Some r => Ret (status, Some (if zlen r =? 0 then 0 else -1))
        | NULL, NULL => Ret (status, c)
        end
      else Ret (status, c)
  end.

Definition SOPC_LocalizedText_Compare (left right : ptr SOPC_LocalizedText) (comparison : ptr Z) : res (SOPC_ReturnStatus * ptr Z) :=
  match left, right with
  | Some l, Some r => SOPC_LocalizedText_Compare_Internal 2 l r comparison
  | _, _ => Ret (SOPC_STATUS_INVALID_PARAMETERS, comparison)
  end.

(** ** Arrays *)

Definition array_get (a : list SOPC_LocalizedText) (i : nat) : res SOPC_LocalizedText :=
  match a !! i with Some t => Ret t | None => Fault OutOfBounds end.

(** The [for] loop over the elements of the array from [i], with [n] elements left. *)
Fixpoint append_array (n i : nat) (a : list SOPC_LocalizedText) (l : text_list) : res (SOPC_ReturnStatus * text_list) :=
  match n with
  | O => Ret (SOPC_STATUS_OK, l)
  | S n =>
      match new_text with
      | NULL => Ret (SOPC_STATUS_OUT_OF_MEMORY, l)
      | Some lt =>
          let* src := array_get a i in
          let* (status, lt) := copy_default lt src in
          if is_ok status then
            match list_append l lt with
            | Some l => append_array n (S i) a l
            | NULL => Ret (SOPC_STATUS_OUT_OF_MEMORY, l)
            end
          else Ret (status, l)
      end
  end.

Definition SOPC_LocalizedText_CopyFromArray (destSetOfLt : ptr SOPC_LocalizedText) (nbElts : Z) (srcArrayOfLt : ptr (list SOPC_LocalizedText))
    : res (SOPC_ReturnStatus * ptr SOPC_LocalizedText) :=
  match destSetOfLt, srcArrayOfLt with
  | Some d, Some a =>
      if negb (is_null (localizedTextList d)) || (0 <? Length (defaultLocale d)) || (0 <? Length (defaultText d)) || (nbElts <=? 0)
      then Ret (SOPC_STATUS_INVALID_PARAMETERS, destSetOfLt)
      else
        let* first := array_get a 0 in
        let* (status, d) := copy_default d first in
        let* (status, d) :=
          (if 1 <? nbElts then
             match list_create with
             | NULL => Ret (SOPC_STATUS_OUT_OF_MEMORY, set_textList d NULL)
             | Some l =>
                 let* (status, l) := append_array (Z.to_nat (nbElts - 1)) 1 a l in
                 Ret (status, set_textList d (Some l))
             end
           else Ret (status, d)) in
        if is_ok status then Ret (status, Some d) else Ret (status, SOPC_LocalizedText_Clear (Some d))
  | _, _ => Ret (SOPC_STATUS_INVALID_PARAMETERS, destSetOfLt)
  end.

(** [sizeof] of the number of elements, which is the number of elements that are allocated *)
Definition sizeof_nbElts : Z := 4.

Definition array_set (a : list SOPC_LocalizedText) (i : nat) (t : SOPC_LocalizedText) : res (list SOPC_LocalizedText) :=
  if decide (i < length a)%nat then Ret (<[i := t]> a) else Fault OutOfBounds.

(** The [for] loop that initialises [n] elements from [i]. *)
Fixpoint initialize_array (n i : nat) (a : list SOPC_LocalizedText) : res (list SOPC_LocalizedText) :=
  match n with
  | O => Ret a
  | S n => let* a := array_set a i ltext_init in initialize_array n (S i) a
  end.

(** The [for] loop that copies the elements of the list, from the index [i] of the array
    that holds [n] elements. *)
Fixpoint copy_to_array (l : text_list) (i : nat) (n : Z) (a : list SOPC_LocalizedText) : res (SOPC_ReturnStatus * list SOPC_LocalizedText) :=
  match l with
  | [] => Ret (SOPC_STATUS_OK, a)
  | (_, lt) :: l =>
      if Z.of_nat i <? n then
        let* d := array_get a i in
        let* (status, d) := SOPC_LocalizedText_Copy (Some d) (Some lt) in
        let* d := deref d in
        let* a := array_set a i d in
        if is_ok status then copy_to_array l (S i) n a else Ret (status, a)
      else Ret (SOPC_STATUS_OK, a)
  end.

(** Returns the status, the array and the number of its elements. *)
Definition SOPC_LocalizedText_CopyToArray (srcSetOfLt : ptr SOPC_LocalizedText) : res (SOPC_ReturnStatus * ptr (list SOPC_LocalizedText) * Z) :=
  match srcSetOfLt with
  | NULL => Ret (SOPC_STATUS_INVALID_PARAMETERS, NULL, 0)
  | Some src =>
      let nbElts := 1 + list_length (localizedTextList src) in
      if alloc_ok (sizeof_nbElts * sizeof_LocalizedText) then
        let* a := initialize_array (Z.to_nat nbElts) 0 (replicate (Z.to_nat sizeof_nbElts) ltext_init) in
        let* first := array_get a 0 in
        let* (status, first) := copy_default first src in
        let* a := array_set a 0 first in
        let* (status, a) :=
          match is_ok status && (1 <? nbElts), localizedTextList src with
          | true, Some l => copy_to_array l 1 nbElts a
          | _, _ => Ret (status, a)
          end in
        if is_ok status then Ret (status, Some a, nbElts) else Ret (status, NULL, 0)
      else Ret (SOPC_STATUS_OUT_OF_MEMORY, NULL, 0)
  end.

(** ** Update of a locale *)

(** The string of [s] is replaced by a copy of [src]. *)
Definition replace_string (s src : SOPC_String) : res (SOPC_ReturnStatus * SOPC_String) :=
  let* s := deref (SOPC_String_Clear (Some s)) in
  let* (status, s) := SOPC_String_Copy (Some s) (Some src) in
  let* s := deref s in
  Ret (status, s).

(** [SOPC_String_Compare] of two locales, with a comparison of [-1] before it *)
Definition same_locale (a b : SOPC_String) : res (SOPC_ReturnStatus * bool) :=
  let* (status, c) := SOPC_String_Compare (Some a) (Some b) true (Some (-1)) in
  let* c := deref c in
  Ret (status, c =? 0).

(** The search of the locale in the list, whose text is replaced.  Returns the status,
    whether the locale was not found and the list. *)
Fixpoint set_in_list (l : text_list) (src : SOPC_LocalizedText) : res (SOPC_ReturnStatus * bool * text_list) :=
  match l with
  | [] => Ret (SOPC_STATUS_OK, true, [])
  | (id, lt) :: l =>
      let* (status, same) := same_locale (defaultLocale lt) (defaultLocale src) in
      if negb (is_ok status) then Ret (status, true, (id, lt) :: l)
      else if same then
        let* (status, text) := replace_string (defaultText lt) (defaultText src) in
        Ret (status, false, (id, set_defaultText lt text) :: l)
      else
        let* (status, addToList, l) := set_in_list l src in
        Ret (status, addToList, (id, lt) :: l)
  end.

(** A new element with a copy of the text. *)
Definition add_to_list (l : text_list) (src : SOPC_LocalizedText) : res (SOPC_ReturnStatus * text_list) :=
  match new_text with
  | NULL => Ret (SOPC_STATUS_OUT_OF_MEMORY, l)
  | Some newLT =>
      let* (status, newLT) := SOPC_LocalizedText_Copy (Some newLT) (Some src) in
      let* newLT := deref newLT in
      if is_ok status then
        match list_append l newLT with
        | Some l => Ret (SOPC_STATUS_OK, l)
        | NULL => Ret (SOPC_STATUS_OUT_OF_MEMORY, l)
        end
      else Ret (SOPC_STATUS_OUT_OF_MEMORY, l)
  end.

Definition SOPC_LocalizedText_AddOrSetLocale_Internal_SetSupported (dest src : SOPC_LocalizedText) : res (SOPC_ReturnStatus * SOPC_LocalizedText) :=
  assert! 0 <? Length (defaultText src) in
  let* (status, same) := same_locale (defaultLocale dest) (defaultLocale src) in
  if negb (is_ok status) then Ret (status, dest)
  else
    let* (status, addToList, dest) :=
      (if same then
         let* (status, text) := replace_string (defaultText dest) (defaultText src) in
         Ret (status, false, set_defaultText dest text)
       else
         match localizedTextList dest with
         | Some l =>
             let* (status, addToList, l) := set_in_list l src in
             Ret (status, addToList, set_textList dest (Some l))
         | NULL =>
             let l := list_create in
             Ret (if is_null l then SOPC_STATUS_OUT_OF_MEMORY else SOPC_STATUS_OK, true, set_textList dest l)
         end) in
    if is_ok status && addToList then
      let* l := deref (localizedTextList dest) in
      let* (status, l) := add_to_list l src in
      Ret (status, set_textList dest (Some l))
    else Ret (status, dest).

(** The search of the locale in the list, from which its text is removed. *)
Fixpoint remove_from_list (l : text_list) (src : SOPC_LocalizedText) : res (SOPC_ReturnStatus * text_list) :=
  match l with
  | [] => Ret (SOPC_STATUS_OK, [])
  | (id, lt) :: l =>
      let* (status, same) := same_locale (defaultLocale lt) (defaultLocale src) in
      if negb (is_ok status) then Ret (status, (id, lt) :: l)
      else if same then Ret (SOPC_STATUS_OK, l)
      else
        let* (status, l) := remove_from_list l src in
        Ret (status, (id, lt) :: l)
  end.

Definition SOPC_LocalizedText_AddOrSetLocale_Internal_RemoveSupported (dest src : SOPC_LocalizedText) : res (SOPC_ReturnStatus * SOPC_LocalizedText) :=
  assert! Length (defaultText src) <=? 0 in
  assert! 0 <? Length (defaultLocale src) in
  let* (status, same) := same_locale (defaultLocale dest) (defaultLocale src) in
  if negb (is_ok status) then Ret (status, dest)
  else if same then
    let* text := deref (SOPC_String_Clear (Some (defaultText dest))) in
    let* locale := deref (SOPC_String_Clear (Some (defaultLocale dest))) in
    let dest := mkLocalizedText locale text (localizedTextList dest) in
    match localizedTextList dest with
    | Some ((_, lt) :: l) => copy_default (set_textList dest (Some l)) lt
    | _ => Ret (status, dest)
    end
  else
    match localizedTextList dest with
    | Some l =>
        let* (status, l) := remove_from_list l src in
        Ret (status, set_textList dest (Some l))
    | NULL => Ret (status, dest)
    end.

(** The loop over the supported locales: is [setLocale] one of them? *)
Fixpoint locale_supported (supportedLocaleIds : list (ptr block)) (setLocale : ptr block) : res bool :=
  match supportedLocaleIds with
  | [] => Fault OutOfBounds
  | NULL :: _ => Ret false
  | locale :: supportedLocaleIds =>
      let* r := SOPC_strcmp_ignore_case locale setLocale in
      if r =? 0 then
        (if decide (supportedLocaleIds = []) then Fault OutOfBounds else Ret true)
      else locale_supported supportedLocaleIds setLocale
  end.

Definition SOPC_LocalizedText_AddOrSetLocale (destSetOfLt : ptr SOPC_LocalizedText) (supportedLocaleIds : ptr (list (ptr block))) (src : ptr SOPC_LocalizedText)
    : res (SOPC_ReturnStatus * ptr SOPC_LocalizedText) :=
  match destSetOfLt, src, supportedLocaleIds with
  | Some dest, Some s, Some ids =>
      if negb (is_null (localizedTextList s)) then Ret (SOPC_STATUS_INVALID_PARAMETERS, destSetOfLt)
      else if (Length (defaultLocale s) <=? 0) && (Length (defaultText s) <=? 0) then Ret (SOPC_STATUS_OK, SOPC_LocalizedText_Clear destSetOfLt)
      else
        let* _ := match ids with [] => Fault OutOfBounds | _ => Ret tt end in
        let* setLocale := SOPC_String_GetRawCString (Some (defaultLocale s)) in
        let* supportedLocale := (if Length (defaultLocale s) <=? 0 then Ret true else locale_supported ids setLocale) in
        if negb supportedLocale then Ret (SOPC_STATUS_NOT_SUPPORTED, destSetOfLt)
        else if 0 <? Length (defaultText s) then
          if (Length (defaultLocale dest) <=? 0) && (Length (defaultText dest) <=? 0) && (list_length (localizedTextList dest) =? 0)
          then SOPC_LocalizedText_Copy destSetOfLt src
          else
            let* (status, dest) := SOPC_LocalizedText_AddOrSetLocale_Internal_SetSupported dest s in
            Ret (status, Some dest)
        else
          let* (status, dest) := SOPC_LocalizedText_AddOrSetLocale_Internal_RemoveSupported dest s in
          Ret (status, Some dest)
  | _, _, _ => Ret (SOPC_STATUS_INVALID_PARAMETERS, destSetOfLt)
  end.

(** ** Preferred locale *)

Definition SOPC_LocalizedText_CompareLocales (s1 s2 : ptr block) (includesCountryRegion : bool) : res Z :=
  if includesCountryRegion then SOPC_strcmp_ignore_case s1 s2 else SOPC_strcmp_ignore_case_alt_end s1 s2 x2d.

(** The search of a locale among some texts: the text that is found is copied.  Returns
    whether it is found, the status and the destination. *)
Fixpoint search_texts (localeId : ptr block) (cmpWithCountryRegion : bool) (texts : list SOPC_LocalizedText) (status : SOPC_ReturnStatus) (dest : SOPC_LocalizedText)
    : res (bool * SOPC_ReturnStatus * SOPC_LocalizedText) :=
  match texts with
  | [] => Ret (false, status, dest)
  | lt :: texts =>
      let* locale := SOPC_String_GetRawCString (Some (defaultLocale lt)) in
      let* r := SOPC_LocalizedText_CompareLocales localeId locale cmpWithCountryRegion in
      if r =? 0 then
        let* (status, dest) := SOPC_LocalizedText_Copy (Some dest) (Some lt) in
        let* dest := deref dest in
        Ret (true, status, dest)
      else search_texts localeId cmpWithCountryRegion texts status dest
  end.

(** The body of the loop on the locales of a set of texts: the default locale is compared
    first, always with its country. *)
Definition search_set (src : SOPC_LocalizedText) (localeId : ptr block) (cmpWithCountryRegion : bool) (status : SOPC_ReturnStatus) (dest : SOPC_LocalizedText)
    : res (bool * SOPC_ReturnStatus * SOPC_LocalizedText) :=
  let* locale := SOPC_String_GetRawCString (Some (defaultLocale src)) in
  let* r := SOPC_strcmp_ignore_case localeId locale in
  if r =? 0 then
    let* (status, dest) := copy_default dest src in
    Ret (true, status, dest)
  else
    match localizedTextList src with
    | Some l => search_texts localeId cmpWithCountryRegion (map snd l) status dest
    | NULL => Ret (false, status, dest)
    end.

(** The loop over the preferred locales, which ends when a text was found or at the null
    pointer. *)
Fixpoint search_locales
    (search : ptr block -> SOPC_ReturnStatus -> SOPC_LocalizedText -> res (bool * SOPC_ReturnStatus * SOPC_LocalizedText))
    (localeIds : list (ptr block)) (localeMatch : bool) (status : SOPC_ReturnStatus) (dest : SOPC_LocalizedText)
    : res (bool * SOPC_ReturnStatus * SOPC_LocalizedText) :=
  match localeIds with
  | [] => Fault OutOfBounds
  | NULL :: _ => Ret (localeMatch, status, dest)
  | localeId :: localeIds =>
      if localeMatch then Ret (localeMatch, status, dest)
      else
        let* (localeMatch, status, dest) := search localeId status dest in
        search_locales search localeIds localeMatch status dest
  end.

(** The two rounds, with the country and then without it, and the default text when
    nothing was found. *)
Definition preferred
    (search : bool -> ptr block -> SOPC_ReturnStatus -> SOPC_LocalizedText -> res (bool * SOPC_ReturnStatus * SOPC_LocalizedText))
    (rounds : bool) (localeIds : list (ptr block)) (default_text dest : SOPC_LocalizedText) : res (SOPC_ReturnStatus * ptr SOPC_LocalizedText) :=
  let* (localeMatch, status, dest) :=
    (if rounds then
       let* (localeMatch, status, dest) := search_locales (search true) localeIds false SOPC_STATUS_INVALID_PARAMETERS dest in
       if localeMatch then Ret (localeMatch, status, dest) else search_locales (search false) localeIds false status dest
     else Ret (false, SOPC_STATUS_INVALID_PARAMETERS, dest)) in
  if localeMatch then Ret (status, Some dest)
  else
    let* (status, dest) := copy_default dest default_text in
    Ret (status, Some dest).

Definition SOPC_LocalizedText_GetPreferredLocale (dest : ptr SOPC_LocalizedText) (localeIds : ptr (list (ptr block))) (srcSetOfLt : ptr SOPC_LocalizedText)
    : res (SOPC_ReturnStatus * ptr SOPC_LocalizedText) :=
  match dest, localeIds, srcSetOfLt with
  | Some d, Some ids, Some src =>
      if negb (is_null (localizedTextList d)) then Ret (SOPC_STATUS_INVALID_PARAMETERS, dest)
      else preferred (fun region localeId => search_set src localeId region) true ids src d
  | _, _, _ => Ret (SOPC_STATUS_INVALID_PARAMETERS, dest)
  end.

Definition SOPC_LocalizedTextArray_GetPreferredLocale (dest : ptr SOPC_LocalizedText) (preferredLocaleIds : ptr (list (ptr block))) (nbLocalizedText : Z)
    (srcArray : ptr (list SOPC_LocalizedText)) : res (SOPC_ReturnStatus * ptr SOPC_LocalizedText) :=
  match dest, preferredLocaleIds, srcArray with
  | Some d, Some ids, Some a =>
      if negb (is_null (localizedTextList d)) || (nbLocalizedText <=? 0) then Ret (SOPC_STATUS_INVALID_PARAMETERS, dest)
      else if zlen a <? nbLocalizedText then Fault OutOfBounds
      else
        let* first := array_get a 0 in
        preferred (fun region localeId => search_texts localeId region (take (Z.to_nat nbLocalizedText) a)) (1 <? nbLocalizedText) ids first d
  | _, _, _ => Ret (SOPC_STATUS_INVALID_PARAMETERS, dest)
  end.

End Texts.
