(* ===== verification/LocalizedTextsProps.v ===== *)
(** * Properties of the localized texts

    A localized text is a map from locales to texts, which the update of a locale changes
    as such; copies and arrays hold the same texts. *)

From Stdlib Require Import ZArith Lia.
From Stdlib Require Import Strings.Byte.
From stdpp Require Import prelude.
From S2P Require Import Prelude Common Buffer Codec EncScalar EncString Strings StringsProps EncNodeId EncText EncVariant LinkedList NodeIds NodeIdsProps LocalizedTexts.

Open Scope Z_scope.

(** ** The texts of a set *)

Definition text_wf (t : SOPC_LocalizedText) : Prop :=
  (string_wf (defaultLocale t) /\ terminated (defaultLocale t)) /\ string_wf (defaultText t) /\ terminated (defaultText t).

Definition others (t : SOPC_LocalizedText) : list SOPC_LocalizedText :=
  match localizedTextList t with Some l => map snd l | NULL => [] end.

(** The default text, then those of the list. *)
Definition entries (t : SOPC_LocalizedText) : list SOPC_LocalizedText := t :: others t.

(** The strings are those that the toolkit creates, and the texts of the list have no list
    of their own. *)
Definition set_wf (t : SOPC_LocalizedText) : Prop :=
  text_wf t /\ Forall (fun e => text_wf e /\ localizedTextList e = NULL) (others t).

Definition same_text (a b : SOPC_LocalizedText) : Prop :=
  string_chars (defaultLocale a) = string_chars (defaultLocale b) /\ string_chars (defaultText a) = string_chars (defaultText b).

(** A locale, without regard to case. *)
Definition locale_of (t : SOPC_LocalizedText) : list Z := folded true (defaultLocale t).

Definition text_of (ts : list SOPC_LocalizedText) (k : list Z) : option block :=
  match find (fun e => bool_decide (locale_of e = k)) ts with Some e => Some (string_chars (defaultText e)) | None => None end.

Lemma text_of_cons e ts k : text_of (e :: ts) k = if decide (locale_of e = k) then Some (string_chars (defaultText e)) else text_of ts k.
Proof. unfold text_of. cbn [find]. destruct (decide (locale_of e = k)); [by rewrite bool_decide_true|by rewrite bool_decide_false]. Qed.

Lemma text_of_none ts k : k ∉ map locale_of ts -> text_of ts k = None.
Proof.
  induction ts as [|e ts IH]; [done|]. cbn [map]. rewrite not_elem_of_cons. intros [N M]. rewrite text_of_cons, decide_False by done. by apply IH.
Qed.

Lemma text_of_app ts us k : k ∉ map locale_of ts -> text_of (ts ++ us) k = text_of us k.
Proof.
  induction ts as [|e ts IH]; [done|]. cbn [map app]. rewrite not_elem_of_cons. intros [N M]. rewrite text_of_cons, decide_False by done. by apply IH.
Qed.

Lemma text_of_app_in ts us k : k ∈ map locale_of ts -> text_of (ts ++ us) k = text_of ts k.
Proof.
  induction ts as [|e ts IH]; cbn [map app]; [by intros ?%not_elem_of_nil|]. rewrite elem_of_cons, !text_of_cons. intros [-> |M]; [by rewrite !decide_True|].
  destruct (decide (locale_of e = k)); [done|by apply IH].
Qed.

Section Texts.
Context `{Allocator}.

Lemma same_locale_spec a b : terminated a -> terminated b ->
  same_locale a b = Ret (SOPC_STATUS_OK, bool_decide (folded true a = folded true b)).
Proof.
  intros Ta Tb. unfold same_locale. destruct (String_Compare_text true a b (-1) Ta Tb) as (c & -> & Hc). cbn [rbind deref]. do 2 f_equal.
  destruct (Z.eqb_spec c 0) as [E|N]; symmetry; [apply bool_decide_eq_true|apply bool_decide_eq_false]; by rewrite <- Hc.
Qed.

(** ** Copies *)

(** The strings of the destination are empty. *)
Definition blank (t : SOPC_LocalizedText) : Prop := Data (defaultLocale t) = NULL /\ Data (defaultText t) = NULL.

Lemma copy_default_spec dest src : text_wf src -> blank dest ->
  exists status d, copy_default dest src = Ret (status, d) /\ localizedTextList d = localizedTextList dest /\
    match status with
    | SOPC_STATUS_OK => text_wf d /\ same_text d src
    | SOPC_STATUS_OUT_OF_MEMORY => ~ (forall k, alloc_ok k = true)
    | _ => False
    end.
Proof.
  intros ((W1 & T1) & W2 & T2) [B1 B2]. unfold copy_default. pose proof (String_Copy_exact (defaultLocale dest) (defaultLocale src) W1 B1) as E1.
  destruct (String_Copy_terminated (defaultLocale dest) (defaultLocale src) W1 T1 B1) as (st & l & E & Hl). rewrite E in E1 |- *. cbn [rbind deref].
  destruct st; try done; cbn [is_ok].
  - cbn [defaultText set_defaultLocale]. pose proof (String_Copy_exact (defaultText dest) (defaultText src) W2 B2) as E2.
    destruct (String_Copy_terminated (defaultText dest) (defaultText src) W2 T2 B2) as (st & t & E' & Ht). rewrite E' in E2 |- *. cbn [rbind deref].
    destruct st; try done; eexists _, _; (split; [done|]); (split; [done|]).
    + destruct Hl as (? & ? & _ & ?), Ht as (? & ? & _ & ?). unfold text_wf, same_text. cbn. by split_and!.
    + intros A. rewrite A in E2. destruct (0 <? Length (defaultText src)); discriminate E2.
  - eexists _, _. split; [done|]. split; [done|]. intros A. rewrite A in E1. destruct (0 <? Length (defaultLocale src)); discriminate E1.
Qed.

Lemma copy_default_ok dest src : text_wf src -> blank dest -> (forall k, alloc_ok k = true) ->
  exists d, copy_default dest src = Ret (SOPC_STATUS_OK, d) /\ localizedTextList d = localizedTextList dest /\ text_wf d /\ same_text d src.
Proof.
  intros W B A. destruct (copy_default_spec dest src W B) as ([] & d & E & L & X); try done. by exists d.
Qed.

Lemma replace_string_ok s src : string_wf src -> terminated src -> (forall k, alloc_ok k = true) ->
  exists d, replace_string s src = Ret (SOPC_STATUS_OK, d) /\ string_wf d /\ terminated d /\ string_chars d = string_chars src.
Proof.
  intros W T A. unfold replace_string. change (deref (SOPC_String_Clear (Some s))) with (Ret string_init). cbn [rbind].
  pose proof (String_Copy_exact string_init src W eq_refl) as E. destruct (String_Copy_terminated string_init src W T eq_refl) as (st & d & E' & Hd).
  rewrite E' in E |- *. cbn [rbind deref]. destruct st; try done.
  - destruct Hd as (? & ? & _ & ?). by exists d.
  - rewrite A in E. destruct (0 <? Length src); discriminate E.
Qed.

Lemma folded_chars ic a b : string_chars a = string_chars b -> folded ic a = folded ic b.
Proof. unfold folded. by intros ->. Qed.

Lemma same_text_locale a b : same_text a b -> locale_of a = locale_of b.
Proof. intros [E _]. by apply folded_chars. Qed.

(** The unfolding of one level. *)
Lemma Copy_Internal_S levels d src : SOPC_LocalizedText_Copy_Internal (S levels) (Some d) src =
  let* (status, d) := copy_default d src in
  let* (status, d) :=
    match is_ok status, localizedTextList src with
    | true, Some src_list =>
        match list_create with
        | NULL => Ret (SOPC_STATUS_OUT_OF_MEMORY, set_textList d NULL)
        | Some l =>
            let* (status, l) := copy_list (SOPC_LocalizedText_Copy_Internal levels) src_list l in
            Ret (status, set_textList d (Some l))
        end
    | _, _ => Ret (status, d)
    end in
  if is_ok status then Ret (status, Some d) else Ret (status, SOPC_LocalizedText_Clear (Some d)).
Proof. done. Qed.

(** A copy of a text without list. *)
Lemma single_copy_ok levels dest src : text_wf src -> localizedTextList src = NULL -> blank dest -> (forall k, alloc_ok k = true) ->
  exists d, SOPC_LocalizedText_Copy_Internal (S levels) (Some dest) src = Ret (SOPC_STATUS_OK, Some d) /\
    localizedTextList d = localizedTextList dest /\ text_wf d /\ same_text d src.
Proof.
  intros W N B A. destruct (copy_default_ok dest src W B A) as (d & E & L & Wd & S). rewrite Copy_Internal_S, E, N. cbn [rbind is_ok].
  by exists d.
Qed.

Lemma copy_list_ok l acc : Forall (fun e => text_wf e /\ localizedTextList e = NULL) (map snd l) -> (forall k, alloc_ok k = true) -> zlen acc + zlen l <= INT32_MAX ->
  exists r, copy_list (SOPC_LocalizedText_Copy_Internal 1) l acc = Ret (SOPC_STATUS_OK, acc ++ r) /\
    Forall2 same_text (map snd r) (map snd l) /\ Forall (fun e => text_wf e /\ localizedTextList e = NULL) (map snd r).
Proof.
  intros F A. revert acc. induction l as [|[id lt] l IH]; intros acc L; [exists []; split; [by rewrite app_nil_r|by split]|]. rewrite zlen_cons in L.
  pose proof (zlen_nonneg l). apply Forall_cons in F as [[Wt Nt] F]. cbn [copy_list map snd] in *. unfold new_text at 1. rewrite A.
  destruct (single_copy_ok 0 ltext_init lt Wt Nt) as (d & -> & Ld & Wd & Sd); [done|done|]. cbn [rbind is_ok deref]. unfold list_append. rewrite A.
  replace (zlen acc <? INT32_MAX) with true by lia. cbn [andb].
  destruct (IH F (acc ++ [(0, d)])) as (r & -> & S & W); [rewrite zlen_app; change (zlen [(0, d)]) with 1; lia|].
  exists ((0, d) :: r). rewrite <- app_assoc. split; [done|]. cbn [map snd]. split; [by constructor|]. constructor; [|done]. by rewrite Ld.
Qed.

(** The two strings of the same texts compare as equal. *)
Lemma compare_strings a b c : terminated a -> terminated b -> string_chars a = string_chars b ->
  SOPC_String_Compare (Some a) (Some b) false (Some c) = Ret (SOPC_STATUS_OK, Some 0).
Proof.
  intros Ta Tb E. destruct (String_Compare_text false a b c Ta Tb) as (x & -> & Hx). do 3 f_equal. apply Hx. by apply folded_chars.
Qed.

Lemma Compare_Internal_S levels a b c : SOPC_LocalizedText_Compare_Internal (S levels) a b c =
  let* (status, c) := SOPC_String_Compare (Some (defaultLocale a)) (Some (defaultLocale b)) false c in
  let* eq := still_equal status c in
  let* (status, c) := (if eq then SOPC_String_Compare (Some (defaultText a)) (Some (defaultText b)) false c else Ret (status, c)) in
  let* eq := still_equal status c in
  if eq then
    match localizedTextList a, localizedTextList b with
    | Some l, Some r =>
        if zlen l =? zlen r then compare_list (SOPC_LocalizedText_Compare_Internal levels) l r status c
        else if zlen r <? zlen l then Ret (status, Some 1)
        else Ret (status, Some (-1))
    | Some l, NULL => Ret (status, Some (if zlen l =? 0 then 0 else 1))
    | NULL, Some r => Ret (status, Some (if zlen r =? 0 then 0 else -1))
    | NULL, NULL => Ret (status, c)
    end
  else Ret (status, c).
Proof. done. Qed.

Lemma compare_single a b levels c : text_wf a -> text_wf b -> same_text a b -> localizedTextList a = NULL -> localizedTextList b = NULL ->
  SOPC_LocalizedText_Compare_Internal (S levels) a b (Some c) = Ret (SOPC_STATUS_OK, Some 0).
Proof.
  intros ((_ & A1) & _ & A2) ((_ & B1) & _ & B2) [S1 S2] Na Nb. rewrite Compare_Internal_S, compare_strings by done. cbn [rbind still_equal is_ok deref].
  change (0 =? 0) with true. rewrite compare_strings by done. cbn [rbind still_equal is_ok deref]. change (0 =? 0) with true. by rewrite Na, Nb.
Qed.

Lemma compare_list_same l r : Forall2 same_text (map snd l) (map snd r) ->
  Forall (fun e => text_wf e /\ localizedTextList e = NULL) (map snd l) -> Forall (fun e => text_wf e /\ localizedTextList e = NULL) (map snd r) ->
  compare_list (SOPC_LocalizedText_Compare_Internal 1) l r SOPC_STATUS_OK (Some 0) = Ret (SOPC_STATUS_OK, Some 0).
Proof.
  revert r. induction l as [|[i a] l IH]; intros [|[j b] r] S Fl Fr; cbn [map snd] in *; try done; try by inversion S.
  apply Forall2_cons in S as [S1 S]. apply Forall_cons in Fl as [[Wa Na] Fl]. apply Forall_cons in Fr as [[Wb Nb] Fr].
  cbn [compare_list still_equal is_ok deref rbind]. change (0 =? 0) with true. rewrite compare_single by done. cbn [rbind]. by apply IH.
Qed.

(** The copy of a localized text, with the texts of its other locales, is a text that
    the comparison finds equal to it; the strings are those that the toolkit creates. *)
Theorem localized_text_copy (dest src : SOPC_LocalizedText) (c : Z) :
  set_wf src -> blank dest -> localizedTextList dest = NULL -> zlen (others src) <= INT32_MAX -> (forall k, alloc_ok k = true) ->
  exists d, SOPC_LocalizedText_Copy (Some dest) (Some src) = Ret (SOPC_STATUS_OK, Some d) /\ set_wf d /\
    Forall2 same_text (entries d) (entries src) /\ SOPC_LocalizedText_Compare (Some d) (Some src) (Some c) = Ret (SOPC_STATUS_OK, Some 0).
Proof.
  intros [W F] B N L A. unfold SOPC_LocalizedText_Copy. rewrite Copy_Internal_S.
  destruct (copy_default_ok dest src W B A) as (d & E & Ld & Wd & Sd). rewrite E. cbn [rbind is_ok]. unfold entries, set_wf, others in *. rewrite N in Ld.
  unfold SOPC_LocalizedText_Compare. destruct (localizedTextList src) as [l|] eqn:El.
  - unfold list_create. rewrite A.
    destruct (copy_list_ok l [] F A) as (r & -> & S & Wr); [unfold zlen in *; rewrite length_map in L; cbn; lia|]. cbn [rbind is_ok app].
    eexists. split; [done|]. cbn [localizedTextList set_textList]. split; [by split|]. split; [by constructor|].
    destruct Wd as ((_ & D1) & _ & D2), W as ((_ & W1) & _ & W2), Sd as [S1 S2]. rewrite Compare_Internal_S. cbn [set_textList defaultLocale defaultText localizedTextList].
    rewrite compare_strings by done. cbn [rbind still_equal is_ok deref]. change (0 =? 0) with true. rewrite compare_strings by done. cbn [rbind still_equal is_ok deref].
    change (0 =? 0) with true. rewrite El. pose proof (Forall2_length _ _ _ S) as Ls. rewrite !length_map in Ls.
    replace (zlen r =? zlen l) with true by (unfold zlen; lia). by apply compare_list_same.
  - eexists. split; [done|]. rewrite Ld. split; [by split|]. split; [by constructor|]. by apply compare_single.
Qed.

(** ** Arrays *)

Lemma initialize_array_ok n i a : (i + n <= length a)%nat -> exists b, initialize_array n i a = Ret b /\ length b = length a /\ (forall j, (j < i)%nat -> b !! j = a !! j) /\
  (forall j, (i <= j < i + n)%nat -> b !! j = Some ltext_init).
Proof.
  revert i a. induction n as [|n IH]; intros i a L; cbn [initialize_array]; [exists a; split_and!; try done; lia|].
  unfold array_set. rewrite decide_True by lia. cbn [rbind]. destruct (IH (S i) (<[i:=ltext_init]> a)) as (b & -> & Lb & P & Q); [rewrite length_insert; lia|].
  exists b. rewrite length_insert in Lb. split_and!; try done.
  - intros j Hj. rewrite P by lia. by rewrite list_lookup_insert_ne by lia.
  - intros j Hj. destruct (decide (j = i)) as [-> |]; [rewrite P by lia; apply list_lookup_insert_eq; lia|apply Q; lia].
Qed.

Lemma initialize_array_overflow n i a : (length a < i + n)%nat -> (i <= length a)%nat -> initialize_array n i a = Fault OutOfBounds.
Proof.
  revert i a. induction n as [|n IH]; intros i a L Li; [lia|]. cbn [initialize_array]. unfold array_set.
  destruct (decide (i < length a)%nat); [|done]. cbn [rbind]. apply IH; rewrite length_insert; lia.
Qed.

Lemma copy_to_array_ok l i n a : Forall (fun e => text_wf e /\ localizedTextList e = NULL) (map snd l) -> (forall k, alloc_ok k = true) ->
  Z.of_nat (i + length l) <= n -> (i + length l <= length a)%nat -> (forall j, (i <= j < i + length l)%nat -> a !! j = Some ltext_init) ->
  exists r, copy_to_array l i n a = Ret (SOPC_STATUS_OK, take i a ++ r ++ drop (i + length l) a) /\ Forall2 same_text r (map snd l).
Proof.
  intros F A. revert i a. induction l as [|[id lt] l IH]; intros i a Hn Hl Hi; cbn [copy_to_array length map snd] in *.
  { exists []. rewrite Nat.add_0_r. cbn [app]. by rewrite take_drop. }
  apply Forall_cons in F as [[Wt Nt] F]. replace (Z.of_nat i <? n) with true by lia. unfold array_get. rewrite Hi by lia. cbn [rbind].
  cbn [SOPC_LocalizedText_Copy]. destruct (single_copy_ok 1 ltext_init lt Wt Nt) as (d & -> & _ & _ & Sd); [done|done|]. cbn [rbind deref is_ok].
  unfold array_set. rewrite decide_True by lia. cbn [rbind].
  destruct (IH F (S i) (<[i:=d]> a)) as (r & -> & Sr); [lia|rewrite length_insert; lia|intros j Hj; rewrite list_lookup_insert_ne by lia; apply Hi; lia|].
  exists (d :: r). split; [|by constructor]. do 2 f_equal. rewrite (take_S_r _ _ d) by (apply list_lookup_insert_eq; lia). rewrite take_insert_ge, drop_insert_lt by lia.
  rewrite <- app_assoc. by replace (S i + length l)%nat with (i + S (length l))%nat by lia.
Qed.

(** C37: the array of a localized text holds its texts in order, the default one first, as
    long as there are at most four of them; with more texts the function writes beyond the
    array, since it allocates as many elements as the counter has bytes. *)
Theorem localized_text_to_array (src : SOPC_LocalizedText) :
  set_wf src -> (forall k, alloc_ok k = true) ->
  if decide (length (entries src) <= 4)%nat then
    exists a, SOPC_LocalizedText_CopyToArray (Some src) = Ret (SOPC_STATUS_OK, Some a, zlen (entries src)) /\
      Forall2 same_text (take (length (entries src)) a) (entries src)
  else SOPC_LocalizedText_CopyToArray (Some src) = Fault OutOfBounds.
Proof.
  intros [W F] A. unfold SOPC_LocalizedText_CopyToArray. rewrite A.
  assert (1 + list_length (localizedTextList src) = zlen (entries src)) as ->.
  { unfold entries, others, list_length. rewrite zlen_cons. destruct (localizedTextList src); [unfold zlen; by rewrite length_map|done]. }
  replace (Z.to_nat (zlen (entries src))) with (length (entries src)) by (unfold zlen; lia). destruct (decide _) as [S|B].
  - destruct (initialize_array_ok (length (entries src)) 0 (replicate (Z.to_nat sizeof_nbElts) ltext_init)) as (a & -> & La & _ & Q); [done|]. cbn [rbind]. change (length (replicate _ _)) with 4%nat in La.
    assert (1 <= length (entries src))%nat by (cbn; lia). unfold array_get at 1. rewrite Q by lia. cbn [rbind].
    destruct (copy_default_ok ltext_init src W) as (d & -> & Ld & Wd & Sd); [done|done|]. cbn [rbind]. unfold array_set at 1. rewrite decide_True by lia. cbn [rbind is_ok andb].
    unfold entries, others in *. destruct (localizedTextList src) as [l|] eqn:El.
    + cbn [length] in *. rewrite length_map in *. destruct (Z.ltb_spec 1 (zlen (src :: map snd l))) as [P|N].
      * destruct (copy_to_array_ok l 1 (zlen (src :: map snd l)) (<[0%nat:=d]> a) F A) as (r & -> & Sr); [unfold zlen; cbn; rewrite length_map; lia|rewrite length_insert; lia| |].
        { intros j Hj. rewrite list_lookup_insert_ne by lia. apply Q. lia. }
        cbn [rbind is_ok]. eexists. split; [done|]. destruct a as [|a0 a]; [cbn in La; lia|]. pose proof (Forall2_length _ _ _ Sr) as Lr. rewrite length_map in Lr.
        rewrite <- Lr. change (take 1 (<[0%nat:=d]> (a0 :: a))) with [d]. cbn [app]. rewrite firstn_cons, take_app_length. by constructor.
      * assert (l = []) as -> by (destruct l; [done|rewrite zlen_cons in N; unfold zlen in N; cbn in N; lia]). cbn [rbind is_ok]. eexists. split; [done|].
        destruct a as [|a0 a]; [cbn in La; lia|]. by apply Forall2_cons_2; [|apply Forall2_nil_2].
    + change (1 <? zlen [src]) with false. cbn [rbind is_ok]. eexists. split; [done|]. destruct a as [|a0 a]; [cbn in La; lia|]. by apply Forall2_cons_2; [|apply Forall2_nil_2].
  - rewrite initialize_array_overflow; [done| |]; change (length (replicate _ _)) with 4%nat; lia.
Qed.

(** ** Update of a locale *)

Abbreviation single := (fun e => text_wf e /\ localizedTextList e = NULL).

Lemma same_locale_text a b : text_wf a -> text_wf b ->
  same_locale (defaultLocale a) (defaultLocale b) = Ret (SOPC_STATUS_OK, bool_decide (locale_of a = locale_of b)).
Proof. intros ((_ & Ta) & _) ((_ & Tb) & _). by apply same_locale_spec. Qed.

(** What an update makes of the text of each locale. *)
Definition updated (old new : list SOPC_LocalizedText) (k : list Z) (v : option block) : Prop :=
  forall k', k' <> [] -> text_of new k' = if decide (k' = k) then v else text_of old k'.

Lemma set_in_list_spec l src : Forall single (map snd l) -> text_wf src -> (forall k, alloc_ok k = true) ->
  exists l', set_in_list l src = Ret (SOPC_STATUS_OK, bool_decide (locale_of src ∉ map locale_of (map snd l)), l') /\
    Forall single (map snd l') /\ map locale_of (map snd l') = map locale_of (map snd l) /\
    forall k, text_of (map snd l') k =
      if decide (k = locale_of src /\ locale_of src ∈ map locale_of (map snd l)) then Some (string_chars (defaultText src)) else text_of (map snd l) k.
Proof.
  intros F W A. induction l as [|[id lt] l IH]; cbn [map snd set_in_list] in *.
  { exists []. rewrite bool_decide_true by apply not_elem_of_nil. split_and!; try done. intros k. rewrite decide_False; [done|]. by intros [_ ?%not_elem_of_nil]. }
  apply Forall_cons in F as [[Wl Nl] F]. rewrite same_locale_text by done. cbn [rbind is_ok negb].
  destruct (bool_decide_reflect (locale_of lt = locale_of src)) as [E|N].
  - destruct (replace_string_ok (defaultText lt) (defaultText src)) as (t & -> & Wt & Tt & Ct); [apply W|apply W|done|]. cbn [rbind].
    eexists. rewrite bool_decide_false by (intros X; apply X; rewrite E; by apply elem_of_cons; left). split; [done|]. cbn [map snd]. split_and!.
    + constructor; [|done]. split; [|done]. split; [apply Wl|done].
    + done.
    + intros k. rewrite !text_of_cons. change (locale_of (set_defaultText lt t)) with (locale_of lt). cbn [set_defaultText defaultText]. rewrite Ct. rewrite E.
      destruct (decide (locale_of src = k)) as [<- |Nk]; [rewrite decide_True; [done|]; split; [done|by apply elem_of_cons; left]|].
      rewrite decide_False by (by intros [-> _]). done.
  - destruct (IH F) as (l' & -> & F' & K & T). cbn [rbind]. eexists.
    assert (bool_decide (locale_of src ∉ map locale_of (map snd l)) = bool_decide (locale_of src ∉ locale_of lt :: map locale_of (map snd l))) as ->
      by (apply bool_decide_ext; rewrite not_elem_of_cons; split; [intros X; split; [by intros X1; apply N|done]|by intros []]).
    split; [done|]. cbn [map snd]. split_and!; [by constructor|by rewrite K|]. intros k. rewrite !text_of_cons, T.
    destruct (decide (locale_of lt = k)) as [<- |Nk]; [rewrite decide_False by (intros [X _]; by apply N); done|].
    apply decide_ext. rewrite elem_of_cons. split; [by intros [? ?]; split; [|right]|]. intros [-> [X|X]]; [by destruct N|done].
Qed.

Lemma add_to_list_ok l src : text_wf src -> localizedTextList src = NULL -> (forall k, alloc_ok k = true) -> zlen l < INT32_MAX ->
  exists d, add_to_list l src = Ret (SOPC_STATUS_OK, l ++ [(0, d)]) /\ single d /\ same_text d src.
Proof.
  intros W N A L. unfold add_to_list, new_text. rewrite A. cbn [SOPC_LocalizedText_Copy]. destruct (single_copy_ok 1 ltext_init src W N) as (d & -> & Ld & Wd & Sd); [done|done|].
  cbn [rbind deref is_ok]. unfold list_append. rewrite A. replace (zlen l <? INT32_MAX) with true by lia. cbn [andb]. by exists d.
Qed.

Lemma text_of_new old d src k : same_text d src -> locale_of src ∉ map locale_of old ->
  text_of (old ++ [d]) k = if decide (k = locale_of src) then Some (string_chars (defaultText src)) else text_of old k.
Proof.
  intros S N. pose proof (same_text_locale d src S) as E. destruct S as [_ St]. destruct (decide (k = locale_of src)) as [-> |Nk].
  - rewrite text_of_app by done. rewrite text_of_cons, decide_True by done. by rewrite St.
  - destruct (decide (k ∈ map locale_of old)) as [I|I]; [by apply text_of_app_in|]. rewrite text_of_app, (text_of_none old) by done.
    rewrite text_of_cons, decide_False by congruence. done.
Qed.

Lemma SetSupported_spec dest src : set_wf dest -> NoDup (map locale_of (entries dest)) -> text_wf src -> localizedTextList src = NULL ->
  0 < Length (defaultText src) -> zlen (others dest) < INT32_MAX -> (forall k, alloc_ok k = true) ->
  exists d, SOPC_LocalizedText_AddOrSetLocale_Internal_SetSupported dest src = Ret (SOPC_STATUS_OK, d) /\ set_wf d /\ NoDup (map locale_of (entries d)) /\
    updated (entries dest) (entries d) (locale_of src) (Some (string_chars (defaultText src))).
Proof.
  intros [W F] D Ws Ns P L A. unfold SOPC_LocalizedText_AddOrSetLocale_Internal_SetSupported. replace (0 <? Length (defaultText src)) with true by lia.
  rewrite same_locale_text by done. cbn [rbind is_ok negb]. unfold updated, entries, set_wf in *. cbn [map] in D.
  destruct (bool_decide_reflect (locale_of dest = locale_of src)) as [E|N].
  - destruct (replace_string_ok (defaultText dest) (defaultText src)) as (t & -> & Wt & Tt & Ct); [apply Ws|apply Ws|done|]. cbn [rbind is_ok andb].
    eexists. split; [done|]. change (others (set_defaultText dest t)) with (others dest). split; [split; [split; [apply W|done]|done]|]. split; [done|].
    intros k _. rewrite !text_of_cons. change (locale_of (set_defaultText dest t)) with (locale_of dest). cbn [set_defaultText defaultText]. rewrite E, Ct.
    destruct (decide (locale_of src = k)), (decide (k = locale_of src)); congruence.
  - assert (exists add l, (match localizedTextList dest with
        | Some l => let* (status, addToList, l) := set_in_list l src in Ret (status, addToList, set_textList dest (Some l))
        | NULL => Ret (if is_null list_create then SOPC_STATUS_OUT_OF_MEMORY else SOPC_STATUS_OK, true, set_textList dest list_create)
        end) = Ret (SOPC_STATUS_OK, add, set_textList dest (Some l)) /\ add = bool_decide (locale_of src ∉ map locale_of (others dest)) /\
        Forall single (map snd l) /\ map locale_of (map snd l) = map locale_of (others dest) /\
        forall k, text_of (map snd l) k =
          if decide (k = locale_of src /\ locale_of src ∈ map locale_of (others dest)) then Some (string_chars (defaultText src)) else text_of (others dest) k)
      as (add & l & -> & Ha & Fl & Kl & Tl).
    { unfold others in *. destruct (localizedTextList dest) as [l|].
      - destruct (set_in_list_spec l src F Ws A) as (l' & -> & ?). cbn [rbind]. by eexists _, _.
      - unfold list_create. rewrite A. exists true, []. rewrite bool_decide_true by apply not_elem_of_nil. split_and!; try done.
        intros k. rewrite decide_False; [done|]. by intros [_ ?%not_elem_of_nil]. }
    cbn [rbind is_ok andb]. destruct (bool_decide_reflect (locale_of src ∉ map locale_of (others dest))) as [Ni|Yi]; subst add.
    + cbn [set_textList localizedTextList deref rbind]. destruct (add_to_list_ok l src Ws Ns A) as (d & -> & Sd & Td).
      { apply (f_equal length) in Kl. rewrite !length_map in Kl. unfold zlen in *. lia. }
      cbn [rbind]. eexists. split; [done|]. cbn [others set_textList localizedTextList]. rewrite map_app. cbn [map snd].
      split; [split; [done|by apply Forall_app; split; [|constructor]]|]. rewrite map_app, Kl. cbn [map]. rewrite (same_text_locale d src Td).
      change (locale_of (set_textList _ _)) with (locale_of dest). split.
      * apply (NoDup_app (locale_of dest :: map locale_of (others dest)) [locale_of src]). split; [done|]. split; [|apply NoDup_singleton].
        intros x Hx ->%list_elem_of_singleton. apply elem_of_cons in Hx as [Hx|Hx]; [by apply N|done].
      * intros k _. rewrite !text_of_cons. change (locale_of (set_textList _ _)) with (locale_of dest). cbn [set_textList defaultText].
        rewrite (text_of_new _ d src k Td) by (by rewrite Kl). rewrite Tl. destruct (decide (locale_of dest = k)) as [<- |]; [rewrite decide_False by done; done|].
        destruct (decide (k = locale_of src)); [done|]. rewrite decide_False by (by intros []). done.
    + eexists. split; [done|]. cbn [others set_textList localizedTextList]. split; [done|]. cbn [map]. rewrite Kl. change (locale_of (set_textList _ _)) with (locale_of dest).
      split; [done|]. intros k _. rewrite !text_of_cons. change (locale_of (set_textList _ _)) with (locale_of dest). cbn [set_textList defaultText]. rewrite Tl.
      destruct (decide (locale_of dest = k)) as [<- |]; [rewrite decide_False by done; done|]. apply dec_stable in Yi. apply decide_ext. split; [by intros []|by intros].
Qed.

Lemma remove_from_list_spec l src : Forall single (map snd l) -> NoDup (map locale_of (map snd l)) -> text_wf src ->
  exists l', remove_from_list l src = Ret (SOPC_STATUS_OK, l') /\ Forall single (map snd l') /\
    sublist (map locale_of (map snd l')) (map locale_of (map snd l)) /\
    forall k, text_of (map snd l') k = if decide (k = locale_of src) then None else text_of (map snd l) k.
Proof.
  intros F D W. induction l as [|[id lt] l IH]; cbn [map snd remove_from_list] in *.
  { exists []. split_and!; try done. intros k. by destruct (decide _). }
  apply Forall_cons in F as [[Wl Nl] F]. apply NoDup_cons in D as [Nd D]. rewrite same_locale_text by done. cbn [rbind is_ok negb].
  destruct (bool_decide_reflect (locale_of lt = locale_of src)) as [E|N].
  - exists l. split; [done|]. split; [done|]. split; [by apply sublist_cons|]. intros k. rewrite text_of_cons. destruct (decide (k = locale_of src)) as [-> |Nk].
    + apply text_of_none. by rewrite <- E.
    + rewrite decide_False by congruence. done.
  - destruct (IH F D) as (l' & -> & F' & S & T). cbn [rbind]. eexists. split; [done|]. cbn [map snd]. split_and!; [by constructor|by apply sublist_skip|].
    intros k. rewrite !text_of_cons, T. destruct (decide (locale_of lt = k)) as [<- |]; [by rewrite decide_False|done].
Qed.

Lemma RemoveSupported_spec dest src : set_wf dest -> NoDup (map locale_of (entries dest)) -> text_wf src ->
  Length (defaultText src) <= 0 -> 0 < Length (defaultLocale src) -> (forall k, alloc_ok k = true) ->
  exists d, SOPC_LocalizedText_AddOrSetLocale_Internal_RemoveSupported dest src = Ret (SOPC_STATUS_OK, d) /\ set_wf d /\ NoDup (map locale_of (entries d)) /\
    updated (entries dest) (entries d) (locale_of src) None.
Proof.
  intros [W F] D Ws Pt Pl A. unfold SOPC_LocalizedText_AddOrSetLocale_Internal_RemoveSupported. replace (_ <=? 0) with true by lia. replace (0 <? _) with true by lia.
  rewrite same_locale_text by done. cbn [rbind is_ok negb]. unfold updated, entries, set_wf in *. cbn [map] in D. apply NoDup_cons in D as [Nd D].
  destruct (bool_decide_reflect (locale_of dest = locale_of src)) as [E|N].
  - change (deref (SOPC_String_Clear (Some (defaultText dest)))) with (Ret string_init). change (deref (SOPC_String_Clear (Some (defaultLocale dest)))) with (Ret string_init).
    cbn [rbind localizedTextList]. assert (string_wf string_init /\ terminated string_init) as [I1 I2] by (split; [split; [by vm_compute|cbn; lia]|unfold terminated; cbn; lia]).
    assert (forall l : ptr (list (Z * SOPC_LocalizedText)), others dest = [] -> others (mkLocalizedText string_init string_init l) = [] ->
      exists d, Ret (SOPC_STATUS_OK, mkLocalizedText string_init string_init l) = Ret (SOPC_STATUS_OK, d) /\ (text_wf d /\ Forall single (others d)) /\
        NoDup (map locale_of (d :: others d)) /\ forall k', k' <> [] -> text_of (d :: others d) k' = if decide (k' = locale_of src) then None else text_of (dest :: others dest) k') as Empty.
    { intros l O1 O2. eexists. split; [done|]. rewrite O1, O2. split; [split; [by split_and!|constructor]|]. split; [apply NoDup_singleton|].
      intros k Hk. rewrite !text_of_cons. rewrite decide_False by (by intros <-). destruct (decide (k = locale_of src)); [done|]. by rewrite decide_False by congruence. }
    unfold others in *. destruct (localizedTextList dest) as [[|[id lt] l]|] eqn:El; [by apply Empty| |by apply Empty]. cbn [map snd set_textList] in *.
    apply Forall_cons in F as [[Wl Nl] F].
    change (copy_default _ lt) with (copy_default (mkLocalizedText string_init string_init (Some l)) lt).
    destruct (copy_default_ok (mkLocalizedText string_init string_init (Some l)) lt Wl) as (d & -> & Ld & Wd & Sd); [done|done|].
    exists d. split; [done|]. rewrite Ld. cbn [localizedTextList]. split; [done|]. cbn [map]. rewrite (same_text_locale d lt Sd). split; [done|].
    intros k Hk. rewrite !text_of_cons, (same_text_locale d lt Sd), (proj2 Sd). cbn [map] in Nd. rewrite not_elem_of_cons in Nd. destruct Nd as [Nd1 Nd2].
    destruct (decide (k = locale_of src)) as [-> |]; [|rewrite (decide_False (P := locale_of dest = k)) by congruence; done].
    rewrite decide_False by congruence. apply text_of_none. by rewrite <- E.
  - assert (forall l, Forall single (map snd l) -> sublist (map locale_of (map snd l)) (map locale_of (others dest)) ->
      (forall k, text_of (map snd l) k = if decide (k = locale_of src) then None else text_of (others dest) k) ->
      exists d, Ret (SOPC_STATUS_OK, set_textList dest (Some l)) = Ret (SOPC_STATUS_OK, d) /\ (text_wf d /\ Forall single (others d)) /\
        NoDup (map locale_of (d :: others d)) /\ forall k', k' <> [] -> text_of (d :: others d) k' = if decide (k' = locale_of src) then None else text_of (dest :: others dest) k') as Cut.
    { intros l Fl Sl Tl. eexists. split; [done|]. cbn [others set_textList localizedTextList]. split; [done|]. change (locale_of (set_textList dest (Some l))) with (locale_of dest). split.
      - cbn [map]. apply NoDup_cons. split; [intros X; apply Nd; by eapply elem_of_sublist|by eapply sublist_NoDup].
      - intros k _. rewrite !text_of_cons. change (locale_of (set_textList dest (Some l))) with (locale_of dest). cbn [set_textList defaultText].
        rewrite Tl. destruct (decide (locale_of dest = k)) as [<- |]; [by rewrite decide_False|done]. }
    unfold others in *. destruct (localizedTextList dest) as [l|] eqn:El.
    + destruct (remove_from_list_spec l src F D Ws) as (l' & -> & F' & S & T). cbn [rbind]. by apply Cut.
    + exists dest. split; [done|]. unfold others. rewrite El. split; [done|]. split; [apply NoDup_singleton|]. intros k _. rewrite !text_of_cons.
      destruct (decide (locale_of dest = k)) as [<- |]; [by rewrite decide_False|by destruct (decide _)].
Qed.

Lemma raw_text s : terminated s -> 0 < Length s -> SOPC_String_GetRawCString (Some s) = Ret (Data s).
Proof.
  intros T P. destruct (T P) as (d & rest & E & L & _). unfold SOPC_String_GetRawCString. replace (0 <? Length s) with true by lia. rewrite E. cbn [deref rbind].
  rewrite mem_read_ok by (rewrite ?zlen_app, ?zlen_cons; pose proof (zlen_nonneg rest); lia). cbn [rbind].
  replace (Z.to_nat (Length s)) with (length d) by (unfold zlen in L; lia). by rewrite drop_app_length.
Qed.

(** An empty string has no data. *)
Definition null_when_empty (s : SOPC_String) : Prop := Length s <= 0 -> Data s = NULL.

Lemma empty_set dest : (Length (defaultLocale dest) <=? 0) && (Length (defaultText dest) <=? 0) && (list_length (localizedTextList dest) =? 0) = true ->
  others dest = [] /\ locale_of dest = [].
Proof.
  intros E. apply andb_prop in E as [E E3]. apply andb_prop in E as [E1 _]. split.
  - unfold others, list_length in *. by destruct (localizedTextList dest) as [[|x l]|].
  - unfold locale_of, folded. by rewrite string_chars_null by lia.
Qed.

(** C17: a localized text is a map from the locales, without regard to case, to texts, and
    the function that adds, sets or removes the text of a supported locale updates this
    map: the locale has the new text, or none when the new text is empty, the other ones
    keep theirs, and no locale appears twice. *)
Theorem locale_update (dest src : SOPC_LocalizedText) (ids : list (ptr block)) :
  set_wf dest -> NoDup (map locale_of (entries dest)) -> null_when_empty (defaultLocale dest) -> null_when_empty (defaultText dest) ->
  zlen (others dest) < INT32_MAX ->
  text_wf src -> localizedTextList src = NULL -> 0 < Length (defaultLocale src) -> locale_supported ids (Data (defaultLocale src)) = Ret true ->
  (forall k, alloc_ok k = true) ->
  exists d, SOPC_LocalizedText_AddOrSetLocale (Some dest) (Some ids) (Some src) = Ret (SOPC_STATUS_OK, Some d) /\
    set_wf d /\ NoDup (map locale_of (entries d)) /\
    updated (entries dest) (entries d) (locale_of src) (if 0 <? Length (defaultText src) then Some (string_chars (defaultText src)) else None).
Proof.
  intros W D N1 N2 L Ws Ns P Sup A. unfold SOPC_LocalizedText_AddOrSetLocale. rewrite Ns. cbn [is_null negb]. replace (Length (defaultLocale src) <=? 0) with false by lia.
  cbn [andb]. destruct ids as [|x ids]; [done|]. cbn [rbind]. rewrite raw_text by (done || apply Ws). cbn [rbind]. rewrite Sup. cbn [rbind negb].
  destruct (Z.ltb_spec 0 (Length (defaultText src))) as [Pt|Nt].
  - destruct (_ && _) eqn:Em.
    + destruct (empty_set dest Em) as [O K]. apply andb_prop in Em as [Em _]. apply andb_prop in Em as [E1 E2].
      destruct (single_copy_ok 1 dest src Ws Ns) as (d & E & Ld & Wd & Sd); [split; [apply N1|apply N2]; lia|done|]. cbn [SOPC_LocalizedText_Copy]. rewrite E.
      exists d. split; [done|]. assert (others d = []) as Od by (unfold others in *; by rewrite Ld). unfold set_wf, entries, updated. rewrite O, Od.
      split; [by split; [|constructor]|]. split; [apply NoDup_singleton|]. intros k Hk. rewrite !text_of_cons, K, (same_text_locale d src Sd), (proj2 Sd).
      destruct (decide (k = locale_of src)) as [-> |]; [by rewrite decide_True|]. rewrite !decide_False by congruence. done.
    + destruct (SetSupported_spec dest src W D Ws Ns Pt L A) as (d & -> & ?). cbn [rbind]. by exists d.
  - destruct (RemoveSupported_spec dest src W D Ws ltac:(lia) P A) as (d & -> & ?). cbn [rbind]. by exists d.
Qed.

End Texts.

(** ** Examples *)

Section Demo.
#[local] Existing Instance serving_allocator.

Definition c_string (s : list byte) : SOPC_String := mkString (zlen s) false (Some (s ++ [x00])).

Lemma c_string_wf s : plain_text s -> zlen s <= 1000 -> string_wf (c_string s) /\ terminated (c_string s).
Proof.
  intros P L. split; [|by apply terminated_copy]. pose proof (zlen_nonneg s). split; [unfold in_s; cbn; lia|]. intros _. eexists. split; [done|].
  cbn. rewrite zlen_app. change (zlen [x00]) with 1. lia.
Qed.

(** [fr] and [en] *)
Definition demo_french : SOPC_LocalizedText := mkLocalizedText (c_string [x66; x72]) (c_string [x6f; x75; x69]) NULL.
Definition demo_english : SOPC_LocalizedText := mkLocalizedText (c_string [x65; x6e]) (c_string [x79; x65; x73]) NULL.
Definition demo_set : SOPC_LocalizedText := set_textList demo_french (Some [(0, demo_english)]).
Definition demo_locales : list (ptr block) := [Some [x66; x72; x00]; Some [x45; x4e; x00]; NULL].

Lemma demo_texts_wf : text_wf demo_french /\ text_wf demo_english /\ set_wf demo_set.
Proof.
  assert (text_wf demo_french /\ text_wf demo_english) as [F E] by (split; split; apply c_string_wf; (by vm_compute) || by repeat constructor).
  split; [done|]. split; [done|]. split; [exact F|]. by constructor; [|constructor].
Qed.

Lemma localized_text_copy_witness :
  exists d, SOPC_LocalizedText_Copy (Some ltext_init) (Some demo_set) = Ret (SOPC_STATUS_OK, Some d) /\
    SOPC_LocalizedText_Compare (Some d) (Some demo_set) (Some 7) = Ret (SOPC_STATUS_OK, Some 0).
Proof.
  destruct (localized_text_copy ltext_init demo_set 7) as (d & E & _ & _ & C).
  - apply demo_texts_wf.
  - done.
  - done.
  - by vm_compute.
  - done.
  - exists d. split; [exact E|exact C].
Defined.

Lemma localized_text_to_array_witness :
  exists a, SOPC_LocalizedText_CopyToArray (Some demo_set) = Ret (SOPC_STATUS_OK, Some a, 2).
Proof.
  pose proof (localized_text_to_array demo_set (proj2 (proj2 demo_texts_wf)) ltac:(done)) as X. cbn in X. destruct X as (a & E & _). exists a. exact E.
Defined.

Lemma locale_update_witness :
  exists d, SOPC_LocalizedText_AddOrSetLocale (Some demo_french) (Some demo_locales) (Some demo_english) = Ret (SOPC_STATUS_OK, Some d) /\
    updated (entries demo_french) (entries d) (locale_of demo_english) (Some [x79; x65; x73]).
Proof.
  destruct (locale_update demo_french demo_english demo_locales) as (d & E & _ & _ & U).
  - split; [apply demo_texts_wf|constructor].
  - apply NoDup_singleton.
  - by intros ?.
  - by intros ?.
  - by vm_compute.
  - apply demo_texts_wf.
  - done.
  - by vm_compute.
  - reflexivity.
  - done.
  - exists d. split; [exact E|exact U].
Defined.

(** [fr-FR] is the default, [en-US] the other text, and the client prefers [fr-CA] to
    [en]: the function on a set chooses English, the one on an array French. *)
Definition demo_regions : list SOPC_LocalizedText :=
  [mkLocalizedText (c_string [x66; x72; x2d; x46; x52]) (c_string [x6f; x75; x69]) NULL; mkLocalizedText (c_string [x65; x6e; x2d; x55; x53]) (c_string [x79; x65; x73]) NULL].

Definition chosen (r : res (SOPC_ReturnStatus * ptr SOPC_LocalizedText)) : option block :=
  match r with Ret (_, Some t) => Some (string_chars (defaultText t)) | _ => None end.

Example default_language_ignored :
  let prefers := Some [Some [x66; x72; x2d; x43; x41; x00]; Some [x65; x6e; x00]; NULL] in
  let set := mkLocalizedText (defaultLocale (nth 0 demo_regions ltext_init)) (defaultText (nth 0 demo_regions ltext_init)) (Some [(0, nth 1 demo_regions ltext_init)]) in
  chosen (SOPC_LocalizedText_GetPreferredLocale (Some ltext_init) prefers (Some set)) = Some [x79; x65; x73] /\
  chosen (SOPC_LocalizedTextArray_GetPreferredLocale (Some ltext_init) prefers 2 (Some demo_regions)) = Some [x6f; x75; x69].
Proof. by vm_compute. Qed.

End Demo.
