(* ===== verification/EncStruct.v ===== *)
(** * Structures described by their fields

    Model of the generic functions of
    [src/src/Common/opcua_types/sopc_encodeabletype.c]: every structure of the
    services is initialised, cleared, encoded and decoded from the table of its
    field descriptors, which the generated code provides.  The structures that the
    extension objects of a field hold are those of an instance of
    [EncodeableTypes]. *)

From Stdlib Require Import ZArith Lia.
From Stdlib Require Import Strings.Byte.
From stdpp Require Import prelude.
From S2P Require Import Prelude Common Buffer Codec EncScalar EncString EncNodeId EncText EncArray EncExtObj EncVariant.

Open Scope Z_scope.

(** ** Descriptors *)

Record SOPC_EncodeableType_FieldDescriptor := mkField {
  isBuiltIn : bool;
  isArrayLength : bool;
  isToEncode : bool;
  typeIndex : Z
}.

Record SOPC_EncodeableType := mkEncodeableType {
  Struct_TypeId : Z;
  Struct_BinaryEncodingTypeId : Z;
  Struct_NamespaceUri : ptr block;
  Struct_AllocationSize : Z;
  Fields : list SOPC_EncodeableType_FieldDescriptor
}.

(** The content of the table of the known types, which is generated, and a bound on the
    depth of the structures that are nested by value. *)
Class KnownTypes := {
  known_types : list SOPC_EncodeableType;
  value_depth : nat
}.

(** The array ends with a null pointer. *)
Definition SOPC_KnownEncodeableTypes `{KnownTypes} (index : nat) : ptr SOPC_EncodeableType := nth_error known_types index.

(** ** Memory of the structures

    The offset of a descriptor designates the field that the descriptor is for: the
    memory of a structure is the list of its fields in the order of the
    descriptors.  A field that holds an array is preceded by its length. *)

Section Types.
Context `{EncodeableTypes}.

Inductive Builtin :=
| B_Number (id : SOPC_BuiltinId) (n : Z)
| B_String (id : SOPC_BuiltinId) (s : SOPC_String)
| B_Guid (g : SOPC_Guid)
| B_NodeId (n : SOPC_NodeId)
| B_ExpNodeId (n : SOPC_ExpandedNodeId)
| B_Qname (q : SOPC_QualifiedName)
| B_LocalizedText (t : SOPC_LocalizedText)
| B_ExtObject (e : SOPC_ExtensionObject)
| B_DataValue (d : SOPC_DataValue)
| B_Variant (v : SOPC_Variant)
| B_DiagInfo (d : SOPC_DiagnosticInfo).

Inductive StructObject :=
| mkStruct (encodeableType : nat) (fields : FieldList)
with FieldList :=
| FNil
| FCons (f : FieldValue) (fs : FieldList)
with FieldValue :=
| FBuiltin (v : Builtin)
| FStruct (o : StructObject)
| FBuiltins (arr : ptr (list Builtin))
| FStructs (arr : ptr (list StructObject)).

Definition as_number (id : SOPC_BuiltinId) (v : Builtin) : res Z :=
  match v with B_Number m n => if decide (m = id) then Ret n else Fault UnionPunning | _ => Fault UnionPunning end.
Definition as_string (id : SOPC_BuiltinId) (v : Builtin) : res SOPC_String :=
  match v with B_String m s => if decide (m = id) then Ret s else Fault UnionPunning | _ => Fault UnionPunning end.
Definition as_Guid (v : Builtin) : res SOPC_Guid := match v with B_Guid g => Ret g | _ => Fault UnionPunning end.
Definition as_NodeId (v : Builtin) : res SOPC_NodeId := match v with B_NodeId n => Ret n | _ => Fault UnionPunning end.
Definition as_ExpNodeId (v : Builtin) : res SOPC_ExpandedNodeId :=
  match v with B_ExpNodeId n => Ret n | _ => Fault UnionPunning end.
Definition as_Qname (v : Builtin) : res SOPC_QualifiedName := match v with B_Qname q => Ret q | _ => Fault UnionPunning end.
Definition as_LocalizedText (v : Builtin) : res SOPC_LocalizedText :=
  match v with B_LocalizedText t => Ret t | _ => Fault UnionPunning end.
Definition as_ExtObject (v : Builtin) : res SOPC_ExtensionObject :=
  match v with B_ExtObject e => Ret e | _ => Fault UnionPunning end.
Definition as_DataValue (v : Builtin) : res SOPC_DataValue :=
  match v with B_DataValue d => Ret d | _ => Fault UnionPunning end.
Definition as_Variant (v : Builtin) : res SOPC_Variant := match v with B_Variant x => Ret x | _ => Fault UnionPunning end.
Definition as_DiagInfo (v : Builtin) : res SOPC_DiagnosticInfo :=
  match v with B_DiagInfo d => Ret d | _ => Fault UnionPunning end.

(** ** The tables of the built-in types *)

(** [SOPC_BuiltInType_HandlingTable[id].initialize]; there is none for Null *)
Definition builtin_initialize (id : SOPC_BuiltinId) : res Builtin :=
  match id with
  | SOPC_Null_Id => Fault NullDeref
  | SOPC_Other_Id _ => Fault OutOfBounds
  | SOPC_String_Id | SOPC_ByteString_Id | SOPC_XmlElement_Id => Ret (B_String id string_init)
  | SOPC_Guid_Id => Ret (B_Guid guid_init)
  | SOPC_NodeId_Id => Ret (B_NodeId nodeid_init)
  | SOPC_ExpandedNodeId_Id => Ret (B_ExpNodeId expnodeid_init)
  | SOPC_QualifiedName_Id => Ret (B_Qname qname_init)
  | SOPC_LocalizedText_Id => Ret (B_LocalizedText ltext_init)
  | SOPC_ExtensionObject_Id => Ret (B_ExtObject extobj_init)
  | SOPC_DataValue_Id => Ret (B_DataValue datavalue_init)
  | SOPC_Variant_Id => Ret (B_Variant variant_init)
  | SOPC_DiagnosticInfo_Id => Ret (B_DiagInfo diag_init)
  | SOPC_Boolean_Id | SOPC_SByte_Id | SOPC_Byte_Id | SOPC_Int16_Id | SOPC_UInt16_Id | SOPC_Int32_Id | SOPC_UInt32_Id
  | SOPC_Int64_Id | SOPC_UInt64_Id | SOPC_Float_Id | SOPC_Double_Id | SOPC_DateTime_Id | SOPC_StatusCode_Id =>
      Ret (B_Number id 0)
  end.

(** [SOPC_BuiltInType_HandlingTable[id].size] *)
Definition builtin_size (id : SOPC_BuiltinId) : res Z :=
  match id with
  | SOPC_Null_Id => Ret 0
  | SOPC_Boolean_Id | SOPC_SByte_Id | SOPC_Byte_Id => Ret 1
  | SOPC_Int16_Id | SOPC_UInt16_Id => Ret 2
  | SOPC_Int32_Id | SOPC_UInt32_Id | SOPC_Float_Id | SOPC_StatusCode_Id => Ret 4
  | SOPC_Int64_Id | SOPC_UInt64_Id | SOPC_Double_Id | SOPC_DateTime_Id => Ret 8
  | SOPC_Guid_Id => Ret sizeof_Guid
  | SOPC_String_Id | SOPC_ByteString_Id | SOPC_XmlElement_Id => Ret sizeof_String
  | SOPC_NodeId_Id => Ret sizeof_NodeId
  | SOPC_ExpandedNodeId_Id => Ret sizeof_ExpandedNodeId
  | SOPC_QualifiedName_Id => Ret sizeof_QualifiedName
  | SOPC_LocalizedText_Id => Ret sizeof_LocalizedText
  | SOPC_ExtensionObject_Id => Ret sizeof_ExtensionObject
  | SOPC_DataValue_Id => Ret sizeof_DataValue
  | SOPC_Variant_Id => Ret sizeof_Variant
  | SOPC_DiagnosticInfo_Id => Ret sizeof_DiagnosticInfo
  | SOPC_Other_Id _ => Fault OutOfBounds
  end.

End Types.

Section Clearing.
Context `{Host} `{EncodeableTypes} `{KnownTypes}.

(** A function on a member, applied to a value of the union of the members. *)
Definition lift_clear {A} (proj : Builtin -> res A) (inj : A -> Builtin) (clear : A -> res A) (v : Builtin) : res Builtin :=
  let* a := proj v in
  let* a := clear a in
  Ret (inj a).

(** [SOPC_BuiltInType_HandlingTable[id].clear] *)
Definition builtin_clear (id : SOPC_BuiltinId) : Builtin -> res Builtin :=
  match id with
  | SOPC_Null_Id => fun v => Ret v
  | SOPC_Other_Id _ => fun _ => Fault OutOfBounds
  | SOPC_String_Id | SOPC_ByteString_Id | SOPC_XmlElement_Id => lift_clear (as_string id) (B_String id) clear_string
  | SOPC_Guid_Id => lift_clear as_Guid B_Guid clear_guid
  | SOPC_NodeId_Id => lift_clear as_NodeId B_NodeId clear_nodeid
  | SOPC_ExpandedNodeId_Id => lift_clear as_ExpNodeId B_ExpNodeId clear_expnodeid
  | SOPC_QualifiedName_Id => lift_clear as_Qname B_Qname clear_qname
  | SOPC_LocalizedText_Id => lift_clear as_LocalizedText B_LocalizedText clear_ltext
  | SOPC_ExtensionObject_Id => lift_clear as_ExtObject B_ExtObject clear_extobj
  | SOPC_DataValue_Id => lift_clear as_DataValue B_DataValue SOPC_DataValue_Clear'
  | SOPC_Variant_Id => lift_clear as_Variant B_Variant SOPC_Variant_Clear'
  | SOPC_DiagnosticInfo_Id => lift_clear as_DiagInfo B_DiagInfo clear_diag
  | SOPC_Boolean_Id | SOPC_SByte_Id | SOPC_Byte_Id | SOPC_Int16_Id | SOPC_UInt16_Id | SOPC_Int32_Id | SOPC_UInt32_Id
  | SOPC_Int64_Id | SOPC_UInt64_Id | SOPC_Float_Id | SOPC_Double_Id | SOPC_DateTime_Id | SOPC_StatusCode_Id =>
      lift_clear (as_number id) (B_Number id) clear_number
  end.

(** The types that a descriptor designates. *)
Definition field_id (desc : SOPC_EncodeableType_FieldDescriptor) : SOPC_BuiltinId := builtin_of (typeIndex desc).
Definition field_type (desc : SOPC_EncodeableType_FieldDescriptor) : nat := Z.to_nat (typeIndex desc).

Definition known (ty : nat) : res SOPC_EncodeableType :=
  match SOPC_KnownEncodeableTypes ty with Some t => Ret t | NULL => Fault OutOfBounds end.

Definition getAllocationSize (desc : SOPC_EncodeableType_FieldDescriptor) : res Z :=
  if isBuiltIn desc then builtin_size (field_id desc)
  else let* t := known (field_type desc) in Ret (Struct_AllocationSize t).

(** [assert(desc->isBuiltIn); assert(desc->typeIndex == SOPC_Int32_Id)] *)
Definition length_field (desc : SOPC_EncodeableType_FieldDescriptor) : bool :=
  isBuiltIn desc && (typeIndex desc =? builtin_value SOPC_Int32_Id).

(** ** Initialisation *)

(** [SOPC_Initialize_Array]: the length is 0 and the array a null pointer *)
Definition null_array (arrayDesc : SOPC_EncodeableType_FieldDescriptor) : FieldValue :=
  if isBuiltIn arrayDesc then FBuiltins NULL else FStructs NULL.

Definition zero_length : FieldValue := FBuiltin (B_Number SOPC_Int32_Id 0).

Fixpoint init_fields (nested : nat -> res StructObject) (descs : list SOPC_EncodeableType_FieldDescriptor) : res FieldList :=
  match descs with
  | [] => Ret FNil
  | desc :: descs =>
      if isArrayLength desc then
        assert! length_field desc in
        match descs with
        | [] => Fault AssertFailed
        | arrayDesc :: descs =>
            let* _ := getAllocationSize arrayDesc in
            let* fs := init_fields nested descs in
            Ret (FCons zero_length (FCons (null_array arrayDesc) fs))
        end
      else
        let* f := (if isBuiltIn desc then let* v := builtin_initialize (field_id desc) in Ret (FBuiltin v)
                   else let* o := nested (field_type desc) in Ret (FStruct o)) in
        let* fs := init_fields nested descs in
        Ret (FCons f fs)
  end.

Fixpoint Initialize_fuel (fuel : nat) (ty : nat) : res StructObject :=
  match fuel with
  | O => Fault OutOfFuel
  | S fuel =>
      let* t := known ty in
      let* fs := init_fields (Initialize_fuel fuel) (Fields t) in
      Ret (mkStruct ty fs)
  end.

(** The structure [*pValue] after the call. *)
Definition SOPC_EncodeableObject_Initialize (ty : nat) : res StructObject := Initialize_fuel value_depth ty.

(** ** Clearing *)

Definition as_length (f : FieldValue) : res Z :=
  match f with FBuiltin v => as_number SOPC_Int32_Id v | _ => Fault UnionPunning end.

Definition length_value (n : Z) : FieldValue := FBuiltin (B_Number SOPC_Int32_Id n).

Fixpoint struct_clear (ty : nat) (pValue : StructObject) {struct pValue} : res StructObject :=
  match pValue with
  | mkStruct e fs =>
      let* t := known ty in
      let* fs := clear_fields (Fields t) fs in
      Ret (mkStruct e fs)
  end
with clear_fields (descs : list SOPC_EncodeableType_FieldDescriptor) (fs : FieldList) {struct fs} : res FieldList :=
  match descs, fs with
  | [], _ => Ret fs
  | _ :: _, FNil => Fault OutOfBounds
  | desc :: descs, FCons f fs =>
      if isArrayLength desc then
        assert! length_field desc in
        match descs, fs with
        | [], _ => Fault AssertFailed
        | _ :: _, FNil => Fault OutOfBounds
        | arrayDesc :: descs, FCons arr fs =>
            let* n := as_length f in
            let* (n, arr) := clear_array arrayDesc n arr in
            let* fs := clear_fields descs fs in
            Ret (FCons (length_value n) (FCons arr fs))
        end
      else
        let* f := clear_field desc f in
        let* fs := clear_fields descs fs in
        Ret (FCons f fs)
  end
with clear_field (desc : SOPC_EncodeableType_FieldDescriptor) (f : FieldValue) {struct f} : res FieldValue :=
  match f with
  | FBuiltin v =>
      if isBuiltIn desc then let* v := builtin_clear (field_id desc) v in Ret (FBuiltin v) else Fault UnionPunning
  | FStruct o =>
      if isBuiltIn desc then Fault UnionPunning else let* o := struct_clear (field_type desc) o in Ret (FStruct o)
  | _ => Fault UnionPunning
  end
with clear_array (arrayDesc : SOPC_EncodeableType_FieldDescriptor) (n : Z) (arr : FieldValue) {struct arr} : res (Z * FieldValue) :=
  let* _ := getAllocationSize arrayDesc in
  match arr with
  | FBuiltins p =>
      if isBuiltIn arrayDesc
      then let* (n, p) := SOPC_Clear_Array (builtin_clear (field_id arrayDesc)) n p in Ret (n, FBuiltins p)
      else Fault UnionPunning
  | FStructs p =>
      if isBuiltIn arrayDesc then Fault UnionPunning
      else let* (n, p) := SOPC_Clear_Array (struct_clear (field_type arrayDesc)) n p in Ret (n, FStructs p)
  | _ => Fault UnionPunning
  end.

Definition SOPC_EncodeableObject_Clear (ty : nat) (pValue : ptr StructObject) : res (ptr StructObject) :=
  clear_ptr (struct_clear ty) pValue.

End Clearing.

(** ** Encoding and decoding *)

Section Coding.
Context `{Allocator} `{Host} `{EndiannessCfg} {cfg : SOPC_Common_EncodingConstants}.
Context `{EncodeableTypes} `{KnownTypes}.

Definition lift_encode {A} (proj : Builtin -> res A) (encode : encoder A) : encoder Builtin := fun p buf lvl =>
  let* v := deref p in
  let* a := proj v in
  encode (Some a) buf lvl.

Definition lift_decode {A} (proj : Builtin -> res A) (inj : A -> Builtin) (decode : decoder A) : decoder Builtin := fun p buf lvl =>
  let* v := deref p in
  let* a := proj v in
  let* (status, a, buf) := decode (Some a) buf lvl in
  let* a := deref a in
  Ret (status, Some (inj a), buf).

(** [SOPC_BuiltInType_EncodingTable[id].encode] *)
Definition builtin_encode (id : SOPC_BuiltinId) : encoder Builtin :=
  match id with
  | SOPC_Null_Id => fun _ _ _ => Fault NullDeref
  | SOPC_Boolean_Id => lift_encode (as_number id) SOPC_Boolean_Write
  | SOPC_SByte_Id => lift_encode (as_number id) SOPC_SByte_Write
  | SOPC_Byte_Id => lift_encode (as_number id) SOPC_Byte_Write
  | SOPC_Int16_Id => lift_encode (as_number id) SOPC_Int16_Write
  | SOPC_UInt16_Id => lift_encode (as_number id) SOPC_UInt16_Write
  | SOPC_Int32_Id => lift_encode (as_number id) SOPC_Int32_Write
  | SOPC_UInt32_Id => lift_encode (as_number id) SOPC_UInt32_Write
  | SOPC_Int64_Id => lift_encode (as_number id) SOPC_Int64_Write
  | SOPC_UInt64_Id => lift_encode (as_number id) SOPC_UInt64_Write
  | SOPC_Float_Id => lift_encode (as_number id) SOPC_Float_Write
  | SOPC_Double_Id => lift_encode (as_number id) SOPC_Double_Write
  | SOPC_String_Id => lift_encode (as_string id) SOPC_String_Write
  | SOPC_DateTime_Id => lift_encode (as_number id) SOPC_DateTime_Write
  | SOPC_Guid_Id => lift_encode as_Guid SOPC_Guid_Write
  | SOPC_ByteString_Id => lift_encode (as_string id) SOPC_ByteString_Write
  | SOPC_XmlElement_Id => lift_encode (as_string id) SOPC_XmlElement_Write
  | SOPC_NodeId_Id => lift_encode as_NodeId SOPC_NodeId_Write
  | SOPC_ExpandedNodeId_Id => lift_encode as_ExpNodeId SOPC_ExpandedNodeId_Write
  | SOPC_StatusCode_Id => lift_encode (as_number id) SOPC_StatusCode_Write
  | SOPC_QualifiedName_Id => lift_encode as_Qname SOPC_QualifiedName_Write
  | SOPC_LocalizedText_Id => lift_encode as_LocalizedText SOPC_LocalizedText_Write
  | SOPC_ExtensionObject_Id => lift_encode as_ExtObject SOPC_ExtensionObject_Write
  | SOPC_DataValue_Id => lift_encode as_DataValue SOPC_DataValue_Write
  | SOPC_Variant_Id => lift_encode as_Variant SOPC_Variant_Write
  | SOPC_DiagnosticInfo_Id => lift_encode as_DiagInfo SOPC_DiagnosticInfo_Write
  | SOPC_Other_Id _ => fun _ _ _ => Fault OutOfBounds
  end.

(** [SOPC_BuiltInType_EncodingTable[id].decode] *)
Definition builtin_decode (id : SOPC_BuiltinId) : decoder Builtin :=
  let number (decode : decoder Z) := lift_decode (as_number id) (B_Number id) decode in
  let string (decode : decoder SOPC_String) := lift_decode (as_string id) (B_String id) decode in
  match id with
  | SOPC_Null_Id => fun _ _ _ => Fault NullDeref
  | SOPC_Boolean_Id => number SOPC_Boolean_Read
  | SOPC_SByte_Id => number SOPC_SByte_Read
  | SOPC_Byte_Id => number SOPC_Byte_Read
  | SOPC_Int16_Id => number SOPC_Int16_Read
  | SOPC_UInt16_Id => number SOPC_UInt16_Read
  | SOPC_Int32_Id => number SOPC_Int32_Read
  | SOPC_UInt32_Id => number SOPC_UInt32_Read
  | SOPC_Int64_Id => number SOPC_Int64_Read
  | SOPC_UInt64_Id => number SOPC_UInt64_Read
  | SOPC_Float_Id => number SOPC_Float_Read
  | SOPC_Double_Id => number SOPC_Double_Read
  | SOPC_String_Id => string SOPC_String_Read
  | SOPC_DateTime_Id => number SOPC_DateTime_Read
  | SOPC_Guid_Id => lift_decode as_Guid B_Guid SOPC_Guid_Read
  | SOPC_ByteString_Id => string SOPC_ByteString_Read
  | SOPC_XmlElement_Id => string SOPC_XmlElement_Read
  | SOPC_NodeId_Id => lift_decode as_NodeId B_NodeId SOPC_NodeId_Read
  | SOPC_ExpandedNodeId_Id => lift_decode as_ExpNodeId B_ExpNodeId SOPC_ExpandedNodeId_Read
  | SOPC_StatusCode_Id => number SOPC_StatusCode_Read
  | SOPC_QualifiedName_Id => lift_decode as_Qname B_Qname SOPC_QualifiedName_Read
  | SOPC_LocalizedText_Id => lift_decode as_LocalizedText B_LocalizedText SOPC_LocalizedText_Read
  | SOPC_ExtensionObject_Id => lift_decode as_ExtObject B_ExtObject SOPC_ExtensionObject_Read
  | SOPC_DataValue_Id => lift_decode as_DataValue B_DataValue SOPC_DataValue_Read
  | SOPC_Variant_Id => lift_decode as_Variant B_Variant SOPC_Variant_Read
  | SOPC_DiagnosticInfo_Id => lift_decode as_DiagInfo B_DiagInfo SOPC_DiagnosticInfo_Read
  | SOPC_Other_Id _ => fun _ _ _ => Fault OutOfBounds
  end.

(** *** The loops over the fields *)

Section Loops.
(** The encoder and the decoder of the nested structures. *)
Variable encode_nested : nat -> encoder StructObject.
Variable decode_nested : nat -> decoder StructObject.

(** [getPfnEncode(desc)], applied to a field *)
Definition encode_field (desc : SOPC_EncodeableType_FieldDescriptor) (f : FieldValue) (buf : ptr SOPC_Buffer) (lvl : Z) : enc_result :=
  match f with
  | FBuiltin v => if isBuiltIn desc then builtin_encode (field_id desc) (Some v) buf lvl else Fault UnionPunning
  | FStruct o => if isBuiltIn desc then Fault UnionPunning else encode_nested (field_type desc) (Some o) buf lvl
  | _ => Fault UnionPunning
  end.

Definition encode_array (arrayDesc : SOPC_EncodeableType_FieldDescriptor) (n : Z) (arr : FieldValue) (buf : ptr SOPC_Buffer)
    (lvl : Z) : enc_result :=
  let* _ := getAllocationSize arrayDesc in
  match arr with
  | FBuiltins p =>
      if isBuiltIn arrayDesc then SOPC_Write_Array buf n p (builtin_encode (field_id arrayDesc)) lvl else Fault UnionPunning
  | FStructs p =>
      if isBuiltIn arrayDesc then Fault UnionPunning else SOPC_Write_Array buf n p (encode_nested (field_type arrayDesc)) lvl
  | _ => Fault UnionPunning
  end.

Fixpoint encode_fields (descs : list SOPC_EncodeableType_FieldDescriptor) (fs : FieldList) (buf : ptr SOPC_Buffer) (lvl : Z)
    : enc_result :=
  match descs, fs with
  | [], _ => Ret (SOPC_STATUS_OK, buf)
  | _ :: _, FNil => Fault OutOfBounds
  | desc :: descs, FCons f fs =>
      if negb (isToEncode desc) then encode_fields descs fs buf lvl
      else if isArrayLength desc then
        assert! length_field desc in
        match descs, fs with
        | [], _ => Fault AssertFailed
        | _ :: _, FNil => Fault OutOfBounds
        | arrayDesc :: descs, FCons arr fs =>
            let* n := as_length f in
            let_ok buf := encode_array arrayDesc n arr buf lvl in
            encode_fields descs fs buf lvl
        end
      else
        let_ok buf := encode_field desc f buf lvl in
        encode_fields descs fs buf lvl
  end.

Definition struct_encode (ty : nat) : encoder StructObject := fun pValue buf nestedStructLevel =>
  let* t := known ty in
  match pValue with
  | NULL => Ret (SOPC_STATUS_INVALID_PARAMETERS, buf)
  | Some (mkStruct e fs) =>
      if is_null buf || negb (e =? ty)%nat then Ret (SOPC_STATUS_INVALID_PARAMETERS, buf)
      else if max_nested_struct cfg <=? nestedStructLevel then Ret (SOPC_STATUS_INVALID_STATE, buf)
      else encode_fields (Fields t) fs buf (nestedStructLevel + 1)
  end.

(** [getPfnDecode(desc)], applied to a field.  Returns the status, the field and the
    buffer. *)
Definition decode_field (desc : SOPC_EncodeableType_FieldDescriptor) (f : FieldValue) (buf : ptr SOPC_Buffer) (lvl : Z)
    : res (SOPC_ReturnStatus * FieldValue * ptr SOPC_Buffer) :=
  match f with
  | FBuiltin v =>
      if isBuiltIn desc then
        let* (status, v, buf) := builtin_decode (field_id desc) (Some v) buf lvl in
        let* v := deref v in
        Ret (status, FBuiltin v, buf)
      else Fault UnionPunning
  | FStruct o =>
      if isBuiltIn desc then Fault UnionPunning
      else
        let* (status, o, buf) := decode_nested (field_type desc) (Some o) buf lvl in
        let* o := deref o in
        Ret (status, FStruct o, buf)
  | _ => Fault UnionPunning
  end.

(** Returns the status, the length, the array and the buffer. *)
Definition decode_array (arrayDesc : SOPC_EncodeableType_FieldDescriptor) (n : Z) (arr : FieldValue) (buf : ptr SOPC_Buffer)
    (lvl : Z) : res (SOPC_ReturnStatus * Z * FieldValue * ptr SOPC_Buffer) :=
  let* size := getAllocationSize arrayDesc in
  match arr with
  | FBuiltins p =>
      if isBuiltIn arrayDesc then
        let* init := builtin_initialize (field_id arrayDesc) in
        let* (status, n, p, buf) :=
          SOPC_Read_Array buf n p size (builtin_decode (field_id arrayDesc)) init (builtin_clear (field_id arrayDesc)) lvl in
        Ret (status, n, FBuiltins p, buf)
      else Fault UnionPunning
  | FStructs p =>
      if isBuiltIn arrayDesc then Fault UnionPunning
      else
        let* init := SOPC_EncodeableObject_Initialize (field_type arrayDesc) in
        let* (status, n, p, buf) :=
          SOPC_Read_Array buf n p size (decode_nested (field_type arrayDesc)) init (struct_clear (field_type arrayDesc)) lvl in
        Ret (status, n, FStructs p, buf)
  | _ => Fault UnionPunning
  end.

(** After a failure, the fields that follow are as they were. *)
Fixpoint decode_fields (descs : list SOPC_EncodeableType_FieldDescriptor) (fs : FieldList) (buf : ptr SOPC_Buffer) (lvl : Z)
    : res (SOPC_ReturnStatus * FieldList * ptr SOPC_Buffer) :=
  match descs, fs with
  | [], _ => Ret (SOPC_STATUS_OK, fs, buf)
  | _ :: _, FNil => Fault OutOfBounds
  | desc :: descs, FCons f fs =>
      if negb (isToEncode desc) then
        let* (status, fs, buf) := decode_fields descs fs buf lvl in
        Ret (status, FCons f fs, buf)
      else if isArrayLength desc then
        assert! length_field desc in
        match descs, fs with
        | [], _ => Fault AssertFailed
        | _ :: _, FNil => Fault OutOfBounds
        | arrayDesc :: descs, FCons arr fs =>
            let* n := as_length f in
            let* (status, n, arr, buf) := decode_array arrayDesc n arr buf lvl in
            let* (status, fs, buf) := (if is_ok status then decode_fields descs fs buf lvl else Ret (status, fs, buf)) in
            Ret (status, FCons (length_value n) (FCons arr fs), buf)
        end
      else
        let* (status, f, buf) := decode_field desc f buf lvl in
        let* (status, fs, buf) := (if is_ok status then decode_fields descs fs buf lvl else Ret (status, fs, buf)) in
        Ret (status, FCons f fs, buf)
  end.

(** The parameters are refused only when all of them are null: the initialisation
    asserts that there is a value. *)
Definition struct_decode (ty : nat) : decoder StructObject := fun pValue buf nestedStructLevel =>
  let* t := known ty in
  if max_nested_struct cfg <=? nestedStructLevel then Ret (SOPC_STATUS_INVALID_STATE, pValue, buf)
  else
    match pValue with
    | NULL => Fault AssertFailed
    | Some _ =>
        let* o := SOPC_EncodeableObject_Initialize ty in
        let '(mkStruct e fs) := o in
        let* (status, fs, buf) := decode_fields (Fields t) fs buf (nestedStructLevel + 1) in
        if is_ok status then Ret (status, Some (mkStruct e fs), buf)
        else
          let* o := struct_clear ty (mkStruct e fs) in
          Ret (status, Some o, buf)
    end.

End Loops.

(** *** The functions

    A nested structure is coded at a greater level: the fuel is the number of levels
    that are left. *)

Fixpoint Encode_fuel (fuel : nat) (ty : nat) : encoder StructObject :=
  match fuel with
  | O => fun _ _ _ => Fault OutOfFuel
  | S fuel => struct_encode (Encode_fuel fuel) ty
  end.

Fixpoint Decode_fuel (fuel : nat) (ty : nat) : decoder StructObject :=
  match fuel with
  | O => fun _ _ _ => Fault OutOfFuel
  | S fuel => struct_decode (Decode_fuel fuel) ty
  end.

Definition SOPC_EncodeableObject_Encode (ty : nat) : encoder StructObject := fun pValue buf nestedStructLevel =>
  Encode_fuel (nesting_fuel nestedStructLevel) ty pValue buf nestedStructLevel.

Definition SOPC_EncodeableObject_Decode (ty : nat) : decoder StructObject := fun pValue buf nestedStructLevel =>
  Decode_fuel (nesting_fuel nestedStructLevel) ty pValue buf nestedStructLevel.

End Coding.
