(* ===== verification/EncStructSpec.v ===== *)
(** * Specification of the structures

    The encoding of a structure is the sequence of the encodings of its fields.  The
    generic functions of [EncStruct.v] honour a contract, provided that the
    descriptors are as [sopc_encodeabletype.h] describes them. *)

From Stdlib Require Import ZArith Lia.
From Stdlib Require Import Strings.Byte.
From stdpp Require Import prelude.
From S2P Require Import Prelude Common Buffer Codec EncScalar EncString EncNodeId EncText EncArray EncExtObj EncVariant EncVariantSpec.
From S2P Require Import EncStruct.

Open Scope Z_scope.

(** ** Built-in fields *)

Section Builtins.
Context `{Allocator} `{Host} `{EndiannessCfg} {cfg : SOPC_Common_EncodingConstants}.
Context `{!EndiannessDetected} `{EncodeableTypes} `{!EncodeableLaws} `{!VariantLimits}.

(** The contract of a member, for the values of the union. *)
Definition lift_contract {A} (proj : Builtin -> res A) (inj : A -> Builtin) (c : contract A) : contract Builtin :=
  mkContract
    (fun v => match proj v with Ret a => c_wire c a | Fault _ => [] end)
    (fun v lvl => match proj v with Ret a => c_nests c a lvl | Fault _ => False end)
    (fun v => match proj v with Ret a => c_wf c a | Fault _ => False end)
    (fun v => match proj v with Ret a => c_limits c a | Fault _ => False end)
    (fun v => match proj v with Ret a => inj (c_canon c a) | Fault _ => v end)
    (inj (c_init c))
    (fun v => match proj v with Ret a => c_sane c a | Fault _ => False end).

Lemma lift_honours {A} (proj : Builtin -> res A) inj (c : contract A) wr rd lvl :
  (forall a, proj (inj a) = Ret a) -> honours c wr rd lvl ->
  honours (lift_contract proj inj c) (lift_encode proj wr) (lift_decode proj inj rd) lvl.
Proof.
  intros P Hh. split; unfold c_accepted; cbn [lift_contract c_wf c_wire c_nests c_limits c_canon c_init c_sane].
  - intros v b W I S. unfold lift_encode. cbn [deref rbind]. destruct (proj v); [|done]. cbn [rbind]. by apply (h_write _ _ _ _ Hh).
  - intros v b rest W L I S U N HA. unfold lift_decode. cbn [deref rbind]. rewrite P. cbn [rbind].
    destruct (proj v) as [a|]; [|done]. by rewrite (h_read _ _ _ _ Hh a b rest).
  - intros b I S. unfold lift_decode. cbn [deref rbind]. rewrite P. cbn [rbind].
    destruct (h_safe _ _ _ _ Hh b I S) as (st & a & n & -> & Hn & Sa & G). cbn [rbind deref].
    exists st, (inj a), n. rewrite P. split_and!; try done; apply G || lia.
  - intros v. destruct (proj v) as [a|]; [|intuition]. by apply (h_sane _ _ _ _ Hh).
Qed.

Definition builtin_contract (id : SOPC_BuiltinId) : contract Builtin :=
  match id with
  | SOPC_String_Id | SOPC_ByteString_Id | SOPC_XmlElement_Id =>
      lift_contract (as_string id) (B_String id) (string_contract id string_init)
  | SOPC_NodeId_Id => lift_contract as_NodeId B_NodeId nodeid_contract
  | SOPC_ExpandedNodeId_Id => lift_contract as_ExpNodeId B_ExpNodeId expnodeid_contract
  | SOPC_QualifiedName_Id => lift_contract as_Qname B_Qname qname_contract
  | SOPC_LocalizedText_Id => lift_contract as_LocalizedText B_LocalizedText ltext_contract
  | SOPC_ExtensionObject_Id => lift_contract as_ExtObject B_ExtObject extobj_contract
  | SOPC_DataValue_Id => lift_contract as_DataValue B_DataValue datavalue_contract
  | SOPC_Variant_Id => lift_contract as_Variant B_Variant variant_contract
  | SOPC_DiagnosticInfo_Id => lift_contract as_DiagInfo B_DiagInfo diag_contract
  | SOPC_Guid_Id => lift_contract as_Guid B_Guid guid_contract
  | _ => lift_contract (as_number id) (B_Number id) (number_contract id)
  end.

Lemma as_number_inj id a : as_number id (B_Number id a) = Ret a.
Proof. simpl. by rewrite decide_True. Qed.

Lemma as_string_inj id a : as_string id (B_String id a) = Ret a.
Proof. simpl. by rewrite decide_True. Qed.

Lemma variant_codec_honours lvl : honours variant_contract SOPC_Variant_Write SOPC_Variant_Read lvl.
Proof.
  split; cbn [variant_contract c_wf c_wire c_nests c_limits c_canon c_init c_sane].
  - intros v b W I S. pose proof (codec_write (wr := SOPC_Variant_Write) v b lvl W I S) as P. exact P.
  - intros. by apply (h_read _ _ _ _ (variant_honours lvl) v b rest).
  - intros. by apply (h_safe _ _ _ _ (variant_honours lvl)).
  - intros. by apply (h_sane _ _ _ _ (variant_honours lvl)).
Qed.

Lemma builtin_honours id lvl : is_array_id id = true ->
  honours (builtin_contract id) (builtin_encode id) (builtin_decode id) lvl.
Proof.
  intros E. destruct id; try discriminate;
    first [ apply (lift_honours _ _ _ _ _ _ (as_number_inj _)); match goal with |- honours (number_contract ?i) _ _ _ => apply (number_honours i) end
          | apply (lift_honours _ _ _ _ _ _ (as_string_inj _));
            match goal with |- honours (string_contract ?i _) _ _ _ => apply (string_honours i string_init lvl string_init_inited) end
          | apply lift_honours; [done|] ].
  - apply guid_honours.
  - apply nodeid_honours.
  - apply expnodeid_honours.
  - apply qname_honours.
  - apply ltext_honours.
  - apply extobj_honours.
  - apply datavalue_honours.
  - apply variant_codec_honours.
  - apply diag_honours.
Qed.

Lemma builtin_initialize_ok id : is_array_id id = true -> builtin_initialize id = Ret (c_init (builtin_contract id)).
Proof. by destruct id. Qed.

(** A clear function leaves a value that can be cleared again. *)
Definition clears {A} (c : contract A) (clear : A -> res A) : Prop :=
  forall v, c_sane c v -> exists v', clear v = Ret v' /\ c_sane c v'.

Lemma lift_clears {A} (proj : Builtin -> res A) inj (c : contract A) clear :
  (forall a, proj (inj a) = Ret a) -> clears c clear -> clears (lift_contract proj inj c) (lift_clear proj inj clear).
Proof.
  intros P Hc v Sv. cbn [lift_contract c_sane] in *. unfold lift_clear. destruct (proj v) as [a|]; [|done]. cbn [rbind].
  destruct (Hc a Sv) as (a' & -> & Sa). exists (inj a'). by rewrite P.
Qed.

Lemma nodeid_clears : clears nodeid_contract clear_nodeid.
Proof. intros v [n E]. unfold clear_nodeid. rewrite E. exists n. split; [done|]. by eapply nodeid_clear_sane. Qed.

Lemma expnodeid_clears : clears expnodeid_contract clear_expnodeid.
Proof.
  intros v [n E]. unfold clear_expnodeid, SOPC_ExpandedNodeId_Clear. rewrite E. eexists. split; [done|]. by eapply nodeid_clear_sane.
Qed.

Lemma extobj_clears : clears extobj_contract clear_extobj.
Proof.
  intros v [e E]. unfold clear_extobj. rewrite E. exists e. split; [done|]. revert E. cbn [c_sane extobj_contract of_codec sane ExtensionObject_codec].
  unfold ext_sane, SOPC_ExtensionObject_Clear, SOPC_ExpandedNodeId_Clear. destruct v as [[n uri srv] enc body len]. cbn [TypeId NodeId NamespaceUri Encoding Body].
  destruct (SOPC_NodeId_Clear (Some n)) as [[n'|]|] eqn:En; try done. cbn [deref rbind].
  destruct (nodeid_clear_sane _ _ En) as [n2 En2].
  destruct (deref (SOPC_String_Clear (Some uri))) as [u|]; [|done]. cbn [deref rbind].
  intros E. apply rbind_Ret_inv in E as (body' & Eb & E). simplify_eq. cbn [TypeId NodeId NamespaceUri Encoding Body]. rewrite En2. cbn [deref rbind].
  destruct enc.
  - by eexists.
  - apply rbind_Ret_inv in Eb as (s & _ & Eb). apply rbind_Ret_inv in Eb as (s' & _ & Eb). simplify_eq. by eexists.
  - apply rbind_Ret_inv in Eb as (s & _ & Eb). apply rbind_Ret_inv in Eb as (s' & _ & Eb). simplify_eq. by eexists.
  - destruct (body_Object body) as [[[o|] t]|] eqn:Eo; [| |done]; cbn [rbind] in Eb.
    + destruct (deref t) as [t'|] eqn:Et; [|done]. cbn [rbind] in Eb. destruct (Object_Clear t' o); [|done]. cbn [rbind] in Eb. simplify_eq. by eexists.
    + simplify_eq. rewrite Eo. by eexists.
Qed.

Lemma variant_clears : clears variant_contract SOPC_Variant_Clear'.
Proof.
  intros v [v' E]. exists v'. split; [done|]. destruct (Variant_Clear_result v v' E) as [-> | ->]; [by eexists|by exists v].
Qed.

Lemma datavalue_clears : clears datavalue_contract SOPC_DataValue_Clear'.
Proof.
  intros d [d' E]. exists d'. split; [done|]. destruct d as [v st t1 t2 p1 p2].
  change ((let* w := SOPC_Variant_Clear' v in Ret (mkDataValue w 0 0 0 0 0)) = Ret d') in E.
  destruct (SOPC_Variant_Clear' v) as [w|] eqn:Ev; [|done]. simpl in E. simplify_eq.
  assert (exists w', SOPC_Variant_Clear' w = Ret w') as [w' Ew] by (destruct (Variant_Clear_result v w Ev) as [-> | ->]; [by eexists|by exists v]).
  exists (mkDataValue w' 0 0 0 0 0).
  change ((let* x := SOPC_Variant_Clear' w in Ret (mkDataValue x 0 0 0 0 0)) = Ret (mkDataValue w' 0 0 0 0 0)). by rewrite Ew.
Qed.

Lemma builtin_clears id : is_array_id id = true -> clears (builtin_contract id) (builtin_clear id).
Proof.
  intros E. destruct id; try discriminate;
    first [ apply (lift_clears _ _ _ _ (as_number_inj _)); by intros v _; eexists
          | apply (lift_clears _ _ _ _ (as_string_inj _)); by intros v _; eexists
          | apply lift_clears; [done|] ].
  - by intros v _; eexists.
  - apply nodeid_clears.
  - apply expnodeid_clears.
  - by intros v _; eexists.
  - by intros v _; eexists.
  - apply extobj_clears.
  - apply datavalue_clears.
  - apply variant_clears.
  - by intros v _; eexists.
Qed.

Lemma builtin_size_ok id : is_array_id id = true -> exists n, builtin_size id = Ret n.
Proof. intros E. destruct id; try discriminate; by eexists. Qed.

End Builtins.

(** ** Well-formed tables *)

Section Descriptors.
Context `{KnownTypes} (type_rank : nat -> nat).

Definition element_ok (desc : SOPC_EncodeableType_FieldDescriptor) : Prop :=
  if isBuiltIn desc then is_array_id (field_id desc) = true else is_Some (SOPC_KnownEncodeableTypes (field_type desc)).

Inductive descs_wf (rank : nat) : list SOPC_EncodeableType_FieldDescriptor -> Prop :=
| descs_nil : descs_wf rank []
| descs_array d a ds : isArrayLength d = true -> isToEncode d = true -> length_field d = true -> element_ok a ->
    descs_wf rank ds -> descs_wf rank (d :: a :: ds)
| descs_field d ds : isArrayLength d = false -> element_ok d -> (isBuiltIn d = false -> (type_rank (field_type d) < rank)%nat) ->
    descs_wf rank ds -> descs_wf rank (d :: ds).

End Descriptors.

(** What the comments of [sopc_encodeabletype.h] say of the descriptors, and what the
    compiler guarantees: the length of an array is an Int32 and precedes the array;
    the types are known; a structure is not nested by value in itself.  The fields
    that are not encoded (the headers of the messages) are not arrays. *)
Class TypesLaws `{KnownTypes} := {
  type_rank : nat -> nat;
  rank_bound : forall ty, (type_rank ty < value_depth)%nat;
  types_wf : forall ty t, SOPC_KnownEncodeableTypes ty = Some t -> descs_wf type_rank (type_rank ty) (Fields t)
}.

Section Structs.
Context `{Allocator} `{Host} `{EndiannessCfg} {cfg : SOPC_Common_EncodingConstants}.
Context `{!EndiannessDetected} `{EncodeableTypes} `{!EncodeableLaws} `{!VariantLimits}.
Context `{KnownTypes} `{!TypesLaws}.

Definition field_contract (d : SOPC_EncodeableType_FieldDescriptor) : contract Builtin := builtin_contract (field_id d).

(** *** Initial values *)

Definition init_of (ty : nat) : StructObject :=
  match SOPC_EncodeableObject_Initialize ty with Ret o => o | Fault _ => mkStruct ty FNil end.

Definition init_field (d : SOPC_EncodeableType_FieldDescriptor) : FieldValue :=
  if isBuiltIn d then FBuiltin (c_init (field_contract d)) else FStruct (init_of (field_type d)).

Fixpoint init_list (descs : list SOPC_EncodeableType_FieldDescriptor) : FieldList :=
  match descs with
  | [] => FNil
  | d :: ds =>
      if isArrayLength d then
        match ds with
        | [] => FNil
        | a :: ds => FCons zero_length (FCons (null_array a) (init_list ds))
        end
      else FCons (init_field d) (init_list ds)
  end.

Lemma element_size a : element_ok a -> exists n, getAllocationSize a = Ret n.
Proof.
  unfold element_ok, getAllocationSize, known. destruct (isBuiltIn a); intros E; [by apply builtin_size_ok|].
  destruct E as [t ->]. by eexists.
Qed.

Lemma Initialize_fuel_stable n : forall m ty, (type_rank ty < n)%nat -> (n <= m)%nat -> is_Some (SOPC_KnownEncodeableTypes ty) ->
  exists o, Initialize_fuel n ty = Ret o /\ Initialize_fuel m ty = Ret o.
Proof.
  induction n as [|n IH]; intros m ty R L [t Et]; [lia|]. destruct m as [|m]; [lia|]. cbn [Initialize_fuel]. unfold known. rewrite Et. cbn [rbind].
  assert (exists fs, init_fields (Initialize_fuel n) (Fields t) = Ret fs /\ init_fields (Initialize_fuel m) (Fields t) = Ret fs) as (fs & -> & ->);
    [|by eexists].
  pose proof (types_wf ty t Et) as W. revert R. generalize (type_rank ty) W. clear W. intros r W R.
  induction W as [|d a ds Ha _ Hl Ea _ (fs & E1 & E2)|d ds Ha Ed Hr _ (fs & E1 & E2)]; cbn [init_fields]; [by eexists|..]; rewrite Ha.
  - rewrite Hl. destruct (element_size a Ea) as [k ->]. cbn [rbind]. rewrite E1, E2. by eexists.
  - rewrite E1, E2. unfold element_ok in Ed. destruct (isBuiltIn d).
    + rewrite (builtin_initialize_ok _ Ed). by eexists.
    + specialize (Hr eq_refl). destruct (IH m (field_type d)) as (o & -> & ->); [lia|lia|done|]. by eexists.
Qed.

Lemma Initialize_ok ty : is_Some (SOPC_KnownEncodeableTypes ty) -> SOPC_EncodeableObject_Initialize ty = Ret (init_of ty).
Proof.
  intros K. destruct (Initialize_fuel_stable value_depth value_depth ty (rank_bound ty) ltac:(lia) K) as (o & E & _).
  unfold init_of, SOPC_EncodeableObject_Initialize. by rewrite E.
Qed.

Lemma init_of_eq ty t : SOPC_KnownEncodeableTypes ty = Some t -> init_of ty = mkStruct ty (init_list (Fields t)).
Proof.
  intros Et. pose proof (rank_bound ty) as B. pose proof (types_wf ty t Et) as W.
  assert (SOPC_EncodeableObject_Initialize ty = Ret (init_of ty)) as E by (by apply Initialize_ok; eexists).
  unfold SOPC_EncodeableObject_Initialize in E. destruct value_depth as [|n] eqn:Ev; [lia|]. cbn [Initialize_fuel] in E. unfold known in E.
  rewrite Et in E. cbn [rbind] in E.
  assert (init_fields (Initialize_fuel n) (Fields t) = Ret (init_list (Fields t))) as X; [|rewrite X in E; cbn [rbind] in E; congruence].
  clear E. generalize (type_rank ty) B W. clear B W. intros r B W.
  induction W as [|d a ds Ha _ Hl Ea _ E|d ds Ha Ed Hr _ E]; cbn [init_fields init_list]; [done|..]; rewrite Ha.
  - rewrite Hl. destruct (element_size a Ea) as [k ->]. cbn [rbind]. by rewrite E.
  - rewrite E. unfold init_field, element_ok in *. destruct (isBuiltIn d).
    + by rewrite (builtin_initialize_ok _ Ed).
    + specialize (Hr eq_refl).
      destruct (Initialize_fuel_stable n value_depth (field_type d)) as (o & E1 & E2); [lia|lia|done|].
      rewrite E1. unfold init_of, SOPC_EncodeableObject_Initialize. rewrite E2. done.
Qed.

(** *** Encodings *)

Definition items {A} (p : ptr (list A)) : list A := default [] p.

Fixpoint struct_wire (ty : nat) (o : StructObject) {struct o} : block :=
  match o with
  | mkStruct _ fs => match SOPC_KnownEncodeableTypes ty with Some t => fields_wire (Fields t) fs | NULL => [] end
  end
with fields_wire (descs : list SOPC_EncodeableType_FieldDescriptor) (fs : FieldList) {struct fs} : block :=
  match descs, fs with
  | d :: ds, FCons f fs =>
      if isArrayLength d then
        match ds, fs with
        | a :: ds, FCons arr fs => array_wire a arr ++ fields_wire ds fs
        | _, _ => []
        end
      else (if isToEncode d then field_wire d f else []) ++ fields_wire ds fs
  | _, _ => []
  end
with field_wire (d : SOPC_EncodeableType_FieldDescriptor) (f : FieldValue) {struct f} : block :=
  match f with
  | FBuiltin v => c_wire (field_contract d) v
  | FStruct o => struct_wire (field_type d) o
  | _ => []
  end
with array_wire (a : SOPC_EncodeableType_FieldDescriptor) (arr : FieldValue) {struct arr} : block :=
  match arr with
  | FBuiltins p => le_bytes 4 (zlen (items p)) ++ flat_map (c_wire (field_contract a)) (items p)
  | FStructs (Some l) => le_bytes 4 (zlen l) ++ flat_map (struct_wire (field_type a)) l
  | FStructs NULL => le_bytes 4 0
  | _ => []
  end.

(** *** Memory that can be cleared *)

Fixpoint struct_sane (ty : nat) (o : StructObject) {struct o} : Prop :=
  match o with
  | mkStruct _ fs => match SOPC_KnownEncodeableTypes ty with Some t => fields_sane (Fields t) fs | NULL => False end
  end
with fields_sane (descs : list SOPC_EncodeableType_FieldDescriptor) (fs : FieldList) {struct fs} : Prop :=
  match descs, fs with
  | d :: ds, FCons f fs =>
      if isArrayLength d then
        match ds, fs with
        | a :: ds, FCons arr fs => (exists n, f = length_value n /\ array_sane a n arr) /\ fields_sane ds fs
        | _, _ => False
        end
      else field_sane d f /\ fields_sane ds fs
  | [], FNil => True
  | _, _ => False
  end
with field_sane (d : SOPC_EncodeableType_FieldDescriptor) (f : FieldValue) {struct f} : Prop :=
  match f with
  | FBuiltin v => isBuiltIn d = true /\ c_sane (field_contract d) v
  | FStruct o => isBuiltIn d = false /\ struct_sane (field_type d) o
  | _ => False
  end
with array_sane (a : SOPC_EncodeableType_FieldDescriptor) (n : Z) (arr : FieldValue) {struct arr} : Prop :=
  match arr with
  | FBuiltins p => isBuiltIn a = true /\ match p with Some l => n = zlen l /\ All (c_sane (field_contract a)) l | NULL => True end
  | FStructs p => isBuiltIn a = false /\ match p with Some l => n = zlen l /\ All (struct_sane (field_type a)) l | NULL => True end
  | _ => False
  end.

(** *** Well-formed structures *)

Fixpoint struct_wf (ty : nat) (o : StructObject) {struct o} : Prop :=
  match o with
  | mkStruct e fs => e = ty /\ match SOPC_KnownEncodeableTypes ty with Some t => fields_wf (Fields t) fs | NULL => False end
  end
with fields_wf (descs : list SOPC_EncodeableType_FieldDescriptor) (fs : FieldList) {struct fs} : Prop :=
  match descs, fs with
  | d :: ds, FCons f fs =>
      if isArrayLength d then
        match ds, fs with
        | a :: ds, FCons arr fs => array_wf a f arr /\ fields_wf ds fs
        | _, _ => False
        end
      else (if isToEncode d then field_wf d f else field_sane d f) /\ fields_wf ds fs
  | [], FNil => True
  | _, _ => False
  end
with field_wf (d : SOPC_EncodeableType_FieldDescriptor) (f : FieldValue) {struct f} : Prop :=
  match f with
  | FBuiltin v => isBuiltIn d = true /\ c_wf (field_contract d) v
  | FStruct o => isBuiltIn d = false /\ struct_wf (field_type d) o
  | _ => False
  end
with array_wf (a : SOPC_EncodeableType_FieldDescriptor) (f arr : FieldValue) {struct arr} : Prop :=
  match arr with
  | FBuiltins p => isBuiltIn a = true /\ f = length_value (zlen (items p)) /\ zlen (items p) < 2 ^ 31 /\ All (c_wf (field_contract a)) (items p)
  | FStructs p => isBuiltIn a = false /\ f = length_value (zlen (items p)) /\ zlen (items p) < 2 ^ 31 /\
      match p with Some l => All (struct_wf (field_type a)) l | NULL => True end
  | _ => False
  end.

(** *** Limits of the decoders

    Lengths, and no extension object with a byte string body ([ext_readable]). *)

Fixpoint struct_limits (ty : nat) (o : StructObject) {struct o} : Prop :=
  match o with
  | mkStruct _ fs => match SOPC_KnownEncodeableTypes ty with Some t => fields_limits (Fields t) fs | NULL => True end
  end
with fields_limits (descs : list SOPC_EncodeableType_FieldDescriptor) (fs : FieldList) {struct fs} : Prop :=
  match descs, fs with
  | d :: ds, FCons f fs =>
      if isArrayLength d then
        match ds, fs with
        | a :: ds, FCons arr fs => array_limits a arr /\ fields_limits ds fs
        | _, _ => True
        end
      else (isToEncode d = true -> field_limits d f) /\ fields_limits ds fs
  | _, _ => True
  end
with field_limits (d : SOPC_EncodeableType_FieldDescriptor) (f : FieldValue) {struct f} : Prop :=
  match f with
  | FBuiltin v => c_limits (field_contract d) v
  | FStruct o => struct_limits (field_type d) o
  | _ => True
  end
with array_limits (a : SOPC_EncodeableType_FieldDescriptor) (arr : FieldValue) {struct arr} : Prop :=
  match arr with
  | FBuiltins p => zlen (items p) <= max_array_length cfg /\ All (c_limits (field_contract a)) (items p)
  | FStructs p => zlen (items p) <= max_array_length cfg /\ match p with Some l => All (struct_limits (field_type a)) l | NULL => True end
  | _ => True
  end.

(** *** Levels of nesting *)

Fixpoint struct_nests (ty : nat) (o : StructObject) (lvl : Z) {struct o} : Prop :=
  match o with
  | mkStruct _ fs =>
      lvl + 1 <= max_nested_struct cfg /\
      match SOPC_KnownEncodeableTypes ty with Some t => fields_nests (Fields t) fs (lvl + 1) | NULL => True end
  end
with fields_nests (descs : list SOPC_EncodeableType_FieldDescriptor) (fs : FieldList) (lvl : Z) {struct fs} : Prop :=
  match descs, fs with
  | d :: ds, FCons f fs =>
      if isArrayLength d then
        match ds, fs with
        | a :: ds, FCons arr fs => array_nests a arr lvl /\ fields_nests ds fs lvl
        | _, _ => True
        end
      else (isToEncode d = true -> field_nests d f lvl) /\ fields_nests ds fs lvl
  | _, _ => True
  end
with field_nests (d : SOPC_EncodeableType_FieldDescriptor) (f : FieldValue) (lvl : Z) {struct f} : Prop :=
  match f with
  | FBuiltin v => c_nests (field_contract d) v lvl
  | FStruct o => struct_nests (field_type d) o lvl
  | _ => True
  end
with array_nests (a : SOPC_EncodeableType_FieldDescriptor) (arr : FieldValue) (lvl : Z) {struct arr} : Prop :=
  match arr with
  | FBuiltins p => lvl + 2 <= max_nested_struct cfg /\ All (fun v => c_nests (field_contract a) v (lvl + 1)) (items p)
  | FStructs p => lvl + 2 <= max_nested_struct cfg /\
      match p with Some l => All (fun o => struct_nests (field_type a) o (lvl + 1)) l | NULL => True end
  | _ => True
  end.

(** *** Canonical structures *)

Fixpoint struct_canon (ty : nat) (o : StructObject) {struct o} : StructObject :=
  match o with
  | mkStruct e fs => mkStruct e match SOPC_KnownEncodeableTypes ty with Some t => fields_canon (Fields t) fs | NULL => fs end
  end
with fields_canon (descs : list SOPC_EncodeableType_FieldDescriptor) (fs : FieldList) {struct fs} : FieldList :=
  match descs, fs with
  | d :: ds, FCons f fs =>
      if isArrayLength d then
        match ds, fs with
        | a :: ds, FCons arr fs => FCons f (FCons (array_canon a arr) (fields_canon ds fs))
        | _, _ => FCons f fs
        end
      else FCons (if isToEncode d then field_canon d f else init_field d) (fields_canon ds fs)
  | _, _ => fs
  end
with field_canon (d : SOPC_EncodeableType_FieldDescriptor) (f : FieldValue) {struct f} : FieldValue :=
  match f with
  | FBuiltin v => FBuiltin (c_canon (field_contract d) v)
  | FStruct o => FStruct (struct_canon (field_type d) o)
  | f => f
  end
with array_canon (a : SOPC_EncodeableType_FieldDescriptor) (arr : FieldValue) {struct arr} : FieldValue :=
  match arr with
  | FBuiltins p => FBuiltins (array_ptr (map (c_canon (field_contract a)) (items p)))
  | FStructs (Some l) => FStructs (array_ptr (map (struct_canon (field_type a)) l))
  | f => f
  end.

Definition struct_contract (ty : nat) : contract StructObject :=
  mkContract (struct_wire ty) (struct_nests ty) (struct_wf ty) (struct_limits ty) (struct_canon ty) (init_of ty) (struct_sane ty).

(** *** The equations of the loops *)

Lemma fields_wire_array d a ds f arr fs : isArrayLength d = true ->
  fields_wire (d :: a :: ds) (FCons f (FCons arr fs)) = (array_wire a arr ++ fields_wire ds fs).
Proof. intros Ha. simpl. by rewrite Ha. Qed.

Lemma fields_wire_field d ds f fs : isArrayLength d = false ->
  fields_wire (d :: ds) (FCons f fs) = ((if isToEncode d then field_wire d f else []) ++ fields_wire ds fs).
Proof. intros Ha. simpl. by rewrite Ha. Qed.

Lemma fields_sane_array d a ds f arr fs : isArrayLength d = true ->
  fields_sane (d :: a :: ds) (FCons f (FCons arr fs)) = ((exists n, f = length_value n /\ array_sane a n arr) /\ fields_sane ds fs).
Proof. intros Ha. simpl. by rewrite Ha. Qed.

Lemma fields_sane_field d ds f fs : isArrayLength d = false ->
  fields_sane (d :: ds) (FCons f fs) = (field_sane d f /\ fields_sane ds fs).
Proof. intros Ha. simpl. by rewrite Ha. Qed.

Lemma fields_wf_array d a ds f arr fs : isArrayLength d = true ->
  fields_wf (d :: a :: ds) (FCons f (FCons arr fs)) = (array_wf a f arr /\ fields_wf ds fs).
Proof. intros Ha. simpl. by rewrite Ha. Qed.

Lemma fields_wf_field d ds f fs : isArrayLength d = false ->
  fields_wf (d :: ds) (FCons f fs) = ((if isToEncode d then field_wf d f else field_sane d f) /\ fields_wf ds fs).
Proof. intros Ha. simpl. by rewrite Ha. Qed.

Lemma fields_limits_array d a ds f arr fs : isArrayLength d = true ->
  fields_limits (d :: a :: ds) (FCons f (FCons arr fs)) = (array_limits a arr /\ fields_limits ds fs).
Proof. intros Ha. simpl. by rewrite Ha. Qed.

Lemma fields_limits_field d ds f fs : isArrayLength d = false ->
  fields_limits (d :: ds) (FCons f fs) = ((isToEncode d = true -> field_limits d f) /\ fields_limits ds fs).
Proof. intros Ha. simpl. by rewrite Ha. Qed.

Lemma fields_nests_array d a ds f arr fs lvl : isArrayLength d = true ->
  fields_nests (d :: a :: ds) (FCons f (FCons arr fs)) lvl = (array_nests a arr lvl /\ fields_nests ds fs lvl).
Proof. intros Ha. simpl. by rewrite Ha. Qed.

Lemma fields_nests_field d ds f fs lvl : isArrayLength d = false ->
  fields_nests (d :: ds) (FCons f fs) lvl = ((isToEncode d = true -> field_nests d f lvl) /\ fields_nests ds fs lvl).
Proof. intros Ha. simpl. by rewrite Ha. Qed.

Lemma fields_canon_array d a ds f arr fs : isArrayLength d = true ->
  fields_canon (d :: a :: ds) (FCons f (FCons arr fs)) = (FCons f (FCons (array_canon a arr) (fields_canon ds fs))).
Proof. intros Ha. simpl. by rewrite Ha. Qed.

Lemma fields_canon_field d ds f fs : isArrayLength d = false ->
  fields_canon (d :: ds) (FCons f fs) = (FCons (if isToEncode d then field_canon d f else init_field d) (fields_canon ds fs)).
Proof. intros Ha. simpl. by rewrite Ha. Qed.

(** The shape of the fields that are sane or well-formed. *)
Lemma fields_sane_array_inv d a ds fs : isArrayLength d = true -> fields_sane (d :: a :: ds) fs ->
  exists n arr fs', fs = FCons (length_value n) (FCons arr fs') /\ array_sane a n arr /\ fields_sane ds fs'.
Proof.
  intros Ha Sn. destruct fs as [|f [|arr fs]]; [done|simpl in Sn; by rewrite Ha in Sn|].
  rewrite fields_sane_array in Sn by done. destruct Sn as [(n & -> & ?) ?]. by eexists _, _, _.
Qed.

Lemma fields_sane_field_inv d ds fs : isArrayLength d = false -> fields_sane (d :: ds) fs ->
  exists f fs', fs = FCons f fs' /\ field_sane d f /\ fields_sane ds fs'.
Proof. intros Ha Sn. destruct fs as [|f fs]; [done|]. rewrite fields_sane_field in Sn by done. destruct Sn. by eexists _, _. Qed.

Lemma array_wf_length a f arr : array_wf a f arr -> exists n, f = length_value n.
Proof. destruct arr; try done; intros (_ & -> & _); by eexists. Qed.

Lemma fields_wf_array_inv d a ds fs : isArrayLength d = true -> fields_wf (d :: a :: ds) fs ->
  exists n arr fs', fs = FCons (length_value n) (FCons arr fs') /\ array_wf a (length_value n) arr /\ fields_wf ds fs'.
Proof.
  intros Ha W. destruct fs as [|f [|arr fs]]; [done|simpl in W; by rewrite Ha in W|].
  rewrite fields_wf_array in W by done. destruct W as [Wa W]. destruct (array_wf_length _ _ _ Wa) as [n ->]. by eexists _, _, _.
Qed.

Lemma fields_wf_field_inv d ds fs : isArrayLength d = false -> fields_wf (d :: ds) fs ->
  exists f fs', fs = FCons f fs' /\ (if isToEncode d then field_wf d f else field_sane d f) /\ fields_wf ds fs'.
Proof. intros Ha W. destruct fs as [|f fs]; [done|]. rewrite fields_wf_field in W by done. destruct W. by eexists _, _. Qed.

(** *** Clearing *)

Fixpoint struct_size (o : StructObject) : nat :=
  match o with mkStruct _ fs => S (fields_size fs) end
with fields_size (fs : FieldList) : nat :=
  match fs with FNil => O | FCons f fs => (field_size f + fields_size fs)%nat end
with field_size (f : FieldValue) : nat :=
  match f with
  | FStruct o => struct_size o
  | FStructs (Some l) => foldr Nat.add O (map struct_size l)
  | _ => O
  end.

Lemma clear_array_null {A} (P : A -> Prop) clear n p : (forall x, P x -> exists x', clear x = Ret x') ->
  match p with Some l => n = zlen l /\ Forall P l | NULL => True end ->
  exists n', SOPC_Clear_Array clear n p = Ret (n', NULL).
Proof.
  intros Hc. unfold SOPC_Clear_Array. destruct p as [l|]; [|intros _; destruct (0 <=? n); by eexists].
  intros [-> F]. pose proof (zlen_nonneg l). replace (0 <=? zlen l) with true by lia.
  destruct (clear_elts_ok clear P l Hc F) as [l' E]. unfold zlen. rewrite Nat2Z.id, E. by eexists.
Qed.

Lemma size_elts n l (P : StructObject -> Prop) : (foldr Nat.add O (map struct_size l) < n)%nat -> All P l ->
  Forall (fun x => (struct_size x < n)%nat /\ P x) l.
Proof.
  induction l as [|x l IH]; simpl; intros L W; [constructor|]. destruct W. constructor; [split; [lia|done]|]. apply IH; [lia|done].
Qed.

Lemma struct_clear_eq ty t e fs : SOPC_KnownEncodeableTypes ty = Some t ->
  struct_clear ty (mkStruct e fs) = let* fs := clear_fields (Fields t) fs in Ret (mkStruct e fs).
Proof.
  intros E. change (struct_clear ty (mkStruct e fs)) with (let* t := known ty in let* fs := clear_fields (Fields t) fs in Ret (mkStruct e fs)).
  unfold known. by rewrite E.
Qed.

Lemma clear_fields_array d a ds n arr fs : isArrayLength d = true -> length_field d = true ->
  clear_fields (d :: a :: ds) (FCons (length_value n) (FCons arr fs)) =
  let* (n, arr) := clear_array a n arr in let* fs := clear_fields ds fs in Ret (FCons (length_value n) (FCons arr fs)).
Proof. intros Ha Hl. simpl. by rewrite Ha, Hl. Qed.

Lemma clear_fields_field d ds f fs : isArrayLength d = false ->
  clear_fields (d :: ds) (FCons f fs) = let* f := clear_field d f in let* fs := clear_fields ds fs in Ret (FCons f fs).
Proof. intros Ha. simpl. by rewrite Ha. Qed.

Section ClearNested.
(** The structures of a size below [n] are cleared. *)
Variable n : nat.
Hypothesis nested : forall ty o, (struct_size o < n)%nat -> struct_sane ty o -> exists o', struct_clear ty o = Ret o' /\ struct_sane ty o'.

Lemma clear_field_ok d f : element_ok d -> (field_size f < n)%nat -> field_sane d f -> exists f', clear_field d f = Ret f' /\ field_sane d f'.
Proof.
  unfold element_ok. intros Ed L Sf. destruct f as [v|o| |]; try done; simpl in Sf; destruct Sf as [Eb Sv]; rewrite Eb in Ed.
  - destruct (builtin_clears _ Ed v Sv) as (v' & E & Sv'). exists (FBuiltin v'). simpl. rewrite Eb, E. by split.
  - destruct (nested (field_type d) o L Sv) as (o' & E & So). exists (FStruct o'). simpl. rewrite Eb, E. by split.
Qed.

Lemma clear_array_sane a k arr : element_ok a -> (field_size arr < n)%nat -> array_sane a k arr ->
  exists k' arr', clear_array a k arr = Ret (k', arr') /\ array_sane a k' arr'.
Proof.
  intros Ea L Sa. destruct (element_size a Ea) as [z Ez]. unfold element_ok in Ea.
  destruct arr as [| |p|p]; try done; simpl in Sa; destruct Sa as [Eb Sa]; rewrite Eb in Ea.
  - destruct (clear_array_null (c_sane (field_contract a)) (builtin_clear (field_id a)) k p) as [k' E].
    { intros x Sx. destruct (builtin_clears _ Ea x Sx) as (x' & Ex & _). by exists x'. }
    { destruct p; [|done]. by rewrite <- All_Forall. }
    exists k', (FBuiltins NULL). simpl. rewrite Ez, Eb. cbn [rbind]. rewrite E. by split.
  - destruct (clear_array_null (fun x => (struct_size x < n)%nat /\ struct_sane (field_type a) x) (struct_clear (field_type a)) k p) as [k' E].
    { intros x [Lx Sx]. destruct (nested _ _ Lx Sx) as (x' & Ex & _). by exists x'. }
    { destruct p; [|done]. destruct Sa as [-> Sa]. split; [done|]. by apply size_elts. }
    exists k', (FStructs NULL). simpl. rewrite Ez, Eb. cbn [rbind]. rewrite E. by split.
Qed.

Lemma clear_fields_ok r descs : descs_wf type_rank r descs -> forall fs, (fields_size fs < n)%nat -> fields_sane descs fs ->
  exists fs', clear_fields descs fs = Ret fs' /\ fields_sane descs fs'.
Proof.
  induction 1 as [|d a ds Ha Hc Hl Ea _ IH|d ds Ha Ed Hr _ IH]; intros fs L Sn.
  - destruct fs; [|done]. by exists FNil.
  - apply fields_sane_array_inv in Sn as (k & arr & fs' & -> & Sa & Sn); [|done]. cbn [fields_size] in L.
    destruct (IH fs' ltac:(lia) Sn) as (fs1 & E & Sf). destruct (clear_array_sane a k arr Ea ltac:(lia) Sa) as (k' & arr' & Ek & Sk).
    rewrite clear_fields_array, Ek by done. cbn [rbind]. rewrite E. eexists. split; [done|].
    rewrite fields_sane_array by done. split; [by exists k'|done].
  - apply fields_sane_field_inv in Sn as (f & fs' & -> & Sd & Sn); [|done]. cbn [fields_size] in L.
    destruct (IH fs' ltac:(lia) Sn) as (fs1 & E & Sf). destruct (clear_field_ok d f Ed ltac:(lia) Sd) as (f' & Ek & Sk).
    rewrite clear_fields_field, Ek by done. cbn [rbind]. rewrite E. eexists. split; [done|]. by rewrite fields_sane_field.
Qed.

End ClearNested.

Lemma struct_clears_size n : forall ty o, (struct_size o < n)%nat -> struct_sane ty o ->
  exists o', struct_clear ty o = Ret o' /\ struct_sane ty o'.
Proof.
  induction n as [|n IH]; intros ty [e fs] L Sn; [lia|]. simpl in L, Sn.
  destruct (SOPC_KnownEncodeableTypes ty) as [t|] eqn:Et; [|done].
  destruct (clear_fields_ok n IH _ _ (types_wf ty t Et) fs ltac:(lia) Sn) as (fs' & E & Sf).
  exists (mkStruct e fs'). rewrite (struct_clear_eq ty t), E by done. split; [done|]. simpl. by rewrite Et.
Qed.

Lemma struct_clears ty : clears (struct_contract ty) (struct_clear ty).
Proof. intros o. apply (struct_clears_size (S (struct_size o))). lia. Qed.

Lemma struct_clear_ok ty o : c_sane (struct_contract ty) o -> exists o', struct_clear ty o = Ret o'.
Proof. intros Sn. destruct (struct_clears ty o Sn) as (o' & E & _). by exists o'. Qed.

(** The initial values can be cleared. *)
Lemma builtin_init_sane id : is_array_id id = true -> c_sane (builtin_contract id) (c_init (builtin_contract id)).
Proof.
  intros E. destruct id; try discriminate; cbn [builtin_contract lift_contract c_sane c_init]; rewrite ?as_number_inj, ?as_string_inj; first [done|by eexists].
Qed.

Definition nested_init_sane (r : nat) : Prop :=
  forall ty, is_Some (SOPC_KnownEncodeableTypes ty) -> (type_rank ty < r)%nat -> struct_sane ty (init_of ty).

Lemma init_field_sane r d : nested_init_sane r -> element_ok d -> (isBuiltIn d = false -> (type_rank (field_type d) < r)%nat) ->
  field_sane d (init_field d).
Proof.
  unfold init_field, element_ok. intros Hn Ed Hr. destruct (isBuiltIn d) eqn:Eb; (split; [done|]); [by apply builtin_init_sane|].
  apply Hn; auto.
Qed.

Lemma init_list_sane r descs : nested_init_sane r -> descs_wf type_rank r descs -> fields_sane descs (init_list descs).
Proof.
  intros Hn. induction 1 as [|d a ds Ha _ Hl Ea _ IH|d ds Ha Ed Hr _ IH]; cbn [init_list]; [done|..]; rewrite Ha.
  - rewrite fields_sane_array by done. split; [|done]. exists 0. split; [done|]. unfold null_array. by destruct (isBuiltIn a) eqn:Eb.
  - rewrite fields_sane_field by done. split; [by eapply init_field_sane|done].
Qed.

Lemma init_sane ty : is_Some (SOPC_KnownEncodeableTypes ty) -> struct_sane ty (init_of ty).
Proof.
  assert (forall r, nested_init_sane r) as Hr.
  { induction r as [|r IH]; intros u [t Et] L; [lia|]. rewrite (init_of_eq u t Et). simpl. rewrite Et.
    apply (init_list_sane (type_rank u)); [|by apply types_wf]. intros w K Lw. apply IH; [done|lia]. }
  intros K. apply (Hr (S (type_rank ty))); [done|lia].
Qed.

(** *** The loops, given the nested structures *)

Section Fields.
Variable encode_nested : nat -> encoder StructObject.
Variable decode_nested : nat -> decoder StructObject.
Variable lvl : Z.
Hypothesis nested : forall l ty, lvl <= l -> is_Some (SOPC_KnownEncodeableTypes ty) ->
  honours (struct_contract ty) (encode_nested ty) (decode_nested ty) l.

(** What is known of the fields that the decoder accepted. *)
Definition field_accepted (d : SOPC_EncodeableType_FieldDescriptor) (f : FieldValue) : Prop :=
  field_wf d f /\ field_limits d f /\ field_nests d f lvl.
Definition array_accepted (a : SOPC_EncodeableType_FieldDescriptor) (n : Z) (arr : FieldValue) : Prop :=
  array_wf a (length_value n) arr /\ array_limits a arr /\ array_nests a arr lvl.
Definition fields_accepted (ds : list SOPC_EncodeableType_FieldDescriptor) (fs : FieldList) : Prop :=
  fields_wf ds fs /\ fields_limits ds fs /\ fields_nests ds fs lvl.

Lemma struct_clear_sane ty v : c_sane (struct_contract ty) v -> exists v', struct_clear ty v = Ret v'.
Proof. apply struct_clear_ok. Qed.

Lemma builtin_clear_sane id v : is_array_id id = true -> c_sane (builtin_contract id) v -> exists v', builtin_clear id v = Ret v'.
Proof. intros E Sv. destruct (builtin_clears id E v Sv) as (v' & ? & _). by exists v'. Qed.

Lemma encode_field_spec d f b : element_ok d -> field_wf d f -> Buffer_Inv b -> small b ->
  encodes b (encode_field encode_nested d f (Some b) lvl) (field_wire d f) (field_nests d f lvl).
Proof.
  unfold element_ok. intros Ed W I Sm. destruct f as [v|o| |]; try done; simpl in W; destruct W as [Eb W]; rewrite Eb in Ed; simpl; rewrite Eb.
  - apply (h_write _ _ _ _ (builtin_honours (field_id d) lvl Ed) v b W I Sm).
  - apply (h_write _ _ _ _ (nested lvl (field_type d) ltac:(lia) Ed) o b W I Sm).
Qed.

Lemma array_of_items {A} (p : ptr (list A)) : array_of p (items p).
Proof. destruct p; [by right|by left]. Qed.

Lemma encode_array_spec a n arr b : element_ok a -> array_wf a (length_value n) arr -> Buffer_Inv b -> small b ->
  encodes b (encode_array encode_nested a n arr (Some b) lvl) (array_wire a arr) (array_nests a arr lvl).
Proof.
  intros Ea W I Sm. unfold encode_array. destruct (element_size a Ea) as [z ->]. cbn [rbind]. unfold element_ok in Ea.
  destruct arr as [| |p|p]; try done; simpl in W; destruct W as (Eb & El & Lz & W); rewrite Eb in *; injection El as ->;
    pose proof (zlen_nonneg (items p)).
  - pose proof (write_array_spec (field_contract a) (builtin_encode (field_id a)) (builtin_decode (field_id a)) lvl (items p) p b) as P.
    eapply encodes_iff; [|apply P; [by apply builtin_honours|by apply All_Forall|apply array_of_items|unfold in_s; lia|done|done]].
    simpl. unfold elts_nest. by rewrite All_Forall.
  - pose proof (write_array_spec (struct_contract (field_type a)) (encode_nested (field_type a)) (decode_nested (field_type a)) lvl (items p) p b) as P.
    replace (array_wire a (FStructs p)) with (le_bytes 4 (zlen (items p)) ++ elts_wire (struct_contract (field_type a)) (items p)).
    2:{ destruct p; [done|apply app_nil_r]. }
    eapply encodes_iff; [|apply P; [apply nested; [lia|done]| |apply array_of_items|unfold in_s; lia|done|done]].
    + simpl. unfold elts_nest. destruct p as [l|]; simpl; [by rewrite All_Forall|]. intuition constructor.
    + destruct p; [by apply All_Forall|constructor].
Qed.

Lemma encode_fields_spec r ds : descs_wf type_rank r ds -> forall fs b, fields_wf ds fs -> Buffer_Inv b -> small b ->
  encodes b (encode_fields encode_nested ds fs (Some b) lvl) (fields_wire ds fs) (fields_nests ds fs lvl).
Proof.
  induction 1 as [|d a ds Ha Hc Hl Ea _ IH|d ds Ha Ed Hr _ IH]; intros fs b W I Sm.
  - destruct fs; [|done]. by apply encodes_skip.
  - apply fields_wf_array_inv in W as (n & arr & fs' & -> & Wa & W); [|done].
    rewrite fields_wire_array, fields_nests_array by done. cbn [encode_fields]. rewrite Hc, Ha, Hl. cbn [negb].
    apply encodes_and_then; [done|done|by apply encode_array_spec|]. intros; by apply IH.
  - apply fields_wf_field_inv in W as (f & fs' & -> & Wf & W); [|done].
    rewrite fields_wire_field, fields_nests_field by done. cbn [encode_fields]. rewrite Ha. destruct (isToEncode d); cbn [negb].
    + eapply encodes_iff; [|apply encodes_and_then; [done|done|by apply encode_field_spec|intros; by apply IH]]. intuition.
    + eapply encodes_iff; [|by apply IH]. intuition done.
Qed.

Lemma decode_field_spec d f b rest : element_ok d -> field_accepted d f -> Buffer_Inv b -> small b ->
  upcoming b = field_wire d f ++ rest -> (forall n, alloc_ok n = true) ->
  decode_field decode_nested d (init_field d) (Some b) lvl =
  Ret (SOPC_STATUS_OK, field_canon d f, Some (advance b (zlen (field_wire d f)))).
Proof.
  unfold element_ok, init_field. intros Ed (W & L & N) I Sm U HA.
  destruct f as [v|o| |]; try done; simpl in W; destruct W as [Eb W]; rewrite Eb in *; simpl; rewrite Eb.
  - unfold field_contract. by rewrite (h_read _ _ _ _ (builtin_honours (field_id d) lvl Ed) v b rest W L I Sm U N HA).
  - change (init_of (field_type d)) with (c_init (struct_contract (field_type d))).
    by rewrite (h_read _ _ _ _ (nested lvl (field_type d) ltac:(lia) Ed) o b rest W L I Sm U N HA).
Qed.

Lemma decode_array_spec a n arr b rest : element_ok a -> array_accepted a n arr -> Buffer_Inv b -> small b ->
  upcoming b = array_wire a arr ++ rest -> (forall n, alloc_ok n = true) ->
  decode_array decode_nested a 0 (null_array a) (Some b) lvl =
  Ret (SOPC_STATUS_OK, n, array_canon a arr, Some (advance b (zlen (array_wire a arr)))).
Proof.
  intros Ea (W & L & N) I Sm U HA. unfold decode_array, null_array. destruct (element_size a Ea) as [z ->]. cbn [rbind]. unfold element_ok in Ea.
  destruct arr as [| |p|p]; try done; simpl in W, L, N; destruct W as (Eb & El & Lz & W), L as [Lm L], N as [Ln N];
    rewrite Eb in *; injection El as ->; pose proof (zlen_nonneg (items p)).
  - rewrite (builtin_initialize_ok _ Ea). cbn [rbind].
    rewrite (read_array_spec (builtin_contract (field_id a)) (builtin_encode (field_id a)) (builtin_decode (field_id a)) _ lvl (items p) z b rest 0);
      first done; try done.
    + by apply builtin_honours.
    + by apply All_Forall.
    + by apply All_Forall.
    + by apply All_Forall.
    + unfold in_s. lia.
    + by right.
    + apply array_limit.
  - rewrite (Initialize_ok _ Ea). cbn [rbind].
    assert (array_wire a (FStructs p) = le_bytes 4 (zlen (items p)) ++ elts_wire (struct_contract (field_type a)) (items p)) as Ew.
    { destruct p; [done|symmetry; apply app_nil_r]. }
    assert (array_canon a (FStructs p) = FStructs (array_ptr (map (struct_canon (field_type a)) (items p)))) as -> by (by destruct p).
    rewrite Ew in *.
    rewrite (read_array_spec (struct_contract (field_type a)) (encode_nested (field_type a)) (decode_nested (field_type a)) _ lvl (items p) z b rest 0);
      first done; try done.
    + apply nested; [lia|done].
    + destruct p; [by apply All_Forall|constructor].
    + destruct p; [by apply All_Forall|constructor].
    + destruct p; [by apply All_Forall|constructor].
    + unfold in_s. lia.
    + by right.
    + apply array_limit.
Qed.

Lemma decode_fields_spec r ds : descs_wf type_rank r ds -> forall fs b rest, fields_accepted ds fs -> Buffer_Inv b -> small b ->
  upcoming b = fields_wire ds fs ++ rest -> (forall n, alloc_ok n = true) ->
  decode_fields decode_nested ds (init_list ds) (Some b) lvl =
  Ret (SOPC_STATUS_OK, fields_canon ds fs, Some (advance b (zlen (fields_wire ds fs)))).
Proof.
  induction 1 as [|d a ds Ha Hc Hl Ea _ IH|d ds Ha Ed Hr _ IH]; intros fs b rest (W & L & N) I Sm U HA.
  - destruct fs; [|done]. by rewrite advance_0.
  - apply fields_wf_array_inv in W as (n & arr & fs' & -> & Wa & W); [|done].
    rewrite fields_limits_array in L by done. rewrite fields_nests_array in N by done. destruct L as [La L], N as [Na N].
    rewrite fields_wire_array in * by done. rewrite fields_canon_array by done. rewrite <- app_assoc in U.
    cbn [init_list decode_fields]. rewrite Ha, Hc. cbn [negb]. rewrite Hl. cbn [as_length zero_length as_number].
    rewrite decide_True by done. cbn [rbind].
    rewrite (decode_array_spec a n arr b _ Ea) with (4 := U) by done. cbn [rbind is_ok].
    destruct (upcoming_advance_app b _ _ I U) as [I1 U1]. rewrite (IH fs' _ rest) by done. cbn [rbind].
    by rewrite advance_advance, zlen_app.
  - apply fields_wf_field_inv in W as (f & fs' & -> & Wf & W); [|done].
    rewrite fields_limits_field in L by done. rewrite fields_nests_field in N by done. destruct L as [La L], N as [Na N].
    rewrite fields_wire_field in * by done. rewrite fields_canon_field by done. rewrite <- app_assoc in U.
    cbn [init_list]. rewrite Ha. cbn [decode_fields]. rewrite Ha. destruct (isToEncode d) eqn:Et; cbn [negb].
    + rewrite (decode_field_spec d f b _ Ed) with (4 := U) by (done || split_and!; auto). cbn [rbind is_ok].
      destruct (upcoming_advance_app b _ _ I U) as [I1 U1]. rewrite (IH fs' _ rest) by done. cbn [rbind].
      by rewrite advance_advance, zlen_app.
    + by rewrite (IH fs' b rest).
Qed.

(** On any input. *)
Lemma decode_field_safe d b : element_ok d -> Buffer_Inv b -> small b ->
  exists st f m, decode_field decode_nested d (init_field d) (Some b) lvl = Ret (st, f, Some (advance b m)) /\
    0 <= m <= zlen (upcoming b) /\ field_sane d f /\ (st = SOPC_STATUS_OK -> field_accepted d f).
Proof.
  unfold element_ok, init_field, field_accepted. intros Ed I Sm. destruct (isBuiltIn d) eqn:Eb; unfold decode_field; rewrite Eb.
  - destruct (h_safe _ _ _ _ (builtin_honours (field_id d) lvl Ed) b I Sm) as (st & v & m & E & Hm & Sv & G).
    unfold field_contract. rewrite E. cbn [rbind deref]. exists st, (FBuiltin v), m. split_and!; try done; try lia.
    intros Es. destruct (G Es) as (? & ? & ?). by split_and!.
  - destruct (h_safe _ _ _ _ (nested lvl (field_type d) ltac:(lia) Ed) b I Sm) as (st & v & m & E & Hm & Sv & G).
    cbn [c_init struct_contract] in E. rewrite E. cbn [rbind deref]. exists st, (FStruct v), m. split_and!; try done; try lia.
    intros Es. destruct (G Es) as (? & ? & ?). by split_and!.
Qed.

Lemma items_array_ptr {A} (l : list A) : items (array_ptr l) = l.
Proof. by destruct l. Qed.

(** The array that [SOPC_Read_Array] returns, for a contract of the elements. *)
Lemma array_result_inv {A} (c : contract A) wr rd b r : honours c wr rd (lvl + 1) -> array_result c lvl b r ->
  exists st n p m, r = Ret (st, n, p, Some (advance b m)) /\ 0 <= m <= zlen (upcoming b) /\
    match p with Some l => n = zlen l /\ All (c_sane c) l | NULL => True end /\
    (st = SOPC_STATUS_OK -> n = zlen (items p) /\ n < 2 ^ 31 /\ n <= max_array_length cfg /\ lvl + 2 <= max_nested_struct cfg /\
       All (c_accepted c (lvl + 1)) (items p)).
Proof.
  intros Hh (st & n & p & m & -> & Hm & G & B). exists st, n, p, m. split; [done|]. split; [done|].
  destruct (decide (st = SOPC_STATUS_OK)) as [-> | Ns]; [|rewrite (B Ns); split; [done|by intros ->]].
  destruct (G eq_refl) as (l & -> & -> & R & M & M0 & F & D). unfold in_s in R. rewrite items_array_ptr, !All_Forall. split.
  - destruct l; [done|]. split; [done|]. apply All_Forall. eapply Forall_impl; [exact F|]. apply (h_sane _ _ _ _ Hh).
  - intros _. split_and!; try done; lia.
Qed.

Lemma All_and3 {A} (P Q R : A -> Prop) l : All (fun x => P x /\ Q x /\ R x) l -> All P l /\ All Q l /\ All R l.
Proof. rewrite !All_Forall. intros F. split_and!; eapply Forall_impl; try exact F; simpl; intuition. Qed.

Lemma decode_array_safe a b : element_ok a -> Buffer_Inv b -> small b ->
  exists st n arr m, decode_array decode_nested a 0 (null_array a) (Some b) lvl = Ret (st, n, arr, Some (advance b m)) /\
    0 <= m <= zlen (upcoming b) /\ array_sane a n arr /\ (st = SOPC_STATUS_OK -> array_accepted a n arr).
Proof.
  intros Ea I Sm. unfold decode_array, null_array. destruct (element_size a Ea) as [z ->]. cbn [rbind]. unfold element_ok in Ea.
  destruct (isBuiltIn a) eqn:Eb.
  - rewrite (builtin_initialize_ok _ Ea). cbn [rbind].
    pose proof (builtin_honours (field_id a) (lvl + 1) Ea) as Hh.
    destruct (array_result_inv _ _ _ b _ Hh (read_array_safe _ _ _ _ (fun v => builtin_clear_sane _ v Ea) lvl b z 0 Hh array_limit I Sm))
      as (st & n & p & m & -> & Hm & Sp & G). cbn [rbind].
    exists st, n, (FBuiltins p), m. split_and!; try done; try lia. intros Es. destruct (G Es) as (-> & B1 & B2 & B3 & F).
    apply All_and3 in F as (F1 & F2 & F3). by split_and!.
  - rewrite (Initialize_ok _ Ea). cbn [rbind].
    pose proof (nested (lvl + 1) (field_type a) ltac:(lia) Ea) as Hh.
    destruct (array_result_inv _ _ _ b _ Hh (read_array_safe _ _ _ _ (struct_clear_sane (field_type a)) lvl b z 0 Hh array_limit I Sm))
      as (st & n & p & m & E & Hm & Sp & G). cbn [c_init struct_contract] in E. rewrite E. cbn [rbind].
    exists st, n, (FStructs p), m. split_and!; try done; try lia. intros Es. destruct (G Es) as (-> & B1 & B2 & B3 & F).
    apply All_and3 in F as (F1 & F2 & F3). by destruct p; split_and!.
Qed.

Lemma decode_fields_safe r ds : descs_wf type_rank r ds -> forall b, Buffer_Inv b -> small b ->
  exists st fs m, decode_fields decode_nested ds (init_list ds) (Some b) lvl = Ret (st, fs, Some (advance b m)) /\
    0 <= m <= zlen (upcoming b) /\ fields_sane ds fs /\ (st = SOPC_STATUS_OK -> fields_accepted ds fs).
Proof.
  unfold fields_accepted. intros W.
  assert (fields_sane ds (init_list ds)) as Si by (apply (init_list_sane r); [intros ? ? ?; by apply init_sane|done]). revert Si.
  induction W as [|d a ds Ha Hc Hl Ea _ IH|d ds Ha Ed Hr _ IH]; intros Si b I Sm.
  - exists SOPC_STATUS_OK, FNil, 0. pose proof (zlen_nonneg (upcoming b)). rewrite advance_0. by split_and!.
  - cbn [init_list] in *. rewrite Ha in *. rewrite fields_sane_array in Si by done. destruct Si as [_ Si].
    cbn [decode_fields]. rewrite Ha, Hc, Hl. cbn [negb as_length zero_length as_number]. rewrite decide_True by done. cbn [rbind].
    destruct (decode_array_safe a b Ea I Sm) as (st & n & arr & m & -> & Hm & Sa & G). cbn [rbind].
    destruct (is_ok st) eqn:Es.
    + apply is_ok_true in Es. subst. specialize (G eq_refl). destruct G as (G1 & G2 & G3).
      destruct (IH Si (advance b m)) as (st & fs & k & -> & Hk & Sf & Gf); [by apply Buffer_Inv_advance|done|]. cbn [rbind].
      rewrite upcoming_advance, zlen_drop in Hk by done || lia. rewrite advance_advance.
      eexists st, _, (m + k). split; [done|]. split; [lia|].
      rewrite fields_sane_array, fields_wf_array, fields_limits_array, fields_nests_array by done. split; [by eauto|].
      intros Es. destruct (Gf Es) as (? & ? & ?). by split_and!.
    + eexists st, _, m. split; [done|]. split; [lia|]. rewrite fields_sane_array by done. split; [by eauto|]. by intros ->.
  - cbn [init_list] in *. rewrite Ha in *. rewrite fields_sane_field in Si by done. destruct Si as [Sd Si].
    cbn [decode_fields]. rewrite Ha. destruct (isToEncode d) eqn:Ee; cbn [negb].
    2:{ destruct (IH Si b I Sm) as (st & fs & k & -> & Hk & Sf & Gf). cbn [rbind]. eexists st, _, k. split; [done|]. split; [lia|].
        rewrite fields_sane_field, fields_wf_field, fields_limits_field, fields_nests_field, Ee by done. split; [done|].
        intros Es. destruct (Gf Es) as (? & ? & ?). by split_and!. }
    destruct (decode_field_safe d b Ed I Sm) as (st & f & m & -> & Hm & Sa & G). cbn [rbind].
    destruct (is_ok st) eqn:Es.
    + apply is_ok_true in Es. subst. specialize (G eq_refl). destruct G as (G1 & G2 & G3).
      destruct (IH Si (advance b m)) as (st & fs & k & -> & Hk & Sf & Gf); [by apply Buffer_Inv_advance|done|]. cbn [rbind].
      rewrite upcoming_advance, zlen_drop in Hk by done || lia. rewrite advance_advance.
      eexists st, _, (m + k). split; [done|]. split; [lia|].
      rewrite fields_sane_field, fields_wf_field, fields_limits_field, fields_nests_field, Ee by done. split; [done|].
      intros Es. destruct (Gf Es) as (? & ? & ?). by split_and!.
    + eexists st, _, m. split; [done|]. split; [lia|]. rewrite fields_sane_field by done. split; [done|]. by intros ->.
Qed.

(** The fields that were accepted can be cleared. *)
Lemma field_accepted_sane d f : element_ok d -> field_accepted d f -> field_sane d f.
Proof.
  unfold element_ok. intros Ed (W & L & N). destruct f as [v|o| |]; try done; simpl in *; destruct W as [Eb W]; rewrite Eb in Ed; (split; [done|]).
  - by apply (h_sane _ _ _ _ (builtin_honours (field_id d) lvl Ed)).
  - by apply (h_sane _ _ _ _ (nested lvl (field_type d) ltac:(lia) Ed)).
Qed.

Lemma All_sane {A} (c : contract A) wr rd l : honours c wr rd (lvl + 1) -> All (c_wf c) l -> All (c_limits c) l ->
  All (fun v => c_nests c v (lvl + 1)) l -> All (c_sane c) l.
Proof.
  intros Hh. induction l as [|x l IH]; simpl; [done|]. intros [? ?] [? ?] [? ?]. split; [|by apply IH]. by apply (h_sane _ _ _ _ Hh).
Qed.

Lemma array_accepted_sane a n arr : element_ok a -> array_accepted a n arr -> array_sane a n arr.
Proof.
  unfold element_ok. intros Ea (W & L & N).
  destruct arr as [| |p|p]; try done; simpl in *; destruct W as (Eb & El & _ & W), L as [_ L], N as [_ N]; rewrite Eb in Ea; injection El as ->;
    (split; [done|]); (destruct p as [l|]; [|done]); (split; [done|]).
  - by apply (All_sane (field_contract a) _ _ l (builtin_honours _ (lvl + 1) Ea)).
  - by apply (All_sane (struct_contract (field_type a)) _ _ l (nested (lvl + 1) _ ltac:(lia) Ea)).
Qed.

Lemma fields_accepted_sane r ds : descs_wf type_rank r ds -> forall fs, fields_accepted ds fs -> fields_sane ds fs.
Proof.
  induction 1 as [|d a ds Ha Hc Hl Ea _ IH|d ds Ha Ed Hr _ IH]; intros fs (W & L & N).
  - by destruct fs.
  - apply fields_wf_array_inv in W as (n & arr & fs' & -> & Wa & W); [|done].
    rewrite fields_limits_array in L by done. rewrite fields_nests_array in N by done. destruct L as [La L], N as [Na N].
    rewrite fields_sane_array by done. split; [|by apply IH]. exists n. split; [done|]. by apply array_accepted_sane.
  - apply fields_wf_field_inv in W as (f & fs' & -> & Wf & W); [|done].
    rewrite fields_limits_field in L by done. rewrite fields_nests_field in N by done. destruct L as [La L], N as [Na N].
    rewrite fields_sane_field by done. split; [|by apply IH]. destruct (isToEncode d); [|done]. apply field_accepted_sane; [done|]. split_and!; auto.
Qed.

End Fields.

(** *** The functions *)

Lemma struct_wf_inv ty v t : SOPC_KnownEncodeableTypes ty = Some t -> struct_wf ty v -> exists fs, v = mkStruct ty fs /\ fields_wf (Fields t) fs.
Proof. intros Et. destruct v as [e fs]. simpl. rewrite Et. intros [-> W]. by exists fs. Qed.

Section Step.
Variable encode_nested : nat -> encoder StructObject.
Variable decode_nested : nat -> decoder StructObject.
Variable lvl : Z.
Hypothesis nested : lvl < max_nested_struct cfg -> forall l ty, lvl + 1 <= l -> is_Some (SOPC_KnownEncodeableTypes ty) ->
  honours (struct_contract ty) (encode_nested ty) (decode_nested ty) l.

Lemma struct_encode_spec ty v b : is_Some (SOPC_KnownEncodeableTypes ty) -> struct_wf ty v -> Buffer_Inv b -> small b ->
  encodes b (struct_encode encode_nested ty (Some v) (Some b) lvl) (struct_wire ty v) (struct_nests ty v lvl).
Proof.
  intros [t Et] W I Sm. apply (struct_wf_inv _ _ _ Et) in W as (fs & -> & W).
  unfold struct_encode, known. simpl. rewrite Et, Nat.eqb_refl. cbn [rbind negb].
  apply encodes_guard; [done| |intros [? _]; lia]. intros Hl.
  eapply encodes_iff; [|by apply (encode_fields_spec _ _ (lvl + 1) (nested Hl) _ _ (types_wf ty t Et))]. intuition lia.
Qed.

Lemma struct_decode_spec ty v b rest : is_Some (SOPC_KnownEncodeableTypes ty) -> c_accepted (struct_contract ty) lvl v -> Buffer_Inv b -> small b ->
  upcoming b = struct_wire ty v ++ rest -> (forall n, alloc_ok n = true) ->
  struct_decode decode_nested ty (Some (init_of ty)) (Some b) lvl =
  Ret (SOPC_STATUS_OK, Some (struct_canon ty v), Some (advance b (zlen (struct_wire ty v)))).
Proof.
  intros [t Et] (W & L & N) I Sm U HA. apply (struct_wf_inv _ _ _ Et) in W as (fs & -> & W). simpl in *. rewrite Et in *. destruct N as [Hl N].
  unfold struct_decode, known. rewrite Et. cbn [rbind]. level_ok.
  rewrite Initialize_ok by (by eexists). cbn [rbind]. rewrite (init_of_eq ty t Et).
  by rewrite (decode_fields_spec encode_nested _ (lvl + 1) (nested ltac:(lia)) _ _ (types_wf ty t Et) fs b rest).
Qed.

Lemma struct_decode_safe ty b : is_Some (SOPC_KnownEncodeableTypes ty) -> Buffer_Inv b -> small b ->
  decodes b (struct_decode decode_nested ty (Some (init_of ty)) (Some b) lvl) (struct_sane ty) (c_accepted (struct_contract ty) lvl).
Proof.
  intros K I Sm. pose proof (init_sane ty K) as Si. destruct (K) as [t Et]. unfold struct_decode, known. rewrite Et. cbn [rbind]. by_level.
  rewrite Initialize_ok by done. cbn [rbind]. rewrite (init_of_eq ty t Et) in *.
  destruct (decode_fields_safe encode_nested _ (lvl + 1) (nested ltac:(lia)) _ _ (types_wf ty t Et) b I Sm) as (st & fs & m & -> & Hm & Sf & G).
  assert (struct_sane ty (mkStruct ty fs)) as So by (simpl; by rewrite Et).
  cbn [rbind]. destruct (is_ok st) eqn:Es.
  - apply decodes_intro; [done|done|]. intros E. destruct (G E) as (? & ? & ?). unfold c_accepted. simpl. rewrite Et. split_and!; done || lia.
  - destruct (struct_clears ty (mkStruct ty fs) So) as (o & -> & So'). cbn [rbind]. apply decodes_intro; [done|done|]. by intros ->.
Qed.

Lemma struct_accepted_sane ty v : is_Some (SOPC_KnownEncodeableTypes ty) -> c_accepted (struct_contract ty) lvl v -> struct_sane ty v.
Proof.
  intros [t Et] (W & L & N). apply (struct_wf_inv _ _ _ Et) in W as (fs & -> & W). simpl in *. rewrite Et in *. destruct N as [Hl N].
  by eapply (fields_accepted_sane _ _ (lvl + 1) (nested ltac:(lia)) _ _ (types_wf ty t Et)).
Qed.

Lemma struct_step ty : is_Some (SOPC_KnownEncodeableTypes ty) ->
  honours (struct_contract ty) (struct_encode encode_nested ty) (struct_decode decode_nested ty) lvl.
Proof.
  intros K. split.
  - intros v b W I Sm. by apply struct_encode_spec.
  - intros v b rest W L I Sm U N HA. by apply (struct_decode_spec ty v b rest).
  - intros b I Sm. by apply struct_decode_safe.
  - intros v Ac. by apply struct_accepted_sane.
Qed.

End Step.

Lemma struct_fuel_honours n : forall lvl ty, max_nested_struct cfg - lvl < Z.of_nat n -> (1 <= n)%nat ->
  is_Some (SOPC_KnownEncodeableTypes ty) -> honours (struct_contract ty) (Encode_fuel n ty) (Decode_fuel n ty) lvl.
Proof.
  induction n as [|n IH]; intros lvl ty Hn Hp K; [lia|]. cbn [Encode_fuel Decode_fuel].
  apply struct_step; [|done]. intros Hl l u Hu Ku. apply IH; [lia|lia|done].
Qed.

Lemma struct_honours ty lvl : is_Some (SOPC_KnownEncodeableTypes ty) ->
  honours (struct_contract ty) (SOPC_EncodeableObject_Encode ty) (SOPC_EncodeableObject_Decode ty) lvl.
Proof. intros K. destruct (fuel_enough lvl) as [F1 F2]. destruct (struct_fuel_honours _ lvl ty F1 F2 K) as [Hw Hr Hs Hc]. by split. Qed.

(** The decoder does not read what the memory held: any value is as good as an
    initialised one, provided that the level is within the limit. *)
Lemma Decode_any ty v v' buf lvl : lvl < max_nested_struct cfg ->
  SOPC_EncodeableObject_Decode ty (Some v) buf lvl = SOPC_EncodeableObject_Decode ty (Some v') buf lvl.
Proof.
  intros Hl. unfold SOPC_EncodeableObject_Decode, nesting_fuel. cbn [Decode_fuel]. unfold struct_decode. destruct (known ty); [|done].
  cbn [rbind]. by level_ok.
Qed.

End Structs.
