(* ===== verification/Types.v ===== *)
(** * The table of the structures of the services

    The descriptors of [src/src/Common/opcua_types/sopc_types.c]: the fields of each
    structure, in the order of the members of the C structure (declared in
    [sopc_types.h]), its identifiers (defined in [opcua_identifiers.h]) and the array
    [g_KnownEncodeableTypes].  No structure is excluded by the build
    ([OPCUA_EXCLUDE_*] is never defined).

    The functions [OpcUa_X_Initialize], [OpcUa_X_Clear], [OpcUa_X_Encode] and
    [OpcUa_X_Decode] of a structure call the generic function with its descriptor:
    they are the functions of [EncStruct.v] at the index of the structure. *)

From Stdlib Require Import ZArith Lia.
From Stdlib Require Import Strings.Byte.
From stdpp Require Import prelude.
From S2P Require Import Prelude Common Buffer Codec EncScalar EncString EncNodeId EncText EncArray EncExtObj EncVariant.
From S2P Require Import EncStruct.

Open Scope Z_scope.

(** ** Indexes *)

Inductive SOPC_TypeInternalIndex :=
| SOPC_TypeInternalIndex_ReferenceNode
| SOPC_TypeInternalIndex_Node
| SOPC_TypeInternalIndex_InstanceNode
| SOPC_TypeInternalIndex_TypeNode
| SOPC_TypeInternalIndex_ObjectNode
| SOPC_TypeInternalIndex_ObjectTypeNode
| SOPC_TypeInternalIndex_VariableNode
| SOPC_TypeInternalIndex_VariableTypeNode
| SOPC_TypeInternalIndex_ReferenceTypeNode
| SOPC_TypeInternalIndex_MethodNode
| SOPC_TypeInternalIndex_ViewNode
| SOPC_TypeInternalIndex_DataTypeNode
| SOPC_TypeInternalIndex_Argument
| SOPC_TypeInternalIndex_EnumValueType
| SOPC_TypeInternalIndex_EnumField
| SOPC_TypeInternalIndex_OptionSet
| SOPC_TypeInternalIndex_TimeZoneDataType
| SOPC_TypeInternalIndex_ApplicationDescription
| SOPC_TypeInternalIndex_RequestHeader
| SOPC_TypeInternalIndex_ResponseHeader
| SOPC_TypeInternalIndex_ServiceFault
| SOPC_TypeInternalIndex_FindServersRequest
| SOPC_TypeInternalIndex_FindServersResponse
| SOPC_TypeInternalIndex_ServerOnNetwork
| SOPC_TypeInternalIndex_FindServersOnNetworkRequest
| SOPC_TypeInternalIndex_FindServersOnNetworkResponse
| SOPC_TypeInternalIndex_UserTokenPolicy
| SOPC_TypeInternalIndex_EndpointDescription
| SOPC_TypeInternalIndex_GetEndpointsRequest
| SOPC_TypeInternalIndex_GetEndpointsResponse
| SOPC_TypeInternalIndex_RegisteredServer
| SOPC_TypeInternalIndex_RegisterServerRequest
| SOPC_TypeInternalIndex_RegisterServerResponse
| SOPC_TypeInternalIndex_MdnsDiscoveryConfiguration
| SOPC_TypeInternalIndex_RegisterServer2Request
| SOPC_TypeInternalIndex_RegisterServer2Response
| SOPC_TypeInternalIndex_ChannelSecurityToken
| SOPC_TypeInternalIndex_OpenSecureChannelRequest
| SOPC_TypeInternalIndex_OpenSecureChannelResponse
| SOPC_TypeInternalIndex_CloseSecureChannelRequest
| SOPC_TypeInternalIndex_CloseSecureChannelResponse
| SOPC_TypeInternalIndex_SignedSoftwareCertificate
| SOPC_TypeInternalIndex_SignatureData
| SOPC_TypeInternalIndex_CreateSessionRequest
| SOPC_TypeInternalIndex_CreateSessionResponse
| SOPC_TypeInternalIndex_UserIdentityToken
| SOPC_TypeInternalIndex_AnonymousIdentityToken
| SOPC_TypeInternalIndex_UserNameIdentityToken
| SOPC_TypeInternalIndex_X509IdentityToken
| SOPC_TypeInternalIndex_KerberosIdentityToken
| SOPC_TypeInternalIndex_IssuedIdentityToken
| SOPC_TypeInternalIndex_ActivateSessionRequest
| SOPC_TypeInternalIndex_ActivateSessionResponse
| SOPC_TypeInternalIndex_CloseSessionRequest
| SOPC_TypeInternalIndex_CloseSessionResponse
| SOPC_TypeInternalIndex_CancelRequest
| SOPC_TypeInternalIndex_CancelResponse
| SOPC_TypeInternalIndex_NodeAttributes
| SOPC_TypeInternalIndex_ObjectAttributes
| SOPC_TypeInternalIndex_VariableAttributes
| SOPC_TypeInternalIndex_MethodAttributes
| SOPC_TypeInternalIndex_ObjectTypeAttributes
| SOPC_TypeInternalIndex_VariableTypeAttributes
| SOPC_TypeInternalIndex_ReferenceTypeAttributes
| SOPC_TypeInternalIndex_DataTypeAttributes
| SOPC_TypeInternalIndex_ViewAttributes
| SOPC_TypeInternalIndex_AddNodesItem
| SOPC_TypeInternalIndex_AddNodesResult
| SOPC_TypeInternalIndex_AddNodesRequest
| SOPC_TypeInternalIndex_AddNodesResponse
| SOPC_TypeInternalIndex_AddReferencesItem
| SOPC_TypeInternalIndex_AddReferencesRequest
| SOPC_TypeInternalIndex_AddReferencesResponse
| SOPC_TypeInternalIndex_DeleteNodesItem
| SOPC_TypeInternalIndex_DeleteNodesRequest
| SOPC_TypeInternalIndex_DeleteNodesResponse
| SOPC_TypeInternalIndex_DeleteReferencesItem
| SOPC_TypeInternalIndex_DeleteReferencesRequest
| SOPC_TypeInternalIndex_DeleteReferencesResponse
| SOPC_TypeInternalIndex_ViewDescription
| SOPC_TypeInternalIndex_BrowseDescription
| SOPC_TypeInternalIndex_ReferenceDescription
| SOPC_TypeInternalIndex_BrowseResult
| SOPC_TypeInternalIndex_BrowseRequest
| SOPC_TypeInternalIndex_BrowseResponse
| SOPC_TypeInternalIndex_BrowseNextRequest
| SOPC_TypeInternalIndex_BrowseNextResponse
| SOPC_TypeInternalIndex_RelativePathElement
| SOPC_TypeInternalIndex_RelativePath
| SOPC_TypeInternalIndex_BrowsePath
| SOPC_TypeInternalIndex_BrowsePathTarget
| SOPC_TypeInternalIndex_BrowsePathResult
| SOPC_TypeInternalIndex_TranslateBrowsePathsToNodeIdsRequest
| SOPC_TypeInternalIndex_TranslateBrowsePathsToNodeIdsResponse
| SOPC_TypeInternalIndex_RegisterNodesRequest
| SOPC_TypeInternalIndex_RegisterNodesResponse
| SOPC_TypeInternalIndex_UnregisterNodesRequest
| SOPC_TypeInternalIndex_UnregisterNodesResponse
| SOPC_TypeInternalIndex_EndpointConfiguration
| SOPC_TypeInternalIndex_SupportedProfile
| SOPC_TypeInternalIndex_SoftwareCertificate
| SOPC_TypeInternalIndex_QueryDataDescription
| SOPC_TypeInternalIndex_NodeTypeDescription
| SOPC_TypeInternalIndex_QueryDataSet
| SOPC_TypeInternalIndex_NodeReference
| SOPC_TypeInternalIndex_ContentFilterElement
| SOPC_TypeInternalIndex_ContentFilter
| SOPC_TypeInternalIndex_ElementOperand
| SOPC_TypeInternalIndex_LiteralOperand
| SOPC_TypeInternalIndex_AttributeOperand
| SOPC_TypeInternalIndex_SimpleAttributeOperand
| SOPC_TypeInternalIndex_ContentFilterElementResult
| SOPC_TypeInternalIndex_ContentFilterResult
| SOPC_TypeInternalIndex_ParsingResult
| SOPC_TypeInternalIndex_QueryFirstRequest
| SOPC_TypeInternalIndex_QueryFirstResponse
| SOPC_TypeInternalIndex_QueryNextRequest
| SOPC_TypeInternalIndex_QueryNextResponse
| SOPC_TypeInternalIndex_ReadValueId
| SOPC_TypeInternalIndex_ReadRequest
| SOPC_TypeInternalIndex_ReadResponse
| SOPC_TypeInternalIndex_HistoryReadValueId
| SOPC_TypeInternalIndex_HistoryReadResult
| SOPC_TypeInternalIndex_EventFilter
| SOPC_TypeInternalIndex_ReadEventDetails
| SOPC_TypeInternalIndex_ReadRawModifiedDetails
| SOPC_TypeInternalIndex_AggregateConfiguration
| SOPC_TypeInternalIndex_ReadProcessedDetails
| SOPC_TypeInternalIndex_ReadAtTimeDetails
| SOPC_TypeInternalIndex_HistoryData
| SOPC_TypeInternalIndex_ModificationInfo
| SOPC_TypeInternalIndex_HistoryModifiedData
| SOPC_TypeInternalIndex_HistoryEventFieldList
| SOPC_TypeInternalIndex_HistoryEvent
| SOPC_TypeInternalIndex_HistoryReadRequest
| SOPC_TypeInternalIndex_HistoryReadResponse
| SOPC_TypeInternalIndex_WriteValue
| SOPC_TypeInternalIndex_WriteRequest
| SOPC_TypeInternalIndex_WriteResponse
| SOPC_TypeInternalIndex_HistoryUpdateDetails
| SOPC_TypeInternalIndex_UpdateDataDetails
| SOPC_TypeInternalIndex_UpdateStructureDataDetails
| SOPC_TypeInternalIndex_UpdateEventDetails
| SOPC_TypeInternalIndex_DeleteRawModifiedDetails
| SOPC_TypeInternalIndex_DeleteAtTimeDetails
| SOPC_TypeInternalIndex_DeleteEventDetails
| SOPC_TypeInternalIndex_HistoryUpdateResult
| SOPC_TypeInternalIndex_HistoryUpdateRequest
| SOPC_TypeInternalIndex_HistoryUpdateResponse
| SOPC_TypeInternalIndex_CallMethodRequest
| SOPC_TypeInternalIndex_CallMethodResult
| SOPC_TypeInternalIndex_CallRequest
| SOPC_TypeInternalIndex_CallResponse
| SOPC_TypeInternalIndex_DataChangeFilter
| SOPC_TypeInternalIndex_AggregateFilter
| SOPC_TypeInternalIndex_EventFilterResult
| SOPC_TypeInternalIndex_AggregateFilterResult
| SOPC_TypeInternalIndex_MonitoringParameters
| SOPC_TypeInternalIndex_MonitoredItemCreateRequest
| SOPC_TypeInternalIndex_MonitoredItemCreateResult
| SOPC_TypeInternalIndex_CreateMonitoredItemsRequest
| SOPC_TypeInternalIndex_CreateMonitoredItemsResponse
| SOPC_TypeInternalIndex_MonitoredItemModifyRequest
| SOPC_TypeInternalIndex_MonitoredItemModifyResult
| SOPC_TypeInternalIndex_ModifyMonitoredItemsRequest
| SOPC_TypeInternalIndex_ModifyMonitoredItemsResponse
| SOPC_TypeInternalIndex_SetMonitoringModeRequest
| SOPC_TypeInternalIndex_SetMonitoringModeResponse
| SOPC_TypeInternalIndex_SetTriggeringRequest
| SOPC_TypeInternalIndex_SetTriggeringResponse
| SOPC_TypeInternalIndex_DeleteMonitoredItemsRequest
| SOPC_TypeInternalIndex_DeleteMonitoredItemsResponse
| SOPC_TypeInternalIndex_CreateSubscriptionRequest
| SOPC_TypeInternalIndex_CreateSubscriptionResponse
| SOPC_TypeInternalIndex_ModifySubscriptionRequest
| SOPC_TypeInternalIndex_ModifySubscriptionResponse
| SOPC_TypeInternalIndex_SetPublishingModeRequest
| SOPC_TypeInternalIndex_SetPublishingModeResponse
| SOPC_TypeInternalIndex_NotificationMessage
| SOPC_TypeInternalIndex_MonitoredItemNotification
| SOPC_TypeInternalIndex_DataChangeNotification
| SOPC_TypeInternalIndex_EventFieldList
| SOPC_TypeInternalIndex_EventNotificationList
| SOPC_TypeInternalIndex_StatusChangeNotification
| SOPC_TypeInternalIndex_SubscriptionAcknowledgement
| SOPC_TypeInternalIndex_PublishRequest
| SOPC_TypeInternalIndex_PublishResponse
| SOPC_TypeInternalIndex_RepublishRequest
| SOPC_TypeInternalIndex_RepublishResponse
| SOPC_TypeInternalIndex_TransferResult
| SOPC_TypeInternalIndex_TransferSubscriptionsRequest
| SOPC_TypeInternalIndex_TransferSubscriptionsResponse
| SOPC_TypeInternalIndex_DeleteSubscriptionsRequest
| SOPC_TypeInternalIndex_DeleteSubscriptionsResponse
| SOPC_TypeInternalIndex_BuildInfo
| SOPC_TypeInternalIndex_RedundantServerDataType
| SOPC_TypeInternalIndex_EndpointUrlListDataType
| SOPC_TypeInternalIndex_NetworkGroupDataType
| SOPC_TypeInternalIndex_SamplingIntervalDiagnosticsDataType
| SOPC_TypeInternalIndex_ServerDiagnosticsSummaryDataType
| SOPC_TypeInternalIndex_ServerStatusDataType
| SOPC_TypeInternalIndex_ServiceCounterDataType
| SOPC_TypeInternalIndex_SessionDiagnosticsDataType
| SOPC_TypeInternalIndex_SessionSecurityDiagnosticsDataType
| SOPC_TypeInternalIndex_StatusResult
| SOPC_TypeInternalIndex_SubscriptionDiagnosticsDataType
| SOPC_TypeInternalIndex_ModelChangeStructureDataType
| SOPC_TypeInternalIndex_SemanticChangeStructureDataType
| SOPC_TypeInternalIndex_Range
| SOPC_TypeInternalIndex_EUInformation
| SOPC_TypeInternalIndex_ComplexNumberType
| SOPC_TypeInternalIndex_DoubleComplexNumberType
| SOPC_TypeInternalIndex_AxisInformation
| SOPC_TypeInternalIndex_XVType
| SOPC_TypeInternalIndex_ProgramDiagnosticDataType
| SOPC_TypeInternalIndex_Annotation.

(** The value of a constant of the enumeration. *)
Definition type_index (t : SOPC_TypeInternalIndex) : Z :=
  match t with
  | SOPC_TypeInternalIndex_ReferenceNode => 0
  | SOPC_TypeInternalIndex_Node => 1
  | SOPC_TypeInternalIndex_InstanceNode => 2
  | SOPC_TypeInternalIndex_TypeNode => 3
  | SOPC_TypeInternalIndex_ObjectNode => 4
  | SOPC_TypeInternalIndex_ObjectTypeNode => 5
  | SOPC_TypeInternalIndex_VariableNode => 6
  | SOPC_TypeInternalIndex_VariableTypeNode => 7
  | SOPC_TypeInternalIndex_ReferenceTypeNode => 8
  | SOPC_TypeInternalIndex_MethodNode => 9
  | SOPC_TypeInternalIndex_ViewNode => 10
  | SOPC_TypeInternalIndex_DataTypeNode => 11
  | SOPC_TypeInternalIndex_Argument => 12
  | SOPC_TypeInternalIndex_EnumValueType => 13
  | SOPC_TypeInternalIndex_EnumField => 14
  | SOPC_TypeInternalIndex_OptionSet => 15
  | SOPC_TypeInternalIndex_TimeZoneDataType => 16
  | SOPC_TypeInternalIndex_ApplicationDescription => 17
  | SOPC_TypeInternalIndex_RequestHeader => 18
  | SOPC_TypeInternalIndex_ResponseHeader => 19
  | SOPC_TypeInternalIndex_ServiceFault => 20
  | SOPC_TypeInternalIndex_FindServersRequest => 21
  | SOPC_TypeInternalIndex_FindServersResponse => 22
  | SOPC_TypeInternalIndex_ServerOnNetwork => 23
  | SOPC_TypeInternalIndex_FindServersOnNetworkRequest => 24
  | SOPC_TypeInternalIndex_FindServersOnNetworkResponse => 25
  | SOPC_TypeInternalIndex_UserTokenPolicy => 26
  | SOPC_TypeInternalIndex_EndpointDescription => 27
  | SOPC_TypeInternalIndex_GetEndpointsRequest => 28
  | SOPC_TypeInternalIndex_GetEndpointsResponse => 29
  | SOPC_TypeInternalIndex_RegisteredServer => 30
  | SOPC_TypeInternalIndex_RegisterServerRequest => 31
  | SOPC_TypeInternalIndex_RegisterServerResponse => 32
  | SOPC_TypeInternalIndex_MdnsDiscoveryConfiguration => 33
  | SOPC_TypeInternalIndex_RegisterServer2Request => 34
  | SOPC_TypeInternalIndex_RegisterServer2Response => 35
  | SOPC_TypeInternalIndex_ChannelSecurityToken => 36
  | SOPC_TypeInternalIndex_OpenSecureChannelRequest => 37
  | SOPC_TypeInternalIndex_OpenSecureChannelResponse => 38
  | SOPC_TypeInternalIndex_CloseSecureChannelRequest => 39
  | SOPC_TypeInternalIndex_CloseSecureChannelResponse => 40
  | SOPC_TypeInternalIndex_SignedSoftwareCertificate => 41
  | SOPC_TypeInternalIndex_SignatureData => 42
  | SOPC_TypeInternalIndex_CreateSessionRequest => 43
  | SOPC_TypeInternalIndex_CreateSessionResponse => 44
  | SOPC_TypeInternalIndex_UserIdentityToken => 45
  | SOPC_TypeInternalIndex_AnonymousIdentityToken => 46
  | SOPC_TypeInternalIndex_UserNameIdentityToken => 47
  | SOPC_TypeInternalIndex_X509IdentityToken => 48
  | SOPC_TypeInternalIndex_KerberosIdentityToken => 49
  | SOPC_TypeInternalIndex_IssuedIdentityToken => 50
  | SOPC_TypeInternalIndex_ActivateSessionRequest => 51
  | SOPC_TypeInternalIndex_ActivateSessionResponse => 52
  | SOPC_TypeInternalIndex_CloseSessionRequest => 53
  | SOPC_TypeInternalIndex_CloseSessionResponse => 54
  | SOPC_TypeInternalIndex_CancelRequest => 55
  | SOPC_TypeInternalIndex_CancelResponse => 56
  | SOPC_TypeInternalIndex_NodeAttributes => 57
  | SOPC_TypeInternalIndex_ObjectAttributes => 58
  | SOPC_TypeInternalIndex_VariableAttributes => 59
  | SOPC_TypeInternalIndex_MethodAttributes => 60
  | SOPC_TypeInternalIndex_ObjectTypeAttributes => 61
  | SOPC_TypeInternalIndex_VariableTypeAttributes => 62
  | SOPC_TypeInternalIndex_ReferenceTypeAttributes => 63
  | SOPC_TypeInternalIndex_DataTypeAttributes => 64
  | SOPC_TypeInternalIndex_ViewAttributes => 65
  | SOPC_TypeInternalIndex_AddNodesItem => 66
  | SOPC_TypeInternalIndex_AddNodesResult => 67
  | SOPC_TypeInternalIndex_AddNodesRequest => 68
  | SOPC_TypeInternalIndex_AddNodesResponse => 69
  | SOPC_TypeInternalIndex_AddReferencesItem => 70
  | SOPC_TypeInternalIndex_AddReferencesRequest => 71
  | SOPC_TypeInternalIndex_AddReferencesResponse => 72
  | SOPC_TypeInternalIndex_DeleteNodesItem => 73
  | SOPC_TypeInternalIndex_DeleteNodesRequest => 74
  | SOPC_TypeInternalIndex_DeleteNodesResponse => 75
  | SOPC_TypeInternalIndex_DeleteReferencesItem => 76
  | SOPC_TypeInternalIndex_DeleteReferencesRequest => 77
  | SOPC_TypeInternalIndex_DeleteReferencesResponse => 78
  | SOPC_TypeInternalIndex_ViewDescription => 79
  | SOPC_TypeInternalIndex_BrowseDescription => 80
  | SOPC_TypeInternalIndex_ReferenceDescription => 81
  | SOPC_TypeInternalIndex_BrowseResult => 82
  | SOPC_TypeInternalIndex_BrowseRequest => 83
  | SOPC_TypeInternalIndex_BrowseResponse => 84
  | SOPC_TypeInternalIndex_BrowseNextRequest => 85
  | SOPC_TypeInternalIndex_BrowseNextResponse => 86
  | SOPC_TypeInternalIndex_RelativePathElement => 87
  | SOPC_TypeInternalIndex_RelativePath => 88
  | SOPC_TypeInternalIndex_BrowsePath => 89
  | SOPC_TypeInternalIndex_BrowsePathTarget => 90
  | SOPC_TypeInternalIndex_BrowsePathResult => 91
  | SOPC_TypeInternalIndex_TranslateBrowsePathsToNodeIdsRequest => 92
  | SOPC_TypeInternalIndex_TranslateBrowsePathsToNodeIdsResponse => 93
  | SOPC_TypeInternalIndex_RegisterNodesRequest => 94
  | SOPC_TypeInternalIndex_RegisterNodesResponse => 95
  | SOPC_TypeInternalIndex_UnregisterNodesRequest => 96
  | SOPC_TypeInternalIndex_UnregisterNodesResponse => 97
  | SOPC_TypeInternalIndex_EndpointConfiguration => 98
  | SOPC_TypeInternalIndex_SupportedProfile => 99
  | SOPC_TypeInternalIndex_SoftwareCertificate => 100
  | SOPC_TypeInternalIndex_QueryDataDescription => 101
  | SOPC_TypeInternalIndex_NodeTypeDescription => 102
  | SOPC_TypeInternalIndex_QueryDataSet => 103
  | SOPC_TypeInternalIndex_NodeReference => 104
  | SOPC_TypeInternalIndex_ContentFilterElement => 105
  | SOPC_TypeInternalIndex_ContentFilter => 106
  | SOPC_TypeInternalIndex_ElementOperand => 107
  | SOPC_TypeInternalIndex_LiteralOperand => 108
  | SOPC_TypeInternalIndex_AttributeOperand => 109
  | SOPC_TypeInternalIndex_SimpleAttributeOperand => 110
  | SOPC_TypeInternalIndex_ContentFilterElementResult => 111
  | SOPC_TypeInternalIndex_ContentFilterResult => 112
  | SOPC_TypeInternalIndex_ParsingResult => 113
  | SOPC_TypeInternalIndex_QueryFirstRequest => 114
  | SOPC_TypeInternalIndex_QueryFirstResponse => 115
  | SOPC_TypeInternalIndex_QueryNextRequest => 116
  | SOPC_TypeInternalIndex_QueryNextResponse => 117
  | SOPC_TypeInternalIndex_ReadValueId => 118
  | SOPC_TypeInternalIndex_ReadRequest => 119
  | SOPC_TypeInternalIndex_ReadResponse => 120
  | SOPC_TypeInternalIndex_HistoryReadValueId => 121
  | SOPC_TypeInternalIndex_HistoryReadResult => 122
  | SOPC_TypeInternalIndex_EventFilter => 123
  | SOPC_TypeInternalIndex_ReadEventDetails => 124
  | SOPC_TypeInternalIndex_ReadRawModifiedDetails => 125
  | SOPC_TypeInternalIndex_AggregateConfiguration => 126
  | SOPC_TypeInternalIndex_ReadProcessedDetails => 127
  | SOPC_TypeInternalIndex_ReadAtTimeDetails => 128
  | SOPC_TypeInternalIndex_HistoryData => 129
  | SOPC_TypeInternalIndex_ModificationInfo => 130
  | SOPC_TypeInternalIndex_HistoryModifiedData => 131
  | SOPC_TypeInternalIndex_HistoryEventFieldList => 132
  | SOPC_TypeInternalIndex_HistoryEvent => 133
  | SOPC_TypeInternalIndex_HistoryReadRequest => 134
  | SOPC_TypeInternalIndex_HistoryReadResponse => 135
  | SOPC_TypeInternalIndex_WriteValue => 136
  | SOPC_TypeInternalIndex_WriteRequest => 137
  | SOPC_TypeInternalIndex_WriteResponse => 138
  | SOPC_TypeInternalIndex_HistoryUpdateDetails => 139
  | SOPC_TypeInternalIndex_UpdateDataDetails => 140
  | SOPC_TypeInternalIndex_UpdateStructureDataDetails => 141
  | SOPC_TypeInternalIndex_UpdateEventDetails => 142
  | SOPC_TypeInternalIndex_DeleteRawModifiedDetails => 143
  | SOPC_TypeInternalIndex_DeleteAtTimeDetails => 144
  | SOPC_TypeInternalIndex_DeleteEventDetails => 145
  | SOPC_TypeInternalIndex_HistoryUpdateResult => 146
  | SOPC_TypeInternalIndex_HistoryUpdateRequest => 147
  | SOPC_TypeInternalIndex_HistoryUpdateResponse => 148
  | SOPC_TypeInternalIndex_CallMethodRequest => 149
  | SOPC_TypeInternalIndex_CallMethodResult => 150
  | SOPC_TypeInternalIndex_CallRequest => 151
  | SOPC_TypeInternalIndex_CallResponse => 152
  | SOPC_TypeInternalIndex_DataChangeFilter => 153
  | SOPC_TypeInternalIndex_AggregateFilter => 154
  | SOPC_TypeInternalIndex_EventFilterResult => 155
  | SOPC_TypeInternalIndex_AggregateFilterResult => 156
  | SOPC_TypeInternalIndex_MonitoringParameters => 157
  | SOPC_TypeInternalIndex_MonitoredItemCreateRequest => 158
  | SOPC_TypeInternalIndex_MonitoredItemCreateResult => 159
  | SOPC_TypeInternalIndex_CreateMonitoredItemsRequest => 160
  | SOPC_TypeInternalIndex_CreateMonitoredItemsResponse => 161
  | SOPC_TypeInternalIndex_MonitoredItemModifyRequest => 162
  | SOPC_TypeInternalIndex_MonitoredItemModifyResult => 163
  | SOPC_TypeInternalIndex_ModifyMonitoredItemsRequest => 164
  | SOPC_TypeInternalIndex_ModifyMonitoredItemsResponse => 165
  | SOPC_TypeInternalIndex_SetMonitoringModeRequest => 166
  | SOPC_TypeInternalIndex_SetMonitoringModeResponse => 167
  | SOPC_TypeInternalIndex_SetTriggeringRequest => 168
  | SOPC_TypeInternalIndex_SetTriggeringResponse => 169
  | SOPC_TypeInternalIndex_DeleteMonitoredItemsRequest => 170
  | SOPC_TypeInternalIndex_DeleteMonitoredItemsResponse => 171
  | SOPC_TypeInternalIndex_CreateSubscriptionRequest => 172
  | SOPC_TypeInternalIndex_CreateSubscriptionResponse => 173
  | SOPC_TypeInternalIndex_ModifySubscriptionRequest => 174
  | SOPC_TypeInternalIndex_ModifySubscriptionResponse => 175
  | SOPC_TypeInternalIndex_SetPublishingModeRequest => 176
  | SOPC_TypeInternalIndex_SetPublishingModeResponse => 177
  | SOPC_TypeInternalIndex_NotificationMessage => 178
  | SOPC_TypeInternalIndex_MonitoredItemNotification => 179
  | SOPC_TypeInternalIndex_DataChangeNotification => 180
  | SOPC_TypeInternalIndex_EventFieldList => 181
  | SOPC_TypeInternalIndex_EventNotificationList => 182
  | SOPC_TypeInternalIndex_StatusChangeNotification => 183
  | SOPC_TypeInternalIndex_SubscriptionAcknowledgement => 184
  | SOPC_TypeInternalIndex_PublishRequest => 185
  | SOPC_TypeInternalIndex_PublishResponse => 186
  | SOPC_TypeInternalIndex_RepublishRequest => 187
  | SOPC_TypeInternalIndex_RepublishResponse => 188
  | SOPC_TypeInternalIndex_TransferResult => 189
  | SOPC_TypeInternalIndex_TransferSubscriptionsRequest => 190
  | SOPC_TypeInternalIndex_TransferSubscriptionsResponse => 191
  | SOPC_TypeInternalIndex_DeleteSubscriptionsRequest => 192
  | SOPC_TypeInternalIndex_DeleteSubscriptionsResponse => 193
  | SOPC_TypeInternalIndex_BuildInfo => 194
  | SOPC_TypeInternalIndex_RedundantServerDataType => 195
  | SOPC_TypeInternalIndex_EndpointUrlListDataType => 196
  | SOPC_TypeInternalIndex_NetworkGroupDataType => 197
  | SOPC_TypeInternalIndex_SamplingIntervalDiagnosticsDataType => 198
  | SOPC_TypeInternalIndex_ServerDiagnosticsSummaryDataType => 199
  | SOPC_TypeInternalIndex_ServerStatusDataType => 200
  | SOPC_TypeInternalIndex_ServiceCounterDataType => 201
  | SOPC_TypeInternalIndex_SessionDiagnosticsDataType => 202
  | SOPC_TypeInternalIndex_SessionSecurityDiagnosticsDataType => 203
  | SOPC_TypeInternalIndex_StatusResult => 204
  | SOPC_TypeInternalIndex_SubscriptionDiagnosticsDataType => 205
  | SOPC_TypeInternalIndex_ModelChangeStructureDataType => 206
  | SOPC_TypeInternalIndex_SemanticChangeStructureDataType => 207
  | SOPC_TypeInternalIndex_Range => 208
  | SOPC_TypeInternalIndex_EUInformation => 209
  | SOPC_TypeInternalIndex_ComplexNumberType => 210
  | SOPC_TypeInternalIndex_DoubleComplexNumberType => 211
  | SOPC_TypeInternalIndex_AxisInformation => 212
  | SOPC_TypeInternalIndex_XVType => 213
  | SOPC_TypeInternalIndex_ProgramDiagnosticDataType => 214
  | SOPC_TypeInternalIndex_Annotation => 215
  end.

(** ** Fields *)

(** A descriptor: [isBuiltIn], [isArrayLength], [isToEncode] and [typeIndex]. *)
Definition builtin (len enc : bool) (id : SOPC_BuiltinId) : SOPC_EncodeableType_FieldDescriptor :=
  mkField true len enc (builtin_value id).
Definition struct (len enc : bool) (t : SOPC_TypeInternalIndex) : SOPC_EncodeableType_FieldDescriptor :=
  mkField false len enc (type_index t).

Definition ReferenceNode_Fields : list SOPC_EncodeableType_FieldDescriptor := [
  builtin false true SOPC_NodeId_Id;
  builtin false true SOPC_Boolean_Id;
  builtin false true SOPC_ExpandedNodeId_Id
].

Definition Node_Fields : list SOPC_EncodeableType_FieldDescriptor := [
  builtin false true SOPC_NodeId_Id;
  builtin false true SOPC_Int32_Id;
  builtin false true SOPC_QualifiedName_Id;
  builtin false true SOPC_LocalizedText_Id;
  builtin false true SOPC_LocalizedText_Id;
  builtin false true SOPC_UInt32_Id;
  builtin false true SOPC_UInt32_Id;
  builtin true true SOPC_Int32_Id;
  struct false true SOPC_TypeInternalIndex_ReferenceNode
].

Definition InstanceNode_Fields : list SOPC_EncodeableType_FieldDescriptor := [
  builtin false true SOPC_NodeId_Id;
  builtin false true SOPC_Int32_Id;
  builtin false true SOPC_QualifiedName_Id;
  builtin false true SOPC_LocalizedText_Id;
  builtin false true SOPC_LocalizedText_Id;
  builtin false true SOPC_UInt32_Id;
  builtin false true SOPC_UInt32_Id;
  builtin true true SOPC_Int32_Id;
  struct false true SOPC_TypeInternalIndex_ReferenceNode
].

Definition TypeNode_Fields : list SOPC_EncodeableType_FieldDescriptor := [
  builtin false true SOPC_NodeId_Id;
  builtin false true SOPC_Int32_Id;
  builtin false true SOPC_QualifiedName_Id;
  builtin false true SOPC_LocalizedText_Id;
  builtin false true SOPC_LocalizedText_Id;
  builtin false true SOPC_UInt32_Id;
  builtin false true SOPC_UInt32_Id;
  builtin true true SOPC_Int32_Id;
  struct false true SOPC_TypeInternalIndex_ReferenceNode
].

Definition ObjectNode_Fields : list SOPC_EncodeableType_FieldDescriptor := [
  builtin false true SOPC_NodeId_Id;
  builtin false true SOPC_Int32_Id;
  builtin false true SOPC_QualifiedName_Id;
  builtin false true SOPC_LocalizedText_Id;
  builtin false true SOPC_LocalizedText_Id;
  builtin false true SOPC_UInt32_Id;
  builtin false true SOPC_UInt32_Id;
  builtin true true SOPC_Int32_Id;
  struct false true SOPC_TypeInternalIndex_ReferenceNode;
  builtin false true SOPC_Byte_Id
].

Definition ObjectTypeNode_Fields : list SOPC_EncodeableType_FieldDescriptor := [
  builtin false true SOPC_NodeId_Id;
  builtin false true SOPC_Int32_Id;
  builtin false true SOPC_QualifiedName_Id;
  builtin false true SOPC_LocalizedText_Id;
  builtin false true SOPC_LocalizedText_Id;
  builtin false true SOPC_UInt32_Id;
  builtin false true SOPC_UInt32_Id;
  builtin true true SOPC_Int32_Id;
  struct false true SOPC_TypeInternalIndex_ReferenceNode;
  builtin false true SOPC_Boolean_Id
].

Definition VariableNode_Fields : list SOPC_EncodeableType_FieldDescriptor := [
  builtin false true SOPC_NodeId_Id;
  builtin false true SOPC_Int32_Id;
  builtin false true SOPC_QualifiedName_Id;
  builtin false true SOPC_LocalizedText_Id;
  builtin false true SOPC_LocalizedText_Id;
  builtin false true SOPC_UInt32_Id;
  builtin false true SOPC_UInt32_Id;
  builtin true true SOPC_Int32_Id;
  struct false true SOPC_TypeInternalIndex_ReferenceNode;
  builtin false true SOPC_Variant_Id;
  builtin false true SOPC_NodeId_Id;
  builtin false true SOPC_Int32_Id;
  builtin true true SOPC_Int32_Id;
  builtin false true SOPC_UInt32_Id;
  builtin false true SOPC_Byte_Id;
  builtin false true SOPC_Byte_Id;
  builtin false true SOPC_Double_Id;
  builtin false true SOPC_Boolean_Id
].

Definition VariableTypeNode_Fields : list SOPC_EncodeableType_FieldDescriptor := [
  builtin false true SOPC_NodeId_Id;
  builtin false true SOPC_Int32_Id;
  builtin false true SOPC_QualifiedName_Id;
  builtin false true SOPC_LocalizedText_Id;
  builtin false true SOPC_LocalizedText_Id;
  builtin false true SOPC_UInt32_Id;
  builtin false true SOPC_UInt32_Id;
  builtin true true SOPC_Int32_Id;
  struct false true SOPC_TypeInternalIndex_ReferenceNode;
  builtin false true SOPC_Variant_Id;
  builtin false true SOPC_NodeId_Id;
  builtin false true SOPC_Int32_Id;
  builtin true true SOPC_Int32_Id;
  builtin false true SOPC_UInt32_Id;
  builtin false true SOPC_Boolean_Id
].

Definition ReferenceTypeNode_Fields : list SOPC_EncodeableType_FieldDescriptor := [
  builtin false true SOPC_NodeId_Id;
  builtin false true SOPC_Int32_Id;
  builtin false true SOPC_QualifiedName_Id;
  builtin false true SOPC_LocalizedText_Id;
  builtin false true SOPC_LocalizedText_Id;
  builtin false true SOPC_UInt32_Id;
  builtin false true SOPC_UInt32_Id;
  builtin true true SOPC_Int32_Id;
  struct false true SOPC_TypeInternalIndex_ReferenceNode;
  builtin false true SOPC_Boolean_Id;
  builtin false true SOPC_Boolean_Id;
  builtin false true SOPC_LocalizedText_Id
].

Definition MethodNode_Fields : list SOPC_EncodeableType_FieldDescriptor := [
  builtin false true SOPC_NodeId_Id;
  builtin false true SOPC_Int32_Id;
  builtin false true SOPC_QualifiedName_Id;
  builtin false true SOPC_LocalizedText_Id;
  builtin false true SOPC_LocalizedText_Id;
  builtin false true SOPC_UInt32_Id;
  builtin false true SOPC_UInt32_Id;
  builtin true true SOPC_Int32_Id;
  struct false true SOPC_TypeInternalIndex_ReferenceNode;
  builtin false true SOPC_Boolean_Id;
  builtin false true SOPC_Boolean_Id
].

Definition ViewNode_Fields : list SOPC_EncodeableType_FieldDescriptor := [
  builtin false true SOPC_NodeId_Id;
  builtin false true SOPC_Int32_Id;
  builtin false true SOPC_QualifiedName_Id;
  builtin false true SOPC_LocalizedText_Id;
  builtin false true SOPC_LocalizedText_Id;
  builtin false true SOPC_UInt32_Id;
  builtin false true SOPC_UInt32_Id;
  builtin true true SOPC_Int32_Id;
  struct false true SOPC_TypeInternalIndex_ReferenceNode;
  builtin false true SOPC_Boolean_Id;
  builtin false true SOPC_Byte_Id
].

Definition DataTypeNode_Fields : list SOPC_EncodeableType_FieldDescriptor := [
  builtin false true SOPC_NodeId_Id;
  builtin false true SOPC_Int32_Id;
  builtin false true SOPC_QualifiedName_Id;
  builtin false true SOPC_LocalizedText_Id;
  builtin false true SOPC_LocalizedText_Id;
  builtin false true SOPC_UInt32_Id;
  builtin false true SOPC_UInt32_Id;
  builtin true true SOPC_Int32_Id;
  struct false true SOPC_TypeInternalIndex_ReferenceNode;
  builtin false true SOPC_Boolean_Id
].

Definition Argument_Fields : list SOPC_EncodeableType_FieldDescriptor := [
  builtin false true SOPC_String_Id;
  builtin false true SOPC_NodeId_Id;
  builtin false true SOPC_Int32_Id;
  builtin true true SOPC_Int32_Id;
  builtin false true SOPC_UInt32_Id;
  builtin false true SOPC_LocalizedText_Id
].

Definition EnumValueType_Fields : list SOPC_EncodeableType_FieldDescriptor := [
  builtin false true SOPC_Int64_Id;
  builtin false true SOPC_LocalizedText_Id;
  builtin false true SOPC_LocalizedText_Id
].

Definition EnumField_Fields : list SOPC_EncodeableType_FieldDescriptor := [
  builtin false true SOPC_Int64_Id;
  builtin false true SOPC_LocalizedText_Id;
  builtin false true SOPC_LocalizedText_Id;
  builtin false true SOPC_String_Id
].

Definition OptionSet_Fields : list SOPC_EncodeableType_FieldDescriptor := [
  builtin false true SOPC_ByteString_Id;
  builtin false true SOPC_ByteString_Id
].

Definition TimeZoneDataType_Fields : list SOPC_EncodeableType_FieldDescriptor := [
  builtin false true SOPC_Int16_Id;
  builtin false true SOPC_Boolean_Id
].

Definition ApplicationDescription_Fields : list SOPC_EncodeableType_FieldDescriptor := [
  builtin false true SOPC_String_Id;
  builtin false true SOPC_String_Id;
  builtin false true SOPC_LocalizedText_Id;
  builtin false true SOPC_Int32_Id;
  builtin false true SOPC_String_Id;
  builtin false true SOPC_String_Id;
  builtin true true SOPC_Int32_Id;
  builtin false true SOPC_String_Id
].

Definition RequestHeader_Fields : list SOPC_EncodeableType_FieldDescriptor := [
  builtin false true SOPC_NodeId_Id;
  builtin false true SOPC_DateTime_Id;
  builtin false true SOPC_UInt32_Id;
  builtin false true SOPC_UInt32_Id;
  builtin false true SOPC_String_Id;
  builtin false true SOPC_UInt32_Id;
  builtin false true SOPC_ExtensionObject_Id
].

Definition ResponseHeader_Fields : list SOPC_EncodeableType_FieldDescriptor := [
  builtin false true SOPC_DateTime_Id;
  builtin false true SOPC_UInt32_Id;
  builtin false true SOPC_StatusCode_Id;
  builtin false true SOPC_DiagnosticInfo_Id;
  builtin true true SOPC_Int32_Id;
  builtin false true SOPC_String_Id;
  builtin false true SOPC_ExtensionObject_Id
].

Definition ServiceFault_Fields : list SOPC_EncodeableType_FieldDescriptor := [
  struct false false SOPC_TypeInternalIndex_ResponseHeader
].

Definition FindServersRequest_Fields : list SOPC_EncodeableType_FieldDescriptor := [
  builtin false true SOPC_String_Id;
  builtin true true SOPC_Int32_Id;
  builtin false true SOPC_String_Id;
  builtin true true SOPC_Int32_Id;
  builtin false true SOPC_String_Id
].

Definition FindServersResponse_Fields : list SOPC_EncodeableType_FieldDescriptor := [
  struct false false SOPC_TypeInternalIndex_ResponseHeader;
  builtin true true SOPC_Int32_Id;
  struct false true SOPC_TypeInternalIndex_ApplicationDescription
].

Definition ServerOnNetwork_Fields : list SOPC_EncodeableType_FieldDescriptor := [
  builtin false true SOPC_UInt32_Id;
  builtin false true SOPC_String_Id;
  builtin false true SOPC_String_Id;
  builtin true true SOPC_Int32_Id;
  builtin false true SOPC_String_Id
].

Definition FindServersOnNetworkRequest_Fields : list SOPC_EncodeableType_FieldDescriptor := [
  builtin false true SOPC_UInt32_Id;
  builtin false true SOPC_UInt32_Id;
  builtin true true SOPC_Int32_Id;
  builtin false true SOPC_String_Id
].

Definition FindServersOnNetworkResponse_Fields : list SOPC_EncodeableType_FieldDescriptor := [
  struct false false SOPC_TypeInternalIndex_ResponseHeader;
  builtin false true SOPC_DateTime_Id;
  builtin true true SOPC_Int32_Id;
  struct false true SOPC_TypeInternalIndex_ServerOnNetwork
].

Definition UserTokenPolicy_Fields : list SOPC_EncodeableType_FieldDescriptor := [
  builtin false true SOPC_String_Id;
  builtin false true SOPC_Int32_Id;
  builtin false true SOPC_String_Id;
  builtin false true SOPC_String_Id;
  builtin false true SOPC_String_Id
].

Definition EndpointDescription_Fields : list SOPC_EncodeableType_FieldDescriptor := [
  builtin false true SOPC_String_Id;
  struct false true SOPC_TypeInternalIndex_ApplicationDescription;
  builtin false true SOPC_ByteString_Id;
  builtin false true SOPC_Int32_Id;
  builtin false true SOPC_String_Id;
  builtin true true SOPC_Int32_Id;
  struct false true SOPC_TypeInternalIndex_UserTokenPolicy;
  builtin false true SOPC_String_Id;
  builtin false true SOPC_Byte_Id
].

Definition GetEndpointsRequest_Fields : list SOPC_EncodeableType_FieldDescriptor := [
  builtin false true SOPC_String_Id;
  builtin true true SOPC_Int32_Id;
  builtin false true SOPC_String_Id;
  builtin true true SOPC_Int32_Id;
  builtin false true SOPC_String_Id
].

Definition GetEndpointsResponse_Fields : list SOPC_EncodeableType_FieldDescriptor := [
  struct false false SOPC_TypeInternalIndex_ResponseHeader;
  builtin true true SOPC_Int32_Id;
  struct false true SOPC_TypeInternalIndex_EndpointDescription
].

Definition RegisteredServer_Fields : list SOPC_EncodeableType_FieldDescriptor := [
  builtin false true SOPC_String_Id;
  builtin false true SOPC_String_Id;
  builtin true true SOPC_Int32_Id;
  builtin false true SOPC_LocalizedText_Id;
  builtin false true SOPC_Int32_Id;
  builtin false true SOPC_String_Id;
  builtin true true SOPC_Int32_Id;
  builtin false true SOPC_String_Id;
  builtin false true SOPC_String_Id;
  builtin false true SOPC_Boolean_Id
].

Definition RegisterServerRequest_Fields : list SOPC_EncodeableType_FieldDescriptor := [
  struct false true SOPC_TypeInternalIndex_RegisteredServer
].

Definition RegisterServerResponse_Fields : list SOPC_EncodeableType_FieldDescriptor := [
  struct false false SOPC_TypeInternalIndex_ResponseHeader
].

Definition MdnsDiscoveryConfiguration_Fields : list SOPC_EncodeableType_FieldDescriptor := [
  builtin false true SOPC_String_Id;
  builtin true true SOPC_Int32_Id;
  builtin false true SOPC_String_Id
].

Definition RegisterServer2Request_Fields : list SOPC_EncodeableType_FieldDescriptor := [
  struct false true SOPC_TypeInternalIndex_RegisteredServer;
  builtin true true SOPC_Int32_Id;
  builtin false true SOPC_ExtensionObject_Id
].

Definition RegisterServer2Response_Fields : list SOPC_EncodeableType_FieldDescriptor := [
  struct false false SOPC_TypeInternalIndex_ResponseHeader;
  builtin true true SOPC_Int32_Id;
  builtin false true SOPC_StatusCode_Id;
  builtin true true SOPC_Int32_Id;
  builtin false true SOPC_DiagnosticInfo_Id
].

Definition ChannelSecurityToken_Fields : list SOPC_EncodeableType_FieldDescriptor := [
  builtin false true SOPC_UInt32_Id;
  builtin false true SOPC_UInt32_Id;
  builtin false true SOPC_DateTime_Id;
  builtin false true SOPC_UInt32_Id
].

Definition OpenSecureChannelRequest_Fields : list SOPC_EncodeableType_FieldDescriptor := [
  builtin false true SOPC_UInt32_Id;
  builtin false true SOPC_Int32_Id;
  builtin false true SOPC_Int32_Id;
  builtin false true SOPC_ByteString_Id;
  builtin false true SOPC_UInt32_Id
].

Definition OpenSecureChannelResponse_Fields : list SOPC_EncodeableType_FieldDescriptor := [
  struct false false SOPC_TypeInternalIndex_ResponseHeader;
  builtin false true SOPC_UInt32_Id;
  struct false true SOPC_TypeInternalIndex_ChannelSecurityToken;
  builtin false true SOPC_ByteString_Id
].

Definition CloseSecureChannelResponse_Fields : list SOPC_EncodeableType_FieldDescriptor := [
  struct false false SOPC_TypeInternalIndex_ResponseHeader
].

Definition SignedSoftwareCertificate_Fields : list SOPC_EncodeableType_FieldDescriptor := [
  builtin false true SOPC_ByteString_Id;
  builtin false true SOPC_ByteString_Id
].

Definition SignatureData_Fields : list SOPC_EncodeableType_FieldDescriptor := [
  builtin false true SOPC_String_Id;
  builtin false true SOPC_ByteString_Id
].

Definition CreateSessionRequest_Fields : list SOPC_EncodeableType_FieldDescriptor := [
  struct false true SOPC_TypeInternalIndex_ApplicationDescription;
  builtin false true SOPC_String_Id;
  builtin false true SOPC_String_Id;
  builtin false true SOPC_String_Id;
  builtin false true SOPC_ByteString_Id;
  builtin false true SOPC_ByteString_Id;
  builtin false true SOPC_Double_Id;
  builtin false true SOPC_UInt32_Id
].

Definition CreateSessionResponse_Fields : list SOPC_EncodeableType_FieldDescriptor := [
  struct false false SOPC_TypeInternalIndex_ResponseHeader;
  builtin false true SOPC_NodeId_Id;
  builtin false true SOPC_NodeId_Id;
  builtin false true SOPC_Double_Id;
  builtin false true SOPC_ByteString_Id;
  builtin false true SOPC_ByteString_Id;
  builtin true true SOPC_Int32_Id;
  struct false true SOPC_TypeInternalIndex_EndpointDescription;
  builtin true true SOPC_Int32_Id;
  struct false true SOPC_TypeInternalIndex_SignedSoftwareCertificate;
  struct false true SOPC_TypeInternalIndex_SignatureData;
  builtin false true SOPC_UInt32_Id
].

Definition UserIdentityToken_Fields : list SOPC_EncodeableType_FieldDescriptor := [
  builtin false true SOPC_String_Id
].

Definition AnonymousIdentityToken_Fields : list SOPC_EncodeableType_FieldDescriptor := [
  builtin false true SOPC_String_Id
].

Definition UserNameIdentityToken_Fields : list SOPC_EncodeableType_FieldDescriptor := [
  builtin false true SOPC_String_Id;
  builtin false true SOPC_String_Id;
  builtin false true SOPC_ByteString_Id;
  builtin false true SOPC_String_Id
].

Definition X509IdentityToken_Fields : list SOPC_EncodeableType_FieldDescriptor := [
  builtin false true SOPC_String_Id;
  builtin false true SOPC_ByteString_Id
].

Definition KerberosIdentityToken_Fields : list SOPC_EncodeableType_FieldDescriptor := [
  builtin false true SOPC_String_Id;
  builtin false true SOPC_ByteString_Id
].

Definition IssuedIdentityToken_Fields : list SOPC_EncodeableType_FieldDescriptor := [
  builtin false true SOPC_String_Id;
  builtin false true SOPC_ByteString_Id;
  builtin false true SOPC_String_Id
].

Definition ActivateSessionRequest_Fields : list SOPC_EncodeableType_FieldDescriptor := [
  struct false true SOPC_TypeInternalIndex_SignatureData;
  builtin true true SOPC_Int32_Id;
  struct false true SOPC_TypeInternalIndex_SignedSoftwareCertificate;
  builtin true true SOPC_Int32_Id;
  builtin false true SOPC_String_Id;
  builtin false true SOPC_ExtensionObject_Id;
  struct false true SOPC_TypeInternalIndex_SignatureData
].

Definition ActivateSessionResponse_Fields : list SOPC_EncodeableType_FieldDescriptor := [
  struct false false SOPC_TypeInternalIndex_ResponseHeader;
  builtin false true SOPC_ByteString_Id;
  builtin true true SOPC_Int32_Id;
  builtin false true SOPC_StatusCode_Id;
  builtin true true SOPC_Int32_Id;
  builtin false true SOPC_DiagnosticInfo_Id
].

Definition CloseSessionRequest_Fields : list SOPC_EncodeableType_FieldDescriptor := [
  builtin false true SOPC_Boolean_Id
].

Definition CloseSessionResponse_Fields : list SOPC_EncodeableType_FieldDescriptor := [
  struct false false SOPC_TypeInternalIndex_ResponseHeader
].

Definition CancelRequest_Fields : list SOPC_EncodeableType_FieldDescriptor := [
  builtin false true SOPC_UInt32_Id
].

Definition CancelResponse_Fields : list SOPC_EncodeableType_FieldDescriptor := [
  struct false false SOPC_TypeInternalIndex_ResponseHeader;
  builtin false true SOPC_UInt32_Id
].

Definition NodeAttributes_Fields : list SOPC_EncodeableType_FieldDescriptor := [
  builtin false true SOPC_UInt32_Id;
  builtin false true SOPC_LocalizedText_Id;
  builtin false true SOPC_LocalizedText_Id;
  builtin false true SOPC_UInt32_Id;
  builtin false true SOPC_UInt32_Id
].

Definition ObjectAttributes_Fields : list SOPC_EncodeableType_FieldDescriptor := [
  builtin false true SOPC_UInt32_Id;
  builtin false true SOPC_LocalizedText_Id;
  builtin false true SOPC_LocalizedText_Id;
  builtin false true SOPC_UInt32_Id;
  builtin false true SOPC_UInt32_Id;
  builtin false true SOPC_Byte_Id
].

Definition VariableAttributes_Fields : list SOPC_EncodeableType_FieldDescriptor := [
  builtin false true SOPC_UInt32_Id;
  builtin false true SOPC_LocalizedText_Id;
  builtin false true SOPC_LocalizedText_Id;
  builtin false true SOPC_UInt32_Id;
  builtin false true SOPC_UInt32_Id;
  builtin false true SOPC_Variant_Id;
  builtin false true SOPC_NodeId_Id;
  builtin false true SOPC_Int32_Id;
  builtin true true SOPC_Int32_Id;
  builtin false true SOPC_UInt32_Id;
  builtin false true SOPC_Byte_Id;
  builtin false true SOPC_Byte_Id;
  builtin false true SOPC_Double_Id;
  builtin false true SOPC_Boolean_Id
].

Definition MethodAttributes_Fields : list SOPC_EncodeableType_FieldDescriptor := [
  builtin false true SOPC_UInt32_Id;
  builtin false true SOPC_LocalizedText_Id;
  builtin false true SOPC_LocalizedText_Id;
  builtin false true SOPC_UInt32_Id;
  builtin false true SOPC_UInt32_Id;
  builtin false true SOPC_Boolean_Id;
  builtin false true SOPC_Boolean_Id
].

Definition ObjectTypeAttributes_Fields : list SOPC_EncodeableType_FieldDescriptor := [
  builtin false true SOPC_UInt32_Id;
  builtin false true SOPC_LocalizedText_Id;
  builtin false true SOPC_LocalizedText_Id;
  builtin false true SOPC_UInt32_Id;
  builtin false true SOPC_UInt32_Id;
  builtin false true SOPC_Boolean_Id
].

Definition VariableTypeAttributes_Fields : list SOPC_EncodeableType_FieldDescriptor := [
  builtin false true SOPC_UInt32_Id;
  builtin false true SOPC_LocalizedText_Id;
  builtin false true SOPC_LocalizedText_Id;
  builtin false true SOPC_UInt32_Id;
  builtin false true SOPC_UInt32_Id;
  builtin false true SOPC_Variant_Id;
  builtin false true SOPC_NodeId_Id;
  builtin false true SOPC_Int32_Id;
  builtin true true SOPC_Int32_Id;
  builtin false true SOPC_UInt32_Id;
  builtin false true SOPC_Boolean_Id
].

Definition ReferenceTypeAttributes_Fields : list SOPC_EncodeableType_FieldDescriptor := [
  builtin false true SOPC_UInt32_Id;
  builtin false true SOPC_LocalizedText_Id;
  builtin false true SOPC_LocalizedText_Id;
  builtin false true SOPC_UInt32_Id;
  builtin false true SOPC_UInt32_Id;
  builtin false true SOPC_Boolean_Id;
  builtin false true SOPC_Boolean_Id;
  builtin false true SOPC_LocalizedText_Id
].

Definition DataTypeAttributes_Fields : list SOPC_EncodeableType_FieldDescriptor := [
  builtin false true SOPC_UInt32_Id;
  builtin false true SOPC_LocalizedText_Id;
  builtin false true SOPC_LocalizedText_Id;
  builtin false true SOPC_UInt32_Id;
  builtin false true SOPC_UInt32_Id;
  builtin false true SOPC_Boolean_Id
].

Definition ViewAttributes_Fields : list SOPC_EncodeableType_FieldDescriptor := [
  builtin false true SOPC_UInt32_Id;
  builtin false true SOPC_LocalizedText_Id;
  builtin false true SOPC_LocalizedText_Id;
  builtin false true SOPC_UInt32_Id;
  builtin false true SOPC_UInt32_Id;
  builtin false true SOPC_Boolean_Id;
  builtin false true SOPC_Byte_Id
].

Definition AddNodesItem_Fields : list SOPC_EncodeableType_FieldDescriptor := [
  builtin false true SOPC_ExpandedNodeId_Id;
  builtin false true SOPC_NodeId_Id;
  builtin false true SOPC_ExpandedNodeId_Id;
  builtin false true SOPC_QualifiedName_Id;
  builtin false true SOPC_Int32_Id;
  builtin false true SOPC_ExtensionObject_Id;
  builtin false true SOPC_ExpandedNodeId_Id
].

Definition AddNodesResult_Fields : list SOPC_EncodeableType_FieldDescriptor := [
  builtin false true SOPC_StatusCode_Id;
  builtin false true SOPC_NodeId_Id
].

Definition AddNodesRequest_Fields : list SOPC_EncodeableType_FieldDescriptor := [
  builtin true true SOPC_Int32_Id;
  struct false true SOPC_TypeInternalIndex_AddNodesItem
].

Definition AddNodesResponse_Fields : list SOPC_EncodeableType_FieldDescriptor := [
  struct false false SOPC_TypeInternalIndex_ResponseHeader;
  builtin true true SOPC_Int32_Id;
  struct false true SOPC_TypeInternalIndex_AddNodesResult;
  builtin true true SOPC_Int32_Id;
  builtin false true SOPC_DiagnosticInfo_Id
].

Definition AddReferencesItem_Fields : list SOPC_EncodeableType_FieldDescriptor := [
  builtin false true SOPC_NodeId_Id;
  builtin false true SOPC_NodeId_Id;
  builtin false true SOPC_Boolean_Id;
  builtin false true SOPC_String_Id;
  builtin false true SOPC_ExpandedNodeId_Id;
  builtin false true SOPC_Int32_Id
].

Definition AddReferencesRequest_Fields : list SOPC_EncodeableType_FieldDescriptor := [
  builtin true true SOPC_Int32_Id;
  struct false true SOPC_TypeInternalIndex_AddReferencesItem
].

Definition AddReferencesResponse_Fields : list SOPC_EncodeableType_FieldDescriptor := [
  struct false false SOPC_TypeInternalIndex_ResponseHeader;
  builtin true true SOPC_Int32_Id;
  builtin false true SOPC_StatusCode_Id;
  builtin true true SOPC_Int32_Id;
  builtin false true SOPC_DiagnosticInfo_Id
].

Definition DeleteNodesItem_Fields : list SOPC_EncodeableType_FieldDescriptor := [
  builtin false true SOPC_NodeId_Id;
  builtin false true SOPC_Boolean_Id
].

Definition DeleteNodesRequest_Fields : list SOPC_EncodeableType_FieldDescriptor := [
  builtin true true SOPC_Int32_Id;
  struct false true SOPC_TypeInternalIndex_DeleteNodesItem
].

Definition DeleteNodesResponse_Fields : list SOPC_EncodeableType_FieldDescriptor := [
  struct false false SOPC_TypeInternalIndex_ResponseHeader;
  builtin true true SOPC_Int32_Id;
  builtin false true SOPC_StatusCode_Id;
  builtin true true SOPC_Int32_Id;
  builtin false true SOPC_DiagnosticInfo_Id
].

Definition DeleteReferencesItem_Fields : list SOPC_EncodeableType_FieldDescriptor := [
  builtin false true SOPC_NodeId_Id;
  builtin false true SOPC_NodeId_Id;
  builtin false true SOPC_Boolean_Id;
  builtin false true SOPC_ExpandedNodeId_Id;
  builtin false true SOPC_Boolean_Id
].

Definition DeleteReferencesRequest_Fields : list SOPC_EncodeableType_FieldDescriptor := [
  builtin true true SOPC_Int32_Id;
  struct false true SOPC_TypeInternalIndex_DeleteReferencesItem
].

Definition DeleteReferencesResponse_Fields : list SOPC_EncodeableType_FieldDescriptor := [
  struct false false SOPC_TypeInternalIndex_ResponseHeader;
  builtin true true SOPC_Int32_Id;
  builtin false true SOPC_StatusCode_Id;
  builtin true true SOPC_Int32_Id;
  builtin false true SOPC_DiagnosticInfo_Id
].

Definition ViewDescription_Fields : list SOPC_EncodeableType_FieldDescriptor := [
  builtin false true SOPC_NodeId_Id;
  builtin false true SOPC_DateTime_Id;
  builtin false true SOPC_UInt32_Id
].

Definition BrowseDescription_Fields : list SOPC_EncodeableType_FieldDescriptor := [
  builtin false true SOPC_NodeId_Id;
  builtin false true SOPC_Int32_Id;
  builtin false true SOPC_NodeId_Id;
  builtin false true SOPC_Boolean_Id;
  builtin false true SOPC_UInt32_Id;
  builtin false true SOPC_UInt32_Id
].

Definition ReferenceDescription_Fields : list SOPC_EncodeableType_FieldDescriptor := [
  builtin false true SOPC_NodeId_Id;
  builtin false true SOPC_Boolean_Id;
  builtin false true SOPC_ExpandedNodeId_Id;
  builtin false true SOPC_QualifiedName_Id;
  builtin false true SOPC_LocalizedText_Id;
  builtin false true SOPC_Int32_Id;
  builtin false true SOPC_ExpandedNodeId_Id
].

Definition BrowseResult_Fields : list SOPC_EncodeableType_FieldDescriptor := [
  builtin false true SOPC_StatusCode_Id;
  builtin false true SOPC_ByteString_Id;
  builtin true true SOPC_Int32_Id;
  struct false true SOPC_TypeInternalIndex_ReferenceDescription
].

Definition BrowseRequest_Fields : list SOPC_EncodeableType_FieldDescriptor := [
  struct false true SOPC_TypeInternalIndex_ViewDescription;
  builtin false true SOPC_UInt32_Id;
  builtin true true SOPC_Int32_Id;
  struct false true SOPC_TypeInternalIndex_BrowseDescription
].

Definition BrowseResponse_Fields : list SOPC_EncodeableType_FieldDescriptor := [
  struct false false SOPC_TypeInternalIndex_ResponseHeader;
  builtin true true SOPC_Int32_Id;
  struct false true SOPC_TypeInternalIndex_BrowseResult;
  builtin true true SOPC_Int32_Id;
  builtin false true SOPC_DiagnosticInfo_Id
].

Definition BrowseNextRequest_Fields : list SOPC_EncodeableType_FieldDescriptor := [
  builtin false true SOPC_Boolean_Id;
  builtin true true SOPC_Int32_Id;
  builtin false true SOPC_ByteString_Id
].

Definition BrowseNextResponse_Fields : list SOPC_EncodeableType_FieldDescriptor := [
  struct false false SOPC_TypeInternalIndex_ResponseHeader;
  builtin true true SOPC_Int32_Id;
  struct false true SOPC_TypeInternalIndex_BrowseResult;
  builtin true true SOPC_Int32_Id;
  builtin false true SOPC_DiagnosticInfo_Id
].

Definition RelativePathElement_Fields : list SOPC_EncodeableType_FieldDescriptor := [
  builtin false true SOPC_NodeId_Id;
  builtin false true SOPC_Boolean_Id;
  builtin false true SOPC_Boolean_Id;
  builtin false true SOPC_QualifiedName_Id
].

Definition RelativePath_Fields : list SOPC_EncodeableType_FieldDescriptor := [
  builtin true true SOPC_Int32_Id;
  struct false true SOPC_TypeInternalIndex_RelativePathElement
].

Definition BrowsePath_Fields : list SOPC_EncodeableType_FieldDescriptor := [
  builtin false true SOPC_NodeId_Id;
  struct false true SOPC_TypeInternalIndex_RelativePath
].

Definition BrowsePathTarget_Fields : list SOPC_EncodeableType_FieldDescriptor := [
  builtin false true SOPC_ExpandedNodeId_Id;
  builtin false true SOPC_UInt32_Id
].

Definition BrowsePathResult_Fields : list SOPC_EncodeableType_FieldDescriptor := [
  builtin false true SOPC_StatusCode_Id;
  builtin true true SOPC_Int32_Id;
  struct false true SOPC_TypeInternalIndex_BrowsePathTarget
].

Definition TranslateBrowsePathsToNodeIdsRequest_Fields : list SOPC_EncodeableType_FieldDescriptor := [
  builtin true true SOPC_Int32_Id;
  struct false true SOPC_TypeInternalIndex_BrowsePath
].

Definition TranslateBrowsePathsToNodeIdsResponse_Fields : list SOPC_EncodeableType_FieldDescriptor := [
  struct false false SOPC_TypeInternalIndex_ResponseHeader;
  builtin true true SOPC_Int32_Id;
  struct false true SOPC_TypeInternalIndex_BrowsePathResult;
  builtin true true SOPC_Int32_Id;
  builtin false true SOPC_DiagnosticInfo_Id
].

Definition RegisterNodesRequest_Fields : list SOPC_EncodeableType_FieldDescriptor := [
  builtin true true SOPC_Int32_Id;
  builtin false true SOPC_NodeId_Id
].

Definition RegisterNodesResponse_Fields : list SOPC_EncodeableType_FieldDescriptor := [
  struct false false SOPC_TypeInternalIndex_ResponseHeader;
  builtin true true SOPC_Int32_Id;
  builtin false true SOPC_NodeId_Id
].

Definition UnregisterNodesRequest_Fields : list SOPC_EncodeableType_FieldDescriptor := [
  builtin true true SOPC_Int32_Id;
  builtin false true SOPC_NodeId_Id
].

Definition UnregisterNodesResponse_Fields : list SOPC_EncodeableType_FieldDescriptor := [
  struct false false SOPC_TypeInternalIndex_ResponseHeader
].

Definition EndpointConfiguration_Fields : list SOPC_EncodeableType_FieldDescriptor := [
  builtin false true SOPC_Int32_Id;
  builtin false true SOPC_Boolean_Id;
  builtin false true SOPC_Int32_Id;
  builtin false true SOPC_Int32_Id;
  builtin false true SOPC_Int32_Id;
  builtin false true SOPC_Int32_Id;
  builtin false true SOPC_Int32_Id;
  builtin false true SOPC_Int32_Id;
  builtin false true SOPC_Int32_Id
].

Definition SupportedProfile_Fields : list SOPC_EncodeableType_FieldDescriptor := [
  builtin false true SOPC_String_Id;
  builtin false true SOPC_String_Id;
  builtin false true SOPC_String_Id;
  builtin false true SOPC_DateTime_Id;
  builtin false true SOPC_Int32_Id;
  builtin true true SOPC_Int32_Id;
  builtin false true SOPC_String_Id
].

Definition SoftwareCertificate_Fields : list SOPC_EncodeableType_FieldDescriptor := [
  builtin false true SOPC_String_Id;
  builtin false true SOPC_String_Id;
  builtin false true SOPC_String_Id;
  builtin false true SOPC_ByteString_Id;
  builtin false true SOPC_String_Id;
  builtin false true SOPC_String_Id;
  builtin false true SOPC_DateTime_Id;
  builtin false true SOPC_String_Id;
  builtin false true SOPC_DateTime_Id;
  builtin true true SOPC_Int32_Id;
  struct false true SOPC_TypeInternalIndex_SupportedProfile
].

Definition QueryDataDescription_Fields : list SOPC_EncodeableType_FieldDescriptor := [
  struct false true SOPC_TypeInternalIndex_RelativePath;
  builtin false true SOPC_UInt32_Id;
  builtin false true SOPC_String_Id
].

Definition NodeTypeDescription_Fields : list SOPC_EncodeableType_FieldDescriptor := [
  builtin false true SOPC_ExpandedNodeId_Id;
  builtin false true SOPC_Boolean_Id;
  builtin true true SOPC_Int32_Id;
  struct false true SOPC_TypeInternalIndex_QueryDataDescription
].

Definition QueryDataSet_Fields : list SOPC_EncodeableType_FieldDescriptor := [
  builtin false true SOPC_ExpandedNodeId_Id;
  builtin false true SOPC_ExpandedNodeId_Id;
  builtin true true SOPC_Int32_Id;
  builtin false true SOPC_Variant_Id
].

Definition NodeReference_Fields : list SOPC_EncodeableType_FieldDescriptor := [
  builtin false true SOPC_NodeId_Id;
  builtin false true SOPC_NodeId_Id;
  builtin false true SOPC_Boolean_Id;
  builtin true true SOPC_Int32_Id;
  builtin false true SOPC_NodeId_Id
].

Definition ContentFilterElement_Fields : list SOPC_EncodeableType_FieldDescriptor := [
  builtin false true SOPC_Int32_Id;
  builtin true true SOPC_Int32_Id;
  builtin false true SOPC_ExtensionObject_Id
].

Definition ContentFilter_Fields : list SOPC_EncodeableType_FieldDescriptor := [
  builtin true true SOPC_Int32_Id;
  struct false true SOPC_TypeInternalIndex_ContentFilterElement
].

Definition ElementOperand_Fields : list SOPC_EncodeableType_FieldDescriptor := [
  builtin false true SOPC_UInt32_Id
].

Definition LiteralOperand_Fields : list SOPC_EncodeableType_FieldDescriptor := [
  builtin false true SOPC_Variant_Id
].

Definition AttributeOperand_Fields : list SOPC_EncodeableType_FieldDescriptor := [
  builtin false true SOPC_NodeId_Id;
  builtin false true SOPC_String_Id;
  struct false true SOPC_TypeInternalIndex_RelativePath;
  builtin false true SOPC_UInt32_Id;
  builtin false true SOPC_String_Id
].

Definition SimpleAttributeOperand_Fields : list SOPC_EncodeableType_FieldDescriptor := [
  builtin false true SOPC_NodeId_Id;
  builtin true true SOPC_Int32_Id;
  builtin false true SOPC_QualifiedName_Id;
  builtin false true SOPC_UInt32_Id;
  builtin false true SOPC_String_Id
].

Definition ContentFilterElementResult_Fields : list SOPC_EncodeableType_FieldDescriptor := [
  builtin false true SOPC_StatusCode_Id;
  builtin true true SOPC_Int32_Id;
  builtin false true SOPC_StatusCode_Id;
  builtin true true SOPC_Int32_Id;
  builtin false true SOPC_DiagnosticInfo_Id
].

Definition ContentFilterResult_Fields : list SOPC_EncodeableType_FieldDescriptor := [
  builtin true true SOPC_Int32_Id;
  struct false true SOPC_TypeInternalIndex_ContentFilterElementResult;
  builtin true true SOPC_Int32_Id;
  builtin false true SOPC_DiagnosticInfo_Id
].

Definition ParsingResult_Fields : list SOPC_EncodeableType_FieldDescriptor := [
  builtin false true SOPC_StatusCode_Id;
  builtin true true SOPC_Int32_Id;
  builtin false true SOPC_StatusCode_Id;
  builtin true true SOPC_Int32_Id;
  builtin false true SOPC_DiagnosticInfo_Id
].

Definition QueryFirstRequest_Fields : list SOPC_EncodeableType_FieldDescriptor := [
  struct false true SOPC_TypeInternalIndex_ViewDescription;
  builtin true true SOPC_Int32_Id;
  struct false true SOPC_TypeInternalIndex_NodeTypeDescription;
  struct false true SOPC_TypeInternalIndex_ContentFilter;
  builtin false true SOPC_UInt32_Id;
  builtin false true SOPC_UInt32_Id
].

Definition QueryFirstResponse_Fields : list SOPC_EncodeableType_FieldDescriptor := [
  struct false false SOPC_TypeInternalIndex_ResponseHeader;
  builtin true true SOPC_Int32_Id;
  struct false true SOPC_TypeInternalIndex_QueryDataSet;
  builtin false true SOPC_ByteString_Id;
  builtin true true SOPC_Int32_Id;
  struct false true SOPC_TypeInternalIndex_ParsingResult;
  builtin true true SOPC_Int32_Id;
  builtin false true SOPC_DiagnosticInfo_Id;
  struct false true SOPC_TypeInternalIndex_ContentFilterResult
].

Definition QueryNextRequest_Fields : list SOPC_EncodeableType_FieldDescriptor := [
  builtin false true SOPC_Boolean_Id;
  builtin false true SOPC_ByteString_Id
].

Definition QueryNextResponse_Fields : list SOPC_EncodeableType_FieldDescriptor := [
  struct false false SOPC_TypeInternalIndex_ResponseHeader;
  builtin true true SOPC_Int32_Id;
  struct false true SOPC_TypeInternalIndex_QueryDataSet;
  builtin false true SOPC_ByteString_Id
].

Definition ReadValueId_Fields : list SOPC_EncodeableType_FieldDescriptor := [
  builtin false true SOPC_NodeId_Id;
  builtin false true SOPC_UInt32_Id;
  builtin false true SOPC_String_Id;
  builtin false true SOPC_QualifiedName_Id
].

Definition ReadRequest_Fields : list SOPC_EncodeableType_FieldDescriptor := [
  builtin false true SOPC_Double_Id;
  builtin false true SOPC_Int32_Id;
  builtin true true SOPC_Int32_Id;
  struct false true SOPC_TypeInternalIndex_ReadValueId
].

Definition ReadResponse_Fields : list SOPC_EncodeableType_FieldDescriptor := [
  struct false false SOPC_TypeInternalIndex_ResponseHeader;
  builtin true true SOPC_Int32_Id;
  builtin false true SOPC_DataValue_Id;
  builtin true true SOPC_Int32_Id;
  builtin false true SOPC_DiagnosticInfo_Id
].

Definition HistoryReadValueId_Fields : list SOPC_EncodeableType_FieldDescriptor := [
  builtin false true SOPC_NodeId_Id;
  builtin false true SOPC_String_Id;
  builtin false true SOPC_QualifiedName_Id;
  builtin false true SOPC_ByteString_Id
].

Definition HistoryReadResult_Fields : list SOPC_EncodeableType_FieldDescriptor := [
  builtin false true SOPC_StatusCode_Id;
  builtin false true SOPC_ByteString_Id;
  builtin false true SOPC_ExtensionObject_Id
].

Definition EventFilter_Fields : list SOPC_EncodeableType_FieldDescriptor := [
  builtin true true SOPC_Int32_Id;
  struct false true SOPC_TypeInternalIndex_SimpleAttributeOperand;
  struct false true SOPC_TypeInternalIndex_ContentFilter
].

Definition ReadEventDetails_Fields : list SOPC_EncodeableType_FieldDescriptor := [
  builtin false true SOPC_UInt32_Id;
  builtin false true SOPC_DateTime_Id;
  builtin false true SOPC_DateTime_Id;
  struct false true SOPC_TypeInternalIndex_EventFilter
].

Definition ReadRawModifiedDetails_Fields : list SOPC_EncodeableType_FieldDescriptor := [
  builtin false true SOPC_Boolean_Id;
  builtin false true SOPC_DateTime_Id;
  builtin false true SOPC_DateTime_Id;
  builtin false true SOPC_UInt32_Id;
  builtin false true SOPC_Boolean_Id
].

Definition AggregateConfiguration_Fields : list SOPC_EncodeableType_FieldDescriptor := [
  builtin false true SOPC_Boolean_Id;
  builtin false true SOPC_Boolean_Id;
  builtin false true SOPC_Byte_Id;
  builtin false true SOPC_Byte_Id;
  builtin false true SOPC_Boolean_Id
].

Definition ReadProcessedDetails_Fields : list SOPC_EncodeableType_FieldDescriptor := [
  builtin false true SOPC_DateTime_Id;
  builtin false true SOPC_DateTime_Id;
  builtin false true SOPC_Double_Id;
  builtin true true SOPC_Int32_Id;
  builtin false true SOPC_NodeId_Id;
  struct false true SOPC_TypeInternalIndex_AggregateConfiguration
].

Definition ReadAtTimeDetails_Fields : list SOPC_EncodeableType_FieldDescriptor := [
  builtin true true SOPC_Int32_Id;
  builtin false true SOPC_DateTime_Id;
  builtin false true SOPC_Boolean_Id
].

Definition HistoryData_Fields : list SOPC_EncodeableType_FieldDescriptor := [
  builtin true true SOPC_Int32_Id;
  builtin false true SOPC_DataValue_Id
].

Definition ModificationInfo_Fields : list SOPC_EncodeableType_FieldDescriptor := [
  builtin false true SOPC_DateTime_Id;
  builtin false true SOPC_Int32_Id;
  builtin false true SOPC_String_Id
].

Definition HistoryModifiedData_Fields : list SOPC_EncodeableType_FieldDescriptor := [
  builtin true true SOPC_Int32_Id;
  builtin false true SOPC_DataValue_Id;
  builtin true true SOPC_Int32_Id;
  struct false true SOPC_TypeInternalIndex_ModificationInfo
].

Definition HistoryEventFieldList_Fields : list SOPC_EncodeableType_FieldDescriptor := [
  builtin true true SOPC_Int32_Id;
  builtin false true SOPC_Variant_Id
].

Definition HistoryEvent_Fields : list SOPC_EncodeableType_FieldDescriptor := [
  builtin true true SOPC_Int32_Id;
  struct false true SOPC_TypeInternalIndex_HistoryEventFieldList
].

Definition HistoryReadRequest_Fields : list SOPC_EncodeableType_FieldDescriptor := [
  builtin false true SOPC_ExtensionObject_Id;
  builtin false true SOPC_Int32_Id;
  builtin false true SOPC_Boolean_Id;
  builtin true true SOPC_Int32_Id;
  struct false true SOPC_TypeInternalIndex_HistoryReadValueId
].

Definition HistoryReadResponse_Fields : list SOPC_EncodeableType_FieldDescriptor := [
  struct false false SOPC_TypeInternalIndex_ResponseHeader;
  builtin true true SOPC_Int32_Id;
  struct false true SOPC_TypeInternalIndex_HistoryReadResult;
  builtin true true SOPC_Int32_Id;
  builtin false true SOPC_DiagnosticInfo_Id
].

Definition WriteValue_Fields : list SOPC_EncodeableType_FieldDescriptor := [
  builtin false true SOPC_NodeId_Id;
  builtin false true SOPC_UInt32_Id;
  builtin false true SOPC_String_Id;
  builtin false true SOPC_DataValue_Id
].

Definition WriteRequest_Fields : list SOPC_EncodeableType_FieldDescriptor := [
  builtin true true SOPC_Int32_Id;
  struct false true SOPC_TypeInternalIndex_WriteValue
].

Definition WriteResponse_Fields : list SOPC_EncodeableType_FieldDescriptor := [
  struct false false SOPC_TypeInternalIndex_ResponseHeader;
  builtin true true SOPC_Int32_Id;
  builtin false true SOPC_StatusCode_Id;
  builtin true true SOPC_Int32_Id;
  builtin false true SOPC_DiagnosticInfo_Id
].

Definition HistoryUpdateDetails_Fields : list SOPC_EncodeableType_FieldDescriptor := [
  builtin false true SOPC_NodeId_Id
].

Definition UpdateDataDetails_Fields : list SOPC_EncodeableType_FieldDescriptor := [
  builtin false true SOPC_NodeId_Id;
  builtin false true SOPC_Int32_Id;
  builtin true true SOPC_Int32_Id;
  builtin false true SOPC_DataValue_Id
].

Definition UpdateStructureDataDetails_Fields : list SOPC_EncodeableType_FieldDescriptor := [
  builtin false true SOPC_NodeId_Id;
  builtin false true SOPC_Int32_Id;
  builtin true true SOPC_Int32_Id;
  builtin false true SOPC_DataValue_Id
].

Definition UpdateEventDetails_Fields : list SOPC_EncodeableType_FieldDescriptor := [
  builtin false true SOPC_NodeId_Id;
  builtin false true SOPC_Int32_Id;
  struct false true SOPC_TypeInternalIndex_EventFilter;
  builtin true true SOPC_Int32_Id;
  struct false true SOPC_TypeInternalIndex_HistoryEventFieldList
].

Definition DeleteRawModifiedDetails_Fields : list SOPC_EncodeableType_FieldDescriptor := [
  builtin false true SOPC_NodeId_Id;
  builtin false true SOPC_Boolean_Id;
  builtin false true SOPC_DateTime_Id;
  builtin false true SOPC_DateTime_Id
].

Definition DeleteAtTimeDetails_Fields : list SOPC_EncodeableType_FieldDescriptor := [
  builtin false true SOPC_NodeId_Id;
  builtin true true SOPC_Int32_Id;
  builtin false true SOPC_DateTime_Id
].

Definition DeleteEventDetails_Fields : list SOPC_EncodeableType_FieldDescriptor := [
  builtin false true SOPC_NodeId_Id;
  builtin true true SOPC_Int32_Id;
  builtin false true SOPC_ByteString_Id
].

Definition HistoryUpdateResult_Fields : list SOPC_EncodeableType_FieldDescriptor := [
  builtin false true SOPC_StatusCode_Id;
  builtin true true SOPC_Int32_Id;
  builtin false true SOPC_StatusCode_Id;
  builtin true true SOPC_Int32_Id;
  builtin false true SOPC_DiagnosticInfo_Id
].

Definition HistoryUpdateRequest_Fields : list SOPC_EncodeableType_FieldDescriptor := [
  builtin true true SOPC_Int32_Id;
  builtin false true SOPC_ExtensionObject_Id
].

Definition HistoryUpdateResponse_Fields : list SOPC_EncodeableType_FieldDescriptor := [
  struct false false SOPC_TypeInternalIndex_ResponseHeader;
  builtin true true SOPC_Int32_Id;
  struct false true SOPC_TypeInternalIndex_HistoryUpdateResult;
  builtin true true SOPC_Int32_Id;
  builtin false true SOPC_DiagnosticInfo_Id
].

Definition CallMethodRequest_Fields : list SOPC_EncodeableType_FieldDescriptor := [
  builtin false true SOPC_NodeId_Id;
  builtin false true SOPC_NodeId_Id;
  builtin true true SOPC_Int32_Id;
  builtin false true SOPC_Variant_Id
].

Definition CallMethodResult_Fields : list SOPC_EncodeableType_FieldDescriptor := [
  builtin false true SOPC_StatusCode_Id;
  builtin true true SOPC_Int32_Id;
  builtin false true SOPC_StatusCode_Id;
  builtin true true SOPC_Int32_Id;
  builtin false true SOPC_DiagnosticInfo_Id;
  builtin true true SOPC_Int32_Id;
  builtin false true SOPC_Variant_Id
].

Definition CallRequest_Fields : list SOPC_EncodeableType_FieldDescriptor := [
  builtin true true SOPC_Int32_Id;
  struct false true SOPC_TypeInternalIndex_CallMethodRequest
].

Definition CallResponse_Fields : list SOPC_EncodeableType_FieldDescriptor := [
  struct false false SOPC_TypeInternalIndex_ResponseHeader;
  builtin true true SOPC_Int32_Id;
  struct false true SOPC_TypeInternalIndex_CallMethodResult;
  builtin true true SOPC_Int32_Id;
  builtin false true SOPC_DiagnosticInfo_Id
].

Definition DataChangeFilter_Fields : list SOPC_EncodeableType_FieldDescriptor := [
  builtin false true SOPC_Int32_Id;
  builtin false true SOPC_UInt32_Id;
  builtin false true SOPC_Double_Id
].

Definition AggregateFilter_Fields : list SOPC_EncodeableType_FieldDescriptor := [
  builtin false true SOPC_DateTime_Id;
  builtin false true SOPC_NodeId_Id;
  builtin false true SOPC_Double_Id;
  struct false true SOPC_TypeInternalIndex_AggregateConfiguration
].

Definition EventFilterResult_Fields : list SOPC_EncodeableType_FieldDescriptor := [
  builtin true true SOPC_Int32_Id;
  builtin false true SOPC_StatusCode_Id;
  builtin true true SOPC_Int32_Id;
  builtin false true SOPC_DiagnosticInfo_Id;
  struct false true SOPC_TypeInternalIndex_ContentFilterResult
].

Definition AggregateFilterResult_Fields : list SOPC_EncodeableType_FieldDescriptor := [
  builtin false true SOPC_DateTime_Id;
  builtin false true SOPC_Double_Id;
  struct false true SOPC_TypeInternalIndex_AggregateConfiguration
].

Definition MonitoringParameters_Fields : list SOPC_EncodeableType_FieldDescriptor := [
  builtin false true SOPC_UInt32_Id;
  builtin false true SOPC_Double_Id;
  builtin false true SOPC_ExtensionObject_Id;
  builtin false true SOPC_UInt32_Id;
  builtin false true SOPC_Boolean_Id
].

Definition MonitoredItemCreateRequest_Fields : list SOPC_EncodeableType_FieldDescriptor := [
  struct false true SOPC_TypeInternalIndex_ReadValueId;
  builtin false true SOPC_Int32_Id;
  struct false true SOPC_TypeInternalIndex_MonitoringParameters
].

Definition MonitoredItemCreateResult_Fields : list SOPC_EncodeableType_FieldDescriptor := [
  builtin false true SOPC_StatusCode_Id;
  builtin false true SOPC_UInt32_Id;
  builtin false true SOPC_Double_Id;
  builtin false true SOPC_UInt32_Id;
  builtin false true SOPC_ExtensionObject_Id
].

Definition CreateMonitoredItemsRequest_Fields : list SOPC_EncodeableType_FieldDescriptor := [
  builtin false true SOPC_UInt32_Id;
  builtin false true SOPC_Int32_Id;
  builtin true true SOPC_Int32_Id;
  struct false true SOPC_TypeInternalIndex_MonitoredItemCreateRequest
].

Definition CreateMonitoredItemsResponse_Fields : list SOPC_EncodeableType_FieldDescriptor := [
  struct false false SOPC_TypeInternalIndex_ResponseHeader;
  builtin true true SOPC_Int32_Id;
  struct false true SOPC_TypeInternalIndex_MonitoredItemCreateResult;
  builtin true true SOPC_Int32_Id;
  builtin false true SOPC_DiagnosticInfo_Id
].

Definition MonitoredItemModifyRequest_Fields : list SOPC_EncodeableType_FieldDescriptor := [
  builtin false true SOPC_UInt32_Id;
  struct false true SOPC_TypeInternalIndex_MonitoringParameters
].

Definition MonitoredItemModifyResult_Fields : list SOPC_EncodeableType_FieldDescriptor := [
  builtin false true SOPC_StatusCode_Id;
  builtin false true SOPC_Double_Id;
  builtin false true SOPC_UInt32_Id;
  builtin false true SOPC_ExtensionObject_Id
].

Definition ModifyMonitoredItemsRequest_Fields : list SOPC_EncodeableType_FieldDescriptor := [
  builtin false true SOPC_UInt32_Id;
  builtin false true SOPC_Int32_Id;
  builtin true true SOPC_Int32_Id;
  struct false true SOPC_TypeInternalIndex_MonitoredItemModifyRequest
].

Definition ModifyMonitoredItemsResponse_Fields : list SOPC_EncodeableType_FieldDescriptor := [
  struct false false SOPC_TypeInternalIndex_ResponseHeader;
  builtin true true SOPC_Int32_Id;
  struct false true SOPC_TypeInternalIndex_MonitoredItemModifyResult;
  builtin true true SOPC_Int32_Id;
  builtin false true SOPC_DiagnosticInfo_Id
].

Definition SetMonitoringModeRequest_Fields : list SOPC_EncodeableType_FieldDescriptor := [
  builtin false true SOPC_UInt32_Id;
  builtin false true SOPC_Int32_Id;
  builtin true true SOPC_Int32_Id;
  builtin false true SOPC_UInt32_Id
].

Definition SetMonitoringModeResponse_Fields : list SOPC_EncodeableType_FieldDescriptor := [
  struct false false SOPC_TypeInternalIndex_ResponseHeader;
  builtin true true SOPC_Int32_Id;
  builtin false true SOPC_StatusCode_Id;
  builtin true true SOPC_Int32_Id;
  builtin false true SOPC_DiagnosticInfo_Id
].

Definition SetTriggeringRequest_Fields : list SOPC_EncodeableType_FieldDescriptor := [
  builtin false true SOPC_UInt32_Id;
  builtin false true SOPC_UInt32_Id;
  builtin true true SOPC_Int32_Id;
  builtin false true SOPC_UInt32_Id;
  builtin true true SOPC_Int32_Id;
  builtin false true SOPC_UInt32_Id
].

Definition SetTriggeringResponse_Fields : list SOPC_EncodeableType_FieldDescriptor := [
  struct false false SOPC_TypeInternalIndex_ResponseHeader;
  builtin true true SOPC_Int32_Id;
  builtin false true SOPC_StatusCode_Id;
  builtin true true SOPC_Int32_Id;
  builtin false true SOPC_DiagnosticInfo_Id;
  builtin true true SOPC_Int32_Id;
  builtin false true SOPC_StatusCode_Id;
  builtin true true SOPC_Int32_Id;
  builtin false true SOPC_DiagnosticInfo_Id
].

Definition DeleteMonitoredItemsRequest_Fields : list SOPC_EncodeableType_FieldDescriptor := [
  builtin false true SOPC_UInt32_Id;
  builtin true true SOPC_Int32_Id;
  builtin false true SOPC_UInt32_Id
].

Definition DeleteMonitoredItemsResponse_Fields : list SOPC_EncodeableType_FieldDescriptor := [
  struct false false SOPC_TypeInternalIndex_ResponseHeader;
  builtin true true SOPC_Int32_Id;
  builtin false true SOPC_StatusCode_Id;
  builtin true true SOPC_Int32_Id;
  builtin false true SOPC_DiagnosticInfo_Id
].

Definition CreateSubscriptionRequest_Fields : list SOPC_EncodeableType_FieldDescriptor := [
  builtin false true SOPC_Double_Id;
  builtin false true SOPC_UInt32_Id;
  builtin false true SOPC_UInt32_Id;
  builtin false true SOPC_UInt32_Id;
  builtin false true SOPC_Boolean_Id;
  builtin false true SOPC_Byte_Id
].

Definition CreateSubscriptionResponse_Fields : list SOPC_EncodeableType_FieldDescriptor := [
  struct false false SOPC_TypeInternalIndex_ResponseHeader;
  builtin false true SOPC_UInt32_Id;
  builtin false true SOPC_Double_Id;
  builtin false true SOPC_UInt32_Id;
  builtin false true SOPC_UInt32_Id
].

Definition ModifySubscriptionRequest_Fields : list SOPC_EncodeableType_FieldDescriptor := [
  builtin false true SOPC_UInt32_Id;
  builtin false true SOPC_Double_Id;
  builtin false true SOPC_UInt32_Id;
  builtin false true SOPC_UInt32_Id;
  builtin false true SOPC_UInt32_Id;
  builtin false true SOPC_Byte_Id
].

Definition ModifySubscriptionResponse_Fields : list SOPC_EncodeableType_FieldDescriptor := [
  struct false false SOPC_TypeInternalIndex_ResponseHeader;
  builtin false true SOPC_Double_Id;
  builtin false true SOPC_UInt32_Id;
  builtin false true SOPC_UInt32_Id
].

Definition SetPublishingModeRequest_Fields : list SOPC_EncodeableType_FieldDescriptor := [
  builtin false true SOPC_Boolean_Id;
  builtin true true SOPC_Int32_Id;
  builtin false true SOPC_UInt32_Id
].

Definition SetPublishingModeResponse_Fields : list SOPC_EncodeableType_FieldDescriptor := [
  struct false false SOPC_TypeInternalIndex_ResponseHeader;
  builtin true true SOPC_Int32_Id;
  builtin false true SOPC_StatusCode_Id;
  builtin true true SOPC_Int32_Id;
  builtin false true SOPC_DiagnosticInfo_Id
].

Definition NotificationMessage_Fields : list SOPC_EncodeableType_FieldDescriptor := [
  builtin false true SOPC_UInt32_Id;
  builtin false true SOPC_DateTime_Id;
  builtin true true SOPC_Int32_Id;
  builtin false true SOPC_ExtensionObject_Id
].

Definition MonitoredItemNotification_Fields : list SOPC_EncodeableType_FieldDescriptor := [
  builtin false true SOPC_UInt32_Id;
  builtin false true SOPC_DataValue_Id
].

Definition DataChangeNotification_Fields : list SOPC_EncodeableType_FieldDescriptor := [
  builtin true true SOPC_Int32_Id;
  struct false true SOPC_TypeInternalIndex_MonitoredItemNotification;
  builtin true true SOPC_Int32_Id;
  builtin false true SOPC_DiagnosticInfo_Id
].

Definition EventFieldList_Fields : list SOPC_EncodeableType_FieldDescriptor := [
  builtin false true SOPC_UInt32_Id;
  builtin true true SOPC_Int32_Id;
  builtin false true SOPC_Variant_Id
].

Definition EventNotificationList_Fields : list SOPC_EncodeableType_FieldDescriptor := [
  builtin true true SOPC_Int32_Id;
  struct false true SOPC_TypeInternalIndex_EventFieldList
].

Definition StatusChangeNotification_Fields : list SOPC_EncodeableType_FieldDescriptor := [
  builtin false true SOPC_StatusCode_Id;
  builtin false true SOPC_DiagnosticInfo_Id
].

Definition SubscriptionAcknowledgement_Fields : list SOPC_EncodeableType_FieldDescriptor := [
  builtin false true SOPC_UInt32_Id;
  builtin false true SOPC_UInt32_Id
].

Definition PublishRequest_Fields : list SOPC_EncodeableType_FieldDescriptor := [
  builtin true true SOPC_Int32_Id;
  struct false true SOPC_TypeInternalIndex_SubscriptionAcknowledgement
].

Definition PublishResponse_Fields : list SOPC_EncodeableType_FieldDescriptor := [
  struct false false SOPC_TypeInternalIndex_ResponseHeader;
  builtin false true SOPC_UInt32_Id;
  builtin true true SOPC_Int32_Id;
  builtin false true SOPC_UInt32_Id;
  builtin false true SOPC_Boolean_Id;
  struct false true SOPC_TypeInternalIndex_NotificationMessage;
  builtin true true SOPC_Int32_Id;
  builtin false true SOPC_StatusCode_Id;
  builtin true true SOPC_Int32_Id;
  builtin false true SOPC_DiagnosticInfo_Id
].

Definition RepublishRequest_Fields : list SOPC_EncodeableType_FieldDescriptor := [
  builtin false true SOPC_UInt32_Id;
  builtin false true SOPC_UInt32_Id
].

Definition RepublishResponse_Fields : list SOPC_EncodeableType_FieldDescriptor := [
  struct false false SOPC_TypeInternalIndex_ResponseHeader;
  struct false true SOPC_TypeInternalIndex_NotificationMessage
].

Definition TransferResult_Fields : list SOPC_EncodeableType_FieldDescriptor := [
  builtin false true SOPC_StatusCode_Id;
  builtin true true SOPC_Int32_Id;
  builtin false true SOPC_UInt32_Id
].

Definition TransferSubscriptionsRequest_Fields : list SOPC_EncodeableType_FieldDescriptor := [
  builtin true true SOPC_Int32_Id;
  builtin false true SOPC_UInt32_Id;
  builtin false true SOPC_Boolean_Id
].

Definition TransferSubscriptionsResponse_Fields : list SOPC_EncodeableType_FieldDescriptor := [
  struct false false SOPC_TypeInternalIndex_ResponseHeader;
  builtin true true SOPC_Int32_Id;
  struct false true SOPC_TypeInternalIndex_TransferResult;
  builtin true true SOPC_Int32_Id;
  builtin false true SOPC_DiagnosticInfo_Id
].

Definition DeleteSubscriptionsRequest_Fields : list SOPC_EncodeableType_FieldDescriptor := [
  builtin true true SOPC_Int32_Id;
  builtin false true SOPC_UInt32_Id
].

Definition DeleteSubscriptionsResponse_Fields : list SOPC_EncodeableType_FieldDescriptor := [
  struct false false SOPC_TypeInternalIndex_ResponseHeader;
  builtin true true SOPC_Int32_Id;
  builtin false true SOPC_StatusCode_Id;
  builtin true true SOPC_Int32_Id;
  builtin false true SOPC_DiagnosticInfo_Id
].

Definition BuildInfo_Fields : list SOPC_EncodeableType_FieldDescriptor := [
  builtin false true SOPC_String_Id;
  builtin false true SOPC_String_Id;
  builtin false true SOPC_String_Id;
  builtin false true SOPC_String_Id;
  builtin false true SOPC_String_Id;
  builtin false true SOPC_DateTime_Id
].

Definition RedundantServerDataType_Fields : list SOPC_EncodeableType_FieldDescriptor := [
  builtin false true SOPC_String_Id;
  builtin false true SOPC_Byte_Id;
  builtin false true SOPC_Int32_Id
].

Definition EndpointUrlListDataType_Fields : list SOPC_EncodeableType_FieldDescriptor := [
  builtin true true SOPC_Int32_Id;
  builtin false true SOPC_String_Id
].

Definition NetworkGroupDataType_Fields : list SOPC_EncodeableType_FieldDescriptor := [
  builtin false true SOPC_String_Id;
  builtin true true SOPC_Int32_Id;
  struct false true SOPC_TypeInternalIndex_EndpointUrlListDataType
].

Definition SamplingIntervalDiagnosticsDataType_Fields : list SOPC_EncodeableType_FieldDescriptor := [
  builtin false true SOPC_Double_Id;
  builtin false true SOPC_UInt32_Id;
  builtin false true SOPC_UInt32_Id;
  builtin false true SOPC_UInt32_Id
].

Definition ServerDiagnosticsSummaryDataType_Fields : list SOPC_EncodeableType_FieldDescriptor := [
  builtin false true SOPC_UInt32_Id;
  builtin false true SOPC_UInt32_Id;
  builtin false true SOPC_UInt32_Id;
  builtin false true SOPC_UInt32_Id;
  builtin false true SOPC_UInt32_Id;
  builtin false true SOPC_UInt32_Id;
  builtin false true SOPC_UInt32_Id;
  builtin false true SOPC_UInt32_Id;
  builtin false true SOPC_UInt32_Id;
  builtin false true SOPC_UInt32_Id;
  builtin false true SOPC_UInt32_Id;
  builtin false true SOPC_UInt32_Id
].

Definition ServerStatusDataType_Fields : list SOPC_EncodeableType_FieldDescriptor := [
  builtin false true SOPC_DateTime_Id;
  builtin false true SOPC_DateTime_Id;
  builtin false true SOPC_Int32_Id;
  struct false true SOPC_TypeInternalIndex_BuildInfo;
  builtin false true SOPC_UInt32_Id;
  builtin false true SOPC_LocalizedText_Id
].

Definition ServiceCounterDataType_Fields : list SOPC_EncodeableType_FieldDescriptor := [
  builtin false true SOPC_UInt32_Id;
  builtin false true SOPC_UInt32_Id
].

Definition SessionDiagnosticsDataType_Fields : list SOPC_EncodeableType_FieldDescriptor := [
  builtin false true SOPC_NodeId_Id;
  builtin false true SOPC_String_Id;
  struct false true SOPC_TypeInternalIndex_ApplicationDescription;
  builtin false true SOPC_String_Id;
  builtin false true SOPC_String_Id;
  builtin true true SOPC_Int32_Id;
  builtin false true SOPC_String_Id;
  builtin false true SOPC_Double_Id;
  builtin false true SOPC_UInt32_Id;
  builtin false true SOPC_DateTime_Id;
  builtin false true SOPC_DateTime_Id;
  builtin false true SOPC_UInt32_Id;
  builtin false true SOPC_UInt32_Id;
  builtin false true SOPC_UInt32_Id;
  struct false true SOPC_TypeInternalIndex_ServiceCounterDataType;
  builtin false true SOPC_UInt32_Id;
  struct false true SOPC_TypeInternalIndex_ServiceCounterDataType;
  struct false true SOPC_TypeInternalIndex_ServiceCounterDataType;
  struct false true SOPC_TypeInternalIndex_ServiceCounterDataType;
  struct false true SOPC_TypeInternalIndex_ServiceCounterDataType;
  struct false true SOPC_TypeInternalIndex_ServiceCounterDataType;
  struct false true SOPC_TypeInternalIndex_ServiceCounterDataType;
  struct false true SOPC_TypeInternalIndex_ServiceCounterDataType;
  struct false true SOPC_TypeInternalIndex_ServiceCounterDataType;
  struct false true SOPC_TypeInternalIndex_ServiceCounterDataType;
  struct false true SOPC_TypeInternalIndex_ServiceCounterDataType;
  struct false true SOPC_TypeInternalIndex_ServiceCounterDataType;
  struct false true SOPC_TypeInternalIndex_ServiceCounterDataType;
  struct false true SOPC_TypeInternalIndex_ServiceCounterDataType;
  struct false true SOPC_TypeInternalIndex_ServiceCounterDataType;
  struct false true SOPC_TypeInternalIndex_ServiceCounterDataType;
  struct false true SOPC_TypeInternalIndex_ServiceCounterDataType;
  struct false true SOPC_TypeInternalIndex_ServiceCounterDataType;
  struct false true SOPC_TypeInternalIndex_ServiceCounterDataType;
  struct false true SOPC_TypeInternalIndex_ServiceCounterDataType;
  struct false true SOPC_TypeInternalIndex_ServiceCounterDataType;
  struct false true SOPC_TypeInternalIndex_ServiceCounterDataType;
  struct false true SOPC_TypeInternalIndex_ServiceCounterDataType;
  struct false true SOPC_TypeInternalIndex_ServiceCounterDataType;
  struct false true SOPC_TypeInternalIndex_ServiceCounterDataType;
  struct false true SOPC_TypeInternalIndex_ServiceCounterDataType;
  struct false true SOPC_TypeInternalIndex_ServiceCounterDataType;
  struct false true SOPC_TypeInternalIndex_ServiceCounterDataType;
  struct false true SOPC_TypeInternalIndex_ServiceCounterDataType
].

Definition SessionSecurityDiagnosticsDataType_Fields : list SOPC_EncodeableType_FieldDescriptor := [
  builtin false true SOPC_NodeId_Id;
  builtin false true SOPC_String_Id;
  builtin true true SOPC_Int32_Id;
  builtin false true SOPC_String_Id;
  builtin false true SOPC_String_Id;
  builtin false true SOPC_String_Id;
  builtin false true SOPC_String_Id;
  builtin false true SOPC_Int32_Id;
  builtin false true SOPC_String_Id;
  builtin false true SOPC_ByteString_Id
].

Definition StatusResult_Fields : list SOPC_EncodeableType_FieldDescriptor := [
  builtin false true SOPC_StatusCode_Id;
  builtin false true SOPC_DiagnosticInfo_Id
].

Definition SubscriptionDiagnosticsDataType_Fields : list SOPC_EncodeableType_FieldDescriptor := [
  builtin false true SOPC_NodeId_Id;
  builtin false true SOPC_UInt32_Id;
  builtin false true SOPC_Byte_Id;
  builtin false true SOPC_Double_Id;
  builtin false true SOPC_UInt32_Id;
  builtin false true SOPC_UInt32_Id;
  builtin false true SOPC_UInt32_Id;
  builtin false true SOPC_Boolean_Id;
  builtin false true SOPC_UInt32_Id;
  builtin false true SOPC_UInt32_Id;
  builtin false true SOPC_UInt32_Id;
  builtin false true SOPC_UInt32_Id;
  builtin false true SOPC_UInt32_Id;
  builtin false true SOPC_UInt32_Id;
  builtin false true SOPC_UInt32_Id;
  builtin false true SOPC_UInt32_Id;
  builtin false true SOPC_UInt32_Id;
  builtin false true SOPC_UInt32_Id;
  builtin false true SOPC_UInt32_Id;
  builtin false true SOPC_UInt32_Id;
  builtin false true SOPC_UInt32_Id;
  builtin false true SOPC_UInt32_Id;
  builtin false true SOPC_UInt32_Id;
  builtin false true SOPC_UInt32_Id;
  builtin false true SOPC_UInt32_Id;
  builtin false true SOPC_UInt32_Id;
  builtin false true SOPC_UInt32_Id;
  builtin false true SOPC_UInt32_Id;
  builtin false true SOPC_UInt32_Id;
  builtin false true SOPC_UInt32_Id;
  builtin false true SOPC_UInt32_Id
].

Definition ModelChangeStructureDataType_Fields : list SOPC_EncodeableType_FieldDescriptor := [
  builtin false true SOPC_NodeId_Id;
  builtin false true SOPC_NodeId_Id;
  builtin false true SOPC_Byte_Id
].

Definition SemanticChangeStructureDataType_Fields : list SOPC_EncodeableType_FieldDescriptor := [
  builtin false true SOPC_NodeId_Id;
  builtin false true SOPC_NodeId_Id
].

Definition Range_Fields : list SOPC_EncodeableType_FieldDescriptor := [
  builtin false true SOPC_Double_Id;
  builtin false true SOPC_Double_Id
].

Definition EUInformation_Fields : list SOPC_EncodeableType_FieldDescriptor := [
  builtin false true SOPC_String_Id;
  builtin false true SOPC_Int32_Id;
  builtin false true SOPC_LocalizedText_Id;
  builtin false true SOPC_LocalizedText_Id
].

Definition ComplexNumberType_Fields : list SOPC_EncodeableType_FieldDescriptor := [
  builtin false true SOPC_Float_Id;
  builtin false true SOPC_Float_Id
].

Definition DoubleComplexNumberType_Fields : list SOPC_EncodeableType_FieldDescriptor := [
  builtin false true SOPC_Double_Id;
  builtin false true SOPC_Double_Id
].

Definition AxisInformation_Fields : list SOPC_EncodeableType_FieldDescriptor := [
  struct false true SOPC_TypeInternalIndex_EUInformation;
  struct false true SOPC_TypeInternalIndex_Range;
  builtin false true SOPC_LocalizedText_Id;
  builtin false true SOPC_Int32_Id;
  builtin true true SOPC_Int32_Id;
  builtin false true SOPC_Double_Id
].

Definition XVType_Fields : list SOPC_EncodeableType_FieldDescriptor := [
  builtin false true SOPC_Double_Id;
  builtin false true SOPC_Float_Id
].

Definition ProgramDiagnosticDataType_Fields : list SOPC_EncodeableType_FieldDescriptor := [
  builtin false true SOPC_NodeId_Id;
  builtin false true SOPC_String_Id;
  builtin false true SOPC_DateTime_Id;
  builtin false true SOPC_DateTime_Id;
  builtin false true SOPC_String_Id;
  builtin false true SOPC_NodeId_Id;
  builtin true true SOPC_Int32_Id;
  struct false true SOPC_TypeInternalIndex_Argument;
  builtin true true SOPC_Int32_Id;
  struct false true SOPC_TypeInternalIndex_Argument;
  builtin false true SOPC_DateTime_Id;
  struct false true SOPC_TypeInternalIndex_StatusResult
].

Definition Annotation_Fields : list SOPC_EncodeableType_FieldDescriptor := [
  builtin false true SOPC_String_Id;
  builtin false true SOPC_String_Id;
  builtin false true SOPC_DateTime_Id
].

(** ** Memory layout

    The value of [sizeof], on a machine with pointers of 8 bytes: the first member is
    the pointer to the descriptor; a member is aligned; an array is a pointer. *)

Definition align_up (n a : Z) : Z := (n + a - 1) / a * a.

Definition builtin_layout (id : SOPC_BuiltinId) : Z * Z :=
  match builtin_size id with
  | Ret n => (n, if decide (id = SOPC_Guid_Id) then 4 else if decide (n < 8) then Z.max n 1 else 8)
  | Fault _ => (0, 1)
  end.

Definition next_member (off : Z) (layout : Z * Z) : Z := align_up off layout.2 + layout.1.

Section Layout.
Variable sizeof_nested : Z -> Z.

Fixpoint members_end (off : Z) (descs : list SOPC_EncodeableType_FieldDescriptor) : Z :=
  match descs with
  | [] => off
  | d :: descs =>
      if isArrayLength d then
        match descs with
        | [] => off
        | _ :: descs => members_end (next_member (next_member off (4, 4)) (8, 8)) descs
        end
      else
        members_end (next_member off (if isBuiltIn d then builtin_layout (builtin_of (typeIndex d)) else (sizeof_nested (typeIndex d), 8))) descs
  end.

End Layout.

Definition known_fields (t : SOPC_TypeInternalIndex) : list SOPC_EncodeableType_FieldDescriptor :=
  match t with
  | SOPC_TypeInternalIndex_ReferenceNode => ReferenceNode_Fields
  | SOPC_TypeInternalIndex_Node => Node_Fields
  | SOPC_TypeInternalIndex_InstanceNode => InstanceNode_Fields
  | SOPC_TypeInternalIndex_TypeNode => TypeNode_Fields
  | SOPC_TypeInternalIndex_ObjectNode => ObjectNode_Fields
  | SOPC_TypeInternalIndex_ObjectTypeNode => ObjectTypeNode_Fields
  | SOPC_TypeInternalIndex_VariableNode => VariableNode_Fields
  | SOPC_TypeInternalIndex_VariableTypeNode => VariableTypeNode_Fields
  | SOPC_TypeInternalIndex_ReferenceTypeNode => ReferenceTypeNode_Fields
  | SOPC_TypeInternalIndex_MethodNode => MethodNode_Fields
  | SOPC_TypeInternalIndex_ViewNode => ViewNode_Fields
  | SOPC_TypeInternalIndex_DataTypeNode => DataTypeNode_Fields
  | SOPC_TypeInternalIndex_Argument => Argument_Fields
  | SOPC_TypeInternalIndex_EnumValueType => EnumValueType_Fields
  | SOPC_TypeInternalIndex_EnumField => EnumField_Fields
  | SOPC_TypeInternalIndex_OptionSet => OptionSet_Fields
  | SOPC_TypeInternalIndex_TimeZoneDataType => TimeZoneDataType_Fields
  | SOPC_TypeInternalIndex_ApplicationDescription => ApplicationDescription_Fields
  | SOPC_TypeInternalIndex_RequestHeader => RequestHeader_Fields
  | SOPC_TypeInternalIndex_ResponseHeader => ResponseHeader_Fields
  | SOPC_TypeInternalIndex_ServiceFault => ServiceFault_Fields
  | SOPC_TypeInternalIndex_FindServersRequest => FindServersRequest_Fields
  | SOPC_TypeInternalIndex_FindServersResponse => FindServersResponse_Fields
  | SOPC_TypeInternalIndex_ServerOnNetwork => ServerOnNetwork_Fields
  | SOPC_TypeInternalIndex_FindServersOnNetworkRequest => FindServersOnNetworkRequest_Fields
  | SOPC_TypeInternalIndex_FindServersOnNetworkResponse => FindServersOnNetworkResponse_Fields
  | SOPC_TypeInternalIndex_UserTokenPolicy => UserTokenPolicy_Fields
  | SOPC_TypeInternalIndex_EndpointDescription => EndpointDescription_Fields
  | SOPC_TypeInternalIndex_GetEndpointsRequest => GetEndpointsRequest_Fields
  | SOPC_TypeInternalIndex_GetEndpointsResponse => GetEndpointsResponse_Fields
  | SOPC_TypeInternalIndex_RegisteredServer => RegisteredServer_Fields
  | SOPC_TypeInternalIndex_RegisterServerRequest => RegisterServerRequest_Fields
  | SOPC_TypeInternalIndex_RegisterServerResponse => RegisterServerResponse_Fields
  | SOPC_TypeInternalIndex_MdnsDiscoveryConfiguration => MdnsDiscoveryConfiguration_Fields
  | SOPC_TypeInternalIndex_RegisterServer2Request => RegisterServer2Request_Fields
  | SOPC_TypeInternalIndex_RegisterServer2Response => RegisterServer2Response_Fields
  | SOPC_TypeInternalIndex_ChannelSecurityToken => ChannelSecurityToken_Fields
  | SOPC_TypeInternalIndex_OpenSecureChannelRequest => OpenSecureChannelRequest_Fields
  | SOPC_TypeInternalIndex_OpenSecureChannelResponse => OpenSecureChannelResponse_Fields
  | SOPC_TypeInternalIndex_CloseSecureChannelRequest => []
  | SOPC_TypeInternalIndex_CloseSecureChannelResponse => CloseSecureChannelResponse_Fields
  | SOPC_TypeInternalIndex_SignedSoftwareCertificate => SignedSoftwareCertificate_Fields
  | SOPC_TypeInternalIndex_SignatureData => SignatureData_Fields
  | SOPC_TypeInternalIndex_CreateSessionRequest => CreateSessionRequest_Fields
  | SOPC_TypeInternalIndex_CreateSessionResponse => CreateSessionResponse_Fields
  | SOPC_TypeInternalIndex_UserIdentityToken => UserIdentityToken_Fields
  | SOPC_TypeInternalIndex_AnonymousIdentityToken => AnonymousIdentityToken_Fields
  | SOPC_TypeInternalIndex_UserNameIdentityToken => UserNameIdentityToken_Fields
  | SOPC_TypeInternalIndex_X509IdentityToken => X509IdentityToken_Fields
  | SOPC_TypeInternalIndex_KerberosIdentityToken => KerberosIdentityToken_Fields
  | SOPC_TypeInternalIndex_IssuedIdentityToken => IssuedIdentityToken_Fields
  | SOPC_TypeInternalIndex_ActivateSessionRequest => ActivateSessionRequest_Fields
  | SOPC_TypeInternalIndex_ActivateSessionResponse => ActivateSessionResponse_Fields
  | SOPC_TypeInternalIndex_CloseSessionRequest => CloseSessionRequest_Fields
  | SOPC_TypeInternalIndex_CloseSessionResponse => CloseSessionResponse_Fields
  | SOPC_TypeInternalIndex_CancelRequest => CancelRequest_Fields
  | SOPC_TypeInternalIndex_CancelResponse => CancelResponse_Fields
  | SOPC_TypeInternalIndex_NodeAttributes => NodeAttributes_Fields
  | SOPC_TypeInternalIndex_ObjectAttributes => ObjectAttributes_Fields
  | SOPC_TypeInternalIndex_VariableAttributes => VariableAttributes_Fields
  | SOPC_TypeInternalIndex_MethodAttributes => MethodAttributes_Fields
  | SOPC_TypeInternalIndex_ObjectTypeAttributes => ObjectTypeAttributes_Fields
  | SOPC_TypeInternalIndex_VariableTypeAttributes => VariableTypeAttributes_Fields
  | SOPC_TypeInternalIndex_ReferenceTypeAttributes => ReferenceTypeAttributes_Fields
  | SOPC_TypeInternalIndex_DataTypeAttributes => DataTypeAttributes_Fields
  | SOPC_TypeInternalIndex_ViewAttributes => ViewAttributes_Fields
  | SOPC_TypeInternalIndex_AddNodesItem => AddNodesItem_Fields
  | SOPC_TypeInternalIndex_AddNodesResult => AddNodesResult_Fields
  | SOPC_TypeInternalIndex_AddNodesRequest => AddNodesRequest_Fields
  | SOPC_TypeInternalIndex_AddNodesResponse => AddNodesResponse_Fields
  | SOPC_TypeInternalIndex_AddReferencesItem => AddReferencesItem_Fields
  | SOPC_TypeInternalIndex_AddReferencesRequest => AddReferencesRequest_Fields
  | SOPC_TypeInternalIndex_AddReferencesResponse => AddReferencesResponse_Fields
  | SOPC_TypeInternalIndex_DeleteNodesItem => DeleteNodesItem_Fields
  | SOPC_TypeInternalIndex_DeleteNodesRequest => DeleteNodesRequest_Fields
  | SOPC_TypeInternalIndex_DeleteNodesResponse => DeleteNodesResponse_Fields
  | SOPC_TypeInternalIndex_DeleteReferencesItem => DeleteReferencesItem_Fields
  | SOPC_TypeInternalIndex_DeleteReferencesRequest => DeleteReferencesRequest_Fields
  | SOPC_TypeInternalIndex_DeleteReferencesResponse => DeleteReferencesResponse_Fields
  | SOPC_TypeInternalIndex_ViewDescription => ViewDescription_Fields
  | SOPC_TypeInternalIndex_BrowseDescription => BrowseDescription_Fields
  | SOPC_TypeInternalIndex_ReferenceDescription => ReferenceDescription_Fields
  | SOPC_TypeInternalIndex_BrowseResult => BrowseResult_Fields
  | SOPC_TypeInternalIndex_BrowseRequest => BrowseRequest_Fields
  | SOPC_TypeInternalIndex_BrowseResponse => BrowseResponse_Fields
  | SOPC_TypeInternalIndex_BrowseNextRequest => BrowseNextRequest_Fields
  | SOPC_TypeInternalIndex_BrowseNextResponse => BrowseNextResponse_Fields
  | SOPC_TypeInternalIndex_RelativePathElement => RelativePathElement_Fields
  | SOPC_TypeInternalIndex_RelativePath => RelativePath_Fields
  | SOPC_TypeInternalIndex_BrowsePath => BrowsePath_Fields
  | SOPC_TypeInternalIndex_BrowsePathTarget => BrowsePathTarget_Fields
  | SOPC_TypeInternalIndex_BrowsePathResult => BrowsePathResult_Fields
  | SOPC_TypeInternalIndex_TranslateBrowsePathsToNodeIdsRequest => TranslateBrowsePathsToNodeIdsRequest_Fields
  | SOPC_TypeInternalIndex_TranslateBrowsePathsToNodeIdsResponse => TranslateBrowsePathsToNodeIdsResponse_Fields
  | SOPC_TypeInternalIndex_RegisterNodesRequest => RegisterNodesRequest_Fields
  | SOPC_TypeInternalIndex_RegisterNodesResponse => RegisterNodesResponse_Fields
  | SOPC_TypeInternalIndex_UnregisterNodesRequest => UnregisterNodesRequest_Fields
  | SOPC_TypeInternalIndex_UnregisterNodesResponse => UnregisterNodesResponse_Fields
  | SOPC_TypeInternalIndex_EndpointConfiguration => EndpointConfiguration_Fields
  | SOPC_TypeInternalIndex_SupportedProfile => SupportedProfile_Fields
  | SOPC_TypeInternalIndex_SoftwareCertificate => SoftwareCertificate_Fields
  | SOPC_TypeInternalIndex_QueryDataDescription => QueryDataDescription_Fields
  | SOPC_TypeInternalIndex_NodeTypeDescription => NodeTypeDescription_Fields
  | SOPC_TypeInternalIndex_QueryDataSet => QueryDataSet_Fields
  | SOPC_TypeInternalIndex_NodeReference => NodeReference_Fields
  | SOPC_TypeInternalIndex_ContentFilterElement => ContentFilterElement_Fields
  | SOPC_TypeInternalIndex_ContentFilter => ContentFilter_Fields
  | SOPC_TypeInternalIndex_ElementOperand => ElementOperand_Fields
  | SOPC_TypeInternalIndex_LiteralOperand => LiteralOperand_Fields
  | SOPC_TypeInternalIndex_AttributeOperand => AttributeOperand_Fields
  | SOPC_TypeInternalIndex_SimpleAttributeOperand => SimpleAttributeOperand_Fields
  | SOPC_TypeInternalIndex_ContentFilterElementResult => ContentFilterElementResult_Fields
  | SOPC_TypeInternalIndex_ContentFilterResult => ContentFilterResult_Fields
  | SOPC_TypeInternalIndex_ParsingResult => ParsingResult_Fields
  | SOPC_TypeInternalIndex_QueryFirstRequest => QueryFirstRequest_Fields
  | SOPC_TypeInternalIndex_QueryFirstResponse => QueryFirstResponse_Fields
  | SOPC_TypeInternalIndex_QueryNextRequest => QueryNextRequest_Fields
  | SOPC_TypeInternalIndex_QueryNextResponse => QueryNextResponse_Fields
  | SOPC_TypeInternalIndex_ReadValueId => ReadValueId_Fields
  | SOPC_TypeInternalIndex_ReadRequest => ReadRequest_Fields
  | SOPC_TypeInternalIndex_ReadResponse => ReadResponse_Fields
  | SOPC_TypeInternalIndex_HistoryReadValueId => HistoryReadValueId_Fields
  | SOPC_TypeInternalIndex_HistoryReadResult => HistoryReadResult_Fields
  | SOPC_TypeInternalIndex_EventFilter => EventFilter_Fields
  | SOPC_TypeInternalIndex_ReadEventDetails => ReadEventDetails_Fields
  | SOPC_TypeInternalIndex_ReadRawModifiedDetails => ReadRawModifiedDetails_Fields
  | SOPC_TypeInternalIndex_AggregateConfiguration => AggregateConfiguration_Fields
  | SOPC_TypeInternalIndex_ReadProcessedDetails => ReadProcessedDetails_Fields
  | SOPC_TypeInternalIndex_ReadAtTimeDetails => ReadAtTimeDetails_Fields
  | SOPC_TypeInternalIndex_HistoryData => HistoryData_Fields
  | SOPC_TypeInternalIndex_ModificationInfo => ModificationInfo_Fields
  | SOPC_TypeInternalIndex_HistoryModifiedData => HistoryModifiedData_Fields
  | SOPC_TypeInternalIndex_HistoryEventFieldList => HistoryEventFieldList_Fields
  | SOPC_TypeInternalIndex_HistoryEvent => HistoryEvent_Fields
  | SOPC_TypeInternalIndex_HistoryReadRequest => HistoryReadRequest_Fields
  | SOPC_TypeInternalIndex_HistoryReadResponse => HistoryReadResponse_Fields
  | SOPC_TypeInternalIndex_WriteValue => WriteValue_Fields
  | SOPC_TypeInternalIndex_WriteRequest => WriteRequest_Fields
  | SOPC_TypeInternalIndex_WriteResponse => WriteResponse_Fields
  | SOPC_TypeInternalIndex_HistoryUpdateDetails => HistoryUpdateDetails_Fields
  | SOPC_TypeInternalIndex_UpdateDataDetails => UpdateDataDetails_Fields
  | SOPC_TypeInternalIndex_UpdateStructureDataDetails => UpdateStructureDataDetails_Fields
  | SOPC_TypeInternalIndex_UpdateEventDetails => UpdateEventDetails_Fields
  | SOPC_TypeInternalIndex_DeleteRawModifiedDetails => DeleteRawModifiedDetails_Fields
  | SOPC_TypeInternalIndex_DeleteAtTimeDetails => DeleteAtTimeDetails_Fields
  | SOPC_TypeInternalIndex_DeleteEventDetails => DeleteEventDetails_Fields
  | SOPC_TypeInternalIndex_HistoryUpdateResult => HistoryUpdateResult_Fields
  | SOPC_TypeInternalIndex_HistoryUpdateRequest => HistoryUpdateRequest_Fields
  | SOPC_TypeInternalIndex_HistoryUpdateResponse => HistoryUpdateResponse_Fields
  | SOPC_TypeInternalIndex_CallMethodRequest => CallMethodRequest_Fields
  | SOPC_TypeInternalIndex_CallMethodResult => CallMethodResult_Fields
  | SOPC_TypeInternalIndex_CallRequest => CallRequest_Fields
  | SOPC_TypeInternalIndex_CallResponse => CallResponse_Fields
  | SOPC_TypeInternalIndex_DataChangeFilter => DataChangeFilter_Fields
  | SOPC_TypeInternalIndex_AggregateFilter => AggregateFilter_Fields
  | SOPC_TypeInternalIndex_EventFilterResult => EventFilterResult_Fields
  | SOPC_TypeInternalIndex_AggregateFilterResult => AggregateFilterResult_Fields
  | SOPC_TypeInternalIndex_MonitoringParameters => MonitoringParameters_Fields
  | SOPC_TypeInternalIndex_MonitoredItemCreateRequest => MonitoredItemCreateRequest_Fields
  | SOPC_TypeInternalIndex_MonitoredItemCreateResult => MonitoredItemCreateResult_Fields
  | SOPC_TypeInternalIndex_CreateMonitoredItemsRequest => CreateMonitoredItemsRequest_Fields
  | SOPC_TypeInternalIndex_CreateMonitoredItemsResponse => CreateMonitoredItemsResponse_Fields
  | SOPC_TypeInternalIndex_MonitoredItemModifyRequest => MonitoredItemModifyRequest_Fields
  | SOPC_TypeInternalIndex_MonitoredItemModifyResult => MonitoredItemModifyResult_Fields
  | SOPC_TypeInternalIndex_ModifyMonitoredItemsRequest => ModifyMonitoredItemsRequest_Fields
  | SOPC_TypeInternalIndex_ModifyMonitoredItemsResponse => ModifyMonitoredItemsResponse_Fields
  | SOPC_TypeInternalIndex_SetMonitoringModeRequest => SetMonitoringModeRequest_Fields
  | SOPC_TypeInternalIndex_SetMonitoringModeResponse => SetMonitoringModeResponse_Fields
  | SOPC_TypeInternalIndex_SetTriggeringRequest => SetTriggeringRequest_Fields
  | SOPC_TypeInternalIndex_SetTriggeringResponse => SetTriggeringResponse_Fields
  | SOPC_TypeInternalIndex_DeleteMonitoredItemsRequest => DeleteMonitoredItemsRequest_Fields
  | SOPC_TypeInternalIndex_DeleteMonitoredItemsResponse => DeleteMonitoredItemsResponse_Fields
  | SOPC_TypeInternalIndex_CreateSubscriptionRequest => CreateSubscriptionRequest_Fields
  | SOPC_TypeInternalIndex_CreateSubscriptionResponse => CreateSubscriptionResponse_Fields
  | SOPC_TypeInternalIndex_ModifySubscriptionRequest => ModifySubscriptionRequest_Fields
  | SOPC_TypeInternalIndex_ModifySubscriptionResponse => ModifySubscriptionResponse_Fields
  | SOPC_TypeInternalIndex_SetPublishingModeRequest => SetPublishingModeRequest_Fields
  | SOPC_TypeInternalIndex_SetPublishingModeResponse => SetPublishingModeResponse_Fields
  | SOPC_TypeInternalIndex_NotificationMessage => NotificationMessage_Fields
  | SOPC_TypeInternalIndex_MonitoredItemNotification => MonitoredItemNotification_Fields
  | SOPC_TypeInternalIndex_DataChangeNotification => DataChangeNotification_Fields
  | SOPC_TypeInternalIndex_EventFieldList => EventFieldList_Fields
  | SOPC_TypeInternalIndex_EventNotificationList => EventNotificationList_Fields
  | SOPC_TypeInternalIndex_StatusChangeNotification => StatusChangeNotification_Fields
  | SOPC_TypeInternalIndex_SubscriptionAcknowledgement => SubscriptionAcknowledgement_Fields
  | SOPC_TypeInternalIndex_PublishRequest => PublishRequest_Fields
  | SOPC_TypeInternalIndex_PublishResponse => PublishResponse_Fields
  | SOPC_TypeInternalIndex_RepublishRequest => RepublishRequest_Fields
  | SOPC_TypeInternalIndex_RepublishResponse => RepublishResponse_Fields
  | SOPC_TypeInternalIndex_TransferResult => TransferResult_Fields
  | SOPC_TypeInternalIndex_TransferSubscriptionsRequest => TransferSubscriptionsRequest_Fields
  | SOPC_TypeInternalIndex_TransferSubscriptionsResponse => TransferSubscriptionsResponse_Fields
  | SOPC_TypeInternalIndex_DeleteSubscriptionsRequest => DeleteSubscriptionsRequest_Fields
  | SOPC_TypeInternalIndex_DeleteSubscriptionsResponse => DeleteSubscriptionsResponse_Fields
  | SOPC_TypeInternalIndex_BuildInfo => BuildInfo_Fields
  | SOPC_TypeInternalIndex_RedundantServerDataType => RedundantServerDataType_Fields
  | SOPC_TypeInternalIndex_EndpointUrlListDataType => EndpointUrlListDataType_Fields
  | SOPC_TypeInternalIndex_NetworkGroupDataType => NetworkGroupDataType_Fields
  | SOPC_TypeInternalIndex_SamplingIntervalDiagnosticsDataType => SamplingIntervalDiagnosticsDataType_Fields
  | SOPC_TypeInternalIndex_ServerDiagnosticsSummaryDataType => ServerDiagnosticsSummaryDataType_Fields
  | SOPC_TypeInternalIndex_ServerStatusDataType => ServerStatusDataType_Fields
  | SOPC_TypeInternalIndex_ServiceCounterDataType => ServiceCounterDataType_Fields
  | SOPC_TypeInternalIndex_SessionDiagnosticsDataType => SessionDiagnosticsDataType_Fields
  | SOPC_TypeInternalIndex_SessionSecurityDiagnosticsDataType => SessionSecurityDiagnosticsDataType_Fields
  | SOPC_TypeInternalIndex_StatusResult => StatusResult_Fields
  | SOPC_TypeInternalIndex_SubscriptionDiagnosticsDataType => SubscriptionDiagnosticsDataType_Fields
  | SOPC_TypeInternalIndex_ModelChangeStructureDataType => ModelChangeStructureDataType_Fields
  | SOPC_TypeInternalIndex_SemanticChangeStructureDataType => SemanticChangeStructureDataType_Fields
  | SOPC_TypeInternalIndex_Range => Range_Fields
  | SOPC_TypeInternalIndex_EUInformation => EUInformation_Fields
  | SOPC_TypeInternalIndex_ComplexNumberType => ComplexNumberType_Fields
  | SOPC_TypeInternalIndex_DoubleComplexNumberType => DoubleComplexNumberType_Fields
  | SOPC_TypeInternalIndex_AxisInformation => AxisInformation_Fields
  | SOPC_TypeInternalIndex_XVType => XVType_Fields
  | SOPC_TypeInternalIndex_ProgramDiagnosticDataType => ProgramDiagnosticDataType_Fields
  | SOPC_TypeInternalIndex_Annotation => Annotation_Fields
  end.

Definition all_indexes : list SOPC_TypeInternalIndex := [
  SOPC_TypeInternalIndex_ReferenceNode;
  SOPC_TypeInternalIndex_Node;
  SOPC_TypeInternalIndex_InstanceNode;
  SOPC_TypeInternalIndex_TypeNode;
  SOPC_TypeInternalIndex_ObjectNode;
  SOPC_TypeInternalIndex_ObjectTypeNode;
  SOPC_TypeInternalIndex_VariableNode;
  SOPC_TypeInternalIndex_VariableTypeNode;
  SOPC_TypeInternalIndex_ReferenceTypeNode;
  SOPC_TypeInternalIndex_MethodNode;
  SOPC_TypeInternalIndex_ViewNode;
  SOPC_TypeInternalIndex_DataTypeNode;
  SOPC_TypeInternalIndex_Argument;
  SOPC_TypeInternalIndex_EnumValueType;
  SOPC_TypeInternalIndex_EnumField;
  SOPC_TypeInternalIndex_OptionSet;
  SOPC_TypeInternalIndex_TimeZoneDataType;
  SOPC_TypeInternalIndex_ApplicationDescription;
  SOPC_TypeInternalIndex_RequestHeader;
  SOPC_TypeInternalIndex_ResponseHeader;
  SOPC_TypeInternalIndex_ServiceFault;
  SOPC_TypeInternalIndex_FindServersRequest;
  SOPC_TypeInternalIndex_FindServersResponse;
  SOPC_TypeInternalIndex_ServerOnNetwork;
  SOPC_TypeInternalIndex_FindServersOnNetworkRequest;
  SOPC_TypeInternalIndex_FindServersOnNetworkResponse;
  SOPC_TypeInternalIndex_UserTokenPolicy;
  SOPC_TypeInternalIndex_EndpointDescription;
  SOPC_TypeInternalIndex_GetEndpointsRequest;
  SOPC_TypeInternalIndex_GetEndpointsResponse;
  SOPC_TypeInternalIndex_RegisteredServer;
  SOPC_TypeInternalIndex_RegisterServerRequest;
  SOPC_TypeInternalIndex_RegisterServerResponse;
  SOPC_TypeInternalIndex_MdnsDiscoveryConfiguration;
  SOPC_TypeInternalIndex_RegisterServer2Request;
  SOPC_TypeInternalIndex_RegisterServer2Response;
  SOPC_TypeInternalIndex_ChannelSecurityToken;
  SOPC_TypeInternalIndex_OpenSecureChannelRequest;
  SOPC_TypeInternalIndex_OpenSecureChannelResponse;
  SOPC_TypeInternalIndex_CloseSecureChannelRequest;
  SOPC_TypeInternalIndex_CloseSecureChannelResponse;
  SOPC_TypeInternalIndex_SignedSoftwareCertificate;
  SOPC_TypeInternalIndex_SignatureData;
  SOPC_TypeInternalIndex_CreateSessionRequest;
  SOPC_TypeInternalIndex_CreateSessionResponse;
  SOPC_TypeInternalIndex_UserIdentityToken;
  SOPC_TypeInternalIndex_AnonymousIdentityToken;
  SOPC_TypeInternalIndex_UserNameIdentityToken;
  SOPC_TypeInternalIndex_X509IdentityToken;
  SOPC_TypeInternalIndex_KerberosIdentityToken;
  SOPC_TypeInternalIndex_IssuedIdentityToken;
  SOPC_TypeInternalIndex_ActivateSessionRequest;
  SOPC_TypeInternalIndex_ActivateSessionResponse;
  SOPC_TypeInternalIndex_CloseSessionRequest;
  SOPC_TypeInternalIndex_CloseSessionResponse;
  SOPC_TypeInternalIndex_CancelRequest;
  SOPC_TypeInternalIndex_CancelResponse;
  SOPC_TypeInternalIndex_NodeAttributes;
  SOPC_TypeInternalIndex_ObjectAttributes;
  SOPC_TypeInternalIndex_VariableAttributes;
  SOPC_TypeInternalIndex_MethodAttributes;
  SOPC_TypeInternalIndex_ObjectTypeAttributes;
  SOPC_TypeInternalIndex_VariableTypeAttributes;
  SOPC_TypeInternalIndex_ReferenceTypeAttributes;
  SOPC_TypeInternalIndex_DataTypeAttributes;
  SOPC_TypeInternalIndex_ViewAttributes;
  SOPC_TypeInternalIndex_AddNodesItem;
  SOPC_TypeInternalIndex_AddNodesResult;
  SOPC_TypeInternalIndex_AddNodesRequest;
  SOPC_TypeInternalIndex_AddNodesResponse;
  SOPC_TypeInternalIndex_AddReferencesItem;
  SOPC_TypeInternalIndex_AddReferencesRequest;
  SOPC_TypeInternalIndex_AddReferencesResponse;
  SOPC_TypeInternalIndex_DeleteNodesItem;
  SOPC_TypeInternalIndex_DeleteNodesRequest;
  SOPC_TypeInternalIndex_DeleteNodesResponse;
  SOPC_TypeInternalIndex_DeleteReferencesItem;
  SOPC_TypeInternalIndex_DeleteReferencesRequest;
  SOPC_TypeInternalIndex_DeleteReferencesResponse;
  SOPC_TypeInternalIndex_ViewDescription;
  SOPC_TypeInternalIndex_BrowseDescription;
  SOPC_TypeInternalIndex_ReferenceDescription;
  SOPC_TypeInternalIndex_BrowseResult;
  SOPC_TypeInternalIndex_BrowseRequest;
  SOPC_TypeInternalIndex_BrowseResponse;
  SOPC_TypeInternalIndex_BrowseNextRequest;
  SOPC_TypeInternalIndex_BrowseNextResponse;
  SOPC_TypeInternalIndex_RelativePathElement;
  SOPC_TypeInternalIndex_RelativePath;
  SOPC_TypeInternalIndex_BrowsePath;
  SOPC_TypeInternalIndex_BrowsePathTarget;
  SOPC_TypeInternalIndex_BrowsePathResult;
  SOPC_TypeInternalIndex_TranslateBrowsePathsToNodeIdsRequest;
  SOPC_TypeInternalIndex_TranslateBrowsePathsToNodeIdsResponse;
  SOPC_TypeInternalIndex_RegisterNodesRequest;
  SOPC_TypeInternalIndex_RegisterNodesResponse;
  SOPC_TypeInternalIndex_UnregisterNodesRequest;
  SOPC_TypeInternalIndex_UnregisterNodesResponse;
  SOPC_TypeInternalIndex_EndpointConfiguration;
  SOPC_TypeInternalIndex_SupportedProfile;
  SOPC_TypeInternalIndex_SoftwareCertificate;
  SOPC_TypeInternalIndex_QueryDataDescription;
  SOPC_TypeInternalIndex_NodeTypeDescription;
  SOPC_TypeInternalIndex_QueryDataSet;
  SOPC_TypeInternalIndex_NodeReference;
  SOPC_TypeInternalIndex_ContentFilterElement;
  SOPC_TypeInternalIndex_ContentFilter;
  SOPC_TypeInternalIndex_ElementOperand;
  SOPC_TypeInternalIndex_LiteralOperand;
  SOPC_TypeInternalIndex_AttributeOperand;
  SOPC_TypeInternalIndex_SimpleAttributeOperand;
  SOPC_TypeInternalIndex_ContentFilterElementResult;
  SOPC_TypeInternalIndex_ContentFilterResult;
  SOPC_TypeInternalIndex_ParsingResult;
  SOPC_TypeInternalIndex_QueryFirstRequest;
  SOPC_TypeInternalIndex_QueryFirstResponse;
  SOPC_TypeInternalIndex_QueryNextRequest;
  SOPC_TypeInternalIndex_QueryNextResponse;
  SOPC_TypeInternalIndex_ReadValueId;
  SOPC_TypeInternalIndex_ReadRequest;
  SOPC_TypeInternalIndex_ReadResponse;
  SOPC_TypeInternalIndex_HistoryReadValueId;
  SOPC_TypeInternalIndex_HistoryReadResult;
  SOPC_TypeInternalIndex_EventFilter;
  SOPC_TypeInternalIndex_ReadEventDetails;
  SOPC_TypeInternalIndex_ReadRawModifiedDetails;
  SOPC_TypeInternalIndex_AggregateConfiguration;
  SOPC_TypeInternalIndex_ReadProcessedDetails;
  SOPC_TypeInternalIndex_ReadAtTimeDetails;
  SOPC_TypeInternalIndex_HistoryData;
  SOPC_TypeInternalIndex_ModificationInfo;
  SOPC_TypeInternalIndex_HistoryModifiedData;
  SOPC_TypeInternalIndex_HistoryEventFieldList;
  SOPC_TypeInternalIndex_HistoryEvent;
  SOPC_TypeInternalIndex_HistoryReadRequest;
  SOPC_TypeInternalIndex_HistoryReadResponse;
  SOPC_TypeInternalIndex_WriteValue;
  SOPC_TypeInternalIndex_WriteRequest;
  SOPC_TypeInternalIndex_WriteResponse;
  SOPC_TypeInternalIndex_HistoryUpdateDetails;
  SOPC_TypeInternalIndex_UpdateDataDetails;
  SOPC_TypeInternalIndex_UpdateStructureDataDetails;
  SOPC_TypeInternalIndex_UpdateEventDetails;
  SOPC_TypeInternalIndex_DeleteRawModifiedDetails;
  SOPC_TypeInternalIndex_DeleteAtTimeDetails;
  SOPC_TypeInternalIndex_DeleteEventDetails;
  SOPC_TypeInternalIndex_HistoryUpdateResult;
  SOPC_TypeInternalIndex_HistoryUpdateRequest;
  SOPC_TypeInternalIndex_HistoryUpdateResponse;
  SOPC_TypeInternalIndex_CallMethodRequest;
  SOPC_TypeInternalIndex_CallMethodResult;
  SOPC_TypeInternalIndex_CallRequest;
  SOPC_TypeInternalIndex_CallResponse;
  SOPC_TypeInternalIndex_DataChangeFilter;
  SOPC_TypeInternalIndex_AggregateFilter;
  SOPC_TypeInternalIndex_EventFilterResult;
  SOPC_TypeInternalIndex_AggregateFilterResult;
  SOPC_TypeInternalIndex_MonitoringParameters;
  SOPC_TypeInternalIndex_MonitoredItemCreateRequest;
  SOPC_TypeInternalIndex_MonitoredItemCreateResult;
  SOPC_TypeInternalIndex_CreateMonitoredItemsRequest;
  SOPC_TypeInternalIndex_CreateMonitoredItemsResponse;
  SOPC_TypeInternalIndex_MonitoredItemModifyRequest;
  SOPC_TypeInternalIndex_MonitoredItemModifyResult;
  SOPC_TypeInternalIndex_ModifyMonitoredItemsRequest;
  SOPC_TypeInternalIndex_ModifyMonitoredItemsResponse;
  SOPC_TypeInternalIndex_SetMonitoringModeRequest;
  SOPC_TypeInternalIndex_SetMonitoringModeResponse;
  SOPC_TypeInternalIndex_SetTriggeringRequest;
  SOPC_TypeInternalIndex_SetTriggeringResponse;
  SOPC_TypeInternalIndex_DeleteMonitoredItemsRequest;
  SOPC_TypeInternalIndex_DeleteMonitoredItemsResponse;
  SOPC_TypeInternalIndex_CreateSubscriptionRequest;
  SOPC_TypeInternalIndex_CreateSubscriptionResponse;
  SOPC_TypeInternalIndex_ModifySubscriptionRequest;
  SOPC_TypeInternalIndex_ModifySubscriptionResponse;
  SOPC_TypeInternalIndex_SetPublishingModeRequest;
  SOPC_TypeInternalIndex_SetPublishingModeResponse;
  SOPC_TypeInternalIndex_NotificationMessage;
  SOPC_TypeInternalIndex_MonitoredItemNotification;
  SOPC_TypeInternalIndex_DataChangeNotification;
  SOPC_TypeInternalIndex_EventFieldList;
  SOPC_TypeInternalIndex_EventNotificationList;
  SOPC_TypeInternalIndex_StatusChangeNotification;
  SOPC_TypeInternalIndex_SubscriptionAcknowledgement;
  SOPC_TypeInternalIndex_PublishRequest;
  SOPC_TypeInternalIndex_PublishResponse;
  SOPC_TypeInternalIndex_RepublishRequest;
  SOPC_TypeInternalIndex_RepublishResponse;
  SOPC_TypeInternalIndex_TransferResult;
  SOPC_TypeInternalIndex_TransferSubscriptionsRequest;
  SOPC_TypeInternalIndex_TransferSubscriptionsResponse;
  SOPC_TypeInternalIndex_DeleteSubscriptionsRequest;
  SOPC_TypeInternalIndex_DeleteSubscriptionsResponse;
  SOPC_TypeInternalIndex_BuildInfo;
  SOPC_TypeInternalIndex_RedundantServerDataType;
  SOPC_TypeInternalIndex_EndpointUrlListDataType;
  SOPC_TypeInternalIndex_NetworkGroupDataType;
  SOPC_TypeInternalIndex_SamplingIntervalDiagnosticsDataType;
  SOPC_TypeInternalIndex_ServerDiagnosticsSummaryDataType;
  SOPC_TypeInternalIndex_ServerStatusDataType;
  SOPC_TypeInternalIndex_ServiceCounterDataType;
  SOPC_TypeInternalIndex_SessionDiagnosticsDataType;
  SOPC_TypeInternalIndex_SessionSecurityDiagnosticsDataType;
  SOPC_TypeInternalIndex_StatusResult;
  SOPC_TypeInternalIndex_SubscriptionDiagnosticsDataType;
  SOPC_TypeInternalIndex_ModelChangeStructureDataType;
  SOPC_TypeInternalIndex_SemanticChangeStructureDataType;
  SOPC_TypeInternalIndex_Range;
  SOPC_TypeInternalIndex_EUInformation;
  SOPC_TypeInternalIndex_ComplexNumberType;
  SOPC_TypeInternalIndex_DoubleComplexNumberType;
  SOPC_TypeInternalIndex_AxisInformation;
  SOPC_TypeInternalIndex_XVType;
  SOPC_TypeInternalIndex_ProgramDiagnosticDataType;
  SOPC_TypeInternalIndex_Annotation
].

Fixpoint sizeof_fuel (fuel : nat) (index : Z) : Z :=
  match fuel, nth_error all_indexes (Z.to_nat index) with
  | S fuel, Some t => align_up (members_end (sizeof_fuel fuel) 8 (known_fields t)) 8
  | _, _ => 0
  end.

(** Structures are nested by value on fewer than 8 levels. *)
Definition sizeof (t : SOPC_TypeInternalIndex) : Z := sizeof_fuel 8 (type_index t).

(** ** Descriptors *)

Definition OpcUa_ReferenceNode_EncodeableType : SOPC_EncodeableType := mkEncodeableType
  285 (* OpcUaId_ReferenceNode *)
  287 (* OpcUaId_ReferenceNode_Encoding_DefaultBinary *)
  NULL (sizeof SOPC_TypeInternalIndex_ReferenceNode) ReferenceNode_Fields.

Definition OpcUa_Node_EncodeableType : SOPC_EncodeableType := mkEncodeableType
  258 (* OpcUaId_Node *)
  260 (* OpcUaId_Node_Encoding_DefaultBinary *)
  NULL (sizeof SOPC_TypeInternalIndex_Node) Node_Fields.

Definition OpcUa_InstanceNode_EncodeableType : SOPC_EncodeableType := mkEncodeableType
  11879 (* OpcUaId_InstanceNode *)
  11889 (* OpcUaId_InstanceNode_Encoding_DefaultBinary *)
  NULL (sizeof SOPC_TypeInternalIndex_InstanceNode) InstanceNode_Fields.

Definition OpcUa_TypeNode_EncodeableType : SOPC_EncodeableType := mkEncodeableType
  11880 (* OpcUaId_TypeNode *)
  11890 (* OpcUaId_TypeNode_Encoding_DefaultBinary *)
  NULL (sizeof SOPC_TypeInternalIndex_TypeNode) TypeNode_Fields.

Definition OpcUa_ObjectNode_EncodeableType : SOPC_EncodeableType := mkEncodeableType
  261 (* OpcUaId_ObjectNode *)
  263 (* OpcUaId_ObjectNode_Encoding_DefaultBinary *)
  NULL (sizeof SOPC_TypeInternalIndex_ObjectNode) ObjectNode_Fields.

Definition OpcUa_ObjectTypeNode_EncodeableType : SOPC_EncodeableType := mkEncodeableType
  264 (* OpcUaId_ObjectTypeNode *)
  266 (* OpcUaId_ObjectTypeNode_Encoding_DefaultBinary *)
  NULL (sizeof SOPC_TypeInternalIndex_ObjectTypeNode) ObjectTypeNode_Fields.

Definition OpcUa_VariableNode_EncodeableType : SOPC_EncodeableType := mkEncodeableType
  267 (* OpcUaId_VariableNode *)
  269 (* OpcUaId_VariableNode_Encoding_DefaultBinary *)
  NULL (sizeof SOPC_TypeInternalIndex_VariableNode) VariableNode_Fields.

Definition OpcUa_VariableTypeNode_EncodeableType : SOPC_EncodeableType := mkEncodeableType
  270 (* OpcUaId_VariableTypeNode *)
  272 (* OpcUaId_VariableTypeNode_Encoding_DefaultBinary *)
  NULL (sizeof SOPC_TypeInternalIndex_VariableTypeNode) VariableTypeNode_Fields.

Definition OpcUa_ReferenceTypeNode_EncodeableType : SOPC_EncodeableType := mkEncodeableType
  273 (* OpcUaId_ReferenceTypeNode *)
  275 (* OpcUaId_ReferenceTypeNode_Encoding_DefaultBinary *)
  NULL (sizeof SOPC_TypeInternalIndex_ReferenceTypeNode) ReferenceTypeNode_Fields.

Definition OpcUa_MethodNode_EncodeableType : SOPC_EncodeableType := mkEncodeableType
  276 (* OpcUaId_MethodNode *)
  278 (* OpcUaId_MethodNode_Encoding_DefaultBinary *)
  NULL (sizeof SOPC_TypeInternalIndex_MethodNode) MethodNode_Fields.

Definition OpcUa_ViewNode_EncodeableType : SOPC_EncodeableType := mkEncodeableType
  279 (* OpcUaId_ViewNode *)
  281 (* OpcUaId_ViewNode_Encoding_DefaultBinary *)
  NULL (sizeof SOPC_TypeInternalIndex_ViewNode) ViewNode_Fields.

Definition OpcUa_DataTypeNode_EncodeableType : SOPC_EncodeableType := mkEncodeableType
  282 (* OpcUaId_DataTypeNode *)
  284 (* OpcUaId_DataTypeNode_Encoding_DefaultBinary *)
  NULL (sizeof SOPC_TypeInternalIndex_DataTypeNode) DataTypeNode_Fields.

Definition OpcUa_Argument_EncodeableType : SOPC_EncodeableType := mkEncodeableType
  296 (* OpcUaId_Argument *)
  298 (* OpcUaId_Argument_Encoding_DefaultBinary *)
  NULL (sizeof SOPC_TypeInternalIndex_Argument) Argument_Fields.

Definition OpcUa_EnumValueType_EncodeableType : SOPC_EncodeableType := mkEncodeableType
  7594 (* OpcUaId_EnumValueType *)
  8251 (* OpcUaId_EnumValueType_Encoding_DefaultBinary *)
  NULL (sizeof SOPC_TypeInternalIndex_EnumValueType) EnumValueType_Fields.

Definition OpcUa_EnumField_EncodeableType : SOPC_EncodeableType := mkEncodeableType
  14532 (* OpcUaId_EnumField *)
  14845 (* OpcUaId_EnumField_Encoding_DefaultBinary *)
  NULL (sizeof SOPC_TypeInternalIndex_EnumField) EnumField_Fields.

Definition OpcUa_OptionSet_EncodeableType : SOPC_EncodeableType := mkEncodeableType
  12755 (* OpcUaId_OptionSet *)
  12765 (* OpcUaId_OptionSet_Encoding_DefaultBinary *)
  NULL (sizeof SOPC_TypeInternalIndex_OptionSet) OptionSet_Fields.

Definition OpcUa_TimeZoneDataType_EncodeableType : SOPC_EncodeableType := mkEncodeableType
  8912 (* OpcUaId_TimeZoneDataType *)
  8917 (* OpcUaId_TimeZoneDataType_Encoding_DefaultBinary *)
  NULL (sizeof SOPC_TypeInternalIndex_TimeZoneDataType) TimeZoneDataType_Fields.

Definition OpcUa_ApplicationDescription_EncodeableType : SOPC_EncodeableType := mkEncodeableType
  308 (* OpcUaId_ApplicationDescription *)
  310 (* OpcUaId_ApplicationDescription_Encoding_DefaultBinary *)
  NULL (sizeof SOPC_TypeInternalIndex_ApplicationDescription) ApplicationDescription_Fields.

Definition OpcUa_RequestHeader_EncodeableType : SOPC_EncodeableType := mkEncodeableType
  389 (* OpcUaId_RequestHeader *)
  391 (* OpcUaId_RequestHeader_Encoding_DefaultBinary *)
  NULL (sizeof SOPC_TypeInternalIndex_RequestHeader) RequestHeader_Fields.

Definition OpcUa_ResponseHeader_EncodeableType : SOPC_EncodeableType := mkEncodeableType
  392 (* OpcUaId_ResponseHeader *)
  394 (* OpcUaId_ResponseHeader_Encoding_DefaultBinary *)
  NULL (sizeof SOPC_TypeInternalIndex_ResponseHeader) ResponseHeader_Fields.

Definition OpcUa_ServiceFault_EncodeableType : SOPC_EncodeableType := mkEncodeableType
  395 (* OpcUaId_ServiceFault *)
  397 (* OpcUaId_ServiceFault_Encoding_DefaultBinary *)
  NULL (sizeof SOPC_TypeInternalIndex_ServiceFault) ServiceFault_Fields.

Definition OpcUa_FindServersRequest_EncodeableType : SOPC_EncodeableType := mkEncodeableType
  420 (* OpcUaId_FindServersRequest *)
  422 (* OpcUaId_FindServersRequest_Encoding_DefaultBinary *)
  NULL (sizeof SOPC_TypeInternalIndex_FindServersRequest) FindServersRequest_Fields.

Definition OpcUa_FindServersResponse_EncodeableType : SOPC_EncodeableType := mkEncodeableType
  423 (* OpcUaId_FindServersResponse *)
  425 (* OpcUaId_FindServersResponse_Encoding_DefaultBinary *)
  NULL (sizeof SOPC_TypeInternalIndex_FindServersResponse) FindServersResponse_Fields.

Definition OpcUa_ServerOnNetwork_EncodeableType : SOPC_EncodeableType := mkEncodeableType
  12189 (* OpcUaId_ServerOnNetwork *)
  12207 (* OpcUaId_ServerOnNetwork_Encoding_DefaultBinary *)
  NULL (sizeof SOPC_TypeInternalIndex_ServerOnNetwork) ServerOnNetwork_Fields.

Definition OpcUa_FindServersOnNetworkRequest_EncodeableType : SOPC_EncodeableType := mkEncodeableType
  12190 (* OpcUaId_FindServersOnNetworkRequest *)
  12208 (* OpcUaId_FindServersOnNetworkRequest_Encoding_DefaultBinary *)
  NULL (sizeof SOPC_TypeInternalIndex_FindServersOnNetworkRequest) FindServersOnNetworkRequest_Fields.

Definition OpcUa_FindServersOnNetworkResponse_EncodeableType : SOPC_EncodeableType := mkEncodeableType
  12191 (* OpcUaId_FindServersOnNetworkResponse *)
  12209 (* OpcUaId_FindServersOnNetworkResponse_Encoding_DefaultBinary *)
  NULL (sizeof SOPC_TypeInternalIndex_FindServersOnNetworkResponse) FindServersOnNetworkResponse_Fields.

Definition OpcUa_UserTokenPolicy_EncodeableType : SOPC_EncodeableType := mkEncodeableType
  304 (* OpcUaId_UserTokenPolicy *)
  306 (* OpcUaId_UserTokenPolicy_Encoding_DefaultBinary *)
  NULL (sizeof SOPC_TypeInternalIndex_UserTokenPolicy) UserTokenPolicy_Fields.

Definition OpcUa_EndpointDescription_EncodeableType : SOPC_EncodeableType := mkEncodeableType
  312 (* OpcUaId_EndpointDescription *)
  314 (* OpcUaId_EndpointDescription_Encoding_DefaultBinary *)
  NULL (sizeof SOPC_TypeInternalIndex_EndpointDescription) EndpointDescription_Fields.

Definition OpcUa_GetEndpointsRequest_EncodeableType : SOPC_EncodeableType := mkEncodeableType
  426 (* OpcUaId_GetEndpointsRequest *)
  428 (* OpcUaId_GetEndpointsRequest_Encoding_DefaultBinary *)
  NULL (sizeof SOPC_TypeInternalIndex_GetEndpointsRequest) GetEndpointsRequest_Fields.

Definition OpcUa_GetEndpointsResponse_EncodeableType : SOPC_EncodeableType := mkEncodeableType
  429 (* OpcUaId_GetEndpointsResponse *)
  431 (* OpcUaId_GetEndpointsResponse_Encoding_DefaultBinary *)
  NULL (sizeof SOPC_TypeInternalIndex_GetEndpointsResponse) GetEndpointsResponse_Fields.

Definition OpcUa_RegisteredServer_EncodeableType : SOPC_EncodeableType := mkEncodeableType
  432 (* OpcUaId_RegisteredServer *)
  434 (* OpcUaId_RegisteredServer_Encoding_DefaultBinary *)
  NULL (sizeof SOPC_TypeInternalIndex_RegisteredServer) RegisteredServer_Fields.

Definition OpcUa_RegisterServerRequest_EncodeableType : SOPC_EncodeableType := mkEncodeableType
  435 (* OpcUaId_RegisterServerRequest *)
  437 (* OpcUaId_RegisterServerRequest_Encoding_DefaultBinary *)
  NULL (sizeof SOPC_TypeInternalIndex_RegisterServerRequest) RegisterServerRequest_Fields.

Definition OpcUa_RegisterServerResponse_EncodeableType : SOPC_EncodeableType := mkEncodeableType
  438 (* OpcUaId_RegisterServerResponse *)
  440 (* OpcUaId_RegisterServerResponse_Encoding_DefaultBinary *)
  NULL (sizeof SOPC_TypeInternalIndex_RegisterServerResponse) RegisterServerResponse_Fields.

Definition OpcUa_MdnsDiscoveryConfiguration_EncodeableType : SOPC_EncodeableType := mkEncodeableType
  12891 (* OpcUaId_MdnsDiscoveryConfiguration *)
  12901 (* OpcUaId_MdnsDiscoveryConfiguration_Encoding_DefaultBinary *)
  NULL (sizeof SOPC_TypeInternalIndex_MdnsDiscoveryConfiguration) MdnsDiscoveryConfiguration_Fields.

Definition OpcUa_RegisterServer2Request_EncodeableType : SOPC_EncodeableType := mkEncodeableType
  12193 (* OpcUaId_RegisterServer2Request *)
  12211 (* OpcUaId_RegisterServer2Request_Encoding_DefaultBinary *)
  NULL (sizeof SOPC_TypeInternalIndex_RegisterServer2Request) RegisterServer2Request_Fields.

Definition OpcUa_RegisterServer2Response_EncodeableType : SOPC_EncodeableType := mkEncodeableType
  12194 (* OpcUaId_RegisterServer2Response *)
  12212 (* OpcUaId_RegisterServer2Response_Encoding_DefaultBinary *)
  NULL (sizeof SOPC_TypeInternalIndex_RegisterServer2Response) RegisterServer2Response_Fields.

Definition OpcUa_ChannelSecurityToken_EncodeableType : SOPC_EncodeableType := mkEncodeableType
  441 (* OpcUaId_ChannelSecurityToken *)
  443 (* OpcUaId_ChannelSecurityToken_Encoding_DefaultBinary *)
  NULL (sizeof SOPC_TypeInternalIndex_ChannelSecurityToken) ChannelSecurityToken_Fields.

Definition OpcUa_OpenSecureChannelRequest_EncodeableType : SOPC_EncodeableType := mkEncodeableType
  444 (* OpcUaId_OpenSecureChannelRequest *)
  446 (* OpcUaId_OpenSecureChannelRequest_Encoding_DefaultBinary *)
  NULL (sizeof SOPC_TypeInternalIndex_OpenSecureChannelRequest) OpenSecureChannelRequest_Fields.

Definition OpcUa_OpenSecureChannelResponse_EncodeableType : SOPC_EncodeableType := mkEncodeableType
  447 (* OpcUaId_OpenSecureChannelResponse *)
  449 (* OpcUaId_OpenSecureChannelResponse_Encoding_DefaultBinary *)
  NULL (sizeof SOPC_TypeInternalIndex_OpenSecureChannelResponse) OpenSecureChannelResponse_Fields.

Definition OpcUa_CloseSecureChannelRequest_EncodeableType : SOPC_EncodeableType := mkEncodeableType
  450 (* OpcUaId_CloseSecureChannelRequest *)
  452 (* OpcUaId_CloseSecureChannelRequest_Encoding_DefaultBinary *)
  NULL (sizeof SOPC_TypeInternalIndex_CloseSecureChannelRequest) [].

Definition OpcUa_CloseSecureChannelResponse_EncodeableType : SOPC_EncodeableType := mkEncodeableType
  453 (* OpcUaId_CloseSecureChannelResponse *)
  455 (* OpcUaId_CloseSecureChannelResponse_Encoding_DefaultBinary *)
  NULL (sizeof SOPC_TypeInternalIndex_CloseSecureChannelResponse) CloseSecureChannelResponse_Fields.

Definition OpcUa_SignedSoftwareCertificate_EncodeableType : SOPC_EncodeableType := mkEncodeableType
  344 (* OpcUaId_SignedSoftwareCertificate *)
  346 (* OpcUaId_SignedSoftwareCertificate_Encoding_DefaultBinary *)
  NULL (sizeof SOPC_TypeInternalIndex_SignedSoftwareCertificate) SignedSoftwareCertificate_Fields.

Definition OpcUa_SignatureData_EncodeableType : SOPC_EncodeableType := mkEncodeableType
  456 (* OpcUaId_SignatureData *)
  458 (* OpcUaId_SignatureData_Encoding_DefaultBinary *)
  NULL (sizeof SOPC_TypeInternalIndex_SignatureData) SignatureData_Fields.

Definition OpcUa_CreateSessionRequest_EncodeableType : SOPC_EncodeableType := mkEncodeableType
  459 (* OpcUaId_CreateSessionRequest *)
  461 (* OpcUaId_CreateSessionRequest_Encoding_DefaultBinary *)
  NULL (sizeof SOPC_TypeInternalIndex_CreateSessionRequest) CreateSessionRequest_Fields.

Definition OpcUa_CreateSessionResponse_EncodeableType : SOPC_EncodeableType := mkEncodeableType
  462 (* OpcUaId_CreateSessionResponse *)
  464 (* OpcUaId_CreateSessionResponse_Encoding_DefaultBinary *)
  NULL (sizeof SOPC_TypeInternalIndex_CreateSessionResponse) CreateSessionResponse_Fields.

Definition OpcUa_UserIdentityToken_EncodeableType : SOPC_EncodeableType := mkEncodeableType
  316 (* OpcUaId_UserIdentityToken *)
  318 (* OpcUaId_UserIdentityToken_Encoding_DefaultBinary *)
  NULL (sizeof SOPC_TypeInternalIndex_UserIdentityToken) UserIdentityToken_Fields.

Definition OpcUa_AnonymousIdentityToken_EncodeableType : SOPC_EncodeableType := mkEncodeableType
  319 (* OpcUaId_AnonymousIdentityToken *)
  321 (* OpcUaId_AnonymousIdentityToken_Encoding_DefaultBinary *)
  NULL (sizeof SOPC_TypeInternalIndex_AnonymousIdentityToken) AnonymousIdentityToken_Fields.

Definition OpcUa_UserNameIdentityToken_EncodeableType : SOPC_EncodeableType := mkEncodeableType
  322 (* OpcUaId_UserNameIdentityToken *)
  324 (* OpcUaId_UserNameIdentityToken_Encoding_DefaultBinary *)
  NULL (sizeof SOPC_TypeInternalIndex_UserNameIdentityToken) UserNameIdentityToken_Fields.

Definition OpcUa_X509IdentityToken_EncodeableType : SOPC_EncodeableType := mkEncodeableType
  325 (* OpcUaId_X509IdentityToken *)
  327 (* OpcUaId_X509IdentityToken_Encoding_DefaultBinary *)
  NULL (sizeof SOPC_TypeInternalIndex_X509IdentityToken) X509IdentityToken_Fields.

Definition OpcUa_KerberosIdentityToken_EncodeableType : SOPC_EncodeableType := mkEncodeableType
  12504 (* OpcUaId_KerberosIdentityToken *)
  12509 (* OpcUaId_KerberosIdentityToken_Encoding_DefaultBinary *)
  NULL (sizeof SOPC_TypeInternalIndex_KerberosIdentityToken) KerberosIdentityToken_Fields.

Definition OpcUa_IssuedIdentityToken_EncodeableType : SOPC_EncodeableType := mkEncodeableType
  938 (* OpcUaId_IssuedIdentityToken *)
  940 (* OpcUaId_IssuedIdentityToken_Encoding_DefaultBinary *)
  NULL (sizeof SOPC_TypeInternalIndex_IssuedIdentityToken) IssuedIdentityToken_Fields.

Definition OpcUa_ActivateSessionRequest_EncodeableType : SOPC_EncodeableType := mkEncodeableType
  465 (* OpcUaId_ActivateSessionRequest *)
  467 (* OpcUaId_ActivateSessionRequest_Encoding_DefaultBinary *)
  NULL (sizeof SOPC_TypeInternalIndex_ActivateSessionRequest) ActivateSessionRequest_Fields.

Definition OpcUa_ActivateSessionResponse_EncodeableType : SOPC_EncodeableType := mkEncodeableType
  468 (* OpcUaId_ActivateSessionResponse *)
  470 (* OpcUaId_ActivateSessionResponse_Encoding_DefaultBinary *)
  NULL (sizeof SOPC_TypeInternalIndex_ActivateSessionResponse) ActivateSessionResponse_Fields.

Definition OpcUa_CloseSessionRequest_EncodeableType : SOPC_EncodeableType := mkEncodeableType
  471 (* OpcUaId_CloseSessionRequest *)
  473 (* OpcUaId_CloseSessionRequest_Encoding_DefaultBinary *)
  NULL (sizeof SOPC_TypeInternalIndex_CloseSessionRequest) CloseSessionRequest_Fields.

Definition OpcUa_CloseSessionResponse_EncodeableType : SOPC_EncodeableType := mkEncodeableType
  474 (* OpcUaId_CloseSessionResponse *)
  476 (* OpcUaId_CloseSessionResponse_Encoding_DefaultBinary *)
  NULL (sizeof SOPC_TypeInternalIndex_CloseSessionResponse) CloseSessionResponse_Fields.

Definition OpcUa_CancelRequest_EncodeableType : SOPC_EncodeableType := mkEncodeableType
  477 (* OpcUaId_CancelRequest *)
  479 (* OpcUaId_CancelRequest_Encoding_DefaultBinary *)
  NULL (sizeof SOPC_TypeInternalIndex_CancelRequest) CancelRequest_Fields.

Definition OpcUa_CancelResponse_EncodeableType : SOPC_EncodeableType := mkEncodeableType
  480 (* OpcUaId_CancelResponse *)
  482 (* OpcUaId_CancelResponse_Encoding_DefaultBinary *)
  NULL (sizeof SOPC_TypeInternalIndex_CancelResponse) CancelResponse_Fields.

Definition OpcUa_NodeAttributes_EncodeableType : SOPC_EncodeableType := mkEncodeableType
  349 (* OpcUaId_NodeAttributes *)
  351 (* OpcUaId_NodeAttributes_Encoding_DefaultBinary *)
  NULL (sizeof SOPC_TypeInternalIndex_NodeAttributes) NodeAttributes_Fields.

Definition OpcUa_ObjectAttributes_EncodeableType : SOPC_EncodeableType := mkEncodeableType
  352 (* OpcUaId_ObjectAttributes *)
  354 (* OpcUaId_ObjectAttributes_Encoding_DefaultBinary *)
  NULL (sizeof SOPC_TypeInternalIndex_ObjectAttributes) ObjectAttributes_Fields.

Definition OpcUa_VariableAttributes_EncodeableType : SOPC_EncodeableType := mkEncodeableType
  355 (* OpcUaId_VariableAttributes *)
  357 (* OpcUaId_VariableAttributes_Encoding_DefaultBinary *)
  NULL (sizeof SOPC_TypeInternalIndex_VariableAttributes) VariableAttributes_Fields.

Definition OpcUa_MethodAttributes_EncodeableType : SOPC_EncodeableType := mkEncodeableType
  358 (* OpcUaId_MethodAttributes *)
  360 (* OpcUaId_MethodAttributes_Encoding_DefaultBinary *)
  NULL (sizeof SOPC_TypeInternalIndex_MethodAttributes) MethodAttributes_Fields.

Definition OpcUa_ObjectTypeAttributes_EncodeableType : SOPC_EncodeableType := mkEncodeableType
  361 (* OpcUaId_ObjectTypeAttributes *)
  363 (* OpcUaId_ObjectTypeAttributes_Encoding_DefaultBinary *)
  NULL (sizeof SOPC_TypeInternalIndex_ObjectTypeAttributes) ObjectTypeAttributes_Fields.

Definition OpcUa_VariableTypeAttributes_EncodeableType : SOPC_EncodeableType := mkEncodeableType
  364 (* OpcUaId_VariableTypeAttributes *)
  366 (* OpcUaId_VariableTypeAttributes_Encoding_DefaultBinary *)
  NULL (sizeof SOPC_TypeInternalIndex_VariableTypeAttributes) VariableTypeAttributes_Fields.

Definition OpcUa_ReferenceTypeAttributes_EncodeableType : SOPC_EncodeableType := mkEncodeableType
  367 (* OpcUaId_ReferenceTypeAttributes *)
  369 (* OpcUaId_ReferenceTypeAttributes_Encoding_DefaultBinary *)
  NULL (sizeof SOPC_TypeInternalIndex_ReferenceTypeAttributes) ReferenceTypeAttributes_Fields.

Definition OpcUa_DataTypeAttributes_EncodeableType : SOPC_EncodeableType := mkEncodeableType
  370 (* OpcUaId_DataTypeAttributes *)
  372 (* OpcUaId_DataTypeAttributes_Encoding_DefaultBinary *)
  NULL (sizeof SOPC_TypeInternalIndex_DataTypeAttributes) DataTypeAttributes_Fields.

Definition OpcUa_ViewAttributes_EncodeableType : SOPC_EncodeableType := mkEncodeableType
  373 (* OpcUaId_ViewAttributes *)
  375 (* OpcUaId_ViewAttributes_Encoding_DefaultBinary *)
  NULL (sizeof SOPC_TypeInternalIndex_ViewAttributes) ViewAttributes_Fields.

Definition OpcUa_AddNodesItem_EncodeableType : SOPC_EncodeableType := mkEncodeableType
  376 (* OpcUaId_AddNodesItem *)
  378 (* OpcUaId_AddNodesItem_Encoding_DefaultBinary *)
  NULL (sizeof SOPC_TypeInternalIndex_AddNodesItem) AddNodesItem_Fields.

Definition OpcUa_AddNodesResult_EncodeableType : SOPC_EncodeableType := mkEncodeableType
  483 (* OpcUaId_AddNodesResult *)
  485 (* OpcUaId_AddNodesResult_Encoding_DefaultBinary *)
  NULL (sizeof SOPC_TypeInternalIndex_AddNodesResult) AddNodesResult_Fields.

Definition OpcUa_AddNodesRequest_EncodeableType : SOPC_EncodeableType := mkEncodeableType
  486 (* OpcUaId_AddNodesRequest *)
  488 (* OpcUaId_AddNodesRequest_Encoding_DefaultBinary *)
  NULL (sizeof SOPC_TypeInternalIndex_AddNodesRequest) AddNodesRequest_Fields.

Definition OpcUa_AddNodesResponse_EncodeableType : SOPC_EncodeableType := mkEncodeableType
  489 (* OpcUaId_AddNodesResponse *)
  491 (* OpcUaId_AddNodesResponse_Encoding_DefaultBinary *)
  NULL (sizeof SOPC_TypeInternalIndex_AddNodesResponse) AddNodesResponse_Fields.

Definition OpcUa_AddReferencesItem_EncodeableType : SOPC_EncodeableType := mkEncodeableType
  379 (* OpcUaId_AddReferencesItem *)
  381 (* OpcUaId_AddReferencesItem_Encoding_DefaultBinary *)
  NULL (sizeof SOPC_TypeInternalIndex_AddReferencesItem) AddReferencesItem_Fields.

Definition OpcUa_AddReferencesRequest_EncodeableType : SOPC_EncodeableType := mkEncodeableType
  492 (* OpcUaId_AddReferencesRequest *)
  494 (* OpcUaId_AddReferencesRequest_Encoding_DefaultBinary *)
  NULL (sizeof SOPC_TypeInternalIndex_AddReferencesRequest) AddReferencesRequest_Fields.

Definition OpcUa_AddReferencesResponse_EncodeableType : SOPC_EncodeableType := mkEncodeableType
  495 (* OpcUaId_AddReferencesResponse *)
  497 (* OpcUaId_AddReferencesResponse_Encoding_DefaultBinary *)
  NULL (sizeof SOPC_TypeInternalIndex_AddReferencesResponse) AddReferencesResponse_Fields.

Definition OpcUa_DeleteNodesItem_EncodeableType : SOPC_EncodeableType := mkEncodeableType
  382 (* OpcUaId_DeleteNodesItem *)
  384 (* OpcUaId_DeleteNodesItem_Encoding_DefaultBinary *)
  NULL (sizeof SOPC_TypeInternalIndex_DeleteNodesItem) DeleteNodesItem_Fields.

Definition OpcUa_DeleteNodesRequest_EncodeableType : SOPC_EncodeableType := mkEncodeableType
  498 (* OpcUaId_DeleteNodesRequest *)
  500 (* OpcUaId_DeleteNodesRequest_Encoding_DefaultBinary *)
  NULL (sizeof SOPC_TypeInternalIndex_DeleteNodesRequest) DeleteNodesRequest_Fields.

Definition OpcUa_DeleteNodesResponse_EncodeableType : SOPC_EncodeableType := mkEncodeableType
  501 (* OpcUaId_DeleteNodesResponse *)
  503 (* OpcUaId_DeleteNodesResponse_Encoding_DefaultBinary *)
  NULL (sizeof SOPC_TypeInternalIndex_DeleteNodesResponse) DeleteNodesResponse_Fields.

Definition OpcUa_DeleteReferencesItem_EncodeableType : SOPC_EncodeableType := mkEncodeableType
  385 (* OpcUaId_DeleteReferencesItem *)
  387 (* OpcUaId_DeleteReferencesItem_Encoding_DefaultBinary *)
  NULL (sizeof SOPC_TypeInternalIndex_DeleteReferencesItem) DeleteReferencesItem_Fields.

Definition OpcUa_DeleteReferencesRequest_EncodeableType : SOPC_EncodeableType := mkEncodeableType
  504 (* OpcUaId_DeleteReferencesRequest *)
  506 (* OpcUaId_DeleteReferencesRequest_Encoding_DefaultBinary *)
  NULL (sizeof SOPC_TypeInternalIndex_DeleteReferencesRequest) DeleteReferencesRequest_Fields.

Definition OpcUa_DeleteReferencesResponse_EncodeableType : SOPC_EncodeableType := mkEncodeableType
  507 (* OpcUaId_DeleteReferencesResponse *)
  509 (* OpcUaId_DeleteReferencesResponse_Encoding_DefaultBinary *)
  NULL (sizeof SOPC_TypeInternalIndex_DeleteReferencesResponse) DeleteReferencesResponse_Fields.

Definition OpcUa_ViewDescription_EncodeableType : SOPC_EncodeableType := mkEncodeableType
  511 (* OpcUaId_ViewDescription *)
  513 (* OpcUaId_ViewDescription_Encoding_DefaultBinary *)
  NULL (sizeof SOPC_TypeInternalIndex_ViewDescription) ViewDescription_Fields.

Definition OpcUa_BrowseDescription_EncodeableType : SOPC_EncodeableType := mkEncodeableType
  514 (* OpcUaId_BrowseDescription *)
  516 (* OpcUaId_BrowseDescription_Encoding_DefaultBinary *)
  NULL (sizeof SOPC_TypeInternalIndex_BrowseDescription) BrowseDescription_Fields.

Definition OpcUa_ReferenceDescription_EncodeableType : SOPC_EncodeableType := mkEncodeableType
  518 (* OpcUaId_ReferenceDescription *)
  520 (* OpcUaId_ReferenceDescription_Encoding_DefaultBinary *)
  NULL (sizeof SOPC_TypeInternalIndex_ReferenceDescription) ReferenceDescription_Fields.

Definition OpcUa_BrowseResult_EncodeableType : SOPC_EncodeableType := mkEncodeableType
  522 (* OpcUaId_BrowseResult *)
  524 (* OpcUaId_BrowseResult_Encoding_DefaultBinary *)
  NULL (sizeof SOPC_TypeInternalIndex_BrowseResult) BrowseResult_Fields.

Definition OpcUa_BrowseRequest_EncodeableType : SOPC_EncodeableType := mkEncodeableType
  525 (* OpcUaId_BrowseRequest *)
  527 (* OpcUaId_BrowseRequest_Encoding_DefaultBinary *)
  NULL (sizeof SOPC_TypeInternalIndex_BrowseRequest) BrowseRequest_Fields.

Definition OpcUa_BrowseResponse_EncodeableType : SOPC_EncodeableType := mkEncodeableType
  528 (* OpcUaId_BrowseResponse *)
  530 (* OpcUaId_BrowseResponse_Encoding_DefaultBinary *)
  NULL (sizeof SOPC_TypeInternalIndex_BrowseResponse) BrowseResponse_Fields.

Definition OpcUa_BrowseNextRequest_EncodeableType : SOPC_EncodeableType := mkEncodeableType
  531 (* OpcUaId_BrowseNextRequest *)
  533 (* OpcUaId_BrowseNextRequest_Encoding_DefaultBinary *)
  NULL (sizeof SOPC_TypeInternalIndex_BrowseNextRequest) BrowseNextRequest_Fields.

Definition OpcUa_BrowseNextResponse_EncodeableType : SOPC_EncodeableType := mkEncodeableType
  534 (* OpcUaId_BrowseNextResponse *)
  536 (* OpcUaId_BrowseNextResponse_Encoding_DefaultBinary *)
  NULL (sizeof SOPC_TypeInternalIndex_BrowseNextResponse) BrowseNextResponse_Fields.

Definition OpcUa_RelativePathElement_EncodeableType : SOPC_EncodeableType := mkEncodeableType
  537 (* OpcUaId_RelativePathElement *)
  539 (* OpcUaId_RelativePathElement_Encoding_DefaultBinary *)
  NULL (sizeof SOPC_TypeInternalIndex_RelativePathElement) RelativePathElement_Fields.

Definition OpcUa_RelativePath_EncodeableType : SOPC_EncodeableType := mkEncodeableType
  540 (* OpcUaId_RelativePath *)
  542 (* OpcUaId_RelativePath_Encoding_DefaultBinary *)
  NULL (sizeof SOPC_TypeInternalIndex_RelativePath) RelativePath_Fields.

Definition OpcUa_BrowsePath_EncodeableType : SOPC_EncodeableType := mkEncodeableType
  543 (* OpcUaId_BrowsePath *)
  545 (* OpcUaId_BrowsePath_Encoding_DefaultBinary *)
  NULL (sizeof SOPC_TypeInternalIndex_BrowsePath) BrowsePath_Fields.

Definition OpcUa_BrowsePathTarget_EncodeableType : SOPC_EncodeableType := mkEncodeableType
  546 (* OpcUaId_BrowsePathTarget *)
  548 (* OpcUaId_BrowsePathTarget_Encoding_DefaultBinary *)
  NULL (sizeof SOPC_TypeInternalIndex_BrowsePathTarget) BrowsePathTarget_Fields.

Definition OpcUa_BrowsePathResult_EncodeableType : SOPC_EncodeableType := mkEncodeableType
  549 (* OpcUaId_BrowsePathResult *)
  551 (* OpcUaId_BrowsePathResult_Encoding_DefaultBinary *)
  NULL (sizeof SOPC_TypeInternalIndex_BrowsePathResult) BrowsePathResult_Fields.

Definition OpcUa_TranslateBrowsePathsToNodeIdsRequest_EncodeableType : SOPC_EncodeableType := mkEncodeableType
  552 (* OpcUaId_TranslateBrowsePathsToNodeIdsRequest *)
  554 (* OpcUaId_TranslateBrowsePathsToNodeIdsRequest_Encoding_DefaultBinary *)
  NULL (sizeof SOPC_TypeInternalIndex_TranslateBrowsePathsToNodeIdsRequest) TranslateBrowsePathsToNodeIdsRequest_Fields.

Definition OpcUa_TranslateBrowsePathsToNodeIdsResponse_EncodeableType : SOPC_EncodeableType := mkEncodeableType
  555 (* OpcUaId_TranslateBrowsePathsToNodeIdsResponse *)
  557 (* OpcUaId_TranslateBrowsePathsToNodeIdsResponse_Encoding_DefaultBinary *)
  NULL (sizeof SOPC_TypeInternalIndex_TranslateBrowsePathsToNodeIdsResponse) TranslateBrowsePathsToNodeIdsResponse_Fields.

Definition OpcUa_RegisterNodesRequest_EncodeableType : SOPC_EncodeableType := mkEncodeableType
  558 (* OpcUaId_RegisterNodesRequest *)
  560 (* OpcUaId_RegisterNodesRequest_Encoding_DefaultBinary *)
  NULL (sizeof SOPC_TypeInternalIndex_RegisterNodesRequest) RegisterNodesRequest_Fields.

Definition OpcUa_RegisterNodesResponse_EncodeableType : SOPC_EncodeableType := mkEncodeableType
  561 (* OpcUaId_RegisterNodesResponse *)
  563 (* OpcUaId_RegisterNodesResponse_Encoding_DefaultBinary *)
  NULL (sizeof SOPC_TypeInternalIndex_RegisterNodesResponse) RegisterNodesResponse_Fields.

Definition OpcUa_UnregisterNodesRequest_EncodeableType : SOPC_EncodeableType := mkEncodeableType
  564 (* OpcUaId_UnregisterNodesRequest *)
  566 (* OpcUaId_UnregisterNodesRequest_Encoding_DefaultBinary *)
  NULL (sizeof SOPC_TypeInternalIndex_UnregisterNodesRequest) UnregisterNodesRequest_Fields.

Definition OpcUa_UnregisterNodesResponse_EncodeableType : SOPC_EncodeableType := mkEncodeableType
  567 (* OpcUaId_UnregisterNodesResponse *)
  569 (* OpcUaId_UnregisterNodesResponse_Encoding_DefaultBinary *)
  NULL (sizeof SOPC_TypeInternalIndex_UnregisterNodesResponse) UnregisterNodesResponse_Fields.

Definition OpcUa_EndpointConfiguration_EncodeableType : SOPC_EncodeableType := mkEncodeableType
  331 (* OpcUaId_EndpointConfiguration *)
  333 (* OpcUaId_EndpointConfiguration_Encoding_DefaultBinary *)
  NULL (sizeof SOPC_TypeInternalIndex_EndpointConfiguration) EndpointConfiguration_Fields.

Definition OpcUa_SupportedProfile_EncodeableType : SOPC_EncodeableType := mkEncodeableType
  335 (* OpcUaId_SupportedProfile *)
  337 (* OpcUaId_SupportedProfile_Encoding_DefaultBinary *)
  NULL (sizeof SOPC_TypeInternalIndex_SupportedProfile) SupportedProfile_Fields.

Definition OpcUa_SoftwareCertificate_EncodeableType : SOPC_EncodeableType := mkEncodeableType
  341 (* OpcUaId_SoftwareCertificate *)
  343 (* OpcUaId_SoftwareCertificate_Encoding_DefaultBinary *)
  NULL (sizeof SOPC_TypeInternalIndex_SoftwareCertificate) SoftwareCertificate_Fields.

Definition OpcUa_QueryDataDescription_EncodeableType : SOPC_EncodeableType := mkEncodeableType
  570 (* OpcUaId_QueryDataDescription *)
  572 (* OpcUaId_QueryDataDescription_Encoding_DefaultBinary *)
  NULL (sizeof SOPC_TypeInternalIndex_QueryDataDescription) QueryDataDescription_Fields.

Definition OpcUa_NodeTypeDescription_EncodeableType : SOPC_EncodeableType := mkEncodeableType
  573 (* OpcUaId_NodeTypeDescription *)
  575 (* OpcUaId_NodeTypeDescription_Encoding_DefaultBinary *)
  NULL (sizeof SOPC_TypeInternalIndex_NodeTypeDescription) NodeTypeDescription_Fields.

Definition OpcUa_QueryDataSet_EncodeableType : SOPC_EncodeableType := mkEncodeableType
  577 (* OpcUaId_QueryDataSet *)
  579 (* OpcUaId_QueryDataSet_Encoding_DefaultBinary *)
  NULL (sizeof SOPC_TypeInternalIndex_QueryDataSet) QueryDataSet_Fields.

Definition OpcUa_NodeReference_EncodeableType : SOPC_EncodeableType := mkEncodeableType
  580 (* OpcUaId_NodeReference *)
  582 (* OpcUaId_NodeReference_Encoding_DefaultBinary *)
  NULL (sizeof SOPC_TypeInternalIndex_NodeReference) NodeReference_Fields.

Definition OpcUa_ContentFilterElement_EncodeableType : SOPC_EncodeableType := mkEncodeableType
  583 (* OpcUaId_ContentFilterElement *)
  585 (* OpcUaId_ContentFilterElement_Encoding_DefaultBinary *)
  NULL (sizeof SOPC_TypeInternalIndex_ContentFilterElement) ContentFilterElement_Fields.

Definition OpcUa_ContentFilter_EncodeableType : SOPC_EncodeableType := mkEncodeableType
  586 (* OpcUaId_ContentFilter *)
  588 (* OpcUaId_ContentFilter_Encoding_DefaultBinary *)
  NULL (sizeof SOPC_TypeInternalIndex_ContentFilter) ContentFilter_Fields.

Definition OpcUa_ElementOperand_EncodeableType : SOPC_EncodeableType := mkEncodeableType
  592 (* OpcUaId_ElementOperand *)
  594 (* OpcUaId_ElementOperand_Encoding_DefaultBinary *)
  NULL (sizeof SOPC_TypeInternalIndex_ElementOperand) ElementOperand_Fields.

Definition OpcUa_LiteralOperand_EncodeableType : SOPC_EncodeableType := mkEncodeableType
  595 (* OpcUaId_LiteralOperand *)
  597 (* OpcUaId_LiteralOperand_Encoding_DefaultBinary *)
  NULL (sizeof SOPC_TypeInternalIndex_LiteralOperand) LiteralOperand_Fields.

Definition OpcUa_AttributeOperand_EncodeableType : SOPC_EncodeableType := mkEncodeableType
  598 (* OpcUaId_AttributeOperand *)
  600 (* OpcUaId_AttributeOperand_Encoding_DefaultBinary *)
  NULL (sizeof SOPC_TypeInternalIndex_AttributeOperand) AttributeOperand_Fields.

Definition OpcUa_SimpleAttributeOperand_EncodeableType : SOPC_EncodeableType := mkEncodeableType
  601 (* OpcUaId_SimpleAttributeOperand *)
  603 (* OpcUaId_SimpleAttributeOperand_Encoding_DefaultBinary *)
  NULL (sizeof SOPC_TypeInternalIndex_SimpleAttributeOperand) SimpleAttributeOperand_Fields.

Definition OpcUa_ContentFilterElementResult_EncodeableType : SOPC_EncodeableType := mkEncodeableType
  604 (* OpcUaId_ContentFilterElementResult *)
  606 (* OpcUaId_ContentFilterElementResult_Encoding_DefaultBinary *)
  NULL (sizeof SOPC_TypeInternalIndex_ContentFilterElementResult) ContentFilterElementResult_Fields.

Definition OpcUa_ContentFilterResult_EncodeableType : SOPC_EncodeableType := mkEncodeableType
  607 (* OpcUaId_ContentFilterResult *)
  609 (* OpcUaId_ContentFilterResult_Encoding_DefaultBinary *)
  NULL (sizeof SOPC_TypeInternalIndex_ContentFilterResult) ContentFilterResult_Fields.

Definition OpcUa_ParsingResult_EncodeableType : SOPC_EncodeableType := mkEncodeableType
  610 (* OpcUaId_ParsingResult *)
  612 (* OpcUaId_ParsingResult_Encoding_DefaultBinary *)
  NULL (sizeof SOPC_TypeInternalIndex_ParsingResult) ParsingResult_Fields.

Definition OpcUa_QueryFirstRequest_EncodeableType : SOPC_EncodeableType := mkEncodeableType
  613 (* OpcUaId_QueryFirstRequest *)
  615 (* OpcUaId_QueryFirstRequest_Encoding_DefaultBinary *)
  NULL (sizeof SOPC_TypeInternalIndex_QueryFirstRequest) QueryFirstRequest_Fields.

Definition OpcUa_QueryFirstResponse_EncodeableType : SOPC_EncodeableType := mkEncodeableType
  616 (* OpcUaId_QueryFirstResponse *)
  618 (* OpcUaId_QueryFirstResponse_Encoding_DefaultBinary *)
  NULL (sizeof SOPC_TypeInternalIndex_QueryFirstResponse) QueryFirstResponse_Fields.

Definition OpcUa_QueryNextRequest_EncodeableType : SOPC_EncodeableType := mkEncodeableType
  619 (* OpcUaId_QueryNextRequest *)
  621 (* OpcUaId_QueryNextRequest_Encoding_DefaultBinary *)
  NULL (sizeof SOPC_TypeInternalIndex_QueryNextRequest) QueryNextRequest_Fields.

Definition OpcUa_QueryNextResponse_EncodeableType : SOPC_EncodeableType := mkEncodeableType
  622 (* OpcUaId_QueryNextResponse *)
  624 (* OpcUaId_QueryNextResponse_Encoding_DefaultBinary *)
  NULL (sizeof SOPC_TypeInternalIndex_QueryNextResponse) QueryNextResponse_Fields.

Definition OpcUa_ReadValueId_EncodeableType : SOPC_EncodeableType := mkEncodeableType
  626 (* OpcUaId_ReadValueId *)
  628 (* OpcUaId_ReadValueId_Encoding_DefaultBinary *)
  NULL (sizeof SOPC_TypeInternalIndex_ReadValueId) ReadValueId_Fields.

Definition OpcUa_ReadRequest_EncodeableType : SOPC_EncodeableType := mkEncodeableType
  629 (* OpcUaId_ReadRequest *)
  631 (* OpcUaId_ReadRequest_Encoding_DefaultBinary *)
  NULL (sizeof SOPC_TypeInternalIndex_ReadRequest) ReadRequest_Fields.

Definition OpcUa_ReadResponse_EncodeableType : SOPC_EncodeableType := mkEncodeableType
  632 (* OpcUaId_ReadResponse *)
  634 (* OpcUaId_ReadResponse_Encoding_DefaultBinary *)
  NULL (sizeof SOPC_TypeInternalIndex_ReadResponse) ReadResponse_Fields.

Definition OpcUa_HistoryReadValueId_EncodeableType : SOPC_EncodeableType := mkEncodeableType
  635 (* OpcUaId_HistoryReadValueId *)
  637 (* OpcUaId_HistoryReadValueId_Encoding_DefaultBinary *)
  NULL (sizeof SOPC_TypeInternalIndex_HistoryReadValueId) HistoryReadValueId_Fields.

Definition OpcUa_HistoryReadResult_EncodeableType : SOPC_EncodeableType := mkEncodeableType
  638 (* OpcUaId_HistoryReadResult *)
  640 (* OpcUaId_HistoryReadResult_Encoding_DefaultBinary *)
  NULL (sizeof SOPC_TypeInternalIndex_HistoryReadResult) HistoryReadResult_Fields.

Definition OpcUa_EventFilter_EncodeableType : SOPC_EncodeableType := mkEncodeableType
  725 (* OpcUaId_EventFilter *)
  727 (* OpcUaId_EventFilter_Encoding_DefaultBinary *)
  NULL (sizeof SOPC_TypeInternalIndex_EventFilter) EventFilter_Fields.

Definition OpcUa_ReadEventDetails_EncodeableType : SOPC_EncodeableType := mkEncodeableType
  644 (* OpcUaId_ReadEventDetails *)
  646 (* OpcUaId_ReadEventDetails_Encoding_DefaultBinary *)
  NULL (sizeof SOPC_TypeInternalIndex_ReadEventDetails) ReadEventDetails_Fields.

Definition OpcUa_ReadRawModifiedDetails_EncodeableType : SOPC_EncodeableType := mkEncodeableType
  647 (* OpcUaId_ReadRawModifiedDetails *)
  649 (* OpcUaId_ReadRawModifiedDetails_Encoding_DefaultBinary *)
  NULL (sizeof SOPC_TypeInternalIndex_ReadRawModifiedDetails) ReadRawModifiedDetails_Fields.

Definition OpcUa_AggregateConfiguration_EncodeableType : SOPC_EncodeableType := mkEncodeableType
  948 (* OpcUaId_AggregateConfiguration *)
  950 (* OpcUaId_AggregateConfiguration_Encoding_DefaultBinary *)
  NULL (sizeof SOPC_TypeInternalIndex_AggregateConfiguration) AggregateConfiguration_Fields.

Definition OpcUa_ReadProcessedDetails_EncodeableType : SOPC_EncodeableType := mkEncodeableType
  650 (* OpcUaId_ReadProcessedDetails *)
  652 (* OpcUaId_ReadProcessedDetails_Encoding_DefaultBinary *)
  NULL (sizeof SOPC_TypeInternalIndex_ReadProcessedDetails) ReadProcessedDetails_Fields.

Definition OpcUa_ReadAtTimeDetails_EncodeableType : SOPC_EncodeableType := mkEncodeableType
  653 (* OpcUaId_ReadAtTimeDetails *)
  655 (* OpcUaId_ReadAtTimeDetails_Encoding_DefaultBinary *)
  NULL (sizeof SOPC_TypeInternalIndex_ReadAtTimeDetails) ReadAtTimeDetails_Fields.

Definition OpcUa_HistoryData_EncodeableType : SOPC_EncodeableType := mkEncodeableType
  656 (* OpcUaId_HistoryData *)
  658 (* OpcUaId_HistoryData_Encoding_DefaultBinary *)
  NULL (sizeof SOPC_TypeInternalIndex_HistoryData) HistoryData_Fields.

Definition OpcUa_ModificationInfo_EncodeableType : SOPC_EncodeableType := mkEncodeableType
  11216 (* OpcUaId_ModificationInfo *)
  11226 (* OpcUaId_ModificationInfo_Encoding_DefaultBinary *)
  NULL (sizeof SOPC_TypeInternalIndex_ModificationInfo) ModificationInfo_Fields.

Definition OpcUa_HistoryModifiedData_EncodeableType : SOPC_EncodeableType := mkEncodeableType
  11217 (* OpcUaId_HistoryModifiedData *)
  11227 (* OpcUaId_HistoryModifiedData_Encoding_DefaultBinary *)
  NULL (sizeof SOPC_TypeInternalIndex_HistoryModifiedData) HistoryModifiedData_Fields.

Definition OpcUa_HistoryEventFieldList_EncodeableType : SOPC_EncodeableType := mkEncodeableType
  920 (* OpcUaId_HistoryEventFieldList *)
  922 (* OpcUaId_HistoryEventFieldList_Encoding_DefaultBinary *)
  NULL (sizeof SOPC_TypeInternalIndex_HistoryEventFieldList) HistoryEventFieldList_Fields.

Definition OpcUa_HistoryEvent_EncodeableType : SOPC_EncodeableType := mkEncodeableType
  659 (* OpcUaId_HistoryEvent *)
  661 (* OpcUaId_HistoryEvent_Encoding_DefaultBinary *)
  NULL (sizeof SOPC_TypeInternalIndex_HistoryEvent) HistoryEvent_Fields.

Definition OpcUa_HistoryReadRequest_EncodeableType : SOPC_EncodeableType := mkEncodeableType
  662 (* OpcUaId_HistoryReadRequest *)
  664 (* OpcUaId_HistoryReadRequest_Encoding_DefaultBinary *)
  NULL (sizeof SOPC_TypeInternalIndex_HistoryReadRequest) HistoryReadRequest_Fields.

Definition OpcUa_HistoryReadResponse_EncodeableType : SOPC_EncodeableType := mkEncodeableType
  665 (* OpcUaId_HistoryReadResponse *)
  667 (* OpcUaId_HistoryReadResponse_Encoding_DefaultBinary *)
  NULL (sizeof SOPC_TypeInternalIndex_HistoryReadResponse) HistoryReadResponse_Fields.

Definition OpcUa_WriteValue_EncodeableType : SOPC_EncodeableType := mkEncodeableType
  668 (* OpcUaId_WriteValue *)
  670 (* OpcUaId_WriteValue_Encoding_DefaultBinary *)
  NULL (sizeof SOPC_TypeInternalIndex_WriteValue) WriteValue_Fields.

Definition OpcUa_WriteRequest_EncodeableType : SOPC_EncodeableType := mkEncodeableType
  671 (* OpcUaId_WriteRequest *)
  673 (* OpcUaId_WriteRequest_Encoding_DefaultBinary *)
  NULL (sizeof SOPC_TypeInternalIndex_WriteRequest) WriteRequest_Fields.

Definition OpcUa_WriteResponse_EncodeableType : SOPC_EncodeableType := mkEncodeableType
  674 (* OpcUaId_WriteResponse *)
  676 (* OpcUaId_WriteResponse_Encoding_DefaultBinary *)
  NULL (sizeof SOPC_TypeInternalIndex_WriteResponse) WriteResponse_Fields.

Definition OpcUa_HistoryUpdateDetails_EncodeableType : SOPC_EncodeableType := mkEncodeableType
  677 (* OpcUaId_HistoryUpdateDetails *)
  679 (* OpcUaId_HistoryUpdateDetails_Encoding_DefaultBinary *)
  NULL (sizeof SOPC_TypeInternalIndex_HistoryUpdateDetails) HistoryUpdateDetails_Fields.

Definition OpcUa_UpdateDataDetails_EncodeableType : SOPC_EncodeableType := mkEncodeableType
  680 (* OpcUaId_UpdateDataDetails *)
  682 (* OpcUaId_UpdateDataDetails_Encoding_DefaultBinary *)
  NULL (sizeof SOPC_TypeInternalIndex_UpdateDataDetails) UpdateDataDetails_Fields.

Definition OpcUa_UpdateStructureDataDetails_EncodeableType : SOPC_EncodeableType := mkEncodeableType
  11295 (* OpcUaId_UpdateStructureDataDetails *)
  11300 (* OpcUaId_UpdateStructureDataDetails_Encoding_DefaultBinary *)
  NULL (sizeof SOPC_TypeInternalIndex_UpdateStructureDataDetails) UpdateStructureDataDetails_Fields.

Definition OpcUa_UpdateEventDetails_EncodeableType : SOPC_EncodeableType := mkEncodeableType
  683 (* OpcUaId_UpdateEventDetails *)
  685 (* OpcUaId_UpdateEventDetails_Encoding_DefaultBinary *)
  NULL (sizeof SOPC_TypeInternalIndex_UpdateEventDetails) UpdateEventDetails_Fields.

Definition OpcUa_DeleteRawModifiedDetails_EncodeableType : SOPC_EncodeableType := mkEncodeableType
  686 (* OpcUaId_DeleteRawModifiedDetails *)
  688 (* OpcUaId_DeleteRawModifiedDetails_Encoding_DefaultBinary *)
  NULL (sizeof SOPC_TypeInternalIndex_DeleteRawModifiedDetails) DeleteRawModifiedDetails_Fields.

Definition OpcUa_DeleteAtTimeDetails_EncodeableType : SOPC_EncodeableType := mkEncodeableType
  689 (* OpcUaId_DeleteAtTimeDetails *)
  691 (* OpcUaId_DeleteAtTimeDetails_Encoding_DefaultBinary *)
  NULL (sizeof SOPC_TypeInternalIndex_DeleteAtTimeDetails) DeleteAtTimeDetails_Fields.

Definition OpcUa_DeleteEventDetails_EncodeableType : SOPC_EncodeableType := mkEncodeableType
  692 (* OpcUaId_DeleteEventDetails *)
  694 (* OpcUaId_DeleteEventDetails_Encoding_DefaultBinary *)
  NULL (sizeof SOPC_TypeInternalIndex_DeleteEventDetails) DeleteEventDetails_Fields.

Definition OpcUa_HistoryUpdateResult_EncodeableType : SOPC_EncodeableType := mkEncodeableType
  695 (* OpcUaId_HistoryUpdateResult *)
  697 (* OpcUaId_HistoryUpdateResult_Encoding_DefaultBinary *)
  NULL (sizeof SOPC_TypeInternalIndex_HistoryUpdateResult) HistoryUpdateResult_Fields.

Definition OpcUa_HistoryUpdateRequest_EncodeableType : SOPC_EncodeableType := mkEncodeableType
  698 (* OpcUaId_HistoryUpdateRequest *)
  700 (* OpcUaId_HistoryUpdateRequest_Encoding_DefaultBinary *)
  NULL (sizeof SOPC_TypeInternalIndex_HistoryUpdateRequest) HistoryUpdateRequest_Fields.

Definition OpcUa_HistoryUpdateResponse_EncodeableType : SOPC_EncodeableType := mkEncodeableType
  701 (* OpcUaId_HistoryUpdateResponse *)
  703 (* OpcUaId_HistoryUpdateResponse_Encoding_DefaultBinary *)
  NULL (sizeof SOPC_TypeInternalIndex_HistoryUpdateResponse) HistoryUpdateResponse_Fields.

Definition OpcUa_CallMethodRequest_EncodeableType : SOPC_EncodeableType := mkEncodeableType
  704 (* OpcUaId_CallMethodRequest *)
  706 (* OpcUaId_CallMethodRequest_Encoding_DefaultBinary *)
  NULL (sizeof SOPC_TypeInternalIndex_CallMethodRequest) CallMethodRequest_Fields.

Definition OpcUa_CallMethodResult_EncodeableType : SOPC_EncodeableType := mkEncodeableType
  707 (* OpcUaId_CallMethodResult *)
  709 (* OpcUaId_CallMethodResult_Encoding_DefaultBinary *)
  NULL (sizeof SOPC_TypeInternalIndex_CallMethodResult) CallMethodResult_Fields.

Definition OpcUa_CallRequest_EncodeableType : SOPC_EncodeableType := mkEncodeableType
  710 (* OpcUaId_CallRequest *)
  712 (* OpcUaId_CallRequest_Encoding_DefaultBinary *)
  NULL (sizeof SOPC_TypeInternalIndex_CallRequest) CallRequest_Fields.

Definition OpcUa_CallResponse_EncodeableType : SOPC_EncodeableType := mkEncodeableType
  713 (* OpcUaId_CallResponse *)
  715 (* OpcUaId_CallResponse_Encoding_DefaultBinary *)
  NULL (sizeof SOPC_TypeInternalIndex_CallResponse) CallResponse_Fields.

Definition OpcUa_DataChangeFilter_EncodeableType : SOPC_EncodeableType := mkEncodeableType
  722 (* OpcUaId_DataChangeFilter *)
  724 (* OpcUaId_DataChangeFilter_Encoding_DefaultBinary *)
  NULL (sizeof SOPC_TypeInternalIndex_DataChangeFilter) DataChangeFilter_Fields.

Definition OpcUa_AggregateFilter_EncodeableType : SOPC_EncodeableType := mkEncodeableType
  728 (* OpcUaId_AggregateFilter *)
  730 (* OpcUaId_AggregateFilter_Encoding_DefaultBinary *)
  NULL (sizeof SOPC_TypeInternalIndex_AggregateFilter) AggregateFilter_Fields.

Definition OpcUa_EventFilterResult_EncodeableType : SOPC_EncodeableType := mkEncodeableType
  734 (* OpcUaId_EventFilterResult *)
  736 (* OpcUaId_EventFilterResult_Encoding_DefaultBinary *)
  NULL (sizeof SOPC_TypeInternalIndex_EventFilterResult) EventFilterResult_Fields.

Definition OpcUa_AggregateFilterResult_EncodeableType : SOPC_EncodeableType := mkEncodeableType
  737 (* OpcUaId_AggregateFilterResult *)
  739 (* OpcUaId_AggregateFilterResult_Encoding_DefaultBinary *)
  NULL (sizeof SOPC_TypeInternalIndex_AggregateFilterResult) AggregateFilterResult_Fields.

Definition OpcUa_MonitoringParameters_EncodeableType : SOPC_EncodeableType := mkEncodeableType
  740 (* OpcUaId_MonitoringParameters *)
  742 (* OpcUaId_MonitoringParameters_Encoding_DefaultBinary *)
  NULL (sizeof SOPC_TypeInternalIndex_MonitoringParameters) MonitoringParameters_Fields.

Definition OpcUa_MonitoredItemCreateRequest_EncodeableType : SOPC_EncodeableType := mkEncodeableType
  743 (* OpcUaId_MonitoredItemCreateRequest *)
  745 (* OpcUaId_MonitoredItemCreateRequest_Encoding_DefaultBinary *)
  NULL (sizeof SOPC_TypeInternalIndex_MonitoredItemCreateRequest) MonitoredItemCreateRequest_Fields.

Definition OpcUa_MonitoredItemCreateResult_EncodeableType : SOPC_EncodeableType := mkEncodeableType
  746 (* OpcUaId_MonitoredItemCreateResult *)
  748 (* OpcUaId_MonitoredItemCreateResult_Encoding_DefaultBinary *)
  NULL (sizeof SOPC_TypeInternalIndex_MonitoredItemCreateResult) MonitoredItemCreateResult_Fields.

Definition OpcUa_CreateMonitoredItemsRequest_EncodeableType : SOPC_EncodeableType := mkEncodeableType
  749 (* OpcUaId_CreateMonitoredItemsRequest *)
  751 (* OpcUaId_CreateMonitoredItemsRequest_Encoding_DefaultBinary *)
  NULL (sizeof SOPC_TypeInternalIndex_CreateMonitoredItemsRequest) CreateMonitoredItemsRequest_Fields.

Definition OpcUa_CreateMonitoredItemsResponse_EncodeableType : SOPC_EncodeableType := mkEncodeableType
  752 (* OpcUaId_CreateMonitoredItemsResponse *)
  754 (* OpcUaId_CreateMonitoredItemsResponse_Encoding_DefaultBinary *)
  NULL (sizeof SOPC_TypeInternalIndex_CreateMonitoredItemsResponse) CreateMonitoredItemsResponse_Fields.

Definition OpcUa_MonitoredItemModifyRequest_EncodeableType : SOPC_EncodeableType := mkEncodeableType
  755 (* OpcUaId_MonitoredItemModifyRequest *)
  757 (* OpcUaId_MonitoredItemModifyRequest_Encoding_DefaultBinary *)
  NULL (sizeof SOPC_TypeInternalIndex_MonitoredItemModifyRequest) MonitoredItemModifyRequest_Fields.

Definition OpcUa_MonitoredItemModifyResult_EncodeableType : SOPC_EncodeableType := mkEncodeableType
  758 (* OpcUaId_MonitoredItemModifyResult *)
  760 (* OpcUaId_MonitoredItemModifyResult_Encoding_DefaultBinary *)
  NULL (sizeof SOPC_TypeInternalIndex_MonitoredItemModifyResult) MonitoredItemModifyResult_Fields.

Definition OpcUa_ModifyMonitoredItemsRequest_EncodeableType : SOPC_EncodeableType := mkEncodeableType
  761 (* OpcUaId_ModifyMonitoredItemsRequest *)
  763 (* OpcUaId_ModifyMonitoredItemsRequest_Encoding_DefaultBinary *)
  NULL (sizeof SOPC_TypeInternalIndex_ModifyMonitoredItemsRequest) ModifyMonitoredItemsRequest_Fields.

Definition OpcUa_ModifyMonitoredItemsResponse_EncodeableType : SOPC_EncodeableType := mkEncodeableType
  764 (* OpcUaId_ModifyMonitoredItemsResponse *)
  766 (* OpcUaId_ModifyMonitoredItemsResponse_Encoding_DefaultBinary *)
  NULL (sizeof SOPC_TypeInternalIndex_ModifyMonitoredItemsResponse) ModifyMonitoredItemsResponse_Fields.

Definition OpcUa_SetMonitoringModeRequest_EncodeableType : SOPC_EncodeableType := mkEncodeableType
  767 (* OpcUaId_SetMonitoringModeRequest *)
  769 (* OpcUaId_SetMonitoringModeRequest_Encoding_DefaultBinary *)
  NULL (sizeof SOPC_TypeInternalIndex_SetMonitoringModeRequest) SetMonitoringModeRequest_Fields.

Definition OpcUa_SetMonitoringModeResponse_EncodeableType : SOPC_EncodeableType := mkEncodeableType
  770 (* OpcUaId_SetMonitoringModeResponse *)
  772 (* OpcUaId_SetMonitoringModeResponse_Encoding_DefaultBinary *)
  NULL (sizeof SOPC_TypeInternalIndex_SetMonitoringModeResponse) SetMonitoringModeResponse_Fields.

Definition OpcUa_SetTriggeringRequest_EncodeableType : SOPC_EncodeableType := mkEncodeableType
  773 (* OpcUaId_SetTriggeringRequest *)
  775 (* OpcUaId_SetTriggeringRequest_Encoding_DefaultBinary *)
  NULL (sizeof SOPC_TypeInternalIndex_SetTriggeringRequest) SetTriggeringRequest_Fields.

Definition OpcUa_SetTriggeringResponse_EncodeableType : SOPC_EncodeableType := mkEncodeableType
  776 (* OpcUaId_SetTriggeringResponse *)
  778 (* OpcUaId_SetTriggeringResponse_Encoding_DefaultBinary *)
  NULL (sizeof SOPC_TypeInternalIndex_SetTriggeringResponse) SetTriggeringResponse_Fields.

Definition OpcUa_DeleteMonitoredItemsRequest_EncodeableType : SOPC_EncodeableType := mkEncodeableType
  779 (* OpcUaId_DeleteMonitoredItemsRequest *)
  781 (* OpcUaId_DeleteMonitoredItemsRequest_Encoding_DefaultBinary *)
  NULL (sizeof SOPC_TypeInternalIndex_DeleteMonitoredItemsRequest) DeleteMonitoredItemsRequest_Fields.

Definition OpcUa_DeleteMonitoredItemsResponse_EncodeableType : SOPC_EncodeableType := mkEncodeableType
  782 (* OpcUaId_DeleteMonitoredItemsResponse *)
  784 (* OpcUaId_DeleteMonitoredItemsResponse_Encoding_DefaultBinary *)
  NULL (sizeof SOPC_TypeInternalIndex_DeleteMonitoredItemsResponse) DeleteMonitoredItemsResponse_Fields.

Definition OpcUa_CreateSubscriptionRequest_EncodeableType : SOPC_EncodeableType := mkEncodeableType
  785 (* OpcUaId_CreateSubscriptionRequest *)
  787 (* OpcUaId_CreateSubscriptionRequest_Encoding_DefaultBinary *)
  NULL (sizeof SOPC_TypeInternalIndex_CreateSubscriptionRequest) CreateSubscriptionRequest_Fields.

Definition OpcUa_CreateSubscriptionResponse_EncodeableType : SOPC_EncodeableType := mkEncodeableType
  788 (* OpcUaId_CreateSubscriptionResponse *)
  790 (* OpcUaId_CreateSubscriptionResponse_Encoding_DefaultBinary *)
  NULL (sizeof SOPC_TypeInternalIndex_CreateSubscriptionResponse) CreateSubscriptionResponse_Fields.

Definition OpcUa_ModifySubscriptionRequest_EncodeableType : SOPC_EncodeableType := mkEncodeableType
  791 (* OpcUaId_ModifySubscriptionRequest *)
  793 (* OpcUaId_ModifySubscriptionRequest_Encoding_DefaultBinary *)
  NULL (sizeof SOPC_TypeInternalIndex_ModifySubscriptionRequest) ModifySubscriptionRequest_Fields.

Definition OpcUa_ModifySubscriptionResponse_EncodeableType : SOPC_EncodeableType := mkEncodeableType
  794 (* OpcUaId_ModifySubscriptionResponse *)
  796 (* OpcUaId_ModifySubscriptionResponse_Encoding_DefaultBinary *)
  NULL (sizeof SOPC_TypeInternalIndex_ModifySubscriptionResponse) ModifySubscriptionResponse_Fields.

Definition OpcUa_SetPublishingModeRequest_EncodeableType : SOPC_EncodeableType := mkEncodeableType
  797 (* OpcUaId_SetPublishingModeRequest *)
  799 (* OpcUaId_SetPublishingModeRequest_Encoding_DefaultBinary *)
  NULL (sizeof SOPC_TypeInternalIndex_SetPublishingModeRequest) SetPublishingModeRequest_Fields.

Definition OpcUa_SetPublishingModeResponse_EncodeableType : SOPC_EncodeableType := mkEncodeableType
  800 (* OpcUaId_SetPublishingModeResponse *)
  802 (* OpcUaId_SetPublishingModeResponse_Encoding_DefaultBinary *)
  NULL (sizeof SOPC_TypeInternalIndex_SetPublishingModeResponse) SetPublishingModeResponse_Fields.

Definition OpcUa_NotificationMessage_EncodeableType : SOPC_EncodeableType := mkEncodeableType
  803 (* OpcUaId_NotificationMessage *)
  805 (* OpcUaId_NotificationMessage_Encoding_DefaultBinary *)
  NULL (sizeof SOPC_TypeInternalIndex_NotificationMessage) NotificationMessage_Fields.

Definition OpcUa_MonitoredItemNotification_EncodeableType : SOPC_EncodeableType := mkEncodeableType
  806 (* OpcUaId_MonitoredItemNotification *)
  808 (* OpcUaId_MonitoredItemNotification_Encoding_DefaultBinary *)
  NULL (sizeof SOPC_TypeInternalIndex_MonitoredItemNotification) MonitoredItemNotification_Fields.

Definition OpcUa_DataChangeNotification_EncodeableType : SOPC_EncodeableType := mkEncodeableType
  809 (* OpcUaId_DataChangeNotification *)
  811 (* OpcUaId_DataChangeNotification_Encoding_DefaultBinary *)
  NULL (sizeof SOPC_TypeInternalIndex_DataChangeNotification) DataChangeNotification_Fields.

Definition OpcUa_EventFieldList_EncodeableType : SOPC_EncodeableType := mkEncodeableType
  917 (* OpcUaId_EventFieldList *)
  919 (* OpcUaId_EventFieldList_Encoding_DefaultBinary *)
  NULL (sizeof SOPC_TypeInternalIndex_EventFieldList) EventFieldList_Fields.

Definition OpcUa_EventNotificationList_EncodeableType : SOPC_EncodeableType := mkEncodeableType
  914 (* OpcUaId_EventNotificationList *)
  916 (* OpcUaId_EventNotificationList_Encoding_DefaultBinary *)
  NULL (sizeof SOPC_TypeInternalIndex_EventNotificationList) EventNotificationList_Fields.

Definition OpcUa_StatusChangeNotification_EncodeableType : SOPC_EncodeableType := mkEncodeableType
  818 (* OpcUaId_StatusChangeNotification *)
  820 (* OpcUaId_StatusChangeNotification_Encoding_DefaultBinary *)
  NULL (sizeof SOPC_TypeInternalIndex_StatusChangeNotification) StatusChangeNotification_Fields.

Definition OpcUa_SubscriptionAcknowledgement_EncodeableType : SOPC_EncodeableType := mkEncodeableType
  821 (* OpcUaId_SubscriptionAcknowledgement *)
  823 (* OpcUaId_SubscriptionAcknowledgement_Encoding_DefaultBinary *)
  NULL (sizeof SOPC_TypeInternalIndex_SubscriptionAcknowledgement) SubscriptionAcknowledgement_Fields.

Definition OpcUa_PublishRequest_EncodeableType : SOPC_EncodeableType := mkEncodeableType
  824 (* OpcUaId_PublishRequest *)
  826 (* OpcUaId_PublishRequest_Encoding_DefaultBinary *)
  NULL (sizeof SOPC_TypeInternalIndex_PublishRequest) PublishRequest_Fields.

Definition OpcUa_PublishResponse_EncodeableType : SOPC_EncodeableType := mkEncodeableType
  827 (* OpcUaId_PublishResponse *)
  829 (* OpcUaId_PublishResponse_Encoding_DefaultBinary *)
  NULL (sizeof SOPC_TypeInternalIndex_PublishResponse) PublishResponse_Fields.

Definition OpcUa_RepublishRequest_EncodeableType : SOPC_EncodeableType := mkEncodeableType
  830 (* OpcUaId_RepublishRequest *)
  832 (* OpcUaId_RepublishRequest_Encoding_DefaultBinary *)
  NULL (sizeof SOPC_TypeInternalIndex_RepublishRequest) RepublishRequest_Fields.

Definition OpcUa_RepublishResponse_EncodeableType : SOPC_EncodeableType := mkEncodeableType
  833 (* OpcUaId_RepublishResponse *)
  835 (* OpcUaId_RepublishResponse_Encoding_DefaultBinary *)
  NULL (sizeof SOPC_TypeInternalIndex_RepublishResponse) RepublishResponse_Fields.

Definition OpcUa_TransferResult_EncodeableType : SOPC_EncodeableType := mkEncodeableType
  836 (* OpcUaId_TransferResult *)
  838 (* OpcUaId_TransferResult_Encoding_DefaultBinary *)
  NULL (sizeof SOPC_TypeInternalIndex_TransferResult) TransferResult_Fields.

Definition OpcUa_TransferSubscriptionsRequest_EncodeableType : SOPC_EncodeableType := mkEncodeableType
  839 (* OpcUaId_TransferSubscriptionsRequest *)
  841 (* OpcUaId_TransferSubscriptionsRequest_Encoding_DefaultBinary *)
  NULL (sizeof SOPC_TypeInternalIndex_TransferSubscriptionsRequest) TransferSubscriptionsRequest_Fields.

Definition OpcUa_TransferSubscriptionsResponse_EncodeableType : SOPC_EncodeableType := mkEncodeableType
  842 (* OpcUaId_TransferSubscriptionsResponse *)
  844 (* OpcUaId_TransferSubscriptionsResponse_Encoding_DefaultBinary *)
  NULL (sizeof SOPC_TypeInternalIndex_TransferSubscriptionsResponse) TransferSubscriptionsResponse_Fields.

Definition OpcUa_DeleteSubscriptionsRequest_EncodeableType : SOPC_EncodeableType := mkEncodeableType
  845 (* OpcUaId_DeleteSubscriptionsRequest *)
  847 (* OpcUaId_DeleteSubscriptionsRequest_Encoding_DefaultBinary *)
  NULL (sizeof SOPC_TypeInternalIndex_DeleteSubscriptionsRequest) DeleteSubscriptionsRequest_Fields.

Definition OpcUa_DeleteSubscriptionsResponse_EncodeableType : SOPC_EncodeableType := mkEncodeableType
  848 (* OpcUaId_DeleteSubscriptionsResponse *)
  850 (* OpcUaId_DeleteSubscriptionsResponse_Encoding_DefaultBinary *)
  NULL (sizeof SOPC_TypeInternalIndex_DeleteSubscriptionsResponse) DeleteSubscriptionsResponse_Fields.

Definition OpcUa_BuildInfo_EncodeableType : SOPC_EncodeableType := mkEncodeableType
  338 (* OpcUaId_BuildInfo *)
  340 (* OpcUaId_BuildInfo_Encoding_DefaultBinary *)
  NULL (sizeof SOPC_TypeInternalIndex_BuildInfo) BuildInfo_Fields.

Definition OpcUa_RedundantServerDataType_EncodeableType : SOPC_EncodeableType := mkEncodeableType
  853 (* OpcUaId_RedundantServerDataType *)
  855 (* OpcUaId_RedundantServerDataType_Encoding_DefaultBinary *)
  NULL (sizeof SOPC_TypeInternalIndex_RedundantServerDataType) RedundantServerDataType_Fields.

Definition OpcUa_EndpointUrlListDataType_EncodeableType : SOPC_EncodeableType := mkEncodeableType
  11943 (* OpcUaId_EndpointUrlListDataType *)
  11957 (* OpcUaId_EndpointUrlListDataType_Encoding_DefaultBinary *)
  NULL (sizeof SOPC_TypeInternalIndex_EndpointUrlListDataType) EndpointUrlListDataType_Fields.

Definition OpcUa_NetworkGroupDataType_EncodeableType : SOPC_EncodeableType := mkEncodeableType
  11944 (* OpcUaId_NetworkGroupDataType *)
  11958 (* OpcUaId_NetworkGroupDataType_Encoding_DefaultBinary *)
  NULL (sizeof SOPC_TypeInternalIndex_NetworkGroupDataType) NetworkGroupDataType_Fields.

Definition OpcUa_SamplingIntervalDiagnosticsDataType_EncodeableType : SOPC_EncodeableType := mkEncodeableType
  856 (* OpcUaId_SamplingIntervalDiagnosticsDataType *)
  858 (* OpcUaId_SamplingIntervalDiagnosticsDataType_Encoding_DefaultBinary *)
  NULL (sizeof SOPC_TypeInternalIndex_SamplingIntervalDiagnosticsDataType) SamplingIntervalDiagnosticsDataType_Fields.

Definition OpcUa_ServerDiagnosticsSummaryDataType_EncodeableType : SOPC_EncodeableType := mkEncodeableType
  859 (* OpcUaId_ServerDiagnosticsSummaryDataType *)
  861 (* OpcUaId_ServerDiagnosticsSummaryDataType_Encoding_DefaultBinary *)
  NULL (sizeof SOPC_TypeInternalIndex_ServerDiagnosticsSummaryDataType) ServerDiagnosticsSummaryDataType_Fields.

Definition OpcUa_ServerStatusDataType_EncodeableType : SOPC_EncodeableType := mkEncodeableType
  862 (* OpcUaId_ServerStatusDataType *)
  864 (* OpcUaId_ServerStatusDataType_Encoding_DefaultBinary *)
  NULL (sizeof SOPC_TypeInternalIndex_ServerStatusDataType) ServerStatusDataType_Fields.

Definition OpcUa_ServiceCounterDataType_EncodeableType : SOPC_EncodeableType := mkEncodeableType
  871 (* OpcUaId_ServiceCounterDataType *)
  873 (* OpcUaId_ServiceCounterDataType_Encoding_DefaultBinary *)
  NULL (sizeof SOPC_TypeInternalIndex_ServiceCounterDataType) ServiceCounterDataType_Fields.

Definition OpcUa_SessionDiagnosticsDataType_EncodeableType : SOPC_EncodeableType := mkEncodeableType
  865 (* OpcUaId_SessionDiagnosticsDataType *)
  867 (* OpcUaId_SessionDiagnosticsDataType_Encoding_DefaultBinary *)
  NULL (sizeof SOPC_TypeInternalIndex_SessionDiagnosticsDataType) SessionDiagnosticsDataType_Fields.

Definition OpcUa_SessionSecurityDiagnosticsDataType_EncodeableType : SOPC_EncodeableType := mkEncodeableType
  868 (* OpcUaId_SessionSecurityDiagnosticsDataType *)
  870 (* OpcUaId_SessionSecurityDiagnosticsDataType_Encoding_DefaultBinary *)
  NULL (sizeof SOPC_TypeInternalIndex_SessionSecurityDiagnosticsDataType) SessionSecurityDiagnosticsDataType_Fields.

Definition OpcUa_StatusResult_EncodeableType : SOPC_EncodeableType := mkEncodeableType
  299 (* OpcUaId_StatusResult *)
  301 (* OpcUaId_StatusResult_Encoding_DefaultBinary *)
  NULL (sizeof SOPC_TypeInternalIndex_StatusResult) StatusResult_Fields.

Definition OpcUa_SubscriptionDiagnosticsDataType_EncodeableType : SOPC_EncodeableType := mkEncodeableType
  874 (* OpcUaId_SubscriptionDiagnosticsDataType *)
  876 (* OpcUaId_SubscriptionDiagnosticsDataType_Encoding_DefaultBinary *)
  NULL (sizeof SOPC_TypeInternalIndex_SubscriptionDiagnosticsDataType) SubscriptionDiagnosticsDataType_Fields.

Definition OpcUa_ModelChangeStructureDataType_EncodeableType : SOPC_EncodeableType := mkEncodeableType
  877 (* OpcUaId_ModelChangeStructureDataType *)
  879 (* OpcUaId_ModelChangeStructureDataType_Encoding_DefaultBinary *)
  NULL (sizeof SOPC_TypeInternalIndex_ModelChangeStructureDataType) ModelChangeStructureDataType_Fields.

Definition OpcUa_SemanticChangeStructureDataType_EncodeableType : SOPC_EncodeableType := mkEncodeableType
  897 (* OpcUaId_SemanticChangeStructureDataType *)
  899 (* OpcUaId_SemanticChangeStructureDataType_Encoding_DefaultBinary *)
  NULL (sizeof SOPC_TypeInternalIndex_SemanticChangeStructureDataType) SemanticChangeStructureDataType_Fields.

Definition OpcUa_Range_EncodeableType : SOPC_EncodeableType := mkEncodeableType
  884 (* OpcUaId_Range *)
  886 (* OpcUaId_Range_Encoding_DefaultBinary *)
  NULL (sizeof SOPC_TypeInternalIndex_Range) Range_Fields.

Definition OpcUa_EUInformation_EncodeableType : SOPC_EncodeableType := mkEncodeableType
  887 (* OpcUaId_EUInformation *)
  889 (* OpcUaId_EUInformation_Encoding_DefaultBinary *)
  NULL (sizeof SOPC_TypeInternalIndex_EUInformation) EUInformation_Fields.

Definition OpcUa_ComplexNumberType_EncodeableType : SOPC_EncodeableType := mkEncodeableType
  12171 (* OpcUaId_ComplexNumberType *)
  12181 (* OpcUaId_ComplexNumberType_Encoding_DefaultBinary *)
  NULL (sizeof SOPC_TypeInternalIndex_ComplexNumberType) ComplexNumberType_Fields.

Definition OpcUa_DoubleComplexNumberType_EncodeableType : SOPC_EncodeableType := mkEncodeableType
  12172 (* OpcUaId_DoubleComplexNumberType *)
  12182 (* OpcUaId_DoubleComplexNumberType_Encoding_DefaultBinary *)
  NULL (sizeof SOPC_TypeInternalIndex_DoubleComplexNumberType) DoubleComplexNumberType_Fields.

Definition OpcUa_AxisInformation_EncodeableType : SOPC_EncodeableType := mkEncodeableType
  12079 (* OpcUaId_AxisInformation *)
  12089 (* OpcUaId_AxisInformation_Encoding_DefaultBinary *)
  NULL (sizeof SOPC_TypeInternalIndex_AxisInformation) AxisInformation_Fields.

Definition OpcUa_XVType_EncodeableType : SOPC_EncodeableType := mkEncodeableType
  12080 (* OpcUaId_XVType *)
  12090 (* OpcUaId_XVType_Encoding_DefaultBinary *)
  NULL (sizeof SOPC_TypeInternalIndex_XVType) XVType_Fields.

Definition OpcUa_ProgramDiagnosticDataType_EncodeableType : SOPC_EncodeableType := mkEncodeableType
  894 (* OpcUaId_ProgramDiagnosticDataType *)
  896 (* OpcUaId_ProgramDiagnosticDataType_Encoding_DefaultBinary *)
  NULL (sizeof SOPC_TypeInternalIndex_ProgramDiagnosticDataType) ProgramDiagnosticDataType_Fields.

Definition OpcUa_Annotation_EncodeableType : SOPC_EncodeableType := mkEncodeableType
  891 (* OpcUaId_Annotation *)
  893 (* OpcUaId_Annotation_Encoding_DefaultBinary *)
  NULL (sizeof SOPC_TypeInternalIndex_Annotation) Annotation_Fields.

Definition g_KnownEncodeableTypes : list SOPC_EncodeableType := [
  OpcUa_ReferenceNode_EncodeableType;
  OpcUa_Node_EncodeableType;
  OpcUa_InstanceNode_EncodeableType;
  OpcUa_TypeNode_EncodeableType;
  OpcUa_ObjectNode_EncodeableType;
  OpcUa_ObjectTypeNode_EncodeableType;
  OpcUa_VariableNode_EncodeableType;
  OpcUa_VariableTypeNode_EncodeableType;
  OpcUa_ReferenceTypeNode_EncodeableType;
  OpcUa_MethodNode_EncodeableType;
  OpcUa_ViewNode_EncodeableType;
  OpcUa_DataTypeNode_EncodeableType;
  OpcUa_Argument_EncodeableType;
  OpcUa_EnumValueType_EncodeableType;
  OpcUa_EnumField_EncodeableType;
  OpcUa_OptionSet_EncodeableType;
  OpcUa_TimeZoneDataType_EncodeableType;
  OpcUa_ApplicationDescription_EncodeableType;
  OpcUa_RequestHeader_EncodeableType;
  OpcUa_ResponseHeader_EncodeableType;
  OpcUa_ServiceFault_EncodeableType;
  OpcUa_FindServersRequest_EncodeableType;
  OpcUa_FindServersResponse_EncodeableType;
  OpcUa_ServerOnNetwork_EncodeableType;
  OpcUa_FindServersOnNetworkRequest_EncodeableType;
  OpcUa_FindServersOnNetworkResponse_EncodeableType;
  OpcUa_UserTokenPolicy_EncodeableType;
  OpcUa_EndpointDescription_EncodeableType;
  OpcUa_GetEndpointsRequest_EncodeableType;
  OpcUa_GetEndpointsResponse_EncodeableType;
  OpcUa_RegisteredServer_EncodeableType;
  OpcUa_RegisterServerRequest_EncodeableType;
  OpcUa_RegisterServerResponse_EncodeableType;
  OpcUa_MdnsDiscoveryConfiguration_EncodeableType;
  OpcUa_RegisterServer2Request_EncodeableType;
  OpcUa_RegisterServer2Response_EncodeableType;
  OpcUa_ChannelSecurityToken_EncodeableType;
  OpcUa_OpenSecureChannelRequest_EncodeableType;
  OpcUa_OpenSecureChannelResponse_EncodeableType;
  OpcUa_CloseSecureChannelRequest_EncodeableType;
  OpcUa_CloseSecureChannelResponse_EncodeableType;
  OpcUa_SignedSoftwareCertificate_EncodeableType;
  OpcUa_SignatureData_EncodeableType;
  OpcUa_CreateSessionRequest_EncodeableType;
  OpcUa_CreateSessionResponse_EncodeableType;
  OpcUa_UserIdentityToken_EncodeableType;
  OpcUa_AnonymousIdentityToken_EncodeableType;
  OpcUa_UserNameIdentityToken_EncodeableType;
  OpcUa_X509IdentityToken_EncodeableType;
  OpcUa_KerberosIdentityToken_EncodeableType;
  OpcUa_IssuedIdentityToken_EncodeableType;
  OpcUa_ActivateSessionRequest_EncodeableType;
  OpcUa_ActivateSessionResponse_EncodeableType;
  OpcUa_CloseSessionRequest_EncodeableType;
  OpcUa_CloseSessionResponse_EncodeableType;
  OpcUa_CancelRequest_EncodeableType;
  OpcUa_CancelResponse_EncodeableType;
  OpcUa_NodeAttributes_EncodeableType;
  OpcUa_ObjectAttributes_EncodeableType;
  OpcUa_VariableAttributes_EncodeableType;
  OpcUa_MethodAttributes_EncodeableType;
  OpcUa_ObjectTypeAttributes_EncodeableType;
  OpcUa_VariableTypeAttributes_EncodeableType;
  OpcUa_ReferenceTypeAttributes_EncodeableType;
  OpcUa_DataTypeAttributes_EncodeableType;
  OpcUa_ViewAttributes_EncodeableType;
  OpcUa_AddNodesItem_EncodeableType;
  OpcUa_AddNodesResult_EncodeableType;
  OpcUa_AddNodesRequest_EncodeableType;
  OpcUa_AddNodesResponse_EncodeableType;
  OpcUa_AddReferencesItem_EncodeableType;
  OpcUa_AddReferencesRequest_EncodeableType;
  OpcUa_AddReferencesResponse_EncodeableType;
  OpcUa_DeleteNodesItem_EncodeableType;
  OpcUa_DeleteNodesRequest_EncodeableType;
  OpcUa_DeleteNodesResponse_EncodeableType;
  OpcUa_DeleteReferencesItem_EncodeableType;
  OpcUa_DeleteReferencesRequest_EncodeableType;
  OpcUa_DeleteReferencesResponse_EncodeableType;
  OpcUa_ViewDescription_EncodeableType;
  OpcUa_BrowseDescription_EncodeableType;
  OpcUa_ReferenceDescription_EncodeableType;
  OpcUa_BrowseResult_EncodeableType;
  OpcUa_BrowseRequest_EncodeableType;
  OpcUa_BrowseResponse_EncodeableType;
  OpcUa_BrowseNextRequest_EncodeableType;
  OpcUa_BrowseNextResponse_EncodeableType;
  OpcUa_RelativePathElement_EncodeableType;
  OpcUa_RelativePath_EncodeableType;
  OpcUa_BrowsePath_EncodeableType;
  OpcUa_BrowsePathTarget_EncodeableType;
  OpcUa_BrowsePathResult_EncodeableType;
  OpcUa_TranslateBrowsePathsToNodeIdsRequest_EncodeableType;
  OpcUa_TranslateBrowsePathsToNodeIdsResponse_EncodeableType;
  OpcUa_RegisterNodesRequest_EncodeableType;
  OpcUa_RegisterNodesResponse_EncodeableType;
  OpcUa_UnregisterNodesRequest_EncodeableType;
  OpcUa_UnregisterNodesResponse_EncodeableType;
  OpcUa_EndpointConfiguration_EncodeableType;
  OpcUa_SupportedProfile_EncodeableType;
  OpcUa_SoftwareCertificate_EncodeableType;
  OpcUa_QueryDataDescription_EncodeableType;
  OpcUa_NodeTypeDescription_EncodeableType;
  OpcUa_QueryDataSet_EncodeableType;
  OpcUa_NodeReference_EncodeableType;
  OpcUa_ContentFilterElement_EncodeableType;
  OpcUa_ContentFilter_EncodeableType;
  OpcUa_ElementOperand_EncodeableType;
  OpcUa_LiteralOperand_EncodeableType;
  OpcUa_AttributeOperand_EncodeableType;
  OpcUa_SimpleAttributeOperand_EncodeableType;
  OpcUa_ContentFilterElementResult_EncodeableType;
  OpcUa_ContentFilterResult_EncodeableType;
  OpcUa_ParsingResult_EncodeableType;
  OpcUa_QueryFirstRequest_EncodeableType;
  OpcUa_QueryFirstResponse_EncodeableType;
  OpcUa_QueryNextRequest_EncodeableType;
  OpcUa_QueryNextResponse_EncodeableType;
  OpcUa_ReadValueId_EncodeableType;
  OpcUa_ReadRequest_EncodeableType;
  OpcUa_ReadResponse_EncodeableType;
  OpcUa_HistoryReadValueId_EncodeableType;
  OpcUa_HistoryReadResult_EncodeableType;
  OpcUa_EventFilter_EncodeableType;
  OpcUa_ReadEventDetails_EncodeableType;
  OpcUa_ReadRawModifiedDetails_EncodeableType;
  OpcUa_AggregateConfiguration_EncodeableType;
  OpcUa_ReadProcessedDetails_EncodeableType;
  OpcUa_ReadAtTimeDetails_EncodeableType;
  OpcUa_HistoryData_EncodeableType;
  OpcUa_ModificationInfo_EncodeableType;
  OpcUa_HistoryModifiedData_EncodeableType;
  OpcUa_HistoryEventFieldList_EncodeableType;
  OpcUa_HistoryEvent_EncodeableType;
  OpcUa_HistoryReadRequest_EncodeableType;
  OpcUa_HistoryReadResponse_EncodeableType;
  OpcUa_WriteValue_EncodeableType;
  OpcUa_WriteRequest_EncodeableType;
  OpcUa_WriteResponse_EncodeableType;
  OpcUa_HistoryUpdateDetails_EncodeableType;
  OpcUa_UpdateDataDetails_EncodeableType;
  OpcUa_UpdateStructureDataDetails_EncodeableType;
  OpcUa_UpdateEventDetails_EncodeableType;
  OpcUa_DeleteRawModifiedDetails_EncodeableType;
  OpcUa_DeleteAtTimeDetails_EncodeableType;
  OpcUa_DeleteEventDetails_EncodeableType;
  OpcUa_HistoryUpdateResult_EncodeableType;
  OpcUa_HistoryUpdateRequest_EncodeableType;
  OpcUa_HistoryUpdateResponse_EncodeableType;
  OpcUa_CallMethodRequest_EncodeableType;
  OpcUa_CallMethodResult_EncodeableType;
  OpcUa_CallRequest_EncodeableType;
  OpcUa_CallResponse_EncodeableType;
  OpcUa_DataChangeFilter_EncodeableType;
  OpcUa_AggregateFilter_EncodeableType;
  OpcUa_EventFilterResult_EncodeableType;
  OpcUa_AggregateFilterResult_EncodeableType;
  OpcUa_MonitoringParameters_EncodeableType;
  OpcUa_MonitoredItemCreateRequest_EncodeableType;
  OpcUa_MonitoredItemCreateResult_EncodeableType;
  OpcUa_CreateMonitoredItemsRequest_EncodeableType;
  OpcUa_CreateMonitoredItemsResponse_EncodeableType;
  OpcUa_MonitoredItemModifyRequest_EncodeableType;
  OpcUa_MonitoredItemModifyResult_EncodeableType;
  OpcUa_ModifyMonitoredItemsRequest_EncodeableType;
  OpcUa_ModifyMonitoredItemsResponse_EncodeableType;
  OpcUa_SetMonitoringModeRequest_EncodeableType;
  OpcUa_SetMonitoringModeResponse_EncodeableType;
  OpcUa_SetTriggeringRequest_EncodeableType;
  OpcUa_SetTriggeringResponse_EncodeableType;
  OpcUa_DeleteMonitoredItemsRequest_EncodeableType;
  OpcUa_DeleteMonitoredItemsResponse_EncodeableType;
  OpcUa_CreateSubscriptionRequest_EncodeableType;
  OpcUa_CreateSubscriptionResponse_EncodeableType;
  OpcUa_ModifySubscriptionRequest_EncodeableType;
  OpcUa_ModifySubscriptionResponse_EncodeableType;
  OpcUa_SetPublishingModeRequest_EncodeableType;
  OpcUa_SetPublishingModeResponse_EncodeableType;
  OpcUa_NotificationMessage_EncodeableType;
  OpcUa_MonitoredItemNotification_EncodeableType;
  OpcUa_DataChangeNotification_EncodeableType;
  OpcUa_EventFieldList_EncodeableType;
  OpcUa_EventNotificationList_EncodeableType;
  OpcUa_StatusChangeNotification_EncodeableType;
  OpcUa_SubscriptionAcknowledgement_EncodeableType;
  OpcUa_PublishRequest_EncodeableType;
  OpcUa_PublishResponse_EncodeableType;
  OpcUa_RepublishRequest_EncodeableType;
  OpcUa_RepublishResponse_EncodeableType;
  OpcUa_TransferResult_EncodeableType;
  OpcUa_TransferSubscriptionsRequest_EncodeableType;
  OpcUa_TransferSubscriptionsResponse_EncodeableType;
  OpcUa_DeleteSubscriptionsRequest_EncodeableType;
  OpcUa_DeleteSubscriptionsResponse_EncodeableType;
  OpcUa_BuildInfo_EncodeableType;
  OpcUa_RedundantServerDataType_EncodeableType;
  OpcUa_EndpointUrlListDataType_EncodeableType;
  OpcUa_NetworkGroupDataType_EncodeableType;
  OpcUa_SamplingIntervalDiagnosticsDataType_EncodeableType;
  OpcUa_ServerDiagnosticsSummaryDataType_EncodeableType;
  OpcUa_ServerStatusDataType_EncodeableType;
  OpcUa_ServiceCounterDataType_EncodeableType;
  OpcUa_SessionDiagnosticsDataType_EncodeableType;
  OpcUa_SessionSecurityDiagnosticsDataType_EncodeableType;
  OpcUa_StatusResult_EncodeableType;
  OpcUa_SubscriptionDiagnosticsDataType_EncodeableType;
  OpcUa_ModelChangeStructureDataType_EncodeableType;
  OpcUa_SemanticChangeStructureDataType_EncodeableType;
  OpcUa_Range_EncodeableType;
  OpcUa_EUInformation_EncodeableType;
  OpcUa_ComplexNumberType_EncodeableType;
  OpcUa_DoubleComplexNumberType_EncodeableType;
  OpcUa_AxisInformation_EncodeableType;
  OpcUa_XVType_EncodeableType;
  OpcUa_ProgramDiagnosticDataType_EncodeableType;
  OpcUa_Annotation_EncodeableType
].

#[export] Instance OpcUa_Types : KnownTypes := {
  known_types := g_KnownEncodeableTypes;
  value_depth := 8
}.
