(* ===== verification/TypesSpec.v ===== *)
(** * The table of the structures is well formed

    The laws that [EncStructSpec.v] requires of a table of structures are decided by
    computation, and hold of the table of [Types.v]. *)

From Stdlib Require Import ZArith Lia.
From Stdlib Require Import Strings.Byte.
From stdpp Require Import prelude.
From S2P Require Import Prelude Common Buffer Codec EncScalar EncString EncNodeId EncText EncArray EncExtObj EncVariant EncVariantSpec.
From S2P Require Import EncStruct EncStructSpec Types.

Open Scope Z_scope.

(** ** Deciding the laws *)

Section Decide.
Context `{KnownTypes}.

Definition element_okb (d : SOPC_EncodeableType_FieldDescriptor) : bool :=
  if isBuiltIn d then is_array_id (field_id d) else negb (is_null (SOPC_KnownEncodeableTypes (field_type d))).

Lemma element_okb_ok d : element_okb d = true -> element_ok d.
Proof. unfold element_okb, element_ok. destruct (isBuiltIn d); [done|]. by destruct (SOPC_KnownEncodeableTypes (field_type d)). Qed.

(** The structures that are nested by value. *)
Fixpoint by_value (descs : list SOPC_EncodeableType_FieldDescriptor) : list nat :=
  match descs with
  | [] => []
  | d :: ds =>
      if isArrayLength d then match ds with [] => [] | _ :: ds => by_value ds end
      else if isBuiltIn d then by_value ds
      else field_type d :: by_value ds
  end.

(** The depth of a structure. *)
Fixpoint rank_fuel (fuel : nat) (ty : nat) : nat :=
  match fuel, SOPC_KnownEncodeableTypes ty with
  | S fuel, Some t => S (foldr Nat.max O (map (rank_fuel fuel) (by_value (Fields t))))
  | _, _ => O
  end.

Context (rank : nat -> nat).

Fixpoint descs_wfb (r : nat) (descs : list SOPC_EncodeableType_FieldDescriptor) : bool :=
  match descs with
  | [] => true
  | d :: ds =>
      if isArrayLength d then
        match ds with
        | [] => false
        | a :: ds => isToEncode d && length_field d && element_okb a && descs_wfb r ds
        end
      else element_okb d && (isBuiltIn d || (rank (field_type d) <? r)%nat) && descs_wfb r ds
  end.

Lemma descs_wfb_ok r descs : descs_wfb r descs = true -> descs_wf rank r descs.
Proof.
  assert (forall n ds, (length ds <= n)%nat -> descs_wfb r ds = true -> descs_wf rank r ds) as X; [|by apply (X (length descs))].
  clear descs. induction n as [|n IH]; intros [|d ds] L E; try apply descs_nil; simpl in *; [lia|].
  destruct (isArrayLength d) eqn:Ea.
  - destruct ds as [|a ds]; [done|]. rewrite !andb_true_iff in E. destruct E as [[[E1 E2] E3] E4].
    apply descs_array; [done..|by apply element_okb_ok|]. apply IH; [simpl in *; lia|done].
  - rewrite !andb_true_iff in E. destruct E as [[E1 E2] E3]. apply descs_field; [done|by apply element_okb_ok| |].
    + intros Eb. rewrite Eb in E2. by apply Nat.ltb_lt.
    + apply IH; [lia|done].
Qed.

End Decide.

(** ** The table *)

Definition type_count : nat := length g_KnownEncodeableTypes.

Definition OpcUa_rank : nat -> nat := rank_fuel 8.

Definition type_okb (ty : nat) : bool :=
  match SOPC_KnownEncodeableTypes ty with
  | Some t => (OpcUa_rank ty <? 8)%nat && descs_wfb OpcUa_rank (OpcUa_rank ty) (Fields t)
  | NULL => false
  end.

Lemma types_okb : forallb type_okb (seq 0 type_count) = true.
Proof. vm_compute. reflexivity. Qed.

Lemma known_index ty t : SOPC_KnownEncodeableTypes ty = Some t -> ty ∈ seq 0 type_count.
Proof.
  intros E. apply elem_of_seq. split; [lia|]. apply nth_error_Some. unfold SOPC_KnownEncodeableTypes in E. cbn in E. by rewrite E.
Qed.

Lemma type_ok ty t : SOPC_KnownEncodeableTypes ty = Some t ->
  (OpcUa_rank ty < 8)%nat /\ descs_wf OpcUa_rank (OpcUa_rank ty) (Fields t).
Proof.
  intros E. pose proof types_okb as A. rewrite forallb_forall in A. specialize (A ty). unfold type_okb in A. rewrite E in A.
  assert (In ty (seq 0 type_count)) as Hi by (apply list_elem_of_In; by eapply known_index).
  apply A, andb_true_iff in Hi as [L W]. split; [by apply Nat.ltb_lt|by apply descs_wfb_ok].
Qed.

#[export] Instance OpcUa_Laws : TypesLaws.
Proof.
  exists OpcUa_rank; [|by intros ty t E; apply type_ok].
  intros ty. destruct (SOPC_KnownEncodeableTypes ty) as [t|] eqn:E; [by eapply type_ok|].
  unfold OpcUa_rank. cbn [rank_fuel]. rewrite E. cbn. lia.
Qed.

(** ** Identifiers *)

Definition type_ids : list Z := flat_map (fun t => [Struct_TypeId t; Struct_BinaryEncodingTypeId t]) g_KnownEncodeableTypes.

Lemma type_ids_unique : NoDup type_ids.
Proof. refine (bool_decide_unpack (NoDup type_ids) _). vm_compute. constructor. Qed.

Lemma type_ids_range : Forall (in_u 32) type_ids.
Proof.
  assert (forallb (fun n => (0 <=? n) && (n <? 2 ^ 32)) type_ids = true) as E by (vm_compute; reflexivity).
  apply Forall_forall. intros n Hn. rewrite forallb_forall in E. apply list_elem_of_In, E in Hn. unfold in_u. lia.
Qed.
