(* ===== verification/Registry.v ===== *)
(** * Registry of the encodeable types

    Model of the first part of [src/src/Common/opcua_types/sopc_encodeabletype.c]: the
    search of a descriptor by an identifier, in the table of the known types and then
    in the types that the user registered; the registration and its removal.  The
    global variable [g_UserEncodeableTypes] is a hash table of [Dict.v], created at
    the first registration and deleted with its last item. *)

From Stdlib Require Import ZArith Lia.
From Stdlib Require Import Strings.Byte.
From stdpp Require Import prelude gmap.
From S2P Require Import Prelude Common Buffer Codec EncScalar EncString EncNodeId EncText EncArray EncExtObj EncVariant.
From S2P Require Import EncStruct Dict.

Open Scope Z_scope.

(** ** Keys and values of the table *)

(** A pointer to a key: the null pointer, the address [0xFFFFFFFE], which is only
    compared, or a key with an identifier. *)
Inductive SOPC_EncodeableType_UserTypeKey :=
| NullKey
| TombstoneKey
| UserKey (typeId : Z).

#[export] Instance UserTypeKey_eq_dec : EqDecision SOPC_EncodeableType_UserTypeKey.
Proof. solve_decision. Defined.

Record SOPC_EncodeableType_UserTypeValue := mkUserTypeValue {
  encoder : ptr SOPC_EncodeableType
}.

#[export] Instance user_types : Stored := {|
  Key := SOPC_EncodeableType_UserTypeKey;
  Value := ptr SOPC_EncodeableType_UserTypeValue;
  Free_Fct := unit;
  null_key := NullKey;
  null_value := NULL
|}.

(** The functions are only called on keys that can be dereferenced. *)
Definition typeId_hash (k : SOPC_EncodeableType_UserTypeKey) : Z :=
  match k with UserKey typeId => typeId | _ => 0 end.

Definition typeId_equal (a b : SOPC_EncodeableType_UserTypeKey) : bool :=
  match a, b with
  | UserKey a, UserKey b => a =? b
  | NullKey, NullKey | TombstoneKey, TombstoneKey => true
  | _, _ => false
  end.

Section Registry.
Context `{Allocator} `{KnownTypes}.

(** The value of [g_UserEncodeableTypes]. *)
Definition registry : Type := ptr SOPC_Dict.

(** [sizeof(SOPC_EncodeableType_UserTypeKey)] and of the value *)
Definition sizeof_UserTypeKey : Z := 4.
Definition sizeof_UserTypeValue : Z := 8.

(** ** Search *)

Definition has_id (typeId : Z) (t : SOPC_EncodeableType) : bool :=
  (typeId =? Struct_TypeId t) || (typeId =? Struct_BinaryEncodingTypeId t).

(** The loop over the known types, from [idx]; the null pointer ends the table. *)
Fixpoint search_known (types : list SOPC_EncodeableType) (idx : Z) (typeId : Z) : ptr SOPC_EncodeableType :=
  match types with
  | [] => NULL
  | current :: types =>
      if has_id typeId current then Some current
      else if idx <? UINT32_MAX then search_known types (idx + 1) typeId
      else NULL
  end.

Definition SOPC_EncodeableType_GetEncodeableType (g : registry) (typeId : Z) : res (ptr SOPC_EncodeableType) :=
  match search_known known_types 0 typeId with
  | Some result => Ret (Some result)
  | NULL =>
      if is_null g then Ret NULL
      else
        let* (userCoder, found) := SOPC_Dict_Get g (UserKey typeId) in
        match userCoder with
        | Some pValue =>
            if found then
              assert! negb (is_null (encoder pValue)) in
              Ret (encoder pValue)
            else Ret NULL
        | NULL => Ret NULL
        end
  end.

(** ** Registration *)

(** Returns the status and the table; the memory of a key and of a value that could
    not be inserted is freed. *)
Definition insertKeyInUserTypes (g : registry) (pEncoder : ptr SOPC_EncodeableType) (typeId : Z) : res (SOPC_ReturnStatus * registry) :=
  if negb (alloc_ok sizeof_UserTypeKey) then Ret (SOPC_STATUS_OUT_OF_MEMORY, g)
  else if negb (alloc_ok sizeof_UserTypeValue) then Ret (SOPC_STATUS_OUT_OF_MEMORY, g)
  else
    let* (inserted, g, _) := SOPC_Dict_Insert g (UserKey typeId) (Some (mkUserTypeValue pEncoder)) in
    Ret (if inserted : bool then SOPC_STATUS_OK else SOPC_STATUS_NOK, g).

(** The table is created when there is none. *)
Definition create_registry (g : registry) : res (SOPC_ReturnStatus * registry) :=
  match g with
  | Some _ => Ret (SOPC_STATUS_OK, g)
  | NULL =>
      match SOPC_Dict_Create NullKey typeId_hash typeId_equal (Some tt) (Some tt) with
      | NULL => Ret (SOPC_STATUS_OUT_OF_MEMORY, NULL)
      | Some d =>
          let* g := SOPC_Dict_SetTombstoneKey (Some d) TombstoneKey in
          Ret (SOPC_STATUS_OK, g)
      end
  end.

Definition SOPC_EncodeableType_AddUserType (g : registry) (pEncoder : ptr SOPC_EncodeableType) : res (SOPC_ReturnStatus * registry) :=
  match pEncoder with
  | NULL => Ret (SOPC_STATUS_INVALID_PARAMETERS, g)
  | Some e =>
      let* prevEncoder := SOPC_EncodeableType_GetEncodeableType g (Struct_TypeId e) in
      if negb (is_null prevEncoder) then Ret (SOPC_STATUS_NOT_SUPPORTED, g)
      else
        let* (result, g) := create_registry g in
        if is_ok result then
          let* (result, g) := insertKeyInUserTypes g pEncoder (Struct_TypeId e) in
          if is_ok result then insertKeyInUserTypes g pEncoder (Struct_BinaryEncodingTypeId e)
          else Ret (result, g)
        else Ret (result, g)
  end.

Definition SOPC_EncodeableType_RemoveUserType (g : registry) (pEncoder : ptr SOPC_EncodeableType) : res (SOPC_ReturnStatus * registry) :=
  match pEncoder, g with
  | NULL, _ => Ret (SOPC_STATUS_INVALID_PARAMETERS, g)
  | _, NULL => Ret (SOPC_STATUS_INVALID_PARAMETERS, g)
  | Some e, Some _ =>
      let* (prevEncoder, _) := SOPC_Dict_GetKey g (UserKey (Struct_TypeId e)) in
      if decide (prevEncoder = NullKey) then Ret (SOPC_STATUS_INVALID_PARAMETERS, g)
      else
        let* (g, _) := SOPC_Dict_Remove g (UserKey (Struct_TypeId e)) in
        let* (g, _) := SOPC_Dict_Remove g (UserKey (Struct_BinaryEncodingTypeId e)) in
        let* d := deref g in
        if SOPC_Dict_Size d =? 0 then Ret (SOPC_STATUS_OK, NULL) else Ret (SOPC_STATUS_OK, g)
  end.

End Registry.
