(* ===== verification/RegistryProps.v ===== *)
(** * The registry of the encodeable types as a map

    Searches in the registry are searches in the table of the known types, then in a
    map of the types of the user; a registration followed by its removal leaves the
    searches as they were. *)

From Stdlib Require Import ZArith Lia.
From Stdlib Require Import Strings.Byte.
From stdpp Require Import prelude gmap.
From S2P Require Import Prelude Common Buffer Codec EncScalar EncString EncNodeId EncText EncArray EncExtObj EncVariant.
From S2P Require Import EncVariantSpec EncStruct EncStructSpec Types TypesSpec Dict DictSpec DictProps Registry.

Open Scope Z_scope.

(** ** The table of the user types is a map *)

(** What identifies a key. *)
Definition key_ident (k : Key) : Z + bool :=
  match k with UserKey typeId => inl typeId | NullKey => inr false | TombstoneKey => inr true end.

Lemma typeId_equal_ok a b : typeId_equal a b = bool_decide (key_ident a = key_ident b).
Proof. case_bool_decide as E; destruct a, b; simpl in *; simplify_eq; try done; [apply Z.eqb_refl|]. apply Z.eqb_neq. congruence. Qed.

Lemma typeId_hash_ok a b : key_ident a = key_ident b -> typeId_hash a = typeId_hash b.
Proof. by destruct a, b; intros ?; simplify_eq/=. Qed.

Section Properties.
Context `{Allocator} `{KnownTypes}.

Record Registry_Inv (g : registry) : Prop := {
  reg_dict : forall d, g = Some d -> Dict_Inv key_ident d /\ unique key_ident d;
  reg_keys : forall d, g = Some d -> empty_key d = NullKey /\ tombstone_key d = TombstoneKey;
  reg_values : forall d k v, g = Some d -> abs key_ident d !! k = Some v -> exists e, v = Some (mkUserTypeValue (Some e))
}.

(** The types of the user, by identifier. *)
Definition stored_type (v : option Value) : option SOPC_EncodeableType :=
  match v with Some (Some u) => encoder u | _ => None end.

Definition user_map (g : registry) : gmap (Z + bool) Value :=
  match g with NULL => ∅ | Some d => abs key_ident d end.

Definition user_lookup (g : registry) (typeId : Z) : option SOPC_EncodeableType :=
  stored_type (user_map g !! key_ident (UserKey typeId)).

(** The result of a search: the known types come first. *)
Definition resolve (g : registry) (typeId : Z) : option SOPC_EncodeableType :=
  match find (has_id typeId) known_types with Some t => Some t | None => user_lookup g typeId end.

(** There is room for [n] more insertions: the counter of the buckets does not wrap. *)
Definition room (g : registry) (n : Z) : Prop := match g with NULL => True | Some d => n_busy d + n < 2 ^ 64 end.

Lemma search_known_find typeId types : forall idx, idx + zlen types <= UINT32_MAX + 1 -> search_known types idx typeId = find (has_id typeId) types.
Proof.
  induction types as [|t types IH]; intros idx L; [done|]. rewrite zlen_cons in L. cbn [search_known find]. destruct (has_id typeId t); [done|].
  destruct types as [|t' types]; [by destruct (idx <? UINT32_MAX)|]. pose proof (zlen_nonneg types). rewrite zlen_cons in *.
  replace (idx <? UINT32_MAX) with true by lia. apply IH. lia.
Qed.

Lemma usable_user d typeId : empty_key d = NullKey -> tombstone_key d = TombstoneKey -> usable d (UserKey typeId).
Proof. intros E1 E2. unfold usable. by rewrite E1, E2. Qed.

Lemma user_get g typeId : Registry_Inv g -> is_null g = false ->
  exists v found, SOPC_Dict_Get g (UserKey typeId) = Ret (v, found) /\
    match user_lookup g typeId with
    | Some e => v = Some (mkUserTypeValue (Some e)) /\ found = true
    | None => v = NULL /\ found = false
    end.
Proof.
  intros [D K V]. destruct g as [d|]; [|done]. intros _. destruct (D d eq_refl) as [Di Un]. destruct (K d eq_refl) as [K1 K2]. specialize (V d).
  destruct (abs_lookup key_ident d (UserKey typeId) Un) as [L1 L2]. unfold user_lookup. cbn [user_map].
  destruct (Get_spec key_ident d (UserKey typeId) Di (usable_user d typeId K1 K2)) as [[-> Nin]|(b & -> & Hb & Eb)]; eexists _, _; (split; [done|]).
  - by rewrite (L1 Nin).
  - specialize (L2 b Hb Eb). destruct (V _ _ eq_refl L2) as [e Ev]. rewrite L2, Ev. done.
Qed.

Lemma Get_resolve g typeId : zlen known_types <= UINT32_MAX + 1 -> Registry_Inv g ->
  SOPC_EncodeableType_GetEncodeableType g typeId = Ret (resolve g typeId).
Proof.
  intros L R. unfold SOPC_EncodeableType_GetEncodeableType, resolve. rewrite search_known_find by lia.
  destruct (find (has_id typeId) known_types); [done|]. destruct (is_null g) eqn:E; [by destruct g|].
  destruct (user_get g typeId R E) as (v & found & -> & X). cbn [rbind]. destruct (user_lookup g typeId); by destruct X as [-> ->].
Qed.

(** A table with the invariant, and the map it stands for. *)
Definition is_registry (d : SOPC_Dict) (m : gmap (Z + bool) Value) : Prop :=
  Dict_Inv key_ident d /\ unique key_ident d /\ empty_key d = NullKey /\ tombstone_key d = TombstoneKey /\ abs key_ident d = m.

Lemma is_registry_inv d m : is_registry d m -> (forall k v, m !! k = Some v -> exists e, v = Some (mkUserTypeValue (Some e))) -> Registry_Inv (Some d).
Proof. intros (D & U & K1 & K2 & <-) V. split; intros ?; [by intros [= <-]|by intros [= <-]|intros ?? [= <-]; apply V]. Qed.

Lemma create_registry_spec g : Registry_Inv g ->
  (exists st, create_registry g = Ret (st, g) /\ g = NULL /\ is_ok st = false) \/
  (exists d, create_registry g = Ret (SOPC_STATUS_OK, Some d) /\ (forall n, n < 2 ^ 64 -> room g n -> room (Some d) n) /\
     is_registry d (user_map g)).
Proof.
  intros [D K V]. destruct g as [d|]; simpl.
  - right. exists d. split; [done|]. split; [done|]. destruct (D d eq_refl), (K d eq_refl). done.
  - unfold SOPC_Dict_Create. destruct (alloc_ok sizeof_dict); [|left; by eexists].
    destruct (@new_buckets user_types _ DICT_INITIAL_SIZE NullKey) as [bs|] eqn:Eb; [|left; by eexists]. right.
    eexists. split; [done|]. split; [done|].
    destruct (fresh_table key_ident NullKey TombstoneKey typeId_hash typeId_equal (Some tt) (Some tt) bs typeId_equal_ok typeId_hash_ok Eb) as (? & ? & ?).
    done.
Qed.

(** The table that [insertKeyInUserTypes] leaves. *)
Lemma insertKey_spec d m e typeId : is_registry d m -> m !! key_ident (UserKey typeId) = None -> n_busy d + 1 < 2 ^ 64 ->
  exists st d', insertKeyInUserTypes (Some d) (Some e) typeId = Ret (st, Some d') /\ n_busy d' <= n_busy d + 1 /\
    is_registry d' (if is_ok st then <[key_ident (UserKey typeId) := Some (mkUserTypeValue (Some e))]> m else m).
Proof.
  intros (D & U & K1 & K2 & <-) Nin B. unfold insertKeyInUserTypes. destruct (alloc_ok sizeof_UserTypeKey); cbn [negb].
  2:{ eexists _, d. split; [done|]. split; [lia|]. done. }
  destruct (alloc_ok sizeof_UserTypeValue); cbn [negb].
  2:{ eexists _, d. split; [done|]. split; [lia|]. done. }
  destruct (insert_refines key_ident d (UserKey typeId) (Some (mkUserTypeValue (Some e))) D B (usable_user _ _ K1 K2) U (or_intror Nin))
    as (ok & d' & f & -> & D' & (T1 & T2 & _) & B' & U' & E'). cbn [rbind].
  eexists _, d'. split; [done|]. split; [done|]. unfold is_registry. rewrite T1, T2, E'. by destruct ok.
Qed.

(** *** Registration *)

Definition value_of (e : SOPC_EncodeableType) : Value := Some (mkUserTypeValue (Some e)).

Definition values_ok (m : gmap (Z + bool) Value) : Prop := forall k v, m !! k = Some v -> exists e, v = value_of e.

Lemma values_ok_insert m k e : values_ok m -> values_ok (<[k := value_of e]> m).
Proof. intros V k' v. rewrite lookup_insert_Some. intros [[_ <-]|[_ E]]; [by eexists|by eapply V]. Qed.

Lemma values_ok_delete m k : values_ok m -> values_ok (delete k m).
Proof. intros V k' v. rewrite lookup_delete_Some. intros [_ E]. by eapply V. Qed.

Lemma Registry_values g : Registry_Inv g -> values_ok (user_map g).
Proof. intros [_ _ V] k v. destruct g as [d|]; simpl; [by apply V|]. by rewrite lookup_empty. Qed.

Lemma user_lookup_None g typeId : Registry_Inv g -> user_lookup g typeId = None -> user_map g !! key_ident (UserKey typeId) = None.
Proof.
  intros R. unfold user_lookup. destruct (user_map g !! key_ident (UserKey typeId)) as [v|] eqn:E; [|done].
  destruct (Registry_values g R _ _ E) as [e ->]. done.
Qed.

(** The two identifiers of [e] designate it in the map. *)
Definition with_type (e : SOPC_EncodeableType) (m : gmap (Z + bool) Value) : gmap (Z + bool) Value :=
  <[key_ident (UserKey (Struct_BinaryEncodingTypeId e)) := value_of e]> (<[key_ident (UserKey (Struct_TypeId e)) := value_of e]> m).

(** What the caller of a registration is to ensure: the two identifiers of the type
    differ, and no type of the user has the second one. *)
Definition new_ids (g : registry) (e : SOPC_EncodeableType) : Prop :=
  Struct_BinaryEncodingTypeId e <> Struct_TypeId e /\ user_lookup g (Struct_BinaryEncodingTypeId e) = None.

Lemma Add_spec g e : zlen known_types <= UINT32_MAX + 1 -> Registry_Inv g -> room g 2 -> new_ids g e ->
  resolve g (Struct_TypeId e) = None ->
  exists st g', SOPC_EncodeableType_AddUserType g (Some e) = Ret (st, g') /\
    match g' with
    | NULL => g = NULL /\ is_ok st = false
    | Some d => exists m, is_registry d m /\ values_ok m /\ (room g 4 -> n_busy d + 2 < 2 ^ 64) /\
        (if is_ok st then m = with_type e (user_map g)
         else m = user_map g \/ m = <[key_ident (UserKey (Struct_TypeId e)) := value_of e]> (user_map g))
    end.
Proof.
  intros L R B [Ne Nb] Nt. unfold SOPC_EncodeableType_AddUserType. rewrite Get_resolve, Nt by done. cbn [rbind is_null negb].
  assert (user_lookup g (Struct_TypeId e) = None) as Nu by (unfold resolve in Nt; by destruct (find _ _)).
  apply user_lookup_None in Nu, Nb; [|done..]. pose proof (Registry_values g R) as V.
  destruct (create_registry_spec g R) as [(st & -> & -> & E)|(d & -> & Rm & Rd)]; cbn [rbind]; [rewrite E; by eexists _, _|].
  cbn [is_ok]. pose proof (Rm 2 ltac:(lia) B) as B2. pose proof (Rm 4 ltac:(lia)) as B4. cbn [room] in B2, B4.
  destruct (insertKey_spec d _ e (Struct_TypeId e) Rd Nu ltac:(lia)) as (st & d1 & -> & B1 & R1). cbn [rbind].
  destruct (is_ok st) eqn:Es.
  2:{ exists st, (Some d1). split; [done|]. rewrite Es. eexists. split; [exact R1|]. split; [done|]. split; [intros X; specialize (B4 X); lia|by left]. }
  destruct (insertKey_spec d1 _ e (Struct_BinaryEncodingTypeId e) R1) as (st2 & d2 & -> & B2' & R2); [|lia|].
  { rewrite lookup_insert_ne; [done|]. simpl. congruence. }
  exists st2, (Some d2). split; [done|]. eexists. split; [exact R2|]. destruct (is_ok st2).
  - split; [by apply values_ok_insert, values_ok_insert|]. split; [intros X; specialize (B4 X); lia|done].
  - split; [by apply values_ok_insert|]. split; [intros X; specialize (B4 X); lia|by right].
Qed.

Lemma is_registry_lookup d m typeId : is_registry d m -> user_lookup (Some d) typeId = stored_type (m !! key_ident (UserKey typeId)).
Proof. intros (_ & _ & _ & _ & <-). done. Qed.

(** A search in the registry finds the known types first, then the types of the
    user; it does not fail. *)
Theorem registry_search g typeId : zlen known_types <= UINT32_MAX + 1 -> Registry_Inv g ->
  SOPC_EncodeableType_GetEncodeableType g typeId = Ret (resolve g typeId) /\
  (forall t, find (has_id typeId) known_types = Some t -> resolve g typeId = Some t).
Proof. intros L R. split; [by apply Get_resolve|]. intros t E. unfold resolve. by rewrite E. Qed.

(** A type is refused when its identifier is used.  Otherwise, when it is accepted,
    both its identifiers designate it, unless they designate a known type, and the
    other searches give what they gave; when it is refused for lack of memory, the
    searches give what they gave, except that its first identifier may designate it. *)
Theorem registry_add g e : zlen known_types <= UINT32_MAX + 1 -> Registry_Inv g -> room g 2 -> new_ids g e ->
  exists st g', SOPC_EncodeableType_AddUserType g (Some e) = Ret (st, g') /\ Registry_Inv g' /\
    (resolve g (Struct_TypeId e) <> None -> st = SOPC_STATUS_NOT_SUPPORTED /\ g' = g) /\
    (st = SOPC_STATUS_OK -> resolve g' (Struct_TypeId e) = Some e /\
       resolve g' (Struct_BinaryEncodingTypeId e) =
         Some (default e (find (has_id (Struct_BinaryEncodingTypeId e)) known_types)) /\
       forall typeId, typeId <> Struct_TypeId e -> typeId <> Struct_BinaryEncodingTypeId e -> resolve g' typeId = resolve g typeId) /\
    (st <> SOPC_STATUS_OK -> forall typeId, typeId <> Struct_TypeId e -> resolve g' typeId = resolve g typeId).
Proof.
  intros L R B N. destruct (resolve g (Struct_TypeId e)) as [t|] eqn:Et.
  { exists SOPC_STATUS_NOT_SUPPORTED, g. unfold SOPC_EncodeableType_AddUserType. rewrite Get_resolve, Et by done. by split_and!. }
  destruct (Add_spec g e L R B N Et) as (st & g' & -> & X). exists st, g'. split; [done|]. destruct N as [Ne Nb].
  assert (find (has_id (Struct_TypeId e)) known_types = None) as Fk by (unfold resolve in Et; by destruct (find _ _)).
  destruct g' as [d|]; [|destruct X as [-> Es]; split_and!; try done; by intros ->].
  destruct X as (m & Rd & V & _ & Em). split; [by eapply is_registry_inv|]. split; [done|]. unfold resolve in *.
  split.
  - intros ->. cbn [is_ok] in Em. subst m. rewrite Fk, !(is_registry_lookup _ _ _ Rd). unfold with_type. split_and!.
    + rewrite lookup_insert_ne by (simpl; congruence). by rewrite lookup_insert_eq.
    + rewrite lookup_insert_eq. by destruct (find (has_id (Struct_BinaryEncodingTypeId e)) known_types).
    + intros i N1 N2. rewrite (is_registry_lookup _ _ _ Rd). unfold with_type. rewrite !lookup_insert_ne by (simpl; congruence). done.
  - intros Es i N1. destruct (is_ok st) eqn:Eo; [by apply is_ok_true in Eo|]. rewrite (is_registry_lookup _ _ _ Rd).
    destruct Em as [-> | ->]; [done|]. rewrite lookup_insert_ne by (simpl; congruence). done.
Qed.

(** *** Removal *)

Lemma GetKey_spec d m typeId : is_registry d m ->
  SOPC_Dict_GetKey (Some d) (UserKey typeId) =
  Ret (match m !! key_ident (UserKey typeId) with Some _ => (UserKey typeId, true) | None => (NullKey, false) end).
Proof.
  intros (D & U & K1 & K2 & <-). destruct (abs_lookup key_ident d (UserKey typeId) U) as [L1 L2]. unfold SOPC_Dict_GetKey.
  destruct (get_internal_spec key_ident d (UserKey typeId) D (usable_user _ _ K1 K2)) as [[-> Nin]|(idx & b & -> & Eb & Ab & Lb & Ei)]; cbn [rbind].
  - by rewrite (L1 Nin).
  - rewrite Ab. cbn [rbind]. rewrite (L2 b); [|apply elem_of_live; eauto|done]. destruct (key b) eqn:Ek; simpl in Ei; by simplify_eq.
Qed.

Lemma Remove_unknown g e : Registry_Inv g -> user_lookup g (Struct_TypeId e) = None ->
  SOPC_EncodeableType_RemoveUserType g (Some e) = Ret (SOPC_STATUS_INVALID_PARAMETERS, g).
Proof.
  intros R N. unfold SOPC_EncodeableType_RemoveUserType. destruct g as [d|]; [|done]. apply user_lookup_None in N; [|done].
  destruct R as [D K _]. destruct (D d eq_refl), (K d eq_refl). rewrite (GetKey_spec d (user_map (Some d))) by done. by rewrite N.
Qed.

Lemma Remove_known d m e : is_registry d m -> n_busy d + 1 < 2 ^ 64 -> is_Some (m !! key_ident (UserKey (Struct_TypeId e))) ->
  let m' := delete (key_ident (UserKey (Struct_BinaryEncodingTypeId e))) (delete (key_ident (UserKey (Struct_TypeId e))) m) in
  exists g', SOPC_EncodeableType_RemoveUserType (Some d) (Some e) = Ret (SOPC_STATUS_OK, g') /\
    match g' with NULL => m' = ∅ | Some d' => is_registry d' m' /\ m' <> ∅ end.
Proof.
  intros R B [v Ev] m'. unfold SOPC_EncodeableType_RemoveUserType. rewrite (GetKey_spec d m), Ev by done. cbn [rbind].
  rewrite decide_False by done. destruct R as (D & U & K1 & K2 & <-).
  destruct (remove_refines key_ident d (UserKey (Struct_TypeId e)) D B (usable_user _ _ K1 K2) ltac:(by rewrite K1, K2) U)
    as (d1 & f & -> & D1 & (T1 & T2 & _) & B1 & U1 & E1). cbn [rbind]. rewrite <- T1 in K1. rewrite <- T2 in K2.
  destruct (remove_refines key_ident d1 (UserKey (Struct_BinaryEncodingTypeId e)) D1 ltac:(lia) (usable_user _ _ K1 K2) ltac:(by rewrite K1, K2) U1)
    as (d2 & f2 & -> & D2 & (T3 & T4 & _) & B2 & U2 & E2). cbn [rbind deref]. rewrite <- T3 in K1. rewrite <- T4 in K2. rewrite E1 in E2.
  pose proof (abs_size key_ident d2 U2) as Sz. unfold SOPC_Dict_Size. rewrite (inv_items key_ident d2 D2). unfold zlen. rewrite <- Sz, E2.
  fold m'. destruct (Z.eqb_spec (Z.of_nat (base.size m')) 0) as [Z0|Z0].
  - exists NULL. split; [done|]. apply map_size_empty_inv. lia.
  - exists (Some d2). split; [done|]. split; [done|]. intros E0. rewrite E0, map_size_empty in Z0. lia.
Qed.

Lemma with_type_delete (e : SOPC_EncodeableType) (m : gmap (Z + bool) Value) :
  m !! key_ident (UserKey (Struct_TypeId e)) = None -> m !! key_ident (UserKey (Struct_BinaryEncodingTypeId e)) = None ->
  Struct_BinaryEncodingTypeId e <> Struct_TypeId e ->
  delete (key_ident (UserKey (Struct_BinaryEncodingTypeId e))) (delete (key_ident (UserKey (Struct_TypeId e))) (with_type e m)) = m.
Proof.
  intros N1 N2 Ne. unfold with_type. rewrite delete_insert_ne by (simpl; congruence). rewrite (delete_insert_id m) by done. by rewrite (delete_insert_id m).
Qed.

(** C21: the removal of a type that was registered leaves the searches as they were
    before its registration; when it was the only one, the table is deleted.  A second
    removal is refused.  The two identifiers of the type differ and, before the
    registration, no type of the user had its encoding identifier: otherwise this one is
    lost ([shared_encoding_id_is_lost]). *)
Theorem registry_add_remove g e g' : zlen known_types <= UINT32_MAX + 1 -> Registry_Inv g -> room g 4 -> new_ids g e ->
  SOPC_EncodeableType_AddUserType g (Some e) = Ret (SOPC_STATUS_OK, g') ->
  exists g'', SOPC_EncodeableType_RemoveUserType g' (Some e) = Ret (SOPC_STATUS_OK, g'') /\ Registry_Inv g'' /\
    (forall typeId, resolve g'' typeId = resolve g typeId) /\ (g = NULL -> g'' = NULL) /\
    SOPC_EncodeableType_RemoveUserType g'' (Some e) = Ret (SOPC_STATUS_INVALID_PARAMETERS, g'').
Proof.
  intros L R B N A. assert (room g 2) as B2 by (destruct g; simpl in *; [lia|done]). pose proof N as [Ne Nb].
  destruct (resolve g (Struct_TypeId e)) as [t|] eqn:Et.
  { unfold SOPC_EncodeableType_AddUserType in A. rewrite Get_resolve, Et in A by done. done. }
  assert (user_lookup g (Struct_TypeId e) = None) as Nu by (unfold resolve in Et; by destruct (find _ _)).
  destruct (Add_spec g e L R B2 N Et) as (st & g1 & E1 & X). rewrite A in E1. injection E1 as <- <-.
  destruct g' as [d|]; [|by destruct X]. destruct X as (m & Rd & V & Bd & Em). cbn [is_ok] in Em. subst m.
  pose proof (user_lookup_None g _ R Nu) as Mu. pose proof (user_lookup_None g _ R Nb) as Mb.
  destruct (Remove_known d _ e Rd) as (g'' & E2 & X).
  { specialize (Bd B). lia. }
  { unfold with_type. rewrite lookup_insert_ne by (simpl; congruence). rewrite lookup_insert_eq. by eexists. }
  rewrite with_type_delete in X by done.
  assert (user_map g'' = user_map g) as Em by (destruct g''; [by destruct X as [(_ & _ & _ & _ & <-) _]|by simpl]).
  assert (Registry_Inv g'') as R''.
  { destruct g'' as [d'|]; [|by split]. apply (is_registry_inv d' (user_map g)); [apply X|]. by apply Registry_values. }
  exists g''. split; [done|]. split; [done|]. split; [by intros i; unfold resolve, user_lookup; rewrite Em|].
  split; [intros ->; destruct g''; [by destruct X|done]|]. apply Remove_unknown; [done|]. unfold user_lookup in *. by rewrite Em.
Qed.

End Properties.

(** ** The table of the services *)

Definition ids_of (t : SOPC_EncodeableType) : list Z := [Struct_TypeId t; Struct_BinaryEncodingTypeId t].

Lemma has_id_spec typeId t : has_id typeId t = true <-> typeId ∈ ids_of t.
Proof. unfold has_id, ids_of. rewrite orb_true_iff, !Z.eqb_eq, !elem_of_cons, elem_of_nil. tauto. Qed.

Lemma find_unique types t typeId : NoDup (flat_map ids_of types) -> t ∈ types -> typeId ∈ ids_of t -> find (has_id typeId) types = Some t.
Proof.
  induction types as [|u types IH]; [by intros _ ?%not_elem_of_nil|]. cbn [flat_map find]. intros N Ht Hi.
  apply NoDup_app in N as (_ & Nd & N). apply elem_of_cons in Ht as [<-|Ht].
  - apply has_id_spec in Hi. by rewrite Hi.
  - destruct (has_id typeId u) eqn:Eu; [|by apply IH]. exfalso. apply has_id_spec in Eu. apply (Nd typeId Eu).
    apply list_elem_of_In, in_flat_map. exists t. by rewrite <- !list_elem_of_In.
Qed.

(** Every structure of the services is found by its identifier and by the
    identifier of its encoding, whatever the user registered. *)
Theorem known_types_found `{Allocator} g t : Registry_Inv g -> t ∈ g_KnownEncodeableTypes ->
  SOPC_EncodeableType_GetEncodeableType g (Struct_TypeId t) = Ret (Some t) /\
  SOPC_EncodeableType_GetEncodeableType g (Struct_BinaryEncodingTypeId t) = Ret (Some t).
Proof.
  intros R Ht. assert (zlen known_types <= UINT32_MAX + 1) as L by (vm_compute; discriminate).
  rewrite !Get_resolve by done. unfold resolve.
  rewrite !(find_unique g_KnownEncodeableTypes t); try done; try apply type_ids_unique; [apply list_elem_of_further|]; apply list_elem_of_here.
Qed.

(** ** Examples *)

Section Demo.
#[local] Existing Instance serving_allocator.

Definition demo_type (id enc : Z) : SOPC_EncodeableType := mkEncodeableType id enc NULL 8 [].

Definition demo_registry (e : SOPC_EncodeableType) : registry :=
  match SOPC_EncodeableType_AddUserType NULL (Some e) with Ret (_, g) => g | Fault _ => NULL end.

Lemma empty_registry_inv : Registry_Inv NULL.
Proof. by split. Qed.

Lemma registry_search_witness :
  SOPC_EncodeableType_GetEncodeableType NULL 258 = Ret (resolve NULL 258) /\
  (forall t, find (has_id 258) known_types = Some t -> resolve NULL 258 = Some t).
Proof. apply (registry_search NULL 258); [vm_compute; discriminate|apply empty_registry_inv]. Defined.

Lemma registry_add_witness :
  exists st g', SOPC_EncodeableType_AddUserType NULL (Some (demo_type 900001 900003)) = Ret (st, g') /\ Registry_Inv g'.
Proof.
  destruct (registry_add NULL (demo_type 900001 900003)) as (st & g' & E & R & _);
    [vm_compute; discriminate|apply empty_registry_inv|exact I|by split|]. exists st, g'. by split.
Defined.

Lemma registry_add_remove_witness :
  exists g'', SOPC_EncodeableType_RemoveUserType (demo_registry (demo_type 900001 900003)) (Some (demo_type 900001 900003)) =
    Ret (SOPC_STATUS_OK, g'') /\ g'' = NULL.
Proof.
  destruct (registry_add_remove NULL (demo_type 900001 900003) (demo_registry (demo_type 900001 900003))) as (g'' & E & _ & _ & N & _);
    [vm_compute; discriminate|apply empty_registry_inv|exact I|by split|vm_compute; reflexivity|]. exists g''. split; [exact E|by apply N].
Defined.

Lemma known_types_found_witness :
  SOPC_EncodeableType_GetEncodeableType NULL (Struct_TypeId OpcUa_Node_EncodeableType) = Ret (Some OpcUa_Node_EncodeableType) /\
  SOPC_EncodeableType_GetEncodeableType NULL (Struct_BinaryEncodingTypeId OpcUa_Node_EncodeableType) = Ret (Some OpcUa_Node_EncodeableType).
Proof.
  apply (known_types_found NULL OpcUa_Node_EncodeableType empty_registry_inv). refine (list_elem_of_lookup_2 _ 1 _ _). reflexivity.
Defined.

(** The registration does not look whether the identifier of the encoding is
    used.  When two types share it, the second takes it, and its removal leaves the
    first type without it. *)
Theorem shared_encoding_id_is_lost :
  let a := demo_type 900001 900003 in
  let b := demo_type 900002 900003 in
  (let* (s1, g) := SOPC_EncodeableType_AddUserType NULL (Some a) in
   let* before := SOPC_EncodeableType_GetEncodeableType g 900003 in
   let* (s2, g) := SOPC_EncodeableType_AddUserType g (Some b) in
   let* during := SOPC_EncodeableType_GetEncodeableType g 900003 in
   let* (s3, g) := SOPC_EncodeableType_RemoveUserType g (Some b) in
   let* first := SOPC_EncodeableType_GetEncodeableType g 900001 in
   let* after := SOPC_EncodeableType_GetEncodeableType g 900003 in
   Ret ([s1; s2; s3], before, during, first, after)) =
  Ret ([SOPC_STATUS_OK; SOPC_STATUS_OK; SOPC_STATUS_OK], Some a, Some b, Some a, NULL).
Proof. vm_compute. reflexivity. Qed.

End Demo.
