(* ===== verification/Services.v ===== *)
(** * The structures of the services, in extension objects

    The encodeable types of the model of the extension objects are an interface
    ([EncodeableTypes], with its laws).  Here the interface is implemented by the
    structures of [sopc_types.c] and the generic functions of [sopc_encodeabletype.c]:
    an extension object holds a structure, whose fields may hold extension objects.
    The number of levels of extension objects is a parameter of the model; in the
    program it is bounded by [max_nested_struct], since a nested structure is coded
    at a greater level. *)

From Stdlib Require Import ZArith Lia.
From Stdlib Require Import Strings.Byte.
From stdpp Require Import prelude.
From S2P Require Import Prelude Common Buffer Codec EncScalar EncString EncNodeId EncText EncArray EncExtObj EncVariant EncVariantSpec.
From S2P Require Import EncStruct EncStructSpec Types TypesSpec Dict Registry.

Open Scope Z_scope.

(** ** The index of a structure *)

Definition index_of (t : SOPC_TypeInternalIndex) : nat := Z.to_nat (type_index t).

Definition descriptor (t : SOPC_TypeInternalIndex) : SOPC_EncodeableType :=
  match SOPC_KnownEncodeableTypes (index_of t) with Some d => d | NULL => mkEncodeableType 0 0 NULL 0 [] end.

(** The structure whose descriptor the search of [Registry.v] returns. *)
Definition find_index (typeId : Z) : option SOPC_TypeInternalIndex := find (fun t => has_id typeId (descriptor t)) all_indexes.

Lemma index_known t : SOPC_KnownEncodeableTypes (index_of t) = Some (descriptor t).
Proof. destruct t; reflexivity. Qed.

Lemma all_indexes_complete t : t ∈ all_indexes.
Proof. apply (list_elem_of_lookup_2 _ (index_of t)). destruct t; reflexivity. Qed.

Lemma descriptors : map descriptor all_indexes = known_types.
Proof. reflexivity. Qed.

Lemma search_index typeId types : forall idx, idx + zlen types <= UINT32_MAX ->
  search_known (map descriptor types) idx typeId = descriptor <$> find (fun t => has_id typeId (descriptor t)) types.
Proof.
  induction types as [|t types IH]; intros idx L; [done|]. rewrite zlen_cons in L. pose proof (zlen_nonneg types). cbn [map search_known find].
  destruct (has_id typeId (descriptor t)); [done|]. replace (idx <? UINT32_MAX) with true by lia. apply IH. lia.
Qed.

(** Without a type of the user, the search of the program is [find_index]. *)
Lemma Get_index `{Allocator} typeId :
  SOPC_EncodeableType_GetEncodeableType NULL typeId = Ret (descriptor <$> find_index typeId).
Proof.
  unfold SOPC_EncodeableType_GetEncodeableType, find_index. rewrite <- descriptors, search_index by (vm_compute; discriminate).
  by destruct (find _ all_indexes).
Qed.

(** ** The interface *)

Section Interface.
Context `{Allocator} `{Host} `{EndiannessCfg} {cfg : SOPC_Common_EncodingConstants}.

(** The structures, whose fields hold extension objects of the given types. *)
Definition structures (inner : EncodeableTypes) : EncodeableTypes := {|
  EncodeableType := SOPC_TypeInternalIndex;
  Object := StructObject;
  BinaryEncodingTypeId t := Struct_BinaryEncodingTypeId (descriptor t);
  Type_NamespaceUri t := Struct_NamespaceUri (descriptor t);
  AllocationSize t := Struct_AllocationSize (descriptor t);
  Object_Initialize t := init_of (index_of t);
  Object_Clear t := struct_clear (index_of t);
  Encode t := SOPC_EncodeableObject_Encode (index_of t);
  Decode t := SOPC_EncodeableObject_Decode (index_of t);
  EncExtObj.SOPC_EncodeableType_GetEncodeableType := find_index
|}.

(** No type is known: at the last level, extension objects have no object. *)
Definition no_types : EncodeableTypes := {|
  EncodeableType := Empty_set;
  Object := Empty_set;
  BinaryEncodingTypeId t := match t with end;
  Type_NamespaceUri t := match t with end;
  AllocationSize t := match t with end;
  Object_Initialize t := match t with end;
  Object_Clear t := match t with end;
  Encode t := match t with end;
  Decode t := match t with end;
  EncExtObj.SOPC_EncodeableType_GetEncodeableType _ := NULL
|}.

Fixpoint Services (depth : nat) : EncodeableTypes :=
  match depth with
  | O => no_types
  | S depth => structures (Services depth)
  end.

Context `{!EndiannessDetected} `{!VariantLimits}.

Lemma find_index_lookup typeId t : find_index typeId = Some t -> find_index (Struct_BinaryEncodingTypeId (descriptor t)) = Some t.
Proof. intros _. destruct t; vm_compute; reflexivity. Qed.

Definition no_types_laws : @EncodeableLaws _ no_types.
Proof. unshelve eapply @Build_EncodeableLaws; cbn; try (by intros []); done. Defined.

Definition structures_laws (inner : EncodeableTypes) (laws : EncodeableLaws) : @EncodeableLaws _ (structures inner).
Proof.
  refine (@Build_EncodeableLaws _ (structures inner) (fun t => struct_contract (index_of t)) _ _ _ _ _ _).
  - intros t lvl. apply struct_honours. rewrite index_known. by eexists.
  - done.
  - intros t o. apply struct_clear_ok.
  - intros t. destruct t; vm_compute; split; congruence.
  - intros id t. apply find_index_lookup.
  - intros t s. destruct t; done.
Defined.

Fixpoint Services_laws (depth : nat) : @EncodeableLaws _ (Services depth) :=
  match depth with
  | O => no_types_laws
  | S depth => structures_laws (Services depth) (Services_laws depth)
  end.

End Interface.
