(* ===== verification/StructProps.v ===== *)
(** * Properties of the structures

    The generic functions on structures, for any table of structures that is well
    formed, and for the table of the services. *)

From Stdlib Require Import ZArith Lia.
From Stdlib Require Import Strings.Byte.
From stdpp Require Import prelude.
From S2P Require Import Prelude Common Buffer Codec EncScalar EncString EncNodeId EncText EncArray EncExtObj EncVariant EncVariantSpec.
From S2P Require Import EncProps EncStruct EncStructSpec Types TypesSpec Services.

Open Scope Z_scope.

Section Structures.
Context `{Allocator} `{Host} `{EndiannessCfg} {cfg : SOPC_Common_EncodingConstants}.
Context `{!EndiannessDetected} `{EncodeableTypes} `{!EncodeableLaws} `{!VariantLimits}.
Context `{KnownTypes} `{!TypesLaws}.

#[refine] Definition struct_codec (ty : nat) (K : is_Some (SOPC_KnownEncodeableTypes ty)) :
    Codec (SOPC_EncodeableObject_Encode ty) (SOPC_EncodeableObject_Decode ty) := {|
  wire := struct_wire ty; nests := struct_nests ty; wf := struct_wf ty; limits := struct_limits ty; canon := struct_canon ty;
  inited v := v = init_of ty; sane := struct_sane ty
|}.
Proof.
  - intros v b lvl W I S. by apply (h_write _ _ _ _ (struct_honours ty lvl K)).
  - intros v v0 b lvl rest W L -> I S U N HA. by apply (h_read _ _ _ _ (struct_honours ty lvl K) v b rest).
  - intros v0 b lvl -> I S. by apply (h_safe _ _ _ _ (struct_honours ty lvl K)).
  - intros v ->. by apply init_sane.
  - intros v lvl W L N. by apply (h_sane _ _ _ _ (struct_honours ty lvl K)).
Defined.

Lemma struct_level ty v lvl : struct_nests ty v lvl -> lvl < max_nested_struct cfg.
Proof. destruct v. simpl. lia. Qed.

(** The encoding of a structure is decoded to the structure, whatever the memory
    held: the fields that are encoded have their values, in canonical form; the
    others are initialised. *)
Theorem structure_roundtrip ty v v0 b lvl :
  is_Some (SOPC_KnownEncodeableTypes ty) -> struct_wf ty v -> struct_limits ty v -> struct_nests ty v lvl ->
  Buffer_Inv b -> small b -> position b + zlen (struct_wire ty v) <= maximum_size b -> (forall n, alloc_ok n = true) ->
  roundtrips (SOPC_EncodeableObject_Encode ty) (SOPC_EncodeableObject_Decode ty) v0 v (struct_canon ty v) b lvl.
Proof.
  intros K W L N I S F HA. destruct (@codec_roundtrip _ _ _ _ _ (struct_codec ty K) v (init_of ty) b lvl) as (b' & b'' & E1 & _ & E2 & E3); try done.
  exists b', b''. split_and!; [done|done|]. rewrite (Decode_any ty v0 (init_of ty)) by (by eapply struct_level). exact E3.
Qed.

(** C10: whatever the data, the decoder of a structure returns, reads only the data of
    the buffer, and leaves memory that can be cleared, twice; a structure that it
    accepts is well formed, within the limits, and is encoded again at the same
    level. *)
Theorem structure_decoder_total ty v0 b lvl :
  is_Some (SOPC_KnownEncodeableTypes ty) -> SOPC_EncodeableObject_Initialize ty = Ret v0 -> Buffer_Inv b -> small b ->
  exists st v k v1 v2, SOPC_EncodeableObject_Decode ty (Some v0) (Some b) lvl = Ret (st, Some v, Some (advance b k)) /\
    0 <= k <= length_ b - position b /\
    SOPC_EncodeableObject_Clear ty (Some v) = Ret (Some v1) /\ SOPC_EncodeableObject_Clear ty (Some v1) = Ret (Some v2) /\
    (st = SOPC_STATUS_OK -> struct_wf ty v /\ struct_limits ty v /\
       forall b2, Buffer_Inv b2 -> small b2 -> position b2 + zlen (struct_wire ty v) <= maximum_size b2 -> (forall n, alloc_ok n = true) ->
       roundtrips (SOPC_EncodeableObject_Encode ty) (SOPC_EncodeableObject_Decode ty) v0 v (struct_canon ty v) b2 lvl).
Proof.
  intros K E0 I S. rewrite (Initialize_ok ty K) in E0. injection E0 as <-.
  destruct (h_safe _ _ _ _ (struct_honours ty lvl K) b I S) as (st & v & k & E & Hk & Sv & G).
  destruct (struct_clears ty v Sv) as (v1 & E1 & S1). destruct (struct_clears ty v1 S1) as (v2 & E2 & _).
  exists st, v, k, v1, v2. rewrite zlen_upcoming in Hk by done. unfold SOPC_EncodeableObject_Clear, clear_ptr. rewrite E1, E2.
  split_and!; try done; try lia. intros Es. destruct (G Es) as (W & L & N). split; [done|]. split; [done|]. intros b2 I2 S2 F HA.
  destruct (@codec_roundtrip _ _ _ _ _ (struct_codec ty K) v (init_of ty) b2 lvl) as (b' & b'' & ? & _ & ? & ?); try done. by exists b', b''.
Qed.

(** The initialisation of a structure returns, whatever the structures it nests,
    and gives a structure that can be cleared. *)
Theorem structure_initialized ty :
  is_Some (SOPC_KnownEncodeableTypes ty) ->
  exists v v', SOPC_EncodeableObject_Initialize ty = Ret v /\ SOPC_EncodeableObject_Clear ty (Some v) = Ret (Some v').
Proof.
  intros K. destruct (struct_clears ty (init_of ty) (init_sane ty K)) as (v' & E & _). exists (init_of ty), v'.
  split; [by apply Initialize_ok|]. unfold SOPC_EncodeableObject_Clear, clear_ptr. by rewrite E.
Qed.

End Structures.

(** ** The table of the services *)

(** The checks on a descriptor, given the descriptor that follows it. *)
Definition desc_okb (d : SOPC_EncodeableType_FieldDescriptor) (next : option SOPC_EncodeableType_FieldDescriptor) : bool :=
  element_okb d &&
  (negb (isArrayLength d) || (length_field d && isToEncode d && match next with Some a => negb (isArrayLength a) | None => false end)).

Definition table_okb (t : SOPC_EncodeableType) : bool :=
  forallb (fun i => match Fields t !! i with Some d => desc_okb d (Fields t !! S i) | None => true end) (seq 0 (length (Fields t))) &&
  (0 <? Struct_AllocationSize t) && (Struct_AllocationSize t <? 2 ^ 16).

Lemma table_okb_ok : forallb table_okb g_KnownEncodeableTypes = true.
Proof. vm_compute. reflexivity. Qed.

(** C22: the table of the services is as the header describes it, so that no assertion
    of the generic functions fails and no index is out of a table: the type of a field
    is a known structure or a built-in type with functions; the length of an array is
    an Int32, is encoded, and is followed by the array; the identifiers of the
    structures are all different. *)
Theorem services_table_well_formed :
  NoDup (flat_map (fun t => [Struct_TypeId t; Struct_BinaryEncodingTypeId t]) g_KnownEncodeableTypes) /\
  forall t, t ∈ g_KnownEncodeableTypes ->
    0 < Struct_AllocationSize t < 2 ^ 16 /\
    forall i d, Fields t !! i = Some d ->
      (if isBuiltIn d then is_array_id (field_id d) = true else is_Some (SOPC_KnownEncodeableTypes (field_type d))) /\
      (isArrayLength d = true -> length_field d = true /\ isToEncode d = true /\
         exists a, Fields t !! S i = Some a /\ isArrayLength a = false).
Proof.
  split; [apply type_ids_unique|]. intros t Ht. pose proof table_okb_ok as A. rewrite forallb_forall in A.
  apply list_elem_of_In, A in Ht. unfold table_okb in Ht. rewrite !andb_true_iff in Ht. destruct Ht as [[Hf S1] S2]. split; [lia|].
  intros i d Ed. rewrite forallb_forall in Hf. specialize (Hf i). rewrite Ed in Hf. unfold desc_okb in Hf.
  assert (In i (seq 0 (length (Fields t)))) as Hi by (apply in_seq; apply lookup_lt_Some in Ed; lia).
  apply Hf, andb_true_iff in Hi as [He Hl]. split; [by apply element_okb_ok in He|]. intros El. rewrite El in Hl. cbn [negb orb] in Hl.
  rewrite !andb_true_iff in Hl. destruct Hl as [[? ?] Hn]. split_and!; try done.
  destruct (Fields t !! S i) as [a|]; [|done]. exists a. split; [done|]. by destruct (isArrayLength a).
Qed.

(** ** The structures of the services *)

Section Services.
Context `{Allocator} `{Host} `{EndiannessCfg} {cfg : SOPC_Common_EncodingConstants}.
Context `{!EndiannessDetected} `{!VariantLimits}.

(** The laws of the types of the extension objects, for the contracts of the fields. *)
#[local] Instance inner_laws (depth : nat) : @EncodeableLaws _ (Services depth) := Services_laws depth.

(** C9: every structure of the services, with structures nested in it by value, in
    arrays or in extension objects, on any number of levels of extension objects, is
    decoded from its encoding in canonical form; no law of the table or of the registry is
    assumed.  The structure is within the limits of the decoder, and holds no extension
    object with a byte string body, which is written and not read back
    ([bytestring_body_not_read_back]). *)
Theorem service_structure_roundtrip depth t (v v0 : @StructObject (Services depth)) b lvl :
  struct_wf (index_of t) v -> struct_limits (index_of t) v -> struct_nests (index_of t) v lvl ->
  Buffer_Inv b -> small b -> position b + zlen (struct_wire (index_of t) v) <= maximum_size b -> (forall n, alloc_ok n = true) ->
  roundtrips (SOPC_EncodeableObject_Encode (index_of t)) (SOPC_EncodeableObject_Decode (index_of t)) v0 v (struct_canon (index_of t) v) b lvl.
Proof.
  intros W L N I S F HA. assert (is_Some (SOPC_KnownEncodeableTypes (index_of t))) as K by (rewrite index_known; by eexists).
  destruct (@codec_roundtrip _ _ _ _ _ (struct_codec (index_of t) K) v (init_of (index_of t)) b lvl) as (b' & b'' & E1 & _ & E2 & E3); try done.
  exists b', b''. split_and!; [done|done|]. rewrite (Decode_any _ v0 (init_of (index_of t))) by (by eapply struct_level). exact E3.
Qed.

(** Whatever the data, the decoder of an extension object that may hold any
    structure of the services returns, reads only data of the buffer and leaves an
    extension object that can be cleared. *)
Theorem service_extension_objects_total depth b lvl :
  Buffer_Inv b -> small b ->
  exists st (e e' : @SOPC_ExtensionObject (Services depth)) k,
    SOPC_ExtensionObject_Read (Some extobj_init) (Some b) lvl = Ret (st, Some e, Some (advance b k)) /\
    0 <= k <= length_ b - position b /\ SOPC_ExtensionObject_Clear (Some e) = Ret (Some e').
Proof.
  intros I S. destruct (codec_safe (wr := SOPC_ExtensionObject_Write) (extobj_init (H := Services depth)) b lvl)
    as (st & e & k & E & Hk & [e' Se] & _); [done..|].
  exists st, e, e', k. rewrite zlen_upcoming in Hk by done. split_and!; try done; lia.
Qed.

End Services.

(** ** Examples

    A read request for one attribute. *)

Fixpoint field_list `{EncodeableTypes} (l : list FieldValue) : FieldList :=
  match l with [] => FNil | f :: l => FCons f (field_list l) end.

(** The fields of a structure, one by one. *)
Ltac fields t := rewrite index_known; change (Fields (descriptor _)) with t; unfold t, builtin, struct; cbn [fields_wf fields_limits fields_nests
  field_wf field_limits field_nests array_wf array_limits array_nests isArrayLength isToEncode isBuiltIn field_list].

Section Demo.
#[local] Existing Instance serving_allocator.
#[local] Existing Instance demo_host.
#[local] Existing Instance demo_cfg.
#[local] Existing Instance SOPC_Helper_EndiannessCfg_Initialize.
#[local] Instance demo_struct_limits : VariantLimits.
Proof. by split. Qed.
#[local] Existing Instance inner_laws.

Definition demo_services : EncodeableTypes := Services 1.
#[local] Existing Instance demo_services.
#[local] Instance demo_services_laws : EncodeableLaws := Services_laws 1.

Definition demo_read_value : StructObject :=
  mkStruct (index_of SOPC_TypeInternalIndex_ReadValueId) (field_list [
    FBuiltin (B_NodeId demo_nodeid);
    FBuiltin (B_Number SOPC_UInt32_Id 13);
    FBuiltin (B_String SOPC_String_Id string_init);
    FBuiltin (B_Qname demo_qname)]).

Definition demo_read_request : StructObject :=
  mkStruct (index_of SOPC_TypeInternalIndex_ReadRequest) (field_list [
    FBuiltin (B_Number SOPC_Double_Id 0);
    FBuiltin (B_Number SOPC_Int32_Id 1);
    length_value 1;
    FStructs (Some [demo_read_value])]).

Lemma demo_read_value_wf : struct_wf (index_of SOPC_TypeInternalIndex_ReadValueId) demo_read_value.
Proof. split; [done|]. fields ReadValueId_Fields. split_and!; try done; [apply demo_nodeid_wf|apply demo_qname_wf]. Qed.

Lemma demo_read_request_wf : struct_wf (index_of SOPC_TypeInternalIndex_ReadRequest) demo_read_request.
Proof. split; [done|]. fields ReadRequest_Fields. split_and!; try done. split; [apply demo_read_value_wf|done]. Qed.

Lemma demo_read_request_limits : struct_limits (index_of SOPC_TypeInternalIndex_ReadRequest) demo_read_request.
Proof. cbn [struct_limits demo_read_request]. fields ReadRequest_Fields. split_and!; try done. Qed.

Lemma demo_read_request_nests : struct_nests (index_of SOPC_TypeInternalIndex_ReadRequest) demo_read_request 0.
Proof. split; [done|]. fields ReadRequest_Fields. split_and!; try done. Qed.

Lemma demo_request_known : is_Some (SOPC_KnownEncodeableTypes (index_of SOPC_TypeInternalIndex_ReadRequest)).
Proof. rewrite index_known. by eexists. Qed.

Lemma demo_request_fits : position demo_room + zlen (struct_wire (index_of SOPC_TypeInternalIndex_ReadRequest) demo_read_request) <= maximum_size demo_room.
Proof. vm_compute. discriminate. Qed.

Lemma structure_roundtrip_witness :
  roundtrips (SOPC_EncodeableObject_Encode (index_of SOPC_TypeInternalIndex_ReadRequest))
    (SOPC_EncodeableObject_Decode (index_of SOPC_TypeInternalIndex_ReadRequest)) demo_read_value demo_read_request
    (struct_canon (index_of SOPC_TypeInternalIndex_ReadRequest) demo_read_request) demo_room 0.
Proof.
  apply (structure_roundtrip (index_of SOPC_TypeInternalIndex_ReadRequest) demo_read_request demo_read_value demo_room 0);
    [apply demo_request_known|apply demo_read_request_wf|apply demo_read_request_limits|apply demo_read_request_nests|demo..].
Defined.

Lemma structure_decoder_total_witness :
  exists st v k v1 v2,
    SOPC_EncodeableObject_Decode (index_of SOPC_TypeInternalIndex_ReadRequest) (Some (init_of (index_of SOPC_TypeInternalIndex_ReadRequest)))
      (Some demo_room) 0 = Ret (st, Some v, Some (advance demo_room k)) /\ 0 <= k <= 1 /\
    SOPC_EncodeableObject_Clear (index_of SOPC_TypeInternalIndex_ReadRequest) (Some v) = Ret (Some v1) /\
    SOPC_EncodeableObject_Clear (index_of SOPC_TypeInternalIndex_ReadRequest) (Some v1) = Ret (Some v2).
Proof.
  destruct (structure_decoder_total (index_of SOPC_TypeInternalIndex_ReadRequest) (init_of (index_of SOPC_TypeInternalIndex_ReadRequest)) demo_room 0)
    as (st & v & k & v1 & v2 & E & Hk & E1 & E2 & _); [apply demo_request_known|apply Initialize_ok, demo_request_known|demo..|].
  exists st, v, k, v1, v2. exact (conj E (conj Hk (conj E1 E2))).
Defined.

Lemma structure_initialized_witness :
  exists v v', SOPC_EncodeableObject_Initialize (index_of SOPC_TypeInternalIndex_ReadRequest) = Ret v /\
    SOPC_EncodeableObject_Clear (index_of SOPC_TypeInternalIndex_ReadRequest) (Some v) = Ret (Some v').
Proof. apply (structure_initialized (index_of SOPC_TypeInternalIndex_ReadRequest) demo_request_known). Defined.

Lemma service_structure_roundtrip_witness :
  roundtrips (SOPC_EncodeableObject_Encode (index_of SOPC_TypeInternalIndex_ReadRequest))
    (SOPC_EncodeableObject_Decode (index_of SOPC_TypeInternalIndex_ReadRequest)) demo_read_value demo_read_request
    (struct_canon (index_of SOPC_TypeInternalIndex_ReadRequest) demo_read_request) demo_room 0.
Proof.
  apply (service_structure_roundtrip 1 SOPC_TypeInternalIndex_ReadRequest demo_read_request demo_read_value demo_room 0);
    [apply demo_read_request_wf|apply demo_read_request_limits|apply demo_read_request_nests|demo..].
Defined.

Lemma service_extension_objects_total_witness :
  exists st (e e' : @SOPC_ExtensionObject (Services 1)) k,
    SOPC_ExtensionObject_Read (Some extobj_init) (Some demo_room) 0 = Ret (st, Some e, Some (advance demo_room k)) /\
    0 <= k <= 1 /\ SOPC_ExtensionObject_Clear (Some e) = Ret (Some e').
Proof. apply (service_extension_objects_total 1 demo_room 0); demo. Defined.

End Demo.
