(* ===== verification/Message.v ===== *)
(** * Messages of the services

    Model of the end of [src/src/Common/opcua_types/sopc_encoder.c] (a message is the
    identifier of its type, a header and a body) and of
    [src/src/Common/opcua_types/sopc_encodeable.c] (creation and deletion of the
    structures).  A type is the index of a structure of the services. *)

From Stdlib Require Import ZArith Lia.
From Stdlib Require Import Strings.Byte.
From stdpp Require Import prelude.
From S2P Require Import Prelude Common Buffer Codec EncScalar EncString EncNodeId EncText EncArray EncExtObj EncVariant EncVariantSpec.
From S2P Require Import EncProps EncStruct EncStructSpec Types TypesSpec Services StructProps.

Open Scope Z_scope.

Definition OpcUaId_ServiceFault : Z := 395.

Definition type_id (t : SOPC_TypeInternalIndex) : Z := Struct_TypeId (descriptor t).

Section Messages.
Context `{Allocator} `{Host} `{EndiannessCfg} {cfg : SOPC_Common_EncodingConstants}.
(** The number of levels of extension objects. *)
Context {depth : nat}.
#[local] Abbreviation object := (@StructObject (Services depth)).

(** *** Coding of a message *)

(** The namespace of the identifier is left at 0 also when the type has a namespace URI. *)
Definition message_id (t : SOPC_TypeInternalIndex) : SOPC_NodeId :=
  mkNodeId SOPC_IdentifierType_Numeric 0 (DataNumeric (Struct_BinaryEncodingTypeId (descriptor t))).

Definition SOPC_EncodeMsg_Type_Header_Body (buf : ptr SOPC_Buffer) (encType headerType : ptr SOPC_TypeInternalIndex)
    (msgHeader msgBody : ptr object) : enc_result :=
  match buf, encType, headerType, msgHeader with
  | Some _, Some encType, Some headerType, Some _ =>
      if is_null msgBody && negb (type_id encType =? OpcUaId_ServiceFault) then Ret (SOPC_STATUS_INVALID_PARAMETERS, buf)
      else
        let_ok buf := SOPC_NodeId_Write (Some (message_id encType)) buf 0 in
        let_ok buf := SOPC_EncodeableObject_Encode (index_of headerType) msgHeader buf 0 in
        if negb (type_id encType =? OpcUaId_ServiceFault) then SOPC_EncodeableObject_Encode (index_of encType) msgBody buf 0
        else Ret (SOPC_STATUS_OK, buf)
  | _, _, _, _ => Ret (SOPC_STATUS_INVALID_PARAMETERS, buf)
  end.

(** Returns the status, the content of [*receivedEncType] and the buffer. *)
Definition SOPC_MsgBodyType_Read (buf : ptr SOPC_Buffer) (receivedEncType : ptr SOPC_TypeInternalIndex)
    : res (SOPC_ReturnStatus * ptr SOPC_TypeInternalIndex * ptr SOPC_Buffer) :=
  match buf with
  | NULL =>
      let* _ := SOPC_NodeId_Clear (Some nodeid_init) in
      Ret (SOPC_STATUS_INVALID_PARAMETERS, receivedEncType, buf)
  | Some _ =>
      let* (status, nodeId, buf) := SOPC_NodeId_Read (Some nodeid_init) buf 0 in
      let* n := deref nodeId in
      let* (status, receivedEncType) :=
        match is_ok status, IdentifierType n with
        | true, SOPC_IdentifierType_Numeric =>
            if Namespace n =? OPCUA_NAMESPACE_INDEX then
              let* id := data_Numeric (NodeIdData_ n) in
              Ret (status, find_index id)
            else Ret (SOPC_STATUS_ENCODING_ERROR, NULL)
        | _, _ => Ret (status, receivedEncType)
        end in
      let* _ := SOPC_NodeId_Clear nodeId in
      Ret (status, receivedEncType, buf)
  end.

(** [memory] is what the allocated block holds.  Returns the status, the content of
    [*encodeableObj] and the buffer. *)
Definition SOPC_DecodeMsg_HeaderOrBody (memory : object) (buffer : ptr SOPC_Buffer) (msgEncType : ptr SOPC_TypeInternalIndex)
    (encodeableObj : ptr object) : res (SOPC_ReturnStatus * ptr object * ptr SOPC_Buffer) :=
  match buffer, msgEncType with
  | Some _, Some msgEncType =>
      if alloc_ok (Struct_AllocationSize (descriptor msgEncType)) then
        let* (status, obj, buffer) := SOPC_EncodeableObject_Decode (index_of msgEncType) (Some memory) buffer 0 in
        Ret (status, if is_ok status then obj else NULL, buffer)
      else Ret (SOPC_STATUS_NOK, NULL, buffer)
  | _, _ => Ret (SOPC_STATUS_INVALID_PARAMETERS, encodeableObj, buffer)
  end.

(** *** Creation of structures ([sopc_encodeable.c]) *)

(** The functions [Initialize] and [Clear] of a type of the services are not null. *)
Definition SOPC_Encodeable_Create (encTyp : ptr SOPC_TypeInternalIndex) (encObject : ptr object)
    : res (SOPC_ReturnStatus * ptr object) :=
  match encTyp with
  | NULL => Ret (SOPC_STATUS_INVALID_PARAMETERS, encObject)
  | Some t =>
      if (0 <? Struct_AllocationSize (descriptor t)) && is_null encObject then
        if alloc_ok (Struct_AllocationSize (descriptor t)) then
          let* o := SOPC_EncodeableObject_Initialize (index_of t) in
          Ret (SOPC_STATUS_OK, Some o)
        else Ret (SOPC_STATUS_NOK, NULL)
      else Ret (SOPC_STATUS_INVALID_PARAMETERS, encObject)
  end.

Definition SOPC_Encodeable_Delete (encTyp : ptr SOPC_TypeInternalIndex) (encObject : ptr object)
    : res (SOPC_ReturnStatus * ptr object) :=
  match encTyp, encObject with
  | Some t, Some o =>
      let* _ := SOPC_EncodeableObject_Clear (index_of t) (Some o) in
      Ret (SOPC_STATUS_OK, NULL)
  | _, _ => Ret (SOPC_STATUS_INVALID_PARAMETERS, encObject)
  end.

(** Returns the status, the object of the destination and the object of the source.
    The objects start with the type they were initialised for. *)
Definition SOPC_Encodeable_Move (destObj srcObj : ptr object) : res (SOPC_ReturnStatus * ptr object * ptr object) :=
  match destObj, srcObj with
  | Some (mkStruct dt _), Some (mkStruct t fs) =>
      if negb (dt =? t)%nat then Ret (SOPC_STATUS_INVALID_PARAMETERS, destObj, srcObj)
      else
        let* o := SOPC_EncodeableObject_Initialize t in
        Ret (SOPC_STATUS_OK, srcObj, Some o)
  | _, _ => Ret (SOPC_STATUS_INVALID_PARAMETERS, destObj, srcObj)
  end.

End Messages.

(** An extension object holds an object with one more level of extension objects. *)
Section Extensions.
Context `{Allocator} `{Host} `{EndiannessCfg} {cfg : SOPC_Common_EncodingConstants} {depth : nat}.

(** Returns the status, the extension object and the object, which is the object of
    the extension object when the status is OK. *)
Definition SOPC_Encodeable_CreateExtension (extObject : ptr (@SOPC_ExtensionObject (Services (S depth)))) (encTyp : ptr SOPC_TypeInternalIndex)
    (encObject : ptr (@StructObject (Services depth)))
    : res (SOPC_ReturnStatus * ptr (@SOPC_ExtensionObject (Services (S depth))) * ptr (@StructObject (Services depth))) :=
  match extObject with
  | NULL => Ret (SOPC_STATUS_INVALID_PARAMETERS, extObject, encObject)
  | Some e =>
      match Encoding e with
      | SOPC_ExtObjBodyEncoding_None =>
          let* (status, encObject) := SOPC_Encodeable_Create encTyp encObject in
          if is_ok status then
            let* t := deref encTyp in
            let typeId := mkExpandedNodeId (message_id t) (NamespaceUri expnodeid_init) (ServerIndex expnodeid_init) in
            Ret (status, Some (@mkExtensionObject (Services (S depth)) typeId SOPC_ExtObjBodyEncoding_Object (@BodyObject (Services (S depth)) (encObject : ptr (@Object (Services (S depth)))) (encTyp : ptr (@EncodeableType (Services (S depth))))) (Ext_Length e)), encObject)
          else
            let* (deleteStatus, encObject) := SOPC_Encodeable_Delete encTyp encObject in
            assert! is_ok deleteStatus in
            Ret (status, extObject, encObject)
      | _ => Ret (SOPC_STATUS_INVALID_PARAMETERS, extObject, encObject)
      end
  end.

End Extensions.
