(* ===== verification/MessageProps.v ===== *)
(** * Properties of the messages

    A message is read as it was written; on arbitrary bytes the functions that read a
    message return. *)

From Stdlib Require Import ZArith Lia.
From Stdlib Require Import Strings.Byte.
From stdpp Require Import prelude.
From S2P Require Import Prelude Common Buffer Codec EncScalar EncString EncNodeId EncText EncArray EncExtObj EncVariant EncVariantSpec.
From S2P Require Import EncProps EncStruct EncStructSpec Types TypesSpec Services StructProps Message.

Open Scope Z_scope.

Section Messages.
Context `{Allocator} `{Host} `{EndiannessCfg} {cfg : SOPC_Common_EncodingConstants}.
Context `{!EndiannessDetected} `{!VariantLimits} (depth : nat).

#[local] Instance inner_laws : @EncodeableLaws _ (Services depth) := Services_laws depth.
#[local] Abbreviation object := (@StructObject (Services depth)).

(** A structure of the services that can be coded in a message. *)
Record codable (t : SOPC_TypeInternalIndex) (o : object) : Prop := {
  cod_wf : struct_wf (index_of t) o;
  cod_limits : struct_limits (index_of t) o;
  cod_nests : struct_nests (index_of t) o 0
}.

Definition has_body (t : SOPC_TypeInternalIndex) : bool := negb (type_id t =? OpcUaId_ServiceFault).

(** The bytes of a message. *)
Definition message_wire (t ht : SOPC_TypeInternalIndex) (header body : object) : block :=
  nodeid_wire (message_id t) ++ struct_wire (index_of ht) header ++ (if has_body t then struct_wire (index_of t) body else []).

Lemma index_some t : is_Some (SOPC_KnownEncodeableTypes (index_of t)).
Proof. rewrite index_known. by eexists. Qed.

Lemma message_id_found t : find_index (Struct_BinaryEncodingTypeId (descriptor t)) = Some t.
Proof. destruct t; vm_compute; reflexivity. Qed.

Lemma message_id_wf t : nodeid_wf (message_id t).
Proof. split; [done|]. eexists. split; [reflexivity|]. destruct t; vm_compute; split; congruence. Qed.

Lemma encode_message t ht header body b : codable ht header -> (has_body t = true -> codable t body) -> 2 <= max_nested_struct cfg ->
  Buffer_Inv b -> small b ->
  encodes b (SOPC_EncodeMsg_Type_Header_Body (Some b) (Some t) (Some ht) (Some header) (Some body)) (message_wire t ht header body) True.
Proof.
  intros Hh Hb M I S. unfold SOPC_EncodeMsg_Type_Header_Body, message_wire. cbn [is_null andb]. fold (has_body t).
  eapply (encodes_seq _ _ _ _ _ _ _ True True); [done|done| | |reflexivity|done].
  - apply (encodes_sub SOPC_NodeId_Write); [apply message_id_wf|done|done|done|]. split; [|done]. intros _. cbn. lia.
  - intros b1 I1 S1. eapply (encodes_seq _ _ _ _ _ _ _ True True); [done|done| | |reflexivity|done].
    + eapply encodes_iff; [|apply (h_write _ _ _ _ (struct_honours (index_of ht) 0 (index_some ht)) header b1 (cod_wf _ _ Hh) I1 S1)].
      split; [done|]. intros _. apply Hh.
    + intros b2 I2 S2. destruct (has_body t); [|by apply encodes_skip].
      eapply encodes_iff; [|apply (h_write _ _ _ _ (struct_honours (index_of t) 0 (index_some t)) body b2 (cod_wf _ _ (Hb eq_refl)) I2 S2)].
      split; [done|]. intros _. by apply Hb.
Qed.

Lemma read_message_type t b rest p : 2 <= max_nested_struct cfg -> Buffer_Inv b -> small b -> upcoming b = nodeid_wire (message_id t) ++ rest ->
  (forall n, alloc_ok n = true) ->
  SOPC_MsgBodyType_Read (Some b) p = Ret (SOPC_STATUS_OK, Some t, Some (advance b (zlen (nodeid_wire (message_id t))))).
Proof.
  intros M I S U HA. unfold SOPC_MsgBodyType_Read.
  pose proof (codec_read (wr := SOPC_NodeId_Write) (message_id t) nodeid_init b 0 rest (message_id_wf t)) as R.
  rewrite R; clear R; try done. change (canon SOPC_NodeId_Write (message_id t)) with (message_id t).
  cbn [rbind deref is_ok message_id IdentifierType Namespace NodeIdData_ data_Numeric]. rewrite message_id_found. reflexivity.
Qed.

Lemma decode_object t o memory b rest p : codable t o -> Buffer_Inv b -> small b -> upcoming b = struct_wire (index_of t) o ++ rest ->
  (forall n, alloc_ok n = true) ->
  SOPC_DecodeMsg_HeaderOrBody memory (Some b) (Some t) p =
    Ret (SOPC_STATUS_OK, Some (struct_canon (index_of t) o), Some (advance b (zlen (struct_wire (index_of t) o)))).
Proof.
  intros [W L N] I S U HA. unfold SOPC_DecodeMsg_HeaderOrBody. rewrite HA.
  pose proof (h_read _ _ _ _ (struct_honours (index_of t) 0 (index_some t)) o b rest W L I S U N HA) as R.
  rewrite (Decode_any _ _ memory) in R by (by eapply struct_level). by rewrite R.
Qed.

(** C7: a message with its header and its body is read back in canonical form (null for an
    empty string or array, zero for a timestamp that is not positive): the receiver finds
    the type of the message, then the header and the body, and has read the whole message;
    a service fault has no body.  The header and the body are within the limits of the
    decoder, and hold no extension object with a byte string body, which is written and not
    read back ([bytestring_body_not_read_back]). *)
Theorem message_roundtrip t ht header body memory memory' b : codable ht header -> (has_body t = true -> codable t body) ->
  2 <= max_nested_struct cfg -> Buffer_Inv b -> small b -> position b + zlen (message_wire t ht header body) <= maximum_size b ->
  (forall n, alloc_ok n = true) ->
  exists b1 b2 b3 b4, SOPC_EncodeMsg_Type_Header_Body (Some b) (Some t) (Some ht) (Some header) (Some body) = Ret (SOPC_STATUS_OK, Some b1) /\
    SOPC_Buffer_SetPosition (Some b1) (position b) = (SOPC_STATUS_OK, Some b2) /\
    SOPC_MsgBodyType_Read (Some b2) NULL = Ret (SOPC_STATUS_OK, Some t, Some b3) /\
    SOPC_DecodeMsg_HeaderOrBody memory (Some b3) (Some ht) NULL = Ret (SOPC_STATUS_OK, Some (struct_canon (index_of ht) header), Some b4) /\
    if has_body t
    then SOPC_DecodeMsg_HeaderOrBody memory' (Some b4) (Some t) NULL = Ret (SOPC_STATUS_OK, Some (struct_canon (index_of t) body), Some b1)
    else b4 = b1.
Proof.
  intros Hh Hb M I S F HA. destruct (encode_message t ht header body b Hh Hb M I S) as (st & b1 & E & _ & HW & HF).
  assert (st = SOPC_STATUS_OK) as -> by (apply HF; [done|]; split; [done|]; right; intros n _; apply HA).
  destruct (HW eq_refl) as [Wr _]. destruct (wrote_upcoming b _ b1 I Wr) as [I2 [rest U]]. set (b2 := set_position b1 (position b)) in *.
  assert (small b2) as S2 by (unfold small in *; simpl; by rewrite (wr_maximum _ _ _ Wr)).
  unfold message_wire in U. rewrite <- !app_assoc in U.
  destruct (upcoming_advance_app b2 _ _ I2 U) as [I3 U3]. destruct (upcoming_advance_app _ _ _ I3 U3) as [I4 U4].
  eexists b1, b2, _, _. split; [exact E|]. split; [by eapply SetPosition_back|].
  split; [by eapply read_message_type|]. split; [by eapply decode_object|].
  pose proof (wr_position _ _ _ Wr) as P. unfold message_wire in P. rewrite !zlen_app in P. destruct (has_body t).
  - rewrite (decode_object t body _ _ rest) by auto. do 3 f_equal. destruct b1. unfold advance, b2, set_position in *. simpl in *. f_equal. lia.
  - destruct b1. unfold advance, b2, set_position in *. simpl in *. rewrite zlen_nil in P. f_equal. lia.
Qed.

(** Whatever the data, reading the type of a message returns and reads only data of
    the buffer.  When the status is OK, a numeric identifier of the namespace of OPC UA
    was read, and the type is the structure of the services with this identifier, or
    null; or the identifier was not numeric, and the type is left as it was. *)
Theorem message_type_total b p : Buffer_Inv b -> small b ->
  exists st p' n k, SOPC_MsgBodyType_Read (Some b) p = Ret (st, p', Some (advance b k)) /\ 0 <= k <= length_ b - position b /\
    (st = SOPC_STATUS_OK -> nodeid_wf n /\
       match nodeid_ident n with
       | Some (INumeric id) => Namespace n = 0 /\ p' = find_index id
       | _ => p' = p
       end).
Proof.
  intros I S. unfold SOPC_MsgBodyType_Read.
  destruct (codec_safe (wr := SOPC_NodeId_Write) nodeid_init b 0) as (st & n & k & -> & Hk & [n' Sn] & G); [done..|].
  cbn [rbind deref]. rewrite zlen_upcoming in Hk by done. exists (match is_ok st, IdentifierType n with true, SOPC_IdentifierType_Numeric => if Namespace n =? 0 then st else SOPC_STATUS_ENCODING_ERROR | _, _ => st end).
  destruct (is_ok st) eqn:Es; [|exists p, n, k; cbn [rbind]; rewrite Sn; split_and!; [done|lia|lia|by intros ->]].
  apply is_ok_true in Es. destruct (G Es) as (W & _ & _). pose proof W as (_ & i & Ei & _). unfold nodeid_ident in Ei |- *.
  destruct (IdentifierType n) eqn:Et; [|exists p, n, k; cbn [rbind]; rewrite Sn; (split; [done|]); (split; [lia|]); intros _; (split; [done|]); rewrite Et; repeat case_match; by simplify_eq..].
  change OPCUA_NAMESPACE_INDEX with 0. destruct (Z.eqb_spec (Namespace n) 0) as [E0|].
  - destruct (data_Numeric (NodeIdData_ n)) as [id|] eqn:Ed; [|done]. exists (find_index id), n, k. cbn [rbind]. rewrite Sn.
    split; [done|]. split; [lia|]. intros _. split; [done|]. by rewrite Et, Ed.
  - exists NULL, n, k. cbn [rbind]. rewrite Sn. by split_and!; try lia.
Qed.

End Messages.

(** ** Extension objects *)

Section Extensions.
Context `{Allocator} `{Host} `{EndiannessCfg} {cfg : SOPC_Common_EncodingConstants}.
Context `{!EndiannessDetected} `{!VariantLimits} (depth : nat).

#[local] Existing Instance inner_laws.

Lemma descriptor_size t : 0 < Struct_AllocationSize (descriptor t).
Proof. destruct t; vm_compute; reflexivity. Qed.

Lemma Create_spec t : SOPC_Encodeable_Create (depth := depth) (Some t) NULL =
  Ret (if alloc_ok (Struct_AllocationSize (descriptor t)) then (SOPC_STATUS_OK, Some (init_of (index_of t))) else (SOPC_STATUS_NOK, NULL)).
Proof.
  unfold SOPC_Encodeable_Create. pose proof (descriptor_size t). replace (0 <? _) with true by lia. cbn [is_null andb].
  destruct (alloc_ok _); [|done]. by rewrite (Initialize_ok _ (index_some t)).
Qed.

Lemma Delete_spec t o : struct_sane (index_of t) o -> SOPC_Encodeable_Delete (depth := depth) (Some t) (Some o) = Ret (SOPC_STATUS_OK, NULL).
Proof.
  intros So. unfold SOPC_Encodeable_Delete, SOPC_EncodeableObject_Clear, clear_ptr.
  destruct (struct_clears (index_of t) o So) as (o' & E & _). by rewrite E.
Qed.

(** The creation of the object of an extension object.  With memory, the object is
    initialised and the extension object that holds it can be cleared.  Without memory,
    the assertion on the deletion of the object, which was not created, fails.  An object
    that the caller already had is deleted. *)
Theorem create_extension_outcomes e t o : Encoding e = SOPC_ExtObjBodyEncoding_None -> struct_sane (index_of t) o ->
  (if alloc_ok (Struct_AllocationSize (descriptor t))
   then exists e' e'', SOPC_Encodeable_CreateExtension (depth := depth) (Some e) (Some t) NULL = Ret (SOPC_STATUS_OK, Some e', Some (init_of (index_of t))) /\
     Body e' = @BodyObject (Services (S depth)) (Some (init_of (index_of t))) (Some t) /\ SOPC_ExtensionObject_Clear (Some e') = Ret (Some e'')
   else SOPC_Encodeable_CreateExtension (depth := depth) (Some e) (Some t) NULL = Fault AssertFailed) /\
  SOPC_Encodeable_CreateExtension (depth := depth) (Some e) (Some t) (Some o) = Ret (SOPC_STATUS_INVALID_PARAMETERS, Some e, NULL).
Proof.
  intros En So. unfold SOPC_Encodeable_CreateExtension. rewrite En, Create_spec. cbn [rbind]. split.
  - destruct (alloc_ok _); cbn [is_ok rbind deref]; [|done]. destruct (struct_clears (index_of t) (init_of (H3 := Services depth) (index_of t))) as (v & E & _); [apply init_sane, index_some|].
    eexists _, _. split; [reflexivity|]. split; [reflexivity|]. cbn. rewrite E. reflexivity.
  - unfold SOPC_Encodeable_Create at 1. cbn [is_null]. rewrite andb_false_r. cbn [rbind is_ok]. by rewrite (Delete_spec t o So).
Qed.

End Extensions.

(** ** Examples

    A read request, with its header. *)

Section Demo.
#[local] Existing Instance serving_allocator.
#[local] Existing Instance demo_host.
#[local] Existing Instance demo_cfg.
#[local] Existing Instance SOPC_Helper_EndiannessCfg_Initialize.
#[local] Existing Instance demo_struct_limits.
#[local] Existing Instance inner_laws.

Definition demo_message_room : SOPC_Buffer := mkBuffer 16 16 256 2 3 (Some (replicate 16 x2a)).

Lemma demo_message_room_inv : Buffer_Inv demo_message_room.
Proof. split; simpl; try lia. eexists. split; done. Qed.

Definition demo_header : @StructObject demo_services :=
  mkStruct (index_of SOPC_TypeInternalIndex_RequestHeader) (field_list [
    FBuiltin (B_NodeId demo_nodeid);
    FBuiltin (B_Number SOPC_DateTime_Id 5);
    FBuiltin (B_Number SOPC_UInt32_Id 1);
    FBuiltin (B_Number SOPC_UInt32_Id 0);
    FBuiltin (B_String SOPC_String_Id string_init);
    FBuiltin (B_Number SOPC_UInt32_Id 1000);
    FBuiltin (B_ExtObject extobj_init)]).

Lemma nodeid_init_wf : nodeid_wf nodeid_init.
Proof. split; [done|]. by exists (INumeric 0). Qed.

Lemma demo_header_codable : codable 1 SOPC_TypeInternalIndex_RequestHeader demo_header.
Proof.
  split.
  - split; [done|]. fields RequestHeader_Fields. split_and!; try done; [apply demo_nodeid_wf|exact nodeid_init_wf].
  - cbn [struct_limits demo_header]. fields RequestHeader_Fields. split_and!; try done.
  - split; [done|]. fields RequestHeader_Fields. split_and!; try done.
Qed.

Lemma demo_body_codable : codable 1 SOPC_TypeInternalIndex_ReadRequest demo_read_request.
Proof. split; [apply demo_read_request_wf|apply demo_read_request_limits|apply demo_read_request_nests]. Qed.

Lemma message_roundtrip_witness :
  exists b1 b2 b3 b4,
    SOPC_EncodeMsg_Type_Header_Body (Some demo_message_room) (Some SOPC_TypeInternalIndex_ReadRequest) (Some SOPC_TypeInternalIndex_RequestHeader)
      (Some demo_header) (Some demo_read_request) = Ret (SOPC_STATUS_OK, Some b1) /\
    SOPC_Buffer_SetPosition (Some b1) 2 = (SOPC_STATUS_OK, Some b2) /\
    SOPC_MsgBodyType_Read (Some b2) NULL = Ret (SOPC_STATUS_OK, Some SOPC_TypeInternalIndex_ReadRequest, Some b3) /\
    SOPC_DecodeMsg_HeaderOrBody demo_header (Some b3) (Some SOPC_TypeInternalIndex_RequestHeader) NULL =
      Ret (SOPC_STATUS_OK, Some (struct_canon (index_of SOPC_TypeInternalIndex_RequestHeader) demo_header), Some b4) /\
    SOPC_DecodeMsg_HeaderOrBody demo_header (Some b4) (Some SOPC_TypeInternalIndex_ReadRequest) NULL =
      Ret (SOPC_STATUS_OK, Some (struct_canon (index_of SOPC_TypeInternalIndex_ReadRequest) demo_read_request), Some b1).
Proof.
  apply (message_roundtrip 1 SOPC_TypeInternalIndex_ReadRequest SOPC_TypeInternalIndex_RequestHeader demo_header demo_read_request
    demo_header demo_header demo_message_room demo_header_codable);
    [intros _; apply demo_body_codable|vm_compute; discriminate|apply demo_message_room_inv|done|vm_compute; discriminate|done].
Defined.

Lemma message_type_total_witness :
  exists st p' n k, SOPC_MsgBodyType_Read (Some demo_message_room) NULL = Ret (st, p', Some (advance demo_message_room k)) /\ 0 <= k <= 1 /\
    (st = SOPC_STATUS_OK -> nodeid_wf n /\
       match nodeid_ident n with Some (INumeric id) => Namespace n = 0 /\ p' = find_index id | _ => p' = NULL end).
Proof. apply (message_type_total demo_message_room NULL demo_message_room_inv). done. Defined.

Lemma create_extension_outcomes_witness :
  (exists e' e'', SOPC_Encodeable_CreateExtension (depth := 1) (Some extobj_init) (Some SOPC_TypeInternalIndex_ReadRequest) NULL =
       Ret (SOPC_STATUS_OK, Some e', Some (init_of (index_of SOPC_TypeInternalIndex_ReadRequest))) /\
     Body e' = @BodyObject (Services 2) (Some (init_of (index_of SOPC_TypeInternalIndex_ReadRequest))) (Some SOPC_TypeInternalIndex_ReadRequest) /\
     SOPC_ExtensionObject_Clear (Some e') = Ret (Some e'')) /\
  SOPC_Encodeable_CreateExtension (depth := 1) (Some extobj_init) (Some SOPC_TypeInternalIndex_ReadRequest)
    (Some (init_of (index_of SOPC_TypeInternalIndex_ReadRequest))) = Ret (SOPC_STATUS_INVALID_PARAMETERS, Some extobj_init, NULL).
Proof.
  pose proof (create_extension_outcomes 1 extobj_init SOPC_TypeInternalIndex_ReadRequest (init_of (index_of SOPC_TypeInternalIndex_ReadRequest)) eq_refl
    (init_sane _ (index_some _))) as W. exact W.
Defined.

End Demo.
