(* ===== verification/Arrays.v ===== *)
(** * Arrays of a fixed size

    The secure channels and their configurations are in arrays whose first entry is not
    used.  A free entry is searched from the last one that was given, in a loop that
    [SC_InitNewConnection] ([sopc_secure_connection_state_mgr.c]) and
    [SOPC_ToolkitServer_AddSecureChannelConfig] ([sopc_toolkit_config.c]) share. *)

From Stdlib Require Import ZArith Lia.
From stdpp Require Import prelude.
From S2P Require Import Prelude.

Open Scope Z_scope.

(** [array[i]] *)
Definition array_get {A} (array : list A) (i : Z) : res A :=
  if i <? 0 then Fault OutOfBounds
  else match array !! Z.to_nat i with Some a => Ret a | None => Fault OutOfBounds end.

(** [array[i] = a] *)
Definition array_set {A} (array : list A) (i : Z) (a : A) : res (list A) :=
  let* _ := array_get array i in
  Ret (<[Z.to_nat i := a]> array).

(** The [do ... while] loop: returns whether a free entry is found, and its index. *)
Fixpoint search_free (fuel : nat) (is_free : Z -> res bool) (max last idx : Z) : res (bool * Z) :=
  match fuel with
  | O => Fault OutOfFuel
  | S fuel =>
      let* (result, idx) := (if idx <? max then let* free := is_free (idx + 1) in Ret (free, idx + 1) else Ret (false, 0)) in
      if negb (idx =? last) && negb result then search_free fuel is_free max last idx else Ret (result, idx)
  end.

(** Each entry, and the one that is not used, is visited once. *)
Definition search_fuel (max : Z) : nat := S (Z.to_nat max).

(** ** Arrays *)

Lemma array_get_Some {A} (l : list A) i a : 0 <= i -> l !! Z.to_nat i = Some a -> array_get l i = Ret a.
Proof. intros ? E. unfold array_get. rewrite E. by replace (i <? 0) with false by lia. Qed.

Lemma array_get_ok {A} (l : list A) i : 0 <= i < Z.of_nat (length l) -> exists a, array_get l i = Ret a.
Proof.
  intros Hi. destruct (lookup_lt_is_Some_2 l (Z.to_nat i)) as [a E]; [lia|]. exists a. by apply array_get_Some; [lia|].
Qed.

Lemma array_get_inv {A} (l : list A) i a : array_get l i = Ret a -> 0 <= i < Z.of_nat (length l) /\ l !! Z.to_nat i = Some a.
Proof.
  unfold array_get. destruct (Z.ltb_spec i 0); [done|]. destruct (l !! Z.to_nat i) eqn:E; [|done]. intros [= ->].
  split; [apply lookup_lt_Some in E; lia|done].
Qed.

Lemma array_set_ok {A} (l : list A) i a : 0 <= i < Z.of_nat (length l) -> array_set l i a = Ret (<[Z.to_nat i := a]> l).
Proof. intros Hi. unfold array_set. by destruct (array_get_ok l i Hi) as [? ->]. Qed.

Lemma array_set_inv {A} (l : list A) i a l' : array_set l i a = Ret l' -> 0 <= i < Z.of_nat (length l) /\ l' = <[Z.to_nat i := a]> l.
Proof.
  unfold array_set. destruct (array_get l i) as [x|] eqn:E; [|done]. apply array_get_inv in E as [E _]. by intros [= <-].
Qed.

Lemma array_get_set {A} (l : list A) i j a : 0 <= i < Z.of_nat (length l) -> 0 <= j ->
  array_get (<[Z.to_nat i := a]> l) j = if j =? i then Ret a else array_get l j.
Proof.
  intros Hi Hj. unfold array_get. replace (j <? 0) with false by lia. destruct (Z.eqb_spec j i) as [->|N].
  - by rewrite list_lookup_insert_eq by lia.
  - by rewrite list_lookup_insert_ne by lia.
Qed.

(** ** Search *)

(** The loop ends.  It finds an entry that is free, or every entry is used and it is back
    at the entry it started from. *)
Lemma search_free_spec (is_free : Z -> res bool) (free : Z -> bool) max last :
  (forall i, 1 <= i <= max -> is_free i = Ret (free i)) -> 0 <= last <= max ->
  (exists i, 1 <= i <= max /\ free i = true /\ search_free (search_fuel max) is_free max last last = Ret (true, i)) \/
  ((forall i, 1 <= i <= max -> free i = false) /\ search_free (search_fuel max) is_free max last last = Ret (false, last)).
Proof.
  intros HF Hl. pose (dist i := if last <=? i then i - last else i - last + max + 1).
  assert (forall fuel idx, 0 <= idx <= max -> Z.of_nat fuel = max + 1 - dist idx ->
    (forall i, 1 <= i <= max -> 0 < dist i <= dist idx -> free i = false) ->
    (exists i, 1 <= i <= max /\ free i = true /\ search_free fuel is_free max last idx = Ret (true, i)) \/
    ((forall i, 1 <= i <= max -> free i = false) /\ search_free fuel is_free max last idx = Ret (false, last))) as Loop.
  { unfold dist. induction fuel as [|fuel IH]; intros idx Hi Hf HV; [destruct (Z.leb_spec last idx); lia|].
    cbn [search_free]. destruct (Z.ltb_spec idx max) as [L|L].
    - rewrite HF by lia. cbn [rbind]. destruct (free (idx + 1)) eqn:Ef.
      + left. exists (idx + 1). rewrite andb_false_r. split_and!; [lia|lia|done|done].
      + cbn [negb]. rewrite andb_true_r.
        assert (forall i, 1 <= i <= max -> 0 < dist i <= (dist idx + 1) -> free i = false) as HV'.
        { intros i I1 I2. unfold dist in I2. destruct (decide (i = idx + 1)) as [->|]; [done|]. apply HV; [done|].
          destruct (Z.leb_spec last i), (Z.leb_spec last idx); lia. }
        destruct (Z.eqb_spec (idx + 1) last) as [E|N].
        * right. split; [|cbn [negb]; by rewrite E]. intros i I. destruct (decide (i = last)) as [->|]; [by rewrite <- E|].
          apply HV'; [done|]. unfold dist. destruct (Z.leb_spec last idx), (Z.leb_spec last i); lia.
        * cbn [negb]. apply IH; [lia| |].
          -- destruct (Z.leb_spec last idx), (Z.leb_spec last (idx + 1)); lia.
          -- intros i I1 I2. apply HV'; [done|]. unfold dist. destruct (Z.leb_spec last idx), (Z.leb_spec last (idx + 1)), (Z.leb_spec last i); lia.
    - cbn [rbind negb]. rewrite andb_true_r. destruct (Z.eqb_spec 0 last) as [E|N].
      + right. split; [|by rewrite <- E]. intros i I. apply HV; [done|]. destruct (Z.leb_spec last idx), (Z.leb_spec last i); lia.
      + apply IH; [lia| |].
        * destruct (Z.leb_spec last idx), (Z.leb_spec last 0); lia.
        * intros i I1 I2. apply HV; [done|]. destruct (Z.leb_spec last idx), (Z.leb_spec last 0), (Z.leb_spec last i); lia. }
  apply Loop; [lia| |]; unfold search_fuel, dist; [|intros i]; destruct (Z.leb_spec last last); lia.
Qed.

(** An entry that is found is free. *)
Lemma search_free_inv fuel is_free max last idx i : 0 <= idx ->
  search_free fuel is_free max last idx = Ret (true, i) -> 1 <= i <= max /\ is_free i = Ret true.
Proof.
  revert idx. induction fuel as [|fuel IH]; intros idx Hi; [done|]. cbn [search_free]. destruct (Z.ltb_spec idx max) as [L|L].
  - destruct (is_free (idx + 1)) as [free|] eqn:Ef; [|done]. cbn [rbind]. destruct (_ && _) eqn:E; [apply IH; lia|].
    intros [= -> <-]. split; [lia|done].
  - cbn [rbind]. destruct (_ && _); [apply IH; lia|done].
Qed.
