(* ===== verification/SecureConnection.v ===== *)
(** * Secure connections

    The data of [src/src/ClientServer/secure_channels/sopc_secure_channels_internal_ctx.h]
    and the functions of [sopc_secure_channels_internal_ctx.c] on the contexts of the
    received chunks.  They are shared by the manager of the chunks, which cuts and builds
    messages, and by the state machine of the connections.

    The functions change the secure connection, the error status of the treatment, and
    the cells of the linked lists that the connection holds, and call other components:
    the state is passed by a monad, with the calls recorded in a trace.  The
    cryptographic functions are parameters. *)

From Stdlib Require Import ZArith Lia.
From Stdlib Require Import Strings.Byte.
From stdpp Require Import prelude gmap.
From S2P Require Import Prelude Common LinkedList Buffer.

Open Scope Z_scope.

(** ** Constants *)

Definition SOPC_GoodGenericStatus : Z := 0.
Definition OpcUa_BadOutOfMemory : Z := 0x80030000.
Definition OpcUa_BadEncodingError : Z := 0x80060000.
Definition OpcUa_BadDecodingError : Z := 0x80070000.
Definition OpcUa_BadCertificateInvalid : Z := 0x80120000.
Definition OpcUa_BadSecurityChecksFailed : Z := 0x80130000.
Definition OpcUa_BadCertificateUseNotAllowed : Z := 0x80180000.
Definition OpcUa_BadSecurityPolicyRejected : Z := 0x80550000.
Definition OpcUa_BadInvalidArgument : Z := 0x80AB0000.
Definition OpcUa_BadRequestTooLarge : Z := 0x80B80000.
Definition OpcUa_BadResponseTooLarge : Z := 0x80B90000.
Definition OpcUa_BadInvalidState : Z := 0x80AF0000.
Definition OpcUa_BadTcpMessageTypeInvalid : Z := 0x807E0000.
Definition OpcUa_BadTcpSecureChannelUnknown : Z := 0x807F0000.
Definition OpcUa_BadTcpMessageTooLarge : Z := 0x80800000.
Definition OpcUa_BadTcpInternalError : Z := 0x80820000.
Definition OpcUa_BadSecureChannelTokenUnknown : Z := 0x80870000.

Definition SOPC_TCP_UA_HEADER_LENGTH : Z := 8.

Definition SOPC_HEL : block := [x48; x45; x4c].
Definition SOPC_ACK : block := [x41; x43; x4b].
Definition SOPC_ERR : block := [x45; x52; x52].
Definition SOPC_MSG : block := [x4d; x53; x47].
Definition SOPC_OPN : block := [x4f; x50; x4e].
Definition SOPC_CLO : block := [x43; x4c; x4f].

Definition SOPC_UA_ABORT_FINAL_CHUNK : byte := x41.
Definition SOPC_UA_INTERMEDIATE_CHUNK : byte := x43.
Definition SOPC_UA_FINAL_CHUNK : byte := x46.

(** ** Data *)

Inductive SOPC_Msg_Type :=
| SOPC_MSG_TYPE_INVALID
| SOPC_MSG_TYPE_HEL
| SOPC_MSG_TYPE_ACK
| SOPC_MSG_TYPE_ERR
| SOPC_MSG_TYPE_SC_OPN
| SOPC_MSG_TYPE_SC_CLO
| SOPC_MSG_TYPE_SC_MSG.

Inductive SOPC_Msg_IsFinal :=
| SOPC_MSG_ISFINAL_INVALID
| SOPC_MSG_ISFINAL_INTERMEDIATE
| SOPC_MSG_ISFINAL_FINAL
| SOPC_MSG_ISFINAL_ABORT.

#[export] Instance Msg_Type_eq_dec : EqDecision SOPC_Msg_Type.
Proof. solve_decision. Defined.
#[export] Instance Msg_IsFinal_eq_dec : EqDecision SOPC_Msg_IsFinal.
Proof. solve_decision. Defined.

(** The events between the managers of the listeners, the connections and the chunks. *)
Inductive SOPC_SecureChannels_InternalEvent :=
| INT_EP_SC_CREATE
| INT_EP_SC_CLOSE
| INT_EP_SC_CREATED
| INT_EP_SC_DISCONNECTED
| INT_SC_RCV_HEL
| INT_SC_RCV_ACK
| INT_SC_RCV_ERR
| INT_SC_RCV_OPN
| INT_SC_RCV_CLO
| INT_SC_RCV_MSG_CHUNKS
| INT_SC_RCV_MSG_CHUNK_ABORT
| INT_SC_RCV_FAILURE
| INT_SC_SND_FATAL_FAILURE
| INT_SC_SENT_ABORT_FAILURE
| INT_SC_SND_HEL
| INT_SC_SND_ACK
| INT_SC_SND_ERR
| INT_SC_SND_OPN
| INT_SC_SND_CLO
| INT_SC_SND_MSG_CHUNKS
| INT_SC_CLOSE.

Inductive OpcUa_MessageSecurityMode :=
| OpcUa_MessageSecurityMode_Invalid
| OpcUa_MessageSecurityMode_None
| OpcUa_MessageSecurityMode_Sign
| OpcUa_MessageSecurityMode_SignAndEncrypt.

Record SOPC_SentRequestMsg_Context := mkSentRequest {
  timeoutExpired : bool;
  scConnectionIdx : Z;
  requestHandle : Z;
  msgType : SOPC_Msg_Type;
  timerId : Z
}.

#[export] Instance SentRequest_eq_dec : EqDecision SOPC_SentRequestMsg_Context.
Proof. solve_decision. Defined.

Record SOPC_SecureConnection_ChunkMgrCtx := mkChunkMgrCtx {
  currentChunkInputBuffer : ptr SOPC_Buffer;
  currentMsgSize : Z;
  currentMsgType : SOPC_Msg_Type;
  currentMsgIsFinal : SOPC_Msg_IsFinal;
  intermediateChunksInputBuffers : ptr SOPC_SLinkedList;
  hasCurrentMsgRequestId : bool;
  currentMsgRequestId : Z;
  currentMessageInputBuffer : ptr SOPC_Buffer
}.

Record SOPC_SecureConnection_TcpProperties := mkTcpProperties {
  protocolVersion : Z;
  receiveBufferSize : Z;
  sendBufferSize : Z;
  receiveMaxMessageSize : Z;
  sendMaxMessageSize : Z;
  receiveMaxChunkCount : Z;
  sendMaxChunkCount : Z
}.

Record SOPC_SecureConnection_TcpSequenceProperties := mkSequence {
  lastSNsent : Z;
  lastSNreceived : Z;
  sentRequestIds : ptr SOPC_SLinkedList
}.

Record SOPC_SecureConnection_SecurityToken := mkSecurityToken {
  secureChannelId : Z;
  tokenId : Z;
  createdAt : Z;
  lifetimeEndTimeRef : Z;
  revisedLifetime : Z
}.

Inductive SOPC_SecureConnection_State :=
| SECURE_CONNECTION_STATE_SC_CLOSED
| SECURE_CONNECTION_STATE_TCP_INIT
| SECURE_CONNECTION_STATE_TCP_NEGOTIATE
| SECURE_CONNECTION_STATE_SC_INIT
| SECURE_CONNECTION_STATE_SC_CONNECTING
| SECURE_CONNECTION_STATE_SC_CONNECTED
| SECURE_CONNECTION_STATE_SC_CONNECTED_RENEW.

#[export] Instance Connection_State_eq_dec : EqDecision SOPC_SecureConnection_State.
Proof. solve_decision. Defined.

(** The functions of the cryptographic provider and of the key manager. *)
Class Crypto := {
  CryptoProvider : Type;
  AsymmetricKey : Type;
  CertificateList : Type;
  SecurityKeySet : Type;
  SecretBuffer : Type;
  PKIProvider : Type;
  CryptoProvider_Create : ptr block -> ptr CryptoProvider;
  SymmetricGetLength_Decryption : ptr CryptoProvider -> Z -> SOPC_ReturnStatus * Z;
  SymmetricDecrypt : ptr CryptoProvider -> SecurityKeySet -> block -> Z -> SOPC_ReturnStatus * block;
  SymmetricGetLength_Signature : ptr CryptoProvider -> SOPC_ReturnStatus * Z;
  SymmetricVerify : ptr CryptoProvider -> SecurityKeySet -> block -> block -> SOPC_ReturnStatus;
  AsymmetricGetLength_Decryption : ptr CryptoProvider -> AsymmetricKey -> Z -> SOPC_ReturnStatus * Z;
  AsymmetricDecrypt : ptr CryptoProvider -> AsymmetricKey -> block -> Z -> SOPC_ReturnStatus * block;
  AsymmetricKey_CreateFromCertificate : ptr CertificateList -> SOPC_ReturnStatus * ptr AsymmetricKey;
  AsymmetricGetLength_Signature : ptr CryptoProvider -> ptr AsymmetricKey -> SOPC_ReturnStatus * Z;
  AsymmetricVerify : ptr CryptoProvider -> ptr AsymmetricKey -> block -> block -> SOPC_ReturnStatus;
  Certificate_ToDER : ptr CertificateList -> SOPC_ReturnStatus * ptr block;
  Certificate_CreateOrAddFromDER : block -> SOPC_ReturnStatus * ptr CertificateList;
  Certificate_Validate : ptr CryptoProvider -> ptr PKIProvider -> ptr CertificateList -> SOPC_ReturnStatus * ptr Z;
  CertificateGetLength_Thumbprint : ptr CryptoProvider -> SOPC_ReturnStatus * Z;
  Certificate_GetThumbprint : ptr CryptoProvider -> ptr CertificateList -> Z -> SOPC_ReturnStatus * block
}.

Section State.
Context `{Crypto}.

Record SOPC_SC_SecurityKeySets := mkKeySets {
  senderKeySet : ptr SecurityKeySet;
  receiverKeySet : ptr SecurityKeySet
}.

(** [clientCertificate_] is [clientCertificate]. *)
Record SOPC_SecureConnection_TcpAsymmSecu := mkAsymmSecu {
  securityPolicyUri : ptr block;
  validSecurityModes : Z;
  isSecureModeActive : bool;
  clientCertificate_ : ptr CertificateList
}.

Record SOPC_SecureConnection := mkSecureConnection {
  chunksCtx : SOPC_SecureConnection_ChunkMgrCtx;
  tcpSeqProperties : SOPC_SecureConnection_TcpSequenceProperties;
  asymmSecuMaxBodySize : Z;
  symmSecuMaxBodySize : Z;
  hasExtraPaddingSize : bool;
  clientSecureChannelId : Z;
  clientNextReqId : Z;
  serverAsymmSecuInfo : SOPC_SecureConnection_TcpAsymmSecu;
  state : SOPC_SecureConnection_State;
  endpointConnectionConfigIdx : Z;
  socketIndex : Z;
  connectionTimeoutTimerId : Z;
  tcpMsgProperties : SOPC_SecureConnection_TcpProperties;
  cryptoProvider : ptr CryptoProvider;
  precedentSecurityToken : SOPC_SecureConnection_SecurityToken;
  precedentSecuKeySets : SOPC_SC_SecurityKeySets;
  currentSecurityToken : SOPC_SecureConnection_SecurityToken;
  currentSecuKeySets : SOPC_SC_SecurityKeySets;
  clientNonce : ptr SecretBuffer;
  secuTokenRenewTimerId : Z;
  serverNewSecuTokenActive : bool;
  isServerConnection : bool;
  serverEndpointConfigIdx : Z;
  privateKey : ptr AsymmetricKey;
  serverCertificate : ptr CertificateList;
  clientCertificate : ptr CertificateList
}.

(** [EnqueueFailure] is an event whose parameter is a request identifier or handle. *)
Inductive effect :=
| CancelTimer (id : Z)
| StartTimer (connectionIdx requestHandle requestId : Z)
| SocketWrite (socketIndex : Z) (buffer : ptr SOPC_Buffer)
| EnqueueFailure (asNext : bool) (event : SOPC_SecureChannels_InternalEvent) (params auxParam : Z)
| EnqueueEvent (asNext : bool) (event : SOPC_SecureChannels_InternalEvent) (buffer : ptr SOPC_Buffer) (auxParam : Z).

(** The connection, the error status, the cells of the two lists of the connection, and
    the calls to the other components, the last one first. *)
Record chunk_state := mkState {
  conn : SOPC_SecureConnection;
  errorStatus : Z;
  chunk_cells : heap SOPC_Buffer;
  request_cells : heap SOPC_SentRequestMsg_Context;
  trace : list effect
}.

(** Assignments to the fields. *)

Definition set_ctx (c : SOPC_SecureConnection) (v : SOPC_SecureConnection_ChunkMgrCtx) : SOPC_SecureConnection :=
  mkSecureConnection v (tcpSeqProperties c) (asymmSecuMaxBodySize c) (symmSecuMaxBodySize c) (hasExtraPaddingSize c) (clientSecureChannelId c)
    (clientNextReqId c) (serverAsymmSecuInfo c) (state c) (endpointConnectionConfigIdx c) (socketIndex c) (connectionTimeoutTimerId c)
    (tcpMsgProperties c) (cryptoProvider c) (precedentSecurityToken c) (precedentSecuKeySets c) (currentSecurityToken c) (currentSecuKeySets c)
    (clientNonce c) (secuTokenRenewTimerId c) (serverNewSecuTokenActive c) (isServerConnection c) (serverEndpointConfigIdx c) (privateKey c)
    (serverCertificate c) (clientCertificate c).

Definition set_tcpSeqProperties (c : SOPC_SecureConnection) (v : SOPC_SecureConnection_TcpSequenceProperties) : SOPC_SecureConnection :=
  mkSecureConnection (chunksCtx c) v (asymmSecuMaxBodySize c) (symmSecuMaxBodySize c) (hasExtraPaddingSize c) (clientSecureChannelId c)
    (clientNextReqId c) (serverAsymmSecuInfo c) (state c) (endpointConnectionConfigIdx c) (socketIndex c) (connectionTimeoutTimerId c)
    (tcpMsgProperties c) (cryptoProvider c) (precedentSecurityToken c) (precedentSecuKeySets c) (currentSecurityToken c) (currentSecuKeySets c)
    (clientNonce c) (secuTokenRenewTimerId c) (serverNewSecuTokenActive c) (isServerConnection c) (serverEndpointConfigIdx c) (privateKey c)
    (serverCertificate c) (clientCertificate c).

Definition set_asymmSecuMaxBodySize (c : SOPC_SecureConnection) (v : Z) : SOPC_SecureConnection :=
  mkSecureConnection (chunksCtx c) (tcpSeqProperties c) v (symmSecuMaxBodySize c) (hasExtraPaddingSize c) (clientSecureChannelId c)
    (clientNextReqId c) (serverAsymmSecuInfo c) (state c) (endpointConnectionConfigIdx c) (socketIndex c) (connectionTimeoutTimerId c)
    (tcpMsgProperties c) (cryptoProvider c) (precedentSecurityToken c) (precedentSecuKeySets c) (currentSecurityToken c) (currentSecuKeySets c)
    (clientNonce c) (secuTokenRenewTimerId c) (serverNewSecuTokenActive c) (isServerConnection c) (serverEndpointConfigIdx c) (privateKey c)
    (serverCertificate c) (clientCertificate c).

Definition set_symmSecuMaxBodySize (c : SOPC_SecureConnection) (v : Z) : SOPC_SecureConnection :=
  mkSecureConnection (chunksCtx c) (tcpSeqProperties c) (asymmSecuMaxBodySize c) v (hasExtraPaddingSize c) (clientSecureChannelId c)
    (clientNextReqId c) (serverAsymmSecuInfo c) (state c) (endpointConnectionConfigIdx c) (socketIndex c) (connectionTimeoutTimerId c)
    (tcpMsgProperties c) (cryptoProvider c) (precedentSecurityToken c) (precedentSecuKeySets c) (currentSecurityToken c) (currentSecuKeySets c)
    (clientNonce c) (secuTokenRenewTimerId c) (serverNewSecuTokenActive c) (isServerConnection c) (serverEndpointConfigIdx c) (privateKey c)
    (serverCertificate c) (clientCertificate c).

Definition set_hasExtraPaddingSize (c : SOPC_SecureConnection) (v : bool) : SOPC_SecureConnection :=
  mkSecureConnection (chunksCtx c) (tcpSeqProperties c) (asymmSecuMaxBodySize c) (symmSecuMaxBodySize c) v (clientSecureChannelId c)
    (clientNextReqId c) (serverAsymmSecuInfo c) (state c) (endpointConnectionConfigIdx c) (socketIndex c) (connectionTimeoutTimerId c)
    (tcpMsgProperties c) (cryptoProvider c) (precedentSecurityToken c) (precedentSecuKeySets c) (currentSecurityToken c) (currentSecuKeySets c)
    (clientNonce c) (secuTokenRenewTimerId c) (serverNewSecuTokenActive c) (isServerConnection c) (serverEndpointConfigIdx c) (privateKey c)
    (serverCertificate c) (clientCertificate c).

Definition set_clientSecureChannelId (c : SOPC_SecureConnection) (v : Z) : SOPC_SecureConnection :=
  mkSecureConnection (chunksCtx c) (tcpSeqProperties c) (asymmSecuMaxBodySize c) (symmSecuMaxBodySize c) (hasExtraPaddingSize c) v
    (clientNextReqId c) (serverAsymmSecuInfo c) (state c) (endpointConnectionConfigIdx c) (socketIndex c) (connectionTimeoutTimerId c)
    (tcpMsgProperties c) (cryptoProvider c) (precedentSecurityToken c) (precedentSecuKeySets c) (currentSecurityToken c) (currentSecuKeySets c)
    (clientNonce c) (secuTokenRenewTimerId c) (serverNewSecuTokenActive c) (isServerConnection c) (serverEndpointConfigIdx c) (privateKey c)
    (serverCertificate c) (clientCertificate c).

Definition set_clientNextReqId (c : SOPC_SecureConnection) (v : Z) : SOPC_SecureConnection :=
  mkSecureConnection (chunksCtx c) (tcpSeqProperties c) (asymmSecuMaxBodySize c) (symmSecuMaxBodySize c) (hasExtraPaddingSize c)
    (clientSecureChannelId c) v (serverAsymmSecuInfo c) (state c) (endpointConnectionConfigIdx c) (socketIndex c) (connectionTimeoutTimerId c)
    (tcpMsgProperties c) (cryptoProvider c) (precedentSecurityToken c) (precedentSecuKeySets c) (currentSecurityToken c) (currentSecuKeySets c)
    (clientNonce c) (secuTokenRenewTimerId c) (serverNewSecuTokenActive c) (isServerConnection c) (serverEndpointConfigIdx c) (privateKey c)
    (serverCertificate c) (clientCertificate c).

Definition set_serverAsymmSecuInfo (c : SOPC_SecureConnection) (v : SOPC_SecureConnection_TcpAsymmSecu) : SOPC_SecureConnection :=
  mkSecureConnection (chunksCtx c) (tcpSeqProperties c) (asymmSecuMaxBodySize c) (symmSecuMaxBodySize c) (hasExtraPaddingSize c)
    (clientSecureChannelId c) (clientNextReqId c) v (state c) (endpointConnectionConfigIdx c) (socketIndex c) (connectionTimeoutTimerId c)
    (tcpMsgProperties c) (cryptoProvider c) (precedentSecurityToken c) (precedentSecuKeySets c) (currentSecurityToken c) (currentSecuKeySets c)
    (clientNonce c) (secuTokenRenewTimerId c) (serverNewSecuTokenActive c) (isServerConnection c) (serverEndpointConfigIdx c) (privateKey c)
    (serverCertificate c) (clientCertificate c).

Definition set_state (c : SOPC_SecureConnection) (v : SOPC_SecureConnection_State) : SOPC_SecureConnection :=
  mkSecureConnection (chunksCtx c) (tcpSeqProperties c) (asymmSecuMaxBodySize c) (symmSecuMaxBodySize c) (hasExtraPaddingSize c)
    (clientSecureChannelId c) (clientNextReqId c) (serverAsymmSecuInfo c) v (endpointConnectionConfigIdx c) (socketIndex c)
    (connectionTimeoutTimerId c) (tcpMsgProperties c) (cryptoProvider c) (precedentSecurityToken c) (precedentSecuKeySets c)
    (currentSecurityToken c) (currentSecuKeySets c) (clientNonce c) (secuTokenRenewTimerId c) (serverNewSecuTokenActive c) (isServerConnection c)
    (serverEndpointConfigIdx c) (privateKey c) (serverCertificate c) (clientCertificate c).

Definition set_endpointConnectionConfigIdx (c : SOPC_SecureConnection) (v : Z) : SOPC_SecureConnection :=
  mkSecureConnection (chunksCtx c) (tcpSeqProperties c) (asymmSecuMaxBodySize c) (symmSecuMaxBodySize c) (hasExtraPaddingSize c)
    (clientSecureChannelId c) (clientNextReqId c) (serverAsymmSecuInfo c) (state c) v (socketIndex c) (connectionTimeoutTimerId c)
    (tcpMsgProperties c) (cryptoProvider c) (precedentSecurityToken c) (precedentSecuKeySets c) (currentSecurityToken c) (currentSecuKeySets c)
    (clientNonce c) (secuTokenRenewTimerId c) (serverNewSecuTokenActive c) (isServerConnection c) (serverEndpointConfigIdx c) (privateKey c)
    (serverCertificate c) (clientCertificate c).

Definition set_socketIndex (c : SOPC_SecureConnection) (v : Z) : SOPC_SecureConnection :=
  mkSecureConnection (chunksCtx c) (tcpSeqProperties c) (asymmSecuMaxBodySize c) (symmSecuMaxBodySize c) (hasExtraPaddingSize c)
    (clientSecureChannelId c) (clientNextReqId c) (serverAsymmSecuInfo c) (state c) (endpointConnectionConfigIdx c) v (connectionTimeoutTimerId c)
    (tcpMsgProperties c) (cryptoProvider c) (precedentSecurityToken c) (precedentSecuKeySets c) (currentSecurityToken c) (currentSecuKeySets c)
    (clientNonce c) (secuTokenRenewTimerId c) (serverNewSecuTokenActive c) (isServerConnection c) (serverEndpointConfigIdx c) (privateKey c)
    (serverCertificate c) (clientCertificate c).

Definition set_connectionTimeoutTimerId (c : SOPC_SecureConnection) (v : Z) : SOPC_SecureConnection :=
  mkSecureConnection (chunksCtx c) (tcpSeqProperties c) (asymmSecuMaxBodySize c) (symmSecuMaxBodySize c) (hasExtraPaddingSize c)
    (clientSecureChannelId c) (clientNextReqId c) (serverAsymmSecuInfo c) (state c) (endpointConnectionConfigIdx c) (socketIndex c) v
    (tcpMsgProperties c) (cryptoProvider c) (precedentSecurityToken c) (precedentSecuKeySets c) (currentSecurityToken c) (currentSecuKeySets c)
    (clientNonce c) (secuTokenRenewTimerId c) (serverNewSecuTokenActive c) (isServerConnection c) (serverEndpointConfigIdx c) (privateKey c)
    (serverCertificate c) (clientCertificate c).

Definition set_tcpMsgProperties (c : SOPC_SecureConnection) (v : SOPC_SecureConnection_TcpProperties) : SOPC_SecureConnection :=
  mkSecureConnection (chunksCtx c) (tcpSeqProperties c) (asymmSecuMaxBodySize c) (symmSecuMaxBodySize c) (hasExtraPaddingSize c)
    (clientSecureChannelId c) (clientNextReqId c) (serverAsymmSecuInfo c) (state c) (endpointConnectionConfigIdx c) (socketIndex c)
    (connectionTimeoutTimerId c) v (cryptoProvider c) (precedentSecurityToken c) (precedentSecuKeySets c) (currentSecurityToken c)
    (currentSecuKeySets c) (clientNonce c) (secuTokenRenewTimerId c) (serverNewSecuTokenActive c) (isServerConnection c)
    (serverEndpointConfigIdx c) (privateKey c) (serverCertificate c) (clientCertificate c).

Definition set_cryptoProvider (c : SOPC_SecureConnection) (v : ptr CryptoProvider) : SOPC_SecureConnection :=
  mkSecureConnection (chunksCtx c) (tcpSeqProperties c) (asymmSecuMaxBodySize c) (symmSecuMaxBodySize c) (hasExtraPaddingSize c)
    (clientSecureChannelId c) (clientNextReqId c) (serverAsymmSecuInfo c) (state c) (endpointConnectionConfigIdx c) (socketIndex c)
    (connectionTimeoutTimerId c) (tcpMsgProperties c) v (precedentSecurityToken c) (precedentSecuKeySets c) (currentSecurityToken c)
    (currentSecuKeySets c) (clientNonce c) (secuTokenRenewTimerId c) (serverNewSecuTokenActive c) (isServerConnection c)
    (serverEndpointConfigIdx c) (privateKey c) (serverCertificate c) (clientCertificate c).

Definition set_precedentSecurityToken (c : SOPC_SecureConnection) (v : SOPC_SecureConnection_SecurityToken) : SOPC_SecureConnection :=
  mkSecureConnection (chunksCtx c) (tcpSeqProperties c) (asymmSecuMaxBodySize c) (symmSecuMaxBodySize c) (hasExtraPaddingSize c)
    (clientSecureChannelId c) (clientNextReqId c) (serverAsymmSecuInfo c) (state c) (endpointConnectionConfigIdx c) (socketIndex c)
    (connectionTimeoutTimerId c) (tcpMsgProperties c) (cryptoProvider c) v (precedentSecuKeySets c) (currentSecurityToken c)
    (currentSecuKeySets c) (clientNonce c) (secuTokenRenewTimerId c) (serverNewSecuTokenActive c) (isServerConnection c)
    (serverEndpointConfigIdx c) (privateKey c) (serverCertificate c) (clientCertificate c).

Definition set_precedentSecuKeySets (c : SOPC_SecureConnection) (v : SOPC_SC_SecurityKeySets) : SOPC_SecureConnection :=
  mkSecureConnection (chunksCtx c) (tcpSeqProperties c) (asymmSecuMaxBodySize c) (symmSecuMaxBodySize c) (hasExtraPaddingSize c)
    (clientSecureChannelId c) (clientNextReqId c) (serverAsymmSecuInfo c) (state c) (endpointConnectionConfigIdx c) (socketIndex c)
    (connectionTimeoutTimerId c) (tcpMsgProperties c) (cryptoProvider c) (precedentSecurityToken c) v (currentSecurityToken c)
    (currentSecuKeySets c) (clientNonce c) (secuTokenRenewTimerId c) (serverNewSecuTokenActive c) (isServerConnection c)
    (serverEndpointConfigIdx c) (privateKey c) (serverCertificate c) (clientCertificate c).

Definition set_currentSecurityToken (c : SOPC_SecureConnection) (v : SOPC_SecureConnection_SecurityToken) : SOPC_SecureConnection :=
  mkSecureConnection (chunksCtx c) (tcpSeqProperties c) (asymmSecuMaxBodySize c) (symmSecuMaxBodySize c) (hasExtraPaddingSize c)
    (clientSecureChannelId c) (clientNextReqId c) (serverAsymmSecuInfo c) (state c) (endpointConnectionConfigIdx c) (socketIndex c)
    (connectionTimeoutTimerId c) (tcpMsgProperties c) (cryptoProvider c) (precedentSecurityToken c) (precedentSecuKeySets c) v
    (currentSecuKeySets c) (clientNonce c) (secuTokenRenewTimerId c) (serverNewSecuTokenActive c) (isServerConnection c)
    (serverEndpointConfigIdx c) (privateKey c) (serverCertificate c) (clientCertificate c).

Definition set_currentSecuKeySets (c : SOPC_SecureConnection) (v : SOPC_SC_SecurityKeySets) : SOPC_SecureConnection :=
  mkSecureConnection (chunksCtx c) (tcpSeqProperties c) (asymmSecuMaxBodySize c) (symmSecuMaxBodySize c) (hasExtraPaddingSize c)
    (clientSecureChannelId c) (clientNextReqId c) (serverAsymmSecuInfo c) (state c) (endpointConnectionConfigIdx c) (socketIndex c)
    (connectionTimeoutTimerId c) (tcpMsgProperties c) (cryptoProvider c) (precedentSecurityToken c) (precedentSecuKeySets c)
    (currentSecurityToken c) v (clientNonce c) (secuTokenRenewTimerId c) (serverNewSecuTokenActive c) (isServerConnection c)
    (serverEndpointConfigIdx c) (privateKey c) (serverCertificate c) (clientCertificate c).

Definition set_clientNonce (c : SOPC_SecureConnection) (v : ptr SecretBuffer) : SOPC_SecureConnection :=
  mkSecureConnection (chunksCtx c) (tcpSeqProperties c) (asymmSecuMaxBodySize c) (symmSecuMaxBodySize c) (hasExtraPaddingSize c)
    (clientSecureChannelId c) (clientNextReqId c) (serverAsymmSecuInfo c) (state c) (endpointConnectionConfigIdx c) (socketIndex c)
    (connectionTimeoutTimerId c) (tcpMsgProperties c) (cryptoProvider c) (precedentSecurityToken c) (precedentSecuKeySets c)
    (currentSecurityToken c) (currentSecuKeySets c) v (secuTokenRenewTimerId c) (serverNewSecuTokenActive c) (isServerConnection c)
    (serverEndpointConfigIdx c) (privateKey c) (serverCertificate c) (clientCertificate c).

Definition set_secuTokenRenewTimerId (c : SOPC_SecureConnection) (v : Z) : SOPC_SecureConnection :=
  mkSecureConnection (chunksCtx c) (tcpSeqProperties c) (asymmSecuMaxBodySize c) (symmSecuMaxBodySize c) (hasExtraPaddingSize c)
    (clientSecureChannelId c) (clientNextReqId c) (serverAsymmSecuInfo c) (state c) (endpointConnectionConfigIdx c) (socketIndex c)
    (connectionTimeoutTimerId c) (tcpMsgProperties c) (cryptoProvider c) (precedentSecurityToken c) (precedentSecuKeySets c)
    (currentSecurityToken c) (currentSecuKeySets c) (clientNonce c) v (serverNewSecuTokenActive c) (isServerConnection c)
    (serverEndpointConfigIdx c) (privateKey c) (serverCertificate c) (clientCertificate c).

Definition set_serverNewSecuTokenActive (c : SOPC_SecureConnection) (v : bool) : SOPC_SecureConnection :=
  mkSecureConnection (chunksCtx c) (tcpSeqProperties c) (asymmSecuMaxBodySize c) (symmSecuMaxBodySize c) (hasExtraPaddingSize c)
    (clientSecureChannelId c) (clientNextReqId c) (serverAsymmSecuInfo c) (state c) (endpointConnectionConfigIdx c) (socketIndex c)
    (connectionTimeoutTimerId c) (tcpMsgProperties c) (cryptoProvider c) (precedentSecurityToken c) (precedentSecuKeySets c)
    (currentSecurityToken c) (currentSecuKeySets c) (clientNonce c) (secuTokenRenewTimerId c) v (isServerConnection c) (serverEndpointConfigIdx c)
    (privateKey c) (serverCertificate c) (clientCertificate c).

Definition set_isServerConnection (c : SOPC_SecureConnection) (v : bool) : SOPC_SecureConnection :=
  mkSecureConnection (chunksCtx c) (tcpSeqProperties c) (asymmSecuMaxBodySize c) (symmSecuMaxBodySize c) (hasExtraPaddingSize c)
    (clientSecureChannelId c) (clientNextReqId c) (serverAsymmSecuInfo c) (state c) (endpointConnectionConfigIdx c) (socketIndex c)
    (connectionTimeoutTimerId c) (tcpMsgProperties c) (cryptoProvider c) (precedentSecurityToken c) (precedentSecuKeySets c)
    (currentSecurityToken c) (currentSecuKeySets c) (clientNonce c) (secuTokenRenewTimerId c) (serverNewSecuTokenActive c) v
    (serverEndpointConfigIdx c) (privateKey c) (serverCertificate c) (clientCertificate c).

Definition set_serverEndpointConfigIdx (c : SOPC_SecureConnection) (v : Z) : SOPC_SecureConnection :=
  mkSecureConnection (chunksCtx c) (tcpSeqProperties c) (asymmSecuMaxBodySize c) (symmSecuMaxBodySize c) (hasExtraPaddingSize c)
    (clientSecureChannelId c) (clientNextReqId c) (serverAsymmSecuInfo c) (state c) (endpointConnectionConfigIdx c) (socketIndex c)
    (connectionTimeoutTimerId c) (tcpMsgProperties c) (cryptoProvider c) (precedentSecurityToken c) (precedentSecuKeySets c)
    (currentSecurityToken c) (currentSecuKeySets c) (clientNonce c) (secuTokenRenewTimerId c) (serverNewSecuTokenActive c) (isServerConnection c)
    v (privateKey c) (serverCertificate c) (clientCertificate c).

Definition set_privateKey (c : SOPC_SecureConnection) (v : ptr AsymmetricKey) : SOPC_SecureConnection :=
  mkSecureConnection (chunksCtx c) (tcpSeqProperties c) (asymmSecuMaxBodySize c) (symmSecuMaxBodySize c) (hasExtraPaddingSize c)
    (clientSecureChannelId c) (clientNextReqId c) (serverAsymmSecuInfo c) (state c) (endpointConnectionConfigIdx c) (socketIndex c)
    (connectionTimeoutTimerId c) (tcpMsgProperties c) (cryptoProvider c) (precedentSecurityToken c) (precedentSecuKeySets c)
    (currentSecurityToken c) (currentSecuKeySets c) (clientNonce c) (secuTokenRenewTimerId c) (serverNewSecuTokenActive c) (isServerConnection c)
    (serverEndpointConfigIdx c) v (serverCertificate c) (clientCertificate c).

Definition set_serverCertificate (c : SOPC_SecureConnection) (v : ptr CertificateList) : SOPC_SecureConnection :=
  mkSecureConnection (chunksCtx c) (tcpSeqProperties c) (asymmSecuMaxBodySize c) (symmSecuMaxBodySize c) (hasExtraPaddingSize c)
    (clientSecureChannelId c) (clientNextReqId c) (serverAsymmSecuInfo c) (state c) (endpointConnectionConfigIdx c) (socketIndex c)
    (connectionTimeoutTimerId c) (tcpMsgProperties c) (cryptoProvider c) (precedentSecurityToken c) (precedentSecuKeySets c)
    (currentSecurityToken c) (currentSecuKeySets c) (clientNonce c) (secuTokenRenewTimerId c) (serverNewSecuTokenActive c) (isServerConnection c)
    (serverEndpointConfigIdx c) (privateKey c) v (clientCertificate c).

Definition set_clientCertificate (c : SOPC_SecureConnection) (v : ptr CertificateList) : SOPC_SecureConnection :=
  mkSecureConnection (chunksCtx c) (tcpSeqProperties c) (asymmSecuMaxBodySize c) (symmSecuMaxBodySize c) (hasExtraPaddingSize c)
    (clientSecureChannelId c) (clientNextReqId c) (serverAsymmSecuInfo c) (state c) (endpointConnectionConfigIdx c) (socketIndex c)
    (connectionTimeoutTimerId c) (tcpMsgProperties c) (cryptoProvider c) (precedentSecurityToken c) (precedentSecuKeySets c)
    (currentSecurityToken c) (currentSecuKeySets c) (clientNonce c) (secuTokenRenewTimerId c) (serverNewSecuTokenActive c) (isServerConnection c)
    (serverEndpointConfigIdx c) (privateKey c) (serverCertificate c) v.

Definition set_sequence (c : SOPC_SecureConnection) (sn : Z) (ids : ptr SOPC_SLinkedList) : SOPC_SecureConnection :=
  set_tcpSeqProperties c (mkSequence (lastSNsent (tcpSeqProperties c)) sn ids).

Definition set_channel (c : SOPC_SecureConnection) (channel : Z) (active : bool) : SOPC_SecureConnection :=
  set_serverNewSecuTokenActive (set_clientSecureChannelId c channel) active.

(** ** State and faults *)

Definition M (A : Type) : Type := chunk_state -> res (A * chunk_state).

Definition mret {A} (a : A) : M A := fun s => Ret (a, s).
Definition mbind {A B} (m : M A) (k : A -> M B) : M B := fun s => let* (a, s) := m s in k a s.
Definition lift {A} (r : res A) : M A := fun s => let* a := r in Ret (a, s).
Definition get : M chunk_state := fun s => Ret (s, s).
Definition set_conn (c : SOPC_SecureConnection) : M unit := fun s => Ret (tt, mkState c (errorStatus s) (chunk_cells s) (request_cells s) (trace s)).
Definition set_error (e : Z) : M unit := fun s => Ret (tt, mkState (conn s) e (chunk_cells s) (request_cells s) (trace s)).
Definition set_chunk_cells (h : heap SOPC_Buffer) : M unit := fun s => Ret (tt, mkState (conn s) (errorStatus s) h (request_cells s) (trace s)).
Definition set_request_cells (h : heap SOPC_SentRequestMsg_Context) : M unit := fun s =>
  Ret (tt, mkState (conn s) (errorStatus s) (chunk_cells s) h (trace s)).
Definition emit (e : effect) : M unit := fun s => Ret (tt, mkState (conn s) (errorStatus s) (chunk_cells s) (request_cells s) (e :: trace s)).

End State.

Notation "'let!' p ':=' e 'in' k" := (mbind e (fun p => k))
  (at level 10, p pattern, e at level 200, k at level 200,
   format "'[v' 'let!'  p  ':='  e  'in' '/' k ']'") : res_scope.

(** [assert(b); k] *)
Notation "'massert!' b 'in' k" := (if (b : bool) then k else lift (Fault AssertFailed))
  (at level 10, b at level 200, k at level 200,
   format "'[v' 'massert!'  b  'in' '/' k ']'") : res_scope.

(** ** Contexts of the received chunks ([sopc_secure_channels_internal_ctx.c]) *)

Section Contexts.
Context `{Allocator} `{Crypto}.

Definition set_chunk (x : SOPC_SecureConnection_ChunkMgrCtx) (b : ptr SOPC_Buffer) : SOPC_SecureConnection_ChunkMgrCtx :=
  mkChunkMgrCtx b (currentMsgSize x) (currentMsgType x) (currentMsgIsFinal x) (intermediateChunksInputBuffers x) (hasCurrentMsgRequestId x)
    (currentMsgRequestId x) (currentMessageInputBuffer x).

Definition set_header (x : SOPC_SecureConnection_ChunkMgrCtx) (size : Z) (t : SOPC_Msg_Type) (f : SOPC_Msg_IsFinal)
    : SOPC_SecureConnection_ChunkMgrCtx :=
  mkChunkMgrCtx (currentChunkInputBuffer x) size t f (intermediateChunksInputBuffers x) (hasCurrentMsgRequestId x) (currentMsgRequestId x)
    (currentMessageInputBuffer x).

Definition set_chunks (x : SOPC_SecureConnection_ChunkMgrCtx) (l : ptr SOPC_SLinkedList) : SOPC_SecureConnection_ChunkMgrCtx :=
  mkChunkMgrCtx (currentChunkInputBuffer x) (currentMsgSize x) (currentMsgType x) (currentMsgIsFinal x) l (hasCurrentMsgRequestId x)
    (currentMsgRequestId x) (currentMessageInputBuffer x).

Definition set_request_id (x : SOPC_SecureConnection_ChunkMgrCtx) (has : bool) (id : Z) : SOPC_SecureConnection_ChunkMgrCtx :=
  mkChunkMgrCtx (currentChunkInputBuffer x) (currentMsgSize x) (currentMsgType x) (currentMsgIsFinal x) (intermediateChunksInputBuffers x) has id
    (currentMessageInputBuffer x).

Definition set_message (x : SOPC_SecureConnection_ChunkMgrCtx) (b : ptr SOPC_Buffer) : SOPC_SecureConnection_ChunkMgrCtx :=
  mkChunkMgrCtx (currentChunkInputBuffer x) (currentMsgSize x) (currentMsgType x) (currentMsgIsFinal x) (intermediateChunksInputBuffers x)
    (hasCurrentMsgRequestId x) (currentMsgRequestId x) b.

(** [chunkCtx = &scConnection->chunksCtx; *chunkCtx = f(chunkCtx)] *)
Definition update_ctx (f : SOPC_SecureConnection_ChunkMgrCtx -> SOPC_SecureConnection_ChunkMgrCtx) : M unit :=
  let! s := get in set_conn (set_ctx (conn s) (f (chunksCtx (conn s)))).

Definition get_ctx : M SOPC_SecureConnection_ChunkMgrCtx := let! s := get in mret (chunksCtx (conn s)).

Definition SOPC_ScInternalContext_GetNbIntermediateInputChunks : M Z :=
  let! x := get_ctx in
  match intermediateChunksInputBuffers x with
  | NULL => mret 0
  | Some l => lift (SOPC_SLinkedList_GetLength (Some l))
  end.

Definition SOPC_ScInternalContext_AddIntermediateInputChunk (intermediateChunk : ptr SOPC_Buffer) : M bool :=
  let! s := get in
  let x := chunksCtx (conn s) in
  let l := match intermediateChunksInputBuffers x with
           | NULL => SOPC_SLinkedList_Create (receiveMaxChunkCount (tcpMsgProperties (conn s)))
           | Some l => Some l
           end in
  let! _ := update_ctx (fun x => set_chunks x l) in
  if is_null l then mret false
  else
    let! n := lift (SOPC_SLinkedList_GetLength l) in
    let! (result, h, l) := lift (SOPC_SLinkedList_Append (chunk_cells s) l n intermediateChunk) in
    let! _ := set_chunk_cells h in
    let! _ := update_ctx (fun x => set_chunks x l) in
    mret (negb (is_null result)).

Definition SOPC_ScInternalContext_ClearIntermediateInputChunks : M unit :=
  let! s := get in
  match intermediateChunksInputBuffers (chunksCtx (conn s)) with
  | NULL => mret tt
  | Some l =>
      let! _ := lift (SOPC_SLinkedList_Apply (chunk_cells s) (Some l)) in
      let! h := lift (SOPC_SLinkedList_Delete (chunk_cells s) (Some l)) in
      let! _ := set_chunk_cells h in
      update_ctx (fun x => set_chunks x NULL)
  end.

Definition SOPC_ScInternalContext_ClearCurrentInputChunkContext : M unit :=
  update_ctx (fun x => set_header (set_chunk x NULL) 0 SOPC_MSG_TYPE_INVALID SOPC_MSG_ISFINAL_INVALID).

Definition SOPC_ScInternalContext_ClearInputChunksContext : M unit :=
  let! _ := SOPC_ScInternalContext_ClearIntermediateInputChunks in
  let! _ := SOPC_ScInternalContext_ClearCurrentInputChunkContext in
  update_ctx (fun x => set_request_id (set_message x NULL) false 0).

Definition SC_OwnCertificate (c : SOPC_SecureConnection) : ptr CertificateList :=
  if isServerConnection c then serverCertificate c else clientCertificate c.

Definition SC_PeerCertificate (c : SOPC_SecureConnection) : ptr CertificateList :=
  if isServerConnection c then clientCertificate c else serverCertificate c.

End Contexts.
