(* ===== verification/ToolkitConfig.v ===== *)
(** * Configuration of the toolkit

    Model of [src/src/ClientServer/configuration/sopc_toolkit_config.c]: the
    configurations of the secure channels of the clients, of the ones that the servers
    accepted and of the endpoints, with the structures of
    [src/src/ClientServer/api_toolkit/sopc_user_app_itf.h].

    The functions take the table [tConfig] and return it; the mutex is not modelled.  A
    configuration that a function changes is the one that the table holds. *)

From Stdlib Require Import ZArith Lia.
From Stdlib Require Import Strings.Byte Strings.String.
From stdpp Require Import prelude.
From S2P Require Import Prelude Common Buffer Codec EncScalar EncString Strings Arrays LinkedList SecureConnection.

Open Scope Z_scope.

(** ** Constants *)

Definition SOPC_MAX_ENDPOINT_DESCRIPTION_CONFIGURATIONS : Z := 10.
Definition SOPC_MAX_SECURE_CONNECTIONS : Z := 20.
Definition SOPC_MAX_SECURE_CONNECTIONS_PLUS_BUFFERED : Z := 5 * SOPC_MAX_SECURE_CONNECTIONS / 4.
Definition SOPC_MINIMUM_SECURE_CONNECTION_LIFETIME : Z := 1000.
Definition SOPC_MAX_SECU_POLICIES_CFG : Z := 5.

Definition SOPC_SECURITY_MODE_NONE_MASK : Z := 0x01.
Definition SOPC_SECURITY_MODE_SIGN_MASK : Z := 0x02.
Definition SOPC_SECURITY_MODE_SIGNANDENCRYPT_MASK : Z := 0x04.

Definition SOPC_SecurityPolicy_None_URI : block := list_byte_of_string "http://opcfoundation.org/UA/SecurityPolicy#None" ++ [x00].

Definition OpcUa_UserTokenType_Anonymous : Z := 0.

#[export] Instance SecurityMode_eq_dec : EqDecision OpcUa_MessageSecurityMode.
Proof. solve_decision. Defined.

(** ** Structures

    The fields that the secure channels and the functions below use.  The arrays with
    their number of elements are lists. *)

Record OpcUa_UserTokenPolicy := mkUserTokenPolicy {
  TokenType : Z;
  SecurityPolicyUri : SOPC_String
}.

Record SOPC_SecurityPolicy := mkSecurityPolicy {
  securityPolicy : SOPC_String;
  securityModes : Z;
  userTokenPolicies : list OpcUa_UserTokenPolicy
}.

Section Configuration.
Context `{Crypto}.

Record SOPC_SecureChannel_Config := mkChannelConfig {
  isClientSc : bool;
  url : ptr block;
  crt_cli : ptr block;
  key_priv_cli : ptr SecretBuffer;
  crt_srv : ptr block;
  pki : ptr PKIProvider;
  reqSecuPolicyUri : ptr block;
  requestedLifetime : Z;
  msgSecurityMode : OpcUa_MessageSecurityMode;
  internalProtocolData : Z
}.

(** [serverCertificate_] is [serverCertificate] and [serverPki] is [pki]. *)
Record SOPC_Server_Config := mkServerConfig {
  serverCertificate_ : ptr block;
  serverKey : ptr SecretBuffer;
  serverPki : ptr PKIProvider
}.

Record SOPC_Endpoint_Config := mkEndpointConfig {
  serverConfigPtr : ptr SOPC_Server_Config;
  endpointURL : ptr block;
  hasDiscoveryEndpoint : bool;
  secuConfigurations : list SOPC_SecurityPolicy
}.

(** The configurations that the toolkit holds, and the clock. *)
Class Toolkit := {
  SOPC_ToolkitClient_GetSecureChannelConfig : Z -> ptr SOPC_SecureChannel_Config;
  SOPC_ToolkitServer_GetSecureChannelConfig : Z -> ptr SOPC_SecureChannel_Config;
  SOPC_ToolkitServer_GetEndpointConfig : Z -> res (ptr SOPC_Endpoint_Config);
  current_time : Z
}.

(** [addressSpace_configured] is the global variable [sopc_addressSpace_configured] and
    [notification_set] whether [appAddressSpaceNotificationCallback] is set. *)
Record tConfig := mkTConfig {
  initDone : bool;
  serverConfigLocked : bool;
  scConfigs : list (ptr SOPC_SecureChannel_Config);
  serverScConfigs : list (ptr SOPC_SecureChannel_Config);
  epConfigs : list (ptr SOPC_Endpoint_Config);
  scConfigIdxMax : Z;
  serverScLastConfigIdx : Z;
  epConfigIdxMax : Z;
  addressSpace_configured : bool;
  notification_set : bool
}.

Definition set_scConfigs (t : tConfig) (l : list (ptr SOPC_SecureChannel_Config)) (n : Z) : tConfig :=
  mkTConfig (initDone t) (serverConfigLocked t) l (serverScConfigs t) (epConfigs t) n (serverScLastConfigIdx t) (epConfigIdxMax t)
    (addressSpace_configured t) (notification_set t).

Definition set_serverScConfigs (t : tConfig) (l : list (ptr SOPC_SecureChannel_Config)) (n : Z) : tConfig :=
  mkTConfig (initDone t) (serverConfigLocked t) (scConfigs t) l (epConfigs t) (scConfigIdxMax t) n (epConfigIdxMax t)
    (addressSpace_configured t) (notification_set t).

Definition set_epConfigs (t : tConfig) (l : list (ptr SOPC_Endpoint_Config)) (n : Z) : tConfig :=
  mkTConfig (initDone t) (serverConfigLocked t) (scConfigs t) (serverScConfigs t) l (scConfigIdxMax t) (serverScLastConfigIdx t) n
    (addressSpace_configured t) (notification_set t).

Definition set_flags (t : tConfig) (locked space notification : bool) : tConfig :=
  mkTConfig (initDone t) locked (scConfigs t) (serverScConfigs t) (epConfigs t) (scConfigIdxMax t) (serverScLastConfigIdx t) (epConfigIdxMax t)
    space notification.

(** The table after [SOPC_Toolkit_Initialize], whose other calls start the components. *)
Definition initialized_config : tConfig :=
  mkTConfig true false (replicate (Z.to_nat (SOPC_MAX_SECURE_CONNECTIONS_PLUS_BUFFERED + 1)) NULL)
    (replicate (Z.to_nat (SOPC_MAX_SECURE_CONNECTIONS_PLUS_BUFFERED + 1)) NULL)
    (replicate (Z.to_nat (SOPC_MAX_ENDPOINT_DESCRIPTION_CONFIGURATIONS + 1)) NULL) 0 0 0 false false.

(** ** Secure channels of the clients *)

Definition SOPC_Internal_CheckClientSecureChannelConfig (scConfig : SOPC_SecureChannel_Config) : res bool :=
  let none := bool_decide (msgSecurityMode scConfig = OpcUa_MessageSecurityMode_None) in
  let* other_policy :=
    match reqSecuPolicyUri scConfig with
    | Some uri => let* c := strcmp uri SOPC_SecurityPolicy_None_URI in Ret (negb (c =? 0))
    | NULL => Ret false
    end in
  Ret (isClientSc scConfig && negb (is_null (url scConfig)) && negb (is_null (reqSecuPolicyUri scConfig)) &&
       negb (bool_decide (msgSecurityMode scConfig = OpcUa_MessageSecurityMode_Invalid)) &&
       negb (requestedLifetime scConfig <? SOPC_MINIMUM_SECURE_CONNECTION_LIFETIME) &&
       (negb (other_policy || negb none) ||
        (negb (is_null (pki scConfig)) && negb (is_null (crt_cli scConfig) || is_null (key_priv_cli scConfig)) && negb (is_null (crt_srv scConfig))))).

(** The functions that add a configuration return its index, or 0. *)
Definition SOPC_ToolkitClient_AddSecureChannelConfig (t : tConfig) (scConfig : SOPC_SecureChannel_Config) : res (Z * tConfig) :=
  let* valid := (if initDone t then SOPC_Internal_CheckClientSecureChannelConfig scConfig else Ret false) in
  if valid && (scConfigIdxMax t <? SOPC_MAX_SECURE_CONNECTIONS_PLUS_BUFFERED) then
    let idx := scConfigIdxMax t + 1 in
    let* previous := array_get (scConfigs t) idx in
    assert! is_null previous in
    let* l := array_set (scConfigs t) idx (Some scConfig) in
    Ret (idx, set_scConfigs t l idx)
  else Ret (0, t).

Definition ToolkitClient_GetSecureChannelConfig (t : tConfig) (scConfigIdx : Z) : res (ptr SOPC_SecureChannel_Config) :=
  if (0 <? scConfigIdx) && (scConfigIdx <=? SOPC_MAX_SECURE_CONNECTIONS_PLUS_BUFFERED) && initDone t
  then array_get (scConfigs t) scConfigIdx else Ret NULL.

(** [SOPC_ToolkitClient_ClearAllSCs], after the connections are closed. *)
Definition SOPC_ToolkitClient_ClearAllSCs (t : tConfig) : tConfig :=
  if initDone t then set_scConfigs t (replicate (length (scConfigs t)) NULL) 0 else t.

(** ** Secure channels of the servers *)

Definition SOPC_ToolkitServer_AddSecureChannelConfig (t : tConfig) (scConfig : SOPC_SecureChannel_Config) : res (Z * tConfig) :=
  if initDone t then
    let* (found, lastScIdx) :=
      search_free (search_fuel SOPC_MAX_SECURE_CONNECTIONS_PLUS_BUFFERED)
        (fun i => let* c := array_get (serverScConfigs t) i in Ret (is_null c))
        SOPC_MAX_SECURE_CONNECTIONS_PLUS_BUFFERED (serverScLastConfigIdx t) (serverScLastConfigIdx t) in
    if found then
      let* l := array_set (serverScConfigs t) lastScIdx (Some scConfig) in
      Ret (SOPC_MAX_SECURE_CONNECTIONS_PLUS_BUFFERED + lastScIdx, set_serverScConfigs t l lastScIdx)
    else Ret (0, t)
  else Ret (0, t).

Definition SOPC_ToolkitServer_TranslateSecureChannelConfigIdxOffset (serverScConfigIdx : Z) : Z :=
  if (SOPC_MAX_SECURE_CONNECTIONS_PLUS_BUFFERED <? serverScConfigIdx) && (serverScConfigIdx <=? 2 * SOPC_MAX_SECURE_CONNECTIONS_PLUS_BUFFERED)
  then serverScConfigIdx - SOPC_MAX_SECURE_CONNECTIONS_PLUS_BUFFERED else 0.

Definition ToolkitServer_GetSecureChannelConfig (t : tConfig) (serverScConfigIdx : Z) : res (ptr SOPC_SecureChannel_Config) :=
  let idxWithoutOffset := SOPC_ToolkitServer_TranslateSecureChannelConfigIdxOffset serverScConfigIdx in
  if negb (idxWithoutOffset =? 0) && initDone t && serverConfigLocked t then array_get (serverScConfigs t) idxWithoutOffset else Ret NULL.

Definition SOPC_ToolkitServer_ClearScConfig_WithoutLock (t : tConfig) (serverScConfigIdxWithoutOffset : Z) : res tConfig :=
  let* scConfig := array_get (serverScConfigs t) serverScConfigIdxWithoutOffset in
  match scConfig with
  | NULL => Ret t
  | Some scConfig =>
      assert! negb (isClientSc scConfig) in
      let* l := array_set (serverScConfigs t) serverScConfigIdxWithoutOffset NULL in
      Ret (set_serverScConfigs t l (serverScLastConfigIdx t))
  end.

(** The [for] loop, from the index [i]. *)
Fixpoint clear_configs (n : nat) (i : Z) (t : tConfig) : res tConfig :=
  match n with
  | O => Ret t
  | S n => let* t := SOPC_ToolkitServer_ClearScConfig_WithoutLock t i in clear_configs n (i + 1) t
  end.

Definition SOPC_Toolkit_ClearServerScConfigs_WithoutLock (t : tConfig) : res tConfig :=
  clear_configs (Z.to_nat SOPC_MAX_SECURE_CONNECTIONS_PLUS_BUFFERED) 1 t.

Definition SOPC_ToolkitServer_RemoveSecureChannelConfig (t : tConfig) (serverScConfigIdx : Z) : res (bool * tConfig) :=
  let idxWithoutOffset := SOPC_ToolkitServer_TranslateSecureChannelConfigIdxOffset serverScConfigIdx in
  if negb (idxWithoutOffset =? 0) && initDone t && serverConfigLocked t then
    let* scConfig := array_get (serverScConfigs t) idxWithoutOffset in
    if is_null scConfig then Ret (false, t)
    else let* t := SOPC_ToolkitServer_ClearScConfig_WithoutLock t idxWithoutOffset in Ret (true, t)
  else Ret (false, t).

(** ** Endpoints *)

(** Whether one of the policies is None. *)
Fixpoint has_none_policy (l : list SOPC_SecurityPolicy) : res bool :=
  match l with
  | [] => Ret false
  | p :: l =>
      let* uri := SOPC_String_GetRawCString (Some (securityPolicy p)) in
      let* uri := deref uri in
      let* c := strcmp SOPC_SecurityPolicy_None_URI uri in
      if c =? 0 then Ret true else has_none_policy l
  end.

(** Returns the result and the configuration. *)
Definition SOPC_ToolkitServer_AddEndpointConfig_HasOrAddDiscoveryEndpoint (epConfig : SOPC_Endpoint_Config) : res (bool * SOPC_Endpoint_Config) :=
  assert! Z.of_nat (length (secuConfigurations epConfig)) <=? SOPC_MAX_SECU_POLICIES_CFG in
  let* hasNoneSecurityConfig := has_none_policy (secuConfigurations epConfig) in
  if hasNoneSecurityConfig then Ret (true, epConfig)
  else if Z.of_nat (length (secuConfigurations epConfig)) <? SOPC_MAX_SECU_POLICIES_CFG then
    let* (status, uri) := SOPC_String_AttachFromCstring (SOPC_String_Initialize (Some string_init)) (Some SOPC_SecurityPolicy_None_URI) in
    if is_ok status then
      let* uri := deref uri in
      Ret (true, mkEndpointConfig (serverConfigPtr epConfig) (endpointURL epConfig) (hasDiscoveryEndpoint epConfig)
                   (secuConfigurations epConfig ++ [mkSecurityPolicy uri SOPC_SECURITY_MODE_NONE_MASK []]))
    else Ret (false, epConfig)
  else Ret (false, epConfig).

Definition SOPC_ToolkitServer_AddEndpointConfig (t : tConfig) (epConfig : SOPC_Endpoint_Config) : res (Z * tConfig) :=
  assert! negb (is_null (serverConfigPtr epConfig)) in
  if SOPC_MAX_SECU_POLICIES_CFG <? Z.of_nat (length (secuConfigurations epConfig)) then Ret (0, t)
  else
    let* (result, epConfig) :=
      (if hasDiscoveryEndpoint epConfig then SOPC_ToolkitServer_AddEndpointConfig_HasOrAddDiscoveryEndpoint epConfig else Ret (true, epConfig)) in
    if result && initDone t && negb (serverConfigLocked t) && (epConfigIdxMax t <? SOPC_MAX_ENDPOINT_DESCRIPTION_CONFIGURATIONS) then
      let idx := epConfigIdxMax t + 1 in
      let* previous := array_get (epConfigs t) idx in
      assert! is_null previous in
      let* l := array_set (epConfigs t) idx (Some epConfig) in
      Ret (idx, set_epConfigs t l idx)
    else Ret (0, t).

Definition ToolkitServer_GetEndpointConfig (t : tConfig) (epConfigIdx : Z) : res (ptr SOPC_Endpoint_Config) :=
  if initDone t && serverConfigLocked t then array_get (epConfigs t) epConfigIdx else Ret NULL.

(** ** Checks of the configuration of the server *)

Definition none_uri : res (SOPC_ReturnStatus * ptr SOPC_String) :=
  SOPC_String_AttachFromCstring (SOPC_String_Initialize (Some string_init)) (Some SOPC_SecurityPolicy_None_URI).

Definition has_mode (p : SOPC_SecurityPolicy) (mask : Z) : bool := negb (Z.land (securityModes p) mask =? 0).

Definition SOPC_SecurityCheck_UserCredentialsEncrypted (p : SOPC_SecurityPolicy) (u : OpcUa_UserTokenPolicy) : res SOPC_ReturnStatus :=
  let* (status, securityPolicyNoneURI) := none_uri in
  if negb (is_ok status) then Ret SOPC_STATUS_NOK
  else if has_mode p SOPC_SECURITY_MODE_NONE_MASK && (Length (SecurityPolicyUri u) <=? 0) then Ret SOPC_STATUS_INVALID_PARAMETERS
  else if has_mode p (Z.lor SOPC_SECURITY_MODE_SIGN_MASK SOPC_SECURITY_MODE_NONE_MASK) then
    let* equal := SOPC_String_Equal (Some (SecurityPolicyUri u)) securityPolicyNoneURI in
    Ret (if equal then SOPC_STATUS_INVALID_PARAMETERS else SOPC_STATUS_OK)
  else Ret SOPC_STATUS_OK.

(** The loops over the user token policies, the security policies and the endpoints;
    [check] is the status of the previous checks. *)
Fixpoint check_tokens (p : SOPC_SecurityPolicy) (l : list OpcUa_UserTokenPolicy) (check : SOPC_ReturnStatus) : res SOPC_ReturnStatus :=
  match l with
  | [] => Ret check
  | u :: l =>
      let* status := (if TokenType u =? OpcUa_UserTokenType_Anonymous then Ret SOPC_STATUS_OK else SOPC_SecurityCheck_UserCredentialsEncrypted p u) in
      check_tokens p l (if is_ok status then check else status)
  end.

Fixpoint check_policies (none : ptr SOPC_String) (l : list SOPC_SecurityPolicy) (check : SOPC_ReturnStatus) : res SOPC_ReturnStatus :=
  match l with
  | [] => Ret check
  | p :: l =>
      let* check := check_tokens p (userTokenPolicies p) check in
      let* equal := SOPC_String_Equal (Some (securityPolicy p)) none in
      check_policies none l (if negb equal && has_mode p SOPC_SECURITY_MODE_NONE_MASK then SOPC_STATUS_INVALID_PARAMETERS else check)
  end.

Fixpoint check_endpoints (none : ptr SOPC_String) (n : nat) (i : Z) (t : tConfig) (check : SOPC_ReturnStatus) : res SOPC_ReturnStatus :=
  match n with
  | O => Ret check
  | S n =>
      let* ep := array_get (epConfigs t) i in
      let* ep := deref ep in
      let* check := check_policies none (secuConfigurations ep) check in
      check_endpoints none n (i + 1) t check
  end.

Definition SOPC_ToolkitServer_SecurityCheck (t : tConfig) : res SOPC_ReturnStatus :=
  let* (status, securityPolicyNoneURI) := none_uri in
  if negb (is_ok status) then Ret SOPC_STATUS_NOK
  else check_endpoints securityPolicyNoneURI (Z.to_nat (epConfigIdxMax t)) 1 t SOPC_STATUS_OK.

Definition SOPC_ToolkitServer_Configured (t : tConfig) : res (SOPC_ReturnStatus * tConfig) :=
  if initDone t && negb (serverConfigLocked t) then
    if (0 <? epConfigIdxMax t) && addressSpace_configured t then
      let t := set_flags t true (addressSpace_configured t) (notification_set t) in
      let* status := SOPC_ToolkitServer_SecurityCheck t in
      Ret (status, t)
    else Ret (SOPC_STATUS_INVALID_PARAMETERS, t)
  else Ret (SOPC_STATUS_INVALID_STATE, t).

(** The address space and the callback are not null pointers. *)
Definition SOPC_ToolkitServer_SetAddressSpaceConfig (t : tConfig) : SOPC_ReturnStatus * tConfig :=
  if initDone t && negb (serverConfigLocked t) && negb (addressSpace_configured t)
  then (SOPC_STATUS_OK, set_flags t (serverConfigLocked t) true (notification_set t)) else (SOPC_STATUS_INVALID_STATE, t).

Definition SOPC_ToolkitServer_SetAddressSpaceNotifCb (t : tConfig) : SOPC_ReturnStatus * tConfig :=
  if initDone t && negb (serverConfigLocked t) && negb (notification_set t)
  then (SOPC_STATUS_OK, set_flags t (serverConfigLocked t) (addressSpace_configured t) true) else (SOPC_STATUS_INVALID_STATE, t).

(** [SOPC_Toolkit_Clear], after the components are stopped. *)
Definition SOPC_Toolkit_Clear (t : tConfig) : res tConfig :=
  if initDone t then
    let* t := SOPC_Toolkit_ClearServerScConfigs_WithoutLock t in
    Ret (mkTConfig false false (scConfigs t) (serverScConfigs t) (epConfigs t) 0 0 0 false false)
  else Ret t.

End Configuration.
