(* ===== verification/Chunks.v ===== *)
(** * Chunks received on a secure connection

    Model of the reception part of
    [src/src/ClientServer/secure_channels/sopc_chunks_mgr.c], with the contexts of
    [sopc_secure_channels_internal_ctx.c] and [.h]: the bytes of the socket are cut into
    chunks, whose headers are checked, and the chunks of a message are merged.

    The functions change the secure connection, the error status of the treatment, and
    the cells of the linked lists that the connection holds, and enqueue events: the
    state is passed by a monad.  The cryptographic functions, the configuration of the
    channels and the clock are parameters. *)

From Stdlib Require Import ZArith Lia.
From Stdlib Require Import Strings.Byte.
From stdpp Require Import prelude gmap.
From S2P Require Import Prelude Common LinkedList Buffer Codec EncScalar EncString Strings SecureConnection ToolkitConfig.

Open Scope Z_scope.


(** ** Header of a chunk *)

Section Header.
Context `{Allocator} `{Host} `{EndiannessCfg} {cfg : SOPC_Common_EncodingConstants} `{Crypto}.

(** Returns the result, the number of missing bytes and the two buffers. *)
Definition fill_buffer (dst src : SOPC_Buffer) (n : Z) : res (bool * Z * SOPC_Buffer * SOPC_Buffer) :=
  let* r := SOPC_Buffer_Remaining (Some dst) in
  if n <=? r then Ret (true, 0, dst, src)
  else
    let missing := u32 (n - r) in
    let* (read, dst', src') := SOPC_Buffer_ReadFrom (Some dst) (Some src) missing in
    let* dst := deref dst' in
    let* src := deref src' in
    if read <? 0 then Ret (false, 0, dst, src)
    else
      let* r := SOPC_Buffer_Remaining (Some dst) in
      Ret (true, u32 (n - r), dst, src).

(** [memcmp(a, b, 3) == 0] *)
Definition same_bytes (a b : block) : bool := bool_decide ((a : list byte) = b).

Definition message_type (msgType : block) : SOPC_Msg_Type :=
  if same_bytes msgType SOPC_HEL then SOPC_MSG_TYPE_HEL
  else if same_bytes msgType SOPC_ACK then SOPC_MSG_TYPE_ACK
  else if same_bytes msgType SOPC_ERR then SOPC_MSG_TYPE_ERR
  else if same_bytes msgType SOPC_MSG then SOPC_MSG_TYPE_SC_MSG
  else if same_bytes msgType SOPC_OPN then SOPC_MSG_TYPE_SC_OPN
  else if same_bytes msgType SOPC_CLO then SOPC_MSG_TYPE_SC_CLO
  else SOPC_MSG_TYPE_INVALID.

Definition is_final (isFinal : byte) : SOPC_Msg_IsFinal :=
  if bool_decide (isFinal = SOPC_UA_INTERMEDIATE_CHUNK) then SOPC_MSG_ISFINAL_INTERMEDIATE
  else if bool_decide (isFinal = SOPC_UA_FINAL_CHUNK) then SOPC_MSG_ISFINAL_FINAL
  else if bool_decide (isFinal = SOPC_UA_ABORT_FINAL_CHUNK) then SOPC_MSG_ISFINAL_ABORT
  else SOPC_MSG_ISFINAL_INVALID.

(** Returns the result, the error status and the context. *)
Definition SC_Chunks_DecodeTcpMsgHeader (chunkCtx : SOPC_SecureConnection_ChunkMgrCtx) (error : Z)
    : res (bool * Z * SOPC_SecureConnection_ChunkMgrCtx) :=
  match currentChunkInputBuffer chunkCtx with
  | NULL => Fault AssertFailed
  | Some b =>
      assert! SOPC_TCP_UA_HEADER_LENGTH <=? u32 (length_ b - position b) in
      assert! bool_decide (currentMsgType chunkCtx = SOPC_MSG_TYPE_INVALID) in
      assert! bool_decide (currentMsgIsFinal chunkCtx = SOPC_MSG_ISFINAL_INVALID) in
      assert! currentMsgSize chunkCtx =? 0 in
      let* (status, msgType, b) := SOPC_Buffer_Read (Some [x00; x00; x00]) (Some b) 3 in
      let* msgType := deref msgType in
      let t := if is_ok status then message_type msgType else SOPC_MSG_TYPE_INVALID in
      let result := is_ok status && negb (bool_decide (t = SOPC_MSG_TYPE_INVALID)) in
      let error := if is_ok status && bool_decide (t = SOPC_MSG_TYPE_INVALID) then OpcUa_BadTcpMessageTypeInvalid else error in
      let* (result, error, f, b) :=
        (if result then
           let* (status, isFinal, b) := SOPC_Buffer_Read (Some [x00]) b 1 in
           let* isFinal := deref isFinal in
           if is_ok status then
             let f := is_final (nth 0 isFinal x00) in
             if bool_decide (f = SOPC_MSG_ISFINAL_INVALID) || (negb (bool_decide (t = SOPC_MSG_TYPE_SC_MSG)) && negb (bool_decide (f = SOPC_MSG_ISFINAL_FINAL)))
             then Ret (false, OpcUa_BadTcpMessageTypeInvalid, f, b)
             else Ret (result, error, f, b)
           else Ret (result, error, SOPC_MSG_ISFINAL_INVALID, b)
         else Ret (result, error, SOPC_MSG_ISFINAL_INVALID, b)) in
      let* (result, error, size, b) :=
        (if result then
           let* (status, size, b) := SOPC_UInt32_Read (Some 0) b 0 in
           let* size := deref size in
           let* buf := deref b in
           if negb (is_ok status) || (size <=? SOPC_TCP_UA_HEADER_LENGTH) then Ret (false, OpcUa_BadEncodingError, size, b)
           else if maximum_size buf <? size then Ret (false, OpcUa_BadTcpMessageTooLarge, size, b)
           else Ret (result, error, size, b)
         else Ret (result, error, 0, b)) in
      Ret (result, error, set_header (set_chunk chunkCtx b) size t f)
  end.

Definition SC_Chunks_MsgTypeToRcvEvent (msgType : SOPC_Msg_Type) (currentMsgIsFinal : SOPC_Msg_IsFinal) : res SOPC_SecureChannels_InternalEvent :=
  match msgType with
  | SOPC_MSG_TYPE_HEL => Ret INT_SC_RCV_HEL
  | SOPC_MSG_TYPE_ACK => Ret INT_SC_RCV_ACK
  | SOPC_MSG_TYPE_ERR => Ret INT_SC_RCV_ERR
  | SOPC_MSG_TYPE_SC_OPN => Ret INT_SC_RCV_OPN
  | SOPC_MSG_TYPE_SC_CLO => Ret INT_SC_RCV_CLO
  | SOPC_MSG_TYPE_SC_MSG =>
      if bool_decide (currentMsgIsFinal = SOPC_MSG_ISFINAL_ABORT) then Ret INT_SC_RCV_MSG_CHUNK_ABORT else Ret INT_SC_RCV_MSG_CHUNKS
  | SOPC_MSG_TYPE_INVALID => Fault AssertFailed
  end.

(** Returns the result, the error status, the context and the received buffer. *)
Definition SC_Chunks_DecodeReceivedBuffer (ctx : SOPC_SecureConnection_ChunkMgrCtx) (receivedBuffer : SOPC_Buffer)
    : res (bool * Z * SOPC_SecureConnection_ChunkMgrCtx * SOPC_Buffer) :=
  let error := SOPC_GoodGenericStatus in
  let* (go_on, error, ctx, receivedBuffer) :=
    (if currentMsgSize ctx =? 0 then
       let* chunk := deref (currentChunkInputBuffer ctx) in
       let* (ok, remaining, chunk, receivedBuffer) := fill_buffer chunk receivedBuffer SOPC_TCP_UA_HEADER_LENGTH in
       let ctx := set_chunk ctx (Some chunk) in
       if negb ok then Ret (false, OpcUa_BadTcpInternalError, ctx, receivedBuffer)
       else if 0 <? remaining then Ret (false, error, ctx, receivedBuffer)
       else
         let* (ok, error, ctx) := SC_Chunks_DecodeTcpMsgHeader ctx error in
         Ret (ok, error, ctx, receivedBuffer)
     else Ret (true, error, ctx, receivedBuffer)) in
  if negb go_on then Ret (false, error, ctx, receivedBuffer)
  else
    assert! 0 <? currentMsgSize ctx in
    assert! negb (bool_decide (currentMsgType ctx = SOPC_MSG_TYPE_INVALID)) in
    assert! negb (bool_decide (currentMsgIsFinal ctx = SOPC_MSG_ISFINAL_INVALID)) in
    let* chunk := deref (currentChunkInputBuffer ctx) in
    let* (ok, remaining, chunk, receivedBuffer) :=
      fill_buffer chunk receivedBuffer (u32 (currentMsgSize ctx - SOPC_TCP_UA_HEADER_LENGTH)) in
    let ctx := set_chunk ctx (Some chunk) in
    if negb ok then Ret (false, OpcUa_BadTcpInternalError, ctx, receivedBuffer)
    else Ret (remaining =? 0, error, ctx, receivedBuffer).

End Header.

(** ** Checks of the headers of a chunk *)

Section Checks.
Context `{Allocator} `{Host} `{EndiannessCfg} {cfg : SOPC_Common_EncodingConstants} `{Crypto} `{!Toolkit}.

Definition SOPC_Toolkit_GetSecureChannelConfig (scConnection : SOPC_SecureConnection) : ptr SOPC_SecureChannel_Config :=
  if isServerConnection scConnection
  then SOPC_ToolkitServer_GetSecureChannelConfig (endpointConnectionConfigIdx scConnection)
  else SOPC_ToolkitClient_GetSecureChannelConfig (endpointConnectionConfigIdx scConnection).

Definition SC_Chunks_IsMsgEncrypted (securityMode : OpcUa_MessageSecurityMode) (isOPN : bool) : res bool :=
  match securityMode with
  | OpcUa_MessageSecurityMode_Invalid => Fault AssertFailed
  | OpcUa_MessageSecurityMode_None => Ret false
  | OpcUa_MessageSecurityMode_Sign => Ret isOPN
  | OpcUa_MessageSecurityMode_SignAndEncrypt => Ret true
  end.

Definition SC_Chunks_IsMsgSigned (securityMode : OpcUa_MessageSecurityMode) : bool :=
  match securityMode with OpcUa_MessageSecurityMode_None => false | _ => true end.

Definition SC_Chunks_IsSecuTokenValid (isServerConnection : bool) (secuToken : SOPC_SecureConnection_SecurityToken) : bool :=
  if current_time <=? lifetimeEndTimeRef secuToken then true
  else if negb isServerConnection then current_time - lifetimeEndTimeRef secuToken <=? revisedLifetime secuToken / 4
  else false.

(** Read an unsigned integer of 4 bytes in the current chunk. *)
Definition read_chunk_UInt32 : M (SOPC_ReturnStatus * Z) :=
  let! x := get_ctx in
  let! (status, v, b) := lift (SOPC_UInt32_Read (Some 0) (currentChunkInputBuffer x) 0) in
  let! v := lift (deref v) in
  let! _ := update_ctx (fun x => set_chunk x b) in
  mret (status, v).

(** The two sides differ in the activation of the new token.  Returns the result and
    [isPrevCryptoData]. *)
Definition SC_Chunks_CheckSymmetricSecurityHeader : M (bool * bool) :=
  let! x := get_ctx in
  massert! negb (is_null (currentChunkInputBuffer x)) in
  let! (status, token) := read_chunk_UInt32 in
  let! s := get in
  let c := conn s in
  if negb (is_ok status) then
    let! _ := set_error OpcUa_BadTcpInternalError in mret (false, false)
  else if tokenId (currentSecurityToken c) =? token then
    let! _ := (if isServerConnection c && negb (serverNewSecuTokenActive c)
               then set_conn (set_channel c (clientSecureChannelId c) true) else mret tt) in
    if SC_Chunks_IsSecuTokenValid (isServerConnection c) (currentSecurityToken c) then mret (true, false)
    else let! _ := set_error OpcUa_BadSecureChannelTokenUnknown in mret (false, false)
  else if (tokenId (precedentSecurityToken c) =? token) && negb (secureChannelId (precedentSecurityToken c) =? 0)
          && negb (tokenId (precedentSecurityToken c) =? 0) then
    if SC_Chunks_IsSecuTokenValid (isServerConnection c) (precedentSecurityToken c) then mret (true, true)
    else let! _ := set_error OpcUa_BadSecureChannelTokenUnknown in mret (false, true)
  else let! _ := set_error OpcUa_BadSecureChannelTokenUnknown in mret (false, false).

(** *** The asymmetric security header *)

Definition read_chunk_ByteString : M (SOPC_ReturnStatus * SOPC_ByteString) :=
  let! x := get_ctx in
  let! (status, v, b) := lift (SOPC_ByteString_Read (SOPC_ByteString_Initialize (Some string_init)) (currentChunkInputBuffer x) 0) in
  let! v := lift (deref v) in
  let! _ := update_ctx (fun x => set_chunk x b) in
  mret (status, v).

(** The certificate that the peer shall use, as a ByteString. *)
Definition certificate_bytes (certificate : ptr CertificateList) : SOPC_ReturnStatus * SOPC_ByteString :=
  let '(status, data) := Certificate_ToDER certificate in
  let tmpLength := zlen (default [] data) in
  (status, mkString (if is_ok status && (0 <? tmpLength) then swrap 32 tmpLength else -1) false data).

(** What the header is checked against: the certificate of the application, the PKI,
    [enforceSecuMode], and the expected certificate of the peer with its status. *)
Definition expected_certificates (c : SOPC_SecureConnection) (epConfig : ptr SOPC_Endpoint_Config) (scConfig : ptr SOPC_SecureChannel_Config)
    : res (ptr CertificateList * ptr PKIProvider * bool * SOPC_ReturnStatus * SOPC_ByteString) :=
  if negb (isServerConnection c) then
    match scConfig with
    | NULL => Fault AssertFailed
    | Some sc =>
        let '(status, other) := if negb (is_null (crt_srv sc)) then certificate_bytes (serverCertificate c) else (SOPC_STATUS_OK, string_init) in
        Ret (clientCertificate c, pki sc, true, status, other)
    end
  else
    match epConfig with
    | NULL => Fault AssertFailed
    | Some ep =>
        let '(status, other) :=
          match scConfig with
          | Some sc => if negb (is_null (crt_cli sc)) then certificate_bytes (clientCertificate c) else (SOPC_STATUS_OK, string_init)
          | NULL => (SOPC_STATUS_OK, string_init)
          end in
        let* server := deref (serverConfigPtr ep) in
        Ret (serverCertificate c, serverPki server, negb (is_null scConfig), status, other)
    end.

(** The certificate is compared with the expected one, then decoded and validated.
    Returns the status and the certificate to record. *)
Definition validate_sender_certificate (c : SOPC_SecureConnection) (compare : bool) (pkiProvider : ptr PKIProvider)
    (otherBsAppCert senderCertificate : SOPC_ByteString) : M (SOPC_ReturnStatus * ptr CertificateList) :=
  let! status :=
    (if compare then
       let! (status, otherAppCertComparison) := lift (SOPC_ByteString_Compare (Some otherBsAppCert) (Some senderCertificate) (Some 0)) in
       let! comparison := lift (deref otherAppCertComparison) in
       if negb (is_ok status) || negb (comparison =? 0) then
         let! _ := set_error OpcUa_BadCertificateInvalid in mret SOPC_STATUS_NOK
       else mret status
     else mret SOPC_STATUS_OK) in
  if negb (is_ok status) then mret (status, NULL)
  else
    let! data := lift (deref (Data senderCertificate)) in
    let! der := lift (mem_read data 0 (Length senderCertificate)) in
    let '(status, cert) := Certificate_CreateOrAddFromDER der in
    let! status :=
      (if is_ok status then
         let '(status, error) := Certificate_Validate (cryptoProvider c) pkiProvider cert in
         let! _ := match error with Some e => set_error e | NULL => mret tt end in
         mret status
       else mret status) in
    let! _ := (if negb (is_ok status) then set_error OpcUa_BadTcpInternalError else mret tt) in
    mret (status, if negb (isServerConnection c) || negb (is_ok status) then NULL else cert).

(** Returns the status, [senderCertificatePresence] and [clientSenderCertificate]. *)
Definition check_sender_certificate (c : SOPC_SecureConnection) (hasConfig enforceSecuMode toSign : bool) (pkiProvider : ptr PKIProvider)
    (status : SOPC_ReturnStatus) (otherBsAppCert : SOPC_ByteString) : M (SOPC_ReturnStatus * bool * ptr CertificateList) :=
  let! (status, senderCertificate) := (if is_ok status then read_chunk_ByteString else mret (status, string_init)) in
  if is_ok status then
    if negb toSign && (0 <? Length senderCertificate) then
      let! _ := set_error OpcUa_BadCertificateUseNotAllowed in mret (SOPC_STATUS_NOK, true, NULL)
    else if toSign && (0 <? Length senderCertificate) then
      let! (status, cert) := validate_sender_certificate c hasConfig pkiProvider otherBsAppCert senderCertificate in
      mret (status, true, cert)
    else if negb enforceSecuMode || negb toSign then mret (status, false, NULL)
    else let! _ := set_error OpcUa_BadCertificateInvalid in mret (SOPC_STATUS_NOK, false, NULL)
  else let! _ := set_error OpcUa_BadTcpInternalError in mret (status, false, NULL).

(** The thumbprint is compared with the thumbprint of the certificate of the
    application. *)
Definition check_thumbprint (c : SOPC_SecureConnection) (runningAppCert : ptr CertificateList) (receiverCertThumb : SOPC_ByteString) : M SOPC_ReturnStatus :=
  let '(status, thumbprintLength) := CertificateGetLength_Thumbprint (cryptoProvider c) in
  if negb (is_ok status) then let! _ := set_error OpcUa_BadTcpInternalError in mret status
  else if INT32_MAX <? thumbprintLength then let! _ := set_error OpcUa_BadCertificateInvalid in mret SOPC_STATUS_NOK
  else if negb (swrap 32 thumbprintLength =? Length receiverCertThumb) then let! _ := set_error OpcUa_BadCertificateInvalid in mret SOPC_STATUS_NOK
  else
    let! (status, current) := lift (SOPC_ByteString_InitializeFixedSize (SOPC_ByteString_Initialize (Some string_init)) thumbprintLength) in
    if negb (is_ok status) then let! _ := set_error OpcUa_BadTcpInternalError in mret status
    else
      let! current := lift (deref current) in
      let '(status, thumbprint) := Certificate_GetThumbprint (cryptoProvider c) runningAppCert thumbprintLength in
      if negb (is_ok status) then let! _ := set_error OpcUa_BadTcpInternalError in mret status
      else
        let! d := lift (deref (Data current)) in
        let! d := lift (mem_write d 0 thumbprint) in
        let! (status, comparison) := lift (SOPC_ByteString_Compare (Some (set_Data current (Some d))) (Some receiverCertThumb) (Some 0)) in
        let! comparison := lift (deref comparison) in
        if negb (is_ok status) || negb (comparison =? 0) then
          let! _ := set_error OpcUa_BadCertificateInvalid in mret SOPC_STATUS_NOK
        else mret status.

(** Returns the status and [receiverCertificatePresence].  The presence of a thumbprint
    that is not expected sets the error status, and the function goes on. *)
Definition check_receiver_thumbprint (c : SOPC_SecureConnection) (enforceSecuMode toEncrypt : bool) (runningAppCert : ptr CertificateList)
    : M (SOPC_ReturnStatus * bool) :=
  let! (status, receiverCertThumb) := read_chunk_ByteString in
  if is_ok status then
    if negb toEncrypt && (0 <? Length receiverCertThumb) then
      let! _ := set_error OpcUa_BadCertificateUseNotAllowed in mret (status, true)
    else if toEncrypt && (0 <? Length receiverCertThumb) then
      let! status := check_thumbprint c runningAppCert receiverCertThumb in
      mret (status, true)
    else if negb enforceSecuMode || negb toEncrypt then mret (status, false)
    else let! _ := set_error OpcUa_BadCertificateInvalid in mret (SOPC_STATUS_NOK, false)
  else let! _ := set_error OpcUa_BadTcpInternalError in mret (status, false).

(** Returns the result, [senderCertificatePresence], [clientSenderCertificate] and
    [receiverCertificatePresence]. *)
Definition SC_Chunks_DecodeAsymSecurityHeader_Certificates (epConfig : ptr SOPC_Endpoint_Config) (scConfig : ptr SOPC_SecureChannel_Config)
    : M (bool * bool * ptr CertificateList * bool) :=
  let! s := get in
  let c := conn s in
  massert! negb (is_null (cryptoProvider c)) in
  massert! negb (is_null (currentChunkInputBuffer (chunksCtx c))) in
  let! (runningAppCert, pkiProvider, enforceSecuMode, status, otherBsAppCert) := lift (expected_certificates c epConfig scConfig) in
  let! (toEncrypt, toSign) :=
    match scConfig with
    | Some sc =>
        let! e := lift (SC_Chunks_IsMsgEncrypted (msgSecurityMode sc) true) in
        mret (e, SC_Chunks_IsMsgSigned (msgSecurityMode sc))
    | NULL => mret (true, true)
    end in
  let! (status, senderPresence, clientSenderCertificate) :=
    check_sender_certificate c (negb (is_null scConfig)) enforceSecuMode toSign pkiProvider status otherBsAppCert in
  let! (status, receiverPresence) :=
    (if is_ok status then check_receiver_thumbprint c enforceSecuMode toEncrypt runningAppCert else mret (status, false)) in
  mret (is_ok status, senderPresence, clientSenderCertificate, receiverPresence).

(** The secure channel is established. *)
Definition is_connected (c : SOPC_SecureConnection) : bool :=
  bool_decide (state c = SECURE_CONNECTION_STATE_SC_CONNECTED) || bool_decide (state c = SECURE_CONNECTION_STATE_SC_CONNECTED_RENEW).

(** The configurations of the channel and of the endpoint.  Returns the result,
    [clientConfig] and [serverConfig]. *)
Definition get_configurations (c : SOPC_SecureConnection) : M (bool * ptr SOPC_SecureChannel_Config * ptr SOPC_Endpoint_Config) :=
  if negb (isServerConnection c) then
    let clientConfig := SOPC_ToolkitClient_GetSecureChannelConfig (endpointConnectionConfigIdx c) in
    if is_null clientConfig then let! _ := set_error OpcUa_BadInvalidState in mret (false, clientConfig, NULL)
    else mret (true, clientConfig, NULL)
  else
    let! serverConfig := lift (SOPC_ToolkitServer_GetEndpointConfig (serverEndpointConfigIdx c)) in
    let! result := (if is_null serverConfig then let! _ := set_error OpcUa_BadInvalidState in mret false else mret true) in
    if is_connected c then
      let clientConfig := SOPC_ToolkitServer_GetSecureChannelConfig (endpointConnectionConfigIdx c) in
      if is_null clientConfig then let! _ := set_error OpcUa_BadInvalidState in mret (false, clientConfig, serverConfig)
      else mret (result, clientConfig, serverConfig)
    else mret (result, NULL, serverConfig).

Definition read_chunk_policy : M (SOPC_ReturnStatus * SOPC_String) :=
  let! x := get_ctx in
  let! (status, v, b) := lift (SOPC_String_ReadWithLimitedLength 255 (SOPC_String_Initialize (Some string_init)) (currentChunkInputBuffer x) 0) in
  let! v := lift (deref v) in
  let! _ := update_ctx (fun x => set_chunk x b) in
  mret (status, v).

(** The [for] loop over the policies of the endpoint.  Returns [isCompliantPolicy],
    [validSecuPolicy] and [validSecuModes]. *)
Fixpoint compliant_policies (policy : SOPC_String) (policies : list SOPC_SecurityPolicy) (compliant : bool) (valid : ptr block) (modes : Z)
    : res (bool * ptr block * Z) :=
  match policies with
  | [] => Ret (compliant, valid, modes)
  | p :: policies =>
      let* (status, compareRes) := SOPC_String_Compare (Some policy) (Some (securityPolicy p)) true (Some (-1)) in
      let* compareRes := deref compareRes in
      if is_ok status && (compareRes =? 0) then
        let* valid := SOPC_String_GetRawCString (Some (securityPolicy p)) in
        compliant_policies policy policies true valid (Z.lor modes (securityModes p))
      else compliant_policies policy policies compliant valid modes
  end.

(** Returns [isCompliantPolicy], [validSecuPolicy] and [validSecuModes]. *)
Definition check_policy (c : SOPC_SecureConnection) (clientConfig : ptr SOPC_SecureChannel_Config) (serverConfig : ptr SOPC_Endpoint_Config)
    (policy : SOPC_String) : M (bool * ptr block * Z) :=
  match clientConfig with
  | Some cc =>
      let! (status, tmpStr) := lift (SOPC_String_CopyFromCString (SOPC_String_Initialize (Some string_init)) (reqSecuPolicyUri cc)) in
      let! (status, compareRes) :=
        (if is_ok status then lift (SOPC_String_Compare tmpStr (Some policy) true (Some (-1))) else mret (status, Some (-1))) in
      if negb (is_ok status) then let! _ := set_error OpcUa_BadDecodingError in mret (false, NULL, 0)
      else
        let! compareRes := lift (deref compareRes) in
        mret (compareRes =? 0, reqSecuPolicyUri cc, 0)
  | NULL =>
      massert! isServerConnection c in
      let! sc := lift (deref serverConfig) in
      lift (compliant_policies policy (secuConfigurations sc) false NULL 0)
  end.

(** The presence of the certificates tells the security mode, which shall be the one of
    the configuration.  Returns the result and [isSecureModeActive]. *)
Definition check_secure_mode (clientConfig : ptr SOPC_SecureChannel_Config) (senderPresence receiverPresence : bool) : M (bool * bool) :=
  if negb (Bool.eqb senderPresence receiverPresence) then
    let! _ := set_error OpcUa_BadCertificateInvalid in mret (false, true)
  else
    let active := senderPresence in
    match clientConfig with
    | NULL => mret (true, active)
    | Some cc =>
        let ok := match msgSecurityMode cc with
                  | OpcUa_MessageSecurityMode_None => negb active
                  | OpcUa_MessageSecurityMode_Sign | OpcUa_MessageSecurityMode_SignAndEncrypt => active
                  | OpcUa_MessageSecurityMode_Invalid => false
                  end in
        if ok then mret (true, active) else let! _ := set_error OpcUa_BadSecurityChecksFailed in mret (false, active)
    end.

(** The policy is read and compared, the provider is created when there is none, and the
    certificates are checked.  Returns the result, [isSecureModeActive], [validSecuPolicy],
    [validSecuModes] and [clientCertificate]. *)
Definition check_asymmetric_fields (clientConfig : ptr SOPC_SecureChannel_Config) (serverConfig : ptr SOPC_Endpoint_Config)
    : M (bool * bool * ptr block * Z * ptr CertificateList) :=
  let! (status, policy) := read_chunk_policy in
  if negb (is_ok status) then let! _ := set_error OpcUa_BadDecodingError in mret (false, true, NULL, 0, NULL)
  else
    let! s := get in
    let! (compliant, validSecuPolicy, validSecuModes) := check_policy (conn s) clientConfig serverConfig policy in
    if negb compliant then let! _ := set_error OpcUa_BadSecurityPolicyRejected in mret (false, true, validSecuPolicy, validSecuModes, NULL)
    else
      let! created :=
        (if is_null (cryptoProvider (conn s)) then
           let provider := CryptoProvider_Create validSecuPolicy in
           let! _ := set_conn (set_cryptoProvider (conn s) provider) in
           if is_null provider then let! _ := set_error OpcUa_BadSecurityPolicyRejected in mret false else mret true
         else mret true) in
      if negb created then mret (false, true, validSecuPolicy, validSecuModes, NULL)
      else
        let! (result, senderPresence, clientCertificate, receiverPresence) := SC_Chunks_DecodeAsymSecurityHeader_Certificates serverConfig clientConfig in
        if negb result then mret (false, true, validSecuPolicy, validSecuModes, clientCertificate)
        else
          let! (result, active) := check_secure_mode clientConfig senderPresence receiverPresence in
          mret (result, active, validSecuPolicy, validSecuModes, clientCertificate).

(** Returns the result and [isSecurityActive]. *)
Definition SC_Chunks_CheckAsymmetricSecurityHeader : M (bool * bool) :=
  let! s := get in
  massert! negb (is_null (currentChunkInputBuffer (chunksCtx (conn s)))) in
  let! (result, clientConfig, serverConfig) := get_configurations (conn s) in
  let! (result, active, validSecuPolicy, validSecuModes, clientCertificate) :=
    (if result then check_asymmetric_fields clientConfig serverConfig else mret (false, true, NULL, 0, NULL)) in
  let! s := get in
  let c := conn s in
  let! _ :=
    (if result && is_null clientConfig && isServerConnection c
     then set_conn (set_serverAsymmSecuInfo c (mkAsymmSecu validSecuPolicy validSecuModes active clientCertificate))
     else mret tt) in
  let! _ := (if negb result && negb (is_connected c) then set_error OpcUa_BadSecurityChecksFailed else mret tt) in
  mret (result, active).

(** *** The sequence header *)

(** Returns the result and the last number received. *)
Definition check_sequence_number (isOPN : bool) (lastSN seqNumber : Z) : bool * Z :=
  if isOPN then (true, seqNumber)
  else if negb (u32 (lastSN + 1) =? seqNumber) then
    if (UINT32_MAX - 1024 <? lastSN) && (seqNumber <? 1024) then (true, seqNumber) else (false, lastSN)
  else (true, u32 (lastSN + 1)).

Definition SC_Chunks_CheckSeqNumReceived (isOPN : bool) (seqNumber : Z) : M bool :=
  let! s := get in
  let '(result, sn) := check_sequence_number isOPN (lastSNreceived (tcpSeqProperties (conn s))) seqNumber in
  let! _ := set_conn (set_sequence (conn s) sn (sentRequestIds (tcpSeqProperties (conn s)))) in
  if result then mret true else let! _ := set_error OpcUa_BadSecurityChecksFailed in mret false.

Definition SC_Chunks_CheckSequenceHeaderSN (isOPN : bool) : M bool :=
  let! x := get_ctx in
  massert! negb (is_null (currentChunkInputBuffer x)) in
  let! (status, seqNumber) := read_chunk_UInt32 in
  if is_ok status then SC_Chunks_CheckSeqNumReceived isOPN seqNumber
  else let! _ := set_error OpcUa_BadTcpInternalError in mret false.

(** Calls of the list of the requests that wait for a response. *)
Definition with_requests {A} (f : heap SOPC_SentRequestMsg_Context -> ptr SOPC_SLinkedList -> res (A * heap SOPC_SentRequestMsg_Context * ptr SOPC_SLinkedList))
    : M A :=
  let! s := get in
  let! (a, h, l) := lift (f (request_cells s) (sentRequestIds (tcpSeqProperties (conn s)))) in
  let! _ := set_request_cells h in
  let! _ := set_conn (set_sequence (conn s) (lastSNreceived (tcpSeqProperties (conn s))) l) in
  mret a.

(** Returns the result, the request identifier or handle, and whether the request has
    expired. *)
Definition SC_Chunks_CheckSequenceHeaderRequestId (isClient : bool) (receivedMsgIsFinal : SOPC_Msg_IsFinal) (receivedMsgType : SOPC_Msg_Type)
    : M (bool * Z * bool) :=
  let! x := get_ctx in
  massert! negb (is_null (currentChunkInputBuffer x)) in
  let! (status, requestId) := read_chunk_UInt32 in
  if negb (is_ok status) then let! _ := set_error OpcUa_BadTcpInternalError in mret (false, requestId, false)
  else
    let! x := get_ctx in
    if hasCurrentMsgRequestId x && negb (requestId =? currentMsgRequestId x) then
      let! _ := set_error OpcUa_BadSecurityChecksFailed in mret (false, requestId, false)
    else
      let! (result, requestIdOrHandle, expired) :=
        (if isClient then
           let! recorded := with_requests (fun h l => SOPC_SLinkedList_RemoveFromId h l requestId) in
           match recorded with
           | NULL => let! _ := set_error OpcUa_BadSecurityChecksFailed in mret (false, requestId, false)
           | Some r =>
               if negb (bool_decide (msgType r = receivedMsgType)) then
                 let! _ := emit (CancelTimer (timerId r)) in
                 let! _ := with_requests (fun h l => SOPC_SLinkedList_Append h l requestId (Some r)) in
                 let! _ := set_error OpcUa_BadSecurityChecksFailed in
                 mret (false, requestId, timeoutExpired r)
               else if bool_decide (receivedMsgIsFinal = SOPC_MSG_ISFINAL_INTERMEDIATE) then
                 let! prepended := with_requests (fun h l => SOPC_SLinkedList_Prepend h l requestId (Some r)) in
                 mret (negb (is_null prepended), requestId, timeoutExpired r)
               else
                 let! _ := emit (CancelTimer (timerId r)) in
                 mret (true, requestHandle r, timeoutExpired r)
           end
         else mret (true, requestId, false)) in
      let! _ := (if result then update_ctx (fun x => set_request_id x true requestIdOrHandle) else mret tt) in
      mret (result, requestIdOrHandle, expired).

(** ** Cryptography of a chunk *)

Definition SC_Chunks_GetSecurityKeySets (c : SOPC_SecureConnection) (isPrevCryptoData : bool) : ptr (SecurityKeySet * SecurityKeySet) :=
  let sets := if isPrevCryptoData then precedentSecuKeySets c else currentSecuKeySets c in
  match senderKeySet sets, receiverKeySet sets with
  | Some sender, Some receiver => Some (sender, receiver)
  | _, _ => NULL
  end.

(** The buffer with the headers that are not encrypted and the decrypted text, given the
    function that decrypts; it returns the text, and its length when it may differ from
    the length that was announced.  Returns the result and the buffer. *)
Definition decrypt_into (encryptedBuffer : SOPC_Buffer) (decryptedTextLength : Z) (decrypt : block -> Z -> SOPC_ReturnStatus * block * Z)
    : res (bool * ptr SOPC_Buffer) :=
  let sequenceNumberPosition := position encryptedBuffer in
  let lengthToDecrypt := u32 (length_ encryptedBuffer - sequenceNumberPosition) in
  match SOPC_Buffer_Create (u32 (sequenceNumberPosition + decryptedTextLength)) with
  | NULL => Ret (false, NULL)
  | Some plainBuffer =>
      let* (status, plain) := SOPC_Buffer_CopyWithLength (Some plainBuffer) (Some encryptedBuffer) sequenceNumberPosition in
      if negb (is_ok status) then Ret (false, NULL)
      else
        let* plainBuffer := deref plain in
        let* data := deref (data encryptedBuffer) in
        let* dataToDecrypt := mem_read data sequenceNumberPosition lengthToDecrypt in
        let '(status, text, decryptedTextLength) := decrypt dataToDecrypt decryptedTextLength in
        if negb (is_ok status) then Ret (false, NULL)
        else
          let* data := deref (Buffer.data plainBuffer) in
          let* data := mem_write data sequenceNumberPosition text in
          let plainBuffer := set_data plainBuffer (Some data) in
          let* (status, plain) := SOPC_Buffer_SetDataLength (Some plainBuffer) (u32 (sequenceNumberPosition + decryptedTextLength)) in
          assert! is_ok status in
          let '(status, plain) := SOPC_Buffer_SetPosition plain sequenceNumberPosition in
          assert! is_ok status in
          Ret (true, plain)
  end.

Definition SC_Chunks_DecryptMsg (isSymmetric isPrevCryptoData : bool) : M bool :=
  let! s := get in
  let c := conn s in
  match currentChunkInputBuffer (chunksCtx c) with
  | NULL => lift (Fault AssertFailed)
  | Some encryptedBuffer =>
      let lengthToDecrypt := u32 (length_ encryptedBuffer - position encryptedBuffer) in
      let lookup :=
        if isSymmetric then
          match SC_Chunks_GetSecurityKeySets c isPrevCryptoData with
          | NULL => NULL
          | Some (_, keySet) =>
              let '(status, n) := SymmetricGetLength_Decryption (cryptoProvider c) lengthToDecrypt in
              if is_ok status
              then Some (n, fun d n => let '(status, text) := SymmetricDecrypt (cryptoProvider c) keySet d n in (status, text, n)) else NULL
          end
        else
          match privateKey c with
          | NULL => NULL
          | Some key =>
              let '(status, n) := AsymmetricGetLength_Decryption (cryptoProvider c) key lengthToDecrypt in
              if is_ok status
              then Some (n, fun d n => let '(status, text) := AsymmetricDecrypt (cryptoProvider c) key d n in (status, text, zlen text)) else NULL
          end in
      let! (result, plainBuffer) :=
        match lookup with
        | NULL => mret (false, NULL)
        | Some (decryptedTextLength, decrypt) =>
            if decryptedTextLength <=? receiveBufferSize (tcpMsgProperties c)
            then lift (decrypt_into encryptedBuffer decryptedTextLength decrypt)
            else mret (true, NULL)
        end in
      let! _ := update_ctx (fun x => set_chunk x (if result then plainBuffer else NULL)) in
      mret result
  end.

(** [verify(data, signaturePosition, &data[signaturePosition], signatureSize)] *)
Definition verify_signature (buffer : SOPC_Buffer) (signatureSize : Z) (verify : block -> block -> SOPC_ReturnStatus)
    : res (SOPC_ReturnStatus * Z) :=
  let signaturePosition := u32 (length_ buffer - signatureSize) in
  let* data := deref (data buffer) in
  let* input := mem_read data 0 signaturePosition in
  let* signature := mem_read data signaturePosition signatureSize in
  Ret (verify input signature, signaturePosition).

(** The size of a signature and the function that verifies it: with the key set of the
    receiver, or with the public key of the certificate of the peer. *)
Definition signature_verifier (c : SOPC_SecureConnection) (isSymmetric isPrevCryptoData : bool)
    : option (Z * (block -> block -> SOPC_ReturnStatus)) :=
  if isSymmetric then
    match SC_Chunks_GetSecurityKeySets c isPrevCryptoData with
    | NULL => NULL
    | Some (_, keySet) =>
        let '(status, n) := SymmetricGetLength_Signature (cryptoProvider c) in
        if is_ok status then Some (n, SymmetricVerify (cryptoProvider c) keySet) else NULL
    end
  else
    let config := SOPC_Toolkit_GetSecureChannelConfig c in
    let certificate :=
      match config with
      | NULL => if isServerConnection c then Some (clientCertificate_ (serverAsymmSecuInfo c)) else NULL
      | Some _ => Some (SC_PeerCertificate c)
      end in
    match certificate with
    | NULL => NULL
    | Some certificate =>
        let '(status, publicKey) := AsymmetricKey_CreateFromCertificate certificate in
        if is_ok status then
          let '(status, n) := AsymmetricGetLength_Signature (cryptoProvider c) publicKey in
          if is_ok status then Some (n, AsymmetricVerify (cryptoProvider c) publicKey) else NULL
        else NULL
    end.

(** Returns the result and the position of the signature. *)
Definition SC_Chunks_VerifyMsgSignature (isSymmetric isPrevCryptoData : bool) : M (bool * Z) :=
  let! s := get in
  let c := conn s in
  match currentChunkInputBuffer (chunksCtx c) with
  | NULL => lift (Fault AssertFailed)
  | Some buffer =>
      match signature_verifier c isSymmetric isPrevCryptoData with
      | NULL => mret (false, 0)
      | Some (signatureSize, verify) =>
          let! (status, signaturePosition) := lift (verify_signature buffer signatureSize verify) in
          if is_ok status then mret (true, signaturePosition) else mret (false, 0)
      end
  end.

(** The last byte of the data, which is the size of the padding. *)
Definition last_byte (b : SOPC_Buffer) : res Z :=
  let* d := deref (data b) in
  let* v := mem_read d (u32 (length_ b - 1)) 1 in
  Ret (b2z (nth 0 v x00)).

Definition SOPC_Remove_Padding : M bool :=
  let! s := get in
  let! buffer := lift (deref (currentChunkInputBuffer (chunksCtx (conn s)))) in
  let! (status, nbPaddingBytes, b) :=
    (if hasExtraPaddingSize (conn s) then
       let! n := lift (last_byte buffer) in
       let! (status, b) := lift (SOPC_Buffer_SetDataLength (Some buffer) (u32 (length_ buffer - 1))) in
       mret (status, n * 2 ^ 8, b)
     else mret (SOPC_STATUS_OK, 0, Some buffer)) in
  let! (status, b) :=
    (if is_ok status then
       let! buffer := lift (deref b) in
       let! n := lift (last_byte buffer) in
       lift (SOPC_Buffer_SetDataLength (Some buffer) (u32 (length_ buffer - (nbPaddingBytes + n + 1))))
     else mret (status, b)) in
  let! _ := update_ctx (fun x => set_chunk x b) in
  mret (is_ok status).

End Checks.

(** ** Messages of several chunks *)

Section Treatment.
Context `{Allocator} `{Host} `{EndiannessCfg} {cfg : SOPC_Common_EncodingConstants} `{Crypto} `{!Toolkit}.

(** The [while] loop over the intermediate chunks: the sum of their sizes. *)
Fixpoint sum_remaining (fuel : nat) (h : heap SOPC_Buffer) (it : ptr loc) (totalSize : Z) : res Z :=
  let* more := SOPC_SLinkedList_HasNext h it in
  if more then
    match fuel with
    | O => Fault OutOfFuel
    | S fuel =>
        let* (b, it) := SOPC_SLinkedList_Next h it in
        let* r := SOPC_Buffer_Remaining b in
        sum_remaining fuel h it (u32 (totalSize + r))
    end
  else Ret totalSize.

(** The [while] loop that merges the intermediate chunks.  Returns the merged buffer, the
    cells and the list. *)
Fixpoint merge_chunks (fuel : nat) (h : heap SOPC_Buffer) (l : ptr SOPC_SLinkedList) (mergedBuffer : SOPC_Buffer) (totalSize : Z)
    : res (SOPC_Buffer * heap SOPC_Buffer * ptr SOPC_SLinkedList) :=
  let* (bufferToMerge, h, l) := SOPC_SLinkedList_PopHead h l in
  match bufferToMerge with
  | NULL => Ret (mergedBuffer, h, l)
  | Some b =>
      match fuel with
      | O => Fault OutOfFuel
      | S fuel =>
          let* (result, _, mergedBuffer, b) := fill_buffer mergedBuffer b totalSize in
          assert! result in
          let* r := SOPC_Buffer_Remaining (Some b) in
          assert! r =? 0 in
          merge_chunks fuel h l mergedBuffer totalSize
      end
  end.

(** The size of the bodies of the chunks received so far. *)
Definition total_body_size : M Z :=
  let! s := get in
  let x := chunksCtx (conn s) in
  let! n := SOPC_ScInternalContext_GetNbIntermediateInputChunks in
  let! totalSize :=
    (if 0 <? n then
       let! it := lift (SOPC_SLinkedList_GetIterator (intermediateChunksInputBuffers x)) in
       lift (sum_remaining (chain_fuel (chunk_cells s)) (chunk_cells s) it 0)
     else mret 0) in
  let! r := lift (SOPC_Buffer_Remaining (currentChunkInputBuffer x)) in
  mret (u32 (totalSize + r)).

(** The last chunk is merged with the intermediate ones, or is the message. *)
Definition merge_final_chunk (totalSize : Z) : M bool :=
  let! n := SOPC_ScInternalContext_GetNbIntermediateInputChunks in
  let! x := get_ctx in
  if 0 <? n then
    massert! 0 <? totalSize in
    match SOPC_Buffer_Create totalSize with
    | NULL => let! _ := set_error OpcUa_BadOutOfMemory in mret false
    | Some mergedBuffer =>
        let! s := get in
        let! (mergedBuffer, h, l) :=
          lift (merge_chunks (chain_fuel (chunk_cells s)) (chunk_cells s) (intermediateChunksInputBuffers x) mergedBuffer totalSize) in
        let! _ := set_chunk_cells h in
        let! _ := update_ctx (fun x => set_chunks x l) in
        let! chunk := lift (deref (currentChunkInputBuffer x)) in
        let! (result, remaining, mergedBuffer, chunk) := lift (fill_buffer mergedBuffer chunk totalSize) in
        massert! result in
        massert! remaining =? 0 in
        let! r := lift (SOPC_Buffer_Remaining (Some chunk)) in
        massert! r =? 0 in
        let! _ := update_ctx (fun x => set_message (set_chunk x NULL) (Some mergedBuffer)) in
        mret true
    end
  else
    let! _ := update_ctx (fun x => set_message (set_chunk x NULL) (currentChunkInputBuffer x)) in
    mret true.

Definition SC_Chunks_TreatMsgMultiChunks : M bool :=
  let! s := get in
  let x := chunksCtx (conn s) in
  massert! bool_decide (currentMsgType x = SOPC_MSG_TYPE_SC_MSG) in
  let! (checkBodyMessageSize, addIntermediateChunk, mergeFinalChunk, clearIntermediateChunks) :=
    match currentMsgIsFinal x with
    | SOPC_MSG_ISFINAL_INTERMEDIATE => mret (true, true, false, false)
    | SOPC_MSG_ISFINAL_FINAL => mret (true, false, true, false)
    | SOPC_MSG_ISFINAL_ABORT => mret (false, false, true, true)
    | SOPC_MSG_ISFINAL_INVALID => lift (Fault AssertFailed)
    end in
  let! totalSize := (if checkBodyMessageSize then total_body_size else mret 0) in
  if checkBodyMessageSize && (receiveMaxMessageSize (tcpMsgProperties (conn s)) <? totalSize) then
    let! _ := set_error OpcUa_BadTcpMessageTooLarge in mret false
  else
    let! added :=
      (if addIntermediateChunk then
         let! ok := SOPC_ScInternalContext_AddIntermediateInputChunk (currentChunkInputBuffer x) in
         if ok then
           let! _ := update_ctx (fun x => set_chunk x NULL) in
           let! _ := SOPC_ScInternalContext_ClearCurrentInputChunkContext in mret true
         else let! _ := set_error OpcUa_BadOutOfMemory in mret false
       else mret true) in
    if negb added then mret false
    else
      let! _ := (if clearIntermediateChunks then SOPC_ScInternalContext_ClearIntermediateInputChunks else mret tt) in
      let! merged :=
        (if mergeFinalChunk then merge_final_chunk totalSize else mret true) in
      if negb merged then mret false
      else
        let! x := get_ctx in
        massert! is_null (currentChunkInputBuffer x) in
        mret true.

Definition SC_Chunks_CheckMultiChunkContext : M bool :=
  let! s := get in
  let! n := SOPC_ScInternalContext_GetNbIntermediateInputChunks in
  let max := receiveMaxChunkCount (tcpMsgProperties (conn s)) in
  if bool_decide (currentMsgIsFinal (chunksCtx (conn s)) = SOPC_MSG_ISFINAL_INTERMEDIATE) && negb (max =? 0) && (max <=? u32 (n + 1))
  then let! _ := set_error OpcUa_BadTcpMessageTooLarge in mret false
  else mret true.

(** *** The payload of a chunk *)

(** The checks of the type of the message: the result, and whether the message has an
    asymmetric or a symmetric security header. *)
Definition expected_headers (c : SOPC_SecureConnection) : res (bool * bool * bool) :=
  let final := bool_decide (currentMsgIsFinal (chunksCtx c) = SOPC_MSG_ISFINAL_FINAL) in
  match currentMsgType (chunksCtx c) with
  | SOPC_MSG_TYPE_HEL => Ret (isServerConnection c && final, false, false)
  | SOPC_MSG_TYPE_ACK | SOPC_MSG_TYPE_ERR => Ret (negb (isServerConnection c) && final, false, false)
  | SOPC_MSG_TYPE_SC_OPN => Ret (final, final, false)
  | SOPC_MSG_TYPE_SC_CLO => let ok := isServerConnection c && final in Ret (ok, false, ok)
  | SOPC_MSG_TYPE_SC_MSG => Ret (true, false, true)
  | SOPC_MSG_TYPE_INVALID => Fault AssertFailed
  end.

(** The secure channel identifier. *)
Definition check_channel_id (isOPN : bool) : M bool :=
  let! (status, channel) := read_chunk_UInt32 in
  if negb (is_ok status) then mret false
  else
    let! s := get in
    let c := conn s in
    if isOPN && (secureChannelId (currentSecurityToken c) =? 0) then
      if negb (isServerConnection c) then
        if negb (channel =? 0) then let! _ := set_conn (set_channel c channel (serverNewSecuTokenActive c)) in mret true
        else let! _ := set_error OpcUa_BadSecurityChecksFailed in mret false
      else if negb (channel =? 0) then let! _ := set_error OpcUa_BadSecurityChecksFailed in mret false
      else mret true
    else if negb (secureChannelId (currentSecurityToken c) =? channel) then
      let! _ := set_error OpcUa_BadTcpSecureChannelUnknown in mret false
    else mret true.

(** The security header.  Returns the result, [toDecrypt], [toCheckSignature] and
    [isPrevCryptoData]. *)
Definition check_security_header (asymmSecuHeader : bool) : M (bool * bool * bool * bool) :=
  if asymmSecuHeader then
    let! (result, isSecurityActive) := SC_Chunks_CheckAsymmetricSecurityHeader in
    if result then mret (true, isSecurityActive, isSecurityActive, false) else mret (false, false, false, false)
  else
    let! s := get in
    match SOPC_Toolkit_GetSecureChannelConfig (conn s) with
    | NULL => let! _ := set_error OpcUa_BadSecurityChecksFailed in mret (false, false, false, false)
    | Some scConfig =>
        let! (result, isPrevCryptoData) := SC_Chunks_CheckSymmetricSecurityHeader in
        if result then
          let! toDecrypt := lift (SC_Chunks_IsMsgEncrypted (msgSecurityMode scConfig) false) in
          mret (true, toDecrypt, SC_Chunks_IsMsgSigned (msgSecurityMode scConfig), isPrevCryptoData)
        else mret (false, false, false, isPrevCryptoData)
    end.

(** The headers of a secured message, the decryption and the signature.  Returns the
    result, the request identifier or handle, and whether the request has expired. *)
Definition treat_secured (isOPN : bool) (requestIdOrHandle : Z) : M (bool * Z * bool) :=
  let! result := check_channel_id isOPN in
  if negb result then mret (false, requestIdOrHandle, false)
  else
    let! (result, toDecrypt, toCheckSignature, isPrevCryptoData) := check_security_header isOPN in
    if negb result then mret (false, requestIdOrHandle, false)
    else
      let! result := (if toDecrypt then SC_Chunks_DecryptMsg (negb isOPN) isPrevCryptoData else mret true) in
      if negb result then let! _ := set_error OpcUa_BadSecurityChecksFailed in mret (false, requestIdOrHandle, false)
      else
        let! (result, signaturePosition) :=
          (if toCheckSignature then SC_Chunks_VerifyMsgSignature (negb isOPN) isPrevCryptoData else mret (true, 0)) in
        if negb result then let! _ := set_error OpcUa_BadSecurityChecksFailed in mret (false, requestIdOrHandle, false)
        else
          let! _ :=
            (if toCheckSignature then
               let! x := get_ctx in
               let! (status, b) := lift (SOPC_Buffer_SetDataLength (currentChunkInputBuffer x) signaturePosition) in
               massert! is_ok status in
               update_ctx (fun x => set_chunk x b)
             else mret tt) in
          let! result := SC_Chunks_CheckSequenceHeaderSN isOPN in
          if negb result then mret (false, requestIdOrHandle, false)
          else
            let! s := get in
            let! (result, requestIdOrHandle, expired) :=
              SC_Chunks_CheckSequenceHeaderRequestId (negb (isServerConnection (conn s))) (currentMsgIsFinal (chunksCtx (conn s)))
                (currentMsgType (chunksCtx (conn s))) in
            if negb result then mret (false, requestIdOrHandle, expired)
            else if toDecrypt then
              let! result := SOPC_Remove_Padding in
              if result then mret (true, requestIdOrHandle, expired)
              else let! _ := set_error OpcUa_BadDecodingError in mret (false, requestIdOrHandle, expired)
            else mret (true, requestIdOrHandle, expired).

Definition SC_Chunks_TreatTcpPayload (requestIdOrHandle : Z) : M (bool * Z * bool) :=
  let! s := get in
  let! (result, asymmSecuHeader, symmSecuHeader) := lift (expected_headers (conn s)) in
  if negb result then
    let! _ := set_error OpcUa_BadTcpMessageTypeInvalid in mret (false, requestIdOrHandle, false)
  else
    let! (result, requestIdOrHandle, ignoreExpiredMessage) :=
      (if asymmSecuHeader || symmSecuHeader then treat_secured asymmSecuHeader requestIdOrHandle
       else mret (true, requestIdOrHandle, false)) in
    if negb result then mret (false, requestIdOrHandle, ignoreExpiredMessage)
    else
      let! x := get_ctx in
      let! result :=
        (if bool_decide (currentMsgType x = SOPC_MSG_TYPE_SC_MSG) then SC_Chunks_TreatMsgMultiChunks
         else let! _ := update_ctx (fun x => set_message (set_chunk x NULL) (currentChunkInputBuffer x)) in mret true) in
      mret (result, requestIdOrHandle, ignoreExpiredMessage).

(** *** The received bytes *)

(** The complete message is given to the state machine of the connection, or ignored
    when it is the response to a request that has expired. *)
Definition deliver_message (requestIdOrHandle : Z) (ignoreExpiredMessage : bool) : M unit :=
  let! x := get_ctx in
  match currentMessageInputBuffer x with
  | NULL => mret tt
  | Some message =>
      let! _ :=
        (if negb ignoreExpiredMessage then
           let! scEvent := lift (SC_Chunks_MsgTypeToRcvEvent (currentMsgType x) (currentMsgIsFinal x)) in
           let asNext := match scEvent with INT_SC_RCV_ERR | INT_SC_RCV_CLO => true | _ => false end in
           emit (EnqueueEvent asNext scEvent (Some message) requestIdOrHandle)
         else mret tt) in
      let! _ := update_ctx (fun x => set_message x NULL) in
      SOPC_ScInternalContext_ClearInputChunksContext
  end.

(** A complete chunk.  Returns the result and the request identifier or handle. *)
Definition treat_chunk (requestIdOrHandle : Z) : M (bool * Z) :=
  let! ok := SC_Chunks_CheckMultiChunkContext in
  let! (result, requestIdOrHandle, ignoreExpiredMessage) :=
    (if ok then SC_Chunks_TreatTcpPayload requestIdOrHandle else mret (false, requestIdOrHandle, false)) in
  if negb result then mret (false, requestIdOrHandle)
  else
    let! x := get_ctx in
    massert! is_null (currentChunkInputBuffer x) in
    let! _ := deliver_message requestIdOrHandle ignoreExpiredMessage in
    mret (true, requestIdOrHandle).

(** The [while] loop.  Returns [result]; [break] leaves the loop with [true]. *)
Fixpoint treat_received (fuel : nat) (receivedBuffer : SOPC_Buffer) (requestIdOrHandle : Z) : M bool :=
  let! remaining := lift (SOPC_Buffer_Remaining (Some receivedBuffer)) in
  if remaining <=? 0 then mret true
  else
    match fuel with
    | O => lift (Fault OutOfFuel)
    | S fuel =>
        let! s := get in
        let chunk := match currentChunkInputBuffer (chunksCtx (conn s)) with
                     | NULL => SOPC_Buffer_Create (receiveBufferSize (tcpMsgProperties (conn s)))
                     | Some b => Some b
                     end in
        if is_null chunk then let! _ := set_error OpcUa_BadOutOfMemory in mret true
        else
          let! (decoded, error, x, receivedBuffer) :=
            lift (SC_Chunks_DecodeReceivedBuffer (set_chunk (chunksCtx (conn s)) chunk) receivedBuffer) in
          let! _ := update_ctx (fun _ => x) in
          let! _ := set_error error in
          if negb decoded then mret (error =? SOPC_GoodGenericStatus)
          else
            let! (result, requestIdOrHandle) := treat_chunk requestIdOrHandle in
            if negb result then mret false else treat_received fuel receivedBuffer requestIdOrHandle
    end.

(** Every turn of the loop reads at least one byte. *)
Definition SC_Chunks_TreatReceivedBuffer (receivedBuffer : SOPC_Buffer) : M unit :=
  massert! position receivedBuffer =? 0 in
  let! _ := set_error SOPC_GoodGenericStatus in
  let! result := treat_received (Z.to_nat (length_ receivedBuffer)) receivedBuffer 0 in
  if negb result then
    let! s := get in
    let! _ := emit (EnqueueEvent true INT_SC_RCV_FAILURE NULL (errorStatus s)) in
    SOPC_ScInternalContext_ClearInputChunksContext
  else mret tt.

End Treatment.
