(* ===== verification/ChunksSpec.v ===== *)
(** * The cutting of received bytes into chunks

    What the functions that fill the current chunk do with the received bytes: the
    result depends on the bytes only, and bytes that arrive in two parts are treated as
    if they had arrived in one. *)

From Stdlib Require Import ZArith Lia.
From Stdlib Require Import Strings.Byte.
From stdpp Require Import prelude gmap.
From S2P Require Import Prelude Common LinkedList Buffer Codec EncScalar EncString Strings SecureConnection ToolkitConfig Chunks.

Open Scope Z_scope.

(** ** Appending bytes to a buffer *)

(** The bytes [bs] are put after the data of [b]. *)
Definition push (b : SOPC_Buffer) (bs : block) : SOPC_Buffer :=
  set_length (set_data b (Some (splice (bytes b) (length_ b) bs))) (length_ b + zlen bs).

(** The room that is left in the block. *)
Definition room (b : SOPC_Buffer) : Z := current_size b - length_ b.

(** The number of bytes to move to have [n] bytes in [b]. *)
Definition lacking (b : SOPC_Buffer) (n : Z) : Z := Z.max 0 (n - (length_ b - position b)).

(** The bytes that are moved, out of [bs]. *)
Definition moved (b : SOPC_Buffer) (bs : block) (n : Z) : Z := Z.min (lacking b n) (zlen bs).

Section Filling.
Context `{Allocator}.

Lemma bytes_length b : Buffer_Inv b -> zlen (bytes b) = current_size b.
Proof. intros [[d [E L]] _ _ _ _ _]. unfold bytes. by rewrite E. Qed.

Lemma push_nil b : Buffer_Inv b -> push b [] = b.
Proof.
  intros I. pose proof (bytes_length b I). destruct I as [[d [E L]] ? ? ? ? ?]. unfold push, bytes in *. rewrite E in *. cbn in *.
  rewrite splice_nil by lia. destruct b. unfold set_length, set_data. cbn in *. subst. f_equal. rewrite zlen_nil. lia.
Qed.

Lemma push_inv b bs : Buffer_Inv b -> zlen bs <= room b -> Buffer_Inv (push b bs).
Proof.
  intros I L. pose proof (bytes_length b I) as Lb. pose proof (zlen_nonneg bs). unfold room in L. destruct I as [[d [E Ld]] ? ? ? ? ?].
  split; unfold push; cbn; try lia; try done. eexists. split; [done|]. rewrite zlen_splice; lia.
Qed.

Lemma push_eq b bs :
  push b bs = mkBuffer (initial_size b) (current_size b) (maximum_size b) (position b) (length_ b + zlen bs) (Some (splice (bytes b) (length_ b) bs)).
Proof. done. Qed.

Lemma push_push b x y : Buffer_Inv b -> zlen x + zlen y <= room b -> push (push b x) y = push b (x ++ y).
Proof.
  intros I L. pose proof (bytes_length b I) as Lb. pose proof (zlen_nonneg x). pose proof (zlen_nonneg y). unfold room in L.
  destruct I as [[d [E Ld]] ? ? ? ? ?]. rewrite !push_eq. unfold bytes at 1. cbn.
  rewrite splice_splice by lia. rewrite zlen_app. f_equal; lia.
Qed.

Lemma push_content b bs : Buffer_Inv b -> zlen bs <= room b -> content (push b bs) = content b ++ bs.
Proof.
  intros I L. pose proof (bytes_length b I) as Lb. unfold room in L. destruct I as [[d [E Ld]] ? ? ? ? ?].
  rewrite push_eq. unfold content at 1, bytes at 1. cbn. by rewrite take_splice_end by lia.
Qed.

Lemma push_upcoming b bs : Buffer_Inv b -> zlen bs <= room b -> upcoming (push b bs) = upcoming b ++ bs.
Proof.
  intros I L. unfold upcoming. change (position (push b bs)) with (position b). rewrite push_content by done.
  rewrite drop_app_le; [done|]. pose proof (zlen_content b I). destruct I. unfold zlen in *. lia.
Qed.

Lemma ReadFrom_push b s n : Buffer_Inv b -> Buffer_Inv s -> 0 <= n <= room b ->
  SOPC_Buffer_ReadFrom (Some b) (Some s) n =
    Ret (Z.min n (zlen (upcoming s)), Some (push b (take (Z.to_nat (Z.min n (zlen (upcoming s)))) (upcoming s))),
         Some (advance s (Z.min n (zlen (upcoming s))))).
Proof.
  intros Ib Is Hn. unfold SOPC_Buffer_ReadFrom, room in *. pose proof (zlen_upcoming s Is) as Us. pose proof (bytes_length s Is) as Ls.
  pose proof Ib as [[bd [Hbd Hlb]] ? ? ? ? ?]. pose proof Is as [[sd [Hsd Hls]] ? ? ? ? ?].
  rewrite (u32_small (current_size b - length_ b)), (u32_small (length_ s - position s)) by lia.
  destruct (Z.ltb_spec (current_size b - length_ b) n); [lia|]. set (m := Z.min n (zlen (upcoming s))).
  replace (if length_ s - position s <? n then length_ s - position s else n) with m
    by (unfold m; rewrite Us; destruct (Z.ltb_spec (length_ s - position s) n); lia).
  rewrite Hbd, Hsd. cbn [rbind deref]. unfold memcpy. rewrite mem_read_ok by lia. cbn [rbind].
  assert (take (Z.to_nat m) (drop (Z.to_nat (position s)) sd) = take (Z.to_nat m) (upcoming s)) as E.
  { unfold upcoming, content, bytes. rewrite Hsd. simpl. rewrite skipn_firstn_comm, take_take, Nat.min_l; [done|lia]. }
  rewrite E. set (bs := take (Z.to_nat m) (upcoming s)). assert (zlen bs = m) as Lbs by (apply zlen_take; lia).
  rewrite mem_write_ok by lia. cbn [rbind]. rewrite !u32_small by lia. unfold push, bytes. rewrite Hbd, Lbs. done.
Qed.

(** [fill_buffer] moves the bytes that lack, or those there are. *)
Lemma fill_buffer_spec b s n : Buffer_Inv b -> Buffer_Inv s -> 0 <= n < 2 ^ 32 -> lacking b n <= room b ->
  fill_buffer b s n =
    Ret (true, lacking b n - moved b (upcoming s) n, push b (take (Z.to_nat (moved b (upcoming s) n)) (upcoming s)),
         advance s (moved b (upcoming s) n)).
Proof.
  intros Ib Is Hn L. unfold fill_buffer, moved, lacking in *. cbn [SOPC_Buffer_Remaining rbind]. pose proof (zlen_nonneg (upcoming s)).
  pose proof Ib as [_ ? ? ? ? _]. rewrite (u32_small (length_ b - position b)) by lia.
  destruct (Z.leb_spec n (length_ b - position b)).
  - rewrite Z.max_l, Z.min_l by lia. rewrite advance_0, push_nil by done. done.
  - rewrite Z.max_r in * by lia. rewrite (u32_small (n - _)) by lia. rewrite ReadFrom_push by (done || lia). cbn [rbind deref].
    set (m := Z.min _ _). assert (zlen (take (Z.to_nat m) (upcoming s)) = m) as Lm by (apply zlen_take; lia).
    destruct (Z.ltb_spec m 0); [lia|]. cbn [SOPC_Buffer_Remaining rbind]. unfold room in *.
    change (position (push b ?x)) with (position b). change (length_ (push b ?x)) with (length_ b + zlen x).
    rewrite Lm, (u32_small (length_ b + m - position b)) by lia. do 4 f_equal. rewrite u32_small; lia.
Qed.

End Filling.

(** ** The header of a chunk *)

Section Header.
Context `{Allocator} `{Host} `{EndiannessCfg} {cfg : SOPC_Common_EncodingConstants} `{Crypto}.
Context `{!EndiannessDetected}.

(** At least one level of nesting is allowed. *)
Hypothesis nested : 0 < max_nested_struct cfg.

Lemma UInt32_Read_block b v : Buffer_Inv b -> small b ->
  exists v', SOPC_UInt32_Read (Some v) (Some b) 0 =
    if 4 <=? zlen (upcoming b)
    then Ret (SOPC_STATUS_OK, Some (le_val (take 4 (upcoming b))), Some (advance b 4))
    else Ret (SOPC_STATUS_ENCODING_ERROR, Some v', Some b).
Proof.
  intros I S. eexists. unfold SOPC_UInt32_Read. replace (max_nested_struct cfg <=? 0) with false by lia.
  rewrite read_block by (try done; unfold zlen; by rewrite length_int_repr).
  destruct (Z.leb_spec 4 (zlen (upcoming b))) as [L|L]; cbn [rbind default from_option Datatypes.id is_ok]; [|done].
  rewrite UInt32_in by (by rewrite length_take_upcoming). done.
Qed.

(** A context without chunk, and a context that waits for the rest of a chunk. *)
Definition no_header (x : SOPC_SecureConnection_ChunkMgrCtx) : Prop :=
  currentMsgSize x = 0 /\ currentMsgType x = SOPC_MSG_TYPE_INVALID /\ currentMsgIsFinal x = SOPC_MSG_ISFINAL_INVALID.

Record has_header (x : SOPC_SecureConnection_ChunkMgrCtx) (b : SOPC_Buffer) : Prop := {
  hh_size : SOPC_TCP_UA_HEADER_LENGTH < currentMsgSize x <= maximum_size b;
  hh_type : currentMsgType x <> SOPC_MSG_TYPE_INVALID;
  hh_final : currentMsgIsFinal x <> SOPC_MSG_ISFINAL_INVALID;
  hh_position : position b = SOPC_TCP_UA_HEADER_LENGTH
}.

Lemma message_type_valid t : negb (bool_decide (message_type t = SOPC_MSG_TYPE_INVALID)) = true -> message_type t <> SOPC_MSG_TYPE_INVALID.
Proof. by rewrite negb_true_iff, bool_decide_eq_false. Qed.

(** The header is accepted with valid fields, or an error status is set. *)
Lemma DecodeTcpMsgHeader_spec x b : currentChunkInputBuffer x = Some b -> Buffer_Inv b -> small b -> no_header x -> position b = 0 ->
  SOPC_TCP_UA_HEADER_LENGTH <= length_ b ->
  exists ok e size t f k, SC_Chunks_DecodeTcpMsgHeader x SOPC_GoodGenericStatus = Ret (ok, e, set_header (set_chunk x (Some (advance b k))) size t f) /\
    0 <= k <= 8 /\
    (if ok then e = SOPC_GoodGenericStatus /\ k = 8 /\ SOPC_TCP_UA_HEADER_LENGTH < size <= maximum_size b /\
       t <> SOPC_MSG_TYPE_INVALID /\ f <> SOPC_MSG_ISFINAL_INVALID
     else e <> SOPC_GoodGenericStatus).
Proof.
  intros Eb I S (E0 & Et & Ef) P L. unfold SOPC_TCP_UA_HEADER_LENGTH in *. pose proof (zlen_upcoming b I) as U. pose proof I as [_ ? ? ? ? _].
  unfold SC_Chunks_DecodeTcpMsgHeader, SOPC_TCP_UA_HEADER_LENGTH. rewrite Eb, E0, Et, Ef, u32_small by lia. rewrite !bool_decide_true by done. cbv iota.
  replace (8 <=? length_ b - position b) with true by lia. cbn [Z.eqb]. rewrite read_block by (done || lia).
  replace (3 <=? zlen (upcoming b)) with true by lia. cbn [rbind deref is_ok andb].
  set (t := message_type _). destruct (bool_decide (t = SOPC_MSG_TYPE_INVALID)) eqn:Bt; cbn [negb rbind].
  { eexists false, _, 0, t, _, 3. split; [reflexivity|]. split; [lia|done]. }
  pose proof (upcoming_advance b 3 I ltac:(lia)) as U1. assert (Buffer_Inv (advance b 3)) as I1 by (apply Buffer_Inv_advance; [done|lia]).
  pose proof (zlen_upcoming _ I1) as Z1. cbn [length_ position advance set_position] in Z1.
  rewrite read_block by (done || lia). replace (1 <=? zlen (upcoming (advance b 3))) with true by lia. cbn [rbind deref is_ok].
  rewrite advance_advance. change (3 + 1) with 4. set (f := is_final _). apply bool_decide_eq_false in Bt.
  destruct (bool_decide (f = SOPC_MSG_ISFINAL_INVALID)) eqn:Bf; cbn [orb rbind].
  { eexists false, _, 0, t, f, 4. split; [reflexivity|]. split; [lia|done]. }
  apply bool_decide_eq_false in Bf. destruct (negb _ && negb _); cbn [rbind].
  { eexists false, _, 0, t, f, 4. split; [reflexivity|]. split; [lia|done]. }
  assert (Buffer_Inv (advance b 4)) as I2 by (apply Buffer_Inv_advance; [done|lia]). pose proof (zlen_upcoming _ I2) as Z2. cbn [length_ position advance set_position] in Z2.
  destruct (UInt32_Read_block (advance b 4) 0 I2 S) as [v' ->]. replace (4 <=? zlen (upcoming (advance b 4))) with true by lia.
  cbn [rbind deref is_ok negb orb]. rewrite advance_advance. change (4 + 4) with 8. set (size := le_val _).
  destruct (Z.leb_spec size 8); cbn [rbind]; [eexists false, _, size, t, f, 8; split; [reflexivity|]; split; [lia|done]|].
  change (maximum_size (advance b 8)) with (maximum_size b). destruct (Z.ltb_spec (maximum_size b) size); cbn [rbind].
  - eexists false, _, size, t, f, 8. split; [reflexivity|]. split; [lia|done].
  - eexists true, _, size, t, f, 8. split; [reflexivity|]. split; [lia|]. split_and!; (done || lia).
Qed.

(** ** The received bytes *)

(** The payload of a chunk whose header is known: whether the chunk is complete, the
    context, and the number of bytes that were used. *)
Definition decode_payload (x : SOPC_SecureConnection_ChunkMgrCtx) (b : SOPC_Buffer) (bs : block) : bool * SOPC_SecureConnection_ChunkMgrCtx * Z :=
  let n := currentMsgSize x - SOPC_TCP_UA_HEADER_LENGTH in
  let m := moved b bs n in
  (lacking b n =? m, set_chunk x (Some (push b (take (Z.to_nat m) bs))), m).

Definition decode_bytes (x : SOPC_SecureConnection_ChunkMgrCtx) (bs : block) : res (bool * Z * SOPC_SecureConnection_ChunkMgrCtx * Z) :=
  let* b := deref (currentChunkInputBuffer x) in
  if currentMsgSize x =? 0 then
    let m := moved b bs SOPC_TCP_UA_HEADER_LENGTH in
    let x := set_chunk x (Some (push b (take (Z.to_nat m) bs))) in
    if m <? lacking b SOPC_TCP_UA_HEADER_LENGTH then Ret (false, SOPC_GoodGenericStatus, x, m)
    else
      let* (ok, error, x) := SC_Chunks_DecodeTcpMsgHeader x SOPC_GoodGenericStatus in
      if negb ok then Ret (false, error, x, m)
      else
        let* b := deref (currentChunkInputBuffer x) in
        let '(complete, x, k) := decode_payload x b (drop (Z.to_nat m) bs) in
        Ret (complete, error, x, m + k)
  else
    let '(complete, x, k) := decode_payload x b bs in
    Ret (complete, SOPC_GoodGenericStatus, x, k).

(** The current chunk is not complete. *)
Definition framed (x : SOPC_SecureConnection_ChunkMgrCtx) : Prop := exists b,
  currentChunkInputBuffer x = Some b /\ Buffer_Inv b /\ small b /\ current_size b = maximum_size b /\ SOPC_TCP_UA_HEADER_LENGTH <= maximum_size b /\
  ((no_header x /\ position b = 0 /\ length_ b < SOPC_TCP_UA_HEADER_LENGTH) \/ (has_header x b /\ length_ b < currentMsgSize x)).

(** The current chunk is complete. *)
Definition complete_chunk (x : SOPC_SecureConnection_ChunkMgrCtx) (b : SOPC_Buffer) : Prop :=
  currentChunkInputBuffer x = Some b /\ Buffer_Inv b /\ small b /\ current_size b = maximum_size b /\ has_header x b /\ length_ b = currentMsgSize x.

Lemma moved_range b bs n : 0 <= moved b bs n <= zlen bs /\ moved b bs n <= lacking b n.
Proof. unfold moved, lacking. pose proof (zlen_nonneg bs). lia. Qed.

Lemma push_small b bs : small b -> small (push b bs).
Proof. done. Qed.

Lemma zlen_moved b bs n : zlen (take (Z.to_nat (moved b bs n)) bs) = moved b bs n.
Proof. apply zlen_take. apply moved_range. Qed.

Lemma decode_payload_spec x b rb : has_header x b -> currentChunkInputBuffer x = Some b -> Buffer_Inv b -> small b -> current_size b = maximum_size b ->
  length_ b <= currentMsgSize x -> Buffer_Inv rb ->
  fill_buffer b rb (u32 (currentMsgSize x - SOPC_TCP_UA_HEADER_LENGTH)) =
    Ret (true, lacking b (currentMsgSize x - SOPC_TCP_UA_HEADER_LENGTH) - (decode_payload x b (upcoming rb)).2,
         push b (take (Z.to_nat (decode_payload x b (upcoming rb)).2) (upcoming rb)), advance rb (decode_payload x b (upcoming rb)).2).
Proof.
  intros [Hs _ _ Hp] Eb I S C L Ir. pose proof I as [_ ? ? ? ? _]. unfold SOPC_TCP_UA_HEADER_LENGTH in *. rewrite u32_small by lia.
  apply fill_buffer_spec; [done|done|lia|]. unfold lacking, room. lia.
Qed.

(** The function reads the bytes of the buffer, and nothing else of it. *)
Lemma DecodeReceivedBuffer_spec x rb : framed x -> Buffer_Inv rb ->
  SC_Chunks_DecodeReceivedBuffer x rb = let* (d, e, x, k) := decode_bytes x (upcoming rb) in Ret (d, e, x, advance rb k).
Proof.
  intros (b & Eb & I & S & C & M & [((E0 & Et & Ef) & P & L)|(Hh & L)]) Ir; unfold SC_Chunks_DecodeReceivedBuffer, decode_bytes; rewrite Eb; cbn [deref rbind].
  - rewrite E0. cbn [Z.eqb]. pose proof I as [_ ? ? ? ? _]. unfold SOPC_TCP_UA_HEADER_LENGTH in *.
    rewrite (fill_buffer_spec b rb) by (try done; unfold lacking, room; lia). cbn [rbind negb]. set (m := moved b (upcoming rb) 8).
    pose proof (moved_range b (upcoming rb) 8) as R. fold m in R. pose proof (zlen_moved b (upcoming rb) 8) as Zm. fold m in Zm.
    set (b1 := push b _). assert (zlen (take (Z.to_nat m) (upcoming rb)) <= room b) as Rm by (unfold lacking, room in *; lia).
    assert (Buffer_Inv b1) as I1 by (by apply push_inv). assert (length_ b1 = length_ b + m) as L1 by (unfold b1; rewrite push_eq; cbn [length_]; by rewrite Zm).
    replace (0 <? lacking b 8 - m) with (m <? lacking b 8) by (destruct (Z.ltb_spec m (lacking b 8)), (Z.ltb_spec 0 (lacking b 8 - m)); lia).
    destruct (Z.ltb_spec m (lacking b 8)); cbn [rbind negb]; [done|].
    destruct (DecodeTcpMsgHeader_spec (set_chunk x (Some b1)) b1) as (ok & e & size & t & f & k & -> & Hk & R'); [done..| |];
      [unfold lacking, SOPC_TCP_UA_HEADER_LENGTH in *; lia|].
    cbn [rbind]. destruct ok; cbn [negb rbind]; [|done]. destruct R' as (-> & -> & Hsz & Ht & Hf). set (x2 := set_header _ _ _ _).
    change (currentMsgSize x2) with size. change (currentMsgType x2) with t. change (currentMsgIsFinal x2) with f. unfold SOPC_TCP_UA_HEADER_LENGTH in *.
    rewrite !bool_decide_false by done. replace (0 <? size) with true by lia. cbn [negb deref rbind currentChunkInputBuffer x2 set_header set_chunk].
    assert (Buffer_Inv (advance rb m)) as Ir2 by (apply Buffer_Inv_advance; [done|lia]).
    assert (Buffer_Inv (advance b1 8)) as I2.
    { apply Buffer_Inv_advance; [done|]. rewrite zlen_upcoming by done. change (position b1) with (position b). unfold lacking in *. lia. }
    pose proof (decode_payload_spec x2 (advance b1 8) (advance rb m)) as D. unfold SOPC_TCP_UA_HEADER_LENGTH in D. change (currentMsgSize x2) with size in D.
    rewrite D; try done; clear D.
    + rewrite upcoming_advance by (done || lia). unfold decode_payload. cbn [rbind negb fst snd]. change (currentMsgSize x2) with size.
      unfold SOPC_TCP_UA_HEADER_LENGTH. rewrite advance_advance. do 4 f_equal. apply eq_iff_eq_true. rewrite !Z.eqb_eq. lia.
    + split; try done. change (position (advance b1 8)) with (position b + 8). unfold SOPC_TCP_UA_HEADER_LENGTH. lia.
    + change (length_ (advance b1 8)) with (length_ b1). change (currentMsgSize x2) with size. unfold lacking in *. lia.
  - pose proof Hh as [Hs Ht Hf Hp]. unfold SOPC_TCP_UA_HEADER_LENGTH in *. replace (currentMsgSize x =? 0) with false by lia. cbn [rbind negb].
    replace (0 <? currentMsgSize x) with true by lia. rewrite !bool_decide_false by done. cbn [negb]. rewrite Eb. cbn [deref rbind].
    pose proof (decode_payload_spec x b rb Hh Eb I S C ltac:(lia) Ir) as D. unfold SOPC_TCP_UA_HEADER_LENGTH in D. rewrite D. unfold decode_payload. cbn [rbind negb fst snd].
    unfold SOPC_TCP_UA_HEADER_LENGTH. do 4 f_equal. apply eq_iff_eq_true. rewrite !Z.eqb_eq. lia.
Qed.

(** *** Bytes that arrive in two parts *)

Lemma moved_enough b s1 s2 n : lacking b n <= zlen s1 ->
  moved b (s1 ++ s2) n = moved b s1 n /\ take (Z.to_nat (moved b s1 n)) (s1 ++ s2) = take (Z.to_nat (moved b s1 n)) s1.
Proof.
  intros L. unfold moved. rewrite zlen_app. pose proof (zlen_nonneg s2). split; [lia|]. apply take_app_le. unfold zlen in *. lia.
Qed.

Lemma moved_more b s1 s2 n : Buffer_Inv b -> lacking b n <= room b -> zlen s1 < lacking b n ->
  moved b s1 n = zlen s1 /\ lacking (push b s1) n = lacking b n - zlen s1 /\ moved b (s1 ++ s2) n = zlen s1 + moved (push b s1) s2 n /\
  push b (take (Z.to_nat (moved b (s1 ++ s2) n)) (s1 ++ s2)) = push (push b s1) (take (Z.to_nat (moved (push b s1) s2 n)) s2).
Proof.
  intros I R L. pose proof (zlen_nonneg s1). pose proof (zlen_nonneg s2).
  assert (lacking (push b s1) n = lacking b n - zlen s1) as El by (unfold lacking in *; rewrite push_eq; cbn [length_ position]; lia).
  assert (moved b (s1 ++ s2) n = zlen s1 + moved (push b s1) s2 n) as Em by (unfold moved; rewrite zlen_app, El; lia).
  pose proof (moved_range (push b s1) s2 n) as Rm. split; [unfold moved; lia|]. split; [done|]. split; [done|]. rewrite Em.
  rewrite push_push by (try done; rewrite zlen_moved; lia). f_equal. rewrite Z2Nat.inj_add by lia. unfold zlen at 1. rewrite Nat2Z.id.
  apply take_app_add.
Qed.

Lemma decode_payload_enough x b s1 s2 : (decode_payload x b s1).1.1 = true -> decode_payload x b (s1 ++ s2) = decode_payload x b s1.
Proof.
  unfold decode_payload. cbn [fst]. rewrite Z.eqb_eq. intros E. pose proof (moved_range b s1 (currentMsgSize x - SOPC_TCP_UA_HEADER_LENGTH)).
  destruct (moved_enough b s1 s2 (currentMsgSize x - SOPC_TCP_UA_HEADER_LENGTH)) as [-> ->]; [lia|done].
Qed.

Lemma decode_payload_more x x1 b s1 s2 : x1 = set_chunk x (Some (push b s1)) -> Buffer_Inv b -> has_header x b -> current_size b = maximum_size b -> length_ b <= currentMsgSize x ->
  (decode_payload x b s1).1.1 = false ->
  decode_payload x b s1 = (false, x1, zlen s1) /\ has_header x1 (push b s1) /\ Buffer_Inv (push b s1) /\ length_ (push b s1) < currentMsgSize x1 /\
  decode_payload x b (s1 ++ s2) = let '(c, x2, k) := decode_payload x1 (push b s1) s2 in (c, x2, zlen s1 + k).
Proof.
  intros -> I [Hs Ht Hf Hp] C L. unfold decode_payload. cbn [fst]. set (n := currentMsgSize x - SOPC_TCP_UA_HEADER_LENGTH). rewrite Z.eqb_neq. intros E.
  set (x1 := set_chunk x (Some (push b s1))).
  pose proof (moved_range b s1 n) as R. assert (zlen s1 < lacking b n) as L1 by (unfold moved in *; lia).
  assert (lacking b n <= room b) as Rb by (unfold lacking, room, n, SOPC_TCP_UA_HEADER_LENGTH in *; destruct I; lia).
  destruct (moved_more b s1 s2 n I Rb L1) as (Em & El & Em' & Ep). rewrite Em. change (currentMsgSize x1) with (currentMsgSize x). fold n.
  assert (take (Z.to_nat (zlen s1)) s1 = s1) as Et by (apply take_ge; unfold zlen; lia). rewrite Et.
  split; [f_equal; f_equal; lia|]. split; [by split|]. split; [apply push_inv; [done|lia]|].
  split; [rewrite push_eq; cbn [length_]; unfold lacking, n, SOPC_TCP_UA_HEADER_LENGTH in *; destruct I; lia|].
  rewrite Em', <- Em', Ep, Em'. f_equal. f_equal. rewrite El. apply eq_iff_eq_true. rewrite !Z.eqb_eq. lia.
Qed.

(** The result on the bytes [bs], and on the same bytes followed by others. *)
Definition decode_result (x : SOPC_SecureConnection_ChunkMgrCtx) (bs : block) (d : bool) (e : Z) (x' : SOPC_SecureConnection_ChunkMgrCtx) (k : Z) : Prop :=
  decode_bytes x bs = Ret (d, e, x', k) /\ 0 <= k <= zlen bs /\ (bs <> [] -> 0 < k) /\
  (exists b size t f, x' = set_header (set_chunk x b) size t f) /\
  ((d = true /\ e = SOPC_GoodGenericStatus /\ (exists b, complete_chunk x' b) /\ forall more, decode_bytes x (bs ++ more) = Ret (d, e, x', k)) \/
   (d = false /\ e <> SOPC_GoodGenericStatus /\ forall more, decode_bytes x (bs ++ more) = Ret (d, e, x', k)) \/
   (d = false /\ e = SOPC_GoodGenericStatus /\ k = zlen bs /\ framed x' /\
    forall more, decode_bytes x (bs ++ more) = let* (d, e, x, k') := decode_bytes x' more in Ret (d, e, x, zlen bs + k'))).

Lemma set_header_id x : set_header x (currentMsgSize x) (currentMsgType x) (currentMsgIsFinal x) = x.
Proof. by destruct x. Qed.

Lemma decode_payload_outcome x b bs : currentChunkInputBuffer x = Some b -> Buffer_Inv b -> small b -> current_size b = maximum_size b -> has_header x b ->
  length_ b <= currentMsgSize x -> (decode_payload x b bs).1.1 = true -> exists b', complete_chunk (decode_payload x b bs).1.2 b'.
Proof.
  intros Eb I S C [Hs Ht Hf Hp] L. unfold decode_payload. cbn [fst snd]. set (n := currentMsgSize x - _). rewrite Z.eqb_eq. intros E.
  pose proof (moved_range b bs n) as R. pose proof (zlen_moved b bs n) as Zm. eexists. split; [reflexivity|].
  assert (lacking b n <= room b) as Rb by (unfold lacking, room, n, SOPC_TCP_UA_HEADER_LENGTH in *; destruct I; lia).
  split; [apply push_inv; [done|lia]|]. split; [done|]. split; [done|]. split; [by split|].
  rewrite push_eq. cbn [length_]. rewrite Zm. change (currentMsgSize (set_chunk x _)) with (currentMsgSize x).
  unfold lacking, n, SOPC_TCP_UA_HEADER_LENGTH in *. destruct I. lia.
Qed.

(** With the header known. *)
Lemma decode_result_payload x b bs : currentChunkInputBuffer x = Some b -> Buffer_Inv b -> small b -> current_size b = maximum_size b ->
  has_header x b -> length_ b < currentMsgSize x -> SOPC_TCP_UA_HEADER_LENGTH <= maximum_size b ->
  exists d x' k, decode_result x bs d SOPC_GoodGenericStatus x' k.
Proof.
  intros Eb I S C Hh L M. pose proof Hh as [Hs Ht Hf Hp]. unfold decode_result, decode_bytes. rewrite Eb. cbn [deref rbind].
  replace (currentMsgSize x =? 0) with false by (unfold SOPC_TCP_UA_HEADER_LENGTH in *; lia).
  pose proof (moved_range b bs (currentMsgSize x - SOPC_TCP_UA_HEADER_LENGTH)) as R.
  destruct (decode_payload x b bs) as [[d x'] k] eqn:E. exists d, x', k. pose proof E as E'. unfold decode_payload in E'. injection E' as Ed Ex Ek.
  split; [done|]. split; [lia|]. split.
  { intros N. rewrite <- Ek. unfold moved, lacking, SOPC_TCP_UA_HEADER_LENGTH in *. destruct bs as [|y bs]; [done|]. rewrite zlen_cons. pose proof (zlen_nonneg bs). lia. }
  split; [eexists _, _, _, _; rewrite <- Ex; symmetry; apply set_header_id|]. destruct d.
  - left. split; [done|]. split; [done|]. split.
    + pose proof (decode_payload_outcome x b bs Eb I S C Hh ltac:(lia)) as [b' Hb]; [by rewrite E|]. rewrite E in Hb. by exists b'.
    + intros more. by rewrite (decode_payload_enough x b bs more) by (by rewrite E); rewrite E.
  - right; right. destruct (decode_payload_more x _ b bs [] eq_refl I Hh C ltac:(lia)) as (E1 & Hh1 & I1 & L1 & _); [by rewrite E|].
    rewrite E in E1. injection E1 as -> ->. split; [done|]. split; [done|]. split; [done|]. split.
    + exists (push b bs). split_and!; try done. by right.
    + intros more. destruct (decode_payload_more x _ b bs more eq_refl I Hh C ltac:(lia)) as (_ & _ & _ & _ & ->); [by rewrite E|].
      cbn [deref rbind currentChunkInputBuffer set_chunk]. replace (currentMsgSize (set_chunk x (Some (push b bs))) =? 0) with false
        by (cbn [currentMsgSize set_chunk]; unfold SOPC_TCP_UA_HEADER_LENGTH in *; lia).
      by destruct (decode_payload _ _ more) as [[d2 x2] k2].
Qed.

(** The header and then the payload. *)
Lemma decode_result_shift x x2 bs m (d : bool) x' k : 0 < m <= zlen bs -> (exists b size t f, x2 = set_header (set_chunk x b) size t f) ->
  (forall more, decode_bytes x (bs ++ more) = let* (d, e, x, k) := decode_bytes x2 (drop (Z.to_nat m) bs ++ more) in Ret (d, e, x, m + k)) ->
  decode_result x2 (drop (Z.to_nat m) bs) d SOPC_GoodGenericStatus x' k -> decode_result x bs d SOPC_GoodGenericStatus x' (m + k).
Proof.
  intros Hm (b2 & size2 & t2 & f2 & ->) Hx (E & Hk & _ & (b3 & size3 & t3 & f3 & ->) & C). pose proof (zlen_drop m bs ltac:(lia)) as Zd.
  split; [specialize (Hx []); rewrite !app_nil_r in Hx; rewrite Hx, E; done|]. split; [lia|]. split; [lia|]. split; [by exists b3, size3, t3, f3|].
  destruct C as [(-> & _ & Hc & M)|[(_ & N & _)|(-> & _ & -> & F & M)]]; [left|done|right; right].
  - split_and!; try done. intros more. by rewrite Hx, M.
  - split_and!; try done; [lia|]. intros more. rewrite Hx, M. destruct (decode_bytes _ more) as [[[[d2 e2] x2] k2]|]; [|done].
    cbn [rbind]. do 2 f_equal. lia.
Qed.

Lemma decode_result_header x b bs : currentChunkInputBuffer x = Some b -> Buffer_Inv b -> small b -> current_size b = maximum_size b ->
  no_header x -> position b = 0 -> length_ b < SOPC_TCP_UA_HEADER_LENGTH -> SOPC_TCP_UA_HEADER_LENGTH <= maximum_size b ->
  exists d e x' k, decode_result x bs d e x' k.
Proof.
  intros Eb I S C Hn P L M. pose proof Hn as (E0 & Et & Ef). unfold SOPC_TCP_UA_HEADER_LENGTH in *. pose proof I as [_ ? ? ? ? _].
  assert (lacking b 8 = 8 - length_ b) as El by (unfold lacking; lia). assert (lacking b 8 <= room b) as Rb by (unfold room; lia).
  destruct (Z.leb_spec (lacking b 8) (zlen bs)) as [Le|Lt].
  - set (m := lacking b 8) in *. assert (moved b bs 8 = m) as Em by (unfold moved; fold m; lia).
    set (b1 := push b (take (Z.to_nat m) bs)). assert (zlen (take (Z.to_nat m) bs) = m) as Zm by (apply zlen_take; lia).
    assert (Buffer_Inv b1) as I1 by (apply push_inv; [done|lia]). assert (length_ b1 = 8) as L1 by (unfold b1; rewrite push_eq; cbn [length_]; lia).
    destruct (DecodeTcpMsgHeader_spec (set_chunk x (Some b1)) b1) as (ok & e & size & t & f & k & D & Hk & R); [done..|unfold SOPC_TCP_UA_HEADER_LENGTH; lia|].
    assert (forall more, decode_bytes x (bs ++ more) =
      let* (ok, error, x2) := SC_Chunks_DecodeTcpMsgHeader (set_chunk x (Some b1)) SOPC_GoodGenericStatus in
      if negb ok then Ret (false, error, x2, m)
      else
        let* b := deref (currentChunkInputBuffer x2) in
        let '(complete, x, k) := decode_payload x2 b (drop (Z.to_nat m) bs ++ more) in Ret (complete, error, x, m + k)) as Hx.
    { intros more. unfold decode_bytes, SOPC_TCP_UA_HEADER_LENGTH. rewrite Eb, E0. cbn [deref rbind Z.eqb].
      destruct (moved_enough b bs more 8 Le) as [-> Et1]. rewrite Em in *. rewrite Et1. fold b1 m. replace (m <? m) with false by lia.
      rewrite drop_app_le by (unfold zlen in *; lia). done. }
    rewrite D in Hx. cbn [rbind] in Hx. destruct ok.
    + destruct R as (-> & -> & Hs & Ht & Hf). set (x2 := set_header _ size t f) in *. cbn [negb deref rbind x2 currentChunkInputBuffer set_header set_chunk] in Hx.
      fold x2 in Hx. assert (has_header x2 (advance b1 8)) as Hh by (split; try done; change (position (advance b1 8)) with (position b + 8); unfold SOPC_TCP_UA_HEADER_LENGTH; lia).
      destruct (decode_result_payload x2 (advance b1 8) (drop (Z.to_nat m) bs)) as (d & x' & k & R); try done.
      { apply Buffer_Inv_advance; [done|]. rewrite zlen_upcoming by done. change (position b1) with (position b). lia. }
      { change (length_ (advance b1 8)) with (length_ b1). change (currentMsgSize x2) with size. unfold SOPC_TCP_UA_HEADER_LENGTH in *. lia. }
      exists d, SOPC_GoodGenericStatus, x', (m + k). eapply (decode_result_shift x x2); [lia|eexists _, _, _, _; reflexivity| |exact R].
      intros more. rewrite Hx. unfold decode_bytes. change (currentChunkInputBuffer x2) with (Some (advance b1 8)). cbn [deref rbind].
      change (currentMsgSize x2) with size. replace (size =? 0) with false by (unfold SOPC_TCP_UA_HEADER_LENGTH in *; lia).
      by destruct (decode_payload _ _ _) as [[d2 x3] k2].
    + cbn [negb] in Hx. eexists false, e, _, m. split; [specialize (Hx []); by rewrite app_nil_r in Hx|]. split; [lia|]. split; [lia|].
      split; [eexists _, _, _, _; reflexivity|]. right; left. done.
  - assert (moved b bs 8 = zlen bs) as Em by (unfold moved; lia). destruct (moved_more b bs [] 8 I Rb Lt) as (_ & El1 & _). pose proof (zlen_nonneg bs).
    assert (take (Z.to_nat (zlen bs)) bs = bs) as Et1 by (apply take_ge; unfold zlen; lia).
    exists false, SOPC_GoodGenericStatus, (set_chunk x (Some (push b bs))), (zlen bs). unfold decode_result.
    assert (forall l, decode_bytes x l = let m := moved b l 8 in if m <? lacking b 8 then Ret (false, SOPC_GoodGenericStatus, set_chunk x (Some (push b (take (Z.to_nat m) l))), m)
      else decode_bytes x l) as Hx.
    { intros l. unfold decode_bytes, SOPC_TCP_UA_HEADER_LENGTH. rewrite Eb, E0. cbn [deref rbind Z.eqb]. by destruct (_ <? _). }
    split; [rewrite Hx; cbv zeta; rewrite Em, Et1; by replace (zlen bs <? lacking b 8) with true by lia|]. split; [lia|].
    split; [intros N; destruct bs as [|y l]; [done|]; pose proof (zlen_nonneg l); rewrite zlen_cons; lia|]. split; [eexists _, _, _, _; symmetry; apply set_header_id|].
    right; right. split_and!; try done.
    + exists (push b bs). split_and!; try done; [apply push_inv; [done|lia]|]. left. split_and!; try done. rewrite push_eq. cbn [length_]. unfold SOPC_TCP_UA_HEADER_LENGTH. lia.
    + intros more. destruct (moved_more b bs more 8 I Rb Lt) as (_ & _ & Em2 & Ep). unfold decode_bytes, SOPC_TCP_UA_HEADER_LENGTH.
      rewrite Eb, E0. cbn [deref rbind Z.eqb currentChunkInputBuffer set_chunk]. change (currentMsgSize (set_chunk x _)) with (currentMsgSize x). rewrite E0. cbn [Z.eqb].
      rewrite Em2, El1, <- Em2, Ep, Em2. set (m2 := moved (push b bs) more 8). pose proof (moved_range (push b bs) more 8) as R2. fold m2 in R2.
      replace (m2 <? lacking b 8 - zlen bs) with (zlen bs + m2 <? lacking b 8) by (apply eq_iff_eq_true; rewrite !Z.ltb_lt; lia).
      destruct (_ <? _); [done|]. change (set_chunk (set_chunk x (Some (push b bs))) ?y) with (set_chunk x y).
      destruct (SC_Chunks_DecodeTcpMsgHeader _ _) as [[[ok e] x2]|]; [|done]. cbn [rbind]. destruct ok; [|done]. cbn [negb].
      destruct (deref _) as [b2|]; [|done]. cbn [rbind]. rewrite Z2Nat.inj_add by lia. unfold zlen at 1. rewrite Nat2Z.id, drop_app_add.
      destruct (decode_payload _ _ _) as [[d2 x3] k2]. cbn [rbind]. do 2 f_equal. lia.
Qed.

Lemma decode_bytes_spec x bs : framed x -> exists d e x' k, decode_result x bs d e x' k.
Proof.
  intros (b & Eb & I & S & C & M & [(Hn & P & L)|(Hh & L)]).
  - by apply (decode_result_header x b).
  - destruct (decode_result_payload x b bs) as (d & x' & k & R); [done..|]. by exists d, SOPC_GoodGenericStatus, x', k.
Qed.

End Header.
