(* ===== verification/ChunksStream.v ===== *)
(** * The stream of received bytes

    The treatment of the received bytes does not depend on how the network cuts them: the
    chunks are treated in the same states and raise the same events.  The argument of the
    HEL, ACK and ERR events, which the receiver does not use, is the identifier of an
    earlier chunk of the same segment; the comparison ignores it. *)

From Stdlib Require Import ZArith Lia.
From Stdlib Require Import Strings.Byte.
From stdpp Require Import prelude gmap.
From S2P Require Import Prelude Common LinkedList Buffer Codec EncScalar EncString Strings SecureConnection ToolkitConfig Chunks ChunksSpec.

Open Scope Z_scope.

(** ** States with the same visible effects *)

Section Same.
Context `{Crypto}.

Definition observable (e : effect) : effect :=
  match e with
  | EnqueueEvent n ev b aux => EnqueueEvent n ev b (match ev with INT_SC_RCV_HEL | INT_SC_RCV_ACK | INT_SC_RCV_ERR => 0 | _ => aux end)
  | e => e
  end.

Record same (s1 s2 : chunk_state) : Prop := {
  same_conn : conn s1 = conn s2;
  same_error : errorStatus s1 = errorStatus s2;
  same_chunks : chunk_cells s1 = chunk_cells s2;
  same_requests : request_cells s1 = request_cells s2;
  same_trace : map observable (trace s1) = map observable (trace s2)
}.

#[export] Instance same_equivalence : Equivalence same.
Proof.
  split; [by split|by intros ?? []|]. intros ??? [? ? ? ? ?] [? ? ? ? ?]. split; etrans; eassumption.
Qed.

(** Computations with the same faults, related results and states with the same effects. *)
Definition agree {A B} (Q : A -> B -> Prop) (r1 : res (A * chunk_state)) (r2 : res (B * chunk_state)) : Prop :=
  match r1, r2 with
  | Ret (a, s1), Ret (b, s2) => Q a b /\ same s1 s2
  | Fault f1, Fault f2 => f1 = f2
  | _, _ => False
  end.

Definition rel {A B} (Q : A -> B -> Prop) (m1 : M A) (m2 : M B) : Prop := forall s1 s2, same s1 s2 -> agree Q (m1 s1) (m2 s2).

Lemma rel_ret {A B} (Q : A -> B -> Prop) a b : Q a b -> rel Q (mret a) (mret b).
Proof. intros Hq s1 s2 Hs. by split. Qed.

Lemma rel_bind {A B C D} (Q : A -> B -> Prop) (R : C -> D -> Prop) m1 m2 k1 k2 :
  rel Q m1 m2 -> (forall a b, Q a b -> rel R (k1 a) (k2 b)) -> rel R (mbind m1 k1) (mbind m2 k2).
Proof.
  intros Hm Hk s1 s2 Hs. specialize (Hm s1 s2 Hs). unfold mbind, agree in *. destruct (m1 s1) as [[a s1']|], (m2 s2) as [[b s2']|]; try done.
  destruct Hm as [Q1 S1]. cbn [rbind]. by apply Hk.
Qed.

Lemma rel_bind_eq {A B C} (R : B -> C -> Prop) (m : M A) k1 k2 : rel eq m m -> (forall a, rel R (k1 a) (k2 a)) -> rel R (mbind m k1) (mbind m k2).
Proof. intros Hm Hk. eapply rel_bind; [exact Hm|]. intros a b ->. apply Hk. Qed.

Lemma rel_get {A B} (R : A -> B -> Prop) k1 k2 : (forall s1 s2, same s1 s2 -> rel R (k1 s1) (k2 s2)) -> rel R (mbind get k1) (mbind get k2).
Proof. intros Hk s1 s2 Hs. cbn. by apply Hk. Qed.

Lemma rel_lift {A} (r : res A) : rel eq (lift r) (lift r).
Proof. intros s1 s2 Hs. unfold lift. by destruct r. Qed.

Lemma rel_fault {A B} (Q : A -> B -> Prop) f : rel Q (lift (Fault f)) (lift (Fault f)).
Proof. by intros s1 s2 Hs. Qed.

Lemma rel_set_conn c : rel eq (set_conn c) (set_conn c).
Proof. intros s1 s2 []. by split; [|split]. Qed.
Lemma rel_set_error e : rel eq (set_error e) (set_error e).
Proof. intros s1 s2 []. by split; [|split]. Qed.
Lemma rel_set_chunk_cells h : rel eq (set_chunk_cells h) (set_chunk_cells h).
Proof. intros s1 s2 []. by split; [|split]. Qed.
Lemma rel_set_request_cells h : rel eq (set_request_cells h) (set_request_cells h).
Proof. intros s1 s2 []. by split; [|split]. Qed.
Lemma rel_emit e1 e2 : observable e1 = observable e2 -> rel eq (emit e1) (emit e2).
Proof. intros E s1 s2 []. split; [done|]. split; try done. cbn. by f_equal. Qed.

End Same.

Create HintDb rel.
#[export] Hint Resolve rel_ret rel_lift rel_fault rel_set_conn rel_set_error rel_set_chunk_cells rel_set_request_cells rel_emit : rel.

(** Both sides run the same code: follow it. *)
Ltac rel_step :=
  match goal with
  | |- rel _ (mbind get _) (mbind get _) => apply rel_get; let Hs := fresh in intros ? ? Hs; cbv beta;
      rewrite ?(same_conn _ _ Hs), ?(same_error _ _ Hs), ?(same_chunks _ _ Hs), ?(same_requests _ _ Hs); clear Hs
  | |- rel _ (mbind _ _) (mbind _ _) => apply rel_bind_eq; [|intros ?]
  | |- rel _ (if ?c then _ else _) (if ?c then _ else _) => destruct c
  | |- rel _ (match ?c with _ => _ end) (match ?c with _ => _ end) => destruct c
  | |- rel _ (let '(_, _) := ?c in _) _ => destruct c
  | |- rel _ _ _ => solve [eauto with rel]
  end.
Ltac rel_run := repeat (rel_step; cbv beta iota zeta).

Section Treatment.
Context `{Allocator} `{Host} `{EndiannessCfg} {cfg : SOPC_Common_EncodingConstants} `{Crypto} `{!Toolkit}.

Lemma rel_update_ctx f : rel eq (update_ctx f) (update_ctx f).
Proof. unfold update_ctx. rel_run. Qed.
#[local] Hint Resolve rel_update_ctx : rel.

Lemma rel_get_ctx : rel eq get_ctx get_ctx.
Proof. unfold get_ctx. rel_run. Qed.
#[local] Hint Resolve rel_get_ctx : rel.

Lemma rel_GetNb : rel eq SOPC_ScInternalContext_GetNbIntermediateInputChunks SOPC_ScInternalContext_GetNbIntermediateInputChunks.
Proof. unfold SOPC_ScInternalContext_GetNbIntermediateInputChunks. rel_run. Qed.

Lemma rel_AddIntermediate b : rel eq (SOPC_ScInternalContext_AddIntermediateInputChunk b) (SOPC_ScInternalContext_AddIntermediateInputChunk b).
Proof. unfold SOPC_ScInternalContext_AddIntermediateInputChunk. rel_run. Qed.

Lemma rel_ClearIntermediate : rel eq SOPC_ScInternalContext_ClearIntermediateInputChunks SOPC_ScInternalContext_ClearIntermediateInputChunks.
Proof. unfold SOPC_ScInternalContext_ClearIntermediateInputChunks. rel_run. Qed.

Lemma rel_ClearCurrent : rel eq SOPC_ScInternalContext_ClearCurrentInputChunkContext SOPC_ScInternalContext_ClearCurrentInputChunkContext.
Proof. unfold SOPC_ScInternalContext_ClearCurrentInputChunkContext. rel_run. Qed.
#[local] Hint Resolve rel_GetNb rel_AddIntermediate rel_ClearIntermediate rel_ClearCurrent : rel.

Lemma rel_ClearInput : rel eq SOPC_ScInternalContext_ClearInputChunksContext SOPC_ScInternalContext_ClearInputChunksContext.
Proof. unfold SOPC_ScInternalContext_ClearInputChunksContext. rel_run. Qed.
#[local] Hint Resolve rel_ClearInput : rel.

Lemma rel_read : rel eq read_chunk_UInt32 read_chunk_UInt32.
Proof. unfold read_chunk_UInt32. rel_run. Qed.
#[local] Hint Resolve rel_read : rel.

Lemma rel_CheckSymmetric : rel eq SC_Chunks_CheckSymmetricSecurityHeader SC_Chunks_CheckSymmetricSecurityHeader.
Proof. unfold SC_Chunks_CheckSymmetricSecurityHeader. rel_run. Qed.

Lemma rel_CheckSeqNum o n : rel eq (SC_Chunks_CheckSeqNumReceived o n) (SC_Chunks_CheckSeqNumReceived o n).
Proof. unfold SC_Chunks_CheckSeqNumReceived. rel_run. Qed.
#[local] Hint Resolve rel_CheckSymmetric rel_CheckSeqNum : rel.

Lemma rel_CheckSN o : rel eq (SC_Chunks_CheckSequenceHeaderSN o) (SC_Chunks_CheckSequenceHeaderSN o).
Proof. unfold SC_Chunks_CheckSequenceHeaderSN. rel_run. Qed.

Lemma rel_with_requests {A} f : rel eq (with_requests (A := A) f) (with_requests f).
Proof. unfold with_requests. rel_run. Qed.
#[local] Hint Resolve rel_CheckSN rel_with_requests : rel.

Lemma rel_CheckRequestId c f t : rel eq (SC_Chunks_CheckSequenceHeaderRequestId c f t) (SC_Chunks_CheckSequenceHeaderRequestId c f t).
Proof. unfold SC_Chunks_CheckSequenceHeaderRequestId. rel_run. Qed.

Lemma rel_Decrypt a b : rel eq (SC_Chunks_DecryptMsg a b) (SC_Chunks_DecryptMsg a b).
Proof. unfold SC_Chunks_DecryptMsg. rel_run. Qed.

Lemma rel_Verify a b : rel eq (SC_Chunks_VerifyMsgSignature a b) (SC_Chunks_VerifyMsgSignature a b).
Proof. unfold SC_Chunks_VerifyMsgSignature. rel_run. Qed.

Lemma rel_RemovePadding : rel eq SOPC_Remove_Padding SOPC_Remove_Padding.
Proof. unfold SOPC_Remove_Padding. rel_run. Qed.

Lemma rel_merge n : rel eq (merge_final_chunk n) (merge_final_chunk n).
Proof. unfold merge_final_chunk. rel_run. Qed.

Lemma rel_total : rel eq total_body_size total_body_size.
Proof. unfold total_body_size. rel_run. Qed.
#[local] Hint Resolve rel_merge rel_total : rel.

Lemma rel_MultiChunks : rel eq SC_Chunks_TreatMsgMultiChunks SC_Chunks_TreatMsgMultiChunks.
Proof. unfold SC_Chunks_TreatMsgMultiChunks. rel_run. Qed.

Lemma rel_CheckMulti : rel eq SC_Chunks_CheckMultiChunkContext SC_Chunks_CheckMultiChunkContext.
Proof. unfold SC_Chunks_CheckMultiChunkContext. rel_run. Qed.
#[local] Hint Resolve rel_CheckRequestId rel_Decrypt rel_Verify rel_RemovePadding rel_MultiChunks rel_CheckMulti : rel.

(** *** The payload of a chunk *)

Lemma rel_channel_id o : rel eq (check_channel_id o) (check_channel_id o).
Proof. unfold check_channel_id. rel_run. Qed.

Lemma rel_ByteString : rel eq read_chunk_ByteString read_chunk_ByteString.
Proof. unfold read_chunk_ByteString. rel_run. Qed.

Lemma rel_policy : rel eq read_chunk_policy read_chunk_policy.
Proof. unfold read_chunk_policy. rel_run. Qed.
#[local] Hint Resolve rel_ByteString rel_policy : rel.

Lemma rel_validate c b p o v : rel eq (validate_sender_certificate c b p o v) (validate_sender_certificate c b p o v).
Proof. unfold validate_sender_certificate. rel_run. Qed.

Lemma rel_thumbprint c r t : rel eq (check_thumbprint c r t) (check_thumbprint c r t).
Proof. unfold check_thumbprint. rel_run. Qed.
#[local] Hint Resolve rel_validate rel_thumbprint : rel.

Lemma rel_sender c h e t p st o : rel eq (check_sender_certificate c h e t p st o) (check_sender_certificate c h e t p st o).
Proof. unfold check_sender_certificate. rel_run. Qed.

Lemma rel_receiver c e t r : rel eq (check_receiver_thumbprint c e t r) (check_receiver_thumbprint c e t r).
Proof. unfold check_receiver_thumbprint. rel_run. Qed.
#[local] Hint Resolve rel_sender rel_receiver : rel.

Lemma rel_certificates e c : rel eq (SC_Chunks_DecodeAsymSecurityHeader_Certificates e c) (SC_Chunks_DecodeAsymSecurityHeader_Certificates e c).
Proof. unfold SC_Chunks_DecodeAsymSecurityHeader_Certificates. rel_run. Qed.

Lemma rel_configurations c : rel eq (get_configurations c) (get_configurations c).
Proof. unfold get_configurations. rel_run. Qed.

Lemma rel_check_policy c cc sc p : rel eq (check_policy c cc sc p) (check_policy c cc sc p).
Proof. unfold check_policy. rel_run. Qed.

Lemma rel_secure_mode c a b : rel eq (check_secure_mode c a b) (check_secure_mode c a b).
Proof. unfold check_secure_mode. rel_run. Qed.
#[local] Hint Resolve rel_certificates rel_configurations rel_check_policy rel_secure_mode : rel.

Lemma rel_asymmetric_fields cc sc : rel eq (check_asymmetric_fields cc sc) (check_asymmetric_fields cc sc).
Proof. unfold check_asymmetric_fields. rel_run. Qed.
#[local] Hint Resolve rel_asymmetric_fields : rel.

Lemma rel_CheckAsymmetric : rel eq SC_Chunks_CheckAsymmetricSecurityHeader SC_Chunks_CheckAsymmetricSecurityHeader.
Proof. unfold SC_Chunks_CheckAsymmetricSecurityHeader. rel_run. Qed.
#[local] Hint Resolve rel_CheckAsymmetric : rel.

Lemma rel_security_header o : rel eq (check_security_header o) (check_security_header o).
Proof. unfold check_security_header. rel_run. Qed.
#[local] Hint Resolve rel_channel_id rel_security_header : rel.

(** The identifier of an earlier chunk is not used. *)
Definition same_request (a b : bool * Z * bool) : Prop := a.1.1 = b.1.1 /\ a.2 = b.2 /\ (a.1.1 = true -> a.1.2 = b.1.2).

Lemma rel_secured o r1 r2 : rel same_request (treat_secured o r1) (treat_secured o r2).
Proof. unfold treat_secured. repeat (rel_step || apply rel_ret); cbv beta iota zeta; try by split_and!. Qed.

Lemma agree_bind {A B C D} (Q : A -> B -> Prop) (R : C -> D -> Prop) m1 m2 k1 k2 s1 s2 :
  agree Q (m1 s1) (m2 s2) -> (forall a b, Q a b -> rel R (k1 a) (k2 b)) -> agree R (mbind m1 k1 s1) (mbind m2 k2 s2).
Proof.
  intros Hm Hk. unfold mbind, agree in *. destruct (m1 s1) as [[a s1']|], (m2 s2) as [[b s2']|]; try done.
  destruct Hm as [Q1 S1]. cbn [rbind]. by apply Hk.
Qed.

Lemma bind_get {A} (k : chunk_state -> M A) s : mbind get k s = k s s.
Proof. done. Qed.

Lemma bind_lift {A B} (a : A) (k : A -> M B) s : mbind (lift (Ret a)) k s = k a s.
Proof. done. Qed.

(** HEL, ACK and ERR messages: the whole payload is the message. *)
Definition plain (c : SOPC_SecureConnection) : Prop := expected_headers c = Ret (true, false, false).

Lemma plain_type c : plain c ->
  currentMsgType (chunksCtx c) = SOPC_MSG_TYPE_HEL \/ currentMsgType (chunksCtx c) = SOPC_MSG_TYPE_ACK \/ currentMsgType (chunksCtx c) = SOPC_MSG_TYPE_ERR.
Proof.
  unfold plain, expected_headers. set (final := bool_decide _). destruct (currentMsgType _), (isServerConnection c), final; try done; auto.
Qed.

Lemma payload_plain r s : plain (conn s) -> exists s', SC_Chunks_TreatTcpPayload r s = Ret ((true, r, false), s') /\
  s' = mkState (set_ctx (conn s) (set_message (set_chunk (chunksCtx (conn s)) NULL) (currentChunkInputBuffer (chunksCtx (conn s)))))
         (errorStatus s) (chunk_cells s) (request_cells s) (trace s).
Proof.
  intros Hp. eexists. split; [|reflexivity]. unfold SC_Chunks_TreatTcpPayload, mbind, get, lift, get_ctx, update_ctx, set_conn, mret, mbind, get. cbn [rbind].
  rewrite Hp. cbn [rbind negb orb]. destruct (plain_type _ Hp) as [E|[E|E]]; rewrite E; reflexivity.
Qed.

Lemma payload_secured r1 r2 s1 s2 : ~ plain (conn s1) -> same s1 s2 ->
  agree same_request (SC_Chunks_TreatTcpPayload r1 s1) (SC_Chunks_TreatTcpPayload r2 s2).
Proof.
  intros N Hs. unfold SC_Chunks_TreatTcpPayload. rewrite !bind_get, <- (same_conn _ _ Hs). unfold plain in N.
  destruct (expected_headers (conn s1)) as [[[result a] b]|]; [|done]. rewrite !bind_lift. destruct result; cbn [negb].
  - destruct (a || b) eqn:E; [|destruct a, b; done]. eapply agree_bind; [by apply rel_secured|].
    intros [[ok ra] xa] [[ok' rb] xb] (E1 & E2 & E3). cbn [fst snd] in *. subst. destruct ok'; cbn [negb]; [|by apply rel_ret].
    rewrite (E3 eq_refl). rel_run; apply rel_ret; by split_and!.
  - apply (rel_bind_eq same_request); [apply rel_set_error|intros; by apply rel_ret|done].
Qed.

Lemma bind_get_ctx {A} (k : SOPC_SecureConnection_ChunkMgrCtx -> M A) s : mbind get_ctx k s = k (chunksCtx (conn s)) s.
Proof. done. Qed.

Lemma bind_bind {A B C} (m : M A) (f : A -> M B) (g : B -> M C) s : mbind (mbind m f) g s = mbind m (fun a => mbind (f a) g) s.
Proof. unfold mbind. by destruct (m s) as [[a s']|]. Qed.

Lemma bind_ret_eq {A B} (m : M A) (k : A -> M B) s a s' : m s = Ret (a, s') -> mbind m k s = k a s'.
Proof. intros E. unfold mbind. by rewrite E. Qed.

Lemma plain_dec c : plain c \/ ~ plain c.
Proof. unfold plain. destruct (expected_headers c) as [[[[] []] []]|]; (by left) || (by right). Qed.

Lemma rel_deliver r e : rel eq (deliver_message r e) (deliver_message r e).
Proof. unfold deliver_message. rel_run. Qed.
#[local] Hint Resolve rel_deliver : rel.

(** The treatment of a chunk does not depend on the chunks that came before it in the
    same segment. *)
Lemma rel_treat_chunk r1 r2 : rel (fun a b => a.1 = b.1) (treat_chunk r1) (treat_chunk r2).
Proof.
  unfold treat_chunk. apply rel_bind_eq; [apply rel_CheckMulti|]. intros [|]; [|rel_run; by apply rel_ret].
  intros s1 s2 Hs. destruct (plain_dec (conn s1)) as [Hp|Hn].
  - pose proof Hp as Hp2. rewrite (same_conn _ _ Hs) in Hp2.
    destruct (payload_plain r1 s1 Hp) as (s1' & P1 & ->), (payload_plain r2 s2 Hp2) as (s2' & P2 & ->).
    rewrite (bind_ret_eq _ _ _ _ _ P1), (bind_ret_eq _ _ _ _ _ P2). cbn [negb]. rewrite !bind_get_ctx. cbn [is_null currentChunkInputBuffer chunksCtx conn set_ctx set_message set_chunk].
    unfold deliver_message. rewrite !bind_bind, !bind_get_ctx. cbn [currentMessageInputBuffer currentMsgType currentMsgIsFinal chunksCtx conn set_ctx set_message set_chunk].
    rewrite <- (same_conn _ _ Hs). set (x := chunksCtx (conn s1)).
    match goal with |- agree _ (mbind _ _ ?a) (mbind _ _ ?b) => assert (same a b) as Hs' by (destruct Hs; by split) end.
    destruct (currentChunkInputBuffer x) as [b|]; [|by apply rel_ret].
    revert Hs'. generalize (mkState (set_ctx (conn s1) (set_message (set_chunk x NULL) (Some b))) (errorStatus s1) (chunk_cells s1) (request_cells s1) (trace s1)).
    generalize (mkState (set_ctx (conn s1) (set_message (set_chunk x NULL) (Some b))) (errorStatus s2) (chunk_cells s2) (request_cells s2) (trace s2)).
    intros t2 t1 Ht. eapply (rel_bind eq); [|intros ? ? _; by apply rel_ret|exact Ht]. eapply (rel_bind eq); [|intros; rel_run].
    cbn [negb]. intros u1 u2 Hu. destruct (plain_type _ Hp) as [E|[E|E]]; fold x in E; rewrite E; cbn [SC_Chunks_MsgTypeToRcvEvent];
      rewrite !bind_lift; by apply rel_emit.
  - eapply agree_bind; [by apply payload_secured|]. intros [[ok ra] xa] [[ok' rb] xb] (E1 & E2 & E3). cbn [fst snd] in *. subst.
    destruct ok'; cbn [negb]; [|by apply rel_ret]. rewrite (E3 eq_refl). rel_run; by apply rel_ret.
Qed.

End Treatment.

(** ** What holds after a computation *)

Section After.
Context `{Crypto}.

Definition after {A} (P : chunk_state -> Prop) (m : M A) (Q : A -> chunk_state -> Prop) : Prop :=
  forall s a s', P s -> m s = Ret (a, s') -> Q a s'.

Lemma after_ret {A} (P : chunk_state -> Prop) (a : A) (Q : A -> chunk_state -> Prop) : (forall s, P s -> Q a s) -> after P (mret a) Q.
Proof. intros Hp s a' s' Hs [= <- <-]. by apply Hp. Qed.

Lemma after_bind {A B} P (m : M A) Q (k : A -> M B) R : after P m Q -> (forall a, after (Q a) (k a) R) -> after P (mbind m k) R.
Proof. intros Hm Hk s b s' Hs E. unfold mbind in E. destruct (m s) as [[a s1]|] eqn:E1; [|done]. by eapply Hk, E; eapply Hm. Qed.

Lemma after_lift {A} (P : chunk_state -> Prop) (r : res A) (Q : A -> chunk_state -> Prop) : (forall s a, P s -> r = Ret a -> Q a s) -> after P (lift r) Q.
Proof. intros Hp s a s' Hs E. unfold lift in E. destruct r; [|done]. injection E as <- <-. by apply Hp. Qed.

Lemma after_get (P : chunk_state -> Prop) (Q : chunk_state -> chunk_state -> Prop) : (forall s, P s -> Q s s) -> after P get Q.
Proof. intros Hp s a s' Hs [= <- <-]. by apply Hp. Qed.

Lemma after_weaken {A} (P P' : chunk_state -> Prop) (m : M A) (Q Q' : A -> chunk_state -> Prop) :
  (forall s, P s -> P' s) -> (forall a s, Q' a s -> Q a s) -> after P' m Q' -> after P m Q.
Proof. intros Hp Hq Hm s a s' Hs E. by eapply Hq, Hm; [apply Hp|]. Qed.

(** A property of the connection that the primitive steps keep. *)
Definition conn_inv {A} (I : SOPC_SecureConnection -> Prop) (m : M A) : Prop := after (fun s => I (conn s)) m (fun _ s => I (conn s)).

Lemma inv_ret {A} I (a : A) : conn_inv I (mret a).
Proof. by apply after_ret. Qed.
Lemma inv_lift {A} I (r : res A) : conn_inv I (lift r).
Proof. by apply after_lift. Qed.
Lemma inv_set_error I e : conn_inv I (set_error e).
Proof. by intros s a s' Hs [= <- <-]. Qed.
Lemma inv_set_chunk_cells I h : conn_inv I (set_chunk_cells h).
Proof. by intros s a s' Hs [= <- <-]. Qed.
Lemma inv_set_request_cells I h : conn_inv I (set_request_cells h).
Proof. by intros s a s' Hs [= <- <-]. Qed.
Lemma inv_emit I e : conn_inv I (emit e).
Proof. by intros s a s' Hs [= <- <-]. Qed.
Lemma inv_bind {A B} I (m : M A) (k : A -> M B) : conn_inv I m -> (forall a, conn_inv I (k a)) -> conn_inv I (mbind m k).
Proof. intros Hm Hk. eapply after_bind; [exact Hm|]. intros a. apply Hk. Qed.
Lemma inv_get {A} I (k : chunk_state -> M A) : (forall s, I (conn s) -> conn_inv I (k s)) -> conn_inv I (mbind get k).
Proof. intros Hk s a s' Hs E. cbn in E. by eapply Hk. Qed.
Lemma inv_set_conn (I : SOPC_SecureConnection -> Prop) c : I c -> conn_inv I (set_conn c).
Proof. by intros Hc s a s' Hs [= <- <-]. Qed.

Lemma bind_inv {A B} (m : M A) (k : A -> M B) s b s' : mbind m k s = Ret (b, s') -> exists a s1, m s = Ret (a, s1) /\ k a s1 = Ret (b, s').
Proof. unfold mbind. destruct (m s) as [[a s1]|]; [|done]. intros E. by exists a, s1. Qed.

End After.

(** The first step of a computation that returns. *)
Tactic Notation "bind_step" hyp(E) "as" ident(a) ident(s1) ident(E1) :=
  apply bind_inv in E as (a & s1 & E1 & E); cbv beta iota zeta in E.

Create HintDb inv.
#[export] Hint Resolve inv_ret inv_lift inv_set_error inv_set_chunk_cells inv_set_request_cells inv_emit : inv.

Ltac inv_step :=
  match goal with
  | |- conn_inv _ (mbind get _) => apply inv_get; let s := fresh "s" in let Hs := fresh "Hs" in intros s Hs; cbv beta
  | |- conn_inv _ (mbind _ _) => apply inv_bind; [|intros ?]
  | |- conn_inv _ (set_conn _) => apply inv_set_conn; solve [eauto with inv]
  | |- conn_inv _ (if ?c then _ else _) => destruct c
  | |- conn_inv _ (match ?c with _ => _ end) => destruct c eqn:?
  | |- conn_inv _ _ => solve [eauto with inv]
  end.
Ltac inv_run := repeat (inv_step; cbv beta iota zeta).

Section Properties.
Context `{Allocator} `{Host} `{EndiannessCfg} {cfg : SOPC_Common_EncodingConstants} `{Crypto} `{!Toolkit}.

(** *** What the manager of the chunks keeps *)

(** A property of the connection that the assignments of the manager of the chunks keep:
    its own fields, the sequence numbers, the temporary data of an [OPN] message and the
    crypto provider. *)
Class Kept (I : SOPC_SecureConnection -> Prop) : Prop := {
  kept_set_ctx c x : I c -> I (set_ctx c x);
  kept_set_seq c x : I c -> I (set_tcpSeqProperties c x);
  kept_set_channel c n b : I c -> I (set_channel c n b);
  kept_set_provider c v : I c -> I (set_cryptoProvider c v);
  kept_set_info c v : I c -> I (set_serverAsymmSecuInfo c v);
  kept_set_next c v : I c -> I (set_clientNextReqId c v);
  kept_set_sizes c a b e : I c -> I (set_hasExtraPaddingSize (set_symmSecuMaxBodySize (set_asymmSecuMaxBodySize c a) b) e)
}.

(** The properties of the connection that were negotiated. *)
Definition has_tcp (p : SOPC_SecureConnection_TcpProperties) (c : SOPC_SecureConnection) : Prop := tcpMsgProperties c = p.

#[export] Instance kept_tcp p : Kept (has_tcp p).
Proof. done. Qed.

Section Kept.
Context {I : SOPC_SecureConnection -> Prop} `{!Kept I}.

#[local] Hint Extern 1 (I _) => apply kept_set_ctx : inv.
#[local] Hint Extern 1 (I _) => apply kept_set_seq : inv.
#[local] Hint Extern 1 (I _) => apply kept_set_channel : inv.
#[local] Hint Extern 1 (I _) => apply kept_set_provider : inv.
#[local] Hint Extern 1 (I _) => apply kept_set_info : inv.

Lemma kept_update_ctx f : conn_inv I (update_ctx f).
Proof. unfold update_ctx. inv_run. Qed.
Lemma kept_get_ctx : conn_inv I get_ctx.
Proof. unfold get_ctx. inv_run. Qed.
#[local] Hint Resolve kept_update_ctx kept_get_ctx : inv.

Lemma kept_GetNb : conn_inv I SOPC_ScInternalContext_GetNbIntermediateInputChunks.
Proof. unfold SOPC_ScInternalContext_GetNbIntermediateInputChunks. inv_run. Qed.
Lemma kept_AddIntermediate b : conn_inv I (SOPC_ScInternalContext_AddIntermediateInputChunk b).
Proof. unfold SOPC_ScInternalContext_AddIntermediateInputChunk. inv_run. Qed.
Lemma kept_ClearIntermediate : conn_inv I SOPC_ScInternalContext_ClearIntermediateInputChunks.
Proof. unfold SOPC_ScInternalContext_ClearIntermediateInputChunks. inv_run. Qed.
Lemma kept_ClearCurrent : conn_inv I SOPC_ScInternalContext_ClearCurrentInputChunkContext.
Proof. unfold SOPC_ScInternalContext_ClearCurrentInputChunkContext. inv_run. Qed.
#[local] Hint Resolve kept_GetNb kept_AddIntermediate kept_ClearIntermediate kept_ClearCurrent : inv.
Lemma kept_ClearInput : conn_inv I SOPC_ScInternalContext_ClearInputChunksContext.
Proof. unfold SOPC_ScInternalContext_ClearInputChunksContext. inv_run. Qed.
Lemma kept_read : conn_inv I read_chunk_UInt32.
Proof. unfold read_chunk_UInt32. inv_run. Qed.
Lemma kept_with_requests {A} f : conn_inv I (with_requests (A := A) f).
Proof. unfold with_requests. inv_run. Qed.
#[local] Hint Resolve kept_ClearInput kept_read @kept_with_requests : inv.
Lemma kept_CheckSymmetric : conn_inv I SC_Chunks_CheckSymmetricSecurityHeader.
Proof. unfold SC_Chunks_CheckSymmetricSecurityHeader. inv_run. Qed.
Lemma kept_CheckSN o : conn_inv I (SC_Chunks_CheckSequenceHeaderSN o).
Proof. unfold SC_Chunks_CheckSequenceHeaderSN, SC_Chunks_CheckSeqNumReceived. inv_run. Qed.
Lemma kept_CheckRequestId c f t : conn_inv I (SC_Chunks_CheckSequenceHeaderRequestId c f t).
Proof. unfold SC_Chunks_CheckSequenceHeaderRequestId. inv_run. Qed.
Lemma kept_Decrypt a b : conn_inv I (SC_Chunks_DecryptMsg a b).
Proof. unfold SC_Chunks_DecryptMsg. inv_run. Qed.
Lemma kept_Verify a b : conn_inv I (SC_Chunks_VerifyMsgSignature a b).
Proof. unfold SC_Chunks_VerifyMsgSignature. inv_run. Qed.
Lemma kept_RemovePadding : conn_inv I SOPC_Remove_Padding.
Proof. unfold SOPC_Remove_Padding. inv_run. Qed.
Lemma kept_merge n : conn_inv I (merge_final_chunk n).
Proof. unfold merge_final_chunk. inv_run. Qed.
Lemma kept_total : conn_inv I total_body_size.
Proof. unfold total_body_size. inv_run. Qed.
#[local] Hint Resolve kept_merge kept_total : inv.
Lemma kept_MultiChunks : conn_inv I SC_Chunks_TreatMsgMultiChunks.
Proof. unfold SC_Chunks_TreatMsgMultiChunks. inv_run. Qed.
Lemma kept_CheckMulti : conn_inv I SC_Chunks_CheckMultiChunkContext.
Proof. unfold SC_Chunks_CheckMultiChunkContext. inv_run. Qed.
#[local] Hint Resolve kept_CheckSymmetric kept_CheckSN kept_CheckRequestId kept_Decrypt kept_Verify kept_RemovePadding kept_MultiChunks kept_CheckMulti : inv.

Lemma kept_ByteString : conn_inv I read_chunk_ByteString.
Proof. unfold read_chunk_ByteString. inv_run. Qed.
Lemma kept_policy : conn_inv I read_chunk_policy.
Proof. unfold read_chunk_policy. inv_run. Qed.
#[local] Hint Resolve kept_ByteString kept_policy : inv.
Lemma kept_sender c h e t q st o : conn_inv I (check_sender_certificate c h e t q st o).
Proof. unfold check_sender_certificate, validate_sender_certificate. inv_run. Qed.
Lemma kept_receiver c e t r : conn_inv I (check_receiver_thumbprint c e t r).
Proof. unfold check_receiver_thumbprint, check_thumbprint. inv_run. Qed.
#[local] Hint Resolve kept_sender kept_receiver : inv.
Lemma kept_certificates e c : conn_inv I (SC_Chunks_DecodeAsymSecurityHeader_Certificates e c).
Proof. unfold SC_Chunks_DecodeAsymSecurityHeader_Certificates. inv_run. Qed.
Lemma kept_check_policy c cc sc q : conn_inv I (check_policy c cc sc q).
Proof. unfold check_policy. inv_run. Qed.
#[local] Hint Resolve kept_certificates kept_check_policy : inv.
Lemma kept_asymmetric_fields cc sc : conn_inv I (check_asymmetric_fields cc sc).
Proof. unfold check_asymmetric_fields, check_secure_mode. inv_run. Qed.
#[local] Hint Resolve kept_asymmetric_fields : inv.
Lemma kept_CheckAsymmetric : conn_inv I SC_Chunks_CheckAsymmetricSecurityHeader.
Proof. unfold SC_Chunks_CheckAsymmetricSecurityHeader, get_configurations. inv_run. Qed.
#[local] Hint Resolve kept_CheckAsymmetric : inv.
Lemma kept_channel_id o : conn_inv I (check_channel_id o).
Proof. unfold check_channel_id. inv_run. Qed.
Lemma kept_security_header o : conn_inv I (check_security_header o).
Proof. unfold check_security_header. inv_run. Qed.
#[local] Hint Resolve kept_channel_id kept_security_header : inv.
Lemma kept_secured o r : conn_inv I (treat_secured o r).
Proof. unfold treat_secured. inv_run. Qed.
#[local] Hint Resolve kept_secured : inv.
Lemma kept_payload r : conn_inv I (SC_Chunks_TreatTcpPayload r).
Proof. unfold SC_Chunks_TreatTcpPayload. inv_run. Qed.
Lemma kept_deliver r e : conn_inv I (deliver_message r e).
Proof. unfold deliver_message. inv_run. Qed.
#[local] Hint Resolve kept_payload kept_deliver : inv.
Lemma kept_treat_chunk r : conn_inv I (treat_chunk r).
Proof. unfold treat_chunk. inv_run. Qed.

End Kept.

End Properties.
