(* ===== verification/ChunksIdle.v ===== *)
(** * The context after a chunk

    A chunk that is treated with success leaves the context without current chunk, ready
    for the next one. *)

From Stdlib Require Import ZArith Lia.
From Stdlib Require Import Strings.Byte.
From stdpp Require Import prelude gmap.
From S2P Require Import Prelude Common LinkedList Buffer Codec EncScalar EncString Strings SecureConnection ToolkitConfig Chunks ChunksSpec ChunksStream.

Open Scope Z_scope.

Section Idle.
Context `{Allocator} `{Host} `{EndiannessCfg} {cfg : SOPC_Common_EncodingConstants} `{Crypto} `{!Toolkit}.

(** ** The functions that return their buffer *)

Ltac some_result :=
  repeat (case_match; cbn [rbind] in *; try done); intros; simplify_eq; done.

Lemma Buffer_Read_some d b n st d' b' : SOPC_Buffer_Read d (Some b) n = Ret (st, d', b') -> b' <> NULL.
Proof. unfold SOPC_Buffer_Read. destruct (data b), d; [destruct (memcpy _ _ _ _ _)|..]; some_result. Qed.

Lemma UInt32_Read_some v b l st v' b' : SOPC_UInt32_Read (Some v) (Some b) l = Ret (st, v', b') -> b' <> NULL.
Proof.
  unfold SOPC_UInt32_Read. destruct (_ <=? l); [by intros [= <- <- <-]|].
  destruct (SOPC_Buffer_Read _ _ _) as [[[st1 d1] b1]|] eqn:E; [|done]. cbn. apply Buffer_Read_some in E.
  destruct (is_ok st1); [|by intros [= <- <- <-]]. destruct (SOPC_EncodeDecode_UInt32 _); cbn; [by intros [= <- <- <-]|done].
Qed.

Lemma SetDataLength_some b n st b' : SOPC_Buffer_SetDataLength (Some b) n = Ret (st, b') -> b' <> NULL.
Proof.
  unfold SOPC_Buffer_SetDataLength. destruct (data b); [|by intros [= <- <-]]. destruct (_ && _); [|by intros [= <- <-]].
  match goal with |- context [rbind ?m _] => destruct m end; cbn; [by intros [= <- <-]|done].
Qed.

(** ** The current chunk stays there *)

Definition has_chunk (c : SOPC_SecureConnection) : Prop := currentChunkInputBuffer (chunksCtx c) <> NULL.

Lemma chunk_set_request_id c has id : has_chunk c -> has_chunk (set_ctx c (set_request_id (chunksCtx c) has id)).
Proof. done. Qed.
Lemma chunk_set_sequence c sn l : has_chunk c -> has_chunk (set_sequence c sn l).
Proof. done. Qed.
#[local] Hint Resolve chunk_set_request_id chunk_set_sequence : inv.

Lemma chunk_read : conn_inv has_chunk read_chunk_UInt32.
Proof.
  intros s a s' Hs. unfold read_chunk_UInt32, get_ctx, update_ctx, mbind, get, mret, lift, set_conn. cbn [rbind]. unfold has_chunk in *.
  destruct (currentChunkInputBuffer (chunksCtx (conn s))) as [b|]; [|done].
  destruct (SOPC_UInt32_Read _ _ _) as [[[st v] b']|] eqn:E; [|done]. cbn [rbind]. destruct v; cbn; [|done]. intros [= <- <-]. cbn.
  by apply UInt32_Read_some in E.
Qed.

Lemma chunk_update_request has id : conn_inv has_chunk (update_ctx (fun x => set_request_id x has id)).
Proof. by intros s a s' Hs [= <- <-]. Qed.
Lemma chunk_get_ctx : conn_inv has_chunk get_ctx.
Proof. unfold get_ctx. inv_run. Qed.
Lemma chunk_with_requests {A} f : conn_inv has_chunk (with_requests (A := A) f).
Proof. unfold with_requests. inv_run. Qed.
#[local] Hint Resolve chunk_read chunk_update_request chunk_get_ctx @chunk_with_requests : inv.

(** The request identifier is read in the chunk. *)
Lemma RequestId_chunk c f t : after (fun _ => True) (SC_Chunks_CheckSequenceHeaderRequestId c f t) (fun _ s => has_chunk (conn s)).
Proof.
  intros s a s' _. unfold SC_Chunks_CheckSequenceHeaderRequestId. rewrite bind_get_ctx.
  destruct (currentChunkInputBuffer (chunksCtx (conn s))) as [b|] eqn:Eb; [|done]. cbn [is_null negb].
  assert (has_chunk (conn s)) as Hc by (unfold has_chunk; by rewrite Eb). revert s a s' Hc Eb.
  assert (conn_inv has_chunk (SC_Chunks_CheckSequenceHeaderRequestId c f t)) as Hi by (unfold SC_Chunks_CheckSequenceHeaderRequestId; inv_run).
  intros s a s' Hc Eb E. eapply (Hi s); [done|]. unfold SC_Chunks_CheckSequenceHeaderRequestId. rewrite bind_get_ctx, Eb. exact E.
Qed.

Lemma chunk_Remove_Padding : after (fun _ => True) SOPC_Remove_Padding (fun _ s => has_chunk (conn s)).
Proof.
  unfold SOPC_Remove_Padding. eapply (after_bind _ _ (fun _ _ => True)); [done|]. intros s0.
  eapply (after_bind _ _ (fun _ _ => True)); [done|]. intros buffer.
  eapply (after_bind _ _ (fun a _ => a.2 <> NULL)).
  - destruct (hasExtraPaddingSize (conn s0)); [|by apply after_ret]. eapply (after_bind _ _ (fun _ _ => True)); [done|]. intros n.
    eapply (after_bind _ _ (fun a _ => a.2 <> NULL)).
    + apply after_lift. intros _ [st b] _ E. by apply SetDataLength_some in E.
    + intros [st b]. by apply after_ret.
  - intros [[st n] b]. eapply (after_bind _ _ (fun a _ => a.2 <> NULL)).
    + destruct (is_ok st); [|by apply after_ret]. eapply (after_bind _ _ (fun _ _ => True)); [done|]. intros b1.
      eapply (after_bind _ _ (fun _ _ => True)); [done|]. intros n1. apply after_lift. intros _ [st' b'] _ E. by apply SetDataLength_some in E.
    + intros [st1 b1]. eapply (after_bind _ _ (fun _ s => has_chunk (conn s))); [|intros; by apply after_ret]. by intros s a s' Hs [= <- <-].
Qed.

(** ** Ready for the next chunk *)

(** A message is there, or the header is forgotten. *)
Definition treated (c : SOPC_SecureConnection) : Prop := currentMessageInputBuffer (chunksCtx c) <> NULL \/ no_header (chunksCtx c).

Definition idle (c : SOPC_SecureConnection) : Prop := currentChunkInputBuffer (chunksCtx c) = NULL /\ no_header (chunksCtx c).

(** The intermediate chunks are counted and cleared without regard to the current one. *)
Lemma chunk_GetNb : conn_inv has_chunk SOPC_ScInternalContext_GetNbIntermediateInputChunks.
Proof. unfold SOPC_ScInternalContext_GetNbIntermediateInputChunks. inv_run. Qed.

Lemma chunk_update_chunks l : conn_inv has_chunk (update_ctx (fun x => set_chunks x l)).
Proof. by intros s a s' Hs [= <- <-]. Qed.
#[local] Hint Resolve chunk_GetNb chunk_update_chunks : inv.

Lemma chunk_ClearIntermediate : conn_inv has_chunk SOPC_ScInternalContext_ClearIntermediateInputChunks.
Proof. unfold SOPC_ScInternalContext_ClearIntermediateInputChunks. inv_run. Qed.

(** The last chunk of a message is merged with the others, or is the message. *)
Lemma merge_treated total : after (fun s => has_chunk (conn s)) (merge_final_chunk total) (fun ok s => ok = true -> treated (conn s)).
Proof.
  intros s ok s' Hc E ->. left. unfold merge_final_chunk in E. bind_step E as n s1 E1. apply chunk_GetNb in E1; [|done]. unfold has_chunk in E1.
  rewrite bind_get_ctx in E. destruct (0 <? n).
  - destruct (0 <? total); [|done]. destruct (SOPC_Buffer_Create total); [|by bind_step E as u s2 E2]. rewrite bind_get in E.
    bind_step E as r1 s2 E2. destruct r1 as [[m h] l]. bind_step E as u s3 E3. bind_step E as u1 s4 E4. bind_step E as b1 s5 E5.
    bind_step E as r2 s6 E6. destruct r2 as [[[ok rem] m2] b2]. destruct ok; [|done]. destruct (rem =? 0); [|done]. bind_step E as r s7 E7.
    destruct (r =? 0); [|done]. bind_step E as u2 s8 E8. injection E as <-. by injection E8 as <- <-.
  - bind_step E as u2 s8 E8. injection E as <-. by injection E8 as <- <-.
Qed.

Lemma chunk_total : conn_inv has_chunk total_body_size.
Proof. unfold total_body_size. inv_run. Qed.

Lemma MultiChunks_treated : after (fun s => has_chunk (conn s)) SC_Chunks_TreatMsgMultiChunks (fun ok s => ok = true -> treated (conn s)).
Proof.
  intros s ok s' Hc E ->. unfold SC_Chunks_TreatMsgMultiChunks in E. rewrite bind_get in E. cbv zeta in E.
  set (x := chunksCtx (conn s)) in *. destruct (bool_decide _); [|done]. bind_step E as f s1 E1. destruct f as [[[chk add] mrg] clr].
  assert (s1 = s /\ (add = negb mrg) /\ (clr = true -> mrg = true)) as (-> & -> & Hclr) by (destruct (currentMsgIsFinal x); [discriminate E1|..]; by injection E1 as <- <- <- <- <-).
  bind_step E as total s2 E2.
  assert (has_chunk (conn s2)) as Hc2 by (destruct chk; [by apply chunk_total in E2|by injection E2 as <- <-]). destruct (chk && _); [by bind_step E as u s3 E3|].
  bind_step E as added s3 E3. destruct added; [|done]. cbn [negb] in E. bind_step E as u s4 E4. bind_step E as merged s5 E5.
  destruct merged; [|done]. cbn [negb] in E. rewrite bind_get_ctx in E. destruct (is_null _); [|done]. injection E as <-.
  destruct mrg; cbn [negb] in E3.
  - injection E3 as <-. eapply (merge_treated total s4); [|done..]. destruct clr; [by apply chunk_ClearIntermediate in E4|by injection E4 as <- <-].
  - injection E5 as <-. destruct clr; [by discriminate Hclr|]. injection E4 as <- <-. bind_step E3 as ok s6 E6.
    destruct ok; [|by bind_step E3 as u1 s7 E7]. bind_step E3 as u1 s7 E7. bind_step E3 as u2 s8 E8. injection E3 as <-. injection E8 as <- <-. by right.
Qed.

Lemma secured_chunk o r : after (fun _ => True) (treat_secured o r) (fun a s => a.1.1 = true -> has_chunk (conn s)).
Proof.
  intros s a s' _ E Ha. unfold treat_secured in E. bind_step E as r1 s1 E1. destruct r1; [|by injection E as <- <-]. cbn [negb] in E.
  bind_step E as r2 s2 E2. destruct r2 as [[[ok dec] sig] prev]. destruct ok; [|by injection E as <- <-]. cbn [negb] in E.
  bind_step E as r3 s3 E3. destruct r3; [|bind_step E as u s4 E4; by injection E as <- <-]. cbn [negb] in E.
  bind_step E as r4 s4 E4. destruct r4 as [ok pos]. destruct ok; [|bind_step E as u s5 E5; by injection E as <- <-]. cbn [negb] in E.
  bind_step E as u s5 E5. bind_step E as r6 s6 E6. destruct r6; [|by injection E as <- <-]. cbn [negb] in E. rewrite bind_get in E.
  bind_step E as r7 s7 E7. destruct r7 as [[ok rid] ex]. apply RequestId_chunk in E7; [|done]. destruct ok; [|by injection E as <- <-]. cbn [negb] in E.
  destruct dec; [|by injection E as <- <-]. bind_step E as r8 s8 E8. apply chunk_Remove_Padding in E8; [|done].
  destruct r8; [by injection E as <- <-|bind_step E as u1 s9 E9; by injection E as <- <-].
Qed.

Lemma payload_treated r : after (fun s => has_chunk (conn s)) (SC_Chunks_TreatTcpPayload r) (fun a s => a.1.1 = true -> treated (conn s)).
Proof.
  intros s a s' Hc E Ha. unfold SC_Chunks_TreatTcpPayload in E. rewrite bind_get in E. bind_step E as f s1 E1. destruct f as [[ok asym] sym].
  assert (s1 = s) as -> by (unfold lift in E1; destruct (expected_headers _); [|done]; by injection E1).
  destruct ok; [|bind_step E as u s2 E2; by injection E as <- <-]. cbn [negb] in E. bind_step E as r2 s2 E2. destruct r2 as [[ok rid] ex].
  destruct ok; [|by injection E as <- <-]. cbn [negb] in E.
  assert (has_chunk (conn s2)) as Hc2. { destruct (asym || sym); [by apply secured_chunk in E2; [apply E2|]|by injection E2 as <- <- <-]. }
  rewrite bind_get_ctx in E. bind_step E as ok s3 E3. injection E as <- <-. cbn [fst] in Ha. destruct (bool_decide _).
  - by apply MultiChunks_treated in E3; [apply E3|].
  - bind_step E3 as u s4 E4. injection E3 as <- <-. injection E4 as <- <-. left. exact Hc2.
Qed.

Lemma deliver_idle r e : after (fun s => treated (conn s) /\ currentChunkInputBuffer (chunksCtx (conn s)) = NULL) (deliver_message r e) (fun _ s => idle (conn s)).
Proof.
  intros s a s' [Ht Hn] E. unfold deliver_message in E. rewrite bind_get_ctx in E.
  destruct (currentMessageInputBuffer (chunksCtx (conn s))) as [m|] eqn:Em.
  - bind_step E as u1 s1 E1. bind_step E as u2 s2 E2. unfold SOPC_ScInternalContext_ClearInputChunksContext in E. bind_step E as u3 s3 E3.
    bind_step E as u4 s4 E4. injection E4 as <- <-. injection E as <- <-. done.
  - injection E as <- <-. split; [done|]. by destruct Ht.
Qed.

(** The context after a chunk that was accepted. *)
Lemma treat_chunk_idle r : after (fun s => has_chunk (conn s)) (treat_chunk r) (fun a s => a.1 = true -> idle (conn s)).
Proof.
  intros s a s' Hc E Ha. unfold treat_chunk in E. bind_step E as ok s1 E1.
  assert (has_chunk (conn s1)) as Hc1.
  { revert E1. unfold SC_Chunks_CheckMultiChunkContext. intros E1. rewrite bind_get in E1. bind_step E1 as n s2 E2. apply chunk_GetNb in E2; [|done].
    destruct (_ && _); [bind_step E1 as u s3 E3; injection E1 as <- <-; by injection E3 as <- <-|by injection E1 as <- <-]. }
  bind_step E as f s2 E2. destruct f as [[ok2 rid] ex]. destruct ok2; [|by injection E as <- <-]. cbn [negb] in E.
  destruct ok; [|done]. apply payload_treated in E2; [|done]. rewrite bind_get_ctx in E.
  destruct (currentChunkInputBuffer (chunksCtx (conn s2))) eqn:Ec; [done|]. cbn [is_null] in E. bind_step E as u s3 E3. injection E as <- <-.
  apply deliver_idle in E3; [done|]. split; [by apply E2|done].
Qed.
End Idle.
