(* ===== verification/ChunksProps.v ===== *)
(** * Properties of the reception of chunks

    The received bytes are treated in the same way however the network cuts them, and the
    context always stays ready for the bytes to come. *)

From Stdlib Require Import ZArith Lia.
From Stdlib Require Import Strings.Byte.
From stdpp Require Import prelude gmap.
From S2P Require Import Prelude Common LinkedList Buffer Codec EncScalar EncString Strings SecureConnection ToolkitConfig Chunks ChunksSpec ChunksStream ChunksIdle.

Open Scope Z_scope.

Section Reception.
Context `{Allocator} `{Host} `{EndiannessCfg} {cfg : SOPC_Common_EncodingConstants} `{Crypto} `{!Toolkit}.
Context `{!EndiannessDetected}.
Hypothesis nested : 0 < max_nested_struct cfg.
Hypothesis served : forall n, alloc_ok n = true.

Variable p : SOPC_SecureConnection_TcpProperties.
Hypothesis buffer_size : SOPC_TCP_UA_HEADER_LENGTH <= receiveBufferSize p <= 2 ^ 31.

(** The context waits for the start or for the rest of a chunk. *)
Definition receptive (c : SOPC_SecureConnection) : Prop := has_tcp p c /\ (idle c \/ framed (chunksCtx c)).

(** The context in which the bytes are decoded. *)
Definition start (c : SOPC_SecureConnection) : SOPC_SecureConnection_ChunkMgrCtx :=
  set_chunk (chunksCtx c) (match currentChunkInputBuffer (chunksCtx c) with
                           | NULL => SOPC_Buffer_Create (receiveBufferSize (tcpMsgProperties c))
                           | Some b => Some b
                           end).

Lemma Create_served n : 0 < n -> exists b, SOPC_Buffer_Create n = Some b /\ length_ b = 0 /\ current_size b = n /\ initial_size b = n.
Proof.
  intros Hn. unfold SOPC_Buffer_Create, SOPC_Buffer_Init, SOPC_Calloc. rewrite !served. replace (0 <? n) with true by lia. cbn.
  replace (n <=? 0) with false by lia. replace (n <? n) with false by lia. cbn. by eexists.
Qed.

Lemma start_continued c : framed (chunksCtx c) -> start c = chunksCtx c.
Proof. intros (b & E & _). unfold start. rewrite E. destruct (chunksCtx c). cbn in *. by subst. Qed.

Lemma start_framed c : receptive c -> framed (start c).
Proof.
  intros [T [[N Hn]|F]].
  - unfold SOPC_TCP_UA_HEADER_LENGTH in *. destruct (Create_served (receiveBufferSize p)) as (b & E & L & C & _); [lia|].
    destruct (SOPC_Buffer_Create_spec (receiveBufferSize p) b ltac:(lia) E) as (I & _ & P & M). unfold has_tcp in T.
    unfold start. rewrite N, T, E. exists b. split; [done|]. split; [done|]. split; [unfold small; lia|]. split; [lia|].
    split; [unfold SOPC_TCP_UA_HEADER_LENGTH; lia|]. left. split; [done|]. unfold SOPC_TCP_UA_HEADER_LENGTH. lia.
  - by rewrite start_continued.
Qed.

(** ** The bytes, without their buffer *)

Fixpoint treat_bytes (fuel : nat) (bs : block) (r : Z) : M bool :=
  match bs with
  | [] => mret true
  | _ =>
      match fuel with
      | O => lift (Fault OutOfFuel)
      | S fuel =>
          let! s := get in
          let! (decoded, error, x, k) := lift (decode_bytes (start (conn s)) bs) in
          let! _ := update_ctx (fun _ => x) in
          let! _ := set_error error in
          if negb decoded then mret (error =? SOPC_GoodGenericStatus)
          else
            let! (result, r) := treat_chunk r in
            if negb result then mret false else treat_bytes fuel (drop (Z.to_nat k) bs) r
      end
  end.

(** The state after the decoding. *)
Definition decoded_state (s : chunk_state) (x : SOPC_SecureConnection_ChunkMgrCtx) (e : Z) : chunk_state :=
  mkState (set_ctx (conn s) x) e (chunk_cells s) (request_cells s) (trace s).

Lemma bind_decoded {A} x e (k : unit -> M A) s :
  mbind (update_ctx (fun _ => x)) (fun _ => mbind (set_error e) k) s = k tt (decoded_state s x e).
Proof. done. Qed.

(** The turn of the loop on the bytes, given the result of their decoding. *)
Lemma treat_bytes_cons fuel bs r s d e x k : bs <> [] -> decode_bytes (start (conn s)) bs = Ret (d, e, x, k) ->
  treat_bytes (S fuel) bs r s =
    (if negb d then mret (e =? SOPC_GoodGenericStatus)
     else
       let! (result, r) := treat_chunk r in
       if negb result then mret false else treat_bytes fuel (drop (Z.to_nat k) bs) r) (decoded_state s x e).
Proof. intros N E. destruct bs as [|y bs]; [done|]. cbn [treat_bytes]. rewrite bind_get. unfold mbind at 1, lift. rewrite E. done. Qed.

Lemma decoded_complete s x e b : complete_chunk x b -> has_chunk (conn (decoded_state s x e)).
Proof. intros (E & _). unfold has_chunk. cbn. by rewrite E. Qed.

Lemma decoded_tcp s x e : has_tcp p (conn s) -> has_tcp p (conn (decoded_state s x e)).
Proof. done. Qed.

(** The error status that an earlier chunk has left is not used. *)
Record similar (s1 s2 : chunk_state) : Prop := {
  similar_conn : conn s1 = conn s2;
  similar_chunks : chunk_cells s1 = chunk_cells s2;
  similar_requests : request_cells s1 = request_cells s2;
  similar_trace : map observable (trace s1) = map observable (trace s2)
}.

#[export] Instance similar_equivalence : Equivalence similar.
Proof. split; [by split|by intros ?? []|]. intros ??? [? ? ? ?] [? ? ? ?]. split; etrans; eassumption. Qed.

Lemma same_similar s1 s2 : same s1 s2 -> similar s1 s2.
Proof. by intros []. Qed.

(** Results of the loop: the error status is that of the failure, if there is one. *)
Definition outcome (r1 r2 : res (bool * chunk_state)) : Prop :=
  match r1, r2 with
  | Ret (true, s1), Ret (true, s2) => similar s1 s2
  | Ret (false, s1), Ret (false, s2) => same s1 s2
  | Fault f1, Fault f2 => f1 = f2
  | _, _ => False
  end.

Lemma outcome_trans r1 r2 r3 : outcome r1 r2 -> outcome r2 r3 -> outcome r1 r3.
Proof.
  unfold outcome. destruct r1 as [[[] s1]|], r2 as [[[] s2]|], r3 as [[[] s3]|]; try done; [by intros; etrans..|congruence].
Qed.

Lemma outcome_agree r1 r2 : agree eq r1 r2 -> outcome r1 r2.
Proof.
  unfold agree, outcome. destruct r1 as [[a s1]|], r2 as [[b s2]|]; try done; try (by destruct a || by destruct b).
  intros [-> Hs]. destruct b; [by apply same_similar|done].
Qed.

Lemma decoded_same s1 s2 x e : similar s1 s2 -> same (decoded_state s1 x e) (decoded_state s2 x e).
Proof. intros [E1 E2 E3 E4]. split; try done. cbn. by rewrite E1. Qed.

(** A chunk that is accepted leaves the context ready. *)
Lemma chunk_receptive r s r' s' x b : chunksCtx (conn s) = x -> complete_chunk x b -> has_tcp p (conn s) ->
  treat_chunk r s = Ret ((true, r'), s') -> receptive (conn s').
Proof.
  intros Ex (E & _) T Et. split.
  - by apply (kept_treat_chunk (I := has_tcp p) r s (true, r') s').
  - left. apply (treat_chunk_idle r s (true, r') s'); [|done|done]. unfold has_chunk. by rewrite Ex, E.
Qed.

(** The loop reads the bytes of the buffer, and nothing else of it. *)
Lemma treat_received_bytes fuel rb r s : receptive (conn s) -> Buffer_Inv rb ->
  treat_received fuel rb r s = treat_bytes fuel (upcoming rb) r s.
Proof.
  revert rb r s. induction fuel as [|fuel IH]; intros rb r s Hr I; pose proof (zlen_upcoming rb I) as U; pose proof I as [_ ? ? ? ? _].
  all: cbn [treat_received]; unfold SOPC_Buffer_Remaining; rewrite bind_lift, u32_small by lia.
  all: destruct (upcoming rb) as [|y bs] eqn:Eu; [replace (length_ rb - position rb <=? 0) with true by (rewrite <- U; done); done|].
  all: replace (length_ rb - position rb <=? 0) with false by (rewrite <- U, zlen_cons; pose proof (zlen_nonneg bs); lia); try done.
  rewrite bind_get. cbv zeta. pose proof (start_framed _ Hr) as F. fold (start (conn s)).
  assert (is_null (match currentChunkInputBuffer (chunksCtx (conn s)) with NULL => SOPC_Buffer_Create (receiveBufferSize (tcpMsgProperties (conn s))) | Some b => Some b end) = false) as ->.
  { destruct F as (b & E & _). unfold start in E. cbn in E. by rewrite E. }
  rewrite DecodeReceivedBuffer_spec by done. rewrite Eu. destruct (decode_bytes_spec nested (start (conn s)) (y :: bs) F) as (d & e & x & k & D & Hk & _ & _ & C).
  rewrite (treat_bytes_cons fuel (y :: bs) r s d e x k) by done. rewrite D. cbn [rbind]. rewrite bind_lift.
  rewrite bind_decoded. cbv beta. destruct d; [|done]. cbn [negb]. unfold mbind.
  destruct (treat_chunk r (decoded_state s x e)) as [[[ok r'] s']|] eqn:Et; [|done]. cbn [rbind]. destruct ok; [|done]. cbn [negb].
  destruct C as [(_ & _ & [b Hb] & _)|[(E & _)|(E & _)]]; [|done..]. rewrite IH.
  - rewrite upcoming_advance by (done || lia). by rewrite Eu.
  - eapply (chunk_receptive r (decoded_state s x e)); [reflexivity|done|apply Hr|done].
  - apply Buffer_Inv_advance; [done|]. rewrite Eu. lia.
Qed.

Lemma treat_bytes_tcp fuel bs r : conn_inv (has_tcp p) (treat_bytes fuel bs r).
Proof.
  revert bs r. induction fuel as [|fuel IH]; intros [|y bs] r; cbn [treat_bytes]; try apply inv_ret; try apply inv_lift.
  apply inv_get. intros s0 _. apply inv_bind; [apply inv_lift|]. intros [[[d e] x] k]. apply inv_bind; [apply kept_update_ctx|]. intros _.
  apply inv_bind; [apply inv_set_error|]. intros _. destruct d; [|apply inv_ret]. apply inv_bind; [apply kept_treat_chunk|]. intros [[] r']; [apply IH|apply inv_ret].
Qed.

(** ** Independence of the segments *)

Lemma drop_shorter (k : Z) (bs : block) (n : nat) : 0 < k <= zlen bs -> (length bs <= S n)%nat -> (length (drop (Z.to_nat k) bs) <= n)%nat.
Proof. intros Hk L. rewrite length_drop. unfold zlen in Hk. lia. Qed.

(** Enough fuel is one turn for each byte, and the identifier of an earlier chunk has no
    visible effect. *)
Lemma rel_treat_bytes n : forall bs f1 f2 r1 r2 s1 s2, (length bs <= n)%nat -> (n <= f1)%nat -> (n <= f2)%nat ->
  similar s1 s2 -> receptive (conn s1) -> outcome (treat_bytes f1 bs r1 s1) (treat_bytes f2 bs r2 s2).
Proof.
  induction n as [|n IH]; intros bs f1 f2 r1 r2 s1 s2 L L1 L2 Hs Hr.
  - destruct bs; [|cbn in L; lia]. by destruct f1, f2.
  - destruct (decide (bs = [])) as [->|N]; [by destruct f1, f2|]. destruct f1 as [|f1], f2 as [|f2]; try lia.
    destruct (decode_bytes_spec nested (start (conn s1)) bs (start_framed _ Hr)) as (d & e & x & k & D & Hk & Kp & _ & C).
    rewrite (treat_bytes_cons f1 bs r1 s1 d e x k) by done. rewrite (treat_bytes_cons f2 bs r2 s2 d e x k) by (by rewrite <- ?(similar_conn _ _ Hs)).
    pose proof (decoded_same s1 s2 x e Hs) as Hd. destruct d; cbn [negb]; [|apply outcome_agree; by split]. destruct C as [(_ & _ & [b Hb] & _)|[(E & _)|(E & _)]]; [|done..].
    pose proof (rel_treat_chunk r1 r2 _ _ Hd) as A. unfold mbind, agree in *.
    destruct (treat_chunk r1 (decoded_state s1 x e)) as [[[ok ra] t1]|] eqn:E1, (treat_chunk r2 (decoded_state s2 x e)) as [[[ok' rb] t2]|]; try done.
    destruct A as [A1 A2]. cbn [fst] in A1. subst ok'. cbn [rbind]. destruct ok; [|exact A2]. cbn [negb]. apply same_similar in A2.
    apply IH; [by apply drop_shorter; [specialize (Kp N); lia|]|lia|lia|done|]. eapply (chunk_receptive r1 (decoded_state s1 x e)); [reflexivity|done|apply Hr|done].
Qed.

(** The treatment of a complete chunk, and of the bytes that follow. *)
Definition turn (f : nat) (bs : block) (r : Z) : M bool :=
  let! (result, r) := treat_chunk r in if negb result then mret false else treat_bytes f bs r.

Lemma turn_agree bs f1 f2 r1 r2 s1 s2 b : (length bs <= f1)%nat -> (length bs <= f2)%nat -> same s1 s2 -> has_tcp p (conn s1) ->
  complete_chunk (chunksCtx (conn s1)) b -> outcome (turn f1 bs r1 s1) (turn f2 bs r2 s2).
Proof.
  intros L1 L2 Hs T Hb. pose proof (rel_treat_chunk r1 r2 _ _ Hs) as A. unfold turn, mbind, agree in A |- *.
  destruct (treat_chunk r1 s1) as [[[ok ra] t1]|] eqn:E1, (treat_chunk r2 s2) as [[[ok' rb] t2]|]; try done.
  destruct A as [A1 A2]. cbn [fst] in A1. subst ok'. cbn [rbind]. destruct ok; [|exact A2]. cbn [negb].
  apply (rel_treat_bytes (length bs)); try done; [by apply same_similar|]. by eapply (chunk_receptive r1 s1).
Qed.

(** What is expected of two segments: the first one leaves the context ready when it is
    accepted, and the second one goes on from there. *)
Definition segments_agree (f f1 f2 : nat) (a b : block) (r r1 r2 : Z) (s : chunk_state) : Prop :=
  match treat_bytes f1 a r1 s with Ret (true, s1) => receptive (conn s1) | _ => True end /\
  outcome (treat_bytes f (a ++ b) r s) ((let! ok := treat_bytes f1 a r1 in if ok : bool then treat_bytes f2 b r2 else mret false) s).

(** The first segment ends inside a chunk. *)
Lemma segments_incomplete a b f f1 f2 r r1 r2 s x : (length (a ++ b) <= S f)%nat -> (length b <= f2)%nat -> a <> [] -> receptive (conn s) ->
  decode_bytes (start (conn s)) a = Ret (false, SOPC_GoodGenericStatus, x, zlen a) -> framed x ->
  (forall more, decode_bytes (start (conn s)) (a ++ more) = let* (d, e, x, k') := decode_bytes x more in Ret (d, e, x, zlen a + k')) ->
  segments_agree (S f) (S f1) f2 a b r r1 r2 s.
Proof.
  intros L L2 N Hr D F M. assert (a ++ b <> []) as Nab by (by destruct a). unfold segments_agree, mbind at 1.
  rewrite (treat_bytes_cons f1 a r1 s _ _ _ _ N D). cbn [negb]. change (mret (SOPC_GoodGenericStatus =? SOPC_GoodGenericStatus)) with (@mret _ bool true).
  set (sd := decoded_state s x SOPC_GoodGenericStatus). assert (receptive (conn sd)) as Rd by (split; [apply Hr|right; exact F]).
  split; [exact Rd|]. cbn [mret rbind]. destruct (decide (b = [])) as [->|Nb].
  { rewrite app_nil_r in *. rewrite (treat_bytes_cons f a r s _ _ _ _ N D). by destruct f2. }
  assert (start (conn sd) = x) as Ex by (by apply start_continued). specialize (M b). assert (0 < length b)%nat by (destruct b; [done|cbn; lia]).
  destruct f2 as [|f2]; [lia|]. destruct (decode_bytes_spec nested x b F) as (d & e & x2 & k & D2 & Hk & Kp & _ & C). assert (0 < k <= zlen b) as Hk' by (specialize (Kp Nb); lia). rewrite D2 in M. cbn [rbind] in M.
  rewrite (treat_bytes_cons f (a ++ b) r s _ _ _ _ Nab M). rewrite (treat_bytes_cons f2 b r2 sd d e x2 k Nb) by (by rewrite Ex).
  change (decoded_state sd x2 e) with (decoded_state s x2 e). destruct d; cbn [negb]; [|apply outcome_agree; by split].
  destruct C as [(_ & -> & [c Hc] & _)|[(E & _)|(E & _)]]; [|done..].
  replace (drop (Z.to_nat (zlen a + k)) (a ++ b)) with (drop (Z.to_nat k) b)
    by (rewrite Z2Nat.inj_add by (pose proof (zlen_nonneg a); lia); unfold zlen; by rewrite Nat2Z.id, drop_app_add).
  rewrite length_app in L. apply (turn_agree _ f f2 r r2 _ _ c); [|by apply drop_shorter|done|apply Hr|done]. apply drop_shorter; [done|]. lia.
Qed.

Lemma segments n : forall a b f f1 f2 r r1 r2 s, (length a <= n)%nat -> (length (a ++ b) <= f)%nat -> (length a <= f1)%nat -> (length b <= f2)%nat ->
  receptive (conn s) -> segments_agree f f1 f2 a b r r1 r2 s.
Proof.
  induction n as [|n IH]; intros a b f f1 f2 r r1 r2 s La L L1 L2 Hr; (destruct (decide (a = [])) as [->|N];
    [unfold segments_agree; replace (treat_bytes f1 [] r1) with (@mret _ bool true) by (by destruct f1); split; [done|]; cbn [app]; cbn in L;
     apply (rel_treat_bytes (length b)); (done || lia)|]).
  { destruct a; [done|cbn in La; lia]. }
  assert (a ++ b <> []) as Nab by (by destruct a). assert (0 < length a)%nat by (destruct a; [done|cbn; lia]). pose proof (length_app a b).
  destruct f as [|f], f1 as [|f1]; try lia.
  destruct (decode_bytes_spec nested (start (conn s)) a (start_framed _ Hr)) as (d & e & x & k & D & Hk & Kp & _ & C).
  assert (0 < k <= zlen a) as Hk' by (specialize (Kp N); lia). destruct C as [(-> & -> & [c Hc] & M)|[(-> & Ne & M)|(-> & -> & -> & F & M)]]; [| |by apply (segments_incomplete a b f f1 f2 r r1 r2 s x)].
  - unfold segments_agree, mbind at 1. rewrite (treat_bytes_cons f (a ++ b) r s _ _ _ _ Nab (M b)), (treat_bytes_cons f1 a r1 s _ _ _ _ N D). cbn [negb].
    set (sd := decoded_state s x SOPC_GoodGenericStatus). rewrite drop_app_le by (unfold zlen in Hk; lia).
    assert (length (drop (Z.to_nat k) a) <= n)%nat as Ln by (by apply drop_shorter). assert (length (drop (Z.to_nat k) a ++ b) <= f)%nat as Lf.
    { rewrite length_app, length_drop. unfold zlen in Hk. lia. }
    assert (outcome (turn f (drop (Z.to_nat k) a ++ b) r sd) (turn f (drop (Z.to_nat k) a ++ b) r1 sd)) as A
      by (by apply (turn_agree _ f f r r1 _ _ c); [..|apply Hr|]).
    unfold turn at 2, mbind in A. unfold mbind at 1 3. destruct (treat_chunk r1 sd) as [[[ok rb] t2]|] eqn:E2; [|by split]. cbn [rbind] in A |- *.
    destruct ok; [|by split]. cbn [negb] in A |- *.
    assert (receptive (conn t2)) as R2 by (eapply (chunk_receptive r1 sd); [reflexivity|done|apply Hr|done]).
    destruct (IH (drop (Z.to_nat k) a) b f f1 f2 rb rb r2 t2) as [I1 I2]; [done..|by apply drop_shorter; [|lia]|done|done|]. split; [exact I1|].
    eapply outcome_trans; [exact A|]. exact I2.
  - unfold segments_agree, mbind at 1. rewrite (treat_bytes_cons f (a ++ b) r s _ _ _ _ Nab (M b)), (treat_bytes_cons f1 a r1 s _ _ _ _ N D). cbn [negb].
    assert ((e =? SOPC_GoodGenericStatus) = false) as -> by lia. by split.
Qed.

(** The loop of the function on a received buffer. *)
Definition treat_segment (rb : SOPC_Buffer) : M bool :=
  let! _ := set_error SOPC_GoodGenericStatus in treat_received (Z.to_nat (length_ rb)) rb 0.

(** The end of the function: a failure is notified and the context is cleared. *)
Definition end_segment (result : bool) : M unit :=
  if negb result then
    let! s := get in
    let! _ := emit (EnqueueEvent true INT_SC_RCV_FAILURE NULL (errorStatus s)) in
    SOPC_ScInternalContext_ClearInputChunksContext
  else mret tt.

Lemma TreatReceivedBuffer_eq rb s : position rb = 0 ->
  SC_Chunks_TreatReceivedBuffer rb s = (let! result := treat_segment rb in end_segment result) s.
Proof. intros P. unfold SC_Chunks_TreatReceivedBuffer. rewrite P. done. Qed.

Definition equivalent (r1 r2 : res (unit * chunk_state)) : Prop :=
  match r1, r2 with
  | Ret (_, s1), Ret (_, s2) => similar s1 s2
  | Fault f1, Fault f2 => f1 = f2
  | _, _ => False
  end.

Lemma end_segment_outcome r1 r2 : outcome r1 r2 ->
  equivalent (let* (ok, s) := r1 in end_segment ok s) (let* (ok, s) := r2 in end_segment ok s).
Proof.
  unfold outcome. destruct r1 as [[[] s1]|], r2 as [[[] s2]|]; try done. intros Hs. unfold end_segment. cbn [rbind negb]. rewrite !bind_get.
  rewrite (same_error _ _ Hs).
  assert (rel eq (let! _ := emit (EnqueueEvent true INT_SC_RCV_FAILURE NULL (errorStatus s2)) in SOPC_ScInternalContext_ClearInputChunksContext)
    (let! _ := emit (EnqueueEvent true INT_SC_RCV_FAILURE NULL (errorStatus s2)) in SOPC_ScInternalContext_ClearInputChunksContext)) as R.
  { apply rel_bind_eq; [by apply rel_emit|]. intros _. apply rel_ClearInput. }
  specialize (R s1 s2 Hs). unfold agree in R. unfold equivalent. destruct (mbind _ _ s1) as [[u1 t1]|], (mbind _ _ s2) as [[u2 t2]|]; try done.
  by apply same_similar, R.
Qed.

Definition with_error (s : chunk_state) (e : Z) : chunk_state := mkState (conn s) e (chunk_cells s) (request_cells s) (trace s).

Lemma treat_segment_bytes rb s : receptive (conn s) -> Buffer_Inv rb -> position rb = 0 ->
  treat_segment rb s = treat_bytes (length (upcoming rb)) (upcoming rb) 0 (with_error s SOPC_GoodGenericStatus).
Proof.
  intros Hr I P. pose proof (zlen_upcoming rb I) as U. unfold treat_segment. change (mbind (set_error ?e) ?k s) with (k tt (with_error s e)). cbv beta.
  rewrite treat_received_bytes by done. do 2 f_equal. unfold zlen in U. lia.
Qed.

Lemma segment_result rb s : receptive (conn s) -> Buffer_Inv rb -> position rb = 0 ->
  match treat_segment rb s with
  | Ret (true, s1) => receptive (conn s1) /\ SC_Chunks_TreatReceivedBuffer rb s = Ret (tt, s1)
  | _ => True
  end.
Proof.
  intros Hr I P. destruct (treat_segment rb s) as [[[] s1]|] eqn:E; try done. split.
  - rewrite treat_segment_bytes in E by done.
    destruct (segments (length (upcoming rb)) (upcoming rb) [] (length (upcoming rb ++ [])) (length (upcoming rb)) 0 0 0 0 (with_error s SOPC_GoodGenericStatus)) as [R _];
      [done..|]. by rewrite E in R.
  - rewrite TreatReceivedBuffer_eq by done. unfold mbind. by rewrite E.
Qed.

(** C5: the treatment of the received bytes does not depend on how the network cuts them.
    When the first of two segments is accepted, the second one goes on from the state it
    leaves, and both together have the effects of a single segment with all the bytes:
    same connection, same lists, same events and same faults.  When the first segment is
    refused, the single segment is refused with the same status. *)
Theorem segmentation_independent (rb a b : SOPC_Buffer) (s : chunk_state) :
  receptive (conn s) -> Buffer_Inv rb -> Buffer_Inv a -> Buffer_Inv b ->
  position rb = 0 -> position a = 0 -> position b = 0 -> upcoming rb = upcoming a ++ upcoming b ->
  match treat_segment a s with
  | Ret (true, s1) =>
      SC_Chunks_TreatReceivedBuffer a s = Ret (tt, s1) /\
      equivalent (SC_Chunks_TreatReceivedBuffer rb s) (SC_Chunks_TreatReceivedBuffer b s1)
  | _ => equivalent (SC_Chunks_TreatReceivedBuffer rb s) (SC_Chunks_TreatReceivedBuffer a s)
  end.
Proof.
  intros Hr Irb Ia Ib Prb Pa Pb E. pose proof (segment_result a s Hr Ia Pa) as Sa.
  destruct (segments (length (upcoming a)) (upcoming a) (upcoming b) (length (upcoming rb)) (length (upcoming a)) (length (upcoming b)) 0 0 0
    (with_error s SOPC_GoodGenericStatus)) as [_ S]; [done|by rewrite E|done..|].
  rewrite <- E, <- (treat_segment_bytes rb s) in S by done. unfold mbind in S. rewrite <- (treat_segment_bytes a s) in S by done.
  rewrite (TreatReceivedBuffer_eq rb), (TreatReceivedBuffer_eq a) by done. unfold mbind.
  destruct (treat_segment a s) as [[ok s1]|]; [destruct ok|]; cbn [rbind] in S |- *.
  - split; [done|]. destruct Sa as [Ra _]. rewrite (TreatReceivedBuffer_eq b) by done. unfold mbind. apply end_segment_outcome.
    rewrite (treat_segment_bytes b) by done. eapply outcome_trans; [exact S|]. by apply (rel_treat_bytes (length (upcoming b))).
  - apply (end_segment_outcome _ (Ret (false, s1)) S).
  - apply (end_segment_outcome _ (Fault f) S).
Qed.

(** C25: whatever bytes are received, the context is ready for the next ones after the
    call: either it has no current chunk, or it holds the start of one, with the header
    fields that were read and room for the rest. *)
Theorem reception_invariant (rb : SOPC_Buffer) (s s' : chunk_state) :
  receptive (conn s) -> Buffer_Inv rb -> SC_Chunks_TreatReceivedBuffer rb s = Ret (tt, s') -> receptive (conn s').
Proof.
  intros Hr I E. destruct (decide (position rb = 0)) as [P|N].
  2: { unfold SC_Chunks_TreatReceivedBuffer in E. by replace (position rb =? 0) with false in E by lia. }
  pose proof (segment_result rb s Hr I P) as S. rewrite TreatReceivedBuffer_eq in E by done. bind_step E as ok s1 E1. rewrite E1 in S.
  destruct ok; [by injection E as <-; destruct S|]. split.
  - unfold end_segment in E. cbn [negb] in E. rewrite bind_get in E. bind_step E as u s2 E2. apply (kept_ClearInput (I := has_tcp p)) in E; [done|].
    injection E2 as <- <-. cbn. revert E1. rewrite (treat_segment_bytes rb s Hr I P). apply treat_bytes_tcp. apply Hr.
  - left. unfold end_segment in E. cbn [negb] in E. rewrite bind_get in E. bind_step E as u s2 E2. unfold SOPC_ScInternalContext_ClearInputChunksContext in E.
    bind_step E as u3 s3 E3. bind_step E as u4 s4 E4. injection E4 as <- <-. injection E as <-. done.
Qed.

End Reception.
