(* ===== verification/ChunksMerge.v ===== *)
(** * Messages of several chunks

    The list of the intermediate chunks is a sequence of bodies: an intermediate chunk is
    added at its end, the final chunk gives the message with all the bodies, and an abort
    chunk drops them. *)

From Stdlib Require Import ZArith Lia.
From Stdlib Require Import Strings.Byte.
From stdpp Require Import prelude gmap.
From S2P Require Import Prelude Common LinkedList LinkedListSpec LinkedListProps Buffer Codec EncScalar EncString Strings SecureConnection ToolkitConfig Chunks ChunksSpec ChunksStream ChunksIdle.

Open Scope Z_scope.

Section Merge.
Context `{Allocator} `{Host} `{EndiannessCfg} {cfg : SOPC_Common_EncodingConstants} `{Crypto} `{!Toolkit}.

#[local] Abbreviation cell := (loc * (Z * SOPC_Buffer))%type.

(** ** The loops *)

Definition body (c : cell) : block := upcoming c.2.2.
Definition bodies (cs : list cell) : list block := map body cs.
Definition valid_cells (cs : list cell) : Prop := Forall (fun c => Buffer_Inv c.2.2) cs.
Definition total (bs : list block) : Z := zlen (mjoin bs).

Lemma total_cons b bs : total (b :: bs) = zlen b + total bs.
Proof. unfold total. cbn. by rewrite zlen_app. Qed.

Lemma total_nonneg bs : 0 <= total bs.
Proof. apply zlen_nonneg. Qed.

Lemma Remaining_upcoming b : Buffer_Inv b -> SOPC_Buffer_Remaining (Some b) = Ret (zlen (upcoming b)).
Proof. intros I. unfold SOPC_Buffer_Remaining. rewrite zlen_upcoming by done. destruct I. by rewrite u32_small by lia. Qed.

Lemma sum_remaining_spec h cs : forall p fuel acc, chain h p cs NULL -> (length cs <= fuel)%nat -> valid_cells cs ->
  sum_remaining fuel h p (u32 acc) = Ret (u32 (acc + total (bodies cs))).
Proof.
  induction cs as [|[a [j v]] cs IH]; intros p fuel acc C L V; cbn [chain length] in *.
  - subst. destruct fuel; cbn; unfold total; cbn; by rewrite Z.add_0_r.
  - destruct C as (-> & nx & E & C). apply Forall_cons in V as [Iv V]. destruct fuel as [|fuel]; [lia|].
    cbn [sum_remaining SOPC_SLinkedList_HasNext]. rewrite (load_some _ _ _ E). cbn [rbind value is_null negb].
    unfold SOPC_SLinkedList_Next, SOPC_SLinkedList_NextWithId. rewrite (load_some _ _ _ E). cbn [rbind value next].
    rewrite Remaining_upcoming by done. cbn [rbind]. replace (u32 (u32 acc + zlen (upcoming v))) with (u32 (acc + zlen (upcoming v)))
      by (unfold u32; by rewrite Zplus_mod_idemp_l).
    rewrite (IH nx fuel) by (done || lia). cbn [bodies map]. rewrite total_cons. unfold body at 1. cbn [snd]. do 2 f_equal. unfold bodies. lia.
Qed.

(** A buffer that is large enough takes the whole of another. *)
Lemma fill_all m b n : Buffer_Inv m -> Buffer_Inv b -> position m = 0 -> n < 2 ^ 32 -> length_ m + zlen (upcoming b) <= n -> n <= current_size m ->
  fill_buffer m b n = Ret (true, n - length_ m - zlen (upcoming b), push m (upcoming b), advance b (zlen (upcoming b))).
Proof.
  intros Im Ib P Hn L C. pose proof (zlen_nonneg (upcoming b)). pose proof Im as [_ ? ? ? ? _].
  assert (lacking m n = n - length_ m) as El by (unfold lacking; lia).
  rewrite fill_buffer_spec by (try done; unfold room; lia). unfold moved. rewrite El, Z.min_r by lia. do 3 f_equal.
  replace (Z.to_nat (zlen (upcoming b))) with (length (upcoming b)) by (unfold zlen; lia). by rewrite firstn_all.
Qed.

Lemma advance_all b : Buffer_Inv b -> SOPC_Buffer_Remaining (Some (advance b (zlen (upcoming b)))) = Ret 0.
Proof.
  intros I. pose proof (zlen_upcoming b I) as U. unfold SOPC_Buffer_Remaining. change (length_ (advance b ?n)) with (length_ b).
  change (position (advance b ?n)) with (position b + n). rewrite U. rewrite u32_small by lia. f_equal. lia.
Qed.

Lemma merge_chunks_spec cs : forall hf h l m fuel n, Repr hf h l cs -> (length cs <= fuel)%nat -> valid_cells cs ->
  Buffer_Inv m -> position m = 0 -> length_ m + total (bodies cs) <= n -> n <= current_size m -> n < 2 ^ 32 ->
  exists h' l', merge_chunks fuel h (Some l) m n = Ret (push m (mjoin (bodies cs)), h', Some l') /\ maxLength l' = maxLength l /\ Repr hf h' l' [].
Proof.
  induction cs as [|[a [j v]] cs IH]; intros hf h l m fuel n R L V Im P Lm C Hn.
  - pose proof (first_head _ _ _ _ R) as Ef. cbn in Ef. exists h, l. split; [|done]. destruct fuel; cbn; rewrite Ef; cbn; by rewrite push_nil.
  - pose proof (first_head _ _ _ _ R) as Ef. cbn in Ef. apply Forall_cons in V as [Iv V]. cbn [snd] in Iv.
    destruct (remove_head_spec hf h l a j v cs R) as (h1 & l1 & E1 & M1 & R1). cbn [bodies map] in Lm. rewrite total_cons in Lm. unfold body at 1 in Lm. cbn [snd] in Lm.
    fold (bodies cs) in Lm. pose proof (total_nonneg (bodies cs)). destruct fuel as [|fuel]; [cbn in L; lia|].
    cbn [merge_chunks SOPC_SLinkedList_PopHead]. rewrite Ef. cbn [is_null]. rewrite E1. cbn [rbind]. rewrite fill_all by (done || lia). cbn [rbind].
    rewrite advance_all by done. cbn [rbind Z.eqb]. pose proof (zlen_nonneg (upcoming v)).
    assert (zlen (upcoming v) <= room m) as Rm by (unfold room; lia).
    destruct (IH hf h1 l1 (push m (upcoming v)) fuel n) as (h' & l' & E & M & R'); [done|cbn in L; lia|done|by apply push_inv|done|..|done|done|].
    { change (length_ (push m ?x)) with (length_ m + zlen x). lia. }
    exists h', l'. rewrite E, M, M1. split; [|done]. cbn [bodies map mjoin list_join]. unfold body at 2. cbn [snd]. fold (bodies cs).
    rewrite push_push; [done|done|]. unfold room, total in *. lia.
Qed.

Lemma bind_set_cells {A} h l (k : unit -> M A) s :
  mbind (set_chunk_cells h) (fun _ => mbind (update_ctx (fun x => set_chunks x l)) k) s =
  k tt (mkState (set_ctx (conn s) (set_chunks (chunksCtx (conn s)) l)) (errorStatus s) h (request_cells s) (trace s)).
Proof. done. Qed.

(** ** The context and the bodies it holds *)

Definition holds (s : chunk_state) (bs : list block) : Prop :=
  match intermediateChunksInputBuffers (chunksCtx (conn s)) with
  | NULL => bs = []
  | Some l => exists hf cs, Repr hf (chunk_cells s) l cs /\ valid_cells cs /\ bodies cs = bs /\
      maxLength l = receiveMaxChunkCount (tcpMsgProperties (conn s))
  end.

(** Nothing but the context of the chunks, the cells and the error status has changed. *)
Definition frame (s s' : chunk_state) : Prop :=
  conn s' = set_ctx (conn s) (chunksCtx (conn s')) /\ request_cells s' = request_cells s /\ trace s' = trace s.

Lemma frame_refl s : frame s s.
Proof. unfold frame. by destruct s as [[]]. Qed.

Lemma frame_error s s' e : frame s s' -> frame s (mkState (conn s') e (chunk_cells s') (request_cells s') (trace s')).
Proof. done. Qed.

Lemma bind_ret {A B} (a : A) (k : A -> M B) s : mbind (mret a) k s = k a s.
Proof. done. Qed.

Lemma GetNb_spec s bs : holds s bs -> SOPC_ScInternalContext_GetNbIntermediateInputChunks s = Ret (zlen bs, s).
Proof.
  unfold holds, SOPC_ScInternalContext_GetNbIntermediateInputChunks. rewrite bind_get_ctx.
  destruct (intermediateChunksInputBuffers _) as [l|]; [|by intros ->]. intros (hf & cs & R & _ & <- & _).
  cbn. rewrite (r_length _ _ _ _ R). unfold bodies, zlen. by rewrite length_map.
Qed.

Lemma total_body_size_spec s b bs : holds s bs -> currentChunkInputBuffer (chunksCtx (conn s)) = Some b -> Buffer_Inv b ->
  total_body_size s = Ret (u32 (total bs + zlen (upcoming b)), s).
Proof.
  intros Hb Eb I. unfold total_body_size. rewrite bind_get. cbv zeta. rewrite (bind_ret_eq _ _ _ _ _ (GetNb_spec s bs Hb)). rewrite Eb.
  rewrite Remaining_upcoming by done. destruct (Z.ltb_spec 0 (zlen bs)) as [P|N].
  - unfold holds in Hb. destruct (intermediateChunksInputBuffers _) as [l|]; [|exfalso; subst; change (zlen (@nil block)) with 0 in P; lia].
    destruct Hb as (hf & cs & R & V & <- & _). cbn [SOPC_SLinkedList_GetIterator]. rewrite bind_bind, bind_lift.
    pose proof (chain_size _ _ _ _ (r_nodup _ _ _ _ R) (r_chain _ _ _ _ R)) as Sz.
    pose proof (sum_remaining_spec (chunk_cells s) cs (first l) (chain_fuel (chunk_cells s)) 0 (r_chain _ _ _ _ R) ltac:(lia) V) as E.
    change (u32 0) with 0 in E. rewrite E, !bind_lift. cbn [mret]. unfold mret. do 2 f_equal. unfold u32. by rewrite Zplus_mod_idemp_l.
  - assert (bs = []) as -> by (destruct bs as [|y bs]; [done|]; rewrite zlen_cons in N; pose proof (zlen_nonneg bs); lia).
    cbn. unfold total. cbn. done.
Qed.

Lemma Clear_holds s bs : holds s bs -> exists s', SOPC_ScInternalContext_ClearIntermediateInputChunks s = Ret (tt, s') /\ frame s s' /\
  holds s' [] /\ chunksCtx (conn s') = set_chunks (chunksCtx (conn s)) NULL /\ errorStatus s' = errorStatus s.
Proof.
  unfold holds at 1, SOPC_ScInternalContext_ClearIntermediateInputChunks. rewrite bind_get.
  destruct (intermediateChunksInputBuffers (chunksCtx (conn s))) as [l|] eqn:El.
  - intros (hf & cs & R & V & _ & _). pose proof (chain_size _ _ _ _ (r_nodup _ _ _ _ R) (r_chain _ _ _ _ R)) as Sz.
    cbn [SOPC_SLinkedList_Apply]. rewrite (apply_elts_spec (chunk_cells s) cs) by (apply R || lia). rewrite bind_lift.
    unfold SOPC_SLinkedList_Delete. rewrite (Clear_spec hf _ l cs R). cbn [rbind]. rewrite bind_lift. eexists. split; [reflexivity|]. by split_and!.
  - intros _. exists s. split; [done|]. split; [apply frame_refl|]. split; [unfold holds; by rewrite El|]. split; [|done]. destruct s as [[[]]]; cbn in *; by subst.
Qed.

(** The list has reached its maximum length. *)
Definition full (s : chunk_state) (bs : list block) : bool :=
  let max := receiveMaxChunkCount (tcpMsgProperties (conn s)) in negb (max =? 0) && (max <=? zlen bs).

Hypothesis served : forall n, alloc_ok n = true.

Lemma Add_holds s b bs : holds s bs -> Buffer_Inv b -> zlen bs + 1 < 2 ^ 32 -> in_u 32 (receiveMaxChunkCount (tcpMsgProperties (conn s))) -> exists ok s',
  SOPC_ScInternalContext_AddIntermediateInputChunk (Some b) s = Ret (ok, s') /\ ok = negb (full s bs) /\ frame s s' /\
  holds s' (if ok then bs ++ [upcoming b] else bs) /\ errorStatus s' = errorStatus s /\
  currentMessageInputBuffer (chunksCtx (conn s')) = currentMessageInputBuffer (chunksCtx (conn s)).
Proof.
  intros Hb I L U. unfold in_u in U. unfold SOPC_ScInternalContext_AddIntermediateInputChunk. rewrite bind_get. cbv zeta.
  set (max := receiveMaxChunkCount (tcpMsgProperties (conn s))).
  set (l := match intermediateChunksInputBuffers (chunksCtx (conn s)) with NULL => SOPC_SLinkedList_Create max | Some l => Some l end).
  assert (exists l0 hf cs, l = Some l0 /\ Repr hf (chunk_cells s) l0 cs /\ valid_cells cs /\ bodies cs = bs /\ maxLength l0 = max) as (l0 & hf & cs & -> & R & V & <- & M).
  { unfold l, holds in *. destruct (intermediateChunksInputBuffers _) as [l0|].
    - destruct Hb as (hf & cs & R & V & E & M). by exists l0, hf, cs.
    - unfold SOPC_SLinkedList_Create. rewrite served, u32_small by done. replace (max <=? 2 ^ 32 - 1) with true by lia. eexists _, (chunk_cells s), []. split; [done|]. split; [apply Repr_nil|]. split; [constructor|]. by subst. }
  unfold bodies, zlen in L. rewrite length_map in L. pose proof (Append_spec hf _ l0 cs (LinkedList.length_ l0) b R L) as A.
  assert (accepts l0 = negb (full s (bodies cs))) as Ea.
  { unfold accepts, full. rewrite served, (r_length _ _ _ _ R), M. fold max. unfold bodies, zlen. rewrite length_map, andb_true_r.
    destruct (Z.ltb_spec (Z.of_nat (length cs)) max), (Z.leb_spec max (Z.of_nat (length cs))), (max =? 0); try done; lia. }
  change (mbind (update_ctx ?f) ?k s) with (k tt (mkState (set_ctx (conn s) (f (chunksCtx (conn s)))) (errorStatus s) (chunk_cells s) (request_cells s) (trace s))).
  cbv beta. cbn [is_null SOPC_SLinkedList_GetLength]. rewrite bind_lift, Ea in *. destruct (full s (bodies cs)); cbn [negb] in A |- *.
  - rewrite A, bind_lift. eexists _, _. split; [reflexivity|]. split; [done|]. split; [done|]. split; [|done]. unfold holds. cbn. by exists hf, cs.
  - destruct A as (h' & l' & a & -> & M' & R'). rewrite bind_lift. eexists _, _. split; [reflexivity|]. split; [done|]. split; [done|]. split; [|done].
    unfold holds. cbn. exists hf, (cs ++ [(a, (LinkedList.length_ l0, b))]). split; [done|]. split; [by apply Forall_app; split; [|constructor]|].
    split; [unfold bodies; by rewrite map_app|by rewrite M', M].
Qed.

Lemma merge_holds s b bs n : holds s bs -> currentChunkInputBuffer (chunksCtx (conn s)) = Some b -> Buffer_Inv b ->
  n = total bs + zlen (upcoming b) -> n < 2 ^ 32 -> bs <> [] -> 0 < n ->
  exists s' m, merge_final_chunk n s = Ret (true, s') /\ currentMessageInputBuffer (chunksCtx (conn s')) = Some m /\
    upcoming m = mjoin bs ++ upcoming b /\ Buffer_Inv m /\ currentChunkInputBuffer (chunksCtx (conn s')) = NULL /\ holds s' [] /\ frame s s' /\ errorStatus s' = errorStatus s.
Proof.
  intros Hb Eb I En Ln Nb Pn. unfold merge_final_chunk. rewrite (bind_ret_eq _ _ _ _ _ (GetNb_spec s bs Hb)), bind_get_ctx.
  assert (0 < zlen bs) as P by (destruct bs as [|y bs]; [done|]; rewrite zlen_cons; pose proof (zlen_nonneg bs); lia).
  replace (0 <? zlen bs) with true by lia. replace (0 <? n) with true by lia.
  unfold holds in Hb. destruct (intermediateChunksInputBuffers _) as [l|]; [|done]. destruct Hb as (hf & cs & R & V & <- & M).
  destruct (SOPC_Buffer_Create n) as [m|] eqn:Em.
  2: { exfalso. revert Em. unfold SOPC_Buffer_Create, SOPC_Buffer_Init, SOPC_Calloc. rewrite !served. replace (0 <? n) with true by lia. cbn.
       replace (n <=? 0) with false by lia. by replace (n <? n) with false by lia. }
  assert (current_size m = n /\ length_ m = 0) as [Cm Lm].
  { revert Em. unfold SOPC_Buffer_Create, SOPC_Buffer_Init, SOPC_Calloc. rewrite !served. replace (0 <? n) with true by lia. cbn.
    replace (n <=? 0) with false by lia. replace (n <? n) with false by lia. by intros [= <-]. }
  destruct (SOPC_Buffer_Create_spec n m ltac:(lia) Em) as (Im & Ec & Pm & _).
  pose proof (chain_size _ _ _ _ (r_nodup _ _ _ _ R) (r_chain _ _ _ _ R)) as Sz. pose proof (zlen_nonneg (upcoming b)). pose proof (total_nonneg (bodies cs)).
  rewrite bind_get. destruct (merge_chunks_spec cs hf (chunk_cells s) l m (chain_fuel (chunk_cells s)) n) as (h' & l' & -> & M' & R'); try (done || lia).
  rewrite bind_lift, bind_set_cells. rewrite Eb. cbn [deref]. rewrite bind_lift.
  assert (zlen (mjoin (bodies cs)) <= room m) as Rm by (unfold room, total in *; lia).
  rewrite fill_all; try done; [|by apply push_inv|change (length_ (push m ?x)) with (length_ m + zlen x); unfold total in *; lia|change (current_size (push m ?x)) with (current_size m); lia].
  rewrite bind_lift. change (length_ (push m ?x)) with (length_ m + zlen x).
  replace (n - (length_ m + zlen (mjoin (bodies cs))) - zlen (upcoming b)) with 0 by (unfold total in *; lia). cbn [Z.eqb]. rewrite advance_all by done. rewrite bind_lift. cbn [Z.eqb].
  eexists _, _. split; [reflexivity|]. split; [reflexivity|].
  assert (zlen (upcoming b) <= room (push m (mjoin (bodies cs)))) as Rm2 by (unfold room, total in *; change (current_size (push m ?x)) with (current_size m); change (length_ (push m ?x)) with (length_ m + zlen x); lia).
  split; [rewrite push_upcoming, push_upcoming by (done || by apply push_inv); unfold upcoming at 1; by rewrite Ec, drop_nil|].
  split; [apply push_inv; [by apply push_inv|done]|]. split; [done|]. split; [unfold holds; cbn; exists hf, []; split; [exact R'|]; split; [constructor|]; split; [done|congruence]|]. done.
Qed.

(** ** The specification *)

(** What a chunk of a message does, given the bodies that were received before. *)
Inductive chunk_outcome :=
| Refused (error : Z)            (** the error status is set *)
| Added (bs : list block)        (** the chunk is the last one of the bodies [bs] *)
| Complete (message : block)     (** the message is there, no body is left *)
| Aborts.                        (** an assertion fails *)

Definition chunk_spec (f : SOPC_Msg_IsFinal) (maxSize : Z) (isFull : bool) (bs : list block) (b : block) : chunk_outcome :=
  match f with
  | SOPC_MSG_ISFINAL_INVALID => Aborts
  | SOPC_MSG_ISFINAL_INTERMEDIATE =>
      if maxSize <? total bs + zlen b then Refused OpcUa_BadTcpMessageTooLarge
      else if isFull then Refused OpcUa_BadOutOfMemory
      else Added (bs ++ [b])
  | SOPC_MSG_ISFINAL_FINAL =>
      if maxSize <? total bs + zlen b then Refused OpcUa_BadTcpMessageTooLarge
      else if bool_decide (bs = []) || (0 <? total bs + zlen b) then Complete (mjoin bs ++ b)
      else Aborts
  | SOPC_MSG_ISFINAL_ABORT => Complete b
  end.

Definition implements (s : chunk_state) (r : res (bool * chunk_state)) (o : chunk_outcome) : Prop :=
  match o with
  | Refused e => exists s', r = Ret (false, s') /\ errorStatus s' = e /\ frame s s'
  | Added bs => exists s', r = Ret (true, s') /\ holds s' bs /\ idle (conn s') /\ errorStatus s' = errorStatus s /\
      currentMessageInputBuffer (chunksCtx (conn s')) = currentMessageInputBuffer (chunksCtx (conn s)) /\ frame s s'
  | Complete message => exists s' m, r = Ret (true, s') /\ currentMessageInputBuffer (chunksCtx (conn s')) = Some m /\
      upcoming m = message /\ Buffer_Inv m /\ currentChunkInputBuffer (chunksCtx (conn s')) = NULL /\ holds s' [] /\
      errorStatus s' = errorStatus s /\ frame s s'
  | Aborts => r = Fault AssertFailed
  end.

Lemma merge_single s b : holds s [] -> currentChunkInputBuffer (chunksCtx (conn s)) = Some b -> Buffer_Inv b -> forall n,
  exists s', merge_final_chunk n s = Ret (true, s') /\ currentMessageInputBuffer (chunksCtx (conn s')) = Some b /\
    currentChunkInputBuffer (chunksCtx (conn s')) = NULL /\ holds s' [] /\ errorStatus s' = errorStatus s /\ frame s s'.
Proof.
  intros Hb Eb I n. unfold merge_final_chunk. rewrite (bind_ret_eq _ _ _ _ _ (GetNb_spec s [] Hb)), bind_get_ctx. cbn [Z.ltb zlen length Z.of_nat Z.compare].
  eexists. split; [reflexivity|]. split; [exact Eb|]. split; [done|]. split; [exact Hb|]. done.
Qed.

(** C8: the treatment of a chunk of a message implements the specification on the bodies:
    an intermediate chunk is added to them unless the message becomes too large or has too
    many chunks, a final chunk gives the message with all the bodies in their order, and
    an abort chunk drops them and is the message.  A final chunk after intermediate ones
    makes an assertion fail when all the bodies are empty. *)
Theorem multi_chunks_refine (s : chunk_state) (b : SOPC_Buffer) (bs : list block) :
  let x := chunksCtx (conn s) in
  let p := tcpMsgProperties (conn s) in
  currentMsgType x = SOPC_MSG_TYPE_SC_MSG -> currentChunkInputBuffer x = Some b -> Buffer_Inv b -> holds s bs ->
  zlen bs + 1 < 2 ^ 32 -> total bs + zlen (upcoming b) < 2 ^ 32 -> in_u 32 (receiveMaxChunkCount p) ->
  implements s (SC_Chunks_TreatMsgMultiChunks s) (chunk_spec (currentMsgIsFinal x) (receiveMaxMessageSize p) (full s bs) bs (upcoming b)).
Proof.
  cbv zeta. intros Et Eb I Hb L T U. unfold SC_Chunks_TreatMsgMultiChunks. rewrite bind_get. cbv zeta. rewrite (bool_decide_true _ Et).
  pose proof (total_body_size_spec s b bs Hb Eb I) as Tb. pose proof (zlen_nonneg (upcoming b)). pose proof (total_nonneg bs). rewrite u32_small in Tb by lia.
  destruct (currentMsgIsFinal (chunksCtx (conn s))) eqn:Ef; cbn [chunk_spec]; [done|..]; rewrite bind_ret.
  - rewrite (bind_ret_eq _ _ _ _ _ Tb). cbn [andb]. destruct (_ <? _); [eexists; split; [reflexivity|]; split; [done|]; apply frame_error, frame_refl|].
    rewrite bind_bind. rewrite Eb. destruct (Add_holds s b bs Hb I L U) as (ok & s1 & E & Eok & F & Hh & Ee & Em). rewrite (bind_ret_eq _ _ _ _ _ E).
    subst ok. destruct (full s bs); cbn [negb] in *; [eexists; split; [reflexivity|]; split; [done|]; by apply frame_error|].
    eexists. split; [reflexivity|]. split; [exact Hh|]. split; [done|]. split; [exact Ee|]. split; [exact Em|].
    destruct F as (F1 & F2 & F3). split; [|done]. cbn. by rewrite F1.
  - rewrite (bind_ret_eq _ _ _ _ _ Tb). cbn [andb]. destruct (_ <? _); [eexists; split; [reflexivity|]; split; [done|]; apply frame_error, frame_refl|].
    rewrite !bind_ret. cbn [negb]. rewrite bind_ret. destruct (decide (bs = [])) as [->|N].
    + rewrite bool_decide_true by done. cbn [orb]. destruct (merge_single s b Hb Eb I (total [] + zlen (upcoming b))) as (s' & E & Em & Ec & Hh & Ee & F).
      rewrite (bind_ret_eq _ _ _ _ _ E). cbn [negb]. rewrite bind_get_ctx, Ec. exists s', b. by split_and!.
    + rewrite bool_decide_false by done. cbn [orb]. destruct (Z.ltb_spec 0 (total bs + zlen (upcoming b))) as [P|Z].
      * destruct (merge_holds s b bs _ Hb Eb I eq_refl T N P) as (s' & m & E & Em & Um & Im & Ec & Hh & F & Ee).
        rewrite (bind_ret_eq _ _ _ _ _ E). cbn [negb]. rewrite bind_get_ctx, Ec. exists s', m. by split_and!.
      * unfold merge_final_chunk. rewrite bind_bind, (bind_ret_eq _ _ _ _ _ (GetNb_spec s bs Hb)), bind_bind, bind_get_ctx.
        replace (0 <? zlen bs) with true by (destruct bs as [|y bs]; [done|]; rewrite zlen_cons; pose proof (zlen_nonneg bs); lia).
        by replace (0 <? total bs + zlen (upcoming b)) with false by lia.
  - rewrite bind_ret. cbn [andb]. rewrite !bind_ret. cbn [negb]. destruct (Clear_holds s bs Hb) as (s1 & E & F & Hh & Ex & Ee).
    rewrite (bind_ret_eq _ _ _ _ _ E). destruct (merge_single s1 b Hh) with (n := 0) as (s' & E' & Em & Ec & Hh' & Ee' & F'); [by rewrite Ex|done|].
    rewrite (bind_ret_eq _ _ _ _ _ E'). cbn [negb]. rewrite bind_get_ctx, Ec. exists s', b. split_and!; try done; [congruence|].
    destruct F as (F1 & F2 & F3), F' as (F4 & F5 & F6). split; [rewrite F4, F1; done|]. split; congruence.
Qed.

End Merge.
