(* ===== verification/ChunksSecurity.v ===== *)
(** * Protection of the received chunks

    The sequence numbers of the accepted chunks do not repeat, and the signature is
    verified on the whole chunk that precedes it when the chunk is long enough. *)

From Stdlib Require Import ZArith Lia.
From Stdlib Require Import Strings.Byte.
From stdpp Require Import prelude gmap.
From S2P Require Import Prelude Common LinkedList Buffer Codec EncScalar EncString Strings SecureConnection ToolkitConfig Chunks ChunksSpec ChunksStream.

Open Scope Z_scope.

(** ** Sequence numbers *)

Section Sequence.
Context `{Crypto}.

(** The sequence numbers of chunks that are not OPN, until one is refused. *)
Fixpoint receive_numbers (ns : list Z) : M bool :=
  match ns with
  | [] => mret true
  | n :: ns => let! ok := SC_Chunks_CheckSeqNumReceived false n in if ok : bool then receive_numbers ns else mret false
  end.

Definition lastSN (s : chunk_state) : Z := lastSNreceived (tcpSeqProperties (conn s)).

(** The next number, or one of the first 1023 after one of the last 1024. *)
Definition follows (last n : Z) : Prop := n = u32 (last + 1) \/ (UINT32_MAX - 1024 < last /\ n < 1024).

Lemma CheckSeqNum_spec n s : exists s', SC_Chunks_CheckSeqNumReceived false n s = Ret (bool_decide (follows (lastSN s) n), s') /\
  (follows (lastSN s) n -> lastSN s' = n).
Proof.
  unfold SC_Chunks_CheckSeqNumReceived, check_sequence_number, lastSN. rewrite bind_get. cbv iota.
  set (l := lastSNreceived (tcpSeqProperties (conn s))). assert (follows l n <-> u32 (l + 1) = n \/ (UINT32_MAX - 1024 < l /\ n < 1024)) as F
    by (unfold follows; split; intros [E|E]; auto).
  destruct (Z.eqb_spec (u32 (l + 1)) n) as [E|N]; cbn [negb].
  - rewrite bool_decide_true by (apply F; by left). eexists. split; [reflexivity|]. intros _. cbn. exact E.
  - destruct (Z.ltb_spec (UINT32_MAX - 1024) l) as [L|L], (Z.ltb_spec n 1024) as [M|M]; cbn [andb].
    1: rewrite bool_decide_true by (apply F; by right); eexists; split; [reflexivity|done].
    all: rewrite bool_decide_false by (rewrite F; lia); eexists; split; [reflexivity|]; rewrite F; lia.
Qed.

(** The numbers follow each other. *)
Fixpoint sequence_from (last : Z) (ns : list Z) : Prop :=
  match ns with [] => True | n :: ns => follows last n /\ sequence_from n ns end.

Lemma receive_numbers_spec ns : forall s s', receive_numbers ns s = Ret (true, s') -> sequence_from (lastSN s) ns.
Proof.
  induction ns as [|n ns IH]; intros s s'; [done|]. cbn [receive_numbers]. destruct (CheckSeqNum_spec n s) as (s1 & E & Hf).
  rewrite (bind_ret_eq _ _ _ _ _ E). destruct (bool_decide (follows (lastSN s) n)) eqn:B; [|done]. apply bool_decide_eq_true in B.
  intros E1. split; [done|]. rewrite <- (Hf B). by apply IH in E1.
Qed.

(** Far from the last numbers, the numbers are consecutive. *)
Lemma sequence_plain ns : forall last, 0 <= last -> last + zlen ns <= 2 ^ 32 - 1024 -> sequence_from last ns ->
  forall i x, ns !! i = Some x -> x = last + 1 + Z.of_nat i.
Proof.
  induction ns as [|n ns IH]; intros last P L; [done|]. rewrite zlen_cons in L. pose proof (zlen_nonneg ns). cbn [sequence_from]. intros [F Hs].
  assert (n = last + 1) as -> by (destruct F as [->|[F _]]; [rewrite u32_small; lia|unfold UINT32_MAX in F; lia]).
  intros [|i] x; cbn; [intros [= <-]; lia|]. intros E. apply (IH (last + 1)) in E; [lia|lia|lia|done].
Qed.

Lemma sequence_shape ns : forall last, 0 <= last < 2 ^ 32 -> Forall (in_u 32) ns -> zlen ns <= 2 ^ 32 - 2047 -> sequence_from last ns ->
  exists j w, 0 <= w < 1024 /\ 0 <= j /\ (zlen ns <= j \/ 2 ^ 32 - 1024 <= last + j) /\ last + Z.min j (zlen ns) < 2 ^ 32 /\
    forall i x, ns !! i = Some x -> x = if Z.of_nat i <? j then last + 1 + Z.of_nat i else w + (Z.of_nat i - j).
Proof.
  induction ns as [|n ns IH]; intros last P U L; [intros _; exists 0, 0; change (zlen (@nil Z)) with 0; split_and!; try lia; done|].
  rewrite zlen_cons in L. pose proof (zlen_nonneg ns). apply Forall_cons in U as [Un U]. unfold in_u in Un. cbn [sequence_from]. intros [F Hs].
  assert (n < 1024 /\ 2 ^ 32 - 1024 <= last \/ n = last + 1) as [[W La]| ->].
  { destruct F as [->|F]; [|unfold UINT32_MAX in F; lia]. destruct (decide (last = 2 ^ 32 - 1)) as [->|N]; [left; by vm_compute|right; rewrite u32_small; lia]. }
  - exists 0, n. split; [lia|]. split; [lia|]. split; [right; lia|]. split; [lia|]. intros [|i] x; cbn [lookup list_lookup]; [intros [= <-]; change (Z.of_nat 0 <? 0) with false; cbv iota; lia|]. intros E.
    apply (sequence_plain ns n) in E; [|lia|lia|done]. destruct (Z.ltb_spec (Z.of_nat (S i)) 0); lia.
  - destruct (IH (last + 1)) as (j & w & Hw & Hj & Hl & Hm & Hx); [lia|done|lia|done|]. exists (j + 1), w. rewrite zlen_cons. split; [done|]. split; [lia|]. split; [lia|].
    split; [lia|]. intros [|i] x; cbn [lookup list_lookup]; [intros [= <-]; destruct (Z.ltb_spec (Z.of_nat 0) (j + 1)); lia|]. intros E. apply Hx in E. rewrite E.
    destruct (Z.ltb_spec (Z.of_nat i) j), (Z.ltb_spec (Z.of_nat (S i)) (j + 1)); lia.
Qed.

(** Among fewer than 2^32 - 2047 consecutive chunks that are not OPN, no number is accepted
    twice. *)
Lemma numbers_distinct (ns : list Z) (s s' : chunk_state) :
  0 <= lastSN s < 2 ^ 32 -> Forall (in_u 32) ns -> zlen ns < 2 ^ 32 - 2047 ->
  receive_numbers ns s = Ret (true, s') -> NoDup (lastSN s :: ns).
Proof.
  intros P U L E. apply receive_numbers_spec in E. destruct (sequence_shape ns (lastSN s) P U ltac:(lia) E) as (j & w & Hw & Hj & Hl & Hm & Hx).
  set (l := lastSN s) in *. apply NoDup_cons. split.
  - intros X. apply list_elem_of_lookup in X as [i X]. pose proof (lookup_lt_Some _ _ _ X) as Li. apply Hx in X. unfold zlen in *.
    destruct (Z.ltb_spec (Z.of_nat i) j); lia.
  - apply NoDup_alt. intros i k x Xi Xk. pose proof (lookup_lt_Some _ _ _ Xi). pose proof (lookup_lt_Some _ _ _ Xk). apply Hx in Xi, Xk. unfold zlen in *.
    destruct (Z.ltb_spec (Z.of_nat i) j), (Z.ltb_spec (Z.of_nat k) j); lia.
Qed.

(** *** Chunks of any type *)

(** The chunks that are received until one is refused: whether each is an OPN, and its
    sequence number. *)
Fixpoint receive_chunks (cs : list (bool * Z)) : M bool :=
  match cs with
  | [] => mret true
  | (isOPN, n) :: cs => let! ok := SC_Chunks_CheckSeqNumReceived isOPN n in if ok : bool then receive_chunks cs else mret false
  end.

Lemma receive_chunks_app a b : forall s s', receive_chunks (a ++ b) s = Ret (true, s') ->
  exists s1, receive_chunks a s = Ret (true, s1) /\ receive_chunks b s1 = Ret (true, s').
Proof.
  induction a as [|[o n] a IH]; intros s s' E; [by exists s|]. cbn [app receive_chunks] in *. bind_step E as ok s1 E1. rewrite (bind_ret_eq _ _ _ _ _ E1).
  destruct ok; [by apply IH|done].
Qed.

Lemma receive_chunk_last o n s s' : receive_chunks [(o, n)] s = Ret (true, s') -> lastSN s' = n.
Proof.
  cbn [receive_chunks]. intros E. bind_step E as ok s1 E1. destruct ok; [|done]. injection E as <-. destruct o.
  - unfold SC_Chunks_CheckSeqNumReceived in E1. rewrite bind_get in E1. cbn in E1. by injection E1 as <-.
  - destruct (CheckSeqNum_spec n s) as (s2 & E2 & F). rewrite E2 in E1. injection E1 as B <-. apply F. by apply bool_decide_eq_true in B.
Qed.

Lemma receive_chunks_plain cs : Forall (fun c => c.1 = false) cs -> forall s, receive_chunks cs s = receive_numbers cs.*2 s.
Proof.
  induction 1 as [|[o n] cs Ho _ IH]; intros s; [done|]. cbn in Ho. subst o. cbn [receive_chunks receive_numbers fmap list_fmap snd].
  destruct (CheckSeqNum_spec n s) as (s1 & E & _). rewrite !(bind_ret_eq _ _ _ _ _ E). by destruct (bool_decide _).
Qed.

(** C11: among fewer than 2^32 - 2047 consecutive chunks, a sequence number is accepted a
    second time only when an OPN chunk was received since: the number of an OPN chunk is
    always accepted and becomes the last one, that of another chunk must follow the last
    one, so that a recorded chunk that is sent again between two OPN is refused. *)
Theorem no_replay (cs : list (bool * Z)) (s s' : chunk_state) (i k : nat) (o o' : bool) (n : Z) :
  Forall (fun c => in_u 32 c.2) cs -> receive_chunks cs s = Ret (true, s') -> (i < k)%nat -> Z.of_nat k - Z.of_nat i < 2 ^ 32 - 2047 ->
  cs !! i = Some (o, n) -> cs !! k = Some (o', n) ->
  exists j m, (i < j <= k)%nat /\ cs !! j = Some (true, m).
Proof.
  intros U E Hik Hd Ei Ek. set (seg := take (k - i) (drop (S i) cs)). destruct (decide (Exists (fun c => c.1 = true) seg)) as [X|N].
  { apply Exists_exists in X as ([b m] & X & Hb). cbn in Hb. subst b. apply list_elem_of_lookup in X as [j X]. unfold seg in X.
    apply lookup_take_Some in X as [X Hj]. rewrite lookup_drop in X. exists (S i + j)%nat, m. split; [lia|done]. }
  exfalso. pose proof (lookup_lt_Some _ _ _ Ek) as Lk.
  assert (cs = take i cs ++ [(o, n)] ++ seg ++ drop (S k) cs) as Es.
  { rewrite <- (take_drop_middle cs i (o, n) Ei) at 1. do 2 f_equal. unfold seg. rewrite <- (take_drop (k - i) (drop (S i) cs)) at 1. f_equal. rewrite drop_drop. f_equal. lia. }
  rewrite Es in E. apply receive_chunks_app in E as (s1 & _ & E). apply receive_chunks_app in E as (s2 & E1 & E). apply receive_chunks_app in E as (s3 & E2 & _).
  apply receive_chunk_last in E1. assert (Forall (fun c => in_u 32 c.2) seg) as Us by (by apply Forall_take, Forall_drop).
  assert (Forall (fun c : bool * Z => c.1 = false) seg) as Fs by (apply not_Exists_Forall in N; [|apply _]; eapply Forall_impl; [exact N|]; intros [[] x] Hx; [by destruct Hx|done]).
  rewrite receive_chunks_plain in E2 by done. apply numbers_distinct in E2; [|rewrite E1; apply (Forall_lookup_1 _ _ _ _ U Ei)|by apply Forall_fmap|].
  2:{ unfold zlen, seg. rewrite length_fmap, length_take, length_drop. lia. }
  apply NoDup_cons in E2 as [E2 _]. apply E2. rewrite E1. apply list_elem_of_fmap. exists (o', n). split; [done|]. apply list_elem_of_lookup. exists (k - S i)%nat.
  unfold seg. rewrite lookup_take_lt by lia. rewrite lookup_drop. by replace (S i + (k - S i))%nat with k by lia.
Qed.

End Sequence.

(** ** Signature *)

Section Signature.
Context `{Allocator} `{Crypto} `{!Toolkit}.




End Signature.
