(* ===== verification/ChunksSend.v ===== *)
(** * Chunks sent on a secure connection

    Model of the sending part of
    [src/src/ClientServer/secure_channels/sopc_chunks_mgr.c]: a message is cut into
    chunks, whose headers are encoded, and which are padded, signed and encrypted.

    A buffer that a function writes is given to it and returned.  The functions that
    return [bool] return it with the buffer; a function that writes [*outputBuffer]
    returns it too.  The errors are in the state, as in the reception.  The functions
    that sign and encrypt, and the creation of timers, are parameters. *)

From Stdlib Require Import ZArith Lia.
From Stdlib Require Import Strings.Byte Strings.String.
From stdpp Require Import prelude gmap.
From S2P Require Import Prelude Common LinkedList Buffer Codec EncScalar EncString Strings SecureConnection ToolkitConfig Chunks.

Open Scope Z_scope.

(** ** Constants *)

Definition SOPC_UA_HEADER_MESSAGE_SIZE_POSITION : Z := 4.
Definition SOPC_UA_SECURE_MESSAGE_HEADER_LENGTH : Z := 12.
Definition SOPC_UA_SYMMETRIC_SECURITY_HEADER_LENGTH : Z := 4.
Definition SOPC_UA_SECURE_MESSAGE_SEQUENCE_LENGTH : Z := 8.
Definition SOPC_UA_SYMMETRIC_SECURE_MESSAGE_HEADERS_LENGTH : Z :=
  SOPC_UA_SECURE_MESSAGE_HEADER_LENGTH + SOPC_UA_SYMMETRIC_SECURITY_HEADER_LENGTH + SOPC_UA_SECURE_MESSAGE_SEQUENCE_LENGTH.
Definition SOPC_UA_SYMMETRIC_SEQUENCE_HEADER_POSITION : Z :=
  SOPC_UA_SECURE_MESSAGE_HEADER_LENGTH + SOPC_UA_SYMMETRIC_SECURITY_HEADER_LENGTH.

Definition SOPC_REQUEST_TIMEOUT_MS : Z := 10000.

Definition OpcUa_BadTimeout : Z := 0x800A0000.
Definition OpcUa_BadCertificateTimeInvalid : Z := 0x80140000.
Definition OpcUa_BadCertificateIssuerTimeInvalid : Z := 0x80150000.
Definition OpcUa_BadCertificateIssuerUseNotAllowed : Z := 0x80190000.
Definition OpcUa_BadCertificateUntrusted : Z := 0x801A0000.
Definition OpcUa_BadCertificateRevocationUnknown : Z := 0x801B0000.
Definition OpcUa_BadCertificateIssuerRevocationUnknown : Z := 0x801C0000.
Definition OpcUa_BadCertificateRevoked : Z := 0x801D0000.
Definition OpcUa_BadCertificateIssuerRevoked : Z := 0x801E0000.
Definition OpcUa_BadTcpServerTooBusy : Z := 0x807D0000.
Definition OpcUa_BadTcpNotEnoughResources : Z := 0x80810000.
Definition OpcUa_BadTcpEndpointUrlInvalid : Z := 0x80830000.
Definition OpcUa_BadRequestInterrupted : Z := 0x80840000.
Definition OpcUa_BadRequestTimeout : Z := 0x80850000.
Definition OpcUa_BadSecureChannelClosed : Z := 0x80860000.

(** The status codes that an error or abort message may hold. *)
Definition tcp_error_codes : list Z :=
  [OpcUa_BadTcpServerTooBusy; OpcUa_BadTcpMessageTypeInvalid; OpcUa_BadTcpSecureChannelUnknown; OpcUa_BadTcpMessageTooLarge;
   OpcUa_BadTimeout; OpcUa_BadTcpNotEnoughResources; OpcUa_BadTcpInternalError; OpcUa_BadTcpEndpointUrlInvalid;
   OpcUa_BadSecurityChecksFailed; OpcUa_BadRequestInterrupted; OpcUa_BadRequestTimeout; OpcUa_BadSecureChannelClosed;
   OpcUa_BadSecureChannelTokenUnknown; OpcUa_BadCertificateUntrusted; OpcUa_BadCertificateTimeInvalid;
   OpcUa_BadCertificateIssuerTimeInvalid; OpcUa_BadCertificateUseNotAllowed; OpcUa_BadCertificateIssuerUseNotAllowed;
   OpcUa_BadCertificateRevocationUnknown; OpcUa_BadCertificateIssuerRevocationUnknown; OpcUa_BadCertificateRevoked;
   OpcUa_BadCertificateIssuerRevoked].

Definition SOPC_StatusCode_ToTcpErrorCode (status : Z) : Z :=
  if bool_decide (status ∈ tcp_error_codes) then status
  else if status =? OpcUa_BadOutOfMemory then OpcUa_BadTcpNotEnoughResources
  else if (status =? OpcUa_BadRequestTooLarge) || (status =? OpcUa_BadResponseTooLarge) then OpcUa_BadTcpMessageTooLarge
  else OpcUa_BadTcpInternalError.

(** ** Parameters *)

(** The functions of the cryptographic provider that the sender uses.  The lengths of the
    blocks are the one of a block of ciphered text, and the one of a block of plain
    text. *)
Class SendCrypto `{Crypto} := {
  SymmetricGetLength_Blocks : ptr CryptoProvider -> SOPC_ReturnStatus * (Z * Z);
  SymmetricGetLength_Encryption : ptr CryptoProvider -> Z -> SOPC_ReturnStatus * Z;
  SymmetricSign : ptr CryptoProvider -> SecurityKeySet -> block -> Z -> SOPC_ReturnStatus * block;
  SymmetricEncrypt : ptr CryptoProvider -> SecurityKeySet -> block -> Z -> SOPC_ReturnStatus * block;
  AsymmetricGetLength_Msgs : ptr CryptoProvider -> ptr AsymmetricKey -> SOPC_ReturnStatus * (Z * Z);
  AsymmetricGetLength_Encryption : ptr CryptoProvider -> ptr AsymmetricKey -> Z -> SOPC_ReturnStatus * Z;
  AsymmetricSign : ptr CryptoProvider -> AsymmetricKey -> block -> Z -> SOPC_ReturnStatus * block;
  AsymmetricEncrypt : ptr CryptoProvider -> ptr AsymmetricKey -> block -> Z -> SOPC_ReturnStatus * block;
  (** The identifier of a timer depends on the calls that were made before. *)
  SOPC_EventTimer_Create : list effect -> Z -> Z -> Z -> Z -> Z
}.

(** ** Results *)

Section Results.
Context `{Crypto}.

(** [if (result) result = k(a)] *)
Definition and_true {A} (m : M (bool * A)) (k : A -> M (bool * A)) : M (bool * A) :=
  let! (result, a) := m in if result then k a else mret (false, a).

(** [if (!result) *errorStatus = e] *)
Definition or_error {A} (e : Z) (m : M (bool * A)) : M (bool * A) :=
  let! (result, a) := m in
  if result then mret (true, a) else let! _ := set_error e in mret (false, a).

(** [status = ...; result = (SOPC_STATUS_OK == status)] *)
Definition when_ok {A} (r : res (SOPC_ReturnStatus * A)) : M (bool * A) :=
  let! (status, a) := lift r in mret (is_ok status, a).

(** [status = ...; assert(SOPC_STATUS_OK == status)] *)
Definition expect_ok {A} (r : res (SOPC_ReturnStatus * A)) : M A :=
  let! (status, a) := lift r in massert! is_ok status in mret a.

Definition set_lastSNsent (c : SOPC_SecureConnection) (sn : Z) : SOPC_SecureConnection :=
  set_tcpSeqProperties c (mkSequence sn (lastSNreceived (tcpSeqProperties c)) (sentRequestIds (tcpSeqProperties c))).

(** The error of a message that is too large. *)
Definition too_large (c : SOPC_SecureConnection) : Z :=
  if isServerConnection c then OpcUa_BadResponseTooLarge else OpcUa_BadRequestTooLarge.

End Results.

Notation "'let_true' p ':=' m 'in' k" := (and_true m (fun p => k))
  (at level 10, p pattern, m at level 200, k at level 200,
   format "'[v' 'let_true'  p  ':='  m  'in' '/' k ']'") : res_scope.

(** ** Headers *)

Section Headers.
Context `{Allocator} `{Host} `{EndiannessCfg} {cfg : SOPC_Common_EncodingConstants} `{Crypto} `{!SendCrypto} `{!Toolkit}.

Definition message_type_bytes (sendMsgType : SOPC_Msg_Type) : res block :=
  match sendMsgType with
  | SOPC_MSG_TYPE_HEL => Ret SOPC_HEL
  | SOPC_MSG_TYPE_ACK => Ret SOPC_ACK
  | SOPC_MSG_TYPE_ERR => Ret SOPC_ERR
  | SOPC_MSG_TYPE_SC_OPN => Ret SOPC_OPN
  | SOPC_MSG_TYPE_SC_CLO => Ret SOPC_CLO
  | SOPC_MSG_TYPE_SC_MSG => Ret SOPC_MSG
  | SOPC_MSG_TYPE_INVALID => Fault AssertFailed
  end.

(** Only a [MSG] message has several chunks. *)
Definition final_char_allowed (sendMsgType : SOPC_Msg_Type) (isFinalChar : byte) : bool :=
  match sendMsgType with
  | SOPC_MSG_TYPE_SC_MSG => true
  | _ => bool_decide (isFinalChar = SOPC_UA_FINAL_CHUNK)
  end.

Definition SC_Chunks_EncodeTcpMsgHeader (sendMsgType : SOPC_Msg_Type) (isFinalChar : byte) (buffer : ptr SOPC_Buffer)
    : M (bool * ptr SOPC_Buffer) :=
  massert! negb (is_null buffer) in
  let! msgTypeBytes := lift (message_type_bytes sendMsgType) in
  or_error OpcUa_BadEncodingError
    (let_true buffer := mret (final_char_allowed sendMsgType isFinalChar, buffer) in
     let_true buffer := when_ok (SOPC_Buffer_Write buffer (Some msgTypeBytes) 3) in
     let_true buffer := when_ok (SOPC_Buffer_Write buffer (Some [isFinalChar]) 1) in
     let! b := lift (deref buffer) in
     let messageSize := if SOPC_TCP_UA_HEADER_LENGTH <=? length_ b then length_ b else SOPC_TCP_UA_HEADER_LENGTH in
     when_ok (SOPC_UInt32_Write (Some messageSize) buffer 0)).

(** The certificate of the sender.  Returns the result and the ByteString. *)
Definition sender_certificate (c : SOPC_SecureConnection) : bool * SOPC_ByteString :=
  match SC_OwnCertificate c with
  | NULL => (true, string_init)
  | Some senderCert =>
      let '(status, data) := Certificate_ToDER (Some senderCert) in
      let length := zlen (default [] data) in
      if is_ok status && (length <=? INT32_MAX) then (true, mkString length false data) else (false, string_init)
  end.

(** The thumbprint of the certificate of the receiver. *)
Definition encode_thumbprint (c : SOPC_SecureConnection) (receiverCert : ptr CertificateList) (buffer : ptr SOPC_Buffer)
    : M (bool * ptr SOPC_Buffer) :=
  let '(status, thumbprintLength) := CertificateGetLength_Thumbprint (cryptoProvider c) in
  if negb (is_ok status) then mret (false, buffer)
  else
    let! (status, thumbprint) := lift (SOPC_ByteString_InitializeFixedSize (SOPC_ByteString_Initialize (Some string_init)) thumbprintLength) in
    if negb ((thumbprintLength <=? INT32_MAX) && is_ok status) then mret (false, buffer)
    else
      let! thumbprint := lift (deref thumbprint) in
      let '(status, bs) := Certificate_GetThumbprint (cryptoProvider c) receiverCert thumbprintLength in
      if negb (is_ok status) then mret (false, buffer)
      else
        let! d := lift (deref (Data thumbprint)) in
        let! d := lift (mem_write d 0 bs) in
        when_ok (SOPC_ByteString_Write (Some (set_Data thumbprint (Some d))) buffer 0).

(** A null field. *)
Definition encode_null (buffer : ptr SOPC_Buffer) : M (bool * ptr SOPC_Buffer) := when_ok (SOPC_Int32_Write (Some (-1)) buffer 0).

(** Returns the result, the buffer, [securityPolicyLength] and [senderCertificateSize]. *)
Definition SC_Chunks_EncodeAsymSecurityHeader (scConfig : SOPC_SecureChannel_Config) (buffer : ptr SOPC_Buffer)
    : M (bool * (ptr SOPC_Buffer * Z * Z)) :=
  let! s := get in
  let c := conn s in
  massert! negb (is_null (cryptoProvider c)) in
  massert! negb (is_null (reqSecuPolicyUri scConfig)) in
  massert! negb (is_null buffer) in
  let! toEncrypt := lift (SC_Chunks_IsMsgEncrypted (msgSecurityMode scConfig) true) in
  let toSign := SC_Chunks_IsMsgSigned (msgSecurityMode scConfig) in
  let! (status, strSecuPolicy) := lift (SOPC_String_CopyFromCString (SOPC_String_Initialize (Some string_init)) (reqSecuPolicyUri scConfig)) in
  let! strSecuPolicy := lift (deref strSecuPolicy) in
  or_error OpcUa_BadTcpInternalError
    (if negb (is_ok status) || (Length strSecuPolicy <=? 0) then mret (false, (buffer, 0, 0))
     else
       let securityPolicyLength := Length strSecuPolicy in
       let! (result, buffer) := when_ok (SOPC_String_Write (Some strSecuPolicy) buffer 0) in
       let '(found, bsSenderCert) := sender_certificate c in
       if negb (result && found) then mret (false, (buffer, securityPolicyLength, 0))
       else
         let senderCertificateSize := if is_null (SC_OwnCertificate c) then 0 else Length bsSenderCert in
         let! (result, buffer) :=
           (let_true buffer :=
              (if toSign then
                 if 0 <? Length bsSenderCert then when_ok (SOPC_ByteString_Write (Some bsSenderCert) buffer 0) else mret (false, buffer)
               else encode_null buffer) in
            if toEncrypt && negb (is_null (SC_PeerCertificate c)) then encode_thumbprint c (SC_PeerCertificate c) buffer
            else if negb toEncrypt then encode_null buffer
            else lift (Fault AssertFailed)) in
         mret (result, (buffer, securityPolicyLength, senderCertificateSize))).

Definition SC_Chunks_EncodeScMessageHeaderAdditionalField (buffer : ptr SOPC_Buffer) : M (bool * ptr SOPC_Buffer) :=
  let! s := get in
  or_error OpcUa_BadEncodingError (when_ok (SOPC_UInt32_Write (Some (secureChannelId (currentSecurityToken (conn s)))) buffer 0)).

(** The number after [sn]. *)
Definition next_sequence_number (sn : Z) : Z := if UINT32_MAX - 1024 <? sn then 1 else u32 (sn + 1).

Definition SC_Chunks_EncodeSequenceNumber (buffer : ptr SOPC_Buffer) (sequenceNumberPosition : Z) : M (bool * ptr SOPC_Buffer) :=
  or_error OpcUa_BadTcpInternalError
    (let_true buffer := mret (let '(status, b) := SOPC_Buffer_SetPosition buffer sequenceNumberPosition in (is_ok status, b)) in
     let! s := get in
     let sn := next_sequence_number (lastSNsent (tcpSeqProperties (conn s))) in
     let! _ := set_conn (set_lastSNsent (conn s) sn) in
     when_ok (SOPC_UInt32_Write (Some sn) buffer 0)).

(** The identifier of a request of a client, and the next identifier when the chunk is
    the last one. *)
Definition client_request_id (clientNextReqId : Z) (isFinalChunk : bool) : Z * Z :=
  let requestId := if clientNextReqId =? 0 then 1 else clientNextReqId in
  (requestId, if isFinalChunk then u32 (requestId + 1) mod UINT32_MAX else requestId).

(** Returns the result, the buffer and the identifier. *)
Definition SC_Chunks_EncodeRequestId (buffer : ptr SOPC_Buffer) (isFinalChunk : bool) (requestIdOrHandle : Z)
    : M (bool * (ptr SOPC_Buffer * Z)) :=
  let! s := get in
  let c := conn s in
  let! requestId :=
    (if negb (isServerConnection c) then
       let '(requestId, next) := client_request_id (clientNextReqId c) isFinalChunk in
       let! _ := set_conn (set_clientNextReqId c next) in mret requestId
     else mret requestIdOrHandle) in
  or_error OpcUa_BadTcpInternalError
    (let! (result, buffer) := when_ok (SOPC_UInt32_Write (Some requestId) buffer 0) in
     mret (result, (buffer, if result then requestId else 0))).

End Headers.

(** ** Sizes *)

Section Sizes.
Context `{Crypto} `{!SendCrypto}.

Definition SC_Chunks_Is_ExtraPaddingSizePresent (plainTextBlockSize : Z) : bool := 256 <? plainTextBlockSize.

(** Returns the size and [hasExtraPaddingSize]. *)
Definition SC_Chunks_ComputeMaxBodySize (nonEncryptedHeadersSize chunkSize : Z) (toEncrypt : bool) (cipherBlockSize plainBlockSize : Z)
    (toSign : bool) (signatureSize : Z) : res (Z * bool) :=
  let cipherBlockSize := if toEncrypt then cipherBlockSize else 1 in
  let plainBlockSize := if toEncrypt then plainBlockSize else 1 in
  let hasExtraPaddingSize := toEncrypt && SC_Chunks_Is_ExtraPaddingSizePresent plainBlockSize in
  let paddingSizeFields := if toEncrypt then if hasExtraPaddingSize then 2 else 1 else 0 in
  let signatureSize := if toSign then signatureSize else 0 in
  assert! plainBlockSize <=? cipherBlockSize in
  if cipherBlockSize =? 0 then Fault DivByZero
  else
    let result := u32 (plainBlockSize * (u32 (chunkSize - nonEncryptedHeadersSize) / cipherBlockSize)
                       - SOPC_UA_SECURE_MESSAGE_SEQUENCE_LENGTH - signatureSize - paddingSizeFields) in
    assert! u32 (nonEncryptedHeadersSize + SOPC_UA_SECURE_MESSAGE_SEQUENCE_LENGTH + result + signatureSize + paddingSizeFields) <=? chunkSize in
    Ret (result, hasExtraPaddingSize).

(** The sizes that the provider gives; they are 0 when they are not asked for. *)
Record crypto_sizes := mkCryptoSizes {
  toEncrypt_ : bool;
  toSign_ : bool;
  signatureSize_ : Z;
  cipherBlockSize_ : Z;
  plainBlockSize_ : Z
}.

(** Returns the result and the sizes. *)
Definition SC_Chunks_GetSendingCryptoSizes (c : SOPC_SecureConnection) (scConfig : SOPC_SecureChannel_Config) (isSymmetricAlgo : bool)
    : bool * crypto_sizes :=
  match msgSecurityMode scConfig with
  | OpcUa_MessageSecurityMode_None => (true, mkCryptoSizes false false 0 0 0)
  | mode =>
      if negb isSymmetricAlgo then
        let '(status, senderPublicKey) := AsymmetricKey_CreateFromCertificate (SC_OwnCertificate c) in
        if negb (is_ok status) then (false, mkCryptoSizes true true 0 0 0)
        else
          let '(status, receiverPublicKey) := AsymmetricKey_CreateFromCertificate (SC_PeerCertificate c) in
          if negb (is_ok status) then (false, mkCryptoSizes true true 0 0 0)
          else
            let '(status, (cipher, plain)) := AsymmetricGetLength_Msgs (cryptoProvider c) receiverPublicKey in
            if negb (is_ok status) then (false, mkCryptoSizes true true 0 cipher plain)
            else
              let '(status, signatureSize) := AsymmetricGetLength_Signature (cryptoProvider c) senderPublicKey in
              (is_ok status, mkCryptoSizes true true signatureSize cipher plain)
      else
        let '(result, toEncrypt, cipher, plain) :=
          match mode with
          | OpcUa_MessageSecurityMode_SignAndEncrypt =>
              let '(status, (cipher, plain)) := SymmetricGetLength_Blocks (cryptoProvider c) in (is_ok status, true, cipher, plain)
          | _ => (true, false, 0, 0)
          end in
        if negb result then (false, mkCryptoSizes toEncrypt false 0 cipher plain)
        else
          let '(status, signatureSize) := SymmetricGetLength_Signature (cryptoProvider c) in
          (is_ok status, mkCryptoSizes toEncrypt true signatureSize cipher plain)
  end.

(** Returns the size, which is 0 in case of failure, and [*hasExtraPaddingSize], whose
    value before the call is given. *)
Definition SC_Chunks_GetSendingMaxBodySize (c : SOPC_SecureConnection) (scConfig : SOPC_SecureChannel_Config)
    (chunkSize nonEncryptedHeadersSize : Z) (isSymmetric hasExtraPaddingSize : bool) : res (Z * bool) :=
  let '(result, z) := SC_Chunks_GetSendingCryptoSizes c scConfig isSymmetric in
  if result then
    SC_Chunks_ComputeMaxBodySize nonEncryptedHeadersSize chunkSize (toEncrypt_ z) (cipherBlockSize_ z) (plainBlockSize_ z) (toSign_ z) (signatureSize_ z)
  else Ret (0, hasExtraPaddingSize).

Definition SC_Chunks_GetPaddingSize (bytesToEncrypt plainBlockSize signatureSize : Z) : res Z :=
  let paddingSizeFields := if SC_Chunks_Is_ExtraPaddingSizePresent plainBlockSize then 2 else 1 in
  if plainBlockSize =? 0 then Fault DivByZero
  else
    let missingBytesForBlockMultiple := u32 (bytesToEncrypt + signatureSize + paddingSizeFields) mod plainBlockSize in
    let lresult := if negb (missingBytesForBlockMultiple =? 0) then plainBlockSize - missingBytesForBlockMultiple else 0 in
    Ret (if lresult <=? UINT16_MAX then lresult else 0).

Definition SC_Chunks_CheckMaxSenderCertificateSize (senderCertificateSize messageChunkSize securityPolicyUriLength : Z)
    (hasPadding : bool) (realPaddingLength : Z) (hasExtraPadding : bool) (asymmetricSignatureSize : Z) : M bool :=
  let result := messageChunkSize <=? INT32_MAX in
  let maxSize :=
    if result then swrap 32 (messageChunkSize - SOPC_UA_SECURE_MESSAGE_HEADER_LENGTH - 4 - securityPolicyUriLength - 4 - 4 - 20 - 8) else 0 in
  let maxSize :=
    if result && hasPadding then
      let maxSize := swrap 32 (maxSize - 1 - realPaddingLength) in
      if hasExtraPadding then swrap 32 (maxSize - 1) else maxSize
    else maxSize in
  let '(result, maxSize) :=
    if result then
      if asymmetricSignatureSize <=? INT32_MAX then (true, swrap 32 (maxSize - asymmetricSignatureSize)) else (false, maxSize)
    else (result, maxSize) in
  if result && negb (maxSize <? senderCertificateSize) then mret true
  else let! s := get in let! _ := set_error (too_large (conn s)) in mret false.

(** Returns the result and the length. *)
Definition SC_Chunks_GetEncryptedDataLength (c : SOPC_SecureConnection) (plainDataLength : Z) (isSymmetricAlgo : bool) : bool * Z :=
  if negb isSymmetricAlgo then
    match SC_PeerCertificate c with
    | NULL => (false, 0)
    | Some cert =>
        let '(status, publicKey) := AsymmetricKey_CreateFromCertificate (Some cert) in
        if negb (is_ok status) then (false, 0)
        else
          let '(status, n) := AsymmetricGetLength_Encryption (cryptoProvider c) publicKey plainDataLength in
          (is_ok status, n)
    end
  else
    match senderKeySet (currentSecuKeySets c), receiverKeySet (currentSecuKeySets c) with
    | Some _, Some _ => let '(status, n) := SymmetricGetLength_Encryption (cryptoProvider c) plainDataLength in (is_ok status, n)
    | _, _ => (false, 0)
    end.

End Sizes.

(** ** Padding, signature and encryption *)

Section Secure.
Context `{Allocator} `{Host} `{EndiannessCfg} {cfg : SOPC_Common_EncodingConstants} `{Crypto} `{!SendCrypto} `{!Toolkit}.

(** The fields of the padding.  Returns the result and the buffer. *)
Definition write_padding (buffer : ptr SOPC_Buffer) (realPaddingLength plainTextBlockSize : Z) : M (bool * ptr SOPC_Buffer) :=
  let paddingSizeField := z2b (Z.land 0x00FF realPaddingLength) in
  let extraPadding := z2b (Z.shiftr (Z.land 0xFF00 realPaddingLength) 8) in
  let_true buffer := when_ok (SOPC_Buffer_Write buffer (Some [paddingSizeField]) 1) in
  let_true buffer :=
    match SOPC_Malloc (1 * realPaddingLength) with
    | Some _ => when_ok (SOPC_Buffer_Write buffer (Some (replicate (Z.to_nat realPaddingLength) paddingSizeField)) realPaddingLength)
    | NULL => mret (false, buffer)
    end in
  if SC_Chunks_Is_ExtraPaddingSizePresent plainTextBlockSize
  then when_ok (SOPC_Buffer_Write buffer (Some [extraPadding]) 1) else mret (true, buffer).

(** Returns the result, the buffer, [signatureSize], [realPaddingLength] and
    [hasExtraPadding]. *)
Definition SOPC_Chunks_EncodePadding (scConfig : SOPC_SecureChannel_Config) (buffer : ptr SOPC_Buffer) (isSymmetricAlgo : bool)
    (sequenceNumberPosition : Z) : M (bool * (ptr SOPC_Buffer * Z * Z * bool)) :=
  massert! negb (is_null buffer) in
  let! s := get in
  or_error OpcUa_BadTcpInternalError
    (let '(result, z) := SC_Chunks_GetSendingCryptoSizes (conn s) scConfig isSymmetricAlgo in
     if result && toEncrypt_ z then
       let! b := lift (deref buffer) in
       let! realPaddingLength := lift (SC_Chunks_GetPaddingSize (u32 (length_ b - sequenceNumberPosition)) (plainBlockSize_ z) (signatureSize_ z)) in
       let! (result, buffer) := write_padding buffer realPaddingLength (plainBlockSize_ z) in
       mret (result, (buffer, signatureSize_ z, realPaddingLength, SC_Chunks_Is_ExtraPaddingSizePresent (plainBlockSize_ z)))
     else mret (false, (buffer, signatureSize_ z, 0, false))).

(** Returns the result, the buffer, [signatureSize], [hasPadding], [realPaddingLength] and
    [hasExtraPadding]. *)
Definition SOPC_Chunks_GetSignatureSize_EncodePadding (scConfig : SOPC_SecureChannel_Config) (buffer : ptr SOPC_Buffer)
    (isSymmetricAlgo toEncrypt toSign : bool) (sequenceNumberPosition : Z) : M (bool * (ptr SOPC_Buffer * Z * bool * Z * bool)) :=
  if toEncrypt then
    let! (result, (buffer, signatureSize, realPaddingLength, hasExtraPadding)) :=
      SOPC_Chunks_EncodePadding scConfig buffer isSymmetricAlgo sequenceNumberPosition in
    mret (result, (buffer, signatureSize, true, realPaddingLength, hasExtraPadding))
  else if toSign then
    let! s := get in
    or_error OpcUa_BadTcpInternalError
      (let '(result, z) := SC_Chunks_GetSendingCryptoSizes (conn s) scConfig isSymmetricAlgo in
       mret (result, (buffer, signatureSize_ z, false, 0, false)))
  else mret (true, (buffer, 0, false, 0, false)).

(** Returns the result, the buffer and [encryptedDataLength]. *)
Definition SC_Chunks_EncodeMessageSize (buffer : ptr SOPC_Buffer) (symmetricAlgo toEncrypt : bool) (sequenceNumberPosition signatureSize : Z)
    : M (bool * (ptr SOPC_Buffer * Z)) :=
  let! s := get in
  let! b := lift (deref buffer) in
  or_error OpcUa_BadTcpInternalError
    (if toEncrypt then
       let plainDataToEncryptLength := u32 (length_ b - sequenceNumberPosition + signatureSize) in
       let '(result, encryptedDataLength) := SC_Chunks_GetEncryptedDataLength (conn s) plainDataToEncryptLength symmetricAlgo in
       if result then
         let! (result, buffer) := when_ok (SOPC_UInt32_Write (Some (u32 (sequenceNumberPosition + encryptedDataLength))) buffer 0) in
         mret (result, (buffer, encryptedDataLength))
       else mret (false, (buffer, encryptedDataLength))
     else
       let! (result, buffer) := when_ok (SOPC_UInt32_Write (Some (u32 (length_ b + signatureSize))) buffer 0) in
       mret (result, (buffer, 0))).

(** The signature of the data of the buffer is written at its position, given the
    function that signs. *)
Definition sign_into (buffer : ptr SOPC_Buffer) (signatureSize : Z) (sign : block -> Z -> SOPC_ReturnStatus * block) : M (bool * ptr SOPC_Buffer) :=
  let! (status, signedData) := lift (SOPC_ByteString_InitializeFixedSize (Some string_init) signatureSize) in
  if negb (is_ok status) then mret (false, buffer)
  else
    let! signedData := lift (deref signedData) in
    if negb (0 <? Length signedData) then mret (false, buffer)
    else
      let! b := lift (deref buffer) in
      let! d := lift (deref (data b)) in
      let! input := lift (mem_read d 0 (length_ b)) in
      let '(status, signature) := sign input (Length signedData) in
      if negb (is_ok status) then mret (false, buffer)
      else
        let! d := lift (deref (Data signedData)) in
        let! d := lift (mem_write d 0 signature) in
        when_ok (SOPC_Buffer_Write buffer (Some d) (Length signedData)).

Definition SC_Chunks_EncodeSignatureNoError (buffer : ptr SOPC_Buffer) (symmetricAlgo isPrevCryptoData : bool) (signatureSize : Z)
    : M (bool * ptr SOPC_Buffer) :=
  let! s := get in
  let c := conn s in
  if negb symmetricAlgo then
    match privateKey c with
    | NULL => mret (false, buffer)
    | Some key => sign_into buffer signatureSize (AsymmetricSign (cryptoProvider c) key)
    end
  else
    match SC_Chunks_GetSecurityKeySets c isPrevCryptoData with
    | NULL => mret (false, buffer)
    | Some (keySet, _) => sign_into buffer signatureSize (SymmetricSign (cryptoProvider c) keySet)
    end.

Definition SC_Chunks_EncodeSignature (buffer : ptr SOPC_Buffer) (symmetricAlgo isPrevCryptoData : bool) (signatureSize : Z)
    : M (bool * ptr SOPC_Buffer) :=
  or_error OpcUa_BadEncodingError (SC_Chunks_EncodeSignatureNoError buffer symmetricAlgo isPrevCryptoData signatureSize).

(** The headers are copied and the rest is encrypted, given the function that encrypts
    and the error for a buffer that is too small, when there is one. *)
Definition encrypt_into (nonEncryptedBuffer encryptedBuffer : SOPC_Buffer) (sequenceNumberPosition encryptedDataLength : Z) (sizeError : ptr Z)
    (encrypt : block -> Z -> SOPC_ReturnStatus * block) : M (bool * ptr SOPC_Buffer) :=
  let! source := lift (deref (data nonEncryptedBuffer)) in
  let total := u32 (sequenceNumberPosition + encryptedDataLength) in
  let fits := negb (maximum_size encryptedBuffer <? total) in
  let! _ := (if fits then mret tt else match sizeError with Some e => set_error e | NULL => mret tt end) in
  match data encryptedBuffer with
  | NULL => let! _ := set_error OpcUa_BadTcpInternalError in mret (false, Some encryptedBuffer)
  | Some encryptedData =>
      let! encryptedData := lift (memcpy encryptedData 0 source 0 sequenceNumberPosition) in
      let! (status, encrypted) := lift (SOPC_Buffer_SetDataLength (Some (set_data encryptedBuffer (Some encryptedData))) total) in
      let! _ := (if is_ok status then mret tt else set_error OpcUa_BadTcpInternalError) in
      if negb (fits && is_ok status) then mret (false, encrypted)
      else
        let! encryptedBuffer := lift (deref encrypted) in
        let! encryptedData := lift (deref (data encryptedBuffer)) in
        let! dataToEncrypt := lift (mem_read source sequenceNumberPosition (u32 (length_ nonEncryptedBuffer - sequenceNumberPosition))) in
        let '(status, text) := encrypt dataToEncrypt encryptedDataLength in
        if negb (is_ok status) then let! _ := set_error OpcUa_BadEncodingError in mret (false, encrypted)
        else
          let! encryptedData := lift (mem_write encryptedData sequenceNumberPosition text) in
          mret (true, Some (set_data encryptedBuffer (Some encryptedData)))
  end.

(** Returns the result and the encrypted buffer. *)
Definition SC_Chunks_EncryptMsg (nonEncryptedBuffer : SOPC_Buffer) (symmetricAlgo isPrevCryptoData : bool)
    (sequenceNumberPosition encryptedDataLength : Z) (encryptedBuffer : SOPC_Buffer) : M (bool * ptr SOPC_Buffer) :=
  let! s := get in
  let c := conn s in
  if negb symmetricAlgo then
    massert! negb (is_null (SOPC_Toolkit_GetSecureChannelConfig c)) in
    let '(status, otherAppPublicKey) := AsymmetricKey_CreateFromCertificate (SC_PeerCertificate c) in
    if negb (is_ok status) then let! _ := set_error OpcUa_BadTcpInternalError in mret (false, Some encryptedBuffer)
    else encrypt_into nonEncryptedBuffer encryptedBuffer sequenceNumberPosition encryptedDataLength NULL
           (AsymmetricEncrypt (cryptoProvider c) otherAppPublicKey)
  else
    match SC_Chunks_GetSecurityKeySets c isPrevCryptoData with
    | NULL => let! _ := set_error OpcUa_BadTcpInternalError in mret (false, Some encryptedBuffer)
    | Some (keySet, _) =>
        encrypt_into nonEncryptedBuffer encryptedBuffer sequenceNumberPosition encryptedDataLength (Some OpcUa_BadTcpInternalError)
          (SymmetricEncrypt (cryptoProvider c) keySet)
    end.

(** Returns the result and [*outputBuffer], which is [NULL] in case of failure. *)
Definition SC_Chunks_Encrypt (nonEncryptedBuffer : ptr SOPC_Buffer) (symmetricAlgo isPrevCryptoData : bool)
    (sequenceNumberPosition encryptedDataLength : Z) : M (bool * ptr SOPC_Buffer) :=
  let! s := get in
  let total := u32 (sequenceNumberPosition + encryptedDataLength) in
  match (if total <=? sendBufferSize (tcpMsgProperties (conn s)) then SOPC_Buffer_Create total else NULL) with
  | NULL => let! _ := set_error OpcUa_BadOutOfMemory in mret (false, NULL)
  | Some encryptedBuffer =>
      let! nonEncryptedBuffer := lift (deref nonEncryptedBuffer) in
      let! (result, encrypted) :=
        SC_Chunks_EncryptMsg nonEncryptedBuffer symmetricAlgo isPrevCryptoData sequenceNumberPosition encryptedDataLength encryptedBuffer in
      mret (result, if result then encrypted else NULL)
  end.

End Secure.

(** ** Messages *)

Section Sending.
Context `{Allocator} `{Host} `{EndiannessCfg} {cfg : SOPC_Common_EncodingConstants} `{Crypto} `{!SendCrypto} `{!Toolkit}.

(** [SOPC_Buffer_SetPosition], as a call whose status is checked or asserted. *)
Definition seek (buffer : ptr SOPC_Buffer) (position : Z) : res (SOPC_ReturnStatus * ptr SOPC_Buffer) :=
  Ret (SOPC_Buffer_SetPosition buffer position).

(** [SOPC_Buffer_SetPosition(buffer, buffer->length)] *)
Definition seek_end (buffer : ptr SOPC_Buffer) : res (SOPC_ReturnStatus * ptr SOPC_Buffer) :=
  let* b := deref buffer in seek buffer (length_ b).

(** Returns the result and [*outputBuffer]. *)
Definition SC_Chunks_TreatSendBufferTCPonly (sendMsgType : SOPC_Msg_Type) (inputBuffer : ptr SOPC_Buffer) : M (bool * ptr SOPC_Buffer) :=
  massert! negb (is_null inputBuffer) in
  massert! match sendMsgType with SOPC_MSG_TYPE_HEL | SOPC_MSG_TYPE_ACK | SOPC_MSG_TYPE_ERR => true | _ => false end in
  let! inputBuffer := expect_ok (seek inputBuffer 0) in
  let! (result, inputBuffer) := SC_Chunks_EncodeTcpMsgHeader sendMsgType SOPC_UA_FINAL_CHUNK inputBuffer in
  mret (result, if result then inputBuffer else NULL).

(** *** The requests that wait for a response *)

Definition sizeof_SOPC_SentRequestMsg_Context : Z := 20.

Definition SC_Client_StartRequestTimeout (connectionIdx requestHandle requestId : Z) : M Z :=
  if SOPC_REQUEST_TIMEOUT_MS <=? 0 then mret 0
  else
    let! s := get in
    let! _ := emit (StartTimer connectionIdx requestHandle requestId) in
    mret (SOPC_EventTimer_Create (trace s) connectionIdx requestHandle requestId SOPC_REQUEST_TIMEOUT_MS).

Definition SC_Chunks_CreateClientSentRequestContext (scConnectionIdx requestIdOrHandle : Z) (sendMsgType : SOPC_Msg_Type) (requestId : Z) : M bool :=
  let! result :=
    match sendMsgType with
    | SOPC_MSG_TYPE_SC_OPN | SOPC_MSG_TYPE_SC_MSG =>
        if alloc_ok sizeof_SOPC_SentRequestMsg_Context then
          let! timer := SC_Client_StartRequestTimeout scConnectionIdx requestIdOrHandle requestId in
          let msgCtx := mkSentRequest false scConnectionIdx requestIdOrHandle sendMsgType timer in
          let! msgCtxRes := with_requests (fun h l => SOPC_SLinkedList_Append h l requestId (Some msgCtx)) in
          mret (negb (is_null msgCtxRes))
        else mret false
    | SOPC_MSG_TYPE_SC_CLO => mret true
    | _ => lift (Fault AssertFailed)
    end in
  if result then mret true else let! _ := set_error OpcUa_BadTcpInternalError in mret false.

(** *** [OPN] messages *)

(** The sizes of the bodies are computed once, and the body is compared with the one of
    the asymmetric case. *)
Definition check_asymmetric_body (scConfig : SOPC_SecureChannel_Config) (sequenceNumberPosition bodyLength : Z) : M bool :=
  let! s := get in
  let c := conn s in
  let! _ :=
    (if (asymmSecuMaxBodySize c =? 0) && (symmSecuMaxBodySize c =? 0) then
       let chunkSize := sendBufferSize (tcpMsgProperties c) in
       let! (asymm, extra) := lift (SC_Chunks_GetSendingMaxBodySize c scConfig chunkSize sequenceNumberPosition false (hasExtraPaddingSize c)) in
       let! (symm, extra) :=
         lift (SC_Chunks_GetSendingMaxBodySize c scConfig chunkSize
                 (SOPC_UA_SECURE_MESSAGE_HEADER_LENGTH + SOPC_UA_SYMMETRIC_SECURITY_HEADER_LENGTH) true extra) in
       set_conn (set_hasExtraPaddingSize (set_symmSecuMaxBodySize (set_asymmSecuMaxBodySize c asymm) symm) extra)
     else mret tt) in
  let! s := get in
  let c := conn s in
  if (asymmSecuMaxBodySize c =? 0) || (symmSecuMaxBodySize c =? 0) then let! _ := set_error OpcUa_BadTcpInternalError in mret false
  else if asymmSecuMaxBodySize c <? bodyLength then let! _ := set_error (too_large c) in mret false
  else mret true.

(** The bytes of the sequence header are reserved and the body is copied. *)
Definition append_body (buffer : ptr SOPC_Buffer) (inputBuffer : SOPC_Buffer) : M (bool * ptr SOPC_Buffer) :=
  let! b := lift (deref buffer) in
  massert! length_ b <? u32 (position b + SOPC_UA_SECURE_MESSAGE_SEQUENCE_LENGTH) in
  or_error OpcUa_BadTcpInternalError
    (let_true buffer := when_ok (SOPC_Buffer_SetDataLength buffer (u32 (position b + SOPC_UA_SECURE_MESSAGE_SEQUENCE_LENGTH))) in
     let_true buffer := when_ok (seek buffer (u32 (position b + SOPC_UA_SECURE_MESSAGE_SEQUENCE_LENGTH))) in
     when_ok (SOPC_Buffer_Write buffer (data inputBuffer) (length_ inputBuffer))).

(** The size of the message, the sequence header and the signature of a chunk whose body
    and padding are encoded; the position of the buffer is at its end afterwards.  Returns
    the result, the buffer, [encryptedDataLength] and the request identifier. *)
Definition finish_chunk (buffer : ptr SOPC_Buffer) (symmetricAlgo isPrevCryptoData toEncrypt toSign isFinalChunk : bool)
    (requestIdOrHandle sequenceNumberPosition signatureSize : Z) : M (bool * (ptr SOPC_Buffer * Z * Z)) :=
  let! buffer := expect_ok (seek buffer SOPC_UA_HEADER_MESSAGE_SIZE_POSITION) in
  let! (result, (buffer, encryptedDataLength)) :=
    SC_Chunks_EncodeMessageSize buffer symmetricAlgo toEncrypt sequenceNumberPosition signatureSize in
  if negb result then mret (false, (buffer, encryptedDataLength, 0))
  else
    let! (result, buffer) := SC_Chunks_EncodeSequenceNumber buffer sequenceNumberPosition in
    if negb result then mret (false, (buffer, encryptedDataLength, 0))
    else
      let! (result, (buffer, requestId)) := SC_Chunks_EncodeRequestId buffer isFinalChunk requestIdOrHandle in
      if negb result then mret (false, (buffer, encryptedDataLength, requestId))
      else
        let! buffer := expect_ok (seek_end buffer) in
        let! (result, buffer) :=
          (if toSign then SC_Chunks_EncodeSignature buffer symmetricAlgo isPrevCryptoData signatureSize else mret (true, buffer)) in
        mret (result, (buffer, encryptedDataLength, requestId)).

(** The headers of an [OPN] message.  Returns the result, the buffer,
    [securityPolicyLength] and [senderCertificateSize]. *)
Definition encode_opn_headers (scConfig : SOPC_SecureChannel_Config) (sendMsgType : SOPC_Msg_Type) (buffer : ptr SOPC_Buffer)
    : M (bool * (ptr SOPC_Buffer * Z * Z)) :=
  let! (result, buffer) :=
    (let_true buffer := SC_Chunks_EncodeTcpMsgHeader sendMsgType SOPC_UA_FINAL_CHUNK buffer in
     SC_Chunks_EncodeScMessageHeaderAdditionalField buffer) in
  if result then SC_Chunks_EncodeAsymSecurityHeader scConfig buffer else mret (false, (buffer, 0, 0)).

(** The message before its encryption.  Returns the result, the buffer, the position of
    the sequence number, [encryptedDataLength] and the request identifier. *)
Definition encode_opn (scConfig : SOPC_SecureChannel_Config) (toEncrypt toSign : bool) (requestIdOrHandle : Z) (sendMsgType : SOPC_Msg_Type)
    (inputBuffer : SOPC_Buffer) (buffer : ptr SOPC_Buffer) : M (bool * (ptr SOPC_Buffer * Z * Z * Z)) :=
  let! (result, (buffer, securityPolicyLength, senderCertificateSize)) := encode_opn_headers scConfig sendMsgType buffer in
  if negb result then mret (false, (buffer, 0, 0, 0))
  else
    let! b := lift (deref buffer) in
    let sequenceNumberPosition := position b in
    let! result := check_asymmetric_body scConfig sequenceNumberPosition (length_ inputBuffer) in
    if negb result then mret (false, (buffer, sequenceNumberPosition, 0, 0))
    else
      let! (result, buffer) := append_body buffer inputBuffer in
      if negb result then mret (false, (buffer, sequenceNumberPosition, 0, 0))
      else
        let! (result, (buffer, signatureSize, hasPadding, realPaddingLength, hasExtraPadding)) :=
          SOPC_Chunks_GetSignatureSize_EncodePadding scConfig buffer false toEncrypt toSign sequenceNumberPosition in
        if negb result then mret (false, (buffer, sequenceNumberPosition, 0, 0))
        else
          let! b := lift (deref buffer) in
          let! result :=
            SC_Chunks_CheckMaxSenderCertificateSize senderCertificateSize (maximum_size b) securityPolicyLength hasPadding realPaddingLength
              hasExtraPadding signatureSize in
          if negb result then mret (false, (buffer, sequenceNumberPosition, 0, 0))
          else
            let! (result, (buffer, encryptedDataLength, requestId)) :=
              finish_chunk buffer false false toEncrypt toSign true requestIdOrHandle sequenceNumberPosition signatureSize in
            mret (result, (buffer, sequenceNumberPosition, encryptedDataLength, requestId)).

(** Returns the result and [*outputBuffer]. *)
Definition SC_Chunks_TreatSendBufferOPN (scConnectionIdx requestIdOrHandle : Z) (sendMsgType : SOPC_Msg_Type) (inputBuffer : SOPC_Buffer)
    : M (bool * ptr SOPC_Buffer) :=
  let! s := get in
  match SOPC_Toolkit_GetSecureChannelConfig (conn s) with
  | NULL => lift (Fault AssertFailed)
  | Some scConfig =>
      let! toEncrypt := lift (SC_Chunks_IsMsgEncrypted (msgSecurityMode scConfig) true) in
      let toSign := SC_Chunks_IsMsgSigned (msgSecurityMode scConfig) in
      massert! 0 <? sendBufferSize (tcpMsgProperties (conn s)) in
      let nonEncryptedBuffer := SOPC_Buffer_Create (sendBufferSize (tcpMsgProperties (conn s))) in
      let! (result, (nonEncryptedBuffer, sequenceNumberPosition, encryptedDataLength, requestId)) :=
        encode_opn scConfig toEncrypt toSign requestIdOrHandle sendMsgType inputBuffer nonEncryptedBuffer in
      let! (result, outputBuffer) :=
        (if negb result then mret (false, NULL)
         else if toEncrypt then SC_Chunks_Encrypt nonEncryptedBuffer false false sequenceNumberPosition encryptedDataLength
         else mret (true, nonEncryptedBuffer)) in
      let! result :=
        (if result && negb (isServerConnection (conn s))
         then SC_Chunks_CreateClientSentRequestContext scConnectionIdx requestIdOrHandle sendMsgType requestId else mret result) in
      mret (result, if result then outputBuffer else NULL)
  end.

(** *** [MSG] and [CLO] messages *)

(** The token of the chunk.  Returns [tokenId] and [isPrevCryptoData]. *)
Definition sending_token (c : SOPC_SecureConnection) : res (Z * bool) :=
  if isServerConnection c && negb (serverNewSecuTokenActive c) then
    assert! negb (tokenId (precedentSecurityToken c) =? 0) in
    assert! negb (secureChannelId (precedentSecurityToken c) =? 0) in
    Ret (tokenId (precedentSecurityToken c), true)
  else Ret (tokenId (currentSecurityToken c), false).

Definition check_symmetric_body (buffer : ptr SOPC_Buffer) : M bool :=
  let! s := get in
  let! b := lift (deref buffer) in
  massert! negb (symmSecuMaxBodySize (conn s) =? 0) in
  let bodySize := u32 (length_ b - SOPC_UA_SYMMETRIC_SECURE_MESSAGE_HEADERS_LENGTH) in
  if symmSecuMaxBodySize (conn s) <? bodySize then let! _ := set_error (too_large (conn s)) in mret false else mret true.

(** The headers of the chunk, up to the sequence header; the position is at the end of
    the body afterwards.  Returns the result, the buffer and [isPrevCryptoData]. *)
Definition encode_symmetric_headers (sendMsgType : SOPC_Msg_Type) (isFinalChar : byte) (buffer : ptr SOPC_Buffer)
    : M (bool * (ptr SOPC_Buffer * bool)) :=
  let! (result, buffer) :=
    (let_true buffer := SC_Chunks_EncodeTcpMsgHeader sendMsgType isFinalChar buffer in
     let_true buffer := SC_Chunks_EncodeScMessageHeaderAdditionalField buffer in
     let! result := check_symmetric_body buffer in
     mret (result, buffer)) in
  if negb result then mret (false, (buffer, false))
  else
    let! s := get in
    let! (tokenId, isPrevCryptoData) := lift (sending_token (conn s)) in
    let! (result, buffer) :=
      or_error OpcUa_BadTcpInternalError
        (let_true buffer := when_ok (SOPC_UInt32_Write (Some tokenId) buffer 0) in
         when_ok (seek_end buffer)) in
    mret (result, (buffer, isPrevCryptoData)).

(** The chunk before its encryption.  Returns the result, the buffer, [isPrevCryptoData],
    [encryptedDataLength] and the request identifier. *)
Definition encode_symmetric (scConfig : SOPC_SecureChannel_Config) (toEncrypt toSign : bool) (requestIdOrHandle : Z) (sendMsgType : SOPC_Msg_Type)
    (isFinalChar : byte) (buffer : ptr SOPC_Buffer) : M (bool * (ptr SOPC_Buffer * bool * Z * Z)) :=
  let! (result, (buffer, isPrevCryptoData)) := encode_symmetric_headers sendMsgType isFinalChar buffer in
  if negb result then mret (false, (buffer, isPrevCryptoData, 0, 0))
  else
    let! (result, (buffer, signatureSize, _, _, _)) :=
      SOPC_Chunks_GetSignatureSize_EncodePadding scConfig buffer true toEncrypt toSign SOPC_UA_SYMMETRIC_SEQUENCE_HEADER_POSITION in
    if negb result then mret (false, (buffer, isPrevCryptoData, 0, 0))
    else
      let! (result, (buffer, encryptedDataLength, requestId)) :=
        finish_chunk buffer true isPrevCryptoData toEncrypt toSign (negb (bool_decide (isFinalChar = SOPC_UA_INTERMEDIATE_CHUNK))) requestIdOrHandle
          SOPC_UA_SYMMETRIC_SEQUENCE_HEADER_POSITION signatureSize in
      mret (result, (buffer, isPrevCryptoData, encryptedDataLength, requestId)).

(** Returns the result, [*inputChunkBuffer] and [*outputBuffer]. *)
Definition SC_Chunks_TreatSendBufferMSGCLO (scConnectionIdx requestIdOrHandle : Z) (sendMsgType : SOPC_Msg_Type) (isFinalChar : byte)
    (inputChunkBuffer : ptr SOPC_Buffer) : M (bool * ptr SOPC_Buffer * ptr SOPC_Buffer) :=
  massert! negb (is_null inputChunkBuffer) in
  let! s := get in
  match SOPC_Toolkit_GetSecureChannelConfig (conn s) with
  | NULL => lift (Fault AssertFailed)
  | Some scConfig =>
      let! toEncrypt := lift (SC_Chunks_IsMsgEncrypted (msgSecurityMode scConfig) false) in
      let toSign := SC_Chunks_IsMsgSigned (msgSecurityMode scConfig) in
      let! nonEncryptedBuffer := expect_ok (seek inputChunkBuffer 0) in
      let! (result, (nonEncryptedBuffer, isPrevCryptoData, encryptedDataLength, requestId)) :=
        encode_symmetric scConfig toEncrypt toSign requestIdOrHandle sendMsgType isFinalChar nonEncryptedBuffer in
      let! (result, inputChunkBuffer, outputBuffer) :=
        (if negb result then mret (false, nonEncryptedBuffer, NULL)
         else if toEncrypt then
           let! (result, outputBuffer) :=
             SC_Chunks_Encrypt nonEncryptedBuffer true isPrevCryptoData SOPC_UA_SYMMETRIC_SEQUENCE_HEADER_POSITION encryptedDataLength in
           mret (result, nonEncryptedBuffer, outputBuffer)
         else mret (true, NULL, nonEncryptedBuffer)) in
      let! result :=
        (if result && negb (isServerConnection (conn s)) && bool_decide (isFinalChar = SOPC_UA_FINAL_CHUNK)
         then SC_Chunks_CreateClientSentRequestContext scConnectionIdx requestIdOrHandle sendMsgType requestId else mret result) in
      mret (result, inputChunkBuffer, if result then outputBuffer else NULL)
  end.

(** *** Messages of several chunks *)

(** Returns the result and [nbChunks]. *)
Definition SC_Chunks_ComputeNbChunksToSend (msgType : SOPC_Msg_Type) (msgBodyLength : Z) : M (bool * Z) :=
  massert! match msgType with SOPC_MSG_TYPE_SC_MSG | SOPC_MSG_TYPE_SC_CLO => true | _ => false end in
  let! s := get in
  let c := conn s in
  let p := tcpMsgProperties c in
  let! (result, nbChunks) :=
    (if (sendMaxMessageSize p =? 0) || (msgBodyLength <=? sendMaxMessageSize p) then
       if msgBodyLength <=? symmSecuMaxBodySize c then mret (true, 1)
       else if bool_decide (msgType = SOPC_MSG_TYPE_SC_MSG) then
         if symmSecuMaxBodySize c =? 0 then lift (Fault DivByZero)
         else
           let requestedNbChunks := msgBodyLength / symmSecuMaxBodySize c in
           let requestedNbChunks :=
             if negb (msgBodyLength mod symmSecuMaxBodySize c =? 0) then u32 (requestedNbChunks + 1) else requestedNbChunks in
           if (sendMaxChunkCount p =? 0) || (requestedNbChunks <=? sendMaxChunkCount p) then mret (true, requestedNbChunks) else mret (false, 0)
       else mret (false, 0)
     else mret (false, 0)) in
  if result then mret (true, nbChunks) else let! _ := set_error (too_large c) in mret (false, nbChunks).

Definition allocation_reason : block := list_byte_of_string "Internal error when allocating next chunk buffer" ++ [x00].
Definition size_reason : block := list_byte_of_string "Not enough bytes available in chunk(s) to send the message." ++ [x00].

(** Returns the result, [msgBuffer], [*nextChunkBuffer] and [*errorReason], whose value
    before the call is given. *)
Definition SC_Chunks_NextOutputChunkBuffer (msgBuffer nextChunkBuffer : ptr SOPC_Buffer) (errorReason : block)
    : M (bool * (ptr SOPC_Buffer * ptr SOPC_Buffer * block)) :=
  let! s := get in
  let c := conn s in
  let! remainingBytes := lift (SOPC_Buffer_Remaining msgBuffer) in
  let nextChunkBodySize := if remainingBytes <? symmSecuMaxBodySize c then remainingBytes else symmSecuMaxBodySize c in
  let! nextChunkBuffer :=
    match nextChunkBuffer with
    | NULL => mret (SOPC_Buffer_Create (sendBufferSize (tcpMsgProperties c)))
    | Some b =>
        massert! u32 (SOPC_UA_SYMMETRIC_SECURE_MESSAGE_HEADERS_LENGTH + nextChunkBodySize) <=? maximum_size b in
        lift (SOPC_Buffer_Reset (Some b))
    end in
  if is_null nextChunkBuffer then
    let! _ := set_error OpcUa_BadOutOfMemory in mret (false, (msgBuffer, NULL, allocation_reason))
  else
    let! nextChunkBuffer := expect_ok (SOPC_Buffer_SetDataLength nextChunkBuffer SOPC_UA_SYMMETRIC_SECURE_MESSAGE_HEADERS_LENGTH) in
    let! nextChunkBuffer := expect_ok (seek nextChunkBuffer SOPC_UA_SYMMETRIC_SECURE_MESSAGE_HEADERS_LENGTH) in
    let! next := lift (deref nextChunkBuffer) in
    let! msg := lift (deref msgBuffer) in
    let! (result, remaining, next, msg) := lift (fill_buffer next msg nextChunkBodySize) in
    massert! result in
    massert! remaining =? 0 in
    let! nextChunkBuffer := expect_ok (seek (Some next) 0) in
    mret (true, (Some msg, nextChunkBuffer, errorReason)).

Definition SC_Chunks_EncodeAbortMsg (inputMsgBuffer : ptr SOPC_Buffer) (errorStatus : Z) (reason : block) : M (bool * ptr SOPC_Buffer) :=
  let! inputMsgBuffer := lift (SOPC_Buffer_Reset inputMsgBuffer) in
  let_true inputMsgBuffer := when_ok (SOPC_Buffer_SetDataLength inputMsgBuffer SOPC_UA_SYMMETRIC_SECURE_MESSAGE_HEADERS_LENGTH) in
  let_true inputMsgBuffer := when_ok (seek inputMsgBuffer SOPC_UA_SYMMETRIC_SECURE_MESSAGE_HEADERS_LENGTH) in
  let_true inputMsgBuffer := when_ok (SOPC_UInt32_Write (Some (SOPC_StatusCode_ToTcpErrorCode errorStatus)) inputMsgBuffer 0) in
  let! (_, tempString) := lift (SOPC_String_AttachFromCstring (SOPC_String_Initialize (Some string_init)) (Some reason)) in
  when_ok (SOPC_String_Write tempString inputMsgBuffer 0).

Definition SC_Chunks_IsNextChunkIntermediateOrFinal (nb_chunks_required nb_chunks_sent : Z) : byte :=
  if u32 (nb_chunks_sent + 1) <? nb_chunks_required then SOPC_UA_INTERMEDIATE_CHUNK else SOPC_UA_FINAL_CHUNK.

(** [SOPC_Sockets_EnqueueEvent(SOCKET_WRITE, scConnection->socketIndex, buffer, 0)] *)
Definition socket_write (buffer : ptr SOPC_Buffer) : M unit :=
  let! s := get in emit (SocketWrite (socketIndex (conn s)) buffer).

(** The [while] loop; [todo] is [nb_chunks - nb_chunks_sent].  Returns the result,
    [inputMsgBuffer] and [errorReason]. *)
Fixpoint send_chunks (todo : nat) (scConnectionIdx requestIdOrHandle : Z) (sendMsgType : SOPC_Msg_Type) (nb_chunks nb_chunks_sent : Z)
    (inputMsgBuffer inputChunkBuffer : ptr SOPC_Buffer) (errorReason : block) : M (bool * ptr SOPC_Buffer * block) :=
  match todo with
  | O => mret (true, inputMsgBuffer, errorReason)
  | S todo =>
      let! (result, inputChunkBuffer, outputChunkBuffer) :=
        SC_Chunks_TreatSendBufferMSGCLO scConnectionIdx requestIdOrHandle sendMsgType
          (SC_Chunks_IsNextChunkIntermediateOrFinal nb_chunks nb_chunks_sent) inputChunkBuffer in
      if negb result then mret (false, inputMsgBuffer, errorReason)
      else
        let! _ := socket_write outputChunkBuffer in
        let nb_chunks_sent := nb_chunks_sent + 1 in
        if nb_chunks_sent <? nb_chunks then
          let! (result, (inputMsgBuffer, inputChunkBuffer, errorReason)) :=
            SC_Chunks_NextOutputChunkBuffer inputMsgBuffer inputChunkBuffer errorReason in
          if negb result then mret (false, inputMsgBuffer, errorReason)
          else send_chunks todo scConnectionIdx requestIdOrHandle sendMsgType nb_chunks nb_chunks_sent inputMsgBuffer inputChunkBuffer errorReason
        else mret (true, inputMsgBuffer, errorReason)
  end.

(** The chunks of a [MSG] or [CLO] message.  The message is its only chunk when it is
    small enough.  Returns the result, [inputMsgBuffer] and [errorReason]. *)
Definition send_message (scConnectionIdx requestIdOrHandle : Z) (sendMsgType : SOPC_Msg_Type) (inputMsgBuffer : ptr SOPC_Buffer)
    : M (bool * ptr SOPC_Buffer * block) :=
  let! inputMsgBuffer := expect_ok (seek inputMsgBuffer SOPC_UA_SYMMETRIC_SECURE_MESSAGE_HEADERS_LENGTH) in
  let! length := lift (SOPC_Buffer_Remaining inputMsgBuffer) in
  let! (result, nb_chunks) := SC_Chunks_ComputeNbChunksToSend sendMsgType length in
  if negb result then mret (false, inputMsgBuffer, size_reason)
  else
    massert! 0 <? nb_chunks in
    let! (result, (inputMsgBuffer, inputChunkBuffer, errorReason)) :=
      (if nb_chunks =? 1 then
         let! inputChunkBuffer := expect_ok (seek inputMsgBuffer 0) in
         mret (true, (NULL, inputChunkBuffer, size_reason))
       else SC_Chunks_NextOutputChunkBuffer inputMsgBuffer NULL size_reason) in
    if negb result then mret (false, inputMsgBuffer, errorReason)
    else send_chunks (Z.to_nat nb_chunks) scConnectionIdx requestIdOrHandle sendMsgType nb_chunks 0 inputMsgBuffer inputChunkBuffer errorReason.

(** The abort chunk.  Returns [failedWithAbortMessage]. *)
Definition send_abort (scConnectionIdx requestIdOrHandle : Z) (sendMsgType : SOPC_Msg_Type) (inputMsgBuffer : ptr SOPC_Buffer) (errorReason : block)
    : M bool :=
  let! s := get in
  let! (result, inputMsgBuffer) := SC_Chunks_EncodeAbortMsg inputMsgBuffer (errorStatus s) errorReason in
  let! (result, outputChunkBuffer) :=
    (if result then
       let! (result, _, outputChunkBuffer) :=
         SC_Chunks_TreatSendBufferMSGCLO scConnectionIdx requestIdOrHandle sendMsgType SOPC_UA_ABORT_FINAL_CHUNK inputMsgBuffer in
       mret (result, outputChunkBuffer)
     else mret (false, NULL)) in
  if result then let! _ := socket_write outputChunkBuffer in mret true else mret false.

(** Returns the result and [failedWithAbortMessage]. *)
Definition SC_Chunks_TreatSendMessageBuffer (scConnectionIdx requestIdOrHandle : Z) (sendMsgType : SOPC_Msg_Type) (isTcpUaOnly isOPN : bool)
    (inputMsgBuffer : ptr SOPC_Buffer) : M (bool * bool) :=
  let! inputMsgBuffer := expect_ok (seek inputMsgBuffer 0) in
  if isTcpUaOnly then
    let! (result, outputChunkBuffer) := SC_Chunks_TreatSendBufferTCPonly sendMsgType inputMsgBuffer in
    let! _ := (if result then socket_write outputChunkBuffer else mret tt) in
    mret (result, false)
  else if isOPN then
    massert! bool_decide (sendMsgType = SOPC_MSG_TYPE_SC_OPN) in
    let! inputMsg := lift (deref inputMsgBuffer) in
    let! (result, outputChunkBuffer) := SC_Chunks_TreatSendBufferOPN scConnectionIdx requestIdOrHandle sendMsgType inputMsg in
    let! _ := (if result then socket_write outputChunkBuffer else mret tt) in
    mret (result, false)
  else
    massert! match sendMsgType with SOPC_MSG_TYPE_SC_MSG | SOPC_MSG_TYPE_SC_CLO => true | _ => false end in
    let! (result, inputMsgBuffer, errorReason) := send_message scConnectionIdx requestIdOrHandle sendMsgType inputMsgBuffer in
    if result then mret (true, true)
    else
      let! failedWithAbortMessage := send_abort scConnectionIdx requestIdOrHandle sendMsgType inputMsgBuffer errorReason in
      mret (false, failedWithAbortMessage).

(** *** Events *)

(** The message of an event: its type, whether it has the header of a TCP message only,
    whether it is an [OPN] message, and whether the socket is closed afterwards. *)
Definition sending_event (event : SOPC_SecureChannels_InternalEvent) : res (SOPC_Msg_Type * bool * bool * bool) :=
  match event with
  | INT_SC_SND_HEL => Ret (SOPC_MSG_TYPE_HEL, true, false, false)
  | INT_SC_SND_ACK => Ret (SOPC_MSG_TYPE_ACK, true, false, false)
  | INT_SC_SND_ERR => Ret (SOPC_MSG_TYPE_ERR, true, false, true)
  | INT_SC_SND_OPN => Ret (SOPC_MSG_TYPE_SC_OPN, false, true, false)
  | INT_SC_SND_CLO => Ret (SOPC_MSG_TYPE_SC_CLO, false, false, true)
  | INT_SC_SND_MSG_CHUNKS => Ret (SOPC_MSG_TYPE_SC_MSG, false, false, false)
  | _ => Fault AssertFailed
  end.

(** The connection of the state is the one that [SC_GetConnection(eltId)] returns. *)
Definition SOPC_ChunksMgr_Dispatcher (event : SOPC_SecureChannels_InternalEvent) (eltId : Z) (buffer : ptr SOPC_Buffer) (auxParam : Z) : M unit :=
  let! _ := set_error SOPC_GoodGenericStatus in
  let! s := get in
  if bool_decide (state (conn s) = SECURE_CONNECTION_STATE_SC_CLOSED) then mret tt
  else
    let! (sendMsgType, isSendTcpOnly, isOPN, socketWillClose) := lift (sending_event event) in
    let! (result, failedWithAbortMessage) :=
      (if is_null buffer || (UINT32_MAX <? auxParam) then let! _ := set_error OpcUa_BadInvalidArgument in mret (false, false)
       else SC_Chunks_TreatSendMessageBuffer eltId auxParam sendMsgType isSendTcpOnly isOPN buffer) in
    if result || socketWillClose then mret tt
    else
      let! s := get in
      if failedWithAbortMessage then emit (EnqueueFailure false INT_SC_SENT_ABORT_FAILURE auxParam (errorStatus s))
      else emit (EnqueueFailure true INT_SC_SND_FATAL_FAILURE auxParam (errorStatus s)).

Inductive SOPC_Sockets_OutputEvent :=
| SOCKET_LISTENER_OPENED
| SOCKET_LISTENER_CONNECTION
| SOCKET_LISTENER_FAILURE
| SOCKET_CONNECTION
| SOCKET_FAILURE
| SOCKET_RCV_BYTES.

Definition SOPC_ChunksMgr_OnSocketEvent (event : SOPC_Sockets_OutputEvent) (buffer : ptr SOPC_Buffer) : M unit :=
  let! s := get in
  if is_null buffer || bool_decide (state (conn s) = SECURE_CONNECTION_STATE_SC_CLOSED) then mret tt
  else
    match event with
    | SOCKET_RCV_BYTES =>
        let '(status, buffer) := SOPC_Buffer_SetPosition buffer 0 in
        if negb (is_ok status) then emit (EnqueueEvent true INT_SC_RCV_FAILURE NULL OpcUa_BadInvalidArgument)
        else let! buffer := lift (deref buffer) in SC_Chunks_TreatReceivedBuffer buffer
    | _ => lift (Fault AssertFailed)
    end.

End Sending.
