(* ===== verification/ChunksSendSpec.v ===== *)
(** * What the sender writes

    The content of the chunks that the functions of [ChunksSend.v] build on a channel
    without security. *)

From Stdlib Require Import ZArith Lia.
From Stdlib Require Import Strings.Byte.
From stdpp Require Import prelude gmap.
From S2P Require Import Prelude Common LinkedList LinkedListSpec Buffer Codec EncScalar EncString Strings SecureConnection ToolkitConfig Chunks.
From S2P Require Import ChunksSpec ChunksStream ChunksProps ChunksMerge ChunksSend.

Open Scope Z_scope.

(** ** Buffers *)

(** The content and the position of a buffer. *)
Record shows (b : SOPC_Buffer) (c : block) (p : Z) : Prop := {
  sh_inv : Buffer_Inv b;
  sh_small : small b;
  sh_content : content b = c;
  sh_position : position b = p
}.

Lemma splice_field (pre old suf bs : block) (p : Z) : zlen pre = p -> zlen old = zlen bs -> splice (pre ++ old ++ suf) p bs = pre ++ bs ++ suf.
Proof.
  intros <- L. unfold splice, zlen in *. rewrite !Nat2Z.id. rewrite take_app_length. do 2 f_equal.
  rewrite drop_app, drop_ge by (rewrite ?length_app; lia). cbn. rewrite drop_app_length'; [done|lia].
Qed.

Section Buffers.
Context `{Allocator}.

Lemma shows_length b c p : shows b c p -> length_ b = zlen c.
Proof. intros [I _ E _]. by rewrite <- E, zlen_content. Qed.

Lemma write_shows b c p bs n : shows b c p -> zlen bs = n -> p + n <= zlen c -> exists b',
  SOPC_Buffer_Write (Some b) (Some bs) n = Ret (SOPC_STATUS_OK, Some b') /\ shows b' (splice c p bs) (p + n).
Proof.
  intros Sh L F. pose proof (shows_length _ _ _ Sh) as Lb. destruct Sh as [I Sm E P]. pose proof (zlen_nonneg bs). unfold small in Sm. pose proof I as [_ ? ? ? ? _].
  destruct (SOPC_Buffer_Write_spec b bs n I ltac:(lia) ltac:(lia)) as (st & b' & -> & R & OK).
  rewrite OK by lia. exists b'. split; [done|]. destruct R as [[_ W]|[R _]]; [|rewrite OK in R by lia; done].
  rewrite take_ge in W by (unfold zlen in *; lia). split; [apply W|by eapply small_wrote|..].
  - by rewrite (wr_content _ _ _ W), E, P.
  - rewrite (wr_position _ _ _ W). lia.
Qed.

Lemma seek_shows b c p q : shows b c p -> 0 <= q <= zlen c -> exists b', seek (Some b) q = Ret (SOPC_STATUS_OK, Some b') /\ shows b' c q.
Proof.
  intros Sh Q. pose proof (shows_length _ _ _ Sh) as Lb. destruct Sh as [I Sm E P]. exists (set_position b q). unfold seek, SOPC_Buffer_SetPosition.
  pose proof I as [[d [-> Ld]] ? ? ? ? ?]. cbn [is_null negb andb]. replace (q <=? length_ b) with true by lia. split; [done|].
  split; try done. destruct I. split; cbn; try done; lia.
Qed.

Lemma seek_end_shows b c p : shows b c p -> exists b', seek_end (Some b) = Ret (SOPC_STATUS_OK, Some b') /\ shows b' c (zlen c).
Proof.
  intros Sh. unfold seek_end. cbn [deref rbind]. rewrite (shows_length _ _ _ Sh). eapply seek_shows; [done|]. pose proof (zlen_nonneg c). lia.
Qed.

End Buffers.

Section Fields.
Context `{Allocator} `{Host} `{EndiannessCfg} {cfg : SOPC_Common_EncodingConstants} `{!EndiannessDetected}.
Hypothesis nested : 0 < max_nested_struct cfg.

Lemma UInt32_shows b c p pre old suf v : shows b c p -> c = pre ++ old ++ suf -> zlen pre = p -> zlen old = 4 -> in_u 32 v -> exists b',
  SOPC_UInt32_Write (Some v) (Some b) 0 = Ret (SOPC_STATUS_OK, Some b') /\ shows b' (pre ++ le_bytes 4 v ++ suf) (p + 4).
Proof.
  intros Sh -> Lp L V. unfold SOPC_UInt32_Write. replace (max_nested_struct cfg <=? 0) with false by lia.
  destruct (UInt32_out v) as (w & -> & Ew). cbn [rbind]. rewrite Ew. pose proof (zlen_nonneg suf).
  destruct (write_shows b _ _ (le_bytes 4 v) 4 Sh) as (b' & -> & Sh'); [by rewrite zlen_le_bytes|rewrite !zlen_app; lia|].
  exists b'. split; [done|]. rewrite splice_field in Sh'; [exact Sh'|done|by rewrite zlen_le_bytes].
Qed.

End Fields.

(** ** Steps that succeed *)

Section Steps.
Context `{Crypto}.

Lemma when_ok_ret {A} (r : res (SOPC_ReturnStatus * A)) a s : r = Ret (SOPC_STATUS_OK, a) -> when_ok r s = Ret ((true, a), s).
Proof. by intros ->. Qed.

Lemma expect_ok_ret {A} (r : res (SOPC_ReturnStatus * A)) a s : r = Ret (SOPC_STATUS_OK, a) -> expect_ok r s = Ret (a, s).
Proof. by intros ->. Qed.

Lemma and_true_ret {A} (m : M (bool * A)) k s a s' : m s = Ret ((true, a), s') -> and_true m k s = k a s'.
Proof. unfold and_true. intros E. by rewrite (bind_ret_eq _ _ _ _ _ E). Qed.

Lemma or_error_ret {A} e (m : M (bool * A)) s a s' : m s = Ret ((true, a), s') -> or_error e m s = Ret ((true, a), s').
Proof. unfold or_error. intros E. by rewrite (bind_ret_eq _ _ _ _ _ E). Qed.

End Steps.

(** ** Chunks of a channel without security *)

(** The bytes of a chunk with the headers of a symmetric message. *)
Definition chunk_bytes (msgType : block) (isFinal : byte) (channel token sn requestId : Z) (body : block) : block :=
  msgType ++ [isFinal] ++ le_bytes 4 (SOPC_UA_SYMMETRIC_SECURE_MESSAGE_HEADERS_LENGTH + zlen body) ++ le_bytes 4 channel ++ le_bytes 4 token
  ++ le_bytes 4 sn ++ le_bytes 4 requestId ++ body.

Section Plain.
Context `{Allocator} `{Host} `{EndiannessCfg} {cfg : SOPC_Common_EncodingConstants} `{Crypto} `{!SendCrypto} `{!Toolkit} `{!EndiannessDetected}.
Hypothesis nested : 0 < max_nested_struct cfg.

Lemma message_type_bytes_length t bs : message_type_bytes t = Ret bs -> zlen bs = 3.
Proof. by destruct t; intros [= <-]. Qed.

Lemma EncodeTcpMsgHeader_shows t f bs b x y z rest s : message_type_bytes t = Ret bs -> final_char_allowed t f = true ->
  shows b (x ++ y ++ z ++ rest) 0 -> zlen x = 3 -> zlen y = 1 -> zlen z = 4 -> zlen rest < 2 ^ 31 -> exists b',
  SC_Chunks_EncodeTcpMsgHeader t f (Some b) s = Ret ((true, Some b'), s) /\ shows b' (bs ++ [f] ++ le_bytes 4 (8 + zlen rest) ++ rest) 8.
Proof.
  intros Et Ef Sh Lx Ly Lz Lr. pose proof (message_type_bytes_length t bs Et) as Lb. pose proof (zlen_nonneg rest).
  unfold SC_Chunks_EncodeTcpMsgHeader. cbn [is_null negb]. rewrite Et, bind_lift.
  destruct (write_shows b _ _ bs 3 Sh Lb) as (b1 & E1 & Sh1); [rewrite !zlen_app; lia|].
  pose proof (splice_field [] x (y ++ z ++ rest) bs 0 eq_refl ltac:(congruence)) as E0. cbn [app] in E0. rewrite E0 in Sh1.
  destruct (write_shows b1 _ _ [f] 1 Sh1 eq_refl) as (b2 & E2 & Sh2); [rewrite !zlen_app; lia|].
  rewrite (splice_field bs y) in Sh2 by done. pose proof (shows_length _ _ _ Sh2) as L2. rewrite !zlen_app, zlen_cons, Lb, Lz in L2.
  change (zlen (@nil byte)) with 0 in L2.
  destruct (UInt32_shows nested b2 _ _ (bs ++ [f]) z rest (8 + zlen rest) Sh2) as (b3 & E3 & Sh3); try done; [by rewrite <- !app_assoc|rewrite zlen_app, Lb; done|split; lia|].
  exists b3. split; [|rewrite <- !app_assoc in Sh3; exact Sh3]. apply or_error_ret. rewrite Ef, (and_true_ret _ _ _ (Some b) s) by done.
  rewrite (and_true_ret _ _ _ (Some b1) s) by (by apply when_ok_ret). rewrite (and_true_ret _ _ _ (Some b2) s) by (by apply when_ok_ret).
  cbn [deref]. rewrite bind_lift. apply when_ok_ret. unfold SOPC_TCP_UA_HEADER_LENGTH. replace (8 <=? length_ b2) with true by lia.
  rewrite <- E3. do 2 f_equal. lia.
Qed.

(** The connection after a chunk was numbered, and the identifier of its request. *)
Definition numbered (c : SOPC_SecureConnection) (final : bool) : SOPC_SecureConnection :=
  let c := set_lastSNsent c (next_sequence_number (lastSNsent (tcpSeqProperties c))) in
  if isServerConnection c then c else set_clientNextReqId c (client_request_id (clientNextReqId c) final).2.

Definition request_id (c : SOPC_SecureConnection) (requestIdOrHandle : Z) : Z :=
  if isServerConnection c then requestIdOrHandle else (client_request_id (clientNextReqId c) true).1.

Definition with_conn (s : chunk_state) (c : SOPC_SecureConnection) : chunk_state :=
  mkState c (errorStatus s) (chunk_cells s) (request_cells s) (trace s).

(** The integers of the connection are unsigned integers of 32 bits. *)
Record ranged (c : SOPC_SecureConnection) : Prop := {
  rg_sn : in_u 32 (lastSNsent (tcpSeqProperties c));
  rg_id : in_u 32 (clientNextReqId c);
  rg_channel : in_u 32 (secureChannelId (currentSecurityToken c))
}.

Lemma next_sequence_number_range sn : in_u 32 sn -> 0 < next_sequence_number sn < 2 ^ 32.
Proof. unfold in_u, next_sequence_number, UINT32_MAX. intros R. destruct (Z.ltb_spec (4294967295 - 1024) sn); [lia|]. rewrite u32_small; lia. Qed.

Lemma client_request_id_range n final : in_u 32 n -> 0 < (client_request_id n final).1 < 2 ^ 32 /\ in_u 32 (client_request_id n final).2.
Proof.
  unfold in_u, client_request_id, UINT32_MAX. intros R. cbn [fst snd]. set (i := if n =? 0 then 1 else n).
  assert (0 < i < 2 ^ 32) as Ri by (unfold i; destruct (Z.eqb_spec n 0); lia). split; [done|]. destruct final; [|lia].
  pose proof (Z.mod_pos_bound (u32 (i + 1)) 4294967295). lia.
Qed.

Lemma ranged_numbered c final : ranged c -> ranged (numbered c final).
Proof.
  intros [R1 R2 R3]. pose proof (next_sequence_number_range _ R1). pose proof (client_request_id_range _ final R2) as [_ ?]. unfold numbered.
  destruct (isServerConnection _) eqn:E; cbn in E |- *; split; cbn; try done; unfold in_u; lia.
Qed.

Lemma EncodeSequenceNumber_shows b c p q pre old suf s : shows b c p -> c = pre ++ old ++ suf -> zlen pre = q -> zlen old = 4 -> ranged (conn s) ->
  let sn := next_sequence_number (lastSNsent (tcpSeqProperties (conn s))) in exists b',
  SC_Chunks_EncodeSequenceNumber (Some b) q s = Ret ((true, Some b'), with_conn s (set_lastSNsent (conn s) sn)) /\
  shows b' (pre ++ le_bytes 4 sn ++ suf) (q + 4).
Proof.
  intros Sh E Lp Lo R sn. pose proof (zlen_nonneg pre). pose proof (zlen_nonneg suf).
  destruct (seek_shows b c p q Sh) as (b1 & E1 & Sh1); [rewrite E, !zlen_app; lia|].
  pose proof (next_sequence_number_range _ (rg_sn _ R)) as Rn. fold sn in Rn.
  destruct (UInt32_shows nested b1 c q pre old suf sn Sh1 E Lp Lo) as (b2 & E2 & Sh2); [unfold in_u; lia|]. exists b2. split; [|done].
  unfold SC_Chunks_EncodeSequenceNumber. apply or_error_ret. assert (SOPC_Buffer_SetPosition (Some b) q = (SOPC_STATUS_OK, Some b1)) as -> by (unfold seek in E1; congruence).
  rewrite (and_true_ret _ _ _ (Some b1) s) by done. rewrite bind_get. cbv zeta. fold sn.
  rewrite (bind_ret_eq (set_conn _) _ _ tt (with_conn s (set_lastSNsent (conn s) sn))) by done. by apply when_ok_ret.
Qed.

Lemma EncodeRequestId_shows b c p pre old suf final h s : shows b c p -> c = pre ++ old ++ suf -> zlen pre = p -> zlen old = 4 -> ranged (conn s) ->
  in_u 32 h -> exists b',
  SC_Chunks_EncodeRequestId (Some b) final h s = Ret ((true, (Some b', request_id (conn s) h)),
    with_conn s (if isServerConnection (conn s) then conn s else set_clientNextReqId (conn s) (client_request_id (clientNextReqId (conn s)) final).2)) /\
  shows b' (pre ++ le_bytes 4 (request_id (conn s) h) ++ suf) (p + 4).
Proof.
  intros Sh E Lp Lo R Rh. unfold request_id.
  destruct (UInt32_shows nested b c p pre old suf (request_id (conn s) h) Sh E Lp Lo) as (b2 & E2 & Sh2).
  { unfold request_id. pose proof (client_request_id_range _ true (rg_id _ R)) as [? _]. destruct (isServerConnection _); [done|]. unfold in_u; lia. }
  exists b2. split; [|done]. unfold SC_Chunks_EncodeRequestId. rewrite bind_get. cbv zeta. unfold request_id in E2.
  destruct (isServerConnection (conn s)) eqn:Es; cbn [negb].
  - rewrite bind_ret. rewrite (or_error_ret _ _ _ (Some b2, h) s); [by destruct s|]. by rewrite (bind_ret_eq _ _ _ _ _ (when_ok_ret _ _ s E2)).
  - destruct (client_request_id (clientNextReqId (conn s)) final) as [i n] eqn:Ei.
    assert ((client_request_id (clientNextReqId (conn s)) true).1 = i) as Ii by (unfold client_request_id in *; cbn; congruence). rewrite Ii in *.
    rewrite bind_bind.
    rewrite (bind_ret_eq (set_conn _) _ _ tt (with_conn s (set_clientNextReqId (conn s) n))) by done.
    rewrite bind_ret. apply or_error_ret. by rewrite (bind_ret_eq _ _ _ _ _ (when_ok_ret _ _ _ E2)).
Qed.

(** A block whose first bytes are the headers of a symmetric message. *)
Lemma split_headers (h : block) : zlen h = SOPC_UA_SYMMETRIC_SECURE_MESSAGE_HEADERS_LENGTH -> exists x y z c t n i,
  h = x ++ y ++ z ++ c ++ t ++ n ++ i /\ zlen x = 3 /\ zlen y = 1 /\ zlen z = 4 /\ zlen c = 4 /\ zlen t = 4 /\ zlen n = 4 /\ zlen i = 4.
Proof.
  change SOPC_UA_SYMMETRIC_SECURE_MESSAGE_HEADERS_LENGTH with 24. unfold zlen. intros L. do 24 (destruct h as [|?b h]; [cbn in L; lia|]). destruct h; [|cbn in L; lia].
  exists [b; b0; b1], [b2], [b3; b4; b5; b6], [b7; b8; b9; b10], [b11; b12; b13; b14], [b15; b16; b17; b18], [b19; b20; b21; b22]. done.
Qed.

(** The headers of a chunk before its number is known. *)
Lemma encode_symmetric_headers_shows t f bs b h body s token prev : message_type_bytes t = Ret bs -> final_char_allowed t f = true ->
  shows b (h ++ body) 0 -> zlen h = SOPC_UA_SYMMETRIC_SECURE_MESSAGE_HEADERS_LENGTH -> zlen body <= symmSecuMaxBodySize (conn s) -> symmSecuMaxBodySize (conn s) <> 0 -> zlen body < 2 ^ 30 ->
  sending_token (conn s) = Ret (token, prev) -> ranged (conn s) -> in_u 32 token -> exists b' n i,
  encode_symmetric_headers t f (Some b) s = Ret ((true, (Some b', prev)), s) /\ zlen n = 4 /\ zlen i = 4 /\
  shows b' (bs ++ [f] ++ le_bytes 4 (24 + zlen body) ++ le_bytes 4 (secureChannelId (currentSecurityToken (conn s))) ++ le_bytes 4 token ++ n ++ i ++ body)
    (24 + zlen body).
Proof.
  intros Et Ef Sh Lh Lb Nb Sb Tk R Rt. pose proof (message_type_bytes_length t bs Et) as L3. pose proof (zlen_nonneg body).
  apply split_headers in Lh as (x & y & z & c & k & n & i & -> & Lx & Ly & Lz & Lc & Lk & Ln & Li). rewrite <- !app_assoc in Sh.
  assert (zlen (c ++ k ++ n ++ i ++ body) = 16 + zlen body) as Lr by (rewrite !zlen_app; lia).
  destruct (EncodeTcpMsgHeader_shows t f bs b x y z _ s Et Ef Sh Lx Ly Lz) as (b1 & E1 & Sh1); [lia|].
  rewrite Lr in Sh1. replace (8 + (16 + zlen body)) with (24 + zlen body) in Sh1 by lia. set (size := le_bytes 4 (24 + zlen body)) in *.
  assert (zlen size = 4) as Ls by apply zlen_le_bytes.
  destruct (UInt32_shows nested b1 _ 8 (bs ++ [f] ++ size) c (k ++ n ++ i ++ body) (secureChannelId (currentSecurityToken (conn s))) Sh1) as (b2 & E2 & Sh2);
    [by rewrite <- !app_assoc|rewrite !zlen_app, L3, Ls; done|done|apply (rg_channel _ R)|]. rewrite <- !app_assoc in Sh2.
  set (chan := le_bytes 4 (secureChannelId _)) in *. assert (zlen chan = 4) as Lch by apply zlen_le_bytes.
  destruct (UInt32_shows nested b2 _ 12 (bs ++ [f] ++ size ++ chan) k (n ++ i ++ body) token Sh2) as (b3 & E3 & Sh3);
    [by rewrite <- !app_assoc|rewrite !zlen_app, L3, Ls, Lch; done|done|done|]. rewrite <- !app_assoc in Sh3.
  destruct (seek_end_shows _ _ _ Sh3) as (b4 & E4 & Sh4). exists b4, n, i. split_and!; [|done|done|].
  2:{ replace (24 + zlen body) with (zlen (bs ++ [f] ++ size ++ chan ++ le_bytes 4 token ++ n ++ i ++ body)); [exact Sh4|].
      rewrite !zlen_app, L3, Ls, Lch, zlen_le_bytes, Ln, Li. change (zlen [f]) with 1. lia. }
  unfold encode_symmetric_headers. rewrite (bind_ret_eq _ _ _ (true, Some b2) s).
  2:{ rewrite (and_true_ret _ _ _ _ _ E1). rewrite (and_true_ret _ _ _ (Some b2) s).
      2:{ unfold SC_Chunks_EncodeScMessageHeaderAdditionalField. rewrite bind_get. apply or_error_ret. by apply when_ok_ret. }
      unfold check_symmetric_body. rewrite bind_bind, bind_get. cbn [deref]. rewrite bind_bind, bind_lift. rewrite (shows_length _ _ _ Sh2).
      rewrite !zlen_app, L3, Ls, Lch, Lk, Ln, Li. change (zlen [f]) with 1. change SOPC_UA_SYMMETRIC_SECURE_MESSAGE_HEADERS_LENGTH with 24. rewrite u32_small by lia.
      replace (symmSecuMaxBodySize (conn s) =? 0) with false by lia. cbn [negb].
      replace (symmSecuMaxBodySize (conn s) <? _) with false by lia. by rewrite bind_ret. }
  cbn [negb]. rewrite bind_get, Tk, bind_lift. rewrite (bind_ret_eq _ _ _ (true, Some b4) s); [done|]. apply or_error_ret.
  rewrite (and_true_ret _ _ _ (Some b3) s) by (by apply when_ok_ret). by apply when_ok_ret.
Qed.

(** A chunk of a channel without security. *)
Lemma encode_symmetric_shows scConfig t f bs b h body s token prev r : message_type_bytes t = Ret bs -> final_char_allowed t f = true ->
  shows b (h ++ body) 0 -> zlen h = SOPC_UA_SYMMETRIC_SECURE_MESSAGE_HEADERS_LENGTH -> zlen body <= symmSecuMaxBodySize (conn s) -> symmSecuMaxBodySize (conn s) <> 0 -> zlen body < 2 ^ 30 ->
  sending_token (conn s) = Ret (token, prev) -> ranged (conn s) -> in_u 32 token -> in_u 32 r ->
  let final := negb (bool_decide (f = SOPC_UA_INTERMEDIATE_CHUNK)) in exists b',
  encode_symmetric scConfig false false r t f (Some b) s = Ret ((true, (Some b', prev, 0, request_id (conn s) r)), with_conn s (numbered (conn s) final)) /\
  shows b' (chunk_bytes bs f (secureChannelId (currentSecurityToken (conn s))) token (next_sequence_number (lastSNsent (tcpSeqProperties (conn s))))
    (request_id (conn s) r) body) (24 + zlen body).
Proof.
  intros Et Ef Sh Lh Lb Nb Sb Tk R Rt Rr final. pose proof (message_type_bytes_length t bs Et) as L3. pose proof (zlen_nonneg body).
  destruct (encode_symmetric_headers_shows t f bs b h body s token prev) as (b1 & n & i & E1 & Ln & Li & Sh1); try done.
  unfold encode_symmetric. rewrite (bind_ret_eq _ _ _ _ _ E1). cbn [negb SOPC_Chunks_GetSignatureSize_EncodePadding]. rewrite bind_ret. cbn [negb].
  unfold chunk_bytes. change SOPC_UA_SYMMETRIC_SECURE_MESSAGE_HEADERS_LENGTH with 24. set (size := le_bytes 4 (24 + zlen body)) in *.
  assert (zlen size = 4) as Ls by apply zlen_le_bytes. set (chan := le_bytes 4 (secureChannelId _)) in *. assert (zlen chan = 4) as Lch by apply zlen_le_bytes.
  set (tok := le_bytes 4 token) in *. assert (zlen tok = 4) as Lt by apply zlen_le_bytes.
  unfold finish_chunk. rewrite bind_bind. destruct (seek_shows _ _ _ 4 Sh1) as (b2 & E2 & Sh2).
  { rewrite !zlen_app, L3, Ls, Lch, Lt. change (zlen [f]) with 1. lia. }
  change SOPC_UA_HEADER_MESSAGE_SIZE_POSITION with 4. rewrite (bind_ret_eq _ _ _ _ _ (expect_ok_ret _ _ s E2)).
  destruct (UInt32_shows nested b2 _ 4 (bs ++ [f]) size (chan ++ tok ++ n ++ i ++ body) (24 + zlen body) Sh2) as (b3 & E3 & Sh3);
    [by rewrite <- !app_assoc|rewrite !zlen_app, L3; done|done|unfold in_u; lia|]. rewrite <- !app_assoc in Sh3. fold size in Sh3.
  rewrite bind_bind, (bind_ret_eq _ _ _ (true, (Some b3, 0)) s).
  2:{ unfold SC_Chunks_EncodeMessageSize. rewrite bind_get. cbn [deref]. rewrite bind_lift. apply or_error_ret.
      rewrite (shows_length _ _ _ Sh2). rewrite !zlen_app, L3, Ls, Lch, Lt, Ln, Li. change (zlen [f]) with 1. rewrite u32_small by lia.
      replace (3 + _ + 0) with (24 + zlen body) by lia. by rewrite (bind_ret_eq _ _ _ _ _ (when_ok_ret _ _ s E3)). }
  cbn [negb]. change SOPC_UA_SYMMETRIC_SEQUENCE_HEADER_POSITION with 16.
  destruct (EncodeSequenceNumber_shows b3 _ 8 16 (bs ++ [f] ++ size ++ chan ++ tok) n (i ++ body) s Sh3) as (b4 & E4 & Sh4);
    [by rewrite <- !app_assoc|rewrite !zlen_app, L3, Ls, Lch, Lt; done|done|done|]. rewrite <- !app_assoc in Sh4. rewrite bind_bind, (bind_ret_eq _ _ _ _ _ E4).
  cbn [negb]. set (sn := next_sequence_number _) in *. set (num := le_bytes 4 sn) in *. assert (zlen num = 4) as Lnum by apply zlen_le_bytes.
  set (s1 := with_conn s _). destruct (EncodeRequestId_shows b4 _ 20 (bs ++ [f] ++ size ++ chan ++ tok ++ num) i body final r s1 Sh4) as (b5 & E5 & Sh5);
    [by rewrite <- !app_assoc|rewrite !zlen_app, L3, Ls, Lch, Lt, Lnum; done|done| |done|].
  { pose proof (next_sequence_number_range _ (rg_sn _ R)). destruct R. split; cbn; try done. unfold in_u; lia. }
  rewrite <- !app_assoc in Sh5. rewrite bind_bind. fold final. rewrite (bind_ret_eq _ _ _ _ _ E5). cbn [negb].
  destruct (seek_end_shows _ _ _ Sh5) as (b6 & E6 & Sh6). exists b6. rewrite bind_bind, (bind_ret_eq _ _ _ _ _ (expect_ok_ret _ _ _ E6)), bind_bind, !bind_ret. split; [done|].
  replace (24 + zlen body) with (zlen (bs ++ [f] ++ size ++ chan ++ tok ++ num ++ le_bytes 4 (request_id (conn s) r) ++ body)); [exact Sh6|].
  rewrite !zlen_app, L3, Ls, Lch, Lt, Lnum, zlen_le_bytes. change (zlen [f]) with 1. lia.
Qed.

(** ** The chunks of a message *)

(** The contents of the buffers that were given to the socket, the last one first. *)
Definition socket_writes (tr : list effect) : list block :=
  omap (fun e => match e with SocketWrite _ (Some b) => Some (content b) | _ => None end) tr.

(** The sender only changes the numbers of the connection and the requests that it has
    sent. *)
Definition evolved (c c' : SOPC_SecureConnection) : Prop := exists seq n, c' = set_clientNextReqId (set_tcpSeqProperties c seq) n.

(** The request can be recorded. *)
Definition can_record (s : chunk_state) : Prop := isServerConnection (conn s) = true \/ exists hf l cs,
  sentRequestIds (tcpSeqProperties (conn s)) = Some l /\ Repr hf (request_cells s) l cs /\ accepts l = true /\ zlen cs + 1 < 2 ^ 32.

Hypothesis served : forall n, alloc_ok n = true.

Lemma evolved_refl c : evolved c c.
Proof. exists (tcpSeqProperties c), (clientNextReqId c). by destruct c. Qed.

Lemma evolved_trans a b c : evolved a b -> evolved b c -> evolved a c.
Proof. intros (q & n & ->) (q' & n' & ->). by exists q', n'. Qed.

Lemma evolved_numbered c final : evolved c (numbered c final).
Proof.
  unfold numbered. destruct (isServerConnection _); [|by eexists _, _].
  exists (tcpSeqProperties (set_lastSNsent c (next_sequence_number (lastSNsent (tcpSeqProperties c))))), (clientNextReqId c). by destruct c.
Qed.

Lemma CreateClientSentRequestContext_spec idx r t i s : can_record s -> isServerConnection (conn s) = false ->
  (t = SOPC_MSG_TYPE_SC_OPN \/ t = SOPC_MSG_TYPE_SC_MSG \/ t = SOPC_MSG_TYPE_SC_CLO) -> exists s',
  SC_Chunks_CreateClientSentRequestContext idx r t i s = Ret (true, s') /\ evolved (conn s) (conn s') /\
  lastSNsent (tcpSeqProperties (conn s')) = lastSNsent (tcpSeqProperties (conn s)) /\ clientNextReqId (conn s') = clientNextReqId (conn s) /\
  socket_writes (trace s') = socket_writes (trace s) /\ errorStatus s' = errorStatus s.
Proof.
  intros [C|(hf & l & cs & El & Rl & A & L)] Es T; [congruence|]. unfold SC_Chunks_CreateClientSentRequestContext. rewrite served.
  assert (forall s1 v, request_cells s1 = request_cells s -> conn s1 = conn s -> exists s2 p,
    with_requests (fun h l => SOPC_SLinkedList_Append h l i (Some v)) s1 = Ret (Some v, s2) /\ conn s2 = set_tcpSeqProperties (conn s) p /\
    lastSNsent p = lastSNsent (tcpSeqProperties (conn s)) /\ trace s2 = trace s1 /\ errorStatus s2 = errorStatus s1) as W.
  { intros s1 v E1 E2. unfold with_requests. rewrite bind_get, E1, E2, El. pose proof (Append_spec hf (request_cells s) l cs i v Rl L) as P. rewrite A in P.
    destruct P as (h' & l' & a & -> & _). rewrite bind_lift. eexists _, _. split; [reflexivity|]. by split_and!. }
  assert (forall v, exists s', (let! timer := SC_Client_StartRequestTimeout idx r i in
      let! res := with_requests (fun h l => SOPC_SLinkedList_Append h l i (Some (v timer))) in mret (negb (is_null res))) s = Ret (true, s') /\
      evolved (conn s) (conn s') /\ lastSNsent (tcpSeqProperties (conn s')) = lastSNsent (tcpSeqProperties (conn s)) /\
      clientNextReqId (conn s') = clientNextReqId (conn s) /\ socket_writes (trace s') = socket_writes (trace s) /\ errorStatus s' = errorStatus s) as Q.
  { intros v. unfold SC_Client_StartRequestTimeout. change (SOPC_REQUEST_TIMEOUT_MS <=? 0) with false. cbv iota. rewrite !bind_bind, bind_get, !bind_bind.
    rewrite (bind_ret_eq (emit _) _ _ tt (mkState (conn s) (errorStatus s) (chunk_cells s) (request_cells s) (StartTimer idx r i :: trace s))) by done.
    rewrite bind_ret. destruct (W (mkState (conn s) (errorStatus s) (chunk_cells s) (request_cells s) (StartTimer idx r i :: trace s)) (v (SOPC_EventTimer_Create (trace s) idx r i SOPC_REQUEST_TIMEOUT_MS)))
      as (s2 & p & E & Ec & El2 & Et & Ee); [done|done|]. rewrite (bind_ret_eq _ _ _ _ _ E). exists s2. split; [done|]. rewrite Ec, Et, Ee. cbn. split_and!; try done.
    exists p, (clientNextReqId (conn s)). by destruct (conn s). }
  destruct T as [->|[->| ->]]; [destruct (Q (fun timer => mkSentRequest false idx r SOPC_MSG_TYPE_SC_OPN timer)) as (s' & E & X)
    |destruct (Q (fun timer => mkSentRequest false idx r SOPC_MSG_TYPE_SC_MSG timer)) as (s' & E & X)|].
  1, 2: exists s'; by rewrite (bind_ret_eq _ _ _ _ _ E). exists s. rewrite bind_ret. split; [done|]. split; [apply evolved_refl|done].
Qed.

(** A connection that sends without security. *)
Record plain_sender (token : Z) (c : SOPC_SecureConnection) : Prop := {
  ps_config : exists scConfig, SOPC_Toolkit_GetSecureChannelConfig c = Some scConfig /\ msgSecurityMode scConfig = OpcUa_MessageSecurityMode_None;
  ps_token : exists prev, sending_token c = Ret (token, prev);
  ps_ranged : ranged c;
  ps_token_range : in_u 32 token;
  ps_body : 0 < symmSecuMaxBodySize c;
  ps_buffer : SOPC_UA_SYMMETRIC_SECURE_MESSAGE_HEADERS_LENGTH + symmSecuMaxBodySize c <= sendBufferSize (tcpMsgProperties c) < 2 ^ 30
}.

Lemma plain_sender_evolved token c c' : plain_sender token c -> evolved c c' -> in_u 32 (lastSNsent (tcpSeqProperties c')) -> in_u 32 (clientNextReqId c') ->
  plain_sender token c'.
Proof. intros [A B [? ? ?] ? ? ?] (q & n & ->) ? ?. by split. Qed.

Lemma TreatSendBufferMSGCLO_plain idx r t f bs b h body s token p : message_type_bytes t = Ret bs -> final_char_allowed t f = true ->
  t = SOPC_MSG_TYPE_SC_MSG \/ t = SOPC_MSG_TYPE_SC_CLO ->
  shows b (h ++ body) p -> zlen h = SOPC_UA_SYMMETRIC_SECURE_MESSAGE_HEADERS_LENGTH -> zlen body <= symmSecuMaxBodySize (conn s) -> plain_sender token (conn s) -> in_u 32 r -> can_record s ->
  let final := negb (bool_decide (f = SOPC_UA_INTERMEDIATE_CHUNK)) in
  let c' := numbered (conn s) final in exists b' s',
  SC_Chunks_TreatSendBufferMSGCLO idx r t f (Some b) s = Ret ((true, NULL, Some b'), s') /\
  content b' = chunk_bytes bs f (secureChannelId (currentSecurityToken (conn s))) token (next_sequence_number (lastSNsent (tcpSeqProperties (conn s))))
    (request_id (conn s) r) body /\
  evolved (conn s) (conn s') /\ lastSNsent (tcpSeqProperties (conn s')) = lastSNsent (tcpSeqProperties c') /\ clientNextReqId (conn s') = clientNextReqId c' /\
  socket_writes (trace s') = socket_writes (trace s) /\ (f = SOPC_UA_INTERMEDIATE_CHUNK -> can_record s') /\ errorStatus s' = errorStatus s.
Proof.
  intros Et Ef T Sh Lh Lb PS Rr CR final c'. pose proof PS as [(scConfig & Ec & Em) (prev & Tk) R Rt Pb Bb].
  change SOPC_UA_SYMMETRIC_SECURE_MESSAGE_HEADERS_LENGTH with 24 in *.
  unfold SC_Chunks_TreatSendBufferMSGCLO. cbn [is_null negb]. rewrite bind_get, Ec, Em. cbn [SC_Chunks_IsMsgEncrypted SC_Chunks_IsMsgSigned]. rewrite bind_lift.
  destruct (seek_shows b _ _ 0 Sh) as (b1 & E1 & Sh1); [pose proof (zlen_nonneg (h ++ body)); lia|]. rewrite (bind_ret_eq _ _ _ _ _ (expect_ok_ret _ _ s E1)).
  destruct (encode_symmetric_shows scConfig t f bs b1 h body s token prev r) as (b2 & E2 & Sh2); try done; try lia.
  rewrite (bind_ret_eq _ _ _ _ _ E2). cbn [negb]. rewrite bind_ret. fold final. fold c'. set (s1 := with_conn s c').
  pose proof (sh_content _ _ _ Sh2) as C2. pose proof (evolved_numbered (conn s) final) as Ev. fold c' in Ev.
  destruct (negb (isServerConnection (conn s)) && bool_decide (f = SOPC_UA_FINAL_CHUNK)) eqn:Ek; cbn [andb]; rewrite Ek.
  - apply andb_true_iff in Ek as [Es Ff]. apply negb_true_iff in Es. apply bool_decide_eq_true in Ff.
    assert (isServerConnection (conn s1) = false) as Es1 by (destruct Ev as (q & n & Ev); unfold s1; cbn; by rewrite Ev).
    destruct (CreateClientSentRequestContext_spec idx r t (request_id (conn s) r) s1) as (s2 & E3 & Ev3 & El3 & Ei3 & Et3 & Ee3); [|done|tauto|].
    { destruct CR as [CR|CR]; [congruence|]. right. unfold s1, c', numbered. cbn. by rewrite Es. }
    rewrite (bind_ret_eq _ _ _ _ _ E3). exists b2, s2. split_and!; try done; [by eapply evolved_trans|]. intros ->. done.
  - rewrite bind_ret. exists b2, s1. split_and!; try done. intros _. destruct CR as [CR|CR]; unfold can_record, s1, c', numbered; cbn; [left|right].
    + destruct (isServerConnection (conn s)) eqn:Es; cbn; done.
    + destruct (isServerConnection (conn s)) eqn:Es; cbn; done.
Qed.

Lemma NextOutputChunkBuffer_plain mb reason s token : plain_sender token (conn s) -> Buffer_Inv mb ->
  let m := Z.to_nat (symmSecuMaxBodySize (conn s)) in exists mb' b h,
  SC_Chunks_NextOutputChunkBuffer (Some mb) NULL reason s = Ret ((true, (Some mb', Some b, reason)), s) /\ Buffer_Inv mb' /\ upcoming mb' = drop m (upcoming mb) /\
  shows b (h ++ take m (upcoming mb)) 0 /\ zlen h = SOPC_UA_SYMMETRIC_SECURE_MESSAGE_HEADERS_LENGTH.
Proof.
  intros [_ _ _ _ Pb Bb] I m. change SOPC_UA_SYMMETRIC_SECURE_MESSAGE_HEADERS_LENGTH with 24 in *. unfold SC_Chunks_NextOutputChunkBuffer. rewrite bind_get. cbv zeta.
  rewrite Remaining_upcoming by done. rewrite bind_lift. set (k := if _ <? _ then _ else _). pose proof (zlen_nonneg (upcoming mb)).
  assert (k = Z.min (zlen (upcoming mb)) (symmSecuMaxBodySize (conn s))) as Ek by (unfold k; destruct (Z.ltb_spec (zlen (upcoming mb)) (symmSecuMaxBodySize (conn s))); lia).
  rewrite bind_ret. set (size := sendBufferSize (tcpMsgProperties (conn s))) in *.
  destruct (Create_served served size) as (b0 & E0 & L0 & Z0 & _); [lia|]. rewrite E0.
  destruct (SOPC_Buffer_Create_spec size b0 ltac:(lia) E0) as (I0 & C0 & P0 & M0). cbn [is_null].
  set (b1 := set_length b0 24). assert (Buffer_Inv b1) as I1 by (destruct I0; split; cbn; try done; lia).
  assert (SOPC_Buffer_SetDataLength (Some b0) 24 = Ret (SOPC_STATUS_OK, Some b1)) as E1.
  { unfold SOPC_Buffer_SetDataLength. pose proof I0 as [[d [Ed _]] _ _ _ _ _]. rewrite Ed. replace (24 <=? current_size b0) with true by lia.
    replace (position b0 <=? 24) with true by lia. replace (24 <? length_ b0) with false by lia. cbn. unfold b1. destruct b0; cbn in *. by subst. }
  rewrite (bind_ret_eq _ _ _ _ _ (expect_ok_ret _ _ s E1)). pose proof (zlen_content b1 I1) as L1. cbn in L1.
  assert (shows b1 (content b1) 0) as Sh1 by (split; try done; unfold small; cbn; lia).
  destruct (seek_shows b1 _ _ 24 Sh1) as (b2 & E2 & Sh2); [lia|]. rewrite (bind_ret_eq _ _ _ _ _ (expect_ok_ret _ _ s E2)). cbn [deref]. rewrite !bind_lift.
  assert (b2 = set_position b1 24) as B2. { revert E2. unfold seek, SOPC_Buffer_SetPosition. destruct (_ && _); congruence. }
  pose proof Sh2 as [I2 S2 C2 P2]. pose proof (shows_length _ _ _ Sh2) as Lb2. rewrite L1 in Lb2. assert (current_size b2 = size) as Z2 by (subst b2; cbn; lia).
  rewrite fill_buffer_spec; unfold room, lacking; try done; try lia. rewrite bind_lift.
  assert (moved b2 (upcoming mb) k = k) as Mk by (unfold moved, lacking; lia). rewrite Mk.
  unfold lacking. replace (Z.max 0 (k - (length_ b2 - position b2)) - k =? 0) with true by lia.
  assert (take (Z.to_nat k) (upcoming mb) = take m (upcoming mb)) as Tk.
  { rewrite Ek. unfold m. destruct (Z.leb_spec (zlen (upcoming mb)) (symmSecuMaxBodySize (conn s))); [|f_equal; lia].
    rewrite !take_ge; [done|unfold zlen in *; lia|unfold zlen in *; lia]. }
  assert (zlen (take (Z.to_nat k) (upcoming mb)) = k) as Lk by (apply zlen_take; lia).
  assert (shows (push b2 (take (Z.to_nat k) (upcoming mb))) (content b1 ++ take m (upcoming mb)) 24) as Sh3.
  { split; [apply push_inv; [done|]; unfold room; lia|by apply push_small| |done]. rewrite push_content by (try done; unfold room; lia). by rewrite C2, Tk. }
  destruct (seek_shows _ _ _ 0 Sh3) as (b3 & E3 & Sh4); [pose proof (zlen_nonneg (content b1 ++ take m (upcoming mb))); lia|].
  rewrite (bind_ret_eq _ _ _ _ _ (expect_ok_ret _ _ s E3)). exists (advance mb k), b3, (content b1). split_and!; try done.
  - apply Buffer_Inv_advance; [done|lia].
  - rewrite upcoming_advance by (done || lia). rewrite Ek. unfold m. destruct (Z.leb_spec (zlen (upcoming mb)) (symmSecuMaxBodySize (conn s))); [|f_equal; lia].
    rewrite !drop_ge; [done|unfold zlen in *; lia|unfold zlen in *; lia].
Qed.

(** The chunks of a message whose body is cut every [m] bytes, after the number [sn]. *)
Fixpoint sent_chunks (n m : nat) (msgType : block) (channel token sn requestId : Z) (body : block) : list block :=
  let sn := next_sequence_number sn in
  match n with
  | O => []
  | 1%nat => [chunk_bytes msgType SOPC_UA_FINAL_CHUNK channel token sn requestId body]
  | S n => chunk_bytes msgType SOPC_UA_INTERMEDIATE_CHUNK channel token sn requestId (take m body)
           :: sent_chunks n m msgType channel token sn requestId (drop m body)
  end.

Lemma request_id_kept c c' r : ranged c -> evolved c c' -> clientNextReqId c' = clientNextReqId (numbered c false) -> request_id c' r = request_id c r.
Proof.
  intros R (q & n & ->) E. unfold request_id, numbered in *. cbn in *. destruct (isServerConnection c); [done|]. cbn in E. subst n. cbn.
  pose proof (client_request_id_range _ true (rg_id _ R)) as [P _]. unfold client_request_id in P. cbn in P. by replace (_ =? 0) with false by lia.
Qed.

Lemma socket_write_spec b s : exists s', socket_write (Some b) s = Ret (tt, s') /\ conn s' = conn s /\ request_cells s' = request_cells s /\
  socket_writes (trace s') = content b :: socket_writes (trace s) /\ errorStatus s' = errorStatus s.
Proof. by eexists. Qed.

Lemma can_record_eq s s' : conn s' = conn s -> request_cells s' = request_cells s -> can_record s -> can_record s'.
Proof. unfold can_record. by intros -> ->. Qed.

(** The loop over the chunks sends them all. *)
Lemma send_chunks_plain idx r t bs token : message_type_bytes t = Ret bs -> t = SOPC_MSG_TYPE_SC_MSG \/ t = SOPC_MSG_TYPE_SC_CLO -> in_u 32 r ->
  forall todo s nb sent mb cb h body reason, let m := Z.to_nat (symmSecuMaxBodySize (conn s)) in
  t = SOPC_MSG_TYPE_SC_MSG \/ todo = O -> 0 <= sent -> nb - sent = Z.of_nat (S todo) -> nb < 2 ^ 32 ->
  shows cb (h ++ take m body) 0 -> zlen h = SOPC_UA_SYMMETRIC_SECURE_MESSAGE_HEADERS_LENGTH -> (todo <> O -> exists mb', mb = Some mb' /\ Buffer_Inv mb' /\ upcoming mb' = drop m body) ->
  (length body <= S todo * m)%nat -> plain_sender token (conn s) -> can_record s -> exists s' mb',
  send_chunks (S todo) idx r t nb sent mb (Some cb) reason s = Ret ((true, mb', reason), s') /\
  socket_writes (trace s') = reverse (sent_chunks (S todo) m bs (secureChannelId (currentSecurityToken (conn s))) token
    (lastSNsent (tcpSeqProperties (conn s))) (request_id (conn s) r) body) ++ socket_writes (trace s).
Proof.
  intros Et T Rr. induction todo as [|todo IH]; intros s nb sent mb cb h body reason m Tt P0 Pn Pb Sh Lh Hm Lb PS CR.
  - cbn [send_chunks]. unfold SC_Chunks_IsNextChunkIntermediateOrFinal. rewrite u32_small by lia. replace (sent + 1 <? nb) with false by lia.
    rewrite take_ge in Sh by lia. assert (zlen body <= symmSecuMaxBodySize (conn s)) as Lz by (destruct PS; unfold zlen; lia).
    destruct (TreatSendBufferMSGCLO_plain idx r t SOPC_UA_FINAL_CHUNK bs cb h body s token 0) as (b' & s1 & E & C & _ & _ & _ & W & _); try done; [by destruct T as [-> | ->]|].
    rewrite (bind_ret_eq _ _ _ _ _ E). cbn [negb]. destruct (socket_write_spec b' s1) as (s2 & E2 & _ & _ & W2 & _). rewrite (bind_ret_eq _ _ _ _ _ E2).
    exists s2, mb. split; [done|]. rewrite W2, W, C. done.
  - destruct Tt as [Tm|Tt]; [|done]. cbn [send_chunks]. unfold SC_Chunks_IsNextChunkIntermediateOrFinal. rewrite u32_small by lia. replace (sent + 1 <? nb) with true by lia.
    pose proof (ps_body _ _ PS) as Pm. assert (zlen (take m body) <= symmSecuMaxBodySize (conn s)) as Lz by (unfold zlen; rewrite length_take; lia).
    destruct (TreatSendBufferMSGCLO_plain idx r t SOPC_UA_INTERMEDIATE_CHUNK bs cb h (take m body) s token 0) as (b' & s1 & E & C & Ev & El & Ei & W & CR1 & _); try done; [by subst t|].
    rewrite (bind_ret_eq _ _ _ _ _ E). cbn [negb]. destruct (socket_write_spec b' s1) as (s2 & E2 & C2 & Q2 & W2 & _). rewrite (bind_ret_eq _ _ _ _ _ E2).
    assert (plain_sender token (conn s2)) as PS2.
    { rewrite C2. pose proof (ranged_numbered _ false (ps_ranged _ _ PS)) as [? ? ?]. apply (plain_sender_evolved token (conn s)); [done|done|by rewrite El|by rewrite Ei]. }
    assert (symmSecuMaxBodySize (conn s2) = symmSecuMaxBodySize (conn s)) as Em by (rewrite C2; destruct Ev as (q & n & ->); done).
    destruct Hm as (mb1 & -> & I1 & U1); [done|]. destruct (NextOutputChunkBuffer_plain mb1 reason s2 token PS2 I1) as (mb2 & b2 & h2 & E3 & I2 & U2 & Sh2 & Lh2).
    rewrite (bind_ret_eq _ _ _ _ _ E3). cbn [negb]. rewrite Em in *. fold m in U2, Sh2. rewrite U1 in U2, Sh2.
    destruct (IH s2 nb (sent + 1) (Some mb2) b2 h2 (drop m body) reason) as (s3 & mb3 & E4 & W4); try lia; try done; try (rewrite Em; fold m).
    + by left.
    + done.
    + intros _. by exists mb2.
    + rewrite length_drop. lia.
    + apply (can_record_eq s1); [done|done|by apply CR1].
    + exists s3, mb3. split; [exact E4|]. rewrite W4, W2, W, C, Em. fold m. rewrite C2, El. rewrite (request_id_kept (conn s) (conn s1) r); [|apply PS|done|done].
      assert (secureChannelId (currentSecurityToken (conn s1)) = secureChannelId (currentSecurityToken (conn s))) as -> by (destruct Ev as (q & n & ->); done).
      assert (lastSNsent (tcpSeqProperties (numbered (conn s) false)) = next_sequence_number (lastSNsent (tcpSeqProperties (conn s)))) as Eln.
      { unfold numbered. destruct (isServerConnection _); done. }
      change (negb (bool_decide (SOPC_UA_INTERMEDIATE_CHUNK = SOPC_UA_INTERMEDIATE_CHUNK))) with false. rewrite Eln.
      set (sn := next_sequence_number (lastSNsent (tcpSeqProperties (conn s)))).
      match goal with |- _ = reverse (sent_chunks (S (S todo)) _ _ ?ch _ _ ?i _) ++ _ =>
        change (sent_chunks (S (S todo)) m bs ch token (lastSNsent (tcpSeqProperties (conn s))) i body) with
          (chunk_bytes bs SOPC_UA_INTERMEDIATE_CHUNK ch token sn i (take m body) :: sent_chunks (S todo) m bs ch token sn i (drop m body)) end.
      rewrite reverse_cons, <- app_assoc. done.
Qed.

End Plain.
