(* ===== verification/ChunksSendProps.v ===== *)
(** * Properties of the sender

    A message is cut into chunks that hold all of its body, a message that is too large
    is aborted, the padding is the one that the receiver removes, and a body of the
    maximum size fits in a chunk. *)

From Stdlib Require Import ZArith Lia.
From Stdlib Require Import Strings.Byte Strings.String.
From stdpp Require Import prelude gmap.
From S2P Require Import Prelude Common LinkedList LinkedListSpec Buffer Codec EncScalar EncString Strings StringsProps SecureConnection ToolkitConfig Chunks.
From S2P Require Import ChunksSpec ChunksStream ChunksProps ChunksMerge ChunksSecurity ChunksSend ChunksSendSpec.

Open Scope Z_scope.

(** ** Messages without security *)

Section Messages.
Context `{Allocator} `{Host} `{EndiannessCfg} {cfg : SOPC_Common_EncodingConstants} `{Crypto} `{!SendCrypto} `{!Toolkit} `{!EndiannessDetected}.
Hypothesis nested : 0 < max_nested_struct cfg.
Hypothesis served : forall n, alloc_ok n = true.

(** The number of chunks of at most [m] bytes for a body of [n] bytes: at least one. *)
Definition chunks_needed (m n : Z) : Z := if n <=? m then 1 else if n mod m =? 0 then n / m else n / m + 1.

(** The limits of the connection on the messages that are sent. *)
Definition sendable (c : SOPC_SecureConnection) (t : SOPC_Msg_Type) (n : Z) : bool :=
  let p := tcpMsgProperties c in
  ((sendMaxMessageSize p =? 0) || (n <=? sendMaxMessageSize p)) &&
  ((n <=? symmSecuMaxBodySize c) ||
   (bool_decide (t = SOPC_MSG_TYPE_SC_MSG) && ((sendMaxChunkCount p =? 0) || (chunks_needed (symmSecuMaxBodySize c) n <=? sendMaxChunkCount p)))).

Lemma chunks_needed_range m n : 0 < m -> 0 <= n < 2 ^ 32 -> 0 < chunks_needed m n < 2 ^ 32 /\ n <= chunks_needed m n * m.
Proof.
  intros Pm Pn. unfold chunks_needed. destruct (Z.leb_spec n m); [lia|]. pose proof (Z.div_mod n m ltac:(lia)) as D. pose proof (Z.mod_pos_bound n m Pm).
  destruct (Z.eqb_spec (n mod m) 0) as [E|E]; nia.
Qed.

Lemma ComputeNbChunksToSend_spec t n s : t = SOPC_MSG_TYPE_SC_MSG \/ t = SOPC_MSG_TYPE_SC_CLO -> 0 < symmSecuMaxBodySize (conn s) -> 0 <= n < 2 ^ 32 ->
  exists k s', SC_Chunks_ComputeNbChunksToSend t n s = Ret ((sendable (conn s) t n, k), s') /\
    if sendable (conn s) t n then k = chunks_needed (symmSecuMaxBodySize (conn s)) n /\ s' = s
    else s' = mkState (conn s) (too_large (conn s)) (chunk_cells s) (request_cells s) (trace s).
Proof.
  intros T Pm Pn. pose proof (chunks_needed_range _ n Pm Pn) as [Rk _]. revert Rk. unfold SC_Chunks_ComputeNbChunksToSend, sendable, chunks_needed.
  set (m := symmSecuMaxBodySize (conn s)) in *. replace (match t with SOPC_MSG_TYPE_SC_MSG | SOPC_MSG_TYPE_SC_CLO => true | _ => false end) with true by (by destruct T as [-> | ->]).
  rewrite bind_get. cbv zeta. fold m. destruct (_ || _) eqn:E1; cbn [andb orb]; [|intros _; by eexists _, _].
  destruct (n <=? m) eqn:E2; cbn [andb orb]; [intros _; by eexists _, _|]. destruct (bool_decide _) eqn:E3; cbn [andb orb]; [|intros _; by eexists _, _].
  replace (m =? 0) with false by lia. replace (if negb (n mod m =? 0) then u32 (n / m + 1) else n / m) with (if n mod m =? 0 then n / m else n / m + 1).
  2:{ destruct (n mod m =? 0) eqn:E4; cbn [negb]; [done|]. rewrite u32_small; [done|]. pose proof (Z.div_pos n m ltac:(lia) ltac:(lia)).
      pose proof (Z.div_mod n m ltac:(lia)). pose proof (Z.mod_pos_bound n m Pm). nia. }
  set (k := if n mod m =? 0 then _ else _). intros Rk. destruct ((_ =? 0) || (k <=? _)) eqn:E5; by eexists _, _.
Qed.

Lemma content_headers b : Buffer_Inv b -> SOPC_UA_SYMMETRIC_SECURE_MESSAGE_HEADERS_LENGTH <= length_ b ->
  zlen (take 24 (content b)) = SOPC_UA_SYMMETRIC_SECURE_MESSAGE_HEADERS_LENGTH /\ zlen (drop 24 (content b)) = length_ b - 24.
Proof.
  intros I L. pose proof (zlen_content b I) as Z. change SOPC_UA_SYMMETRIC_SECURE_MESSAGE_HEADERS_LENGTH with 24 in *. unfold zlen in *. rewrite length_take, length_drop. lia.
Qed.

(** The body is sent, whatever the position of the buffer is. *)
Lemma send_message_plain (idx r : Z) (t : SOPC_Msg_Type) (bs : block) (b : SOPC_Buffer) (s : chunk_state) (token : Z) :
  let c := conn s in
  let m := symmSecuMaxBodySize c in
  let body := drop 24 (content b) in
  t = SOPC_MSG_TYPE_SC_MSG \/ t = SOPC_MSG_TYPE_SC_CLO -> message_type_bytes t = Ret bs ->
  Buffer_Inv b -> small b -> SOPC_UA_SYMMETRIC_SECURE_MESSAGE_HEADERS_LENGTH <= length_ b ->
  plain_sender token c -> can_record s -> in_u 32 r -> sendable c t (zlen body) = true ->
  exists s' mb, send_message idx r t (Some b) s = Ret ((true, mb, size_reason), s') /\
    socket_writes (trace s') =
      reverse (sent_chunks (Z.to_nat (chunks_needed m (zlen body))) (Z.to_nat m) bs (secureChannelId (currentSecurityToken c)) token
        (lastSNsent (tcpSeqProperties c)) (request_id c r) body) ++ socket_writes (trace s).
Proof.
  intros c m body T Et I Sm Lb PS CR Rr Snd. pose proof (content_headers b I Lb) as [Lh Lbody]. fold body in Lbody. pose proof (ps_body _ _ PS) as Pm. fold c m in Pm.
  assert (content b = take 24 (content b) ++ body) as Cb by (unfold body; by rewrite take_drop). change SOPC_UA_SYMMETRIC_SECURE_MESSAGE_HEADERS_LENGTH with 24 in *.
  assert (shows b (content b) (position b)) as Sh by (by split). pose proof (zlen_content b I) as Lc.
  destruct (seek_shows b _ _ 24 Sh) as (b1 & E1 & Sh1); [pose proof (zlen_nonneg body); lia|].
  pose proof Sh1 as [I1 _ C1 P1]. assert (upcoming b1 = body) as U1 by (unfold upcoming; rewrite C1, P1; done).
  assert (0 <= zlen body < 2 ^ 32) as Rb by (destruct I; lia).
  destruct (ComputeNbChunksToSend_spec t (zlen body) s T Pm Rb) as (k & s1 & Ek & Hk). fold c m in Ek, Hk. rewrite Snd in Ek, Hk. destruct Hk as [-> ->].
  pose proof (chunks_needed_range m (zlen body) Pm Rb) as [Rk Lk]. set (k := chunks_needed m (zlen body)) in *.
  unfold send_message. change SOPC_UA_SYMMETRIC_SECURE_MESSAGE_HEADERS_LENGTH with 24. rewrite (bind_ret_eq _ _ _ _ _ (expect_ok_ret _ _ s E1)).
  rewrite Remaining_upcoming, U1 by done. rewrite bind_lift, (bind_ret_eq _ _ _ _ _ Ek). cbn [negb]. replace (0 <? k) with true by lia.
  assert (t = SOPC_MSG_TYPE_SC_MSG \/ Z.to_nat k = 1%nat) as Tk.
  { destruct T as [->| ->]; [by left|right]. unfold sendable, k, chunks_needed in *. fold m in Snd. rewrite bool_decide_false in Snd by done. destruct (zlen body <=? m); [done|].
    by rewrite andb_false_r in Snd. }
  destruct (Z.eqb_spec k 1) as [K1|K1].
  - destruct (seek_shows b1 _ _ 0 Sh1) as (b2 & E2 & Sh2); [lia|]. rewrite bind_bind, (bind_ret_eq _ _ _ _ _ (expect_ok_ret _ _ s E2)), bind_ret. cbn [negb].
    assert (length body <= Z.to_nat m)%nat as Lm by (unfold zlen in *; lia). rewrite K1. change (Z.to_nat 1) with 1%nat.
    destruct (send_chunks_plain nested served idx r t bs token Et T Rr 0 s 1 0 NULL b2 (take 24 (content b)) body size_reason) as (s2 & mb & E3 & W); try done; try lia.
    + rewrite (take_ge body) by exact Lm. by rewrite Cb in Sh2.
    + fold c m. lia.
    + exists s2, mb. split; [exact E3|]. exact W.
  - destruct (NextOutputChunkBuffer_plain served b1 size_reason s token PS I1) as (b2 & cb & h & E2 & I2 & U2 & Sh2 & Lh2). rewrite U1 in U2, Sh2.
    rewrite (bind_ret_eq _ _ _ _ _ E2). cbn [negb]. destruct (Z.to_nat k) as [|todo] eqn:Ek2; [lia|].
    destruct (send_chunks_plain nested served idx r t bs token Et T Rr todo s k 0 (Some b2) cb h body size_reason) as (s2 & mb & E3 & W); try done; try lia.
    + destruct Tk as [?|Tk]; [by left|right; lia].
    + intros _. by exists b2.
    + fold c m. unfold zlen in *. nia.
    + exists s2, mb. split; [exact E3|]. exact W.
Qed.

Lemma TreatSendMessageBuffer_sent idx r t b s s' mb reason : t = SOPC_MSG_TYPE_SC_MSG \/ t = SOPC_MSG_TYPE_SC_CLO -> Buffer_Inv b ->
  send_message idx r t (Some (set_position b 0)) s = Ret ((true, mb, reason), s') ->
  SC_Chunks_TreatSendMessageBuffer idx r t false false (Some b) s = Ret ((true, true), s').
Proof.
  intros T [[d [Ed _]] ? ? ? ? ?] E. unfold SC_Chunks_TreatSendMessageBuffer, seek, SOPC_Buffer_SetPosition. rewrite Ed. cbn [is_null negb andb].
  replace (0 <=? length_ b) with true by lia. rewrite (bind_ret_eq (expect_ok _) _ _ (Some (set_position b 0)) s) by done.
  replace (match t with SOPC_MSG_TYPE_SC_MSG | SOPC_MSG_TYPE_SC_CLO => true | _ => false end) with true by (by destruct T as [-> | ->]).
  by rewrite (bind_ret_eq _ _ _ _ _ E).
Qed.

Lemma rewind_inv b : Buffer_Inv b -> Buffer_Inv (set_position b 0).
Proof. intros []. split; cbn; try done; lia. Qed.

(** C6: on a channel without security (mode None), a message within the limits of the
    connection is written to the socket as chunks that are numbered one after the other,
    have the identifiers of the channel, of the token and of the request, and whose bodies
    are the successive pieces of the body of the message; only the last chunk is final.
    Signed and encrypted channels, whose chunks also hold a padding and a signature, are
    not covered. *)
Theorem message_is_cut (idx r : Z) (t : SOPC_Msg_Type) (bs : block) (b : SOPC_Buffer) (s : chunk_state) (token : Z) :
  let c := conn s in
  let m := symmSecuMaxBodySize c in
  let body := drop 24 (content b) in
  t = SOPC_MSG_TYPE_SC_MSG \/ t = SOPC_MSG_TYPE_SC_CLO -> message_type_bytes t = Ret bs ->
  Buffer_Inv b -> small b -> SOPC_UA_SYMMETRIC_SECURE_MESSAGE_HEADERS_LENGTH <= length_ b ->
  plain_sender token c -> can_record s -> in_u 32 r -> sendable c t (zlen body) = true ->
  exists s', SC_Chunks_TreatSendMessageBuffer idx r t false false (Some b) s = Ret ((true, true), s') /\
    socket_writes (trace s') =
      reverse (sent_chunks (Z.to_nat (chunks_needed m (zlen body))) (Z.to_nat m) bs (secureChannelId (currentSecurityToken c)) token
        (lastSNsent (tcpSeqProperties c)) (request_id c r) body) ++ socket_writes (trace s).
Proof.
  intros c m body T Et I Sm Lb PS CR Rr Snd. destruct (send_message_plain idx r t bs (set_position b 0) s token) as (s' & mb & E & W); try done; [by apply rewind_inv|].
  exists s'. split; [|exact W]. by eapply TreatSendMessageBuffer_sent.
Qed.

(** *** Messages that are too large *)

(** The body of an abort message: the status code, and the reason. *)
Definition abort_body (e : Z) (text : block) : block :=
  le_bytes 4 (SOPC_StatusCode_ToTcpErrorCode e) ++ le_bytes 4 (zlen text) ++ text.

Hypothesis nested2 : 2 <= max_nested_struct cfg.

(** The buffer is emptied, with its position after the headers. *)
Lemma reset_headers b : Buffer_Inv b -> small b -> 24 <= current_size b -> exists b1 b2 b3 h, SOPC_Buffer_Reset (Some b) = Ret (Some b1) /\
  SOPC_Buffer_SetDataLength (Some b1) 24 = Ret (SOPC_STATUS_OK, Some b2) /\ seek (Some b2) 24 = Ret (SOPC_STATUS_OK, Some b3) /\
  shows b3 h 24 /\ zlen h = 24 /\ maximum_size b3 = maximum_size b.
Proof.
  intros I Sm L. pose proof I as [[d [Hd Ld]] ? ? ? ? ?]. unfold SOPC_Buffer_Reset. rewrite Hd. destruct (memset0_ok d 0 (current_size b)) as (d' & -> & L' & _); [lia..|].
  cbn [rbind]. set (b1 := set_data _ _). assert (Buffer_Inv b1) as I1 by (split; cbn; try lia; try done; exists d'; split; [done|lia]).
  set (b2 := set_length b1 24). assert (Buffer_Inv b2) as I2 by (destruct I1; split; cbn in *; try done; lia).
  assert (shows b2 (content b2) 0) as Sh by (split; try done). pose proof (zlen_content b2 I2) as Lc. cbn in Lc.
  destruct (seek_shows b2 _ _ 24 Sh) as (b3 & E3 & Sh3); [lia|]. exists b1, b2, b3, (content b2). split; [done|]. split.
  - unfold SOPC_Buffer_SetDataLength. cbn [data b1 set_data]. change (current_size b1) with (current_size b). replace (24 <=? current_size b) with true by lia.
    change (position b1 <=? 24) with true. change (24 <? length_ b1) with false. reflexivity.
  - split; [done|]. split; [done|]. split; [done|]. revert E3. unfold seek, SOPC_Buffer_SetPosition. destruct (_ && _); [|done]. by intros [= <-].
Qed.

Lemma wrote_shows b bs b' h p : shows b h p -> zlen h = p -> wrote b bs b' -> shows b' (h ++ bs) (p + zlen bs).
Proof.
  intros [I Sm C P] L W. split; [apply W|by eapply small_wrote| |rewrite (wr_position _ _ _ W); lia]. rewrite (wr_content _ _ _ W), C, P.
  unfold splice, zlen in *. rewrite take_ge, drop_ge by lia. by rewrite app_nil_r.
Qed.

Lemma EncodeAbortMsg_shows b e text s : Buffer_Inv b -> small b -> 24 <= current_size b -> plain_text text -> 0 < zlen text < 2 ^ 29 -> 32 + zlen text <= maximum_size b ->
  in_u 32 (SOPC_StatusCode_ToTcpErrorCode e) -> exists b' h,
  SC_Chunks_EncodeAbortMsg (Some b) e (text ++ [x00]) s = Ret ((true, Some b'), s) /\ shows b' (h ++ abort_body e text) (32 + zlen text) /\ zlen h = 24.
Proof.
  intros I Sm L Pt Lt Lm Re. destruct (reset_headers b I Sm L) as (b1 & b2 & b3 & h & E1 & E2 & E3 & Sh3 & Lh & M3). pose proof Sh3 as [I3 S3 C3 P3].
  unfold SC_Chunks_EncodeAbortMsg. rewrite E1, bind_lift. change SOPC_UA_SYMMETRIC_SECURE_MESSAGE_HEADERS_LENGTH with 24.
  rewrite (and_true_ret _ _ _ (Some b2) s) by (by apply when_ok_ret). rewrite (and_true_ret _ _ _ (Some b3) s) by (by apply when_ok_ret).
  set (v := SOPC_StatusCode_ToTcpErrorCode e) in *.
  pose proof (codec_write (wr := SOPC_UInt32_Write) v b3 0) as X4. destruct (X4 Re I3 S3) as (st & b4 & E4 & _ & W4 & F4). cbn [wire nests UInt32_codec] in *.
  assert (st = SOPC_STATUS_OK) as -> by (apply F4; [lia|]; split; [rewrite zlen_le_bytes; lia|right; intros n _; apply served]).
  destruct (W4 eq_refl) as [W _]. pose proof (wrote_shows _ _ _ _ _ Sh3 Lh W) as Sh4. rewrite zlen_le_bytes in Sh4. pose proof Sh4 as [I4 S4 C4 P4].
  rewrite (and_true_ret _ _ _ (Some b4) s) by (by apply when_ok_ret). pose proof (strlen_text text [] Pt) as El. 
  change (SOPC_String_Initialize (Some string_init)) with (Some string_init). unfold SOPC_String_AttachFromCstring. cbn [Data is_null string_init]. rewrite El. cbn [rbind]. unfold INT32_MAX. replace (zlen text <=? 2147483647) with true by lia.
  rewrite bind_lift.
  set (str := mkString (zlen text) true (Some (text ++ [x00]))).
  assert (string_wf str) as Ws. { split; [cbn; unfold in_s; lia|]. intros _. exists (text ++ [x00]). split; [done|]. cbn. rewrite zlen_app. change (zlen [x00]) with 1. lia. }
  assert (string_wire str = le_bytes 4 (zlen text) ++ text) as Es.
  { unfold string_wire. cbn [Length str]. replace (0 <? zlen text) with true by lia.
    unfold string_chars. cbn. unfold zlen. rewrite Nat2Z.id. by rewrite take_app_length. }
  pose proof (codec_write (wr := SOPC_String_Write) str b4 0) as X5. destruct (X5 Ws I4 S4) as (st & b5 & E5 & _ & W5 & F5). cbn [wire nests String_codec] in *. rewrite Es in *.
  assert (st = SOPC_STATUS_OK) as -> by (apply F5; [lia|]; split; [rewrite (wr_maximum _ _ _ W), zlen_app, zlen_le_bytes; lia|right; intros n _; apply served]).
  destruct (W5 eq_refl) as [W' _]. exists b5, h. split; [by apply when_ok_ret|]. split; [|done].
  assert (zlen (h ++ le_bytes 4 v) = 24 + Z.of_nat 4) as Lh4 by (rewrite zlen_app, zlen_le_bytes; lia).
  pose proof (wrote_shows _ _ _ _ _ Sh4 Lh4 W') as Sh5. rewrite zlen_app, zlen_le_bytes, <- app_assoc in Sh5. unfold abort_body. fold v.
  replace (32 + zlen text) with (24 + Z.of_nat 4 + (Z.of_nat 4 + zlen text)) by lia. exact Sh5.
Qed.

Definition size_text : block := list_byte_of_string "Not enough bytes available in chunk(s) to send the message.".

Lemma tcp_error_code_range e : in_u 32 (SOPC_StatusCode_ToTcpErrorCode e).
Proof.
  unfold SOPC_StatusCode_ToTcpErrorCode. destruct (bool_decide (e ∈ tcp_error_codes)) eqn:E.
  - apply bool_decide_eq_true in E. assert (Forall (in_u 32) tcp_error_codes) as F by (unfold tcp_error_codes; repeat (constructor; [split; vm_compute; congruence|]); constructor).
    rewrite Forall_forall in F. by apply F.
  - destruct (_ =? _); [split; vm_compute; congruence|]. destruct (_ || _); split; vm_compute; congruence.
Qed.

(** C32: on a channel without security (mode None), a message that the limits of the
    connection do not allow is not sent: the peer receives an abort chunk with the status
    code and the reason, the state machine of the connection is told that the request
    failed, and the channel stays open.  The body of the abort chunk fits in the buffer of
    the message and in a chunk. *)
Theorem too_large_aborted (idx r : Z) (b : SOPC_Buffer) (s : chunk_state) (token : Z) :
  let c := conn s in
  let body := abort_body OpcUa_BadTcpMessageTooLarge size_text in
  Buffer_Inv b -> small b -> SOPC_UA_SYMMETRIC_SECURE_MESSAGE_HEADERS_LENGTH <= length_ b -> 24 + zlen body <= maximum_size b ->
  plain_sender token c -> can_record s -> in_u 32 r -> state c <> SECURE_CONNECTION_STATE_SC_CLOSED ->
  zlen body <= symmSecuMaxBodySize c -> sendable c SOPC_MSG_TYPE_SC_MSG (length_ b - 24) = false ->
  exists s' tr, SOPC_ChunksMgr_Dispatcher INT_SC_SND_MSG_CHUNKS idx (Some b) r s = Ret (tt, s') /\
    trace s' = EnqueueFailure false INT_SC_SENT_ABORT_FAILURE r (too_large c) :: tr /\
    socket_writes tr = chunk_bytes SOPC_MSG SOPC_UA_ABORT_FINAL_CHUNK (secureChannelId (currentSecurityToken c)) token
      (next_sequence_number (lastSNsent (tcpSeqProperties c))) (request_id c r) body :: socket_writes (trace s).
Proof.
  intros c body I Sm Lb Mb PS CR Rr St Lm Snd. pose proof (content_headers b I Lb) as [Lh Lbody]. change SOPC_UA_SYMMETRIC_SECURE_MESSAGE_HEADERS_LENGTH with 24 in *.
  unfold SOPC_ChunksMgr_Dispatcher. set (s0 := mkState (conn s) SOPC_GoodGenericStatus (chunk_cells s) (request_cells s) (trace s)).
  rewrite (bind_ret_eq (set_error _) _ _ tt s0) by done. rewrite bind_get. change (conn s0) with c. rewrite bool_decide_false by done. cbn [sending_event]. rewrite bind_lift.
  cbn [is_null orb]. unfold UINT32_MAX. replace (4294967295 <? r) with false by (unfold in_u in Rr; lia). unfold SC_Chunks_TreatSendMessageBuffer.
  assert (shows b (content b) (position b)) as Sh by (by split). pose proof (zlen_content b I) as Lc. pose proof (ps_body _ _ PS) as Pm.
  destruct (seek_shows b _ _ 0 Sh) as (b0 & E0 & Sh0); [lia|]. destruct (seek_shows b0 _ _ 24 Sh0) as (b1 & E1 & Sh1); [lia|]. pose proof Sh1 as [I1 S1 C1 P1].
  rewrite bind_bind, (bind_ret_eq _ _ _ _ _ (expect_ok_ret _ _ s0 E0)). unfold send_message. change SOPC_UA_SYMMETRIC_SECURE_MESSAGE_HEADERS_LENGTH with 24.
  rewrite !bind_bind, (bind_ret_eq _ _ _ _ _ (expect_ok_ret _ _ s0 E1)), !bind_bind. rewrite Remaining_upcoming, bind_lift, bind_bind by done.
  assert (zlen (upcoming b1) = length_ b - 24) as Lu by (rewrite zlen_upcoming, P1, (shows_length _ _ _ Sh1) by done; lia). rewrite Lu.
  destruct (ComputeNbChunksToSend_spec SOPC_MSG_TYPE_SC_MSG (length_ b - 24) s0) as (k & s1 & Ek & Hk); [by left|done|destruct I; lia|].
  change (conn s0) with c in *. rewrite Snd in Ek, Hk. rewrite (bind_ret_eq _ _ _ _ _ Ek). cbn [negb]. rewrite bind_ret. cbv iota.
  assert (current_size b1 = current_size b /\ maximum_size b1 = maximum_size b) as [Z1 M1].
  { revert E0 E1. unfold seek, SOPC_Buffer_SetPosition. destruct (_ && _); [|done]. intros [= <-]. destruct (_ && _); [|done]. by intros [= <-]. }
  unfold send_abort. rewrite !bind_bind, bind_get. assert (errorStatus s1 = too_large c) as -> by (by subst s1).
  assert (SOPC_StatusCode_ToTcpErrorCode (too_large c) = SOPC_StatusCode_ToTcpErrorCode OpcUa_BadTcpMessageTooLarge) as Ee by (unfold too_large; by destruct (isServerConnection c)).
  destruct (EncodeAbortMsg_shows b1 (too_large c) size_text s1) as (b2 & h & E2 & Sh2 & Lh2).
  1, 2: done. 1: destruct I; lia. 1: unfold plain_text, size_text; cbn; repeat constructor. 1: split; vm_compute; congruence. 1: rewrite M1; exact Mb.
  1: apply tcp_error_code_range.
  rewrite bind_bind, (bind_ret_eq _ _ _ _ _ E2).
  assert (abort_body (too_large c) size_text = body) as Eb by (unfold body, abort_body; by rewrite Ee). rewrite Eb in Sh2.
  assert (conn s1 = c) as Cs1 by (by subst s1).
  destruct (TreatSendBufferMSGCLO_plain nested served idx r SOPC_MSG_TYPE_SC_MSG SOPC_UA_ABORT_FINAL_CHUNK SOPC_MSG b2 h body s1 token (32 + zlen size_text))
    as (b3 & s2 & E3 & C3 & _ & _ & _ & W3 & _ & Er3); try done; try (by rewrite Cs1); [by left|by apply (can_record_eq s); subst s1|].
  rewrite !bind_bind, (bind_ret_eq _ _ _ _ _ E3), !bind_ret. destruct (socket_write_spec b3 s2) as (s3 & E4 & _ & _ & W4 & Er4).
  rewrite bind_bind, (bind_ret_eq _ _ _ _ _ E4), !bind_ret. cbn [orb]. rewrite bind_get.
  rewrite Er4, Er3. assert (errorStatus s1 = too_large c) as -> by (by subst s1). eexists _, (trace s3). split; [reflexivity|]. split; [done|].
  rewrite W4, W3, C3, Cs1. by subst s1.
Qed.

End Messages.

(** ** Sizes *)

Section Sizes.
Context `{Crypto} `{!SendCrypto}.

(** The number of bytes to encrypt for a body, and the size of the chunk when every block
    of [plain] bytes is encrypted as a block of [cipher] bytes. *)
Definition fields_size (plain : Z) : Z := if SC_Chunks_Is_ExtraPaddingSizePresent plain then 2 else 1.
Definition plain_size (plain sig pad body : Z) : Z := SOPC_UA_SECURE_MESSAGE_SEQUENCE_LENGTH + body + fields_size plain + pad + sig.
Definition chunk_size (headers cipher plain sig pad body : Z) : Z := headers + cipher * (plain_size plain sig pad body / plain).

Lemma GetPaddingSize_spec n plain sig : 0 < plain <= 2 ^ 16 -> 0 <= n -> 0 <= sig -> n + sig + fields_size plain < 2 ^ 32 -> exists pad,
  SC_Chunks_GetPaddingSize n plain sig = Ret pad /\ 0 <= pad < plain /\ (n + sig + fields_size plain + pad) mod plain = 0.
Proof.
  intros P Pn Ps L. unfold SC_Chunks_GetPaddingSize. fold (fields_size plain). replace (plain =? 0) with false by lia.
  assert (0 < fields_size plain) as Pf by (unfold fields_size; destruct (SC_Chunks_Is_ExtraPaddingSizePresent plain); lia).
  rewrite u32_small by lia. set (t := n + sig + fields_size plain) in *. pose proof (Z.mod_pos_bound t plain ltac:(lia)) as B. pose proof (Z.div_mod t plain ltac:(lia)) as D.
  unfold UINT16_MAX. destruct (Z.eqb_spec (t mod plain) 0) as [E|E]; cbn [negb].
  - exists 0. split; [done|]. split; [lia|]. by rewrite Z.add_0_r.
  - replace (plain - t mod plain <=? 65535) with true by lia. eexists. split; [done|]. split; [lia|].
    replace (t + (plain - t mod plain)) with ((t / plain + 1) * plain) by nia. apply Z_mod_mult.
Qed.

(** The maximum size of a body is exact: the size of a chunk that is padded, signed
    and encrypted is at most the size of the send buffer if and only if the size of its
    body is at most the computed maximum, whatever the sizes of the blocks. *)
Theorem max_body_fits (headers chunk cipher plain sig body : Z) :
  0 <= headers <= chunk -> chunk < 2 ^ 31 -> 0 < plain <= cipher -> plain <= 2 ^ 16 -> 0 <= sig < 2 ^ 30 -> 0 <= body < 2 ^ 30 ->
  plain_size plain sig 0 0 <= plain * ((chunk - headers) / cipher) ->
  exists max extra pad, SC_Chunks_ComputeMaxBodySize headers chunk true cipher plain true sig = Ret (max, extra) /\
    SC_Chunks_GetPaddingSize (SOPC_UA_SECURE_MESSAGE_SEQUENCE_LENGTH + body) plain sig = Ret pad /\
    plain_size plain sig pad body mod plain = 0 /\
    (chunk_size headers cipher plain sig pad body <= chunk <-> body <= max).
Proof.
  intros Ph Pc Pp P16 Ps Pb Room. unfold chunk_size, plain_size in *. change SOPC_UA_SECURE_MESSAGE_SEQUENCE_LENGTH with 8 in *.
  assert (1 <= fields_size plain <= 2) as Pf by (unfold fields_size; destruct (SC_Chunks_Is_ExtraPaddingSizePresent plain); lia).
  destruct (GetPaddingSize_spec (8 + body) plain sig) as (pad & E & Pd & M); [lia..|].
  set (q := (chunk - headers) / cipher) in *. pose proof (Z.div_mod (chunk - headers) cipher ltac:(lia)) as D. pose proof (Z.mod_pos_bound (chunk - headers) cipher ltac:(lia)) as Bm. fold q in D.
  assert (0 <= q) as Pq by (apply Z.div_pos; lia). assert (plain * q <= chunk - headers) as Lq by nia.
  exists (plain * q - 8 - sig - fields_size plain), (SC_Chunks_Is_ExtraPaddingSizePresent plain), pad. split_and!.
  - unfold SC_Chunks_ComputeMaxBodySize. cbn [andb]. fold (fields_size plain). replace (plain <=? cipher) with true by lia. replace (cipher =? 0) with false by lia.
    change SOPC_UA_SECURE_MESSAGE_SEQUENCE_LENGTH with 8. rewrite (u32_small (chunk - headers)) by lia. fold q. rewrite (u32_small (plain * q - 8 - sig - fields_size plain)) by lia.
    rewrite u32_small by lia. by replace (_ <=? chunk) with true by lia.
  - done.
  - rewrite <- M. f_equal. lia.
  - replace (8 + body + fields_size plain + pad + sig) with (8 + body + sig + fields_size plain + pad) by lia. set (t := 8 + body + sig + fields_size plain + pad) in *.
    pose proof (Z.div_mod t plain ltac:(lia)) as Dt. rewrite M in Dt. set (k := t / plain) in *. split; intros F.
    + assert (k <= q) by nia. nia.
    + assert (k <= q) by nia. nia.
Qed.

Lemma max_body_fits_witness : exists max extra pad, SC_Chunks_ComputeMaxBodySize 16 8192 true 16 16 true 32 = Ret (max, extra) /\
  SC_Chunks_GetPaddingSize (SOPC_UA_SECURE_MESSAGE_SEQUENCE_LENGTH + 100) 16 32 = Ret pad /\ plain_size 16 32 pad 100 mod 16 = 0 /\
  (chunk_size 16 16 16 32 pad 100 <= 8192 <-> 100 <= max).
Proof. apply (max_body_fits 16 8192 16 16 32 100); try lia. vm_compute. congruence. Defined.

(** When the headers leave no room for the signature, the subtraction of unsigned
    integers wraps around and the assertion holds. *)
Example max_body_wraps : SC_Chunks_ComputeMaxBodySize 8100 8192 true 256 214 true 256 = Ret (2 ^ 32 - 265, false).
Proof. reflexivity. Qed.

End Sizes.

(** ** Numbers *)

Section Numbers.
Context `{Crypto}.

(** The numbers of [n] chunks that follow [sn]. *)
Fixpoint sent_numbers (n : nat) (sn : Z) : list Z :=
  match n with O => [] | S n => next_sequence_number sn :: sent_numbers n (next_sequence_number sn) end.

(** A receiver accepts all the numbers that a sender writes, however many there are,
    and the identifier of a request of a client is never 0. *)
Theorem sender_numbers_accepted (n : nat) (s : chunk_state) :
  in_u 32 (lastSN s) ->
  (exists s', receive_numbers (sent_numbers n (lastSN s)) s = Ret (true, s')) /\
  (forall i final, in_u 32 i -> (client_request_id i final).1 <> 0 /\ in_u 32 (client_request_id i final).1).
Proof.
  intros R. split.
  2:{ intros i final Ri. pose proof (client_request_id_range i final Ri) as [? _]. unfold in_u. lia. }
  revert s R. induction n as [|n IH]; intros s R; [by eexists|]. cbn [sent_numbers receive_numbers].
  destruct (CheckSeqNum_spec (next_sequence_number (lastSN s)) s) as (s1 & E & F).
  rewrite bool_decide_true in E.
  2:{ unfold follows, next_sequence_number. destruct (Z.ltb_spec (UINT32_MAX - 1024) (lastSN s)); [right; lia|by left]. }
  assert (lastSN s1 = next_sequence_number (lastSN s)) as L1.
  { apply F. unfold follows, next_sequence_number. destruct (Z.ltb_spec (UINT32_MAX - 1024) (lastSN s)); [right; lia|by left]. }
  rewrite (bind_ret_eq _ _ _ _ _ E). rewrite <- L1. apply IH. rewrite L1. pose proof (next_sequence_number_range _ R). unfold in_u. lia.
Qed.

End Numbers.

(** ** Failures *)

Section Failures.
Context `{Allocator} `{Host} `{EndiannessCfg} {cfg : SOPC_Common_EncodingConstants} `{Crypto} `{!SendCrypto} `{!Toolkit}.

Lemma send_abort_null idx r t reason s : send_abort idx r t NULL reason s = Ret (false, s).
Proof. reflexivity. Qed.

(** The abort chunk is not sent when the message holds in one chunk: the failure of
    its treatment (the signature or the encryption, for instance) is reported as a
    failure of the channel, whatever its cause is. *)
Theorem single_chunk_failure_is_fatal (idx r : Z) (t : SOPC_Msg_Type) (b : SOPC_Buffer) (s s' : chunk_state) (abort : bool) :
  Buffer_Inv b -> SOPC_UA_SYMMETRIC_SECURE_MESSAGE_HEADERS_LENGTH <= length_ b -> sendable (conn s) t (length_ b - 24) = true ->
  length_ b - 24 <= symmSecuMaxBodySize (conn s) -> 0 < symmSecuMaxBodySize (conn s) ->
  SC_Chunks_TreatSendMessageBuffer idx r t false false (Some b) s = Ret ((false, abort), s') -> abort = false.
Proof.
  intros I Lb Snd Lm Pm. unfold SC_Chunks_TreatSendMessageBuffer. change SOPC_UA_SYMMETRIC_SECURE_MESSAGE_HEADERS_LENGTH with 24 in *.
  pose proof I as [[d [Ed _]] ? ? ? ? ?]. unfold seek at 1, SOPC_Buffer_SetPosition. rewrite Ed. cbn [is_null negb andb]. replace (0 <=? length_ b) with true by lia.
  rewrite (bind_ret_eq (expect_ok _) _ _ (Some (set_position b 0)) s) by done.
  destruct (match t with SOPC_MSG_TYPE_SC_MSG | SOPC_MSG_TYPE_SC_CLO => true | _ => false end) eqn:T; [|done]. intros E.
  assert (t = SOPC_MSG_TYPE_SC_MSG \/ t = SOPC_MSG_TYPE_SC_CLO) as Tt by (destruct t; try done; auto).
  assert (send_message idx r t (Some (set_position b 0)) s =
    (let! (result, inputMsgBuffer, errorReason) := send_chunks 1 idx r t 1 0 NULL (Some (set_position (set_position (set_position b 0) 24) 0)) size_reason in
     mret (result, inputMsgBuffer, errorReason)) s) as Es.
  { unfold send_message. change SOPC_UA_SYMMETRIC_SECURE_MESSAGE_HEADERS_LENGTH with 24. unfold seek at 1, SOPC_Buffer_SetPosition. cbn [set_position data length_]. rewrite Ed. cbn [is_null negb andb].
    replace (24 <=? length_ b) with true by lia. rewrite (bind_ret_eq (expect_ok _) _ _ (Some (set_position (set_position b 0) 24)) s) by done.
    cbn [SOPC_Buffer_Remaining]. rewrite bind_lift. cbn [set_position length_ position]. rewrite u32_small by lia.
    destruct (ComputeNbChunksToSend_spec t (length_ b - 24) s Tt Pm ltac:(lia)) as (k & s1 & Ek & Hk). rewrite Snd in Ek, Hk. destruct Hk as [-> ->].
    rewrite (bind_ret_eq _ _ _ _ _ Ek). unfold chunks_needed. replace (_ <=? symmSecuMaxBodySize (conn s)) with true by lia. cbn [negb].
    change (0 <? 1) with true. change (1 =? 1) with true. cbv iota. unfold seek at 1, SOPC_Buffer_SetPosition. cbn [set_position data length_]. rewrite Ed. cbn [is_null negb andb].
    replace (0 <=? length_ b) with true by lia. rewrite bind_bind, (bind_ret_eq (expect_ok _) _ _ (Some (set_position (set_position (set_position b 0) 24) 0)) s) by done.
    rewrite bind_ret. cbn [negb]. unfold mbind. change (Z.to_nat 1) with 1%nat. destruct (send_chunks _ _ _ _ _ _ _ _ _ _) as [[[[? ?] ?] ?]|]; done. }
  bind_step E as a s1 E1. rewrite Es in E1. bind_step E1 as a1 s2 E2. destruct a1 as [[result mb] reason]. injection E1 as <- <-.
  assert (mb = NULL) as ->.
  { cbn [send_chunks] in E2. bind_step E2 as a2 s3 E3. destruct a2 as [[ok cb] out]. destruct ok; cbn [negb] in E2; [|by injection E2].
    bind_step E2 as u s4 E4. change (0 + 1 <? 1) with false in E2. cbv iota in E2. by injection E2. }
  destruct result; [by injection E|]. bind_step E as ab s5 E5. rewrite send_abort_null in E5. injection E5 as <- <-. by injection E.
Qed.

End Failures.
