(* ===== verification/ChunksPadding.v ===== *)
(** * Padding

    The padding that the sender adds completes the last block, and is the one that the
    receiver removes. *)

From Stdlib Require Import ZArith Lia.
From Stdlib Require Import Strings.Byte.
From stdpp Require Import prelude gmap.
From S2P Require Import Prelude Common LinkedList Buffer Codec EncScalar EncString Strings SecureConnection ToolkitConfig Chunks.
From S2P Require Import ChunksSpec ChunksStream ChunksMerge ChunksSend ChunksSendSpec ChunksSendProps.

Open Scope Z_scope.

(** The two bytes of the size of the padding. *)
Definition padding_low (pad : Z) : byte := z2b (Z.land 0x00FF pad).
Definition padding_high (pad : Z) : byte := z2b (Z.shiftr (Z.land 0xFF00 pad) 8).

(** The padding, with its size before it, and after it when it has a second byte. *)
Definition padding_bytes (plain pad : Z) : block :=
  replicate (Z.to_nat pad) (padding_low pad) ++ [padding_low pad] ++ (if SC_Chunks_Is_ExtraPaddingSizePresent plain then [padding_high pad] else []).

Lemma padding_low_value pad : 0 <= pad -> b2z (padding_low pad) = pad mod 2 ^ 8.
Proof.
  intros P. unfold padding_low. rewrite Z.land_comm. change 0x00FF with (Z.ones 8). rewrite Z.land_ones by lia. rewrite b2z_z2b. by apply Z.mod_mod.
Qed.

Lemma padding_high_value pad : 0 <= pad < 2 ^ 16 -> b2z (padding_high pad) = pad / 2 ^ 8.
Proof.
  intros P. unfold padding_high. rewrite Z.shiftr_land, Z.land_comm. change (Z.shiftr 0xFF00 8) with (Z.ones 8). rewrite Z.land_ones, Z.shiftr_div_pow2 by lia.
  rewrite b2z_z2b. change 256 with (2 ^ 8). rewrite Z.mod_mod by lia. apply Z.mod_small. split; [apply Z.div_pos; lia|]. apply Z.div_lt_upper_bound; lia.
Qed.

Lemma zlen_padding plain pad : 0 <= pad -> zlen (padding_bytes plain pad) = pad + fields_size plain.
Proof.
  intros P. unfold padding_bytes, fields_size. rewrite !zlen_app, zlen_replicate by done. destruct (SC_Chunks_Is_ExtraPaddingSizePresent plain); unfold zlen; cbn; lia.
Qed.

Section Buffers.
Context `{Allocator}.
Hypothesis served : forall n, alloc_ok n = true.

Lemma write_end b c bs n : shows b c (zlen c) -> zlen bs = n -> zlen c + n <= maximum_size b -> exists b',
  SOPC_Buffer_Write (Some b) (Some bs) n = Ret (SOPC_STATUS_OK, Some b') /\ shows b' (c ++ bs) (zlen (c ++ bs)) /\ maximum_size b' = maximum_size b.
Proof.
  intros Sh L F. pose proof Sh as [I Sm C P]. unfold small in Sm. pose proof (zlen_nonneg bs).
  destruct (SOPC_Buffer_Write_spec b bs n I ltac:(lia) ltac:(lia)) as (st & b' & -> & R & OK).
  assert (st = SOPC_STATUS_OK) as -> by (apply OK; [lia|]; right; intros k _; apply served). destruct R as [[_ W]|[? _]]; [|done].
  rewrite take_ge in W by (unfold zlen in *; lia). exists b'. split; [done|]. split; [|apply W]. rewrite zlen_app. by apply (wrote_shows b bs b').
Qed.

Lemma last_byte_spec b l x p : shows b (l ++ [x]) p -> last_byte b = Ret (b2z x).
Proof.
  intros Sh. pose proof (shows_length _ _ _ Sh) as L. pose proof Sh as [[[d [Ed Ld]] ? ? ? ? ?] Sm C _]. rewrite zlen_app in L. change (zlen [x]) with 1 in L.
  unfold last_byte. rewrite Ed. cbn [deref rbind]. pose proof (zlen_nonneg l). rewrite u32_small by lia. rewrite mem_read_ok by lia. cbn [rbind].
  unfold content, bytes in C. rewrite Ed in C. cbn in C. rewrite <- (take_drop (Z.to_nat (length_ b)) d), C.
  assert (drop (Z.to_nat (length_ b - 1)) ((l ++ [x]) ++ drop (Z.to_nat (length_ b)) d) = x :: drop (Z.to_nat (length_ b)) d) as ->; [|done].
  rewrite <- app_assoc. rewrite drop_app_length'; [done|]. unfold zlen in *. lia.
Qed.

Lemma SetDataLength_shows b c p n : shows b c p -> p <= n <= zlen c -> exists b',
  SOPC_Buffer_SetDataLength (Some b) n = Ret (SOPC_STATUS_OK, Some b') /\ shows b' (take (Z.to_nat n) c) p.
Proof.
  intros Sh R. pose proof (shows_length _ _ _ Sh) as L. pose proof Sh as [I Sm C P]. pose proof I as [[d [Ed Ld]] ? ? ? ? ?].
  unfold SOPC_Buffer_SetDataLength. rewrite Ed. replace (n <=? current_size b) with true by lia. replace (position b <=? n) with true by lia. cbn [andb].
  assert (exists d', (if n <? length_ b then memset0 d n (length_ b - n) else Ret d) = Ret d' /\ zlen d' = zlen d /\ take (Z.to_nat n) d' = take (Z.to_nat n) d) as (d' & -> & Ld' & Td).
  { destruct (Z.ltb_spec n (length_ b)); [|by exists d]. destruct (memset0_ok d n (length_ b - n)) as (d' & -> & Ld' & ->); [lia..|]. eexists. split; [done|]. split; [done|].
    unfold splice. rewrite take_app_le by (rewrite length_take; unfold zlen in *; lia). rewrite take_take. f_equal. lia. }
  cbn [rbind]. eexists. split; [done|]. split; [|done| |done].
  - split; cbn; try done; try lia. exists d'. split; [done|lia].
  - unfold content, bytes in *. rewrite Ed in C. cbn in *. rewrite Td, <- C, take_take. f_equal. lia.
Qed.

End Buffers.

Section Padding.
Context `{Allocator} `{Host} `{EndiannessCfg} {cfg : SOPC_Common_EncodingConstants} `{Crypto} `{!SendCrypto} `{!Toolkit}.
Hypothesis served : forall n, alloc_ok n = true.

Lemma padding_bytes_eq plain pad : [padding_low pad] ++ replicate (Z.to_nat pad) (padding_low pad) ++
  (if SC_Chunks_Is_ExtraPaddingSizePresent plain then [padding_high pad] else []) = padding_bytes plain pad.
Proof. unfold padding_bytes. rewrite !app_assoc. f_equal. by rewrite <- replicate_cons_app. Qed.

Lemma write_padding_shows b c pad plain s : shows b c (zlen c) -> 0 <= pad -> zlen c + pad + fields_size plain <= maximum_size b -> exists b',
  write_padding (Some b) pad plain s = Ret ((true, Some b'), s) /\ shows b' (c ++ padding_bytes plain pad) (zlen (c ++ padding_bytes plain pad)).
Proof.
  intros Sh P F. unfold write_padding. fold (padding_low pad) (padding_high pad). rewrite <- padding_bytes_eq.
  assert (1 <= fields_size plain) as Pf by (unfold fields_size; destruct (SC_Chunks_Is_ExtraPaddingSizePresent plain); lia).
  destruct (write_end served b c [padding_low pad] 1 Sh eq_refl) as (b1 & E1 & Sh1 & M1); [lia|].
  rewrite (and_true_ret _ _ _ (Some b1) s) by (by apply when_ok_ret).
  destruct (write_end served b1 _ (replicate (Z.to_nat pad) (padding_low pad)) pad Sh1) as (b2 & E2 & Sh2 & M2).
  { apply zlen_replicate. lia. } { rewrite zlen_app. change (zlen [padding_low pad]) with 1. lia. }
  unfold SOPC_Malloc. rewrite served. rewrite (and_true_ret _ _ _ (Some b2) s) by (by apply when_ok_ret).
  rewrite <- !app_assoc in Sh2. unfold fields_size in F. destruct (SC_Chunks_Is_ExtraPaddingSizePresent plain).
  - destruct (write_end served b2 _ [padding_high pad] 1 Sh2 eq_refl) as (b3 & E3 & Sh3 & _).
    { rewrite !zlen_app, zlen_replicate by done. change (zlen [padding_low pad]) with 1. lia. }
    exists b3. split; [by apply when_ok_ret|]. by rewrite <- !app_assoc in Sh3.
  - exists b2. split; [done|]. by rewrite !app_nil_r.
Qed.

(** The receiver removes a padding that holds its size. *)
Lemma Remove_Padding_shows s rb c p pad plain : currentChunkInputBuffer (chunksCtx (conn s)) = Some rb -> shows rb (c ++ padding_bytes plain pad) p -> p <= zlen c ->
  0 <= pad < plain -> plain <= 2 ^ 16 -> hasExtraPaddingSize (conn s) = SC_Chunks_Is_ExtraPaddingSizePresent plain ->
  exists rb', SOPC_Remove_Padding s = Ret (true, with_conn s (set_ctx (conn s) (set_chunk (chunksCtx (conn s)) (Some rb')))) /\ shows rb' c p.
Proof.
  intros Eb Sh Lp P P16 Ex. pose proof (zlen_nonneg c). pose proof (zlen_padding plain pad ltac:(lia)) as Lpad. pose proof (shows_length _ _ _ Sh) as L. rewrite zlen_app, Lpad in L.
  assert (1 <= fields_size plain <= 2) as Pf by (unfold fields_size; destruct (SC_Chunks_Is_ExtraPaddingSizePresent plain); lia).
  pose proof (sh_small _ _ _ Sh) as Sm. pose proof (sh_inv _ _ _ Sh) as [_ ? ? ? ? _]. unfold small in Sm.
  assert (forall b q, shows b ((c ++ replicate (Z.to_nat pad) (padding_low pad)) ++ [padding_low pad]) p -> (q + b2z (padding_low pad)) = pad -> exists b',
    last_byte b = Ret (b2z (padding_low pad)) /\ SOPC_Buffer_SetDataLength (Some b) (u32 (length_ b - (q + b2z (padding_low pad) + 1))) = Ret (SOPC_STATUS_OK, Some b') /\ shows b' c p) as Cut.
  { intros b q Shb Eq. pose proof (shows_length _ _ _ Shb) as Lb. rewrite !zlen_app, zlen_replicate in Lb by lia. change (zlen [padding_low pad]) with 1 in Lb.
    pose proof (sh_inv _ _ _ Shb) as [_ ? ? ? ? _]. pose proof (last_byte_spec _ _ _ _ Shb) as E. rewrite u32_small by lia.
    destruct (SetDataLength_shows b _ p (zlen c) Shb) as (b' & E' & Sh'); [rewrite !zlen_app, zlen_replicate by lia; change (zlen [padding_low pad]) with 1; lia|].
    exists b'. split; [done|]. split; [rewrite <- E'; f_equal; lia|]. rewrite <- app_assoc, take_app_length' in Sh' by (unfold zlen; lia). done. }
  pose proof (padding_low_value pad ltac:(lia)) as Vl. pose proof (padding_high_value pad ltac:(lia)) as Vh. pose proof (Z.div_mod pad (2 ^ 8) ltac:(lia)) as Dm.
  unfold SOPC_Remove_Padding. rewrite bind_get, Eb. cbn [deref]. rewrite bind_lift, Ex. unfold padding_bytes, SC_Chunks_Is_ExtraPaddingSizePresent in *.
  destruct (Z.ltb_spec 256 plain) as [Big|Sml].
  - rewrite !app_assoc in Sh. rewrite (last_byte_spec _ _ _ _ Sh). rewrite bind_bind, bind_lift.
    assert (zlen (replicate (Z.to_nat pad) (padding_low pad)) = pad) as Lr by (apply zlen_replicate; lia).
    destruct (SetDataLength_shows rb _ p (length_ rb - 1) Sh) as (b1 & E1 & Sh1).
    { rewrite (shows_length _ _ _ Sh). rewrite !zlen_app, Lr. change (zlen [padding_low pad]) with 1. change (zlen [padding_high pad]) with 1. lia. }
    rewrite u32_small by lia. rewrite bind_bind, E1, bind_lift, bind_ret. cbn [is_ok deref]. rewrite bind_bind, bind_lift.
    rewrite take_app_length' in Sh1. 2:{ rewrite (shows_length _ _ _ Sh). unfold zlen. rewrite !length_app, length_replicate. cbn. lia. }
    destruct (Cut b1 (b2z (padding_high pad) * 2 ^ 8) Sh1) as (b2 & E2 & E3 & Sh2); [rewrite Vl, Vh; lia|]. rewrite E2, bind_bind, bind_lift, E3, bind_lift.
    exists b2. split; [done|done].
  - rewrite app_nil_r, app_assoc in Sh. rewrite bind_ret. cbn [is_ok deref]. rewrite bind_bind, bind_lift.
    destruct (Cut rb 0 Sh) as (b2 & E2 & E3 & Sh2); [rewrite Vl, Z.mod_small; lia|]. rewrite E2, bind_bind, bind_lift, E3, bind_lift. by exists b2.
Qed.

(** C31: the sender completes the data to encrypt, with the signature, to a whole number of
    blocks; a receiver that has the padded data and whose [hasExtraPaddingSize] is that of
    the sender removes exactly the padding.  The code does not always ensure this equality:
    the flag of a connection is overwritten, so that the padding of OPN messages with large
    keys is not removed ([extra_padding_overwritten]). *)
Theorem padding_roundtrip (scConfig : SOPC_SecureChannel_Config) (sym : bool) (b : SOPC_Buffer) (c : block) (sn : Z) (s : chunk_state) (z : crypto_sizes) :
  let plain := plainBlockSize_ z in
  let extra := SC_Chunks_Is_ExtraPaddingSizePresent plain in
  SC_Chunks_GetSendingCryptoSizes (conn s) scConfig sym = (true, z) -> toEncrypt_ z = true -> 0 < plain <= 2 ^ 16 -> 0 <= signatureSize_ z < 2 ^ 30 ->
  shows b c (zlen c) -> 0 <= sn <= zlen c -> zlen c < 2 ^ 30 -> zlen c + plain + 1 <= maximum_size b ->
  exists b' pad, SOPC_Chunks_EncodePadding scConfig (Some b) sym sn s = Ret ((true, (Some b', signatureSize_ z, pad, extra)), s) /\
    (length_ b' - sn + signatureSize_ z) mod plain = 0 /\ 0 <= pad < plain /\
    forall s2 rb p, currentChunkInputBuffer (chunksCtx (conn s2)) = Some rb -> shows rb (content b') p -> p <= zlen c ->
      hasExtraPaddingSize (conn s2) = extra ->
      exists rb', SOPC_Remove_Padding s2 = Ret (true, with_conn s2 (set_ctx (conn s2) (set_chunk (chunksCtx (conn s2)) (Some rb')))) /\ shows rb' c p.
Proof.
  intros plain extra Ez Te P Ps Sh Rs Lc F. unfold SOPC_Chunks_EncodePadding. cbn [is_null negb]. rewrite bind_get, Ez, Te. cbn [andb deref].
  assert (1 <= fields_size plain <= 2) as Pf by (unfold fields_size; destruct (SC_Chunks_Is_ExtraPaddingSizePresent plain); lia).
  destruct (GetPaddingSize_spec (zlen c - sn) plain (signatureSize_ z)) as (pad & E & Pd & M); [lia..|]. fold plain.
  destruct (write_padding_shows b c pad plain s Sh) as (b' & E' & Sh'); [lia|lia|]. exists b', pad. split_and!.
  - apply or_error_ret. rewrite bind_lift, (shows_length _ _ _ Sh), u32_small by lia. rewrite E, bind_lift, (bind_ret_eq _ _ _ _ _ E'). done.
  - rewrite (shows_length _ _ _ Sh'), zlen_app, zlen_padding by lia. rewrite <- M. f_equal. lia.
  - lia.
  - lia.
  - intros s2 rb p Eb Shr Lp Ex. rewrite (sh_content _ _ _ Sh') in Shr. eapply Remove_Padding_shows; try done. lia.
Qed.

End Padding.
