(* ===== verification/ChunksExchange.v ===== *)
(** * From the sender to the receiver

    The chunks that a sender writes on a channel without security give the message back to
    the receiver. *)

From Stdlib Require Import ZArith Lia.
From Stdlib Require Import Strings.Byte.
From stdpp Require Import prelude gmap.
From S2P Require Import Prelude Common LinkedList LinkedListSpec Buffer Codec EncScalar EncString Strings SecureConnection ToolkitConfig Chunks.
From S2P Require Import ChunksSpec ChunksStream ChunksIdle ChunksProps ChunksMerge ChunksSecurity ChunksSend ChunksSendSpec ChunksSendProps.

Open Scope Z_scope.

Section Decode.
Context `{Allocator} `{Host} `{EndiannessCfg} {cfg : SOPC_Common_EncodingConstants} `{Crypto} `{!EndiannessDetected}.
Hypothesis nested : 0 < max_nested_struct cfg.

(** The header that the sender writes is the one that the receiver decodes. *)
Lemma DecodeTcpMsgHeader_msg x b f g size rest : currentChunkInputBuffer x = Some b -> no_header x -> Buffer_Inv b -> small b -> position b = 0 ->
  upcoming b = SOPC_MSG ++ [f] ++ le_bytes 4 size ++ rest -> is_final f = g -> g <> SOPC_MSG_ISFINAL_INVALID -> 8 < size <= maximum_size b ->
  SC_Chunks_DecodeTcpMsgHeader x SOPC_GoodGenericStatus = Ret (true, SOPC_GoodGenericStatus, set_header (set_chunk x (Some (advance b 8))) size SOPC_MSG_TYPE_SC_MSG g).
Proof.
  intros Eb (N1 & N2 & N3) I Sm P U Eg Ng Ls. unfold SC_Chunks_DecodeTcpMsgHeader. rewrite Eb. pose proof (zlen_upcoming b I) as L. rewrite U, !zlen_app, zlen_le_bytes in L.
  change (zlen SOPC_MSG) with 3 in L. change (zlen [f]) with 1 in L. pose proof (zlen_nonneg rest). pose proof I as [_ ? ? ? ? _]. unfold small in Sm. unfold SOPC_TCP_UA_HEADER_LENGTH.
 
  rewrite u32_small by lia.
  replace (8 <=? length_ b - position b) with true by lia. rewrite N1, N2, N3. rewrite !bool_decide_true by done.
  change (0 =? 0) with true. cbv iota.
  rewrite (read_block_app b _ SOPC_MSG ([f] ++ le_bytes 4 size ++ rest)) by done. cbn [rbind deref is_ok].
  change (message_type SOPC_MSG) with SOPC_MSG_TYPE_SC_MSG. cbn [andb]. rewrite bool_decide_false by done. cbn [negb].
  destruct (upcoming_advance_app b SOPC_MSG ([f] ++ le_bytes 4 size ++ rest) I U) as [I1 U1]. change (zlen SOPC_MSG) with 3 in *.
  rewrite (read_block_app (advance b 3) _ [f] (le_bytes 4 size ++ rest)) by done. cbn [rbind deref is_ok]. cbn [nth]. rewrite Eg, bool_decide_false by done. cbn [orb].
  rewrite (bool_decide_true (SOPC_MSG_TYPE_SC_MSG = _)) by done. cbn [negb andb orb rbind].
  destruct (upcoming_advance_app (advance b 3) [f] (le_bytes 4 size ++ rest) I1 U1) as [I2 U2]. change (zlen [f]) with 1 in *.
  destruct (UInt32_Read_block nested (advance (advance b 3) 1) 0 I2 Sm) as (v & ->). rewrite U2, zlen_app, zlen_le_bytes. rewrite (Zle_imp_le_bool 4 (Z.of_nat 4 + zlen rest)) by lia.
  cbn [rbind deref]. rewrite take_app_length' by (by rewrite length_le_bytes). rewrite le_val_le_bytes, Z.mod_small by (change (2 ^ (8 * Z.of_nat 4)) with (2 ^ 32); lia).
  cbn [is_ok negb orb]. replace (size <=? 8) with false by lia. rewrite !advance_advance. change (maximum_size (advance b _)) with (maximum_size b). by replace (maximum_size b <? size) with false by lia.
Qed.

End Decode.

(** The bytes of a chunk after its first header. *)
Definition chunk_payload (channel token sn requestId : Z) (body : block) : block :=
  le_bytes 4 channel ++ le_bytes 4 token ++ le_bytes 4 sn ++ le_bytes 4 requestId ++ body.

Lemma chunk_bytes_payload t f channel token sn i body :
  chunk_bytes t f channel token sn i body = (t ++ [f] ++ le_bytes 4 (24 + zlen body)) ++ chunk_payload channel token sn i body.
Proof. unfold chunk_bytes, chunk_payload. by rewrite <- !app_assoc. Qed.

Lemma zlen_payload channel token sn i body : zlen (chunk_payload channel token sn i body) = 16 + zlen body.
Proof. unfold chunk_payload. rewrite !zlen_app, !zlen_le_bytes. lia. Qed.

Lemma zlen_chunk f channel token sn i body : zlen (chunk_bytes SOPC_MSG f channel token sn i body) = 24 + zlen body.
Proof. rewrite chunk_bytes_payload, zlen_app, zlen_payload, !zlen_app, zlen_le_bytes. change (zlen SOPC_MSG) with 3. change (zlen [f]) with 1. lia. Qed.

Section Reception.
Context `{Allocator} `{Host} `{EndiannessCfg} {cfg : SOPC_Common_EncodingConstants} `{Crypto} `{!Toolkit} `{!EndiannessDetected}.
Hypothesis nested : 0 < max_nested_struct cfg.
Hypothesis served : forall n, alloc_ok n = true.

Lemma decode_chunk c f g channel token sn i body rest : idle c -> 24 + zlen body <= receiveBufferSize (tcpMsgProperties c) <= 2 ^ 31 ->
  is_final f = g -> g <> SOPC_MSG_ISFINAL_INVALID -> exists b,
  decode_bytes (start c) (chunk_bytes SOPC_MSG f channel token sn i body ++ rest) =
    Ret (true, SOPC_GoodGenericStatus, set_header (set_chunk (chunksCtx c) (Some b)) (24 + zlen body) SOPC_MSG_TYPE_SC_MSG g, 24 + zlen body) /\
  Buffer_Inv b /\ small b /\ upcoming b = chunk_payload channel token sn i body.
Proof.
  intros [Ec Hn] L Eg Ng. pose proof (zlen_nonneg body). pose proof (zlen_payload channel token sn i body) as Lp. set (pl := chunk_payload channel token sn i body) in *.
  set (hd := SOPC_MSG ++ [f] ++ le_bytes 4 (24 + zlen body)). assert (zlen hd = 8) as Lh by (unfold hd; rewrite !zlen_app, zlen_le_bytes; done).
  assert (chunk_bytes SOPC_MSG f channel token sn i body ++ rest = hd ++ pl ++ rest) as -> by (rewrite chunk_bytes_payload, <- app_assoc; done).
  unfold start. rewrite Ec. destruct (Create_served served (receiveBufferSize (tcpMsgProperties c))) as (b0 & E0 & L0 & C0 & _); [lia|].
  destruct (SOPC_Buffer_Create_spec (receiveBufferSize (tcpMsgProperties c)) b0 ltac:(lia) E0) as (I0 & _ & P0 & M0). rewrite E0. unfold decode_bytes. cbn [currentChunkInputBuffer set_chunk deref rbind].
  change (currentMsgSize (set_chunk (chunksCtx c) _)) with (currentMsgSize (chunksCtx c)). pose proof Hn as (N1 & _ & _). rewrite N1. change (0 =? 0) with true. cbv iota.
  unfold SOPC_TCP_UA_HEADER_LENGTH. assert (moved b0 (hd ++ pl ++ rest) 8 = 8) as Mv by (unfold moved, lacking; rewrite !zlen_app, Lh, Lp; pose proof (zlen_nonneg rest); lia).
  rewrite Mv. assert (lacking b0 8 = 8) as -> by (unfold lacking; lia). change (8 <? 8) with false. cbv iota.
  assert (forall (y : block), take (Z.to_nat 8) (hd ++ y) = hd /\ drop (Z.to_nat 8) (hd ++ y) = y) as TD.
  { intros y. split; [apply take_app_length'|apply drop_app_length']; unfold zlen in Lh; lia. }
  rewrite (proj1 (TD (pl ++ rest))), (proj2 (TD (pl ++ rest))). set (b1 := push b0 hd).
  assert (Buffer_Inv b1) as I1 by (apply push_inv; [done|]; unfold room; lia). assert (small b1) as S1 by (unfold small; cbn; lia).
  assert (upcoming b1 = hd) as U1. { unfold b1. rewrite push_upcoming by (try done; unfold room; lia). pose proof (zlen_upcoming b0 I0) as Z0. rewrite L0, P0 in Z0.
    destruct (upcoming b0); [done|]. rewrite zlen_cons in Z0. pose proof (zlen_nonneg l). lia. }
  rewrite (DecodeTcpMsgHeader_msg nested (set_chunk (set_chunk (chunksCtx c) (Some b0)) (Some b1)) b1 f g (24 + zlen body) []); try done.
  2: change (maximum_size b1) with (maximum_size b0); lia. cbn [rbind negb deref currentChunkInputBuffer set_header set_chunk].
  unfold decode_payload. cbn [currentMsgSize set_header]. unfold SOPC_TCP_UA_HEADER_LENGTH. set (b2 := advance b1 8).
  destruct (upcoming_advance_app b1 hd [] I1) as [I2 U2]; [by rewrite U1, app_nil_r|]. rewrite Lh in I2, U2. fold b2 in I2, U2.
  assert (length_ b2 = 8) as L2 by (change (length_ b2) with (length_ b0 + zlen hd); lia). assert (position b2 = 8) as P2 by (change (position b2) with (position b0 + 8); lia).
  assert (lacking b2 (24 + zlen body - 8) = 16 + zlen body) as Lk by (unfold lacking; rewrite L2, P2; lia).
  assert (moved b2 (pl ++ rest) (24 + zlen body - 8) = 16 + zlen body) as Mv2 by (unfold moved; rewrite Lk, zlen_app, Lp; pose proof (zlen_nonneg rest); lia).
  rewrite Mv2, Lk, Z.eqb_refl. assert (take (Z.to_nat (16 + zlen body)) (pl ++ rest) = pl) as -> by (apply take_app_length'; unfold zlen in *; lia).
  assert (zlen pl <= room b2) as Rm by (unfold room; rewrite L2; change (current_size b2) with (current_size b0); lia).
  exists (push b2 pl). split; [do 2 f_equal; lia|]. split; [by apply push_inv|]. split; [done|]. rewrite push_upcoming by done. by rewrite U2.
Qed.

(** An integer is read in the current chunk. *)
Lemma read_chunk_UInt32_app s b v rest : currentChunkInputBuffer (chunksCtx (conn s)) = Some b -> Buffer_Inv b -> small b -> upcoming b = le_bytes 4 v ++ rest -> in_u 32 v ->
  exists b', read_chunk_UInt32 s = Ret ((SOPC_STATUS_OK, v), with_conn s (set_ctx (conn s) (set_chunk (chunksCtx (conn s)) (Some b')))) /\
  Buffer_Inv b' /\ small b' /\ upcoming b' = rest.
Proof.
  intros Eb I Sm U R. destruct (upcoming_advance_app b _ _ I U) as [I1 U1]. rewrite zlen_le_bytes in I1, U1. exists (advance b 4). split; [|done].
  unfold read_chunk_UInt32. rewrite bind_get_ctx, Eb. destruct (UInt32_Read_block nested b 0 I Sm) as (v' & ->). rewrite U, zlen_app, zlen_le_bytes.
  pose proof (zlen_nonneg rest). rewrite (Zle_imp_le_bool 4 (Z.of_nat 4 + zlen rest)) by lia. rewrite bind_lift. cbn [deref]. rewrite bind_lift.
  rewrite take_app_length' by (by rewrite length_le_bytes). by rewrite le_val_le_bytes, Z.mod_small by done.
Qed.

(** A server that receives without security. *)
Record plain_receiver (channel token : Z) (c : SOPC_SecureConnection) : Prop := {
  pr_server : isServerConnection c = true;
  pr_config : exists scConfig, SOPC_Toolkit_GetSecureChannelConfig c = Some scConfig /\ msgSecurityMode scConfig = OpcUa_MessageSecurityMode_None;
  pr_channel : secureChannelId (currentSecurityToken c) = channel;
  pr_token : tokenId (currentSecurityToken c) = token;
  pr_valid : SC_Chunks_IsSecuTokenValid true (currentSecurityToken c) = true;
  pr_channel_range : in_u 32 channel;
  pr_token_range : in_u 32 token
}.

(** The state after the headers of a chunk. *)
Definition secured_state (s : chunk_state) (b : SOPC_Buffer) (sn i : Z) : chunk_state :=
  let c := conn s in
  with_conn s (set_ctx (set_sequence (set_channel c (clientSecureChannelId c) true) sn (sentRequestIds (tcpSeqProperties c)))
                 (set_request_id (set_chunk (chunksCtx c) (Some b)) true i)).

(** The chunk is part of the current message, or of a new one. *)
Definition expects (x : SOPC_SecureConnection_ChunkMgrCtx) (i : Z) : Prop := hasCurrentMsgRequestId x = true -> currentMsgRequestId x = i.

Lemma symmetric_header_plain s b channel token rest : plain_receiver channel token (conn s) -> currentChunkInputBuffer (chunksCtx (conn s)) = Some b -> Buffer_Inv b -> small b ->
  upcoming b = le_bytes 4 token ++ rest -> exists b',
  check_security_header false s = Ret ((true, false, false, false),
    with_conn s (set_channel (set_ctx (conn s) (set_chunk (chunksCtx (conn s)) (Some b'))) (clientSecureChannelId (conn s)) true)) /\ Buffer_Inv b' /\ small b' /\ upcoming b' = rest.
Proof.
  intros [Sv (cc & Ec & Em) Ch Tk Va Rc Rt] Eb I Sm U. destruct (read_chunk_UInt32_app s b token rest Eb I Sm U Rt) as (b' & E & I' & S' & U'). exists b'. split; [|done].
  unfold check_security_header. rewrite bind_get, Ec. unfold SC_Chunks_CheckSymmetricSecurityHeader. rewrite bind_bind, bind_get_ctx, Eb. cbn [is_null negb].
  rewrite bind_bind, (bind_ret_eq _ _ _ _ _ E), bind_bind, bind_get. cbv zeta. cbn [is_ok negb]. change (tokenId (currentSecurityToken (conn (with_conn s (set_ctx (conn s) ?x))))) with (tokenId (currentSecurityToken (conn s))).
  rewrite Tk, Z.eqb_refl. change (isServerConnection (conn (with_conn s (set_ctx (conn s) ?x)))) with (isServerConnection (conn s)).
  change (currentSecurityToken (conn (with_conn s (set_ctx (conn s) ?x)))) with (currentSecurityToken (conn s)). rewrite Sv, Va, Em.
  change (serverNewSecuTokenActive (conn (with_conn s (set_ctx (conn s) ?x)))) with (serverNewSecuTokenActive (conn s)).
  destruct (serverNewSecuTokenActive (conn s)) eqn:Ea; cbn [andb negb].
  - rewrite bind_bind, !bind_ret. cbn [SC_Chunks_IsMsgEncrypted SC_Chunks_IsMsgSigned]. rewrite bind_lift. unfold mret, with_conn. do 3 f_equal. unfold set_channel, set_serverNewSecuTokenActive, set_clientSecureChannelId, set_ctx. cbn. by rewrite Ea.
  - rewrite bind_bind. rewrite (bind_ret_eq (set_conn _) _ _ tt (with_conn s (set_channel (set_ctx (conn s) (set_chunk (chunksCtx (conn s)) (Some b'))) (clientSecureChannelId (conn s)) true))) by done.
    rewrite bind_ret. cbn [SC_Chunks_IsMsgEncrypted SC_Chunks_IsMsgSigned]. by rewrite bind_lift.
Qed.

Lemma treat_secured_plain s b channel token sn i r body : plain_receiver channel token (conn s) -> currentChunkInputBuffer (chunksCtx (conn s)) = Some b -> Buffer_Inv b -> small b ->
  upcoming b = chunk_payload channel token sn i body -> in_u 32 sn -> in_u 32 i -> check_sequence_number false (lastSN s) sn = (true, sn) -> expects (chunksCtx (conn s)) i -> exists b',
  treat_secured false r s = Ret ((true, i, false), secured_state s b' sn i) /\ Buffer_Inv b' /\ small b' /\ upcoming b' = body.
Proof.
  intros PR Eb I Sm U Rs Ri Sq Ex. unfold chunk_payload in U. pose proof PR as [Sv _ Ch Tk _ Rc _]. unfold treat_secured.
  destruct (read_chunk_UInt32_app s b channel _ Eb I Sm U Rc) as (b1 & E1 & I1 & S1 & U1). set (s1 := with_conn s _) in E1.
  rewrite (bind_ret_eq _ _ _ true s1).
  2:{ unfold check_channel_id. rewrite (bind_ret_eq _ _ _ _ _ E1). cbn [is_ok negb]. rewrite bind_get. cbv zeta. cbn [andb]. change (currentSecurityToken (conn s1)) with (currentSecurityToken (conn s)).
      by rewrite Ch, Z.eqb_refl. }
  cbn [negb]. assert (plain_receiver channel token (conn s1)) as PR1 by (destruct PR; by split).
  destruct (symmetric_header_plain s1 b1 channel token _ PR1 eq_refl I1 S1 U1) as (b2 & E2 & I2 & S2 & U2). rewrite (bind_ret_eq _ _ _ _ _ E2). set (s2 := with_conn s1 _). cbn [negb].
  do 3 (rewrite bind_ret; cbn [negb]). unfold SC_Chunks_CheckSequenceHeaderSN. rewrite bind_bind, bind_get_ctx. change (currentChunkInputBuffer (chunksCtx (conn s2))) with (Some b2). cbn [is_null negb].
  destruct (read_chunk_UInt32_app s2 b2 sn _ eq_refl I2 S2 U2 Rs) as (b3 & E3 & I3 & S3 & U3). set (s3 := with_conn s2 _) in E3. rewrite bind_bind, (bind_ret_eq _ _ _ _ _ E3). cbn [is_ok].
  unfold SC_Chunks_CheckSeqNumReceived. rewrite bind_bind, bind_get. change (lastSNreceived (tcpSeqProperties (conn s3))) with (lastSN s). rewrite Sq. cbv iota beta.
  set (s4 := with_conn s3 (set_sequence (conn s3) sn (sentRequestIds (tcpSeqProperties (conn s3))))). rewrite bind_bind, (bind_ret_eq (set_conn _) _ _ tt s4) by done. rewrite bind_ret. cbn [negb].
  rewrite bind_get. change (isServerConnection (conn s4)) with (isServerConnection (conn s)). rewrite Sv. cbn [negb].
  unfold SC_Chunks_CheckSequenceHeaderRequestId. rewrite bind_bind, bind_get_ctx. change (currentChunkInputBuffer (chunksCtx (conn s4))) with (Some b3). cbn [is_null negb].
  destruct (read_chunk_UInt32_app s4 b3 i _ eq_refl I3 S3 U3 Ri) as (b4 & E4 & I4 & S4 & U4). set (s5 := with_conn s4 _) in E4. rewrite bind_bind, (bind_ret_eq _ _ _ _ _ E4). cbn [is_ok negb].
  rewrite bind_bind, bind_get_ctx. change (hasCurrentMsgRequestId (chunksCtx (conn s5))) with (hasCurrentMsgRequestId (chunksCtx (conn s))).
  change (currentMsgRequestId (chunksCtx (conn s5))) with (currentMsgRequestId (chunksCtx (conn s))). unfold expects in Ex.
  assert (hasCurrentMsgRequestId (chunksCtx (conn s)) && negb (i =? currentMsgRequestId (chunksCtx (conn s))) = false) as ->.
  { destruct (hasCurrentMsgRequestId _); [|done]. rewrite Ex by done. by rewrite Z.eqb_refl. }
  cbv iota. rewrite bind_bind, bind_ret. exists b4. split; [|done]. reflexivity.
Qed.

(** *** A chunk of a message *)

Lemma inv_update_ctx (I : SOPC_SecureConnection -> Prop) f : (forall c, I c -> I (set_ctx c (f (chunksCtx c)))) -> conn_inv I (update_ctx f).
Proof. intros F s a s' P E. unfold update_ctx in E. rewrite bind_get in E. injection E as _ <-. by apply F. Qed.

Definition keeps (i : Z) (c : SOPC_SecureConnection) : Prop := hasCurrentMsgRequestId (chunksCtx c) = true /\ currentMsgRequestId (chunksCtx c) = i.
Definition final_msg (c : SOPC_SecureConnection) : Prop := currentMsgType (chunksCtx c) = SOPC_MSG_TYPE_SC_MSG /\ currentMsgIsFinal (chunksCtx c) = SOPC_MSG_ISFINAL_FINAL.

Lemma keeps_get_ctx I : conn_inv I get_ctx.
Proof. intros s a s' P E. unfold get_ctx in E. rewrite bind_get in E. by injection E as _ <-. Qed.

Lemma keeps_multi i : conn_inv (keeps i) SC_Chunks_TreatMsgMultiChunks.
Proof.
  assert (forall f, (forall x, hasCurrentMsgRequestId (f x) = hasCurrentMsgRequestId x /\ currentMsgRequestId (f x) = currentMsgRequestId x) -> conn_inv (keeps i) (update_ctx f)) as U.
  { intros f F. apply inv_update_ctx. intros c [K1 K2]. unfold keeps. cbn. destruct (F (chunksCtx c)) as [-> ->]. done. }
  unfold SC_Chunks_TreatMsgMultiChunks, total_body_size, merge_final_chunk, SOPC_ScInternalContext_AddIntermediateInputChunk, SOPC_ScInternalContext_ClearIntermediateInputChunks,
    SOPC_ScInternalContext_ClearCurrentInputChunkContext, SOPC_ScInternalContext_GetNbIntermediateInputChunks.
  pose proof (keeps_get_ctx (keeps i)). inv_run; auto with inv.
Qed.

Lemma final_multi s ok s' : final_msg (conn s) -> SC_Chunks_TreatMsgMultiChunks s = Ret (ok, s') -> final_msg (conn s').
Proof.
  intros F. pose proof F as [Ft Ff]. unfold SC_Chunks_TreatMsgMultiChunks. rewrite bind_get. cbv zeta. rewrite Ff. rewrite bool_decide_true by done. rewrite bind_ret. cbv iota beta. cbn [andb].
  assert (forall f, (forall x, currentMsgType (f x) = currentMsgType x /\ currentMsgIsFinal (f x) = currentMsgIsFinal x) -> conn_inv final_msg (update_ctx f)) as U.
  { intros f G. apply inv_update_ctx. intros c [K1 K2]. unfold final_msg. cbn. destruct (G (chunksCtx c)) as [-> ->]. done. }
  pose proof (keeps_get_ctx final_msg) as Gc. set (max := receiveMaxMessageSize _).
  match goal with |- ?m s = _ -> _ => assert (conn_inv final_msg m) as Cv end; [|intros E; by eapply Cv].
  unfold total_body_size, merge_final_chunk, SOPC_ScInternalContext_GetNbIntermediateInputChunks. inv_run; auto with inv.
Qed.

(** The state between the chunks of a message, after the chunks whose bodies are [bs]. *)
Record between (channel token i : Z) (bs : list block) (s : chunk_state) : Prop := {
  bt_receiver : plain_receiver channel token (conn s);
  bt_idle : idle (conn s);
  bt_holds : holds s bs;
  bt_message : currentMessageInputBuffer (chunksCtx (conn s)) = NULL;
  bt_expects : expects (chunksCtx (conn s)) i
}.

(** The limits of the receiver allow [n] more chunks and [size] more bytes, in chunks of at most [m] bytes. *)
Record admits (p : SOPC_SecureConnection_TcpProperties) (bs : list block) (n m size : Z) : Prop := {
  ad_buffer : 24 + m <= receiveBufferSize p <= 2 ^ 31;
  ad_size : total bs + size <= receiveMaxMessageSize p;
  ad_small : total bs + size < 2 ^ 32;
  ad_count : receiveMaxChunkCount p = 0 \/ zlen bs + n <= receiveMaxChunkCount p;
  ad_range : in_u 32 (receiveMaxChunkCount p);
  ad_number : zlen bs + n < 2 ^ 32
}.

(** What the payload of a chunk becomes. *)
Lemma payload_plain_msg s b channel token sn i r bs body : plain_receiver channel token (conn s) -> currentChunkInputBuffer (chunksCtx (conn s)) = Some b -> Buffer_Inv b -> small b ->
  upcoming b = chunk_payload channel token sn i body -> in_u 32 sn -> in_u 32 i -> check_sequence_number false (lastSN s) sn = (true, sn) -> expects (chunksCtx (conn s)) i ->
  currentMsgType (chunksCtx (conn s)) = SOPC_MSG_TYPE_SC_MSG -> holds s bs -> admits (tcpMsgProperties (conn s)) bs 1 0 (zlen body) -> exists b',
  let s2 := secured_state s b' sn i in upcoming b' = body /\
  SC_Chunks_TreatTcpPayload r s = (let! result := SC_Chunks_TreatMsgMultiChunks in mret (result, i, false)) s2 /\
  implements s2 (SC_Chunks_TreatMsgMultiChunks s2)
    (chunk_spec (currentMsgIsFinal (chunksCtx (conn s))) (receiveMaxMessageSize (tcpMsgProperties (conn s))) (full s bs) bs body).
Proof.
  intros PR Eb I Sm U Rs Ri Sq Ex Et Hb [A1 A2 A3 A4 A5 A6]. destruct (treat_secured_plain s b channel token sn i r body PR Eb I Sm U Rs Ri Sq Ex) as (b' & E & I' & S' & U').
  exists b'. intros s2. split; [done|]. split.
  - unfold SC_Chunks_TreatTcpPayload. rewrite bind_get. unfold expected_headers. rewrite Et. rewrite bind_lift. cbn [negb orb]. rewrite (bind_ret_eq _ _ _ _ _ E). cbn [negb].
    rewrite bind_get_ctx. fold s2. change (currentMsgType (chunksCtx (conn s2))) with (currentMsgType (chunksCtx (conn s))). rewrite Et. by rewrite bool_decide_true.
  - rewrite <- U'. apply (multi_chunks_refine served s2 b' bs); rewrite ?U'; done || lia.
Qed.

(** A chunk that is complete, in a state where its message is expected. *)
Record chunk_ready (channel token sn i : Z) (bs : list block) (body : block) (g : SOPC_Msg_IsFinal) (s : chunk_state) : Prop := {
  cr_receiver : plain_receiver channel token (conn s);
  cr_chunk : exists b, currentChunkInputBuffer (chunksCtx (conn s)) = Some b /\ Buffer_Inv b /\ small b /\ upcoming b = chunk_payload channel token sn i body;
  cr_type : currentMsgType (chunksCtx (conn s)) = SOPC_MSG_TYPE_SC_MSG;
  cr_final : currentMsgIsFinal (chunksCtx (conn s)) = g;
  cr_holds : holds s bs;
  cr_message : currentMessageInputBuffer (chunksCtx (conn s)) = NULL;
  cr_expects : expects (chunksCtx (conn s)) i;
  cr_number : check_sequence_number false (lastSN s) sn = (true, sn);
  cr_sn : in_u 32 sn;
  cr_id : in_u 32 i
}.

Lemma receiver_ctx channel token c c' : plain_receiver channel token c -> isServerConnection c' = isServerConnection c -> endpointConnectionConfigIdx c' = endpointConnectionConfigIdx c ->
  currentSecurityToken c' = currentSecurityToken c -> plain_receiver channel token c'.
Proof.
  intros [A (cc & E & B) D F G J K] E1 E2 E3. split; rewrite ?E1, ?E2, ?E3; try done. exists cc. split; [|done]. unfold SOPC_Toolkit_GetSecureChannelConfig in *. by rewrite E1, E2.
Qed.

Lemma CheckMultiChunkContext_ok s bs g : holds s bs -> currentMsgIsFinal (chunksCtx (conn s)) = g ->
  (g = SOPC_MSG_ISFINAL_INTERMEDIATE -> let max := receiveMaxChunkCount (tcpMsgProperties (conn s)) in max = 0 \/ zlen bs + 1 < max) -> zlen bs + 1 < 2 ^ 32 ->
  SC_Chunks_CheckMultiChunkContext s = Ret (true, s).
Proof.
  intros Hb Eg C L. unfold SC_Chunks_CheckMultiChunkContext. rewrite bind_get, (bind_ret_eq _ _ _ _ _ (GetNb_spec s bs Hb)). cbv zeta. rewrite Eg. pose proof (zlen_nonneg bs). rewrite u32_small by lia.
  destruct (bool_decide (g = SOPC_MSG_ISFINAL_INTERMEDIATE)) eqn:B; [|done]. apply bool_decide_eq_true in B. cbn [andb]. destruct (C B) as [-> | M]; [done|].
  replace (_ <=? zlen bs + 1) with false by lia. by rewrite andb_false_r.
Qed.

Lemma treat_intermediate r s channel token sn i bs body : chunk_ready channel token sn i bs body SOPC_MSG_ISFINAL_INTERMEDIATE s -> admits (tcpMsgProperties (conn s)) bs 2 0 (zlen body) -> exists s',
  treat_chunk r s = Ret ((true, i), s') /\ between channel token i (bs ++ [body]) s' /\ lastSN s' = sn /\ trace s' = trace s /\ tcpMsgProperties (conn s') = tcpMsgProperties (conn s).
Proof.
  intros [PR (b & Eb & I & Sm & U) Et Ef Hb Em Ex Sq Rs Ri] Ad. pose proof Ad as [A1 A2 A3 A4 A5 A6].
  destruct (payload_plain_msg s b channel token sn i r bs body) as (b' & U' & E & Im); try done; [split; try done; lia|].
  unfold treat_chunk. rewrite (bind_ret_eq _ _ _ _ _ (CheckMultiChunkContext_ok s bs _ Hb Ef ltac:(intros _; cbv zeta; lia) ltac:(lia))). set (s2 := secured_state s b' sn i) in *.
  rewrite Ef in Im. cbn [chunk_spec] in Im. replace (receiveMaxMessageSize _ <? _) with false in Im by lia.
  assert (full s bs = false) as Fu by (unfold full; destruct A4 as [-> |A4]; [done|]; replace (_ <=? zlen bs) with false by lia; by rewrite andb_false_r). rewrite Fu in Im.
  destruct Im as (s3 & E3 & Hh & Id & Ee & Em3 & (F1 & F2 & F3)). pose proof (keeps_multi i s2 true s3 ltac:(by split) E3) as [K1 K2].
  rewrite (bind_ret_eq _ _ _ (true, i, false) s3) by (rewrite E, (bind_ret_eq _ _ _ _ _ E3); done). cbn [negb]. rewrite bind_get_ctx.
  pose proof Id as [Ic Nh]. rewrite Ic. cbn [is_null]. rewrite (bind_ret_eq _ _ _ tt s3).
  2:{ unfold deliver_message. rewrite bind_get_ctx, Em3. change (currentMessageInputBuffer (chunksCtx (conn s2))) with (currentMessageInputBuffer (chunksCtx (conn s))). by rewrite Em. }
  exists s3. split; [done|]. split; [|split; [unfold lastSN; by rewrite F1|split; [by rewrite F3|by rewrite F1]]].
  split; [apply (receiver_ctx channel token (conn s)); [done|by rewrite F1..]|done|done|by rewrite Em3|by intros _].
Qed.

(** The message is given to the state machine, and the context is cleared. *)
Lemma deliver_final s m i : currentMessageInputBuffer (chunksCtx (conn s)) = Some m -> final_msg (conn s) -> holds s [] -> exists s',
  deliver_message i false s = Ret (tt, s') /\ trace s' = EnqueueEvent false INT_SC_RCV_MSG_CHUNKS (Some m) i :: trace s /\ idle (conn s') /\ holds s' [] /\
  currentMessageInputBuffer (chunksCtx (conn s')) = NULL /\ hasCurrentMsgRequestId (chunksCtx (conn s')) = false /\ conn s' = set_ctx (conn s) (chunksCtx (conn s')).
Proof.
  intros Em [Ft Ff] Hb. unfold deliver_message. rewrite bind_get_ctx, Em, Ft, Ff. cbn [negb SC_Chunks_MsgTypeToRcvEvent]. rewrite bool_decide_false by done. rewrite bind_bind, bind_lift. cbv zeta.
  set (s1 := mkState (conn s) (errorStatus s) (chunk_cells s) (request_cells s) (EnqueueEvent false INT_SC_RCV_MSG_CHUNKS (Some m) i :: trace s)).
  rewrite (bind_ret_eq (emit _) _ _ tt s1) by done. set (s2 := with_conn s1 (set_ctx (conn s1) (set_message (chunksCtx (conn s1)) NULL))).
  rewrite (bind_ret_eq (update_ctx _) _ _ tt s2) by done. unfold SOPC_ScInternalContext_ClearInputChunksContext.
  destruct (Clear_holds s2 []) as (s3 & E3 & (F1 & F2 & F3) & Hh & Ex & _); [exact Hb|]. rewrite (bind_ret_eq _ _ _ _ _ E3).
  eexists. split; [reflexivity|]. cbn. rewrite F1, F3. split_and!; try done.
  unfold holds. cbn. by rewrite Ex.
Qed.

Lemma treat_final r s channel token sn i bs body : chunk_ready channel token sn i bs body SOPC_MSG_ISFINAL_FINAL s -> admits (tcpMsgProperties (conn s)) bs 1 0 (zlen body) ->
  bs = [] \/ 0 < total bs + zlen body -> exists s' m,
  treat_chunk r s = Ret ((true, i), s') /\ trace s' = EnqueueEvent false INT_SC_RCV_MSG_CHUNKS (Some m) i :: trace s /\ upcoming m = mjoin bs ++ body /\ Buffer_Inv m /\
  between channel token i [] s' /\ lastSN s' = sn.
Proof.
  intros [PR (b & Eb & I & Sm & U) Et Ef Hb Em Ex Sq Rs Ri] Ad Pos. pose proof Ad as [A1 A2 A3 A4 A5 A6].
  destruct (payload_plain_msg s b channel token sn i r bs body) as (b' & U' & E & Im); try done.
  unfold treat_chunk. rewrite (bind_ret_eq _ _ _ _ _ (CheckMultiChunkContext_ok s bs _ Hb Ef ltac:(done) ltac:(lia))). set (s2 := secured_state s b' sn i) in *.
  rewrite Ef in Im. cbn [chunk_spec] in Im. replace (receiveMaxMessageSize _ <? _) with false in Im by lia.
  assert (bool_decide (bs = []) || (0 <? total bs + zlen body) = true) as Ep.
  { destruct Pos as [-> |Pos]; [done|]. replace (0 <? total bs + zlen body) with true by lia. by rewrite orb_true_r. }
  rewrite Ep in Im. destruct Im as (s3 & m & E3 & Em3 & Um & Imv & Ec & Hh & Ee & (F1 & F2 & F3)).
  pose proof (final_multi s2 true s3 ltac:(by split) E3) as Fin. rewrite (bind_ret_eq _ _ _ (true, i, false) s3) by (rewrite E, (bind_ret_eq _ _ _ _ _ E3); done).
  cbn [negb]. rewrite bind_get_ctx, Ec. cbn [is_null]. destruct (deliver_final s3 m i Em3 Fin Hh) as (s4 & E4 & T4 & I4 & H4' & M4 & R4 & C4).
  rewrite (bind_ret_eq _ _ _ _ _ E4). exists s4, m. split; [done|]. split; [by rewrite T4, F3|]. split; [done|]. split; [done|]. split.
  - split; [apply (receiver_ctx channel token (conn s)); [done|by rewrite C4, F1..]|done|done|done|]. intros K. congruence.
  - unfold lastSN. rewrite C4, F1. done.
Qed.

(** *** The chunks of a message *)

Lemma chunk_ready_decoded s channel token sn i bs body f g rest r fuel : between channel token i bs s -> 24 + zlen body <= receiveBufferSize (tcpMsgProperties (conn s)) <= 2 ^ 31 ->
  is_final f = g -> g <> SOPC_MSG_ISFINAL_INVALID -> check_sequence_number false (lastSN s) sn = (true, sn) -> in_u 32 sn -> in_u 32 i -> exists sd,
  chunk_ready channel token sn i bs body g sd /\ lastSN sd = lastSN s /\ trace sd = trace s /\ tcpMsgProperties (conn sd) = tcpMsgProperties (conn s) /\
  treat_bytes (S fuel) (chunk_bytes SOPC_MSG f channel token sn i body ++ rest) r s =
    (let! (result, r) := treat_chunk r in if negb result then mret false else treat_bytes fuel rest r) sd.
Proof.
  intros [PR Id Hb Em Ex] L Eg Ng Sq Rs Ri. destruct (decode_chunk (conn s) f g channel token sn i body rest Id L Eg Ng) as (b & E & I & Sm & U).
  set (x := set_header _ _ _ _) in E. exists (decoded_state s x SOPC_GoodGenericStatus). split; [|split; [done|split; [done|split; [done|]]]].
  - split; try done; [by apply (receiver_ctx channel token (conn s))|by exists b].
  - rewrite (treat_bytes_cons fuel _ r s true SOPC_GoodGenericStatus x (24 + zlen body)); [|by destruct f|exact E]. cbn [negb].
    assert (drop (Z.to_nat (24 + zlen body)) (chunk_bytes SOPC_MSG f channel token sn i body ++ rest) = rest) as ->; [|done].
    apply drop_app_length'. pose proof (zlen_chunk f channel token sn i body). unfold zlen in *. lia.
Qed.

Lemma next_number_accepted sn : in_u 32 sn -> check_sequence_number false sn (next_sequence_number sn) = (true, next_sequence_number sn).
Proof.
  intros R. unfold check_sequence_number, next_sequence_number, UINT32_MAX, in_u in *. destruct (Z.ltb_spec (4294967295 - 1024) sn) as [B|B].
  - cbn [andb]. destruct (Z.eqb_spec (u32 (sn + 1)) 1) as [E|E]; cbn [negb]; [by rewrite E|done].
  - by rewrite Z.eqb_refl.
Qed.

Lemma receive_chunks channel token i m n : in_u 32 i -> forall s k bs body r fuel,
  between channel token i bs s -> lastSN s = k -> in_u 32 k -> admits (tcpMsgProperties (conn s)) bs (Z.of_nat (S n)) (Z.of_nat m) (zlen body) -> (length body <= S n * m)%nat ->
  (n = O /\ bs = []) \/ 0 < total bs + zlen body -> (S n <= fuel)%nat -> exists s' msg,
  treat_bytes fuel (mjoin (sent_chunks (S n) m SOPC_MSG channel token k i body)) r s = Ret (true, s') /\
  trace s' = EnqueueEvent false INT_SC_RCV_MSG_CHUNKS (Some msg) i :: trace s /\ upcoming msg = mjoin bs ++ body /\ Buffer_Inv msg /\ idle (conn s').
Proof.
  intros Ri. induction n as [|n IH]; intros s k bs body r fuel Bt Es Rsn Ad Lb Pos Fl; destruct fuel as [|fuel]; [lia| |lia|]; pose proof Ad as [A1 A2 A3 A4 A5 A6].
  all: pose proof (next_sequence_number_range k Rsn) as Rn; set (k' := next_sequence_number k) in *; assert (check_sequence_number false (lastSN s) k' = (true, k')) as Sq by (rewrite Es; by apply next_number_accepted).
  - change (mjoin (sent_chunks 1 m SOPC_MSG channel token k i body)) with (chunk_bytes SOPC_MSG SOPC_UA_FINAL_CHUNK channel token k' i body ++ []).
    destruct (chunk_ready_decoded s channel token k' i bs body SOPC_UA_FINAL_CHUNK SOPC_MSG_ISFINAL_FINAL [] r fuel Bt) as (sd & Cr & Ls & Ts & Tc & E); try done; [unfold zlen; lia|unfold in_u; lia|].
    rewrite E. destruct (treat_final r sd channel token k' i bs body Cr) as (s' & msg & E' & T' & U' & I' & B' & _); [rewrite Tc; split; try done; lia|by destruct Pos as [[_ ?]|?]; [left|right]|].
    rewrite (bind_ret_eq _ _ _ _ _ E'). cbn [negb]. exists s', msg. split; [by destruct fuel|]. split; [by rewrite T', Ts|]. split; [done|]. split; [done|apply B'].
  - assert (length (take m body) <= m)%nat as Lt by (rewrite length_take; lia). assert (zlen (take m body) + zlen (drop m body) = zlen body) as Lz by (rewrite <- zlen_app, take_drop; done).
    change (mjoin (sent_chunks (S (S n)) m SOPC_MSG channel token k i body)) with
      (chunk_bytes SOPC_MSG SOPC_UA_INTERMEDIATE_CHUNK channel token k' i (take m body) ++ mjoin (sent_chunks (S n) m SOPC_MSG channel token k' i (drop m body))).
    destruct (chunk_ready_decoded s channel token k' i bs (take m body) SOPC_UA_INTERMEDIATE_CHUNK SOPC_MSG_ISFINAL_INTERMEDIATE (mjoin (sent_chunks (S n) m SOPC_MSG channel token k' i (drop m body))) r fuel Bt)
      as (sd & Cr & Ls & Ts & Tc & E); try done; [unfold zlen; lia|unfold in_u; lia|]. rewrite E. pose proof (zlen_nonneg (drop m body)).
    destruct (treat_intermediate r sd channel token k' i bs (take m body) Cr) as (s' & E' & B' & L' & T' & C'); [rewrite Tc; split; try done; lia|].
    rewrite (bind_ret_eq _ _ _ _ _ E'). cbn [negb]. assert (total (bs ++ [take m body]) = total bs + zlen (take m body)) as Tt.
    { unfold total. rewrite join_app, zlen_app. cbn. by rewrite app_nil_r. }
    destruct (IH s' k' (bs ++ [take m body]) (drop m body) i fuel B' L') as (s2 & msg & E2 & T2 & U2 & I2 & Id2).
    + unfold in_u; lia.
    + rewrite C', Tc. split; rewrite ?Tt, ?zlen_app; change (zlen [take m body]) with 1; try done; try lia.
    + rewrite length_drop. lia.
    + right. rewrite Tt. destruct Pos as [[? _]|?]; [done|lia].
    + lia.
    + exists s2, msg. split; [exact E2|]. split; [by rewrite T2, T', Ts|]. split; [|done]. rewrite U2, join_app. cbn. by rewrite app_nil_r, <- app_assoc, take_drop.
Qed.

End Reception.

Section Exchange.
Context `{Allocator} `{Host} `{EndiannessCfg} {cfg : SOPC_Common_EncodingConstants} `{Crypto} `{!SendCrypto} `{!Toolkit} `{!EndiannessDetected}.
Hypothesis nested : 0 < max_nested_struct cfg.
Hypothesis served : forall n, alloc_ok n = true.

(** C2: a message that a client sends on a channel without security (mode None) is received
    by the server, also without security: when the bytes written to the socket arrive, one
    message is given to the state machine of the server, with the identifier of the request
    and exactly the body that was sent, provided that the limits of both sides allow the
    message and that memory is served.  Signed and encrypted channels are not covered. *)
Theorem exchange (idx r : Z) (b : SOPC_Buffer) (s t : chunk_state) (token : Z) :
  let c := conn s in
  let m := symmSecuMaxBodySize c in
  let body := drop 24 (content b) in
  let i := request_id c r in
  Buffer_Inv b -> small b -> SOPC_UA_SYMMETRIC_SECURE_MESSAGE_HEADERS_LENGTH <= length_ b ->
  plain_sender token c -> can_record s -> in_u 32 r -> sendable c SOPC_MSG_TYPE_SC_MSG (zlen body) = true ->
  between (secureChannelId (currentSecurityToken c)) token i [] t -> lastSN t = lastSNsent (tcpSeqProperties c) ->
  admits (tcpMsgProperties (conn t)) [] (chunks_needed m (zlen body)) m (zlen body) ->
  exists s' chunks, SC_Chunks_TreatSendMessageBuffer idx r SOPC_MSG_TYPE_SC_MSG false false (Some b) s = Ret ((true, true), s') /\
    socket_writes (trace s') = reverse chunks ++ socket_writes (trace s) /\
    forall rb, Buffer_Inv rb -> position rb = 0 -> upcoming rb = mjoin chunks -> exists t' msg,
      SC_Chunks_TreatReceivedBuffer rb t = Ret (tt, t') /\
      trace t' = EnqueueEvent false INT_SC_RCV_MSG_CHUNKS (Some msg) i :: trace t /\ upcoming msg = body /\ idle (conn t').
Proof.
  intros c m body i I Sm Lb PS CR Rr Snd Bt Sn Ad. pose proof (content_headers b I Lb) as [_ Lbody]. fold body in Lbody.
  destruct (send_message_plain nested served idx r SOPC_MSG_TYPE_SC_MSG SOPC_MSG (set_position b 0) s token) as (s' & mb & E & W); try done; [by left|by apply rewind_inv|].
  change (content (set_position b 0)) with (content b) in W. fold c m body i in W.
  pose proof PS as [_ _ Rg _ Pm Bm]. change SOPC_UA_SYMMETRIC_SECURE_MESSAGE_HEADERS_LENGTH with 24 in *. fold m in Pm, Bm.
  assert (0 <= zlen body < 2 ^ 32) as Rb by (destruct I; lia). pose proof (chunks_needed_range m (zlen body) Pm Rb) as [Rk Lk]. set (k := chunks_needed m (zlen body)) in *.
  eexists s', _. split; [eapply TreatSendMessageBuffer_sent; [by left|done|exact E]|]. split; [exact W|]. intros rb Ir Pr Ur. destruct (Z.to_nat k) as [|n] eqn:En; [lia|].
  assert (in_u 32 i) as Ri.
  { unfold i, request_id. pose proof (client_request_id_range _ true (rg_id _ Rg)) as [? _]. destruct (isServerConnection c); [done|]. unfold in_u; lia. }
  pose proof Ad as [A1 A2 A3 A4 A5 A6].
  destruct (receive_chunks nested served (secureChannelId (currentSecurityToken c)) token i (Z.to_nat m) n Ri (with_error t SOPC_GoodGenericStatus) (lastSNsent (tcpSeqProperties c)) [] body 0 (length (upcoming rb)))
    as (t' & msg & Et & Tt & Um & _ & Id).
  - destruct Bt. by split.
  - done.
  - apply (rg_sn _ Rg).
  - change (tcpMsgProperties (conn (with_error t SOPC_GoodGenericStatus))) with (tcpMsgProperties (conn t)). rewrite <- En, !Z2Nat.id by lia. done.
  - unfold zlen in *. nia.
  - destruct (decide (n = O)) as [->|Nn]; [by left|right]. unfold total. cbn. unfold k, chunks_needed in En. change (zlen (@nil byte)) with 0. destruct (Z.leb_spec (zlen body) m); [cbn in En; lia|lia].
  - rewrite Ur. clear -n. generalize (lastSNsent (tcpSeqProperties c)) body. induction n as [|n IH]; intros l bd.
    + cbn. lia.
    + specialize (IH (next_sequence_number l) (drop (Z.to_nat m) bd)).
      change (mjoin (sent_chunks (S (S n)) ?a ?x ?d ?e l ?g bd)) with
        (chunk_bytes x SOPC_UA_INTERMEDIATE_CHUNK d e (next_sequence_number l) g (take a bd) ++ mjoin (sent_chunks (S n) a x d e (next_sequence_number l) g (drop a bd))).
      rewrite length_app. change (length (chunk_bytes SOPC_MSG _ _ _ _ _ _)) with (S (length (drop 1 (chunk_bytes SOPC_MSG SOPC_UA_INTERMEDIATE_CHUNK (secureChannelId (currentSecurityToken c)) token (next_sequence_number l) i (take (Z.to_nat m) bd))))). lia.
  - exists t', msg. assert (receptive (tcpMsgProperties (conn t)) (conn t)) as Rc by (split; [done|left; apply Bt]).
    rewrite TreatReceivedBuffer_eq by done. rewrite (bind_ret_eq _ _ _ true t').
    + split; [done|]. split; [exact Tt|]. split; [by rewrite Um|done].
    + rewrite (treat_segment_bytes nested served (tcpMsgProperties (conn t))); try done; [|unfold SOPC_TCP_UA_HEADER_LENGTH; lia]. rewrite Ur in *. done.
Qed.

End Exchange.
