(* ===== verification/ChunksFrame.v ===== *)
(** * What the manager of the chunks does not change

    The manager of the chunks changes its own fields of the connection; the state of the
    connection, its tokens, its keys and its configuration are left to the state machine.
    The property is stated for every predicate that the assignments of the manager keep
    ([Kept]), for the two entry points: the bytes that are received, and the messages to
    send. *)

From Stdlib Require Import ZArith Lia.
From Stdlib Require Import Strings.Byte.
From stdpp Require Import prelude gmap.
From S2P Require Import Prelude Common LinkedList Buffer Codec EncScalar EncString SecureConnection ToolkitConfig Chunks ChunksStream ChunksSend.

Open Scope Z_scope.

Section Frame.
Context `{Allocator} `{Host} `{EndiannessCfg} {cfg : SOPC_Common_EncodingConstants} `{Crypto} `{!SendCrypto} `{!Toolkit}.
Context {I : SOPC_SecureConnection -> Prop} `{!Kept I}.

(** ** Reception *)

Lemma kept_treat_received fuel b r : conn_inv I (treat_received fuel b r).
Proof.
  revert b r. induction fuel as [|fuel IH]; intros b r; cbn [treat_received]; pose proof (kept_treat_chunk (I := I)); pose proof (kept_update_ctx (I := I)); inv_run.
Qed.

Lemma kept_OnSocketEvent e b : conn_inv I (SOPC_ChunksMgr_OnSocketEvent e b).
Proof.
  unfold SOPC_ChunksMgr_OnSocketEvent, SC_Chunks_TreatReceivedBuffer.
  pose proof kept_treat_received. pose proof (kept_ClearInput (I := I)). inv_run.
Qed.

(** ** Sending *)

#[local] Hint Extern 1 (I _) => apply kept_set_ctx : inv.
#[local] Hint Extern 1 (I _) => apply kept_set_seq : inv.
#[local] Hint Extern 1 (I _) => apply kept_set_next : inv.
#[local] Hint Extern 1 (I _) => apply kept_set_sizes : inv.
#[local] Hint Extern 1 (I _) => assumption : inv.

Lemma kept_and_true {A} (m : M (bool * A)) k : conn_inv I m -> (forall a, conn_inv I (k a)) -> conn_inv I (and_true m k).
Proof. intros Hm Hk. unfold and_true. apply inv_bind; [done|]. intros [[] a]; [apply Hk|apply inv_ret]. Qed.
Lemma kept_or_error {A} e (m : M (bool * A)) : conn_inv I m -> conn_inv I (or_error e m).
Proof. intros Hm. unfold or_error. apply inv_bind; [done|]. intros [[] a]; inv_run. Qed.
Lemma kept_when_ok {A} (r : res (SOPC_ReturnStatus * A)) : conn_inv I (when_ok r).
Proof. unfold when_ok. inv_run. Qed.
Lemma kept_expect_ok {A} (r : res (SOPC_ReturnStatus * A)) : conn_inv I (expect_ok r).
Proof. unfold expect_ok. inv_run. Qed.
Lemma kept_requests {A} f : conn_inv I (with_requests (A := A) f).
Proof. apply kept_with_requests. Qed.
#[local] Hint Resolve @kept_when_ok @kept_expect_ok @kept_requests : inv.

#[local] Ltac inv_step ::=
  match goal with
  | |- conn_inv _ (mbind get _) => apply inv_get; let s := fresh "s" in let Hs := fresh "Hs" in intros s Hs; cbv beta
  | |- conn_inv _ (mbind _ _) => apply inv_bind; [|intros ?]
  | |- conn_inv _ (and_true _ _) => apply kept_and_true; [|intros ?]
  | |- conn_inv _ (or_error _ _) => apply kept_or_error
  | |- conn_inv _ (set_conn _) => apply inv_set_conn; solve [eauto with inv]
  | |- conn_inv _ (if ?c then _ else _) => destruct c
  | |- conn_inv _ (match ?c with _ => _ end) => destruct c eqn:?
  | |- conn_inv _ _ => solve [eauto with inv]
  end.

Lemma kept_EncodeTcpMsgHeader x0 x1 x2 : conn_inv I (SC_Chunks_EncodeTcpMsgHeader x0 x1 x2).
Proof. unfold SC_Chunks_EncodeTcpMsgHeader. inv_run. Qed.
#[local] Hint Resolve kept_EncodeTcpMsgHeader : inv.
Lemma kept_encode_thumbprint x0 x1 x2 : conn_inv I (encode_thumbprint x0 x1 x2).
Proof. unfold encode_thumbprint. inv_run. Qed.
#[local] Hint Resolve kept_encode_thumbprint : inv.
Lemma kept_encode_null x0 : conn_inv I (encode_null x0).
Proof. unfold encode_null. inv_run. Qed.
#[local] Hint Resolve kept_encode_null : inv.
Lemma kept_EncodeAsymSecurityHeader x0 x1 : conn_inv I (SC_Chunks_EncodeAsymSecurityHeader x0 x1).
Proof. unfold SC_Chunks_EncodeAsymSecurityHeader. inv_run. Qed.
#[local] Hint Resolve kept_EncodeAsymSecurityHeader : inv.
Lemma kept_EncodeScMessageHeaderAdditionalField x0 : conn_inv I (SC_Chunks_EncodeScMessageHeaderAdditionalField x0).
Proof. unfold SC_Chunks_EncodeScMessageHeaderAdditionalField. inv_run. Qed.
#[local] Hint Resolve kept_EncodeScMessageHeaderAdditionalField : inv.
Lemma kept_EncodeSequenceNumber x0 x1 : conn_inv I (SC_Chunks_EncodeSequenceNumber x0 x1).
Proof. unfold SC_Chunks_EncodeSequenceNumber. inv_run. Qed.
#[local] Hint Resolve kept_EncodeSequenceNumber : inv.
Lemma kept_EncodeRequestId x0 x1 x2 : conn_inv I (SC_Chunks_EncodeRequestId x0 x1 x2).
Proof. unfold SC_Chunks_EncodeRequestId. inv_run. Qed.
#[local] Hint Resolve kept_EncodeRequestId : inv.
Lemma kept_CheckMaxSenderCertificateSize x0 x1 x2 x3 x4 x5 x6 : conn_inv I (SC_Chunks_CheckMaxSenderCertificateSize x0 x1 x2 x3 x4 x5 x6).
Proof. unfold SC_Chunks_CheckMaxSenderCertificateSize. inv_run. Qed.
#[local] Hint Resolve kept_CheckMaxSenderCertificateSize : inv.
Lemma kept_write_padding x0 x1 x2 : conn_inv I (write_padding x0 x1 x2).
Proof. unfold write_padding. inv_run. Qed.
#[local] Hint Resolve kept_write_padding : inv.
Lemma kept_EncodePadding x0 x1 x2 x3 : conn_inv I (SOPC_Chunks_EncodePadding x0 x1 x2 x3).
Proof. unfold SOPC_Chunks_EncodePadding. inv_run. Qed.
#[local] Hint Resolve kept_EncodePadding : inv.
Lemma kept_GetSignatureSize_EncodePadding x0 x1 x2 x3 x4 x5 : conn_inv I (SOPC_Chunks_GetSignatureSize_EncodePadding x0 x1 x2 x3 x4 x5).
Proof. unfold SOPC_Chunks_GetSignatureSize_EncodePadding. inv_run. Qed.
#[local] Hint Resolve kept_GetSignatureSize_EncodePadding : inv.
Lemma kept_EncodeMessageSize x0 x1 x2 x3 x4 : conn_inv I (SC_Chunks_EncodeMessageSize x0 x1 x2 x3 x4).
Proof. unfold SC_Chunks_EncodeMessageSize. inv_run. Qed.
#[local] Hint Resolve kept_EncodeMessageSize : inv.
Lemma kept_sign_into x0 x1 x2 : conn_inv I (sign_into x0 x1 x2).
Proof. unfold sign_into. inv_run. Qed.
#[local] Hint Resolve kept_sign_into : inv.
Lemma kept_EncodeSignatureNoError x0 x1 x2 x3 : conn_inv I (SC_Chunks_EncodeSignatureNoError x0 x1 x2 x3).
Proof. unfold SC_Chunks_EncodeSignatureNoError. inv_run. Qed.
#[local] Hint Resolve kept_EncodeSignatureNoError : inv.
Lemma kept_EncodeSignature x0 x1 x2 x3 : conn_inv I (SC_Chunks_EncodeSignature x0 x1 x2 x3).
Proof. unfold SC_Chunks_EncodeSignature. inv_run. Qed.
#[local] Hint Resolve kept_EncodeSignature : inv.
Lemma kept_encrypt_into x0 x1 x2 x3 x4 x5 : conn_inv I (encrypt_into x0 x1 x2 x3 x4 x5).
Proof. unfold encrypt_into. inv_run. Qed.
#[local] Hint Resolve kept_encrypt_into : inv.
Lemma kept_EncryptMsg x0 x1 x2 x3 x4 x5 : conn_inv I (SC_Chunks_EncryptMsg x0 x1 x2 x3 x4 x5).
Proof. unfold SC_Chunks_EncryptMsg. inv_run. Qed.
#[local] Hint Resolve kept_EncryptMsg : inv.
Lemma kept_Encrypt x0 x1 x2 x3 x4 : conn_inv I (SC_Chunks_Encrypt x0 x1 x2 x3 x4).
Proof. unfold SC_Chunks_Encrypt. inv_run. Qed.
#[local] Hint Resolve kept_Encrypt : inv.
Lemma kept_TreatSendBufferTCPonly x0 x1 : conn_inv I (SC_Chunks_TreatSendBufferTCPonly x0 x1).
Proof. unfold SC_Chunks_TreatSendBufferTCPonly. inv_run. Qed.
#[local] Hint Resolve kept_TreatSendBufferTCPonly : inv.
Lemma kept_StartRequestTimeout x0 x1 x2 : conn_inv I (SC_Client_StartRequestTimeout x0 x1 x2).
Proof. unfold SC_Client_StartRequestTimeout. inv_run. Qed.
#[local] Hint Resolve kept_StartRequestTimeout : inv.
Lemma kept_CreateClientSentRequestContext x0 x1 x2 x3 : conn_inv I (SC_Chunks_CreateClientSentRequestContext x0 x1 x2 x3).
Proof. unfold SC_Chunks_CreateClientSentRequestContext. inv_run. Qed.
#[local] Hint Resolve kept_CreateClientSentRequestContext : inv.
Lemma kept_check_asymmetric_body x0 x1 x2 : conn_inv I (check_asymmetric_body x0 x1 x2).
Proof. unfold check_asymmetric_body. inv_run. Qed.
#[local] Hint Resolve kept_check_asymmetric_body : inv.
Lemma kept_append_body x0 x1 : conn_inv I (append_body x0 x1).
Proof. unfold append_body. inv_run. Qed.
#[local] Hint Resolve kept_append_body : inv.
Lemma kept_finish_chunk x0 x1 x2 x3 x4 x5 x6 x7 x8 : conn_inv I (finish_chunk x0 x1 x2 x3 x4 x5 x6 x7 x8).
Proof. unfold finish_chunk. inv_run. Qed.
#[local] Hint Resolve kept_finish_chunk : inv.
Lemma kept_encode_opn_headers x0 x1 x2 : conn_inv I (encode_opn_headers x0 x1 x2).
Proof. unfold encode_opn_headers. inv_run. Qed.
#[local] Hint Resolve kept_encode_opn_headers : inv.
Lemma kept_encode_opn x0 x1 x2 x3 x4 x5 x6 : conn_inv I (encode_opn x0 x1 x2 x3 x4 x5 x6).
Proof. unfold encode_opn. inv_run. Qed.
#[local] Hint Resolve kept_encode_opn : inv.
Lemma kept_TreatSendBufferOPN x0 x1 x2 x3 : conn_inv I (SC_Chunks_TreatSendBufferOPN x0 x1 x2 x3).
Proof. unfold SC_Chunks_TreatSendBufferOPN. inv_run. Qed.
#[local] Hint Resolve kept_TreatSendBufferOPN : inv.
Lemma kept_check_symmetric_body x0 : conn_inv I (check_symmetric_body x0).
Proof. unfold check_symmetric_body. inv_run. Qed.
#[local] Hint Resolve kept_check_symmetric_body : inv.
Lemma kept_encode_symmetric_headers x0 x1 x2 : conn_inv I (encode_symmetric_headers x0 x1 x2).
Proof. unfold encode_symmetric_headers. inv_run. Qed.
#[local] Hint Resolve kept_encode_symmetric_headers : inv.
Lemma kept_encode_symmetric x0 x1 x2 x3 x4 x5 x6 : conn_inv I (encode_symmetric x0 x1 x2 x3 x4 x5 x6).
Proof. unfold encode_symmetric. inv_run. Qed.
#[local] Hint Resolve kept_encode_symmetric : inv.
Lemma kept_TreatSendBufferMSGCLO x0 x1 x2 x3 x4 : conn_inv I (SC_Chunks_TreatSendBufferMSGCLO x0 x1 x2 x3 x4).
Proof. unfold SC_Chunks_TreatSendBufferMSGCLO. inv_run. Qed.
#[local] Hint Resolve kept_TreatSendBufferMSGCLO : inv.
Lemma kept_ComputeNbChunksToSend x0 x1 : conn_inv I (SC_Chunks_ComputeNbChunksToSend x0 x1).
Proof. unfold SC_Chunks_ComputeNbChunksToSend. inv_run. Qed.
#[local] Hint Resolve kept_ComputeNbChunksToSend : inv.
Lemma kept_NextOutputChunkBuffer x0 x1 x2 : conn_inv I (SC_Chunks_NextOutputChunkBuffer x0 x1 x2).
Proof. unfold SC_Chunks_NextOutputChunkBuffer. inv_run. Qed.
#[local] Hint Resolve kept_NextOutputChunkBuffer : inv.
Lemma kept_EncodeAbortMsg x0 x1 x2 : conn_inv I (SC_Chunks_EncodeAbortMsg x0 x1 x2).
Proof. unfold SC_Chunks_EncodeAbortMsg. inv_run. Qed.
#[local] Hint Resolve kept_EncodeAbortMsg : inv.
Lemma kept_socket_write x0 : conn_inv I (socket_write x0).
Proof. unfold socket_write. inv_run. Qed.
#[local] Hint Resolve kept_socket_write : inv.

Lemma kept_send_chunks todo x0 x1 x2 x3 x4 x5 x6 x7 : conn_inv I (send_chunks todo x0 x1 x2 x3 x4 x5 x6 x7).
Proof. revert x4 x5 x6 x7. induction todo as [|todo IH]; intros; cbn [send_chunks]; inv_run. Qed.
#[local] Hint Resolve kept_send_chunks : inv.
Lemma kept_send_message x0 x1 x2 x3 : conn_inv I (send_message x0 x1 x2 x3).
Proof. unfold send_message. inv_run. Qed.
Lemma kept_send_abort x0 x1 x2 x3 x4 : conn_inv I (send_abort x0 x1 x2 x3 x4).
Proof. unfold send_abort. inv_run. Qed.
#[local] Hint Resolve kept_send_message kept_send_abort : inv.
Lemma kept_TreatSendMessageBuffer x0 x1 x2 x3 x4 x5 : conn_inv I (SC_Chunks_TreatSendMessageBuffer x0 x1 x2 x3 x4 x5).
Proof. unfold SC_Chunks_TreatSendMessageBuffer. inv_run. Qed.
#[local] Hint Resolve kept_TreatSendMessageBuffer : inv.
Lemma kept_Dispatcher x0 x1 x2 x3 : conn_inv I (SOPC_ChunksMgr_Dispatcher x0 x1 x2 x3).
Proof. unfold SOPC_ChunksMgr_Dispatcher. inv_run. Qed.

End Frame.
