(* ===== verification/SecureChannels.v ===== *)
(** * Secure channels: state and events

    The data that the managers of the listeners, of the connections and of the chunks
    share ([src/src/ClientServer/secure_channels/sopc_secure_channels_internal_ctx.h] and
    [.c]): the arrays of the connections and of the listeners, the configurations, and the
    queue of the events of their thread ([src/src/Common/helpers/sopc_event_handler.c]).

    A pointer to an entry of an array is its index.  The state is passed by a monad; it
    holds the status that the treatment of an event passes by pointer
    ([*errorStatus]), and the calls to the sockets, the services and the timers.  The
    answers of the clock, the timers and the generator of random numbers are parameters:
    they depend on the number of calls that were made before. *)

From Stdlib Require Import ZArith Lia.
From Stdlib Require Import Strings.Byte.
From stdpp Require Import prelude gmap.
From S2P Require Import Prelude Common LinkedList Buffer Codec EncScalar EncString Strings Arrays SecureConnection ToolkitConfig Chunks ChunksSend.

Open Scope Z_scope.

(** ** Constants and events *)

Definition SOPC_MAX_SOCKETS_CONNECTIONS : Z := 50.

Inductive SOPC_SecureChannels_TimerEvent :=
| TIMER_SC_CONNECTION_TIMEOUT
| TIMER_SC_CLIENT_OPN_RENEW
| TIMER_SC_REQUEST_TIMEOUT.

Inductive SOPC_SecureChannels_InputEvent :=
| EP_OPEN
| EP_CLOSE
| SC_CONNECT
| SC_DISCONNECT
| SC_SERVICE_SND_MSG
| SC_SERVICE_SND_ERR.

Inductive SOPC_SecureChannels_OutputEvent :=
| EP_CONNECTED
| EP_CLOSED
| SC_CONNECTED
| SC_CONNECTION_TIMEOUT
| SC_DISCONNECTED
| SC_SERVICE_RCV_MSG
| SC_SND_FAILURE
| SC_REQUEST_TIMEOUT.

Inductive SOPC_Sockets_InputEvent :=
| SOCKET_CREATE_SERVER
| SOCKET_ACCEPTED_CONNECTION
| SOCKET_CREATE_CLIENT
| SOCKET_CLOSE
| SOCKET_CLOSE_SERVER
| SOCKET_WRITE.

(** What the parameter of an event, a word, stands for. *)
Inductive event_params :=
| NoParams
| BufferParams (buffer : ptr SOPC_Buffer)
| StringParams (s : ptr block)
| NumberParams (n : Z).

(** The handler of an event, with its code. *)
Inductive event_code :=
| OnInternalEvent (event : SOPC_SecureChannels_InternalEvent)
| OnSocketsEvent (event : SOPC_Sockets_OutputEvent)
| OnTimerEvent (event : SOPC_SecureChannels_TimerEvent)
| OnInputEvent (event : SOPC_SecureChannels_InputEvent).

Record Event := mkEvent {
  code : event_code;
  event_id : Z;
  params : event_params;
  auxParam : Z
}.

Definition sizeof_Event : Z := 40.

(** The calls to the other components. *)
Inductive output :=
| ToSockets (event : SOPC_Sockets_InputEvent) (id : Z) (params : event_params) (auxParam : Z)
| ToServices (event : SOPC_SecureChannels_OutputEvent) (id : Z) (params : event_params) (auxParam : Z)
| TimerStarted (event : SOPC_SecureChannels_TimerEvent) (id : Z) (params auxParam ms : Z)
| TimerCancelled (id : Z).

(** ** Listeners *)

Inductive SOPC_SecureListener_State :=
| SECURE_LISTENER_STATE_CLOSED
| SECURE_LISTENER_STATE_OPENING
| SECURE_LISTENER_STATE_OPENED.

#[export] Instance Listener_State_eq_dec : EqDecision SOPC_SecureListener_State.
Proof. solve_decision. Defined.

(** [listener_state], [listener_config] and [listener_socket] are [state],
    [serverEndpointConfigIdx] and [socketIndex]. *)
Record SOPC_SecureListener := mkListener {
  listener_state : SOPC_SecureListener_State;
  listener_config : Z;
  listener_socket : Z;
  connectionIdxArray : list Z;
  isUsedConnectionIdxArray : list bool;
  lastConnectionIdxArrayIdx : Z
}.

(** [memset(scListener, 0, sizeof(SOPC_SecureListener))] *)
Definition zero_listener : SOPC_SecureListener :=
  mkListener SECURE_LISTENER_STATE_CLOSED 0 0 (replicate (Z.to_nat SOPC_MAX_SOCKETS_CONNECTIONS) 0)
    (replicate (Z.to_nat SOPC_MAX_SOCKETS_CONNECTIONS) false) 0.

(** ** Environment *)

(** The functions of the cryptographic provider, of the key manager and of the secret
    buffers that the manager of the connections uses; the clock, the timers and the random
    numbers.  [KeySet_New] is [SOPC_KeySet_Create] with the three buffers of the given
    lengths, of the key that signs, the key that encrypts and the initialisation vector;
    the functions that derive keys take the sets of the client and of the server and
    return them; [GenerateSecureChannelNonce] takes what [*ppNonce] holds and returns what
    it holds after the call. *)
Class Environment `{SendCrypto} := {
  SecretBuffer_Bytes : SecretBuffer -> block;
  SecretBuffer_NewFromExposedBuffer : block -> ptr SecretBuffer;
  KeySet_New : Z -> Z -> Z -> ptr SecurityKeySet;
  DeriveGetLengths : ptr CryptoProvider -> SOPC_ReturnStatus * (Z * Z * Z);
  SymmetricGetLength_SecureChannelNonce : ptr CryptoProvider -> SOPC_ReturnStatus * Z;
  DeriveKeySetsClient : ptr CryptoProvider -> SecretBuffer -> block -> SecurityKeySet -> SecurityKeySet ->
    SOPC_ReturnStatus * (SecurityKeySet * SecurityKeySet);
  DeriveKeySetsServer : ptr CryptoProvider -> block -> SecretBuffer -> SecurityKeySet -> SecurityKeySet ->
    SOPC_ReturnStatus * (SecurityKeySet * SecurityKeySet);
  SerializedAsymmetricKey_Deserialize : SecretBuffer -> bool -> SOPC_ReturnStatus * ptr AsymmetricKey;
  GenerateSecureChannelNonce : nat -> ptr CryptoProvider -> ptr SecretBuffer -> SOPC_ReturnStatus * ptr SecretBuffer;
  GenerateRandomID : nat -> ptr CryptoProvider -> SOPC_ReturnStatus * Z;
  EventTimer_Create : nat -> SOPC_SecureChannels_TimerEvent -> Z -> Z -> Z;
  Time_GetCurrentTimeUTC : nat -> Z;
  TimeReference_GetCurrent : nat -> Z
}.

Section World.
Context `{Allocator} `{Host} `{EndiannessCfg} {cfg : SOPC_Common_EncodingConstants} `{Crypto} `{!SendCrypto} `{!Environment}.

(** [memset(scConnection, 0, sizeof(SOPC_SecureConnection))] *)
Definition zero_connection : SOPC_SecureConnection :=
  mkSecureConnection (mkChunkMgrCtx NULL 0 SOPC_MSG_TYPE_INVALID SOPC_MSG_ISFINAL_INVALID NULL false 0 NULL) (mkSequence 0 0 NULL)
    0 0 false 0 0 (mkAsymmSecu NULL 0 false NULL) SECURE_CONNECTION_STATE_SC_CLOSED 0 0 0 (mkTcpProperties 0 0 0 0 0 0 0) NULL
    (mkSecurityToken 0 0 0 0 0) (mkKeySets NULL NULL) (mkSecurityToken 0 0 0 0 0) (mkKeySets NULL NULL) NULL 0 false false 0 NULL NULL NULL.

(** [chunk_heap] and [request_heap] are the cells of the lists of the connections, [calls]
    the number of calls to the clock, the timers and the random numbers, [queue] the
    events that the thread will treat, the next one first, and [outputs] the calls to the
    other components, the last one first.  [chunk_trace] is what the manager of the chunks
    did. *)
Record world := mkWorld {
  secureConnectionsArray : list SOPC_SecureConnection;
  lastSecureConnectionArrayIdx : Z;
  secureListenersArray : list SOPC_SecureListener;
  configuration : tConfig;
  chunk_heap : heap SOPC_Buffer;
  request_heap : heap SOPC_SentRequestMsg_Context;
  error : Z;
  calls : nat;
  queue : list Event;
  outputs : list output;
  chunk_trace : list effect
}.

(** The state after [SOPC_SecureChannelsInternalContext_Initialize], for a configuration. *)
Definition initial_world (t : tConfig) : world :=
  mkWorld (replicate (Z.to_nat (SOPC_MAX_SECURE_CONNECTIONS_PLUS_BUFFERED + 1)) zero_connection) 0
    (replicate (Z.to_nat (SOPC_MAX_ENDPOINT_DESCRIPTION_CONFIGURATIONS + 1)) zero_listener) t ∅ ∅ SOPC_GoodGenericStatus 0 [] [] [].

(** ** Monad *)

Definition W (A : Type) : Type := world -> res (A * world).

Definition wret {A} (a : A) : W A := fun w => Ret (a, w).
Definition wbind {A B} (m : W A) (k : A -> W B) : W B := fun w => let* (a, w) := m w in k a w.
Definition wlift {A} (r : res A) : W A := fun w => let* a := r in Ret (a, w).
Definition wget : W world := fun w => Ret (w, w).

Definition put_connections (l : list SOPC_SecureConnection) : W unit := fun w =>
  Ret (tt, mkWorld l (lastSecureConnectionArrayIdx w) (secureListenersArray w) (configuration w) (chunk_heap w) (request_heap w) (error w)
             (calls w) (queue w) (outputs w) (chunk_trace w)).
Definition put_last (i : Z) : W unit := fun w =>
  Ret (tt, mkWorld (secureConnectionsArray w) i (secureListenersArray w) (configuration w) (chunk_heap w) (request_heap w) (error w)
             (calls w) (queue w) (outputs w) (chunk_trace w)).
Definition put_listeners (l : list SOPC_SecureListener) : W unit := fun w =>
  Ret (tt, mkWorld (secureConnectionsArray w) (lastSecureConnectionArrayIdx w) l (configuration w) (chunk_heap w) (request_heap w) (error w)
             (calls w) (queue w) (outputs w) (chunk_trace w)).
Definition put_configuration (t : tConfig) : W unit := fun w =>
  Ret (tt, mkWorld (secureConnectionsArray w) (lastSecureConnectionArrayIdx w) (secureListenersArray w) t (chunk_heap w) (request_heap w)
             (error w) (calls w) (queue w) (outputs w) (chunk_trace w)).
Definition put_request_heap (h : heap SOPC_SentRequestMsg_Context) : W unit := fun w =>
  Ret (tt, mkWorld (secureConnectionsArray w) (lastSecureConnectionArrayIdx w) (secureListenersArray w) (configuration w) (chunk_heap w) h
             (error w) (calls w) (queue w) (outputs w) (chunk_trace w)).
Definition put_error (e : Z) : W unit := fun w =>
  Ret (tt, mkWorld (secureConnectionsArray w) (lastSecureConnectionArrayIdx w) (secureListenersArray w) (configuration w) (chunk_heap w)
             (request_heap w) e (calls w) (queue w) (outputs w) (chunk_trace w)).
Definition put_queue (q : list Event) : W unit := fun w =>
  Ret (tt, mkWorld (secureConnectionsArray w) (lastSecureConnectionArrayIdx w) (secureListenersArray w) (configuration w) (chunk_heap w)
             (request_heap w) (error w) (calls w) q (outputs w) (chunk_trace w)).
Definition output_to (o : output) : W unit := fun w =>
  Ret (tt, mkWorld (secureConnectionsArray w) (lastSecureConnectionArrayIdx w) (secureListenersArray w) (configuration w) (chunk_heap w)
             (request_heap w) (error w) (calls w) (queue w) (o :: outputs w) (chunk_trace w)).

(** The answer of the environment to one more call. *)
Definition ask {A} (answer : nat -> A) : W A := fun w =>
  Ret (answer (calls w),
       mkWorld (secureConnectionsArray w) (lastSecureConnectionArrayIdx w) (secureListenersArray w) (configuration w) (chunk_heap w)
         (request_heap w) (error w) (S (calls w)) (queue w) (outputs w) (chunk_trace w)).

End World.

Notation "'let@' p ':=' e 'in' k" := (wbind e (fun p => k))
  (at level 10, p pattern, e at level 200, k at level 200,
   format "'[v' 'let@'  p  ':='  e  'in' '/' k ']'") : res_scope.

(** [assert(b); k] *)
Notation "'wassert!' b 'in' k" := (if (b : bool) then k else wlift (Fault AssertFailed))
  (at level 10, b at level 200, k at level 200,
   format "'[v' 'wassert!'  b  'in' '/' k ']'") : res_scope.

Section Operations.
Context `{Allocator} `{Host} `{EndiannessCfg} {cfg : SOPC_Common_EncodingConstants} `{Crypto} `{!SendCrypto} `{!Environment}.

(** ** Connections and listeners *)

(** The index of the connection. *)
Definition SC_GetConnection (connectionIdx : Z) : ptr Z :=
  if (0 <? connectionIdx) && (connectionIdx <=? SOPC_MAX_SECURE_CONNECTIONS_PLUS_BUFFERED) then Some connectionIdx else NULL.

Definition connection (sc : Z) : W SOPC_SecureConnection :=
  let@ w := wget in wlift (array_get (secureConnectionsArray w) sc).

Definition put_connection (sc : Z) (c : SOPC_SecureConnection) : W unit :=
  let@ w := wget in
  let@ l := wlift (array_set (secureConnectionsArray w) sc c) in
  put_connections l.

(** [scConnection->... = ...] *)
Definition update (sc : Z) (f : SOPC_SecureConnection -> SOPC_SecureConnection) : W unit :=
  let@ c := connection sc in put_connection sc (f c).

Definition listener (l : Z) : W SOPC_SecureListener :=
  let@ w := wget in wlift (array_get (secureListenersArray w) l).

Definition put_listener (l : Z) (v : SOPC_SecureListener) : W unit :=
  let@ w := wget in
  let@ a := wlift (array_set (secureListenersArray w) l v) in
  put_listeners a.

(** A function on the configurations. *)
Definition with_configuration {A} (f : tConfig -> res A) : W A := let@ w := wget in wlift (f (configuration w)).

(** ** Events *)

(** [post]: the event and the cell of the queue are allocated; an event that cannot be is
    lost, since the callers in this component do not check the status. *)
Definition post (e : Event) (asNext : bool) : W SOPC_ReturnStatus :=
  if alloc_ok sizeof_Event
  then if alloc_ok sizeof_Elt
       then let@ w := wget in let@ _ := put_queue (if asNext then e :: queue w else queue w ++ [e]) in wret SOPC_STATUS_OK
       else wret SOPC_STATUS_NOK
  else wret SOPC_STATUS_OUT_OF_MEMORY.

Definition SOPC_SecureChannels_EnqueueInternalEvent (event : SOPC_SecureChannels_InternalEvent) (id : Z) (params : event_params) (auxParam : Z) : W unit :=
  let@ _ := post (mkEvent (OnInternalEvent event) id params auxParam) false in wret tt.

Definition SOPC_SecureChannels_EnqueueInternalEventAsNext (event : SOPC_SecureChannels_InternalEvent) (id : Z) (params : event_params) (auxParam : Z)
    : W unit :=
  let@ _ := post (mkEvent (OnInternalEvent event) id params auxParam) true in wret tt.

Definition SOPC_SecureChannels_EnqueueEvent (scEvent : SOPC_SecureChannels_InputEvent) (id : Z) (params : event_params) (auxParam : Z)
    : W SOPC_ReturnStatus :=
  post (mkEvent (OnInputEvent scEvent) id params auxParam) false.

Definition params_buffer (p : event_params) : res (ptr SOPC_Buffer) :=
  match p with BufferParams b => Ret b | NoParams => Ret NULL | _ => Fault UnionPunning end.
Definition params_number (p : event_params) : res Z :=
  match p with NumberParams n => Ret n | NoParams => Ret 0 | _ => Fault UnionPunning end.
Definition params_string (p : event_params) : res (ptr block) :=
  match p with StringParams s => Ret s | NoParams => Ret NULL | _ => Fault UnionPunning end.

(** ** The manager of the chunks *)

(** The functions that find the configuration of a channel check its index against the size
    of their table, so that they do not fault; the one that finds the configuration of an
    endpoint does not, and its fault is kept. *)
Definition or_null {A} (r : res (ptr A)) : ptr A := match r with Ret p => p | Fault _ => NULL end.

(** The configurations and the clock, for the manager of the chunks. *)
Definition toolkit (w : world) : Toolkit := {|
  SOPC_ToolkitClient_GetSecureChannelConfig i := or_null (ToolkitClient_GetSecureChannelConfig (configuration w) i);
  SOPC_ToolkitServer_GetSecureChannelConfig i := or_null (ToolkitServer_GetSecureChannelConfig (configuration w) i);
  SOPC_ToolkitServer_GetEndpointConfig i := ToolkitServer_GetEndpointConfig (configuration w) i;
  current_time := TimeReference_GetCurrent (calls w)
|}.

(** A call of the manager of the chunks to another component, for a connection. *)
Definition perform (sc : Z) (e : effect) : W unit :=
  match e with
  | CancelTimer id => output_to (TimerCancelled id)
  | StartTimer i handle id => output_to (TimerStarted TIMER_SC_REQUEST_TIMEOUT i handle id SOPC_REQUEST_TIMEOUT_MS)
  | SocketWrite socket buffer => output_to (ToSockets SOCKET_WRITE socket (BufferParams buffer) 0)
  | EnqueueFailure asNext event p aux => let@ _ := post (mkEvent (OnInternalEvent event) sc (NumberParams p) aux) asNext in wret tt
  | EnqueueEvent asNext event buffer aux => let@ _ := post (mkEvent (OnInternalEvent event) sc (BufferParams buffer) aux) asNext in wret tt
  end.

Fixpoint perform_all (sc : Z) (es : list effect) : W unit :=
  match es with
  | [] => wret tt
  | e :: es => let@ _ := perform sc e in perform_all sc es
  end.

(** A function of the manager of the chunks, on a connection: the connection and the cells
    are updated, then its calls are performed in their order. *)
Definition on_chunks {A} (sc : Z) (m : Toolkit -> M A) : W A :=
  let@ w := wget in
  let@ c := connection sc in
  let@ (a, s) := wlift (m (toolkit w) (mkState c (error w) (chunk_heap w) (request_heap w) (chunk_trace w))) in
  let@ _ := (fun w => Ret (tt, mkWorld (secureConnectionsArray w) (lastSecureConnectionArrayIdx w) (secureListenersArray w) (configuration w)
                                 (chunk_cells s) (request_cells s) (errorStatus s) (calls w) (queue w) (outputs w) (trace s))) in
  let@ _ := put_connection sc (conn s) in
  let@ _ := perform_all sc (reverse (take (length (trace s) - length (chunk_trace w)) (trace s))) in
  wret a.

(** ** Results of the operations *)

(** The state with another connection at an index. *)
Definition with_entry (w : world) (i : Z) (c : SOPC_SecureConnection) : world :=
  mkWorld (<[Z.to_nat i := c]> (secureConnectionsArray w)) (lastSecureConnectionArrayIdx w) (secureListenersArray w) (configuration w) (chunk_heap w)
    (request_heap w) (error w) (calls w) (queue w) (outputs w) (chunk_trace w).

Lemma run_connection w i c : array_get (secureConnectionsArray w) i = Ret c -> connection i w = Ret (c, w).
Proof. intros E. unfold connection, wbind, wlift, wget. cbn [rbind]. by rewrite E. Qed.

Lemma run_update w i c f : array_get (secureConnectionsArray w) i = Ret c -> update i f w = Ret (tt, with_entry w i (f c)).
Proof.
  intros E. unfold update, wbind. rewrite (run_connection w i c E). cbn [rbind]. unfold put_connection, wbind, wlift, wget. cbn [rbind].
  apply array_get_inv in E as [Hi _]. by rewrite array_set_ok.
Qed.

Lemma entry_with w i c c' : array_get (secureConnectionsArray w) i = Ret c -> array_get (secureConnectionsArray (with_entry w i c')) i = Ret c'.
Proof. intros E. apply array_get_inv in E as [Hi _]. unfold with_entry. cbn [secureConnectionsArray]. rewrite array_get_set by lia. by rewrite Z.eqb_refl. Qed.

Lemma run_error w e : put_error e w = Ret (tt, mkWorld (secureConnectionsArray w) (lastSecureConnectionArrayIdx w) (secureListenersArray w)
  (configuration w) (chunk_heap w) (request_heap w) e (calls w) (queue w) (outputs w) (chunk_trace w)).
Proof. done. Qed.

End Operations.
