(* ===== verification/SecureListener.v ===== *)
(** * Listeners of the endpoints

    Model of [src/src/ClientServer/secure_channels/sopc_secure_listener_state_mgr.c]: a
    listener is opened and closed by the services, and records the connections that it
    accepted. *)

From Stdlib Require Import ZArith Lia.
From Stdlib Require Import Strings.Byte.
From stdpp Require Import prelude gmap.
From S2P Require Import Prelude Common LinkedList Buffer Codec EncScalar EncString Strings Arrays SecureConnection ToolkitConfig Chunks ChunksSend SecureChannels.

Open Scope Z_scope.

(** ** The connections of a listener *)

Definition set_listener_state (l : SOPC_SecureListener) (s : SOPC_SecureListener_State) (config socket : Z) : SOPC_SecureListener :=
  mkListener s config socket (connectionIdxArray l) (isUsedConnectionIdxArray l) (lastConnectionIdxArrayIdx l).

Definition set_slot (l : SOPC_SecureListener) (idx : Z) (connection : Z) (used : bool) : res SOPC_SecureListener :=
  let* connections := array_set (connectionIdxArray l) idx connection in
  let* useds := array_set (isUsedConnectionIdxArray l) idx used in
  Ret (mkListener (listener_state l) (listener_config l) (listener_socket l) connections useds (lastConnectionIdxArrayIdx l)).

Definition set_last_slot (l : SOPC_SecureListener) (idx : Z) : SOPC_SecureListener :=
  mkListener (listener_state l) (listener_config l) (listener_socket l) (connectionIdxArray l) (isUsedConnectionIdxArray l) idx.

(** The [do ... while] loop of the addition: returns whether a free slot is found, and
    the last slot that was looked at. *)
Fixpoint search_slot (fuel : nat) (l : SOPC_SecureListener) (idx : Z) : res (bool * Z) :=
  match fuel with
  | O => Fault OutOfFuel
  | S fuel =>
      let lastIdx := idx in
      let* used := array_get (isUsedConnectionIdxArray l) idx in
      let idx := (idx + 1) mod SOPC_MAX_SOCKETS_CONNECTIONS in
      if negb (idx =? lastConnectionIdxArrayIdx l) && used then search_slot fuel l idx else Ret (negb used, lastIdx)
  end.

Definition SOPC_SecureListenerStateMgr_AddConnection (l : SOPC_SecureListener) (newConnectionIndex : Z) : res (bool * SOPC_SecureListener) :=
  let* (result, lastIdx) :=
    search_slot (Z.to_nat SOPC_MAX_SOCKETS_CONNECTIONS) l ((lastConnectionIdxArrayIdx l + 1) mod SOPC_MAX_SOCKETS_CONNECTIONS) in
  if result then
    let* l := set_slot l lastIdx newConnectionIndex true in
    Ret (true, set_last_slot l lastIdx)
  else Ret (false, l).

(** The [do ... while] loop of the removal; [n] is the number of slots from [idx]. *)
Fixpoint remove_slot (n : nat) (l : SOPC_SecureListener) (idx connectionIndex : Z) : res SOPC_SecureListener :=
  match n with
  | O => Ret l
  | S n =>
      let* used := array_get (isUsedConnectionIdxArray l) idx in
      let* connection := array_get (connectionIdxArray l) idx in
      if used && (connection =? connectionIndex) then set_slot l idx 0 false else remove_slot n l (idx + 1) connectionIndex
  end.

Definition SOPC_SecureListenerStateMgr_RemoveConnection (l : SOPC_SecureListener) (connectionIndex : Z) : res SOPC_SecureListener :=
  remove_slot (Z.to_nat SOPC_MAX_SOCKETS_CONNECTIONS) l 0 connectionIndex.

(** ** Opening and closing *)

Section Listener.
Context `{Allocator} `{Host} `{EndiannessCfg} {cfg : SOPC_Common_EncodingConstants} `{Crypto} `{!SendCrypto} `{!Environment}.

(** The index of the listener. *)
Definition SOPC_SecureListenerStateMgr_GetListener (endpointConfigIdx : Z) : ptr Z :=
  if (0 <? endpointConfigIdx) && (endpointConfigIdx <=? SOPC_MAX_ENDPOINT_DESCRIPTION_CONFIGURATIONS) then Some endpointConfigIdx else NULL.

Definition SOPC_SecureListenerStateMgr_OpeningListener (endpointConfigIdx : Z) : W bool :=
  match SOPC_SecureListenerStateMgr_GetListener endpointConfigIdx with
  | NULL => wret false
  | Some i =>
      let@ l := listener i in
      if bool_decide (listener_state l = SECURE_LISTENER_STATE_CLOSED) then
        let@ _ := put_listener i (set_listener_state l SECURE_LISTENER_STATE_OPENING endpointConfigIdx (listener_socket l)) in
        wret true
      else wret false
  end.

(** The [for] loop that closes the connections; [n] is the number of slots from [idx].
    The slots are cleared with the listener. *)
Fixpoint close_connections (n : nat) (l : SOPC_SecureListener) (idx endpointConfigIdx : Z) : W unit :=
  match n with
  | O => wret tt
  | S n =>
      let@ used := wlift (array_get (isUsedConnectionIdxArray l) idx) in
      let@ connection := wlift (array_get (connectionIdxArray l) idx) in
      let@ _ := (if used then SOPC_SecureChannels_EnqueueInternalEventAsNext INT_EP_SC_CLOSE connection NoParams endpointConfigIdx else wret tt) in
      close_connections n l (idx + 1) endpointConfigIdx
  end.

Definition SOPC_SecureListenerStateMgr_CloseListener (endpointConfigIdx : Z) (socketFailure : bool) : W bool :=
  match SOPC_SecureListenerStateMgr_GetListener endpointConfigIdx with
  | NULL => wret false
  | Some i =>
      let@ l := listener i in
      match listener_state l with
      | SECURE_LISTENER_STATE_OPENED =>
          let@ _ := close_connections (Z.to_nat SOPC_MAX_SOCKETS_CONNECTIONS) l 0 endpointConfigIdx in
          let@ _ := (if socketFailure then wret tt else output_to (ToSockets SOCKET_CLOSE_SERVER (listener_socket l) NoParams endpointConfigIdx)) in
          let@ _ := put_listener i zero_listener in
          wret true
      | SECURE_LISTENER_STATE_OPENING => let@ _ := put_listener i zero_listener in wret true
      | SECURE_LISTENER_STATE_CLOSED => wret true
      end
  end.

(** ** Events *)

Definition is_opened (l : SOPC_SecureListener) : bool := bool_decide (listener_state l = SECURE_LISTENER_STATE_OPENED).

(** The listener of an endpoint when it is opened. *)
Definition opened_listener (eltId : Z) : W (ptr (Z * SOPC_SecureListener)) :=
  match SOPC_SecureListenerStateMgr_GetListener eltId with
  | NULL => wret NULL
  | Some i => let@ l := listener i in wret (if is_opened l then Some (i, l) else NULL)
  end.

Definition SOPC_SecureListenerStateMgr_OnInternalEvent (event : SOPC_SecureChannels_InternalEvent) (eltId auxParam : Z) : W unit :=
  match event with
  | INT_EP_SC_CREATED =>
      wassert! auxParam <=? UINT32_MAX in
      let@ scListener := opened_listener eltId in
      let@ added :=
        match scListener with
        | NULL => wret false
        | Some (i, l) =>
            let@ (added, l) := wlift (SOPC_SecureListenerStateMgr_AddConnection l auxParam) in
            let@ _ := put_listener i l in wret added
        end in
      if added then wret tt else SOPC_SecureChannels_EnqueueInternalEvent INT_EP_SC_CLOSE auxParam NoParams eltId
  | INT_EP_SC_DISCONNECTED =>
      wassert! auxParam <=? UINT32_MAX in
      let@ scListener := opened_listener eltId in
      match scListener with
      | NULL => wret tt
      | Some (i, l) => let@ l := wlift (SOPC_SecureListenerStateMgr_RemoveConnection l auxParam) in put_listener i l
      end
  | _ => wlift (Fault AssertFailed)
  end.

(** The value of the enumeration. *)
Definition SOPC_STATUS_value (status : SOPC_ReturnStatus) : Z :=
  match status with
  | SOPC_STATUS_OK => 0
  | SOPC_STATUS_NOK => 1
  | SOPC_STATUS_INVALID_PARAMETERS => 2
  | SOPC_STATUS_INVALID_STATE => 3
  | SOPC_STATUS_ENCODING_ERROR => 4
  | SOPC_STATUS_WOULD_BLOCK => 5
  | SOPC_STATUS_TIMEOUT => 6
  | SOPC_STATUS_OUT_OF_MEMORY => 7
  | SOPC_STATUS_CLOSED => 8
  | SOPC_STATUS_NOT_SUPPORTED => 9
  end.

Definition SOPC_SecureListenerStateMgr_OnSocketEvent (event : SOPC_Sockets_OutputEvent) (eltId auxParam : Z) : W unit :=
  match event with
  | SOCKET_LISTENER_OPENED =>
      wassert! auxParam <=? UINT32_MAX in
      match SOPC_SecureListenerStateMgr_GetListener eltId with
      | NULL => output_to (ToSockets SOCKET_CLOSE_SERVER auxParam NoParams eltId)
      | Some i =>
          let@ l := listener i in
          if bool_decide (listener_state l = SECURE_LISTENER_STATE_OPENING)
          then put_listener i (set_listener_state l SECURE_LISTENER_STATE_OPENED (listener_config l) auxParam)
          else output_to (ToSockets SOCKET_CLOSE_SERVER auxParam NoParams eltId)
      end
  | SOCKET_LISTENER_CONNECTION =>
      wassert! auxParam <=? UINT32_MAX in
      let@ scListener := opened_listener eltId in
      if is_null scListener then output_to (ToSockets SOCKET_CLOSE auxParam NoParams 0)
      else SOPC_SecureChannels_EnqueueInternalEvent INT_EP_SC_CREATE eltId NoParams auxParam
  | SOCKET_LISTENER_FAILURE =>
      let@ epConfig := with_configuration (fun t => ToolkitServer_GetEndpointConfig t eltId) in
      let@ _ := (if is_null epConfig then wret false else SOPC_SecureListenerStateMgr_CloseListener eltId true) in
      output_to (ToServices EP_CLOSED eltId NoParams (SOPC_STATUS_value SOPC_STATUS_CLOSED))
  | _ => wlift (Fault AssertFailed)
  end.

Definition SOPC_SecureListenerStateMgr_Dispatcher (event : SOPC_SecureChannels_InputEvent) (eltId : Z) : W unit :=
  match event with
  | EP_OPEN =>
      let@ epConfig := with_configuration (fun t => ToolkitServer_GetEndpointConfig t eltId) in
      match epConfig with
      | NULL => wret tt
      | Some epConfig =>
          let@ result := SOPC_SecureListenerStateMgr_OpeningListener eltId in
          if result then output_to (ToSockets SOCKET_CREATE_SERVER eltId (StringParams (endpointURL epConfig)) 1) else wret tt
      end
  | EP_CLOSE =>
      let@ epConfig := with_configuration (fun t => ToolkitServer_GetEndpointConfig t eltId) in
      let@ status :=
        (if is_null epConfig then wret SOPC_STATUS_OK
         else
           let@ result := SOPC_SecureListenerStateMgr_CloseListener eltId false in
           wret (if result then SOPC_STATUS_OK else SOPC_STATUS_INVALID_PARAMETERS)) in
      output_to (ToServices EP_CLOSED eltId NoParams (SOPC_STATUS_value status))
  | _ => wlift (Fault AssertFailed)
  end.

End Listener.
