(* ===== verification/StateMgr.v ===== *)
(** * Connections: opening, closing and negotiation

    Model of the first part of
    [src/src/ClientServer/secure_channels/sopc_secure_connection_state_mgr.c]: the entries
    of the array of the connections are taken and released, the messages that close a
    connection are built, and the messages [HEL] and [ACK] are exchanged.

    [sc] is the pointer to the connection, [scConnectionIdx] the index that the program
    passes; they are the same number.  The functions that only free memory are not
    modelled. *)

From Stdlib Require Import ZArith Lia.
From Stdlib Require Import Strings.Byte Strings.String.
From stdpp Require Import prelude gmap.
From S2P Require Import Prelude Common LinkedList Buffer Codec EncScalar EncString EncNodeId EncText EncArray EncExtObj EncVariant EncVariantSpec.
From S2P Require Import EncStruct EncStructSpec Types TypesSpec Services Message Strings Arrays SecureConnection ToolkitConfig Chunks ChunksSend SecureChannels.

Open Scope Z_scope.

(** ** Constants *)

Definition SOPC_PROTOCOL_VERSION : Z := 0.
Definition SOPC_TCP_UA_MIN_BUFFER_SIZE : Z := 8192.
Definition SOPC_TCP_UA_MAX_URL_AND_REASON_LENGTH : Z := 4096.
Definition SOPC_TCP_UA_HEL_MIN_MSG_LENGTH : Z := 32.
Definition SOPC_TCP_UA_ERR_MIN_MSG_LENGTH : Z := 16.
Definition SOPC_SC_CONNECTION_TIMEOUT_MS : Z := 10000.

Definition OpcUa_BadInternalError : Z := 0x80020000.
Definition OpcUa_BadResourceUnavailable : Z := 0x80040000.
Definition OpcUa_BadNonceInvalid : Z := 0x80240000.
Definition OpcUa_BadSecureChannelIdInvalid : Z := 0x80220000.
Definition OpcUa_BadSecurityModeRejected : Z := 0x80540000.
Definition OpcUa_BadRequestNotAllowed : Z := 0x80E40000.
Definition OpcUa_BadProtocolVersionUnsupported : Z := 0x80BE0000.

(** A string literal. *)
Definition cstring (s : string) : block := list_byte_of_string s ++ [x00].

(** The connection has the state [s]. *)
Definition in_state `{Crypto} (c : SOPC_SecureConnection) (s : SOPC_SecureConnection_State) : bool := bool_decide (state c = s).

Definition is_connected `{Crypto} (c : SOPC_SecureConnection) : bool :=
  in_state c SECURE_CONNECTION_STATE_SC_CONNECTED || in_state c SECURE_CONNECTION_STATE_SC_CONNECTED_RENEW.

(** ** Fields of the structures *)

Section Fields.
Context `{EncodeableTypes}.

Fixpoint nth_field (fs : FieldList) (i : nat) : res FieldValue :=
  match fs, i with
  | FNil, _ => Fault OutOfBounds
  | FCons f _, O => Ret f
  | FCons _ fs, S i => nth_field fs i
  end.

Fixpoint set_nth_field (fs : FieldList) (i : nat) (v : FieldValue) : res FieldList :=
  match fs, i with
  | FNil, _ => Fault OutOfBounds
  | FCons _ fs, O => Ret (FCons v fs)
  | FCons f fs, S i => let* fs := set_nth_field fs i v in Ret (FCons f fs)
  end.

Definition get_field (o : StructObject) (i : nat) : res FieldValue := match o with mkStruct _ fs => nth_field fs i end.

Definition put_field (o : StructObject) (i : nat) (v : FieldValue) : res StructObject :=
  match o with mkStruct t fs => let* fs := set_nth_field fs i v in Ret (mkStruct t fs) end.

Definition get_number (id : SOPC_BuiltinId) (o : StructObject) (i : nat) : res Z :=
  let* f := get_field o i in match f with FBuiltin v => as_number id v | _ => Fault UnionPunning end.

Definition get_bytes (o : StructObject) (i : nat) : res SOPC_ByteString :=
  let* f := get_field o i in match f with FBuiltin v => as_string SOPC_ByteString_Id v | _ => Fault UnionPunning end.

Definition get_struct (o : StructObject) (i : nat) : res StructObject :=
  let* f := get_field o i in match f with FStruct o => Ret o | _ => Fault UnionPunning end.

Definition put_number (id : SOPC_BuiltinId) (o : StructObject) (i : nat) (n : Z) : res StructObject := put_field o i (FBuiltin (B_Number id n)).

End Fields.

Section Connections.
Context `{Allocator} `{Host} `{EndiannessCfg} {cfg : SOPC_Common_EncodingConstants} `{Crypto} `{!SendCrypto} `{!Environment}.
(** The number of levels of extension objects. *)
Context {depth : nat}.
#[local] Abbreviation object := (@StructObject (Services depth)).

(** ** The array of the connections *)

Definition initial_properties : SOPC_SecureConnection_TcpProperties :=
  mkTcpProperties SOPC_PROTOCOL_VERSION (buffer_size cfg) (buffer_size cfg) (receive_max_msg_size cfg) (send_max_msg_size cfg)
    (receive_max_nb_chunks cfg) (send_max_nb_chunks cfg).

(** Returns the result and [*newConnectionIdx]. *)
Definition SC_InitNewConnection : W (bool * Z) :=
  let@ w := wget in
  let last := lastSecureConnectionArrayIdx w in
  let@ (result, connectionIdx) :=
    wlift (search_free (search_fuel SOPC_MAX_SECURE_CONNECTIONS_PLUS_BUFFERED)
             (fun i => let* c := array_get (secureConnectionsArray w) i in Ret (in_state c SECURE_CONNECTION_STATE_SC_CLOSED))
             SOPC_MAX_SECURE_CONNECTIONS_PLUS_BUFFERED last last) in
  if result then
    let sentRequestIds := SOPC_SLinkedList_Create 0 in
    let@ _ := update connectionIdx (fun c =>
      set_state (set_tcpSeqProperties (set_tcpMsgProperties c initial_properties)
                   (mkSequence (lastSNsent (tcpSeqProperties c)) (lastSNreceived (tcpSeqProperties c)) sentRequestIds))
        SECURE_CONNECTION_STATE_TCP_INIT) in
    if is_null sentRequestIds then wret (false, 0)
    else let@ _ := put_last connectionIdx in wret (true, connectionIdx)
  else wret (false, 0).

Definition SC_Client_ClearPendingRequest (val : ptr SOPC_SentRequestMsg_Context) : W unit :=
  match val with
  | NULL => wret tt
  | Some msgCtx =>
      let@ _ := output_to (TimerCancelled (timerId msgCtx)) in
      match msgType msgCtx with
      | SOPC_MSG_TYPE_SC_MSG =>
          output_to (ToServices SC_SND_FAILURE (scConnectionIdx msgCtx) (NumberParams (requestHandle msgCtx)) OpcUa_BadSecureChannelClosed)
      | _ => wret tt
      end
  end.

Fixpoint clear_pending (l : list (Z * ptr SOPC_SentRequestMsg_Context)) : W unit :=
  match l with
  | [] => wret tt
  | (_, val) :: l => let@ _ := SC_Client_ClearPendingRequest val in clear_pending l
  end.

Definition SC_CloseConnection (connectionIdx : Z) (socketFailure : bool) : W bool :=
  match SC_GetConnection connectionIdx with
  | NULL => wret false
  | Some sc =>
      let@ c := connection sc in
      if in_state c SECURE_CONNECTION_STATE_SC_CLOSED then wret false
      else
        let@ _ := on_chunks sc (fun _ => SOPC_ScInternalContext_ClearInputChunksContext) in
        let@ c := connection sc in
        let sentRequestIds := sentRequestIds (tcpSeqProperties c) in
        wassert! negb (is_null sentRequestIds) in
        let@ w := wget in
        let@ requests := wlift (SOPC_SLinkedList_Apply (request_heap w) sentRequestIds) in
        let@ _ := clear_pending requests in
        let@ h := wlift (SOPC_SLinkedList_Delete (request_heap w) sentRequestIds) in
        let@ _ := put_request_heap h in
        let@ _ := (if socketFailure then wret tt else output_to (ToSockets SOCKET_CLOSE (socketIndex c) NoParams connectionIdx)) in
        let@ _ :=
          (if isServerConnection c then
             let@ (_, t) := with_configuration (fun t => SOPC_ToolkitServer_RemoveSecureChannelConfig t (endpointConnectionConfigIdx c)) in
             put_configuration t
           else wret tt) in
        let@ _ := put_connection sc zero_connection in
        wret true
  end.

(** ** Timers *)

(** Starts a timer; returns its identifier. *)
Definition start_timer (event : SOPC_SecureChannels_TimerEvent) (connectionIdx ms : Z) : W Z :=
  let@ _ := output_to (TimerStarted event connectionIdx 0 0 ms) in
  ask (fun n => EventTimer_Create n event connectionIdx ms).

(** The functions that start a timer return the status and the identifier. *)
Definition SC_StartConnectionEstablishTimer (connectionIdx : Z) : W (SOPC_ReturnStatus * Z) :=
  wassert! (0 <? connectionIdx) && (connectionIdx <=? SOPC_MAX_SECURE_CONNECTIONS_PLUS_BUFFERED) in
  let@ timerId := start_timer TIMER_SC_CONNECTION_TIMEOUT connectionIdx SOPC_SC_CONNECTION_TIMEOUT_MS in
  wret (if timerId =? 0 then SOPC_STATUS_NOK else SOPC_STATUS_OK, timerId).

Definition SC_Client_StartOPNrenewTimer (connectionIdx timeoutMs : Z) : W (SOPC_ReturnStatus * Z) :=
  wassert! (0 <? connectionIdx) && (connectionIdx <=? SOPC_MAX_SECURE_CONNECTIONS_PLUS_BUFFERED) in
  let@ timerId := start_timer TIMER_SC_CLIENT_OPN_RENEW connectionIdx timeoutMs in
  wret (if timerId =? 0 then SOPC_STATUS_NOK else SOPC_STATUS_OK, timerId).

(** ** Messages that close a connection *)

(** Returns the status, [*errorStatus] and [*errorReason]. *)
Definition SC_ClientTransition_ReceivedErrorMsg (errBuffer : SOPC_Buffer) (errorStatus : Z) : res (SOPC_ReturnStatus * Z * ptr block) :=
  let* (status, code, buf) := SOPC_UInt32_Read (Some errorStatus) (Some errBuffer) 0 in
  let* errorStatus := deref code in
  if negb (is_ok status) then Ret (status, errorStatus, NULL)
  else
    let* (status, reason, _) :=
      SOPC_String_ReadWithLimitedLength SOPC_TCP_UA_MAX_URL_AND_REASON_LENGTH (SOPC_String_Initialize (Some string_init)) buf 0 in
    if negb (is_ok status) then Ret (status, errorStatus, NULL)
    else
      let* result := SOPC_String_GetCString reason in
      match result with
      | Some r => Ret (SOPC_STATUS_OK, errorStatus, Some r)
      | NULL => if alloc_ok 1 then Ret (SOPC_STATUS_OK, errorStatus, Some [x00]) else Ret (SOPC_STATUS_OUT_OF_MEMORY, errorStatus, NULL)
      end.

(** A buffer with room for the header of its chunk. *)
Definition reserve_header (buffer : ptr SOPC_Buffer) (length : Z) : enc_result :=
  let_ok buffer := SOPC_Buffer_SetDataLength buffer length in
  seek buffer length.

(** The body of an [ERR] message. *)
Definition encode_error (buffer : ptr SOPC_Buffer) (errorStatus : Z) (reason : block) : enc_result :=
  let_ok buffer := reserve_header buffer SOPC_TCP_UA_HEADER_LENGTH in
  let_ok buffer := SOPC_UInt32_Write (Some (SOPC_StatusCode_ToTcpErrorCode errorStatus)) buffer 0 in
  let* (status, tempString) := SOPC_String_AttachFromCstring (SOPC_String_Initialize (Some string_init)) (Some reason) in
  if is_ok status then SOPC_String_Write tempString buffer 0 else Ret (status, buffer).

Definition SC_Server_SendErrorMsgAndClose (scConnectionIdx errorStatus : Z) (reason : block) : W bool :=
  match SOPC_Buffer_Create (SOPC_TCP_UA_ERR_MIN_MSG_LENGTH + SOPC_TCP_UA_MAX_URL_AND_REASON_LENGTH) with
  | NULL => wret false
  | Some buffer =>
      let@ (status, buffer) := wlift (encode_error (Some buffer) errorStatus reason) in
      if is_ok status then
        let@ _ := SOPC_SecureChannels_EnqueueInternalEventAsNext INT_SC_CLOSE scConnectionIdx (StringParams (Some reason)) errorStatus in
        let@ _ := SOPC_SecureChannels_EnqueueInternalEventAsNext INT_SC_SND_ERR scConnectionIdx (BufferParams buffer) 0 in
        wret true
      else wret false
  end.

(** The header of a request of the connection. *)
Definition request_header (scConnectionIdx timestamp : Z) : res object :=
  let* h := SOPC_EncodeableObject_Initialize (index_of SOPC_TypeInternalIndex_RequestHeader) in
  let* h := put_number SOPC_UInt32_Id h 2 scConnectionIdx in
  let* h := put_number SOPC_DateTime_Id h 1 timestamp in
  put_number SOPC_UInt32_Id h 5 0.

Definition SC_Client_SendCloseSecureChannelRequestAndClose (sc scConnectionIdx errorStatus : Z) (reason : block) : W unit :=
  let@ c := connection sc in
  let@ result :=
    match SOPC_Buffer_Create (sendBufferSize (tcpMsgProperties c)) with
    | NULL => wret false
    | Some msgBuffer =>
        let@ (status, msgBuffer) := wlift (reserve_header (Some msgBuffer) SOPC_UA_SYMMETRIC_SECURE_MESSAGE_HEADERS_LENGTH) in
        let@ now := ask Time_GetCurrentTimeUTC in
        let@ reqHeader := wlift (request_header scConnectionIdx now) in
        let@ cloReq := wlift (SOPC_EncodeableObject_Initialize (index_of SOPC_TypeInternalIndex_CloseSecureChannelRequest)) in
        let@ (status, msgBuffer) :=
          (if is_ok status then
             wlift (SOPC_EncodeMsg_Type_Header_Body msgBuffer (Some SOPC_TypeInternalIndex_CloseSecureChannelRequest)
                      (Some SOPC_TypeInternalIndex_RequestHeader) (Some reqHeader) (Some cloReq))
           else wret (status, msgBuffer)) in
        if is_ok status then
          let@ _ := SOPC_SecureChannels_EnqueueInternalEventAsNext INT_SC_CLOSE scConnectionIdx (StringParams (Some reason)) errorStatus in
          let@ _ := SOPC_SecureChannels_EnqueueInternalEventAsNext INT_SC_SND_CLO scConnectionIdx (BufferParams msgBuffer) 0 in
          wret true
        else wret false
    end in
  if result then wret tt
  else
    let@ closed := SC_CloseConnection scConnectionIdx false in
    if closed then output_to (ToServices SC_DISCONNECTED scConnectionIdx NoParams OpcUa_BadSecureChannelClosed) else wret tt.

(** The two sides of the closure. *)
Definition close_client (sc scConnectionIdx : Z) (immediateClose socketFailure : bool) (errorStatus : Z) (reason : block) : W unit :=
  let@ c := connection sc in
  if is_connected c then
    let@ _ := output_to (TimerCancelled (secuTokenRenewTimerId c)) in
    if negb immediateClose then SC_Client_SendCloseSecureChannelRequestAndClose sc scConnectionIdx errorStatus reason
    else
      let@ closed := SC_CloseConnection scConnectionIdx socketFailure in
      if closed then output_to (ToServices SC_DISCONNECTED scConnectionIdx NoParams errorStatus) else wret tt
  else if in_state c SECURE_CONNECTION_STATE_SC_CLOSED then wret tt
  else
    let@ closed := SC_CloseConnection scConnectionIdx socketFailure in
    if closed then output_to (ToServices SC_CONNECTION_TIMEOUT (endpointConnectionConfigIdx c) NoParams 0) else wret tt.

Definition close_server (sc scConnectionIdx : Z) (immediateClose socketFailure : bool) (errorStatus : Z) (reason : block) : W unit :=
  let@ c := connection sc in
  if in_state c SECURE_CONNECTION_STATE_SC_CLOSED then wret tt
  else
    let@ immediateClose :=
      (if immediateClose then wret true
       else
         let reason := if errorStatus =? OpcUa_BadSecurityChecksFailed then [x00] else reason in
         let@ result := SC_Server_SendErrorMsgAndClose scConnectionIdx errorStatus reason in
         wret (negb result)) in
    if negb immediateClose then wret tt
    else
      let@ closed := SC_CloseConnection scConnectionIdx socketFailure in
      if closed then
        let@ _ :=
          (if is_connected c then output_to (ToServices SC_DISCONNECTED scConnectionIdx NoParams OpcUa_BadSecureChannelClosed) else wret tt) in
        SOPC_SecureChannels_EnqueueInternalEvent INT_EP_SC_DISCONNECTED (serverEndpointConfigIdx c) NoParams scConnectionIdx
      else wret tt.

Definition SC_CloseSecureConnection (scConnection : ptr Z) (scConnectionIdx : Z) (immediateClose socketFailure : bool) (errorStatus : Z) (reason : block)
    : W unit :=
  wassert! (socketFailure && immediateClose) || negb socketFailure in
  match scConnection with
  | NULL => wlift (Fault AssertFailed)
  | Some sc =>
      let@ c := connection sc in
      let@ _ := (if is_connected c then wret tt else output_to (TimerCancelled (connectionTimeoutTimerId c))) in
      if isServerConnection c then close_server sc scConnectionIdx immediateClose socketFailure errorStatus reason
      else close_client sc scConnectionIdx immediateClose socketFailure errorStatus reason
  end.

(** ** Negotiation *)

(** The fields of the messages [HEL] and [ACK]. *)
Definition write_properties (p : SOPC_SecureConnection_TcpProperties) (buffer : ptr SOPC_Buffer) : enc_result :=
  let_ok buffer := SOPC_UInt32_Write (Some (protocolVersion p)) buffer 0 in
  let_ok buffer := SOPC_UInt32_Write (Some (receiveBufferSize p)) buffer 0 in
  let_ok buffer := SOPC_UInt32_Write (Some (sendBufferSize p)) buffer 0 in
  let_ok buffer := SOPC_UInt32_Write (Some (receiveMaxMessageSize p)) buffer 0 in
  SOPC_UInt32_Write (Some (receiveMaxChunkCount p)) buffer 0.

Definition encode_hello (p : SOPC_SecureConnection_TcpProperties) (url : ptr block) (buffer : ptr SOPC_Buffer) : enc_result :=
  let_ok buffer := reserve_header buffer SOPC_TCP_UA_HEADER_LENGTH in
  let_ok buffer := write_properties p buffer in
  let* (status, tmpString) := SOPC_String_CopyFromCString (SOPC_String_Initialize (Some string_init)) url in
  if is_ok status then SOPC_String_Write tmpString buffer 0 else Ret (status, buffer).

Definition SC_ClientTransition_TcpInit_To_TcpNegotiate (sc scConnectionIdx socketIdx : Z) : W bool :=
  let@ c := connection sc in
  let@ scConfig := with_configuration (fun t => ToolkitClient_GetSecureChannelConfig t (endpointConnectionConfigIdx c)) in
  wassert! in_state c SECURE_CONNECTION_STATE_TCP_INIT in
  match SOPC_Buffer_Create (SOPC_TCP_UA_HEL_MIN_MSG_LENGTH + SOPC_TCP_UA_MAX_URL_AND_REASON_LENGTH), scConfig with
  | Some msgBuffer, Some scConfig =>
      let@ (status, msgBuffer) := wlift (encode_hello (tcpMsgProperties c) (url scConfig) (Some msgBuffer)) in
      if is_ok status then
        let@ _ := update sc (fun c => set_state (set_socketIndex c socketIdx) SECURE_CONNECTION_STATE_TCP_NEGOTIATE) in
        let@ _ := SOPC_SecureChannels_EnqueueInternalEvent INT_SC_SND_HEL scConnectionIdx (BufferParams msgBuffer) 0 in
        wret true
      else wret false
  | _, _ => wret false
  end.

(** The changes of the properties for a value that is received; the new properties are
    [None] when it is refused. *)
Definition negotiation : Type := SOPC_SecureConnection_TcpProperties -> Z -> option SOPC_SecureConnection_TcpProperties.

Definition negotiate_version : negotiation := fun p v =>
  Some (mkTcpProperties (if v <? protocolVersion p then v else protocolVersion p) (receiveBufferSize p) (sendBufferSize p) (receiveMaxMessageSize p)
          (sendMaxMessageSize p) (receiveMaxChunkCount p) (sendMaxChunkCount p)).

(** [strict]: a size that is greater than the one of the connection is refused. *)
Definition negotiate_size (strict : bool) (own v : Z) : option Z :=
  if v <? own then if SOPC_TCP_UA_MIN_BUFFER_SIZE <=? v then Some v else None
  else if strict && (own <? v) then None
  else Some own.

Definition negotiate_send_size (strict : bool) : negotiation := fun p v =>
  n ← negotiate_size strict (sendBufferSize p) v;
  Some (mkTcpProperties (protocolVersion p) (receiveBufferSize p) n (receiveMaxMessageSize p) (sendMaxMessageSize p) (receiveMaxChunkCount p)
          (sendMaxChunkCount p)).

Definition negotiate_receive_size (strict : bool) : negotiation := fun p v =>
  n ← negotiate_size strict (receiveBufferSize p) v;
  Some (mkTcpProperties (protocolVersion p) n (sendBufferSize p) (receiveMaxMessageSize p) (sendMaxMessageSize p) (receiveMaxChunkCount p)
          (sendMaxChunkCount p)).

(** 0 stands for no limit. *)
Definition negotiate_limit (own v : Z) : Z := if negb (v =? 0) && ((v <? own) || (own =? 0)) then v else own.

Definition negotiate_max_size : negotiation := fun p v =>
  Some (mkTcpProperties (protocolVersion p) (receiveBufferSize p) (sendBufferSize p) (receiveMaxMessageSize p)
          (negotiate_limit (sendMaxMessageSize p) v) (receiveMaxChunkCount p) (sendMaxChunkCount p)).

Definition negotiate_max_chunks : negotiation := fun p v =>
  Some (mkTcpProperties (protocolVersion p) (receiveBufferSize p) (sendBufferSize p) (receiveMaxMessageSize p) (sendMaxMessageSize p)
          (receiveMaxChunkCount p) (negotiate_limit (sendMaxChunkCount p) v)).

(** The fields of the received message, in order. *)
Definition negotiations (strict : bool) : list negotiation :=
  [negotiate_version; negotiate_send_size strict; negotiate_receive_size strict; negotiate_max_size; negotiate_max_chunks].

(** The fields are read one after the other, until one is missing or refused.  Returns
    the error, if any, the properties and the buffer. *)
Fixpoint negotiate (steps : list negotiation) (p : SOPC_SecureConnection_TcpProperties) (buffer : ptr SOPC_Buffer)
    : res (ptr Z * SOPC_SecureConnection_TcpProperties * ptr SOPC_Buffer) :=
  match steps with
  | [] => Ret (NULL, p, buffer)
  | step :: steps =>
      let* (status, tempValue, buffer) := SOPC_UInt32_Read (Some 0) buffer 0 in
      let* tempValue := deref tempValue in
      if negb (is_ok status) then Ret (Some OpcUa_BadDecodingError, p, buffer)
      else
        match step p tempValue with
        | None => Ret (Some OpcUa_BadInvalidArgument, p, buffer)
        | Some p => negotiate steps p buffer
        end
  end.

Definition SC_ClientTransition_TcpNegotiate_To_ScInit (sc : Z) (ackMsgBuffer : ptr SOPC_Buffer) : W bool :=
  wassert! negb (is_null ackMsgBuffer) in
  let@ c := connection sc in
  wassert! in_state c SECURE_CONNECTION_STATE_TCP_NEGOTIATE in
  wassert! negb (isServerConnection c) in
  let@ (failure, p, _) := wlift (negotiate (negotiations true) (tcpMsgProperties c) ackMsgBuffer) in
  let@ _ := update sc (fun c => set_tcpMsgProperties c p) in
  if is_null failure then let@ _ := update sc (fun c => set_state c SECURE_CONNECTION_STATE_SC_INIT) in wret true
  else wret false.

(** The URL is read; it is only compared for a log.  Returns the error, if any. *)
Definition check_url (epConfig : SOPC_Endpoint_Config) (buffer : ptr SOPC_Buffer) : res (ptr Z) :=
  let* (status, url, _) :=
    SOPC_String_ReadWithLimitedLength SOPC_TCP_UA_MAX_URL_AND_REASON_LENGTH (SOPC_String_Initialize (Some string_init)) buffer 0 in
  if is_ok status then
    let* (status, epUrl) := SOPC_String_AttachFromCstring (SOPC_String_Initialize (Some string_init)) (endpointURL epConfig) in
    let* status := (if is_ok status then let* (status, _) := SOPC_String_Compare epUrl url true (Some 0) in Ret status else Ret status) in
    Ret (if is_ok status then NULL else Some OpcUa_BadTcpInternalError)
  else Ret (Some OpcUa_BadTcpEndpointUrlInvalid).

(** Returns the result and the buffer. *)
Definition SC_ServerTransition_TcpInit_To_TcpNegotiate (sc : Z) (helloMsgBuffer : ptr SOPC_Buffer) : W bool :=
  wassert! negb (is_null helloMsgBuffer) in
  let@ c := connection sc in
  wassert! in_state c SECURE_CONNECTION_STATE_TCP_INIT in
  wassert! isServerConnection c in
  let@ epConfig := with_configuration (fun t => ToolkitServer_GetEndpointConfig t (serverEndpointConfigIdx c)) in
  match epConfig with
  | NULL => let@ _ := put_error OpcUa_BadInternalError in wret false
  | Some epConfig =>
      let@ (failure, p, buffer) := wlift (negotiate (negotiations false) (tcpMsgProperties c) helloMsgBuffer) in
      let@ _ := update sc (fun c => set_tcpMsgProperties c p) in
      let@ failure := match failure with Some e => wret (Some e) | NULL => wlift (check_url epConfig buffer) end in
      match failure with
      | Some e => let@ _ := put_error e in wret false
      | NULL => let@ _ := update sc (fun c => set_state c SECURE_CONNECTION_STATE_TCP_NEGOTIATE) in wret true
      end
  end.

(** The [ACK] message starts with the header of the [HEL] message. *)
Definition encode_acknowledge (p : SOPC_SecureConnection_TcpProperties) (buffer : ptr SOPC_Buffer) : enc_result :=
  let_ok buffer := seek buffer SOPC_TCP_UA_HEADER_LENGTH in
  let_ok buffer := SOPC_Buffer_SetDataLength buffer SOPC_TCP_UA_HEADER_LENGTH in
  write_properties p buffer.

Definition copy_header (ackMsgBuffer : SOPC_Buffer) (helloMsgBuffer : ptr SOPC_Buffer) : enc_result :=
  let '(status, helloMsgBuffer) := SOPC_Buffer_SetPosition helloMsgBuffer 0 in
  if is_ok status then SOPC_Buffer_CopyWithLength (Some ackMsgBuffer) helloMsgBuffer SOPC_TCP_UA_HEADER_LENGTH
  else Ret (status, Some ackMsgBuffer).

Definition SC_ServerTransition_TcpNegotiate_To_ScInit (sc scConnectionIdx : Z) (helloMsgBuffer : ptr SOPC_Buffer) : W bool :=
  match helloMsgBuffer with
  | NULL => wlift (Fault AssertFailed)
  | Some hello =>
      let@ c := connection sc in
      wassert! in_state c SECURE_CONNECTION_STATE_TCP_NEGOTIATE in
      wassert! isServerConnection c in
      let@ (status, ackMsgBuffer) :=
        match SOPC_Buffer_Create (maximum_size hello) with
        | NULL => wret (SOPC_STATUS_OUT_OF_MEMORY, NULL)
        | Some ackMsgBuffer => wlift (copy_header ackMsgBuffer helloMsgBuffer)
        end in
      if negb (is_ok status) then let@ _ := put_error OpcUa_BadEncodingError in wret false
      else
        let@ (status, ackMsgBuffer) := wlift (encode_acknowledge (tcpMsgProperties c) ackMsgBuffer) in
        if is_ok status then
          let@ _ := put_error SOPC_GoodGenericStatus in
          let@ _ := update sc (fun c => set_state c SECURE_CONNECTION_STATE_SC_INIT) in
          let@ _ := SOPC_SecureChannels_EnqueueInternalEvent INT_SC_SND_ACK scConnectionIdx (BufferParams ackMsgBuffer) 0 in
          wret true
        else let@ _ := put_error OpcUa_BadEncodingError in wret false
  end.

End Connections.
