(* ===== verification/StateMgrOpn.v ===== *)
(** * Connections: opening and renewal of the secure channels

    Model of the part of
    [src/src/ClientServer/secure_channels/sopc_secure_connection_state_mgr.c] that
    exchanges the messages [OPN]: the client asks for a security token, the server issues
    or renews it, and both derive the keys from the two nonces.

    [memory] is what a block that is allocated for a decoded structure holds. *)

From Stdlib Require Import ZArith Lia.
From Stdlib Require Import Strings.Byte Strings.String.
From stdpp Require Import prelude gmap.
From S2P Require Import Prelude Common LinkedList Buffer Codec EncScalar EncString EncNodeId EncText EncArray EncExtObj EncVariant EncVariantSpec.
From S2P Require Import EncStruct EncStructSpec Types TypesSpec Services Message Strings Arrays SecureConnection ToolkitConfig Chunks ChunksSend.
From S2P Require Import SecureChannels SecureListener StateMgr.

Open Scope Z_scope.

(** ** Constants *)

Definition SOPC_GoodStatusOppositeMask : Z := 0xC0000000.
Definition UINT64_MAX : Z := 2 ^ 64 - 1.
Definition sizeof_SOPC_SecureChannel_Config : Z := 96.

Definition OpcUa_SecurityTokenRequestType_Issue : Z := 0.
Definition OpcUa_SecurityTokenRequestType_Renew : Z := 1.

(** The value of the enumeration. *)
Definition SecurityMode_value (m : OpcUa_MessageSecurityMode) : Z :=
  match m with
  | OpcUa_MessageSecurityMode_Invalid => 0
  | OpcUa_MessageSecurityMode_None => 1
  | OpcUa_MessageSecurityMode_Sign => 2
  | OpcUa_MessageSecurityMode_SignAndEncrypt => 3
  end.

(** The constructor of a value; a value out of the enumeration is not used as a mode. *)
Definition SecurityMode_of (v : Z) : OpcUa_MessageSecurityMode :=
  match v with
  | 1 => OpcUa_MessageSecurityMode_None
  | 2 => OpcUa_MessageSecurityMode_Sign
  | 3 => OpcUa_MessageSecurityMode_SignAndEncrypt
  | _ => OpcUa_MessageSecurityMode_Invalid
  end.

Definition is_none (m : OpcUa_MessageSecurityMode) : bool := bool_decide (m = OpcUa_MessageSecurityMode_None).

Definition SOPC_TimeReference_AddMilliseconds (timeRef ms : Z) : Z := if ms <? UINT64_MAX - timeRef then timeRef + ms else UINT64_MAX.

(** [revisedLifetime * 3 / 4], on 32 bits. *)
Definition renew_delay (lifetime : Z) : Z := u32 (lifetime * 3) / 4.

(** The requested lifetime, or the minimum. *)
Definition at_least_minimum (lifetime : Z) : Z :=
  if lifetime <? SOPC_MINIMUM_SECURE_CONNECTION_LIFETIME then SOPC_MINIMUM_SECURE_CONNECTION_LIFETIME else lifetime.

Section Opn.
Context `{Allocator} `{Host} `{EndiannessCfg} {cfg : SOPC_Common_EncodingConstants} `{Crypto} `{!SendCrypto} `{!Environment}.
Context {depth : nat}.
#[local] Abbreviation object := (@StructObject (Services depth)).
Context (memory : object).

(** [*errorStatus = e], and the result is false. *)
Definition fails (e : Z) : W bool := let@ _ := put_error e in wret false.

(** The two pointers to the types are equal. *)
Definition same_type (t msgType : SOPC_TypeInternalIndex) : bool := (index_of t =? index_of msgType)%nat.

(** Returns the result and the buffer. *)
Definition SC_ReadAndCheckOpcUaMessageType (msgType : SOPC_TypeInternalIndex) (msgBuffer : ptr SOPC_Buffer) : res (bool * ptr SOPC_Buffer) :=
  assert! negb (is_null msgBuffer) in
  let* (status, msgEncType, msgBuffer) := SOPC_MsgBodyType_Read msgBuffer NULL in
  Ret (is_ok status && match msgEncType with Some t => same_type t msgType | NULL => false end, msgBuffer).

(** ** Keys *)

Definition SecretBuffer_GetLength (b : SecretBuffer) : Z := zlen (SecretBuffer_Bytes b).

(** [SOPC_SecretBuffer_NewFromExposedBuffer(nonce.Data, nonce.Length)] *)
Definition secret_of (nonce : SOPC_ByteString) : ptr SecretBuffer :=
  match Data nonce with
  | NULL => NULL
  | Some d => SecretBuffer_NewFromExposedBuffer (take (Z.to_nat (Length nonce)) d)
  end.

(** Returns the result and the key sets. *)
Definition SC_DeriveSymmetricKeySets (isServer : bool) (provider : ptr CryptoProvider) (clientNonce serverNonce : ptr SecretBuffer)
    (keySets : SOPC_SC_SecurityKeySets) : W (bool * SOPC_SC_SecurityKeySets) :=
  wassert! negb (is_null provider) in
  match clientNonce, serverNonce with
  | Some clientNonce, Some serverNonce =>
      let '(status, (encryptKeyLength, signKeyLength, initVectorLength)) := DeriveGetLengths provider in
      if negb (is_ok status) then let@ _ := put_error OpcUa_BadTcpInternalError in wret (false, keySets)
      else
        let receiver := KeySet_New signKeyLength encryptKeyLength initVectorLength in
        let sender := KeySet_New signKeyLength encryptKeyLength initVectorLength in
        let keySets := mkKeySets sender receiver in
        match sender, receiver with
        | Some sender, Some receiver =>
            let '(status, secureChannelLength) := SymmetricGetLength_SecureChannelNonce provider in
            if negb (is_ok status) then let@ _ := put_error OpcUa_BadTcpInternalError in wret (false, keySets)
            else if negb (SecretBuffer_GetLength serverNonce =? secureChannelLength) || negb (SecretBuffer_GetLength clientNonce =? secureChannelLength)
            then let@ _ := put_error OpcUa_BadNonceInvalid in wret (false, keySets)
            else
              let '(status, keySets) :=
                (if isServer then
                   let '(status, (receiver, sender)) :=
                     DeriveKeySetsServer provider (SecretBuffer_Bytes clientNonce) serverNonce receiver sender in
                   (status, mkKeySets (Some sender) (Some receiver))
                 else
                   let '(status, (sender, receiver)) :=
                     DeriveKeySetsClient provider clientNonce (SecretBuffer_Bytes serverNonce) sender receiver in
                   (status, mkKeySets (Some sender) (Some receiver))) in
              if is_ok status then wret (true, keySets) else let@ _ := put_error OpcUa_BadTcpInternalError in wret (false, keySets)
        | _, _ => let@ _ := put_error OpcUa_BadOutOfMemory in wret (false, keySets)
        end
  | _, _ => wlift (Fault AssertFailed)
  end.

(** The bytes of a nonce are copied in the field of a message.  Returns the status and
    the field. *)
Definition copy_nonce (nonce : ptr SecretBuffer) : res (SOPC_ReturnStatus * SOPC_ByteString) :=
  let* b := deref (SOPC_ByteString_Initialize (Some string_init)) in
  match nonce with
  | NULL => Ret (SOPC_STATUS_INVALID_PARAMETERS, b)
  | Some nonce =>
      if SecretBuffer_GetLength nonce <=? INT32_MAX then
        let* (status, b') := SOPC_ByteString_CopyFromBytes (Some b) (Some (SecretBuffer_Bytes nonce)) (SecretBuffer_GetLength nonce) in
        let* b' := deref b' in Ret (status, b')
      else Ret (SOPC_STATUS_NOK, b)
  end.

(** ** Client: request *)

(** The nonce of the request, when the mode has one. *)
Definition client_nonce (sc : Z) (mode : OpcUa_MessageSecurityMode) : W (bool * SOPC_ByteString) :=
  if is_none mode then let@ b := wlift (deref (SOPC_ByteString_Initialize (Some string_init))) in wret (true, b)
  else
    let@ c := connection sc in
    let@ (status, nonce) := ask (fun n => GenerateSecureChannelNonce n (cryptoProvider c) (clientNonce c)) in
    let@ _ := update sc (fun c => set_clientNonce c nonce) in
    if is_ok status then let@ (status, b) := wlift (copy_nonce nonce) in wret (is_ok status, b)
    else let@ b := wlift (deref (SOPC_ByteString_Initialize (Some string_init))) in wret (false, b).

Definition open_request (version : Z) (isRenewal : bool) (mode : OpcUa_MessageSecurityMode) (nonce : SOPC_ByteString) (lifetime : Z) : res object :=
  let* o := SOPC_EncodeableObject_Initialize (index_of SOPC_TypeInternalIndex_OpenSecureChannelRequest) in
  let* o := put_number SOPC_UInt32_Id o 0 version in
  let* o := put_number SOPC_Int32_Id o 1 (if isRenewal then OpcUa_SecurityTokenRequestType_Renew else OpcUa_SecurityTokenRequestType_Issue) in
  let* o := put_number SOPC_Int32_Id o 2 (SecurityMode_value mode) in
  let* o := put_field o 3 (FBuiltin (B_String SOPC_ByteString_Id nonce)) in
  put_number SOPC_UInt32_Id o 4 lifetime.

(** The crypto provider is created for the first request. *)
Definition create_provider (sc : Z) (uri : ptr block) (isRenewal : bool) : W bool :=
  if isRenewal then wret true
  else
    let@ c := connection sc in
    wassert! is_null (cryptoProvider c) in
    let provider := CryptoProvider_Create uri in
    let@ _ := update sc (fun c => set_cryptoProvider c provider) in
    wret (negb (is_null provider)).

Definition SC_ClientTransitionHelper_SendOPN (sc scConnectionIdx : Z) (isRenewal : bool) : W bool :=
  let@ c := connection sc in
  let@ config := with_configuration (fun t => ToolkitClient_GetSecureChannelConfig t (endpointConnectionConfigIdx c)) in
  match config with
  | NULL => wlift (Fault AssertFailed)
  | Some config =>
      let@ result := create_provider sc (reqSecuPolicyUri config) isRenewal in
      if negb result then wret false
      else
        match SOPC_Buffer_Create (sendBufferSize (tcpMsgProperties c)) with
        | NULL => wret false
        | Some opnMsgBuffer =>
            let@ now := ask Time_GetCurrentTimeUTC in
            let@ reqHeader := wlift (request_header scConnectionIdx now) in
            let@ (result, nonce) := client_nonce sc (msgSecurityMode config) in
            let@ opnReq :=
              wlift (open_request (protocolVersion (tcpMsgProperties c)) isRenewal (msgSecurityMode config) nonce
                       (at_least_minimum (requestedLifetime config))) in
            let@ (status, opnMsgBuffer) :=
              wlift (SOPC_EncodeMsg_Type_Header_Body (Some opnMsgBuffer) (Some SOPC_TypeInternalIndex_OpenSecureChannelRequest)
                       (Some SOPC_TypeInternalIndex_RequestHeader) (Some reqHeader) (Some opnReq)) in
            if result && is_ok status then
              let@ _ := SOPC_SecureChannels_EnqueueInternalEvent INT_SC_SND_OPN scConnectionIdx (BufferParams opnMsgBuffer) 0 in
              wret true
            else wret false
        end
  end.

Definition SC_ClientTransition_ScInit_To_ScConnecting (sc scConnectionIdx : Z) : W bool :=
  let@ c := connection sc in
  wassert! in_state c SECURE_CONNECTION_STATE_SC_INIT in
  let@ result := SC_ClientTransitionHelper_SendOPN sc scConnectionIdx false in
  let@ _ := (if result then update sc (fun c => set_state c SECURE_CONNECTION_STATE_SC_CONNECTING) else wret tt) in
  wret result.

Definition SC_ClientTransition_ScConnected_To_ScConnectedRenew (sc scConnectionIdx : Z) : W bool :=
  let@ c := connection sc in
  wassert! in_state c SECURE_CONNECTION_STATE_SC_CONNECTED in
  let@ result := SC_ClientTransitionHelper_SendOPN sc scConnectionIdx true in
  let@ _ := (if result then update sc (fun c => set_state c SECURE_CONNECTION_STATE_SC_CONNECTED_RENEW) else wret tt) in
  wret result.

(** ** Client: response *)

(** The header and the body of the response, when they are accepted. *)
Definition check_response_header (scConnectionIdx : Z) (respHeader : object) : W bool :=
  let@ serviceResult := wlift (get_number SOPC_StatusCode_Id respHeader 2) in
  let@ handle := wlift (get_number SOPC_UInt32_Id respHeader 1) in
  let@ good :=
    (if negb (Z.land serviceResult SOPC_GoodStatusOppositeMask =? 0) then fails serviceResult else wret true) in
  if negb (handle =? scConnectionIdx) then fails OpcUa_BadSecurityChecksFailed else wret good.

Definition decode_response (scConnectionIdx : Z) (opnRespBuffer : ptr SOPC_Buffer) : W (ptr object) :=
  let@ (status, respHeader, opnRespBuffer) :=
    wlift (SOPC_DecodeMsg_HeaderOrBody memory opnRespBuffer (Some SOPC_TypeInternalIndex_ResponseHeader) NULL) in
  if negb (is_ok status) then let@ _ := put_error OpcUa_BadDecodingError in wret NULL
  else
    match respHeader with
    | NULL => wlift (Fault AssertFailed)
    | Some respHeader =>
        let@ result := check_response_header scConnectionIdx respHeader in
        if negb result then wret NULL
        else
          let@ (status, opnResp, _) :=
            wlift (SOPC_DecodeMsg_HeaderOrBody memory opnRespBuffer (Some SOPC_TypeInternalIndex_OpenSecureChannelResponse) NULL) in
          if negb (is_ok status) then let@ _ := put_error OpcUa_BadDecodingError in wret NULL else wret opnResp
    end.

(** The version and the identifiers of the response. *)
Definition check_token (sc : Z) (isOPNrenew : bool) (version channelId token : Z) : W bool :=
  let@ c := connection sc in
  let@ result := (if protocolVersion (tcpMsgProperties c) =? version then wret true else fails OpcUa_BadProtocolVersionUnsupported) in
  if negb isOPNrenew then
    let@ result :=
      (if (channelId =? 0) || negb (clientSecureChannelId c =? channelId) || (token =? 0)
       then fails OpcUa_BadSecureChannelIdInvalid else wret result) in
    let@ _ := update sc (fun c => set_clientSecureChannelId c 0) in
    wret result
  else if negb (channelId =? secureChannelId (currentSecurityToken c)) || (token =? 0) || (token =? tokenId (currentSecurityToken c))
  then fails OpcUa_BadSecureChannelIdInvalid else wret result.

(** The keys that the client derives from the nonce of the server. *)
Definition client_keys (sc : Z) (mode : OpcUa_MessageSecurityMode) (serverNonce : SOPC_ByteString) : W (bool * SOPC_SC_SecurityKeySets) :=
  let no_keys := mkKeySets NULL NULL in
  if is_none mode then wret (true, no_keys)
  else
    let@ c := connection sc in
    wassert! negb (is_null (clientNonce c)) in
    let@ (result, keySets) :=
      (if Length serverNonce <=? 0 then let@ _ := put_error OpcUa_BadNonceInvalid in wret (false, no_keys)
       else
         match secret_of serverNonce with
         | NULL => let@ _ := put_error OpcUa_BadNonceInvalid in wret (false, no_keys)
         | Some secretServerNonce => SC_DeriveSymmetricKeySets false (cryptoProvider c) (clientNonce c) (Some secretServerNonce) no_keys
         end) in
    let@ _ := update sc (fun c => set_clientNonce c NULL) in
    wret (result, keySets).

(** The new token becomes the current one; the token that is renewed is kept. *)
Definition keep_precedent (c : SOPC_SecureConnection) : SOPC_SecureConnection :=
  set_precedentSecurityToken (set_precedentSecuKeySets c (currentSecuKeySets c)) (currentSecurityToken c).

Definition install_token (c : SOPC_SecureConnection) (token : SOPC_SecureConnection_SecurityToken) (keySets : SOPC_SC_SecurityKeySets)
    : SOPC_SecureConnection :=
  set_currentSecurityToken (set_currentSecuKeySets c keySets) token.

Definition SC_ClientTransitionHelper_ReceiveOPN (sc : Z) (scConfig : SOPC_SecureChannel_Config) (scConnectionIdx : Z)
    (opnRespBuffer : ptr SOPC_Buffer) (isOPNrenew : bool) : W bool :=
  let@ opnResp := decode_response scConnectionIdx opnRespBuffer in
  match opnResp with
  | NULL => wret false
  | Some opnResp =>
      let@ version := wlift (get_number SOPC_UInt32_Id opnResp 1) in
      let@ token := wlift (get_struct opnResp 2) in
      let@ channelId := wlift (get_number SOPC_UInt32_Id token 0) in
      let@ newTokenId := wlift (get_number SOPC_UInt32_Id token 1) in
      let@ created := wlift (get_number SOPC_DateTime_Id token 2) in
      let@ lifetime := wlift (get_number SOPC_UInt32_Id token 3) in
      let@ serverNonce := wlift (get_bytes opnResp 3) in
      let@ result := check_token sc isOPNrenew version channelId newTokenId in
      if negb result then wret false
      else
        let@ (result, keySets) := client_keys sc (msgSecurityMode scConfig) serverNonce in
        if negb result then wret false
        else
          let@ now := ask TimeReference_GetCurrent in
          let@ _ := update sc (fun c =>
            install_token (if isOPNrenew then keep_precedent c else c)
              (mkSecurityToken channelId newTokenId created (SOPC_TimeReference_AddMilliseconds now lifetime) lifetime) keySets) in
          let@ (status, timer) := SC_Client_StartOPNrenewTimer scConnectionIdx (renew_delay lifetime) in
          let@ _ := update sc (fun c => set_secuTokenRenewTimerId c timer) in
          if is_ok status then wret true else fails OpcUa_BadResourceUnavailable
  end.

(** [scConfig->internalProtocolData = n] *)
Definition set_protocol_data (scConfig : SOPC_SecureChannel_Config) (n : Z) : SOPC_SecureChannel_Config :=
  mkChannelConfig (isClientSc scConfig) (url scConfig) (crt_cli scConfig) (key_priv_cli scConfig) (crt_srv scConfig) (pki scConfig)
    (reqSecuPolicyUri scConfig) (requestedLifetime scConfig) (msgSecurityMode scConfig) n.

(** The two transitions of the client that receive a response. *)
Definition receive_response (sc scConnectionIdx : Z) (opnRespBuffer : ptr SOPC_Buffer) (isOPNrenew : bool) (s : SOPC_SecureConnection_State)
    : W (bool * SOPC_SecureChannel_Config) :=
  let@ c := connection sc in
  wassert! in_state c s in
  wassert! negb (isServerConnection c) in
  wassert! negb (is_null opnRespBuffer) in
  let@ scConfig := with_configuration (fun t => ToolkitClient_GetSecureChannelConfig t (endpointConnectionConfigIdx c)) in
  match scConfig with
  | NULL => wlift (Fault AssertFailed)
  | Some scConfig =>
      let@ result := SC_ClientTransitionHelper_ReceiveOPN sc scConfig scConnectionIdx opnRespBuffer isOPNrenew in
      wret (result, scConfig)
  end.

Definition SC_ClientTransition_ScConnecting_To_ScConnected (sc scConnectionIdx : Z) (opnRespBuffer : ptr SOPC_Buffer) : W bool :=
  let@ (result, scConfig) := receive_response sc scConnectionIdx opnRespBuffer false SECURE_CONNECTION_STATE_SC_CONNECTING in
  if negb result then wret false
  else
    let@ c := connection sc in
    let@ w := wget in
    let@ l :=
      wlift (array_set (scConfigs (configuration w)) (endpointConnectionConfigIdx c)
               (Some (set_protocol_data scConfig (sendMaxMessageSize (tcpMsgProperties c))))) in
    let@ _ := put_configuration (set_scConfigs (configuration w) l (scConfigIdxMax (configuration w))) in
    let@ _ := update sc (fun c => set_state c SECURE_CONNECTION_STATE_SC_CONNECTED) in
    wret true.

Definition SC_ClientTransition_ScConnectedRenew_To_ScConnected (sc scConnectionIdx : Z) (opnRespBuffer : ptr SOPC_Buffer) : W bool :=
  let@ (result, _) := receive_response sc scConnectionIdx opnRespBuffer true SECURE_CONNECTION_STATE_SC_CONNECTED_RENEW in
  let@ _ := (if result then update sc (fun c => set_state c SECURE_CONNECTION_STATE_SC_CONNECTED) else wret tt) in
  wret result.

(** ** Server: first request *)

(** The handle of the request and its body, when they are decoded. *)
Definition decode_request (opnReqMsgBuffer : ptr SOPC_Buffer) : res (ptr (Z * object)) :=
  let* (status, reqHeader, opnReqMsgBuffer) :=
    SOPC_DecodeMsg_HeaderOrBody memory opnReqMsgBuffer (Some SOPC_TypeInternalIndex_RequestHeader) NULL in
  if negb (is_ok status) then Ret NULL
  else
    match reqHeader with
    | NULL => Fault AssertFailed
    | Some reqHeader =>
        let* handle := get_number SOPC_UInt32_Id reqHeader 2 in
        let* (status, opnReq, _) :=
          SOPC_DecodeMsg_HeaderOrBody memory opnReqMsgBuffer (Some SOPC_TypeInternalIndex_OpenSecureChannelRequest) NULL in
        if negb (is_ok status) then Ret NULL
        else match opnReq with NULL => Fault AssertFailed | Some opnReq => Ret (Some (handle, opnReq)) end
    end.

(** The certificate of the client, as bytes; returns the result and [*buffer]. *)
Definition get_certificate_der (cert : ptr CertificateList) : bool * ptr block :=
  match cert with
  | NULL => (true, NULL)
  | Some _ =>
      let '(status, cert_data) := Certificate_ToDER cert in
      if negb (is_ok status) then (false, NULL)
      else
        match SOPC_Buffer_Attach cert_data (match cert_data with Some d => zlen d | NULL => 0 end) with
        | NULL => (false, NULL)
        | Some cert_buffer => (true, data cert_buffer)
        end
  end.

Definition mode_is_valid (validModes mode : Z) : bool :=
  match SecurityMode_of mode with
  | OpcUa_MessageSecurityMode_None => negb (Z.land validModes SOPC_SECURITY_MODE_NONE_MASK =? 0)
  | OpcUa_MessageSecurityMode_Sign => negb (Z.land validModes SOPC_SECURITY_MODE_SIGN_MASK =? 0)
  | OpcUa_MessageSecurityMode_SignAndEncrypt => negb (Z.land validModes SOPC_SECURITY_MODE_SIGNANDENCRYPT_MASK =? 0)
  | OpcUa_MessageSecurityMode_Invalid => false
  end.

(** The version, the type of the request and the mode that are requested. *)
Definition check_issue (c : SOPC_SecureConnection) (version requestType mode : Z) : W bool :=
  let@ result := (if protocolVersion (tcpMsgProperties c) =? version then wret true else fails OpcUa_BadTcpInternalError) in
  let@ result :=
    (if result && negb (requestType =? OpcUa_SecurityTokenRequestType_Issue) then fails OpcUa_BadTcpSecureChannelUnknown else wret result) in
  let info := serverAsymmSecuInfo c in
  if negb (mode_is_valid (validSecurityModes info) mode) then fails OpcUa_BadSecurityChecksFailed
  else if negb (isSecureModeActive info) && negb (is_none (SecurityMode_of mode)) then fails OpcUa_BadSecurityChecksFailed
  else wret result.

(** The nonce of the client is recorded; [failure] is the error when it cannot be. *)
Definition record_client_nonce (sc : Z) (mode : OpcUa_MessageSecurityMode) (nonce : SOPC_ByteString) (failure : Z) : W bool :=
  if is_none mode then wret true
  else
    wassert! bool_decide (mode = OpcUa_MessageSecurityMode_Sign) || bool_decide (mode = OpcUa_MessageSecurityMode_SignAndEncrypt) in
    if 0 <? Length nonce then
      let@ _ := update sc (fun c => set_clientNonce c (secret_of nonce)) in
      if is_null (secret_of nonce) then fails failure else wret true
    else fails OpcUa_BadNonceInvalid.

(** The configuration of the channel that the request opens. *)
Definition channel_config (c : SOPC_SecureConnection) (epConfig : SOPC_Endpoint_Config) (server : SOPC_Server_Config) (cert : ptr block)
    (mode : OpcUa_MessageSecurityMode) (lifetime : Z) : SOPC_SecureChannel_Config :=
  mkChannelConfig false (endpointURL epConfig) cert NULL (serverCertificate_ server) (serverPki server)
    (securityPolicyUri (serverAsymmSecuInfo c)) lifetime mode (sendMaxMessageSize (tcpMsgProperties c)).

(** The treatment of a request that is decoded. *)
Definition treat_issue (sc : Z) (epConfig : SOPC_Endpoint_Config) (opnReq : object) : W bool :=
  let@ c := connection sc in
  let@ version := wlift (get_number SOPC_UInt32_Id opnReq 0) in
  let@ requestType := wlift (get_number SOPC_Int32_Id opnReq 1) in
  let@ mode := wlift (get_number SOPC_Int32_Id opnReq 2) in
  let@ nonce := wlift (get_bytes opnReq 3) in
  let@ lifetime := wlift (get_number SOPC_UInt32_Id opnReq 4) in
  let@ result := check_issue c version requestType mode in
  let@ result := (if result then record_client_nonce sc (SecurityMode_of mode) nonce OpcUa_BadTcpInternalError else wret false) in
  let '(converted, cert) := get_certificate_der (clientCertificate_ (serverAsymmSecuInfo c)) in
  let@ result := (if alloc_ok sizeof_SOPC_SecureChannel_Config && converted then wret result else fails OpcUa_BadTcpInternalError) in
  if negb result then wret false
  else
    let@ server := wlift (deref (serverConfigPtr epConfig)) in
    let@ (idx, t) :=
      with_configuration (fun t =>
        SOPC_ToolkitServer_AddSecureChannelConfig t
          (channel_config c epConfig server cert (SecurityMode_of mode) (at_least_minimum lifetime))) in
    let@ _ := put_configuration t in
    if 0 <? idx then
      let@ _ := update sc (fun c =>
        set_clientCertificate (set_endpointConnectionConfigIdx c idx) (clientCertificate_ (serverAsymmSecuInfo c))) in
      wret true
    else wret false.

(** Returns the result and [*requestHandle]. *)
Definition SC_ServerTransition_ScInit_To_ScConnecting (sc : Z) (opnReqMsgBuffer : ptr SOPC_Buffer) : W (bool * Z) :=
  let@ c := connection sc in
  wassert! negb (is_null opnReqMsgBuffer) in
  wassert! in_state c SECURE_CONNECTION_STATE_SC_INIT in
  wassert! isServerConnection c in
  wassert! negb (is_null (securityPolicyUri (serverAsymmSecuInfo c))) in
  wassert! negb (validSecurityModes (serverAsymmSecuInfo c) =? 0) in
  let@ epConfig := with_configuration (fun t => ToolkitServer_GetEndpointConfig t (serverEndpointConfigIdx c)) in
  match epConfig with
  | NULL => wlift (Fault AssertFailed)
  | Some epConfig =>
      let@ request := wlift (decode_request opnReqMsgBuffer) in
      let@ (result, handle) :=
        match request with
        | NULL => wret (false, 0)
        | Some (handle, opnReq) => let@ result := treat_issue sc epConfig opnReq in wret (result, handle)
        end in
      let@ _ := (if result then update sc (fun c => set_state c SECURE_CONNECTION_STATE_SC_CONNECTING) else wret tt) in
      let@ _ := update sc (fun c => set_serverAsymmSecuInfo c (mkAsymmSecu NULL 0 false NULL)) in
      wret (result, handle)
  end.

(** ** Server: identifiers *)

(** Whether the connection of a slot of the listener uses the identifiers. *)
Definition slot_uses (conns : list SOPC_SecureConnection) (l : SOPC_SecureListener) (idx newSecureChannelId newTokenId : Z) : res (bool * bool) :=
  let* used := array_get (isUsedConnectionIdxArray l) idx in
  if used then
    let* connectionIdx := array_get (connectionIdxArray l) idx in
    let* c := array_get conns connectionIdx in
    if in_state c SECURE_CONNECTION_STATE_SC_CLOSED then Ret (false, false)
    else Ret (newSecureChannelId =? secureChannelId (currentSecurityToken c), newTokenId =? tokenId (currentSecurityToken c))
  else Ret (false, false).

(** The [for] loop over the slots, [n] of them from [idx]; it stops when both identifiers
    are occupied. *)
Fixpoint scan_slots (n : nat) (conns : list SOPC_SecureConnection) (l : SOPC_SecureListener) (idx newSecureChannelId newTokenId : Z)
    (occupiedScId occupiedTokenId : bool) : res (bool * bool) :=
  match n with
  | O => Ret (occupiedScId, occupiedTokenId)
  | S n =>
      if negb occupiedScId || negb occupiedTokenId then
        let* (sameScId, sameTokenId) := slot_uses conns l idx newSecureChannelId newTokenId in
        scan_slots n conns l (idx + 1) newSecureChannelId newTokenId (occupiedScId || sameScId) (occupiedTokenId || sameTokenId)
      else Ret (occupiedScId, occupiedTokenId)
  end.

(** A new identifier when there is none; [None] when it cannot be generated. *)
Definition draw (provider : ptr CryptoProvider) (found current : Z) : W (option Z) :=
  if found =? 0 then
    let@ (status, i) := ask (fun n => GenerateRandomID n provider) in
    wret (if is_ok status then Some i else None)
  else wret (Some current).

(** The [while] loop: [resultSecureChannelId] and [resultTokenId] are 0 until they are
    found, [newSecureChannelId] and [newTokenId] the last ones that were drawn. *)
Fixpoint find_ids (attempts : nat) (provider : ptr CryptoProvider) (l : SOPC_SecureListener)
    (resultSecureChannelId resultTokenId newSecureChannelId newTokenId : Z) : W (Z * Z) :=
  if (resultSecureChannelId =? 0) || (resultTokenId =? 0) then
    match attempts with
    | O => wret (resultSecureChannelId, resultTokenId)
    | S attempts =>
        let@ channel := draw provider resultSecureChannelId newSecureChannelId in
        match channel with
        | None => find_ids attempts provider l resultSecureChannelId resultTokenId newSecureChannelId newTokenId
        | Some newSecureChannelId =>
            let@ token := draw provider resultTokenId newTokenId in
            match token with
            | None => find_ids attempts provider l resultSecureChannelId resultTokenId newSecureChannelId newTokenId
            | Some newTokenId =>
                if negb (newSecureChannelId =? 0) && negb (newTokenId =? 0) then
                  let@ w := wget in
                  let@ (occupiedScId, occupiedTokenId) :=
                    wlift (scan_slots (Z.to_nat SOPC_MAX_SOCKETS_CONNECTIONS) (secureConnectionsArray w) l 0 newSecureChannelId newTokenId
                             false false) in
                  find_ids attempts provider l (if occupiedScId then resultSecureChannelId else newSecureChannelId)
                    (if occupiedTokenId then resultTokenId else newTokenId) newSecureChannelId newTokenId
                else find_ids attempts provider l resultSecureChannelId resultTokenId newSecureChannelId newTokenId
            end
        end
    end
  else wret (resultSecureChannelId, resultTokenId).

(** The number of attempts. *)
Definition id_attempts : nat := 5.

(** Returns the identifiers when they are found. *)
Definition SC_Server_GenerateFreshSecureChannelAndTokenId (c : SOPC_SecureConnection) : W (option (Z * Z)) :=
  wassert! isServerConnection c in
  let@ scListener := listener (serverEndpointConfigIdx c) in
  if is_opened scListener then
    let@ (channel, token) := find_ids id_attempts (cryptoProvider c) scListener 0 0 0 0 in
    wret (if negb (channel =? 0) && negb (token =? 0) then Some (channel, token) else None)
  else wret None.

(** The loop over the slots, until the token is occupied. *)
Fixpoint scan_tokens (n : nat) (conns : list SOPC_SecureConnection) (l : SOPC_SecureListener) (idx newTokenId : Z) : res bool :=
  match n with
  | O => Ret false
  | S n =>
      let* (_, sameTokenId) := slot_uses conns l idx 0 newTokenId in
      if sameTokenId then Ret true else scan_tokens n conns l (idx + 1) newTokenId
  end.

Fixpoint find_token (attempts : nat) (provider : ptr CryptoProvider) (l : SOPC_SecureListener) : W Z :=
  match attempts with
  | O => wret 0
  | S attempts =>
      let@ (status, newTokenId) := ask (fun n => GenerateRandomID n provider) in
      if is_ok status && negb (newTokenId =? 0) then
        let@ w := wget in
        let@ occupiedId := wlift (scan_tokens (Z.to_nat SOPC_MAX_SOCKETS_CONNECTIONS) (secureConnectionsArray w) l 0 newTokenId) in
        if occupiedId then find_token attempts provider l else wret newTokenId
      else find_token attempts provider l
  end.

Definition SC_Server_GenerateFreshTokenId (c : SOPC_SecureConnection) : W Z :=
  wassert! isServerConnection c in
  let@ scListener := listener (serverEndpointConfigIdx c) in
  if is_opened scListener then find_token id_attempts (cryptoProvider c) scListener else wret 0.

(** ** Server: responses *)

Definition response_header (timestamp requestHandle : Z) : res object :=
  let* h := SOPC_EncodeableObject_Initialize (index_of SOPC_TypeInternalIndex_ResponseHeader) in
  let* h := put_number SOPC_DateTime_Id h 0 timestamp in
  put_number SOPC_UInt32_Id h 1 requestHandle.

Definition open_response (version : Z) (token : SOPC_SecureConnection_SecurityToken) (nonce : SOPC_ByteString) : res object :=
  let* o := SOPC_EncodeableObject_Initialize (index_of SOPC_TypeInternalIndex_OpenSecureChannelResponse) in
  let* o := put_number SOPC_UInt32_Id o 1 version in
  let* t := get_struct o 2 in
  let* t := put_number SOPC_UInt32_Id t 0 (secureChannelId token) in
  let* t := put_number SOPC_UInt32_Id t 1 (tokenId token) in
  let* t := put_number SOPC_DateTime_Id t 2 (createdAt token) in
  let* t := put_number SOPC_UInt32_Id t 3 (revisedLifetime token) in
  let* o := put_field o 2 (FStruct t) in
  put_field o 3 (FBuiltin (B_String SOPC_ByteString_Id nonce)).

(** The nonce of the server, the keys and the field of the message, for a mode with
    security; [hidden]: an invalid nonce is reported as a failure of the security checks. *)
Definition server_keys (sc : Z) (hidden : bool) (keySets : SOPC_SC_SecurityKeySets) : W (bool * SOPC_SC_SecurityKeySets * SOPC_ByteString) :=
  let@ c := connection sc in
  wassert! negb (is_null (clientNonce c)) in
  let@ no_nonce := wlift (deref (SOPC_ByteString_Initialize (Some string_init))) in
  let@ (status, serverNonce) := ask (fun n => GenerateSecureChannelNonce n (cryptoProvider c) NULL) in
  let@ (result, keySets, nonce) :=
    (if is_ok status then
       let@ (result, keySets) := SC_DeriveSymmetricKeySets true (cryptoProvider c) (clientNonce c) serverNonce keySets in
       if result then
         let@ (status, nonce) := wlift (copy_nonce serverNonce) in
         if is_ok status then wret (true, keySets, nonce)
         else
           let@ _ := put_error (match status with SOPC_STATUS_NOK => OpcUa_BadTcpInternalError | _ => OpcUa_BadOutOfMemory end) in
           wret (false, keySets, nonce)
       else
         let@ w := wget in
         let@ _ := (if hidden && (error w =? OpcUa_BadNonceInvalid) then put_error OpcUa_BadSecurityChecksFailed else wret tt) in
         wret (false, keySets, no_nonce)
     else let@ _ := put_error OpcUa_BadTcpInternalError in wret (false, keySets, no_nonce)) in
  let@ _ := update sc (fun c => set_clientNonce c NULL) in
  wret (result, keySets, nonce).

(** The response is encoded. *)
Definition encode_response (opnRespBuffer : SOPC_Buffer) (version requestHandle : Z) (token : SOPC_SecureConnection_SecurityToken)
    (nonce : SOPC_ByteString) : W (bool * ptr SOPC_Buffer) :=
  let@ now := ask Time_GetCurrentTimeUTC in
  let@ respHeader := wlift (response_header now requestHandle) in
  let@ opnResp := wlift (open_response version token nonce) in
  let@ (status, buffer) :=
    wlift (SOPC_EncodeMsg_Type_Header_Body (Some opnRespBuffer) (Some SOPC_TypeInternalIndex_OpenSecureChannelResponse)
             (Some SOPC_TypeInternalIndex_ResponseHeader) (Some respHeader) (Some opnResp)) in
  if is_ok status then wret (true, buffer) else let@ _ := put_error OpcUa_BadEncodingError in wret (false, buffer).

(** The security token is defined; the identifiers are kept when there are no new ones. *)
Definition issue_token (sc : Z) (lifetime : Z) : W bool :=
  let@ c := connection sc in
  let@ ids := SC_Server_GenerateFreshSecureChannelAndTokenId c in
  let@ created := ask Time_GetCurrentTimeUTC in
  let@ now := ask TimeReference_GetCurrent in
  let '(channel, token) :=
    match ids with
    | Some ids => ids
    | None => (secureChannelId (currentSecurityToken c), tokenId (currentSecurityToken c))
    end in
  let@ _ := update sc (fun c =>
    set_serverNewSecuTokenActive
      (set_currentSecurityToken c (mkSecurityToken channel token created (SOPC_TimeReference_AddMilliseconds now lifetime) lifetime)) true) in
  wret (match ids with Some _ => true | None => false end).

Definition SC_ServerTransition_ScConnecting_To_ScConnected (sc scConnectionIdx requestId requestHandle : Z) : W bool :=
  let@ c := connection sc in
  wassert! in_state c SECURE_CONNECTION_STATE_SC_CONNECTING in
  wassert! isServerConnection c in
  wassert! negb (is_null (cryptoProvider c)) in
  let@ scConfig := with_configuration (fun t => ToolkitServer_GetSecureChannelConfig t (endpointConnectionConfigIdx c)) in
  match scConfig with
  | NULL => wlift (Fault AssertFailed)
  | Some scConfig =>
      match SOPC_Buffer_Create (sendBufferSize (tcpMsgProperties c)) with
      | NULL => fails OpcUa_BadTcpInternalError
      | Some opnRespBuffer =>
          let@ result := issue_token sc (requestedLifetime scConfig) in
          if negb result then fails OpcUa_BadTcpInternalError
          else
            let@ (result, nonce) :=
              (if is_none (msgSecurityMode scConfig)
               then let@ b := wlift (deref (SOPC_ByteString_Initialize (Some string_init))) in wret (true, b)
               else
                 let@ (result, keySets, nonce) := server_keys sc true (currentSecuKeySets c) in
                 let@ _ := update sc (fun c => set_currentSecuKeySets c keySets) in
                 wret (result, nonce)) in
            if negb result then wret false
            else
              let@ c := connection sc in
              let@ (result, buffer) :=
                encode_response opnRespBuffer (protocolVersion (tcpMsgProperties c)) requestHandle (currentSecurityToken c) nonce in
              if negb result then wret false
              else
                let@ _ := update sc (fun c => set_state c SECURE_CONNECTION_STATE_SC_CONNECTED) in
                let@ _ := SOPC_SecureChannels_EnqueueInternalEvent INT_SC_SND_OPN scConnectionIdx (BufferParams buffer) requestId in
                wret true
      end
  end.

(** ** Server: renewal *)

Definition check_renew (c : SOPC_SecureConnection) (scConfig : SOPC_SecureChannel_Config) (version requestType mode : Z) : W bool :=
  if negb (protocolVersion (tcpMsgProperties c) =? version) then fails OpcUa_BadProtocolVersionUnsupported
  else if negb (requestType =? OpcUa_SecurityTokenRequestType_Renew) then fails OpcUa_BadSecurityChecksFailed
  else if negb (mode =? SecurityMode_value (msgSecurityMode scConfig)) then fails OpcUa_BadSecurityModeRejected
  else wret true.

(** Returns the result, [*requestHandle] and [*requestedLifetime]. *)
Definition SC_ServerTransition_ScConnected_To_ScConnectedRenew (sc : Z) (opnReqMsgBuffer : ptr SOPC_Buffer) : W (bool * Z * Z) :=
  let@ c := connection sc in
  wassert! negb (is_null opnReqMsgBuffer) in
  wassert! in_state c SECURE_CONNECTION_STATE_SC_CONNECTED in
  wassert! isServerConnection c in
  let@ scConfig := with_configuration (fun t => ToolkitServer_GetSecureChannelConfig t (endpointConnectionConfigIdx c)) in
  match scConfig with
  | NULL => wlift (Fault AssertFailed)
  | Some scConfig =>
      let@ request := wlift (decode_request opnReqMsgBuffer) in
      match request with
      | NULL => wret (false, 0, 0)
      | Some (handle, opnReq) =>
          let@ version := wlift (get_number SOPC_UInt32_Id opnReq 0) in
          let@ requestType := wlift (get_number SOPC_Int32_Id opnReq 1) in
          let@ mode := wlift (get_number SOPC_Int32_Id opnReq 2) in
          let@ nonce := wlift (get_bytes opnReq 3) in
          let@ lifetime := wlift (get_number SOPC_UInt32_Id opnReq 4) in
          let@ result := check_renew c scConfig version requestType mode in
          let@ result := (if result then record_client_nonce sc (msgSecurityMode scConfig) nonce OpcUa_BadNonceInvalid else wret false) in
          let@ _ := (if result then update sc (fun c => set_state c SECURE_CONNECTION_STATE_SC_CONNECTED_RENEW) else wret tt) in
          wret (result, handle, at_least_minimum lifetime)
      end
  end.

(** The new token of the channel. *)
Definition renew_token (sc : Z) (requestedLifetime : Z) : W (ptr SOPC_SecureConnection_SecurityToken) :=
  let@ c := connection sc in
  let@ token := SC_Server_GenerateFreshTokenId c in
  if token =? 0 then wret NULL
  else
    let@ created := ask Time_GetCurrentTimeUTC in
    let@ now := ask TimeReference_GetCurrent in
    wret (Some (mkSecurityToken (secureChannelId (currentSecurityToken c)) token created
                  (SOPC_TimeReference_AddMilliseconds now requestedLifetime) requestedLifetime)).

Definition SC_ServerTransition_ScConnectedRenew_To_ScConnected (sc scConnectionIdx requestId requestHandle requestedLifetime : Z) : W bool :=
  let@ c := connection sc in
  wassert! in_state c SECURE_CONNECTION_STATE_SC_CONNECTED_RENEW in
  wassert! isServerConnection c in
  let@ scConfig := with_configuration (fun t => ToolkitServer_GetSecureChannelConfig t (endpointConnectionConfigIdx c)) in
  match scConfig with
  | NULL => wlift (Fault AssertFailed)
  | Some scConfig =>
      match SOPC_Buffer_Create (sendBufferSize (tcpMsgProperties c)) with
      | NULL => fails OpcUa_BadOutOfMemory
      | Some opnRespBuffer =>
          let@ token := renew_token sc requestedLifetime in
          match token with
          | NULL => wret false
          | Some newSecuToken =>
              let@ (result, newSecuKeySets, nonce) :=
                (if is_none (msgSecurityMode scConfig)
                 then let@ b := wlift (deref (SOPC_ByteString_Initialize (Some string_init))) in wret (true, mkKeySets NULL NULL, b)
                 else server_keys sc false (mkKeySets NULL NULL)) in
              if negb result then wret false
              else
                let@ (result, buffer) :=
                  encode_response opnRespBuffer (protocolVersion (tcpMsgProperties c)) requestHandle newSecuToken nonce in
                if negb result then wret false
                else
                  let@ _ := update sc (fun c =>
                    set_serverNewSecuTokenActive
                      (install_token (keep_precedent (set_state c SECURE_CONNECTION_STATE_SC_CONNECTED)) newSecuToken newSecuKeySets) false) in
                  let@ _ := SOPC_SecureChannels_EnqueueInternalEvent INT_SC_SND_OPN scConnectionIdx (BufferParams buffer) requestId in
                  wret true
          end
      end
  end.

End Opn.
