(* ===== verification/StateMgrEvents.v ===== *)
(** * Connections: events

    Model of the handlers of the events of
    [src/src/ClientServer/secure_channels/sopc_secure_connection_state_mgr.c], of the
    dispatch of [sopc_secure_channels_api.c] to the listeners, the connections and the
    chunks, and of the thread that treats the events one after the other
    ([looper_loop] of [src/src/Common/helpers/sopc_event_handler.c]). *)

From Stdlib Require Import ZArith Lia.
From Stdlib Require Import Strings.Byte Strings.String.
From stdpp Require Import prelude gmap.
From S2P Require Import Prelude Common LinkedList Buffer Codec EncScalar EncString EncNodeId EncText EncArray EncExtObj EncVariant EncVariantSpec.
From S2P Require Import EncStruct EncStructSpec Types TypesSpec Services Message Strings Arrays SecureConnection ToolkitConfig Chunks ChunksSend.
From S2P Require Import SecureChannels SecureListener StateMgr StateMgrOpn.

Open Scope Z_scope.

Section Events.
Context `{Allocator} `{Host} `{EndiannessCfg} {cfg : SOPC_Common_EncodingConstants} `{Crypto} `{!SendCrypto} `{!Environment}.
Context {depth : nat}.
#[local] Abbreviation object := (@StructObject (Services depth)).
Context (memory : object).

#[local] Abbreviation close := (SC_CloseSecureConnection (depth := depth)).

(** ** Keys and certificates *)

(** The private key, the certificate and the certificate of the peer of the
    configuration, as bytes. *)
Definition configured_keys (c : SOPC_SecureConnection) : W (ptr SecretBuffer * ptr block * ptr block) :=
  if isServerConnection c then
    let@ epConfig := with_configuration (fun t => ToolkitServer_GetEndpointConfig t (serverEndpointConfigIdx c)) in
    match epConfig with
    | NULL => wlift (Fault AssertFailed)
    | Some epConfig =>
        let@ server := wlift (deref (serverConfigPtr epConfig)) in
        wret (serverKey server, serverCertificate_ server, NULL)
    end
  else
    let@ scConfig := with_configuration (fun t => ToolkitClient_GetSecureChannelConfig t (endpointConnectionConfigIdx c)) in
    match scConfig with
    | NULL => wlift (Fault AssertFailed)
    | Some scConfig => wret (key_priv_cli scConfig, crt_cli scConfig, crt_srv scConfig)
    end.

Definition set_own_certificate (c : SOPC_SecureConnection) (cert : ptr CertificateList) : SOPC_SecureConnection :=
  if isServerConnection c then set_serverCertificate c cert else set_clientCertificate c cert.

(** The certificates of a new connection are null before the call. *)
Definition sc_init_key_and_certs (sc : Z) : W bool :=
  let@ c := connection sc in
  let@ (serialized_private_key, cert_data, peer_cert_data) := configured_keys c in
  match serialized_private_key, cert_data with
  | Some serialized_private_key, Some cert_data =>
      let '(key_status, key) := SerializedAsymmetricKey_Deserialize serialized_private_key false in
      let '(cert_status, cert) := Certificate_CreateOrAddFromDER cert_data in
      let '(peer_status, peer) :=
        match peer_cert_data with
        | Some d => Certificate_CreateOrAddFromDER d
        | NULL => (SOPC_STATUS_OK, NULL)
        end in
      let has_peer := negb (is_null peer_cert_data) in
      if is_ok key_status && is_ok cert_status && is_ok peer_status then
        let@ _ := update sc (fun c =>
          let c := set_own_certificate (set_privateKey c key) cert in if has_peer then set_serverCertificate c peer else c) in
        wret true
      else
        let@ _ := update sc (fun c =>
          let c := set_own_certificate (set_privateKey c NULL) NULL in if has_peer then set_serverCertificate c NULL else c) in
        wret false
  | _, _ => wret true
  end.

(** Returns the result and [*conn_idx]. *)
Definition initServerSC (socket endpointConfig : Z) : W (bool * Z) :=
  let@ (result, conn_idx) := SC_InitNewConnection in
  if negb result then wret (false, conn_idx)
  else
    match SC_GetConnection conn_idx with
    | NULL => wlift (Fault AssertFailed)
    | Some sc =>
        let@ _ := update sc (fun c => set_isServerConnection (set_serverEndpointConfigIdx (set_socketIndex c socket) endpointConfig) true) in
        let@ result := sc_init_key_and_certs sc in
        if negb result then wret (false, conn_idx)
        else
          let@ (status, timer) := SC_StartConnectionEstablishTimer conn_idx in
          let@ _ := update sc (fun c => set_connectionTimeoutTimerId c timer) in
          wret (is_ok status, conn_idx)
    end.

(** ** Messages [OPN] *)

(** The status of a failure is an error. *)
Definition error_or_default : W Z :=
  let@ w := wget in wret (if error w =? SOPC_GoodGenericStatus then OpcUa_BadTcpInternalError else error w).

Definition onClientSideOpen (sc scIdx : Z) (msg : ptr SOPC_Buffer) : W unit :=
  let@ c := connection sc in
  wassert! negb (isServerConnection c) in
  let connecting := in_state c SECURE_CONNECTION_STATE_SC_CONNECTING in
  let renewing := in_state c SECURE_CONNECTION_STATE_SC_CONNECTED_RENEW in
  if negb connecting && negb renewing then
    close (Some sc) scIdx false false OpcUa_BadSecurityChecksFailed (cstring "Invalid state to receive an OPN request")
  else
    let@ (result, msg) := wlift (SC_ReadAndCheckOpcUaMessageType SOPC_TypeInternalIndex_OpenSecureChannelResponse msg) in
    if negb result then
      close (Some sc) scIdx false false OpcUa_BadRequestNotAllowed (cstring "Unexpected OpenSecureChannel request received by client")
    else
      let@ _ := put_error SOPC_GoodGenericStatus in
      if connecting then
        let@ result := SC_ClientTransition_ScConnecting_To_ScConnected memory sc scIdx msg in
        if negb result then
          let@ status := error_or_default in
          close (Some sc) scIdx false false status (cstring "Failure during OpenSecureChannel response treatment")
        else
          let@ c := connection sc in
          let@ _ := output_to (TimerCancelled (connectionTimeoutTimerId c)) in
          output_to (ToServices SC_CONNECTED scIdx NoParams (endpointConnectionConfigIdx c))
      else
        let@ result := SC_ClientTransition_ScConnectedRenew_To_ScConnected memory sc scIdx msg in
        if negb result then
          let@ status := error_or_default in
          close (Some sc) scIdx false false status (cstring "Failure during OpenSecureChannel RENEW response treatment")
        else wret tt.

Definition onServerSideOpen (sc scIdx : Z) (msg : ptr SOPC_Buffer) (requestId : Z) : W unit :=
  let@ c := connection sc in
  wassert! isServerConnection c in
  let init := in_state c SECURE_CONNECTION_STATE_SC_INIT in
  let connected := in_state c SECURE_CONNECTION_STATE_SC_CONNECTED in
  if negb init && negb connected then
    close (Some sc) scIdx false false OpcUa_BadSecurityChecksFailed (cstring "Invalid state to receive an OPN request")
  else
    let@ (result, msg) := wlift (SC_ReadAndCheckOpcUaMessageType SOPC_TypeInternalIndex_OpenSecureChannelRequest msg) in
    if negb result then
      close (Some sc) scIdx false false OpcUa_BadSecurityChecksFailed
        (cstring "TCP UA OPN message content is not the one expected (wrong type: request/response or message type)")
    else
      let@ _ := put_error SOPC_GoodGenericStatus in
      if init then
        let@ (result, requestHandle) := SC_ServerTransition_ScInit_To_ScConnecting memory sc msg in
        let@ result :=
          (if result then SC_ServerTransition_ScConnecting_To_ScConnected (depth := depth) sc scIdx requestId requestHandle else wret false) in
        if negb result then
          let@ status := error_or_default in
          close (Some sc) scIdx false false status (cstring "Failure during new OpenSecureChannel request treatment")
        else
          let@ c := connection sc in
          let@ _ := output_to (TimerCancelled (connectionTimeoutTimerId c)) in
          output_to (ToServices EP_CONNECTED (serverEndpointConfigIdx c) (NumberParams (endpointConnectionConfigIdx c)) scIdx)
      else
        let@ (result, requestHandle, lifetime) := SC_ServerTransition_ScConnected_To_ScConnectedRenew memory sc msg in
        let@ result :=
          (if result then SC_ServerTransition_ScConnectedRenew_To_ScConnected (depth := depth) sc scIdx requestId requestHandle lifetime
           else wret false) in
        if negb result then
          let@ status := error_or_default in
          close (Some sc) scIdx false false status (cstring "Failure during renew OpenSecureChannel request treatment")
        else wret tt.

(** ** Internal events *)

(** An action on the connection, when the index is valid. *)
Definition with_connection (eltId : Z) (k : Z -> W unit) : W unit :=
  match SC_GetConnection eltId with
  | NULL => wret tt
  | Some sc => k sc
  end.

Definition on_create (eltId auxParam : Z) : W unit :=
  wassert! auxParam <=? UINT32_MAX in
  let@ (result, conn_idx) := initServerSC auxParam eltId in
  if result then
    let@ _ := output_to (ToSockets SOCKET_ACCEPTED_CONNECTION auxParam NoParams conn_idx) in
    SOPC_SecureChannels_EnqueueInternalEvent INT_EP_SC_CREATED eltId NoParams conn_idx
  else output_to (ToSockets SOCKET_CLOSE auxParam NoParams 0).

Definition on_hello (eltId : Z) (buffer : ptr SOPC_Buffer) : W unit :=
  with_connection eltId (fun sc =>
    let@ _ := put_error SOPC_GoodGenericStatus in
    let@ c := connection sc in
    if negb (in_state c SECURE_CONNECTION_STATE_TCP_INIT) || negb (isServerConnection c) then
      close (Some sc) eltId false false OpcUa_BadTcpMessageTypeInvalid (cstring "Hello message received not expected")
    else
      let@ result := SC_ServerTransition_TcpInit_To_TcpNegotiate sc buffer in
      let@ result := (if result then SC_ServerTransition_TcpNegotiate_To_ScInit sc eltId buffer else wret false) in
      if result then wret tt
      else let@ w := wget in close (Some sc) eltId false false (error w) (cstring "Error on HELLO message treatment")).

Definition on_acknowledge (eltId : Z) (buffer : ptr SOPC_Buffer) : W unit :=
  with_connection eltId (fun sc =>
    let@ c := connection sc in
    if negb (in_state c SECURE_CONNECTION_STATE_TCP_NEGOTIATE) || isServerConnection c then
      close (Some sc) eltId false false OpcUa_BadTcpMessageTypeInvalid (cstring "Unexpected Hello message received")
    else
      let@ result := SC_ClientTransition_TcpNegotiate_To_ScInit sc buffer in
      let@ result := (if result then SC_ClientTransition_ScInit_To_ScConnecting (depth := depth) sc eltId else wret false) in
      if result then wret tt
      else close (Some sc) eltId false false OpcUa_BadInvalidArgument (cstring "Invalid Hello message received")).

Definition on_open (eltId : Z) (buffer : ptr SOPC_Buffer) (auxParam : Z) : W unit :=
  with_connection eltId (fun sc =>
    let@ c := connection sc in
    if isServerConnection c then
      wassert! auxParam <=? UINT32_MAX in
      onServerSideOpen sc eltId buffer auxParam
    else onClientSideOpen sc eltId buffer).

Definition on_close_request (eltId : Z) (buffer : ptr SOPC_Buffer) : W unit :=
  with_connection eltId (fun sc =>
    let@ c := connection sc in
    if is_connected c && isServerConnection c then
      let@ (result, _) := wlift (SC_ReadAndCheckOpcUaMessageType SOPC_TypeInternalIndex_CloseSecureChannelRequest buffer) in
      if result then close (Some sc) eltId true false OpcUa_BadSecureChannelClosed (cstring "CLO request message received")
      else close (Some sc) eltId false false OpcUa_BadSecurityChecksFailed (cstring "Invalid CLO request message")
    else
      close (Some sc) eltId false false OpcUa_BadSecurityChecksFailed
        (cstring "Failure when encoding a message to send on the secure connection")).

Definition on_message (eltId : Z) (buffer : ptr SOPC_Buffer) (auxParam : Z) : W unit :=
  with_connection eltId (fun sc =>
    let@ c := connection sc in
    if is_connected c then
      wassert! negb (is_null buffer) in
      output_to (ToServices SC_SERVICE_RCV_MSG eltId (BufferParams buffer) (if isServerConnection c then auxParam else 0))
    else
      close (Some sc) eltId false false OpcUa_BadSecurityChecksFailed
        (cstring "SecureConnection: received an OpcUa message on not established secure connection")).

(** The error of a message [ERR] or of an abort chunk, with its reason. *)
Definition received_error (buffer : ptr SOPC_Buffer) : res (ptr (Z * block)) :=
  match buffer with
  | NULL => Ret NULL
  | Some b =>
      let* (status, e, reason) := SC_ClientTransition_ReceivedErrorMsg b SOPC_GoodGenericStatus in
      if is_ok status then match reason with NULL => Fault AssertFailed | Some reason => Ret (Some (e, reason)) end else Ret NULL
  end.

Definition on_abort (eltId : Z) (buffer : ptr SOPC_Buffer) (auxParam : Z) : W unit :=
  match SC_GetConnection eltId with
  | NULL => close NULL eltId false false OpcUa_BadDecodingError (cstring "Invalid abort message received")
  | Some sc =>
      let@ e := wlift (received_error buffer) in
      match e with
      | Some (e, _) =>
          let@ c := connection sc in
          if isServerConnection c then wret tt else output_to (ToServices SC_SND_FAILURE eltId (NumberParams auxParam) e)
      | NULL => close (Some sc) eltId false false OpcUa_BadDecodingError (cstring "Invalid abort message received")
      end
  end.

Definition on_error (eltId : Z) (buffer : ptr SOPC_Buffer) : W unit :=
  let@ e := wlift (received_error buffer) in
  match e with
  | Some (e, reason) => close (SC_GetConnection eltId) eltId true false e reason
  | NULL => close (SC_GetConnection eltId) eltId true false OpcUa_BadSecureChannelClosed (cstring "ERR message received")
  end.

Definition SOPC_SecureConnectionStateMgr_OnInternalEvent (event : SOPC_SecureChannels_InternalEvent) (eltId : Z) (params : event_params)
    (auxParam : Z) : W unit :=
  match event with
  | INT_EP_SC_CREATE => on_create eltId auxParam
  | INT_SC_RCV_HEL => let@ buffer := wlift (params_buffer params) in on_hello eltId buffer
  | INT_SC_RCV_ACK => let@ buffer := wlift (params_buffer params) in on_acknowledge eltId buffer
  | INT_SC_RCV_OPN => let@ buffer := wlift (params_buffer params) in on_open eltId buffer auxParam
  | INT_SC_RCV_CLO => let@ buffer := wlift (params_buffer params) in on_close_request eltId buffer
  | INT_SC_RCV_MSG_CHUNKS => let@ buffer := wlift (params_buffer params) in on_message eltId buffer auxParam
  | INT_SC_RCV_MSG_CHUNK_ABORT => let@ buffer := wlift (params_buffer params) in on_abort eltId buffer auxParam
  | INT_SC_RCV_FAILURE =>
      with_connection eltId (fun sc =>
        close (Some sc) eltId false false (u32 auxParam) (cstring "Failure when receiving a message on the secure connection"))
  | INT_SC_SND_FATAL_FAILURE =>
      let@ _ := output_to (ToServices SC_SND_FAILURE eltId params auxParam) in
      with_connection eltId (fun sc =>
        close (Some sc) eltId false false (u32 auxParam) (cstring "Failure when encoding a message to send on the secure connection"))
  | INT_SC_SENT_ABORT_FAILURE => output_to (ToServices SC_SND_FAILURE eltId params auxParam)
  | INT_SC_RCV_ERR => let@ buffer := wlift (params_buffer params) in on_error eltId buffer
  | INT_EP_SC_CLOSE =>
      with_connection eltId (fun sc =>
        close (Some sc) eltId false false OpcUa_BadSecureChannelClosed (cstring "Endpoint secure connection listener closed"))
  | INT_SC_CLOSE =>
      with_connection eltId (fun sc =>
        let@ reason := wlift (params_string params) in
        close (Some sc) eltId true false (u32 auxParam) (match reason with Some r => r | NULL => [] end))
  | _ => wlift (Fault AssertFailed)
  end.

(** ** Events of the sockets and of the timers *)

Definition SOPC_SecureConnectionStateMgr_OnSocketEvent (event : SOPC_Sockets_OutputEvent) (eltId auxParam : Z) : W unit :=
  match event with
  | SOCKET_CONNECTION =>
      wassert! auxParam <=? UINT32_MAX in
      let close_socket := output_to (ToSockets SOCKET_CLOSE auxParam NoParams eltId) in
      match SC_GetConnection eltId with
      | NULL => close_socket
      | Some sc =>
          let@ c := connection sc in
          if negb (in_state c SECURE_CONNECTION_STATE_TCP_INIT) then close_socket
          else
            let@ result := SC_ClientTransition_TcpInit_To_TcpNegotiate sc eltId auxParam in
            if result then wret tt
            else close (Some sc) eltId false false 0 (cstring "SecureConnection: closed on SOCKET_CONNECTION")
      end
  | SOCKET_FAILURE =>
      with_connection eltId (fun sc =>
        close (Some sc) eltId true true 0 (cstring "SecureConnection: disconnected (SOCKET_FAILURE event)"))
  | _ => wlift (Fault AssertFailed)
  end.

(** [msgCtx->timeoutExpired = true], for the element of an identifier. *)
Definition expire (h : heap SOPC_SentRequestMsg_Context) (l : ptr SOPC_SLinkedList) (i : Z) : res (heap SOPC_SentRequestMsg_Context) :=
  let* elt := SOPC_SLinkedList_InternalFind h l i in
  let* a := deref elt in
  let* e := load h elt in
  let* m := deref (value e) in
  Ret (<[a := mkElt (id e) (Some (mkSentRequest true (scConnectionIdx m) (requestHandle m) (msgType m) (timerId m))) (next e)]> h).

Definition on_request_timeout (eltId auxParam : Z) : W unit :=
  wassert! auxParam <=? UINT32_MAX in
  with_connection eltId (fun sc =>
    let@ c := connection sc in
    if in_state c SECURE_CONNECTION_STATE_SC_CLOSED then wret tt
    else
      let@ w := wget in
      let l := sentRequestIds (tcpSeqProperties c) in
      let@ msgCtx := wlift (SOPC_SLinkedList_FindFromId (request_heap w) l auxParam) in
      match msgCtx with
      | NULL => wret tt
      | Some m =>
          let@ _ :=
            match msgType m with
            | SOPC_MSG_TYPE_SC_MSG => output_to (ToServices SC_REQUEST_TIMEOUT eltId NoParams (requestHandle m))
            | _ => wret tt
            end in
          let@ h := wlift (expire (request_heap w) l auxParam) in
          put_request_heap h
      end).

Definition SOPC_SecureConnectionStateMgr_OnTimerEvent (event : SOPC_SecureChannels_TimerEvent) (eltId auxParam : Z) : W unit :=
  match event with
  | TIMER_SC_CONNECTION_TIMEOUT =>
      with_connection eltId (fun sc =>
        let@ _ := update sc (fun c => set_connectionTimeoutTimerId c 0) in
        let@ c := connection sc in
        if is_connected c then wret tt
        else close (Some sc) eltId false false OpcUa_BadTimeout (cstring "SecureConnection: disconnected (TIMER_SC_CONNECTION_TIMEOUT event)"))
  | TIMER_SC_CLIENT_OPN_RENEW =>
      with_connection eltId (fun sc =>
        let@ _ := update sc (fun c => set_secuTokenRenewTimerId c 0) in
        let@ c := connection sc in
        if in_state c SECURE_CONNECTION_STATE_SC_CONNECTED && negb (isServerConnection c) then
          let@ result := SC_ClientTransition_ScConnected_To_ScConnectedRenew (depth := depth) sc eltId in
          if result then wret tt
          else close (Some sc) eltId false false OpcUa_BadTcpInternalError (cstring "Open secure channel forced renew failed")
        else wret tt)
  | TIMER_SC_REQUEST_TIMEOUT => on_request_timeout eltId auxParam
  end.

(** ** Events of the services *)

Definition SC_ClientTransition_Connected_To_Disconnected (sc scConnectionIdx : Z) : W unit :=
  let@ c := connection sc in
  wassert! is_connected c in
  SC_Client_SendCloseSecureChannelRequestAndClose (depth := depth) sc scConnectionIdx OpcUa_BadSecureChannelClosed
    (cstring "Secure channel requested to be closed by client").

Definition on_connect (eltId : Z) : W unit :=
  let@ scConfig := with_configuration (fun t => ToolkitClient_GetSecureChannelConfig t eltId) in
  match scConfig with
  | NULL => close NULL 0 true true OpcUa_BadResourceUnavailable (cstring EmptyString)
  | Some scConfig =>
      let@ (result, idx) := SC_InitNewConnection in
      if negb result then output_to (ToServices SC_CONNECTION_TIMEOUT eltId NoParams 0)
      else
        match SC_GetConnection idx with
        | NULL => wlift (Fault AssertFailed)
        | Some sc =>
            let@ _ := update sc (fun c => set_endpointConnectionConfigIdx c eltId) in
            let@ result := sc_init_key_and_certs sc in
            if negb result then
              close (Some sc) idx true true OpcUa_BadResourceUnavailable (cstring "Failed to initialize keys and certificates for connection")
            else
              let@ (status, timer) := SC_StartConnectionEstablishTimer idx in
              let@ _ := update sc (fun c => set_connectionTimeoutTimerId c timer) in
              if is_ok status then output_to (ToSockets SOCKET_CREATE_CLIENT idx (StringParams (url scConfig)) 0)
              else
                close (Some sc) idx true true OpcUa_BadResourceUnavailable
                  (cstring "Failed to create a timer for connection establishment timeout")
        end
  end.

Definition on_disconnect (eltId : Z) : W unit :=
  with_connection eltId (fun sc =>
    let@ c := connection sc in
    if is_connected c then
      if isServerConnection c then
        close (Some sc) eltId false false OpcUa_BadSecureChannelClosed
          (cstring "Closing secure channel due to maximum reached (last attempt or oldest without session)")
      else SC_ClientTransition_Connected_To_Disconnected sc eltId
    else
      close (Some sc) eltId false false OpcUa_BadTcpInternalError
        (cstring "Invalid secure connection state or error when sending a close secure channel request")).

Definition on_send_message (eltId : Z) (params : event_params) (auxParam : Z) : W unit :=
  let failure e := output_to (ToServices SC_SND_FAILURE eltId (NumberParams auxParam) e) in
  match SC_GetConnection eltId with
  | NULL => failure OpcUa_BadSecureChannelIdInvalid
  | Some sc =>
      let@ c := connection sc in
      if is_connected c then SOPC_SecureChannels_EnqueueInternalEvent INT_SC_SND_MSG_CHUNKS eltId params auxParam
      else failure OpcUa_BadSecureChannelClosed
  end.

Definition SOPC_SecureConnectionStateMgr_Dispatcher (event : SOPC_SecureChannels_InputEvent) (eltId : Z) (params : event_params) (auxParam : Z)
    : W unit :=
  match event with
  | SC_CONNECT => on_connect eltId
  | SC_DISCONNECT => on_disconnect eltId
  | SC_SERVICE_SND_MSG => on_send_message eltId params auxParam
  | SC_SERVICE_SND_ERR =>
      with_connection eltId (fun sc =>
        let@ c := connection sc in
        if is_connected c then
          let@ e := wlift (params_number params) in
          close (Some sc) eltId false false (u32 e) (cstring "Error requested by services layer")
        else wret tt)
  | _ => wlift (Fault AssertFailed)
  end.

(** ** Dispatch *)

Definition SOPC_SecureChannels_OnInternalEvent (event : SOPC_SecureChannels_InternalEvent) (eltId : Z) (params : event_params) (auxParam : Z) : W unit :=
  match event with
  | INT_EP_SC_CREATED | INT_EP_SC_DISCONNECTED => SOPC_SecureListenerStateMgr_OnInternalEvent event eltId auxParam
  | INT_SC_SND_HEL | INT_SC_SND_ACK | INT_SC_SND_ERR | INT_SC_SND_OPN | INT_SC_SND_CLO | INT_SC_SND_MSG_CHUNKS =>
      with_connection eltId (fun sc =>
        let@ buffer := wlift (params_buffer params) in
        on_chunks sc (fun T => SOPC_ChunksMgr_Dispatcher event eltId buffer auxParam))
  | _ => SOPC_SecureConnectionStateMgr_OnInternalEvent event eltId params auxParam
  end.

Definition SOPC_SecureChannels_OnSocketsEvent (event : SOPC_Sockets_OutputEvent) (eltId : Z) (params : event_params) (auxParam : Z) : W unit :=
  match event with
  | SOCKET_LISTENER_OPENED | SOCKET_LISTENER_CONNECTION | SOCKET_LISTENER_FAILURE => SOPC_SecureListenerStateMgr_OnSocketEvent event eltId auxParam
  | SOCKET_CONNECTION | SOCKET_FAILURE => SOPC_SecureConnectionStateMgr_OnSocketEvent event eltId auxParam
  | SOCKET_RCV_BYTES =>
      with_connection eltId (fun sc =>
        let@ buffer := wlift (params_buffer params) in
        on_chunks sc (fun T => SOPC_ChunksMgr_OnSocketEvent event buffer))
  end.

Definition SOPC_SecureChannels_OnTimerEvent (event : SOPC_SecureChannels_TimerEvent) (id auxParam : Z) : W unit :=
  SOPC_SecureConnectionStateMgr_OnTimerEvent event id auxParam.

Definition SOPC_SecureChannels_OnInputEvent (event : SOPC_SecureChannels_InputEvent) (eltId : Z) (params : event_params) (auxParam : Z) : W unit :=
  match event with
  | EP_OPEN | EP_CLOSE => SOPC_SecureListenerStateMgr_Dispatcher event eltId
  | SC_CONNECT | SC_DISCONNECT | SC_SERVICE_SND_MSG | SC_SERVICE_SND_ERR => SOPC_SecureConnectionStateMgr_Dispatcher event eltId params auxParam
  end.

(** [ev->handler->callback(...)] *)
Definition callback (ev : Event) : W unit :=
  match code ev with
  | OnInternalEvent event => SOPC_SecureChannels_OnInternalEvent event (event_id ev) (params ev) (auxParam ev)
  | OnSocketsEvent event => SOPC_SecureChannels_OnSocketsEvent event (event_id ev) (params ev) (auxParam ev)
  | OnTimerEvent event => SOPC_SecureChannels_OnTimerEvent event (event_id ev) (auxParam ev)
  | OnInputEvent event => SOPC_SecureChannels_OnInputEvent event (event_id ev) (params ev) (auxParam ev)
  end.

(** One turn of [looper_loop]: the next event of the queue is treated.  Returns false
    when the queue is empty, where the thread waits. *)
Definition looper_turn : W bool :=
  let@ w := wget in
  match queue w with
  | [] => wret false
  | ev :: q => let@ _ := put_queue q in let@ _ := callback ev in wret true
  end.

(** The turns of the thread, at most [n], until the queue is empty. *)
Fixpoint looper_loop (n : nat) : W unit :=
  match n with
  | O => wret tt
  | S n => let@ treated := looper_turn in if treated then looper_loop n else wret tt
  end.

End Events.
