(* ===== verification/StateMgrSpec.v ===== *)
(** * The automaton of the secure channels

    What the other components see of a connection is its state, whether it is the one of
    a server, and the identifiers of its channel and of its token.  [edge] is the automaton
    that the connections follow: for an event, the changes of this view.  The lemmas give
    the changes that the functions of the state machine make; the functions that only send
    messages, start timers or fill temporary data change nothing ([stays]). *)

From Stdlib Require Import ZArith Lia.
From Stdlib Require Import Strings.Byte Strings.String.
From stdpp Require Import prelude gmap.
From S2P Require Import Prelude Common LinkedList Buffer Codec EncScalar EncString EncNodeId EncText EncArray EncExtObj EncVariant EncVariantSpec.
From S2P Require Import EncStruct EncStructSpec Types TypesSpec Services Message Strings Arrays SecureConnection ToolkitConfig Chunks ChunksStream ChunksSend.
From S2P Require Import ChunksFrame SecureChannels SecureListener StateMgr StateMgrOpn StateMgrEvents.

Open Scope Z_scope.

(** ** The view of a connection *)

Record role := mkRole {
  role_state : SOPC_SecureConnection_State;
  role_server : bool;
  role_channel : Z;
  role_token : Z
}.

(** The identifiers are the ones of an established channel. *)
Definition identified (r : role) : Prop := role_channel r <> 0 /\ role_token r <> 0.

Definition in_role (r : role) (s : SOPC_SecureConnection_State) (server : bool) : Prop := role_state r = s /\ role_server r = server.

Definition same_ids (r r' : role) : Prop := role_channel r' = role_channel r /\ role_token r' = role_token r.

Definition closed_role : role := mkRole SECURE_CONNECTION_STATE_SC_CLOSED false 0 0.

Definition with_state (r : role) (s : SOPC_SecureConnection_State) : role := mkRole s (role_server r) (role_channel r) (role_token r).

(** The view after a change of state. *)
Definition moved (S : role -> Prop) (s : SOPC_SecureConnection_State) (r : role) : Prop := exists r0, S r0 /\ r = with_state r0 s.

(** The connection was in the state [s], for the side [server], and [S] held. *)
Definition was (S : role -> Prop) (s : SOPC_SecureConnection_State) (server : bool) (r : role) : Prop := S r /\ in_role r s server.

(** The view satisfies [S], or the connection is closed. *)
Definition or_closed (S : role -> Prop) (r : role) : Prop := S r \/ r = closed_role.

(** A message that is delivered to the services. *)
Definition is_delivery (o : output) : bool := match o with ToServices SC_SERVICE_RCV_MSG _ _ _ => true | _ => false end.

Definition deliveries (l : list output) : list output := filter (fun o => is_delivery o = true) l.

Section View.
Context `{Crypto}.

Definition role_of (c : SOPC_SecureConnection) : role :=
  mkRole (state c) (isServerConnection c) (secureChannelId (currentSecurityToken c)) (tokenId (currentSecurityToken c)).

(** The manager of the chunks keeps it. *)
#[export] Instance kept_role r : Kept (fun c => role_of c = r).
Proof. done. Qed.

End View.

(** ** Monad *)

Section Rules.
Context `{Allocator} `{Host} `{EndiannessCfg} {cfg : SOPC_Common_EncodingConstants} `{Crypto} `{!SendCrypto} `{!Environment}.

Lemma wbind_inv {A B} (m : W A) (k : A -> W B) w b w' :
  wbind m k w = Ret (b, w') -> exists a w1, m w = Ret (a, w1) /\ k a w1 = Ret (b, w').
Proof. unfold wbind. destruct (m w) as [[a w1]|]; [|done]. intros E. by exists a, w1. Qed.

Lemma wlift_inv {A} (r : res A) w a w' : wlift r w = Ret (a, w') -> r = Ret a /\ w' = w.
Proof. unfold wlift. destruct r; [|done]. by intros [= <- <-]. Qed.

(** *** The change of one connection *)

(** [sc] is the index of the connection, [l0] the connections before and [d0] the
    messages that were delivered before. *)
Variables (sc : Z) (l0 : list SOPC_SecureConnection) (d0 : list output).

Definition holds (S : role -> Prop) (w : world) : Prop :=
  (forall j, j <> Z.to_nat sc -> secureConnectionsArray w !! j = l0 !! j) /\
  (exists c, secureConnectionsArray w !! Z.to_nat sc = Some c /\ S (role_of c)) /\
  deliveries (outputs w) = d0 /\ 0 <= lastSecureConnectionArrayIdx w.

Definition triple {A} (S : role -> Prop) (m : W A) (Q : A -> role -> Prop) : Prop :=
  forall w a w', holds S w -> m w = Ret (a, w') -> holds (Q a) w'.

(** The function does not change the view. *)
Definition stays {A} (m : W A) : Prop := forall S, triple S m (fun _ => S).

Lemma holds_weaken (S S' : role -> Prop) w : (forall r, S r -> S' r) -> holds S w -> holds S' w.
Proof. intros Hs (Ho & (c & Hc & Hr) & Hd). split; [done|]. split; [|done]. exists c. auto. Qed.

Lemma triple_weaken {A} (S S' : role -> Prop) (m : W A) (Q Q' : A -> role -> Prop) :
  (forall r, S r -> S' r) -> (forall a r, Q' a r -> Q a r) -> triple S' m Q' -> triple S m Q.
Proof. intros Hs Hq Hm w a w' Hw E. eapply holds_weaken; [apply Hq|]. eapply Hm; [|done]. by eapply holds_weaken. Qed.

Lemma triple_pre {A} (S S' : role -> Prop) (m : W A) Q : (forall r, S r -> S' r) -> triple S' m Q -> triple S m Q.
Proof. intros Hs. by apply triple_weaken. Qed.

Lemma triple_bind {A B} S (m : W A) R (k : A -> W B) Q : triple S m R -> (forall a, triple (R a) (k a) Q) -> triple S (wbind m k) Q.
Proof. intros Hm Hk w b w' Hw E. apply wbind_inv in E as (a & w1 & E1 & E2). eapply Hk; [|exact E2]. by eapply Hm. Qed.

Lemma triple_stays {A} S (m : W A) : stays m -> triple S m (fun _ => S).
Proof. intros Hm. apply Hm. Qed.

Lemma triple_skip {A B} S (m : W A) (k : A -> W B) Q : stays m -> (forall a, triple S (k a) Q) -> triple S (wbind m k) Q.
Proof. intros Hm Hk. eapply triple_bind; [apply Hm|done]. Qed.

Lemma triple_ret {A} (S : role -> Prop) (a : A) (Q : A -> role -> Prop) : (forall r, S r -> Q a r) -> triple S (wret a) Q.
Proof. intros Hq w a' w' Hw [= <- <-]. by eapply holds_weaken. Qed.

Lemma triple_ret_bind {A B} S (a : A) (k : A -> W B) Q : triple S (k a) Q -> triple S (wbind (wret a) k) Q.
Proof. done. Qed.

Lemma triple_fault {A} S f (Q : A -> role -> Prop) : triple S (wlift (Fault f)) Q.
Proof. by intros w a w' Hw E. Qed.

Lemma triple_lift {A B} S (r : res A) (k : A -> W B) Q : (forall a, r = Ret a -> triple S (k a) Q) -> triple S (wbind (wlift r) k) Q.
Proof. intros Hk w b w' Hw E. apply wbind_inv in E as (a & w1 & E1 & E2). apply wlift_inv in E1 as [-> ->]. by eapply Hk. Qed.

(** The state of the connection is read. *)
Lemma triple_connection {B} (S : role -> Prop) (k : SOPC_SecureConnection -> W B) Q :
  (forall c, S (role_of c) -> triple (eq (role_of c)) (k c) Q) -> triple S (wbind (connection sc) k) Q.
Proof.
  intros Hk w b w' (Ho & (c & Hc & Hr) & Hd) E. apply wbind_inv in E as (c' & w1 & E1 & E2).
  unfold connection in E1. apply wbind_inv in E1 as (w2 & w3 & [= <- <-] & E1). apply wlift_inv in E1 as [E1 ->].
  apply array_get_inv in E1 as [_ E1]. rewrite Hc in E1. injection E1 as <-.
  eapply Hk; [exact Hr| |exact E2]. split; [done|]. split; [|done]. by exists c.
Qed.

Lemma triple_put S (T : role -> Prop) c : T (role_of c) -> triple S (put_connection sc c) (fun _ => T).
Proof.
  intros Hc w a w' (Ho & (c0 & Hc0 & Hr) & Hd) E. unfold put_connection in E.
  apply wbind_inv in E as (w2 & w3 & [= <- <-] & E). apply wbind_inv in E as (l & w4 & E1 & E). apply wlift_inv in E1 as [E1 ->].
  injection E as <- <-. apply array_set_inv in E1 as [_ ->].
  split; [|split; [|done]]; cbn.
  - intros j Hj. rewrite list_lookup_insert_ne by done. by apply Ho.
  - exists c. split; [|done]. apply list_lookup_insert_eq. by eapply lookup_lt_Some.
Qed.

Lemma triple_moved S f s : (forall c, role_of (f c) = with_state (role_of c) s) -> triple S (update sc f) (fun _ => moved S s).
Proof.
  intros Hf. unfold update. apply triple_connection. intros c Hc. apply triple_put. exists (role_of c). by rewrite Hf.
Qed.

Lemma triple_update (S T : role -> Prop) f : (forall c, S (role_of c) -> T (role_of (f c))) -> triple S (update sc f) (fun _ => T).
Proof.
  intros Hf. unfold update. apply triple_connection. intros c Hc. apply triple_put. by apply Hf.
Qed.

(** *** Functions that change nothing *)

Lemma stays_bind {A B} (m : W A) (k : A -> W B) : stays m -> (forall a, stays (k a)) -> stays (wbind m k).
Proof. intros Hm Hk S. apply triple_skip; [done|]. intros a. apply Hk. Qed.
Lemma stays_ret {A} (a : A) : stays (wret a).
Proof. intros S. by apply triple_ret. Qed.
Lemma stays_lift {A} (r : res A) : stays (wlift r).
Proof. intros S w a w' Hw E. by apply wlift_inv in E as [_ ->]. Qed.
Lemma stays_get : stays wget.
Proof. by intros S w a w' Hw [= <- <-]. Qed.
Lemma stays_connection : stays (connection sc).
Proof. intros S w a w' Hw E. unfold connection in E. apply wbind_inv in E as (? & ? & [= <- <-] & E). by apply wlift_inv in E as [_ ->]. Qed.
Lemma stays_update f : (forall c, role_of (f c) = role_of c) -> stays (update sc f).
Proof. intros Hf S. apply triple_update. intros c. by rewrite Hf. Qed.
Lemma stays_world {A} (m : W A) :
  (forall w a w', m w = Ret (a, w') -> secureConnectionsArray w' = secureConnectionsArray w /\ outputs w' = outputs w /\
     lastSecureConnectionArrayIdx w' = lastSecureConnectionArrayIdx w) -> stays m.
Proof. intros Hm S w a w' (Ho & Hc & Hd) E. apply Hm in E as (E1 & E2 & E3). unfold holds. by rewrite E1, E2, E3. Qed.
Lemma stays_put_error e : stays (put_error e).
Proof. apply stays_world. by intros w a w' [= <- <-]. Qed.
Lemma stays_put_queue q : stays (put_queue q).
Proof. apply stays_world. by intros w a w' [= <- <-]. Qed.
Lemma stays_put_configuration t : stays (put_configuration t).
Proof. apply stays_world. by intros w a w' [= <- <-]. Qed.
Lemma stays_put_request_heap h : stays (put_request_heap h).
Proof. apply stays_world. by intros w a w' [= <- <-]. Qed.
Lemma stays_ask {A} (f : nat -> A) : stays (ask f).
Proof. apply stays_world. by intros w a w' [= <- <-]. Qed.
Lemma stays_with_configuration {A} (f : tConfig -> res A) : stays (with_configuration f).
Proof. unfold with_configuration. apply stays_bind; [apply stays_get|]. intros w. apply stays_lift. Qed.
Lemma stays_output o : is_delivery o = false -> stays (output_to o).
Proof.
  intros Ho S w a w' (Hj & Hc & Hd & Hl) [= <- <-]. split; [done|]. split; [done|]. split; [|done]. change (deliveries (o :: outputs w) = d0). unfold deliveries. rewrite filter_cons_False; [done|]. by rewrite Ho.
Qed.
Lemma stays_post e n : stays (post e n).
Proof.
  unfold post. destruct (alloc_ok sizeof_Event), (alloc_ok sizeof_Elt); try apply stays_ret. apply stays_bind; [apply stays_get|]. intros w.
  apply stays_bind; [apply stays_put_queue|]. intros []. apply stays_ret.
Qed.
Lemma stays_post_void e n : stays (let@ _ := post e n in wret tt).
Proof. apply stays_bind; [apply stays_post|]. intros x. apply stays_ret. Qed.
Lemma stays_listener l : stays (listener l).
Proof. apply stays_bind; [apply stays_get|]. intros w. apply stays_lift. Qed.

Lemma stays_perform i e : stays (perform i e).
Proof. destruct e; cbn [perform]; first [apply stays_post_void | by apply stays_output]. Qed.
Lemma stays_perform_all i es : stays (perform_all i es).
Proof. induction es as [|e es IH]; cbn [perform_all]; [apply stays_ret|]. apply stays_bind; [apply stays_perform|done]. Qed.

Lemma stays_chunks {A} (m : Toolkit -> M A) : (forall T r, conn_inv (fun c => role_of c = r) (m T)) -> stays (on_chunks sc m).
Proof.
  intros Hm S. unfold on_chunks. apply triple_skip; [apply stays_get|]. intros w. apply triple_connection. intros c Hc.
  apply triple_lift. intros [a s] Es. apply triple_skip; [apply stays_world; by intros ? ? ? [= <- <-]|]. intros _.
  eapply triple_bind; [apply (triple_put _ S)|].
  - assert (role_of (conn s) = role_of c) as Hr by (eapply Hm in Es; [exact Es|done]). by rewrite Hr.
  - intros u; cbv beta. apply triple_skip; [apply stays_perform_all|]. intros _. by apply triple_ret.
Qed.

Lemma triple_fails (S : role -> Prop) e (Q : bool -> role -> Prop) : (forall r, S r -> Q false r) -> triple S (fails e) Q.
Proof. intros Hq. unfold fails. apply triple_skip; [apply stays_put_error|]. intros _. by apply triple_ret. Qed.
Lemma triple_fails_bind {A} S e (k : bool -> W A) Q : triple S (k false) Q -> triple S (wbind (fails e) k) Q.
Proof.
  intros Hk w a w' Hw E. apply wbind_inv in E as (b & w1 & E1 & E2). apply wbind_inv in E1 as (u & w2 & E1 & [= <- <-]).
  eapply Hk; [|exact E2]. by eapply stays_put_error.
Qed.

End Rules.

Create HintDb stays.
#[export] Hint Resolve stays_ret stays_lift stays_get stays_connection stays_put_error stays_put_queue stays_put_configuration
  stays_put_request_heap stays_ask stays_with_configuration stays_post stays_listener : stays.

(** The functions that change nothing, by their steps. *)
Ltac stays_step :=
  match goal with
  | |- stays _ _ _ (wbind _ _) => apply stays_bind; [|intros ?]
  | |- stays _ _ _ (update _ _) => apply stays_update; reflexivity
  | |- stays _ _ _ (output_to _) => apply stays_output; reflexivity
  | |- stays _ _ _ (if ?c then _ else _) => destruct c
  | |- stays _ _ _ (match ?c with _ => _ end) => destruct c eqn:?
  | |- stays _ _ _ (let _ := _ in _) => cbv zeta
  | |- stays _ _ _ _ => solve [eauto with stays]
  end.
Ltac stays_run := repeat (stays_step; cbv beta iota zeta).

Create HintDb triple.

(** The functions that change the view: the steps that do not change it are skipped. *)
Ltac view_facts :=
  unfold or_closed, moved, was, in_role, in_state, with_state in *;
  repeat match goal with
  | H : bool_decide _ = true |- _ => apply bool_decide_eq_true in H
  | H : bool_decide _ = false |- _ => apply bool_decide_eq_false in H
  | H : negb _ = true |- _ => apply negb_true_iff in H
  | H : negb _ = false |- _ => apply negb_false_iff in H
  | H : _ && _ = true |- _ => apply andb_true_iff in H as [? ?]
  | H : _ || _ = false |- _ => apply orb_false_iff in H as [? ?]
  | H : (_ =? _) = true |- _ => apply Z.eqb_eq in H
  | H : (_ =? _) = false |- _ => apply Z.eqb_neq in H
  | H : exists _, _ |- _ => destruct H
  | H : _ /\ _ |- _ => destruct H
  end; simplify_eq/=.
Ltac triple_done :=
  let r := fresh "r" in
  intros r; cbv beta; repeat match goal with |- _ = _ -> _ => intros <- | |- _ -> _ => intros ? end;
  first [assumption | view_facts; first [tauto | solve [eauto 8] | solve [intuition (subst; first [congruence | eauto 8])]]].
Ltac triple_step :=
  match goal with
  | |- triple _ _ _ _ (wlift (Fault _)) _ => apply triple_fault
  | |- triple _ _ _ _ (wret _) _ => apply triple_ret; triple_done
  | |- triple ?sc _ _ _ (wbind (connection ?sc) _) _ =>
      apply triple_connection; let c := fresh "c" in let Hc := fresh "Hc" in intros c Hc; cbv beta
  | |- triple _ _ _ _ (wbind (fails _) _) _ => apply triple_fails_bind
  | |- triple _ _ _ _ (fails _) _ => apply triple_fails; triple_done
  | |- triple _ _ _ _ (wbind (wret _) _) _ => apply triple_ret_bind
  | |- triple _ _ _ _ (wbind _ _) _ => apply triple_skip; [solve [stays_run]|]; intros ?
  | |- triple _ _ _ _ (wbind (update _ _) _) _ => eapply triple_bind; [eapply triple_moved; intros ?; unfold with_state, role_of; cbn; reflexivity|]; intros ?
  | |- triple _ _ _ _ (wbind _ _) _ => eapply triple_bind; [solve [eauto with triple]|]; intros ?
  | |- triple _ _ _ _ (wbind (if ?c then _ else _) _) _ => destruct c eqn:?
  | |- triple _ _ _ _ (wbind (match ?c with _ => _ end) _) _ => destruct c eqn:?
  | |- triple _ _ _ _ (if ?c then _ else _) _ => destruct c eqn:?
  | |- triple _ _ _ _ (match ?c with _ => _ end) _ => destruct c eqn:?
  | |- triple _ _ _ ?S ?m _ => apply (triple_weaken _ _ _ S S m _ (fun _ => S)); [done|triple_done|solve [apply triple_stays; stays_run]]
  | |- triple _ _ _ ?S ?m _ => eapply (triple_weaken _ _ _ S S m); [done| |solve [eauto with triple]]; [intros ?; triple_done]
  end.
Ltac triple_run := repeat (triple_step; cbv beta iota zeta).

(** ** Functions of the state machine *)

Section Functions.
Context `{Allocator} `{Host} `{EndiannessCfg} {cfg : SOPC_Common_EncodingConstants} `{Crypto} `{!SendCrypto} `{!Environment}.
Context {depth : nat} (memory : @StructObject (Services depth)).
Variables (sc : Z) (l0 : list SOPC_SecureConnection) (d0 : list output).
#[local] Abbreviation stays := (stays sc l0 d0).
#[local] Abbreviation triple := (triple sc l0 d0).

Lemma stays_EnqueueInternalEvent e i p x : stays (SOPC_SecureChannels_EnqueueInternalEvent e i p x).
Proof. apply stays_post_void. Qed.
Lemma stays_EnqueueInternalEventAsNext e i p x : stays (SOPC_SecureChannels_EnqueueInternalEventAsNext e i p x).
Proof. apply stays_post_void. Qed.
#[local] Hint Resolve stays_EnqueueInternalEvent stays_EnqueueInternalEventAsNext : stays.

Lemma stays_fails e : stays (fails e).
Proof. unfold fails. stays_run. Qed.
Lemma stays_start_timer e i ms : stays (start_timer e i ms).
Proof. unfold start_timer. stays_run. Qed.
#[local] Hint Resolve stays_fails stays_start_timer : stays.
Lemma stays_StartConnectionEstablishTimer i : stays (SC_StartConnectionEstablishTimer i).
Proof. unfold SC_StartConnectionEstablishTimer. stays_run. Qed.
Lemma stays_StartOPNrenewTimer i ms : stays (SC_Client_StartOPNrenewTimer i ms).
Proof. unfold SC_Client_StartOPNrenewTimer. stays_run. Qed.
Lemma stays_ClearPendingRequest v : stays (SC_Client_ClearPendingRequest v).
Proof. unfold SC_Client_ClearPendingRequest. stays_run. Qed.
#[local] Hint Resolve stays_StartConnectionEstablishTimer stays_StartOPNrenewTimer stays_ClearPendingRequest : stays.
Lemma stays_clear_pending l : stays (clear_pending l).
Proof. induction l as [|[i v] l IH]; cbn [clear_pending]; stays_run. Qed.
Lemma stays_ClearInputChunks : stays (on_chunks sc (fun _ => SOPC_ScInternalContext_ClearInputChunksContext)).
Proof. apply stays_chunks. intros T r. apply kept_ClearInput. Qed.
Lemma stays_SendErrorMsgAndClose i e r : stays (SC_Server_SendErrorMsgAndClose i e r).
Proof. unfold SC_Server_SendErrorMsgAndClose. stays_run. Qed.
Lemma stays_DeriveSymmetricKeySets b p n m k : stays (SC_DeriveSymmetricKeySets b p n m k).
Proof. unfold SC_DeriveSymmetricKeySets. stays_run. Qed.
Lemma stays_client_nonce m : stays (client_nonce sc m).
Proof. unfold client_nonce. stays_run. Qed.
Lemma stays_create_provider u b : stays (create_provider sc u b).
Proof. unfold create_provider. stays_run. Qed.
#[local] Hint Resolve stays_clear_pending stays_ClearInputChunks stays_SendErrorMsgAndClose stays_DeriveSymmetricKeySets stays_client_nonce
  stays_create_provider : stays.
Lemma stays_SendOPN i b : stays (SC_ClientTransitionHelper_SendOPN (depth := depth) sc i b).
Proof. unfold SC_ClientTransitionHelper_SendOPN. stays_run. Qed.
Lemma stays_check_response_header i h : stays (check_response_header (depth := depth) i h).
Proof. unfold check_response_header. stays_run. Qed.
#[local] Hint Resolve stays_SendOPN stays_check_response_header : stays.
Lemma stays_decode_response i b : stays (decode_response memory i b).
Proof. unfold decode_response. stays_run. Qed.
Lemma stays_check_token b v x y : stays (check_token sc b v x y).
Proof. unfold check_token. stays_run. Qed.
Lemma stays_client_keys m n : stays (client_keys sc m n).
Proof. unfold client_keys. stays_run. Qed.
Lemma stays_check_issue c v t m : stays (check_issue c v t m).
Proof. unfold check_issue. stays_run. Qed.
Lemma stays_check_renew c f v t m : stays (check_renew c f v t m).
Proof. unfold check_renew. stays_run. Qed.
Lemma stays_record_client_nonce m n e : stays (record_client_nonce sc m n e).
Proof. unfold record_client_nonce. stays_run. Qed.
#[local] Hint Resolve stays_decode_response stays_check_token stays_client_keys stays_check_issue stays_check_renew stays_record_client_nonce : stays.
Lemma stays_treat_issue e o : stays (treat_issue (depth := depth) sc e o).
Proof. unfold treat_issue. stays_run. Qed.
Lemma stays_draw p x y : stays (draw p x y).
Proof. unfold draw. stays_run. Qed.
#[local] Hint Resolve stays_treat_issue stays_draw : stays.
Lemma stays_find_ids n p l a b x y : stays (find_ids n p l a b x y).
Proof. revert a b x y. induction n as [|n IH]; intros; cbn [find_ids]; stays_run. Qed.
Lemma stays_find_token n p l : stays (find_token n p l).
Proof. induction n as [|n IH]; cbn [find_token]; stays_run. Qed.
#[local] Hint Resolve stays_find_ids stays_find_token : stays.
Lemma stays_GenerateFreshIds c : stays (SC_Server_GenerateFreshSecureChannelAndTokenId c).
Proof. unfold SC_Server_GenerateFreshSecureChannelAndTokenId. stays_run. Qed.
Lemma stays_GenerateFreshTokenId c : stays (SC_Server_GenerateFreshTokenId c).
Proof. unfold SC_Server_GenerateFreshTokenId. stays_run. Qed.
Lemma stays_server_keys b k : stays (server_keys sc b k).
Proof. unfold server_keys. stays_run. Qed.
Lemma stays_encode_response b v h t n : stays (encode_response (depth := depth) b v h t n).
Proof. unfold encode_response. stays_run. Qed.
#[local] Hint Resolve stays_GenerateFreshIds stays_GenerateFreshTokenId : stays.
Lemma stays_renew_token n : stays (renew_token sc n).
Proof. unfold renew_token. stays_run. Qed.
Lemma stays_init_key_and_certs : stays (sc_init_key_and_certs sc).
Proof. unfold sc_init_key_and_certs, configured_keys, set_own_certificate. stays_run. all: apply stays_update; intros c'; repeat case_match; reflexivity. Qed.
Lemma stays_error_or_default : stays error_or_default.
Proof. unfold error_or_default. stays_run. Qed.
#[local] Hint Resolve stays_server_keys stays_encode_response stays_renew_token stays_init_key_and_certs stays_error_or_default : stays.

(** *** Closure *)

Hypothesis Hsc : SC_GetConnection sc = Some sc.

Lemma triple_CloseConnection S f : triple S (SC_CloseConnection sc f) (fun _ => or_closed S).
Proof.
  unfold SC_CloseConnection. rewrite Hsc. triple_run.
  eapply triple_bind; [apply (triple_put _ _ _ _ (eq closed_role)); reflexivity|]. intros u; cbv beta. triple_run.
Qed.

#[local] Hint Resolve triple_CloseConnection : triple.

Lemma triple_SendClose S e r : triple S (SC_Client_SendCloseSecureChannelRequestAndClose (depth := depth) sc sc e r) (fun _ => or_closed S).
Proof. unfold SC_Client_SendCloseSecureChannelRequestAndClose. triple_run. Qed.
#[local] Hint Resolve triple_SendClose : triple.

Lemma triple_close_client S i f e r : triple S (close_client (depth := depth) sc sc i f e r) (fun _ => or_closed S).
Proof. unfold close_client. triple_run. Qed.
Lemma triple_close_server S i f e r : triple S (close_server sc sc i f e r) (fun _ => or_closed S).
Proof. unfold close_server. triple_run. Qed.
#[local] Hint Resolve triple_close_client triple_close_server : triple.

Lemma triple_CloseSecureConnection S p i f e r : p = Some sc \/ p = NULL ->
  triple S (SC_CloseSecureConnection (depth := depth) p sc i f e r) (fun _ => or_closed S).
Proof. intros Hp. unfold SC_CloseSecureConnection. destruct Hp as [-> | ->]; triple_run. Qed.
#[local] Hint Resolve triple_CloseSecureConnection : triple.

(** *** Transitions *)

Lemma triple_HEL S i x : triple S (SC_ClientTransition_TcpInit_To_TcpNegotiate sc i x)
  (fun b r => if b then moved (fun r => S r /\ role_state r = SECURE_CONNECTION_STATE_TCP_INIT) SECURE_CONNECTION_STATE_TCP_NEGOTIATE r else S r).
Proof. unfold SC_ClientTransition_TcpInit_To_TcpNegotiate. triple_run. Qed.

Lemma triple_ACK S b : triple S (SC_ClientTransition_TcpNegotiate_To_ScInit sc b)
  (fun b r => if b then moved (was S SECURE_CONNECTION_STATE_TCP_NEGOTIATE false) SECURE_CONNECTION_STATE_SC_INIT r else S r).
Proof. unfold SC_ClientTransition_TcpNegotiate_To_ScInit. triple_run. Qed.

Lemma triple_RCV_HEL S b : triple S (SC_ServerTransition_TcpInit_To_TcpNegotiate sc b)
  (fun b r => if b then moved (was S SECURE_CONNECTION_STATE_TCP_INIT true) SECURE_CONNECTION_STATE_TCP_NEGOTIATE r else S r).
Proof. unfold SC_ServerTransition_TcpInit_To_TcpNegotiate. triple_run. Qed.

Lemma triple_SND_ACK S i b : triple S (SC_ServerTransition_TcpNegotiate_To_ScInit sc i b)
  (fun b r => if b then moved (was S SECURE_CONNECTION_STATE_TCP_NEGOTIATE true) SECURE_CONNECTION_STATE_SC_INIT r else S r).
Proof. unfold SC_ServerTransition_TcpNegotiate_To_ScInit. triple_run. Qed.

Lemma triple_SND_OPN S i : triple S (SC_ClientTransition_ScInit_To_ScConnecting (depth := depth) sc i)
  (fun b r => if b then moved (fun r => S r /\ role_state r = SECURE_CONNECTION_STATE_SC_INIT) SECURE_CONNECTION_STATE_SC_CONNECTING r else S r).
Proof. unfold SC_ClientTransition_ScInit_To_ScConnecting. triple_run. Qed.

Lemma triple_RENEW S i : triple S (SC_ClientTransition_ScConnected_To_ScConnectedRenew (depth := depth) sc i)
  (fun b r => if b then moved (fun r => S r /\ role_state r = SECURE_CONNECTION_STATE_SC_CONNECTED) SECURE_CONNECTION_STATE_SC_CONNECTED_RENEW r else S r).
Proof. unfold SC_ClientTransition_ScConnected_To_ScConnectedRenew. triple_run. Qed.

Lemma triple_RCV_OPN S b : triple S (SC_ServerTransition_ScInit_To_ScConnecting memory sc b)
  (fun '(b, _) r => if (b : bool) then moved (was S SECURE_CONNECTION_STATE_SC_INIT true) SECURE_CONNECTION_STATE_SC_CONNECTING r else S r).
Proof. unfold SC_ServerTransition_ScInit_To_ScConnecting. triple_run. Qed.

Lemma triple_RCV_RENEW S b : triple S (SC_ServerTransition_ScConnected_To_ScConnectedRenew memory sc b)
  (fun '(b, _, _) r => if (b : bool) then moved (was S SECURE_CONNECTION_STATE_SC_CONNECTED true) SECURE_CONNECTION_STATE_SC_CONNECTED_RENEW r else S r).
Proof. unfold SC_ServerTransition_ScConnected_To_ScConnectedRenew. triple_run. Qed.

(** The identifiers that a client accepts. *)
Definition accepted (renew : bool) (channel token : Z) (r : role) : Prop :=
  if renew then channel = role_channel r /\ token <> 0 /\ token <> role_token r else channel <> 0 /\ token <> 0.

Lemma triple_check_token S renew v channel token :
  triple S (check_token sc renew v channel token) (fun b r => S r /\ (b = true -> accepted renew channel token r)).
Proof.
  unfold check_token, accepted. apply triple_connection. intros c Hc. apply triple_skip; [stays_run|]. intros ok. destruct renew; cbn [negb].
  - triple_run.
  - destruct ((channel =? 0) || _ || (token =? 0)) eqn:E; triple_run.
Qed.

(** The view after the installation of a token. *)
Definition renewed (renew : bool) (S : role -> Prop) (r : role) : Prop :=
  exists r0 channel token, S r0 /\ accepted renew channel token r0 /\ r = mkRole (role_state r0) (role_server r0) channel token.

Lemma triple_ReceiveOPN S f i b renew : triple S (SC_ClientTransitionHelper_ReceiveOPN memory sc f i b renew)
  (fun b r => if b then renewed renew S r else S r \/ renewed renew S r).
Proof.
  unfold SC_ClientTransitionHelper_ReceiveOPN. apply triple_skip; [stays_run|]. intros [o|]; [|triple_run].
  do 7 (apply triple_skip; [stays_run|]; intros ?). eapply triple_bind; [apply triple_check_token|]. intros [|]; cbn [negb]; [|triple_run].
  apply triple_skip; [stays_run|]. intros [[|] keys]; cbn [negb]; [|triple_run]. apply triple_skip; [stays_run|]. intros now.
  eapply triple_bind; [apply (triple_update _ _ _ _ (renewed renew S))|intros u; cbv beta; triple_run].
  intros c [Hc Ha]. exists (role_of c). do 2 eexists. split; [exact Hc|]. split; [by apply Ha|]. by destruct renew.
Qed.
#[local] Hint Resolve triple_ReceiveOPN : triple.

Lemma triple_receive_response S i b renew s : triple S (receive_response memory sc i b renew s)
  (fun '(b, _) r => if (b : bool) then renewed renew (was S s false) r else S r \/ renewed renew (was S s false) r).
Proof.
  unfold receive_response. apply triple_connection. intros c Hc. destruct (in_state c s) eqn:E1; [|triple_run].
  destruct (isServerConnection c) eqn:E2; cbn [negb]; [triple_run|]. destruct (is_null b); cbn [negb]; [triple_run|].
  apply triple_skip; [stays_run|]. intros [f|]; [|triple_run]. eapply triple_bind; [apply triple_ReceiveOPN|]. intros ok; cbv beta.
  apply triple_ret. unfold renewed. intros r. destruct ok; [intros (r0 & ch & tk & <- & Ha & ->)|intros [<-|(r0 & ch & tk & <- & Ha & ->)]]; [| by left |right];
    exists (role_of c), ch, tk; view_facts; repeat split; done.
Qed.
#[local] Hint Resolve triple_receive_response : triple.

Lemma triple_RCV_OPN_RESP S i b : triple S (SC_ClientTransition_ScConnecting_To_ScConnected memory sc i b)
  (fun b r => if b then moved (renewed false (was S SECURE_CONNECTION_STATE_SC_CONNECTING false)) SECURE_CONNECTION_STATE_SC_CONNECTED r
              else S r \/ renewed false (was S SECURE_CONNECTION_STATE_SC_CONNECTING false) r).
Proof.
  unfold SC_ClientTransition_ScConnecting_To_ScConnected. eapply triple_bind; [apply triple_receive_response|]. intros [[|] f]; cbn [negb]; triple_run.
Qed.

Lemma triple_RCV_RENEW_RESP S i b : triple S (SC_ClientTransition_ScConnectedRenew_To_ScConnected memory sc i b)
  (fun b r => if b then moved (renewed true (was S SECURE_CONNECTION_STATE_SC_CONNECTED_RENEW false)) SECURE_CONNECTION_STATE_SC_CONNECTED r
              else S r \/ renewed true (was S SECURE_CONNECTION_STATE_SC_CONNECTED_RENEW false) r).
Proof.
  unfold SC_ClientTransition_ScConnectedRenew_To_ScConnected. eapply triple_bind; [apply triple_receive_response|]. intros [[|] f]; triple_run.
Qed.

(** The identifiers that a server draws. *)
Lemma triple_GenerateFreshIds S c : triple S (SC_Server_GenerateFreshSecureChannelAndTokenId c)
  (fun ids r => S r /\ forall channel token, ids = Some (channel, token) -> channel <> 0 /\ token <> 0).
Proof. unfold SC_Server_GenerateFreshSecureChannelAndTokenId. triple_run. apply triple_ret. intros r Hr. split; [done|]. intros ch tk.
  destruct (_ && _) eqn:E; [|done]. intros [= <- <-]. view_facts. done.
Qed.

(** The view after a server issued a token; [ok] when the identifiers were found. *)
Definition issued (ok : bool) (S : role -> Prop) (r : role) : Prop :=
  exists r0 channel token, S r0 /\ (ok = true -> channel <> 0 /\ token <> 0) /\ r = mkRole (role_state r0) (role_server r0) channel token.

Lemma triple_issue_token S n : triple S (issue_token sc n) (fun ok => issued ok S).
Proof.
  unfold issue_token. apply triple_connection. intros c Hc. eapply triple_bind; [apply triple_GenerateFreshIds|]. intros ids; cbv beta.
  apply triple_skip; [stays_run|]. intros created. apply triple_skip; [stays_run|]. intros now.
  destruct (match ids with Some ids => ids | None => _ end) as [ch tk] eqn:Ei.
  eapply triple_bind; [apply (triple_update _ _ _ _ (issued (match ids with Some _ => true | None => false end) S))|intros u; cbv beta; triple_run].
  intros c' [Hr Hi]. exists (role_of c), ch, tk. split; [done|]. split; [|by rewrite Hr]. destruct ids as [ids|]; [|done]. intros _. subst ids. by apply Hi.
Qed.
#[local] Hint Resolve triple_issue_token : triple.

Lemma triple_SND_OPN_RESP S i q h : triple S (SC_ServerTransition_ScConnecting_To_ScConnected (depth := depth) sc i q h)
  (fun b r => if b then moved (issued true (was S SECURE_CONNECTION_STATE_SC_CONNECTING true)) SECURE_CONNECTION_STATE_SC_CONNECTED r
              else S r \/ issued false (was S SECURE_CONNECTION_STATE_SC_CONNECTING true) r).
Proof.
  unfold SC_ServerTransition_ScConnecting_To_ScConnected. apply triple_connection. intros c Hc.
  destruct (in_state c SECURE_CONNECTION_STATE_SC_CONNECTING) eqn:E1; [|triple_run]. destruct (isServerConnection c) eqn:E2; [|triple_run].
  assert (was S SECURE_CONNECTION_STATE_SC_CONNECTING true (role_of c)) as Hw by (view_facts; done).
  destruct (is_null (cryptoProvider c)); cbn [negb]; [triple_run|]. apply triple_skip; [stays_run|]. intros [f|]; [|triple_run].
  destruct (SOPC_Buffer_Create _) as [buffer|]; [|triple_run].
  apply (triple_pre _ _ _ _ (was S SECURE_CONNECTION_STATE_SC_CONNECTING true)); [by intros r <-|]. eapply triple_bind; [apply triple_issue_token|].
  set (I := issued true (was S SECURE_CONNECTION_STATE_SC_CONNECTING true)).
  assert (forall r, I r -> issued false (was S SECURE_CONNECTION_STATE_SC_CONNECTING true) r) as Hi by (intros r (r0 & ch & tk & Hr & _ & ->); by exists r0, ch, tk).
  intros [|]; cbn [negb]; [fold I|triple_run]. clearbody I. triple_run.
Qed.

Lemma triple_renew_token S n : triple S (renew_token sc n)
  (fun t r => S r /\ forall t', t = Some t' -> secureChannelId t' = role_channel r /\ tokenId t' <> 0).
Proof.
  unfold renew_token. apply triple_connection. intros c Hc. triple_run; apply triple_ret; intros r <-; (split; [done|]); intros t' [= <-].
  view_facts. done.
Qed.

(** The token of the server is renewed. *)
Definition reissued (S : role -> Prop) (r : role) : Prop := exists r0 token, S r0 /\ token <> 0 /\
  r = mkRole SECURE_CONNECTION_STATE_SC_CONNECTED (role_server r0) (role_channel r0) token.

Lemma triple_SND_RENEW_RESP S i q h n : triple S (SC_ServerTransition_ScConnectedRenew_To_ScConnected (depth := depth) sc i q h n)
  (fun b r => if b then reissued (was S SECURE_CONNECTION_STATE_SC_CONNECTED_RENEW true) r else S r).
Proof.
  unfold SC_ServerTransition_ScConnectedRenew_To_ScConnected. apply triple_connection. intros c Hc.
  destruct (in_state c SECURE_CONNECTION_STATE_SC_CONNECTED_RENEW) eqn:E1; [|triple_run]. destruct (isServerConnection c) eqn:E2; [|triple_run].
  assert (was S SECURE_CONNECTION_STATE_SC_CONNECTED_RENEW true (role_of c)) as Hw by (view_facts; done).
  apply triple_skip; [stays_run|]. intros [f|]; [|triple_run]. destruct (SOPC_Buffer_Create _) as [buffer|]; [|triple_run].
  eapply triple_bind; [apply triple_renew_token|]. intros [t|]; cbv beta; [|triple_run].
  apply triple_skip; [stays_run|]. intros [[[|] keys] nonce]; cbn [negb]; [|triple_run].
  apply triple_skip; [stays_run|]. intros [[|] o]; cbn [negb]; [|triple_run].
  eapply triple_bind; [apply (triple_update _ _ _ _ (reissued (was S SECURE_CONNECTION_STATE_SC_CONNECTED_RENEW true)))|intros u; cbv beta; triple_run].
  intros c' [Hr Ht]. destruct (Ht t eq_refl) as [T1 T2]. exists (role_of c), (tokenId t). split; [done|]. split; [done|].
  rewrite Hr. unfold role_of. cbn. f_equal. exact T1.
Qed.

End Functions.

#[export] Hint Resolve stays_EnqueueInternalEvent stays_EnqueueInternalEventAsNext stays_fails stays_start_timer stays_StartConnectionEstablishTimer
  stays_StartOPNrenewTimer stays_ClearPendingRequest stays_clear_pending stays_ClearInputChunks stays_SendErrorMsgAndClose
  stays_DeriveSymmetricKeySets stays_client_nonce stays_create_provider stays_SendOPN stays_check_response_header
  stays_decode_response stays_check_token stays_client_keys stays_check_issue stays_check_renew
  stays_record_client_nonce stays_treat_issue stays_draw stays_find_ids stays_find_token
  stays_GenerateFreshIds stays_GenerateFreshTokenId stays_server_keys stays_encode_response stays_renew_token
  stays_init_key_and_certs stays_error_or_default : stays.
