(* ===== verification/StateMgrAutomaton.v ===== *)
(** * The secure channels refine the automaton

    Every event that the thread treats changes the view of one connection at most, along an
    edge of the automaton, whatever the content of the messages, the answers of the
    cryptographic library and the failures of the allocation.  The properties of the runs
    follow by induction. *)

From Stdlib Require Import ZArith Lia.
From Stdlib Require Import Strings.Byte Strings.String.
From stdpp Require Import prelude gmap.
From S2P Require Import Prelude Common LinkedList Buffer Codec EncScalar EncString EncNodeId EncText EncArray EncExtObj EncVariant EncVariantSpec.
From S2P Require Import EncStruct EncStructSpec Types TypesSpec Services Message Strings Arrays SecureConnection ToolkitConfig Chunks ChunksStream ChunksSend.
From S2P Require Import ChunksFrame SecureChannels SecureListener StateMgr StateMgrOpn StateMgrEvents StateMgrSpec.

Open Scope Z_scope.

(** ** The automaton *)

(** The events that may close a connection. *)
Definition closes (ev : event_code) : bool :=
  match ev with
  | OnInternalEvent (INT_EP_SC_CLOSE | INT_SC_RCV_HEL | INT_SC_RCV_ACK | INT_SC_RCV_ERR | INT_SC_RCV_OPN | INT_SC_RCV_CLO | INT_SC_RCV_MSG_CHUNKS
      | INT_SC_RCV_MSG_CHUNK_ABORT | INT_SC_RCV_FAILURE | INT_SC_SND_FATAL_FAILURE | INT_SC_CLOSE) => true
  | OnSocketsEvent (SOCKET_CONNECTION | SOCKET_FAILURE) => true
  | OnTimerEvent (TIMER_SC_CONNECTION_TIMEOUT | TIMER_SC_CLIENT_OPN_RENEW) => true
  | OnInputEvent (SC_CONNECT | SC_DISCONNECT | SC_SERVICE_SND_ERR) => true
  | _ => false
  end.

(** The changes of the view of a connection for an event.  A treatment that fails half
    way leaves an intermediate state, until the connection is closed. *)
Inductive edge : event_code -> role -> role -> Prop :=
| edge_close ev r : closes ev = true -> edge ev r closed_role
| edge_connect r : role_state r = SECURE_CONNECTION_STATE_SC_CLOSED ->
    edge (OnInputEvent SC_CONNECT) r (with_state r SECURE_CONNECTION_STATE_TCP_INIT)
| edge_accept r server : role_state r = SECURE_CONNECTION_STATE_SC_CLOSED ->
    edge (OnInternalEvent INT_EP_SC_CREATE) r (mkRole SECURE_CONNECTION_STATE_TCP_INIT server (role_channel r) (role_token r))
| edge_hello r : role_state r = SECURE_CONNECTION_STATE_TCP_INIT ->
    edge (OnSocketsEvent SOCKET_CONNECTION) r (with_state r SECURE_CONNECTION_STATE_TCP_NEGOTIATE)
| edge_negotiate r s : in_role r SECURE_CONNECTION_STATE_TCP_INIT true ->
    s = SECURE_CONNECTION_STATE_TCP_NEGOTIATE \/ s = SECURE_CONNECTION_STATE_SC_INIT ->
    edge (OnInternalEvent INT_SC_RCV_HEL) r (with_state r s)
| edge_acknowledge r s : in_role r SECURE_CONNECTION_STATE_TCP_NEGOTIATE false ->
    s = SECURE_CONNECTION_STATE_SC_INIT \/ s = SECURE_CONNECTION_STATE_SC_CONNECTING ->
    edge (OnInternalEvent INT_SC_RCV_ACK) r (with_state r s)
| edge_requested r r' : in_role r SECURE_CONNECTION_STATE_SC_INIT true -> in_role r' SECURE_CONNECTION_STATE_SC_CONNECTING true ->
    edge (OnInternalEvent INT_SC_RCV_OPN) r r'
| edge_issued r r' : in_role r SECURE_CONNECTION_STATE_SC_INIT true -> in_role r' SECURE_CONNECTION_STATE_SC_CONNECTED true -> identified r' ->
    edge (OnInternalEvent INT_SC_RCV_OPN) r r'
| edge_opened r r' : in_role r SECURE_CONNECTION_STATE_SC_CONNECTING false -> role_server r' = false ->
    role_state r' = SECURE_CONNECTION_STATE_SC_CONNECTING \/ role_state r' = SECURE_CONNECTION_STATE_SC_CONNECTED -> identified r' ->
    edge (OnInternalEvent INT_SC_RCV_OPN) r r'
| edge_renew r : in_role r SECURE_CONNECTION_STATE_SC_CONNECTED false ->
    edge (OnTimerEvent TIMER_SC_CLIENT_OPN_RENEW) r (with_state r SECURE_CONNECTION_STATE_SC_CONNECTED_RENEW)
| edge_renewing r : in_role r SECURE_CONNECTION_STATE_SC_CONNECTED true ->
    edge (OnInternalEvent INT_SC_RCV_OPN) r (with_state r SECURE_CONNECTION_STATE_SC_CONNECTED_RENEW)
| edge_reissued r token : in_role r SECURE_CONNECTION_STATE_SC_CONNECTED true -> token <> 0 ->
    edge (OnInternalEvent INT_SC_RCV_OPN) r (mkRole SECURE_CONNECTION_STATE_SC_CONNECTED (role_server r) (role_channel r) token)
| edge_renewed r s token : in_role r SECURE_CONNECTION_STATE_SC_CONNECTED_RENEW false ->
    s = SECURE_CONNECTION_STATE_SC_CONNECTED_RENEW \/ s = SECURE_CONNECTION_STATE_SC_CONNECTED -> token <> 0 -> token <> role_token r ->
    edge (OnInternalEvent INT_SC_RCV_OPN) r (mkRole s (role_server r) (role_channel r) token).

(** The view is the same, or follows an edge. *)
Definition follows (ev : event_code) (r0 r : role) : Prop := r = r0 \/ edge ev r0 r.

Lemma follows_refl ev r : follows ev r r.
Proof. by left. Qed.
Lemma follows_close ev r S r' : closes ev = true -> (forall r', S r' -> follows ev r r') -> or_closed S r' -> follows ev r r'.
Proof. intros Hc Hs [Hr | ->]; [by apply Hs|]. right. by apply edge_close. Qed.

(** ** Handlers *)

Section Handlers.
Context `{Allocator} `{Host} `{EndiannessCfg} {cfg : SOPC_Common_EncodingConstants} `{Crypto} `{!SendCrypto} `{!Environment}.
Context {depth : nat} (memory : @StructObject (Services depth)).
Variables (sc : Z) (l0 : list SOPC_SecureConnection) (d0 : list output).
Hypothesis Hsc : SC_GetConnection sc = Some sc.
#[local] Abbreviation triple := (triple sc l0 d0).
#[local] Abbreviation close := (SC_CloseSecureConnection (depth := depth)).

(** A closure after changes that follow the automaton. *)
Lemma follows_closing ev r0 S p i f e r : p = Some sc \/ p = NULL -> closes ev = true -> (forall r, S r -> follows ev r0 r) ->
  triple S (close p sc i f e r) (fun _ => follows ev r0).
Proof.
  intros Hp Hc Hs. eapply (triple_weaken _ _ _ S S); [done| |by apply triple_CloseSecureConnection]. intros u r'. by apply follows_close.
Qed.

Lemma with_this k Q S : triple S (k sc) Q -> triple S (with_connection sc k) Q.
Proof. unfold with_connection. by rewrite Hsc. Qed.

(** The change of the view is an edge. *)
Ltac edge_done :=
  let r := fresh "r" in
  intros r; cbv beta; intros; unfold renewed, issued, reissued, accepted, follows in *; view_facts;
  repeat match goal with H : _ \/ _ |- _ => destruct H; view_facts end;
  first [by left
        | right; first [by apply edge_connect | by apply edge_hello | by apply edge_renew | by apply edge_renewing
                       | eapply (edge_negotiate (role_of _)); [by split|by eauto]
                       | eapply (edge_acknowledge (role_of _)); [by split|by eauto]
                       | by apply edge_requested | apply edge_issued; [done|done|match goal with E : true = true -> _ |- _ => exact (E eq_refl) end]
                       | apply edge_opened; [done|done|by eauto|split; by eauto]
                       | apply (edge_reissued (role_of _)); [done|by eauto]
                       | apply (edge_renewed (role_of _)); [done|by eauto|by eauto|by eauto]]].
Ltac closing :=
  match goal with |- StateMgrSpec.triple _ _ _ _ (SC_CloseSecureConnection _ _ _ _ _ _) _ => apply follows_closing; [by eauto|reflexivity|edge_done] end.
Ltac ending :=
  match goal with
  | |- StateMgrSpec.triple _ _ _ _ (wret _) _ => apply triple_ret; edge_done
  | |- StateMgrSpec.triple _ _ _ _ (wbind _ _) _ => fail 1
  | |- StateMgrSpec.triple _ _ _ ?S ?m (fun _ => follows _ _) =>
      apply (triple_weaken _ _ _ S S m _ (fun _ => S)); [done|intros _; edge_done|solve [apply triple_stays; stays_run]]
  end.
Ltac closing_run := repeat first [closing | ending | triple_step; cbv beta iota zeta].

Lemma follows_hello r0 b : triple (eq r0) (on_hello (depth := depth) sc b) (fun _ => follows (OnInternalEvent INT_SC_RCV_HEL) r0).
Proof.
  apply with_this. apply triple_skip; [stays_run|]. intros _. apply triple_connection. intros c ->.
  destruct (_ || _) eqn:E; [closing|]. eapply triple_bind; [apply triple_RCV_HEL|]. intros [|]; cbv beta; [|closing_run].
  eapply triple_bind; [apply triple_SND_ACK|]. intros [|]; cbv beta; [apply triple_ret; edge_done|closing_run].
Qed.

Lemma follows_acknowledge r0 b : triple (eq r0) (on_acknowledge (depth := depth) sc b) (fun _ => follows (OnInternalEvent INT_SC_RCV_ACK) r0).
Proof.
  apply with_this. apply triple_connection. intros c ->. destruct (_ || _) eqn:E; [closing|].
  eapply triple_bind; [apply triple_ACK|]. intros [|]; cbv beta; [|closing_run].
  eapply triple_bind; [apply triple_SND_OPN|]. intros [|]; cbv beta; [apply triple_ret; edge_done|closing_run].
Qed.

Lemma follows_client_open r0 b : triple (eq r0) (onClientSideOpen memory sc sc b) (fun _ => follows (OnInternalEvent INT_SC_RCV_OPN) r0).
Proof.
  unfold onClientSideOpen. apply triple_connection. intros c ->. destruct (isServerConnection c) eqn:Es; cbn [negb]; [triple_run|].
  destruct (negb _ && negb _) eqn:E; [closing|]. apply triple_skip; [stays_run|]. intros [[|] msg]; cbn [negb]; [|closing].
  apply triple_skip; [stays_run|]. intros _. destruct (in_state c SECURE_CONNECTION_STATE_SC_CONNECTING) eqn:E1.
  - eapply triple_bind; [apply triple_RCV_OPN_RESP|]. intros [|]; cbn [negb].
    + apply triple_connection. intros c' Hc'. apply triple_skip; [stays_run|]. intros _.
      apply (triple_weaken _ _ _ _ (eq (role_of c')) _ _ (fun _ => eq (role_of c'))); [done| |apply triple_stays; stays_run]. intros _ r <-.
      revert Hc'. generalize (role_of c'). edge_done.
    + closing_run.
  - eapply triple_bind; [apply triple_RCV_RENEW_RESP|]. intros [|]; cbn [negb]; [apply triple_ret; edge_done|closing_run].
Qed.

Lemma follows_server_open r0 b q : triple (eq r0) (onServerSideOpen memory sc sc b q) (fun _ => follows (OnInternalEvent INT_SC_RCV_OPN) r0).
Proof.
  unfold onServerSideOpen. apply triple_connection. intros c ->. destruct (isServerConnection c) eqn:Es; [|triple_run].
  destruct (negb _ && negb _) eqn:E; [closing|]. apply triple_skip; [stays_run|]. intros [[|] msg]; cbn [negb]; [|closing].
  apply triple_skip; [stays_run|]. intros _. destruct (in_state c SECURE_CONNECTION_STATE_SC_INIT) eqn:E1.
  - eapply triple_bind; [apply triple_RCV_OPN|]. intros [[|] h]; cbv beta iota; [|closing_run].
    eapply triple_bind; [apply triple_SND_OPN_RESP|]. intros [|]; cbn [negb]; [|closing_run].
    apply triple_connection. intros c' Hc'. apply triple_skip; [stays_run|]. intros _.
    apply (triple_weaken _ _ _ _ (eq (role_of c')) _ _ (fun _ => eq (role_of c'))); [done| |apply triple_stays; stays_run]. intros _ r <-.
    revert Hc'. generalize (role_of c'). edge_done.
  - eapply triple_bind; [apply triple_RCV_RENEW|]. intros [[[|] h] n]; cbv beta iota; [|closing_run].
    eapply triple_bind; [apply triple_SND_RENEW_RESP|]. intros [|]; cbn [negb]; [apply triple_ret; edge_done|closing_run].
Qed.

Lemma follows_open r0 b q : triple (eq r0) (on_open memory sc b q) (fun _ => follows (OnInternalEvent INT_SC_RCV_OPN) r0).
Proof.
  apply with_this. apply triple_connection. intros c ->. destruct (isServerConnection c).
  - destruct (_ <=? _); [apply follows_server_open|apply triple_fault].
  - apply follows_client_open.
Qed.

Lemma follows_close_request r0 b : triple (eq r0) (on_close_request (depth := depth) sc b) (fun _ => follows (OnInternalEvent INT_SC_RCV_CLO) r0).
Proof. apply with_this. closing_run. Qed.

Lemma follows_abort r0 b x : triple (eq r0) (on_abort (depth := depth) sc b x) (fun _ => follows (OnInternalEvent INT_SC_RCV_MSG_CHUNK_ABORT) r0).
Proof. unfold on_abort. rewrite Hsc. closing_run. Qed.

Lemma follows_error r0 b : triple (eq r0) (on_error (depth := depth) sc b) (fun _ => follows (OnInternalEvent INT_SC_RCV_ERR) r0).
Proof. unfold on_error. rewrite Hsc. closing_run. Qed.

(** The internal events, except the acceptance of a connection and the delivery of a
    message. *)
Lemma follows_internal r0 e p x : e <> INT_EP_SC_CREATE -> e <> INT_SC_RCV_MSG_CHUNKS ->
  triple (eq r0) (SOPC_SecureConnectionStateMgr_OnInternalEvent memory e sc p x) (fun _ => follows (OnInternalEvent e) r0).
Proof.
  intros N1 N2. destruct e; try done; cbn [SOPC_SecureConnectionStateMgr_OnInternalEvent]; try solve [apply triple_fault];
    try (apply triple_skip; [solve [stays_run]|]; intros ?);
    first [apply follows_hello | apply follows_acknowledge | apply follows_error | apply follows_open | apply follows_close_request
          | apply follows_abort | apply with_this; closing_run | closing_run].
Qed.

Lemma follows_socket r0 e x : triple (eq r0) (SOPC_SecureConnectionStateMgr_OnSocketEvent (depth := depth) e sc x) (fun _ => follows (OnSocketsEvent e) r0).
Proof.
  destruct e; cbn [SOPC_SecureConnectionStateMgr_OnSocketEvent]; try solve [apply triple_fault].
  - rewrite Hsc. destruct (_ <=? _); [|apply triple_fault]. apply triple_connection. intros c ->. destruct (in_state c _) eqn:E; cbn [negb]; [|ending].
    eapply triple_bind; [apply triple_HEL|]. intros [|]; cbv beta; [ending|closing].
  - apply with_this. closing.
Qed.

Lemma stays_request_timeout x : stays sc l0 d0 (on_request_timeout sc x).
Proof. unfold on_request_timeout, with_connection. rewrite Hsc. stays_run. Qed.

Lemma follows_timer r0 e x : triple (eq r0) (SOPC_SecureConnectionStateMgr_OnTimerEvent (depth := depth) e sc x) (fun _ => follows (OnTimerEvent e) r0).
Proof.
  destruct e; cbn [SOPC_SecureConnectionStateMgr_OnTimerEvent].
  - apply with_this. closing_run.
  - apply with_this. apply triple_skip; [stays_run|]. intros _. apply triple_connection. intros c ->. destruct (_ && _) eqn:E; [|ending].
    eapply triple_bind; [apply triple_RENEW|]. intros [|]; cbv beta; [ending|closing].
  - eapply triple_weaken; [done| |apply triple_stays, stays_request_timeout]. intros ?; edge_done.
Qed.

Lemma follows_disconnect r0 : triple (eq r0) (on_disconnect (depth := depth) sc) (fun _ => follows (OnInputEvent SC_DISCONNECT) r0).
Proof.
  apply with_this. apply triple_connection. intros c ->. destruct (is_connected c); [|closing]. destruct (isServerConnection c); [closing|].
  unfold SC_ClientTransition_Connected_To_Disconnected. apply triple_connection. intros c' Hc'. destruct (is_connected c'); [|apply triple_fault].
  eapply (triple_weaken _ _ _ _ (eq (role_of c'))); [done| |by apply triple_SendClose]. intros u r. apply follows_close; [done|]. rewrite Hc'. edge_done.
Qed.

Lemma follows_input r0 e p x : e <> SC_CONNECT ->
  triple (eq r0) (SOPC_SecureConnectionStateMgr_Dispatcher (depth := depth) e sc p x) (fun _ => follows (OnInputEvent e) r0).
Proof.
  intros N. destruct e; try done; cbn [SOPC_SecureConnectionStateMgr_Dispatcher]; try solve [apply triple_fault].
  - apply follows_disconnect.
  - unfold on_send_message. rewrite Hsc. closing_run.
  - apply with_this. closing_run.
Qed.

(** The manager of the chunks. *)
Lemma follows_chunks_send r0 ev e b x : triple (eq r0) (on_chunks sc (fun T => SOPC_ChunksMgr_Dispatcher e sc b x)) (fun _ => follows ev r0).
Proof.
  eapply triple_weaken; [done| |apply triple_stays, stays_chunks; intros T r; apply kept_Dispatcher]. intros ?; edge_done.
Qed.
Lemma follows_chunks_receive r0 ev e b : triple (eq r0) (on_chunks sc (fun T => SOPC_ChunksMgr_OnSocketEvent e b)) (fun _ => follows ev r0).
Proof.
  eapply triple_weaken; [done| |apply triple_stays, stays_chunks; intros T r; apply kept_OnSocketEvent]. intros ?; edge_done.
Qed.

End Handlers.

(** ** Events that concern no connection *)

Section Others.
Context `{Allocator} `{Host} `{EndiannessCfg} {cfg : SOPC_Common_EncodingConstants} `{Crypto} `{!SendCrypto} `{!Environment}.
Context {depth : nat} (memory : @StructObject (Services depth)).
Variables (sc : Z) (l0 : list SOPC_SecureConnection) (d0 : list output).
#[local] Abbreviation stays := (stays sc l0 d0).

Lemma stays_put_listener i l : stays (put_listener i l).
Proof. unfold put_listener. apply stays_bind; [apply stays_get|]. intros w. apply stays_bind; [apply stays_lift|]. intros a. apply stays_world. by intros ? ? ? [= <- <-]. Qed.
#[local] Hint Resolve stays_put_listener : stays.
Lemma stays_opened_listener i : stays (opened_listener i).
Proof. unfold opened_listener. stays_run. Qed.
Lemma stays_close_connections n l i e : stays (close_connections n l i e).
Proof. revert i. induction n as [|n IH]; intros i; cbn [close_connections]; stays_run. Qed.
#[local] Hint Resolve stays_opened_listener stays_close_connections : stays.
Lemma stays_OpeningListener i : stays (SOPC_SecureListenerStateMgr_OpeningListener i).
Proof. unfold SOPC_SecureListenerStateMgr_OpeningListener. stays_run. Qed.
Lemma stays_CloseListener i f : stays (SOPC_SecureListenerStateMgr_CloseListener i f).
Proof. unfold SOPC_SecureListenerStateMgr_CloseListener. stays_run. Qed.
#[local] Hint Resolve stays_OpeningListener stays_CloseListener : stays.
Lemma stays_listener_internal e i x : stays (SOPC_SecureListenerStateMgr_OnInternalEvent e i x).
Proof. unfold SOPC_SecureListenerStateMgr_OnInternalEvent. stays_run. Qed.
Lemma stays_listener_socket e i x : stays (SOPC_SecureListenerStateMgr_OnSocketEvent e i x).
Proof. unfold SOPC_SecureListenerStateMgr_OnSocketEvent. stays_run. Qed.
Lemma stays_listener_input e i : stays (SOPC_SecureListenerStateMgr_Dispatcher e i).
Proof. unfold SOPC_SecureListenerStateMgr_Dispatcher. stays_run. Qed.

(** *** Events for an index that is not valid *)

Section NoConnection.
Variable i : Z.
Hypothesis Hi : SC_GetConnection i = NULL.

Lemma without k : stays (with_connection i k).
Proof. unfold with_connection. rewrite Hi. apply stays_ret. Qed.
#[local] Hint Resolve without : stays.

Lemma stays_internal e p x : e <> INT_EP_SC_CREATE -> stays (SOPC_SecureConnectionStateMgr_OnInternalEvent memory e i p x).
Proof.
  intros N. destruct e; try done; cbn [SOPC_SecureConnectionStateMgr_OnInternalEvent];
    unfold on_hello, on_acknowledge, on_open, on_close_request, on_message, on_abort, on_error, SC_CloseSecureConnection; rewrite ?Hi; stays_run.
Qed.
Lemma stays_socket e x : stays (SOPC_SecureConnectionStateMgr_OnSocketEvent (depth := depth) e i x).
Proof. destruct e; cbn [SOPC_SecureConnectionStateMgr_OnSocketEvent]; rewrite ?Hi; stays_run. Qed.
Lemma stays_timer e x : stays (SOPC_SecureConnectionStateMgr_OnTimerEvent (depth := depth) e i x).
Proof. destruct e; cbn [SOPC_SecureConnectionStateMgr_OnTimerEvent]; unfold on_request_timeout; stays_run. Qed.
Lemma stays_input e p x : e <> SC_CONNECT -> stays (SOPC_SecureConnectionStateMgr_Dispatcher (depth := depth) e i p x).
Proof.
  intros N. destruct e; try done; cbn [SOPC_SecureConnectionStateMgr_Dispatcher]; unfold on_disconnect, on_send_message; rewrite ?Hi; stays_run.
Qed.

End NoConnection.
End Others.

(** ** The thread *)

Section Thread.
Context `{Allocator} `{Host} `{EndiannessCfg} {cfg : SOPC_Common_EncodingConstants} `{Crypto} `{!SendCrypto} `{!Environment}.
Context {depth : nat} (memory : @StructObject (Services depth)).

(** The number of entries of the array; the entry 0 is not used. *)
Definition sized (w : world) : Prop :=
  Z.of_nat (length (secureConnectionsArray w)) = SOPC_MAX_SECURE_CONNECTIONS_PLUS_BUFFERED + 1 /\ 0 <= lastSecureConnectionArrayIdx w.

(** The view of one connection follows the automaton; nothing is delivered. *)
Definition evolves (ev : event_code) (w w' : world) : Prop :=
  exists i c c', secureConnectionsArray w !! i = Some c /\ secureConnectionsArray w' = <[i := c']> (secureConnectionsArray w) /\
    follows ev (role_of c) (role_of c') /\ deliveries (outputs w') = deliveries (outputs w) /\ 0 <= lastSecureConnectionArrayIdx w'.

Lemma evolves_holds ev w w' sc c :
  secureConnectionsArray w !! Z.to_nat sc = Some c ->
  holds sc (secureConnectionsArray w) (deliveries (outputs w)) (follows ev (role_of c)) w' -> evolves ev w w'.
Proof.
  intros Hc (Ho & (c' & Hc' & Hf) & Hd). exists (Z.to_nat sc), c, c'. split; [done|]. split; [|done].
  apply list_eq. intros j. destruct (decide (j = Z.to_nat sc)) as [->|N].
  - by rewrite list_lookup_insert_eq by (by eapply lookup_lt_Some).
  - rewrite list_lookup_insert_ne by done. by apply Ho.
Qed.

Lemma holds_self sc w c : sized w -> secureConnectionsArray w !! Z.to_nat sc = Some c ->
  holds sc (secureConnectionsArray w) (deliveries (outputs w)) (eq (role_of c)) w.
Proof. intros [_ Hl] Hc. split; [done|]. split; [by exists c|done]. Qed.

Lemma valid_entry w sc : sized w -> SC_GetConnection sc = Some sc -> exists c, secureConnectionsArray w !! Z.to_nat sc = Some c.
Proof.
  unfold sized, SC_GetConnection. intros [Hs _]. destruct (_ && _) eqn:E; [|done]. intros _. apply andb_true_iff in E as [E1 E2].
  apply lookup_lt_is_Some. lia.
Qed.

Lemma GetConnection_cases i : SC_GetConnection i = Some i \/ SC_GetConnection i = NULL.
Proof. unfold SC_GetConnection. destruct (_ && _); auto. Qed.

Lemma evolves_triple {A} (m : W A) ev sc w a w' : sized w -> SC_GetConnection sc = Some sc ->
  (forall l0 d0 r0, triple sc l0 d0 (eq r0) m (fun _ => follows ev r0)) -> m w = Ret (a, w') -> evolves ev w w'.
Proof.
  intros Hs Hsc Hm E. destruct (valid_entry w sc Hs Hsc) as [c Hc]. eapply evolves_holds; [exact Hc|].
  eapply (Hm _ _ (role_of c)); [|exact E]. by apply holds_self.
Qed.

Lemma evolves_stays {A} (m : W A) ev w a w' : sized w -> (forall l0 d0, stays 0 l0 d0 m) -> m w = Ret (a, w') -> evolves ev w w'.
Proof.
  intros Hs Hm E. destruct (lookup_lt_is_Some_2 (secureConnectionsArray w) (Z.to_nat 0)) as [c Hc].
  { destruct Hs as [Hs _]. replace SOPC_MAX_SECURE_CONNECTIONS_PLUS_BUFFERED with 25 in Hs by done. lia. }
  eapply evolves_holds; [exact Hc|]. eapply holds_weaken; [|eapply (Hm _ _ (eq (role_of c))); [|exact E]; by apply holds_self].
  intros r <-. apply follows_refl.
Qed.

(** *** New connections *)

Lemma follows_connected r0 r : role_state r0 = SECURE_CONNECTION_STATE_SC_CLOSED -> with_state r0 SECURE_CONNECTION_STATE_TCP_INIT = r ->
  follows (OnInputEvent SC_CONNECT) r0 r.
Proof. intros E <-. right. by apply edge_connect. Qed.

Lemma InitNewConnection_holds w b i w' : sized w -> SC_InitNewConnection w = Ret (b, i, w') ->
  (b = false /\ w' = w) \/
  (exists sc c, SC_GetConnection sc = Some sc /\ secureConnectionsArray w !! Z.to_nat sc = Some c /\
    state c = SECURE_CONNECTION_STATE_SC_CLOSED /\ (b = true -> i = sc) /\
    holds sc (secureConnectionsArray w) (deliveries (outputs w)) (eq (with_state (role_of c) SECURE_CONNECTION_STATE_TCP_INIT)) w').
Proof.
  intros Hs E. unfold SC_InitNewConnection in E. apply wbind_inv in E as (w1 & w2 & [= <- <-] & E).
  apply wbind_inv in E as ([found sc] & w3 & E1 & E). apply wlift_inv in E1 as [E1 ->]. destruct found; [|by injection E as <- <- <-; left].
  right. apply search_free_inv in E1 as [Hr E1]; [|apply Hs]. destruct (array_get _ sc) as [c|] eqn:Ec; [|done]. injection E1 as E1.
  apply bool_decide_eq_true in E1. apply array_get_inv in Ec as [_ Ec]. exists sc, c.
  assert (SC_GetConnection sc = Some sc) as Hsc. { unfold SC_GetConnection. by rewrite (proj2 (andb_true_iff _ _)) by lia. }
  split; [done|]. split; [done|]. split; [done|].
  apply wbind_inv in E as (u & w4 & E2 & E).
  eapply (triple_moved _ _ _ (eq (role_of c)) _ SECURE_CONNECTION_STATE_TCP_INIT) in E2; [|done|by apply holds_self].
  assert (holds sc (secureConnectionsArray w) (deliveries (outputs w)) (eq (with_state (role_of c) SECURE_CONNECTION_STATE_TCP_INIT)) w4) as Hm
    by (eapply holds_weaken; [|exact E2]; intros r (r0 & <- & ->); done).
  destruct (is_null _).
  - injection E as <- <- <-. by split.
  - apply wbind_inv in E as (u2 & w5 & E3 & [= <- <- <-]). split; [done|]. injection E3 as <- <-. destruct Hm as (Ho & Hc & Hd & _). split; [done|]. split; [done|]. split; [done|]. cbn. lia.
Qed.

Lemma evolves_from {A} (m : W A) ev sc c S w w1 a w' : secureConnectionsArray w !! Z.to_nat sc = Some c ->
  holds sc (secureConnectionsArray w) (deliveries (outputs w)) S w1 ->
  triple sc (secureConnectionsArray w) (deliveries (outputs w)) S m (fun _ => follows ev (role_of c)) -> m w1 = Ret (a, w') -> evolves ev w w'.
Proof. intros Hc Hh Hm E. eapply evolves_holds; [exact Hc|]. by eapply Hm. Qed.

Lemma triple_output sc l0 d0 (S T : role -> Prop) o : is_delivery o = false -> (forall r, S r -> T r) -> triple sc l0 d0 S (output_to o) (fun _ => T).
Proof. intros Ho Hs. apply (triple_weaken _ _ _ S S _ _ (fun _ => S)); [done|intros _; exact Hs|by apply triple_stays, stays_output]. Qed.

Lemma evolves_connect w i a w' : sized w -> on_connect (depth := depth) i w = Ret (a, w') -> evolves (OnInputEvent SC_CONNECT) w w'.
Proof.
  intros Hs E. unfold on_connect in E. apply wbind_inv in E as ([f|] & w1 & E1 & E); [|done].
  unfold with_configuration in E1. apply wbind_inv in E1 as (w2 & w3 & [= <- <-] & E1). apply wlift_inv in E1 as [_ ->].
  apply wbind_inv in E as ([b j] & w1 & E1 & E). apply InitNewConnection_holds in E1 as [[-> ->]|(sc & c & Hsc & Hc & Ec & Hj & Hh)]; [..|done].
  { eapply (evolves_stays (output_to _)); [done| |exact E]. intros l0 d0. by apply stays_output. }
  eapply evolves_from; [exact Hc|exact Hh| |exact E]. destruct b; cbn [negb]; [|apply triple_output; [done|intros r; by apply follows_connected]].
  rewrite Hj, Hsc by done. apply triple_skip; [stays_run|]. intros _. apply triple_skip; [stays_run|].
  intros [|]; cbn [negb]; [|apply follows_closing; [done|by left|done|intros r; by apply follows_connected]].
  apply triple_skip; [stays_run|]. intros [status timer]. apply triple_skip; [stays_run|]. intros _. destruct (is_ok status).
  - apply triple_output; [done|intros r; by apply follows_connected].
  - apply follows_closing; [done|by left|done|intros r; by apply follows_connected].
Qed.

Lemma follows_accepted r0 b r : role_state r0 = SECURE_CONNECTION_STATE_SC_CLOSED ->
  mkRole SECURE_CONNECTION_STATE_TCP_INIT b (role_channel r0) (role_token r0) = r -> follows (OnInternalEvent INT_EP_SC_CREATE) r0 r.
Proof. intros E <-. right. by apply edge_accept. Qed.

Lemma evolves_create w i x a w' : sized w -> on_create i x w = Ret (a, w') -> evolves (OnInternalEvent INT_EP_SC_CREATE) w w'.
Proof.
  intros Hs E. unfold on_create in E. destruct (_ <=? _); [|done]. apply wbind_inv in E as ([ok k] & w1 & E1 & E).
  unfold initServerSC in E1. apply wbind_inv in E1 as ([b j] & w2 & E1 & E2).
  apply InitNewConnection_holds in E1 as [[-> ->]|(sc & c & Hsc & Hc & Ec & Hj & Hh)]; [..|done].
  { injection E2 as <- <- <-. eapply (evolves_stays (output_to _)); [done| |exact E]. intros l0 d0. by apply stays_output. }
  set (accepted := fun r => exists b, mkRole SECURE_CONNECTION_STATE_TCP_INIT b (role_channel (role_of c)) (role_token (role_of c)) = r).
  assert (forall r, accepted r -> follows (OnInternalEvent INT_EP_SC_CREATE) (role_of c) r) as Ha by (intros r [b' Hb]; by apply (follows_accepted _ b')).
  assert (holds sc (secureConnectionsArray w) (deliveries (outputs w)) accepted w1) as Hx.
  { destruct b; cbn [negb] in E2; [rewrite Hj, Hsc in E2 by done|injection E2 as <- <- <-; eapply holds_weaken; [|exact Hh]; intros r <-; by eexists].
    match type of E2 with ?m w2 = _ => assert (forall l0 d0, triple sc l0 d0 (eq (with_state (role_of c) SECURE_CONNECTION_STATE_TCP_INIT)) m (fun _ => accepted)) as T end;
      [|by eapply T]. intros l0 d0.
    eapply triple_bind; [apply (triple_update _ _ _ _ accepted); intros c' Hr; exists true; injection Hr as R1 R2 R3 R4; unfold role_of; cbn; congruence|].
    intros u; cbv beta. clearbody accepted. triple_run. }
  eapply evolves_from; [exact Hc|exact Hx| |exact E]. destruct ok; [|by apply triple_output].
  apply triple_skip; [by apply stays_output|]. intros _.
  apply (triple_weaken _ _ _ accepted accepted _ _ (fun _ => accepted)); [done|intros _; exact Ha|apply triple_stays; stays_run].
Qed.

(** *** Delivery *)

(** The message of an event is delivered to the services, by a connection whose channel is
    established. *)
Definition delivers (ev : Event) (w w' : world) : Prop :=
  code ev = OnInternalEvent INT_SC_RCV_MSG_CHUNKS /\
  exists c buffer x, secureConnectionsArray w !! Z.to_nat (event_id ev) = Some c /\ is_connected c = true /\ params ev = BufferParams (Some buffer) /\
    secureConnectionsArray w' = secureConnectionsArray w /\ lastSecureConnectionArrayIdx w' = lastSecureConnectionArrayIdx w /\
    outputs w' = ToServices SC_SERVICE_RCV_MSG (event_id ev) (BufferParams (Some buffer)) x :: outputs w.

Lemma message_cases i b x w a w' : sized w -> SC_GetConnection i = Some i -> on_message (depth := depth) i b x w = Ret (a, w') ->
  evolves (OnInternalEvent INT_SC_RCV_MSG_CHUNKS) w w' \/
  exists c buffer x', secureConnectionsArray w !! Z.to_nat i = Some c /\ is_connected c = true /\ b = Some buffer /\
    secureConnectionsArray w' = secureConnectionsArray w /\ lastSecureConnectionArrayIdx w' = lastSecureConnectionArrayIdx w /\
    outputs w' = ToServices SC_SERVICE_RCV_MSG i (BufferParams (Some buffer)) x' :: outputs w.
Proof.
  intros Hs Hi E. unfold on_message, with_connection in E. rewrite Hi in E. destruct (valid_entry w i Hs Hi) as [c Hc].
  apply wbind_inv in E as (c' & w1 & E1 & E). unfold connection in E1. apply wbind_inv in E1 as (w2 & w3 & [= <- <-] & E1).
  apply wlift_inv in E1 as [E1 ->]. apply array_get_inv in E1 as [_ E1]. rewrite Hc in E1. injection E1 as <-. destruct (is_connected c) eqn:Ec.
  - right. destruct b as [buffer|]; [|done]. injection E as <- <-. by exists c, buffer, (if isServerConnection c then x else 0).
  - left. eapply evolves_from; [exact Hc|by apply holds_self| |exact E].
    apply follows_closing; [done|by left|done|]. intros r <-. apply follows_refl.
Qed.

Lemma internal_chunks e i p x w w' : sized w ->
  with_connection i (fun sc => let@ buffer := wlift (params_buffer p) in on_chunks sc (fun T => SOPC_ChunksMgr_Dispatcher e i buffer x)) w = Ret (tt, w') ->
  evolves (OnInternalEvent e) w w'.
Proof.
  intros Hs E. destruct (GetConnection_cases i) as [Hi|Hi].
  - eapply (evolves_triple _ _ i); [done|done| |exact E]. intros l0 d0 r0. apply with_this; [done|]. apply triple_skip; [stays_run|]. intros b. apply follows_chunks_send.
  - eapply evolves_stays; [done| |exact E]. intros l0 d0. by apply without.
Qed.

Lemma internal_manager e i p x w w' : sized w -> e <> INT_EP_SC_CREATE -> e <> INT_SC_RCV_MSG_CHUNKS ->
  SOPC_SecureConnectionStateMgr_OnInternalEvent memory e i p x w = Ret (tt, w') -> evolves (OnInternalEvent e) w w'.
Proof.
  intros Hs N1 N2 E. destruct (GetConnection_cases i) as [Hi|Hi].
  - eapply (evolves_triple _ _ i); [done|done| |exact E]. intros l0 d0 r0. by apply follows_internal.
  - eapply evolves_stays; [done| |exact E]. intros l0 d0. by apply stays_internal.
Qed.

Lemma internal_message i p x w w' : sized w -> SOPC_SecureConnectionStateMgr_OnInternalEvent memory INT_SC_RCV_MSG_CHUNKS i p x w = Ret (tt, w') ->
  evolves (OnInternalEvent INT_SC_RCV_MSG_CHUNKS) w w' \/ delivers (mkEvent (OnInternalEvent INT_SC_RCV_MSG_CHUNKS) i p x) w w'.
Proof.
  intros Hs E. destruct (GetConnection_cases i) as [Hi|Hi].
  - cbn [SOPC_SecureConnectionStateMgr_OnInternalEvent] in E. apply wbind_inv in E as (b & w1 & E1 & E). apply wlift_inv in E1 as [E1 ->].
    apply message_cases in E as [E|(c & buffer & x' & Hc & Hk & -> & Hr)]; [by left| |done|done]. right. split; [done|]. exists c, buffer, x'.
    split; [done|]. split; [done|]. split; [|done]. destruct p; try done. by injection E1 as ->.
  - left. eapply evolves_stays; [done| |exact E]. intros l0 d0. by apply stays_internal.
Qed.

Lemma internal_cases e i p x w w' : sized w -> SOPC_SecureChannels_OnInternalEvent memory e i p x w = Ret (tt, w') ->
  evolves (OnInternalEvent e) w w' \/ delivers (mkEvent (OnInternalEvent e) i p x) w w'.
Proof.
  intros Hs E. destruct e; cbn [SOPC_SecureChannels_OnInternalEvent] in E;
    lazymatch type of E with
    | SOPC_SecureListenerStateMgr_OnInternalEvent _ _ _ _ = _ =>
        left; eapply evolves_stays; [done| |exact E]; intros l0 d0; apply stays_listener_internal
    | with_connection _ _ _ = _ => left; by eapply internal_chunks
    | SOPC_SecureConnectionStateMgr_OnInternalEvent _ INT_EP_SC_CREATE _ _ _ _ = _ => left; by eapply evolves_create
    | SOPC_SecureConnectionStateMgr_OnInternalEvent _ INT_SC_RCV_MSG_CHUNKS _ _ _ _ = _ => by apply internal_message
    | _ => left; by eapply internal_manager
    end.
Qed.

Lemma socket_cases e i p x w w' : sized w -> SOPC_SecureChannels_OnSocketsEvent (depth := depth) e i p x w = Ret (tt, w') -> evolves (OnSocketsEvent e) w w'.
Proof.
  intros Hs E. destruct (GetConnection_cases i) as [Hi|Hi]; destruct e; cbn [SOPC_SecureChannels_OnSocketsEvent] in E;
    try (eapply evolves_stays; [done| |exact E]; intros l0 d0; first [apply stays_listener_socket | by apply stays_socket | by apply without]);
    (eapply (evolves_triple _ _ i); [done|done| |exact E]); intros l0 d0 r0;
    first [by apply follows_socket | apply with_this; [done|]; apply triple_skip; [stays_run|]; intros b; apply follows_chunks_receive].
Qed.

Lemma input_cases e i p x w w' : sized w -> SOPC_SecureChannels_OnInputEvent (depth := depth) e i p x w = Ret (tt, w') -> evolves (OnInputEvent e) w w'.
Proof.
  intros Hs E. destruct (GetConnection_cases i) as [Hi|Hi]; destruct e; cbn [SOPC_SecureChannels_OnInputEvent] in E;
    try (by eapply evolves_connect);
    try (eapply evolves_stays; [done| |exact E]; intros l0 d0; first [apply stays_listener_input | by apply stays_input]);
    (eapply (evolves_triple _ _ i); [done|done| |exact E]); intros l0 d0 r0; by apply follows_input.
Qed.

Lemma timer_cases e i x w w' : sized w -> SOPC_SecureChannels_OnTimerEvent (depth := depth) e i x w = Ret (tt, w') -> evolves (OnTimerEvent e) w w'.
Proof.
  intros Hs E. unfold SOPC_SecureChannels_OnTimerEvent in E. destruct (GetConnection_cases i) as [Hi|Hi].
  - eapply (evolves_triple _ _ i); [done|done| |exact E]. intros l0 d0 r0. by apply follows_timer.
  - eapply evolves_stays; [done| |exact E]. intros l0 d0. by apply stays_timer.
Qed.

(** Every event follows the automaton, or delivers its message. *)
Lemma callback_cases ev w w' : sized w -> callback memory ev w = Ret (tt, w') -> evolves (code ev) w w' \/ delivers ev w w'.
Proof.
  intros Hs E. destruct ev as [[e|e|e|e] i p x]; unfold callback in E; cbn in E |- *.
  - by apply internal_cases.
  - left. by eapply socket_cases.
  - left. by eapply timer_cases.
  - left. by eapply input_cases.
Qed.

End Thread.
