(* ===== verification/StateMgrRuns.v ===== *)
(** * Runs of the secure channels

    The thread treats the events of its queue one after the other; the sockets, the timers
    and the services add events to the queue at any time.  The theorems hold for every
    such run, from the initialisation of the component. *)

From Stdlib Require Import ZArith Lia.
From Stdlib Require Import Strings.Byte Strings.String.
From stdpp Require Import prelude gmap.
From S2P Require Import Prelude Common LinkedList Buffer Codec EncScalar EncString EncNodeId EncText EncArray EncExtObj EncVariant EncVariantSpec.
From S2P Require Import EncStruct EncStructSpec Types TypesSpec Services Message Strings Arrays SecureConnection ToolkitConfig Chunks ChunksStream ChunksSend.
From S2P Require Import ChunksFrame SecureChannels SecureListener StateMgr StateMgrOpn StateMgrEvents StateMgrSpec StateMgrAutomaton.

Open Scope Z_scope.

(** ** The abstract component *)

(** The component as the other ones see it: the views of its connections.  An event moves
    one of them along an edge, or none. *)
Inductive abstract_step (ev : event_code) : list role -> list role -> Prop :=
| abstract_stay rs : abstract_step ev rs rs
| abstract_edge rs i r r' : rs !! i = Some r -> edge ev r r' -> abstract_step ev rs (<[i := r']> rs).

(** A connection that is closed has no role, and an established channel has identifiers. *)
Definition established (r : role) : Prop :=
  (role_state r = SECURE_CONNECTION_STATE_SC_CLOSED -> r = closed_role) /\
  (role_state r = SECURE_CONNECTION_STATE_SC_CONNECTED \/ role_state r = SECURE_CONNECTION_STATE_SC_CONNECTED_RENEW -> identified r).

Lemma edge_established ev r r' : edge ev r r' -> established r -> established r'.
Proof.
  unfold established, identified, in_role, with_state. intros E [H1 H2].
  destruct E; unfold in_role, identified, with_state in *; simpl in *; split; intros; try congruence;
    repeat match goal with H : _ /\ _ |- _ => destruct H | H : _ \/ _ |- _ => destruct H end; subst; try congruence; try tauto.
  all: match goal with
    | H : role_state ?r = SECURE_CONNECTION_STATE_SC_CONNECTED |- _ => destruct (H2 (or_introl H))
    | H : role_state ?r = SECURE_CONNECTION_STATE_SC_CONNECTED_RENEW |- _ => destruct (H2 (or_intror H))
    end; by split.
Qed.

Lemma abstract_established ev rs rs' : abstract_step ev rs rs' -> Forall established rs -> Forall established rs'.
Proof.
  intros [|? i r r' Hi He] F; [done|]. apply Forall_insert; [done|]. eapply edge_established; [exact He|]. by eapply Forall_lookup_1.
Qed.

(** ** Runs *)

Section Runs.
Context `{Allocator} `{Host} `{EndiannessCfg} {cfg : SOPC_Common_EncodingConstants} `{Crypto} `{!SendCrypto} `{!Environment}.
Context {depth : nat} (memory : @StructObject (Services depth)).

Definition view (w : world) : list role := role_of <$> secureConnectionsArray w.

Definition external (ev : event_code) : Prop := match ev with OnInternalEvent _ => False | _ => True end.

Inductive step : world -> world -> Prop :=
| step_turn w w' : looper_turn memory w = Ret (true, w') -> step w w'
| step_arrival w w' ev status : external (code ev) -> post ev false w = Ret (status, w') -> step w w'.

Definition reachable (t : tConfig) (w : world) : Prop := rtc step (initial_world t) w.

(** The loop of the thread is a sequence of turns. *)
Lemma loop_steps n w w' : looper_loop memory n w = Ret (tt, w') -> rtc step w w'.
Proof.
  revert w. induction n as [|n IH]; intros w E; cbn [looper_loop] in E; [by injection E as <-|].
  apply wbind_inv in E as ([|] & w1 & E1 & E).
  - eapply rtc_l; [by apply step_turn|]. by apply IH.
  - injection E as <-. unfold looper_turn in E1. apply wbind_inv in E1 as (w0 & w0' & [= <- <-] & E1). destruct (queue w) as [|ev q]; [by injection E1 as <-|].
    apply wbind_inv in E1 as (? & ? & _ & E1). by apply wbind_inv in E1 as (? & ? & _ & E1).
Qed.

Lemma initial_sized t : sized (initial_world t).
Proof. by split. Qed.

Lemma post_inv ev n w w' status : post ev n w = Ret (status, w') ->
  secureConnectionsArray w' = secureConnectionsArray w /\ outputs w' = outputs w /\ lastSecureConnectionArrayIdx w' = lastSecureConnectionArrayIdx w.
Proof. unfold post. destruct (alloc_ok sizeof_Event), (alloc_ok sizeof_Elt); by intros [= <- <-]. Qed.

Lemma turn_inv w w' : looper_turn memory w = Ret (true, w') ->
  exists ev q w1, queue w = ev :: q /\ callback memory ev w1 = Ret (tt, w') /\
    secureConnectionsArray w1 = secureConnectionsArray w /\ outputs w1 = outputs w /\ lastSecureConnectionArrayIdx w1 = lastSecureConnectionArrayIdx w.
Proof.
  unfold looper_turn. intros E. apply wbind_inv in E as (w0 & w0' & [= <- <-] & E). destruct (queue w) as [|ev q]; [done|].
  apply wbind_inv in E as (u & w1 & [= <- <-] & E). apply wbind_inv in E as ([] & w2 & E & [= <-]). by eexists ev, q, _.
Qed.

(** The change of one turn. *)
Lemma turn_cases w w' : sized w -> looper_turn memory w = Ret (true, w') ->
  exists ev q, queue w = ev :: q /\ (evolves (code ev) w w' \/ delivers ev w w').
Proof.
  intros Hs E. apply turn_inv in E as (ev & q & w1 & Eq & E & E1 & E2 & E3). exists ev, q. split; [done|].
  apply callback_cases in E; [|unfold sized in *; by rewrite E1, E3]. unfold evolves, delivers in *. by rewrite <- E1, <- E2, <- E3.
Qed.

Lemma sized_changes ev w w' : sized w -> evolves (code ev) w w' \/ delivers ev w w' -> sized w'.
Proof.
  intros [Hl Hi] [(i & c & c' & Hc & E & _ & _ & Hn)|(_ & c & b & x & _ & _ & _ & E & El & _)]; split; try done.
  - by rewrite E, length_insert.
  - by rewrite E.
  - by rewrite El.
Qed.

Lemma view_changes ev w w' : evolves (code ev) w w' \/ delivers ev w w' -> abstract_step (code ev) (view w) (view w').
Proof.
  intros [(i & c & c' & Hc & E & Hf & _)|(_ & c & b & x & _ & _ & _ & E & _)]; unfold view; rewrite E; [|constructor].
  rewrite list_fmap_insert. destruct Hf as [-> |Hf].
  - rewrite list_insert_id; [constructor|]. by rewrite list_lookup_fmap, Hc.
  - apply (abstract_edge _ _ _ (role_of c)); [|done]. by rewrite list_lookup_fmap, Hc.
Qed.

(** C1: refinement.  One turn of the thread of the secure channels takes the first event
    of the queue and changes what the other components see of the connections the way the
    automaton allows for that event: nothing, or one edge for one connection.  This holds
    whatever the event, the bytes of the messages, the cryptographic library and the
    allocations that fail. *)
Theorem turn_refines_automaton w w' : sized w -> looper_turn memory w = Ret (true, w') ->
  exists ev q, queue w = ev :: q /\ abstract_step (code ev) (view w) (view w') /\ sized w'.
Proof.
  intros Hs E. destruct (turn_cases w w' Hs E) as (ev & q & Eq & Hc). exists ev, q.
  split; [done|]. split; [by apply view_changes|by eapply sized_changes].
Qed.

Lemma step_established w w' : step w w' -> sized w -> Forall established (view w) -> sized w' /\ Forall established (view w').
Proof.
  intros [w0 w1 E|w0 w1 ev st _ E] Hs F.
  - destruct (turn_cases w0 w1 Hs E) as (ev & q & _ & Hc). split; [by eapply sized_changes|].
    eapply abstract_established; [by apply view_changes|done].
  - apply post_inv in E as (E1 & _ & E3). unfold sized, view in *. by rewrite E1, E3.
Qed.

Lemma reachable_invariant t w : reachable t w -> sized w /\ Forall established (view w).
Proof.
  intros R. unfold reachable in R. remember (initial_world t) as w0 eqn:E0.
  assert (sized w0 /\ Forall established (view w0)) as [Hs F].
  { subst w0. split; [apply initial_sized|]. unfold view, initial_world; cbn [secureConnectionsArray]. rewrite fmap_replicate. apply Forall_replicate.
    split; [done|]. by intros [?|?]. }
  clear E0. induction R as [w1|w1 w2 w3 S _ IH]; [done|]. destruct (step_established _ _ S Hs F). by apply IH.
Qed.

(** C33: invariant of the runs.  In every state that the component reaches, a connection
    whose channel is established or being renewed has a secure channel identifier and a
    token identifier that are not null, on the client and on the server, and a connection
    that is closed has the view of an entry that was cleared. *)
Theorem established_channels_have_identifiers t w i c : reachable t w -> secureConnectionsArray w !! i = Some c ->
  (is_connected c = true -> secureChannelId (currentSecurityToken c) <> 0 /\ tokenId (currentSecurityToken c) <> 0) /\
  (state c = SECURE_CONNECTION_STATE_SC_CLOSED -> role_of c = closed_role).
Proof.
  intros R Hc. destruct (reachable_invariant t w R) as [_ F]. rewrite Forall_lookup in F. destruct (F i (role_of c)) as [F1 F2].
  { unfold view. by rewrite list_lookup_fmap, Hc. }
  split; [|exact F1]. unfold is_connected, in_state. intros E. apply F2. cbn. apply orb_true_iff in E as [E|E]; apply bool_decide_eq_true in E; auto.
Qed.

(** C3: delivery.  In every state that the component reaches, when one turn of the thread
    gives a message to the services, it is the message of the event that is treated, for a
    connection that is established, with identifiers, and no connection changes. *)
Theorem delivery_needs_established_channel t w w' : reachable t w -> looper_turn memory w = Ret (true, w') ->
  deliveries (outputs w') <> deliveries (outputs w) ->
  exists ev q c buffer x, queue w = ev :: q /\ code ev = OnInternalEvent INT_SC_RCV_MSG_CHUNKS /\ params ev = BufferParams (Some buffer) /\
    secureConnectionsArray w !! Z.to_nat (event_id ev) = Some c /\ is_connected c = true /\ identified (role_of c) /\
    secureConnectionsArray w' = secureConnectionsArray w /\
    outputs w' = ToServices SC_SERVICE_RCV_MSG (event_id ev) (BufferParams (Some buffer)) x :: outputs w.
Proof.
  intros R E N. destruct (reachable_invariant t w R) as [Hs F]. destruct (turn_cases w w' Hs E) as (ev & q & Eq & [Hc|Hc]).
  { exfalso. apply N. by destruct Hc as (? & ? & ? & _ & _ & _ & Hd & _). }
  destruct Hc as (Ec & c & buffer & x & Hc & Hk & Hp & Ea & _ & Eo). exists ev, q, c, buffer, x. split_and!; try done.
  rewrite Forall_lookup in F. destruct (F (Z.to_nat (event_id ev)) (role_of c)) as [_ F2]; [unfold view; by rewrite list_lookup_fmap, Hc|].
  apply F2. unfold is_connected, in_state in Hk. apply orb_true_iff in Hk as [K|K]; apply bool_decide_eq_true in K; auto.
Qed.

End Runs.
