(* ===== verification/Negotiation.v ===== *)
(** * Negotiation of the limits of a connection

    The client sends its limits in a [HEL] message, the server answers with an [ACK]
    message.  Each end then lowers its own limits to those of the other one.  The four
    transitions ([SC_ClientTransition_TcpInit_To_TcpNegotiate],
    [SC_ServerTransition_TcpInit_To_TcpNegotiate],
    [SC_ServerTransition_TcpNegotiate_To_ScInit] and
    [SC_ClientTransition_TcpNegotiate_To_ScInit] of [StateMgr.v]) are followed through the
    bytes of the messages, up to the limits on which both ends agree. *)

From Stdlib Require Import ZArith Lia.
From Stdlib Require Import Strings.Byte Strings.String.
From stdpp Require Import prelude gmap.
From S2P Require Import Prelude Common LinkedList Buffer Codec EncScalar EncString EncNodeId EncText EncArray EncExtObj EncVariant EncVariantSpec.
From S2P Require Import EncStruct EncStructSpec Types TypesSpec Services Message Strings StringsProps Arrays SecureConnection ToolkitConfig Chunks ChunksSend.
From S2P Require Import SecureChannels StateMgr.

Open Scope Z_scope.

(** ** Limits *)

(** The properties that a connection may have: 32 bit numbers, and buffers of at least the
    minimum size. *)
Record valid_properties (p : SOPC_SecureConnection_TcpProperties) : Prop := {
  valid_version : in_u 32 (protocolVersion p);
  valid_receive : SOPC_TCP_UA_MIN_BUFFER_SIZE <= receiveBufferSize p < 2 ^ 32;
  valid_send : SOPC_TCP_UA_MIN_BUFFER_SIZE <= sendBufferSize p < 2 ^ 32;
  valid_max_size : in_u 32 (receiveMaxMessageSize p);
  valid_max_chunks : in_u 32 (receiveMaxChunkCount p);
  valid_send_size : in_u 32 (sendMaxMessageSize p);
  valid_send_chunks : in_u 32 (sendMaxChunkCount p)
}.

(** The limit [a] of a sender is within the limit [b] of its receiver; 0 is no limit. *)
Definition within (a b : Z) : Prop := b = 0 \/ 0 < a <= b.

(** What the properties of a client and of a server become. *)
Record agreed (p q p' q' : SOPC_SecureConnection_TcpProperties) : Prop := {
  agreed_version : protocolVersion p' = Z.min (protocolVersion p) (protocolVersion q) /\ protocolVersion q' = protocolVersion p';
  agreed_to_server : sendBufferSize p' = Z.min (sendBufferSize p) (receiveBufferSize q) /\ receiveBufferSize q' = sendBufferSize p';
  agreed_to_client : receiveBufferSize p' = Z.min (receiveBufferSize p) (sendBufferSize q) /\ sendBufferSize q' = receiveBufferSize p';
  agreed_sizes : within (sendMaxMessageSize p') (receiveMaxMessageSize q') /\ within (sendMaxMessageSize q') (receiveMaxMessageSize p');
  agreed_chunks : within (sendMaxChunkCount p') (receiveMaxChunkCount q') /\ within (sendMaxChunkCount q') (receiveMaxChunkCount p');
  agreed_own : receiveMaxMessageSize p' = receiveMaxMessageSize p /\ receiveMaxMessageSize q' = receiveMaxMessageSize q /\
    receiveMaxChunkCount p' = receiveMaxChunkCount p /\ receiveMaxChunkCount q' = receiveMaxChunkCount q
}.

Definition offers (p : SOPC_SecureConnection_TcpProperties) : list Z :=
  [protocolVersion p; receiveBufferSize p; sendBufferSize p; receiveMaxMessageSize p; receiveMaxChunkCount p].

(** The steps on the values that the other end offers. *)
Fixpoint settle (steps : list negotiation) (p : SOPC_SecureConnection_TcpProperties) (values : list Z) : option SOPC_SecureConnection_TcpProperties :=
  match steps, values with
  | step :: steps, v :: values => p ← step p v; settle steps p values
  | _, _ => Some p
  end.

Lemma negotiate_limit_within own v : 0 <= own -> 0 <= v -> within (negotiate_limit own v) v.
Proof.
  unfold within, negotiate_limit. intros. destruct (Z.eqb_spec v 0); [by left|]. right. cbn [negb andb].
  destruct (Z.ltb_spec v own), (Z.eqb_spec own 0); cbn [orb]; lia.
Qed.

Lemma offers_range p : valid_properties p -> Forall (in_u 32) (offers p).
Proof. unfold offers, in_u, SOPC_TCP_UA_MIN_BUFFER_SIZE. intros [? [? ?] [? ?] ? ? ? ?]. unfold SOPC_TCP_UA_MIN_BUFFER_SIZE in *. repeat constructor; unfold in_u in *; lia. Qed.

Lemma settle_offers strict q v r s m n r' s' :
  negotiate_size strict (sendBufferSize q) r = Some r' -> negotiate_size strict (receiveBufferSize q) s = Some s' ->
  settle (negotiations strict) q [v; r; s; m; n] =
  Some (mkTcpProperties (Z.min (protocolVersion q) v) s' r' (receiveMaxMessageSize q) (negotiate_limit (sendMaxMessageSize q) m)
          (receiveMaxChunkCount q) (negotiate_limit (sendMaxChunkCount q) n)).
Proof.
  intros E1 E2. unfold negotiations, negotiate_send_size, negotiate_receive_size. cbn -[negotiate_size negotiate_limit Z.ltb Z.min]. rewrite E1.
  cbn -[negotiate_size negotiate_limit Z.ltb Z.min]. rewrite E2. cbn. destruct (Z.ltb_spec v (protocolVersion q)); do 2 f_equal; lia.
Qed.

Lemma negotiate_size_min strict own v : SOPC_TCP_UA_MIN_BUFFER_SIZE <= v -> (strict = true -> v <= own) -> negotiate_size strict own v = Some (Z.min own v).
Proof.
  intros Hv Hs. unfold negotiate_size. replace (SOPC_TCP_UA_MIN_BUFFER_SIZE <=? v) with true by lia.
  destruct (Z.ltb_spec v own); [f_equal; lia|]. destruct (Z.ltb_spec own v), strict; cbn [andb]; try specialize (Hs eq_refl); try lia; f_equal; lia.
Qed.

(** The answer of the server. *)
Definition lowered (p q : SOPC_SecureConnection_TcpProperties) : SOPC_SecureConnection_TcpProperties :=
  mkTcpProperties (Z.min (protocolVersion q) (protocolVersion p)) (Z.min (receiveBufferSize q) (sendBufferSize p)) (Z.min (sendBufferSize q) (receiveBufferSize p))
    (receiveMaxMessageSize q) (negotiate_limit (sendMaxMessageSize q) (receiveMaxMessageSize p)) (receiveMaxChunkCount q)
    (negotiate_limit (sendMaxChunkCount q) (receiveMaxChunkCount p)).

Lemma lowered_valid p q : valid_properties p -> valid_properties q -> valid_properties (lowered p q).
Proof. intros [] []. unfold in_u in *. split; cbn; unfold in_u, negotiate_limit; repeat case_match; lia. Qed.

(** The server accepts every valid offer, and the client its answer. *)
Lemma settle_server p q : valid_properties p -> settle (negotiations false) q (offers p) = Some (lowered p q).
Proof. intros []. apply settle_offers; apply negotiate_size_min; done || lia. Qed.

Lemma settle_client p q : valid_properties p -> valid_properties q ->
  settle (negotiations true) p (offers (lowered p q)) = Some (lowered (lowered p q) p).
Proof. intros [] []. apply settle_offers; apply negotiate_size_min; cbn; lia. Qed.

Lemma lowered_agreed p q : valid_properties p -> valid_properties q -> agreed p q (lowered (lowered p q) p) (lowered p q).
Proof.
  intros [] []. unfold in_u in *. split; cbn; split_and!; try lia; apply negotiate_limit_within; lia.
Qed.

(** ** The messages *)

Section Messages.
Context `{Allocator} `{Host} `{EndiannessCfg} {cfg : SOPC_Common_EncodingConstants} `{Crypto} `{!SendCrypto} `{!Environment}.
Context `{!EndiannessDetected}.
Hypothesis Hlevels : 4 <= max_nested_struct cfg.
Hypothesis Hmemory : forall n, alloc_ok n = true.

#[local] Abbreviation word := (le_bytes 4).

Definition offered (values : list Z) : block := concat (map word values).

Lemma negotiate_offered steps p values b rest : length steps = length values -> Forall (in_u 32) values -> Buffer_Inv b -> small b ->
  upcoming b = offered values ++ rest ->
  match settle steps p values with
  | Some p' => negotiate steps p (Some b) = Ret (NULL, p', Some (advance b (zlen (offered values))))
  | None => exists p' b', negotiate steps p (Some b) = Ret (Some OpcUa_BadInvalidArgument, p', Some b')
  end.
Proof.
  intros L F. revert steps p b L. induction F as [|v values Hv F IH]; intros [|step steps] p b L I S E; try done.
  { cbn [settle negotiate]. change (zlen (offered [])) with 0. by rewrite advance_0. }
  cbn [settle negotiate]. unfold offered in E. cbn [map concat] in E. rewrite <-app_assoc in E.
  rewrite (codec_read (wr := SOPC_UInt32_Write) v 0 b 0 (offered values ++ rest)) by (cbn; done || lia). cbn [rbind deref is_ok negb canon UInt32_codec].
  destruct (upcoming_advance_app b (word v) _ I E) as [I' E']. destruct (step p v) as [p1|]; cbn [mbind option_bind].
  2:{ by eexists _, _. }
  specialize (IH steps p1 (advance b (zlen (word v))) ltac:(by injection L) I' S E').
  change (wire SOPC_UInt32_Write v) with (word v). change (Some p1 ≫= _) with (settle steps p1 values). destruct (settle steps p1 values) as [p'|]; [|done].
  rewrite advance_advance, <-zlen_app in IH. exact IH.
Qed.

Lemma write_word v b : in_u 32 v -> Buffer_Inv b -> small b -> encodes b (SOPC_UInt32_Write (Some v) (Some b) 0) (word v) True.
Proof. intros Hv I S. apply (encodes_sub SOPC_UInt32_Write); try done. cbn. split; [intros _; lia|done]. Qed.

Lemma write_word_then v bs k b : in_u 32 v -> Buffer_Inv b -> small b -> (forall b1, Buffer_Inv b1 -> small b1 -> encodes b1 (k (Some b1)) bs True) ->
  encodes b (and_then (SOPC_UInt32_Write (Some v) (Some b) 0) k) (word v ++ bs) True.
Proof. intros Hv I S Hk. eapply encodes_seq; [done|done|by apply write_word|exact Hk|done|]. done. Qed.

Lemma write_properties_encodes p b : valid_properties p -> Buffer_Inv b -> small b -> encodes b (write_properties p (Some b)) (offered (offers p)) True.
Proof.
  intros Hp I S. pose proof (offers_range p Hp) as F. unfold offers in F. rewrite !Forall_cons in F. destruct F as (F1 & F2 & F3 & F4 & F5 & _).
  unfold offered, offers. cbn [map concat]. rewrite app_nil_r. unfold write_properties.
  do 4 (apply write_word_then; [done|done|done|]; clear b I S; intros b I S). by apply write_word.
Qed.

(** A buffer that can hold what follows. *)
Definition room (b : SOPC_Buffer) (n : Z) : Prop := Buffer_Inv b /\ small b /\ position b + n <= maximum_size b.

Lemma encodes_ok b r bs : room b (zlen bs) -> encodes b r bs True -> exists b', r = Ret (SOPC_STATUS_OK, Some b') /\ wrote b bs b'.
Proof.
  intros (I & S & M) (st & b' & -> & _ & Hw & Hf). assert (st = SOPC_STATUS_OK) as -> by (apply Hf; [done|split; [done|right; intros n _; apply Hmemory]]).
  exists b'. split; [done|]. by apply Hw.
Qed.

(** ** The message [HEL] *)

(** The URL of an endpoint, as a C string. *)
Definition is_url (u : block) : Prop := plain_text u /\ 0 < zlen u <= SOPC_TCP_UA_MAX_URL_AND_REASON_LENGTH.

Lemma copy_url u : is_url u ->
  exists s, SOPC_String_CopyFromCString (SOPC_String_Initialize (Some string_init)) (Some (u ++ [x00])) = Ret (SOPC_STATUS_OK, Some s) /\
    string_wf s /\ string_wire s = word (zlen u) ++ u.
Proof.
  intros [P [L1 L2]]. unfold SOPC_TCP_UA_MAX_URL_AND_REASON_LENGTH in L2. unfold SOPC_String_CopyFromCString. cbn [SOPC_String_Initialize option_map string_init Data is_null negb].
  rewrite strlen_text by done. cbn [rbind]. replace (0 <? zlen u) with true by lia. replace (zlen u <=? INT32_MAX) with true by (unfold INT32_MAX; lia). cbn [andb].
  destruct (Malloc_some (1 * (zlen u + 1))) as (d & -> & Ld); [lia|done|].
  assert (zlen (u ++ [x00]) = zlen u + 1) as Lu by (rewrite zlen_app; done). rewrite <-Lu, memcpy_all by lia. cbn [rbind].
  eexists. split; [reflexivity|]. rewrite splice_0 by lia. split.
  - split; cbn; [unfold in_s; lia|]. intros _. eexists. split; [done|]. lia.
  - unfold string_wire, string_chars. cbn [set_Data set_Length Length Data from_option default id]. replace (0 <? zlen u) with true by lia. f_equal. apply take_app_length'. unfold zlen. lia.
Qed.

(** What follows the header of a message. *)
Definition body_of (b : SOPC_Buffer) : block := drop (Z.to_nat SOPC_TCP_UA_HEADER_LENGTH) (content b).

Lemma create_some n : 0 < n -> exists d, SOPC_Buffer_Create n = Some (mkBuffer n n n 0 0 (Some d)) /\ zlen d = n.
Proof.
  intros Hn. unfold SOPC_Buffer_Create, SOPC_Buffer_Init. replace (0 <? n) with true by lia. rewrite Hmemory. cbn [is_null fresh_buffer orb].
  replace (n <=? 0) with false by lia. replace (n <? n) with false by lia. cbn [orb].
  destruct (SOPC_Calloc n) as [d|] eqn:E; [|unfold SOPC_Calloc in E; by rewrite Hmemory in E].
  apply SOPC_Calloc_length in E; [|lia]. exists d. done.
Qed.

(** A new buffer with a header of zeros. *)
Lemma reserve_fresh n : SOPC_TCP_UA_HEADER_LENGTH <= n < 2 ^ 31 -> exists b b', SOPC_Buffer_Create n = Some b /\
  reserve_header (Some b) SOPC_TCP_UA_HEADER_LENGTH = Ret (SOPC_STATUS_OK, Some b') /\
  Buffer_Inv b' /\ maximum_size b' = n /\ position b' = SOPC_TCP_UA_HEADER_LENGTH /\ length_ b' = SOPC_TCP_UA_HEADER_LENGTH.
Proof.
  unfold SOPC_TCP_UA_HEADER_LENGTH. intros Hn. destruct (create_some n) as (d & E & Ld); [lia|]. eexists _, _. split; [exact E|].
  unfold reserve_header, SOPC_Buffer_SetDataLength, seek, SOPC_Buffer_SetPosition, and_then. cbn.
  replace (8 <=? n) with true by lia. split; [reflexivity|]. split_and!; try done. split; cbn; try lia. by exists d.
Qed.

(** What is written after the header is the body. *)
Lemma wrote_body b bs b' : Buffer_Inv b -> position b = SOPC_TCP_UA_HEADER_LENGTH -> length_ b = SOPC_TCP_UA_HEADER_LENGTH -> wrote b bs b' ->
  body_of b' = bs /\ length_ b' = SOPC_TCP_UA_HEADER_LENGTH + zlen bs.
Proof.
  intros I Hp Hl W. pose proof (zlen_content b I) as Lc. pose proof (zlen_nonneg bs). unfold SOPC_TCP_UA_HEADER_LENGTH in *.
  assert (content b' = content b ++ bs) as E by (rewrite (wr_content _ _ _ W), Hp; unfold splice; rewrite take_ge, drop_ge by (unfold zlen in *; lia); by rewrite app_nil_r).
  split; [|rewrite <-(zlen_content b' (wr_inv _ _ _ W)), E, zlen_app; lia].
  unfold body_of, SOPC_TCP_UA_HEADER_LENGTH. rewrite E. apply drop_app_length'. unfold zlen in Lc. lia.
Qed.

(** The message of the client. *)
Definition hello_body (p : SOPC_SecureConnection_TcpProperties) (u : block) : block := offered (offers p) ++ word (zlen u) ++ u.

Lemma zlen_offered p : zlen (offered (offers p)) = 20.
Proof. done. Qed.

Lemma hello_message p u : valid_properties p -> is_url u ->
  exists b b', SOPC_Buffer_Create (SOPC_TCP_UA_HEL_MIN_MSG_LENGTH + SOPC_TCP_UA_MAX_URL_AND_REASON_LENGTH) = Some b /\
    encode_hello p (Some (u ++ [x00])) (Some b) = Ret (SOPC_STATUS_OK, Some b') /\ body_of b' = hello_body p u.
Proof.
  intros Hp Hu. destruct (reserve_fresh (SOPC_TCP_UA_HEL_MIN_MSG_LENGTH + SOPC_TCP_UA_MAX_URL_AND_REASON_LENGTH)) as (b & b1 & Eb & E1 & I1 & M1 & P1 & L1); [done|].
  exists b. unfold encode_hello. rewrite E1. unfold and_then at 1. cbn [rbind is_ok].
  assert (small b1) as S1 by (unfold small; by rewrite M1).
  destruct (encodes_ok b1 _ _ ltac:(split_and!; [exact I1|exact S1|rewrite zlen_offered, P1, M1; done]) (write_properties_encodes p b1 Hp I1 S1)) as (b2 & E2 & W2).
  unfold and_then. rewrite E2. cbn [rbind is_ok]. destruct (copy_url u Hu) as (s & Es & Ws & Hs). rewrite Es. cbn [rbind is_ok].
  pose proof (wr_inv _ _ _ W2) as I2. assert (small b2) as S2 by (unfold small; by rewrite (wr_maximum _ _ _ W2)).
  assert (encodes b2 (SOPC_String_Write (Some s) (Some b2) 0) (string_wire s) True) as C.
  { apply (encodes_sub SOPC_String_Write); try done. cbn. split; [intros _; lia|done]. }
  assert (room b2 (zlen (string_wire s))) as R2.
  { split; [exact I2|]. split; [exact S2|]. rewrite (wr_position _ _ _ W2), (wr_maximum _ _ _ W2), P1, M1, Hs, zlen_app, zlen_offered.
    change (zlen (word (zlen u))) with 4. destruct Hu as [_ [_ Hu]]. unfold SOPC_TCP_UA_HEADER_LENGTH, SOPC_TCP_UA_HEL_MIN_MSG_LENGTH. lia. }
  destruct (encodes_ok b2 _ _ R2 C) as (b3 & E3 & W3).
  exists b3. split; [exact Eb|]. split; [exact E3|]. unfold hello_body. rewrite <-Hs.
  exact (proj1 (wrote_body b1 _ b3 I1 P1 L1 (wrote_trans _ _ _ _ _ I1 W2 W3))).
Qed.

Hypothesis Hstrings : SOPC_TCP_UA_MAX_URL_AND_REASON_LENGTH <= max_string_length cfg.

Lemma read_url b u : Buffer_Inv b -> small b -> upcoming b = word (zlen u) ++ u -> is_url u ->
  exists b', SOPC_String_ReadWithLimitedLength SOPC_TCP_UA_MAX_URL_AND_REASON_LENGTH (SOPC_String_Initialize (Some string_init)) (Some b) 0 =
    Ret (SOPC_STATUS_OK, Some (mkString (zlen u) false (Some (u ++ [x00]))), Some b').
Proof.
  intros I S E Hu. destruct Hu as [P [L1 L2]]. pose proof L2 as L3. unfold SOPC_TCP_UA_MAX_URL_AND_REASON_LENGTH in L3.
  assert (SOPC_String_ReadWithLimitedLength SOPC_TCP_UA_MAX_URL_AND_REASON_LENGTH (Some string_init) (Some b) 0 = SOPC_String_Read (Some string_init) (Some b) 0) as Er.
  { unfold SOPC_String_Read, SOPC_String_ReadWithLimitedLength. cbn [string_init Data is_null negb orb]. level_ok. cbv zeta.
    rewrite (read_length_app b _ (zlen u) u) by (done || (unfold in_s; lia) || lia). cbn [rbind default from_option Datatypes.id is_ok].
    by replace (zlen u <=? SOPC_TCP_UA_MAX_URL_AND_REASON_LENGTH) with true by lia. }
  change (SOPC_String_Initialize (Some string_init)) with (Some string_init). rewrite Er.
  set (s := mkString (zlen u) false (Some u)). assert (string_wire s = word (zlen u) ++ u) as Hw.
  { unfold string_wire, string_chars. cbn [s Length Data default from_option Datatypes.id]. replace (0 <? zlen u) with true by lia. f_equal. apply take_ge. unfold zlen. lia. }
  rewrite (codec_read (wr := SOPC_String_Write) s string_init b 0 []).
  - eexists. do 3 f_equal. cbn -[zlen]. unfold string_canon, string_chars. cbn [s Length Data default from_option Datatypes.id]. replace (0 <? zlen u) with true by lia.
    rewrite take_ge by (unfold zlen; lia). done.
  - split; cbn; [unfold in_s; lia|]. intros _. by exists u.
  - intros _. cbn. lia.
  - done.
  - done.
  - done.
  - rewrite app_nil_r. cbn. by rewrite Hw.
  - cbn. lia.
  - done.
Qed.

(** The URL of the client is only compared for the logs. *)
Lemma check_url_ok epConfig e b u : endpointURL epConfig = Some (e ++ [x00]) -> is_url e -> Buffer_Inv b -> small b ->
  upcoming b = word (zlen u) ++ u -> is_url u -> check_url epConfig (Some b) = Ret NULL.
Proof.
  intros Ee [Pe [_ Le]] I S E Hu. unfold check_url. destruct (read_url b u I S E Hu) as [b' ->]. cbn [rbind is_ok]. rewrite Ee.
  unfold SOPC_String_AttachFromCstring. cbn [SOPC_String_Initialize option_map Data is_null]. rewrite strlen_text by done. cbn [rbind].
  replace (zlen e <=? INT32_MAX) with true by (unfold SOPC_TCP_UA_MAX_URL_AND_REASON_LENGTH, INT32_MAX in *; lia). cbn [rbind is_ok].
  destruct (String_Compare_text true (mkString (zlen e) true (Some (e ++ [x00]))) (mkString (zlen u) false (Some (u ++ [x00]))) 0) as (c & -> & _); [| |done].
  - intros _. by exists e, [].
  - apply terminated_text, Hu.
Qed.

(** ** The message [ACK] *)

(** A message as it is received: the header was read, the body follows. *)
Record received (sent r : SOPC_Buffer) : Prop := {
  received_inv : Buffer_Inv r;
  received_small : small r;
  received_position : position r = SOPC_TCP_UA_HEADER_LENGTH;
  received_body : upcoming r = body_of sent
}.

(** The header of the message that is received, and the answer after it. *)
Lemma acknowledge_message q r : valid_properties q -> Buffer_Inv r -> small r -> SOPC_TCP_UA_HEADER_LENGTH + 20 <= length_ r ->
  exists b b1 b2, SOPC_Buffer_Create (maximum_size r) = Some b /\ copy_header b (Some r) = Ret (SOPC_STATUS_OK, Some b1) /\
    encode_acknowledge q (Some b1) = Ret (SOPC_STATUS_OK, Some b2) /\ body_of b2 = offered (offers q).
Proof.
  intros Hq I S L. unfold SOPC_TCP_UA_HEADER_LENGTH in L. pose proof I as [[d [Hd Ld]] ? ? ? ? ?]. unfold small in S.
  destruct (create_some (maximum_size r)) as (z & Ez & Lz); [lia|]. set (b := mkBuffer _ _ _ _ _ _) in Ez.
  assert (Buffer_Inv b) as Ib by (split; cbn; try lia; by exists z).
  set (r0 := set_position r 0). assert (Buffer_Inv r0) as Ir by (split; cbn; try done; try lia; by exists d).
  destruct (buffer_copy_with_length b r0 8 Ib Ir) as (b1 & E1 & I1 & C1 & P1 & M1); [cbn; lia|cbn; lia|intros n _; apply Hmemory|].
  assert (length_ b1 = 8) as L1 by (rewrite <-(zlen_content b1 I1), C1, zlen_take; [lia|]; rewrite zlen_content by done; cbn; lia).
  exists b, b1. unfold copy_header, SOPC_Buffer_SetPosition. rewrite Hd. replace (0 <=? length_ r) with true by lia. cbn [is_null negb andb is_ok].
  change (maximum_size b) with (maximum_size r) in M1. pose proof I1 as [[d1 [Hd1 Ld1]] ? ? ? ? ?].
  set (b2 := set_length (set_position b1 8) 8).
  assert (encode_acknowledge q (Some b1) = write_properties q (Some b2)) as E2.
  { unfold encode_acknowledge, and_then, seek, SOPC_Buffer_SetPosition, SOPC_TCP_UA_HEADER_LENGTH. rewrite Hd1, L1. cbn [is_null negb andb Z.leb Z.compare Pos.compare Pos.compare_cont rbind is_ok].
    unfold SOPC_Buffer_SetDataLength. cbn [set_position data current_size position length_]. rewrite Hd1, L1. replace (8 <=? current_size b1) with true by lia.
    cbn. unfold b2. destruct b1; cbn in *; subst. done. }
  assert (Buffer_Inv b2) as I2 by (split; cbn; try lia; by exists d1). assert (small b2) as S2 by (unfold small; cbn; lia).
  assert (room b2 (zlen (offered (offers q)))) as R2 by (split; [exact I2|]; split; [exact S2|]; rewrite zlen_offered; cbn; lia).
  destruct (encodes_ok b2 _ _ R2 (write_properties_encodes q b2 Hq I2 S2)) as (b3 & E3 & W3).
  exists b3. split; [exact Ez|]. split; [exact E1|]. split; [by rewrite E2|]. by apply (wrote_body b2 _ b3).
Qed.

(** ** The transitions *)

Lemma run_enqueue w event i p x : exists w', SOPC_SecureChannels_EnqueueInternalEvent event i p x w = Ret (tt, w') /\
  queue w' = queue w ++ [mkEvent (OnInternalEvent event) i p x] /\ secureConnectionsArray w' = secureConnectionsArray w /\ configuration w' = configuration w.
Proof. unfold SOPC_SecureChannels_EnqueueInternalEvent, post. rewrite !Hmemory. eexists. split; [reflexivity|]. done. Qed.

(** A client that is about to send its first message. *)
Record client_ready (w : world) (i : Z) (c : SOPC_SecureConnection) (u : block) : Prop := {
  client_entry : array_get (secureConnectionsArray w) i = Ret c;
  client_state : state c = SECURE_CONNECTION_STATE_TCP_INIT;
  client_side : isServerConnection c = false;
  client_valid : valid_properties (tcpMsgProperties c);
  client_url : exists scConfig, ToolkitClient_GetSecureChannelConfig (configuration w) (endpointConnectionConfigIdx c) = Ret (Some scConfig) /\
    url scConfig = Some (u ++ [x00]);
  client_is_url : is_url u
}.

(** A server that waits for it. *)
Record server_ready (w : world) (j : Z) (s : SOPC_SecureConnection) : Prop := {
  server_entry : array_get (secureConnectionsArray w) j = Ret s;
  server_state : state s = SECURE_CONNECTION_STATE_TCP_INIT;
  server_side : isServerConnection s = true;
  server_valid : valid_properties (tcpMsgProperties s);
  server_url : exists epConfig e, ToolkitServer_GetEndpointConfig (configuration w) (serverEndpointConfigIdx s) = Ret (Some epConfig) /\
    endpointURL epConfig = Some (e ++ [x00]) /\ is_url e
}.

Lemma client_hello w i c u socket : client_ready w i c u ->
  exists w' hello, SC_ClientTransition_TcpInit_To_TcpNegotiate i i socket w = Ret (true, w') /\
    queue w' = queue w ++ [mkEvent (OnInternalEvent INT_SC_SND_HEL) i (BufferParams (Some hello)) 0] /\ body_of hello = hello_body (tcpMsgProperties c) u /\
    array_get (secureConnectionsArray w') i = Ret (set_state (set_socketIndex c socket) SECURE_CONNECTION_STATE_TCP_NEGOTIATE).
Proof.
  intros [Ec Hs _ Hv (scConfig & Eg & Eu) Hu]. unfold SC_ClientTransition_TcpInit_To_TcpNegotiate, wbind at 1. rewrite (run_connection w i c Ec). cbn [rbind].
  unfold wbind at 1, with_configuration. unfold wbind, wlift, wget at 1. cbn [rbind]. rewrite Eg. cbn [rbind]. unfold in_state. rewrite Hs. rewrite bool_decide_eq_true_2 by done.
  destruct (hello_message (tcpMsgProperties c) u Hv Hu) as (b & hello & -> & Eh & Hb). rewrite Eu, Eh. cbn [rbind is_ok].
  rewrite (run_update w i c _ Ec). cbn [rbind]. set (w1 := with_entry w i _).
  destruct (run_enqueue w1 INT_SC_SND_HEL i (BufferParams (Some hello)) 0) as (w2 & -> & Eq & Ea & _). cbn [rbind].
  exists w2, hello. split; [done|]. split; [exact Eq|]. split; [exact Hb|]. rewrite Ea. by apply (entry_with w i c).
Qed.

(** The server lowers its limits, and keeps them in its state. *)
Lemma server_hello w j s p u r : server_ready w j s -> valid_properties p -> is_url u -> Buffer_Inv r -> small r -> upcoming r = hello_body p u ->
  exists w', SC_ServerTransition_TcpInit_To_TcpNegotiate j (Some r) w = Ret (true, w') /\ queue w' = queue w /\
    array_get (secureConnectionsArray w') j =
      Ret (set_state (set_tcpMsgProperties s (lowered p (tcpMsgProperties s))) SECURE_CONNECTION_STATE_TCP_NEGOTIATE).
Proof.
  intros [Es Hs Hd Hv (epConfig & e & Eg & Ee & He)] Hp Hu I S E. unfold SC_ServerTransition_TcpInit_To_TcpNegotiate. cbn [is_null negb].
  unfold wbind at 1. rewrite (run_connection w j s Es). cbn [rbind]. unfold in_state. rewrite Hs, Hd. rewrite bool_decide_eq_true_2 by done.
  unfold wbind at 1, with_configuration. unfold wbind, wlift, wget at 1. cbn [rbind]. rewrite Eg. cbn [rbind].
  pose proof (negotiate_offered (negotiations false) (tcpMsgProperties s) (offers p) r _ eq_refl (offers_range p Hp) I S E) as N.
  rewrite settle_server in N by done. rewrite N. cbn [rbind]. rewrite (run_update w j s _ Es). cbn [rbind]. set (w1 := with_entry w j _).
  destruct (upcoming_advance_app r (offered (offers p)) _ I E) as [I' E']. rewrite (check_url_ok epConfig e _ u Ee He I' S E' Hu). cbn [rbind].
  rewrite (run_update w1 j (set_tcpMsgProperties s (lowered p (tcpMsgProperties s))) _ (entry_with w j s _ Es)). cbn [rbind].
  eexists. split; [reflexivity|]. split; [done|]. exact (entry_with w1 j _ _ (entry_with w j s _ Es)).
Qed.

(** The answer of the server. *)
Lemma server_acknowledge w j s r : array_get (secureConnectionsArray w) j = Ret s -> state s = SECURE_CONNECTION_STATE_TCP_NEGOTIATE ->
  isServerConnection s = true -> valid_properties (tcpMsgProperties s) -> Buffer_Inv r -> small r -> SOPC_TCP_UA_HEADER_LENGTH + 20 <= length_ r ->
  exists w' ack, SC_ServerTransition_TcpNegotiate_To_ScInit j j (Some r) w = Ret (true, w') /\
    queue w' = queue w ++ [mkEvent (OnInternalEvent INT_SC_SND_ACK) j (BufferParams (Some ack)) 0] /\ body_of ack = offered (offers (tcpMsgProperties s)) /\
    array_get (secureConnectionsArray w') j = Ret (set_state s SECURE_CONNECTION_STATE_SC_INIT).
Proof.
  intros Es Hs Hd Hv I S L. unfold SC_ServerTransition_TcpNegotiate_To_ScInit, wbind at 1. rewrite (run_connection w j s Es). cbn [rbind].
  unfold in_state. rewrite Hs, Hd. rewrite bool_decide_eq_true_2 by done. destruct (acknowledge_message _ r Hv I S L) as (b & b1 & ack & -> & Eh & Ea & Hb).
  unfold wbind, wlift. rewrite Eh. cbn [rbind is_ok negb]. rewrite Ea. cbn [rbind is_ok]. rewrite run_error. cbn [rbind]. set (w1 := mkWorld _ _ _ _ _ _ _ _ _ _ _).
  assert (array_get (secureConnectionsArray w1) j = Ret s) as E1 by exact Es. rewrite (run_update w1 j s _ E1). cbn [rbind]. set (w2 := with_entry w1 j _).
  destruct (run_enqueue w2 INT_SC_SND_ACK j (BufferParams (Some ack)) 0) as (w3 & -> & Eq & Ew & _). cbn [rbind].
  exists w3, ack. split; [done|]. split; [exact Eq|]. split; [exact Hb|]. rewrite Ew. exact (entry_with w1 j s _ E1).
Qed.

Lemma client_acknowledge w i c q r : array_get (secureConnectionsArray w) i = Ret c -> state c = SECURE_CONNECTION_STATE_TCP_NEGOTIATE ->
  isServerConnection c = false -> valid_properties (tcpMsgProperties c) -> valid_properties q -> Buffer_Inv r -> small r ->
  upcoming r = offered (offers (lowered (tcpMsgProperties c) q)) ->
  exists w', SC_ClientTransition_TcpNegotiate_To_ScInit i (Some r) w = Ret (true, w') /\
    array_get (secureConnectionsArray w') i =
      Ret (set_state (set_tcpMsgProperties c (lowered (lowered (tcpMsgProperties c) q) (tcpMsgProperties c))) SECURE_CONNECTION_STATE_SC_INIT).
Proof.
  intros Ec Hs Hd Hv Hq I S E. unfold SC_ClientTransition_TcpNegotiate_To_ScInit. cbn [is_null negb]. unfold wbind at 1. rewrite (run_connection w i c Ec). cbn [rbind].
  unfold in_state. rewrite Hs, Hd. rewrite bool_decide_eq_true_2 by done. cbn [negb]. unfold wbind, wlift.
  assert (upcoming r = offered (offers (lowered (tcpMsgProperties c) q)) ++ []) as E' by by rewrite app_nil_r.
  pose proof (negotiate_offered (negotiations true) (tcpMsgProperties c) (offers (lowered (tcpMsgProperties c) q)) r [] eq_refl (offers_range _ (lowered_valid _ _ Hv Hq)) I S E') as N.
  rewrite settle_client in N by done. rewrite N. cbn [rbind]. rewrite (run_update w i c _ Ec). cbn [rbind is_null]. set (w1 := with_entry w i _).
  rewrite (run_update w1 i _ _ (entry_with w i c _ Ec)). cbn [rbind]. eexists. split; [reflexivity|]. exact (entry_with w1 i _ _ (entry_with w i c _ Ec)).
Qed.

(** C4: the limits of a connection.  A client and a server in their first state exchange the
    messages HEL and ACK, of which only the bodies matter: the four transitions succeed,
    and both ends agree.  The version is the lower one; the chunks that one end may send
    are as large as those that the other one accepts, the smaller of the sizes that both
    had configured; the limits of each sender on the size and on the number of chunks of
    a message are within those of its receiver, which are not changed. *)
Theorem negotiation_agreement wc ws i j c s u socket : client_ready wc i c u -> server_ready ws j s ->
  exists wc1 hello, SC_ClientTransition_TcpInit_To_TcpNegotiate i i socket wc = Ret (true, wc1) /\
    queue wc1 = queue wc ++ [mkEvent (OnInternalEvent INT_SC_SND_HEL) i (BufferParams (Some hello)) 0] /\
    forall rh, received hello rh -> exists ws1 ws2 ack,
      SC_ServerTransition_TcpInit_To_TcpNegotiate j (Some rh) ws = Ret (true, ws1) /\
      SC_ServerTransition_TcpNegotiate_To_ScInit j j (Some rh) ws1 = Ret (true, ws2) /\
      queue ws2 = queue ws ++ [mkEvent (OnInternalEvent INT_SC_SND_ACK) j (BufferParams (Some ack)) 0] /\
      forall ra, received ack ra -> exists wc2 c2 s2,
        SC_ClientTransition_TcpNegotiate_To_ScInit i (Some ra) wc1 = Ret (true, wc2) /\
        array_get (secureConnectionsArray wc2) i = Ret c2 /\ array_get (secureConnectionsArray ws2) j = Ret s2 /\
        state c2 = SECURE_CONNECTION_STATE_SC_INIT /\ state s2 = SECURE_CONNECTION_STATE_SC_INIT /\
        agreed (tcpMsgProperties c) (tcpMsgProperties s) (tcpMsgProperties c2) (tcpMsgProperties s2).
Proof.
  intros Hc Hs. destruct (client_hello wc i c u socket Hc) as (wc1 & hello & E1 & Eq1 & Hh & Ec1). exists wc1, hello. split; [exact E1|]. split; [exact Eq1|].
  pose proof (client_valid _ _ _ _ Hc) as Vc. pose proof (server_valid _ _ _ Hs) as Vs. pose proof (client_is_url _ _ _ _ Hc) as Hu.
  intros rh [I S P B]. rewrite Hh in B. destruct (server_hello ws j s _ u rh Hs Vc Hu I S B) as (ws1 & E2 & Eq2 & Es1).
  assert (SOPC_TCP_UA_HEADER_LENGTH + 20 <= length_ rh) as L.
  { pose proof (zlen_upcoming rh I) as Z. rewrite B, P in Z. unfold hello_body in Z. rewrite zlen_app, zlen_offered in Z.
    pose proof (zlen_nonneg (word (zlen u) ++ u)). lia. }
  destruct (server_acknowledge ws1 j _ rh Es1 eq_refl (server_side _ _ _ Hs) (lowered_valid _ _ Vc Vs) I S L) as (ws2 & ack & E3 & Eq3 & Hk & Es2).
  exists ws1, ws2, ack. split; [exact E2|]. split; [exact E3|]. split; [by rewrite Eq3, Eq2|]. intros ra [I' S' P' B']. rewrite Hk in B'.
  destruct (client_acknowledge wc1 i _ (tcpMsgProperties s) ra Ec1 eq_refl (client_side _ _ _ _ Hc) Vc Vs I' S' B') as (wc2 & E4 & Ec2).
  eexists wc2, _, _. split; [exact E4|]. split; [exact Ec2|]. split; [exact Es2|]. split; [done|]. split; [done|]. by apply lowered_agreed.
Qed.

End Messages.
