(* ===== verification/Connections.v ===== *)
(** * Entries of the connections

    How [SC_InitNewConnection] takes an entry of the table of the connections and
    [SC_CloseConnection] gives it back, and the identifiers that a server chooses
    ([sopc_secure_connection_state_mgr.c]). *)

From Stdlib Require Import ZArith Lia.
From Stdlib Require Import Strings.Byte Strings.String.
From stdpp Require Import prelude gmap.
From S2P Require Import Prelude Common LinkedList LinkedListSpec LinkedListProps Buffer Codec EncScalar EncString EncNodeId EncText EncArray EncExtObj EncVariant.
From S2P Require Import EncVariantSpec EncStruct EncStructSpec Types TypesSpec Services Message Strings Arrays SecureConnection ToolkitConfig Chunks ChunksSpec ChunksSend.
From S2P Require Import SecureChannels SecureListener StateMgr StateMgrOpn StateMgrEvents.

Open Scope Z_scope.

Section Entries.
Context `{Allocator} `{Host} `{EndiannessCfg} {cfg : SOPC_Common_EncodingConstants} `{Crypto} `{!SendCrypto} `{!Environment}.

(** ** Opening *)

(** The table has its size, and the last index is one of its entries. *)
Definition well_sized (w : world) : Prop :=
  Z.of_nat (length (secureConnectionsArray w)) = SOPC_MAX_SECURE_CONNECTIONS_PLUS_BUFFERED + 1 /\
  0 <= lastSecureConnectionArrayIdx w <= SOPC_MAX_SECURE_CONNECTIONS_PLUS_BUFFERED.

Definition free_at (w : world) (i : Z) : bool :=
  match array_get (secureConnectionsArray w) i with Ret c => in_state c SECURE_CONNECTION_STATE_SC_CLOSED | Fault _ => false end.

(** A connection as it is opened. *)
Definition opened (c : SOPC_SecureConnection) : SOPC_SecureConnection :=
  set_state (set_tcpSeqProperties (set_tcpMsgProperties c initial_properties)
               (mkSequence (lastSNsent (tcpSeqProperties c)) (lastSNreceived (tcpSeqProperties c)) (Some (mkSLinkedList NULL NULL 0 0))))
    SECURE_CONNECTION_STATE_TCP_INIT.

(** C36: a new connection takes a free entry of the table, which is the only one that
    changes, when there is one; otherwise every entry is used, the function says so and
    changes nothing.  The entry is in its first state, with the limits of the
    configuration and no pending request. *)
Theorem new_connection_takes_free_entry w : well_sized w -> alloc_ok sizeof_SLinkedList = true ->
  (exists i c w', SC_InitNewConnection w = Ret ((true, i), w') /\ 1 <= i <= SOPC_MAX_SECURE_CONNECTIONS_PLUS_BUFFERED /\
     array_get (secureConnectionsArray w) i = Ret c /\ state c = SECURE_CONNECTION_STATE_SC_CLOSED /\
     secureConnectionsArray w' = <[Z.to_nat i := opened c]> (secureConnectionsArray w) /\ well_sized w' /\
     queue w' = queue w /\ outputs w' = outputs w) \/
  ((forall i c, 1 <= i <= SOPC_MAX_SECURE_CONNECTIONS_PLUS_BUFFERED -> array_get (secureConnectionsArray w) i = Ret c ->
     state c <> SECURE_CONNECTION_STATE_SC_CLOSED) /\
   SC_InitNewConnection w = Ret ((false, 0), w)).
Proof.
  intros [Hl Hr] Ha. unfold SC_InitNewConnection, wbind, wget, wlift. cbn [rbind].
  destruct (search_free_spec (fun i => let* c := array_get (secureConnectionsArray w) i in Ret (in_state c SECURE_CONNECTION_STATE_SC_CLOSED)) (free_at w)
    SOPC_MAX_SECURE_CONNECTIONS_PLUS_BUFFERED (lastSecureConnectionArrayIdx w)) as [(i & Hi & Hf & ->)|[Hn ->]]; [|exact Hr| |].
  - intros i Hi. unfold free_at. destruct (array_get_ok (secureConnectionsArray w) i) as [c ->]; [lia|]. done.
  - left. cbn [rbind]. destruct (array_get_ok (secureConnectionsArray w) i) as [c Ec]; [lia|]. unfold free_at in Hf. rewrite Ec in Hf.
    unfold in_state in Hf. apply bool_decide_eq_true in Hf. rewrite (run_update w i c _ Ec). cbn [rbind]. unfold SOPC_SLinkedList_Create. rewrite Ha. cbn.
    eexists i, c, _. split; [reflexivity|]. split; [exact Hi|]. split; [exact Ec|]. split; [exact Hf|]. split; [done|]. split; [|done].
    split; cbn; [by rewrite length_insert|lia].
  - right. cbn [rbind]. split; [|done]. intros i c Hi Ec Hc. specialize (Hn i Hi). unfold free_at, in_state in Hn. rewrite Ec, Hc in Hn. by apply bool_decide_eq_false in Hn.
Qed.

(** ** Closing *)

(** What is said of a request that is pending: its timer is cancelled, and the services are
    told when it is a message. *)
Definition notices (m : SOPC_SentRequestMsg_Context) : list output :=
  TimerCancelled (timerId m) ::
  match msgType m with
  | SOPC_MSG_TYPE_SC_MSG => [ToServices SC_SND_FAILURE (scConnectionIdx m) (NumberParams (requestHandle m)) OpcUa_BadSecureChannelClosed]
  | _ => []
  end.

Definition with_outputs (w : world) (os : list output) : world :=
  mkWorld (secureConnectionsArray w) (lastSecureConnectionArrayIdx w) (secureListenersArray w) (configuration w) (chunk_heap w)
    (request_heap w) (error w) (calls w) (queue w) os (chunk_trace w).

Lemma clear_request m w : SC_Client_ClearPendingRequest (Some m) w = Ret (tt, with_outputs w (reverse (notices m) ++ outputs w)).
Proof. unfold SC_Client_ClearPendingRequest, notices, wbind, wret, output_to. cbn [rbind]. by destruct (msgType m). Qed.

Lemma clear_pending_spec (ms : list (Z * SOPC_SentRequestMsg_Context)) w :
  clear_pending (map (fun x => (x.1, Some x.2)) ms) w = Ret (tt, with_outputs w (reverse (concat (map (fun x => notices x.2) ms)) ++ outputs w)).
Proof.
  revert w. induction ms as [|[i m] ms IH]; intros w; cbn [map clear_pending concat fst snd]; [by destruct w|]. unfold wbind at 1.
  rewrite clear_request. cbn [rbind]. rewrite IH, reverse_app, <-app_assoc. done.
Qed.

(** The chunks that a connection holds are a list in the memory. *)
Definition holds_chunks (h : heap SOPC_Buffer) (c : SOPC_SecureConnection) : Prop :=
  match intermediateChunksInputBuffers (chunksCtx c) with
  | NULL => True
  | Some l => exists hf cs, Repr hf h l cs
  end.

Lemma clear_context_runs w i c : array_get (secureConnectionsArray w) i = Ret c -> holds_chunks (chunk_heap w) c ->
  exists x h, on_chunks i (fun _ => SOPC_ScInternalContext_ClearInputChunksContext) w =
    Ret (tt, mkWorld (<[Z.to_nat i := set_ctx c x]> (secureConnectionsArray w)) (lastSecureConnectionArrayIdx w) (secureListenersArray w) (configuration w) h
               (request_heap w) (error w) (calls w) (queue w) (outputs w) (chunk_trace w)).
Proof.
  intros Ec Hh. assert (exists x h, SOPC_ScInternalContext_ClearInputChunksContext (mkState c (error w) (chunk_heap w) (request_heap w) (chunk_trace w)) =
    Ret (tt, mkState (set_ctx c x) (error w) h (request_heap w) (chunk_trace w))) as (x & h & Em).
  { unfold SOPC_ScInternalContext_ClearInputChunksContext, SOPC_ScInternalContext_ClearIntermediateInputChunks, mbind, get. cbn [rbind conn].
    unfold holds_chunks in Hh. destruct (intermediateChunksInputBuffers (chunksCtx c)) as [l|]; [destruct Hh as (hf & cs & R)|].
    - pose proof (chain_size _ _ _ _ (r_nodup _ _ _ _ R) (r_chain _ _ _ _ R)) as Sz. unfold lift. cbn [SOPC_SLinkedList_Apply chunk_cells].
      rewrite (apply_elts_spec (chunk_heap w) cs) by (apply R || lia). cbn [rbind]. unfold SOPC_SLinkedList_Delete. rewrite (Clear_spec hf _ l cs R). cbn.
      by eexists _, _.
    - cbn. by eexists _, _. }
  exists x, h. unfold on_chunks, wbind at 1, wget. cbn [rbind]. unfold wbind at 1. rewrite (run_connection w i c Ec). cbn [rbind]. unfold wbind at 1, wlift. rewrite Em. cbn [rbind].
  unfold wbind, put_connection, wbind, wget, wlift. cbn [rbind conn secureConnectionsArray]. apply array_get_inv in Ec as [Hi _]. rewrite array_set_ok by done. cbn.
  rewrite Nat.sub_diag. cbn. done.
Qed.

(** The table of the configurations of the servers. *)
Definition configured (t : tConfig) : Prop :=
  Z.of_nat (length (serverScConfigs t)) = SOPC_MAX_SECURE_CONNECTIONS_PLUS_BUFFERED + 1 /\
  Forall (fun p => forall c, p = Some c -> isClientSc c = false) (serverScConfigs t).

Lemma remove_configuration t idx : configured t -> exists b t', SOPC_ToolkitServer_RemoveSecureChannelConfig t idx = Ret (b, t') /\
  ToolkitServer_GetSecureChannelConfig t' idx = Ret NULL /\ configured t'.
Proof.
  intros [Hl Hf]. unfold SOPC_ToolkitServer_RemoveSecureChannelConfig, ToolkitServer_GetSecureChannelConfig.
  set (i := SOPC_ToolkitServer_TranslateSecureChannelConfigIdxOffset idx). assert (0 <= i <= SOPC_MAX_SECURE_CONNECTIONS_PLUS_BUFFERED) as Hi.
  { unfold i, SOPC_ToolkitServer_TranslateSecureChannelConfigIdxOffset. destruct (_ && _) eqn:E; [|done]. apply andb_prop in E as [? ?]. lia. }
  destruct (negb (i =? 0) && initDone t && serverConfigLocked t) eqn:G; [|by exists false, t; rewrite G].
  destruct (array_get_ok (serverScConfigs t) i) as [p Ep]; [lia|]. rewrite Ep. cbn [rbind]. destruct p as [c|]; cbn [is_null]; [|by exists false, t; rewrite G, Ep].
  unfold SOPC_ToolkitServer_ClearScConfig_WithoutLock. rewrite Ep. cbn [rbind]. pose proof Ep as Ep'. apply array_get_inv in Ep' as [Hi' Ep'].
  rewrite Forall_lookup in Hf. rewrite (Hf _ _ Ep' c eq_refl). cbn [negb]. rewrite array_set_ok by done. cbn [rbind].
  eexists true, _. split; [reflexivity|]. cbn. rewrite G. rewrite array_get_set by lia. rewrite Z.eqb_refl. split; [done|].
  split; cbn; [by rewrite length_insert|]. apply Forall_insert; [by apply Forall_lookup|done].
Qed.

(** The end of [SC_CloseConnection]. *)
Lemma close_end w i c (socketFailure : bool) : 0 <= i < Z.of_nat (length (secureConnectionsArray w)) -> configured (configuration w) ->
  exists w', (let@ _ := (if socketFailure then wret tt else output_to (ToSockets SOCKET_CLOSE (socketIndex c) NoParams i)) in
     let@ _ := (if isServerConnection c then
                  let@ (_, t) := with_configuration (fun t => SOPC_ToolkitServer_RemoveSecureChannelConfig t (endpointConnectionConfigIdx c)) in
                  put_configuration t
                else wret tt) in
     let@ _ := put_connection i zero_connection in
     wret true) w = Ret (true, w') /\
    secureConnectionsArray w' = <[Z.to_nat i := zero_connection]> (secureConnectionsArray w) /\ request_heap w' = request_heap w /\ queue w' = queue w /\
    outputs w' = (if socketFailure then [] else [ToSockets SOCKET_CLOSE (socketIndex c) NoParams i]) ++ outputs w /\
    configured (configuration w') /\
    (if isServerConnection c then ToolkitServer_GetSecureChannelConfig (configuration w') (endpointConnectionConfigIdx c) = Ret NULL
     else configuration w' = configuration w).
Proof.
  intros Hi Hc. destruct (remove_configuration (configuration w) (endpointConnectionConfigIdx c) Hc) as (b & t & Et & Ht & Hc').
  unfold wbind, with_configuration, wbind, wlift, wget, put_connection, wbind, wget, wlift, wret, output_to, put_configuration.
  destruct socketFailure, (isServerConnection c); cbn [rbind configuration secureConnectionsArray]; rewrite ?Et; cbn [rbind configuration secureConnectionsArray];
    rewrite array_set_ok by done; cbn [rbind]; (eexists; split; [reflexivity|]; cbn; done).
Qed.

(** C35: closing a connection that is open returns, resets its entry, which is the only one
    that changes, and frees its list of pending requests.  In the order of the list, the
    timer of each request is cancelled and the failure of each pending message is said to
    the services exactly once; then the socket is closed, unless it already failed.  The
    configuration of the connection of a server is removed. *)
Theorem closing_settles_requests w i c l hf cs (socketFailure : bool) :
  1 <= i <= SOPC_MAX_SECURE_CONNECTIONS_PLUS_BUFFERED -> array_get (secureConnectionsArray w) i = Ret c -> state c <> SECURE_CONNECTION_STATE_SC_CLOSED ->
  sentRequestIds (tcpSeqProperties c) = Some l -> Repr hf (request_heap w) l cs -> holds_chunks (chunk_heap w) c -> configured (configuration w) ->
  exists w', SC_CloseConnection i socketFailure w = Ret (true, w') /\
    secureConnectionsArray w' = <[Z.to_nat i := zero_connection]> (secureConnectionsArray w) /\ request_heap w' = hf /\ queue w' = queue w /\
    outputs w' = (if socketFailure then [] else [ToSockets SOCKET_CLOSE (socketIndex c) NoParams i]) ++
                 reverse (concat (map (fun x => notices x.2) cs.*2)) ++ outputs w /\
    configured (configuration w') /\
    (if isServerConnection c then ToolkitServer_GetSecureChannelConfig (configuration w') (endpointConnectionConfigIdx c) = Ret NULL
     else configuration w' = configuration w).
Proof.
  intros Hi Ec Hs El R Hh Hc. unfold SC_CloseConnection, SC_GetConnection.
  replace ((0 <? i) && (i <=? SOPC_MAX_SECURE_CONNECTIONS_PLUS_BUFFERED)) with true by lia. unfold wbind at 1. rewrite (run_connection w i c Ec). cbn [rbind].
  unfold in_state. rewrite bool_decide_eq_false_2 by done. destruct (clear_context_runs w i c Ec Hh) as (x & h & Ex). unfold wbind at 1. rewrite Ex. cbn [rbind].
  set (w1 := mkWorld _ _ _ _ h _ _ _ _ _ _). pose proof Ec as Ec'. apply array_get_inv in Ec' as [Hi' _].
  assert (array_get (secureConnectionsArray w1) i = Ret (set_ctx c x)) as Ec1 by (unfold w1; cbn [secureConnectionsArray]; rewrite array_get_set by lia; by rewrite Z.eqb_refl).
  unfold wbind at 1. rewrite (run_connection w1 i _ Ec1). cbn [rbind]. change (sentRequestIds (tcpSeqProperties (set_ctx c x))) with (sentRequestIds (tcpSeqProperties c)).
  rewrite El. cbn [is_null negb]. unfold wbind at 1, wget. cbn [rbind]. unfold wbind at 1, wlift.
  pose proof (chain_size _ _ _ _ (r_nodup _ _ _ _ R) (r_chain _ _ _ _ R)) as Sz. cbn [SOPC_SLinkedList_Apply]. change (request_heap w1) with (request_heap w).
  rewrite (apply_elts_spec (request_heap w) cs) by (apply R || lia). cbn [rbind].
  replace (map (fun c => (c.2.1, Some c.2.2)) cs) with (map (fun x : Z * SOPC_SentRequestMsg_Context => (x.1, Some x.2)) cs.*2) by (by rewrite map_map).
  unfold wbind at 1. rewrite clear_pending_spec. cbn [rbind]. unfold wbind at 1, SOPC_SLinkedList_Delete. change (request_heap w1) with (request_heap w).
  rewrite (Clear_spec hf _ l cs R). cbn [rbind]. unfold wbind at 1, put_request_heap. cbn [rbind]. set (w2 := mkWorld _ _ _ _ _ hf _ _ _ _ _).
  destruct (close_end w2 i (set_ctx c x) socketFailure) as (w' & E & Ea & Er & Eq & Eo & Hc' & Hg); [|exact Hc|].
  { unfold w2, w1. cbn. by rewrite length_insert. }
  exists w'. split; [exact E|]. split; [rewrite Ea; unfold w2, w1; cbn [secureConnectionsArray with_outputs]; by rewrite list_insert_insert_eq|].
  split; [exact Er|]. split; [exact Eq|]. split; [exact Eo|]. split; [exact Hc'|exact Hg].
Qed.

(** ** Identifiers of a server *)

(** The open connection of a slot of a listener. *)
Definition open_at (conns : list SOPC_SecureConnection) (l : SOPC_SecureListener) (idx : Z) (c : SOPC_SecureConnection) : Prop :=
  array_get (isUsedConnectionIdxArray l) idx = Ret true /\
  exists k, array_get (connectionIdxArray l) idx = Ret k /\ array_get conns k = Ret c /\ state c <> SECURE_CONNECTION_STATE_SC_CLOSED.

(** The slots of a listener hold indexes of connections. *)
Record slots_valid (conns : list SOPC_SecureConnection) (l : SOPC_SecureListener) : Prop := {
  slots_used : Z.of_nat (length (isUsedConnectionIdxArray l)) = SOPC_MAX_SOCKETS_CONNECTIONS;
  slots_indexes : Z.of_nat (length (connectionIdxArray l)) = SOPC_MAX_SOCKETS_CONNECTIONS;
  slots_in_range : Forall (fun k => 0 <= k < Z.of_nat (length conns)) (connectionIdxArray l)
}.

(** An open connection of the listener has the identifier [v] of the channel, or of the token. *)
Definition in_use (id_of : SOPC_SecureConnection_SecurityToken -> Z) (conns : list SOPC_SecureConnection) (l : SOPC_SecureListener) (from to v : Z) : Prop :=
  exists idx c, from <= idx < to /\ open_at conns l idx c /\ id_of (currentSecurityToken c) = v.

#[local] Abbreviation any_slot P conns l v := (in_use P conns l 0 SOPC_MAX_SOCKETS_CONNECTIONS v).

Lemma in_use_step P conns l from to v : from < to -> in_use P conns l from to v <->
  (exists c, open_at conns l from c /\ P (currentSecurityToken c) = v) \/ in_use P conns l (from + 1) to v.
Proof.
  intros Hf. split.
  - intros (idx & c & Hi & Ho & Hp). destruct (decide (idx = from)) as [->|N]; [left; by exists c|]. right. exists idx, c. split; [lia|done].
  - intros [(c & Ho & Hp)|(idx & c & Hi & Ho & Hp)]; [exists from, c|exists idx, c]; (split; [lia|done]).
Qed.

Lemma in_use_none P conns l from to v : to <= from -> ~ in_use P conns l from to v.
Proof. intros Hf (idx & c & Hi & _). lia. Qed.

Lemma slot_uses_spec conns l idx ch tok : slots_valid conns l -> 0 <= idx < SOPC_MAX_SOCKETS_CONNECTIONS ->
  exists a b, slot_uses conns l idx ch tok = Ret (a, b) /\
    (a = true <-> exists c, open_at conns l idx c /\ secureChannelId (currentSecurityToken c) = ch) /\
    (b = true <-> exists c, open_at conns l idx c /\ tokenId (currentSecurityToken c) = tok).
Proof.
  intros [Hu Hk Hr] Hi. unfold slot_uses. destruct (array_get_ok (isUsedConnectionIdxArray l) idx) as [used Eu]; [lia|]. rewrite Eu. cbn [rbind].
  assert (forall P v, used = false \/ (exists k c, array_get (connectionIdxArray l) idx = Ret k /\ array_get conns k = Ret c /\ state c = SECURE_CONNECTION_STATE_SC_CLOSED) ->
    ~ exists c, open_at conns l idx c /\ P (currentSecurityToken c) = v :> Z) as None.
  { intros P v Hn (c & (Eu' & k & Ek & Ec & Hc) & _). destruct Hn as [->|(k' & c' & Ek' & Ec' & Hc')]; [congruence|].
    rewrite Ek in Ek'. injection Ek' as <-. rewrite Ec in Ec'. injection Ec' as <-. done. }
  destruct used.
  2:{ exists false, false. split; [done|]. split; (split; [done|intros X; exfalso; revert X; apply None; by left]). }
  destruct (array_get_ok (connectionIdxArray l) idx) as [k Ek]; [lia|]. rewrite Ek. cbn [rbind]. rewrite Forall_lookup in Hr.
  pose proof Ek as Ek'. apply array_get_inv in Ek' as [_ Ek']. destruct (array_get_ok conns k) as [c Ec]; [by eapply Hr|]. rewrite Ec. cbn [rbind].
  unfold in_state. destruct (bool_decide_reflect (state c = SECURE_CONNECTION_STATE_SC_CLOSED)) as [Hc|Hc].
  { exists false, false. split; [done|]. split; (split; [done|intros X; exfalso; revert X; apply None; right; by exists k, c]). }
  eexists _, _. split; [reflexivity|]. assert (open_at conns l idx c) as Ho by (split; [done|]; by exists k).
  assert (forall c', open_at conns l idx c' -> c' = c) as Hu'.
  { intros c' (_ & k' & Ek2 & Ec2 & _). rewrite Ek in Ek2. injection Ek2 as <-. rewrite Ec in Ec2. by injection Ec2. }
  split; rewrite Z.eqb_eq; (split; [intros ->; by exists c|intros (c' & Ho' & <-); by rewrite (Hu' c' Ho')]).
Qed.

Lemma scan_slots_spec conns l ch tok : slots_valid conns l -> forall n idx a b, 0 <= idx -> idx + Z.of_nat n = SOPC_MAX_SOCKETS_CONNECTIONS ->
  exists a' b', scan_slots n conns l idx ch tok a b = Ret (a', b') /\
    (a' = true <-> a = true \/ in_use secureChannelId conns l idx SOPC_MAX_SOCKETS_CONNECTIONS ch) /\
    (b' = true <-> b = true \/ in_use tokenId conns l idx SOPC_MAX_SOCKETS_CONNECTIONS tok).
Proof.
  intros Hv. induction n as [|n IH]; intros idx a b Hi Hn; cbn [scan_slots].
  - exists a, b. split; [done|]. split; (split; [by left|intros [?|X]; [done|]; exfalso; revert X; apply in_use_none; lia]).
  - destruct (negb a || negb b) eqn:E.
    + destruct (slot_uses_spec conns l idx ch tok Hv) as (x & y & -> & Hx & Hy); [lia|]. cbn [rbind].
      destruct (IH (idx + 1) (a || x) (b || y)) as (a' & b' & -> & Ha & Hb); [lia|lia|]. exists a', b'. split; [done|].
      split; [rewrite Ha, orb_true_iff, Hx, (in_use_step secureChannelId conns l idx) by lia|rewrite Hb, orb_true_iff, Hy, (in_use_step tokenId conns l idx) by lia]; tauto.
    + exists true, true. destruct a, b; try done. split; [done|]. split; (split; [by left|done]).
Qed.

Lemma scan_tokens_spec conns l tok : slots_valid conns l -> forall n idx, 0 <= idx -> idx + Z.of_nat n = SOPC_MAX_SOCKETS_CONNECTIONS ->
  exists b, scan_tokens n conns l idx tok = Ret b /\ (b = true <-> in_use tokenId conns l idx SOPC_MAX_SOCKETS_CONNECTIONS tok).
Proof.
  intros Hv. induction n as [|n IH]; intros idx Hi Hn; cbn [scan_tokens].
  - exists false. split; [done|]. split; [done|intros X; exfalso; revert X; apply in_use_none; lia].
  - destruct (slot_uses_spec conns l idx 0 tok Hv) as (x & y & -> & _ & Hy); [lia|]. cbn [rbind]. pose proof (in_use_step tokenId conns l idx SOPC_MAX_SOCKETS_CONNECTIONS tok ltac:(lia)) as St.
    destruct y; [exists true; split; [done|]; rewrite St; split; [intros _; left; by apply Hy|done]|].
    destruct (IH (idx + 1)) as (b & -> & Hb); [lia|lia|]. exists b. split; [done|]. rewrite Hb, St. split; [by right|]. intros [X|X]; [|done]. by apply Hy in X.
Qed.

(** The state after calls to the environment only. *)
Definition asked_only (w w' : world) : Prop :=
  exists n, w' = mkWorld (secureConnectionsArray w) (lastSecureConnectionArrayIdx w) (secureListenersArray w) (configuration w) (chunk_heap w)
    (request_heap w) (error w) n (queue w) (outputs w) (chunk_trace w).

Lemma asked_only_refl w : asked_only w w.
Proof. exists (calls w). by destruct w. Qed.

Lemma asked_only_trans w1 w2 w3 : asked_only w1 w2 -> asked_only w2 w3 -> asked_only w1 w3.
Proof. intros [n ->] [m ->]. by exists m. Qed.

Lemma run_ask {A} (f : nat -> A) w : exists w', ask f w = Ret (f (calls w), w') /\ asked_only w w'.
Proof. eexists. split; [reflexivity|]. by exists (S (calls w)). Qed.

Lemma asked_connections w w' : asked_only w w' -> secureConnectionsArray w' = secureConnectionsArray w.
Proof. by intros [n ->]. Qed.

(** An identifier that was found is not used. *)
Definition unused (P : SOPC_SecureConnection_SecurityToken -> Z) (conns : list SOPC_SecureConnection) (l : SOPC_SecureListener) (v : Z) : Prop :=
  v <> 0 -> ~ any_slot P conns l v.

Lemma unused_0 P conns l : unused P conns l 0.
Proof. by intros N. Qed.

Lemma run_draw p found current w : exists r w', draw p found current w = Ret (r, w') /\ asked_only w w' /\ (found <> 0 -> r = Some current).
Proof.
  unfold draw. destruct (Z.eqb_spec found 0) as [->|N]; [|eexists _, w; split; [done|]; split; [apply asked_only_refl|done]].
  destruct (run_ask (fun n => GenerateRandomID n p) w) as (w' & E & Ha). unfold wbind. rewrite E. cbn [rbind].
  destruct (GenerateRandomID (calls w) p) as [st i]. eexists _, w'. split; [done|]. split; [exact Ha|done].
Qed.

Lemma find_ids_spec p l conns : slots_valid conns l -> forall n r1 r2 n1 n2 w, secureConnectionsArray w = conns ->
  (r1 <> 0 -> n1 = r1) -> (r2 <> 0 -> n2 = r2) -> unused secureChannelId conns l r1 -> unused tokenId conns l r2 ->
  exists ch tok w', find_ids n p l r1 r2 n1 n2 w = Ret ((ch, tok), w') /\ asked_only w w' /\ unused secureChannelId conns l ch /\ unused tokenId conns l tok.
Proof.
  intros Hv. induction n as [|n IH]; intros r1 r2 n1 n2 w Hw K1 K2 U1 U2; cbn [find_ids]; destruct ((r1 =? 0) || (r2 =? 0));
    try (eexists _, _, w; split; [reflexivity|]; split; [apply asked_only_refl|done]).
  destruct (run_draw p r1 n1 w) as (o1 & w1 & E1 & A1 & D1). unfold wbind at 1. rewrite E1. cbn [rbind].
  destruct o1 as [m1|].
  2:{ destruct (IH r1 r2 n1 n2 w1) as (ch & tok & w2 & E & A & U); try done; [by rewrite (asked_connections _ _ A1)|].
      exists ch, tok, w2. split; [exact E|]. split; [by eapply asked_only_trans|exact U]. }
  assert (r1 <> 0 -> m1 = r1) as K1' by (intros N; specialize (D1 N); injection D1 as ->; by apply K1).
  destruct (run_draw p r2 n2 w1) as (o2 & w2 & E2 & A2 & D2). unfold wbind at 1. rewrite E2. cbn [rbind]. pose proof (asked_only_trans _ _ _ A1 A2) as A12.
  assert (secureConnectionsArray w2 = conns) as Hw2 by (by rewrite (asked_connections _ _ A12)).
  destruct o2 as [m2|].
  2:{ destruct (IH r1 r2 m1 n2 w2) as (ch & tok & w3 & E & A & U); try done. exists ch, tok, w3. split; [exact E|]. split; [by eapply asked_only_trans|exact U]. }
  assert (r2 <> 0 -> m2 = r2) as K2' by (intros N; specialize (D2 N); injection D2 as ->; by apply K2).
  destruct (negb (m1 =? 0) && negb (m2 =? 0)).
  2:{ destruct (IH r1 r2 m1 m2 w2) as (ch & tok & w3 & E & A & U); try done. exists ch, tok, w3. split; [exact E|]. split; [by eapply asked_only_trans|exact U]. }
  unfold wbind, wget, wlift. cbn [rbind]. rewrite Hw2.
  destruct (scan_slots_spec conns l m1 m2 Hv (Z.to_nat SOPC_MAX_SOCKETS_CONNECTIONS) 0 false false) as (a & b & -> & Ha & Hb); [done|done|]. cbn [rbind].
  destruct (IH (if a then r1 else m1) (if b then r2 else m2) m1 m2 w2) as (ch & tok & w3 & E & A & U); try done.
  - by destruct a.
  - by destruct b.
  - destruct a; [exact U1|]. intros _ X. destruct Ha as [_ Ha]. by specialize (Ha (or_intror X)).
  - destruct b; [exact U2|]. intros _ X. destruct Hb as [_ Hb]. by specialize (Hb (or_intror X)).
  - exists ch, tok, w3. split; [exact E|]. split; [by eapply asked_only_trans|exact U].
Qed.

Lemma find_token_spec p l conns : slots_valid conns l -> forall n w, secureConnectionsArray w = conns ->
  exists tok w', find_token n p l w = Ret (tok, w') /\ asked_only w w' /\ unused tokenId conns l tok.
Proof.
  intros Hv. induction n as [|n IH]; intros w Hw; cbn [find_token]; [eexists _, w; split; [reflexivity|]; split; [apply asked_only_refl|apply unused_0]|].
  destruct (run_ask (fun n => GenerateRandomID n p) w) as (w1 & E & Ha). unfold wbind at 1. rewrite E. cbn [rbind]. destruct (GenerateRandomID (calls w) p) as [st tok].
  assert (secureConnectionsArray w1 = conns) as Hw1 by (by rewrite (asked_connections _ _ Ha)).
  assert (exists tok w', find_token n p l w1 = Ret (tok, w') /\ asked_only w w' /\ unused tokenId conns l tok) as Next.
  { destruct (IH w1 Hw1) as (t & w2 & E2 & A & U). exists t, w2. split; [exact E2|]. split; [by eapply asked_only_trans|exact U]. }
  destruct (is_ok st && negb (tok =? 0)); [|exact Next]. unfold wbind, wget, wlift. cbn [rbind]. rewrite Hw1.
  destruct (scan_tokens_spec conns l tok Hv (Z.to_nat SOPC_MAX_SOCKETS_CONNECTIONS) 0) as (b & -> & Hb); [done|done|]. cbn [rbind].
  destruct b; [exact Next|]. exists tok, w1. split; [reflexivity|]. split; [exact Ha|]. intros _ X. apply Hb in X. done.
Qed.

(** C34: the identifiers that a server gives to a channel, when it opens it and when it
    renews it.  The functions return and change nothing but the number of calls to the
    environment; the identifiers that they return are not null, and no open connection of
    the listener has the same identifier of a channel, or the same token.  The renewal
    returns 0 when it finds no token. *)
Theorem identifiers_are_fresh w c l : isServerConnection c = true -> array_get (secureListenersArray w) (serverEndpointConfigIdx c) = Ret l ->
  slots_valid (secureConnectionsArray w) l ->
  (exists r w', SC_Server_GenerateFreshSecureChannelAndTokenId c w = Ret (r, w') /\ asked_only w w' /\
    forall channel token, r = Some (channel, token) -> channel <> 0 /\ token <> 0 /\
      forall idx o, 0 <= idx < SOPC_MAX_SOCKETS_CONNECTIONS -> open_at (secureConnectionsArray w) l idx o ->
        secureChannelId (currentSecurityToken o) <> channel /\ tokenId (currentSecurityToken o) <> token) /\
  (exists token w', SC_Server_GenerateFreshTokenId c w = Ret (token, w') /\ asked_only w w' /\
    (token <> 0 -> forall idx o, 0 <= idx < SOPC_MAX_SOCKETS_CONNECTIONS -> open_at (secureConnectionsArray w) l idx o ->
      tokenId (currentSecurityToken o) <> token)).
Proof.
  intros Hs El Hv. assert (listener (serverEndpointConfigIdx c) w = Ret (l, w)) as Er by (unfold listener, wbind, wlift, wget; cbn [rbind]; by rewrite El).
  unfold SC_Server_GenerateFreshSecureChannelAndTokenId, SC_Server_GenerateFreshTokenId, wbind. rewrite Hs, Er. cbn [rbind].
  destruct (is_opened l).
  2:{ split; [exists None, w|exists 0, w]; (split; [reflexivity|]; split; [apply asked_only_refl|done]). }
  split.
  - destruct (find_ids_spec (cryptoProvider c) l _ Hv id_attempts 0 0 0 0 w eq_refl) as (ch & tok & w' & -> & Ha & U1 & U2); try done; try apply unused_0. cbn [rbind].
    eexists _, w'. split; [reflexivity|]. split; [exact Ha|]. intros channel token. destruct (Z.eqb_spec ch 0), (Z.eqb_spec tok 0); try done. intros [= -> ->].
    split; [done|]. split; [done|]. intros idx o Hi Ho. split; intros E; [apply (U1 ltac:(done))|apply (U2 ltac:(done))]; by exists idx, o.
  - destruct (find_token_spec (cryptoProvider c) l _ Hv id_attempts w eq_refl) as (tok & w' & -> & Ha & U). exists tok, w'. split; [reflexivity|]. split; [exact Ha|].
    intros N idx o Hi Ho E. apply (U N). by exists idx, o.
Qed.

End Entries.
