(* ===== verification/ChunksDemo.v ===== *)
(** * A secure connection

    A connection of a server with a concrete cryptographic provider and configuration:
    the reception runs on it, and the theorems apply to it. *)

From Stdlib Require Import ZArith Lia.
From Stdlib Require Import Strings.Byte.
From stdpp Require Import prelude gmap.
From S2P Require Import Prelude Common LinkedList LinkedListSpec Buffer Codec EncScalar EncString EncProps Strings SecureConnection ToolkitConfig Chunks.
From S2P Require Import ChunksSpec ChunksStream ChunksIdle ChunksProps ChunksMerge ChunksSecurity.

Open Scope Z_scope.

Module Demo.

#[local] Existing Instance serving_allocator.
#[local] Existing Instance demo_host.
#[local] Existing Instance demo_cfg.
#[local] Instance demo_endianness : EndiannessCfg := SOPC_Helper_EndiannessCfg_Initialize.

(** The texts are not ciphered, and a signature is 32 bytes that are null. *)
Definition demo_signature : block := replicate 32 x00.

#[local] Instance demo_crypto : Crypto := {|
  CryptoProvider := unit;
  AsymmetricKey := unit;
  CertificateList := block;
  SecurityKeySet := unit;
  SecretBuffer := block;
  PKIProvider := unit;
  CryptoProvider_Create _ := Some tt;
  SymmetricGetLength_Decryption _ n := (SOPC_STATUS_OK, n);
  SymmetricDecrypt _ _ d _ := (SOPC_STATUS_OK, d);
  SymmetricGetLength_Signature _ := (SOPC_STATUS_OK, 32);
  SymmetricVerify _ _ _ s := if bool_decide ((s : list byte) = demo_signature) then SOPC_STATUS_OK else SOPC_STATUS_NOK;
  AsymmetricGetLength_Decryption _ _ n := (SOPC_STATUS_OK, n);
  AsymmetricDecrypt _ _ d _ := (SOPC_STATUS_OK, d);
  AsymmetricKey_CreateFromCertificate _ := (SOPC_STATUS_OK, Some tt);
  AsymmetricGetLength_Signature _ _ := (SOPC_STATUS_OK, 32);
  AsymmetricVerify _ _ _ s := if bool_decide ((s : list byte) = demo_signature) then SOPC_STATUS_OK else SOPC_STATUS_NOK;
  Certificate_ToDER c := (SOPC_STATUS_OK, c);
  Certificate_CreateOrAddFromDER d := (SOPC_STATUS_OK, Some d);
  Certificate_Validate _ _ _ := (SOPC_STATUS_OK, NULL);
  CertificateGetLength_Thumbprint _ := (SOPC_STATUS_OK, 2);
  Certificate_GetThumbprint _ _ _ := (SOPC_STATUS_OK, [x01; x02])
|}.

Definition demo_toolkit (mode : OpcUa_MessageSecurityMode) : Toolkit := {|
  SOPC_ToolkitClient_GetSecureChannelConfig _ := Some (mkChannelConfig true NULL NULL NULL NULL NULL NULL 1000 mode 0);
  SOPC_ToolkitServer_GetSecureChannelConfig _ := Some (mkChannelConfig true NULL NULL NULL NULL NULL NULL 1000 mode 0);
  SOPC_ToolkitServer_GetEndpointConfig _ := Ret (Some (mkEndpointConfig (Some (mkServerConfig NULL NULL NULL)) NULL false []));
  current_time := 0
|}.

Definition demo_token : SOPC_SecureConnection_SecurityToken := mkSecurityToken 1 1 0 100 1000.
Definition demo_keys : SOPC_SC_SecurityKeySets := mkKeySets (Some tt) (Some tt).
Definition demo_properties : SOPC_SecureConnection_TcpProperties := mkTcpProperties 0 64 64 1000 1000 5 5.

Definition demo_connection : SOPC_SecureConnection :=
  mkSecureConnection (mkChunkMgrCtx NULL 0 SOPC_MSG_TYPE_INVALID SOPC_MSG_ISFINAL_INVALID NULL false 0 NULL)
    (mkSequence 0 0 NULL) 0 0 false 0 0 (mkAsymmSecu NULL 0 false NULL) SECURE_CONNECTION_STATE_SC_CONNECTED 1 1 0
    demo_properties (Some tt) (mkSecurityToken 0 0 0 0 0) (mkKeySets NULL NULL) demo_token demo_keys NULL 0 true true 1
    (Some tt) (Some [x10]) (Some [x20]).

Definition demo_state : chunk_state := mkState demo_connection 0 ∅ ∅ [].

(** A chunk of a message, with the headers of a secure conversation. *)
Definition demo_chunk (isFinal : byte) (sn : Z) (payload : block) : block :=
  SOPC_MSG ++ [isFinal] ++ le_bytes 4 (24 + zlen payload) ++ le_bytes 4 1 ++ le_bytes 4 1 ++ le_bytes 4 sn ++ le_bytes 4 7 ++ payload.

Definition demo_received (bs : block) : SOPC_Buffer := mkBuffer (zlen bs) (zlen bs) (zlen bs) 0 (zlen bs) (Some bs).

(** Two chunks give one message. *)
Definition events (r : res (unit * chunk_state)) : res (list (SOPC_SecureChannels_InternalEvent * block * Z)) :=
  let* (_, s) := r in
  Ret (omap (fun e => match e with EnqueueEvent _ ev b aux => Some (ev, match b with Some b => upcoming b | NULL => [] end, aux) | _ => None end) (reverse (trace s))).

Definition receive (mode : OpcUa_MessageSecurityMode) (bs : block) : res (unit * chunk_state) :=
  SC_Chunks_TreatReceivedBuffer (H3 := demo_toolkit mode) (demo_received bs) demo_state.

Example two_chunks :
  events (receive OpcUa_MessageSecurityMode_None
    (demo_chunk SOPC_UA_INTERMEDIATE_CHUNK 1 [x61; x62] ++ demo_chunk SOPC_UA_FINAL_CHUNK 2 [x63])) =
  Ret [(INT_SC_RCV_MSG_CHUNKS, [x61; x62; x63], 7)].
Proof. vm_compute. reflexivity. Qed.

(** An assertion fails on a message of two chunks with no body. *)
Example empty_chunks_abort :
  receive OpcUa_MessageSecurityMode_None (demo_chunk SOPC_UA_INTERMEDIATE_CHUNK 1 [] ++ demo_chunk SOPC_UA_FINAL_CHUNK 2 []) = Fault AssertFailed.
Proof. vm_compute. reflexivity. Qed.

(** A signed chunk that is shorter than its signature makes the function read outside of
    the buffer; one with a signature is accepted. *)
Example short_signature :
  receive OpcUa_MessageSecurityMode_Sign (demo_chunk SOPC_UA_FINAL_CHUNK 1 []) = Fault OutOfBounds /\
  events (receive OpcUa_MessageSecurityMode_Sign (demo_chunk SOPC_UA_FINAL_CHUNK 1 (x61 :: demo_signature))) = Ret [(INT_SC_RCV_MSG_CHUNKS, [x61], 7)].
Proof. split; vm_compute; reflexivity. Qed.

(** A chunk without secure channel identifier is refused, and the failure carries the
    status of a success. *)
Example short_chunk :
  events (receive OpcUa_MessageSecurityMode_None (SOPC_MSG ++ [SOPC_UA_FINAL_CHUNK] ++ le_bytes 4 9 ++ [x00])) =
  Ret [(INT_SC_RCV_FAILURE, [], SOPC_GoodGenericStatus)].
Proof. vm_compute. reflexivity. Qed.

(** ** The theorems on this connection *)

#[local] Instance demo_detected : EndiannessDetected.
Proof. split; reflexivity. Qed.

#[local] Instance demo_none : Toolkit := demo_toolkit OpcUa_MessageSecurityMode_None.

Lemma demo_receptive : receptive demo_properties (conn demo_state).
Proof. split; [reflexivity|]. left. split; [reflexivity|]. by split_and!. Qed.

Lemma demo_buffer_size : SOPC_TCP_UA_HEADER_LENGTH <= receiveBufferSize demo_properties <= 2 ^ 31.
Proof. by vm_compute. Qed.

Lemma demo_received_inv bs : zlen bs < 2 ^ 32 -> Buffer_Inv (demo_received bs).
Proof. intros L. pose proof (zlen_nonneg bs). split; cbn; try lia. by eexists. Qed.

Lemma demo_received_upcoming bs : upcoming (demo_received bs) = bs.
Proof. unfold upcoming, content, bytes. cbn. rewrite drop_0. apply take_ge. unfold zlen. lia. Qed.

Lemma demo_nested : 0 < max_nested_struct demo_cfg.
Proof. by vm_compute. Qed.

Definition demo_first : block := demo_chunk SOPC_UA_INTERMEDIATE_CHUNK 1 [x61; x62] ++ take 5 (demo_chunk SOPC_UA_FINAL_CHUNK 2 [x63]).
Definition demo_second : block := drop 5 (demo_chunk SOPC_UA_FINAL_CHUNK 2 [x63]).

Lemma segmentation_independent_witness :
  match treat_segment (demo_received demo_first) demo_state with
  | Ret (true, s1) =>
      SC_Chunks_TreatReceivedBuffer (demo_received demo_first) demo_state = Ret (tt, s1) /\
      equivalent (SC_Chunks_TreatReceivedBuffer (demo_received (demo_first ++ demo_second)) demo_state)
        (SC_Chunks_TreatReceivedBuffer (demo_received demo_second) s1)
  | _ => False
  end.
Proof.
  assert (match treat_segment (demo_received demo_first) demo_state with Ret (true, _) => True | _ => False end) as T by (by vm_compute).
  pose proof (segmentation_independent demo_nested demo_alloc demo_properties demo_buffer_size
    (demo_received (demo_first ++ demo_second)) (demo_received demo_first) (demo_received demo_second) demo_state demo_receptive) as W.
  rewrite !demo_received_upcoming in W.
  assert (zlen (demo_first ++ demo_second) < 2 ^ 32) as L0 by (by vm_compute).
  assert (zlen demo_first < 2 ^ 32) as L1 by (by vm_compute). assert (zlen demo_second < 2 ^ 32) as L2 by (by vm_compute).
  specialize (W (demo_received_inv _ L0) (demo_received_inv _ L1) (demo_received_inv _ L2)).
  specialize (W eq_refl eq_refl eq_refl eq_refl).
  destruct (treat_segment (demo_received demo_first) demo_state) as [[[|] s1]|]; [exact W|destruct T|destruct T].
Defined.

Lemma reception_invariant_witness :
  match SC_Chunks_TreatReceivedBuffer (demo_received demo_first) demo_state with
  | Ret (_, s') => receptive demo_properties (conn s')
  | Fault _ => False
  end.
Proof.
  assert (match SC_Chunks_TreatReceivedBuffer (demo_received demo_first) demo_state with Ret (tt, _) => True | _ => False end) as T by (by vm_compute).
  assert (zlen demo_first < 2 ^ 32) as L1 by (by vm_compute).
  destruct (SC_Chunks_TreatReceivedBuffer (demo_received demo_first) demo_state) as [[[] s1]|] eqn:E; [|destruct T].
  exact (reception_invariant demo_nested demo_alloc demo_properties demo_buffer_size (demo_received demo_first) demo_state s1
    demo_receptive (demo_received_inv _ L1) E).
Defined.

(** A final chunk whose headers were read. *)
Definition demo_body : SOPC_Buffer := mkBuffer 8 8 8 2 4 (Some [x00; x00; x61; x62; x00; x00; x00; x00]).

Definition demo_final : chunk_state :=
  mkState (set_ctx demo_connection (mkChunkMgrCtx (Some demo_body) 4 SOPC_MSG_TYPE_SC_MSG SOPC_MSG_ISFINAL_FINAL NULL true 7 NULL)) 0 ∅ ∅ [].

Lemma multi_chunks_refine_witness :
  implements demo_final (SC_Chunks_TreatMsgMultiChunks demo_final) (Complete [x61; x62]).
Proof.
  refine (multi_chunks_refine demo_alloc demo_final demo_body [] eq_refl eq_refl _ eq_refl _ _ _).
  - split; cbn; try lia. by eexists.
  - by vm_compute.
  - by vm_compute.
  - by vm_compute.
Defined.

(** The number 1 is accepted again with an OPN chunk. *)
Lemma no_replay_witness : exists j m, (0 < j <= 2)%nat /\ [(false, 1); (false, 2); (true, 1)] !! j = Some (true, m).
Proof.
  refine (no_replay [(false, 1); (false, 2); (true, 1)] demo_state _ 0 2 false true 1 _ eq_refl _ _ eq_refl eq_refl); [|lia|by vm_compute].
  by repeat (constructor; [by vm_compute|]).
Defined.


End Demo.
