(* ===== verification/ChunksSendDemo.v ===== *)
(** * A sender and a receiver

    A client that sends messages to a server, with a concrete cryptographic provider: the
    functions run on it, and the theorems on the sender apply to it. *)

From Stdlib Require Import ZArith Lia.
From Stdlib Require Import Strings.Byte.
From stdpp Require Import prelude gmap.
From S2P Require Import Prelude Common LinkedList LinkedListSpec Buffer Codec EncScalar EncString EncProps Strings SecureConnection ToolkitConfig Chunks.
From S2P Require Import ChunksSpec ChunksStream ChunksIdle ChunksProps ChunksMerge ChunksSecurity ChunksSend ChunksSendSpec ChunksSendProps ChunksPadding ChunksExchange ChunksDemo.

Open Scope Z_scope.

Module SendDemo.
Import Demo.

#[local] Existing Instance serving_allocator.
#[local] Existing Instance demo_host.
#[local] Existing Instance demo_cfg.
#[local] Existing Instance demo_endianness.
#[local] Existing Instance demo_detected.
#[local] Existing Instance demo_crypto.

(** The texts are not ciphered; the signature of data that hold the byte [x7a] fails.  The
    keys of the certificates have 4096 bits. *)
#[local] Instance demo_send_crypto : SendCrypto := {|
  SymmetricGetLength_Blocks _ := (SOPC_STATUS_OK, (16, 16));
  SymmetricGetLength_Encryption _ n := (SOPC_STATUS_OK, n);
  SymmetricSign _ _ d _ := if bool_decide (x7a ∈ (d : list byte)) then (SOPC_STATUS_NOK, []) else (SOPC_STATUS_OK, demo_signature);
  SymmetricEncrypt _ _ d _ := (SOPC_STATUS_OK, d);
  AsymmetricGetLength_Msgs _ _ := (SOPC_STATUS_OK, (512, 470));
  AsymmetricGetLength_Encryption _ _ n := (SOPC_STATUS_OK, n / 470 * 512);
  AsymmetricSign _ _ _ _ := (SOPC_STATUS_OK, demo_signature);
  AsymmetricEncrypt _ _ d n := (SOPC_STATUS_OK, take (Z.to_nat n) (d ++ replicate (Z.to_nat n) x00));
  SOPC_EventTimer_Create _ _ _ _ _ := 1
|}.

Definition send_properties : SOPC_SecureConnection_TcpProperties := mkTcpProperties 0 256 256 1000 1000 5 5.

(** A connection whose chunks have a body of at most [m] bytes. *)
Definition connection (isServer : bool) (m : Z) : SOPC_SecureConnection :=
  mkSecureConnection (mkChunkMgrCtx NULL 0 SOPC_MSG_TYPE_INVALID SOPC_MSG_ISFINAL_INVALID NULL false 0 NULL)
    (mkSequence 0 0 (Some (mkSLinkedList NULL NULL 0 0))) m m false 0 0 (mkAsymmSecu NULL 0 false NULL) SECURE_CONNECTION_STATE_SC_CONNECTED 1 1 0
    send_properties (Some tt) (mkSecurityToken 0 0 0 0 0) (mkKeySets NULL NULL) demo_token demo_keys NULL 0 true isServer 1
    (Some tt) (Some [x10]) (Some [x20]).

Definition client (m : Z) : chunk_state := mkState (connection false m) 0 ∅ ∅ [].
Definition server : chunk_state := mkState (connection true 100) 0 ∅ ∅ [].

(** A message, with the bytes of its headers. *)
Definition message (body : block) : SOPC_Buffer := mkBuffer 300 300 300 0 (24 + zlen body) (Some (take 300 (replicate 24 x00 ++ body ++ replicate 300 x00))).

Definition send (mode : OpcUa_MessageSecurityMode) (m : Z) (body : block) : res (unit * chunk_state) :=
  SOPC_ChunksMgr_Dispatcher (H4 := demo_toolkit mode) INT_SC_SND_MSG_CHUNKS 1 (Some (message body)) 5 (client m).

Definition receive_on (mode : OpcUa_MessageSecurityMode) (bs : block) : res (unit * chunk_state) :=
  SC_Chunks_TreatReceivedBuffer (H3 := demo_toolkit mode) (demo_received bs) server.

(** The bytes on the socket. *)
Definition stream (r : res (unit * chunk_state)) : block :=
  match r with Ret (_, s) => mjoin (reverse (socket_writes (trace s))) | Fault _ => [] end.

(** The final character, the sequence number and the request identifier of the chunks. *)
Definition headers (r : res (unit * chunk_state)) : list (byte * Z * Z) :=
  match r with
  | Ret (_, s) => map (fun c => (nth 3 c x00, le_val (take 4 (drop 16 c)), le_val (take 4 (drop 20 c)))) (reverse (socket_writes (trace s)))
  | Fault _ => []
  end.

Example three_chunks :
  headers (send OpcUa_MessageSecurityMode_None 2 [x61; x62; x63; x64; x65]) =
    [(SOPC_UA_INTERMEDIATE_CHUNK, 1, 1); (SOPC_UA_INTERMEDIATE_CHUNK, 2, 1); (SOPC_UA_FINAL_CHUNK, 3, 1)] /\
  events (receive_on OpcUa_MessageSecurityMode_None (stream (send OpcUa_MessageSecurityMode_None 2 [x61; x62; x63; x64; x65]))) =
    Ret [(INT_SC_RCV_MSG_CHUNKS, [x61; x62; x63; x64; x65], 1)].
Proof. split; vm_compute; reflexivity. Qed.

(** Messages that are signed, and signed and encrypted. *)
Example secured_messages :
  events (receive_on OpcUa_MessageSecurityMode_Sign (stream (send OpcUa_MessageSecurityMode_Sign 100 [x61; x62; x63]))) = Ret [(INT_SC_RCV_MSG_CHUNKS, [x61; x62; x63], 1)] /\
  events (receive_on OpcUa_MessageSecurityMode_SignAndEncrypt (stream (send OpcUa_MessageSecurityMode_SignAndEncrypt 100 [x61; x62; x63]))) =
    Ret [(INT_SC_RCV_MSG_CHUNKS, [x61; x62; x63], 1)].
Proof. split; vm_compute; reflexivity. Qed.

(** The signature of the second chunk fails: the abort chunk skips the number and the
    request identifier of the chunk that was not sent, and the receiver refuses it. *)
Example failed_chunk_breaks_sequence :
  let sent := send OpcUa_MessageSecurityMode_Sign 100 (replicate 100 x61 ++ [x7a]) in
  headers sent = [(SOPC_UA_INTERMEDIATE_CHUNK, 1, 1); (SOPC_UA_ABORT_FINAL_CHUNK, 3, 2)] /\
  events (receive_on OpcUa_MessageSecurityMode_Sign (stream sent)) = Ret [(INT_SC_RCV_FAILURE, [], OpcUa_BadSecurityChecksFailed)].
Proof. split; vm_compute; reflexivity. Qed.

(** The second computation of the sizes, for the symmetric case, overwrites what the first
    one says of the padding of the asymmetric case. *)
Definition opn_config : SOPC_SecureChannel_Config := mkChannelConfig true NULL NULL NULL NULL NULL NULL 1000 OpcUa_MessageSecurityMode_Sign 0.
Definition opn_client : chunk_state :=
  mkState (set_tcpMsgProperties (connection false 0) (mkTcpProperties 0 8192 8192 0 0 0 0)) 0 ∅ ∅ [].

Example extra_padding_overwritten :
  SC_Chunks_Is_ExtraPaddingSizePresent (plainBlockSize_ (SC_Chunks_GetSendingCryptoSizes (conn opn_client) opn_config false).2) = true /\
  match check_asymmetric_body opn_config 100 10 opn_client with
  | Ret (ok, s) => ok = true /\ hasExtraPaddingSize (conn s) = false
  | Fault _ => False
  end.
Proof. split; vm_compute; [reflexivity|]. by split. Qed.

(** ** The theorems on these connections *)

#[local] Existing Instance demo_none.

Lemma client_sender m : 0 < m <= 200 -> plain_sender 1 (connection false m).
Proof.
  intros P. split.
  - by eexists.
  - by eexists.
  - by split.
  - done.
  - cbn. lia.
  - change SOPC_UA_SYMMETRIC_SECURE_MESSAGE_HEADERS_LENGTH with 24. cbn. lia.
Qed.

Lemma client_records m : can_record (client m).
Proof. right. exists ∅, (mkSLinkedList NULL NULL 0 0), []. split_and!; try (by vm_compute). apply Repr_nil. Qed.

Lemma server_between : between 1 1 1 [] server.
Proof. split; try done. split; try (by vm_compute). by eexists. Qed.

Definition demo_message : SOPC_Buffer := message [x61; x62; x63; x64; x65].

Lemma message_inv : Buffer_Inv demo_message.
Proof. split; try (by vm_compute); [|by left]. by eexists. Qed.

Lemma message_is_cut_witness :
  exists s', SC_Chunks_TreatSendMessageBuffer 1 5 SOPC_MSG_TYPE_SC_MSG false false (Some demo_message) (client 2) = Ret ((true, true), s') /\
    socket_writes (trace s') =
      reverse (sent_chunks (Z.to_nat (chunks_needed 2 5)) (Z.to_nat 2) SOPC_MSG 1 1 0 1 [x61; x62; x63; x64; x65]) ++ socket_writes (trace (client 2)).
Proof.
  refine (message_is_cut demo_nested demo_alloc 1 5 SOPC_MSG_TYPE_SC_MSG SOPC_MSG demo_message (client 2) 1 (or_introl eq_refl) eq_refl message_inv _ _ _ (client_records 2) _ eq_refl).
  - by vm_compute.
  - by vm_compute.
  - apply client_sender. lia.
  - by vm_compute.
Defined.

Lemma exchange_witness :
  exists s' chunks, SC_Chunks_TreatSendMessageBuffer 1 5 SOPC_MSG_TYPE_SC_MSG false false (Some demo_message) (client 2) = Ret ((true, true), s') /\
    socket_writes (trace s') = reverse chunks ++ socket_writes (trace (client 2)) /\
    forall rb, Buffer_Inv rb -> position rb = 0 -> upcoming rb = mjoin chunks -> exists t' msg,
      SC_Chunks_TreatReceivedBuffer rb server = Ret (tt, t') /\
      trace t' = EnqueueEvent false INT_SC_RCV_MSG_CHUNKS (Some msg) 1 :: trace server /\ upcoming msg = [x61; x62; x63; x64; x65] /\ idle (conn t').
Proof.
  refine (exchange demo_nested demo_alloc 1 5 demo_message (client 2) server 1 message_inv _ _ _ (client_records 2) _ eq_refl server_between eq_refl _).
  - by vm_compute.
  - by vm_compute.
  - apply client_sender. lia.
  - by vm_compute.
  - split; try (by vm_compute). right. by vm_compute.
Defined.

Definition large_message : SOPC_Buffer := message (replicate 250 x61).

Lemma large_message_inv : Buffer_Inv large_message.
Proof. split; try (by vm_compute); [|by left]. by eexists. Qed.

(** 4 chunks of at most 70 bytes are needed, and 3 are allowed. *)
Definition small_client : chunk_state :=
  mkState (set_tcpMsgProperties (connection false 70) (mkTcpProperties 0 256 256 1000 1000 5 3)) 0 ∅ ∅ [].

Lemma small_sender : plain_sender 1 (conn small_client).
Proof. split; [by eexists|by eexists|by split|done|done|by vm_compute]. Qed.

Lemma small_records : can_record small_client.
Proof. right. exists ∅, (mkSLinkedList NULL NULL 0 0), []. split_and!; try (by vm_compute). apply Repr_nil. Qed.

Lemma too_large_aborted_witness :
  exists s' tr, SOPC_ChunksMgr_Dispatcher INT_SC_SND_MSG_CHUNKS 1 (Some large_message) 5 small_client = Ret (tt, s') /\
    trace s' = EnqueueFailure false INT_SC_SENT_ABORT_FAILURE 5 (too_large (conn small_client)) :: tr /\
    socket_writes tr = chunk_bytes SOPC_MSG SOPC_UA_ABORT_FINAL_CHUNK (secureChannelId (currentSecurityToken (conn small_client))) 1
      (next_sequence_number (lastSNsent (tcpSeqProperties (conn small_client)))) (request_id (conn small_client) 5)
      (abort_body OpcUa_BadTcpMessageTooLarge size_text) :: socket_writes (trace small_client).
Proof.
  assert (2 <= max_nested_struct demo_cfg) as N2 by (by vm_compute). assert (small large_message) as Sm by (by vm_compute).
  assert (SOPC_UA_SYMMETRIC_SECURE_MESSAGE_HEADERS_LENGTH <= length_ large_message) as L1 by (by vm_compute).
  assert (24 + zlen (abort_body OpcUa_BadTcpMessageTooLarge size_text) <= maximum_size large_message) as L2 by (by vm_compute).
  assert (zlen (abort_body OpcUa_BadTcpMessageTooLarge size_text) <= symmSecuMaxBodySize (conn small_client)) as L3 by (by vm_compute).
  assert (sendable (conn small_client) SOPC_MSG_TYPE_SC_MSG (length_ large_message - 24) = false) as Sd by (by vm_compute). assert (in_u 32 5) as R5 by (by vm_compute).
  assert (state (conn small_client) <> SECURE_CONNECTION_STATE_SC_CLOSED) as St by done.
  exact (too_large_aborted demo_nested demo_alloc N2 1 5 large_message small_client 1 large_message_inv Sm L1 L2 small_sender small_records R5 St L3 Sd).
Defined.

Lemma sender_numbers_accepted_witness :
  (exists s', receive_numbers (sent_numbers 5 0) server = Ret (true, s')) /\
  (forall i final, in_u 32 i -> (client_request_id i final).1 <> 0 /\ in_u 32 (client_request_id i final).1).
Proof. refine (sender_numbers_accepted 5 server _). by vm_compute. Defined.

(** The signature of a message of one chunk fails. *)
Definition refused_message : SOPC_Buffer := message [x7a].
Lemma refused_message_inv : Buffer_Inv refused_message.
Proof. split; try (by vm_compute); [|by left]. by eexists. Qed.

Definition send_signed : res (bool * bool * chunk_state) :=
  SC_Chunks_TreatSendMessageBuffer (H4 := demo_toolkit OpcUa_MessageSecurityMode_Sign) 1 5 SOPC_MSG_TYPE_SC_MSG false false (Some refused_message) (client 100).

Lemma single_chunk_failure_is_fatal_witness : match send_signed with Ret ((false, abort), _) => abort = false | _ => False end.
Proof.
  assert (SOPC_UA_SYMMETRIC_SECURE_MESSAGE_HEADERS_LENGTH <= length_ refused_message) as L1 by (by vm_compute).
  assert (sendable (conn (client 100)) SOPC_MSG_TYPE_SC_MSG (length_ refused_message - 24) = true) as Sd by (by vm_compute).
  assert (length_ refused_message - 24 <= symmSecuMaxBodySize (conn (client 100))) as L2 by (by vm_compute).
  assert (0 < symmSecuMaxBodySize (conn (client 100))) as L3 by (by vm_compute).
  assert (match send_signed with Ret ((false, _), _) => True | _ => False end) as T by (by vm_compute).
  destruct send_signed as [[[[] abort] s']|] eqn:E; [destruct T| |destruct T]. unfold send_signed in E.
  exact (single_chunk_failure_is_fatal (H4 := demo_toolkit OpcUa_MessageSecurityMode_Sign) 1 5 SOPC_MSG_TYPE_SC_MSG refused_message (client 100) s' abort refused_message_inv L1 Sd L2 L3 E).
Defined.

Definition padded_config : SOPC_SecureChannel_Config := mkChannelConfig true NULL NULL NULL NULL NULL NULL 1000 OpcUa_MessageSecurityMode_SignAndEncrypt 0.
Definition padded_buffer : SOPC_Buffer := mkBuffer 100 100 100 26 26 (Some (replicate 100 x61)).

Lemma padding_roundtrip_witness :
  exists b' pad, SOPC_Chunks_EncodePadding padded_config (Some padded_buffer) true 16 (client 2) =
      Ret ((true, (Some b', 32, pad, SC_Chunks_Is_ExtraPaddingSizePresent 16)), client 2) /\
    (length_ b' - 16 + 32) mod 16 = 0 /\ 0 <= pad < 16 /\
    forall s2 rb p, currentChunkInputBuffer (chunksCtx (conn s2)) = Some rb -> shows rb (content b') p -> p <= zlen (replicate 26 x61) ->
      hasExtraPaddingSize (conn s2) = SC_Chunks_Is_ExtraPaddingSizePresent 16 ->
      exists rb', SOPC_Remove_Padding s2 = Ret (true, with_conn s2 (set_ctx (conn s2) (set_chunk (chunksCtx (conn s2)) (Some rb')))) /\ shows rb' (replicate 26 x61) p.
Proof.
  refine (padding_roundtrip demo_alloc padded_config true padded_buffer (replicate 26 x61) 16 (client 2) (mkCryptoSizes true true 32 16 16) eq_refl eq_refl _ _ _ _ _ _);
    try (by vm_compute).
  split; try (by vm_compute). split; try (by vm_compute); [by eexists|by left].
Defined.

End SendDemo.
