(* ===== verification/ChannelDemo.v ===== *)
(** * Two ends of a secure channel

    A client and a server with a concrete environment, without security: the events of one
    run on both, and the bytes that each one writes on its socket are given to the other
    one.  The theorems on the runs apply to the states that they reach. *)

From Stdlib Require Import ZArith Lia.
From Stdlib Require Import Strings.Byte Strings.String.
From stdpp Require Import prelude gmap.
From S2P Require Import Prelude Common LinkedList LinkedListSpec Buffer Codec EncScalar EncString EncNodeId EncText EncArray EncExtObj EncVariant EncVariantSpec.
From S2P Require Import EncStruct EncStructSpec Types TypesSpec Services Message Strings Arrays SecureConnection ToolkitConfig Chunks ChunksStream ChunksSend.
From S2P Require Import EncProps ChunksFrame SecureChannels SecureListener StateMgr StateMgrOpn StateMgrEvents StateMgrSpec StateMgrAutomaton StateMgrRuns Negotiation Connections ChunksDemo ChunksSendDemo.

Open Scope Z_scope.

Module ChannelDemo.
Import Demo SendDemo.

#[local] Existing Instance serving_allocator.
#[local] Existing Instance demo_host.
#[local] Existing Instance demo_cfg.
#[local] Existing Instance demo_endianness.
#[local] Existing Instance demo_detected.
#[local] Existing Instance demo_crypto.
#[local] Existing Instance demo_send_crypto.

(** The random numbers are the numbers of the calls, and the clock does not move. *)
#[local] Instance demo_environment : Environment := {|
  SecretBuffer_Bytes b := b;
  SecretBuffer_NewFromExposedBuffer b := Some b;
  KeySet_New _ _ _ := Some tt;
  DeriveGetLengths _ := (SOPC_STATUS_OK, (32, 32, 16));
  SymmetricGetLength_SecureChannelNonce _ := (SOPC_STATUS_OK, 32);
  DeriveKeySetsClient _ _ _ _ _ := (SOPC_STATUS_OK, (tt, tt));
  DeriveKeySetsServer _ _ _ _ _ := (SOPC_STATUS_OK, (tt, tt));
  SerializedAsymmetricKey_Deserialize _ _ := (SOPC_STATUS_OK, Some tt);
  GenerateSecureChannelNonce _ _ _ := (SOPC_STATUS_OK, Some (replicate 32 x00));
  GenerateRandomID n _ := (SOPC_STATUS_OK, Z.of_nat n + 10);
  EventTimer_Create n _ _ _ := Z.of_nat n + 1;
  Time_GetCurrentTimeUTC _ := 1000;
  TimeReference_GetCurrent _ := 2000
|}.

Definition demo_url : block := cstring "opc.tcp://host:4841".

Definition demo_policy : SOPC_SecurityPolicy :=
  mkSecurityPolicy (mkString (zlen SOPC_SecurityPolicy_None_URI - 1) true (Some SOPC_SecurityPolicy_None_URI)) SOPC_SECURITY_MODE_NONE_MASK [].

(** The configuration 1 of the client, and the endpoint 1 of the server. *)
Definition demo_config : tConfig :=
  mkTConfig true true
    (<[1%nat := Some (mkChannelConfig true (Some demo_url) NULL NULL NULL NULL (Some SOPC_SecurityPolicy_None_URI) 60000 OpcUa_MessageSecurityMode_None 0)]>
       (replicate 26 NULL))
    (replicate 26 NULL)
    (<[1%nat := Some (mkEndpointConfig (Some (mkServerConfig NULL NULL NULL)) (Some demo_url) false [demo_policy])]> (replicate 11 NULL)) 1 0 1 true true.

Definition demo_memory : @StructObject (Services 0) := mkStruct 0 FNil.

(** An event arrives, and the thread treats its queue. *)
Definition feed (ev : Event) (w : world) : res world :=
  let* (_, w) := post ev false w in
  let* (_, w) := looper_loop demo_memory 20 w in
  Ret w.

(** The bytes that were written on the socket, the first one first. *)
Definition written (w : world) : list SOPC_Buffer :=
  omap (fun o => match o with ToSockets SOCKET_WRITE _ (BufferParams (Some b)) _ => Some b | _ => None end) (reverse (outputs w)).

Definition bytes_of (b : SOPC_Buffer) : block := match data b with Some d => take (Z.to_nat (length_ b)) d | NULL => [] end.

(** The last chunk that was written, as it is received on the other side. *)
Definition last_chunk (w : world) : event_params :=
  match reverse (written w) with b :: _ => BufferParams (Some (demo_received (bytes_of b))) | [] => NoParams end.

Definition received (from : world) : Event := mkEvent (OnSocketsEvent SOCKET_RCV_BYTES) 1 (last_chunk from) 0.

(** The server opens its endpoint and accepts a connection on the socket 7. *)
Definition server_start : res world :=
  let* w := feed (mkEvent (OnInputEvent EP_OPEN) 1 NoParams 0) (initial_world demo_config) in
  let* w := feed (mkEvent (OnSocketsEvent SOCKET_LISTENER_OPENED) 1 NoParams 3) w in
  feed (mkEvent (OnSocketsEvent SOCKET_LISTENER_CONNECTION) 1 NoParams 7) w.

(** The client connects, on the socket 5. *)
Definition client_start : res world :=
  let* w := feed (mkEvent (OnInputEvent SC_CONNECT) 1 NoParams 0) (initial_world demo_config) in
  feed (mkEvent (OnSocketsEvent SOCKET_CONNECTION) 1 NoParams 5) w.

(** The messages HEL, ACK, OPN and its response. *)
Definition handshake : res (world * world) :=
  let* client := client_start in
  let* server := server_start in
  let* server := feed (received client) server in
  let* client := feed (received server) client in
  let* server := feed (received client) server in
  let* client := feed (received server) client in
  Ret (client, server).

Definition end_of (w : world) : option role := role_of <$> secureConnectionsArray w !! 1%nat.

Definition demo_roles : res (option role * option role) := let* (c, s) := handshake in Ret (end_of c, end_of s).

(** Both ends are connected, with the same identifiers. *)
Example handshake_connects :
  demo_roles = Ret (Some (mkRole SECURE_CONNECTION_STATE_SC_CONNECTED false 11 12), Some (mkRole SECURE_CONNECTION_STATE_SC_CONNECTED true 11 12)).
Proof. vm_compute. reflexivity. Qed.

(** The client sends a message, and then renews its token. *)
Definition after_handshake : res (world * world * world) :=
  let* (client, server) := handshake in
  let* client := feed (mkEvent (OnInputEvent SC_SERVICE_SND_MSG) 1 (BufferParams (Some (message [x61; x62; x63]))) 8) client in
  let* server := feed (received client) server in
  let* client := feed (mkEvent (OnTimerEvent TIMER_SC_CLIENT_OPN_RENEW) 1 NoParams 0) client in
  let* renewed := feed (received client) server in
  let* client := feed (received renewed) client in
  Ret (client, server, renewed).

Definition delivered (w : world) : list (Z * block * Z) :=
  omap (fun o => match o with ToServices SC_SERVICE_RCV_MSG i (BufferParams (Some b)) x => Some (i, upcoming b, x) | _ => None end) (outputs w).

Example message_and_renewal :
  (let* (client, server, renewed) := after_handshake in Ret (end_of client, delivered server, end_of renewed)) =
  Ret (Some (mkRole SECURE_CONNECTION_STATE_SC_CONNECTED false 11 16), [(1, [x61; x62; x63], 2)], Some (mkRole SECURE_CONNECTION_STATE_SC_CONNECTED true 11 16)).
Proof. vm_compute. reflexivity. Qed.

(** ** The theorems on these runs *)

#[local] Abbreviation reachable := (reachable demo_memory demo_config).

Lemma feed_reachable ev w w' : external (code ev) -> reachable w -> feed ev w = Ret w' -> reachable w'.
Proof.
  unfold feed. intros He R E. destruct (post ev false w) as [[status w1]|] eqn:E1; [|done]. cbn [rbind] in E.
  destruct (looper_loop demo_memory 20 w1) as [[[] w2]|] eqn:E2; [|done]. injection E as <-. eapply rtc_trans; [exact R|].
  eapply rtc_l; [by eapply step_arrival|]. by eapply loop_steps.
Qed.

(** The state at the start, with the request of a connection. *)
Definition asked : world := match post (mkEvent (OnInputEvent SC_CONNECT) 1 NoParams 0) false (initial_world demo_config) with Ret (_, w) => w | Fault _ => initial_world demo_config end.
Definition result_of {A} (r : res (A * world)) : world := match r with Ret (_, w) => w | Fault _ => asked end.

(** The evaluation of a run only gives that it returns: its states are not written out. *)
Definition returns {A} (r : res A) : bool := match r with Ret _ => true | Fault _ => false end.
Definition goes_on (r : res (bool * world)) : bool := match r with Ret (b, _) => b | Fault _ => false end.

Lemma result_posted (r : res (SOPC_ReturnStatus * world)) : returns r = true -> exists status, r = Ret (status, result_of r).
Proof. destruct r as [[status w]|]; [by exists status|done]. Qed.

Lemma result_turn (r : res (bool * world)) : goes_on r = true -> r = Ret (true, result_of r).
Proof. by destruct r as [[[] w]|]. Qed.

Lemma turn_refines_automaton_witness :
  exists ev q, queue asked = ev :: q /\ abstract_step (code ev) (view asked) (view (result_of (looper_turn demo_memory asked))) /\
    sized (result_of (looper_turn demo_memory asked)).
Proof.
  refine (turn_refines_automaton demo_memory asked (result_of (looper_turn demo_memory asked)) _ _).
  - split; vm_compute; [reflexivity|discriminate].
  - apply result_turn. vm_compute. reflexivity.
Defined.

(** The ends after the handshake. *)
Definition value_or {A} (d : A) (r : res A) : A := match r with Ret p => p | Fault _ => d end.
Definition ends : world * world := value_or (asked, asked) handshake.

Lemma value_returns {A} (d : A) (r : res A) : returns r = true -> r = Ret (value_or d r).
Proof. by destruct r. Qed.

(** A run of events from a state that is reached, and what follows. *)
Lemma feed_then {A} ev w (k : world -> res A) r : external (code ev) -> reachable w -> rbind (feed ev w) k = Ret r ->
  exists w', reachable w' /\ k w' = Ret r.
Proof. intros He R E. destruct (rbind_Ret_inv _ _ _ E) as (w' & Ef & Ek). exists w'. split; [exact (feed_reachable _ _ _ He R Ef)|exact Ek]. Qed.

#[local] Opaque feed.

Lemma client_reachable c : client_start = Ret c -> reachable c.
Proof.
  intros E. apply feed_then in E as (w & R & E); [|exact I|apply rtc_refl]. revert E. apply feed_reachable; [exact I|exact R].
Qed.

Lemma server_reachable s : server_start = Ret s -> reachable s.
Proof.
  intros E. apply feed_then in E as (w & R & E); [|exact I|apply rtc_refl]. apply feed_then in E as (w1 & R1 & E); [|exact I|exact R].
  revert E. apply feed_reachable; [exact I|exact R1].
Qed.

Lemma handshake_reachable c s : handshake = Ret (c, s) -> reachable c /\ reachable s.
Proof.
  intros E. destruct (rbind_Ret_inv _ _ _ E) as (c0 & Ec & E1). destruct (rbind_Ret_inv _ _ _ E1) as (s0 & Es & E2). clear E E1.
  apply client_reachable in Ec. apply server_reachable in Es. apply feed_then in E2 as (s1 & R1 & E); [|exact I|exact Es].
  apply feed_then in E as (c1 & R2 & E); [|exact I|exact Ec]. apply feed_then in E as (s2 & R3 & E); [|exact I|exact R1].
  apply feed_then in E as (c2 & R4 & E); [|exact I|exact R2]. injection E as <- <-. exact (conj R4 R3).
Qed.

#[local] Transparent feed.

Lemma ends_reachable : reachable ends.1 /\ reachable ends.2.
Proof. apply handshake_reachable. rewrite <-surjective_pairing. apply value_returns. vm_compute. reflexivity. Qed.

(** The entry 1 of the client. *)
Definition entry (w : world) : SOPC_SecureConnection := match secureConnectionsArray w !! 1%nat with Some c => c | None => zero_connection end.
Definition client_connection : SOPC_SecureConnection := entry ends.1.

Lemma entry_lookup w : (1 <? zlen (secureConnectionsArray w)) = true -> secureConnectionsArray w !! 1%nat = Some (entry w).
Proof.
  intros E. apply Z.ltb_lt in E. unfold zlen in E. destruct (lookup_lt_is_Some_2 (secureConnectionsArray w) 1) as [c Hc]; [lia|].
  unfold entry. by rewrite Hc.
Qed.

Lemma established_channels_have_identifiers_witness :
  is_connected client_connection = true /\
  secureChannelId (currentSecurityToken client_connection) <> 0 /\ tokenId (currentSecurityToken client_connection) <> 0.
Proof.
  split; [vm_compute; reflexivity|].
  refine (proj1 (established_channels_have_identifiers demo_memory demo_config ends.1 1 client_connection (proj1 ends_reachable) _) _).
  - apply entry_lookup. vm_compute. reflexivity.
  - vm_compute. reflexivity.
Defined.

(** A message arrives at the server: the first turn cuts the chunk, the second one delivers
    the message. *)
Definition sent : world :=
  value_or asked (feed (mkEvent (OnInputEvent SC_SERVICE_SND_MSG) 1 (BufferParams (Some (message [x61; x62; x63]))) 8) ends.1).
Definition arrived : world := result_of (post (received sent) false ends.2).
Definition cut : world := result_of (looper_turn demo_memory arrived).

Lemma cut_reachable : reachable cut.
Proof.
  eapply rtc_r; [eapply rtc_r; [exact (proj2 ends_reachable)|]|].
  - destruct (result_posted (post (received sent) false ends.2)) as [status E]; [vm_compute; reflexivity|].
    exact (step_arrival demo_memory ends.2 arrived (received sent) status I E).
  - apply step_turn. apply result_turn. vm_compute. reflexivity.
Qed.

Lemma delivery_needs_established_channel_witness :
  exists ev q c buffer x, queue cut = ev :: q /\ code ev = OnInternalEvent INT_SC_RCV_MSG_CHUNKS /\ params ev = BufferParams (Some buffer) /\
    secureConnectionsArray cut !! Z.to_nat (event_id ev) = Some c /\ is_connected c = true /\ identified (role_of c) /\
    secureConnectionsArray (result_of (looper_turn demo_memory cut)) = secureConnectionsArray cut /\
    outputs (result_of (looper_turn demo_memory cut)) = ToServices SC_SERVICE_RCV_MSG (event_id ev) (BufferParams (Some buffer)) x :: outputs cut.
Proof.
  refine (delivery_needs_established_channel demo_memory demo_config cut (result_of (looper_turn demo_memory cut)) cut_reachable _ _).
  - apply result_turn. vm_compute. reflexivity.
  - intros E. apply (f_equal List.length) in E. revert E. vm_compute. intros E. discriminate E.
Defined.

(** ** The negotiation *)

Definition client_opened : world := value_or asked (feed (mkEvent (OnInputEvent SC_CONNECT) 1 NoParams 0) (initial_world demo_config)).
Definition server_opened : world := value_or asked server_start.

Ltac in_range := vm_compute; try (match goal with |- _ /\ _ => split end); first [reflexivity|discriminate].

Lemma demo_url_is_url : is_url (list_byte_of_string "opc.tcp://host:4841").
Proof. split; [repeat constructor|]. in_range. Qed.

Lemma client_opened_ready : client_ready client_opened 1 (entry client_opened) (list_byte_of_string "opc.tcp://host:4841").
Proof.
  split.
  - apply array_get_Some; [lia|]. apply entry_lookup. vm_compute. reflexivity.
  - vm_compute. reflexivity.
  - vm_compute. reflexivity.
  - split; in_range.
  - eexists. split; [vm_compute; reflexivity|]. vm_compute. reflexivity.
  - apply demo_url_is_url.
Qed.

Lemma server_opened_ready : server_ready server_opened 1 (entry server_opened).
Proof.
  split.
  - apply array_get_Some; [lia|]. apply entry_lookup. vm_compute. reflexivity.
  - vm_compute. reflexivity.
  - vm_compute. reflexivity.
  - split; in_range.
  - eexists _, (list_byte_of_string "opc.tcp://host:4841"). split; [vm_compute; reflexivity|]. split; [vm_compute; reflexivity|apply demo_url_is_url].
Qed.

Lemma negotiation_agreement_witness :
  exists wc1 hello, SC_ClientTransition_TcpInit_To_TcpNegotiate 1 1 5 client_opened = Ret (true, wc1) /\
    queue wc1 = queue client_opened ++ [mkEvent (OnInternalEvent INT_SC_SND_HEL) 1 (BufferParams (Some hello)) 0].
Proof.
  assert (4 <= max_nested_struct demo_cfg) as H1 by in_range.
  assert (forall n, @alloc_ok serving_allocator n = true) as H2 by done.
  assert (SOPC_TCP_UA_MAX_URL_AND_REASON_LENGTH <= max_string_length demo_cfg) as H3 by in_range.
  destruct (negotiation_agreement H1 H2 H3 client_opened server_opened 1 1 (entry client_opened) (entry server_opened)
    (list_byte_of_string "opc.tcp://host:4841") 5 client_opened_ready server_opened_ready) as (wc1 & hello & E & Eq & _).
  exact (ex_intro _ wc1 (ex_intro _ hello (conj E Eq))).
Defined.

(** ** Entries and identifiers *)

Lemma new_connection_takes_free_entry_witness :
  exists i c w', SC_InitNewConnection (initial_world demo_config) = Ret ((true, i), w') /\ 1 <= i <= SOPC_MAX_SECURE_CONNECTIONS_PLUS_BUFFERED /\
    secureConnectionsArray w' = <[Z.to_nat i := opened c]> (secureConnectionsArray (initial_world demo_config)).
Proof.
  destruct (new_connection_takes_free_entry (initial_world demo_config)) as [(i & c & w' & E & Hi & _ & _ & Ea & _)|[Hn _]].
  - split; in_range.
  - reflexivity.
  - exact (ex_intro _ i (ex_intro _ c (ex_intro _ w' (conj E (conj Hi Ea))))).
  - exfalso. apply (Hn 1 zero_connection); [split; discriminate|reflexivity|reflexivity].
Defined.

(** A client with one pending request. *)
Definition pending_request : SOPC_SentRequestMsg_Context := mkSentRequest false 1 8 SOPC_MSG_TYPE_SC_MSG 3.
Definition pending_connection : SOPC_SecureConnection :=
  set_state (set_tcpSeqProperties zero_connection (mkSequence 1 1 (Some (mkSLinkedList (Some 1%positive) (Some 1%positive) 1 0)))) SECURE_CONNECTION_STATE_SC_CONNECTED.
Definition pending_world : world :=
  mkWorld (<[1%nat := pending_connection]> (replicate 26 zero_connection)) 1 (replicate 11 zero_listener) demo_config ∅
    {[1%positive := mkElt 5 (Some pending_request) NULL]} 0 0 [] [] [].

Lemma pending_list : Repr ∅ (request_heap pending_world) (mkSLinkedList (Some 1%positive) (Some 1%positive) 1 0) [(1%positive, (5, pending_request))].
Proof.
  split.
  - split; [reflexivity|]. exists NULL. split; reflexivity.
  - apply NoDup_singleton.
  - reflexivity.
  - reflexivity.
  - reflexivity.
  - intros a _. apply lookup_empty.
  - intros a Ha. cbn. rewrite lookup_singleton_ne, lookup_empty; [done|]. intros <-. apply Ha. apply list_elem_of_here.
Qed.

Lemma closing_settles_requests_witness :
  exists w', SC_CloseConnection 1 false pending_world = Ret (true, w') /\
    outputs w' = [ToSockets SOCKET_CLOSE 0 NoParams 1; ToServices SC_SND_FAILURE 1 (NumberParams 8) OpcUa_BadSecureChannelClosed; TimerCancelled 3].
Proof.
  destruct (closing_settles_requests pending_world 1 pending_connection (mkSLinkedList (Some 1%positive) (Some 1%positive) 1 0) ∅
    [(1%positive, (5, pending_request))] false) as (w' & E & _ & _ & _ & Eo & _).
  - split; discriminate.
  - reflexivity.
  - discriminate.
  - reflexivity.
  - apply pending_list.
  - exact I.
  - split; [reflexivity|]. cbn. repeat (constructor; [discriminate|]). constructor.
  - exact (ex_intro _ w' (conj E Eo)).
Defined.

Lemma identifiers_are_fresh_witness :
  exists r w', SC_Server_GenerateFreshSecureChannelAndTokenId (entry ends.2) ends.2 = Ret (r, w') /\ asked_only ends.2 w'.
Proof.
  destruct (identifiers_are_fresh ends.2 (entry ends.2) (default zero_listener (secureListenersArray ends.2 !! 1%nat))) as [(r & w' & E & Ha & _) _].
  - vm_compute. reflexivity.
  - vm_compute. reflexivity.
  - split; [vm_compute; reflexivity|vm_compute; reflexivity|]. apply (bool_decide_unpack _). vm_compute. exact I.
  - exact (ex_intro _ r (ex_intro _ w' (conj E Ha))).
Defined.

End ChannelDemo.
